(* ===== verification/_CoqProject ===== *)
-Q . S2P
Prelude.v
TcpAck.v
RxAmsdu.v
RxReorder.v
RxData.v
FrameQueue.v
RxBlock.v
CmdMgr.v
CmdTx.v
Txq.v
TxqInv.v
TxqServe.v
TxqOps.v
TxqRuns.v
Md5.v
Sdio.v
SdioAggr.v
SdioInv.v
SdioTx.v
SdioRuns.v
SdioPwr.v
SdioRx.v
SdioRxRuns.v
Radar.v
RadarSeq.v
RadarDet.v
RadarDev.v
RadarDfs.v
RadarCtl.v
RadarRuns.v
Conf.v
ConfParse.v
ConfRound.v
Nvram.v
NvramRuns.v
Power.v
PowerRuns.v
Bsp.v
BspBt.v
BspTab.v
BspWifi.v
BspLog.v
BspRuns.v
BspBoot.v
BspRound.v
BspDc.v
BspPower.v
BspPowerRuns.v
Regdb.v
Reg.v
RegRuns.v
State.v
Vif.v
VifOps.v
VifSta.v
VifRuns.v
VifBooks.v
VifTables.v
VifConn.v
VifFail.v
VifAp.v
VifStop.v
TxqNames.v
Xmit.v
XmitRuns.v
XmitSend.v
