(* ===== verification/Prelude.v ===== *)
(** * The AIC8800 SDIO WLAN drivers of the H713 board

    This library models the drivers under src/modules/aic8800 (aic8800_fdrv,
    the WLAN driver, and aic8800_bsp, the bus driver): the data path and the
    command path, the start and the power of the chip, interfaces and
    connections, the country setting, the configuration and radar detection, in
    the configuration their Makefiles select (SDIO, receive reordering, TCP ACK
    filter, radar detection, no bridge extension).  It proves what the modelled
    parts promise each other.

    ** The parts and how they interact

    Receive: the interrupt handler reads a block over SDIO into a frame queue;
    the receive thread splits each block into packets; a data packet goes
    through header parsing and reassembly of fragments, then, per station and
    TID, through the reorder window, possibly through A-MSDU deaggregation, to
    the network stack or back to the air.  Transmit: a station and a network
    queue are chosen for a frame; the TCP ACK filter holds back pure
    acknowledgements which a later one replaces; a frame gets a header and goes into
    the queue of its station and TID, the queues of a hardware queue are served
    within their credits, and the transmit thread joins frames into aggregates
    and writes them within the buffers the firmware reports.  Commands:
    cfg80211 callbacks send firmware messages through the command manager,
    which pushes one at a time and wakes the issuer when the confirmation
    arrives; the transmit thread writes them before the frames.  A power thread
    puts an idle chip to sleep.  Pulse reports of the firmware go through rings
    to the radar detectors, which end an availability check or a channel.  Before
    all that the bus driver switches the chip on for its first user, uploads the
    firmware with its patches and starts it; afterwards cfg80211 callbacks and
    indications of the firmware create interfaces, scan, connect, run access
    points and undo that, and set the country.

    - [Prelude]: machine integers, outcomes, byte buffers, record update,
      lists.  It models no code of the drivers.
    - [TcpAck] (aicwf_tcp_ack.c, .h; the hook of rwnx_start_xmit in rwnx_tx.c):
      the flow table is [tcp_ack_manage], one function per C function,
      what leaves the component is an event.
    - [RxAmsdu] (rwnx_rxdata_process_amsdu of rwnx_rx.c).
    - [RxReorder] (the reorder part of rwnx_rx.c, its structures in
      aicwf_txrxif.h): [aicwf_rx_priv] has the pool of frame descriptors, the
      stations and the 8 [reord_ctrl] of each.
    - [RxData] (rwnx_rxdataind_aicwf of rwnx_rx.c, rwnx_rx.h): header parsing,
      cipher headers, defragmentation, dispatch.
    - [FrameQueue] (aicwf_txrxif.c, and the copy in aicsdio_txrxif.c of the bus
      driver): the priority queue of socket buffers; [RxFifo] is the interface
      [RxBlock] uses it through, [frame_queue_fifo] its implementation.
    - [RxBlock] (aicwf_process_rxframes of aicwf_txrxif.c).
    - [CmdMgr] (rwnx_cmds.c, .h; the command array and rwnx_send_msg of
      rwnx_msg_tx.c): the manager, and the transition system [step] of its
      issuers, the work item and the firmware.
    - [CmdTx] (aicwf_set_cmd_tx of rwnx_cmds.c, crc8_ponl_107 of
      aicwf_sdio.c): the bytes of a command.
    - [Txq], [TxqInv], [TxqServe], [TxqOps], [TxqRuns] (rwnx_txq.c, .h; the
      power-save, push, retry, confirmation and credit functions of rwnx_tx.c):
      the queues, their invariant, serving a hardware queue, every operation as
      a step, and theorems on runs from the start of the driver.
    - [Md5] (md5.c, .h): the digest of the firmware images, and RFC 1321 as
      its reference.
    - [Sdio], [SdioAggr], [SdioInv], [SdioTx], [SdioRuns], [SdioPwr]
      (aicwf_sdio.c, .h, aicwf_txrxif.h): the transport's device [dev], the
      bytes of an aggregate, the invariant [txi] of transmission, the turn of
      the transmit thread, runs, and power control.  The kernel, the card and
      the other threads are a [world] indexed by a clock.
    - [SdioRx], [SdioRxRuns] (aicwf_sdio.c, aicwf_txrxif.c): the interrupt
      handler and the receive thread, interleaved step by step ([rstep]), on
      top of [FrameQueue] and [RxBlock].
    - [Radar] (rwnx_radar.c): radar tables, the pools of pulses and
      sequences, the detectors of one type and frequency; [RadarSeq] and
      [RadarDet]: bursts ([matched]) and what a detection means; [RadarDev]
      and [RadarDfs]: the detectors of a region; [RadarCtl] and [RadarRuns]
      (also rwnx_main.c, rwnx_msg_rx.c): pulse rings, channel contexts,
      the channel availability check, and their runs.
    - [Conf], [ConfParse], [ConfRound] (rwnx_platform.c, lmac_msg.h): the
      configuration in memory, the tables of keys and the three parsers of
      aic_userconfig_*.txt, the parsers line by line, and a printer.
    - [Nvram], [NvramRuns] (rwnx_platform.c): the configuration file of the
      AIC8801, stored member by member into a structure of 21 bytes.
    - [Power], [PowerRuns] (rwnx_platform.c, rwnx_msg_tx.c,
      aicwf_compat_8800d80.c): the messages that carry the configuration to the
      firmware, the order in which the D80 chips are configured, the maximum
      that is reported, and changes of the power at run time.
    - [TxqNames] (rwnx_txq.c): whose queue a queue is, through every operation
      of [Txq].
    - [Xmit], [XmitRuns], [XmitSend] (rwnx_tx.c: rwnx_select_txq,
      rwnx_start_xmit, intf_tx, rwnx_start_mgmt_xmit; the end of rwnx_tdls.c):
      the way of a frame through queue selection, ACK filter and header into
      its queue; runs that interleave [TcpAck] and [Txq]; one frame followed.
    - [Bsp] (aic_bsp_driver.c, .h): debug requests with time-outs, the upload of
      an image in blocks, patch tables and settings; [BspBt] (the Bluetooth
      table), [BspTab] (the tables of the DC chips), [BspWifi] (the WLAN patches
      and the start of each chip: aic8800*_compat.c, aic_bsp_main.c).  The
      answers of the chip and the firmware files are arguments, what is sent is
      a log.
    - [BspLog], [BspRuns], [BspBoot], [BspRound], [BspDc]: what the log of a
      start-up is: no start before the image, the sequence of a D80 chip, the
      patch table read back, an unknown AIC8800DC.
    - [BspPower], [BspPowerRuns] (aicsdio.c): regulator, SDIO registration and
      firmware start on behalf of two users, with every error path, and runs of
      their requests.
    - [Regdb] (regdb.c): the database of regulatory domains; [Reg], [RegRuns]
      (rwnx_mod_params.c, rwnx_main.c, aic_vendor.c): the search for a country,
      its channels as text, the module parameters and the vendor command.
    - [State]: the state monad of the next files with its proof rules.
    - [Vif], [VifOps], [VifSta] (rwnx_main.c, rwnx_msg_rx.c, rwnx_msg_tx.c,
      rwnx_defs.h): the driver's tables and the indications of the firmware;
      adding, opening, changing, closing interfaces and the P2P device; scans,
      keys, connections, access points and stations.  The firmware answers as an
      argument says, indications may come while a call waits.
    - [VifRuns], [VifBooks], [VifTables], [VifConn], [VifFail], [VifAp],
      [VifStop]: runs of these operations, the bookkeeping of indices and
      counters, what the end of a connection leaves, what a refused request
      leaves, and the end of an access point.

    Inside a file the functions keep the names of the sources; a part of a
    function that is a definition of its own ([newer_ack], [queue_enter],
    [split_block], ...) is composed by the function's definition.  A lock is
    the atomicity of a step, except in [CmdMgr], where an unbalanced release is
    possible and the lock is state.  Memory the code does not own, NULL and
    unbalanced locks are the outcome [Fault]; where the code reads a word behind
    an array ([Reg]) or a buffer it has freed ([RxData]) and goes on, what it
    reads is an argument, and that the access traps is one of its values; calls that leave a component
    (kernel, bus, network stack) are events or argument functions, allocation
    failures an oracle argument.  kstrtol is a parameter of [Nvram].

    ** What the theorems show

    - Specifications: the reorder buffer refines a reference machine that
      hands frames up in sequence order and never twice
      ([reorder_in_order]); the frame queue refines a bounded priority list
      ([frame_queue_refines]); a pulse ring refines the list of its latest
      pulses ([detect_ind_queues]); the streaming digest is RFC 1321
      ([md5_streaming_is_rfc1321]); the filter's handling of a new ACK is given
      on every branch ([tcp_ack_handle_new_spec]); the three parsers of the
      configuration give what the lines of the file say
      ([userconfig_parsed_by_lines]), and a D80 chip gets the levels of the
      file less the loss ([d80_configured_by_file]); the start-up of a D80 chip
      is its reference sequence ([d80_boot_refines]); a frame does to the queues
      what transmitting on its station's queue does ([long_frame_queued]); a
      country gets the domain of its name, and a text of its channels as far as there
      is room ([country_lookup]), and the domains
      are well formed ([regdb_wf]).
    - Order and conservation: commands ([commands_in_order]), the frames of a
      queue ([txq_fifo]), frames on the bus up to those of writes that fail
      ([sdio_frames_in_order]), received blocks ([rx_blocks_in_order]) keep
      their order; every message given to the ACK filter is transmitted,
      dropped or held ([messages_accounted]), and every socket buffer of the
      transmit path is freed, queued, held, gone or among the short ones
      ([frames_accounted]); every availability check started
      is reported once ([cac_accounting]); indices of interfaces and the counts
      of open ones agree ([interfaces_accounted]); the chip has power exactly
      for its users ([power_follows_users]).
    - Bounds: an aggregate stays inside its buffer ([sdio_buffers_in_bounds]),
      the writes within the firmware's buffers ([sdio_credits_kept]), a stopped
      queue within its service period ([txq_stopped_sends_its_period]); no
      operation on the transmit queues faults ([txq_run_never_faults]).
    - Progress: a held ACK is sent when its timer runs out
      ([held_ack_not_stranded]), a gap in the sequence does not stop a window
      ([gap_timeout_progress]), a queued command is pushed in its turn
      ([no_command_stranded]), a turn of the transmit thread ends
      ([sdio_turn_ends]), reception drains ([rx_drains]), a listed queue is
      served ([txq_tasklet_serves]), an idle chip is put to sleep
      ([sdio_idle_sleeps]), a burst is detected ([dfs_detects_burst]), stopping
      an access point ends without stations unless one is left on a VLAN that is
      gone ([stop_ap_terminates]).
    - Soundness: what the short-pattern detector reports is a burst
      ([short_detection_sound]); nothing is written to a chip asked to sleep
      ([sdio_no_write_asleep]); no firmware is started before its image is
      written ([started_after_image]); the end of a connection releases
      everything it held ([disconnect_releases]).
    - Round trips against encoders written from the frame formats:
      [parse_mpdu_roundtrip], [process_amsdu_roundtrip],
      [split_block_roundtrip], [sdio_aggregate_roundtrip],
      [userconfig_roundtrip], [nvram_file_in_order], [patch_table_roundtrip]; a
      fragmented frame is put together again ([defrag_reassembles]), and so is a
      frame from its queue entry ([frame_kept]).
    - Errors: for each defect met while modelling a theorem exhibits it on the
      model ([opt_walk_eol_overrun], [descriptor_leak], [tid_out_of_range],
      [defrag_overflow], [orphan_fragment_handed_up],
      [unpadded_block_never_ends], [forced_drain_faults],
      [sdio_writes_to_sleeping_chip], [lost_allocation_stalls_reception],
      [refused_cac_faults], [idle_status_reports_no_radar],
      [loss_unlocks_missing_rates], [nvram_line_overruns_its_member],
      [power_on_only_once], [custchan_overflows], [refused_connect_blocks],
      [failed_scan_blocks], [background_sent_as_best_effort], ...).

    ** Fuel and bounds

    Loops that are not structural take fuel and end with [NoFuel] without it.
    The TCP option walk gets the bytes of the buffer plus one, enough by
    [TcpAck.opt_walk_total]; the block splitter and the receive thread are
    proved to give their result for every fuel of at least the number of
    packets and blocks, and to need more than any fuel on an unpadded block;
    the A-MSDU loop is bounded by the allocations that succeed, the reorder
    loops run over the pending list.  The loop of the transmit thread has
    enough fuel by [tx_loop_ends], a proof over the clock of the world; a turn
    of a thread that waits for the end of a suspension is [NoFuel].  The fuel
    of the handler's retry loop is the number of failing register reads.

    The loop over the file of the AIC8801 gets its size plus two
    ([NvramRuns.file_loop_spec]).  The wait for the chip's start gets the number
    of register reads, the loops over blocks and patch entries the length of what
    they run over, the search for a country the size of the database plus one, the
    removal of all stations their number plus one (enough by [stop_ap_terminates]).

    The reorder theorems hold for sequence numbers of 12 bits with frames less
    than half the number space apart, the ACK theorems for all 32-bit numbers;
    frame queue priorities are the eight of the sources.  An aggregate stays in
    its buffer when the configured frames of an aggregate, each of at most M
    bytes, satisfy count * (M + 35) + 4 <= 98304.  In [CmdMgr] the theorems on
    reachable states are about runs without time-outs in which a confirmation
    is for the pushed command or for none; the time-out and drain paths have
    theorems of their own.  [rstep] of [SdioRx] is [strict] where no
    allocation of the receive thread fails.  Times of [Radar] are 64-bit
    and wrap; the theorems on detections are about times whose sums do not.

    ** What is not modelled

    The registration with cfg80211, netdevice and MMC (probe, remove, the
    capabilities announced); statistics, power-save settings, the channel switch
    of an access point, the building of beacons, TDLS frames and mesh paths; the
    functions that only copy fields into firmware messages (rwnx_msg_tx.c,
    rwnx_msg_rx.c); private and vendor test commands; reading files from the file
    system; debugfs and tracing; the WLAN driver's own copy of the firmware
    upload, which runs only for chips the bus driver does not know, and the older
    copies of transport and command manager in the bus driver; the Bluetooth
    module (lpm.c is not built, the rest is rfkill and GPIO glue); the glue of
    aicsdio.c for other platforms; the user-space tools; the monitor-mode branch
    of the receive path and the raw frames of monitor mode; the host descriptor
    table.  Not built in this configuration, and so left out: the USB and PCI back
    ends, the power limits by country, rwnx_cfgfile.c (its call is compiled out),
    A-MSDU transmission and MU-MIMO groups, the DPD calibration files, the ADMA,
    out-of-band interrupt, preallocation and temperature variants of the
    transport. *)

From Stdlib Require Import String Ascii.
From stdpp Require Import prelude.
Open Scope Z_scope.

(** ** Machine integers

    The kernel types of the sources as [Z] at their width: [uN x] is the
    conversion (or store) to an unsigned [N]-bit type, [sN x] to a signed
    one (two's complement, as every supported compiler implements it). *)

Definition u8 (x : Z) : Z := x mod 2 ^ 8.
Definition u16 (x : Z) : Z := x mod 2 ^ 16.
Definition u32 (x : Z) : Z := x mod 2 ^ 32.
Definition u64 (x : Z) : Z := x mod 2 ^ 64.
Definition s8 (x : Z) : Z := (x + 128) mod 256 - 128.
Definition s32 (x : Z) : Z := (x + 2 ^ 31) mod 2 ^ 32 - 2 ^ 31.
Definition s64 (x : Z) : Z := (x + 2 ^ 63) mod 2 ^ 64 - 2 ^ 63.

Lemma u8_range x : 0 <= u8 x < 2 ^ 8.
Proof. apply Z.mod_pos_bound; lia. Qed.
Lemma u16_range x : 0 <= u16 x < 2 ^ 16.
Proof. apply Z.mod_pos_bound; lia. Qed.
Lemma u32_range x : 0 <= u32 x < 2 ^ 32.
Proof. apply Z.mod_pos_bound; lia. Qed.
Lemma s8_range x : - 128 <= s8 x < 128.
Proof. unfold s8. pose proof (Z.mod_pos_bound (x + 128) 256). lia. Qed.
Lemma s32_range x : - 2 ^ 31 <= s32 x < 2 ^ 31.
Proof. unfold s32. pose proof (Z.mod_pos_bound (x + 2 ^ 31) (2 ^ 32)). lia. Qed.

Lemma u8_id x : 0 <= x < 2 ^ 8 -> u8 x = x.
Proof. intros. by apply Z.mod_small. Qed.
Lemma u16_id x : 0 <= x < 2 ^ 16 -> u16 x = x.
Proof. intros. by apply Z.mod_small. Qed.
Lemma u32_id x : 0 <= x < 2 ^ 32 -> u32 x = x.
Proof. intros. by apply Z.mod_small. Qed.
Lemma u64_id x : 0 <= x < 2 ^ 64 -> u64 x = x.
Proof. intros. by apply Z.mod_small. Qed.
Lemma s8_id x : - 128 <= x < 128 -> s8 x = x.
Proof. intros. unfold s8. rewrite Z.mod_small; lia. Qed.
Lemma s32_id x : - 2 ^ 31 <= x < 2 ^ 31 -> s32 x = x.
Proof. intros. unfold s32. rewrite Z.mod_small; lia. Qed.

(** [time_after(a, b)] of linux/jiffies.h on 64-bit jiffies. *)
Definition time_after (a b : Z) : bool := s64 (b - a) <? 0.

Lemma time_after_spec a b :
  0 <= a < 2 ^ 63 -> 0 <= b < 2 ^ 63 -> time_after a b = true <-> b < a.
Proof.
  intros Ha Hb. unfold time_after, s64. rewrite Z.ltb_lt.
  destruct (Z.le_gt_cases 0 (b - a)).
  - rewrite Z.mod_small; lia.
  - rewrite Z.mod_small; lia.
Qed.

(** ** Outcomes

    [Ok a]: the code runs to its end with [a].  [Fault]: it accesses memory
    outside the object it was given (or dereferences NULL), which C leaves
    undefined.  [NoFuel]: a loop of the model ran out of its fuel; every
    function that uses fuel comes with a theorem that excludes this outcome,
    or with one that shows that no amount of fuel is enough. *)

Inductive res (A : Type) : Type :=
| Ok (a : A)
| Fault
| NoFuel.
Arguments Ok {A} a.
Arguments Fault {A}.
Arguments NoFuel {A}.

#[global] Instance res_ret : MRet res := fun A a => Ok a.
#[global] Instance res_bind : MBind res := fun A B f m =>
  match m with Ok a => f a | Fault => Fault | NoFuel => NoFuel end.

Definition res_ok {A} (m : res A) : Prop := exists a, m = Ok a.

Lemma bind_Ok {A B} (m : res A) (f : A -> res B) b :
  m ≫= f = Ok b -> exists a, m = Ok a /\ f a = Ok b.
Proof. destruct m; simpl; [eauto | discriminate | discriminate]. Qed.

(** ** Byte buffers *)

(** The byte at [ptr + i], a [Fault] outside the buffer. *)
Definition rd (buf : list Z) (i : Z) : res Z :=
  if i <? 0 then Fault
  else match buf !! Z.to_nat i with Some b => Ok b | None => Fault end.

(** Little-endian loads (plain loads of the target) and big-endian ones
    ([ntohs], [ntohl] of a load). *)
Definition rd_le16 (buf : list Z) (i : Z) : res Z :=
  a ← rd buf i; b ← rd buf (i + 1); Ok (a + 2 ^ 8 * b).
Definition rd_be16 (buf : list Z) (i : Z) : res Z :=
  a ← rd buf i; b ← rd buf (i + 1); Ok (2 ^ 8 * a + b).
Definition rd_le32 (buf : list Z) (i : Z) : res Z :=
  a ← rd_le16 buf i; b ← rd_le16 buf (i + 2); Ok (a + 2 ^ 16 * b).
Definition rd_be32 (buf : list Z) (i : Z) : res Z :=
  a ← rd_be16 buf i; b ← rd_be16 buf (i + 2); Ok (2 ^ 16 * a + b).

Definition is_byte (b : Z) : Prop := 0 <= b < 256.
Definition is_bytes (buf : list Z) : Prop := Forall is_byte buf.

Lemma rd_Ok buf i b :
  rd buf i = Ok b <-> 0 <= i /\ buf !! Z.to_nat i = Some b.
Proof.
  unfold rd. destruct (Z.ltb_spec i 0); [split; [discriminate | lia] |].
  destruct (buf !! Z.to_nat i); naive_solver lia.
Qed.

Lemma rd_in_range buf i :
  0 <= i < Z.of_nat (length buf) -> exists b, rd buf i = Ok b.
Proof.
  intros Hi. destruct (lookup_lt_is_Some_2 buf (Z.to_nat i)) as [b Hb]; [lia |].
  exists b. apply rd_Ok. split; [lia | done].
Qed.

Lemma rd_beyond buf i : Z.of_nat (length buf) <= i -> rd buf i = Fault.
Proof.
  intros Hi. unfold rd. destruct (Z.ltb_spec i 0); [done |].
  rewrite lookup_ge_None_2; [done | lia].
Qed.

Lemma rd_app_r pre l i :
  0 <= i -> rd (pre ++ l) (Z.of_nat (length pre) + i) = rd l i.
Proof.
  intros Hi. unfold rd. destruct (Z.ltb_spec (Z.of_nat (length pre) + i) 0); [lia |].
  destruct (Z.ltb_spec i 0); [lia |].
  rewrite lookup_app_r by lia. by replace (Z.to_nat _ - _)%nat with (Z.to_nat i) by lia.
Qed.

Lemma rd_drop n l i : 0 <= i -> rd (drop n l) i = rd l (Z.of_nat n + i).
Proof.
  intros Hi. unfold rd. destruct (Z.ltb_spec i 0); [lia |].
  destruct (Z.ltb_spec (Z.of_nat n + i) 0); [lia |]. rewrite lookup_drop.
  by replace (Z.to_nat (Z.of_nat n + i)) with (n + Z.to_nat i)%nat by lia.
Qed.

Lemma rd_app_at pre x l i : i = Z.of_nat (length pre) -> rd (pre ++ x :: l) i = Ok x.
Proof. intros ->. rewrite <- (Z.add_0_r (Z.of_nat _)), rd_app_r by lia. done. Qed.

Lemma rd_app_at1 pre x y l i : i = Z.of_nat (length pre) + 1 -> rd (pre ++ x :: y :: l) i = Ok y.
Proof. intros ->. by rewrite rd_app_r by lia. Qed.

Lemma rd_app_at2 pre x y z l i :
  i = Z.of_nat (length pre) + 2 -> rd (pre ++ x :: y :: z :: l) i = Ok z.
Proof. intros ->. by rewrite rd_app_r by lia. Qed.

Lemma rd_be16_at pre a b l i :
  i = Z.of_nat (length pre) -> rd_be16 (pre ++ a :: b :: l) i = Ok (2 ^ 8 * a + b).
Proof.
  intros Hi. unfold rd_be16. rewrite (rd_app_at _ _ _ i) by done. cbn [mbind res_bind].
  rewrite (rd_app_at1 _ _ _ _ (i + 1)) by lia. done.
Qed.

Lemma rd_le16_at pre a b l i :
  i = Z.of_nat (length pre) -> rd_le16 (pre ++ a :: b :: l) i = Ok (a + 2 ^ 8 * b).
Proof.
  intros Hi. unfold rd_le16. rewrite (rd_app_at _ _ _ i) by done. cbn [mbind res_bind].
  rewrite (rd_app_at1 _ _ _ _ (i + 1)) by lia. done.
Qed.

Lemma rd_no_fuel buf i : rd buf i <> NoFuel.
Proof. unfold rd. repeat case_match; discriminate. Qed.

Lemma rd_byte buf i b : is_bytes buf -> rd buf i = Ok b -> is_byte b.
Proof.
  intros Hb [_ Hl]%rd_Ok. unfold is_bytes in Hb. rewrite Forall_lookup in Hb. eauto.
Qed.

(** [memcpy(&buf[i], src, n)], a [Fault] beyond the end of the buffer. *)
Definition splice {A} (buf : list A) (i : nat) (src : list A) : res (list A) :=
  if (i + length src <=? length buf)%nat then Ok (take i buf ++ src ++ drop (i + length src) buf) else Fault.

Lemma splice_app {A} (pre old post src : list A) :
  length src = length old -> splice (pre ++ old ++ post) (length pre) src = Ok (pre ++ src ++ post).
Proof.
  intros Hl. unfold splice. rewrite !length_app, (proj2 (Nat.leb_le _ _)) by lia.
  rewrite take_app_length, Hl, (app_assoc pre old post), drop_app_length' by (rewrite length_app; lia). done.
Qed.

Lemma splice_length {A} (buf : list A) i src b : splice buf i src = Ok b -> length b = length buf.
Proof.
  unfold splice. destruct (Nat.leb_spec (i + length src) (length buf)); [|done]. intros [= <-].
  rewrite !length_app, length_take, length_drop. lia.
Qed.

(** ** Text

    Text is a list of bytes, a C string the bytes before the zero. *)

Definition text (s : string) : list Z := (fun a => Z.of_nat (nat_of_ascii a)) <$> list_ascii_of_string s.

(** What [sprintf] prints for "%d". *)
Fixpoint digits (fuel : nat) (n : Z) : list Z :=
  match fuel with
  | O => []
  | S fuel => if n <? 10 then [48 + n] else digits fuel (n / 10) ++ [48 + n mod 10]
  end.

Definition dec (v : Z) : list Z := if v <? 0 then 45 :: digits 10 (- v) else digits 10 v.

(** ** Bits *)

Lemma land_lxor_distr x y z : Z.land (Z.lxor x y) z = Z.lxor (Z.land x z) (Z.land y z).
Proof.
  apply Z.bits_inj'. intros n Hn. rewrite !Z.land_spec, !Z.lxor_spec, !Z.land_spec.
  by destruct (Z.testbit x n), (Z.testbit y n), (Z.testbit z n).
Qed.

Lemma byte_land x : is_byte x <-> Z.land x 255 = x.
Proof.
  unfold is_byte. change 255 with (Z.ones 8). rewrite Z.land_ones by lia. split.
  - intros. by apply Z.mod_small.
  - intros <-. apply Z.mod_pos_bound. lia.
Qed.

Lemma lxor_byte x y : is_byte x -> is_byte y -> is_byte (Z.lxor x y).
Proof. rewrite !byte_land. intros Hx Hy. by rewrite land_lxor_distr, Hx, Hy. Qed.

Lemma u8_land x : u8 x = Z.land x 255.
Proof. change 255 with (Z.ones 8). by rewrite Z.land_ones. Qed.

Lemma u8_byte x : is_byte (u8 x).
Proof. apply u8_range. Qed.

(** A mask of one bit. *)
Lemma mask_bit x k : 0 <= k -> (Z.land x (2 ^ k) =? 0) = negb (Z.testbit x k).
Proof.
  intros Hk. destruct (Z.testbit x k) eqn:E; cbn.
  - apply Z.eqb_neq. intros H. apply (f_equal (fun z => Z.testbit z k)) in H.
    by rewrite Z.land_spec, E, Z.pow2_bits_true, Z.bits_0 in H.
  - apply Z.eqb_eq. apply Z.bits_inj'. intros n Hn. rewrite Z.land_spec, Z.bits_0.
    destruct (decide (n = k)) as [-> |]; [by rewrite E | by rewrite Z.pow2_bits_false, andb_false_r].
Qed.

(** Masks that do not meet. *)
Lemma land_disjoint r m n : Z.land r m = 0 -> Z.testbit r n && Z.testbit m n = false.
Proof. intros H. by rewrite <- Z.land_spec, H, Z.bits_0. Qed.

Lemma lor_land_disjoint a r m : Z.land r m = 0 -> Z.land (Z.lor a r) m = Z.land a m.
Proof. intros H. by rewrite Z.land_lor_distr_l, H, Z.lor_0_r. Qed.

Lemma ldiff_land_disjoint a r m : Z.land r m = 0 -> Z.land (Z.ldiff a r) m = Z.land a m.
Proof.
  intros H. apply Z.bits_inj'. intros n Hn. rewrite !Z.land_spec, Z.ldiff_spec by done.
  pose proof (land_disjoint r m n H). destruct (Z.testbit a n), (Z.testbit r n), (Z.testbit m n); done.
Qed.

Lemma ldiff_land_sub a r m : Z.land a m = 0 -> Z.land (Z.ldiff a r) m = 0.
Proof.
  intros H. apply Z.bits_inj'. intros n Hn. rewrite Z.land_spec, Z.ldiff_spec, Z.bits_0 by done.
  pose proof (land_disjoint a m n H). destruct (Z.testbit a n), (Z.testbit r n), (Z.testbit m n); done.
Qed.

Lemma lor_byte x y : is_byte x -> is_byte y -> is_byte (Z.lor x y).
Proof. rewrite !byte_land. intros Hx Hy. by rewrite Z.land_lor_distr_l, Hx, Hy. Qed.

Lemma ldiff_byte x y : is_byte x -> is_byte (Z.ldiff x y).
Proof.
  rewrite !byte_land. intros Hx. apply Z.bits_inj'. intros n Hn. rewrite Z.land_spec, !Z.ldiff_spec by done.
  rewrite <- Hx, Z.land_spec. by destruct (Z.testbit x n), (Z.testbit y n), (Z.testbit 255 n).
Qed.

Lemma u8_byte_id x : is_byte x -> u8 x = x.
Proof. intros H. by apply u8_id. Qed.

(** ** Record update *)

(** [r <| f := v |>] is [r] with field [f] set to [v], [r <| f ::= g |>]
    applies [g] to it.  Each record declares its [Settable] instance: the
    constructor applied to all its projections. *)

Class Settable (R : Type) := eta : R -> R.
Class Setter {R E : Type} (getter : R -> E) := upd : (E -> E) -> R -> R.
Arguments upd {R E} getter {_} _ _ /.

Ltac build_setter :=
  lazymatch goal with
  | |- @Setter ?R ?E ?getter =>
      let inst := constr:(_ : Settable R) in
      let h := lazymatch inst with ?h => eval red in h end in
      lazymatch eval pattern getter in h with
      | ?k _ => let k' := eval cbv beta in (fun (g : E -> E) => k (fun r => g (getter r))) in exact k'
      end
  end.
#[export] Hint Extern 1 (Setter _) => build_setter : typeclass_instances.

Declare Scope record_scope.
Open Scope record_scope.
Notation "r <| f ::= g |>" := (upd f g r)
  (at level 1, left associativity, f at next level, g at level 99) : record_scope.
Notation "r <| f := v |>" := (upd f (fun _ => v) r)
  (at level 1, left associativity, f at next level, v at level 99) : record_scope.

(** ** Automation *)

Create HintDb drv.
#[export] Hint Resolve u8_range u16_range u32_range s32_range rd_no_fuel : drv.

(** Case analysis on the boolean comparisons of the goal and hypotheses. *)
Ltac bool_cases :=
  repeat match goal with
  | |- context [?a <? ?b] => destruct (Z.ltb_spec a b)
  | |- context [?a <=? ?b] => destruct (Z.leb_spec a b)
  | |- context [?a =? ?b] => destruct (Z.eqb_spec a b)
  | H : context [?a <? ?b] |- _ => destruct (Z.ltb_spec a b)
  | H : context [?a <=? ?b] |- _ => destruct (Z.leb_spec a b)
  | H : context [?a =? ?b] |- _ => destruct (Z.eqb_spec a b)
  end; cbn [andb orb negb] in *.

(** ** Lists *)

(** The index of the first element that satisfies [f]. *)
Fixpoint find_idx {A} (f : A -> bool) (l : list A) : option nat :=
  match l with
  | [] => None
  | x :: l' => if f x then Some O else option_map S (find_idx f l')
  end.

Lemma find_idx_Some {A} (f : A -> bool) l i :
  find_idx f l = Some i ->
  exists x, l !! i = Some x /\ f x = true /\
    (forall j y, (j < i)%nat -> l !! j = Some y -> f y = false).
Proof.
  revert i. induction l as [|x l IH]; intros i; simpl; [discriminate |].
  destruct (f x) eqn:Hx.
  - intros [= <-]. exists x. repeat split; [done |]. intros j y Hj. lia.
  - destruct (find_idx f l) as [k|]; [|discriminate]. intros [= <-].
    destruct (IH k eq_refl) as (y & Hy & Hfy & Hlt). exists y.
    repeat split; [done | done |]. intros [|j] z Hj Hz; simpl in *; [congruence |].
    apply (Hlt j); [lia | done].
Qed.

Lemma find_idx_None {A} (f : A -> bool) l :
  find_idx f l = None <-> Forall (fun x => f x = false) l.
Proof.
  induction l as [|x l IH]; simpl; [by split |].
  rewrite Forall_cons, <- IH. destruct (f x), (find_idx f l); naive_solver.
Qed.

(** The number of elements that satisfy [f]. *)
Fixpoint countb {A} (f : A -> bool) (l : list A) : Z :=
  match l with
  | [] => 0
  | x :: l' => (if f x then 1 else 0) + countb f l'
  end.

Lemma countb_range {A} (f : A -> bool) l : 0 <= countb f l <= Z.of_nat (length l).
Proof. induction l as [|x l IH]; simpl; [lia |]. destruct (f x); lia. Qed.

Lemma countb_insert {A} (f : A -> bool) l i x y :
  l !! i = Some x ->
  countb f (<[i := y]> l) =
    countb f l - (if f x then 1 else 0) + (if f y then 1 else 0).
Proof.
  revert i. induction l as [|z l IH]; intros [|i] Hi; simplify_eq/=; [lia |].
  rewrite (IH i Hi). lia.
Qed.

Lemma countb_full {A} (f : A -> bool) l :
  countb f l = Z.of_nat (length l) <-> Forall (fun x => f x = true) l.
Proof.
  induction l as [|x l IH]; simpl; [by split |].
  pose proof (countb_range f l). rewrite Forall_cons, <- IH.
  destruct (f x); split; intros; [split; [done | lia] | lia | lia | naive_solver].
Qed.

(** What one slot contributes to the concatenation over all slots can be
    split off, whatever the slot is replaced with. *)
Lemma bind_insert_split {A B} (f : A -> list B) (l : list A) i x :
  l !! i = Some x ->
  exists rest, (l ≫= f) ≡ₚ f x ++ rest /\
    forall y, (<[i := y]> l ≫= f) ≡ₚ f y ++ rest.
Proof.
  intros Hi. exists ((take i l ≫= f) ++ (drop (S i) l ≫= f)). split.
  - rewrite <- (take_drop_middle l i x Hi) at 1. rewrite bind_app. cbn [mbind list_bind].
    rewrite !(Permutation_app_comm (f x)), app_assoc. apply Permutation_app; [|done].
    by rewrite Permutation_app_comm.
  - intros y. rewrite insert_take_drop by (by eapply lookup_lt_Some).
    rewrite bind_app. cbn [mbind list_bind]. rewrite !app_assoc.
    apply Permutation_app; [|done]. by rewrite Permutation_app_comm.
Qed.

Lemma bind_insert_same {A B} (f : A -> list B) (l : list A) i x y :
  l !! i = Some x -> f y = f x -> (<[i := y]> l ≫= f) = l ≫= f.
Proof.
  intros Hi Hf. rewrite <- (take_drop_middle l i x Hi) at 2.
  rewrite insert_take_drop by (by eapply lookup_lt_Some).
  rewrite !bind_app. cbn [mbind list_bind]. by rewrite Hf.
Qed.

Lemma bind_fmap_same {A B} (f : A -> list B) (g : A -> A) (l : list A) :
  (forall x, f (g x) = f x) -> (g <$> l) ≫= f = l ≫= f.
Proof. intros Hg. induction l as [|x l IH]; [done |]. cbn in *. by rewrite Hg, IH. Qed.

(** [fmap] of an update that [f] does not see. *)
Lemma fmap_insert_same {A B} (f : A -> B) (l : list A) i x y :
  l !! i = Some x -> f y = f x -> f <$> <[i := y]> l = f <$> l.
Proof.
  intros Hi Hf. rewrite list_fmap_insert, Hf. apply list_insert_id.
  by rewrite list_lookup_fmap, Hi.
Qed.

Lemma fmap_fmap_same {A B} (f : A -> B) (g : A -> A) (l : list A) :
  (forall x, f (g x) = f x) -> f <$> (g <$> l) = f <$> l.
Proof. intros Hg. rewrite <- list_fmap_compose. apply list_fmap_ext. intros. apply Hg. Qed.

Lemma alter_insert {A} (f : A -> A) (l : list A) i x :
  l !! i = Some x -> alter f i l = <[i := f x]> l.
Proof.
  intros Hi. apply list_eq. intros j. destruct (decide (i = j)) as [<- |].
  - rewrite list_lookup_alter_eq, list_lookup_insert_eq, Hi; [done |].
    by eapply lookup_lt_Some.
  - by rewrite list_lookup_alter_ne, list_lookup_insert_ne.
Qed.

Lemma filter_all {A} (Q : A -> Prop) `{!forall x, Decision (Q x)} (l : list A) :
  Forall Q l -> filter Q l = l.
Proof. induction 1; [done |]. rewrite filter_cons_True; by f_equal. Qed.

Lemma filter_none {A} (Q : A -> Prop) `{!forall x, Decision (Q x)} (l : list A) :
  Forall (fun x => ~ Q x) l -> filter Q l = [].
Proof. induction 1; [done |]. by rewrite filter_cons_False. Qed.

Lemma Forall_filter {A} (Q R : A -> Prop) `{!forall x, Decision (R x)} (l : list A) :
  Forall Q l -> Forall Q (filter R l).
Proof.
  rewrite !Forall_forall. intros HQ x [_ Hx]%list_elem_of_filter. auto.
Qed.
#[export] Hint Resolve Forall_filter : drv.
