(* ===== verification/TcpAck.v ===== *)
(** * TCP ACK filtering (aicwf_tcp_ack.h, aicwf_tcp_ack.c)

    The transmit path of the driver suppresses pure TCP acknowledgements that
    a later one of the same flow supersedes.  The manager keeps [TCP_ACK_NUM]
    slots, one per tracked flow; each slot remembers the newest acknowledged
    sequence number, at most one held message, and a 5 ms timer that sends
    the held message when no newer one replaces it.

    [tcp_ack_manage] and [tcp_ack_info] are the records of the header, a
    message buffer is its identity ([msgid]), NULL is [None], and the calls
    that leave the component ([intf_tx], [intf_tcp_drop_msg]) are events.
    The locks guard each operation, so an operation is one step.  The packet
    parsers run on the bytes of the frame; an access outside is [Fault]. *)

From stdpp Require Import prelude.
From S2P Require Import Prelude.
Open Scope Z_scope.

Module TcpAck.

(** ** Data *)

Definition TCP_ACK_NUM : nat := 32.
Definition TCP_ACK_DROP_CNT : Z := 10.
Definition ACK_OLD_TIME : Z := 4000.
Definition MAX_TCP_ACK : Z := 200.
Definition MIN_WIN : Z := 256.
Definition SIZE_KB : Z := 1024.

Definition U32_BEFORE (a b : Z) : bool := s32 (u32 a - u32 b) <=? 0.

Abbreviation msgid := positive (only parsing).

Record tcp_ack_msg := TcpAckMsg {
  source : Z; dest : Z; saddr : Z; daddr : Z; seqno : Z; win : Z }.

Record tcp_ack_info := TcpAckInfo {
  ack_info_num : Z;
  busy : bool;
  drop_cnt : Z;
  psh_flag : bool;
  psh_seq : Z;
  win_scale : Z;
  last_time : Z;
  timeout : Z;
  timer : option Z;              (* pending expiry *)
  msgbuf : option msgid;
  in_send_msg : option msgid;
  ack_msg : tcp_ack_msg }.

Record tcp_ack_manage := TcpAckManage {
  enable : bool;
  max_num : Z;
  free_index : Z;
  m_last_time : Z;
  m_timeout : Z;
  max_drop_cnt : Z;
  ack_info : list tcp_ack_info;
  ack_winsize : Z }.

#[global] Instance eta_msg : Settable tcp_ack_msg := fun r =>
  TcpAckMsg (source r) (dest r) (saddr r) (daddr r) (seqno r) (win r).
#[global] Instance eta_info : Settable tcp_ack_info := fun r =>
  TcpAckInfo (ack_info_num r) (busy r) (drop_cnt r) (psh_flag r) (psh_seq r)
    (win_scale r) (last_time r) (timeout r) (timer r) (msgbuf r) (in_send_msg r)
    (ack_msg r).
#[global] Instance eta_manage : Settable tcp_ack_manage := fun r =>
  TcpAckManage (enable r) (max_num r) (free_index r) (m_last_time r)
    (m_timeout r) (max_drop_cnt r) (ack_info r) (ack_winsize r).

(** What leaves the component: a message handed to the transmit path, a
    message whose socket buffer is freed. *)
Inductive event := EvTx (m : msgid) | EvDrop (m : msgid).

(** ** Packet inspection *)

Definition ETH_P_IP : Z := 0x0800.
Definition IPPROTO_TCP : Z := 6.
Definition IP_OFF : Z := 14.                 (* after struct ethhdr *)
Definition TCPHDR_LEN : Z := 20.             (* sizeof(struct tcphdr) *)
Definition TCPOPT_EOL : Z := 0.
Definition TCPOPT_NOP : Z := 1.
Definition TCPOPT_WINDOW : Z := 3.
Definition TCPOPT_TIMESTAMP : Z := 8.

(** The guard both parsers share: an IPv4 frame that carries TCP with the
    ACK flag.  [Some off] is the offset of the TCP header. *)
Definition tcp_ack_header (buf : list Z) : res (option Z) :=
  proto ← rd_be16 buf 12;
  if negb (proto =? ETH_P_IP) then Ok None
  else
    vihl ← rd buf IP_OFF;
    let version := Z.shiftr vihl 4 in
    let ihl := Z.land vihl 15 in
    if negb (version =? 4) then Ok None
    else
      p ← rd buf (IP_OFF + 9);
      if negb (p =? IPPROTO_TCP) then Ok None
      else
        let temp := IP_OFF + ihl * 4 in
        flags ← rd buf (temp + 13);
        if Z.land flags 0x10 =? 0 then Ok None else Ok (Some temp).

Definition tcp_check_quick_ack (buf : list Z) : res (option tcp_ack_msg) :=
  h ← tcp_ack_header buf;
  match h with
  | None => Ok None
  | Some temp =>
      flags ← rd buf (temp + 13);
      if Z.land flags 0x8 =? 0 then Ok None
      else
        sa ← rd_le32 buf (IP_OFF + 16);
        da ← rd_le32 buf (IP_OFF + 12);
        so ← rd_le16 buf (temp + 2);
        de ← rd_le16 buf temp;
        sq ← rd_be32 buf (temp + 4);
        Ok (Some (TcpAckMsg so de (s32 sa) (s32 da) sq 0))
  end.

(** The option walk of [is_drop_tcp_ack]: [ptr] and [len] as in the source,
    the result is the verdict and the window scale.  A [break] out of the
    outer switch leaves [len] as it is. *)
Fixpoint opt_walk (fuel : nat) (buf : list Z) (ptr len drop ws : Z) : res (Z * Z) :=
  if (0 <? len) && negb (drop =? 0) then
    match fuel with
    | O => NoFuel
    | S fuel =>
        opcode ← rd buf ptr;
        let ptr := ptr + 1 in
        if opcode =? TCPOPT_EOL then opt_walk fuel buf ptr len drop ws
        else if opcode =? TCPOPT_NOP then opt_walk fuel buf ptr (len - 1) drop ws
        else
          opsize ← rd buf ptr;
          let ptr := ptr + 1 in
          if opsize <? 2 then opt_walk fuel buf ptr len drop ws
          else if len <? opsize then opt_walk fuel buf ptr len drop ws
          else if opcode =? TCPOPT_TIMESTAMP then
            opt_walk fuel buf (ptr + (opsize - 2)) (len - opsize) drop ws
          else if opcode =? TCPOPT_WINDOW then
            v ← rd buf ptr;
            let ws := if v <? 15 then Z.shiftl 1 v else ws in
            opt_walk fuel buf (ptr + (opsize - 2)) (len - opsize) drop ws
          else opt_walk fuel buf (ptr + (opsize - 2)) (len - opsize) 2 ws
    end
  else Ok (drop, ws).

(** Every iteration moves [ptr] forward and reads at it, so one more than the
    bytes of the buffer is enough fuel ([opt_walk_total]). *)
Definition is_drop_tcp_ack (buf : list Z) (tcphdr tcp_tot_len ws : Z) : res (Z * Z) :=
  d ← rd buf (tcphdr + 12);
  let len := Z.shiftr d 4 * 4 in
  if len <? tcp_tot_len then Ok (0, ws)
  else opt_walk (S (length buf)) buf (tcphdr + TCPHDR_LEN) (len - TCPHDR_LEN) 1 ws.

(** The verdict (0: no TCP ACK, 1: may be dropped, 2: carries more), the
    parsed message when the verdict is positive, and the window scale. *)
Definition tcp_check_ack (buf : list Z) (ws : Z) : res (Z * option tcp_ack_msg * Z) :=
  h ← tcp_ack_header buf;
  match h with
  | None => Ok (0, None, ws)
  | Some temp =>
      vihl ← rd buf IP_OFF;
      tot ← rd_be16 buf (IP_OFF + 2);
      r ← is_drop_tcp_ack buf temp (tot - Z.land vihl 15 * 4) ws;
      let '(ret, ws) := r in
      if 0 <? ret then
        sa ← rd_le32 buf (IP_OFF + 12);
        da ← rd_le32 buf (IP_OFF + 16);
        so ← rd_le16 buf temp;
        de ← rd_le16 buf (temp + 2);
        sq ← rd_be32 buf (temp + 8);
        wi ← rd_be16 buf (temp + 14);
        Ok (ret, Some (TcpAckMsg so de (s32 sa) (s32 da) sq wi), ws)
      else Ok (ret, None, ws)
  end.

(** ** Slots *)

Definition same_flow (a b : tcp_ack_msg) : bool :=
  (dest a =? dest b) && (source a =? source b) &&
  (saddr a =? saddr b) && (daddr a =? daddr b).

(** The index of the busy slot of the flow, -1 when there is none. *)
Definition tcp_ack_match (ack_m : tcp_ack_manage) (msg : tcp_ack_msg) : Z :=
  match find_idx (fun ai => busy ai && same_flow (ack_msg ai) msg) (ack_info ack_m) with
  | Some i => Z.of_nat i
  | None => -1
  end.

(** The body of the ageing loop at index [i]. *)
Definition tcp_ack_update_slot (now : Z) (i : nat) (ack_m : tcp_ack_manage) : tcp_ack_manage :=
  match ack_info ack_m !! i with
  | None => ack_m
  | Some ai =>
      if busy ai && time_after now (u64 (last_time ai + timeout ai)) then
        ack_m <| free_index := Z.of_nat i |> <| max_num ::= fun n => n - 1 |>
              <| ack_info ::= <[i := ai <| busy := false |>]> |>
      else ack_m
  end.

(** The loop runs from index [n - 1] down to 0. *)
Fixpoint tcp_ack_update_loop (now : Z) (n : nat) (ack_m : tcp_ack_manage) : tcp_ack_manage :=
  match n with
  | O => ack_m
  | S n => tcp_ack_update_loop now n (tcp_ack_update_slot now n ack_m)
  end.

Definition tcp_ack_update (now : Z) (ack_m : tcp_ack_manage) : tcp_ack_manage :=
  if time_after now (u64 (m_last_time ack_m + m_timeout ack_m)) then
    tcp_ack_update_loop now TCP_ACK_NUM (ack_m <| m_last_time := now |>)
  else ack_m.

Definition tcp_ack_alloc_index (ack_m : tcp_ack_manage) : tcp_ack_manage * Z :=
  if max_num ack_m =? Z.of_nat TCP_ACK_NUM then (ack_m, -1)
  else if 0 <=? free_index ack_m then
    (ack_m <| free_index := -1 |> <| max_num ::= fun n => n + 1 |>, free_index ack_m)
  else
    match find_idx (fun ai => negb (busy ai)) (ack_info ack_m) with
    | Some i => (ack_m <| free_index := -1 |> <| max_num ::= fun n => n + 1 |>, Z.of_nat i)
    | None => (ack_m, -1)
    end.

Section Driver.

(** The kernel's conversion of milliseconds to timer ticks. *)
Context (msecs_to_jiffies : Z -> Z).

(** ** Handling an acknowledgement *)

Definition arm_if_idle (now : Z) (ai : tcp_ack_info) : tcp_ack_info :=
  match timer ai with
  | Some _ => ai
  | None => ai <| timer := Some (now + msecs_to_jiffies 5) |>
  end.

Definition drop_event (m : option msgid) : list event :=
  match m with Some m => [EvDrop m] | None => [] end.

(** The common part of the two handlers for a message that is not older than
    the slot: the held message is dropped, the new one is sent or held. *)
Definition newer_ack (now : Z) (new_msgbuf : msgid) (ack_m : tcp_ack_manage)
    (ai : tcp_ack_info) (msg : tcp_ack_msg) : tcp_ack_info * list event * Z :=
  let drop_msg := msgbuf ai in
  let ai := ai <| msgbuf := None |> in
  let quick_ack := psh_flag ai && negb (U32_BEFORE (seqno msg) (psh_seq ai)) in
  let ai := if quick_ack then ai <| psh_flag := false |>
            else ai <| drop_cnt ::= fun n => n + 1 |> in
  let ai := ai <| ack_msg ::= fun a => a <| seqno := seqno msg |> |> in
  if quick_ack ||
     (match in_send_msg ai with None => true | Some _ => false end &&
      (max_drop_cnt ack_m <=? drop_cnt ai))
  then
    (ai <| drop_cnt := 0 |> <| in_send_msg := Some new_msgbuf |> <| timer := None |>,
     drop_event drop_msg, 0)
  else
    (arm_if_idle now (ai <| msgbuf := Some new_msgbuf |>), drop_event drop_msg, 1).

Definition tcp_ack_handle (now : Z) (new_msgbuf : msgid) (ack_m : tcp_ack_manage)
    (ai : tcp_ack_info) (msg : tcp_ack_msg) (type : Z) : tcp_ack_info * list event * Z :=
  let ai := ai <| last_time := now |> in
  if type =? 2 then
    if U32_BEFORE (seqno (ack_msg ai)) (seqno msg) then
      let ai := ai <| ack_msg ::= fun a => a <| seqno := seqno msg |> |> in
      let ai := if psh_flag ai && negb (U32_BEFORE (seqno msg) (psh_seq ai))
                then ai <| psh_flag := false |> else ai in
      let drop_msg := msgbuf ai in
      let ai := match msgbuf ai with
                | Some _ => ai <| msgbuf := None |> <| timer := None |>
                | None => ai
                end in
      (ai <| in_send_msg := None |> <| drop_cnt := max_drop_cnt ack_m |>,
       drop_event drop_msg, 0)
    else (ai, [EvDrop new_msgbuf], 1)
  else if U32_BEFORE (seqno (ack_msg ai)) (seqno msg) then
    newer_ack now new_msgbuf ack_m ai msg
  else (ai, [EvDrop new_msgbuf], 1).

(** The handler the transmit path calls; [type] is a parameter it ignores. *)
Definition tcp_ack_handle_new (now : Z) (new_msgbuf : msgid) (ack_m : tcp_ack_manage)
    (ai : tcp_ack_info) (msg : tcp_ack_msg) (type : Z) : tcp_ack_info * list event * Z :=
  let ai := ai <| last_time := now |> in
  if U32_BEFORE (seqno (ack_msg ai)) (seqno msg) then
    newer_ack now new_msgbuf ack_m ai msg
  else (ai, [EvDrop new_msgbuf], 1).

(** ** Entry points *)

Definition tcp_ack_init (now : Z) : tcp_ack_manage :=
  {| enable := true; max_num := 0; free_index := 0; m_last_time := now;
     m_timeout := msecs_to_jiffies ACK_OLD_TIME;
     max_drop_cnt := TCP_ACK_DROP_CNT;
     ack_info := (fun i => {| ack_info_num := Z.of_nat i; busy := false; drop_cnt := 0;
                              psh_flag := false; psh_seq := 0; win_scale := 0;
                              last_time := now; timeout := msecs_to_jiffies ACK_OLD_TIME;
                              timer := None; msgbuf := None; in_send_msg := None;
                              ack_msg := TcpAckMsg 0 0 0 0 0 0 |}) <$> seq 0 TCP_ACK_NUM;
     ack_winsize := MIN_WIN |}.

Definition tcp_ack_deinit (ack_m : tcp_ack_manage) : tcp_ack_manage * list event :=
  (ack_m <| enable := false |>
         <| ack_info ::= fmap (fun ai => ai <| timer := None |> <| msgbuf := None |>) |>,
   ack_info ack_m ≫= fun ai => drop_event (msgbuf ai)).

Definition move_tcpack_msg (ack_m : tcp_ack_manage) (msg : msgid) : tcp_ack_manage :=
  if enable ack_m then
    ack_m <| ack_info ::= fmap (fun ai =>
      if busy ai && bool_decide (in_send_msg ai = Some msg)
      then ai <| in_send_msg := None |> else ai) |>
  else ack_m.

(** [intf_tx] of rwnx_tx.c: the message is released first, then its socket
    buffer goes down the transmit path. *)
Definition intf_tx (ack_m : tcp_ack_manage) (msg : msgid) : tcp_ack_manage * list event :=
  (move_tcpack_msg ack_m msg, [EvTx msg]).

(** The timer of slot [i] expires: the timer core detaches it and calls
    [tcp_ack_timeout]. *)
Definition tcp_ack_timeout (ack_m : tcp_ack_manage) (i : nat) : tcp_ack_manage * list event :=
  match ack_info ack_m !! i with
  | None => (ack_m, [])
  | Some ai =>
      let ai := ai <| timer := None |> in
      match busy ai, msgbuf ai, in_send_msg ai with
      | true, Some msg, None =>
          let ai := ai <| msgbuf := None |> <| drop_cnt := 0 |> <| in_send_msg := Some msg |> in
          intf_tx (ack_m <| ack_info ::= <[i := ai]> |>) msg
      | _, _, _ => (ack_m <| ack_info ::= <[i := ai]> |>, [])
      end
  end.

Definition filter_rx_tcp_ack (ack_m : tcp_ack_manage) (buf : list Z) (plen : Z)
    : res tcp_ack_manage :=
  if negb (enable ack_m) then Ok ack_m
  else if MAX_TCP_ACK <? plen then Ok ack_m
  else
    q ← tcp_check_quick_ack buf;
    match q with
    | None => Ok ack_m
    | Some msg =>
        let index := tcp_ack_match ack_m msg in
        if 0 <=? index then
          Ok (ack_m <| ack_info ::= alter (fun ai =>
                ai <| psh_flag := true |> <| psh_seq := seqno msg |>) (Z.to_nat index) |>)
        else Ok ack_m
    end.

(** The slot of a flow seen for the first time. *)
Definition track_flow (now : Z) (ws mdc : Z) (msg : tcp_ack_msg) (ai : tcp_ack_info) : tcp_ack_info :=
  ai <| busy := true |> <| psh_flag := false |> <| last_time := now |>
     <| drop_cnt := mdc |> <| win_scale := if negb (ws =? 0) then ws else 1 |>
     <| ack_msg ::= fun a => a <| dest := dest msg |> <| source := source msg |>
          <| saddr := saddr msg |> <| daddr := daddr msg |> <| seqno := seqno msg |> |>.

(** The part of [filter_send_tcp_ack] after the packet is parsed. *)
Definition filter_send_parsed (now : Z) (ack_m : tcp_ack_manage) (new_msgbuf : msgid)
    (drop ws : Z) (msg : tcp_ack_msg) : tcp_ack_manage * list event * Z :=
  let index := tcp_ack_match ack_m msg in
  match (if 0 <=? index then ack_info ack_m !! Z.to_nat index else None) with
  | Some ai =>
      let ai := if negb (ws =? 0) && negb (win_scale ai =? ws)
                then ai <| win_scale := ws |> else ai in
      let put ai := ack_m <| ack_info ::= <[Z.to_nat index := ai]> |> in
      if (0 <? drop) && enable ack_m then
        let w := u32 (win_scale ai * win msg) in
        let drop := if negb (ws =? 0) && (w <? ack_winsize ack_m * SIZE_KB) then 2 else drop in
        let '(ai, evs, ret) := tcp_ack_handle_new now new_msgbuf ack_m ai msg drop in
        (put ai, evs, ret)
      else (put ai, [], 0)
  | None =>
      let '(ack_m, index) := tcp_ack_alloc_index ack_m in
      if 0 <=? index then
        (ack_m <| ack_info ::= alter (track_flow now ws (max_drop_cnt ack_m) msg) (Z.to_nat index) |>,
         [], 0)
      else (ack_m, [], 0)
  end.

(** 1: the message was taken over (held or freed), 0: the caller sends it.
    A message that was not parsed is only looked at when [drop] and the
    window scale are both zero, so the [None] below is never reached
    ([tcp_check_ack_parsed]). *)
Definition filter_send_tcp_ack (now : Z) (ack_m : tcp_ack_manage) (new_msgbuf : msgid)
    (buf : list Z) (plen : Z) : res (tcp_ack_manage * list event * Z) :=
  if MAX_TCP_ACK <? plen then Ok (ack_m, [], 0)
  else
    let ack_m := tcp_ack_update now ack_m in
    r ← tcp_check_ack buf 0;
    let '(drop, msg, ws) := r in
    if (drop =? 0) && (ws =? 0) then Ok (ack_m, [], 0)
    else match msg with
         | None => Fault
         | Some msg => Ok (filter_send_parsed now ack_m new_msgbuf drop ws msg)
         end.

(** [intf_tcp_alloc_msg]: on failure the NULL result of the allocation is
    cleared with [memset]. *)
Definition intf_tcp_alloc_msg (kzalloc : option msgid) : res msgid :=
  match kzalloc with Some m => Ok m | None => Fault end.

(** The filter's part of [rwnx_start_xmit]: a frame short enough gets a
    message buffer and goes through the filter; unless the filter takes it,
    the message is released and the frame is sent.  The flag tells whether
    the caller goes on to transmit the frame. *)
Definition xmit_filter (now : Z) (ack_m : tcp_ack_manage) (kzalloc : option msgid)
    (buf : list Z) (len : Z) : res (tcp_ack_manage * list event * bool) :=
  if u16 len <=? MAX_TCP_ACK then
    new_msgbuf ← intf_tcp_alloc_msg kzalloc;
    r ← filter_send_tcp_ack now ack_m new_msgbuf buf (u16 len);
    let '(ack_m, evs, ret) := r in
    if negb (ret =? 0) then Ok (ack_m, evs, false)
    else Ok (move_tcpack_msg ack_m new_msgbuf, evs ++ [EvTx new_msgbuf], true)
  else Ok (ack_m, [], true).

(** ** Runs

    A run interleaves the driver's calls: a frame to send, a received frame,
    an expired timer.  [now] is the tick count.  [prompt] is the kernel's
    side of the bargain: a pending timer is not left unserved for longer
    than [slack] ticks. *)

Context (slack : Z).

Definition prompt (now : Z) (m : tcp_ack_manage) : Prop :=
  Forall (fun ai => match timer ai with Some e => now <= e + slack | None => True end)
    (ack_info m).

(** One call: the message handed in (if any) and the events it causes. *)
Inductive step : Z * tcp_ack_manage -> list msgid -> list event -> Z * tcp_ack_manage -> Prop :=
| step_xmit now now' m id buf len m' evs go :
    now <= now' < 2 ^ 62 -> prompt now' m -> u16 len <= MAX_TCP_ACK ->
    xmit_filter now' m (Some id) buf len = Ok (m', evs, go) ->
    step (now, m) [id] evs (now', m')
| step_rx now now' m buf plen m' :
    now <= now' < 2 ^ 62 ->
    filter_rx_tcp_ack m buf plen = Ok m' ->
    step (now, m) [] [] (now', m')
| step_timer now now' m i ai e m' evs :
    now <= now' < 2 ^ 62 ->
    ack_info m !! i = Some ai -> timer ai = Some e -> e <= now' ->
    tcp_ack_timeout m i = (m', evs) ->
    step (now, m) [] evs (now', m').

(** [run s ins evs]: [s] is reached from the initialised manager after the
    messages [ins] were handed in and the events [evs] happened. *)
Inductive run : Z * tcp_ack_manage -> list msgid -> list event -> Prop :=
| run_init now : 0 <= now < 2 ^ 62 -> run (now, tcp_ack_init now) [] []
| run_step s ins evs s' ins' evs' :
    run s ins evs -> step s ins' evs' s' -> run s' (ins ++ ins') (evs ++ evs').

End Driver.

(** ** The option walk *)

(** The fuel of [is_drop_tcp_ack] is enough: the walk ends, or it has read
    every byte up to the end of the buffer and faults. *)
Lemma opt_walk_total fuel buf ptr len drop ws :
  (Z.to_nat (Z.of_nat (length buf) - ptr) < fuel)%nat -> 0 <= ptr -> is_bytes buf ->
  opt_walk fuel buf ptr len drop ws <> NoFuel.
Proof.
  intros Hf Hp Hb. revert ptr len drop ws Hf Hp.
  induction fuel as [|fuel IH]; intros ptr len drop ws Hf Hp; [lia |]. simpl.
  case_match; [| discriminate].
  destruct (rd buf ptr) as [op| |] eqn:E1; [| discriminate | by apply rd_no_fuel in E1].
  apply rd_Ok in E1 as [_ E1%lookup_lt_Some]. simpl.
  case_match; [apply IH; lia |]. case_match; [apply IH; lia |].
  destruct (rd buf (ptr + 1)) as [sz| |] eqn:E2; [| discriminate | by apply rd_no_fuel in E2].
  pose proof (rd_byte _ _ _ Hb E2). unfold is_byte in *.
  apply rd_Ok in E2 as [_ E2%lookup_lt_Some]. simpl.
  destruct (Z.ltb_spec sz 2); [apply IH; lia |].
  case_match; [apply IH; lia |]. case_match; [apply IH; lia |].
  case_match; [| apply IH; lia].
  destruct (rd buf (ptr + 1 + 1)) as [v| |] eqn:E3; [apply IH; lia | discriminate |].
  by apply rd_no_fuel in E3.
Qed.

(** Options as a TCP sender writes them, no end-of-list marker. *)
Inductive tcpopt :=
| ONop
| OTimestamp (body : list Z)
| OWindow (shift : Z) (rest : list Z)
| OOther (kind : Z) (body : list Z).

Definition enc_opt (o : tcpopt) : list Z :=
  match o with
  | ONop => [TCPOPT_NOP]
  | OTimestamp b => TCPOPT_TIMESTAMP :: (2 + Z.of_nat (length b)) :: b
  | OWindow v r => TCPOPT_WINDOW :: (3 + Z.of_nat (length r)) :: v :: r
  | OOther k b => k :: (2 + Z.of_nat (length b)) :: b
  end.

Definition opt_ok (o : tcpopt) : Prop :=
  match o with
  | OOther k _ => k <> TCPOPT_EOL /\ k <> TCPOPT_NOP /\ k <> TCPOPT_WINDOW /\ k <> TCPOPT_TIMESTAMP
  | _ => True
  end.

(** The verdict and the window scale the options call for. *)
Definition opt_effect (st : Z * Z) (o : tcpopt) : Z * Z :=
  match o with
  | ONop | OTimestamp _ => st
  | OWindow v _ => (st.1, if v <? 15 then Z.shiftl 1 v else st.2)
  | OOther _ _ => (2, st.2)
  end.

Lemma opt_walk_one fuel pre o post len drop ws :
  opt_ok o -> drop <> 0 -> Z.of_nat (length (enc_opt o)) <= len ->
  opt_walk (S fuel) (pre ++ enc_opt o ++ post) (Z.of_nat (length pre)) len drop ws =
  let '(drop', ws') := opt_effect (drop, ws) o in
  opt_walk fuel (pre ++ enc_opt o ++ post)
    (Z.of_nat (length (pre ++ enc_opt o))) (len - Z.of_nat (length (enc_opt o))) drop' ws'.
Proof.
  intros Hok Hd Hlen. rewrite length_app. cbn [opt_walk].
  assert (0 < len) by (destruct o; simpl in Hlen; lia).
  rewrite (proj2 (Z.ltb_lt 0 len)), (proj2 (Z.eqb_neq drop 0)) by done. cbn [andb negb].
  destruct o as [|b|v r|k b]; simpl in *.
  - rewrite (rd_app_at pre _ _ (Z.of_nat (length pre))) by done. simpl. f_equal; lia.
  - rewrite (rd_app_at pre _ _ (Z.of_nat (length pre))), (rd_app_at1 pre _ _ _ (Z.of_nat (length pre) + 1)) by lia. simpl. bool_cases; try lia. f_equal; lia.
  - rewrite (rd_app_at pre _ _ (Z.of_nat (length pre))), (rd_app_at1 pre _ _ _ (Z.of_nat (length pre) + 1)), (rd_app_at2 pre _ _ _ _ (Z.of_nat (length pre) + 1 + 1)) by lia. simpl.
    destruct (Z.ltb_spec v 15); bool_cases; try lia; f_equal; lia.
  - rewrite (rd_app_at pre _ _ (Z.of_nat (length pre))), (rd_app_at1 pre _ _ _ (Z.of_nat (length pre) + 1)) by lia. simpl.
    destruct Hok as (H1 & H2 & H3 & H4).
    unfold TCPOPT_EOL, TCPOPT_NOP, TCPOPT_TIMESTAMP, TCPOPT_WINDOW in *.
    bool_cases; try lia. f_equal; lia.
Qed.

Lemma opt_effect_drop st o : st.1 <> 0 -> (opt_effect st o).1 <> 0.
Proof. by destruct o. Qed.

Lemma opt_walk_opts opts : forall fuel pre post len drop ws,
  Forall opt_ok opts -> drop <> 0 ->
  Z.of_nat (length (opts ≫= enc_opt)) <= len ->
  opt_walk (length opts + fuel) (pre ++ (opts ≫= enc_opt) ++ post)
    (Z.of_nat (length pre)) len drop ws =
  let '(drop', ws') := foldl opt_effect (drop, ws) opts in
  opt_walk fuel (pre ++ (opts ≫= enc_opt) ++ post)
    (Z.of_nat (length (pre ++ (opts ≫= enc_opt))))
    (len - Z.of_nat (length (opts ≫= enc_opt))) drop' ws'.
Proof.
  induction opts as [|o opts IH]; intros fuel pre post len drop ws Hok Hd Hlen.
  - simpl. rewrite app_nil_r, Z.sub_0_r. done.
  - apply Forall_cons in Hok as [Ho Hok]. cbn [mbind list_bind length] in *.
    rewrite length_app in Hlen. cbn [Nat.add].
    rewrite <- (app_assoc (enc_opt o)), opt_walk_one by (done || lia).
    cbn [foldl]. pose proof (opt_effect_drop (drop, ws) o Hd) as Hd'.
    destruct (opt_effect (drop, ws) o) as [d w]. simpl in Hd'.
    rewrite (app_assoc pre (enc_opt o)).
    rewrite IH by (done || lia).
    destruct (foldl opt_effect (d, w) opts) as [d' w'].
    rewrite <- !app_assoc, !length_app. f_equal. lia.
Qed.

Lemma enc_opts_length opts : (length opts <= length (opts ≫= enc_opt))%nat.
Proof.
  induction opts as [|o opts IH]; [simpl; lia |]. cbn [mbind list_bind length] in *.
  rewrite length_app. destruct o; simpl; lia.
Qed.

Lemma opts_effect_drop opts : forall st, st.1 <> 0 -> (foldl opt_effect st opts).1 <> 0.
Proof. induction opts as [|o opts IH]; intros st H; simpl; auto using opt_effect_drop. Qed.

Lemma opt_walk_stop fuel buf ptr drop ws : opt_walk fuel buf ptr 0 drop ws = Ok (drop, ws).
Proof. by destruct fuel. Qed.

Lemma opt_walk_zeros n : forall fuel pre len drop ws,
  0 < len -> drop <> 0 -> (n < fuel)%nat ->
  opt_walk fuel (pre ++ replicate n TCPOPT_EOL) (Z.of_nat (length pre)) len drop ws = Fault.
Proof.
  induction n as [|n IH]; intros [|fuel] pre len drop ws Hl Hd Hf; [lia | | lia |].
  all: cbn [opt_walk].
  all: rewrite (proj2 (Z.ltb_lt 0 len)), (proj2 (Z.eqb_neq drop 0)) by done; cbn [andb negb].
  - rewrite (rd_beyond _ (Z.of_nat (length pre))); [done |]. rewrite length_app. simpl. lia.
  - simpl replicate. rewrite (rd_app_at pre _ _ (Z.of_nat (length pre))) by done. cbn.
    replace (Z.of_nat (length pre) + 1) with (Z.of_nat (length (pre ++ [TCPOPT_EOL])))
      by (rewrite length_app; simpl; lia).
    rewrite cons_middle, app_assoc. apply IH; [done | done | lia].
Qed.

(** On a header whose option area is a sequence of well-formed options without an
    end-of-list byte, is_drop_tcp_ack stays inside the header and returns 1 when only
    NOP, timestamp and window-scale options occur and 2 otherwise, with the scale of the
    last valid window option. *)
Theorem is_drop_tcp_ack_options hdr opts post ws doff tot :
  Forall opt_ok opts -> (length hdr = 20)%nat ->
  hdr !! 12%nat = Some doff -> Z.shiftr doff 4 * 4 = 20 + Z.of_nat (length (opts ≫= enc_opt)) ->
  tot <= Z.shiftr doff 4 * 4 ->
  is_drop_tcp_ack (hdr ++ (opts ≫= enc_opt) ++ post) 0 tot ws =
    Ok (foldl opt_effect (1, ws) opts).
Proof.
  intros Hok Hh Hd Hlen Htot. unfold is_drop_tcp_ack.
  rewrite (proj2 (rd_Ok _ (0 + 12) doff)).
  2: { split; [lia |]. change (Z.to_nat (0 + 12)) with 12%nat. by rewrite lookup_app_l by lia. }
  cbn [mbind res_bind]. destruct (Z.ltb_spec (Z.shiftr doff 4 * 4) tot); [lia |].
  pose proof (enc_opts_length opts) as Hn.
  assert (Hf : exists f, S (length (hdr ++ (opts ≫= enc_opt) ++ post)) = (length opts + f)%nat).
  { eexists (S (length (hdr ++ (opts ≫= enc_opt) ++ post)) - length opts)%nat.
    rewrite !length_app. lia. }
  destruct Hf as [f ->].
  change (0 + TCPHDR_LEN) with (Z.of_nat 20). rewrite <- Hh, opt_walk_opts.
  2: done. 2: done. 2: { rewrite Hlen. unfold TCPHDR_LEN. lia. }
  destruct (foldl opt_effect (1, ws) opts) as [d w].
  rewrite Hlen. unfold TCPHDR_LEN.
  replace (20 + _ - 20 - _) with 0 by lia. apply opt_walk_stop.
Qed.

(** An end-of-list option does not end the option walk: when well-formed options
    are followed by end-of-list padding up to the end of the frame, the walk reads past
    the end of the frame. *)
Theorem opt_walk_eol_overrun hdr opts n len ws :
  Forall opt_ok opts -> Z.of_nat (length (opts ≫= enc_opt)) < len ->
  let buf := hdr ++ (opts ≫= enc_opt) ++ replicate n TCPOPT_EOL in
  opt_walk (S (length buf)) buf (Z.of_nat (length hdr)) len 1 ws = Fault.
Proof.
  intros Hok Hlen buf.
  pose proof (enc_opts_length opts) as Hn.
  replace (S (length buf)) with (length opts + (S (length buf) - length opts))%nat.
  2: { unfold buf. rewrite !length_app. lia. }
  unfold buf at 2. rewrite opt_walk_opts by (done || lia).
  destruct (foldl opt_effect (1, ws) opts) as [d w] eqn:E.
  rewrite app_assoc. apply opt_walk_zeros; [lia | |].
  - change d with (d, w).1. rewrite <- E. by apply opts_effect_drop.
  - unfold buf. rewrite !length_app, length_replicate. lia.
Qed.

(** ** The handler *)

(** The complete behaviour of tcp_ack_handle_new: a message older than the slot is
    freed and changes only the time stamp; otherwise the slot takes its sequence number,
    the superseded held message (and nothing else) is freed, and the new one is sent
    exactly when it passes a PSH mark or when nothing is in flight and the suppression
    budget is used up, else it is held with the timer pending. *)
Theorem tcp_ack_handle_new_spec mtj now id m ai msg type ai' evs ret :
  tcp_ack_handle_new mtj now id m ai msg type = (ai', evs, ret) ->
  let quick := psh_flag ai && negb (U32_BEFORE (seqno msg) (psh_seq ai)) in
  if U32_BEFORE (seqno (ack_msg ai)) (seqno msg) then
    seqno (ack_msg ai') = seqno msg /\ evs = drop_event (msgbuf ai) /\
    if quick || (bool_decide (in_send_msg ai = None) && (max_drop_cnt m <=? drop_cnt ai + 1))
    then ret = 0 /\ in_send_msg ai' = Some id /\ msgbuf ai' = None /\
         timer ai' = None /\ drop_cnt ai' = 0 /\ (quick = true -> psh_flag ai' = false)
    else ret = 1 /\ msgbuf ai' = Some id /\ is_Some (timer ai') /\
         in_send_msg ai' = in_send_msg ai /\ drop_cnt ai' = drop_cnt ai + 1
  else ai' = ai <| last_time := now |> /\ evs = [EvDrop id] /\ ret = 1.
Proof.
  intros H quick. unfold tcp_ack_handle_new in H. simpl in H.
  destruct (U32_BEFORE _ _); [| by simplify_eq].
  unfold newer_ack in H. simpl in H. fold quick in H.
  destruct ai as [n b dc pf ps ws lt to tm mb sm am]. simpl in *.
  destruct quick eqn:Q; simpl in *.
  - by simplify_eq/=.
  - destruct sm; simpl in *; [| destruct (max_drop_cnt m <=? dc + 1)]; simplify_eq/=;
      unfold arm_if_idle; simpl; destruct tm; simpl; naive_solver.
Qed.

(** ** Accounting of messages *)

Definition ev_id (e : event) : msgid := match e with EvTx m | EvDrop m => m end.
Definition held (m : tcp_ack_manage) : list msgid :=
  ack_info m ≫= fun ai => option_list (msgbuf ai).

Lemma drop_event_ids o : ev_id <$> drop_event o = option_list o.
Proof. by destruct o. Qed.

Lemma handle_new_account mtj now id m ai msg type ai' evs ret :
  tcp_ack_handle_new mtj now id m ai msg type = (ai', evs, ret) ->
  id :: option_list (msgbuf ai) ≡ₚ
    (ev_id <$> evs) ++ (if ret =? 0 then [id] else []) ++ option_list (msgbuf ai').
Proof.
  intros H. pose proof (tcp_ack_handle_new_spec _ _ _ _ _ _ _ _ _ _ H) as S. simpl in S.
  destruct (U32_BEFORE _ _).
  - destruct S as (_ & -> & S). rewrite drop_event_ids.
    case_match.
    + destruct S as (-> & _ & -> & _). simpl. apply Permutation_cons_append.
    + destruct S as (-> & -> & _). simpl. apply Permutation_cons_append.
  - by destruct S as (-> & -> & ->).
Qed.

Lemma update_slot_held now i m : held (tcp_ack_update_slot now i m) = held m.
Proof.
  unfold tcp_ack_update_slot. destruct (ack_info m !! i) eqn:E; [|done].
  case_match; [|done]. unfold held. simpl. by eapply bind_insert_same.
Qed.

Lemma update_held now m : held (tcp_ack_update now m) = held m.
Proof.
  unfold tcp_ack_update. case_match; [|done].
  transitivity (held (m <| m_last_time := now |>)); [|done].
  generalize (m <| m_last_time := now |>) as m0. generalize TCP_ACK_NUM as n.
  induction n as [|n IH]; intros m0; simpl; [done |]. by rewrite IH, update_slot_held.
Qed.

Lemma move_held m id : held (move_tcpack_msg m id) = held m.
Proof.
  unfold move_tcpack_msg. case_match; [|done]. unfold held. simpl.
  apply bind_fmap_same. intros ai. by case_match.
Qed.

Lemma alter_held m (g : tcp_ack_info -> tcp_ack_info) i :
  (forall ai, msgbuf (g ai) = msgbuf ai) ->
  held (m <| ack_info ::= alter g i |>) = held m.
Proof.
  intros Hg. unfold held. simpl. destruct (ack_info m !! i) as [ai|] eqn:E.
  - rewrite (alter_insert _ _ _ _ E). eapply bind_insert_same; [done |]. by rewrite Hg.
  - f_equal. apply list_eq. intros j. destruct (decide (i = j)) as [<- |].
    + rewrite list_lookup_alter_eq, E. done.
    + by rewrite list_lookup_alter_ne.
Qed.

Lemma alloc_info m m' i : tcp_ack_alloc_index m = (m', i) -> ack_info m' = ack_info m.
Proof. unfold tcp_ack_alloc_index. repeat case_match; naive_solver. Qed.

Lemma filter_send_parsed_account mtj now m id drop ws msg m' evs ret :
  filter_send_parsed mtj now m id drop ws msg = (m', evs, ret) ->
  id :: held m ≡ₚ (ev_id <$> evs) ++ (if ret =? 0 then [id] else []) ++ held m'.
Proof.
  unfold filter_send_parsed. intros H.
  destruct (if 0 <=? _ then _ else None) as [ai|] eqn:E.
  - destruct (0 <=? tcp_ack_match m msg); [|done].
    set (ai0 := if _ && negb (win_scale ai =? ws) then _ else _) in H.
    assert (Hb : msgbuf ai0 = msgbuf ai) by (unfold ai0; by destruct (_ && _)).
    destruct (bind_insert_split (fun ai => option_list (msgbuf ai)) _ _ _ E) as (rest & Hm & Hy).
    assert (Hput : forall x, held (m <| ack_info ::= <[Z.to_nat (tcp_ack_match m msg) := x]> |>)
                       ≡ₚ option_list (msgbuf x) ++ rest) by (intros x; apply Hy).
    assert (Hm' : held m ≡ₚ option_list (msgbuf ai) ++ rest) by apply Hm.
    destruct (_ && enable m).
    + destruct (tcp_ack_handle_new _ _ _ _ _ _ _) as [[ai1 evs1] ret1] eqn:Hh.
      simplify_eq. pose proof (handle_new_account _ _ _ _ _ _ _ _ _ _ Hh) as A.
      rewrite Hm', Hput, <- Hb. rewrite app_assoc, app_assoc, <- (app_assoc (ev_id <$> evs)), <- A.
      done.
    + simplify_eq/=. rewrite Hm', Hput. by rewrite Hb.
  - destruct (tcp_ack_alloc_index m) as [m1 i] eqn:Ha.
    assert (Hh : held m1 = held m) by (unfold held; by rewrite (alloc_info _ _ _ Ha)).
    case_match; simplify_eq; [rewrite alter_held by done |]; by rewrite Hh.
Qed.

Lemma xmit_account mtj now m id buf len m' evs go :
  xmit_filter mtj now m (Some id) buf len = Ok (m', evs, go) -> u16 len <= MAX_TCP_ACK ->
  id :: held m ≡ₚ (ev_id <$> evs) ++ held m'.
Proof.
  unfold xmit_filter. intros H Hl. destruct (Z.leb_spec (u16 len) MAX_TCP_ACK); [|lia].
  simpl in H. apply bind_Ok in H as ([[m1 evs1] ret] & Hs & H).
  assert (A : id :: held m ≡ₚ (ev_id <$> evs1) ++ (if ret =? 0 then [id] else []) ++ held m1).
  { unfold filter_send_tcp_ack in Hs. destruct (Z.ltb_spec MAX_TCP_ACK (u16 len)); [lia |].
    apply bind_Ok in Hs as ([[d msg] ws] & _ & Hs). rewrite <- (update_held now m).
    destruct (_ && _); [by simplify_eq/= |]. destruct msg as [msg|]; [|done].
    injection Hs as Hs. eapply filter_send_parsed_account. apply Hs. }
  destruct (Z.eqb_spec ret 0); simpl in H; simplify_eq.
  - rewrite A, move_held, fmap_app, <- app_assoc. done.
  - by rewrite A.
Qed.

Lemma timeout_account m i m' evs :
  tcp_ack_timeout m i = (m', evs) -> held m ≡ₚ (ev_id <$> evs) ++ held m'.
Proof.
  unfold tcp_ack_timeout. intros H. destruct (ack_info m !! i) as [ai|] eqn:E; [|by simplify_eq].
  destruct (bind_insert_split (fun ai => option_list (msgbuf ai)) _ _ _ E) as (rest & Hm & Hy).
  unfold intf_tx in H. simpl in H.
  destruct (busy ai), (msgbuf ai) as [b|] eqn:Eb, (in_send_msg ai); simplify_eq/=;
    rewrite ?move_held; unfold held; simpl; rewrite Hy, Hm; simpl; by rewrite ?Eb.
Qed.

Lemma rx_held m buf plen m' : filter_rx_tcp_ack m buf plen = Ok m' -> held m' = held m.
Proof.
  unfold filter_rx_tcp_ack. intros H. case_match; [by simplify_eq |].
  case_match; [by simplify_eq |]. apply bind_Ok in H as ([msg|] & _ & H); [|by simplify_eq].
  case_match; simplify_eq; [|done]. by apply alter_held.
Qed.

(** After any run of the filter, the messages handed in are, as a multiset, exactly
    the messages transmitted, freed or still held: none is lost, none is sent or freed
    twice. *)
Theorem messages_accounted mtj slack s ins evs :
  run mtj slack s ins evs -> ins ≡ₚ (ev_id <$> evs) ++ held s.2.
Proof.
  induction 1 as [now Hn | s ins evs s' ins' evs' _ IH Hstep].
  - done.
  - rewrite fmap_app, <- app_assoc.
    assert (A : ins' ++ held s.2 ≡ₚ (ev_id <$> evs') ++ held s'.2).
    { destruct Hstep; simpl in *.
      - by eapply xmit_account.
      - by rewrite (rx_held _ _ _ _ H0).
      - by eapply timeout_account. }
    rewrite <- A, IH, <- !app_assoc. apply Permutation_app; [done |].
    apply Permutation_app_comm.
Qed.

(** ** The slot table *)

Definition flow_key (a : tcp_ack_msg) : Z * Z * Z * Z := (dest a, source a, saddr a, daddr a).
Definition slot_sig (ai : tcp_ack_info) : bool * (Z * Z * Z * Z) := (busy ai, flow_key (ack_msg ai)).
Definition sigs (m : tcp_ack_manage) := slot_sig <$> ack_info m.

Lemma same_flow_key a b : same_flow a b = true <-> flow_key a = flow_key b.
Proof.
  unfold same_flow, flow_key. rewrite !andb_true_iff, !Z.eqb_eq. split.
  - intros (((-> & ->) & ->) & ->). done.
  - intros [= -> -> -> ->]. done.
Qed.

(** [max_num] counts the busy slots, [free_index] names a free slot or is -1,
    and no flow has two slots. *)
Definition wf_table (mx fi : Z) (sl : list (bool * (Z * Z * Z * Z))) : Prop :=
  length sl = TCP_ACK_NUM /\ mx = countb fst sl /\
  (fi = -1 \/ (0 <= fi /\ exists k, sl !! Z.to_nat fi = Some (false, k))) /\
  (forall i j k, sl !! i = Some (true, k) -> sl !! j = Some (true, k) -> i = j).

Definition wf (m : tcp_ack_manage) : Prop := wf_table (max_num m) (free_index m) (sigs m).

Lemma wf_release mx fi sl i k :
  wf_table mx fi sl -> sl !! i = Some (true, k) ->
  wf_table (mx - 1) (Z.of_nat i) (<[i := (false, k)]> sl).
Proof.
  intros (Hl & Hc & _ & Hf) Hi. pose proof (lookup_lt_Some _ _ _ Hi).
  repeat split.
  - by rewrite length_insert.
  - rewrite (countb_insert _ _ _ _ _ Hi). simpl. lia.
  - right. split; [lia |]. exists k. rewrite Nat2Z.id. by apply list_lookup_insert_eq.
  - intros a b k' Ha Hb. apply list_lookup_insert_Some in Ha, Hb. naive_solver.
Qed.

Lemma wf_take mx fi sl i k0 k :
  wf_table mx fi sl -> sl !! i = Some (false, k0) -> (forall j, sl !! j <> Some (true, k)) ->
  wf_table (mx + 1) (-1) (<[i := (true, k)]> sl).
Proof.
  intros (Hl & Hc & _ & Hf) Hi Hnew. repeat split.
  - by rewrite length_insert.
  - rewrite (countb_insert _ _ _ _ _ Hi). simpl. lia.
  - by left.
  - intros a b k' Ha Hb. apply list_lookup_insert_Some in Ha, Hb. naive_solver.
Qed.

Lemma sigs_lookup m i b k :
  sigs m !! i = Some (b, k) <->
  exists ai, ack_info m !! i = Some ai /\ busy ai = b /\ flow_key (ack_msg ai) = k.
Proof.
  unfold sigs. rewrite list_lookup_fmap_Some. unfold slot_sig. naive_solver.
Qed.

Lemma match_hit m msg :
  0 <= tcp_ack_match m msg ->
  exists ai, ack_info m !! Z.to_nat (tcp_ack_match m msg) = Some ai /\
    busy ai = true /\ flow_key (ack_msg ai) = flow_key msg.
Proof.
  unfold tcp_ack_match. destruct (find_idx _ _) as [i|] eqn:E; [|lia]. intros _.
  apply find_idx_Some in E as (ai & Hi & Hb & _). rewrite Nat2Z.id.
  apply andb_true_iff in Hb as [Hb Hk%same_flow_key]. eauto.
Qed.

Lemma match_miss m msg j :
  tcp_ack_match m msg < 0 -> sigs m !! j <> Some (true, flow_key msg).
Proof.
  unfold tcp_ack_match. destruct (find_idx _ _) as [i|] eqn:E; [lia |]. intros _.
  rewrite sigs_lookup. intros (ai & Hi & Hb & Hk).
  apply find_idx_None in E. rewrite Forall_lookup in E. specialize (E _ _ Hi). simpl in E.
  rewrite Hb in E. simpl in E. apply same_flow_key in Hk. congruence.
Qed.

(** A slot is found exactly when one is free. *)
Lemma alloc_index_spec m m' i :
  wf m -> tcp_ack_alloc_index m = (m', i) ->
  (i = -1 /\ m' = m /\ Forall (fun ai => busy ai = true) (ack_info m)) \/
  (0 <= i /\ (exists ai, ack_info m !! Z.to_nat i = Some ai /\ busy ai = false) /\
   m' = m <| free_index := -1 |> <| max_num ::= fun n => n + 1 |>).
Proof.
  intros (Hl & Hc & Hf & _) H. unfold sigs in *. rewrite length_fmap in Hl.
  assert (Hcb : countb fst (slot_sig <$> ack_info m) = countb busy (ack_info m)).
  { clear. induction (ack_info m) as [|x l IH]; [done |]. cbn in *. by rewrite IH. }
  unfold tcp_ack_alloc_index in H.
  destruct (Z.eqb_spec (max_num m) (Z.of_nat TCP_ACK_NUM)) as [E|E].
  - left. simplify_eq. repeat split. apply countb_full. congruence.
  - destruct (Z.leb_spec 0 (free_index m)); simplify_eq/=.
    + right. destruct Hf as [?|(_ & k & Hk)]; [lia |]. split; [done |]. split; [|done].
      apply sigs_lookup in Hk as (ai & ? & ? & _). eauto.
    + destruct (find_idx _ _) as [j|] eqn:Ef; simplify_eq.
      * right. apply find_idx_Some in Ef as (ai & Hj & Hb%negb_true_iff & _).
        rewrite Nat2Z.id. split; [lia |]. eauto.
      * left. repeat split. apply find_idx_None in Ef. eapply Forall_impl; [done |].
        by intros x ?%negb_false_iff.
Qed.

Lemma update_slot_wf now i m : wf m -> wf (tcp_ack_update_slot now i m).
Proof.
  intros W. unfold tcp_ack_update_slot. destruct (ack_info m !! i) as [ai|] eqn:E; [|done].
  destruct (busy ai && _) eqn:Eb; [|done]. apply andb_true_iff in Eb as [Eb _].
  unfold wf, sigs. simpl. rewrite list_fmap_insert. unfold slot_sig at 1. simpl.
  apply (wf_release _ (free_index m)); [done |]. rewrite list_lookup_fmap, E. unfold slot_sig. simpl. by rewrite Eb.
Qed.

Lemma update_wf now m : wf m -> wf (tcp_ack_update now m).
Proof.
  intros W. unfold tcp_ack_update. case_match; [|done].
  assert (W0 : wf (m <| m_last_time := now |>)) by done. revert W0.
  generalize (m <| m_last_time := now |>) as m0. generalize TCP_ACK_NUM as n.
  induction n as [|n IH]; intros m0 W0; simpl; [done |]. apply IH, update_slot_wf, W0.
Qed.

Lemma wf_same_sigs m m' :
  wf m -> max_num m' = max_num m -> free_index m' = free_index m -> sigs m' = sigs m -> wf m'.
Proof. unfold wf. by intros W -> -> ->. Qed.

Lemma move_wf m id : wf m -> wf (move_tcpack_msg m id).
Proof.
  intros W. unfold move_tcpack_msg. case_match; [|done]. apply (wf_same_sigs m); try done.
  unfold sigs. simpl. apply fmap_fmap_same. intros x. by case_match.
Qed.

Lemma handle_new_sig mtj now id m ai msg type ai' evs ret :
  tcp_ack_handle_new mtj now id m ai msg type = (ai', evs, ret) -> slot_sig ai' = slot_sig ai.
Proof.
  unfold tcp_ack_handle_new, newer_ack, arm_if_idle. intros H.
  repeat (case_match; simplify_eq/=); done.
Qed.

Lemma filter_send_parsed_wf mtj now m id drop ws msg m' evs ret :
  wf m -> filter_send_parsed mtj now m id drop ws msg = (m', evs, ret) -> wf m'.
Proof.
  intros W. unfold filter_send_parsed. intros H.
  destruct (Z.leb_spec 0 (tcp_ack_match m msg)) as [Hm|Hm].
  - destruct (match_hit _ _ Hm) as (ai & Hi & _). rewrite Hi in H.
    set (ai0 := if _ && negb (win_scale ai =? ws) then _ else _) in H.
    assert (Hs : slot_sig ai0 = slot_sig ai) by (unfold ai0; by destruct (_ && _)).
    assert (P : forall x, slot_sig x = slot_sig ai ->
      wf (m <| ack_info ::= <[Z.to_nat (tcp_ack_match m msg) := x]> |>)).
    { intros x Hx. apply (wf_same_sigs m); try done.
      unfold sigs. simpl. by eapply fmap_insert_same. }
    destruct (_ && enable m); [|injection H as <- _ _; by apply P].
    destruct (tcp_ack_handle_new _ _ _ _ _ _ _) as [[ai1 evs1] ret1] eqn:Hh.
    injection H as <- _ _. apply P. by rewrite (handle_new_sig _ _ _ _ _ _ _ _ _ _ Hh).
  - destruct (tcp_ack_alloc_index m) as [m1 i] eqn:Ha.
    destruct (alloc_index_spec _ _ _ W Ha) as [(-> & -> & _) | (Hi & (ai & Hai & Hb) & ->)].
    + by simplify_eq/=.
    + rewrite (proj2 (Z.leb_le 0 i) Hi) in H. simplify_eq. unfold wf, sigs. simpl.
      rewrite (alter_insert _ _ _ _ Hai), list_fmap_insert.
      unfold slot_sig at 1. simpl. apply (wf_take (max_num m) (free_index m) (sigs m) _
        (flow_key (ack_msg ai))); [done | | intros; by apply match_miss].
      apply sigs_lookup. eauto.
Qed.

(** ** No held acknowledgement is forgotten *)

Section NoStranding.

Context (mtj : Z -> Z) (slack : Z).
Context (mtj_nonneg : 0 <= mtj 5) (slack_nonneg : 0 <= slack) (margin : mtj 5 + slack < mtj ACK_OLD_TIME).
Context (mtj_small : mtj ACK_OLD_TIME < 2 ^ 62).

(** A held message sits in a busy slot whose timer is pending and was armed
    no later than 5 ms after the last activity of the flow. *)
Definition slot_core (now : Z) (ai : tcp_ack_info) : Prop :=
  0 <= last_time ai <= now /\ timeout ai = mtj ACK_OLD_TIME /\
  (forall e, timer ai = Some e -> e <= last_time ai + mtj 5) /\
  (msgbuf ai <> None -> busy ai = true /\ is_Some (timer ai)).

Definition slots_ok (now : Z) (l : list tcp_ack_info) : Prop :=
  Forall (fun ai => slot_core now ai /\ in_send_msg ai = None) l.

Definition inv (s : Z * tcp_ack_manage) : Prop :=
  wf s.2 /\ enable s.2 = true /\ 0 <= s.1 < 2 ^ 62 /\ slots_ok s.1 (ack_info s.2).

Lemma slots_ok_mono now now' l : now <= now' -> slots_ok now l -> slots_ok now' l.
Proof.
  intros Hn Hs. eapply Forall_impl; [exact Hs |]. unfold slot_core. intros ai. naive_solver lia.
Qed.

Lemma update_slot_ok now i m :
  0 <= now < 2 ^ 62 -> prompt slack now m -> slots_ok now (ack_info m) ->
  prompt slack now (tcp_ack_update_slot now i m) /\
  slots_ok now (ack_info (tcp_ack_update_slot now i m)).
Proof.
  intros Hn Hp Hs. unfold tcp_ack_update_slot.
  destruct (ack_info m !! i) as [ai|] eqn:E; [|done].
  destruct (busy ai && _) eqn:Eb; [|done]. apply andb_true_iff in Eb as [Eb Ha].
  pose proof (Forall_lookup_1 _ _ _ _ Hp E) as Hpi. simpl in Hpi.
  destruct (Forall_lookup_1 _ _ _ _ Hs E) as [(Hl & Ht & He & Hm) Hin].
  rewrite Ht in Ha. unfold u64 in Ha. rewrite Z.mod_small in Ha by lia.
  apply time_after_spec in Ha; [|lia|lia].
  unfold prompt. simpl. split; (apply Forall_insert; [done |]); simpl; [done |].
  unfold slot_core. simpl. repeat split; try done; try lia;
    destruct (Hm H) as [_ [e He']]; rewrite He' in Hpi; specialize (He e He'); lia.
Qed.

Lemma update_ok now m :
  0 <= now < 2 ^ 62 -> prompt slack now m -> slots_ok now (ack_info m) ->
  slots_ok now (ack_info (tcp_ack_update now m)).
Proof.
  intros Hn Hp Hs. unfold tcp_ack_update. case_match; [|done].
  assert (P : prompt slack now (m <| m_last_time := now |>) /\
              slots_ok now (ack_info (m <| m_last_time := now |>))) by done.
  revert P. generalize (m <| m_last_time := now |>) as m0. generalize TCP_ACK_NUM as n.
  induction n as [|n IH]; intros m0 [P1 P2]; simpl; [done |]. by apply IH, update_slot_ok.
Qed.

Lemma update_enable now m : enable (tcp_ack_update now m) = enable m.
Proof.
  unfold tcp_ack_update. case_match; [|done].
  transitivity (enable (m <| m_last_time := now |>)); [|done].
  generalize (m <| m_last_time := now |>) as m0. generalize TCP_ACK_NUM as n.
  induction n as [|n IH]; intros m0; simpl; [done |]. rewrite IH.
  unfold tcp_ack_update_slot. by repeat case_match.
Qed.

Lemma handle_new_core now id m ai msg type ai' evs ret :
  tcp_ack_handle_new mtj now id m ai msg type = (ai', evs, ret) ->
  slot_core now ai -> in_send_msg ai = None -> busy ai = true ->
  slot_core now ai' /\ busy ai' = true /\
  (in_send_msg ai' = None \/ (ret = 0 /\ in_send_msg ai' = Some id)).
Proof.
  intros H (Hl & Ht & He & Hm) Hin Hb.
  unfold tcp_ack_handle_new in H. simpl in H.
  destruct (U32_BEFORE _ _).
  2: { simplify_eq/=. unfold slot_core. simpl. repeat split; try done; try lia; try naive_solver.
       intros e Hte. specialize (He e Hte). lia. }
  unfold newer_ack, arm_if_idle in H. simpl in H.
  destruct (psh_flag ai && _) eqn:Q; simpl in H.
  - simplify_eq/=. unfold slot_core. simpl. repeat split; try done; try lia. by right.
  - rewrite Hin in H. simpl in H. destruct (_ <=? _); simplify_eq/=.
    + unfold slot_core. simpl. repeat split; try done; try lia. by right.
    + unfold slot_core. destruct (timer ai) as [t|] eqn:Et; simpl; rewrite ?Et;
        repeat split; try done; try lia; try (by left).
      * intros e [= ->]. specialize (He e eq_refl). lia.
      * intros e [= <-]. lia.
Qed.

(** The state between the filter and the release of the message. *)
Definition slots_sending (now : Z) (id : msgid) (l : list tcp_ack_info) : Prop :=
  Forall (fun ai => slot_core now ai /\
    (in_send_msg ai = None \/ (busy ai = true /\ in_send_msg ai = Some id))) l.

Lemma slots_ok_sending now id l : slots_ok now l -> slots_sending now id l.
Proof. intros Hs. eapply Forall_impl; [exact Hs |]. naive_solver. Qed.

Lemma move_ok now id m :
  enable m = true -> slots_sending now id (ack_info m) ->
  slots_ok now (ack_info (move_tcpack_msg m id)).
Proof.
  intros He Hs. unfold move_tcpack_msg. rewrite He. simpl.
  unfold slots_ok. rewrite Forall_fmap. eapply Forall_impl; [apply Hs |].
  intros ai [Hc Hin]. simpl.
  destruct Hin as [Hin | [Hb Hin]]; rewrite ?Hb, Hin.
  - rewrite bool_decide_false by done. rewrite andb_false_r. done.
  - rewrite bool_decide_true by done. unfold slot_core in *. simpl. naive_solver.
Qed.

Lemma filter_send_parsed_ok now m id drop ws msg m' evs ret :
  wf m -> slots_ok now (ack_info m) -> 0 <= now ->
  filter_send_parsed mtj now m id drop ws msg = (m', evs, ret) ->
  enable m' = enable m /\ slots_sending now id (ack_info m') /\
  (ret <> 0 -> slots_ok now (ack_info m')).
Proof.
  intros W Hs Hn. unfold filter_send_parsed. intros H.
  destruct (Z.leb_spec 0 (tcp_ack_match m msg)) as [Hm|Hm].
  - destruct (match_hit _ _ Hm) as (ai & Hi & Hb & _). rewrite Hi in H.
    set (ai0 := if _ && negb (win_scale ai =? ws) then _ else _) in H.
    destruct (Forall_lookup_1 _ _ _ _ Hs Hi) as [Hc Hin].
    assert (C0 : slot_core now ai0 /\ in_send_msg ai0 = None /\ busy ai0 = true)
      by (unfold ai0; by destruct (_ && _)).
    destruct C0 as (Hc0 & Hin0 & Hb0).
    destruct (_ && enable m).
    + destruct (tcp_ack_handle_new _ _ _ _ _ _ _) as [[ai1 evs1] ret1] eqn:Hh.
      injection H as <- <- <-. simpl.
      destruct (handle_new_core _ _ _ _ _ _ _ _ _ Hh Hc0 Hin0 Hb0) as (Hc1 & Hb1 & Hin1).
      split; [done |]. split.
      * apply Forall_insert; [by apply slots_ok_sending | naive_solver].
      * intros Hr. apply Forall_insert; [done | naive_solver].
    + injection H as <- <- <-. simpl. split; [done |]. split; [|done].
      apply Forall_insert; [by apply slots_ok_sending |]. split; [done | by left].
  - destruct (tcp_ack_alloc_index m) as [m1 i] eqn:Ha.
    destruct (alloc_index_spec _ _ _ W Ha) as [(-> & -> & _) | (Hi & (ai & Hai & Hb) & ->)].
    + simplify_eq/=. auto using slots_ok_sending.
    + rewrite (proj2 (Z.leb_le 0 i) Hi) in H. simplify_eq/=. split; [done |].
      destruct (Forall_lookup_1 _ _ _ _ Hs Hai) as [(Hl & Ht & He & Hms) Hin].
      split; [|done]. apply slots_ok_sending. rewrite (alter_insert _ _ _ _ Hai).
      apply Forall_insert; [done |]. unfold slot_core, track_flow. simpl.
      repeat split; try done; try lia; try naive_solver.
      intros e Hte. specialize (He e Hte). lia.
Qed.

Lemma xmit_inv now now' m id buf len m' evs go :
  inv (now, m) -> now <= now' < 2 ^ 62 -> prompt slack now' m ->
  xmit_filter mtj now' m (Some id) buf len = Ok (m', evs, go) -> inv (now', m').
Proof.
  intros (W & He & Hn & Hs) Hn' Hp H. simpl in *.
  apply (slots_ok_mono _ now') in Hs; [|lia].
  unfold xmit_filter in H. case_match; [|simplify_eq; repeat split; simpl; (done || lia || apply W)].
  simpl in H. apply bind_Ok in H as ([[m1 evs1] ret] & Hf & H).
  assert (A : wf m1 /\ enable m1 = true /\ slots_sending now' id (ack_info m1) /\
              (ret <> 0 -> slots_ok now' (ack_info m1))).
  { unfold filter_send_tcp_ack in Hf.
    destruct (MAX_TCP_ACK <? u16 len); [simplify_eq; auto using slots_ok_sending |].
    apply bind_Ok in Hf as ([[d msg] ws] & _ & Hf).
    pose proof (update_wf now' m W) as W1. pose proof (update_ok now' m ltac:(lia) Hp Hs) as S1.
    pose proof (update_enable now' m) as E1. rewrite He in E1.
    destruct (_ && _); [simplify_eq; auto using slots_ok_sending |].
    destruct msg as [msg|]; [|done]. injection Hf as Hf.
    destruct (filter_send_parsed_ok _ _ _ _ _ _ _ _ _ W1 S1 ltac:(lia) Hf) as (E2 & S2 & S3).
    pose proof (filter_send_parsed_wf _ _ _ _ _ _ _ _ _ _ W1 Hf). rewrite E2. auto. }
  destruct A as (W1 & E1 & S1 & S2).
  destruct (Z.eqb_spec ret 0); simpl in H; injection H as <- <- <-.
  - split; [|split; [|split; [simpl; lia | by apply move_ok]]]; simpl.
    + by apply move_wf.
    + unfold move_tcpack_msg. by rewrite E1.
  - split; [done |]. split; [done |]. split; [simpl; lia |]. by apply S2.
Qed.

Lemma timeout_inv now now' m i m' evs :
  inv (now, m) -> now <= now' < 2 ^ 62 -> tcp_ack_timeout m i = (m', evs) -> inv (now', m').
Proof.
  intros (W & He & Hn & Hs) Hn' H. simpl in *. apply (slots_ok_mono _ now') in Hs; [|lia].
  unfold tcp_ack_timeout in H.
  destruct (ack_info m !! i) as [ai|] eqn:E; [|simplify_eq; repeat split; simpl; (done || lia || apply W)].
  destruct (Forall_lookup_1 _ _ _ _ Hs E) as [(Hl & Ht & Hte & Hm) Hin].
  assert (P : forall x, slot_sig x = slot_sig ai ->
    wf (m <| ack_info ::= <[i := x]> |>)).
  { intros x Hx. apply (wf_same_sigs m); try done. unfold sigs. simpl. by eapply fmap_insert_same. }
  simpl in H. rewrite Hin in H.
  destruct (busy ai) eqn:Eb, (msgbuf ai) as [b|] eqn:Em; unfold intf_tx in H;
    injection H as <- <-.
  1: { split; [|split; [|split; [simpl; lia |]]].
       - apply move_wf, P. unfold slot_sig. simpl. by rewrite Eb.
       - unfold move_tcpack_msg. simpl. by rewrite He.
       - apply move_ok; [done |].
         apply Forall_insert; [by apply slots_ok_sending |]. unfold slot_core. simpl.
         repeat split; try done; try lia. by right. }
  all: (split; [apply P; unfold slot_sig; simpl; by rewrite Eb | split; [done | split; [simpl; lia |]]]).
  all: apply Forall_insert; [done |]; unfold slot_core; simpl; rewrite ?Em, ?Eb;
    repeat split; try done; try lia.
  all: exfalso; naive_solver.
Qed.

Lemma rx_inv now now' m buf plen m' :
  inv (now, m) -> now <= now' < 2 ^ 62 -> filter_rx_tcp_ack m buf plen = Ok m' -> inv (now', m').
Proof.
  intros (W & He & Hn & Hs) Hn' H. simpl in *. apply (slots_ok_mono _ now') in Hs; [|lia].
  assert (B : inv (now', m)) by (repeat split; simpl; (done || lia || apply W)).
  unfold filter_rx_tcp_ack in H. rewrite He in H. simpl in H.
  case_match; [by simplify_eq |]. apply bind_Ok in H as ([msg|] & _ & H); [|by simplify_eq].
  destruct (Z.leb_spec 0 (tcp_ack_match m msg)) as [Hm|]; [|by simplify_eq].
  injection H as <-. destruct (match_hit _ _ Hm) as (ai & Hi & _).
  destruct (Forall_lookup_1 _ _ _ _ Hs Hi) as [Hc Hin].
  split; [|split; [done | split; [simpl; lia |]]]; simpl.
  - apply (wf_same_sigs m); try done. unfold sigs. simpl. rewrite (alter_insert _ _ _ _ Hi).
    by eapply fmap_insert_same.
  - rewrite (alter_insert _ _ _ _ Hi). apply Forall_insert; done.
Qed.

Lemma init_inv now : 0 <= now < 2 ^ 62 -> inv (now, tcp_ack_init mtj now).
Proof.
  intros Hn. split; [|split; [done | split; [done |]]].
  - repeat split; simpl.
    + right. split; [lia |]. eexists. reflexivity.
    + intros i j k Hi. apply sigs_lookup in Hi as (ai & Hai & Hb & _).
      unfold tcp_ack_init in Hai. cbn [ack_info snd] in Hai.
      apply list_lookup_fmap_Some in Hai as (x & -> & _). done.
  - unfold tcp_ack_init. cbn [ack_info snd fst]. apply Forall_fmap, Forall_true. intros x. unfold slot_core. simpl.
    repeat split; try done; try lia.
Qed.

Lemma run_inv s ins evs : run mtj slack s ins evs -> inv s.
Proof.
  induction 1 as [now Hn | s ins evs s' ins' evs' _ IH Hstep]; [by apply init_inv |].
  destruct Hstep; eauto using xmit_inv, rx_inv, timeout_inv.
Qed.

(** C2. In every state the transmit path, the receive path and the slot timers can reach
    (timers served within the slack that separates 5 ms from the 4 s ageing), a held
    acknowledgement has a pending timer armed within 5 ms of the last activity of its
    flow, and serving that timer transmits exactly that message. *)
Theorem held_ack_not_stranded s ins evs i ai id :
  run mtj slack s ins evs -> ack_info s.2 !! i = Some ai -> msgbuf ai = Some id ->
  (exists e, timer ai = Some e /\ e <= last_time ai + mtj 5) /\
  exists m', tcp_ack_timeout s.2 i = (m', [EvTx id]).
Proof.
  intros Hr Hi Hm. destruct (run_inv _ _ _ Hr) as (_ & _ & _ & Hs).
  destruct (Forall_lookup_1 _ _ _ _ Hs Hi) as [(_ & _ & He & Hc) Hin].
  destruct Hc as [Hb [e Ht]]; [by rewrite Hm |]. split; [eauto |].
  unfold tcp_ack_timeout. rewrite Hi. simpl. rewrite Hb, Hm, Hin. eexists. reflexivity.
Qed.

(** In every reachable state there are 32 slots, max_num is the number of busy
    ones, no flow occupies two slots, and tcp_ack_alloc_index fails exactly when every
    slot is busy. *)
Theorem flow_table_invariant s ins evs :
  run mtj slack s ins evs ->
  length (ack_info s.2) = TCP_ACK_NUM /\ max_num s.2 = countb busy (ack_info s.2) /\
  (forall i j a b, ack_info s.2 !! i = Some a -> ack_info s.2 !! j = Some b ->
     busy a = true -> busy b = true -> flow_key (ack_msg a) = flow_key (ack_msg b) -> i = j) /\
  (snd (tcp_ack_alloc_index s.2) = -1 <-> Forall (fun ai => busy ai = true) (ack_info s.2)).
Proof.
  intros Hr. destruct (run_inv _ _ _ Hr) as (W & _). pose proof W as (Hl & Hc & _ & Hu).
  unfold sigs in *. rewrite length_fmap in Hl.
  assert (Hcb : countb fst (slot_sig <$> ack_info s.2) = countb busy (ack_info s.2)).
  { clear. induction (ack_info s.2) as [|x l IH]; [done |]. cbn in *. by rewrite IH. }
  repeat split; [done | congruence | | |].
  - intros i j a b Hi Hj Ha Hb Hk. apply (Hu i j (flow_key (ack_msg a)));
      rewrite list_lookup_fmap, ?Hi, ?Hj; unfold slot_sig; simpl; congruence.
  - destruct (tcp_ack_alloc_index s.2) as [m' i] eqn:Ha.
    destruct (alloc_index_spec _ _ _ W Ha) as [(-> & _ & ?) | (? & _)]; simpl; [done | lia].
  - intros Hall. apply countb_full in Hall. unfold tcp_ack_alloc_index.
    rewrite Hc, Hcb, Hall, Hl, Z.eqb_refl. done.
Qed.

End NoStranding.

(** ** Bounded suppression *)

(** A burst of acknowledgements of one flow, each message released as soon
    as the filter lets it through; the answers of the filter. *)
Fixpoint burst (mtj : Z -> Z) (m : tcp_ack_manage) (ai : tcp_ack_info)
    (acks : list (Z * msgid * tcp_ack_msg * Z)) : list Z :=
  match acks with
  | [] => []
  | (now, id, msg, type) :: acks =>
      let '(ai, _, ret) := tcp_ack_handle_new mtj now id m ai msg type in
      ret :: burst mtj m (if ret =? 0 then ai <| in_send_msg := None |> else ai) acks
  end.

(** Each acknowledgement is at least as new as the one before it. *)
Fixpoint in_order (seq0 : Z) (acks : list (Z * msgid * tcp_ack_msg * Z)) : Prop :=
  match acks with
  | [] => True
  | (_, _, msg, _) :: acks => U32_BEFORE seq0 (seqno msg) = true /\ in_order (seqno msg) acks
  end.

(** In a burst of in-order acknowledgements of one flow that is long enough to use
    up the suppression budget (max_drop_cnt minus the current count), at least one is
    let through. *)
Theorem burst_not_all_suppressed mtj m ai acks :
  in_order (seqno (ack_msg ai)) acks -> in_send_msg ai = None -> acks <> [] ->
  max_drop_cnt m <= drop_cnt ai + Z.of_nat (length acks) ->
  0 ∈ burst mtj m ai acks.
Proof.
  revert ai. induction acks as [|[[[now id] msg] ty] acks IH]; intros ai Ho Hin Hne Hlen; [done |].
  simpl in *. destruct Ho as [Hb Ho].
  destruct (tcp_ack_handle_new _ _ _ _ _ _ _) as [[ai' evs] ret] eqn:Hh.
  pose proof (tcp_ack_handle_new_spec _ _ _ _ _ _ _ _ _ _ Hh) as S. simpl in S.
  rewrite Hb, Hin, bool_decide_true in S by done. destruct S as (Hseq & _ & S).
  destruct (_ || _) eqn:Q; [destruct S as (-> & _); left |].
  destruct S as (-> & _ & _ & Hin' & Hd). right. simpl.
  destruct acks as [|a acks].
  - simpl in Q. apply orb_false_iff in Q as [_ Q]. apply Z.leb_gt in Q. simpl in Hlen. lia.
  - apply IH; [by rewrite Hseq | done | done |]. rewrite Hd. simpl in *. lia.
Qed.

(** ** Acknowledgements that carry more than an acknowledgement *)

(** tcp_ack_handle always lets a newer acknowledgement of type 2 through, while
    tcp_ack_handle_new, the handler the filter calls, can hold one back: the type
    computed by the parser has no effect. *)
Theorem type2_ack_is_coalesced mtj :
  (forall now id m ai msg, U32_BEFORE (seqno (ack_msg ai)) (seqno msg) = true ->
     snd (tcp_ack_handle mtj now id m ai msg 2) = 0) /\
  (exists now id m ai msg, U32_BEFORE (seqno (ack_msg ai)) (seqno msg) = true /\
     snd (tcp_ack_handle_new mtj now id m ai msg 2) = 1).
Proof.
  split.
  - intros now id m ai msg H. unfold tcp_ack_handle. simpl. by rewrite H.
  - exists 0, 1%positive, (tcp_ack_init mtj 0),
      {| ack_info_num := 0; busy := true; drop_cnt := 0; psh_flag := false; psh_seq := 0;
         win_scale := 1; last_time := 0; timeout := 0; timer := None; msgbuf := None;
         in_send_msg := None; ack_msg := TcpAckMsg 1 2 3 4 100 0 |},
      (TcpAckMsg 1 2 3 4 200 0).
    done.
Qed.

(** ** A race between two transmitters

    Without the release directly after the filter (two processors inside the
    transmit path) the timer of a held message can expire while an earlier
    message of the flow is still marked as being sent; nothing arms it again. *)
Definition race_msg (sq : Z) : tcp_ack_msg := TcpAckMsg 80 5000 1 2 sq 100.

Definition race : tcp_ack_manage :=
  let mtj := fun ms => ms in
  let m := (filter_send_parsed mtj 10 (tcp_ack_init mtj 0) 1 1 0 (race_msg 1000)).1.1 in
  let m := (filter_send_parsed mtj 11 m 2 1 0 (race_msg 2000)).1.1 in (* sent, not released *)
  let m := (filter_send_parsed mtj 12 m 3 1 0 (race_msg 3000)).1.1 in (* held *)
  let m := (tcp_ack_timeout m 0).1 in                                 (* expires in between *)
  move_tcpack_msg m 2.                                                (* released at last *)

(** When a slot timer expires between the filter and the release of an earlier
    message (two transmitters), the interleaving ends in a state with a held message,
    nothing in flight and no timer pending. *)
Theorem held_ack_stranded_by_race :
  exists ai, ack_info race !! 0%nat = Some ai /\ busy ai = true /\
    msgbuf ai = Some 3%positive /\ in_send_msg ai = None /\ timer ai = None.
Proof. eexists. vm_compute. done. Qed.

(** ** Concrete runs *)

(** A 54-byte frame: an acknowledgement of [sq] on one fixed connection. *)
Definition ack_frame (sq : Z) : list Z :=
  replicate 12 0 ++ [8; 0] ++
  [0x45; 0; 0; 40; 0; 0; 0; 0; 64; 6; 0; 0; 10; 0; 0; 1; 10; 0; 0; 2] ++
  [0; 80; 19; 136; 0; 0; 0; 0] ++ [0; 0; Z.shiftr sq 8; Z.land sq 255] ++
  [0x50; 0x10; 1; 0; 0; 0; 0; 0].

Definition demo_mtj (ms : Z) : Z := ms / 4.
Definition demo_xmit (now : Z) (m : tcp_ack_manage) (id : msgid) (sq : Z)
    : tcp_ack_manage * list event :=
  match xmit_filter demo_mtj now m (Some id) (ack_frame sq) 54 with
  | Ok (m, evs, _) => (m, evs)
  | _ => (m, [])
  end.

Definition demo0 := tcp_ack_init demo_mtj 0.
Definition demo1 := (demo_xmit 1 demo0 1 1000).1.
Definition demo2 := (demo_xmit 2 demo1 2 2000).1.
Definition demo3 := (demo_xmit 3 demo2 3 3000).1.

#[local] Opaque demo0 demo1 demo2 demo3.

Lemma demo_step1 :
  xmit_filter demo_mtj 1 demo0 (Some 1%positive) (ack_frame 1000) 54 = Ok (demo1, [EvTx 1], true).
Proof. vm_compute. reflexivity. Qed.
Lemma demo_step2 :
  xmit_filter demo_mtj 2 demo1 (Some 2%positive) (ack_frame 2000) 54 = Ok (demo2, [EvTx 2], true).
Proof. vm_compute. reflexivity. Qed.
Lemma demo_step3 :
  xmit_filter demo_mtj 3 demo2 (Some 3%positive) (ack_frame 3000) 54 = Ok (demo3, [], false).
Proof. vm_compute. reflexivity. Qed.
Lemma demo_prompt0 : prompt 100 1 demo0.
Proof. vm_compute. repeat constructor. Qed.
Lemma demo_prompt1 : prompt 100 2 demo1.
Proof. vm_compute. repeat constructor. Qed.
Lemma demo_prompt2 : prompt 100 3 demo2.
Proof. vm_compute. repeat constructor. Qed.

(** The first message opens the flow, the second is sent, the third is held. *)
Lemma demo_run :
  run demo_mtj 100 (3, demo3) [1; 2; 3]%positive [EvTx 1; EvTx 2].
Proof.
  change [1; 2; 3]%positive with ((([] ++ [1%positive]) ++ [2%positive]) ++ [3%positive]).
  change [EvTx 1; EvTx 2] with ((([] ++ [EvTx 1]) ++ [EvTx 2]) ++ []).
  eapply run_step; [eapply run_step; [eapply run_step; [apply (run_init _ _ 0); lia |] |] |].
  - eapply (step_xmit _ _ 0 1 demo0 _ (ack_frame 1000) 54 demo1 _ true);
      [lia | exact demo_prompt0 | done | exact demo_step1].
  - eapply (step_xmit _ _ 1 2 demo1 _ (ack_frame 2000) 54 demo2 _ true);
      [lia | exact demo_prompt1 | done | exact demo_step2].
  - eapply (step_xmit _ _ 2 3 demo2 _ (ack_frame 3000) 54 demo3 _ false);
      [lia | exact demo_prompt2 | done | exact demo_step3].
Qed.

(** The slot of the flow: message 3 is held, its timer is pending. *)
Definition demo_slot : tcp_ack_info :=
  {| ack_info_num := 0; busy := true; drop_cnt := 1; psh_flag := false; psh_seq := 0;
     win_scale := 1; last_time := 3; timeout := 1000; timer := Some 4;
     msgbuf := Some 3%positive; in_send_msg := None;
     ack_msg := TcpAckMsg 20480 34835 16777226 33554442 3000 0 |}.

Lemma demo_slot_held : ack_info demo3 !! 0%nat = Some demo_slot.
Proof. vm_compute. reflexivity. Qed.

Lemma is_drop_tcp_ack_options_witness :
  is_drop_tcp_ack (replicate 12 0 ++ [0x80] ++ replicate 7 0 ++
      [1; 8; 10; 0; 0; 0; 1; 0; 0; 0; 2; 1]) 0 32 0 = Ok (1, 0).
Proof.
  apply (is_drop_tcp_ack_options (replicate 12 0 ++ [0x80] ++ replicate 7 0)
    [ONop; OTimestamp [0; 0; 0; 1; 0; 0; 0; 2]; ONop] [] 0 0x80 32);
    [repeat constructor | reflexivity | reflexivity | reflexivity | vm_compute; discriminate].
Defined.

Lemma opt_walk_eol_overrun_witness :
  let buf := replicate 20 7 ++ [1] ++ [0; 0; 0] in
  opt_walk (S (length buf)) buf 20 4 1 0 = Fault.
Proof.
  apply (opt_walk_eol_overrun (replicate 20 7) [ONop] 3 4 0); [repeat constructor | done].
Defined.

Lemma tcp_ack_handle_new_spec_witness :
  exists ai', tcp_ack_handle_new demo_mtj 4 4 demo0 demo_slot (TcpAckMsg 0 0 0 0 5000 0) 1
    = (ai', [EvDrop 3], 1) /\ seqno (ack_msg ai') = 5000.
Proof.
  eexists. split; [reflexivity |].
  exact (proj1 (tcp_ack_handle_new_spec demo_mtj 4 4 demo0 demo_slot (TcpAckMsg 0 0 0 0 5000 0) 1
    _ [EvDrop 3] 1 eq_refl)).
Defined.

Lemma messages_accounted_witness :
  [1; 2; 3]%positive ≡ₚ (ev_id <$> [EvTx 1; EvTx 2]) ++ held (3, demo3).2.
Proof. exact (messages_accounted demo_mtj 100 _ _ _ demo_run). Defined.

Lemma held_ack_not_stranded_witness :
  exists m', tcp_ack_timeout demo3 0 = (m', [EvTx 3]).
Proof.
  refine (proj2 (held_ack_not_stranded demo_mtj 100 _ _ _ _ (3, demo3) _ _ 0%nat demo_slot 3
    demo_run demo_slot_held eq_refl)); vm_compute; (reflexivity || discriminate).
Defined.

Lemma flow_table_invariant_witness :
  max_num demo3 = countb busy (ack_info demo3) /\ max_num demo3 = 1.
Proof.
  split; [|vm_compute; reflexivity].
  refine (proj1 (proj2 (flow_table_invariant demo_mtj 100 _ _ _ _ (3, demo3) _ _ demo_run)));
    vm_compute; (reflexivity || discriminate).
Defined.

Lemma burst_not_all_suppressed_witness :
  0 ∈ burst demo_mtj demo0 demo_slot
    ((fun i => (Z.of_nat i, 9%positive, TcpAckMsg 0 0 0 0 (4000 + Z.of_nat i) 0, 1)) <$> seq 0 10).
Proof.
  apply burst_not_all_suppressed; vm_compute; try discriminate; repeat split.
Defined.

End TcpAck.
