(* ===== verification/RxAmsdu.v ===== *)
(** * A-MSDU deaggregation (rwnx_rxdata_process_amsdu of rwnx_rx.c)

    An A-MSDU is a sequence of subframes: destination, source, a 16-bit
    big-endian length, then that many bytes (LLC/SNAP header first), padded
    to a multiple of four.  The driver copies each subframe, without the six
    LLC/SNAP bytes, into a socket buffer of its own.  The allocator is the
    number of buffers it can still hand out. *)

From stdpp Require Import prelude.
From S2P Require Import Prelude.
Open Scope Z_scope.

Module Amsdu.

Definition MAC_ADDR_LEN : nat := 6.

(** [roundup(x, 4)] of the kernel. *)
Definition roundup4 (x : Z) : Z := (x + 3) / 4 * 4.

(** [skb_pull]: too long a pull leaves the buffer as it is. *)
Definition skb_pull (data : list Z) (n : Z) : list Z :=
  if Z.of_nat (length data) <? n then data else drop (Z.to_nat n) data.

(** The copy of one subframe: 12 address bytes, then the payload from the
    Ethernet type on. *)
Definition sub_frame (data : list Z) (sublen : Z) : list Z :=
  take 12 data ++ take (Z.to_nat (sublen - 6)) (drop 20 data).

(** The loop; [allocs] allocations succeed, [vif] tells whether the interface
    is active.  A subframe shorter than its LLC/SNAP header makes the copy
    length negative. *)
Fixpoint process_amsdu (allocs : nat) (vif : bool) (data : list Z) : res (list (list Z)) :=
  let len := Z.of_nat (length data) in
  if 16 <? len then
    sublen ← rd_be16 data 12;
    let len_alligned :=
      if sublen + 14 <? len then Some (u16 (roundup4 (sublen + 14)))
      else if len =? sublen + 14 then Some (u16 (sublen + 14))
      else None in
    match len_alligned with
    | None => Ok []
    | Some n =>
        match allocs with
        | O => Ok []
        | S allocs =>
            if sublen <? 6 then Fault
            else if negb vif then Ok []
            else
              rest ← process_amsdu allocs vif (skb_pull data n);
              Ok (sub_frame data sublen :: rest)
        end
    end
  else Ok [].

(** ** What a sender writes *)

Record subframe := Subframe { sf_da : list Z; sf_sa : list Z; sf_snap : list Z; sf_body : list Z }.

Definition sf_ok (s : subframe) : Prop :=
  length (sf_da s) = 6%nat /\ length (sf_sa s) = 6%nat /\ length (sf_snap s) = 6%nat /\
  (length (sf_body s) <= 2304)%nat.

Definition sf_len (s : subframe) : Z := 6 + Z.of_nat (length (sf_body s)).

Definition sf_pad (s : subframe) : list Z :=
  replicate (Z.to_nat (roundup4 (sf_len s + 14) - (sf_len s + 14))) 0.

(** Every subframe but the last is padded, the last one may be. *)
Definition enc_raw (s : subframe) : list Z :=
  sf_da s ++ sf_sa s ++ [sf_len s / 256; sf_len s mod 256] ++ sf_snap s ++ sf_body s.

Fixpoint enc_amsdu (pad_last : bool) (l : list subframe) : list Z :=
  match l with
  | [] => []
  | [s] => enc_raw s ++ (if pad_last then sf_pad s else [])
  | s :: l => enc_raw s ++ sf_pad s ++ enc_amsdu pad_last l
  end.

(** What the upper layer is meant to receive. *)
Definition sf_msdu (s : subframe) : list Z := sf_da s ++ sf_sa s ++ sf_body s.

(** ** Lemmas *)

Lemma roundup4_spec x : 0 <= x -> x <= roundup4 x < x + 4 /\ roundup4 x mod 4 = 0.
Proof.
  intros. unfold roundup4. split; [|apply Z_mod_mult].
  pose proof (Z.div_mod (x + 3) 4 ltac:(lia)). pose proof (Z.mod_pos_bound (x + 3) 4 ltac:(lia)). lia.
Qed.

Lemma enc_raw_length s : sf_ok s -> Z.of_nat (length (enc_raw s)) = sf_len s + 14.
Proof.
  intros (H1 & H2 & H3 & _). unfold enc_raw, sf_len. rewrite !length_app. simpl. lia.
Qed.

Lemma sf_pad_length s : sf_ok s ->
  Z.of_nat (length (sf_pad s)) = roundup4 (sf_len s + 14) - (sf_len s + 14).
Proof.
  intros _. unfold sf_pad, sf_len. rewrite length_replicate.
  pose proof (roundup4_spec (6 + Z.of_nat (length (sf_body s)) + 14)). lia.
Qed.

Lemma enc_raw_sublen s rest : sf_ok s -> rd_be16 (enc_raw s ++ rest) 12 = Ok (sf_len s).
Proof.
  intros (H1 & H2 & _). unfold enc_raw.
  assert (E : (sf_da s ++ sf_sa s ++ [sf_len s / 256; sf_len s mod 256] ++ sf_snap s ++ sf_body s) ++ rest
    = (sf_da s ++ sf_sa s) ++ sf_len s / 256 :: sf_len s mod 256 :: sf_snap s ++ sf_body s ++ rest)
    by (rewrite <- !app_assoc; done).
  rewrite E, rd_be16_at by (rewrite length_app; lia). f_equal.
  change (2 ^ 8) with 256. symmetry. apply Z.div_mod. lia.
Qed.

Lemma enc_raw_sub s rest : sf_ok s -> sub_frame (enc_raw s ++ rest) (sf_len s) = sf_msdu s.
Proof.
  intros (H1 & H2 & H3 & _). unfold sub_frame, enc_raw, sf_msdu, sf_len.
  rewrite <- !app_assoc, (app_assoc (sf_da s)).
  rewrite take_app_length' by (rewrite length_app; lia).
  rewrite (app_assoc (_ ++ _)), (app_assoc _ (sf_snap s)).
  rewrite drop_app_length' by (rewrite !length_app; simpl; lia).
  rewrite take_app_length' by lia. by rewrite <- app_assoc.
Qed.

Lemma process_one allocs s rest :
  sf_ok s -> rest = [] \/ (exists r, rest = sf_pad s ++ r) ->
  process_amsdu (S allocs) true (enc_raw s ++ rest) =
  tail ← process_amsdu allocs true (drop (length (sf_pad s)) rest);
  Ok (sf_msdu s :: tail).
Proof.
  intros Hok Hrest. cbn [process_amsdu]. cbv zeta.
  pose proof (enc_raw_length s Hok) as Hl. pose proof (sf_pad_length s Hok) as Hp.
  assert (6 <= sf_len s < 2400) by (unfold sf_len; destruct Hok as (_ & _ & _ & ?); lia).
  pose proof (roundup4_spec (sf_len s + 14) ltac:(lia)) as [Hr Hm].
  rewrite length_app, Nat2Z.inj_add, Hl.
  destruct (Z.ltb_spec 16 (sf_len s + 14 + Z.of_nat (length rest))); [|lia].
  rewrite enc_raw_sublen by done. cbn [mbind res_bind].
  destruct (Z.ltb_spec (sf_len s + 14) (sf_len s + 14 + Z.of_nat (length rest))) as [Hlt|Hge].
  - destruct Hrest as [-> | (r & ->)]; [simpl in Hlt; lia |].
    destruct (Z.ltb_spec (sf_len s) 6); [lia |]. cbn [negb].
    rewrite enc_raw_sub by done. rewrite u16_id by lia. rewrite drop_app_length.
    unfold skb_pull. rewrite !length_app.
    destruct (Z.ltb_spec (Z.of_nat (length (enc_raw s) + (length (sf_pad s) + length r)))
      (roundup4 (sf_len s + 14))); [lia |].
    rewrite app_assoc, drop_app_length' by (rewrite length_app; lia). done.
  - destruct rest as [|x rest]; [|simpl in Hge; lia]. simpl length.
    rewrite (proj2 (Z.eqb_eq _ _)) by lia.
    destruct (Z.ltb_spec (sf_len s) 6); [lia |]. cbn [negb].
    rewrite enc_raw_sub by done. rewrite u16_id by lia. rewrite drop_nil.
    unfold skb_pull. rewrite length_app, Nat2Z.inj_add, Hl. simpl length.
    destruct (Z.ltb_spec (sf_len s + 14 + Z.of_nat 0) (sf_len s + 14)); [lia |].
    rewrite drop_app_length' by lia. done.
Qed.

(** C33. Splitting an A-MSDU built from any sequence of subframes (padded, the last one
    with or without padding) yields exactly the subframes without their LLC/SNAP bytes,
    in order, when enough buffers can be allocated. *)
Theorem process_amsdu_roundtrip allocs pad_last l :
  Forall sf_ok l -> (length l <= allocs)%nat ->
  process_amsdu allocs true (enc_amsdu pad_last l) = Ok (sf_msdu <$> l).
Proof.
  revert allocs. induction l as [|s l IH]; intros allocs Hok Hlen.
  - by destruct allocs.
  - apply Forall_cons in Hok as [Hs Hok]. destruct allocs as [|allocs]; [simpl in Hlen; lia |].
    simpl in Hlen. destruct l as [|s' l].
    + cbn [enc_amsdu]. rewrite process_one; [|done|].
      * destruct pad_last; rewrite ?drop_all, ?drop_nil; by destruct allocs.
      * destruct pad_last; [right; exists []; by rewrite app_nil_r | by left].
    + cbn [enc_amsdu]. rewrite process_one; [|done|right; eauto].
      rewrite drop_app_length. rewrite IH by (done || lia). done.
Qed.

(** A trailing subframe followed by fewer padding bytes than the rounded length
    asks for is never pulled from the buffer: the loop copies the same subframe again
    and again until allocation fails. *)
Theorem process_amsdu_short_padding allocs s pad :
  sf_ok s -> (0 < length pad)%nat -> Z.of_nat (length pad) < roundup4 (sf_len s + 14) - (sf_len s + 14) ->
  process_amsdu allocs true (enc_raw s ++ pad) = Ok (replicate allocs (sf_msdu s)).
Proof.
  intros Hok Hp1 Hp2. pose proof (enc_raw_length s Hok) as Hl.
  assert (6 <= sf_len s < 2400) by (unfold sf_len; destruct Hok as (_ & _ & _ & ?); lia).
  pose proof (roundup4_spec (sf_len s + 14) ltac:(lia)) as [Hr Hm].
  induction allocs as [|allocs IH]; cbn [process_amsdu]; cbv zeta;
    rewrite length_app, Nat2Z.inj_add, Hl;
    (destruct (Z.ltb_spec 16 (sf_len s + 14 + Z.of_nat (length pad))); [|lia]);
    rewrite enc_raw_sublen by done; cbn [mbind res_bind];
    (destruct (Z.ltb_spec (sf_len s + 14) (sf_len s + 14 + Z.of_nat (length pad))); [|lia]);
    [done |].
  destruct (Z.ltb_spec (sf_len s) 6); [lia |]. cbn [negb].
  unfold skb_pull. rewrite u16_id by lia. rewrite length_app, Nat2Z.inj_add, Hl.
  destruct (Z.ltb_spec (sf_len s + 14 + Z.of_nat (length pad)) (roundup4 (sf_len s + 14))); [|lia].
  rewrite IH. cbn. by rewrite enc_raw_sub.
Qed.

(** A subframe length below 6 makes the copied length negative. *)
Theorem process_amsdu_tiny_subframe allocs vif da sa lo rest :
  length da = 6%nat -> length sa = 6%nat -> 0 <= lo < 6 -> (6 <= length rest)%nat ->
  process_amsdu (S allocs) vif (da ++ sa ++ [0; lo] ++ rest) = Fault.
Proof.
  intros H1 H2 Hlo Hr. cbn [process_amsdu]. cbv zeta.
  assert (E : Z.of_nat (length (da ++ sa ++ [0; lo] ++ rest)) = 14 + Z.of_nat (length rest))
    by (rewrite !length_app; simpl; lia).
  rewrite E. destruct (Z.ltb_spec 16 (14 + Z.of_nat (length rest))); [|lia].
  rewrite (app_assoc da). cbn [app].
  rewrite rd_be16_at by (rewrite length_app; lia). cbn [mbind res_bind].
  replace (2 ^ 8 * 0 + lo) with lo by lia.
  destruct (Z.ltb_spec (lo + 14) (14 + Z.of_nat (length rest))); [|lia].
  destruct (Z.ltb_spec lo 6); [done | lia].
Qed.

(** ** Witnesses *)

Definition demo_sf : subframe := Subframe (replicate 6 1) (replicate 6 2) (replicate 6 0xAA) [8; 0; 7].

Lemma process_amsdu_roundtrip_witness :
  process_amsdu 2 true (enc_amsdu false [demo_sf; demo_sf]) =
    Ok [sf_msdu demo_sf; sf_msdu demo_sf].
Proof.
  apply (process_amsdu_roundtrip 2 false [demo_sf; demo_sf]);
    [repeat constructor; simpl; lia | simpl; lia].
Defined.

Definition demo_odd : subframe := Subframe (replicate 6 1) (replicate 6 2) (replicate 6 0xAA) [8; 0; 7; 7; 7; 7].

Lemma process_amsdu_short_padding_witness :
  process_amsdu 1000 true (enc_raw demo_odd ++ [0]) = Ok (replicate 1000 (sf_msdu demo_odd)).
Proof.
  apply process_amsdu_short_padding; [repeat constructor; simpl; lia | simpl; lia | reflexivity].
Defined.

Lemma process_amsdu_tiny_subframe_witness :
  process_amsdu 1 true (replicate 6 1 ++ replicate 6 2 ++ [0; 3] ++ replicate 6 9) = Fault.
Proof. apply process_amsdu_tiny_subframe; (reflexivity || lia || (simpl; lia)). Defined.

End Amsdu.
