(* ===== verification/RxReorder.v ===== *)
(** * Receive reordering (the AICWF_RX_REORDER part of rwnx_rx.c)

    Block-acknowledged frames of a traffic class may arrive out of order; the
    driver keeps, per station and TID, a [reord_ctrl]: the next sequence
    number to hand up ([ind_sn], 12 bits), a window of 64 and a list of
    pending frames sorted by sequence number.  A timer gives up on a gap.

    A frame descriptor ([recv_msdu]) comes from a fixed pool and is its pool
    identity [fid] with the contents it was filled with.  [EvInd] marks the
    hand-over of a frame to [reord_single_frame_ind], [EvNetif] a buffer given
    to the network stack, [EvResend] a copy queued for transmission,
    [EvMgmt] a management frame given to the management handler, [EvFree] a
    freed socket buffer. *)

From Stdlib Require Import Sorting.Sorted.
From stdpp Require Import prelude.
From S2P Require Import Prelude RxAmsdu TcpAck.
Open Scope Z_scope.

Module Reorder.

(** ** Data *)

Definition AICWF_REORDER_WINSIZE : Z := 64.
Definition ETH_P_PAE : Z := 0x888E.

Definition SN_LESS (a b : Z) : bool := negb (Z.land (a - b) 0x800 =? 0).
Definition SN_EQUAL (a b : Z) : bool := a =? b.

Inductive iftype := STATION | P2P_CLIENT | AP | P2P_GO | AP_VLAN | MESH_POINT | OTHER_IF.

(** A socket buffer: identity and bytes. *)
Record sk_buff := SkBuff { skb_id : positive; skb_data : list Z }.
Definition skb_len (s : sk_buff) : Z := Z.of_nat (length (skb_data s)).

Record recv_msdu := RecvMsdu {
  fid : nat; pkt : sk_buff; tid : Z; seq_num : Z; forward : bool; is_amsdu : bool }.

Record reord_ctrl := ReordCtrl {
  enable : bool;
  ind_sn : Z;
  wsize_b : Z;
  reord_list : list recv_msdu;
  reord_timer : option Z;        (* pending expiry *)
  reord_timer_work : bool }.     (* work queued *)

Record reord_ctrl_info := ReordCtrlInfo {
  mac_addr : list Z;
  preorder_ctrl : list reord_ctrl }.

Record aicwf_rx_priv := RxPriv {
  rwnx_vif : option iftype;      (* the interface the frame belongs to *)
  bus_down : bool;
  rxframes_freequeue : list nat;
  stas_reord_list : list reord_ctrl_info;
  rx_packets : Z;
  rx_bytes : Z;
  ack_m : TcpAck.tcp_ack_manage }.   (* of the device *)

#[global] Instance eta_ctrl : Settable reord_ctrl := fun r =>
  ReordCtrl (enable r) (ind_sn r) (wsize_b r) (reord_list r) (reord_timer r) (reord_timer_work r).
#[global] Instance eta_info : Settable reord_ctrl_info := fun r =>
  ReordCtrlInfo (mac_addr r) (preorder_ctrl r).
#[global] Instance eta_priv : Settable aicwf_rx_priv := fun r =>
  RxPriv (rwnx_vif r) (bus_down r) (rxframes_freequeue r) (stas_reord_list r)
    (rx_packets r) (rx_bytes r) (ack_m r).

Inductive event :=
| EvInd (f : recv_msdu)
| EvNetif (data : list Z)
| EvResend (data : list Z)
| EvMgmt (data : list Z)
| EvFree (skb : positive).

(** ** The window *)

Definition reord_need_check (c : reord_ctrl) (sn : Z) : reord_ctrl * Z :=
  let wsize := wsize_b c in
  let wend := Z.land (ind_sn c + wsize - 1) 0xFFF in
  let c := if ind_sn c =? 0xFFFF then c <| ind_sn := sn |> else c in
  if SN_LESS sn (ind_sn c) then (c, -1)
  else if SN_EQUAL sn (ind_sn c) then
    (c <| ind_sn := Z.land (ind_sn c + 1) 0xFFF |>, 0)
  else if SN_LESS wend sn then
    if wsize - 1 <=? sn then (c <| ind_sn := u16 (sn - (wsize - 1)) |>, 0)
    else (c <| ind_sn := u16 (0xFFF - (wsize - (sn + 1)) + 1) |>, 0)
  else (c, 0).

(** Insertion before the first frame that does not precede the new one;
    [None] when a frame with the same number is there. *)
Fixpoint enqueue_list (f : recv_msdu) (l : list recv_msdu) : option (list recv_msdu) :=
  match l with
  | [] => Some [f]
  | n :: l' =>
      if SN_LESS (seq_num n) (seq_num f) then
        option_map (cons n) (enqueue_list f l')
      else if SN_EQUAL (seq_num n) (seq_num f) then None
      else Some (f :: l)
  end.

Definition reord_rxframe_enqueue (c : reord_ctrl) (f : recv_msdu) : reord_ctrl * Z :=
  match enqueue_list f (reord_list c) with
  | Some l => (c <| reord_list := l |>, 0)
  | None => (c, -1)
  end.

(** The scan of [reord_rxframes_process]: the advanced number and whether a
    frame stays in the buffer. *)
Fixpoint process_scan (sn : Z) (l : list recv_msdu) : Z * bool :=
  match l with
  | [] => (sn, false)
  | f :: l =>
      if negb (SN_LESS sn (seq_num f)) then
        process_scan (if SN_EQUAL sn (seq_num f) then Z.land (sn + 1) 0xFFF else sn) l
      else (sn, true)
  end.

Definition reord_rxframes_process (c : reord_ctrl) (bforced : bool) : reord_ctrl * bool :=
  match reord_list c with
  | [] => (c, false)
  | f :: _ =>
      let sn := if bforced then seq_num f else ind_sn c in
      let '(sn, bPktInBuf) := process_scan sn (reord_list c) in
      (c <| ind_sn := sn |>, bPktInBuf)
  end.

Section Driver.

(** The module parameter [reorder_timeout] in ticks, and the number of
    buffers the allocator can hand out for A-MSDU subframes. *)
Context (reorder_timeout : Z) (allocs : nat).

(** ** Handing a frame up *)

Definition reord_rxframe_free (rx : aicwf_rx_priv) (f : nat) : aicwf_rx_priv :=
  rx <| rxframes_freequeue ::= cons f |>.

Definition reord_rxframe_alloc (rx : aicwf_rx_priv) : option (nat * aicwf_rx_priv) :=
  match rxframes_freequeue rx with
  | [] => None
  | f :: q => Some (f, rx <| rxframes_freequeue := q |>)
  end.

(** [eth_type_trans] of the kernel moves the start of the buffer past the
    Ethernet header. *)
Definition eth_type_trans (data : list Z) : list Z := Amsdu.skb_pull data 14.

(** The delivery loop of [reord_single_frame_ind]: statistics, the receive
    hook of the TCP ACK filter, then the stack.  [arpoffload_proc], which watches
    for DHCP acknowledgements and touches none of this state, is left out. *)
Fixpoint netif_loop (rx : aicwf_rx_priv) (list : list (list Z))
    : res (aicwf_rx_priv * Datatypes.list event) :=
  match list with
  | [] => Ok (rx, [])
  | rx_skb :: list =>
      let rx := rx <| rx_packets ::= fun n => n + 1 |>
                   <| rx_bytes ::= fun n => n + Z.of_nat (length rx_skb) |> in
      let data := eth_type_trans rx_skb in
      m ← TcpAck.filter_rx_tcp_ack (ack_m rx) data (u16 (Z.of_nat (length data)));
      r ← netif_loop (rx <| ack_m := m |>) list;
      let '(rx, evs) := r in Ok (rx, EvNetif rx_skb :: evs)
  end.

(** The buffers a frame consists of: the subframes of an A-MSDU (of an
    interface that is up) or the frame itself. *)
Definition frame_bufs (f : recv_msdu) : res (list (list Z)) :=
  if is_amsdu f then Amsdu.process_amsdu allocs true (skb_data (pkt f))
  else Ok [skb_data (pkt f)].

(** A frame with a socket buffer (every descriptor taken from the pool has
    one until it is handed up).  The split of an A-MSDU frees the aggregate. *)
Definition reord_single_frame_ind (rx : aicwf_rx_priv) (f : recv_msdu)
    : res (aicwf_rx_priv * list event) :=
  if negb (forward f) then
    Ok (reord_rxframe_free rx (fid f), [EvInd f; EvFree (skb_id (pkt f))])
  else
    list ← frame_bufs f;
    r ← netif_loop rx list;
    let '(rx, evs) := r in
    Ok (reord_rxframe_free rx (fid f),
        EvInd f :: (if is_amsdu f then [EvFree (skb_id (pkt f))] else []) ++ evs).

(** The loop of [reord_rxframes_ind]: what remains on the list. *)
Fixpoint rxframes_ind_loop (rx : aicwf_rx_priv) (sn : Z) (l : list recv_msdu)
    : res (aicwf_rx_priv * list event * list recv_msdu) :=
  match l with
  | [] => Ok (rx, [], [])
  | f :: l' =>
      if negb (SN_LESS sn (seq_num f)) then
        r ← reord_single_frame_ind rx f;
        let '(rx, evs) := r in
        r ← rxframes_ind_loop rx sn l';
        let '(rx, evs', rest) := r in Ok (rx, evs ++ evs', rest)
      else Ok (rx, [], l)
  end.

Definition reord_rxframes_ind (rx : aicwf_rx_priv) (c : reord_ctrl)
    : res (aicwf_rx_priv * list event * reord_ctrl) :=
  r ← rxframes_ind_loop rx (ind_sn c) (reord_list c);
  let '(rx, evs, rest) := r in Ok (rx, evs, c <| reord_list := rest |>).

(** ** Timer and work item *)

Definition reord_timeout_handler (c : reord_ctrl) : reord_ctrl :=
  c <| reord_timer := None |> <| reord_timer_work := true |>.

Definition reord_timeout_worker (now : Z) (rx : aicwf_rx_priv) (c : reord_ctrl)
    : res (aicwf_rx_priv * list event * reord_ctrl) :=
  let c := c <| reord_timer_work := false |> in
  let '(c, more) := reord_rxframes_process c true in
  let c := if more then c <| reord_timer := Some (now + reorder_timeout) |> else c in
  reord_rxframes_ind rx c.

(** ** Stations *)

Definition new_ctrl : reord_ctrl :=
  {| enable := true; ind_sn := 0xffff; wsize_b := AICWF_REORDER_WINSIZE; reord_list := [];
     reord_timer := None; reord_timer_work := false |}.

(** [kmalloc]: whether the allocation succeeds. *)
Definition reord_init_sta (rx : aicwf_rx_priv) (kmalloc : bool) (mac : list Z)
    : option reord_ctrl_info :=
  if bus_down rx then None
  else if negb kmalloc then None
  else Some {| mac_addr := mac; preorder_ctrl := replicate 8 new_ctrl |}.

Definition find_sta (rx : aicwf_rx_priv) (mac : list Z) : option nat :=
  find_idx (fun s => bool_decide (mac_addr s = mac)) (stas_reord_list rx).

(** The address that names the peer in the Ethernet header. *)
Definition peer_mac (t : iftype) (data : list Z) : option (list Z) :=
  match t with
  | STATION | P2P_CLIENT => Some (take 6 data)
  | AP | P2P_GO => Some (take 6 (drop 6 data))
  | _ => None
  end.

Definition put_ctrl (rx : aicwf_rx_priv) (i : nat) (t : Z) (c : reord_ctrl) : aicwf_rx_priv :=
  rx <| stas_reord_list ::=
    alter (fun s => s <| preorder_ctrl ::= <[Z.to_nat t := c]> |>) i |>.

Definition get_ctrl (rx : aicwf_rx_priv) (i : nat) (t : Z) : res reord_ctrl :=
  match stas_reord_list rx !! i with
  | None => Fault
  | Some s => match (if t <? 0 then None else preorder_ctrl s !! Z.to_nat t) with
              | Some c => Ok c
              | None => Fault
              end
  end.

(** [reord_flush_tid]: everything pending goes up, reordering is switched off
    until the next frame that asks for it. *)
Fixpoint flush_loop (rx : aicwf_rx_priv) (l : list recv_msdu) : res (aicwf_rx_priv * list event) :=
  match l with
  | [] => Ok (rx, [])
  | f :: l =>
      r ← reord_single_frame_ind rx f;
      let '(rx, evs) := r in
      r ← flush_loop rx l;
      let '(rx, evs') := r in Ok (rx, evs ++ evs')
  end.

Definition reord_flush_tid (rx : aicwf_rx_priv) (skb : sk_buff) (t : Z)
    : res (aicwf_rx_priv * list event * Z) :=
  match rwnx_vif rx with
  | None => Fault
  | Some ift =>
      match peer_mac ift (skb_data skb) with
      | None => Ok (rx, [EvFree (skb_id skb)], -1)
      | Some mac =>
          match find_sta rx mac with
          | None => Ok (rx, [], 0)
          | Some i =>
              c ← get_ctrl rx i t;
              if negb (enable c) then Ok (rx, [], 0)
              else
                r ← flush_loop rx (reord_list c);
                let '(rx, evs) := r in
                Ok (put_ctrl rx i t (c <| reord_list := [] |> <| enable := false |>
                      <| reord_timer := None |> <| reord_timer_work := false |>), evs, 0)
          end
      end
  end.

(** One TID of [reord_deinit_sta]: pending frames are freed. *)
Definition deinit_tid (rx : aicwf_rx_priv) (c : reord_ctrl) : aicwf_rx_priv * list event :=
  (rx <| rxframes_freequeue ::= app (rev (fid <$> reord_list c)) |>,
   (fun f => EvFree (skb_id (pkt f))) <$> reord_list c).

Fixpoint deinit_tids (rx : aicwf_rx_priv) (cs : list reord_ctrl) : aicwf_rx_priv * list event :=
  match cs with
  | [] => (rx, [])
  | c :: cs =>
      let '(rx, evs) := deinit_tid rx c in
      let '(rx, evs') := deinit_tids rx cs in (rx, evs ++ evs')
  end.

Definition reord_deinit_sta (rx : aicwf_rx_priv) (i : nat) : aicwf_rx_priv * list event :=
  match stas_reord_list rx !! i with
  | None => (rx, [])
  | Some s =>
      let '(rx, evs) := deinit_tids rx (preorder_ctrl s) in
      (rx <| stas_reord_list ::= delete i |>, evs)
  end.

(** ** A received frame *)

(** From the point where the control block of the peer is known; the
    descriptor is [pframe]. *)
Definition reord_ctrl_unit (now : Z) (rx : aicwf_rx_priv) (c : reord_ctrl) (pframe : recv_msdu)
    : res (aicwf_rx_priv * list event * reord_ctrl * Z) :=
  if negb (enable c) then
    let c := c <| ind_sn := seq_num pframe |> in
    r ← reord_single_frame_ind rx pframe;
    let '(rx, evs) := r in
    Ok (rx, evs, c <| ind_sn ::= fun n => (n + 1) mod 4096 |>, 0)
  else
    let '(c, chk) := reord_need_check c (seq_num pframe) in
    if negb (chk =? 0) then
      b42 ← rd (skb_data (pkt pframe)) 42;
      if b42 =? 0x80 then
        if seq_num pframe =? ind_sn c then
          r ← reord_single_frame_ind rx pframe;
          let '(rx, evs) := r in Ok (rx, evs, c, 0)
        else
          Ok (reord_rxframe_free rx (fid pframe), [EvFree (skb_id (pkt pframe))], c, 0)
      else
        r ← reord_single_frame_ind rx pframe;
        let '(rx, evs) := r in Ok (rx, evs, c, 0)
    else
      let '(c, enq) := reord_rxframe_enqueue c pframe in
      if negb (enq =? 0) then
        Ok (reord_rxframe_free rx (fid pframe), [EvFree (skb_id (pkt pframe))], c, 0)
      else
        let '(c, more) := reord_rxframes_process c false in
        let c := if more then
                   match reord_timer c with
                   | Some _ => c
                   | None => c <| reord_timer := Some (now + reorder_timeout) |>
                   end
                 else c <| reord_timer := None |> in
        r ← reord_rxframes_ind rx c;
        let '(rx, evs, c) := r in Ok (rx, evs, c, 0).

Definition reord_process_unit (now : Z) (kmalloc : bool) (rx : aicwf_rx_priv) (skb : sk_buff)
    (sn t : Z) (fwd amsdu : bool) : res (aicwf_rx_priv * list event * Z) :=
  match rwnx_vif rx with
  | None => Ok (rx, [EvFree (skb_id skb)], -1)
  | Some ift =>
      if skb_len skb <=? 14 then Ok (rx, [EvFree (skb_id skb)], -1)
      else
        match reord_rxframe_alloc rx with
        | None => Ok (rx, [EvFree (skb_id skb)], -1)
        | Some (fr, rx) =>
            let pframe := RecvMsdu fr skb t sn fwd amsdu in
            proto ← rd_be16 (skb_data skb) 12;
            if proto =? ETH_P_PAE then
              r ← reord_single_frame_ind rx pframe;
              let '(rx, evs) := r in Ok (rx, evs, 0)
            else
              match peer_mac ift (skb_data skb) with
              | None => Ok (rx, [EvFree (skb_id skb)], -1)
              | Some mac =>
                  let found := match find_sta rx mac with
                    | Some i => Some (rx, i)
                    | None =>
                        match reord_init_sta rx kmalloc mac with
                        | None => None
                        | Some s => Some (rx <| stas_reord_list ::= fun l => l ++ [s] |>,
                                          length (stas_reord_list rx))
                        end
                    end in
                  match found with
                  | None => Ok (rx, [EvFree (skb_id skb)], -1)
                  | Some (rx, i) =>
                      c ← get_ctrl rx i t;
                      let c := if enable c then c
                               else c <| enable := true |> <| ind_sn := 0xffff |>
                                      <| wsize_b := AICWF_REORDER_WINSIZE |> in
                      r ← reord_ctrl_unit now rx c pframe;
                      let '(rx, evs, c, ret) := r in
                      Ok (put_ctrl rx i t c, evs, ret)
                  end
              end
        end
  end.

End Driver.

(** ** Sequence numbers

    The 12-bit numbers are the residues of unbounded ones; the comparison is
    exact for numbers that are less than half the space apart. *)

Definition snum (A : Z) : Z := A mod 4096.

Lemma land_bit11 y : Z.land y 0x800 = 0 <-> Z.even (y / 2048) = true.
Proof.
  change 0x800 with (2 ^ 11). rewrite <- Z.negb_odd. change 2048 with (2 ^ 11).
  rewrite <- Z.shiftr_div_pow2, <- Z.testbit_odd by lia. split.
  - intros H. apply (f_equal (fun z => Z.testbit z 11)) in H.
    rewrite Z.land_spec, Z.bits_0, Z.pow2_bits_true, andb_true_r in H by lia. by rewrite H.
  - rewrite negb_true_iff. intros H. apply Z.bits_inj_0. intros i. rewrite Z.land_spec.
    destruct (decide (i = 11)) as [->|Hi]; [by rewrite H |].
    rewrite (Z.pow2_bits_false 11 i), andb_false_r; [done | lia].
Qed.

Lemma SN_LESS_exact A B :
  -2048 <= A - B <= 2047 -> SN_LESS (snum A) (snum B) = (A <? B).
Proof.
  intros H. unfold SN_LESS.
  assert (E : (snum A - snum B) / 2048 = (A - B) / 2048 + 2 * (B / 4096 - A / 4096)).
  { unfold snum. rewrite (Z.mod_eq A), (Z.mod_eq B) by lia.
    rewrite <- Z.div_add by lia. f_equal. lia. }
  pose proof (land_bit11 (snum A - snum B)) as L. rewrite E, Z.even_add_mul_2 in L.
  destruct (Z.ltb_spec A B).
  - replace ((A - B) / 2048) with (-1) in L by (apply (Z.div_unique_pos _ _ _ (A - B + 2048)); lia).
    destruct (Z.eqb_spec (Z.land (snum A - snum B) 0x800) 0) as [e|]; [|done].
    apply L in e. discriminate.
  - rewrite Z.div_small in L by lia. destruct (Z.eqb_spec (Z.land (snum A - snum B) 0x800) 0); [done |].
    destruct L as [_ L]. by rewrite L in n.
Qed.

Lemma SN_EQUAL_exact A B : -4095 <= A - B <= 4095 -> SN_EQUAL (snum A) (snum B) = (A =? B).
Proof.
  intros H. unfold SN_EQUAL, snum. destruct (Z.eqb_spec A B) as [->|Hn]; [apply Z.eqb_refl |].
  apply Z.eqb_neq. intros E. pose proof (Z.div_mod A 4096). pose proof (Z.div_mod B 4096). nia.
Qed.

Lemma snum_succ A : Z.land (snum A + 1) 0xFFF = snum (A + 1).
Proof.
  change 0xFFF with (Z.ones 12). rewrite Z.land_ones by lia. unfold snum.
  change (2 ^ 12) with 4096. by rewrite Zplus_mod_idemp_l.
Qed.

Lemma snum_range A : 0 <= snum A < 4096.
Proof. apply Z.mod_pos_bound. lia. Qed.

(** ** The reference

    Sequence numbers without wrap-around: [I] is the next number to hand up,
    [P] the pending frames with their numbers. *)

Abbreviation pend := (list (Z * recv_msdu)).

Fixpoint ref_insert (A : Z) (f : recv_msdu) (P : pend) : option pend :=
  match P with
  | [] => Some [(A, f)]
  | p :: P' => if p.1 <? A then option_map (cons p) (ref_insert A f P')
               else if p.1 =? A then None else Some ((A, f) :: P)
  end.

(** The next missing number. *)
Fixpoint ref_next (I : Z) (P : pend) : Z :=
  match P with
  | [] => I
  | p :: P => if p.1 <? I then ref_next I P else if p.1 =? I then ref_next (I + 1) P else I
  end.

Definition ref_flush (I : Z) (P : pend) : Z * pend * pend :=
  let I := ref_next I P in
  (I, filter (fun p => I <= p.1) P, filter (fun p => p.1 < I) P).

(** The arrival of frame [f] with number [A >= I]: next number, pending
    frames, frames handed up. *)
Definition ref_arrive (I : Z) (P : pend) (A : Z) (f : recv_msdu) : Z * pend * pend :=
  let I := if A =? I then I + 1 else Z.max I (A - 63) in
  match ref_insert A f P with
  | None => (I, P, [])
  | Some P => ref_flush I P
  end.

(** The gap timer skips to the first pending frame. *)
Definition ref_timeout (I : Z) (P : pend) : Z * pend * pend :=
  match P with
  | [] => (I, P, [])
  | p :: _ => ref_flush p.1 P
  end.

Definition sorted (P : pend) : Prop := StronglySorted Z.lt P.*1.

(** [c] represents [(I, P)]. *)
Record rep (I : Z) (P : pend) (c : reord_ctrl) : Prop := {
  rep_enable : enable c = true;
  rep_wsize : wsize_b c = AICWF_REORDER_WINSIZE;
  rep_sn : ind_sn c = snum I;
  rep_list : reord_list c = P.*2;
  rep_nums : Forall (fun p => seq_num p.2 = snum p.1) P;
  rep_sorted : sorted P;
  rep_window : Forall (fun p => I < p.1 <= I + 63) P }.

(** ** The reference on sorted lists *)

Lemma sorted_cons p P : sorted (p :: P) <-> Forall (fun q => p.1 < q.1) P /\ sorted P.
Proof.
  unfold sorted. rewrite fmap_cons. split.
  - intros [Hs Hf]%StronglySorted_inv. by rewrite Forall_fmap in Hf.
  - intros [Hf Hs]. constructor; [done |]. by rewrite Forall_fmap.
Qed.

Lemma ref_insert_perm A f P P' : ref_insert A f P = Some P' -> P' ≡ₚ (A, f) :: P.
Proof.
  revert P'. induction P as [|p P IH]; intros P' H; simpl in H; [by simplify_eq |].
  destruct (p.1 <? A).
  - destruct (ref_insert A f P) as [Q|]; [|discriminate]. simplify_eq/=.
    by rewrite (IH Q eq_refl), Permutation_swap.
  - destruct (p.1 =? A); [discriminate |]. by simplify_eq.
Qed.

Lemma ref_insert_sorted A f P P' : ref_insert A f P = Some P' -> sorted P -> sorted P'.
Proof.
  revert P'. induction P as [|p P IH]; intros P' H Hs; simpl in H.
  - simplify_eq. apply sorted_cons. split; [constructor | done].
  - apply sorted_cons in Hs as [Hp Hs]. destruct (Z.ltb_spec p.1 A).
    + destruct (ref_insert A f P) as [Q|] eqn:E; [|discriminate]. simplify_eq/=.
      apply sorted_cons. split; [|by apply IH].
      rewrite (ref_insert_perm _ _ _ _ E). by constructor.
    + destruct (Z.eqb_spec p.1 A); [discriminate |]. simplify_eq. apply sorted_cons. split.
      * constructor; [simpl; lia |]. eapply Forall_impl; [exact Hp |]. simpl. lia.
      * by apply sorted_cons.
Qed.

Lemma ref_insert_None A f P :
  sorted P -> ref_insert A f P = None <-> A ∈ P.*1.
Proof.
  induction P as [|p P IH]; intros Hs; simpl; [set_solver |].
  apply sorted_cons in Hs as [Hp Hs]. rewrite elem_of_cons. specialize (IH Hs).
  destruct (Z.ltb_spec p.1 A).
  - destruct (ref_insert A f P); simpl; split; [done | | naive_solver | done].
    intros [->|HA]; [lia | by apply IH in HA].
  - destruct (Z.eqb_spec p.1 A); [by split; auto |]. split; [done |].
    intros [->|HA]; [lia |]. apply list_elem_of_fmap in HA as (q & -> & Hq).
    rewrite Forall_forall in Hp. specialize (Hp q Hq). lia.
Qed.

(** [ref_next] is the first number from [I] on that is not pending. *)
Lemma ref_next_spec I P :
  sorted P ->
  I <= ref_next I P /\ ~ (ref_next I P ∈ P.*1) /\
  forall J, I <= J < ref_next I P -> J ∈ P.*1.
Proof.
  revert I. induction P as [|p P IH]; intros I Hs; simpl.
  { split; [lia |]. split; [apply not_elem_of_nil | lia]. }
  apply sorted_cons in Hs as [Hp Hs]. rewrite Forall_forall in Hp.
  destruct (Z.ltb_spec p.1 I); [|destruct (Z.eqb_spec p.1 I)].
  - destruct (IH I Hs) as (H1 & H2 & H3). repeat split; [done | |].
    + apply not_elem_of_cons. split; [lia | done].
    + intros J HJ. apply elem_of_cons. auto.
  - destruct (IH (I + 1) Hs) as (H1 & H2 & H3). repeat split; [lia | |].
    + apply not_elem_of_cons. split; [lia | done].
    + intros J HJ. apply elem_of_cons. destruct (Z.eq_dec J I); [left; lia | right; apply H3; lia].
  - repeat split; [lia | |intros; lia]. apply not_elem_of_cons. split; [lia |].
    intros (q & -> & Hq)%list_elem_of_fmap. specialize (Hp q Hq). lia.
Qed.

Lemma ref_next_mono I P : I <= ref_next I P.
Proof.
  revert I. induction P as [|p P IH]; intros I; simpl; [lia |].
  destruct (p.1 <? I); [done |]. destruct (p.1 =? I); [|lia]. specialize (IH (I + 1)). lia.
Qed.

Lemma ref_flush_perm I P I' P' D :
  ref_flush I P = (I', P', D) -> P ≡ₚ D ++ P'.
Proof.
  unfold ref_flush. intros [= <- <- <-]. set (J := ref_next I P). clearbody J.
  induction P as [|p P IH]; [done |]. rewrite !filter_cons.
  destruct (decide (p.1 < J)), (decide (J <= p.1)); try lia; simpl; rewrite IH at 1; [done |].
  by rewrite Permutation_middle.
Qed.

(** ** The driver implements the reference *)

Lemma enqueue_ref A f P :
  seq_num f = snum A -> Forall (fun p => seq_num p.2 = snum p.1) P ->
  Forall (fun p => -2048 <= p.1 - A <= 2047) P ->
  enqueue_list f P.*2 = option_map (fmap snd) (ref_insert A f P).
Proof.
  intros Hf. induction P as [|p P IH]; intros Hn Hb; [done |].
  rewrite fmap_cons. cbn [enqueue_list ref_insert].
  apply Forall_cons in Hn as [Hp Hn]. apply Forall_cons in Hb as [Hpb Hb].
  rewrite Hp, Hf, SN_LESS_exact, SN_EQUAL_exact by lia. rewrite (IH Hn Hb).
  destruct (p.1 <? A); [by destruct (ref_insert A f P) |]. by destruct (p.1 =? A).
Qed.

Lemma process_scan_ref lo hi I P :
  Forall (fun p => seq_num p.2 = snum p.1) P -> Forall (fun p => lo <= p.1 <= hi) P ->
  lo <= I <= hi + 1 -> hi - lo <= 2046 -> sorted P ->
  process_scan (snum I) P.*2 =
    (snum (ref_next I P), bool_decide (filter (fun p => ref_next I P <= p.1) P <> [])).
Proof.
  intros Hn Hb HI Hlh. revert I HI. induction P as [|p P IH]; intros I HI Hs; [done |].
  apply Forall_cons in Hn as [Hp Hn]. apply Forall_cons in Hb as [Hpb Hb].
  apply sorted_cons in Hs as [Hps Hs]. rewrite fmap_cons. cbn [process_scan ref_next].
  rewrite Hp, SN_LESS_exact, SN_EQUAL_exact by lia. rewrite filter_cons.
  destruct (Z.ltb_spec p.1 I); [|destruct (Z.eqb_spec p.1 I)].
  - destruct (Z.ltb_spec I p.1), (Z.eqb_spec I p.1); try lia. simpl. rewrite (IH Hn Hb) by (done || lia).
    pose proof (ref_next_mono I P). by rewrite decide_False by lia.
  - destruct (Z.ltb_spec I p.1), (Z.eqb_spec I p.1); try lia. simpl. rewrite snum_succ.
    rewrite (IH Hn Hb) by (done || lia).
    pose proof (ref_next_mono (I + 1) P). by rewrite decide_False by lia.
  - destruct (Z.ltb_spec I p.1); [|lia]. simpl. by rewrite decide_True by lia.
Qed.

Lemma need_check_old c I P A :
  rep I P c -> I - 2048 <= A < I -> reord_need_check c (snum A) = (c, -1).
Proof.
  intros [_ _ Hsn _ _ _ _] HA. unfold reord_need_check. rewrite Hsn.
  pose proof (snum_range I). destruct (Z.eqb_spec (snum I) 0xFFFF); [lia |]. rewrite Hsn.
  rewrite SN_LESS_exact by lia. by destruct (Z.ltb_spec A I); [|lia].
Qed.

Lemma wend_ref I w : Z.land (snum I + w - 1) 0xFFF = snum (I + w - 1).
Proof.
  change 0xFFF with (Z.ones 12). rewrite Z.land_ones by lia. unfold snum.
  change (2 ^ 12) with 4096. rewrite <- Z.add_sub_assoc, Zplus_mod_idemp_l. f_equal. lia.
Qed.

Lemma slide_ref A :
  (if 63 <=? snum A then u16 (snum A - 63) else u16 (0xFFF - (64 - (snum A + 1)) + 1)) = snum (A - 63).
Proof.
  pose proof (snum_range A). destruct (Z.leb_spec 63 (snum A)); rewrite u16_id by lia.
  - unfold snum in *. apply (Z.mod_unique_pos _ _ (A / 4096)); [lia |].
    pose proof (Z.div_mod A 4096). lia.
  - unfold snum in *. apply (Z.mod_unique_pos _ _ (A / 4096 - 1)); [lia |].
    pose proof (Z.div_mod A 4096). lia.
Qed.

Lemma need_check_ref c I P A :
  rep I P c -> I <= A <= I + 2047 ->
  reord_need_check c (snum A) =
    (c <| ind_sn := snum (if A =? I then I + 1 else Z.max I (A - 63)) |>, 0).
Proof.
  intros [_ Hw Hsn _ _ _ _] HA. unfold reord_need_check. rewrite Hsn, Hw.
  pose proof (snum_range I). destruct (Z.eqb_spec (snum I) 0xFFFF); [lia |].
  rewrite Hsn, SN_LESS_exact, SN_EQUAL_exact, wend_ref, SN_LESS_exact by (unfold AICWF_REORDER_WINSIZE; lia).
  destruct (Z.ltb_spec A I); [lia |]. unfold AICWF_REORDER_WINSIZE.
  destruct (Z.eqb_spec A I) as [->|]; [by rewrite snum_succ |].
  destruct (Z.ltb_spec (I + 64 - 1) A).
  - rewrite Z.max_r by lia. rewrite <- (slide_ref A). change (64 - 1) with 63.
    by destruct (63 <=? snum A).
  - rewrite Z.max_l by lia. destruct c; simpl in *. by subst.
Qed.

(** ** Handing up *)

Section Delivery.
Context (reorder_timeout : Z) (allocs : nat).

(** The frames handed up, in order. *)
Definition inds (evs : list event) : list recv_msdu :=
  omap (fun e => match e with EvInd f => Some f | _ => None end) evs.

(** A frame that can be handed up: it splits into buffers long enough for
    the receive hook. *)
Definition frame_ok (f : recv_msdu) : Prop :=
  forward f = false \/
  exists l, frame_bufs allocs f = Ok l /\
    Forall (fun d => res_ok (TcpAck.tcp_check_quick_ack (eth_type_trans d))) l.

(** Everything but the pool, the statistics and the marks of the ACK filter. *)
Definition same_env (rx rx' : aicwf_rx_priv) : Prop :=
  rwnx_vif rx' = rwnx_vif rx /\ bus_down rx' = bus_down rx /\
  stas_reord_list rx' = stas_reord_list rx.

#[local] Instance same_env_preorder : PreOrder same_env.
Proof. split; [done |]. unfold same_env. intros x y z ? ?. naive_solver congruence. Qed.

Lemma netif_loop_ok rx l :
  Forall (fun d => res_ok (TcpAck.tcp_check_quick_ack (eth_type_trans d))) l ->
  exists rx', netif_loop rx l = Ok (rx', EvNetif <$> l) /\ same_env rx rx' /\
    rxframes_freequeue rx' = rxframes_freequeue rx.
Proof.
  intros Hl. revert rx. induction Hl as [|d l [q Hq] Hl IH]; intros rx; [by exists rx |].
  cbn [netif_loop].
  assert (exists m, TcpAck.filter_rx_tcp_ack (ack_m rx) (eth_type_trans d)
    (u16 (Z.of_nat (length (eth_type_trans d)))) = Ok m) as [m Hm].
  { unfold TcpAck.filter_rx_tcp_ack. rewrite Hq. cbn [mbind res_bind]. repeat case_match; eauto. }
  cbn [upd ack_m rx_packets rx_bytes]. rewrite Hm. cbn [mbind res_bind].
  match goal with |- context [netif_loop ?r l] => destruct (IH r) as (rx' & E & He & Hq') end.
  rewrite E. exists rx'. split; [done |]. by split.
Qed.

Lemma single_frame_ok rx f :
  frame_ok f ->
  exists rx' evs, reord_single_frame_ind allocs rx f = Ok (rx', EvInd f :: evs) /\ inds evs = [] /\
    same_env rx rx' /\ rxframes_freequeue rx' = fid f :: rxframes_freequeue rx.
Proof.
  unfold reord_single_frame_ind. intros [-> | (l & Hl & Hd)].
  { eexists _, _. repeat split. }
  destruct (forward f); [|eexists _, _; repeat split].
  rewrite Hl. cbn [negb mbind res_bind]. destruct (netif_loop_ok rx l Hd) as (rx' & -> & He & Hq).
  cbn [mbind res_bind]. eexists _, _. split; [done |]. split; [|split; [done | simpl; by rewrite Hq]].
  assert (HN : forall l : list (list Z), inds (EvNetif <$> l) = []) by (induction l0; [done | done]).
  unfold inds in *. rewrite omap_app, HN. by destruct (is_amsdu f).
Qed.

(** The pool after the frames [l] were handed up one by one. *)
Definition pool_after (rx rx' : aicwf_rx_priv) (l : list recv_msdu) : Prop :=
  rxframes_freequeue rx' ≡ₚ (fid <$> l) ++ rxframes_freequeue rx.

Lemma ind_loop_ref J P rx :
  sorted P -> Forall (fun p => seq_num p.2 = snum p.1) P ->
  Forall (fun p => -2048 <= J - p.1 <= 2047 /\ p.1 <> J) P -> Forall frame_ok P.*2 ->
  exists rx' evs,
    rxframes_ind_loop allocs rx (snum J) P.*2 = Ok (rx', evs, (filter (fun p => J <= p.1) P).*2) /\
    inds evs = (filter (fun p => p.1 < J) P).*2 /\ same_env rx rx' /\
    pool_after rx rx' (inds evs).
Proof.
  intros Hs Hn. revert rx. induction P as [|p P IH]; intros rx Hb Hok.
  { exists rx, []. repeat split. unfold pool_after. done. }
  apply sorted_cons in Hs as [Hps Hs]. apply Forall_cons in Hn as [Hp Hn].
  apply Forall_cons in Hb as [Hpb Hb]. rewrite fmap_cons in *. apply Forall_cons in Hok as [Hpo Hok].
  cbn [rxframes_ind_loop]. rewrite Hp, SN_LESS_exact by lia. rewrite !filter_cons.
  destruct (Z.ltb_spec J p.1).
  - rewrite decide_True, decide_False by lia. exists rx, []. cbn [negb].
    rewrite filter_all, filter_none by (eapply Forall_impl; [exact Hps | simpl; lia]).
    repeat split; unfold pool_after; done.
  - rewrite decide_False, decide_True by lia. cbn [negb].
    destruct (single_frame_ok rx p.2 Hpo) as (rx1 & e1 & -> & He1 & Hse1 & Hq1).
    cbn [mbind res_bind]. destruct (IH Hs Hn rx1 Hb Hok) as (rx2 & e2 & -> & He2 & Hse2 & Hq2).
    cbn [mbind res_bind]. exists rx2, ((EvInd p.2 :: e1) ++ e2). split; [done |].
    assert (Hi : inds ((EvInd p.2 :: e1) ++ e2) = p.2 :: inds e2).
    { unfold inds in *. rewrite omap_app. cbn. by rewrite He1. }
    rewrite Hi, He2. split; [done |]. split; [by etrans |].
    unfold pool_after in *. rewrite Hq2, Hq1, He2. simpl. by rewrite Permutation_middle.
Qed.

(** The window position [I], possibly in the middle of the list [P] of a
    control block; [lo] and [hi] bound the numbers. *)
Record mid (lo hi I : Z) (P : pend) : Prop := {
  mid_nums : Forall (fun p => seq_num p.2 = snum p.1) P;
  mid_sorted : sorted P;
  mid_bounds : Forall (fun p => lo <= p.1 <= hi) P;
  mid_I : lo <= I <= hi + 1;
  mid_small : hi - lo <= 2046;
  mid_window : hi <= I + 63 }.

Lemma process_ref lo hi I P c (b : bool) :
  mid lo hi I P -> reord_list c = P.*2 ->
  (if b then forall p l, P = p :: l -> p.1 = I else ind_sn c = snum I) ->
  (b = true -> P = [] -> ind_sn c = snum I) ->
  reord_rxframes_process c b =
    (c <| ind_sn := snum (ref_next I P) |>, bool_decide ((ref_flush I P).1.2 <> [])).
Proof.
  intros [Hn Hs Hb HI Hlh Hh] Hl Hsn Hnil. unfold reord_rxframes_process, ref_flush. rewrite Hl.
  destruct P as [|p P].
  { simpl. assert (ind_sn c = snum I) by (destruct b; auto). destruct c; simpl in *. by subst. }
  rewrite fmap_cons. replace (if b then seq_num p.2 else ind_sn c) with (snum I).
  - change (p.2 :: P.*2) with ((p :: P).*2).
    rewrite (process_scan_ref lo hi I (p :: P)) by done. done.
  - destruct b; [|done]. apply Forall_cons in Hn as [Hn _]. by rewrite Hn, (Hsn p P eq_refl).
Qed.

Lemma ref_next_bound lo hi I P : mid lo hi I P -> ref_next I P <= hi + 1.
Proof.
  intros [_ Hs Hb HI _ _]. destruct (ref_next_spec I P Hs) as (_ & _ & Hin).
  destruct (Z.le_gt_cases (ref_next I P) (hi + 1)); [done |]. exfalso.
  destruct (proj1 (list_elem_of_fmap _ _ _) (Hin (hi + 1) ltac:(lia))) as (p & Hp & Hpin).
  rewrite Forall_forall in Hb. specialize (Hb p Hpin). lia.
Qed.

Lemma sorted_filter (Q : Z * recv_msdu -> Prop) `{!forall x, Decision (Q x)} P :
  sorted P -> sorted (filter Q P).
Proof.
  induction P as [|p P IH]; intros Hs; [done |]. apply sorted_cons in Hs as [Hp Hs].
  rewrite filter_cons. destruct (decide (Q p)); [|by apply IH].
  apply sorted_cons. split; [by apply Forall_filter | by apply IH].
Qed.

Lemma ind_ref lo hi I P rx c :
  mid lo hi I P -> enable c = true -> wsize_b c = AICWF_REORDER_WINSIZE ->
  ind_sn c = snum (ref_next I P) -> reord_list c = P.*2 -> Forall frame_ok P.*2 ->
  exists rx' evs c', reord_rxframes_ind allocs rx c = Ok (rx', evs, c') /\
    reord_timer c' = reord_timer c /\ reord_timer_work c' = reord_timer_work c /\
    rep (ref_flush I P).1.1 (ref_flush I P).1.2 c' /\
    inds evs = (ref_flush I P).2.*2 /\ same_env rx rx' /\ pool_after rx rx' (inds evs).
Proof.
  intros Hmid He Hw Hsn Hl Hok. pose proof (ref_next_bound _ _ _ _ Hmid) as HJ.
  destruct Hmid as [Hn Hs Hb HI Hlh Hh]. destruct (ref_next_spec I P Hs) as (Hm & Hni & _).
  unfold ref_flush. set (J := ref_next I P) in *. cbn [fst snd].
  assert (Hb' : Forall (fun p => -2048 <= J - p.1 <= 2047 /\ p.1 <> J) P).
  { apply Forall_forall. intros p Hp. pose proof (proj1 (Forall_forall _ _) Hb p Hp) as Hpb.
    split; [simpl in *; lia |]. intros E. apply Hni. rewrite <- E. by apply list_elem_of_fmap_2. }
  destruct (ind_loop_ref J P rx Hs Hn Hb' Hok) as (rx' & evs & Hloop & Hrest).
  unfold reord_rxframes_ind. rewrite Hsn, Hl, Hloop. eexists _, _, _.
  split; [done |]. split; [done |]. split; [done |]. split; [|done].
  constructor; try done.
  - by apply Forall_filter.
  - by apply sorted_filter.
  - apply Forall_forall. intros p [Hp Hpin]%list_elem_of_filter.
    rewrite Forall_forall in Hb, Hb'. specialize (Hb p Hpin). specialize (Hb' p Hpin). simpl in *. lia.
Qed.

(** While frames are pending, the gap timer or its work item is. *)
Definition gap_watched (c : reord_ctrl) : Prop :=
  reord_list c <> [] -> reord_timer c <> None \/ reord_timer_work c = true.

Lemma rep_nil I P c : rep I P c -> reord_list c = [] <-> P = [].
Proof. intros H. rewrite (rep_list _ _ _ H). by destruct P. Qed.

Lemma arrive_mid I P A f P1 :
  Forall (fun p => seq_num p.2 = snum p.1) P -> sorted P -> Forall (fun p => I < p.1 <= I + 63) P ->
  seq_num f = snum A -> I <= A <= I + 2047 -> ref_insert A f P = Some P1 ->
  mid (if I + 63 <? A then I + 1 else I) (Z.max (I + 63) A)
    (if A =? I then I + 1 else Z.max I (A - 63)) P1.
Proof.
  intros Hn Hs Hw Hf HA Hins. pose proof (ref_insert_perm _ _ _ _ Hins) as HP.
  destruct (Z.ltb_spec (I + 63) A), (Z.eqb_spec A I); try lia; constructor; try lia;
    try (eapply ref_insert_sorted; eassumption); rewrite HP; constructor; simpl; try lia; try done;
    (eapply Forall_impl; [exact Hw |]); simpl; lia.
Qed.

Lemma pool_flush (rx rx' : aicwf_rx_priv) I P P1 A f c c' evs :
  reord_list c = P.*2 -> ref_insert A f P = Some P1 -> reord_list c' = (ref_flush I P1).1.2.*2 ->
  inds evs = (ref_flush I P1).2.*2 -> pool_after rx rx' (inds evs) ->
  rxframes_freequeue rx' ++ (fid <$> reord_list c') ≡ₚ
    fid f :: rxframes_freequeue rx ++ (fid <$> reord_list c).
Proof.
  intros Hl Hins Hl' Hi Hpool. unfold pool_after in Hpool. rewrite Hpool, Hl, Hl', Hi.
  destruct (ref_flush I P1) as [[J P'] D] eqn:E. apply ref_flush_perm in E. cbn [fst snd].
  pose proof (ref_insert_perm _ _ _ _ Hins) as HP. rewrite E in HP.
  apply (fmap_Permutation snd), (fmap_Permutation fid) in HP. rewrite !fmap_app in HP.
  rewrite fmap_cons in HP. simpl in HP.
  rewrite (Permutation_app_comm (fid <$> D.*2)), <- app_assoc, HP.
  by rewrite Permutation_middle.
Qed.

Lemma sn_set c n :
  exists c0, c0 = c <| ind_sn := n |> /\ enable c0 = enable c /\ wsize_b c0 = wsize_b c /\
    ind_sn c0 = n /\ reord_list c0 = reord_list c /\ reord_timer c0 = reord_timer c /\
    reord_timer_work c0 = reord_timer_work c.
Proof. eexists. by repeat split. Qed.

(** A frame in the window. *)
Lemma ctrl_unit_ref now rx c f I P A :
  rep I P c -> seq_num f = snum A -> I <= A <= I + 2047 -> frame_ok f -> Forall frame_ok P.*2 ->
  exists rx' evs c',
    reord_ctrl_unit reorder_timeout allocs now rx c f = Ok (rx', evs, c', 0) /\
    rep (ref_arrive I P A f).1.1 (ref_arrive I P A f).1.2 c' /\
    inds evs = (ref_arrive I P A f).2.*2 /\ same_env rx rx' /\
    rxframes_freequeue rx' ++ (fid <$> reord_list c') ≡ₚ
      fid f :: rxframes_freequeue rx ++ (fid <$> reord_list c) /\
    (gap_watched c -> gap_watched c').
Proof.
  intros Hrep Hf HA Hfo Hok. unfold reord_ctrl_unit, ref_arrive.
  rewrite (rep_enable _ _ _ Hrep), Hf, (need_check_ref _ _ _ _ Hrep HA).
  pose proof Hrep as [He Hwz Hsn Hl Hn Hs Hw].
  set (I1 := if A =? I then I + 1 else Z.max I (A - 63)).
  destruct (sn_set c (snum I1)) as (c0 & Hc0 & He0 & Hw0 & Hsn0 & Hl0 & Ht0 & Hwk0).
  rewrite <- Hc0. cbn [negb Z.eqb]. unfold reord_rxframe_enqueue.
  rewrite Hl0, Hl, (enqueue_ref A) by (done || (eapply Forall_impl; [exact Hw | simpl; lia])).
  destruct (ref_insert A f P) as [P1|] eqn:Hins; cbn [option_map negb Z.eqb].
  - pose proof (arrive_mid I P A f P1 Hn Hs Hw Hf HA Hins) as Hmid. fold I1 in Hmid.
    rewrite (process_ref _ _ I1 P1) by (try done; exact Hmid).
    assert (Hok1 : Forall frame_ok P1.*2).
    { rewrite (ref_insert_perm _ _ _ _ Hins), fmap_cons. by constructor. }
    match goal with |- context [reord_rxframes_ind _ rx ?c1] =>
      destruct (ind_ref _ _ I1 P1 rx c1 Hmid) as (rx' & evs & c' & E & Ht & Hwk & Hr & Hi & Hse & Hp);
        [repeat case_match; simpl; congruence .. | done |] end.
    rewrite E. cbn [mbind res_bind]. exists rx', evs, c'. repeat (split; [done |]). split.
    { rewrite <- Hl. eapply pool_flush; eauto. apply (rep_list _ _ _ Hr). }
    intros _ Hne. rewrite Ht. left.
    rewrite bool_decide_true by (by rewrite <- (rep_nil _ _ _ Hr)). destruct (reord_timer (_ <| ind_sn := _ |>)) eqn:E1; simpl in *; congruence.
  - apply ref_insert_None in Hins as HA'; [|done].
    apply list_elem_of_fmap in HA' as (p & -> & Hp). rewrite Forall_forall in Hw. specialize (Hw p Hp).
    assert (I1 = I) as E by (subst I1; destruct (Z.eqb_spec p.1 I); lia).
    assert (c0 = c) as -> by (rewrite Hc0, E, <- Hsn; by destruct c).
    eexists _, _, _. split; [done |]. rewrite E. split; [done |].
    split; [done |]. split; [done |]. split; [|done]. cbn. by rewrite Hl.
Qed.

(** The gap timer: something pending is always handed up. *)
Lemma timeout_ref now rx c I P :
  rep I P c -> Forall frame_ok P.*2 ->
  exists rx' evs c',
    reord_timeout_worker reorder_timeout allocs now rx c = Ok (rx', evs, c') /\
    rep (ref_timeout I P).1.1 (ref_timeout I P).1.2 c' /\
    inds evs = (ref_timeout I P).2.*2 /\ same_env rx rx' /\
    rxframes_freequeue rx' ++ (fid <$> reord_list c') ≡ₚ
      rxframes_freequeue rx ++ (fid <$> reord_list c) /\ gap_watched c'.
Proof.
  intros Hrep Hok. pose proof Hrep as [He Hwz Hsn Hl Hn Hs Hw]. unfold reord_timeout_worker.
  set (c0 := c <| reord_timer_work := false |>).
  destruct P as [|p P].
  { unfold reord_rxframes_process, reord_rxframes_ind. subst c0. cbn. rewrite Hl. cbn.
    exists rx, [], (c <| reord_timer_work := false |>).
    split; [destruct c; simpl in *; by subst |].
    split; [by constructor |]. split; [done |]. split; [done |].
    split; [cbn; by rewrite Hl |]. intros Hne. cbn in Hne. by rewrite Hl in Hne. }
  assert (Hmid : mid p.1 (I + 63) p.1 (p :: P)).
  { apply Forall_cons in Hw as [Hp Hw]. apply sorted_cons in Hs as Hs'. destruct Hs' as [Hps _].
    constructor; [done | done | | lia | lia | lia]. constructor; [lia |].
    apply Forall_forall. intros q Hq. rewrite Forall_forall in Hw, Hps.
    specialize (Hw q Hq). specialize (Hps q Hq). simpl in *. lia. }
  rewrite (process_ref _ _ p.1 (p :: P)) by (done || (intros q l [= <- _]; done) || exact Hmid).
  match goal with |- context [reord_rxframes_ind _ rx ?c1] =>
    destruct (ind_ref _ _ p.1 (p :: P) rx c1 Hmid) as (rx' & evs & c' & E & Ht & Hwk & Hr & Hi & Hse & Hp);
      [repeat case_match; simplify_eq/=; congruence .. | done |] end.
  rewrite E. exists rx', evs, c'. split; [done |]. unfold ref_timeout.
  split; [done |]. split; [done |]. split; [done |]. split.
  - unfold pool_after in Hp. rewrite Hp, Hi, (rep_list _ _ _ Hr), Hl.
    destruct (ref_flush p.1 (p :: P)) as [[J P'] D] eqn:EF. apply ref_flush_perm in EF. cbn [fst snd].
    apply (fmap_Permutation snd), (fmap_Permutation fid) in EF. rewrite EF, !fmap_app.
    rewrite (Permutation_app_comm (fid <$> D.*2)). by rewrite app_assoc.
  - intros Hne. left. rewrite Ht.
    by rewrite bool_decide_true by (by rewrite <- (rep_nil _ _ _ Hr)).
Qed.

(** ** Runs *)

(** What happens to one control block: a frame with (unbounded) number [A] or
    the work item of the gap timer. *)
Inductive input :=
| Arrive (now A : Z) (f : recv_msdu)
| GapTimeout (now : Z).

Definition ref_input (I : Z) (P : pend) (i : input) : Z * pend * pend :=
  match i with
  | Arrive _ A f => ref_arrive I P A f
  | GapTimeout _ => ref_timeout I P
  end.

Fixpoint ref_run (I : Z) (P : pend) (ins : list input) : Z * pend * pend :=
  match ins with
  | [] => (I, P, [])
  | i :: ins =>
      let '(J, P, D) := ref_input I P i in
      let '(J, P, D') := ref_run J P ins in (J, P, D ++ D')
  end.

(** A frame is less than half the number space ahead of the window when
    it arrives (and not behind it), as the transmitter's window guarantees. *)
Definition input_ok (I : Z) (i : input) : Prop :=
  match i with
  | Arrive _ A f => I <= A <= I + 2047 /\ seq_num f = snum A /\ frame_ok f
  | GapTimeout _ => True
  end.

Fixpoint admissible (I : Z) (P : pend) (ins : list input) : Prop :=
  match ins with
  | [] => True
  | i :: ins =>
      input_ok I i /\ admissible (ref_input I P i).1.1 (ref_input I P i).1.2 ins
  end.

(** The numbers that arrived. *)
Definition arrived (ins : list input) : pend :=
  omap (fun i => match i with Arrive _ A f => Some (A, f) | _ => None end) ins.

(** *** The reference delivers in order and loses nothing *)

Definition window (I : Z) (P : pend) : Prop :=
  sorted P /\ Forall (fun p => I < p.1 <= I + 63) P.

Lemma ref_flush_window I lo P :
  sorted P -> Forall (fun p => lo <= p.1 <= I + 63) P -> lo <= I ->
  let '(J, P', D) := ref_flush I P in
  window J P' /\ sorted D /\ Forall (fun p => lo <= p.1 < J) D /\ lo <= J /\ P ≡ₚ D ++ P'.
Proof.
  intros Hs Hlo HI. destruct (ref_flush I P) as [[J P'] D] eqn:E. pose proof E as HP.
  apply ref_flush_perm in HP. unfold ref_flush in E. injection E as HJ HP' HD.
  destruct (ref_next_spec I P Hs) as (Hm & Hni & _). rewrite HJ in *. subst P' D.
  split; [split; [by apply sorted_filter |] | split; [by apply sorted_filter | split; [| split; [lia | done]]]].
  - apply Forall_forall. intros p [Hp Hin]%list_elem_of_filter.
    rewrite Forall_forall in Hlo. specialize (Hlo p Hin). simpl in Hlo.
    destruct (Z.eq_dec p.1 J) as [e|]; [|lia]. exfalso. apply Hni. rewrite <- e.
    by apply list_elem_of_fmap_2.
  - apply Forall_forall. intros p [Hp Hin]%list_elem_of_filter. rewrite Forall_forall in Hlo.
    specialize (Hlo p Hin). simpl in *. lia.
Qed.

Lemma ref_input_spec I P i :
  window I P -> match i with Arrive _ A _ => I <= A | _ => True end ->
  let '(J, P', D) := ref_input I P i in
  window J P' /\ sorted D /\ Forall (fun p => I <= p.1 < J) D /\ I <= J /\
  (D ++ P' ≡ₚ P ++ arrived [i] \/ (D = [] /\ P' = P /\ exists now A f, i = Arrive now A f /\ A ∈ P.*1)).
Proof.
  intros [Hs Hw] HA. destruct i as [now A f|now]; simpl.
  - unfold ref_arrive. set (I1 := if A =? I then I + 1 else Z.max I (A - 63)).
    assert (HI1 : I <= I1 /\ A <= I1 + 63) by (subst I1; destruct (Z.eqb_spec A I); lia).
    destruct (ref_insert A f P) as [P1|] eqn:Hins.
    + pose proof (ref_insert_perm _ _ _ _ Hins) as HP.
      assert (Hlo : Forall (fun p => I <= p.1 <= I1 + 63) P1).
      { rewrite HP. constructor; [simpl; lia |]. eapply Forall_impl; [exact Hw | simpl; lia]. }
      pose proof (ref_flush_window I1 I P1 (ref_insert_sorted _ _ _ _ Hins Hs) Hlo ltac:(lia)) as HF.
      destruct (ref_flush I1 P1) as [[J P'] D]. destruct HF as (? & ? & ? & ? & HP1).
      repeat (split; [done |]). left. rewrite <- HP1, HP. by rewrite Permutation_app_comm.
    + apply ref_insert_None in Hins; [|done]. apply list_elem_of_fmap in Hins as (p & -> & Hp).
      pose proof (proj1 (Forall_forall _ _) Hw p Hp) as Hp'.
      assert (I1 = I) as -> by (subst I1; destruct (Z.eqb_spec p.1 I); simpl in *; lia).
      split; [done |]. split; [constructor |]. split; [constructor |]. split; [lia |].
      right. split; [done |]. split; [done |].
      eexists _, _, _. split; [done |]. by apply list_elem_of_fmap_2.
  - unfold ref_timeout. destruct P as [|p P].
    { split; [done |]. split; [constructor |]. split; [constructor |]. split; [lia | by left]. }
    apply Forall_cons in Hw as [Hp Hw]. pose proof Hs as Hs'. apply sorted_cons in Hs' as [Hps _].
    assert (Hlo : Forall (fun q => I <= q.1 <= p.1 + 63) (p :: P)).
    { constructor; [lia |]. eapply Forall_impl; [exact Hw | simpl; lia]. }
    pose proof (ref_flush_window p.1 I (p :: P) Hs Hlo ltac:(lia)) as HF.
    destruct (ref_flush p.1 (p :: P)) as [[J P'] D]. destruct HF as (? & ? & ? & ? & HP1).
    repeat (split; [done |]). left. rewrite <- HP1. by rewrite app_nil_r.
Qed.

Lemma sorted_app P Q :
  sorted P -> sorted Q -> (forall p q, p ∈ P -> q ∈ Q -> p.1 < q.1) -> sorted (P ++ Q).
Proof.
  induction P as [|p P IH]; intros HP HQ Hlt; [done |]. apply sorted_cons in HP as [Hp HP].
  simpl. apply sorted_cons. split.
  - apply Forall_app. split; [done |]. apply Forall_forall. intros q Hq. apply Hlt; [left | done].
  - apply IH; [done | done |]. intros p' q Hp' Hq. apply Hlt; [by right | done].
Qed.

Lemma arrived_cons i ins : arrived (i :: ins) = arrived [i] ++ arrived ins.
Proof. by destruct i. Qed.

(** What a step leaves is part of what was there and what came, and no number
    is lost. *)
Lemma ref_input_conserves I P i :
  window I P -> match i with Arrive _ A _ => I <= A | _ => True end ->
  let '(J, P', D) := ref_input I P i in
  D ++ P' ⊆+ P ++ arrived [i] /\ (P ++ arrived [i]).*1 ⊆ (D ++ P').*1.
Proof.
  intros Hw HA. pose proof (ref_input_spec I P i Hw HA) as Hs.
  destruct (ref_input I P i) as [[J P'] D].
  destruct Hs as (_ & _ & _ & _ & [HP | (-> & -> & now & A & f & -> & Hin)]).
  - split; [by rewrite HP |]. rewrite HP. done.
  - split; [apply submseteq_inserts_r; done |]. simpl. rewrite fmap_app. intros x Hx.
    apply elem_of_app in Hx as [Hx | Hx]; [done |]. simpl in Hx. apply list_elem_of_singleton in Hx. by subst.
Qed.

Lemma ref_run_spec ins I P :
  window I P -> admissible I P ins ->
  let '(J, P', D) := ref_run I P ins in
  window J P' /\ sorted D /\ Forall (fun p => I <= p.1 < J) D /\ I <= J /\
  D ++ P' ⊆+ P ++ arrived ins /\ (P ++ arrived ins).*1 ⊆ (D ++ P').*1.
Proof.
  revert I P. induction ins as [|i ins IH]; intros I P Hw Hadm; cbn [ref_run].
  { repeat (split; [done || constructor || lia |]). rewrite app_nil_r. by split; [|done]. }
  destruct Hadm as [Hi Hadm].
  assert (HA : match i with Arrive _ A _ => I <= A | _ => True end) by (destruct i; [apply Hi | done]).
  pose proof (ref_input_spec I P i Hw HA) as Hs. pose proof (ref_input_conserves I P i Hw HA) as Hc.
  destruct (ref_input I P i) as [[J P'] D]. destruct Hs as (Hw1 & Hs1 & Hb1 & HJ1 & _).
  destruct Hc as [Hc1 Hc2]. specialize (IH J P' Hw1 Hadm).
  destruct (ref_run J P' ins) as [[K P2] D2]. destruct IH as (Hw2 & Hs2 & Hb2 & HJ2 & Hd1 & Hd2).
  split; [done |]. split; [|split; [|split; [lia |]]].
  - apply sorted_app; [done | done |]. intros p q Hp Hq. rewrite Forall_forall in Hb1, Hb2.
    specialize (Hb1 p Hp). specialize (Hb2 q Hq). simpl in *. lia.
  - apply Forall_app. split; (eapply Forall_impl; [eassumption |]); simpl; lia.
  - rewrite arrived_cons. split.
    + rewrite <- app_assoc. etrans; [apply submseteq_app; [done | exact Hd1] |].
      rewrite !app_assoc. by apply submseteq_app.
    + rewrite !fmap_app in *. intros x Hx. rewrite !elem_of_app in *.
      specialize (Hc2 x). specialize (Hd2 x). rewrite !elem_of_app in *. tauto.
Qed.

(** One input of the driver. *)
Definition ctrl_input (rx : aicwf_rx_priv) (c : reord_ctrl) (i : input)
    : res (aicwf_rx_priv * list event * reord_ctrl) :=
  match i with
  | Arrive now _ f =>
      r ← reord_ctrl_unit reorder_timeout allocs now rx c f;
      let '(rx, evs, c, _) := r in Ok (rx, evs, c)
  | GapTimeout now => reord_timeout_worker reorder_timeout allocs now rx c
  end.

Definition pool_kept (new : list nat) (rx : aicwf_rx_priv) (c : reord_ctrl)
    (rx' : aicwf_rx_priv) (c' : reord_ctrl) : Prop :=
  rxframes_freequeue rx' ++ (fid <$> reord_list c') ≡ₚ
    new ++ rxframes_freequeue rx ++ (fid <$> reord_list c).

Lemma ctrl_input_ref rx c I P i :
  rep I P c -> Forall frame_ok P.*2 -> input_ok I i ->
  let '(J, P', D) := ref_input I P i in
  Forall frame_ok P'.*2 /\
  exists rx' evs c', ctrl_input rx c i = Ok (rx', evs, c') /\ rep J P' c' /\ inds evs = D.*2 /\
    pool_kept (fid <$> (arrived [i]).*2) rx c rx' c'.
Proof.
  intros Hrep Hok Hi.
  assert (HA : match i with Arrive _ A _ => I <= A | _ => True end) by (destruct i; [apply Hi | done]).
  assert (Hw : window I P) by (split; [apply (rep_sorted _ _ _ Hrep) | apply (rep_window _ _ _ Hrep)]).
  pose proof (ref_input_conserves I P i Hw HA) as Hc.
  destruct (ref_input I P i) as [[J P'] D] eqn:E. destruct Hc as [Hc _]. split.
  - apply Forall_forall. intros f (p & -> & Hp)%list_elem_of_fmap.
    assert (Hin : p ∈ P ++ arrived [i]).
    { eapply elem_of_submseteq; [|exact Hc]. apply elem_of_app. by right. }
    apply elem_of_app in Hin as [Hin|Hin].
    + rewrite Forall_forall in Hok. apply Hok. by apply list_elem_of_fmap_2.
    + destruct i; [|by apply not_elem_of_nil in Hin]. apply list_elem_of_singleton in Hin. subst p. apply Hi.
  - destruct i as [now A f|now]; cbn [ctrl_input ref_input] in *.
    + destruct Hi as (HA1 & Hf & Hfo).
      destruct (ctrl_unit_ref now rx c f I P A Hrep Hf HA1 Hfo Hok)
        as (rx' & evs & c' & -> & Hr & Hin & _ & Hp & _). rewrite E in *. by exists rx', evs, c'.
    + destruct (timeout_ref now rx c I P Hrep Hok) as (rx' & evs & c' & -> & Hr & Hin & _ & Hp & _).
      rewrite E in *. by exists rx', evs, c'.
Qed.

Fixpoint ctrl_run (rx : aicwf_rx_priv) (c : reord_ctrl) (ins : list input)
    : res (aicwf_rx_priv * list event * reord_ctrl) :=
  match ins with
  | [] => Ok (rx, [], c)
  | i :: ins =>
      r ← ctrl_input rx c i;
      let '(rx, evs, c) := r in
      r ← ctrl_run rx c ins;
      let '(rx, evs', c) := r in Ok (rx, evs ++ evs', c)
  end.

Lemma ctrl_run_ref ins rx c I P :
  rep I P c -> Forall frame_ok P.*2 -> admissible I P ins ->
  let '(J, P', D) := ref_run I P ins in
  exists rx' evs c', ctrl_run rx c ins = Ok (rx', evs, c') /\ rep J P' c' /\ inds evs = D.*2 /\
    pool_kept (fid <$> (arrived ins).*2) rx c rx' c'.
Proof.
  revert rx c I P. induction ins as [|i ins IH]; intros rx c I P Hrep Hok Hadm; cbn [ref_run ctrl_run].
  { exists rx, [], c. repeat (split; [done |]). unfold pool_kept. done. }
  destruct Hadm as [Hi Hadm]. pose proof (ctrl_input_ref rx c I P i Hrep Hok Hi) as H1.
  destruct (ref_input I P i) as [[J1 P1] D1]. destruct H1 as (Hok1 & rx1 & e1 & c1 & E1 & Hr1 & Hi1 & Hp1).
  specialize (IH rx1 c1 J1 P1 Hr1 Hok1 Hadm). destruct (ref_run J1 P1 ins) as [[J2 P2] D2].
  destruct IH as (rx2 & e2 & c2 & E2 & Hr2 & Hi2 & Hp2). rewrite E1. cbn [mbind res_bind].
  rewrite E2. exists rx2, (e1 ++ e2), c2. split; [done |]. split; [done |]. split.
  - unfold inds in *. by rewrite omap_app, Hi1, Hi2, fmap_app.
  - unfold pool_kept in *. rewrite Hp2, Hp1, (arrived_cons i ins), !fmap_app, !app_assoc.
    by rewrite (Permutation_app_comm (fid <$> (arrived ins).*2)).
Qed.

(** C1. Over any sequence of frames and gap timeouts whose numbers stay within half the
    sequence space ahead of the window, the 12-bit window machine of reord_process_unit
    and reord_timeout_worker behaves like the reference with unbounded numbers: it never
    faults, hands frames up in strictly increasing order, each number at most once,
    loses no number that arrived (it was handed up or is pending), and every descriptor
    is back in the pool or on the list. *)
Theorem reorder_in_order rx c I P ins :
  rep I P c -> Forall frame_ok P.*2 -> admissible I P ins ->
  exists rx' evs c' J P' D,
    ctrl_run rx c ins = Ok (rx', evs, c') /\
    ref_run I P ins = (J, P', D) /\ rep J P' c' /\
    inds evs = D.*2 /\ sorted (D ++ P') /\
    D ++ P' ⊆+ P ++ arrived ins /\ (P ++ arrived ins).*1 ⊆ (D ++ P').*1 /\
    pool_kept (fid <$> (arrived ins).*2) rx c rx' c'.
Proof.
  intros Hrep Hok Hadm.
  assert (Hw : window I P) by (split; [apply (rep_sorted _ _ _ Hrep) | apply (rep_window _ _ _ Hrep)]).
  pose proof (ref_run_spec ins I P Hw Hadm) as Hspec. pose proof (ctrl_run_ref ins rx c I P Hrep Hok Hadm) as Hc.
  destruct (ref_run I P ins) as [[J P'] D]. destruct Hspec as ([Hs' Hw'] & HsD & HbD & _ & Hc1 & Hc2).
  destruct Hc as (rx' & evs & c' & E1 & E2 & E3 & E4). exists rx', evs, c', J, P', D.
  repeat (split; [done |]). split; [|done].
  apply sorted_app; [done | done |]. intros p q Hp Hq. rewrite Forall_forall in HbD, Hw'.
  specialize (HbD p Hp). specialize (Hw' q Hq). simpl in *. lia.
Qed.

(** When frames are pending, the work item of the gap timer hands up the first of
    them (and its consecutive successors), moves the window past it, and leaves the
    timer pending whenever frames remain. *)
Theorem gap_timeout_progress now rx c I p P :
  rep I (p :: P) c -> Forall frame_ok (p :: P).*2 ->
  exists rx' evs c' J P' D,
    reord_timeout_worker reorder_timeout allocs now rx c = Ok (rx', evs, c') /\
    inds evs = p.2 :: D.*2 /\ rep J P' c' /\ p.1 < J /\ p :: P ≡ₚ (p :: D) ++ P' /\ gap_watched c'.
Proof.
  intros Hrep Hok. destruct (timeout_ref now rx c I (p :: P) Hrep Hok) as (rx' & evs & c' & E & Hr & Hi & _ & _ & Hg).
  pose proof (rep_sorted _ _ _ Hrep) as Hs. destruct (ref_next_spec p.1 (p :: P) Hs) as (Hm & Hni & _).
  assert (Hlt : p.1 < ref_next p.1 (p :: P)).
  { destruct (Z.eq_dec (ref_next p.1 (p :: P)) p.1) as [e|]; [|lia]. exfalso. apply Hni. rewrite e. left. }
  cbn [ref_timeout] in *. pose proof (ref_flush_perm p.1 (p :: P) _ _ _ eq_refl) as HP.
  unfold ref_flush in *. set (J := ref_next p.1 (p :: P)) in *.
  set (P' := filter (fun q => J <= q.1) (p :: P)) in *.
  rewrite (filter_cons_True (fun q => q.1 < J)) in * by done.
  cbn [fst snd] in *. exists rx', evs, c', J, P', (filter (fun q => q.1 < J) P).
  repeat (split; [done |]). done.
Qed.

(** While frames are pending, the gap timer or its work item is: a frame in the
    window preserves this, and so does the expiry of the timer. *)
Theorem gap_watched_invariant now rx c f I P A :
  rep I P c -> seq_num f = snum A -> I <= A <= I + 2047 -> frame_ok f -> Forall frame_ok P.*2 ->
  gap_watched c ->
  exists rx' evs c',
    reord_ctrl_unit reorder_timeout allocs now rx c f = Ok (rx', evs, c', 0) /\ gap_watched c' /\
    (reord_timer c' <> None -> gap_watched (reord_timeout_handler c')).
Proof.
  intros Hrep Hf HA Hfo Hok Hg.
  destruct (ctrl_unit_ref now rx c f I P A Hrep Hf HA Hfo Hok) as (rx' & evs & c' & E & _ & _ & _ & _ & Hg').
  exists rx', evs, c'. split; [done |]. split; [by apply Hg' |]. intros _ _. by right.
Qed.

(** A frame behind the window goes up at once, out of order, except that
    byte 42 of it (taken for the first byte of an RTP header) makes it a
    frame to drop. *)
Lemma ctrl_unit_stale now rx c f I P A b :
  rep I P c -> seq_num f = snum A -> I - 2048 <= A < I -> frame_ok f ->
  rd (skb_data (pkt f)) 42 = Ok b ->
  exists rx' evs, reord_ctrl_unit reorder_timeout allocs now rx c f = Ok (rx', evs, c, 0) /\
    inds evs = (if b =? 0x80 then [] else [f]) /\ (b = 0x80 -> evs = [EvFree (skb_id (pkt f))]) /\
    pool_after rx rx' [f].
Proof.
  intros Hrep Hf HA Hfo Hb. unfold reord_ctrl_unit.
  rewrite (rep_enable _ _ _ Hrep), Hf, (need_check_old _ _ _ _ Hrep HA). cbn [negb Z.eqb].
  rewrite Hb. cbn [mbind res_bind].
  destruct (single_frame_ok rx f Hfo) as (rx' & evs & Hs & Hi & _ & Hq).
  destruct (Z.eqb_spec b 0x80) as [->|Hn].
  - pose proof (SN_EQUAL_exact A I ltac:(lia)) as HE. unfold SN_EQUAL in HE.
    rewrite (rep_sn _ _ _ Hrep), HE. destruct (Z.eqb_spec A I); [lia |].
    eexists _, _. split; [done |]. split; [done |]. split; [done |]. unfold pool_after. done.
  - rewrite Hs. cbn [mbind res_bind]. eexists _, _. split; [done |]. split; [unfold inds in *; cbn; by f_equal |].
    split; [done |]. unfold pool_after. by rewrite Hq.
Qed.

(** The first frame of a fresh control block opens the window. *)
Lemma ctrl_unit_first now rx c f :
  enable c = true -> wsize_b c = AICWF_REORDER_WINSIZE -> ind_sn c = 0xFFFF -> reord_list c = [] ->
  0 <= seq_num f < 4096 ->
  reord_ctrl_unit reorder_timeout allocs now rx c f =
  reord_ctrl_unit reorder_timeout allocs now rx (c <| ind_sn := seq_num f |>) f.
Proof.
  intros He Hw Hsn Hl Hr. unfold reord_ctrl_unit. change (enable (c <| ind_sn := seq_num f |>)) with (enable c). rewrite He. cbn [negb].
  assert (E : reord_need_check c (seq_num f) = reord_need_check (c <| ind_sn := seq_num f |>) (seq_num f)); [|by rewrite E].
  unfold reord_need_check. rewrite Hsn. cbn [upd ind_sn]. rewrite Z.eqb_refl.
  destruct (Z.eqb_spec (seq_num f) 0xFFFF); [lia |]. cbn [ind_sn].
  unfold SN_LESS, SN_EQUAL. rewrite Z.sub_diag. cbn. by rewrite !Z.eqb_refl.
Qed.

(** The first frame of a fresh control block is handed up at once, whatever its
    number, and the window opens behind it. *)
Theorem window_opens_at_first_frame now rx c f :
  enable c = true -> wsize_b c = AICWF_REORDER_WINSIZE -> ind_sn c = 0xFFFF -> reord_list c = [] ->
  0 <= seq_num f < 4096 -> frame_ok f ->
  exists rx' evs c', reord_ctrl_unit reorder_timeout allocs now rx c f = Ok (rx', evs, c', 0) /\
    inds evs = [f] /\ rep (seq_num f + 1) [] c'.
Proof.
  intros He Hw Hsn Hl Hr Hfo. rewrite ctrl_unit_first by done.
  assert (Hs : snum (seq_num f) = seq_num f) by (apply Z.mod_small; lia).
  assert (Hrep : rep (seq_num f) [] (c <| ind_sn := seq_num f |>)) by (constructor; try done; constructor).
  destruct (ctrl_unit_ref now rx _ f _ [] (seq_num f) Hrep ltac:(done) ltac:(lia) Hfo ltac:(constructor))
    as (rx' & evs & c' & E & Hr' & Hi & _).
  exists rx', evs, c'. split; [done |]. unfold ref_arrive in *. rewrite Z.eqb_refl in *.
  cbn [ref_insert] in *. unfold ref_flush in *. cbn [ref_next fst] in *.
  destruct (Z.ltb_spec (seq_num f) (seq_num f + 1)); [|lia]. rewrite !filter_cons in *. cbn [fst snd] in *.
  rewrite decide_True in Hi by lia. rewrite decide_False in Hr' by lia. done.
Qed.

(** ** The descriptor pool *)

Lemma netif_loop_env rx l rx' evs :
  netif_loop rx l = Ok (rx', evs) -> same_env rx rx' /\ rxframes_freequeue rx' = rxframes_freequeue rx.
Proof.
  revert rx evs. induction l as [|d l IH]; intros rx evs H; cbn [netif_loop] in H; [by simplify_eq |].
  apply bind_Ok in H as (m & _ & H). apply bind_Ok in H as ([rx1 e1] & H1 & H2). simplify_eq.
  by apply IH in H1.
Qed.

Lemma single_frame_env rx f rx' evs :
  reord_single_frame_ind allocs rx f = Ok (rx', evs) ->
  same_env rx rx' /\ rxframes_freequeue rx' = fid f :: rxframes_freequeue rx.
Proof.
  unfold reord_single_frame_ind. destruct (forward f); cbn [negb]; intros H; [|by simplify_eq].
  apply bind_Ok in H as (l & _ & H). apply bind_Ok in H as ([rx1 e1] & H1 & H2). simplify_eq.
  apply netif_loop_env in H1 as [He Hq]. split; [done |]. cbn. by rewrite Hq.
Qed.

Lemma ind_loop_env rx sn l rx' evs rest :
  rxframes_ind_loop allocs rx sn l = Ok (rx', evs, rest) ->
  same_env rx rx' /\ rxframes_freequeue rx' ++ (fid <$> rest) ≡ₚ rxframes_freequeue rx ++ (fid <$> l).
Proof.
  revert rx evs. induction l as [|f l IH]; intros rx evs H; cbn [rxframes_ind_loop] in H; [by simplify_eq |].
  destruct (SN_LESS sn (seq_num f)); cbn [negb] in H; [by simplify_eq |].
  apply bind_Ok in H as ([rx1 e1] & H1 & H). apply bind_Ok in H as ([[rx2 e2] r2] & H2 & H). simplify_eq.
  apply single_frame_env in H1 as [He1 Hq1]. apply IH in H2 as [He2 Hq2]. split; [by etrans |].
  rewrite Hq2, Hq1, fmap_cons. simpl. by rewrite Permutation_middle.
Qed.

Lemma enqueue_perm f l l' : enqueue_list f l = Some l' -> l' ≡ₚ f :: l.
Proof.
  revert l'. induction l as [|n l IH]; intros l' H; simpl in H; [by simplify_eq |].
  destruct (SN_LESS _ _); [|destruct (SN_EQUAL _ _); [discriminate | by simplify_eq]].
  destruct (enqueue_list f l) as [l1|]; [|discriminate]. simplify_eq/=.
  by rewrite (IH l1 eq_refl), Permutation_swap.
Qed.

Lemma rxframes_process_list c b c' m :
  reord_rxframes_process c b = (c', m) -> reord_list c' = reord_list c.
Proof.
  unfold reord_rxframes_process. destruct (reord_list c) eqn:E; [intros; by simplify_eq |].
  destruct (process_scan _ _). intros [= <- <-]. done.
Qed.

(** Every path through a control block keeps the descriptor: it goes back to
    the pool or stays on the list. *)
Lemma ctrl_unit_pool now rx c f rx' evs c' ret :
  reord_ctrl_unit reorder_timeout allocs now rx c f = Ok (rx', evs, c', ret) ->
  same_env rx rx' /\ ret = 0 /\ pool_kept [fid f] rx c rx' c'.
Proof.
  unfold reord_ctrl_unit, pool_kept. destruct (enable c); cbn [negb].
  2:{ intros ([rx1 e1] & H1 & H)%bind_Ok. apply single_frame_env in H1 as [He Hq]. simplify_eq.
      split; [done |]. split; [done |]. cbn. by rewrite Hq. }
  destruct (reord_need_check c (seq_num f)) as [c1 chk] eqn:Ec.
  assert (Hl1 : reord_list c1 = reord_list c).
  { unfold reord_need_check in Ec. by repeat (case_match; simplify_eq/=). }
  destruct (chk =? 0); cbn [negb].
  - unfold reord_rxframe_enqueue. rewrite Hl1. destruct (enqueue_list f (reord_list c)) as [l|] eqn:Eq; cbn [negb Z.eqb].
    + apply enqueue_perm in Eq. destruct (reord_rxframes_process _ false) as [c2 more] eqn:Ep.
      apply rxframes_process_list in Ep. cbn in Ep. intros ([[rx3 e3] c3] & H3 & H)%bind_Ok. simplify_eq.
      unfold reord_rxframes_ind in H3. apply bind_Ok in H3 as ([[rx4 e4] rest] & H4 & H). simplify_eq.
      apply ind_loop_env in H4 as [He Hq]. split; [done |]. split; [done |]. cbn.
      rewrite Hq. replace (reord_list (if more then _ else _)) with (reord_list c2) by (by repeat case_match).
      rewrite Eq.
      by rewrite fmap_cons, Permutation_middle.
    + intros [= <- <- <- <-]. split; [done |]. split; [done |]. cbn. by rewrite Hl1.
  - intros (b & _ & H)%bind_Ok. repeat case_match;
      try (apply bind_Ok in H as ([rx1 e1] & Hind & H); apply single_frame_env in Hind as [He Hq]);
      simplify_eq; (split; [done |]); (split; [done |]); cbn; rewrite ?Hq, ?Hl1; done.
Qed.

Definition ctrl_fids (s : reord_ctrl_info) : list nat :=
  preorder_ctrl s ≫= fun c => fid <$> reord_list c.

(** Every descriptor the driver can still reach. *)
Definition pool_ids (rx : aicwf_rx_priv) : list nat :=
  rxframes_freequeue rx ++ (stas_reord_list rx ≫= ctrl_fids).

Lemma put_ctrl_pool rx i t c c' rest :
  get_ctrl rx i t = Ok c -> rest ++ (fid <$> reord_list c') ≡ₚ rxframes_freequeue rx ++ (fid <$> reord_list c) ->
  rest ++ (stas_reord_list (put_ctrl rx i t c') ≫= ctrl_fids) ≡ₚ pool_ids rx.
Proof.
  unfold get_ctrl, pool_ids. intros Hg HP. destruct (stas_reord_list rx !! i) as [s|] eqn:Hs; [|discriminate].
  destruct (t <? 0); [discriminate |]. destruct (preorder_ctrl s !! Z.to_nat t) as [c0|] eqn:Ht; [|discriminate].
  simplify_eq. cbn [put_ctrl upd stas_reord_list]. rewrite (alter_insert _ _ _ s) by done.
  destruct (bind_insert_split ctrl_fids _ i s Hs) as (R & E1 & E2). rewrite E1, E2.
  unfold ctrl_fids at 1 2. cbn [upd preorder_ctrl].
  destruct (bind_insert_split (fun c => fid <$> reord_list c) _ _ _ Ht) as (R' & E3 & E4). rewrite E3, E4.
  rewrite !app_assoc. by rewrite HP.
Qed.

Lemma reenable_list c :
  reord_list (if enable c then c
    else c <| enable := true |> <| ind_sn := 0xffff |> <| wsize_b := AICWF_REORDER_WINSIZE |>) = reord_list c.
Proof. by destruct (enable c). Qed.

(** A received frame either returns 0 and keeps the set of descriptors the driver
    can reach (pool and pending lists) unchanged, or returns -1 having only freed the
    socket buffer, with the driver state as before or short of exactly one descriptor.
    *)
Theorem process_unit_pool now kmalloc rx skb sn t fwd amsdu rx' evs ret :
  reord_process_unit reorder_timeout allocs now kmalloc rx skb sn t fwd amsdu = Ok (rx', evs, ret) ->
  (ret = 0 /\ pool_ids rx' ≡ₚ pool_ids rx) \/
  (ret = -1 /\ evs = [EvFree (skb_id skb)] /\
    (rx' = rx \/ exists fr, fr :: pool_ids rx' = pool_ids rx)).
Proof.
  unfold reord_process_unit. intros H. destruct (rwnx_vif rx) as [ift|]; [|simplify_eq; by eauto].
  destruct (skb_len skb <=? 14); [simplify_eq; by eauto |]. unfold reord_rxframe_alloc in H.
  destruct (rxframes_freequeue rx) as [|fr q] eqn:Hq; [simplify_eq; by eauto |].
  set (rx1 := rx <| rxframes_freequeue := q |>) in *.
  set (f := RecvMsdu fr skb t sn fwd amsdu) in *.
  assert (Hpool1 : fr :: pool_ids rx1 = pool_ids rx) by (unfold pool_ids; by rewrite Hq).
  apply bind_Ok in H as (proto & _ & H). destruct (proto =? ETH_P_PAE).
  { apply bind_Ok in H as ([rx2 e2] & H2 & H). simplify_eq. left. split; [done |].
    apply single_frame_env in H2 as [(_ & _ & Hs) Hf]. unfold pool_ids. rewrite Hs, Hf. cbn. by rewrite Hq. }
  destruct (peer_mac ift (skb_data skb)) as [mac|]; [|simplify_eq; eauto 6].
  match type of H with match ?e with _ => _ end = _ => destruct e as [[rx2 i]|] eqn:Hfound end;
    [|simplify_eq; eauto 6].
  assert (Hrx2 : rxframes_freequeue rx2 = q /\ pool_ids rx2 = pool_ids rx1).
  { destruct (find_sta rx1 mac) as [j|]; [by simplify_eq |]. unfold reord_init_sta in Hfound.
    destruct (bus_down rx1), kmalloc; try discriminate. cbn [negb] in Hfound. simplify_eq.
    split; [done |]. unfold pool_ids. cbn. rewrite bind_app. cbn. by rewrite !app_nil_r. }
  destruct Hrx2 as [Hq2 Hpool2].
  apply bind_Ok in H as (c & Hc & H). apply bind_Ok in H as ([[[rx3 e3] c3] r3] & H3 & H). simplify_eq.
  apply ctrl_unit_pool in H3 as ((_ & _ & Hs3) & -> & Hk). left. split; [done |].
  unfold pool_kept in Hk. rewrite reenable_list in Hk. rewrite <- Hpool1, <- Hpool2.
  unfold pool_ids at 1. cbn [put_ctrl upd stas_reord_list rxframes_freequeue]. rewrite Hs3.
  assert (Hc' : get_ctrl (rx2 <| rxframes_freequeue ::= cons fr |>) i t = Ok c) by done.
  pose proof (put_ctrl_pool _ i t c c3 (rxframes_freequeue rx3) Hc' Hk) as HP.
  etrans; [exact HP |]. done.
Qed.

(** When the interface type is not supported or the control block of a new peer
    cannot be created, reord_process_unit frees the socket buffer but never returns the
    descriptor it took: the pool is one smaller for good. *)
Theorem descriptor_leak now kmalloc rx skb sn t fwd amsdu ift fr q proto :
  rwnx_vif rx = Some ift -> 14 < skb_len skb -> rxframes_freequeue rx = fr :: q ->
  rd_be16 (skb_data skb) 12 = Ok proto -> proto <> ETH_P_PAE ->
  (peer_mac ift (skb_data skb) = None \/
   exists mac, peer_mac ift (skb_data skb) = Some mac /\ find_sta rx mac = None /\
     (bus_down rx = true \/ kmalloc = false)) ->
  exists rx', reord_process_unit reorder_timeout allocs now kmalloc rx skb sn t fwd amsdu
      = Ok (rx', [EvFree (skb_id skb)], -1) /\
    fr :: pool_ids rx' = pool_ids rx.
Proof.
  intros Hv Hl Hq Hp Hne Hcase. unfold reord_process_unit. rewrite Hv.
  destruct (Z.leb_spec (skb_len skb) 14); [lia |]. unfold reord_rxframe_alloc. rewrite Hq, Hp.
  cbn [mbind res_bind]. destruct (Z.eqb_spec proto ETH_P_PAE); [done |].
  exists (rx <| rxframes_freequeue := q |>). split; [|unfold pool_ids; by rewrite Hq].
  destruct Hcase as [-> | (mac & -> & Hf & Hb)]; [done |].
  change (find_sta (rx <| rxframes_freequeue := q |>) mac) with (find_sta rx mac). rewrite Hf.
  unfold reord_init_sta. change (bus_down (rx <| rxframes_freequeue := q |>)) with (bus_down rx).
  destruct Hb as [-> | ->]; [done |]. by destruct (bus_down rx).
Qed.

(** A traffic identifier of 8 or more (the header field has four bits) makes
    reord_process_unit index preorder_ctrl[8] out of bounds. *)
Theorem tid_out_of_range now kmalloc rx skb sn t fwd amsdu ift fr q proto mac i s :
  rwnx_vif rx = Some ift -> 14 < skb_len skb -> rxframes_freequeue rx = fr :: q ->
  rd_be16 (skb_data skb) 12 = Ok proto -> proto <> ETH_P_PAE ->
  peer_mac ift (skb_data skb) = Some mac -> find_sta rx mac = Some i ->
  stas_reord_list rx !! i = Some s -> length (preorder_ctrl s) = 8%nat -> 8 <= t ->
  reord_process_unit reorder_timeout allocs now kmalloc rx skb sn t fwd amsdu = Fault.
Proof.
  intros Hv Hl Hq Hp Hne Hm Hf Hs H8 Ht. unfold reord_process_unit. rewrite Hv.
  destruct (Z.leb_spec (skb_len skb) 14); [lia |]. unfold reord_rxframe_alloc. rewrite Hq, Hp.
  cbn [mbind res_bind]. destruct (Z.eqb_spec proto ETH_P_PAE); [done |]. rewrite Hm.
  change (find_sta (rx <| rxframes_freequeue := q |>) mac) with (find_sta rx mac). rewrite Hf.
  unfold get_ctrl. cbn [upd stas_reord_list]. rewrite Hs. destruct (Z.ltb_spec t 0); [lia |].
  by rewrite lookup_ge_None_2 by lia.
Qed.

(** ** Tearing down *)

Lemma flush_loop_ok rx l :
  Forall frame_ok l ->
  exists rx' evs, flush_loop allocs rx l = Ok (rx', evs) /\ inds evs = l /\ same_env rx rx' /\
    pool_after rx rx' l.
Proof.
  intros Hl. revert rx. induction Hl as [|f l Hf Hl IH]; intros rx; cbn [flush_loop].
  { exists rx, []. repeat split. unfold pool_after. done. }
  destruct (single_frame_ok rx f Hf) as (rx1 & e1 & -> & Hi1 & He1 & Hq1). cbn [mbind res_bind].
  destruct (IH rx1) as (rx2 & e2 & -> & Hi2 & He2 & Hq2). cbn [mbind res_bind].
  exists rx2, ((EvInd f :: e1) ++ e2). split; [done |]. unfold inds in *.
  rewrite omap_app. cbn. rewrite Hi1, Hi2. split; [done |]. split; [by etrans |].
  unfold pool_after in *. rewrite Hq2, Hq1. cbn. by rewrite Permutation_middle.
Qed.

(** reord_flush_tid hands up every pending frame of the TID in order, leaves the
    control block empty and disabled with neither timer nor work pending, and returns
    every descriptor to the pool. *)
Theorem flush_tid_empties rx skb t ift mac i c :
  rwnx_vif rx = Some ift -> peer_mac ift (skb_data skb) = Some mac -> find_sta rx mac = Some i ->
  get_ctrl rx i t = Ok c -> enable c = true -> Forall frame_ok (reord_list c) ->
  exists rx' evs c', reord_flush_tid allocs rx skb t = Ok (rx', evs, 0) /\
    inds evs = reord_list c /\ get_ctrl rx' i t = Ok c' /\ enable c' = false /\ reord_list c' = [] /\
    reord_timer c' = None /\ reord_timer_work c' = false /\ pool_ids rx' ≡ₚ pool_ids rx.
Proof.
  intros Hv Hm Hf Hg He Hok. unfold reord_flush_tid. rewrite Hv, Hm, Hf, Hg. cbn [mbind res_bind].
  rewrite He. cbn [negb]. destruct (flush_loop_ok rx _ Hok) as (rx1 & evs & -> & Hi & (_ & _ & Hs) & Hp).
  cbn [mbind res_bind]. set (c' := c <| reord_list := [] |> <| enable := false |>
    <| reord_timer := None |> <| reord_timer_work := false |>).
  eexists _, evs, c'. split; [done |]. split; [done |]. split.
  - unfold get_ctrl in *. cbn [put_ctrl upd stas_reord_list]. rewrite Hs.
    destruct (stas_reord_list rx !! i) as [s|] eqn:Hsi; [|discriminate].
    destruct (t <? 0) eqn:Ht; [discriminate |].
    destruct (preorder_ctrl s !! Z.to_nat t) as [c0|] eqn:Hc; [|discriminate].
    rewrite (alter_insert _ _ _ s), list_lookup_insert_eq by (done || by eapply lookup_lt_Some).
    cbn [upd preorder_ctrl]. by rewrite list_lookup_insert_eq by (by eapply lookup_lt_Some).
  - repeat (split; [done |]). unfold pool_ids at 1. cbn [put_ctrl upd stas_reord_list rxframes_freequeue].
    rewrite Hs. apply (put_ctrl_pool rx i t c c'); [done |]. cbn. rewrite app_nil_r.
    unfold pool_after in Hp. rewrite Hp. apply Permutation_app_comm.
Qed.

Lemma deinit_tids_pool cs rx :
  let '(rx', evs) := deinit_tids rx cs in
  stas_reord_list rx' = stas_reord_list rx /\
  rxframes_freequeue rx' ≡ₚ rxframes_freequeue rx ++ (cs ≫= fun c => fid <$> reord_list c).
Proof.
  revert rx. induction cs as [|c cs IH]; intros rx; cbn [deinit_tids]; [split; [done |]; by rewrite app_nil_r |].
  unfold deinit_tid. specialize (IH (rx <| rxframes_freequeue ::= app (rev (fid <$> reord_list c)) |>)).
  destruct (deinit_tids _ cs) as [rx' e']. destruct IH as [IH1 IH2]. split; [done |].
  rewrite IH2. cbn. rewrite <- Permutation_rev, app_assoc.
  by rewrite (Permutation_app_comm (fid <$> reord_list c)).
Qed.

(** reord_deinit_sta removes the station and returns the descriptors of all its
    pending frames to the pool. *)
Theorem deinit_sta_returns_descriptors rx i s :
  stas_reord_list rx !! i = Some s ->
  let '(rx', evs) := reord_deinit_sta rx i in
  stas_reord_list rx' = delete i (stas_reord_list rx) /\ pool_ids rx' ≡ₚ pool_ids rx.
Proof.
  intros Hs. unfold reord_deinit_sta. rewrite Hs. pose proof (deinit_tids_pool (preorder_ctrl s) rx) as H.
  destruct (deinit_tids rx (preorder_ctrl s)) as [rx1 evs]. destruct H as [H1 H2].
  cbn. rewrite H1. split; [done |]. unfold pool_ids. cbn. rewrite H2.
  rewrite (delete_Permutation (stas_reord_list rx) i s Hs) at 2. cbn. by rewrite <- app_assoc.
Qed.

Lemma eth_trans_be16 d w : rd_be16 d 26 = Ok w -> rd_be16 (eth_type_trans d) 12 = Ok w.
Proof.
  intros Hw. unfold eth_type_trans, Amsdu.skb_pull. destruct (Z.ltb_spec (Z.of_nat (length d)) 14).
  - unfold rd_be16 in Hw. rewrite (rd_beyond d 26) in Hw by lia. discriminate Hw.
  - rewrite <- Hw. unfold rd_be16. by rewrite !rd_drop by lia.
Qed.

(** The receive hook of the TCP ACK filter is called after eth_type_trans has moved
    past the Ethernet header it parses: for frames whose IPv4 source address does not
    start with 8.0 it never marks a flow. *)
Theorem rx_hook_misses_ipv4 rx l :
  Forall (fun d => exists w, rd_be16 d 26 = Ok w /\ w <> 0x0800) l ->
  exists rx', netif_loop rx l = Ok (rx', EvNetif <$> l) /\ ack_m rx' = ack_m rx.
Proof.
  intros Hl. revert rx. induction Hl as [|d l (w & Hw & Hne) Hl IH]; intros rx; [by exists rx |].
  cbn [netif_loop].
  assert (Hm : forall n, TcpAck.filter_rx_tcp_ack (ack_m rx) (eth_type_trans d) n = Ok (ack_m rx)).
  { intros n. unfold TcpAck.filter_rx_tcp_ack, TcpAck.tcp_check_quick_ack, TcpAck.tcp_ack_header.
    rewrite eth_trans_be16 with (w := w) by done. cbn [mbind res_bind].
    destruct (Z.eqb_spec w TcpAck.ETH_P_IP); [done |]. by repeat case_match. }
  cbn [upd ack_m rx_packets rx_bytes]. rewrite Hm. cbn [mbind res_bind].
  match goal with |- context [netif_loop ?r l] => destruct (IH r) as (rx' & E & He) end.
  rewrite E. by exists rx'.
Qed.

End Delivery.

(** ** Witnesses *)

Module Example.

Definition sta : list Z := [2; 0; 0; 0; 0; 1].
Definition peer : list Z := [2; 0; 0; 0; 0; 9].

(** An Ethernet frame with an IPv4 header from 192.168.1.1. *)
Definition eth_frame (b42 : Z) : list Z :=
  sta ++ peer ++ [8; 0; 0x45; 0] ++ replicate 6 0 ++ [64; 17; 0; 0; 192; 168; 1; 1; 192; 168; 1; 2]
    ++ replicate 8 0 ++ [b42] ++ replicate 17 0.

Definition frame (n : nat) (sn : Z) : recv_msdu :=
  RecvMsdu n (SkBuff (Pos.of_succ_nat n) (eth_frame 0)) 0 sn true false.

Definition ctrl0 : reord_ctrl := new_ctrl <| ind_sn := 4094 |>.

Definition rx0 : aicwf_rx_priv :=
  {| rwnx_vif := Some STATION; bus_down := false; rxframes_freequeue := [100; 101; 102]%nat;
     stas_reord_list := [{| mac_addr := sta; preorder_ctrl := replicate 8 ctrl0 |}];
     rx_packets := 0; rx_bytes := 0; ack_m := TcpAck.tcp_ack_init (fun ms => ms / 10) 0 |}.

(** Frames 4096 (wrapped to 0), 4094 and 4095 of the window at 4094, a
    duplicate, then the gap timer. *)
Definition ins0 : list input :=
  [Arrive 10 4096 (frame 0 0); Arrive 11 4094 (frame 1 4094); Arrive 12 4096 (frame 2 0);
   Arrive 13 4095 (frame 3 4095); Arrive 14 4100 (frame 4 4); GapTimeout 70].

Lemma frame_fine n sn : frame_ok 4 (frame n sn).
Proof.
  right. exists [eth_frame 0]. split; [reflexivity |]. constructor; [|constructor].
  exists None. vm_compute. reflexivity.
Qed.

Lemma ctrl0_rep : rep 4094 [] ctrl0.
Proof. constructor; try reflexivity; constructor. Qed.

End Example.

Lemma reorder_in_order_witness :
  exists rx' evs c' J P' D,
    ctrl_run 50 4 Example.rx0 Example.ctrl0 Example.ins0 = Ok (rx', evs, c') /\
    ref_run 4094 [] Example.ins0 = (J, P', D) /\ rep J P' c' /\
    inds evs = D.*2 /\ sorted (D ++ P') /\
    D ++ P' ⊆+ [] ++ arrived Example.ins0 /\ ([] ++ arrived Example.ins0).*1 ⊆ (D ++ P').*1 /\
    pool_kept (fid <$> (arrived Example.ins0).*2) Example.rx0 Example.ctrl0 rx' c'.
Proof.
  apply (reorder_in_order 50 4 Example.rx0 Example.ctrl0 4094 [] Example.ins0).
  - apply Example.ctrl0_rep.
  - constructor.
  - cbn [admissible Example.ins0 input_ok].
    repeat match goal with
    | |- _ /\ _ => split
    | |- True => exact Logic.I
    | |- frame_ok _ _ => apply Example.frame_fine
    | |- seq_num _ = _ => reflexivity
    | |- (_ <= _)%Z => vm_compute; discriminate
    end.
Defined.

Lemma gap_timeout_progress_witness :
  exists rx' evs c' J P' D,
    reord_timeout_worker 50 4 70 Example.rx0
      (Example.ctrl0 <| reord_list := [Example.frame 7 4095] |>) = Ok (rx', evs, c') /\
    inds evs = Example.frame 7 4095 :: D.*2 /\ rep J P' c' /\ 4095 < J /\
    [(4095, Example.frame 7 4095)] ≡ₚ ((4095, Example.frame 7 4095) :: D) ++ P' /\ gap_watched c'.
Proof.
  apply (gap_timeout_progress 50 4 70 Example.rx0 _ 4094 (4095, Example.frame 7 4095) []).
  - constructor; try reflexivity.
    + repeat constructor.
    + repeat constructor.
    + constructor; [|constructor]. simpl. lia.
  - constructor; [apply Example.frame_fine | constructor].
Defined.

Lemma gap_watched_invariant_witness :
  exists rx' evs c',
    reord_ctrl_unit 50 4 10 Example.rx0 Example.ctrl0 (Example.frame 7 0) = Ok (rx', evs, c', 0) /\
    gap_watched c' /\ (reord_timer c' <> None -> gap_watched (reord_timeout_handler c')).
Proof.
  apply (gap_watched_invariant 50 4 10 Example.rx0 Example.ctrl0 (Example.frame 7 0) 4094 [] 4096);
    [apply Example.ctrl0_rep | reflexivity | lia | apply Example.frame_fine | constructor | intros []; reflexivity].
Defined.

Lemma window_opens_at_first_frame_witness :
  exists rx' evs c',
    reord_ctrl_unit 50 4 10 Example.rx0 new_ctrl (Example.frame 7 4095) = Ok (rx', evs, c', 0) /\
    inds evs = [Example.frame 7 4095] /\ rep (4095 + 1) [] c'.
Proof.
  apply (window_opens_at_first_frame 50 4 10 Example.rx0 new_ctrl (Example.frame 7 4095));
    try reflexivity; [simpl; lia | apply Example.frame_fine].
Defined.

(** A received frame whose descriptor ends up on the list. *)
Lemma process_unit_pool_witness :
  exists rx' evs ret,
    reord_process_unit 50 4 10 true Example.rx0 (SkBuff 5 (Example.eth_frame 0)) 0 3 true false
      = Ok (rx', evs, ret) /\
    ((ret = 0 /\ pool_ids rx' ≡ₚ pool_ids Example.rx0) \/
     (ret = -1 /\ evs = [EvFree 5] /\
       (rx' = Example.rx0 \/ exists fr, fr :: pool_ids rx' = pool_ids Example.rx0))).
Proof.
  destruct (reord_process_unit 50 4 10 true Example.rx0 (SkBuff 5 (Example.eth_frame 0)) 0 3 true false)
    as [[[rx' evs] ret]| |] eqn:E; [|vm_compute in E; discriminate E | vm_compute in E; discriminate E].
  exists rx', evs, ret. split; [reflexivity |].
  exact (process_unit_pool 50 4 10 true Example.rx0 _ 0 3 true false rx' evs ret E).
Defined.

Lemma descriptor_leak_witness :
  exists rx',
    reord_process_unit 50 4 10 false (Example.rx0 <| stas_reord_list := [] |>)
      (SkBuff 5 (Example.eth_frame 0)) 0 3 true false = Ok (rx', [EvFree 5], -1) /\
    100%nat :: pool_ids rx' = pool_ids (Example.rx0 <| stas_reord_list := [] |>).
Proof.
  apply (descriptor_leak 50 4 10 false (Example.rx0 <| stas_reord_list := [] |>)
    (SkBuff 5 (Example.eth_frame 0)) 0 3 true false STATION 100 [101; 102]%nat 0x800);
    try reflexivity; [discriminate |].
  right. exists Example.sta. split; [reflexivity |]. split; [reflexivity |]. right. reflexivity.
Defined.

Lemma tid_out_of_range_witness :
  reord_process_unit 50 4 10 true Example.rx0 (SkBuff 5 (Example.eth_frame 0)) 0 8 true false = Fault.
Proof.
  apply (tid_out_of_range 50 4 10 true Example.rx0 (SkBuff 5 (Example.eth_frame 0)) 0 8 true false
    STATION 100 [101; 102]%nat 0x800 Example.sta 0 {| mac_addr := Example.sta; preorder_ctrl := replicate 8 Example.ctrl0 |});
    try reflexivity; discriminate.
Defined.

Lemma flush_tid_empties_witness :
  let c := Example.ctrl0 <| reord_list := [Example.frame 7 4095; Example.frame 8 0] |> in
  let rx := put_ctrl Example.rx0 0 3 c in
  exists rx' evs c', reord_flush_tid 4 rx (SkBuff 5 (Example.eth_frame 0)) 3 = Ok (rx', evs, 0) /\
    inds evs = [Example.frame 7 4095; Example.frame 8 0] /\ get_ctrl rx' 0 3 = Ok c' /\
    enable c' = false /\ reord_list c' = [] /\
    reord_timer c' = None /\ reord_timer_work c' = false /\ pool_ids rx' ≡ₚ pool_ids rx.
Proof.
  intros c rx.
  apply (flush_tid_empties 4 rx (SkBuff 5 (Example.eth_frame 0)) 3 STATION Example.sta 0 c);
    try reflexivity.
  constructor; [apply Example.frame_fine | constructor; [apply Example.frame_fine | constructor]].
Defined.

Lemma deinit_sta_returns_descriptors_witness :
  let '(rx', evs) := reord_deinit_sta
    (put_ctrl Example.rx0 0 3 (Example.ctrl0 <| reord_list := [Example.frame 7 4095] |>)) 0 in
  stas_reord_list rx' = [] /\ pool_ids rx' ≡ₚ [100; 101; 102; 7]%nat.
Proof.
  exact (deinit_sta_returns_descriptors
    (put_ctrl Example.rx0 0 3 (Example.ctrl0 <| reord_list := [Example.frame 7 4095] |>)) 0 _ eq_refl).
Defined.

Lemma rx_hook_misses_ipv4_witness :
  exists rx', netif_loop Example.rx0 [Example.eth_frame 0] = Ok (rx', [EvNetif (Example.eth_frame 0)]) /\
    ack_m rx' = ack_m Example.rx0.
Proof.
  apply (rx_hook_misses_ipv4 Example.rx0 [Example.eth_frame 0]).
  constructor; [|constructor]. exists (192 * 256 + 168). split; [reflexivity | discriminate].
Defined.

End Reorder.
