(* ===== verification/RxData.v ===== *)
(** * Received data frames (rwnx_rxdataind_aicwf of rwnx_rx.c)

    A frame from the firmware is a descriptor (the fields of [hw_rxhdr] the
    host uses) and an 802.11 frame.  The driver parses the 802.11 header,
    reassembles fragments, replaces header, cipher header and LLC/SNAP by an
    Ethernet header and dispatches the frame: to the reorder buffer, to the
    network stack or back to the air.

    Modelled is the configuration the Makefile selects (no 4-address, bridge or
    band-steering support) for frames that do not come from a monitor
    interface.  An interface or station table entry that does not exist is
    [None]. *)

From stdpp Require Import prelude.
From S2P Require Import Prelude RxAmsdu TcpAck RxReorder.
Open Scope Z_scope.

Module RxData.
Import Reorder.

(** ** Data *)

Definition RWNX_INVALID_STA : Z := 0xFF.
Definition NX_VIRT_DEV_MAX : Z := 4.
Definition MAC_FCTRL_MOREFRAG : Z := 0x0400.
Definition DEFRAG_SKB_LEN : Z := 2000.
Definition DEFRAG_MAX_WAIT : Z := 40.

Inductive decr := UNENC | WEP | TKIP | CCMP128 | CCMP256 | GCMP128 | GCMP256 | WAPI.

Record hw_rxhdr := HwRxhdr {
  flags_upload : bool;
  flags_is_80211_mpdu : bool;
  flags_vif_idx : Z;
  flags_sta_idx : Z;
  flags_dst_idx : Z;
  flags_need_reord : bool;
  decr_status : decr;
  ga_frame : bool }.

Record rwnx_vif_t := RwnxVif {
  vif_index : Z; vif_type : iftype; up : bool; ap_isolate : bool }.

Record rwnx_sta := RwnxSta { valid : bool; vlan_idx : Z }.

Record defrag_ctrl_info := DefragCtrl {
  d_sta_idx : Z; d_tid : Z; sn : Z; next_fn : Z; d_skb : list Z; defrag_timer : option Z }.

#[global] Instance eta_defrag : Settable defrag_ctrl_info := fun r =>
  DefragCtrl (d_sta_idx r) (d_tid r) (sn r) (next_fn r) (d_skb r) (defrag_timer r).

Record rwnx_hw := RwnxHw {
  vif_table : list (option rwnx_vif_t);
  sta_table : list rwnx_sta;
  defrag_list : list defrag_ctrl_info }.

#[global] Instance eta_hw : Settable rwnx_hw := fun r =>
  RwnxHw (vif_table r) (sta_table r) (defrag_list r).

Definition rwnx_rx_get_vif (hw : rwnx_hw) (vif_idx : Z) : option rwnx_vif_t :=
  if vif_idx <? NX_VIRT_DEV_MAX then
    match vif_table hw !! Z.to_nat vif_idx with
    | Some (Some v) => if up v then Some v else None
    | _ => None
    end
  else None.

Definition vif_active (hw : rwnx_hw) (vif_idx : Z) : bool :=
  match rwnx_rx_get_vif hw vif_idx with Some _ => true | None => false end.

Definition get_sta (hw : rwnx_hw) (i : Z) : res rwnx_sta :=
  match sta_table hw !! Z.to_nat i with Some s => Ok s | None => Fault end.

(** ** The 802.11 header *)

Record mpdu_info := MpduInfo {
  frame_ctrl : Z; seq : Z; frag_num : Z; m_tid : Z; is_qos : bool; amsdu_present : bool;
  hdr_len : Z; pull_len : Z; ra : list Z; ta : list Z; ether_type : list Z }.

(** [memcpy] of [n] bytes at [off]. *)
Definition copy (data : list Z) (off n : Z) : res (list Z) :=
  if Z.of_nat (length data) <? off + n then Fault
  else Ok (take (Z.to_nat n) (drop (Z.to_nat off) data)).

(** The length of the cipher header that is still in front of LLC/SNAP. *)
Definition cipher_hdr (d : decr) : Z :=
  match d with
  | CCMP128 | CCMP256 | GCMP128 | GCMP256 | TKIP => 8
  | WEP => 4
  | WAPI => 18
  | UNENC => 0
  end.

Definition is_data_frame (b0 : Z) : bool := Z.land b0 0x0f =? 0x08.

Definition parse_addr (b1 : Z) (data : list Z) : res (list Z * list Z) :=
  if Z.land b1 0x3 =? 0x1 then
    ra ← copy data 16 6; ta ← copy data 10 6; Ok (ra, ta)
  else if Z.land b1 0x3 =? 0x2 then
    ta ← copy data 16 6; ra ← copy data 4 6; Ok (ra, ta)
  else Ok (replicate 6 0, replicate 6 0).

(** The fields read from every frame, and for a data frame the lengths and
    addresses. *)
Definition parse_mpdu (d : decr) (data : list Z) : res mpdu_info :=
  b0 ← rd data 0; b1 ← rd data 1; b22 ← rd data 22; b23 ← rd data 23;
  let fc := Z.lor (Z.shiftl b1 8) b0 in
  let seq_num := Z.lor (Z.shiftr (Z.land b22 0xf0) 4) (Z.shiftl b23 4) in
  let frag := Z.land b22 0x0f in
  if is_data_frame b0 then
    let qos := Z.land b0 0x80 =? 0x80 in
    q ← (if qos then rd data 24 else Ok 0);
    let hdr := 24 + (if qos then 2 else 0) + (if negb (Z.land b1 0x80 =? 0) then 4 else 0) in
    a ← parse_addr b1 data;
    et ← copy data (hdr + 6 + cipher_hdr d) 2;
    Ok (MpduInfo fc seq_num frag (Z.land q 0x0F) qos (negb (Z.land q 0x80 =? 0))
          hdr (hdr + 8 + cipher_hdr d) a.1 a.2 et)
  else Ok (MpduInfo fc seq_num frag 0 false false 24 0 (replicate 6 0) (replicate 6 0) [0; 0]).

(** Pull to the payload, push an Ethernet header (the descriptor in front of
    the frame leaves the room). *)
Definition to_eth (m : mpdu_info) (data : list Z) : list Z :=
  ra m ++ ta m ++ ether_type m ++ Amsdu.skb_pull data (pull_len m).

(** The A-MSDU flag is dropped when the first subframe starts like LLC/SNAP
    with an Ethernet type; otherwise the headers are pulled. *)
Definition amsdu_fix (m : mpdu_info) (data : list Z) : res (bool * list Z) :=
  if amsdu_present m then
    b8 ← rd data (pull_len m - 8); b7 ← rd data (pull_len m - 7); b2 ← rd data (pull_len m - 2);
    if (b8 =? 0xAA) && (b7 =? 0xAA) && (0x06 <? b2) then Ok (false, data)
    else Ok (true, Amsdu.skb_pull data (pull_len m - 8))
  else Ok (false, data).

(** ** Fragments *)

Definition defrag_match (s t sta : Z) (d : defrag_ctrl_info) : bool :=
  (sn d =? s) && (d_tid d =? t) && (d_sta_idx d =? sta).

(** [skb_put] into the reassembly buffer, which panics beyond its end. *)
Definition defrag_append (d : defrag_ctrl_info) (m : mpdu_info) (data : list Z) : res defrag_ctrl_info :=
  let body := drop (Z.to_nat (pull_len m - 8)) data in
  if Z.of_nat (length data) <? pull_len m - 8 then Fault
  else if DEFRAG_SKB_LEN <? Z.of_nat (length (d_skb d ++ body)) then Fault
  else Ok (d <| d_skb := d_skb d ++ body |>).

Section Handler.

(** [msecs_to_jiffies] of the kernel, the reorder timeout in ticks, the number
    of buffers for A-MSDU subframes and the outcome of the other allocations
    of a call.  [freed] is what the descriptor and the A-MSDU flag in it read
    as after the buffer they lie in was freed: [None] where the access traps. *)
Context (msecs_to_jiffies : Z -> Z) (reorder_timeout : Z) (allocs : nat)
  (kmalloc kzalloc alloc_skb copy_ok : bool) (freed : option (hw_rxhdr * bool)).

(** A fragment with more to come: [Ok] of the new list; the fragment itself is
    always freed. *)
Definition defrag_more (now : Z) (l : list defrag_ctrl_info)
    (sta : Z) (m : mpdu_info) (data : list Z) : res (list defrag_ctrl_info) :=
  match find_idx (defrag_match (seq m) (m_tid m) sta) l with
  | Some i =>
      match l !! i with
      | None => Fault
      | Some d =>
          if negb (next_fn d =? frag_num m) then Ok l
          else
            d ← defrag_append d m data;
            Ok (<[i := d <| next_fn ::= fun n => u8 (n + 1) |>]> l)
      end
  | None =>
      if negb kzalloc then Ok l
      else if negb alloc_skb then Ok l
      else
        let eth := to_eth m data in
        if DEFRAG_SKB_LEN <? Z.of_nat (length eth) then Fault
        else Ok (l ++ [DefragCtrl sta (m_tid m) (seq m) 1 eth (Some (now + msecs_to_jiffies DEFRAG_MAX_WAIT))])
  end.

(** The last fragment: [None] when no reassembly is under way; otherwise the
    new list and the frame to hand up. *)
Definition defrag_last (hw : rwnx_hw) (sta vif_idx : Z) (m : mpdu_info) (data : list Z)
    : res (option (list defrag_ctrl_info * option (rwnx_vif_t * list Z))) :=
  let l := defrag_list hw in
  match find_idx (defrag_match (seq m) (m_tid m) sta) l with
  | None => Ok None
  | Some i =>
      match l !! i with
      | None => Fault
      | Some d =>
          if negb (next_fn d =? frag_num m) then Ok (Some (l, None))
          else
            d ← defrag_append d m data;
            match rwnx_rx_get_vif hw vif_idx with
            | None => Ok (Some (<[i := d]> l, None))
            | Some v => Ok (Some (delete i l, Some (v, d_skb d)))
            end
      end
  end.

Definition defrag_timeout_cb (hw : rwnx_hw) (i : nat) : rwnx_hw :=
  hw <| defrag_list ::= delete i |>.

(** ** Handing up and re-sending *)

Definition is_multicast (data : list Z) : res bool :=
  b ← rd data 0; Ok (negb (Z.land b 1 =? 0)).

Definition bufs (amsdu vif_up : bool) (data : list Z) : res (list (list Z)) :=
  if amsdu then Amsdu.process_amsdu allocs vif_up data else Ok [data].

Definition rwnx_rx_data_skb_resend (data : list Z) : list event :=
  if copy_ok then [EvResend data] else [].

(** The destination is a station of the same interface. *)
Definition dst_in_bss (hw : rwnx_hw) (v : rwnx_vif_t) (dst_idx : Z) : res bool :=
  if negb (dst_idx =? RWNX_INVALID_STA) then
    s ← get_sta hw dst_idx;
    Ok (valid s && (vlan_idx s =? vif_index v))
  else Ok false.

(** [resend] and [forward] of [rwnx_rx_data_skb]. *)
Definition rx_route (hw : rwnx_hw) (v : rwnx_vif_t) (dst_idx : Z) (list : list (list Z))
    : res (bool * bool) :=
  match vif_type v with
  | AP | AP_VLAN | P2P_GO =>
      if ap_isolate v then Ok (false, true)
      else
        match list with
        | [] => Fault
        | rx_skb :: _ =>
            mc ← is_multicast rx_skb;
            if (mc : bool) then Ok (true, true)
            else b ← dst_in_bss hw v dst_idx; Ok (b, negb b)
        end
  | MESH_POINT =>
      match list with
      | [] => Fault
      | rx_skb :: _ =>
          mc ← is_multicast rx_skb;
          if negb (mc : bool) && negb (dst_idx =? RWNX_INVALID_STA) then Ok (true, false)
          else Ok (false, true)
      end
  | _ => Ok (false, true)
  end.

Fixpoint data_loop (rx : aicwf_rx_priv) (resend forward : bool) (list : list (list Z))
    : res (aicwf_rx_priv * Datatypes.list event) :=
  match list with
  | [] => Ok (rx, [])
  | rx_skb :: list =>
      let evs0 := if resend then rwnx_rx_data_skb_resend rx_skb else [] in
      r ← (if forward then netif_loop rx [rx_skb] else Ok (rx, []));
      let '(rx, evs1) := r in
      r ← data_loop rx resend forward list;
      let '(rx, evs2) := r in Ok (rx, evs0 ++ evs1 ++ evs2)
  end.

(** The result tells whether the frame was given to the stack. *)
Definition rwnx_rx_data_skb (hw : rwnx_hw) (rx : aicwf_rx_priv) (v : rwnx_vif_t) (h : hw_rxhdr)
    (amsdu : bool) (skb : sk_buff) : res (aicwf_rx_priv * list event * bool) :=
  list ← bufs amsdu (vif_active hw (flags_vif_idx h)) (skb_data skb);
  r ← rx_route hw v (flags_dst_idx h) list;
  let '(resend, forward) := r in
  r ← data_loop rx resend forward list;
  let '(rx, evs) := r in
  Ok (rx, (if amsdu then [EvFree (skb_id skb)] else []) ++ evs, forward).

Definition rwnx_rx_data_skb_forward (hw : rwnx_hw) (rx : aicwf_rx_priv) (v : rwnx_vif_t)
    (amsdu : bool) (skb : sk_buff) : res (aicwf_rx_priv * list event) :=
  list ← bufs amsdu (vif_active hw (vif_index v)) (skb_data skb);
  r ← netif_loop rx list;
  let '(rx, evs) := r in Ok (rx, (if amsdu then [EvFree (skb_id skb)] else []) ++ evs).

(** ** Dispatch *)

(** [rwnx_rx_data_skb], the frame freed when it was not handed up. *)
Definition rx_data_or_free (hw : rwnx_hw) (rx : aicwf_rx_priv) (v : rwnx_vif_t) (h : hw_rxhdr)
    (amsdu : bool) (skb : sk_buff) : res (aicwf_rx_priv * list event) :=
  r ← rwnx_rx_data_skb hw rx v h amsdu skb;
  let '(rx, evs, forward) := r in
  Ok (rx, evs ++ (if negb forward && negb amsdu then [EvFree (skb_id skb)] else [])).

Definition reord_unit (now : Z) (rx : aicwf_rx_priv) (m : mpdu_info) (fwd amsdu : bool) (skb : sk_buff)
    : res (aicwf_rx_priv * list event) :=
  r ← reord_process_unit reorder_timeout allocs now kmalloc rx skb (seq m) (m_tid m) fwd amsdu;
  let '(rx, evs, _) := r in Ok (rx, evs).

Definition flush_then (rx : aicwf_rx_priv) (m : mpdu_info) (skb : sk_buff)
    (k : aicwf_rx_priv -> res (aicwf_rx_priv * list event)) : res (aicwf_rx_priv * list event) :=
  r ← reord_flush_tid allocs rx skb (m_tid m);
  let '(rx, evs, _) := r in
  r ← k rx;
  let '(rx, evs') := r in Ok (rx, evs ++ evs').

Definition dispatch_sta (now : Z) (hw : rwnx_hw) (rx : aicwf_rx_priv) (v : rwnx_vif_t) (h : hw_rxhdr)
    (m : mpdu_info) (amsdu : bool) (skb : sk_buff) : res (aicwf_rx_priv * list event) :=
  if is_qos m && flags_need_reord h then reord_unit now rx m true amsdu skb
  else if is_qos m && negb (flags_need_reord h) then
    flush_then rx m skb (fun rx => rx_data_or_free hw rx v h amsdu skb)
  else rx_data_or_free hw rx v h amsdu skb.

Definition dispatch_ap (now : Z) (hw : rwnx_hw) (rx : aicwf_rx_priv) (v : rwnx_vif_t) (h : hw_rxhdr)
    (m : mpdu_info) (amsdu : bool) (skb : sk_buff) : res (aicwf_rx_priv * list event) :=
  mc ← is_multicast (skb_data skb);
  b ← (if (mc : bool) then Ok false else dst_in_bss hw v (flags_dst_idx h));
  let resend := mc || b in
  let forward := negb b in
  let evs0 := if resend then rwnx_rx_data_skb_resend (skb_data skb) else [] in
  r ← (if forward then
         if is_qos m && flags_need_reord h then reord_unit now rx m true amsdu skb
         else if is_qos m && negb (flags_need_reord h) then
           flush_then rx m skb (fun rx => rwnx_rx_data_skb_forward hw rx v amsdu skb)
         else rwnx_rx_data_skb_forward hw rx v amsdu skb
       else if resend then
         if is_qos m && flags_need_reord h then reord_unit now rx m false amsdu skb
         else if is_qos m && negb (flags_need_reord h) then
           flush_then rx m skb (fun rx => Ok (rx, [EvFree (skb_id skb)]))
         else Ok (rx, [])
       else Ok (rx, [EvFree (skb_id skb)]));
  let '(rx, evs) := r in Ok (rx, evs0 ++ evs).

(** The cipher header of a protected management frame. *)
Definition remove_sec_hdr_mgmt_frame (h : hw_rxhdr) (data : list Z) : res (list Z) :=
  if ga_frame h then Ok data
  else
    b0 ← rd data 0; b1 ← rd data 1;
    if (Z.land b0 0x0C =? 0) && (Z.land b1 0x40 =? 0x40) then
      match decr_status h with
      | CCMP128 | CCMP256 | GCMP128 | GCMP256 =>
          mgmt_header ← copy data 0 24;
          Ok (mgmt_header ++ drop 24 (Amsdu.skb_pull data 8))
      | _ => Ok data
      end
    else Ok data.

(** From the interface on; the station's VLAN interface replaces it. *)
Definition rx_data_path (now : Z) (hw : rwnx_hw) (rx : aicwf_rx_priv) (h : hw_rxhdr) (m : mpdu_info)
    (amsdu : bool) (skb : sk_buff) : res (rwnx_hw * aicwf_rx_priv * list event) :=
  match rwnx_rx_get_vif hw (flags_vif_idx h) with
  | None => Ok (hw, rx, [EvFree (skb_id skb)])
  | Some v =>
      v ← (if negb (flags_sta_idx h =? RWNX_INVALID_STA) then
             s ← get_sta hw (flags_sta_idx h);
             if negb (vlan_idx s =? vif_index v) then
               match vif_table hw !! Z.to_nat (vlan_idx s) with
               | None => Fault
               | Some v => Ok v
               end
             else Ok (Some v)
           else Ok (Some v));
      match v with
      | None => Ok (hw, rx, [EvFree (skb_id skb)])
      | Some v =>
          let rx := rx <| rwnx_vif := Some (vif_type v) |> in
          r ← match vif_type v with
              | STATION | P2P_CLIENT => dispatch_sta now hw rx v h m amsdu skb
              | AP | P2P_GO => dispatch_ap now hw rx v h m amsdu skb
              | _ => Ok (rx, [])
              end;
          let '(rx, evs) := r in Ok (hw, rx, evs)
      end
  end.

(** The fragment part: [None] when the frame goes on to the dispatch.  The
    last fragment is freed before the reassembled frame is handed up, and the
    descriptor that decides about that lies in it. *)
Definition rx_fragment (now : Z) (hw : rwnx_hw) (rx : aicwf_rx_priv) (h : hw_rxhdr) (m : mpdu_info)
    (skb : sk_buff) (next_id : positive)
    : res (option (rwnx_hw * aicwf_rx_priv * list event)) :=
  let sta_idx := if negb (flags_dst_idx h =? RWNX_INVALID_STA) then flags_dst_idx h else 0 in
  let more := negb (Z.land (frame_ctrl m) MAC_FCTRL_MOREFRAG =? 0) in
  if negb (flags_need_reord h) && (more || negb (frag_num m =? 0)) then
    if more then
      l ← defrag_more now (defrag_list hw) sta_idx m (skb_data skb);
      Ok (Some (hw <| defrag_list := l |>, rx, [EvFree (skb_id skb)]))
    else
      r ← defrag_last hw sta_idx (flags_vif_idx h) m (skb_data skb);
      match r with
      | None => Ok None
      | Some (l, None) => Ok (Some (hw <| defrag_list := l |>, rx, [EvFree (skb_id skb)]))
      | Some (l, Some (v, data)) =>
          let hw := hw <| defrag_list := l |> in
          h ← match freed with Some h => Ok h | None => Fault end;
          r ← rwnx_rx_data_skb hw rx v h.1 h.2 (SkBuff next_id data);
          let '(rx, evs, forward) := r in
          Ok (Some (hw, rx, EvFree (skb_id skb) :: evs ++
                    (if negb forward then [EvFree next_id] else [])))
      end
  else Ok None.

(** The frame [skb] behind its descriptor; [next_id] names the reassembly
    buffer if one is handed up. *)
Definition rwnx_rxdataind_aicwf (now : Z) (hw : rwnx_hw) (rx : aicwf_rx_priv) (h : hw_rxhdr)
    (skb : sk_buff) (next_id : positive) : res (rwnx_hw * aicwf_rx_priv * list event) :=
  if negb (flags_upload h) then Ok (hw, rx, [])
  else
    m ← parse_mpdu (decr_status h) (skb_data skb);
    b0 ← rd (skb_data skb) 0;
    r ← (if is_data_frame b0 then
           a ← amsdu_fix m (skb_data skb);
           let '(amsdu, data) := a in
           let skb := SkBuff (skb_id skb) data in
           r ← rx_fragment now hw rx h m skb next_id;
           match r with
           | Some out => Ok (inr out)
           | None =>
               Ok (inl (amsdu, if (amsdu : bool) then skb else SkBuff (skb_id skb) (to_eth m data)))
           end
         else Ok (inl (false, skb)));
    match r with
    | inr out => Ok out
    | inl (amsdu, skb) =>
        if flags_is_80211_mpdu h then
          data ← remove_sec_hdr_mgmt_frame h (skb_data skb);
          Ok (hw, rx, [EvMgmt data; EvFree (skb_id skb)])
        else rx_data_path now hw rx h m amsdu skb
    end.

End Handler.
(** ** The header of a data frame *)

Lemma copy_app pre mid rest off n :
  off = Z.of_nat (length pre) -> n = Z.of_nat (length mid) -> copy (pre ++ mid ++ rest) off n = Ok mid.
Proof.
  intros -> ->. unfold copy. rewrite !length_app.
  destruct (Z.ltb_spec (Z.of_nat (length pre + (length mid + length rest)))
    (Z.of_nat (length pre) + Z.of_nat (length mid))); [lia |].
  rewrite !Nat2Z.id. rewrite drop_app_length. by rewrite take_app_length.
Qed.

(** A data frame with three addresses as a sender writes it: to or from the
    distribution system, with any duration and any bits for repetition, power
    management and more data, with or without QoS control (two bytes) and HT
    control, fragment number and more-fragments bit, protected by [p_ciph]
    with its header [p_sec]. *)
Record mpdu := Mpdu {
  p_from_ds : bool; p_retry : bool; p_pm : bool; p_more_data : bool; p_dur : list Z;
  p_da : list Z; p_sa : list Z; p_bssid : list Z;
  p_seq : Z; p_frag : Z; p_more : bool;
  p_qos : option (Z * Z); p_htc : option (list Z);
  p_ciph : decr; p_sec : list Z; p_snap : list Z; p_type : list Z; p_body : list Z }.

(** The lengths of the cipher headers in the standards. *)
Definition sec_length (d : decr) : Z :=
  match d with
  | UNENC => 0
  | WEP => 4
  | TKIP | CCMP128 | CCMP256 | GCMP128 | GCMP256 => 8
  | WAPI => 18
  end.

Definition mpdu_ok (p : mpdu) : Prop :=
  length (p_dur p) = 2%nat /\ length (p_da p) = 6%nat /\ length (p_sa p) = 6%nat /\ length (p_bssid p) = 6%nat /\
  0 <= p_seq p < 4096 /\ 0 <= p_frag p < 16 /\
  (forall q, p_qos p = Some q -> 0 <= q.1 < 256) /\ (forall c, p_htc p = Some c -> length c = 4%nat) /\
  Z.of_nat (length (p_sec p)) = sec_length (p_ciph p) /\
  length (p_snap p) = 6%nat /\ length (p_type p) = 2%nat.

Definition bit (b : bool) (v : Z) : Z := if b then v else 0.
Definition some {A} (o : option A) : bool := match o with Some _ => true | None => false end.

Definition fc0 (p : mpdu) : Z := 0x08 + bit (some (p_qos p)) 0x80.
Definition fc1 (p : mpdu) : Z :=
  (if p_from_ds p then 2 else 1) + bit (p_more p) 4 + bit (p_retry p) 8 + bit (p_pm p) 0x10 + bit (p_more_data p) 0x20 + bit (negb (sec_length (p_ciph p) =? 0)) 0x40
  + bit (some (p_htc p)) 0x80.

Definition enc_fixed (p : mpdu) : list Z :=
  [fc0 p; fc1 p] ++ p_dur p ++
  (if p_from_ds p then p_da p ++ p_bssid p ++ p_sa p else p_bssid p ++ p_sa p ++ p_da p) ++
  [16 * (p_seq p mod 16) + p_frag p; p_seq p / 16].

Definition enc_hdr (p : mpdu) : list Z :=
  enc_fixed p ++ match p_qos p with Some q => [q.1; q.2] | None => [] end
              ++ match p_htc p with Some c => c | None => [] end.

Definition enc_mpdu (p : mpdu) : list Z :=
  enc_hdr p ++ p_sec p ++ p_snap p ++ p_type p ++ p_body p.

(** The Ethernet frame the stack is to see. *)
Definition eth_of (p : mpdu) : list Z := p_da p ++ p_sa p ++ p_type p ++ p_body p.

(** The fields of the QoS control. *)
Definition tid_of (p : mpdu) : Z := match p_qos p with Some q => q.1 mod 16 | None => 0 end.
Definition amsdu_bit (p : mpdu) : bool := match p_qos p with Some q => Z.testbit q.1 7 | None => false end.

(** LLC/SNAP and an Ethernet type above 0x06ff where a subframe should begin. *)
Definition looks_like_snap (p : mpdu) : bool :=
  match p_snap p, p_type p with a :: b :: _, t :: _ => (a =? 0xAA) && (b =? 0xAA) && (0x06 <? t) | _, _ => false end.

(** An A-MSDU loses its headers, unless it looks like an ordinary frame. *)
Definition amsdu_of (p : mpdu) : bool * list Z :=
  if amsdu_bit p && negb (looks_like_snap p) then (true, p_snap p ++ p_type p ++ p_body p) else (false, enc_mpdu p).

Lemma seq_bytes s f :
  0 <= s < 4096 -> 0 <= f < 16 ->
  let b22 := 16 * (s mod 16) + f in
  Z.lor (Z.shiftr (Z.land b22 0xf0) 4) (Z.shiftl (s / 16) 4) = s /\ Z.land b22 0x0f = f.
Proof.
  intros Hs Hf b22.
  assert (Hm : 0 <= s mod 16 < 16) by (apply Z.mod_pos_bound; lia).
  assert (H1 : Z.land b22 0x0f = f).
  { change 0x0f with (Z.ones 4). rewrite Z.land_ones by lia. subst b22. change (2 ^ 4) with 16.
    rewrite Z.add_comm, Z.mul_comm, Z_mod_plus_full. apply Z.mod_small. lia. }
  split; [|done].
  assert (H2 : Z.shiftr (Z.land b22 0xf0) 4 = s mod 16).
  { rewrite Z.shiftr_land. change (Z.shiftr 0xf0 4) with (Z.ones 4). rewrite Z.land_ones by lia.
    rewrite Z.shiftr_div_pow2 by lia. subst b22. change (2 ^ 4) with 16.
    replace ((16 * (s mod 16) + f) / 16) with (s mod 16); [by rewrite Z.mod_mod by lia |].
    apply (Z.div_unique_pos _ _ _ f); lia. }
  rewrite H2, Z.shiftl_mul_pow2 by lia.
  assert (Hd : Z.land (s mod 16) (s / 16 * 2 ^ 4) = 0).
  { apply Z.bits_inj_0. intros i. rewrite Z.land_spec. destruct (Z.lt_ge_cases i 4).
    - destruct (Z.lt_ge_cases i 0); [by rewrite Z.testbit_neg_r by lia |].
      rewrite Z.mul_pow2_bits_low by lia. apply andb_false_r.
    - change 16 with (2 ^ 4). rewrite <- (Z.land_ones s 4), Z.land_spec, Z.ones_spec_high by lia.
      by rewrite andb_false_r. }
  rewrite <- Z.lxor_lor, <- Z.add_nocarry_lxor by done. pose proof (Z.div_mod s 16). lia.
Qed.

(** Six bytes, taken apart. *)
Lemma six (l : list Z) : length l = 6%nat -> exists a b c d e f, l = [a; b; c; d; e; f].
Proof.
  intros H. do 6 (destruct l as [|? l]; [discriminate |]). destruct l; [|discriminate].
  by do 6 eexists.
Qed.

Lemma enc_fixed_rd p rest i :
  mpdu_ok p -> 0 <= i < 24 -> rd (enc_fixed p ++ rest) i = rd (enc_fixed p) i /\ length (enc_fixed p) = 24%nat.
Proof.
  intros (H0 & H1 & H2 & H3 & _) Hi.
  assert (Hl : length (enc_fixed p) = 24%nat).
  { unfold enc_fixed. destruct (p_from_ds p); rewrite !length_app, H0, H1, H2, H3; done. }
  split; [|done]. unfold rd. destruct (Z.ltb_spec i 0); [lia |]. by rewrite lookup_app_l by lia.
Qed.

Lemma parse_addr_enc p rest :
  mpdu_ok p -> parse_addr (fc1 p) (enc_fixed p ++ rest) = Ok (p_da p, p_sa p).
Proof.
  intros (H0 & H1 & H2 & H3 & _). unfold parse_addr, enc_fixed.
  assert (Hds : Z.land (fc1 p) 3 = if p_from_ds p then 2 else 1).
  { unfold fc1, bit. by destruct (p_from_ds p), (p_more p), (p_retry p), (p_pm p), (p_more_data p), (negb _), (some _). }
  rewrite Hds. set (sc := [16 * (p_seq p mod 16) + p_frag p; p_seq p / 16]).
  rewrite (app_assoc [fc0 p; fc1 p]). set (h := [fc0 p; fc1 p] ++ p_dur p).
  assert (Hh : length h = 4%nat) by (unfold h; by rewrite length_app, H0). destruct (p_from_ds p); cbn [Z.eqb Pos.eqb].
  - rewrite <- !app_assoc. rewrite (copy_app h (p_da p) _ 4 6) by (by rewrite ?Hh, ?H1).
    rewrite (app_assoc h), (app_assoc (h ++ p_da p)).
    by rewrite (copy_app _ (p_sa p) _ 16 6) by (by rewrite ?length_app, ?Hh, ?H1, ?H2, ?H3).
  - rewrite <- !app_assoc. rewrite (app_assoc h).
    rewrite (copy_app (h ++ p_bssid p) (p_sa p) _ 10 6) by (by rewrite ?length_app, ?Hh, ?H2, ?H3).
    rewrite (app_assoc (h ++ p_bssid p)).
    by rewrite (copy_app _ (p_da p) _ 16 6) by (by rewrite ?length_app, ?Hh, ?H1, ?H2, ?H3).
Qed.

Lemma enc_fixed_bytes p rest :
  mpdu_ok p ->
  rd (enc_fixed p ++ rest) 0 = Ok (fc0 p) /\ rd (enc_fixed p ++ rest) 1 = Ok (fc1 p) /\
  rd (enc_fixed p ++ rest) 22 = Ok (16 * (p_seq p mod 16) + p_frag p) /\
  rd (enc_fixed p ++ rest) 23 = Ok (p_seq p / 16).
Proof.
  intros (H0 & H1 & H2 & H3 & _). unfold enc_fixed.
  destruct (p_dur p) as [|d1 [|d2 [|]]]; try discriminate H0.
  destruct (six _ H1) as (a1 & a2 & a3 & a4 & a5 & a6 & ->).
  destruct (six _ H2) as (b1 & b2 & b3 & b4 & b5 & b6 & ->).
  destruct (six _ H3) as (c1 & c2 & c3 & c4 & c5 & c6 & ->).
  destruct (p_from_ds p); by repeat split.
Qed.

Definition hdr_length (p : mpdu) : Z :=
  24 + bit (some (p_qos p)) 2 + bit (some (p_htc p)) 4.

Lemma enc_hdr_length p : mpdu_ok p -> Z.of_nat (length (enc_hdr p)) = hdr_length p.
Proof.
  intros Hok. destruct (enc_fixed_rd p [] 0 Hok) as [_ Hf]; [lia |]. unfold enc_hdr, hdr_length.
  rewrite !length_app, Hf. destruct Hok as (_ & _ & _ & _ & _ & _ & _ & Hh & _).
  destruct (p_qos p), (p_htc p) eqn:E; cbn [some bit length]; rewrite ?(Hh _ eq_refl); lia.
Qed.

Lemma enc_mpdu_fixed p : exists rest, enc_mpdu p = enc_fixed p ++ rest.
Proof. unfold enc_mpdu, enc_hdr. rewrite <- app_assoc. by eexists. Qed.

Lemma enc_qos p q : mpdu_ok p -> p_qos p = Some q -> rd (enc_mpdu p) 24 = Ok q.1.
Proof.
  intros Hok Hq. destruct (enc_fixed_rd p [] 0 Hok) as [_ Hl]; [lia |].
  unfold enc_mpdu, enc_hdr. rewrite Hq, <- !app_assoc. apply rd_app_at. by rewrite Hl.
Qed.

Lemma cipher_hdr_std d : cipher_hdr d = sec_length d.
Proof. by destruct d. Qed.

Lemma enc_type p : mpdu_ok p -> copy (enc_mpdu p) (hdr_length p + 6 + cipher_hdr (p_ciph p)) 2 = Ok (p_type p).
Proof.
  intros Hok. pose proof (enc_hdr_length p Hok) as Hhl.
  destruct Hok as (_ & _ & _ & _ & _ & _ & _ & _ & Hsec & Hsn & Hty). unfold enc_mpdu.
  rewrite (app_assoc (enc_hdr p)), (app_assoc (enc_hdr p ++ p_sec p)).
  apply copy_app; [|by rewrite Hty]. rewrite !length_app, cipher_hdr_std. lia.
Qed.

Lemma fc_bits p :
  is_data_frame (fc0 p) = true /\ (Z.land (fc0 p) 0x80 =? 0x80) = some (p_qos p) /\
  (Z.land (fc1 p) 0x80 =? 0) = negb (some (p_htc p)) /\
  negb (Z.land (Z.lor (Z.shiftl (fc1 p) 8) (fc0 p)) MAC_FCTRL_MOREFRAG =? 0) = p_more p.
Proof.
  unfold fc0, fc1, bit.
  by destruct (p_from_ds p), (p_more p), (p_retry p), (p_pm p), (p_more_data p), (negb _), (some (p_htc p)), (some (p_qos p)).
Qed.

Lemma qos_bits q : 0 <= q -> Z.land q 0x0F = q mod 16 /\ negb (Z.land q 0x80 =? 0) = Z.testbit q 7.
Proof.
  intros Hq. split; [change 0x0F with (Z.ones 4); by rewrite Z.land_ones |].
  destruct (Z.eqb_spec (Z.land q 0x80) 0) as [E | E]; cbn [negb].
  - apply (f_equal (fun z => Z.testbit z 7)) in E. rewrite Z.land_spec, Z.testbit_0_l in E. cbn in E. by rewrite andb_true_r in E.
  - destruct (Z.testbit q 7) eqn:T; [done |]. destruct E. apply Z.bits_inj_0. intros i. rewrite Z.land_spec. change 0x80 with (2 ^ 7).
    destruct (decide (i = 7)) as [-> |]; [by rewrite T |]. rewrite (Z.pow2_bits_false 7 i) by lia. apply andb_false_r.
Qed.

Lemma enc_mpdu_at p k i x :
  mpdu_ok p -> (p_snap p ++ p_type p) !! k = Some x ->
  i = hdr_length p + sec_length (p_ciph p) + Z.of_nat k -> rd (enc_mpdu p) i = Ok x.
Proof.
  intros Hok Hk ->. pose proof (enc_hdr_length p Hok) as Hhl. destruct Hok as (_ & _ & _ & _ & _ & _ & _ & _ & Hsec & _).
  unfold rd, hdr_length, bit in *. destruct (Z.ltb_spec (24 + (if some (p_qos p) then 2 else 0) + (if some (p_htc p) then 4 else 0) +
    sec_length (p_ciph p) + Z.of_nat k) 0); [repeat case_match; lia |].
  unfold enc_mpdu. rewrite (app_assoc (enc_hdr p)), (app_assoc (p_snap p)).
  rewrite lookup_app_r by (rewrite length_app; lia).
  replace (Z.to_nat _ - _)%nat with k by (rewrite length_app; lia).
  by rewrite (lookup_app_l_Some _ _ _ _ Hk).
Qed.

(** What the parser makes of a frame. *)
Definition parsed (p : mpdu) (m : mpdu_info) : Prop :=
  seq m = p_seq p /\ frag_num m = p_frag p /\ is_qos m = some (p_qos p) /\
  m_tid m = tid_of p /\ amsdu_present m = amsdu_bit p /\
  negb (Z.land (frame_ctrl m) MAC_FCTRL_MOREFRAG =? 0) = p_more p /\
  pull_len m - 8 = Z.of_nat (length (enc_hdr p ++ p_sec p)) /\
  to_eth m (enc_mpdu p) = eth_of p.

Lemma parse_mpdu_enc p :
  mpdu_ok p -> exists m, parse_mpdu (p_ciph p) (enc_mpdu p) = Ok m /\ parsed p m.
Proof.
  intros Hok. pose proof (enc_hdr_length p Hok) as Hhl. pose proof (enc_type p Hok) as Het.
  pose proof (enc_qos p) as Hqos. destruct (enc_mpdu_fixed p) as [rest E].
  pose proof (enc_fixed_bytes p rest Hok) as (E0 & E1 & E22 & E23).
  pose proof (parse_addr_enc p rest Hok) as Ea. rewrite <- E in *.
  destruct (fc_bits p) as (B0 & B1 & B2 & B3).
  pose proof Hok as (_ & _ & _ & _ & Hs & Hf & Hq & _ & Hsec & Hsn & Hty). rewrite <- cipher_hdr_std in Hsec.
  destruct (seq_bytes (p_seq p) (p_frag p) Hs Hf) as [S1 S2].
  unfold parse_mpdu. rewrite E0, E1, E22, E23. cbn [mbind res_bind]. rewrite B0, B1, B2, negb_involutive.
  set (q := match p_qos p with Some q => q.1 | None => 0 end).
  assert (Hqr : (if some (p_qos p) then rd (enc_mpdu p) 24 else Ok 0) = Ok q /\ Z.land q 0x0F = tid_of p /\
    negb (Z.land q 0x80 =? 0) = amsdu_bit p).
  { subst q. unfold tid_of, amsdu_bit. destruct (p_qos p) as [x|] eqn:EQ; [| done]. cbn [some].
    split; [by apply Hqos | apply qos_bits, (Hq x eq_refl)]. }
  destruct Hqr as (-> & Q1 & Q2). cbn [mbind res_bind]. rewrite Ea. cbn [mbind res_bind fst snd].
  change (24 + (if some (p_qos p) then 2 else 0) + (if some (p_htc p) then 4 else 0)) with (hdr_length p).
  rewrite Het. cbn [mbind res_bind]. rewrite Q1, Q2.
  eexists. split; [done |]. unfold parsed. cbn [seq frag_num is_qos m_tid amsdu_present frame_ctrl pull_len].
  repeat (split; [done |]). split; [rewrite length_app; lia |].
  unfold to_eth, eth_of. cbn [ra ta ether_type pull_len]. repeat f_equal.
  unfold Amsdu.skb_pull, enc_mpdu. rewrite !app_assoc, !length_app.
  match goal with |- context [?a <? ?b] => destruct (Z.ltb_spec a b) end; [lia |].
  replace (Z.to_nat _) with (length (((enc_hdr p ++ p_sec p) ++ p_snap p) ++ p_type p))
    by (rewrite !length_app; lia).
  by rewrite drop_app_length.
Qed.

Lemma amsdu_fix_enc p m : mpdu_ok p -> parsed p m -> amsdu_fix m (enc_mpdu p) = Ok (amsdu_of p).
Proof.
  intros Hok (_ & _ & _ & _ & Ha & _ & Hp & _). unfold amsdu_fix, amsdu_of. rewrite Ha.
  destruct (amsdu_bit p); cbn [andb]; [| done].
  pose proof (enc_hdr_length p Hok) as Hhl. pose proof Hok as (_ & _ & _ & _ & _ & _ & _ & _ & Hsec & Hsn & Hty).
  rewrite length_app in Hp. unfold looks_like_snap.
  destruct (p_snap p) as [|a [|b sn]] eqn:Es; [done.. |]. destruct (p_type p) as [|t ty] eqn:Et; [done |].
  do 4 (destruct sn as [|? sn]; [done |]). destruct sn; [| done].
  rewrite (enc_mpdu_at p 0 (pull_len m - 8) a), (enc_mpdu_at p 1 (pull_len m - 7) b), (enc_mpdu_at p 6 (pull_len m - 2) t) by (rewrite ?Es, ?Et; (done || lia)).
  cbn [mbind res_bind]. destruct ((a =? 170) && (b =? 170) && (6 <? t)); [done |]. cbn [negb]. do 2 f_equal.
  unfold Amsdu.skb_pull, enc_mpdu. rewrite (app_assoc (enc_hdr p)).
  rewrite (proj2 (Z.ltb_ge _ _)) by (rewrite !length_app; lia).
  replace (Z.to_nat _) with (length (enc_hdr p ++ p_sec p)) by (rewrite length_app; lia).
  by rewrite drop_app_length, Es, Et.
Qed.

(** C31. For every data frame with three addresses (to or from the distribution system;
    any duration, retry, power management, more-data and more-fragments bits; no QoS
    control or any QoS control of two bytes; with or without HT control; any cipher),
    the header parser recovers sequence and fragment number, the TID, the A-MSDU bit and
    the more-fragments bit, and the conversion yields destination, source, Ethernet type
    and body. A frame with the A-MSDU bit loses exactly its headers, up to the first
    subframe, unless LLC/SNAP and an Ethernet type stand there, and then it is treated
    as an ordinary frame, like one without the bit. *)
Theorem parse_mpdu_roundtrip p :
  mpdu_ok p ->
  exists m, parse_mpdu (p_ciph p) (enc_mpdu p) = Ok m /\
    seq m = p_seq p /\ frag_num m = p_frag p /\ is_qos m = some (p_qos p) /\
    m_tid m = tid_of p /\ amsdu_present m = amsdu_bit p /\
    negb (Z.land (frame_ctrl m) MAC_FCTRL_MOREFRAG =? 0) = p_more p /\
    pull_len m - 8 = Z.of_nat (length (enc_hdr p ++ p_sec p)) /\
    to_eth m (enc_mpdu p) = eth_of p /\
    amsdu_fix m (enc_mpdu p) = Ok (amsdu_of p).
Proof.
  intros Hok. destruct (parse_mpdu_enc p Hok) as (m & E & H). exists m.
  pose proof (amsdu_fix_enc p m Hok H). destruct H as (? & ? & ? & ? & ? & ? & ? & ?). by split_and!.
Qed.

(** ** Reassembly *)

Section Fragments.
Context (msecs_to_jiffies : Z -> Z) (reorder_timeout : Z) (allocs : nat)
  (kmalloc copy_ok : bool).

(** What a fragment contributes: everything after its headers. *)
Definition frag_body (f : mpdu_info * list Z) : list Z := drop (Z.to_nat (pull_len f.1 - 8)) f.2.

Fixpoint defrag_mores (now : Z) (l : list defrag_ctrl_info) (sta : Z) (fs : list (mpdu_info * list Z))
    : res (list defrag_ctrl_info) :=
  match fs with
  | [] => Ok l
  | f :: fs =>
      l ← defrag_more msecs_to_jiffies true true now l sta f.1 f.2;
      defrag_mores now l sta fs
  end.

(** Fragments numbered from [n] on of one frame. *)
Fixpoint frags_from (s t n : Z) (fs : list (mpdu_info * list Z)) : Prop :=
  match fs with
  | [] => True
  | f :: fs => seq f.1 = s /\ m_tid f.1 = t /\ frag_num f.1 = n /\
      8 <= pull_len f.1 <= Z.of_nat (length f.2) + 8 /\ frags_from s t (n + 1) fs
  end.

Lemma frags_from_snoc s t n fs f :
  frags_from s t n (fs ++ [f]) ->
  frags_from s t n fs /\ frags_from s t (n + Z.of_nat (length fs)) [f].
Proof.
  revert n. induction fs as [|g fs IH]; intros n H; simpl app in *.
  - cbn [length]. rewrite Z.add_0_r. split; [exact Logic.I | done].
  - destruct H as (H1 & H2 & H3 & H4 & H5). destruct (IH (n + 1) H5) as [H6 H7].
    split; [cbn [frags_from]; auto |]. cbn [length].
    by replace (n + Z.of_nat (S (length fs))) with (n + 1 + Z.of_nat (length fs)) by lia.
Qed.

Lemma find_entry s t sta l d :
  find_idx (defrag_match s t sta) l = None -> defrag_match s t sta d = true ->
  find_idx (defrag_match s t sta) (l ++ [d]) = Some (length l).
Proof.
  intros Hn Hd. induction l as [|x l IH]; simpl in *; [by rewrite Hd |].
  destruct (defrag_match s t sta x); [discriminate |].
  destruct (find_idx (defrag_match s t sta) l); [discriminate |]. by rewrite IH.
Qed.

Lemma lookup_entry (l : list defrag_ctrl_info) d : (l ++ [d]) !! length l = Some d.
Proof. by rewrite lookup_app_r, Nat.sub_diag by lia. Qed.

Lemma insert_entry (l : list defrag_ctrl_info) d d' : <[length l := d']> (l ++ [d]) = l ++ [d'].
Proof. rewrite insert_app_r_alt, Nat.sub_diag by lia. done. Qed.

Lemma delete_entry (l : list defrag_ctrl_info) d : delete (length l) (l ++ [d]) = l.
Proof. rewrite delete_middle. apply app_nil_r. Qed.

Lemma defrag_append_ok d m data :
  8 <= pull_len m <= Z.of_nat (length data) + 8 ->
  Z.of_nat (length (d_skb d ++ frag_body (m, data))) <= DEFRAG_SKB_LEN ->
  defrag_append d m data = Ok (d <| d_skb := d_skb d ++ frag_body (m, data) |>).
Proof.
  intros Hp Hl. unfold defrag_append. destruct (Z.ltb_spec (Z.of_nat (length data)) (pull_len m - 8)); [lia |].
  unfold frag_body in *. cbn [fst snd] in *. by match goal with |- context [?a <? ?b] => destruct (Z.ltb_spec a b) end; [lia |].
Qed.

(** The entry after the middle fragments. *)
Lemma defrag_mores_ok now l sta fs s t n d :
  find_idx (defrag_match s t sta) l = None -> defrag_match s t sta d = true ->
  next_fn d = n -> 0 <= n -> n + Z.of_nat (length fs) < 256 -> frags_from s t n fs ->
  Z.of_nat (length (d_skb d ++ concat (frag_body <$> fs))) <= DEFRAG_SKB_LEN ->
  exists d', defrag_mores now (l ++ [d]) sta fs = Ok (l ++ [d']) /\ defrag_match s t sta d' = true /\
    next_fn d' = n + Z.of_nat (length fs) /\ d_skb d' = d_skb d ++ concat (frag_body <$> fs).
Proof.
  intros Hl. revert n d. induction fs as [|[m data] fs IH]; intros n d Hd Hn Hn0 Hlt Hfs Hlen.
  { exists d. cbn. rewrite app_nil_r. repeat split; [done | lia]. }
  destruct Hfs as (Hs & Ht & Hf & Hp & Hfs). cbn [fst snd length] in *.
  rewrite fmap_cons in *. cbn [concat] in *. rewrite !length_app in Hlen.
  cbn [defrag_mores fst snd]. unfold defrag_more. rewrite Hs, Ht, (find_entry s t sta l d), lookup_entry by done.
  rewrite Hf, Hn, Z.eqb_refl. cbn [negb].
  rewrite defrag_append_ok by (done || (rewrite length_app; lia)). cbn [mbind res_bind]. rewrite insert_entry.
  match goal with |- context [defrag_mores now (l ++ [?e]) sta fs] =>
    destruct (IH (n + 1) e) as (d' & E & Hd' & Hn' & Hb) end.
  - done.
  - cbn. rewrite Hn. apply u8_id. lia.
  - lia.
  - lia.
  - done.
  - cbn. rewrite !length_app. lia.
  - exists d'. rewrite E, Hn', Hb. cbn [upd d_skb]. rewrite <- app_assoc. repeat split; [done | lia].
Qed.

(** C19. Fragments 0..n of one frame, received in order and fitting the reassembly
    buffer, are handed up as the Ethernet header and payload of the first followed by
    the payloads of the others, and the reassembly entry is gone afterwards. *)
Theorem defrag_reassembles now hw sta vif_idx v m0 d0 fs mn dn :
  let s := seq m0 in let t := m_tid m0 in
  find_idx (defrag_match s t sta) (defrag_list hw) = None ->
  rwnx_rx_get_vif hw vif_idx = Some v ->
  frags_from s t 1 (fs ++ [(mn, dn)]) -> (length fs < 254)%nat ->
  Z.of_nat (length (to_eth m0 d0 ++ concat (frag_body <$> fs ++ [(mn, dn)]))) <= DEFRAG_SKB_LEN ->
  exists l1,
    defrag_mores now (defrag_list hw) sta ((m0, d0) :: fs) = Ok l1 /\
    defrag_last (hw <| defrag_list := l1 |>) sta vif_idx mn dn =
      Ok (Some (defrag_list hw, Some (v, to_eth m0 d0 ++ concat (frag_body <$> fs ++ [(mn, dn)])))).
Proof.
  intros s t Hno Hv Hfs Hlen Hsize. set (l := defrag_list hw) in *.
  destruct (frags_from_snoc _ _ _ _ _ Hfs) as [Hfs1 (Hs & Ht & Hf & Hp & _)]. cbn [fst snd] in *.
  rewrite fmap_app, concat_app in *. cbn [fmap list_fmap concat] in *. rewrite app_nil_r in *.
  rewrite !length_app in Hsize.
  cbn [defrag_mores fst snd]. unfold defrag_more. fold s t. rewrite Hno. cbn [negb].
  match goal with |- context [?a <? ?b] => destruct (Z.ltb_spec a b) end; [lia |]. cbn [mbind res_bind].
  set (d := DefragCtrl sta t s 1 (to_eth m0 d0) (Some (now + msecs_to_jiffies DEFRAG_MAX_WAIT))).
  assert (Hd : defrag_match s t sta d = true) by (unfold defrag_match; cbn; by rewrite !Z.eqb_refl).
  destruct (defrag_mores_ok now l sta fs s t 1 d Hno Hd eq_refl) as (d' & E & Hd' & Hn' & Hb);
    [lia | lia | done | cbn; rewrite length_app; lia |].
  rewrite E. exists (l ++ [d']). split; [done |]. unfold defrag_last. cbn [upd defrag_list].
  rewrite Hs, Ht, (find_entry s t sta l d'), lookup_entry by done.
  rewrite Hn', Hf, Z.eqb_refl. cbn [negb].
  rewrite defrag_append_ok by (done || (rewrite Hb; cbn; rewrite !length_app; lia)). cbn [mbind res_bind].
  change (rwnx_rx_get_vif _ vif_idx) with (rwnx_rx_get_vif hw vif_idx). rewrite Hv, delete_entry.
  cbn [upd d_skb]. rewrite Hb. cbn [d_skb d]. by rewrite <- app_assoc.
Qed.

(** A fragment that would make the reassembled frame longer than the 2000-byte
    buffer is appended without a check: skb_put runs past the end of the buffer. *)
Theorem defrag_overflow now l sta i d m data :
  find_idx (defrag_match (seq m) (m_tid m) sta) l = Some i -> l !! i = Some d ->
  next_fn d = frag_num m -> DEFRAG_SKB_LEN < Z.of_nat (length (d_skb d ++ frag_body (m, data))) ->
  defrag_more msecs_to_jiffies true true now l sta m data = Fault.
Proof.
  intros Hi Hd Hn Hlen. unfold defrag_more. rewrite Hi, Hd, Hn, Z.eqb_refl. cbn [negb].
  unfold defrag_append, frag_body in *. cbn [fst snd] in *.
  destruct (_ <? pull_len m - 8); [done |].
  by match goal with |- context [?a <? ?b] => destruct (Z.ltb_spec a b) end; [|lia].
Qed.

End Fragments.

(** ** Whole frames *)

Section Frames.
Context (msecs_to_jiffies : Z -> Z) (reorder_timeout : Z) (allocs : nat)
  (kmalloc kzalloc alloc_skb copy_ok : bool) (freed : option (hw_rxhdr * bool)).

Let rxdataind := rwnx_rxdataind_aicwf msecs_to_jiffies reorder_timeout allocs kmalloc kzalloc alloc_skb copy_ok freed.

(** The station of the frame belongs to the interface itself. *)
Definition sta_on_vif (hw : rwnx_hw) (h : hw_rxhdr) (v : rwnx_vif_t) : Prop :=
  flags_sta_idx h = RWNX_INVALID_STA \/
  exists s, get_sta hw (flags_sta_idx h) = Ok s /\ vlan_idx s = vif_index v.

Definition dst_key (h : hw_rxhdr) : Z :=
  if negb (flags_dst_idx h =? RWNX_INVALID_STA) then flags_dst_idx h else 0.

Definition hook_ok (data : list Z) : Prop := res_ok (TcpAck.tcp_check_quick_ack (eth_type_trans data)).

Lemma sta_vif_path now hw rx h m v skb :
  rwnx_rx_get_vif hw (flags_vif_idx h) = Some v -> vif_type v = STATION -> sta_on_vif hw h v ->
  is_qos m = false -> hook_ok (skb_data skb) ->
  exists rx', rx_data_path reorder_timeout allocs kmalloc copy_ok now hw rx h m false skb =
    Ok (hw, rx', [EvNetif (skb_data skb)]).
Proof.
  intros Hv Ht Hs Hq Hh. unfold rx_data_path. rewrite Hv.
  assert (E : (if negb (flags_sta_idx h =? RWNX_INVALID_STA) then
      s ← get_sta hw (flags_sta_idx h);
      if negb (vlan_idx s =? vif_index v) then
        match vif_table hw !! Z.to_nat (vlan_idx s) with None => Fault | Some v => Ok v end
      else Ok (Some v)
    else Ok (Some v)) = Ok (Some v)).
  { destruct Hs as [-> | (s & Hs & Hvl)]; [by rewrite Z.eqb_refl |].
    destruct (flags_sta_idx h =? RWNX_INVALID_STA); [done |]. cbn [negb]. rewrite Hs. cbn [mbind res_bind].
    by rewrite Hvl, Z.eqb_refl. }
  rewrite E. cbn [mbind res_bind]. rewrite Ht. unfold dispatch_sta. rewrite Hq. cbn [andb].
  unfold rx_data_or_free, rwnx_rx_data_skb, bufs. cbn [mbind res_bind]. unfold rx_route. rewrite Ht.
  cbn [mbind res_bind data_loop].
  match goal with |- context [netif_loop ?r [skb_data skb]] =>
    destruct (netif_loop_ok r [skb_data skb]) as (rx' & -> & _ & _) end; [by constructor |].
  cbn [mbind res_bind]. by exists rx'.
Qed.

(** A frame that is complete, or the last fragment of one of which nothing
    was kept, on a station interface. *)
Lemma sta_frame_path now hw rx h p v id nid :
  mpdu_ok p -> p_qos p = None -> p_more p = false -> decr_status h = p_ciph p ->
  flags_upload h = true -> flags_is_80211_mpdu h = false ->
  rwnx_rx_get_vif hw (flags_vif_idx h) = Some v -> vif_type v = STATION -> sta_on_vif hw h v ->
  p_frag p = 0 \/ flags_need_reord h = true \/
    find_idx (defrag_match (p_seq p) 0 (dst_key h)) (defrag_list hw) = None ->
  hook_ok (eth_of p) ->
  exists rx', rxdataind now hw rx h (SkBuff id (enc_mpdu p)) nid = Ok (hw, rx', [EvNetif (eth_of p)]).
Proof.
  intros Hok Hq Hm Hd Hu Hmp Hv Ht Hs Hfrag Hh. subst rxdataind. unfold rwnx_rxdataind_aicwf.
  rewrite Hu. cbn [negb skb_data]. rewrite Hd.
  destruct (parse_mpdu_enc p Hok) as (m & -> & Es & Ef & Eq & Et & Ea & Emo & _ & Ee). unfold tid_of, amsdu_bit in Et, Ea. rewrite Hq in Et, Ea.
  cbn [mbind res_bind]. destruct (enc_mpdu_fixed p) as [rest E].
  pose proof (enc_fixed_bytes p rest Hok) as (E0 & _). rewrite <- E in E0. rewrite E0. cbn [mbind res_bind].
  destruct (fc_bits p) as (-> & _). unfold amsdu_fix. rewrite Ea. cbn [mbind res_bind].
  assert (Hfr : rx_fragment msecs_to_jiffies allocs kzalloc alloc_skb copy_ok freed now hw rx h m
    (SkBuff (skb_id (SkBuff id (enc_mpdu p))) (enc_mpdu p)) nid = Ok None).
  { unfold rx_fragment. fold (dst_key h). rewrite Emo, Hm, Ef. cbn [orb].
    destruct (flags_need_reord h); [done |]. cbn [negb andb].
    destruct (Z.eqb_spec (p_frag p) 0); [done |]. cbn [negb skb_data]. unfold defrag_last.
    rewrite Es, Et. destruct Hfrag as [?|[?|Hno]]; [done | done |]. by rewrite Hno. }
  rewrite Hfr. cbn [mbind res_bind]. rewrite Hmp, Ee. rewrite Hq in Eq. cbn [some] in Eq.
  exact (sta_vif_path now hw rx h m v (SkBuff id (eth_of p)) Hv Ht Hs Eq Hh).
Qed.

(** On a station interface a complete non-QoS data frame reaches the network stack
    as its Ethernet frame, exactly once, and nothing else happens. *)
Theorem sta_frame_delivered now hw rx h p v id nid :
  mpdu_ok p -> p_qos p = None -> p_more p = false -> p_frag p = 0 -> decr_status h = p_ciph p ->
  flags_upload h = true -> flags_is_80211_mpdu h = false ->
  rwnx_rx_get_vif hw (flags_vif_idx h) = Some v -> vif_type v = STATION -> sta_on_vif hw h v ->
  hook_ok (eth_of p) ->
  exists rx', rxdataind now hw rx h (SkBuff id (enc_mpdu p)) nid = Ok (hw, rx', [EvNetif (eth_of p)]).
Proof. intros. eapply sta_frame_path; eauto. Qed.

(** A last fragment for which no reassembly is under way (its first fragment was
    lost or timed out) is not dropped: it is converted as if it were a complete frame
    and handed to the network stack. *)
Theorem orphan_fragment_handed_up now hw rx h p v id nid :
  mpdu_ok p -> p_qos p = None -> p_more p = false -> p_frag p <> 0 -> decr_status h = p_ciph p ->
  flags_upload h = true -> flags_is_80211_mpdu h = false ->
  rwnx_rx_get_vif hw (flags_vif_idx h) = Some v -> vif_type v = STATION -> sta_on_vif hw h v ->
  find_idx (defrag_match (p_seq p) 0 (dst_key h)) (defrag_list hw) = None -> hook_ok (eth_of p) ->
  exists rx', rxdataind now hw rx h (SkBuff id (enc_mpdu p)) nid = Ok (hw, rx', [EvNetif (eth_of p)]).
Proof. intros. eapply sta_frame_path; eauto. Qed.

End Frames.

(** When the last fragment completes a frame, what decides where it goes is read
    from the buffer of that fragment after it was freed. *)
Lemma reassembly_reads_freed_header msecs_to_jiffies allocs kzalloc alloc_skb copy_ok now hw rx h m skb next_id l v data :
  flags_need_reord h = false -> Z.land (frame_ctrl m) MAC_FCTRL_MOREFRAG = 0 -> frag_num m <> 0 ->
  defrag_last hw (dst_key h) (flags_vif_idx h) m (skb_data skb) = Ok (Some (l, Some (v, data))) ->
  rx_fragment msecs_to_jiffies allocs kzalloc alloc_skb copy_ok None now hw rx h m skb next_id = Fault.
Proof.
  intros Hr Hm Hf E. unfold rx_fragment. fold (dst_key h). rewrite Hr, Hm. cbn [Z.eqb negb andb orb].
  destruct (Z.eqb_spec (frag_num m) 0); [done |]. cbn [negb]. by rewrite E.
Qed.

(** On an access point a non-QoS unicast frame for a station of the same BSS is re-
    sent as a copy, but the received buffer is neither handed up nor freed. *)
Theorem nonqos_intrabss_leak reorder_timeout allocs kmalloc copy_ok now hw rx v h m s skb :
  is_qos m = false -> is_multicast (skb_data skb) = Ok false ->
  flags_dst_idx h <> RWNX_INVALID_STA -> get_sta hw (flags_dst_idx h) = Ok s ->
  valid s = true -> vlan_idx s = vif_index v ->
  dispatch_ap reorder_timeout allocs kmalloc copy_ok now hw rx v h m false skb =
    Ok (rx, if copy_ok then [EvResend (skb_data skb)] else []).
Proof.
  intros Hq Hmc Hd Hs Hval Hvl. unfold dispatch_ap. rewrite Hmc. cbn [mbind res_bind].
  unfold dst_in_bss. destruct (Z.eqb_spec (flags_dst_idx h) RWNX_INVALID_STA); [done |]. cbn [negb].
  rewrite Hs. cbn [mbind res_bind]. rewrite Hval, Hvl, Z.eqb_refl, Hq. cbn.
  unfold rwnx_rx_data_skb_resend. by destruct copy_ok.
Qed.

(** ** Witnesses *)

Module Example.

Definition p (frag : Z) (more : bool) : mpdu :=
  {| p_from_ds := true; p_retry := true; p_pm := false; p_more_data := true; p_dur := [44; 0]; p_da := [2; 0; 0; 0; 0; 1]; p_sa := [2; 0; 0; 0; 0; 9];
     p_bssid := [2; 0; 0; 0; 0; 5]; p_seq := 0xABC; p_frag := frag; p_more := more;
     p_qos := None; p_htc := None; p_ciph := CCMP128; p_sec := replicate 8 7;
     p_snap := [0xAA; 0xAA; 3; 0; 0; 0]; p_type := [8; 6]; p_body := replicate 40 1 |}.

Lemma p_ok frag more : 0 <= frag < 16 -> mpdu_ok (p frag more).
Proof. intros H. by repeat split; try (intros ? [=]); simpl; try lia. Qed.

(** The head of an A-MSDU with QoS control: TID 5, more bits beside it. *)
Definition aggregate : mpdu :=
  {| p_from_ds := false; p_retry := false; p_pm := true; p_more_data := false; p_dur := [0; 1];
     p_da := [2; 0; 0; 0; 0; 1]; p_sa := [2; 0; 0; 0; 0; 9]; p_bssid := [2; 0; 0; 0; 0; 5]; p_seq := 7; p_frag := 0;
     p_more := false; p_qos := Some (0xB5, 3); p_htc := Some [1; 2; 3; 4]; p_ciph := GCMP256; p_sec := replicate 8 7;
     p_snap := [2; 0; 0; 0; 0; 1]; p_type := [2; 0]; p_body := replicate 40 1 |}.

Lemma aggregate_ok : mpdu_ok aggregate.
Proof.
  unfold mpdu_ok, aggregate. cbn -[Z.lt Z.le]. split_and!; try done; try lia.
  - intros q [= <-]. simpl. lia.
  - by intros c [= <-].
Qed.

Definition sta_vif : rwnx_vif_t := {| vif_index := 0; vif_type := STATION; up := true; ap_isolate := false |}.
Definition ap_vif : rwnx_vif_t := {| vif_index := 1; vif_type := AP; up := true; ap_isolate := false |}.

Definition hw : rwnx_hw :=
  {| vif_table := [Some sta_vif; Some ap_vif; None; None];
     sta_table := [{| valid := true; vlan_idx := 1 |}]; defrag_list := [] |}.

Definition rx : aicwf_rx_priv := Reorder.Example.rx0.

Definition h (dst : Z) : hw_rxhdr :=
  {| flags_upload := true; flags_is_80211_mpdu := false; flags_vif_idx := 0; flags_sta_idx := 0xFF;
     flags_dst_idx := dst; flags_need_reord := false; decr_status := CCMP128; ga_frame := false |}.

(** Two fragments' headers as parsed. *)
Definition m (frag : Z) : mpdu_info :=
  MpduInfo 0x0208 0xABC frag 0 false false 24 40 [2; 0; 0; 0; 0; 1] [2; 0; 0; 0; 0; 9] [8; 6].

End Example.

Lemma parse_mpdu_roundtrip_witness :
  exists mi, parse_mpdu GCMP256 (enc_mpdu Example.aggregate) = Ok mi /\ seq mi = 7 /\ frag_num mi = 0 /\ is_qos mi = true /\
    m_tid mi = 5 /\ amsdu_present mi = true /\ to_eth mi (enc_mpdu Example.aggregate) = eth_of Example.aggregate /\
    amsdu_fix mi (enc_mpdu Example.aggregate) = Ok (true, [2; 0; 0; 0; 0; 1; 2; 0] ++ replicate 40 1).
Proof.
  destruct (parse_mpdu_roundtrip Example.aggregate Example.aggregate_ok) as (mi & E & H1 & H2 & H3 & H4 & H5 & _ & _ & H6 & H7).
  exists mi. repeat split; assumption.
Defined.

Lemma defrag_reassembles_witness :
  exists l1,
    defrag_mores (fun ms => ms) 5 [] 0 [(Example.m 0, replicate 50 1); (Example.m 1, replicate 50 2)] = Ok l1 /\
    defrag_last (Example.hw <| defrag_list := l1 |>) 0 0 (Example.m 2) (replicate 50 3) =
      Ok (Some ([], Some (Example.sta_vif,
        to_eth (Example.m 0) (replicate 50 1) ++
        concat (frag_body <$> [(Example.m 1, replicate 50 2)] ++ [(Example.m 2, replicate 50 3)])))).
Proof.
  apply (defrag_reassembles (fun ms => ms) 5 Example.hw 0 0 Example.sta_vif (Example.m 0) (replicate 50 1)
    [(Example.m 1, replicate 50 2)] (Example.m 2) (replicate 50 3)); try reflexivity.
  - simpl. repeat split; lia.
  - simpl. lia.
  - vm_compute. discriminate.
Defined.

Lemma defrag_overflow_witness :
  defrag_more (fun ms => ms) true true 5
    [DefragCtrl 0 0 0xABC 1 (replicate 1990 0) (Some 45)] 0 (Example.m 1) (replicate 50 2) = Fault.
Proof.
  apply (defrag_overflow (fun ms => ms) 5 _ 0 0 (DefragCtrl 0 0 0xABC 1 (replicate 1990 0) (Some 45)));
    [reflexivity | reflexivity | reflexivity | vm_compute; reflexivity].
Defined.

Lemma hook_ok_p frag more : hook_ok (eth_of (Example.p frag more)).
Proof. exists None. vm_compute. reflexivity. Qed.

Lemma sta_frame_delivered_witness :
  exists rx', rwnx_rxdataind_aicwf (fun ms => ms) 50 4 true true true true None 5 Example.hw Example.rx
    (Example.h 0xFF) (SkBuff 3 (enc_mpdu (Example.p 0 false))) 4 =
    Ok (Example.hw, rx', [EvNetif (eth_of (Example.p 0 false))]).
Proof.
  apply (sta_frame_delivered (fun ms => ms) 50 4 true true true true None 5 Example.hw Example.rx (Example.h 0xFF)
    (Example.p 0 false) Example.sta_vif 3 4); try reflexivity;
    [apply Example.p_ok; lia | left; reflexivity | apply hook_ok_p].
Defined.

Lemma orphan_fragment_handed_up_witness :
  exists rx', rwnx_rxdataind_aicwf (fun ms => ms) 50 4 true true true true None 5 Example.hw Example.rx
    (Example.h 0xFF) (SkBuff 3 (enc_mpdu (Example.p 1 false))) 4 =
    Ok (Example.hw, rx', [EvNetif (eth_of (Example.p 1 false))]).
Proof.
  apply (orphan_fragment_handed_up (fun ms => ms) 50 4 true true true true None 5 Example.hw Example.rx (Example.h 0xFF)
    (Example.p 1 false) Example.sta_vif 3 4); try reflexivity;
    [apply Example.p_ok; lia | discriminate | left; reflexivity | apply hook_ok_p].
Defined.

Lemma nonqos_intrabss_leak_witness :
  dispatch_ap 50 4 true true 5 Example.hw Example.rx Example.ap_vif (Example.h 0) (Example.m 0) false
    (SkBuff 3 (eth_of (Example.p 0 false))) = Ok (Example.rx, [EvResend (eth_of (Example.p 0 false))]).
Proof.
  apply (nonqos_intrabss_leak 50 4 true true 5 Example.hw Example.rx Example.ap_vif (Example.h 0) (Example.m 0)
    {| valid := true; vlan_idx := 1 |}); try reflexivity. discriminate.
Defined.

End RxData.
