(* ===== verification/FrameQueue.v ===== *)
(** * Frame queues (aicwf_txrxif.c of the WLAN driver, aicsdio_txrxif.c of
    the bus driver)

    A [frame_queue] is an array of eight FIFOs, one per priority, with the
    highest priority in use ([hi_prio]) and the total count ([qcnt]) cached.
    Both drivers have a copy; they differ in what happens when the queue is
    full: the WLAN driver refuses the frame ([aicwf_frame_enq]), the bus driver
    evicts one of lower priority ([bsp_frame_enq]).

    The class [RxFifo] is what the receive thread ([RxBlock]) relies on. *)

From stdpp Require Import prelude.
From S2P Require Import Prelude.
Open Scope Z_scope.

Module FrameQueue.

Section Queue.
Context {A : Type}.

Record frame_queue := FQ {
  num_prio : nat;
  hi_prio : nat;
  qmax : Z;
  qcnt : Z;
  queuelist : list (list A) }.

#[global] Instance eta_fq : Settable frame_queue := fun r =>
  FQ (num_prio r) (hi_prio r) (qmax r) (qcnt r) (queuelist r).

Definition qlen (q : list A) : Z := Z.of_nat (length q).

(** [&pq->queuelist[prio]]. *)
Definition queue_at (pq : frame_queue) (prio : nat) : res (list A) :=
  match queuelist pq !! prio with Some q => Ok q | None => Fault end.

Definition aicwf_frame_queue_penq (pq : frame_queue) (prio : nat) (p : A) : res (frame_queue * bool) :=
  q ← queue_at pq prio;
  if qmax pq <=? qlen q then Ok (pq, false)
  else
    let pq := pq <| queuelist ::= <[prio := q ++ [p]]> |> <| qcnt ::= fun n => u16 (n + 1) |> in
    Ok (if (hi_prio pq <? prio)%nat then pq <| hi_prio := prio |> else pq, true).

(** The frames freed, in order. *)
Definition flush_count (n : Z) (k : nat) : Z := Nat.iter k (fun n => u16 (n - 1)) n.

Definition aicwf_frame_queue_flush (pq : frame_queue) : frame_queue * list A :=
  let qs := take (num_prio pq) (queuelist pq) in
  (pq <| queuelist := replicate (length qs) [] ++ drop (num_prio pq) (queuelist pq) |>
      <| qcnt := flush_count (qcnt pq) (length (concat qs)) |>, concat qs).

(** The structure is zeroed; the FIFOs beyond [num_prio] are not set up. *)
Definition aicwf_frame_queue_init (num : nat) (max_len : Z) : frame_queue :=
  {| num_prio := num; hi_prio := 0; qmax := u16 max_len; qcnt := 0;
     queuelist := replicate num [] |}.

(** The loop of [aicwf_frame_queue_peek_tail]: the first non-empty FIFO below
    [hi], else [hi]. *)
Fixpoint peek_scan (pq : frame_queue) (prio k : nat) : res nat :=
  match k with
  | O => Ok prio
  | S k => q ← queue_at pq prio; match q with [] => peek_scan pq (S prio) k | _ => Ok prio end
  end.

Definition aicwf_frame_queue_peek_tail (pq : frame_queue) : res (option (A * nat)) :=
  if qcnt pq =? 0 then Ok None
  else
    prio ← peek_scan pq 0 (hi_prio pq);
    q ← queue_at pq prio;
    Ok (match last q with Some p => Some (p, prio) | None => None end).

Fixpoint sum_len (pq : frame_queue) (prio k : nat) : res Z :=
  match k with
  | O => Ok 0
  | S k => q ← queue_at pq prio; n ← sum_len pq (S prio) k; Ok (qlen q + n)
  end.

Definition aicwf_is_framequeue_empty (pq : frame_queue) : res bool :=
  len ← sum_len pq 0 (S (hi_prio pq));
  Ok (negb (0 <? len)).

(** The loop of [aicwf_frame_dequeue] lowers [hi_prio] to the highest FIFO in
    use. *)
Fixpoint lower_prio (pq : frame_queue) (prio : nat) : res nat :=
  match prio with
  | O => Ok O
  | S k => q ← queue_at pq prio; match q with [] => lower_prio pq k | _ => Ok prio end
  end.

Definition aicwf_frame_dequeue (pq : frame_queue) : res (frame_queue * option A) :=
  if qcnt pq =? 0 then Ok (pq, None)
  else
    prio ← lower_prio pq (hi_prio pq);
    let pq := pq <| hi_prio := prio |> in
    q ← queue_at pq prio;
    match q with
    | [] => Ok (pq, None)
    | p :: q => Ok (pq <| queuelist ::= <[prio := q]> |> <| qcnt ::= fun n => u16 (n - 1) |>, Some p)
    end.

Definition aicwf_frame_enq (pq : frame_queue) (pkt : A) (prio : nat) : res (frame_queue * bool) :=
  q ← queue_at pq prio;
  if (qlen q <? qmax pq) && (qcnt pq <? qmax pq) then
    r ← aicwf_frame_queue_penq pq prio pkt;
    Ok (r.1, true)
  else Ok (pq, false).

(** *** The copy of the bus driver *)

Definition aicwf_skb_dequeue_tail (pq : frame_queue) (prio : nat) : res (frame_queue * option A) :=
  q ← queue_at pq prio;
  match last q with
  | None => Ok (pq, None)
  | Some p => Ok (pq <| queuelist ::= <[prio := take (length q - 1) q]> |>
                     <| qcnt ::= fun n => u16 (n - 1) |>, Some p)
  end.

(** The new queue, the frame freed and the result. *)
Definition bsp_frame_enq (pq : frame_queue) (pkt : A) (prio : nat)
    : res (frame_queue * option A * bool) :=
  q ← queue_at pq prio;
  if (qlen q <? qmax pq) && (qcnt pq <? qmax pq) then
    r ← aicwf_frame_queue_penq pq prio pkt;
    Ok (r.1, None, true)
  else if qmax pq <=? qlen q then Ok (pq, None, false)
  else if qmax pq <=? qcnt pq then
    prio_modified ← (if qcnt pq =? 0 then Ok None
                     else pm ← peek_scan pq 0 (hi_prio pq); Ok (Some pm));
    match prio_modified with
    | None => Ok (pq, None, false)
    | Some pm =>
        if (prio <? pm)%nat then Ok (pq, None, false)
        else if (pm =? prio)%nat then Ok (pq, None, false)
        else
          r ← aicwf_skb_dequeue_tail pq pm;
          let '(pq, freed) := r in
          r ← aicwf_frame_queue_penq pq pm pkt;
          let '(pq, ok) := r in Ok (pq, freed, ok)
    end
  else Ok (pq, None, false).

(** ** Specification

    The frames in the order of their arrival, each with its priority. *)

Abbreviation entries := (list (nat * A)).

Definition spec_enq (max : Z) (l : entries) (x : A) (prio : nat) : entries * bool :=
  if Z.of_nat (length l) <? max then (l ++ [(prio, x)], true) else (l, false).

(** The highest priority present. *)
Definition top (l : entries) : nat := max_list l.*1.

(** The oldest frame of the highest priority leaves. *)
Definition spec_deq (l : entries) : entries * option A :=
  match find_idx (fun e => (e.1 =? top l)%nat) l with
  | None => (l, None)
  | Some i => (delete i l, snd <$> l !! i)
  end.

Definition of_prio (p : nat) (l : entries) : list A := (filter (fun e => e.1 = p) l).*2.

Record fq_inv (pq : frame_queue) (l : entries) : Prop := {
  inv_num : length (queuelist pq) = num_prio pq;
  inv_hi : (hi_prio pq < num_prio pq)%nat;
  inv_queue : forall p, (p < num_prio pq)%nat -> queuelist pq !! p = Some (of_prio p l);
  inv_prio : Forall (fun e => e.1 <= hi_prio pq)%nat l;
  inv_cnt : qcnt pq = Z.of_nat (length l);
  inv_max : qcnt pq <= qmax pq < 2 ^ 16 }.

(** ** Lemmas *)

Lemma of_prio_app p l1 l2 : of_prio p (l1 ++ l2) = of_prio p l1 ++ of_prio p l2.
Proof. unfold of_prio. by rewrite filter_app, fmap_app. Qed.

Lemma of_prio_one p e : of_prio p [e] = if decide (e.1 = p) then [e.2] else [].
Proof. unfold of_prio. rewrite filter_cons. by destruct (decide (e.1 = p)). Qed.

Lemma of_prio_nil p l : of_prio p l = [] <-> Forall (fun e => e.1 <> p) l.
Proof.
  induction l as [|e l IH]; [by split |]. change (e :: l) with ([e] ++ l).
  rewrite of_prio_app, of_prio_one, Forall_app, <- IH. destruct (decide (e.1 = p)); simpl.
  - split; [done |]. intros [H _]. apply Forall_cons in H as [H _]. done.
  - split; [intros ->; split; [|done]; by constructor | by intros [_ ->]].
Qed.

Lemma of_prio_length p l : (length (of_prio p l) <= length l)%nat.
Proof. unfold of_prio. rewrite length_fmap. apply length_filter. Qed.

Lemma of_prio_cons p e l :
  of_prio p (e :: l) = (if decide (e.1 = p) then [e.2] else []) ++ of_prio p l.
Proof. change (e :: l) with ([e] ++ l). by rewrite of_prio_app, of_prio_one. Qed.

(** Removing the first frame of priority [p]. *)
Lemma of_prio_delete p l i :
  find_idx (fun e => (e.1 =? p)%nat) l = Some i ->
  exists x, l !! i = Some (p, x) /\ of_prio p l = x :: of_prio p (delete i l) /\
    forall p', p' <> p -> of_prio p' (delete i l) = of_prio p' l.
Proof.
  revert i. induction l as [|[q x] l IH]; intros i H; simpl in H; [discriminate |].
  destruct (Nat.eqb_spec q p) as [->|Hq].
  - injection H as <-. exists x. split; [done |]. cbn [delete list_delete]. split.
    + rewrite of_prio_cons. by rewrite decide_True.
    + intros p' Hp'. by rewrite of_prio_cons, decide_False by (simpl; congruence).
  - destruct (find_idx _ l) as [j|]; [|discriminate]. simpl in H. injection H as <-.
    destruct (IH j eq_refl) as (y & Hy & H1 & H2). exists y. split; [done |].
    cbn [delete list_delete]. split.
    + by rewrite !of_prio_cons, H1, !decide_False by (simpl; done).
    + intros p' Hp'. rewrite !of_prio_cons. f_equal. by apply H2.
Qed.

Lemma top_bound l n : Forall (fun e => e.1 <= n)%nat l -> (top l <= n)%nat.
Proof.
  unfold top. induction 1 as [|e l He _ IH]; [simpl; lia |]. rewrite fmap_cons.
  change (max_list (e.1 :: l.*1)) with (Nat.max e.1 (max_list l.*1)). lia.
Qed.

Lemma top_ge l : Forall (fun e => e.1 <= top l)%nat l.
Proof.
  unfold top. apply Forall_forall. intros e He. apply max_list_elem_of_le. by apply list_elem_of_fmap_2.
Qed.

Lemma top_present l : l <> [] -> of_prio (top l) l <> [].
Proof.
  intros Hl H. apply of_prio_nil in H. unfold top in *.
  assert (Hin : max_list l.*1 ∈ l.*1) by (apply max_list_elem_of; by destruct l).
  apply list_elem_of_fmap in Hin as (x & E & Hx). rewrite Forall_forall in H. specialize (H x Hx). done.
Qed.

Lemma queue_at_ok pq l p : fq_inv pq l -> (p < num_prio pq)%nat -> queue_at pq p = Ok (of_prio p l).
Proof. intros H Hp. unfold queue_at. by rewrite (inv_queue _ _ H p Hp). Qed.

Lemma lower_prio_ok pq l k :
  fq_inv pq l -> l <> [] -> (k < num_prio pq)%nat -> Forall (fun e => e.1 <= k)%nat l ->
  lower_prio pq k = Ok (top l).
Proof.
  intros Hi Hl. induction k as [|k IH]; intros Hk Hf; cbn [lower_prio].
  - pose proof (top_bound l 0 Hf). by replace (top l) with 0%nat by lia.
  - rewrite (queue_at_ok _ _ _ Hi Hk). cbn [mbind res_bind]. destruct (of_prio (S k) l) eqn:E.
    + apply of_prio_nil in E. apply IH; [lia |]. apply Forall_forall. intros e He.
      rewrite Forall_forall in E, Hf. specialize (E e He). specialize (Hf e He). simpl in *. lia.
    + pose proof (top_bound l _ Hf). f_equal.
      destruct (decide (S k = top l)) as [|Hne]; [done |]. exfalso.
      assert (E' : of_prio (S k) l = []); [|congruence]. apply of_prio_nil.
      eapply Forall_impl; [apply top_ge |]. simpl. lia.
Qed.

(** The queue after FIFO [p] was replaced. *)
Lemma queue_insert (ql : list (list A)) p q l l' n :
  (forall p', (p' < n)%nat -> ql !! p' = Some (of_prio p' l)) -> (p < n)%nat ->
  of_prio p l' = q -> (forall p', p' <> p -> of_prio p' l' = of_prio p' l) ->
  forall p', (p' < n)%nat -> <[p := q]> ql !! p' = Some (of_prio p' l').
Proof.
  intros Hq Hp H1 H2 p' Hp'. destruct (decide (p' = p)) as [->|Hne].
  - rewrite list_lookup_insert_eq; [by rewrite H1 |]. eapply lookup_lt_Some. by apply Hq.
  - rewrite list_lookup_insert_ne by done. rewrite H2 by done. by apply Hq.
Qed.

Lemma penq_ok pq l x prio :
  fq_inv pq l -> (prio < num_prio pq)%nat -> Z.of_nat (length l) < qmax pq ->
  exists pq', aicwf_frame_queue_penq pq prio x = Ok (pq', true) /\
    fq_inv pq' (l ++ [(prio, x)]) /\ num_prio pq' = num_prio pq /\ qmax pq' = qmax pq.
Proof.
  intros Hi Hp Hlt. pose proof Hi as [Hn Hh Hq Hf Hc Hm]. unfold aicwf_frame_queue_penq.
  rewrite (queue_at_ok _ _ _ Hi Hp). cbn [mbind res_bind]. pose proof (of_prio_length prio l). unfold qlen.
  destruct (Z.leb_spec (qmax pq) (Z.of_nat (length (of_prio prio l)))); [lia |].
  eexists. split; [done |]. cbn [upd hi_prio].
  destruct (Nat.ltb_spec (hi_prio pq) prio); cbn [upd num_prio qmax]; (split; [|done]);
    (constructor; cbn [num_prio hi_prio qmax qcnt queuelist];
     [ by rewrite length_insert | lia
     | apply (queue_insert _ _ _ l); [done | done | |];
         [by rewrite of_prio_app, of_prio_one, decide_True
         |intros p' Hne; rewrite of_prio_app, of_prio_one, decide_False by (simpl; congruence); apply app_nil_r]
     | apply Forall_app; split; [eapply Forall_impl; [exact Hf | simpl; lia] | constructor; [simpl; lia | constructor]]
     | rewrite u16_id, length_app by lia; simpl; lia
     | rewrite u16_id by lia; lia ]).
Qed.

Lemma enq_refines pq l x prio :
  fq_inv pq l -> (prio < num_prio pq)%nat ->
  exists pq', aicwf_frame_enq pq x prio = Ok (pq', (spec_enq (qmax pq) l x prio).2) /\
    fq_inv pq' (spec_enq (qmax pq) l x prio).1 /\ num_prio pq' = num_prio pq /\ qmax pq' = qmax pq.
Proof.
  intros Hi Hp. unfold aicwf_frame_enq, spec_enq. rewrite (queue_at_ok _ _ _ Hi Hp). cbn [mbind res_bind].
  pose proof (of_prio_length prio l). pose proof (inv_cnt _ _ Hi) as Hc. unfold qlen. rewrite Hc.
  destruct (Z.ltb_spec (Z.of_nat (length l)) (qmax pq)).
  - destruct (Z.ltb_spec (Z.of_nat (length (of_prio prio l))) (qmax pq)); [|lia]. cbn [andb].
    destruct (penq_ok pq l x prio) as (pq' & -> & ?); [done | done | done |]. by exists pq'.
  - rewrite andb_false_r. by exists pq.
Qed.

Lemma deq_refines pq l :
  fq_inv pq l ->
  exists pq', aicwf_frame_dequeue pq = Ok (pq', (spec_deq l).2) /\
    fq_inv pq' (spec_deq l).1 /\ num_prio pq' = num_prio pq /\ qmax pq' = qmax pq.
Proof.
  intros Hi. pose proof Hi as [Hn Hh Hq Hf Hc Hm]. unfold aicwf_frame_dequeue, spec_deq. rewrite Hc.
  destruct (Z.eqb_spec (Z.of_nat (length l)) 0) as [E|E].
  { assert (l = []) as -> by (destruct l; [done | simpl in E; lia]). by exists pq. }
  assert (Hl : l <> []) by (by intros ->). rewrite (lower_prio_ok pq l) by done. cbn [mbind res_bind].
  pose proof (top_bound l _ Hf) as Ht. pose proof (top_present l Hl) as Hp.
  destruct (find_idx (fun e => (e.1 =? top l)%nat) l) as [i|] eqn:Ei.
  2:{ exfalso. apply Hp, of_prio_nil. apply find_idx_None in Ei. eapply Forall_impl; [exact Ei |].
      simpl. intros e He. by apply Nat.eqb_neq. }
  destruct (of_prio_delete _ _ _ Ei) as (x & Hx & H1 & H2). rewrite Hx.
  assert (Hlt : (top l < num_prio pq)%nat) by lia.
  change (queue_at (pq <| hi_prio := top l |>) (top l)) with (queue_at pq (top l)).
  rewrite (queue_at_ok pq l (top l) Hi Hlt), H1. cbn [mbind res_bind].
  eexists. split; [done |]. split; [|done].
  pose proof (lookup_lt_Some _ _ _ Hx). pose proof (length_delete l i ltac:(by eexists)) as Hd.
  constructor; cbn [upd num_prio hi_prio qmax qcnt queuelist].
  - by rewrite length_insert.
  - done.
  - by apply (queue_insert _ _ _ l).
  - apply Forall_delete, top_ge.
  - cbn [fst]. rewrite u16_id by lia. lia.
  - rewrite u16_id by lia. lia.
Qed.

Lemma sum_len_ok pq l p k :
  fq_inv pq l -> (p + k <= num_prio pq)%nat ->
  sum_len pq p k = Ok (Z.of_nat (length (filter (fun e => p <= e.1 < p + k)%nat l))).
Proof.
  intros Hi. revert p. induction k as [|k IH]; intros p Hp; cbn [sum_len].
  - do 2 f_equal. rewrite filter_none; [done |]. apply Forall_forall. intros e _. lia.
  - rewrite (queue_at_ok _ _ _ Hi) by lia. cbn [mbind res_bind]. rewrite IH by lia. cbn [mbind res_bind].
    f_equal. unfold qlen, of_prio. rewrite length_fmap. clear. induction l as [|e l IH]; [done |].
    rewrite !filter_cons. repeat case_decide; cbn [length]; lia.
Qed.

Lemma empty_refines pq l :
  fq_inv pq l -> aicwf_is_framequeue_empty pq = Ok (bool_decide (l = [])).
Proof.
  intros Hi. pose proof Hi as [_ Hh _ Hf _ _]. unfold aicwf_is_framequeue_empty.
  rewrite (sum_len_ok _ _ _ _ Hi) by lia. cbn [mbind res_bind]. rewrite filter_all.
  - f_equal. destruct l; [done |]. rewrite bool_decide_false by done. done.
  - eapply Forall_impl; [exact Hf |]. simpl. lia.
Qed.

Lemma fq_init_inv num max :
  (0 < num)%nat -> 0 <= max < 2 ^ 16 -> fq_inv (aicwf_frame_queue_init num max) [].
Proof.
  intros Hn Hm. constructor; cbn; [apply length_replicate | done | | constructor | done | by rewrite u16_id].
  intros p Hp. by apply lookup_replicate_2.
Qed.

Lemma flush_count_sub n k : Z.of_nat k <= n < 2 ^ 16 -> flush_count n k = n - Z.of_nat k.
Proof.
  unfold flush_count. induction k as [|k IH]; intros H; [simpl; lia |].
  rewrite Nat.iter_succ, IH by lia. rewrite u16_id; lia.
Qed.

Lemma concat_of_prio l n :
  Forall (fun e => e.1 < n)%nat l -> concat ((fun p => of_prio p l) <$> seq 0 n) ≡ₚ l.*2.
Proof.
  induction 1 as [|e l He Hl IH].
  - generalize 0%nat. induction n as [|n IH]; intros a; [done | apply (IH (S a))].
  - assert (G : forall a n, concat ((fun p => of_prio p (e :: l)) <$> seq a n) ≡ₚ
      (if decide (a <= e.1 < a + n)%nat then [e.2] else []) ++ concat ((fun p => of_prio p l) <$> seq a n)).
    { clear. intros a n. revert a. induction n as [|n IHn]; intros a; cbn [seq fmap list_fmap concat].
      - rewrite decide_False by lia. done.
      - rewrite IHn, of_prio_cons. destruct (decide (e.1 = a)).
        + rewrite decide_False, decide_True by lia. done.
        + destruct (decide (S a <= e.1 < S a + n)%nat).
          * rewrite decide_True by lia. simpl. by rewrite Permutation_middle.
          * rewrite decide_False by lia. done. }
    rewrite G, decide_True by lia. simpl. by rewrite IH.
Qed.

Lemma flush_refines pq l :
  fq_inv pq l ->
  fq_inv (aicwf_frame_queue_flush pq).1 [] /\
  (aicwf_frame_queue_flush pq).2 = concat ((fun p => of_prio p l) <$> seq 0 (num_prio pq)) /\
  num_prio (aicwf_frame_queue_flush pq).1 = num_prio pq /\ qmax (aicwf_frame_queue_flush pq).1 = qmax pq.
Proof.
  intros Hi. pose proof Hi as [Hn Hh Hq Hf Hc Hm]. unfold aicwf_frame_queue_flush.
  assert (E : queuelist pq = (fun p => of_prio p l) <$> seq 0 (num_prio pq)).
  { apply list_eq. intros p. rewrite list_lookup_fmap. destruct (decide (p < num_prio pq)%nat).
    - rewrite Hq, lookup_seq_lt by done. done.
    - rewrite !lookup_ge_None_2; [done | rewrite length_seq; lia | lia]. }
  rewrite take_ge, drop_ge by lia. cbn [fst snd].
  assert (HP : concat (queuelist pq) ≡ₚ l.*2).
  { rewrite E. apply concat_of_prio. eapply Forall_impl; [exact Hf |]. simpl. lia. }
  split; [|by rewrite E]. pose proof (Permutation_length HP) as HL. rewrite length_fmap in HL.
  constructor; cbn [upd num_prio hi_prio qmax qcnt queuelist].
  - by rewrite length_app, length_replicate, Nat.add_0_r.
  - done.
  - intros p Hp. rewrite app_nil_r. apply lookup_replicate_2. lia.
  - constructor.
  - rewrite HL, flush_count_sub by lia. simpl. lia.
  - rewrite HL, flush_count_sub by lia. lia.
Qed.

(** ** Runs *)

Inductive op := OEnq (x : A) (prio : nat) | ODeq | OEmpty | OFlush.
Inductive out := RBool (b : bool) | RFrame (o : option A) | RFreed (l : list A).

Definition do_op (pq : frame_queue) (o : op) : res (frame_queue * out) :=
  match o with
  | OEnq x prio => r ← aicwf_frame_enq pq x prio; Ok (r.1, RBool r.2)
  | ODeq => r ← aicwf_frame_dequeue pq; Ok (r.1, RFrame r.2)
  | OEmpty => b ← aicwf_is_framequeue_empty pq; Ok (pq, RBool b)
  | OFlush => let r := aicwf_frame_queue_flush pq in Ok (r.1, RFreed r.2)
  end.

Definition spec_op (num : nat) (max : Z) (l : entries) (o : op) : entries * out :=
  match o with
  | OEnq x prio => let r := spec_enq max l x prio in (r.1, RBool r.2)
  | ODeq => let r := spec_deq l in (r.1, RFrame r.2)
  | OEmpty => (l, RBool (bool_decide (l = [])))
  | OFlush => ([], RFreed (concat ((fun p => of_prio p l) <$> seq 0 num)))
  end.

Fixpoint run (pq : frame_queue) (ops : list op) : res (frame_queue * list out) :=
  match ops with
  | [] => Ok (pq, [])
  | o :: ops => r ← do_op pq o; r' ← run r.1 ops; Ok (r'.1, r.2 :: r'.2)
  end.

Fixpoint spec_run (num : nat) (max : Z) (l : entries) (ops : list op) : entries * list out :=
  match ops with
  | [] => (l, [])
  | o :: ops =>
      let r := spec_op num max l o in
      let r' := spec_run num max r.1 ops in (r'.1, r.2 :: r'.2)
  end.

Definition op_ok (num : nat) (o : op) : Prop :=
  match o with OEnq _ prio => (prio < num)%nat | _ => True end.

Lemma op_refines pq l o :
  fq_inv pq l -> op_ok (num_prio pq) o ->
  exists pq', do_op pq o = Ok (pq', (spec_op (num_prio pq) (qmax pq) l o).2) /\
    fq_inv pq' (spec_op (num_prio pq) (qmax pq) l o).1 /\ num_prio pq' = num_prio pq /\ qmax pq' = qmax pq.
Proof.
  intros Hi Ho. destruct o as [x prio| | |]; cbn [do_op spec_op op_ok] in *.
  - destruct (enq_refines pq l x prio Hi Ho) as (pq' & -> & H). by exists pq'.
  - destruct (deq_refines pq l Hi) as (pq' & -> & H). by exists pq'.
  - rewrite (empty_refines pq l Hi). by exists pq.
  - eexists. destruct (flush_refines pq l Hi) as (H1 & H2 & H3 & H4). rewrite H2.
    split; [done |]. by split.
Qed.

(** C18. Any sequence of enqueues, dequeues, emptiness tests and flushes on a freshly
    initialised frame queue gives exactly the results of the specification (a bounded
    list of frames in arrival order, from which the oldest frame of the highest priority
    leaves), never faults, and keeps the cached count and highest priority right. *)
Theorem frame_queue_refines num max ops :
  (0 < num)%nat -> 0 <= max < 2 ^ 16 -> Forall (op_ok num) ops ->
  exists pq', run (aicwf_frame_queue_init num max) ops = Ok (pq', (spec_run num max [] ops).2) /\
    fq_inv pq' (spec_run num max [] ops).1.
Proof.
  intros Hn Hm Hops. pose proof (fq_init_inv num max Hn Hm) as Hi.
  assert (E1 : num_prio (aicwf_frame_queue_init num max) = num) by done.
  assert (E2 : qmax (aicwf_frame_queue_init num max) = max) by (cbn; by apply u16_id).
  revert Hi E1 E2. generalize (aicwf_frame_queue_init num max), (@nil (nat * A)).
  induction Hops as [|o ops Ho Hops IH]; intros pq l Hi E1 E2; cbn [run spec_run]; [by exists pq |].
  destruct (op_refines pq l o Hi) as (pq1 & -> & H1 & H2 & H3); [by rewrite E1 |].
  rewrite E1, E2 in *. cbn [mbind res_bind fst snd].
  destruct (IH pq1 _ H1 H2 H3) as (pq2 & -> & H4). by exists pq2.
Qed.

(** What the reference promises about the frame that leaves. *)
Lemma spec_deq_oldest l x l' :
  spec_deq l = (l', Some x) ->
  exists l1 l2 p, l = l1 ++ (p, x) :: l2 /\ l' = l1 ++ l2 /\
    Forall (fun e => e.1 < p)%nat l1 /\ Forall (fun e => e.1 <= p)%nat l2.
Proof.
  unfold spec_deq. destruct (find_idx _ l) as [i|] eqn:E; [|discriminate]. intros [= <- H].
  destruct (find_idx_Some _ _ _ E) as ([p y] & Hi & Hp & Hlt). rewrite Hi in H. injection H as ->.
  apply Nat.eqb_eq in Hp. cbn in Hp. subst p. exists (take i l), (drop (S i) l), (top l).
  split; [by rewrite (take_drop_middle l i) |]. split; [apply delete_take_drop |].
  pose proof (top_ge l) as Hg. split.
  - apply Forall_forall. intros e He. apply elem_of_take in He as (j & Hj & Hji).
    pose proof (Hlt j e Hji Hj) as Hne. apply Nat.eqb_neq in Hne.
    rewrite Forall_forall in Hg. specialize (Hg e ltac:(by eapply list_elem_of_lookup_2)). simpl in *. lia.
  - by apply Forall_drop.
Qed.

(** *** The eviction of the bus driver *)

(** When the queue of the bus driver is full and a frame of higher priority evicts
    one of lower priority, the new frame is stored in the FIFO of the evicted one: it
    loses its priority. *)
Theorem bsp_evict_demotes pq l pkt prio pm :
  fq_inv pq l -> qcnt pq = qmax pq -> (prio < num_prio pq)%nat ->
  peek_scan pq 0 (hi_prio pq) = Ok pm -> (pm < prio)%nat -> of_prio pm l <> [] ->
  of_prio prio l = [] ->
  exists pq' freed, bsp_frame_enq pq pkt prio = Ok (pq', Some freed, true) /\
    last (of_prio pm l) = Some freed /\
    queuelist pq' !! pm = Some (take (length (of_prio pm l) - 1) (of_prio pm l) ++ [pkt]) /\
    queuelist pq' !! prio = Some [].
Proof.
  intros Hi Hc Hp Hpm Hlt Hne Hpe. pose proof Hi as [Hn Hh Hq Hf Hcnt Hm].
  assert (Hln : (0 < length l)%nat) by (destruct l; [done | simpl; lia]).
  unfold bsp_frame_enq. rewrite (queue_at_ok _ _ _ Hi Hp), Hpe. cbn [mbind res_bind qlen length].
  destruct (Z.ltb_spec (qcnt pq) (qmax pq)); [lia |]. rewrite andb_false_r.
  change (qlen (@nil A)) with 0. destruct (Z.leb_spec (qmax pq) 0); [lia |].
  destruct (Z.leb_spec (qmax pq) (qcnt pq)); [|lia].
  destruct (Z.eqb_spec (qcnt pq) 0); [lia |]. rewrite Hpm. cbn [mbind res_bind].
  destruct (Nat.ltb_spec prio pm); [lia |]. destruct (Nat.eqb_spec pm prio); [lia |].
  unfold aicwf_skb_dequeue_tail. rewrite (queue_at_ok _ _ _ Hi) by lia. cbn [mbind res_bind].
  destruct (last (of_prio pm l)) as [freed|] eqn:El; [|by apply last_None in El]. cbn [mbind res_bind].
  unfold aicwf_frame_queue_penq, queue_at. cbn [upd queuelist qmax hi_prio].
  assert (Hin : queuelist pq !! pm = Some (of_prio pm l)) by (apply Hq; lia).
  rewrite list_lookup_insert_eq by (by eapply lookup_lt_Some). cbn [mbind res_bind].
  assert (qlen (take (length (of_prio pm l) - 1) (of_prio pm l)) < qmax pq).
  { unfold qlen. rewrite length_take. pose proof (of_prio_length pm l). lia. }
  destruct (Z.leb_spec (qmax pq) (qlen (take (length (of_prio pm l) - 1) (of_prio pm l)))); [lia |].
  eexists _, freed. split; [done |]. split; [done |].
  assert (Hq' : queuelist pq !! prio = Some []) by (rewrite Hq, Hpe; [done | lia]).
  destruct (Nat.ltb _ _); cbn [upd queuelist]; rewrite list_insert_insert_eq;
    (split; [by rewrite list_lookup_insert_eq by (by eapply lookup_lt_Some)
            |by rewrite list_lookup_insert_ne by lia]).
Qed.

End Queue.
Arguments frame_queue A : clear implicits.

(** ** The interface of the receive path

    What the receive thread relies on: a queue of buffers that hands them out
    in the order of their arrival. *)

Class RxFifo (Q A : Type) := {
  rx_empty : Q -> res bool;
  rx_dequeue : Q -> res (Q * option A);
  rx_holds : Q -> list A -> Prop;
  rx_empty_ok : forall q l, rx_holds q l -> rx_empty q = Ok (bool_decide (l = []));
  rx_dequeue_ok : forall q x l, rx_holds q (x :: l) ->
    exists q', rx_dequeue q = Ok (q', Some x) /\ rx_holds q' l }.

(** A frame queue with all frames at priority 0. *)
Lemma deq_prio0 {A} (pq : frame_queue A) x (l : list A) :
  fq_inv pq (pair 0%nat <$> (x :: l)) ->
  exists pq', aicwf_frame_dequeue pq = Ok (pq', Some x) /\ fq_inv pq' (pair 0%nat <$> l).
Proof.
  intros Hi. destruct (deq_refines pq _ Hi) as (pq' & E & H & _). exists pq'.
  assert (Hs : spec_deq (pair 0%nat <$> (x :: l)) = (pair 0%nat <$> l, Some x)); [|by rewrite Hs in *].
  unfold spec_deq. assert (Ht : top (pair 0%nat <$> (x :: l)) = 0%nat).
  { pose proof (top_bound (pair 0%nat <$> (x :: l)) 0). apply Nat.le_0_r, H0.
    apply Forall_fmap, Forall_forall. intros y _. simpl. lia. }
  rewrite Ht. done.
Qed.

#[global, program] Instance frame_queue_fifo {A} : RxFifo (frame_queue A) A := {
  rx_empty := aicwf_is_framequeue_empty;
  rx_dequeue := aicwf_frame_dequeue;
  rx_holds := fun q l => fq_inv q (pair 0%nat <$> l) }.
Next Obligation.
  intros A q l H. rewrite (empty_refines q _ H). f_equal. apply bool_decide_ext. by destruct l.
Qed.
Next Obligation. intros A q x l. apply deq_prio0. Qed.

(** ** Witnesses *)

Definition demo_ops : list (op (A := Z)) :=
  [OEnq 1 0; OEnq 2 3; OEnq 3 3; OEnq 4 1; OEnq 5 7; ODeq; ODeq; OEmpty; ODeq; ODeq; OFlush; OEmpty].

Lemma frame_queue_refines_witness :
  exists pq', run (aicwf_frame_queue_init 8 4) demo_ops =
      Ok (pq', [RBool true; RBool true; RBool true; RBool true; RBool false;
                RFrame (Some 2); RFrame (Some 3); RBool false; RFrame (Some 4); RFrame (Some 1);
                RFreed []; RBool true]) /\
    fq_inv pq' (spec_run 8 4 [] demo_ops).1.
Proof.
  apply (frame_queue_refines 8 4 demo_ops); [lia | lia |].
  repeat constructor.
Defined.

(** Two frames at priority 0 fill the queue; a frame of priority 3 arrives. *)
Definition demo_full : frame_queue Z := FQ 8 0 2 2 ([10; 11] :: replicate 7 []).

Lemma demo_full_inv : fq_inv demo_full [(0%nat, 10); (0%nat, 11)].
Proof.
  constructor; [reflexivity | simpl; lia | | repeat constructor | reflexivity | simpl; lia].
  intros p Hp. cbn in Hp. do 8 (destruct p as [|p]; [reflexivity |]). lia.
Qed.

Lemma bsp_evict_demotes_witness :
  exists pq' freed, bsp_frame_enq demo_full 12 3 = Ok (pq', Some freed, true) /\
    Some 11 = Some freed /\ queuelist pq' !! 0%nat = Some [10; 12] /\ queuelist pq' !! 3%nat = Some [].
Proof.
  apply (bsp_evict_demotes demo_full [(0%nat, 10); (0%nat, 11)] 12 3 0 demo_full_inv);
    [reflexivity | simpl; lia | reflexivity | lia | discriminate | reflexivity].
Defined.
End FrameQueue.
