(* ===== verification/RxBlock.v ===== *)
(** * Splitting receive blocks (aicwf_process_rxframes of aicwf_txrxif.c)

    The receive thread takes blocks from the frame queue.  A block is a
    sequence of packets, each with a 16-bit little-endian length and a type
    byte: a data packet occupies the length plus the 60 bytes of the hardware
    header, a configuration packet the length plus 4; both are padded to a
    multiple of four.  A zero length ends the block.

    The queue is any implementation of [FrameQueue.RxFifo]; what is done with a
    packet is the argument [handle].  The outcomes of the allocations are the
    list [mem] (an allocation beyond its end succeeds). *)

From stdpp Require Import prelude.
From S2P Require Import Prelude RxAmsdu RxReorder RxData FrameQueue.
Open Scope Z_scope.

Module RxBlock.
Import FrameQueue.

Definition RX_HWHRD_LEN : Z := 60.
Definition SDIO_TYPE_CFG : Z := 0x10.
Definition SDIO_TYPE_CFG_CMD_RSP : Z := 0x11.
Definition SDIO_TYPE_CFG_DATA_CFM : Z := 0x12.
Definition SDIO_TYPE_CFG_PRINT : Z := 0x13.

Inductive packet :=
| PData (data : list Z)                    (* rwnx_rxdataind_aicwf *)
| PMsg (msg : list Z)                      (* rwnx_rx_handle_msg *)
| PTxCfm (msg : list Z)                    (* aicwf_sdio_host_tx_cfm_handler *)
| PPrint (msg : list Z) (len : Z).         (* rwnx_rx_handle_print *)

Definition aicwf_another_ptk (data : list Z) : res bool :=
  match data with
  | [] => Ok false
  | _ => aggr_len ← rd_le16 data 0; Ok (negb (aggr_len =? 0))
  end.

(** [adjust_len]: the length rounded up to RX_ALIGNMENT. *)
Definition adjust (aggr_len : Z) : Z :=
  if negb (Z.land aggr_len 3 =? 0) then u16 (Amsdu.roundup4 aggr_len) else aggr_len.

Definition next_mem (mem : list bool) : bool * list bool :=
  match mem with [] => (true, []) | b :: mem => (b, mem) end.

Section Split.
Context {St : Type} (handle : St -> packet -> res St) (bus_up : bool).

(** The packets a configuration packet stands for. *)
Definition cfg_packets (msg : list Z) (aggr_len : Z) : res (list packet) :=
  b2 ← rd msg 2;
  let ty := Z.land b2 0x7f in
  Ok ((if (ty =? SDIO_TYPE_CFG_CMD_RSP) && bus_up then [PMsg (drop 4 msg)] else []) ++
      (if ty =? SDIO_TYPE_CFG_DATA_CFM then [PTxCfm (drop 4 msg)] else []) ++
      (if ty =? SDIO_TYPE_CFG_PRINT then [PPrint (drop 4 msg) aggr_len] else [])).

Fixpoint handle_all (st : St) (ps : list packet) : res St :=
  match ps with
  | [] => Ok st
  | p :: ps => st ← handle st p; handle_all st ps
  end.

(** The inner loop; the flag tells that the message buffer could not be
    allocated, which makes the caller give up. *)
Fixpoint split_block (fuel : nat) (mem : list bool) (data : list Z) (st : St)
    : res (St * list bool * bool) :=
  more ← aicwf_another_ptk data;
  if negb (more : bool) then Ok (st, mem, false)
  else
    match fuel with
    | O => NoFuel
    | S fuel =>
        pkt_len ← rd_le16 data 0;
        b2 ← rd data 2;
        let '(ok, mem) := next_mem mem in
        if negb (Z.land b2 SDIO_TYPE_CFG =? SDIO_TYPE_CFG) then
          let aggr_len := u16 (pkt_len + RX_HWHRD_LEN) in
          if negb ok then split_block fuel mem (Amsdu.skb_pull data (adjust aggr_len)) st
          else
            pkt ← RxData.copy data 0 aggr_len;
            st ← handle st (PData pkt);
            split_block fuel mem (Amsdu.skb_pull data (adjust aggr_len)) st
        else
          let aggr_len := pkt_len in
          if negb ok then Ok (st, mem, true)
          else
            msg ← RxData.copy data 0 (aggr_len + 4);
            ps ← cfg_packets msg aggr_len;
            st ← handle_all st ps;
            split_block fuel mem (Amsdu.skb_pull data (adjust aggr_len + 4)) st
    end.

(** The thread's loop: the queue, the number of blocks still counted
    ([rx_cnt]), the result.  [fuel] bounds the blocks and the packets of one. *)
Fixpoint aicwf_process_rxframes `{RxFifo Q (list Z)} (fuel : nat) (mem : list bool) (rxq : Q)
    (rx_cnt : Z) (st : St) : res (Q * Z * St * Z) :=
  e ← rx_empty rxq;
  if (e : bool) then Ok (rxq, rx_cnt, st, 0)
  else
    match fuel with
    | O => NoFuel
    | S fuel' =>
        r ← rx_dequeue rxq;
        let '(rxq, o) := r in
        match o with
        | None => Ok (rxq, rx_cnt, st, 0)
        | Some skb =>
            r ← split_block fuel mem skb st;
            let '(st, mem, gave_up) := r in
            if (gave_up : bool) then Ok (rxq, rx_cnt, st, -52)
            else aicwf_process_rxframes fuel' mem rxq (rx_cnt - 1) st
        end
    end.

(** ** What the device writes *)

Inductive dev_packet :=
| DData (ty : Z) (rest : list Z)     (* after length and type: header rest and frame *)
| DCfg (ty : Z) (rest : list Z).

Definition le16 (n : Z) : list Z := [n mod 256; n / 256].

Definition enc_packet (p : dev_packet) : list Z :=
  match p with
  | DData ty rest => le16 (Z.of_nat (length rest) + 3 - RX_HWHRD_LEN) ++ ty :: rest
  | DCfg ty rest => le16 (Z.of_nat (length rest) - 1) ++ ty :: rest
  end.

Definition packet_ok (p : dev_packet) : Prop :=
  match p with
  | DData ty rest => Z.land ty SDIO_TYPE_CFG = 0 /\ RX_HWHRD_LEN - 2 <= Z.of_nat (length rest) < 60000
  | DCfg ty rest => Z.land ty SDIO_TYPE_CFG = SDIO_TYPE_CFG /\ 2 <= Z.of_nat (length rest) < 60000
  end.

Definition pad4 (l : list Z) : list Z :=
  l ++ replicate (Z.to_nat (Amsdu.roundup4 (Z.of_nat (length l)) - Z.of_nat (length l))) 0.

(** The block: packets with padding, then zeros. *)
Definition enc_block (ps : list dev_packet) (zeros : nat) : list Z :=
  concat ((fun p => pad4 (enc_packet p)) <$> ps) ++ replicate zeros 0.

(** What the driver is to do with a packet. *)
Definition meaning (p : dev_packet) : list packet :=
  match p with
  | DData ty rest => [PData (enc_packet p)]
  | DCfg ty rest =>
      let msg := drop 4 (enc_packet p) in
      (if (Z.land ty 0x7f =? SDIO_TYPE_CFG_CMD_RSP) && bus_up then [PMsg msg] else []) ++
      (if Z.land ty 0x7f =? SDIO_TYPE_CFG_DATA_CFM then [PTxCfm msg] else []) ++
      (if Z.land ty 0x7f =? SDIO_TYPE_CFG_PRINT
       then [PPrint msg (Z.of_nat (length rest) - 1)] else [])
  end.

(** ** Lemmas *)

Lemma adjust_eq n : 0 <= n < 65000 -> adjust n = Amsdu.roundup4 n.
Proof.
  intros Hn. unfold adjust. change 3 with (Z.ones 2). rewrite Z.land_ones by lia. change (2 ^ 2) with 4.
  pose proof (Amsdu.roundup4_spec n ltac:(lia)) as [Hr Hm].
  destruct (Z.eqb_spec (n mod 4) 0); cbn [negb]; [|by rewrite u16_id by lia].
  pose proof (Z.div_mod n 4). pose proof (Z.div_mod (Amsdu.roundup4 n) 4). lia.
Qed.

Lemma roundup4_add4 n : 0 <= n -> Amsdu.roundup4 n + 4 = Amsdu.roundup4 (n + 4).
Proof.
  intros Hn. unfold Amsdu.roundup4. replace (n + 4 + 3) with (n + 3 + 1 * 4) by lia.
  rewrite Z.div_add by lia. lia.
Qed.

Lemma enc_packet_length p :
  Z.of_nat (length (enc_packet p)) = match p with DData _ rest | DCfg _ rest => Z.of_nat (length rest) + 3 end.
Proof. destruct p; cbn [enc_packet le16 app length]; lia. Qed.

Lemma pad4_length l : Z.of_nat (length (pad4 l)) = Amsdu.roundup4 (Z.of_nat (length l)).
Proof.
  unfold pad4. rewrite length_app, length_replicate.
  pose proof (Amsdu.roundup4_spec (Z.of_nat (length l)) ltac:(lia)). lia.
Qed.

Lemma le16_rd n ty l : 0 <= n < 65536 ->
  rd_le16 (le16 n ++ ty :: l) 0 = Ok n /\ rd (le16 n ++ ty :: l) 2 = Ok ty.
Proof.
  intros Hn. split; [|done].
  etrans; [exact (rd_le16_at [] (n mod 256) (n / 256) (ty :: l) 0 eq_refl) |]. f_equal. pose proof (Z.div_mod n 256). lia.
Qed.

Lemma pull_all a b n : Z.of_nat (length a) = n -> Amsdu.skb_pull (a ++ b) n = b.
Proof.
  intros <-. unfold Amsdu.skb_pull. rewrite length_app.
  destruct (Z.ltb_spec (Z.of_nat (length a + length b)) (Z.of_nat (length a))); [lia |].
  rewrite Nat2Z.id. apply drop_app_length.
Qed.

Lemma copy_front a b n : Z.of_nat (length a) = n -> RxData.copy (a ++ b) 0 n = Ok a.
Proof. intros H. by apply (RxData.copy_app [] a b 0 n). Qed.

Lemma another_true data n : rd_le16 data 0 = Ok n -> n <> 0 -> aicwf_another_ptk data = Ok true.
Proof.
  intros H Hn. unfold aicwf_another_ptk. destruct data; [discriminate |]. rewrite H. cbn [mbind res_bind].
  by destruct (Z.eqb_spec n 0).
Qed.

(** One packet. *)
Lemma split_one fuel p tail st :
  packet_ok p ->
  split_block (S fuel) [] (pad4 (enc_packet p) ++ tail) st =
    (st ← handle_all st (meaning p); split_block fuel [] tail st).
Proof.
  intros Hok. pose proof (enc_packet_length p) as Hl. pose proof (pad4_length (enc_packet p)) as Hpl.
  unfold pad4 in *. rewrite <- app_assoc. set (pad := replicate _ 0) in *.
  destruct p as [ty rest|ty rest]; destruct Hok as [Hty Hr]; cbn [meaning].
  - set (n := Z.of_nat (length rest) + 3 - RX_HWHRD_LEN). unfold RX_HWHRD_LEN in *.
    assert (Hrd : rd_le16 (enc_packet (DData ty rest) ++ pad ++ tail) 0 = Ok n /\
      rd (enc_packet (DData ty rest) ++ pad ++ tail) 2 = Ok ty).
    { cbn [enc_packet]. rewrite <- app_assoc. apply le16_rd. subst n. unfold RX_HWHRD_LEN. lia. }
    destruct Hrd as [Hrd1 Hrd2]. cbn [split_block].
    rewrite (another_true _ n Hrd1) by (subst n; lia). cbn [mbind res_bind negb]. rewrite Hrd1, Hrd2.
    cbn [mbind res_bind next_mem]. rewrite Hty. cbn [Z.eqb negb SDIO_TYPE_CFG].
    replace (u16 (n + RX_HWHRD_LEN)) with (Z.of_nat (length (enc_packet (DData ty rest))))
      by (rewrite u16_id; subst n; unfold RX_HWHRD_LEN; lia).
    rewrite copy_front by done. cbn [mbind res_bind handle_all].
    destruct (handle st (PData (enc_packet (DData ty rest)))); cbn [mbind res_bind]; [|done | done].
    rewrite adjust_eq by lia. rewrite (app_assoc (enc_packet _)). by rewrite pull_all.
  - set (n := Z.of_nat (length rest) - 1).
    assert (Hrd : rd_le16 (enc_packet (DCfg ty rest) ++ pad ++ tail) 0 = Ok n /\
      rd (enc_packet (DCfg ty rest) ++ pad ++ tail) 2 = Ok ty).
    { cbn [enc_packet]. rewrite <- app_assoc. apply le16_rd. subst n. lia. }
    destruct Hrd as [Hrd1 Hrd2]. cbn [split_block].
    rewrite (another_true _ n Hrd1) by (subst n; lia). cbn [mbind res_bind negb]. rewrite Hrd1, Hrd2.
    cbn [mbind res_bind next_mem]. rewrite Hty. cbn [Z.eqb Pos.eqb negb SDIO_TYPE_CFG].
    rewrite copy_front by (subst n; lia). cbn [mbind res_bind].
    assert (Hcfg : cfg_packets (enc_packet (DCfg ty rest)) n = Ok (meaning (DCfg ty rest))) by done.
    rewrite Hcfg. cbn [mbind res_bind]. cbn [meaning].
    destruct (handle_all st _); cbn [mbind res_bind]; [|done | done].
    rewrite adjust_eq, roundup4_add4 by (subst n; lia).
    rewrite (app_assoc (enc_packet _)). rewrite pull_all; [done |]. rewrite Hpl, Hl. f_equal. subst n. lia.
Qed.

Lemma handle_all_app st ps qs : handle_all st (ps ++ qs) = (st ← handle_all st ps; handle_all st qs).
Proof.
  revert st. induction ps as [|p ps IH]; intros st; [done |]. cbn [handle_all app].
  destruct (handle st p); cbn [mbind res_bind]; [apply IH | done | done].
Qed.

Lemma handle_all_ok (Hh : forall s p, exists s', handle s p = Ok s') st ps :
  exists st', handle_all st ps = Ok st'.
Proof.
  revert st. induction ps as [|p ps IH]; intros st; [by exists st |]. cbn [handle_all].
  destruct (Hh st p) as [s' ->]. apply IH.
Qed.

Lemma split_zeros fuel zeros st : zeros <> 1%nat -> split_block fuel [] (replicate zeros 0) st = Ok (st, [], false).
Proof. intros Hz. destruct zeros as [|[|zeros]]; [by destruct fuel | done | by destruct fuel]. Qed.

Lemma split_block_enc ps zeros fuel st :
  Forall packet_ok ps -> zeros <> 1%nat -> (length ps <= fuel)%nat ->
  split_block fuel [] (enc_block ps zeros) st =
    (st ← handle_all st (ps ≫= meaning); Ok (st, [], false)).
Proof.
  intros Hok Hz. revert fuel st. induction Hok as [|p ps Hp Hok IH]; intros fuel st Hf; unfold enc_block.
  - cbn. by apply split_zeros.
  - destruct fuel as [|fuel]; [simpl in Hf; lia |]. rewrite fmap_cons. cbn [concat]. rewrite <- app_assoc.
    rewrite split_one by done. cbn [mbind list_bind]. rewrite handle_all_app.
    destruct (handle_all st (meaning p)); cbn [mbind res_bind]; [|done | done].
    apply IH. simpl in Hf. lia.
Qed.

(** C34. If the buffers it needs can be allocated, splitting a block the device built
    from any sequence of data and configuration packets hands exactly these packets to
    their handlers, in order. *)
Theorem split_block_roundtrip ps zeros fuel st :
  Forall packet_ok ps -> zeros <> 1%nat -> (length ps <= fuel)%nat ->
  split_block fuel [] (enc_block ps zeros) st =
    (st ← handle_all st (ps ≫= meaning); Ok (st, [], false)).
Proof. apply split_block_enc. Qed.

(** With any queue that satisfies the receive interface, one pass of the receive
    thread empties the queue and handles the packets of all blocks in arrival order,
    decrementing the pending counter once per block. *)
Theorem process_rxframes_in_order `{RxFifo Q (list Z)} rxq (blocks : list (list dev_packet * nat)) fuel rx_cnt st :
  rx_holds rxq ((fun b => enc_block b.1 b.2) <$> blocks) ->
  Forall (fun b => Forall packet_ok b.1 /\ b.2 <> 1%nat /\ (length b.1 + length blocks <= fuel)%nat) blocks ->
  (forall s p, exists s', handle s p = Ok s') ->
  exists rxq' st',
    aicwf_process_rxframes fuel [] rxq rx_cnt st = Ok (rxq', rx_cnt - Z.of_nat (length blocks), st', 0) /\
    handle_all st (blocks.*1 ≫= fun ps => ps ≫= meaning) = Ok st' /\ rx_holds rxq' [].
Proof.
  intros Hq Hok Hh. revert rxq fuel rx_cnt st Hq Hok.
  induction blocks as [|[ps z] blocks IH]; intros rxq fuel rx_cnt st Hq Hok.
  { exists rxq, st. split; [|by split]. destruct fuel; cbn [aicwf_process_rxframes];
      rewrite (rx_empty_ok _ _ Hq); cbn; by rewrite Z.sub_0_r. }
  apply Forall_cons in Hok as [(Hps & Hz & Hf) Hok]. cbn [fst snd length] in *.
  destruct fuel as [|fuel]; [lia |]. cbn [aicwf_process_rxframes]. rewrite (rx_empty_ok _ _ Hq).
  rewrite fmap_cons in Hq. cbn [mbind res_bind fst snd bool_decide] in *.
  destruct (rx_dequeue_ok _ _ _ Hq) as (rxq1 & -> & Hq1). cbn [mbind res_bind].
  rewrite split_block_enc by (done || lia). destruct (handle_all_ok Hh st (ps ≫= meaning)) as [st1 E1].
  rewrite E1. cbn [mbind res_bind].
  destruct (IH rxq1 fuel (rx_cnt - 1) st1 Hq1) as (rxq2 & st2 & E2 & E3 & Hq2).
  { eapply Forall_impl; [exact Hok |]. simpl. intros b (? & ? & ?). repeat split; [done | done | lia]. }
  exists rxq2, st2. rewrite E2. split; [do 4 f_equal; lia |]. split; [|done].
  rewrite fmap_cons. cbn [mbind list_bind fst]. rewrite handle_all_app, E1. exact E3.
Qed.

(** A block that ends right behind a packet whose length is not a multiple of
    four: the pull is longer than what is left and does nothing. *)
Lemma pull_none data n : Z.of_nat (length data) < n -> Amsdu.skb_pull data n = data.
Proof. intros Hn. unfold Amsdu.skb_pull. by destruct (Z.ltb_spec (Z.of_nat (length data)) n); [|lia]. Qed.

(** A block that ends right behind a packet whose length is not a multiple of four
    makes the splitter handle this packet again and again: no number of iterations ends
    the loop. *)
Theorem unpadded_block_never_ends p fuel st :
  packet_ok p -> Z.of_nat (length (enc_packet p)) mod 4 <> 0 ->
  (forall s p, exists s', handle s p = Ok s') ->
  split_block fuel [] (enc_packet p) st = NoFuel.
Proof.
  intros Hok Hmod Hh. pose proof (enc_packet_length p) as Hl.
  pose proof (Amsdu.roundup4_spec (Z.of_nat (length (enc_packet p))) ltac:(lia)) as [Hr Hr4].
  assert (Hlt : Z.of_nat (length (enc_packet p)) < Amsdu.roundup4 (Z.of_nat (length (enc_packet p)))).
  { destruct (Z.eq_dec (Amsdu.roundup4 (Z.of_nat (length (enc_packet p)))) (Z.of_nat (length (enc_packet p))));
      [congruence | lia]. }
  revert st. induction fuel as [|fuel IH]; intros st.
  all: destruct p as [ty rest|ty rest]; destruct Hok as [Hty Hrng]; unfold RX_HWHRD_LEN in *.
  all: match goal with |- context [enc_packet ?p] =>
         set (n := match p with DData _ rest => Z.of_nat (length rest) + 3 - RX_HWHRD_LEN
                              | DCfg _ rest => Z.of_nat (length rest) - 1 end);
         assert (Hrd : rd_le16 (enc_packet p) 0 = Ok n /\ rd (enc_packet p) 2 = Ok ty)
           by (apply le16_rd; subst n; unfold RX_HWHRD_LEN; lia) end.
  all: destruct Hrd as [Hrd1 Hrd2]; cbn [split_block];
    rewrite (another_true _ n Hrd1) by (subst n; unfold RX_HWHRD_LEN; lia); cbn [mbind res_bind negb]; try done;
    rewrite Hrd1, Hrd2; cbn [mbind res_bind next_mem]; rewrite Hty; cbn [Z.eqb Pos.eqb negb SDIO_TYPE_CFG].
  - replace (u16 (n + RX_HWHRD_LEN)) with (Z.of_nat (length (enc_packet (DData ty rest))))
      by (rewrite u16_id; subst n; unfold RX_HWHRD_LEN; lia).
    rewrite <- (app_nil_r (enc_packet (DData ty rest))) at 1. rewrite copy_front by done. cbn [mbind res_bind].
    destruct (Hh st (PData (enc_packet (DData ty rest)))) as [s' ->]. cbn [mbind res_bind].
    rewrite adjust_eq, pull_none by lia. apply IH.
  - rewrite <- (app_nil_r (enc_packet (DCfg ty rest))) at 1. rewrite copy_front by (subst n; lia).
    cbn [mbind res_bind].
    assert (Hcfg : cfg_packets (enc_packet (DCfg ty rest)) n = Ok (meaning (DCfg ty rest))) by done.
    rewrite Hcfg. cbn [mbind res_bind]. destruct (handle_all_ok Hh st (meaning (DCfg ty rest))) as [s' ->].
    cbn [mbind res_bind]. rewrite adjust_eq, roundup4_add4 by (subst n; lia).
    replace (n + 4) with (Z.of_nat (length (enc_packet (DCfg ty rest)))) by (subst n; lia).
    rewrite pull_none by lia. apply IH.
Qed.

End Split.

(** ** Witnesses *)

Module Example.

Definition log (st : list packet) (p : packet) : res (list packet) := Ok (st ++ [p]).
Definition d : dev_packet := DData 0 (replicate 70 5).
Definition c : dev_packet := DCfg 0x11 (replicate 9 6).

Lemma d_ok : packet_ok d.
Proof. split; [reflexivity | vm_compute; split; [discriminate | reflexivity]]. Qed.
Lemma c_ok : packet_ok c.
Proof. split; [reflexivity | vm_compute; split; [discriminate | reflexivity]]. Qed.

Definition q : FrameQueue.frame_queue (list Z) :=
  FrameQueue.FQ 1 0 16 2 [[enc_block [d; c] 8; enc_block [c] 0]].

Lemma q_holds : FrameQueue.rx_holds q [enc_block [d; c] 8; enc_block [c] 0].
Proof.
  constructor; [reflexivity | simpl; lia | | repeat constructor | reflexivity | simpl; lia].
  intros p Hp. cbn in Hp. destruct p; [reflexivity | lia].
Qed.

End Example.

Lemma split_block_roundtrip_witness :
  split_block Example.log true 5 [] (enc_block [Example.d; Example.c; Example.d] 8) [] =
    Ok (meaning true Example.d ++ meaning true Example.c ++ meaning true Example.d, [], false).
Proof.
  apply (split_block_roundtrip Example.log true [Example.d; Example.c; Example.d] 8 5 []);
    [|discriminate | simpl; lia].
  constructor; [apply Example.d_ok |]. constructor; [apply Example.c_ok |].
  constructor; [apply Example.d_ok | constructor].
Defined.

Lemma process_rxframes_in_order_witness :
  exists rxq' st',
    aicwf_process_rxframes Example.log true 9 [] Example.q 2 [] = Ok (rxq', 2 - 2, st', 0) /\
    handle_all Example.log [] ([[Example.d; Example.c]; [Example.c]] ≫= fun ps => ps ≫= meaning true) = Ok st' /\
    FrameQueue.rx_holds rxq' [].
Proof.
  apply (process_rxframes_in_order Example.log true Example.q
    [([Example.d; Example.c], 8%nat); ([Example.c], 0%nat)] 9 2 []).
  - apply Example.q_holds.
  - pose proof Example.d_ok. pose proof Example.c_ok.
    apply Forall_cons. split; [|apply Forall_cons; split; [|constructor]].
    + split; [repeat (constructor; [assumption |]); constructor | split; [discriminate | simpl; lia]].
    + split; [repeat (constructor; [assumption |]); constructor | split; [discriminate | simpl; lia]].
  - intros s p. exists (s ++ [p]). reflexivity.
Defined.

Lemma unpadded_block_never_ends_witness :
  split_block Example.log true 1000 [] (enc_packet Example.d) [] = NoFuel.
Proof.
  apply (unpadded_block_never_ends Example.log true Example.d 1000 []);
    [apply Example.d_ok | vm_compute; discriminate | intros s p; exists (s ++ [p]); reflexivity].
Defined.

End RxBlock.
