(* ===== verification/CmdMgr.v ===== *)
(** * The command manager (rwnx_cmds.c, and rwnx_send_msg and the command
    array of rwnx_msg_tx.c)

    A command to the firmware occupies a slot of a fixed array, is put on the
    list [cmds] and pushed to the bus, at once or later by the work item
    [cmd_mgr_task_process]; its issuer (or the work item) then sleeps until the
    confirmation arrives ([cmd_mgr_msgind]) or the time is up.  A function that
    sleeps is split at that point: [cmd_mgr_queue] and [queue_done] or
    [queue_timeout], [task_push] and [task_done] or [task_timeout].

    The spin lock is the flag [locked]; releasing it when it is not held is a
    [Fault].  A slot is named by its index. *)

From Stdlib Require Import Sorting.Sorted.
From stdpp Require Import prelude.
From S2P Require Import Prelude.
Open Scope Z_scope.

Module CmdMgr.

(** ** Data *)

Definition RWNX_CMD_MAX_QUEUED : Z := 16.
Definition RWNX_CMD_ARRAY_SIZE : nat := 40.
Definition CMD_BUF_MAX : Z := 1536.
Definition EPIPE : Z := 32.
Definition ENOMEM : Z := 12.
Definition EINTR : Z := 4.
Definition ETIMEDOUT : Z := 110.

(** [struct lmac_msg]; [defer] tells that the id is ME_TRAFFIC_IND_REQ or
    MM_SET_ARPOFFLOAD_REQ. *)
Record lmac_msg := LmacMsg {
  msg_id : Z; dest_id : Z; src_id : Z; param : list Z; defer : bool }.

Definition param_len (m : lmac_msg) : Z := Z.of_nat (length (param m)).

Record rwnx_cmd := RwnxCmd {
  c_id : Z; reqid : Z; a2e_msg : option lmac_msg; e2a_msg : bool; tkn : Z;
  nonblock : bool; req_cfm : bool; wait_push : bool; wait_ack : bool; wait_cfm : bool; c_done : bool;
  completions : nat; result : Z; used : bool }.

#[global] Instance eta_cmd : Settable rwnx_cmd := fun r =>
  RwnxCmd (c_id r) (reqid r) (a2e_msg r) (e2a_msg r) (tkn r) (nonblock r) (req_cfm r) (wait_push r)
    (wait_ack r) (wait_cfm r) (c_done r) (completions r) (result r) (used r).

Inductive mgr_state := DEINIT | INITED | CRASHED.

Record rwnx_cmd_mgr := CmdMgrT {
  state : mgr_state; locked : bool; next_tkn : Z; queue_sz : Z; max_queue_sz : Z;
  cmds : list nat; cmd_work : bool; cmd_array : list rwnx_cmd }.

#[global] Instance eta_mgr : Settable rwnx_cmd_mgr := fun r =>
  CmdMgrT (state r) (locked r) (next_tkn r) (queue_sz r) (max_queue_sz r) (cmds r) (cmd_work r)
    (cmd_array r).

Inductive event :=
| EvTx (m : lmac_msg)          (* aicwf_set_cmd_tx *)
| EvKfree (m : lmac_msg)
| EvReset.                     (* aic8800_start_system_reset_flow *)

(** ** Slots *)

Definition get_cmd (s : rwnx_cmd_mgr) (i : nat) : res rwnx_cmd :=
  match cmd_array s !! i with Some c => Ok c | None => Fault end.

Definition set_cmd (s : rwnx_cmd_mgr) (i : nat) (c : rwnx_cmd) : rwnx_cmd_mgr :=
  s <| cmd_array ::= <[i := c]> |>.

Definition clear_flags (c : rwnx_cmd) : rwnx_cmd :=
  c <| nonblock := false |> <| req_cfm := false |> <| wait_push := false |> <| wait_ack := false |>
    <| wait_cfm := false |> <| c_done := false |>.

Definition rwnx_cmd_malloc (s : rwnx_cmd_mgr) : option (nat * rwnx_cmd_mgr) :=
  match find_idx (fun c => negb (used c)) (cmd_array s) with
  | None => None
  | Some i => Some (i, s <| cmd_array ::= alter (fun c => c <| used := true |>) i |>)
  end.

Definition rwnx_cmd_free (s : rwnx_cmd_mgr) (i : nat) : rwnx_cmd_mgr :=
  s <| cmd_array ::= alter (fun c => (clear_flags c) <| used := false |>) i |>.

(** ** Lock *)

Definition spin_lock (s : rwnx_cmd_mgr) : res rwnx_cmd_mgr :=
  if locked s then Fault else Ok (s <| locked := true |>).
Definition spin_unlock (s : rwnx_cmd_mgr) : res rwnx_cmd_mgr :=
  if locked s then Ok (s <| locked := false |>) else Fault.

Definition WAKE_CMD_WORK (s : rwnx_cmd_mgr) : rwnx_cmd_mgr := s <| cmd_work := true |>.

Definition wait_complete (c : rwnx_cmd) : bool := negb (wait_ack c || wait_cfm c).

Definition cmd_complete (s : rwnx_cmd_mgr) (i : nat) : res rwnx_cmd_mgr :=
  c ← get_cmd s i;
  let c := c <| c_done := true |> in
  let s := set_cmd s i c in
  if nonblock c then Ok (rwnx_cmd_free s i)
  else if wait_complete c then
    Ok (set_cmd s i (c <| result := 0 |> <| completions ::= S |>))
  else Ok s.

(** ** Queueing *)

Inductive qres :=
| QRetry                 (* the list is not empty: sleep and try again *)
| QErr (e : Z)
| QDeferred              (* returned 0, the work item pushes it *)
| QWait                  (* pushed, waiting for the confirmation *)
| QSent.                 (* pushed, not waiting *)

(** The part of [cmd_mgr_queue] up to the tests under the lock.  For a
    command with a confirmation buffer the list has to be empty; after two
    seconds ([late]) the loop is left with the lock released. *)
Definition queue_enter (late : bool) (s : rwnx_cmd_mgr) (c : rwnx_cmd) : res (rwnx_cmd_mgr * option qres) :=
  s ← spin_lock s;
  match state s with
  | CRASHED => s ← spin_unlock s; Ok (s, Some (QErr EPIPE))
  | _ =>
      if e2a_msg c then
        match cmds s with
        | [] => Ok (s, None)
        | _ => s ← spin_unlock s; if late then Ok (s, None) else Ok (s, Some QRetry)
        end
      else Ok (s, None)
  end.

(** Whether the last command of the list is not finished; [Some ENOMEM] when
    the list is full. *)
Definition queue_busy (s : rwnx_cmd_mgr) : res (bool * bool) :=
  match last (cmds s) with
  | None => Ok (false, false)
  | Some l =>
      if queue_sz s =? max_queue_sz s then Ok (true, false)
      else c ← get_cmd s l; Ok (false, wait_ack c || wait_push c || wait_cfm c)
  end.

(** The flags and fields of a command that is put on the list. *)
Definition arm (tok : Z) (defer_push : bool) (c : rwnx_cmd) : rwnx_cmd :=
  let c := if defer_push then c <| wait_push := true |> else c in
  let c := if req_cfm c then c <| wait_cfm := true |> else c in
  let c := c <| tkn := tok |> <| result := u32 (- EINTR) |> in
  if nonblock c then c else c <| completions := O |>.

Definition link (s : rwnx_cmd_mgr) (i : nat) (c : rwnx_cmd) : rwnx_cmd_mgr :=
  (set_cmd s i c) <| next_tkn ::= fun n => u32 (n + 1) |>
    <| cmds ::= fun l => l ++ [i] |> <| queue_sz ::= fun n => u32 (n + 1) |>.

Definition cmd_mgr_queue (late : bool) (s : rwnx_cmd_mgr) (i : nat)
    : res (rwnx_cmd_mgr * list event * qres) :=
  c ← get_cmd s i;
  r ← queue_enter late s c;
  match r with
  | (s, Some q) =>
      let s := match q with
               | QErr _ => set_cmd s i (c <| result := u32 (- EPIPE) |>)
               | _ => s
               end in Ok (s, [], q)
  | (s, None) =>
      b ← queue_busy s;
      let '(full, busy) := b in
      if (full : bool) then
        s ← spin_unlock s; Ok (set_cmd s i (c <| result := u32 (- ENOMEM) |>), [], QErr ENOMEM)
      else
        match a2e_msg c with
        | None => Fault
        | Some m =>
            let defer_push := (busy || defer m) : bool in
            let c := arm (next_tkn s) defer_push c in
            s ← spin_unlock (link s i c);
            if negb defer_push then
              let s := set_cmd s i (c <| a2e_msg := None |>) in
              Ok (s, [EvTx m; EvKfree m], if nonblock c then QSent else QWait)
            else Ok (if queue_sz s <=? 1 then WAKE_CMD_WORK s else s, [], QDeferred)
        end
  end.

(** [list_del] and the count: an entry that was deleted before has poisoned
    links. *)
Definition list_del (s : rwnx_cmd_mgr) (i : nat) : res rwnx_cmd_mgr :=
  if bool_decide (i ∈ cmds s) then
    Ok (s <| cmds ::= filter (fun j => j <> i) |> <| queue_sz ::= fun n => u32 (n - 1) |>)
  else Fault.

(** The confirmation arrived in time. *)
Definition queue_done (s : rwnx_cmd_mgr) (i : nat) : res rwnx_cmd_mgr :=
  s ← spin_lock s;
  s ← list_del s i;
  s ← spin_unlock s;
  let s := rwnx_cmd_free s i in
  Ok (match cmds s with [] => s | _ => WAKE_CMD_WORK s end).

(** It did not: the manager is dead, the command stays on the list. *)
Definition queue_timeout (s : rwnx_cmd_mgr) (i : nat) : res (rwnx_cmd_mgr * list event) :=
  s ← spin_lock s;
  let s := s <| state := CRASHED |> in
  c ← get_cmd s i;
  s ← (if c_done c then Ok s
       else cmd_complete (set_cmd s i (c <| result := u32 (- ETIMEDOUT) |>)) i);
  s ← spin_unlock s;
  Ok (s, [EvReset]).

Definition cmd_mgr_queue_force_defer (s : rwnx_cmd_mgr) (i : nat) : res (rwnx_cmd_mgr * qres) :=
  c ← get_cmd s i;
  s ← spin_lock s;
  match state s with
  | CRASHED => s ← spin_unlock s; Ok (set_cmd s i (c <| result := u32 (- EPIPE) |>), QErr EPIPE)
  | _ =>
      if negb (bool_decide (cmds s = [])) && (queue_sz s =? max_queue_sz s) then
        s ← spin_unlock s; Ok (set_cmd s i (c <| result := u32 (- ENOMEM) |>), QErr ENOMEM)
      else
        s ← spin_unlock (link s i (arm (next_tkn s) true c));
        Ok (WAKE_CMD_WORK s, QDeferred)
  end.

(** ** The work item *)

(** One iteration up to the wait: the command it waits for, if the first of
    the list is to be pushed. *)
Definition task_push (s : rwnx_cmd_mgr) : res (rwnx_cmd_mgr * list event * option nat) :=
  match cmds s with
  | [] => Ok (s, [], None)
  | i :: _ =>
      c ← get_cmd s i;
      if wait_push c then
        match a2e_msg c with
        | None => Fault
        | Some m => Ok (set_cmd s i (c <| wait_push := false |> <| a2e_msg := None |>),
                        [EvTx m; EvKfree m], Some i)
        end
      else Ok (s, [], None)
  end.

Definition task_done (s : rwnx_cmd_mgr) (i : nat) : res rwnx_cmd_mgr :=
  s ← spin_lock s;
  s ← list_del s i;
  s ← spin_unlock s;
  Ok (rwnx_cmd_free s i).

Definition task_timeout := queue_timeout.

(** ** Indications *)

(** Whether the walk over the list meets the token before it stops: it stops
    at the first other command that is to be pushed. *)
Fixpoint llind_acked (s : rwnx_cmd_mgr) (tok : Z) (l : list nat) : res bool :=
  match l with
  | [] => Ok false
  | j :: l =>
      c ← get_cmd s j;
      if tkn c =? tok then Ok true
      else if wait_push c then Ok false
      else llind_acked s tok l
  end.

Definition cmd_mgr_llind (s : rwnx_cmd_mgr) (i : nat) : res rwnx_cmd_mgr :=
  s ← spin_lock s;
  c ← get_cmd s i;
  acked ← llind_acked s (tkn c) (cmds s);
  s ← (if (acked : bool) then
         let c := c <| wait_ack := false |> in
         let s := set_cmd s i c in
         if wait_complete c then cmd_complete s i else Ok s
       else Ok s);
  spin_unlock s.

(** The search of [cmd_mgr_msgind]: the first waiting command with this
    confirmation id whose callback ([cb]) returns 0. *)
Fixpoint msgind_find (s : rwnx_cmd_mgr) (cb : nat -> Z) (id : Z) (l : list nat) : res (option nat) :=
  match l with
  | [] => Ok None
  | i :: l =>
      c ← get_cmd s i;
      if (reqid c =? id) && wait_cfm c && (cb i =? 0) then Ok (Some i)
      else msgind_find s cb id l
  end.

(** The flag tells whether a command took the message (otherwise the callback
    runs without one). *)
Definition cmd_mgr_msgind (s : rwnx_cmd_mgr) (cb : nat -> Z) (id : Z) : res (rwnx_cmd_mgr * bool) :=
  s ← spin_lock s;
  f ← msgind_find s cb id (cmds s);
  s ← match f with
      | None => Ok s
      | Some i =>
          c ← get_cmd s i;
          let c := c <| wait_cfm := false |> in
          let s := set_cmd s i c in
          if wait_complete c then cmd_complete s i else Ok s
      end;
  s ← spin_unlock s;
  Ok (s, match f with Some _ => true | None => false end).

Fixpoint drain_loop (s : rwnx_cmd_mgr) (l : list nat) : res rwnx_cmd_mgr :=
  match l with
  | [] => Ok s
  | i :: l =>
      s ← list_del s i;
      c ← get_cmd s i;
      drain_loop (set_cmd s i (if nonblock c then c else c <| completions ::= S |>)) l
  end.

Definition cmd_mgr_drain (s : rwnx_cmd_mgr) : res rwnx_cmd_mgr :=
  s ← spin_lock s;
  s ← drain_loop s (cmds s);
  spin_unlock s.

(** The manager is zeroed, the global command array is not. *)
Definition rwnx_cmd_mgr_deinit (s : rwnx_cmd_mgr) : res rwnx_cmd_mgr :=
  s ← cmd_mgr_drain s;
  Ok (CmdMgrT DEINIT false 0 0 0 [] false (cmd_array s)).

Definition rwnx_cmd_mgr_init (s : rwnx_cmd_mgr) : rwnx_cmd_mgr :=
  s <| cmds := [] |> <| state := INITED |> <| locked := false |>
    <| max_queue_sz := RWNX_CMD_MAX_QUEUED |> <| cmd_work := false |>.

Definition free_slot : rwnx_cmd :=
  RwnxCmd 0 0 None false 0 false false false false false false 0 0 false.

(** The zeroed device structure with the command array. *)
Definition boot : rwnx_cmd_mgr :=
  rwnx_cmd_mgr_init (CmdMgrT DEINIT false 0 0 0 [] false (replicate RWNX_CMD_ARRAY_SIZE free_slot)).

(** ** Sending *)

(** The fields of a new command. *)
Definition fill (m : lmac_msg) (reqcfm : bool) (id : Z) (cfm : bool) (c : rwnx_cmd) : rwnx_cmd :=
  c <| result := u32 (- EINTR) |> <| c_id := msg_id m |> <| reqid := id |>
    <| a2e_msg := Some m |> <| e2a_msg := cfm |>
    <| req_cfm ::= orb reqcfm |> <| wait_ack ::= andb (negb reqcfm) |>.

Definition send_prepare (s : rwnx_cmd_mgr) (m : lmac_msg) (reqcfm : bool) (id : Z) (cfm : bool)
    : res (rwnx_cmd_mgr * nat) :=
  match rwnx_cmd_malloc s with
  | None => Fault
  | Some (i, s) =>
      c ← get_cmd s i;
      Ok (set_cmd s i (fill m reqcfm id cfm c), i)
  end.

(** [rwnx_send_msg] up to the wait.  A failed queueing frees the slot; the
    result of the call is 0 in every case. *)
Definition rwnx_send_msg (bus_down late : bool) (s : rwnx_cmd_mgr) (m : lmac_msg) (reqcfm : bool)
    (id : Z) (cfm : bool) : res (rwnx_cmd_mgr * list event * option (nat * qres)) :=
  if bus_down then Ok (s, [EvKfree m], None)
  else
    r ← send_prepare s m reqcfm id cfm;
    let '(s, i) := r in
    if reqcfm then
      r ← cmd_mgr_queue late s i;
      let '(s, evs, q) := r in
      match q with
      | QErr _ => Ok (rwnx_cmd_free s i, evs, Some (i, q))
      | _ => Ok (s, evs, Some (i, q))
      end
    else Ok (rwnx_cmd_free s i, [EvTx m], None).

(** ** The commands and their issuers as a transition system

    [Pend]: prepared, its issuer waits for the list to empty; [Wait]: on the
    list, not pushed; [Flight]: pushed, not confirmed; [Done]: confirmed, not
    yet removed. *)

Inductive status := Pend | Wait | Flight | Done.

#[global] Instance status_eq_dec : EqDecision status.
Proof. solve_decision. Defined.

(** Which status may follow which on the list. *)
Definition may_precede (a b : status) : Prop :=
  match a, b with
  | Done, _ => True
  | Flight, Wait | Wait, Wait => True
  | _, _ => False
  end.

Definition slot_ok (c : rwnx_cmd) (st : status) : Prop :=
  used c = true /\ nonblock c = false /\ req_cfm c = true /\ wait_ack c = false /\
  match st with
  | Pend => wait_push c = false /\ wait_cfm c = false /\ a2e_msg c <> None
  | Wait => wait_push c = true /\ wait_cfm c = true /\ a2e_msg c <> None /\ completions c = 0%nat
  | Flight => wait_push c = false /\ wait_cfm c = true /\ completions c = 0%nat
  | Done => wait_push c = false /\ wait_cfm c = false /\ (0 < completions c)%nat
  end.

Definition slots_ok (arr : list rwnx_cmd) (L : list (nat * status)) : Prop :=
  Forall (fun e => exists c, arr !! e.1 = Some c /\ slot_ok c e.2) L.

Definition free_ok (arr : list rwnx_cmd) : Prop :=
  Forall (fun c => used c = false ->
    nonblock c = false /\ wait_push c = false /\ wait_ack c = false /\ wait_cfm c = false) arr.

Definition waiting (L : list (nat * status)) : list nat := (filter (fun e => e.2 = Wait) L).*1.
Definition pushed (L : list (nat * status)) : list nat := (filter (fun e => e.2 <> Wait) L).*1.

(** The manager with the list [L] and the prepared commands [P]. *)
Record mgr_inv (s : rwnx_cmd_mgr) (L : list (nat * status)) (P : list nat) : Prop := {
  mi_unlocked : locked s = false;
  mi_state : state s = INITED;
  mi_max : max_queue_sz s = RWNX_CMD_MAX_QUEUED;
  mi_cmds : cmds s = L.*1;
  mi_size : queue_sz s = Z.of_nat (length L) /\ queue_sz s <= RWNX_CMD_MAX_QUEUED;
  mi_nodup : NoDup (L.*1 ++ P);
  mi_slots : slots_ok (cmd_array s) L;
  mi_pend : slots_ok (cmd_array s) ((fun i => (i, Pend)) <$> P);
  mi_free : free_ok (cmd_array s);
  mi_order : StronglySorted may_precede L.*2;
  mi_listed : Forall (fun e => e.2 <> Pend) L }.

#[export] Hint Resolve mi_unlocked mi_state mi_max mi_order mi_listed mi_slots mi_free : drv.

(** Issuers asleep in [cmd_mgr_queue] ([direct]), the command the work item
    sleeps on ([worker]), and the order of queueing and of pushing. *)
Record world := World {
  sys : rwnx_cmd_mgr; pending : list nat; direct : list nat; worker : option nat;
  enq_log : list nat; push_log : list nat }.

#[global] Instance eta_world : Settable world := fun r =>
  World (sys r) (pending r) (direct r) (worker r) (enq_log r) (push_log r).

Definition after_queue (w : world) (s : rwnx_cmd_mgr) (i : nat) (q : qres) : world :=
  let w := w <| sys := s |> in
  match q with
  | QRetry => w <| pending ::= cons i |>
  | QErr _ => w
  | QDeferred => w <| enq_log ::= fun l => l ++ [i] |>
  | QWait | QSent =>
      w <| direct ::= cons i |> <| enq_log ::= fun l => l ++ [i] |> <| push_log ::= fun l => l ++ [i] |>
  end.

Definition confirmed (s : rwnx_cmd_mgr) (i : nat) : Prop :=
  exists c, cmd_array s !! i = Some c /\ (0 < completions c)%nat.

(** A confirmation is for the command in flight, or for none of the list. *)
Definition msg_ok (s : rwnx_cmd_mgr) (id : Z) : Prop :=
  (exists i c, i ∈ cmds s /\ cmd_array s !! i = Some c /\ wait_push c = false /\ wait_cfm c = true /\
     reqid c = id) \/
  (forall i c, i ∈ cmds s -> cmd_array s !! i = Some c -> wait_cfm c = true -> reqid c <> id).

Inductive step : world -> world -> Prop :=
| step_send w m id cfm s' evs i q :
    rwnx_send_msg false false (sys w) m true id cfm = Ok (s', evs, Some (i, q)) ->
    step w (after_queue w s' i q)
| step_again w i s' evs q :
    i ∈ pending w -> cmd_mgr_queue false (sys w) i = Ok (s', evs, q) ->
    step w (after_queue (w <| pending ::= filter (fun j => j <> i) |>)
              (match q with QErr _ => rwnx_cmd_free s' i | _ => s' end) i q)
| step_msg w id s' b :
    msg_ok (sys w) id -> cmd_mgr_msgind (sys w) (fun _ => 0) id = Ok (s', b) ->
    step w (w <| sys := s' |>)
| step_done w i s' :
    i ∈ direct w -> confirmed (sys w) i -> queue_done (sys w) i = Ok s' ->
    step w (w <| sys := s' |> <| direct ::= filter (fun j => j <> i) |>)
| step_work_push w s' evs i :
    worker w = None -> cmd_work (sys w) = true -> task_push (sys w) = Ok (s', evs, Some i) ->
    step w (w <| sys := s' |> <| worker := Some i |> <| push_log ::= fun l => l ++ [i] |>)
| step_work_idle w s' evs :
    worker w = None -> cmd_work (sys w) = true -> task_push (sys w) = Ok (s', evs, None) ->
    step w (w <| sys := s' <| cmd_work := false |> |>)
| step_work_done w i s' :
    worker w = Some i -> confirmed (sys w) i -> task_done (sys w) i = Ok s' ->
    step w (w <| sys := s' |> <| worker := None |>).

Definition world0 : world := World boot [] [] None [] [].

Definition reachable : world -> Prop := rtc step world0.

Definition opt_list {A} (o : option A) : list A := match o with Some x => [x] | None => [] end.

(** Who sleeps for which command, what was pushed so far, and that the work
    item runs or will run while nothing is in flight. *)
Record sched_inv (w : world) (L : list (nat * status)) : Prop := {
  wi_asleep : direct w ++ opt_list (worker w) ≡ₚ pushed L;
  wi_log : enq_log w = push_log w ++ waiting L;
  wi_wake : pushed L = [] -> L <> [] -> cmd_work (sys w) = true;
  wi_worker : worker w <> None -> cmd_work (sys w) = true }.

Definition winv (w : world) (L : list (nat * status)) : Prop :=
  mgr_inv (sys w) L (pending w) /\ sched_inv w L.

(** The commands of the list that are still to be pushed, and those that were
    pushed and are not confirmed. *)
Definition flagged (f : rwnx_cmd -> bool) (s : rwnx_cmd_mgr) (i : nat) : bool :=
  match cmd_array s !! i with Some c => f c | None => false end.
Definition to_push (s : rwnx_cmd_mgr) : list nat := filter (flagged wait_push s) (cmds s).
Definition in_flight (s : rwnx_cmd_mgr) : list nat :=
  filter (flagged (fun c => wait_cfm c && negb (wait_push c)) s) (cmds s).

(** How far the commands of the list are from leaving it. *)
Definition weight (s : rwnx_cmd_mgr) (i : nat) : nat :=
  if flagged wait_push s i then 3 else if flagged wait_cfm s i then 2 else 1.
Definition work_left (s : rwnx_cmd_mgr) : nat := sum_list (weight s <$> cmds s).

(** ** Lemmas *)

Lemma slots_frame arr i c L :
  i ∉ L.*1 -> slots_ok arr L -> slots_ok (<[i := c]> arr) L.
Proof.
  unfold slots_ok. rewrite !Forall_forall. intros Hi HL e He.
  destruct (HL e He) as (d & Hd & Hs). exists d. split; [|done].
  rewrite list_lookup_insert_ne; [done |]. intros ->. apply Hi. by apply list_elem_of_fmap_2.
Qed.

Lemma slots_set arr i c st :
  (i < length arr)%nat -> slot_ok c st -> slots_ok (<[i := c]> arr) [(i, st)].
Proof. intros Hi Hs. constructor; [|constructor]. exists c. by rewrite list_lookup_insert_eq. Qed.

Lemma slots_app arr L1 L2 : slots_ok arr (L1 ++ L2) <-> slots_ok arr L1 /\ slots_ok arr L2.
Proof. apply Forall_app. Qed.

Lemma slots_get arr L i st : slots_ok arr L -> (i, st) ∈ L -> exists c, arr !! i = Some c /\ slot_ok c st.
Proof. unfold slots_ok. rewrite Forall_forall. intros H Hi. apply (H _ Hi). Qed.

Lemma free_set arr i c : used c = true -> free_ok arr -> free_ok (<[i := c]> arr).
Proof. intros Hu H. apply Forall_insert; [done |]. congruence. Qed.

(** The list around one command. *)
Lemma split_list (L : list (nat * status)) P i st :
  NoDup (L.*1 ++ P) -> (i, st) ∈ L ->
  exists L1 L2, L = L1 ++ (i, st) :: L2 /\ ~ (i ∈ L1.*1) /\ ~ (i ∈ L2.*1) /\ ~ (i ∈ P) /\
    filter (fun j => j <> i) L.*1 = L1.*1 ++ L2.*1 /\ NoDup ((L1.*1 ++ L2.*1) ++ P).
Proof.
  intros Hnd Hi. apply list_elem_of_split in Hi as (L1 & L2 & ->). exists L1, L2.
  rewrite fmap_app, fmap_cons in *. simpl in *.
  assert (Hp : L1.*1 ++ i :: L2.*1 ++ P ≡ₚ i :: (L1.*1 ++ L2.*1) ++ P).
  { rewrite <- Permutation_middle. by rewrite app_assoc. }
  rewrite <- app_assoc in Hnd. cbn [app] in Hnd. rewrite Hp in Hnd. apply NoDup_cons in Hnd as [Hn Hnd].
  rewrite !not_elem_of_app in Hn. destruct Hn as [[H1 H2] H3].
  split; [done |]. split; [done |]. split; [done |]. split; [done |]. split; [|done].
  rewrite filter_app, filter_cons_False by (by intros []).
  rewrite !filter_all; [done | |]; apply Forall_forall; intros j Hj ->; done.
Qed.

Lemma sorted_status_app (l1 l2 : list status) :
  StronglySorted may_precede (l1 ++ l2) ->
  StronglySorted may_precede l1 /\ StronglySorted may_precede l2 /\
  (forall a b, a ∈ l1 -> b ∈ l2 -> may_precede a b).
Proof.
  induction l1 as [|a l1 IH]; simpl; intros H.
  - split; [constructor |]. split; [done |]. intros a b Ha. by apply not_elem_of_nil in Ha.
  - apply StronglySorted_inv in H as [H Hf]. destruct (IH H) as (H1 & H2 & H3).
    apply Forall_app in Hf as [Hf1 Hf2]. split; [by constructor |]. split; [done |].
    intros x b Hx Hb. apply elem_of_cons in Hx as [->|Hx]; [|by apply H3].
    rewrite Forall_forall in Hf2. by apply Hf2.
Qed.

Lemma sorted_status_join (l1 l2 : list status) :
  StronglySorted may_precede l1 -> StronglySorted may_precede l2 ->
  (forall a b, a ∈ l1 -> b ∈ l2 -> may_precede a b) -> StronglySorted may_precede (l1 ++ l2).
Proof.
  intros H1 H2 Hx. induction l1 as [|a l1 IH]; [done |]. simpl.
  apply StronglySorted_inv in H1 as [H1 Hf]. constructor.
  - apply IH; [done |]. intros x b Hxx Hb. apply Hx; [by right | done].
  - apply Forall_app. split; [done |]. apply Forall_forall. intros b Hb. apply Hx; [left | done].
Qed.

Lemma waiting_app L1 L2 : waiting (L1 ++ L2) = waiting L1 ++ waiting L2.
Proof. unfold waiting. by rewrite filter_app, fmap_app. Qed.
Lemma pushed_app L1 L2 : pushed (L1 ++ L2) = pushed L1 ++ pushed L2.
Proof. unfold pushed. by rewrite filter_app, fmap_app. Qed.

Lemma mgr_inv_perm s L P P' : P ≡ₚ P' -> mgr_inv s L P -> mgr_inv s L P'.
Proof.
  intros HP [H1 H2 H3 H4 H5 H6 H7 H8 H9 H10 H11]. constructor; try done.
  - by rewrite <- HP.
  - unfold slots_ok in *. by rewrite <- HP.
Qed.

Lemma relock s : locked s = false -> s <| locked := true |> <| locked := false |> = s.
Proof. destruct s; simpl. by intros ->. Qed.

Lemma cmd_free_inv s L i P :
  mgr_inv s L (i :: P) -> mgr_inv (rwnx_cmd_free s i) L P.
Proof.
  intros [H1 H2 H3 H4 H5 H6 H7 H8 H9 H10 H11]. unfold rwnx_cmd_free.
  assert (Hn : NoDup (i :: L.*1 ++ P)) by (by rewrite Permutation_middle).
  apply NoDup_cons in Hn as [Hi Hn]. rewrite not_elem_of_app in Hi. destruct Hi as [HiL HiP].
  destruct (slots_get _ _ i Pend H8) as (c & Hc & Hs); [left |]. rewrite fmap_cons in H8.
  apply Forall_cons in H8 as [_ H8].
  constructor; cbn [upd locked state max_queue_sz cmds queue_sz cmd_array]; try done;
    rewrite (alter_insert _ _ _ c) by done.
  - by apply slots_frame.
  - apply slots_frame; [|done]. rewrite <- list_fmap_compose. cbn. by rewrite list_fmap_id.
  - apply Forall_insert; [done |]. done.
Qed.

(** A slot that only changes what no status depends on. *)
Lemma set_pend_inv s L i P c c' :
  mgr_inv s L (i :: P) -> cmd_array s !! i = Some c -> slot_ok c' Pend -> mgr_inv (set_cmd s i c') L (i :: P).
Proof.
  intros [H1 H2 H3 H4 H5 H6 H7 H8 H9 H10 H11] Hc Hs.
  assert (Hn : NoDup (i :: L.*1 ++ P)) by (by rewrite Permutation_middle).
  apply NoDup_cons in Hn as [Hi Hn]. rewrite not_elem_of_app in Hi. destruct Hi as [HiL HiP].
  apply lookup_lt_Some in Hc as Hlt. rewrite fmap_cons in H8. apply Forall_cons in H8 as [_ H8].
  constructor; cbn [set_cmd upd locked state max_queue_sz cmds queue_sz cmd_array]; try done.
  - by apply slots_frame.
  - rewrite fmap_cons. apply (slots_app _ [(i, Pend)]). split; [by apply slots_set |].
    apply slots_frame; [|done]. rewrite <- list_fmap_compose. cbn. by rewrite list_fmap_id.
  - apply free_set; [apply Hs | done].
Qed.

(** The prepared command goes to the end of the list. *)
Lemma append_inv s L i P c st s' :
  mgr_inv s L (i :: P) -> slot_ok c st -> st <> Pend -> (forall a, a ∈ L.*2 -> may_precede a st) ->
  queue_sz s < RWNX_CMD_MAX_QUEUED ->
  locked s' = false -> state s' = state s -> max_queue_sz s' = max_queue_sz s ->
  cmds s' = cmds s ++ [i] -> queue_sz s' = queue_sz s + 1 -> cmd_array s' = <[i := c]> (cmd_array s) ->
  mgr_inv s' (L ++ [(i, st)]) P.
Proof.
  intros [H1 H2 H3 H4 [H5 H5'] H6 H7 H8 H9 H10 H11] Hs Hnp Hst Hsz E1 E2 E3 E4 E5 E6.
  assert (Hn : NoDup (i :: L.*1 ++ P)) by (by rewrite Permutation_middle).
  apply NoDup_cons in Hn as [Hi Hn]. rewrite not_elem_of_app in Hi. destruct Hi as [HiL HiP].
  destruct (slots_get _ _ i Pend H8) as (c0 & Hc0 & _); [left |]. apply lookup_lt_Some in Hc0.
  rewrite fmap_cons in H8. apply Forall_cons in H8 as [_ H8].
  constructor; [done | congruence | congruence | | | | | | | |].
  - by rewrite E4, H4, fmap_app.
  - rewrite E5, length_app. simpl. lia.
  - rewrite fmap_app, <- app_assoc. simpl. rewrite <- Permutation_middle. by constructor; [apply not_elem_of_app |].
  - rewrite E6. apply slots_app. split; [by apply slots_frame | by apply slots_set].
  - rewrite E6. apply slots_frame; [|done]. rewrite <- list_fmap_compose. cbn. by rewrite list_fmap_id.
  - rewrite E6. apply free_set; [apply Hs | done].
  - rewrite fmap_app. apply sorted_status_join; [done | repeat constructor |].
    intros a b Ha Hb. apply list_elem_of_singleton in Hb as ->. by apply Hst.
  - apply Forall_app. split; [done |]. by constructor.
Qed.

Lemma all_done (L : list (nat * status)) a :
  StronglySorted may_precede L.*2 -> last L.*2 = Some Done -> a ∈ L.*2 -> a = Done.
Proof.
  intros Hs Hl Ha. apply last_Some in Hl as [l' El]. rewrite El in *.
  apply sorted_status_app in Hs as (_ & _ & H). apply elem_of_app in Ha as [Ha|Ha].
  - specialize (H a Done Ha ltac:(left)). by destruct a.
  - by apply list_elem_of_singleton in Ha.
Qed.

Lemma last_slot s L P x st :
  mgr_inv s L P -> last L = Some (x, st) -> exists c, get_cmd s x = Ok c /\ slot_ok c st.
Proof.
  intros Hi Hl. destruct (slots_get _ _ x st (mi_slots _ _ _ Hi)) as (c & Hc & Hs).
  { apply last_Some in Hl as [l' ->]. apply elem_of_app. right. left. }
  exists c. unfold get_cmd. by rewrite Hc.
Qed.

(** [queue_busy] tells whether a command would be pushed behind an unfinished
    one. *)
Lemma queue_busy_ok s L P b :
  mgr_inv s L P -> queue_sz s < RWNX_CMD_MAX_QUEUED \/ L = [] ->
  exists busy, queue_busy (s <| locked := b |>) = Ok (false, busy) /\
    (busy = false -> forall a, a ∈ L.*2 -> a = Done).
Proof.
  intros Hi Hsz. unfold queue_busy. cbn [upd cmds queue_sz max_queue_sz].
  rewrite (mi_cmds _ _ _ Hi), (mi_max _ _ _ Hi), fmap_last.
  destruct (last L) as [[x st]|] eqn:El; cbn [fmap option_fmap option_map].
  - assert (L <> []) by (by intros ->). destruct (Z.eqb_spec (queue_sz s) RWNX_CMD_MAX_QUEUED); [naive_solver lia |].
    destruct (last_slot _ _ _ _ _ Hi El) as (c & Hc & Hs).
    unfold get_cmd in *. cbn [fst upd cmd_array]. rewrite Hc. cbn [mbind res_bind].
    eexists. split; [done |]. intros Hb. apply orb_false_iff in Hb as [Hb Hb3].
    apply orb_false_iff in Hb as [_ Hb2].
    assert (st = Done) as ->.
    { destruct Hs as (_ & _ & _ & _ & Hs). destruct st; [| | |done]; try (destruct_and!; congruence).
      exfalso. pose proof (mi_listed _ _ _ Hi) as Ho. apply last_Some in El as [l' ->].
      apply Forall_app in Ho as [_ Ho]. by apply Forall_cons in Ho as [Ho _]. }
    intros a. apply all_done; [eauto with drv |]. by rewrite fmap_last, El.
  - exists false. split; [done |]. intros _ a Ha. apply last_None in El as ->. by apply not_elem_of_nil in Ha.
Qed.

(** What queueing a prepared command does to the list, the prepared commands
    and the work item. *)
Inductive queued (s s' : rwnx_cmd_mgr) (i : nat) (L : list (nat * status)) (P : list nat) : qres -> Prop :=
| queued_retry : s' = s -> queued s s' i L P QRetry
| queued_full : mgr_inv s' L (i :: P) -> cmd_work s' = cmd_work s -> queued s s' i L P (QErr ENOMEM)
| queued_deferred : mgr_inv s' (L ++ [(i, Wait)]) P -> (cmd_work s = true -> cmd_work s' = true) ->
    (L = [] -> cmd_work s' = true) -> queued s s' i L P QDeferred
| queued_pushed : mgr_inv s' (L ++ [(i, Flight)]) P -> cmd_work s' = cmd_work s ->
    queued s s' i L P QWait.

Lemma queue_enter_ok s L P c :
  mgr_inv s L P ->
  queue_enter false s c = Ok (s, Some QRetry) \/
  queue_enter false s c = Ok (s <| locked := true |>, None).
Proof.
  intros Hi. unfold queue_enter, spin_lock. rewrite (mi_unlocked _ _ _ Hi). cbn [mbind res_bind].
  change (state (s <| locked := true |>)) with (state s). rewrite (mi_state _ _ _ Hi).
  destruct (e2a_msg c); [|by right]. change (cmds (s <| locked := true |>)) with (cmds s).
  destruct (cmds s); [by right |]. left. unfold spin_unlock. cbn [upd locked mbind res_bind].
  do 2 f_equal. apply (relock s), (mi_unlocked _ _ _ Hi).
Qed.

Lemma queue_full s L P b :
  mgr_inv s L P -> queue_sz s = RWNX_CMD_MAX_QUEUED -> L <> [] ->
  queue_busy (s <| locked := b |>) = Ok (true, false).
Proof.
  intros Hi Hsz Hne. unfold queue_busy. cbn [upd cmds queue_sz max_queue_sz].
  rewrite (mi_cmds _ _ _ Hi), (mi_max _ _ _ Hi), Hsz, fmap_last.
  destruct (last L) eqn:E; [done |]. by apply last_None in E.
Qed.

Lemma arm_wait t c : slot_ok c Pend -> slot_ok (arm t true c) Wait.
Proof.
  destruct c; unfold slot_ok, arm; simpl. intros (-> & -> & -> & -> & -> & -> & Hm). by repeat split.
Qed.

Lemma arm_flight t c :
  slot_ok c Pend -> slot_ok ((arm t false c) <| a2e_msg := None |>) Flight.
Proof.
  destruct c; unfold slot_ok, arm; simpl. intros (-> & -> & -> & -> & -> & -> & Hm). by repeat split.
Qed.

Lemma arm_blocking t b c : slot_ok c Pend -> nonblock (arm t b c) = false.
Proof.
  destruct c, b; unfold slot_ok, arm; simpl; intros (-> & -> & -> & -> & -> & -> & Hm); done.
Qed.

(** Unlocking after the command was linked. *)
Lemma unlock_link s i c :
  spin_unlock (link (s <| locked := true |>) i c) = Ok ((link s i c) <| locked := false |>).
Proof. by destruct s. Qed.

Lemma link_fields s i c :
  let s' := (link s i c) <| locked := false |> in
  locked s' = false /\ state s' = state s /\ max_queue_sz s' = max_queue_sz s /\
  cmds s' = cmds s ++ [i] /\ queue_sz s' = u32 (queue_sz s + 1) /\
  cmd_array s' = <[i := c]> (cmd_array s) /\ cmd_work s' = cmd_work s.
Proof. by destruct s. Qed.

Lemma wake_fields s :
  locked (WAKE_CMD_WORK s) = locked s /\ state (WAKE_CMD_WORK s) = state s /\
  max_queue_sz (WAKE_CMD_WORK s) = max_queue_sz s /\ cmds (WAKE_CMD_WORK s) = cmds s /\
  queue_sz (WAKE_CMD_WORK s) = queue_sz s /\ cmd_array (WAKE_CMD_WORK s) = cmd_array s /\
  cmd_work (WAKE_CMD_WORK s) = true.
Proof. by destruct s. Qed.

(** The status list never has [Pend], so anything may precede [Wait]. *)
Lemma before_wait (L : list (nat * status)) a : Forall (fun e => e.2 <> Pend) L -> a ∈ L.*2 -> may_precede a Wait.
Proof.
  rewrite Forall_forall. intros H Ha. apply list_elem_of_fmap in Ha as (e & -> & He).
  specialize (H e He). by destruct e.2.
Qed.

Lemma wake_inv s L P : mgr_inv s L P -> mgr_inv (WAKE_CMD_WORK s) L P.
Proof. intros [H1 H2 H3 H4 H5 H6 H7 H8 H9 H10 H11]. destruct s. by constructor. Qed.

Lemma link_inv s L i P c st :
  mgr_inv s L (i :: P) -> slot_ok c st -> st <> Pend -> (forall a, a ∈ L.*2 -> may_precede a st) ->
  queue_sz s < RWNX_CMD_MAX_QUEUED ->
  mgr_inv ((link s i c) <| locked := false |>) (L ++ [(i, st)]) P.
Proof.
  intros Hi Hs Hnp Hb Hsz. pose proof (link_fields s i c) as (F1 & F2 & F3 & F4 & F5 & F6 & _).
  pose proof (mi_size _ _ _ Hi) as [Hl _].
  eapply (append_inv s L i P c st); try done. rewrite F5. apply u32_id.
  unfold RWNX_CMD_MAX_QUEUED in *. lia.
Qed.

(** A linked command whose message slot is cleared. *)
Lemma relink s i c c' :
  set_cmd ((link s i c) <| locked := false |>) i c' = (link s i c') <| locked := false |>.
Proof. destruct s. unfold set_cmd, link. simpl. by rewrite list_insert_insert_eq. Qed.

Lemma queue_ok s L i P :
  mgr_inv s L (i :: P) ->
  exists s' evs q, cmd_mgr_queue false s i = Ok (s', evs, q) /\ queued s s' i L P q.
Proof.
  intros Hi. destruct (slots_get _ _ i Pend (mi_pend _ _ _ Hi)) as (c & Hc & Hs); [left |].
  unfold cmd_mgr_queue. assert (Hg : get_cmd s i = Ok c) by (unfold get_cmd; by rewrite Hc).
  rewrite Hg. cbn [mbind res_bind].
  destruct (queue_enter_ok s L _ c Hi) as [-> | ->]; cbn [mbind res_bind].
  { eexists _, _, _. split; [done |]. by constructor. }
  destruct (mi_size _ _ _ Hi) as [Hsz Hmax].
  destruct (decide (queue_sz s = RWNX_CMD_MAX_QUEUED)) as [Hfull|Hnf].
  { assert (L <> []) by (intros ->; by rewrite Hfull in Hsz).
    rewrite (queue_full s L _ _ Hi Hfull) by done. cbn [mbind res_bind].
    change (spin_unlock (s <| locked := true |>)) with (Ok (s <| locked := true |> <| locked := false |>)).
    rewrite relock by eauto with drv. cbn [mbind res_bind].
    eexists _, _, _. split; [done |]. constructor; [|by destruct s].
    apply (set_pend_inv _ _ _ _ c); [done | done |]. by destruct c. }
  destruct (queue_busy_ok s L _ true Hi) as (busy & -> & Hdone); [left; lia |]. cbn [mbind res_bind].
  assert (Ha : a2e_msg c <> None) by (by destruct Hs as (_ & _ & _ & _ & _ & _ & Hm)).
  destruct (a2e_msg c) as [m|]; [|done].
  change (next_tkn (s <| locked := true |>)) with (next_tkn s).
  rewrite unlock_link. cbn [mbind res_bind]. rewrite arm_blocking by done.
  assert (Hlt : queue_sz s < RWNX_CMD_MAX_QUEUED) by lia.
  destruct (busy || defer m) eqn:Ed; cbn [negb]; eexists _, _, _; (split; [done |]).
  - assert (Hinv : mgr_inv ((link s i (arm (next_tkn s) true c)) <| locked := false |>) (L ++ [(i, Wait)]) P).
    { apply link_inv; [done | by apply arm_wait | done | | done].
      intros a. apply before_wait, (mi_listed _ _ _ Hi). }
    pose proof (link_fields s i (arm (next_tkn s) true c)) as (_ & _ & _ & _ & Hq & _ & Hw).
    set (s' := (link s i (arm (next_tkn s) true c)) <| locked := false |>) in *. clearbody s'.
    constructor; (destruct (Z.leb_spec (queue_sz s') 1); [|try done]).
    + by apply wake_inv.
    + by intros _; apply wake_fields.
    + by rewrite Hw.
    + by intros _; apply wake_fields.
    + intros ->. rewrite Hq, u32_id in * by (simpl in *; lia). simpl in *. lia.
  - apply orb_false_iff in Ed as [-> _]. rewrite relink. constructor; [|by destruct s].
    apply link_inv; [done | by apply arm_flight | done | | done].
    intros a Ha'. by rewrite (Hdone eq_refl a Ha').
Qed.

(** A slot of the list that takes another status. *)
Lemma restatus_inv s L1 L2 P i st st' c' s' :
  mgr_inv s (L1 ++ (i, st) :: L2) P -> slot_ok c' st' -> st' <> Pend ->
  StronglySorted may_precede (L1 ++ (i, st') :: L2).*2 ->
  locked s' = false -> state s' = state s -> max_queue_sz s' = max_queue_sz s -> cmds s' = cmds s ->
  queue_sz s' = queue_sz s -> cmd_array s' = <[i := c']> (cmd_array s) ->
  mgr_inv s' (L1 ++ (i, st') :: L2) P.
Proof.
  intros [H1 H2 H3 H4 H5 H6 H7 H8 H9 H10 H11] Hs Hnp Ho E1 E2 E3 E4 E5 E6.
  assert (El : forall x, (L1 ++ (i, x) :: L2).*1 = L1.*1 ++ i :: L2.*1) by (intros; by rewrite fmap_app).
  rewrite (El st) in *.
  assert (Hn : NoDup (i :: (L1.*1 ++ L2.*1) ++ P)).
  { rewrite <- app_assoc in *. simpl in *. by rewrite Permutation_middle. }
  apply NoDup_cons in Hn as [Hn _]. rewrite !not_elem_of_app in Hn. destruct Hn as [[Hi1 Hi2] HiP].
  apply slots_app in H7 as [H71 H72]. apply Forall_cons in H72 as [(c0 & Hc0 & _) H72].
  cbn [fst] in Hc0. apply lookup_lt_Some in Hc0.
  constructor; [done | congruence | congruence | | | | | | | done |].
  - by rewrite E4, H4, El.
  - rewrite E5. rewrite length_app in *. simpl in *. lia.
  - by rewrite El.
  - rewrite E6. apply slots_app. split; [by apply slots_frame |].
    apply (slots_app _ [(i, st')]). split; [by apply slots_set | by apply slots_frame].
  - rewrite E6. apply slots_frame; [|done]. rewrite <- list_fmap_compose. cbn. by rewrite list_fmap_id.
  - rewrite E6. apply free_set; [apply Hs | done].
  - apply Forall_app in H11 as [H111 H112]. apply Forall_cons in H112 as [_ H112].
    apply Forall_app. split; [done |]. by constructor.
Qed.

(** A finished command leaves the list and its slot is freed. *)
Lemma remove_inv s L1 L2 P i st s' :
  mgr_inv s (L1 ++ (i, st) :: L2) P ->
  locked s' = false -> state s' = state s -> max_queue_sz s' = max_queue_sz s ->
  cmds s' = filter (fun j => j <> i) (cmds s) -> queue_sz s' = u32 (queue_sz s - 1) ->
  cmd_array s' = alter (fun c => (clear_flags c) <| used := false |>) i (cmd_array s) ->
  mgr_inv s' (L1 ++ L2) P.
Proof.
  intros [H1 H2 H3 H4 [H5 H5'] H6 H7 H8 H9 H10 H11] E1 E2 E3 E4 E5 E6.
  destruct (split_list _ P i st H6) as (L1' & L2' & EL & HiL1 & HiL2 & HiP & Hfil & Hnd').
  { apply elem_of_app. right. left. }
  assert (El : (L1 ++ (i, st) :: L2).*1 = L1.*1 ++ i :: L2.*1) by (by rewrite fmap_app).
  assert (Hn : NoDup (i :: (L1.*1 ++ L2.*1) ++ P)).
  { rewrite El, <- app_assoc in H6. simpl in H6. by rewrite <- app_assoc, Permutation_middle. }
  apply NoDup_cons in Hn as [Hn Hnd]. rewrite !not_elem_of_app in Hn. destruct Hn as [[Hi1 Hi2] _].
  apply slots_app in H7 as [H71 H72]. apply Forall_cons in H72 as [(c0 & Hc0 & Hs0) H72]. cbn [fst snd] in *.
  rewrite (alter_insert _ _ _ c0) in E6 by done.
  constructor; [done | congruence | congruence | | | | | | | |].
  - rewrite E4, H4, El, fmap_app, filter_app, filter_cons_False by (by intros []).
    rewrite !filter_all; [done | |]; apply Forall_forall; intros j Hj ->; done.
  - rewrite length_app in *. simpl in *. rewrite E5, u32_id by (unfold RWNX_CMD_MAX_QUEUED in *; lia). lia.
  - by rewrite fmap_app.
  - rewrite E6. apply slots_app. split; by apply slots_frame.
  - rewrite E6. apply slots_frame; [|done]. rewrite <- list_fmap_compose. cbn. by rewrite list_fmap_id.
  - rewrite E6. apply Forall_insert; [done |]. intros _. by destruct c0.
  - rewrite fmap_app in *. simpl in H10. apply sorted_status_app in H10 as (S1 & S2 & S3).
    apply StronglySorted_inv in S2 as [S2 _]. apply sorted_status_join; [done | done |].
    intros a b Ha Hb. apply S3; [done | by right].
  - apply Forall_app in H11 as [H111 H112]. apply Forall_cons in H112 as [_ H112]. by apply Forall_app.
Qed.

Lemma fill_pend m id cfm c :
  nonblock c = false -> wait_push c = false -> wait_cfm c = false ->
  slot_ok (fill m true id cfm (c <| used := true |>)) Pend.
Proof. destruct c. unfold slot_ok, fill. simpl. intros -> -> ->. by repeat split. Qed.

Lemma prepare_ok s L P m id cfm s1 i :
  mgr_inv s L P -> send_prepare s m true id cfm = Ok (s1, i) ->
  mgr_inv s1 L (i :: P) /\ cmd_work s1 = cmd_work s.
Proof.
  intros [H1 H2 H3 H4 H5 H6 H7 H8 H9 H10 H11] H. unfold send_prepare, rwnx_cmd_malloc in H.
  destruct (find_idx _ (cmd_array s)) as [j|] eqn:Ef; [|discriminate].
  destruct (find_idx_Some _ _ _ Ef) as (c & Hc & Hu & _). apply negb_true_iff in Hu.
  apply lookup_lt_Some in Hc as Hlt.
  unfold get_cmd in H. cbn [upd cmd_array] in H. rewrite (alter_insert _ _ _ c), list_lookup_insert_eq in H by done.
  cbn [mbind res_bind] in H. injection H as <- <-.
  pose proof (proj1 (Forall_lookup _ _) H9 j c Hc Hu) as (Hf1 & Hf2 & Hf3 & Hf4).
  assert (Hnew : forall L', slots_ok (cmd_array s) L' -> j ∉ L'.*1).
  { intros L' HL Hj. apply list_elem_of_fmap in Hj as (e & -> & He).
    unfold slots_ok in HL. rewrite Forall_forall in HL. destruct (HL e He) as (d & Hd & Hsd).
    rewrite Hc in Hd. injection Hd as <-. destruct Hsd as [Hsd _]. congruence. }
  pose proof (Hnew _ H7) as HjL. pose proof (Hnew _ H8) as HjP.
  rewrite <- list_fmap_compose in HjP. cbn in HjP. rewrite list_fmap_id in HjP.
  unfold set_cmd. split; [|by destruct s].
  constructor; cbn [upd locked state max_queue_sz cmds queue_sz cmd_array]; try done;
    rewrite ?(alter_insert _ _ _ c), ?list_insert_insert_eq by done.
  - rewrite <- Permutation_middle. constructor; [by apply not_elem_of_app | done].
  - by apply slots_frame.
  - rewrite fmap_cons. apply (slots_app _ [(j, Pend)]). split.
    + apply slots_set; [done |]. by apply fill_pend.
    + apply slots_frame; [|done]. rewrite <- list_fmap_compose. cbn. by rewrite list_fmap_id.
  - apply free_set; [|done]. by destruct c.
Qed.

(** *** Confirmations *)

Lemma slot_of s L P i st :
  mgr_inv s L P -> (i, st) ∈ L -> exists c, cmd_array s !! i = Some c /\ get_cmd s i = Ok c /\ slot_ok c st.
Proof.
  intros Hi Hin. destruct (slots_get _ _ i st (mi_slots _ _ _ Hi) Hin) as (c & Hc & Hs).
  exists c. split; [done |]. split; [|done]. unfold get_cmd. by rewrite Hc.
Qed.

(** The search passes over finished commands. *)
Lemma find_skip s cb id L1 l :
  slots_ok (cmd_array s) L1 -> Forall (fun e => e.2 = Done) L1 ->
  msgind_find s cb id (L1.*1 ++ l) = msgind_find s cb id l.
Proof.
  induction 1 as [|e L1 (c & Hc & Hs) HL IH]; intros Hd; [done |]. apply Forall_cons in Hd as [He Hd].
  rewrite fmap_cons. cbn [app msgind_find]. unfold get_cmd. rewrite Hc. cbn [mbind res_bind].
  rewrite He in Hs. destruct Hs as (_ & _ & _ & _ & _ & -> & _). rewrite andb_false_r. by apply IH.
Qed.

Lemma find_none s cb id L :
  slots_ok (cmd_array s) L ->
  (forall i c, i ∈ L.*1 -> cmd_array s !! i = Some c -> wait_cfm c = true -> reqid c <> id) ->
  msgind_find s cb id L.*1 = Ok None.
Proof.
  induction 1 as [|e L (c & Hc & Hs) HL IH]; intros Hno; [done |]. rewrite fmap_cons. cbn [msgind_find].
  unfold get_cmd. rewrite Hc. cbn [mbind res_bind]. destruct (wait_cfm c) eqn:Ew.
  - destruct (Z.eqb_spec (reqid c) id) as [Er|]; cbn [andb].
    + exfalso. eapply Hno; [left | exact Hc | done | done].
    + apply IH. intros i d Hi. apply Hno. by right.
  - rewrite andb_false_r. cbn [andb]. apply IH. intros i d Hi. apply Hno. by right.
Qed.

Lemma done_before (L1 L2 : list (nat * status)) i st :
  StronglySorted may_precede (L1 ++ (i, st) :: L2).*2 -> Forall (fun e => e.2 <> Pend) (L1 ++ (i, st) :: L2) ->
  st = Flight \/ st = Done -> Forall (fun e => e.2 = Done) L1.
Proof.
  rewrite fmap_app. intros Ho _ Hst. apply sorted_status_app in Ho as (_ & _ & H).
  apply Forall_forall. intros e He. specialize (H e.2 st ltac:(by apply list_elem_of_fmap_2) ltac:(left)).
  destruct Hst as [-> | ->]; by destruct e.2.
Qed.

Lemma flight_to_done (l1 l2 : list status) :
  StronglySorted may_precede (l1 ++ Flight :: l2) -> StronglySorted may_precede (l1 ++ Done :: l2).
Proof.
  intros H. apply sorted_status_app in H as (H1 & H2 & H3). apply StronglySorted_inv in H2 as [H2 Hf].
  apply sorted_status_join; [done | |].
  - constructor; [done |]. apply Forall_forall. by intros [] _.
  - intros a b Ha Hb. apply elem_of_cons in Hb as [->|Hb]; [|by apply H3; [|right]].
    specialize (H3 a Flight Ha ltac:(left)). by destruct a.
Qed.

Lemma confirm_slot c :
  slot_ok c Flight ->
  slot_ok (c <| wait_cfm := false |> <| c_done := true |> <| result := 0 |> <| completions ::= S |>) Done /\
  wait_complete (c <| wait_cfm := false |>) = true /\ nonblock (c <| wait_cfm := false |>) = false.
Proof.
  destruct c. unfold slot_ok, wait_complete. simpl. intros (-> & -> & -> & -> & -> & -> & ->).
  repeat split; lia.
Qed.

(** The effect of completing a command under the lock. *)
Lemma complete_eq s i c c' :
  cmd_array s !! i = Some c -> nonblock c' = false -> wait_complete c' = true ->
  cmd_complete (set_cmd (s <| locked := true |>) i c') i =
    Ok (set_cmd (s <| locked := true |>) i (c' <| c_done := true |> <| result := 0 |> <| completions ::= S |>)).
Proof.
  intros Hc Hn Hw. unfold cmd_complete, get_cmd. destruct s, c'. unfold set_cmd, wait_complete in *. simpl in *.
  rewrite list_lookup_insert_eq by (by eapply lookup_lt_Some). cbn [mbind res_bind]. simpl.
  rewrite Hn, Hw. simpl. by rewrite !list_insert_insert_eq.
Qed.

Lemma flight_of s L P i st c :
  mgr_inv s L P -> (i, st) ∈ L -> cmd_array s !! i = Some c -> wait_push c = false -> wait_cfm c = true ->
  st = Flight.
Proof.
  intros Hi Hin Hc Hwp Hwc. destruct (slot_of _ _ _ _ _ Hi Hin) as (c' & Hc' & _ & Hs).
  rewrite Hc in Hc'. injection Hc' as <-.
  pose proof (mi_listed _ _ _ Hi) as Hl. rewrite Forall_forall in Hl. specialize (Hl _ Hin). cbn in Hl.
  destruct Hs as (_ & _ & _ & _ & Hs). destruct st; destruct_and?; congruence.
Qed.

(** The confirmation of the command in flight finishes it. *)
Lemma msgind_flight s L1 L2 P i c :
  mgr_inv s (L1 ++ (i, Flight) :: L2) P -> cmd_array s !! i = Some c ->
  exists s', cmd_mgr_msgind s (fun _ => 0) (reqid c) = Ok (s', true) /\
    mgr_inv s' (L1 ++ (i, Done) :: L2) P /\ cmd_work s' = cmd_work s.
Proof.
  intros Hi Hc. unfold cmd_mgr_msgind, spin_lock. rewrite (mi_unlocked _ _ _ Hi).
  cbn [mbind res_bind]. change (cmds (s <| locked := true |>)) with (cmds s). rewrite (mi_cmds _ _ _ Hi).
  destruct (slot_of _ _ _ i Flight Hi) as (c0 & Hc0 & _ & Hs); [apply elem_of_app; right; left |].
  rewrite Hc in Hc0. injection Hc0 as <-.
  assert (Hg : get_cmd (s <| locked := true |>) i = Ok c) by (unfold get_cmd; destruct s; simpl in *; by rewrite Hc).
  assert (Hwc : wait_cfm c = true) by (by destruct Hs as (_ & _ & _ & _ & _ & Hs & _)).
  assert (Hfind : msgind_find (s <| locked := true |>) (fun _ => 0) (reqid c) (L1 ++ (i, Flight) :: L2).*1
                  = Ok (Some i)).
  { rewrite fmap_app. pose proof (mi_slots _ _ _ Hi) as Hsl. apply slots_app in Hsl as [Hsl _].
    rewrite find_skip; [|by destruct s |].
    2:{ eapply done_before; [eauto with drv | eauto with drv | by left]. }
    cbn [fmap list_fmap msgind_find fst]. rewrite Hg. cbn [mbind res_bind]. by rewrite Hwc, Z.eqb_refl. }
  rewrite Hfind. cbn [mbind res_bind]. rewrite Hg. cbn [mbind res_bind].
  destruct (confirm_slot c Hs) as (Hs' & Hwcm & Hnb).
  rewrite Hwcm, (complete_eq s i c) by done. cbn [mbind res_bind].
  set (c' := (c <| wait_cfm := false |> <| c_done := true |> <| result := 0 |> <| completions ::= S |>)) in *.
  change (spin_unlock (set_cmd (s <| locked := true |>) i c')) with
    (Ok ((set_cmd (s <| locked := true |>) i c') <| locked := false |>)).
  cbn [mbind res_bind]. eexists. split; [done |]. split; [|by destruct s].
  eapply (restatus_inv s L1 L2 P i Flight Done c'); try done; try (by destruct s).
  rewrite fmap_app. apply flight_to_done. pose proof (mi_order _ _ _ Hi) as Ho. by rewrite fmap_app in Ho.
Qed.

(** A message no command of the list waits for changes nothing. *)
Lemma msgind_other s L P cb id :
  mgr_inv s L P ->
  (forall i c, i ∈ cmds s -> cmd_array s !! i = Some c -> wait_cfm c = true -> reqid c <> id) ->
  cmd_mgr_msgind s cb id = Ok (s, false).
Proof.
  intros Hi Hno. unfold cmd_mgr_msgind, spin_lock. rewrite (mi_unlocked _ _ _ Hi). cbn [mbind res_bind].
  change (cmds (s <| locked := true |>)) with (cmds s). rewrite (mi_cmds _ _ _ Hi).
  rewrite find_none; [|by destruct s; apply (mi_slots _ _ _ Hi) |].
  2:{ intros i c Hin. rewrite <- (mi_cmds _ _ _ Hi) in Hin. by apply Hno. }
  cbn [mbind res_bind].
  change (spin_unlock (s <| locked := true |>)) with (Ok (s <| locked := true |> <| locked := false |>)).
  by rewrite relock by eauto with drv.
Qed.

Lemma msgind_ok s L P id s' b :
  mgr_inv s L P -> msg_ok s id -> cmd_mgr_msgind s (fun _ => 0) id = Ok (s', b) ->
  exists L', mgr_inv s' L' P /\ waiting L' = waiting L /\ pushed L' = pushed L /\ L'.*1 = L.*1 /\
    cmd_work s' = cmd_work s.
Proof.
  intros Hi [(i & c & Hin & Hc & Hwp & Hwc & <-) | Hno] H.
  - rewrite (mi_cmds _ _ _ Hi) in Hin. apply list_elem_of_fmap in Hin as ([j st] & E & Hin). cbn in E. subst j.
    pose proof (flight_of _ _ _ _ _ _ Hi Hin Hc Hwp Hwc) as ->.
    apply list_elem_of_split in Hin as (L1 & L2 & ->).
    destruct (msgind_flight _ _ _ _ _ _ Hi Hc) as (s1 & H1 & Hi1 & Hw1). rewrite H1 in H. injection H as <- _.
    exists (L1 ++ (i, Done) :: L2). by rewrite !waiting_app, !pushed_app, !fmap_app.
  - rewrite (msgind_other _ _ _ _ _ Hi Hno) in H. injection H as <- _. by exists L.
Qed.

(** *** Leaving the list *)

Lemma confirmed_done s L1 L2 P i st :
  mgr_inv s (L1 ++ (i, st) :: L2) P -> st <> Wait -> confirmed s i -> st = Done.
Proof.
  intros Hi Hw (c & Hc & Hpos).
  destruct (slot_of _ _ _ i st Hi) as (c0 & Hc0 & _ & Hs); [apply elem_of_app; right; left |].
  rewrite Hc in Hc0. injection Hc0 as <-.
  pose proof (mi_listed _ _ _ Hi) as Hl. apply Forall_app in Hl as [_ Hl].
  apply Forall_cons in Hl as [Hl _]. cbn in Hl.
  destruct Hs as (_ & _ & _ & _ & Hs). destruct st; destruct_and?; try done; lia.
Qed.

Lemma done_confirmed s L P i : mgr_inv s L P -> (i, Done) ∈ L -> confirmed s i.
Proof.
  intros Hi Hin. destruct (slot_of _ _ _ _ _ Hi Hin) as (c & Hc & _ & Hs). exists c.
  split; [done |]. apply Hs.
Qed.

Lemma task_done_ok s L1 L2 P i st :
  mgr_inv s (L1 ++ (i, st) :: L2) P ->
  exists s', task_done s i = Ok s' /\ mgr_inv s' (L1 ++ L2) P /\ cmd_work s' = cmd_work s.
Proof.
  intros Hi. unfold task_done, spin_lock. rewrite (mi_unlocked _ _ _ Hi). cbn [mbind res_bind].
  unfold list_del. change (cmds (s <| locked := true |>)) with (cmds s).
  rewrite bool_decide_true by (rewrite (mi_cmds _ _ _ Hi), fmap_app; apply elem_of_app; right; left).
  cbn [mbind res_bind]. unfold spin_unlock. cbn [upd locked mbind res_bind]. eexists. split; [done |].
  split; [|by destruct s]. eapply (remove_inv s L1 L2 P i st); try done; by destruct s.
Qed.

(** An issuer leaves like the work item, and wakes it when commands remain. *)
Lemma queue_done_eq s i :
  queue_done s i = s' ← task_done s i; Ok (match cmds s' with [] => s' | _ => WAKE_CMD_WORK s' end).
Proof.
  unfold queue_done, task_done. destruct (spin_lock s); [|done|done]. cbn [mbind res_bind].
  destruct (list_del a i); [|done|done]. cbn [mbind res_bind]. by destruct (spin_unlock a0).
Qed.

Lemma queue_done_ok s L1 L2 P i st :
  mgr_inv s (L1 ++ (i, st) :: L2) P ->
  exists s', queue_done s i = Ok s' /\ mgr_inv s' (L1 ++ L2) P /\
    (cmd_work s = true -> cmd_work s' = true) /\ (L1 ++ L2 <> [] -> cmd_work s' = true).
Proof.
  intros Hi. rewrite queue_done_eq. destruct (task_done_ok _ _ _ _ _ _ Hi) as (s' & -> & Hi' & Hw).
  cbn [mbind res_bind]. eexists. split; [done |]. rewrite (mi_cmds _ _ _ Hi').
  destruct (L1 ++ L2) as [|e l]; cbn [fmap list_fmap].
  - split; [done |]. split; [congruence | done].
  - split; [by apply wake_inv |]. split; intros _; by destruct s'.
Qed.

(** *** The work item *)

Lemma task_push_wait s i L2 P :
  mgr_inv s ((i, Wait) :: L2) P ->
  exists s' evs, task_push s = Ok (s', evs, Some i) /\ mgr_inv s' ((i, Flight) :: L2) P /\
    cmd_work s' = cmd_work s.
Proof.
  intros Hi. unfold task_push. rewrite (mi_cmds _ _ _ Hi). cbn [fmap list_fmap fst].
  destruct (slot_of _ _ _ i Wait Hi) as (c & Hc & -> & Hs); [left |]. cbn [mbind res_bind].
  pose proof Hs as (Hu & Hn & Hr & Ha & Hwp & Hwc & Hm & Hcp). rewrite Hwp.
  destruct (a2e_msg c) as [m|]; [|done]. eexists _, _. split; [done |]. split; [|by destruct s].
  apply (restatus_inv s [] L2 P i Wait Flight (c <| wait_push := false |> <| a2e_msg := None |>));
    try done; try (by destruct s).
  - pose proof (mi_order _ _ _ Hi) as Ho. simpl in *. apply StronglySorted_inv in Ho as [Ho Hf].
    constructor; [done |]. eapply Forall_impl; [exact Hf |]. by intros [].
  - apply (mi_unlocked _ _ _ Hi).
Qed.

Lemma task_push_other s L P :
  mgr_inv s L P -> (forall i L2, L <> (i, Wait) :: L2) -> task_push s = Ok (s, [], None).
Proof.
  intros Hi Hno. unfold task_push. rewrite (mi_cmds _ _ _ Hi).
  destruct L as [|[i st] L2]; [done |]. cbn [fmap list_fmap fst].
  destruct (slot_of _ _ _ i st Hi) as (c & Hc & -> & Hs); [left |]. cbn [mbind res_bind].
  assert (wait_push c = false) as ->; [|done].
  destruct Hs as (_ & _ & _ & _ & Hs). destruct st; try (by destruct_and?). by destruct (Hno i L2).
Qed.

(** *** The transition system *)

Lemma flight_last (l : list (nat * status)) i :
  StronglySorted may_precede (l ++ [(i, Flight)]).*2 -> waiting l = [].
Proof.
  rewrite fmap_app. intros H. apply sorted_status_app in H as (_ & _ & H).
  unfold waiting. rewrite filter_none; [done |]. apply Forall_forall. intros e He Ew.
  specialize (H e.2 Flight ltac:(by apply list_elem_of_fmap_2) ltac:(left)). by rewrite Ew in H.
Qed.

Lemma after_queue_ok w s0 s' i L q :
  sched_inv w L -> mgr_inv s0 L (i :: pending w) -> cmd_work s0 = cmd_work (sys w) ->
  queued s0 s' i L (pending w) q ->
  exists L', winv (after_queue w (match q with QErr _ => rwnx_cmd_free s' i | _ => s' end) i q) L'.
Proof.
  intros [A1 A2 A3 A4] Hi Hw Hq. destruct w as [sy pe di wo en pu]. cbn [sys pending direct worker enq_log push_log] in *.
  destruct Hq as [-> | Hi' Hw' | Hi' Hmono Hwake | Hi' Hw']; unfold after_queue, winv.
  - exists L. split; [done |]. constructor; simpl; rewrite ?Hw; done.
  - exists L. split; [by apply cmd_free_inv |].
    constructor; simpl; try done; intros; change (cmd_work s' = true); rewrite Hw', Hw; auto.
  - exists (L ++ [(i, Wait)]). split; [done |]. constructor; simpl; rewrite ?pushed_app, ?waiting_app.
    + by rewrite app_nil_r.
    + by rewrite A2, app_assoc.
    + rewrite app_nil_r. intros Hp _. destruct L as [|e L]; [by apply Hwake |].
      apply Hmono. rewrite Hw. by apply A3.
    + intros Hwo. apply Hmono. rewrite Hw. auto.
  - exists (L ++ [(i, Flight)]). split; [done |]. constructor; simpl; rewrite ?pushed_app, ?waiting_app.
    + rewrite A1. apply Permutation_cons_append.
    + rewrite A2. rewrite (flight_last _ _ (mi_order _ _ _ Hi')). by rewrite !app_nil_r.
    + intros Hp. by destruct (pushed L).
    + intros Hwo. rewrite Hw', Hw. auto.
Qed.

Lemma send_msg_inv s L P m id cfm s' evs i q :
  mgr_inv s L P -> rwnx_send_msg false false s m true id cfm = Ok (s', evs, Some (i, q)) ->
  exists s0 s1, mgr_inv s0 L (i :: P) /\ cmd_work s0 = cmd_work s /\ queued s0 s1 i L P q /\
    s' = match q with QErr _ => rwnx_cmd_free s1 i | _ => s1 end.
Proof.
  intros Hi H. unfold rwnx_send_msg in H.
  destruct (send_prepare s m true id cfm) as [[s0 j]| |] eqn:Ep; try discriminate. cbn [mbind res_bind] in H.
  destruct (prepare_ok _ _ _ _ _ _ _ _ Hi Ep) as [Hi0 Hw0].
  destruct (queue_ok _ _ _ _ Hi0) as (s1 & ev1 & q1 & E1 & Hq). rewrite E1 in H. cbn [mbind res_bind] in H.
  exists s0, s1. destruct q1; injection H as <- <- <- <-; done.
Qed.

Lemma pend_split (P : list nat) i : NoDup P -> i ∈ P -> P ≡ₚ i :: filter (fun j => j <> i) P.
Proof.
  intros Hn Hi. apply list_elem_of_split in Hi as (P1 & P2 & ->).
  rewrite <- Permutation_middle in Hn |- *. apply NoDup_cons in Hn as [Hi Hn]. constructor.
  rewrite filter_cons_False by (by intros []). symmetry. rewrite filter_all; [done |].
  apply Forall_forall. intros j Hj ->. done.
Qed.

(** The sleepers once command [i] is gone. *)
Lemma asleep_remove (L1 L2 : list (nat * status)) D i st :
  st <> Wait -> i :: D ≡ₚ pushed (L1 ++ (i, st) :: L2) ->
  D ≡ₚ pushed (L1 ++ L2).
Proof.
  intros Hw H. rewrite pushed_app in *. unfold pushed in H at 2. rewrite filter_cons_True in H by done.
  rewrite fmap_cons, <- Permutation_middle in H. by apply Permutation_cons_inv in H.
Qed.

Lemma waiting_remove (L1 L2 : list (nat * status)) i st :
  st <> Wait -> waiting (L1 ++ (i, st) :: L2) = waiting (L1 ++ L2).
Proof. intros Hw. rewrite !waiting_app. unfold waiting at 2. by rewrite filter_cons_False by naive_solver. Qed.

Lemma pushed_nodup s L P : mgr_inv s L P -> NoDup (pushed L).
Proof.
  intros Hi. pose proof (mi_nodup _ _ _ Hi) as Hn. apply NoDup_app in Hn as [Hn _].
  unfold pushed. eapply sublist_NoDup; [exact Hn |]. apply fmap_sublist, sublist_filter.
Qed.

Lemma pushed_find L i : i ∈ pushed L -> exists L1 L2 st, L = L1 ++ (i, st) :: L2 /\ st <> Wait.
Proof.
  intros Hin. unfold pushed in Hin. apply list_elem_of_fmap in Hin as ([j st] & E & Hin). cbn in E. subst j.
  apply list_elem_of_filter in Hin as [Hst Hin]. apply list_elem_of_split in Hin as (L1 & L2 & ->).
  by exists L1, L2, st.
Qed.

(** One lemma per step. *)

Lemma again_inv w L i s' evs q :
  winv w L -> i ∈ pending w -> cmd_mgr_queue false (sys w) i = Ok (s', evs, q) ->
  exists L', winv (after_queue (w <| pending ::= filter (fun j => j <> i) |>)
                     (match q with QErr _ => rwnx_cmd_free s' i | _ => s' end) i q) L'.
Proof.
  intros [Hi HS] Hin H. pose proof (mi_nodup _ _ _ Hi) as Hn. apply NoDup_app in Hn as (_ & _ & Hn).
  pose proof (pend_split _ _ Hn Hin) as HP.
  pose proof (mgr_inv_perm _ _ _ _ HP Hi) as Hi0.
  destruct (queue_ok _ _ _ _ Hi0) as (s1 & ev1 & q1 & E1 & Hq). rewrite E1 in H. injection H as <- <- <-.
  pose proof HS as [A1 A2 A3 A4].
  apply (after_queue_ok (w <| pending ::= filter (fun j => j <> i) |>) (sys w) s1 i L q1); done.
Qed.

Lemma msg_inv w L id s' b :
  winv w L -> msg_ok (sys w) id -> cmd_mgr_msgind (sys w) (fun _ => 0) id = Ok (s', b) ->
  exists L', winv (w <| sys := s' |>) L'.
Proof.
  intros [Hi [A1 A2 A3 A4]] Hm H.
  destruct (msgind_ok _ _ _ _ _ _ Hi Hm H) as (L' & Hi' & Ew & Ep & El & Hw). exists L'. split; [by destruct w |].
  constructor; rewrite ?Ew, ?Ep; destruct w; simpl in *; try done.
  - intros Hp HL'. change (cmd_work s' = true). rewrite Hw. apply A3; [done |]. intros ->.
    destruct L'; [done |]. by rewrite fmap_cons in El.
  - intros Hwo. change (cmd_work s' = true). rewrite Hw. by apply A4.
Qed.

Lemma done_inv w L i s' :
  winv w L -> i ∈ direct w -> queue_done (sys w) i = Ok s' ->
  exists L', winv (w <| sys := s' |> <| direct ::= filter (fun j => j <> i) |>) L'.
Proof.
  intros [Hi [A1 A2 A3 A4]] Hin H. pose proof (pushed_nodup _ _ _ Hi) as Hnd. rewrite <- A1 in Hnd.
  destruct (pushed_find L i) as (L1 & L2 & st & -> & Hst); [rewrite <- A1; apply elem_of_app; by left |].
  destruct (queue_done_ok _ _ _ _ _ _ Hi) as (s1 & E1 & Hi1 & Hmono & Hwake). rewrite E1 in H. injection H as <-.
  exists (L1 ++ L2). split; [by destruct w |].
  rewrite (waiting_remove L1 L2 i st) in A2 by done.
  apply NoDup_app in Hnd as (Hnd & _).
  constructor; destruct w; simpl in *; try done.
  - apply (asleep_remove _ _ _ i st Hst). rewrite <- A1. by rewrite (pend_split _ _ Hnd Hin) at 2.
  - intros Hwo. apply Hmono. by apply A4.
Qed.

Lemma work_push_inv w L s' evs i :
  winv w L -> worker w = None -> cmd_work (sys w) = true -> task_push (sys w) = Ok (s', evs, Some i) ->
  exists L', winv (w <| sys := s' |> <| worker := Some i |> <| push_log ::= fun l => l ++ [i] |>) L'.
Proof.
  intros [Hi [A1 A2 A3 A4]] Hwk Hcw H. destruct L as [|[j st] L2].
  { by rewrite (task_push_other _ _ _ Hi) in H by done. }
  destruct (decide (st = Wait)) as [-> | Hne].
  2:{ rewrite (task_push_other _ _ _ Hi) in H; [done | intros j' L2' E; by injection E]. }
  destruct (task_push_wait _ _ _ _ Hi) as (s1 & ev1 & E1 & Hi1 & Hw1). rewrite E1 in H. injection H as <- <- <-.
  exists ((j, Flight) :: L2). split; [by destruct w |].
  rewrite Hwk in A1. constructor; destruct w; simpl in *; try done.
  - unfold pushed in A1 |- *. rewrite filter_cons_False in A1 by naive_solver.
    rewrite filter_cons_True, fmap_cons by done. rewrite app_nil_r in A1. simpl. rewrite A1.
    symmetry. apply Permutation_cons_append.
  - rewrite A2. unfold waiting. rewrite filter_cons_True, filter_cons_False, fmap_cons by done.
    by rewrite <- app_assoc.
  - intros _. change (cmd_work s1 = true). by rewrite Hw1.
Qed.

(** The work item ends only when it is not needed. *)
Lemma push_none s L P s' evs :
  mgr_inv s L P -> task_push s = Ok (s', evs, None) -> s' = s /\ forall i L2, L <> (i, Wait) :: L2.
Proof.
  intros Hi H. destruct L as [|[j st] L2].
  { rewrite (task_push_other _ _ _ Hi) in H by done. by injection H as <-. }
  destruct (decide (st = Wait)) as [-> | Hne].
  - destruct (task_push_wait _ _ _ _ Hi) as (s1 & ev1 & E1 & _). by rewrite E1 in H.
  - assert (Hn : forall i L2', (j, st) :: L2 <> (i, Wait) :: L2') by (intros i L2' E; by injection E).
    rewrite (task_push_other _ _ _ Hi Hn) in H. by injection H as <-.
Qed.

Lemma work_idle_inv w L s' evs :
  winv w L -> worker w = None -> task_push (sys w) = Ok (s', evs, None) ->
  exists L', winv (w <| sys := s' <| cmd_work := false |> |>) L'.
Proof.
  intros [Hi [A1 A2 A3 A4]] Hwk H. destruct (push_none _ _ _ _ _ Hi H) as [-> Hno]. exists L.
  destruct w as [sy pe di wo en pu]. split; [simpl in *; destruct Hi; by constructor |].
  constructor; simpl in *; try done; try congruence.
  intros Hp HL. destruct L as [|[j st] L2]; [done |]. destruct (decide (st = Wait)) as [-> |Hst].
  - by destruct (Hno j L2).
  - unfold pushed in Hp. by rewrite filter_cons_True in Hp by done.
Qed.

Lemma work_done_inv w L i s' :
  winv w L -> worker w = Some i -> task_done (sys w) i = Ok s' ->
  exists L', winv (w <| sys := s' |> <| worker := None |>) L'.
Proof.
  intros [Hi [A1 A2 A3 A4]] Hwk H. destruct (pushed_find L i) as (L1 & L2 & st & -> & Hst).
  { rewrite <- A1, Hwk. apply elem_of_app. right. left. }
  destruct (task_done_ok _ _ _ _ _ _ Hi) as (s1 & E1 & Hi1 & Hw1). rewrite E1 in H. injection H as <-.
  exists (L1 ++ L2). split; [by destruct w |].
  assert (Hcw : cmd_work (sys w) = true) by (apply A4; congruence).
  rewrite (waiting_remove L1 L2 i st) in A2 by done. rewrite Hwk in A1.
  constructor; destruct w; simpl in *; try done.
  - rewrite app_nil_r. apply (asleep_remove _ _ _ i st Hst). rewrite <- A1. apply Permutation_cons_append.
  - intros _ _. change (cmd_work s1 = true). by rewrite Hw1.
Qed.

Lemma step_preserves w w' L : winv w L -> step w w' -> exists L', winv w' L'.
Proof.
  intros HI Hstep.
  destruct Hstep as [w m id cfm s' evs i q H | w i s' evs q Hin H | w id s' b Hm H | w i s' Hin Hc H
    | w s' evs i Hwk Hcw H | w s' evs Hwk Hcw H | w i s' Hwk Hc H].
  - destruct HI as [Hi HS]. destruct (send_msg_inv _ _ _ _ _ _ _ _ _ _ Hi H) as (s0 & s1 & Hi0 & Hw0 & Hq & ->).
    by apply (after_queue_ok w s0 s1 i L q).
  - by eapply again_inv.
  - by eapply msg_inv.
  - by eapply done_inv.
  - by eapply work_push_inv.
  - by eapply work_idle_inv.
  - by eapply work_done_inv.
Qed.

Lemma world0_inv : winv world0 [].
Proof.
  split; [|by constructor]. constructor; try done; try constructor; try done.
  repeat (constructor; [done |]). constructor.
Qed.

Lemma reachable_inv w : reachable w -> exists L, winv w L.
Proof.
  intros H. unfold reachable in H. remember world0 as w0 eqn:E.
  assert (HL : exists L, winv w0 L) by (subst; exists []; apply world0_inv). clear E.
  induction H as [|w1 w2 w3 Hs H IH]; [done |]. apply IH. destruct HL as [L HL].
  by apply (step_preserves w1 w2 L).
Qed.

(** The flags of the slots against the statuses. *)
Definition status_weight (st : status) : nat :=
  match st with Wait => 3 | Flight => 2 | _ => 1 end.

Lemma flagged_slot s L P i st f :
  mgr_inv s L P -> (i, st) ∈ L -> exists c, flagged f s i = f c /\ slot_ok c st.
Proof.
  intros Hi Hin. destruct (slot_of _ _ _ _ _ Hi Hin) as (c & Hc & _ & Hs). exists c. unfold flagged. by rewrite Hc.
Qed.

Lemma filter_fst_ext (L : list (nat * status)) (Q : nat -> Prop) (R : nat * status -> Prop)
    `{!forall i, Decision (Q i)} `{!forall e, Decision (R e)} :
  (forall e, e ∈ L -> (Q e.1 <-> R e)) -> filter Q L.*1 = (filter R L).*1.
Proof.
  induction L as [|e L IH]; intros HQ; [done |]. rewrite fmap_cons.
  assert (HL : filter Q L.*1 = (filter R L).*1) by (apply IH; intros e' He'; apply HQ; by right).
  destruct (decide (R e)) as [HR|HR].
  - rewrite !filter_cons_True, fmap_cons by (first [done | apply HQ; [left | done]]). by rewrite HL.
  - rewrite !filter_cons_False by (first [done | rewrite HQ; [done | left]]). done.
Qed.

Lemma to_push_waiting s L P : mgr_inv s L P -> to_push s = waiting L.
Proof.
  intros Hi. unfold to_push, waiting. rewrite (mi_cmds _ _ _ Hi). apply filter_fst_ext.
  intros [i st] Hin. destruct (flagged_slot _ _ _ _ _ wait_push Hi Hin) as (c & Hf & Hs). cbn. rewrite Hf.
  pose proof (mi_listed _ _ _ Hi) as Hl. rewrite Forall_forall in Hl. specialize (Hl _ Hin). cbn in Hl.
  destruct Hs as (_ & _ & _ & _ & Hs). destruct st; destruct_and?; split; intros; try done;
    try (by rewrite Is_true_true); exfalso; rewrite Is_true_true in *; congruence.
Qed.

Lemma in_flight_status s L P :
  mgr_inv s L P -> in_flight s = (filter (fun e => e.2 = Flight) L).*1.
Proof.
  intros Hi. unfold in_flight. rewrite (mi_cmds _ _ _ Hi). apply filter_fst_ext.
  intros [i st] Hin. destruct (flagged_slot _ _ _ _ _ (fun c => wait_cfm c && negb (wait_push c)) Hi Hin) as (c & Hf & Hs).
  cbn. rewrite Hf. rewrite Is_true_true.
  pose proof (mi_listed _ _ _ Hi) as Hl. rewrite Forall_forall in Hl. specialize (Hl _ Hin). cbn in Hl.
  destruct Hs as (_ & _ & _ & _ & Hs). destruct st; destruct_and?; try done;
    repeat match goal with H : _ c = _ |- _ => rewrite H; clear H end; done.
Qed.

Lemma one_flight (L : list (nat * status)) :
  StronglySorted may_precede L.*2 -> (length (filter (fun e => e.2 = Flight) L) <= 1)%nat.
Proof.
  induction L as [|[i st] L IH]; intros H; [simpl; lia |]. rewrite fmap_cons in H.
  apply StronglySorted_inv in H as [H Hf]. destruct (decide (st = Flight)) as [-> | Hst].
  - rewrite filter_cons_True by done. rewrite filter_none; [simpl; lia |].
    apply (proj1 (Forall_fmap _ _ _)) in Hf. eapply Forall_impl; [exact Hf |].
    intros [j st'] Hp E. cbn in E. by subst st'.
  - rewrite filter_cons_False by done. by apply IH.
Qed.

Lemma work_left_sum s L P : mgr_inv s L P -> work_left s = sum_list (status_weight <$> L.*2).
Proof.
  intros Hi. unfold work_left. rewrite (mi_cmds _ _ _ Hi), <- !list_fmap_compose. f_equal.
  apply list_fmap_ext. intros n [i st] Hn. apply list_elem_of_lookup_2 in Hn.
  pose proof (mi_listed _ _ _ Hi) as Hl. rewrite Forall_forall in Hl. specialize (Hl _ Hn). cbn in Hl.
  destruct (slot_of _ _ _ _ _ Hi Hn) as (c & Hc & _ & Hs). cbn. unfold weight, flagged. rewrite Hc.
  destruct Hs as (_ & _ & _ & _ & Hs). destruct st; destruct_and?; try done;
    repeat match goal with H : _ c = _ |- _ => rewrite H; clear H end; done.
Qed.

Lemma flight_or_not (L : list (nat * status)) :
  (exists L1 i L2, L = L1 ++ (i, Flight) :: L2) \/ (exists L1 i L2, L = L1 ++ (i, Done) :: L2) \/
  Forall (fun e => e.2 = Wait \/ e.2 = Pend) L.
Proof.
  induction L as [|[i st] L IH]; [right; right; constructor |].
  destruct st.
  1, 2: destruct IH as [(L1 & j & L2 & ->) | [(L1 & j & L2 & ->) | H]];
    [left; by eexists (_ :: L1), j, L2 | right; left; by eexists (_ :: L1), j, L2
    | right; right; constructor; [cbn; auto | done]].
  - left. by exists [], i, L.
  - right. left. by exists [], i, L.
Qed.

Lemma work_left_less s s' L1 L2 P P' i st st' :
  mgr_inv s (L1 ++ (i, st) :: L2) P -> mgr_inv s' (L1 ++ (i, st') :: L2) P' ->
  (status_weight st' < status_weight st)%nat -> (work_left s' < work_left s)%nat.
Proof.
  intros Hi Hi' Hw. rewrite (work_left_sum _ _ _ Hi), (work_left_sum _ _ _ Hi').
  rewrite !fmap_app, !sum_list_with_app, !fmap_cons. cbn [sum_list_with snd]. unfold id. lia.
Qed.

Lemma work_left_gone s s' L1 L2 P P' i st :
  mgr_inv s (L1 ++ (i, st) :: L2) P -> mgr_inv s' (L1 ++ L2) P' -> (work_left s' < work_left s)%nat.
Proof.
  intros Hi Hi'. rewrite (work_left_sum _ _ _ Hi), (work_left_sum _ _ _ Hi').
  rewrite !fmap_app, !sum_list_with_app, !fmap_cons. cbn [sum_list_with snd].
  unfold id. destruct st; cbn [status_weight]; lia.
Qed.

(** While commands are listed, the firmware, an issuer or the work item can
    take a step that brings one of them nearer to its end. *)
Lemma progress w L :
  winv w L -> L <> [] ->
  exists w', step w w' /\ (work_left (sys w') < work_left (sys w))%nat /\ enq_log w' = enq_log w.
Proof.
  intros [Hi [A1 A2 A3 A4]] Hne.
  destruct (flight_or_not L) as [(L1 & i & L2 & ->) | [(L1 & i & L2 & ->) | Hw]].
  - destruct (slot_of _ _ _ i Flight Hi) as (c & Hc & _ & Hs); [apply elem_of_app; right; left |].
    destruct (msgind_flight _ _ _ _ _ _ Hi Hc) as (s' & E & Hi' & _).
    eexists. split; [eapply (step_msg w (reqid c)); [|exact E] |].
    { left. exists i, c. rewrite (mi_cmds _ _ _ Hi), fmap_app. destruct Hs as (_ & _ & _ & _ & Hp & Hf & _).
      split; [apply elem_of_app; right; left | done]. }
    split; [|by destruct w]. eapply work_left_less; [exact Hi | exact Hi' | simpl; lia].
  - assert (Hin : i ∈ pushed (L1 ++ (i, Done) :: L2)).
    { rewrite pushed_app. apply elem_of_app. right. left. }
    assert (Hc : confirmed (sys w) i) by (eapply done_confirmed; [exact Hi | apply elem_of_app; right; left]).
    rewrite <- A1 in Hin. apply elem_of_app in Hin as [Hin|Hin].
    + destruct (queue_done_ok _ _ _ _ _ _ Hi) as (s' & E & Hi' & _). eexists.
      split; [by eapply (step_done w i s') |]. split; [|by destruct w].
      eapply work_left_gone; [exact Hi | exact Hi'].
    + destruct (worker w) as [j|] eqn:Ew; [|by apply not_elem_of_nil in Hin].
      apply list_elem_of_singleton in Hin as <-.
      destruct (task_done_ok _ _ _ _ _ _ Hi) as (s' & E & Hi' & _). eexists.
      split; [by eapply (step_work_done w i s') |]. split; [|by destruct w].
      eapply work_left_gone; [exact Hi | exact Hi'].
  - assert (Hall : Forall (fun e => e.2 = Wait) L).
    { pose proof (mi_listed _ _ _ Hi) as Hl. apply Forall_forall. intros e He.
      rewrite Forall_forall in Hw, Hl. specialize (Hl _ He). by destruct (Hw _ He). }
    assert (Hp : pushed L = []).
    { unfold pushed. rewrite filter_none; [done |]. eapply Forall_impl; [exact Hall |]. intros e -> Hx. by apply Hx. }
    destruct L as [|[i st] L2]; [done |]. apply Forall_cons in Hall as [Hst _]. cbn in Hst. subst st.
    destruct (task_push_wait _ _ _ _ Hi) as (s' & evs & E & Hi' & _).
    assert (Hwk : worker w = None).
    { rewrite Hp in A1. apply Permutation_nil_r in A1. apply app_eq_nil in A1 as [_ A1]. by destruct (worker w). }
    eexists. split; [eapply (step_work_push w s' evs i); [done | by apply A3 | done] |].
    split; [|by destruct w]. eapply (work_left_less _ _ [] L2); [exact Hi | exact Hi' | simpl; lia].
Qed.

Lemma drains n w L :
  winv w L -> (work_left (sys w) <= n)%nat ->
  exists w' L', rtc step w w' /\ winv w' L' /\ cmds (sys w') = [] /\ enq_log w' = enq_log w.
Proof.
  revert w L. induction n as [|n IH]; intros w L HI Hn.
  all: destruct (decide (L = [])) as [-> | Hne];
    [exists w, []; split; [apply rtc_refl |]; split; [done |]; split; [apply (mi_cmds _ _ _ (proj1 HI)) | done] |].
  all: destruct (progress w L HI Hne) as (w1 & Hs & Hlt & He); [lia || idtac].
  destruct (step_preserves _ _ _ HI Hs) as (L1 & HI1).
  destruct (IH w1 L1 HI1) as (w' & L' & Hr & HI' & Hc & He'); [lia |].
  exists w', L'. split; [by eapply rtc_l |]. split; [done |]. split; [done |]. congruence.
Qed.

(** *** Draining *)

Lemma drain_loop_ok l s :
  cmds s = l -> NoDup l -> queue_sz s = Z.of_nat (length l) -> queue_sz s <= RWNX_CMD_MAX_QUEUED ->
  Forall (fun i => exists c, cmd_array s !! i = Some c /\ nonblock c = false) l ->
  exists s', drain_loop s l = Ok s' /\ cmds s' = [] /\ queue_sz s' = 0 /\ locked s' = locked s /\
    (forall i, i ∈ l -> confirmed s' i) /\
    (forall i, ~ (i ∈ l) -> cmd_array s' !! i = cmd_array s !! i).
Proof.
  revert s. induction l as [|i l IH]; intros s Hc Hn Hq Hm Hs.
  { exists s. split; [done |]. split; [done |]. split; [done |]. split; [done |].
    split; [intros i Hi; by apply not_elem_of_nil in Hi | done]. }
  apply NoDup_cons in Hn as [Hi Hn]. apply Forall_cons in Hs as [(c & Hl & Hb) Hs].
  cbn [drain_loop]. unfold list_del. rewrite bool_decide_true by (rewrite Hc; left). cbn [mbind res_bind].
  destruct s as [st lk nt qs mx cm wk arr]. unfold get_cmd. simpl in *. subst cm. rewrite Hl. cbn [mbind res_bind].
  rewrite Hb. unfold set_cmd. simpl.
  edestruct (IH (CmdMgrT st lk nt (u32 (qs - 1)) mx l wk (<[i := c <| completions ::= S |>]> arr)))
    as (s' & E & E1 & E2 & E3 & E4 & E5).
  - done.
  - done.
  - simpl. rewrite u32_id by (unfold RWNX_CMD_MAX_QUEUED in *; lia). lia.
  - simpl. rewrite u32_id by (unfold RWNX_CMD_MAX_QUEUED in *; lia). lia.
  - eapply Forall_impl; [apply Forall_and; split; [exact Hs | apply (Forall_forall (fun j => j ∈ l)); auto] |].
    cbn. intros j [(d & Hd & Hbd) Hj]. exists d. by rewrite list_lookup_insert_ne by (intros ->; done).
  - exists s'. simpl in *. split; [|split; [done |]; split; [done |]; split; [done |]; split].
    + rewrite <- E. f_equal. rewrite filter_cons_False by (by intros []).
      rewrite filter_all; [by destruct c; simpl in *; subst |]. apply Forall_forall. by intros j Hj ->.
    + intros j Hj. apply elem_of_cons in Hj as [->|Hj]; [|by apply E4].
      exists (c <| completions ::= S |>). rewrite (E5 i Hi), list_lookup_insert_eq by (by eapply lookup_lt_Some).
      split; [done |]. destruct c; simpl; lia.
    + intros j Hj. rewrite not_elem_of_cons in Hj. destruct Hj as [Hj1 Hj2]. rewrite (E5 j Hj2).
      by rewrite list_lookup_insert_ne.
Qed.

Lemma list_del_gone s i : cmds s = [] -> list_del s i = Fault.
Proof. intros E. unfold list_del. rewrite E, bool_decide_false; [done |]. apply not_elem_of_nil. Qed.

(** *** A dead manager *)

Lemma crashed_queue late s i c :
  state s = CRASHED -> locked s = false -> get_cmd s i = Ok c ->
  cmd_mgr_queue late s i = Ok (set_cmd s i (c <| result := u32 (- EPIPE) |>), [], QErr EPIPE).
Proof.
  intros Hs Hl Hg. unfold cmd_mgr_queue. rewrite Hg. cbn [mbind res_bind].
  unfold queue_enter, spin_lock. rewrite Hl. cbn [mbind res_bind]. destruct s; simpl in *; by subst.
Qed.

(** ** Theorems *)

(** C3. In every reachable state of the issuers, the work item and the firmware (runs
    without time-outs in which each confirmation is for the pushed command or for no
    listed one) the lock is free between the steps, the list holds no command twice, its
    length is queue_sz and at most 16, at most one command is pushed and unconfirmed,
    and the commands pushed so far followed by those still to be pushed are exactly the
    queued ones in queueing order. *)
Theorem commands_in_order w :
  reachable w ->
  locked (sys w) = false /\
  queue_sz (sys w) = Z.of_nat (length (cmds (sys w))) /\ queue_sz (sys w) <= RWNX_CMD_MAX_QUEUED /\
  NoDup (cmds (sys w)) /\ (length (in_flight (sys w)) <= 1)%nat /\
  enq_log w = push_log w ++ to_push (sys w).
Proof.
  intros H. destruct (reachable_inv w H) as (L & Hi & [_ A2 _ _]).
  rewrite (in_flight_status _ _ _ Hi), (to_push_waiting _ _ _ Hi), (mi_cmds _ _ _ Hi), !length_fmap.
  split; [eauto with drv |]. split; [apply (mi_size _ _ _ Hi) |].
  split; [apply (mi_size _ _ _ Hi) |]. split; [|split; [apply one_flight, (mi_order _ _ _ Hi) | done]].
  pose proof (mi_nodup _ _ _ Hi) as Hn. by apply NoDup_app in Hn as [Hn _].
Qed.

(** C20. From every reachable state some sequence of steps of the firmware, the issuers
    and the work item empties the list with every queued command pushed in queueing
    order: no wake-up of the work item is lost. *)
Theorem no_command_stranded w :
  reachable w ->
  exists w', rtc step w w' /\ cmds (sys w') = [] /\ enq_log w' = enq_log w /\ push_log w' = enq_log w.
Proof.
  intros H. destruct (reachable_inv w H) as (L & HI).
  destruct (drains _ w L HI (le_n _)) as (w' & L' & Hr & [Hi [_ A2 _ _]] & Hc & He).
  exists w'. split; [done |]. split; [done |]. split; [done |].
  rewrite (mi_cmds _ _ _ Hi) in Hc. destruct L'; [|by rewrite fmap_cons in Hc].
  rewrite app_nil_r in A2. congruence.
Qed.

(** When a command with a confirmation buffer has waited two seconds for the list
    to empty, the loop is left without the lock and cmd_mgr_queue goes on to release the
    lock it does not hold. *)
Theorem forced_drain_faults s i c :
  get_cmd s i = Ok c -> locked s = false -> state s <> CRASHED -> e2a_msg c = true -> cmds s <> [] ->
  queue_enter true s c = Ok (s, None) /\ cmd_mgr_queue true s i = Fault.
Proof.
  intros Hg Hl Hs He Hc.
  assert (HE : queue_enter true s c = Ok (s, None)).
  { unfold queue_enter, spin_lock. rewrite Hl. cbn [mbind res_bind].
    change (state (s <| locked := true |>)) with (state s). change (cmds (s <| locked := true |>)) with (cmds s).
    rewrite He. destruct (state s); [| |done]; (destruct (cmds s); [done |]);
      unfold spin_unlock; cbn [upd locked mbind res_bind]; do 2 f_equal; by apply (relock s). }
  split; [done |]. unfold cmd_mgr_queue. rewrite Hg. cbn [mbind res_bind]. rewrite HE. cbn [mbind res_bind].
  unfold queue_busy. destruct (last (cmds s)) as [l|] eqn:El; [|by apply last_None in El].
  assert (HU : forall tk c', spin_unlock (link s i (arm tk c' c)) = Fault).
  { intros tk c'. unfold spin_unlock. by destruct s; simpl in *; subst. }
  destruct (queue_sz s =? max_queue_sz s); cbn [mbind res_bind]; [by unfold spin_unlock; rewrite Hl |].
  unfold get_cmd. destruct (cmd_array s !! l); [|done]. cbn [mbind res_bind].
  destruct (a2e_msg c); [|done]. by rewrite HU.
Qed.

(** A command that times out is marked done with -ETIMEDOUT but stays on the list
    and keeps its slot; the manager is crashed, and every later command fails with
    -EPIPE without being sent and without its message being freed, so the manager never
    recovers. *)
Theorem timeout_is_final s i c :
  get_cmd s i = Ok c -> locked s = false -> wait_cfm c = true -> nonblock c = false -> c_done c = false ->
  exists s', queue_timeout s i = Ok (s', [EvReset]) /\ state s' = CRASHED /\
    cmds s' = cmds s /\ queue_sz s' = queue_sz s /\
    get_cmd s' i = Ok (c <| result := u32 (- ETIMEDOUT) |> <| c_done := true |>) /\
    forall late m id cfm s1 j, send_prepare s' m true id cfm = Ok (s1, j) ->
      exists s2, rwnx_send_msg false late s' m true id cfm = Ok (s2, [], Some (j, QErr EPIPE)) /\
        state s2 = CRASHED.
Proof.
  intros Hg Hl Hw Hn Hd. unfold get_cmd in Hg. destruct (cmd_array s !! i) as [c0|] eqn:Ec; [|done].
  injection Hg as ->. destruct s as [st lk nt qs mx cm wk arr]. simpl in *. subst lk.
  exists (CmdMgrT CRASHED false nt qs mx cm wk
    (<[i := c <| result := u32 (- ETIMEDOUT) |> <| c_done := true |>]> arr)).
  apply lookup_lt_Some in Ec as Hlt. split.
  { unfold queue_timeout, spin_lock, get_cmd. simpl. rewrite Ec. cbn [mbind res_bind]. rewrite Hd.
    unfold cmd_complete, get_cmd, set_cmd, wait_complete. simpl. rewrite list_lookup_insert_eq by done.
    destruct c. simpl in *. subst. rewrite orb_true_r. simpl. by rewrite list_insert_insert_eq. }
  split; [done |]. split; [done |]. split; [done |].
  split; [unfold get_cmd; simpl; by rewrite list_lookup_insert_eq |].
  intros late m id cfm s1 j Hp. unfold rwnx_send_msg. rewrite Hp. cbn [mbind res_bind].
  unfold send_prepare, rwnx_cmd_malloc in Hp.
  destruct (find_idx _ _) as [j'|] eqn:Ef; [|discriminate].
  unfold get_cmd in Hp. cbn [upd cmd_array] in Hp. destruct (alter _ j' _ !! j') as [d|] eqn:Ed; [|discriminate].
  cbn [mbind res_bind] in Hp. injection Hp as <- <-. apply lookup_lt_Some in Ed as Hlt'.
  erewrite crashed_queue; [|done|done|unfold get_cmd; simpl in *; by rewrite list_lookup_insert_eq].
  cbn [mbind res_bind]. by eexists.
Qed.

(** cmd_mgr_drain empties the list and completes every command; each issuer (or the
    work item) it wakes then deletes its command from the list a second time. *)
Theorem drain_wakes_into_fault w :
  reachable w ->
  exists s', cmd_mgr_drain (sys w) = Ok s' /\ cmds s' = [] /\ queue_sz s' = 0 /\
    (forall i, i ∈ direct w -> confirmed s' i /\ queue_done s' i = Fault) /\
    (forall i, worker w = Some i -> confirmed s' i /\ task_done s' i = Fault).
Proof.
  intros H. destruct (reachable_inv w H) as (L & Hi & [A1 _ _ _]).
  assert (Hp : forall i, i ∈ direct w ++ opt_list (worker w) -> i ∈ cmds (sys w)).
  { intros i Hin. rewrite A1 in Hin. rewrite (mi_cmds _ _ _ Hi).
    apply pushed_find in Hin as (L1 & L2 & st & -> & _). rewrite fmap_app. apply elem_of_app. right. left. }
  pose proof (mi_nodup _ _ _ Hi) as Hn. apply NoDup_app in Hn as [Hn _].
  destruct (drain_loop_ok (cmds (sys w)) ((sys w) <| locked := true |>)) as (s1 & E & E1 & E2 & E3 & E4 & _).
  { done. }
  { by rewrite (mi_cmds _ _ _ Hi). }
  { rewrite (mi_cmds _ _ _ Hi), length_fmap. apply (mi_size _ _ _ Hi). }
  { apply (mi_size _ _ _ Hi). }
  { rewrite (mi_cmds _ _ _ Hi). apply Forall_fmap. apply Forall_forall. intros [i st] Hin.
    destruct (slot_of _ _ _ _ _ Hi Hin) as (c & Hc & _ & Hs). exists c. split; [done |]. apply Hs. }
  exists (s1 <| locked := false |>). split.
  { unfold cmd_mgr_drain, spin_lock. rewrite (mi_unlocked _ _ _ Hi). cbn [mbind res_bind].
    change (cmds ((sys w) <| locked := true |>)) with (cmds (sys w)). rewrite E. cbn [mbind res_bind].
    unfold spin_unlock. by rewrite E3. }
  assert (Hf : forall i, list_del (s1 <| locked := false |> <| locked := true |>) i = Fault).
  { intros i. by apply list_del_gone. }
  split; [done |]. split; [done |]. split; intros i Hin.
  - split; [apply (E4 i), Hp, elem_of_app; by left |].
    unfold queue_done, spin_lock. cbn [upd locked mbind res_bind]. by rewrite Hf.
  - split; [apply (E4 i), Hp, elem_of_app; right; rewrite Hin; left |].
    unfold task_done, spin_lock. cbn [upd locked mbind res_bind]. by rewrite Hf.
Qed.

(** ** Instances *)

Module Example.

Definition msg (id : Z) : lmac_msg := LmacMsg id 0 100 [1; 2; 3; 4] false.

Definition send (w : world) (id : Z) : world :=
  match rwnx_send_msg false false (sys w) (msg id) true (id + 1) false with
  | Ok (s', _, Some (i, q)) => after_queue w s' i q
  | _ => w
  end.

(** Two commands: the first is pushed, the second waits behind it. *)
Definition w1 : world := send world0 2.
Definition w2 : world := send w1 4.

Lemma send_step w id :
  match rwnx_send_msg false false (sys w) (msg id) true (id + 1) false with
  | Ok (_, _, Some _) => true | _ => false end = true ->
  step w (send w id).
Proof.
  unfold send. destruct (rwnx_send_msg _ _ _ _ _ _ _) as [[[s' evs] [[i q]|]]| |] eqn:E; try discriminate.
  intros _. by eapply step_send.
Qed.

Lemma w2_reachable : reachable w2.
Proof.
  assert (H1 : step world0 w1) by (apply (send_step world0 2); vm_compute; reflexivity).
  assert (H2 : step w1 w2) by (apply (send_step w1 4); vm_compute; reflexivity).
  exact (rtc_l step world0 w1 w2 H1 (rtc_once w1 w2 H2)).
Qed.

Lemma two_commands :
  cmds (sys w2) = [0; 1]%nat /\ in_flight (sys w2) = [0%nat] /\ to_push (sys w2) = [1%nat] /\
  direct w2 = [0%nat] /\ push_log w2 = [0%nat].
Proof. vm_compute. done. Qed.

Lemma commands_in_order_witness :
  reachable w2 /\ enq_log w2 = push_log w2 ++ to_push (sys w2) /\ enq_log w2 = [0; 1]%nat.
Proof.
  split; [apply w2_reachable |]. split; [|vm_compute; reflexivity].
  apply (commands_in_order w2 w2_reachable).
Defined.

Lemma no_command_stranded_witness :
  reachable w2 /\ exists w', rtc step w2 w' /\ cmds (sys w') = [] /\ push_log w' = [0; 1]%nat.
Proof.
  split; [apply w2_reachable |].
  destruct (no_command_stranded w2 w2_reachable) as (w' & Hr & Hc & _ & Hp).
  exists w'. split; [exact Hr |]. split; [exact Hc |]. rewrite Hp. vm_compute. reflexivity.
Defined.

(** A third command, with a confirmation buffer, prepared in slot 2. *)
Definition prepared : rwnx_cmd_mgr :=
  match send_prepare (sys w2) (msg 6) true 7 true with Ok (s, _) => s | _ => sys w2 end.
Definition cmd_of (s : rwnx_cmd_mgr) (i : nat) : rwnx_cmd :=
  match get_cmd s i with Ok c => c | _ => free_slot end.

Lemma forced_drain_faults_witness :
  cmds prepared = [0; 1]%nat /\ cmd_mgr_queue true prepared 2 = Fault.
Proof.
  split; [vm_compute; reflexivity |].
  apply (forced_drain_faults prepared 2 (cmd_of prepared 2)); vm_compute; congruence.
Defined.

Lemma timeout_is_final_witness :
  exists s', queue_timeout (sys w2) 0 = Ok (s', [EvReset]) /\ state s' = CRASHED /\ cmds s' = [0; 1]%nat.
Proof.
  destruct (timeout_is_final (sys w2) 0 (cmd_of (sys w2) 0)) as (s' & E & Hs & Hc & _);
    try (vm_compute; reflexivity).
  exists s'. split; [exact E |]. split; [exact Hs |]. rewrite Hc. vm_compute. reflexivity.
Defined.

Lemma drain_wakes_into_fault_witness :
  exists s', cmd_mgr_drain (sys w2) = Ok s' /\ confirmed s' 0 /\ queue_done s' 0 = Fault.
Proof.
  destruct (drain_wakes_into_fault w2 w2_reachable) as (s' & E & _ & _ & Hd & _).
  exists s'. split; [exact E |]. apply Hd. vm_compute. left.
Defined.

End Example.

End CmdMgr.
