(* ===== verification/CmdTx.v ===== *)
(** * The frame of a command (aicwf_set_cmd_tx of rwnx_cmds.c, put_u16 of
    rwnx_cmds.h, crc8_ponl_107 of aicwf_sdio.c)

    What [EvTx m] of the command manager puts on the bus: a header of four
    bytes (length, type, CRC on the chips that have one), a dummy word, the
    four fields of the message and its parameters, built in the command buffer
    of [CMD_BUF_MAX] bytes. *)

From stdpp Require Import prelude.
From S2P Require Import Prelude CmdMgr.
Open Scope Z_scope.

Module CmdTx.

(** ** The check sum *)

(** One bit of the data (mask [i] of the byte [b]). *)
Definition crc_bit (b : Z) (crc : Z) (i : Z) : Z :=
  let crc := if Z.land crc 0x80 =? 0 then u8 (crc * 2) else Z.lxor (u8 (crc * 2)) 0x07 in
  if Z.land b i =? 0 then crc else Z.lxor crc 0x07.

Definition crc_byte (crc b : Z) : Z :=
  fold_left (crc_bit b) [0x80; 0x40; 0x20; 0x10; 0x08; 0x04; 0x02; 0x01] crc.

(** The first [cal_size] bytes of the buffer. *)
Fixpoint crc_loop (buf : list Z) (p : Z) (cal_size : nat) (crc : Z) : res Z :=
  match cal_size with
  | O => Ok crc
  | S n => b ← rd buf p; crc_loop buf (p + 1) n (crc_byte crc b)
  end.

Definition crc8_ponl_107 (buf : list Z) (cal_size : nat) : res Z := crc_loop buf 0 cal_size 0.

(** ** The frame *)

Inductive chip :=
| PRODUCT_ID_AIC8801 | PRODUCT_ID_AIC8800DC | PRODUCT_ID_AIC8800DW
| PRODUCT_ID_AIC8800D80 | PRODUCT_ID_AIC8800D80N | PRODUCT_ID_AIC8800D80WN | PRODUCT_ID_AIC8800D80X2.

Definition has_crc (c : chip) : bool :=
  match c with
  | PRODUCT_ID_AIC8801 | PRODUCT_ID_AIC8800DC | PRODUCT_ID_AIC8800DW => false
  | _ => true
  end.

(** A store of one byte. *)
Definition st (buf : list Z) (i v : Z) : res (list Z) :=
  if (0 <=? i) && (i <? Z.of_nat (length buf)) then Ok (<[Z.to_nat i := v]> buf) else Fault.

Definition put_u16 (buf : list Z) (i data : Z) : res (list Z) :=
  buf ← st buf i (u8 (Z.land data 0x00ff));
  st buf (i + 1) (u8 (Z.land (Z.shiftr data 8) 0x00ff)).

Fixpoint memcpy (buf : list Z) (i : Z) (src : list Z) : res (list Z) :=
  match src with
  | [] => Ok buf
  | b :: src => buf ← st buf i b; memcpy buf (i + 1) src
  end.

(** The bytes handed to [aicwf_bus_txmsg]. *)
Definition aicwf_set_cmd_tx (c : chip) (m : CmdMgr.lmac_msg) (len : Z) : res (list Z) :=
  let buffer := replicate (Z.to_nat CmdMgr.CMD_BUF_MAX) 0 in
  buffer ← st buffer 0 (u8 (Z.land (len + 4) 0x00ff));
  buffer ← st buffer 1 (u8 (Z.land (Z.shiftr (len + 4) 8) 0x0f));
  buffer ← st buffer 2 0x11;
  crc ← (if has_crc c then crc8_ponl_107 buffer 3 else Ok 0);
  buffer ← st buffer 3 crc;
  buffer ← put_u16 buffer 8 (CmdMgr.msg_id m);
  buffer ← put_u16 buffer 10 (CmdMgr.dest_id m);
  buffer ← put_u16 buffer 12 (CmdMgr.src_id m);
  buffer ← put_u16 buffer 14 (CmdMgr.param_len m);
  buffer ← memcpy buffer 16 (CmdMgr.param m);
  if len + 8 <=? Z.of_nat (length buffer) then Ok (take (Z.to_nat (len + 8)) buffer) else Fault.

(** The length the command manager passes: [sizeof(struct lmac_msg)] and the
    parameters. *)
Definition cmd_frame (c : chip) (m : CmdMgr.lmac_msg) : res (list Z) :=
  aicwf_set_cmd_tx c m (8 + CmdMgr.param_len m).

(** ** Lemmas *)

Fixpoint crc_list (crc : Z) (l : list Z) : Z :=
  match l with
  | [] => crc
  | b :: l => crc_list (crc_byte crc b) l
  end.

Lemma crc_loop_list l pre post crc :
  crc_loop (pre ++ l ++ post) (Z.of_nat (length pre)) (length l) crc = Ok (crc_list crc l).
Proof.
  revert pre crc. induction l as [|b l IH]; intros pre crc; [done |]. cbn [length crc_loop crc_list app].
  rewrite (rd_app_at pre b (l ++ post) (Z.of_nat (length pre))) by done. cbn [mbind res_bind].
  rewrite <- (IH (pre ++ [b])), length_app. simpl. rewrite <- app_assoc. simpl. f_equal. lia.
Qed.

Lemma crc8_list l post : crc8_ponl_107 (l ++ post) (length l) = Ok (crc_list 0 l).
Proof. apply (crc_loop_list l [] post). Qed.

(** *** The step of the check sum is linear over exclusive or *)

Lemma u8_double_xor x y : u8 (Z.lxor x y * 2) = Z.lxor (u8 (x * 2)) (u8 (y * 2)).
Proof.
  rewrite !u8_land, <- land_lxor_distr. f_equal.
  change 2 with (2 ^ 1). rewrite <- !Z.shiftl_mul_pow2 by lia. apply Z.shiftl_lxor.
Qed.

Definition bit7 (b : bool) : Z := if b then 7 else 0.

Lemma bit7_xor a b : bit7 (xorb a b) = Z.lxor (bit7 a) (bit7 b).
Proof. by destruct a, b. Qed.

Lemma crc_bit_eq b crc k :
  0 <= k ->
  crc_bit b crc (2 ^ k) =
    Z.lxor (u8 (crc * 2)) (Z.lxor (bit7 (Z.testbit crc 7)) (bit7 (Z.testbit b k))).
Proof.
  intros Hk. unfold crc_bit. change 0x80 with (2 ^ 7). rewrite !mask_bit by lia.
  destruct (Z.testbit crc 7), (Z.testbit b k); cbn; by rewrite ?Z.lxor_assoc, ?Z.lxor_0_r.
Qed.

Lemma lxor_swap a b c d : Z.lxor (Z.lxor a b) (Z.lxor c d) = Z.lxor (Z.lxor a c) (Z.lxor b d).
Proof. by rewrite !Z.lxor_assoc, <- (Z.lxor_assoc b), (Z.lxor_comm b c), Z.lxor_assoc. Qed.

Lemma crc_bit_xor b b' c c' k :
  0 <= k -> crc_bit (Z.lxor b b') (Z.lxor c c') (2 ^ k) = Z.lxor (crc_bit b c (2 ^ k)) (crc_bit b' c' (2 ^ k)).
Proof.
  intros Hk. rewrite !crc_bit_eq, u8_double_xor, !Z.lxor_spec, !bit7_xor by done.
  by rewrite (lxor_swap (bit7 _)), lxor_swap.
Qed.

Definition masks : list Z := (fun k => 2 ^ k) <$> [7; 6; 5; 4; 3; 2; 1; 0].

Lemma crc_byte_masks c b : crc_byte c b = fold_left (crc_bit b) masks c.
Proof. reflexivity. Qed.

Lemma crc_byte_xor c c' b b' :
  crc_byte (Z.lxor c c') (Z.lxor b b') = Z.lxor (crc_byte c b) (crc_byte c' b').
Proof.
  rewrite !crc_byte_masks. unfold masks. cbn [fmap list_fmap fold_left]. by rewrite !crc_bit_xor by lia.
Qed.

Lemma crc_bit_byte b c k : 0 <= k -> is_byte (crc_bit b c (2 ^ k)).
Proof.
  intros Hk. rewrite crc_bit_eq by done. apply lxor_byte; [apply u8_byte |].
  destruct (Z.testbit c 7), (Z.testbit b k); vm_compute; by split.
Qed.

Lemma crc_byte_byte c b : is_byte (crc_byte c b).
Proof. rewrite crc_byte_masks. unfold masks. cbn [fmap list_fmap fold_left]. by apply crc_bit_byte. Qed.

(** *** What the 256 bytes show *)

Definition bytes : list Z := Z.of_nat <$> seq 0 256.

Lemma in_bytes b : is_byte b -> b ∈ bytes.
Proof.
  intros Hb. unfold is_byte in Hb. apply list_elem_of_fmap. exists (Z.to_nat b). split; [lia |].
  apply elem_of_seq. lia.
Qed.

Definition byte_check (x : Z) : bool :=
  ((x =? 0) || (negb (crc_byte 0 x =? 0) && negb (crc_byte x 0 =? 0))) && (crc_byte x x =? 0).

Lemma bytes_checked : forallb byte_check bytes = true.
Proof. vm_compute. reflexivity. Qed.

Lemma byte_checked x : is_byte x -> byte_check x = true.
Proof.
  intros Hx. pose proof bytes_checked as H. rewrite forallb_forall in H. apply H.
  apply list_elem_of_In, in_bytes, Hx.
Qed.

(** Appended to the data it gives zero. *)
Lemma crc_residue c : is_byte c -> crc_byte c c = 0.
Proof. intros H%byte_checked. unfold byte_check in H. apply andb_true_iff in H as [_ H]. by apply Z.eqb_eq. Qed.

Lemma crc_kernel x : is_byte x -> crc_byte 0 x = 0 \/ crc_byte x 0 = 0 -> x = 0.
Proof.
  intros H%byte_checked. unfold byte_check in H. apply andb_true_iff in H as [H _].
  apply orb_true_iff in H as [H|H]; [by apply Z.eqb_eq in H |]. apply andb_true_iff in H as [H1 H2].
  apply negb_true_iff, Z.eqb_neq in H1, H2. tauto.
Qed.

Lemma crc_inj_byte c x y : is_byte x -> is_byte y -> crc_byte c x = crc_byte c y -> x = y.
Proof.
  intros Hx Hy E. apply Z.lxor_eq, crc_kernel; [by apply lxor_byte |]. left.
  pose proof (crc_byte_xor c c x y) as H. by rewrite E, !Z.lxor_nilpotent in H.
Qed.

Lemma crc_inj_crc c d x : is_byte c -> is_byte d -> crc_byte c x = crc_byte d x -> c = d.
Proof.
  intros Hc Hd E. apply Z.lxor_eq, crc_kernel; [by apply lxor_byte |]. right.
  pose proof (crc_byte_xor c d x x) as H. by rewrite E, !Z.lxor_nilpotent in H.
Qed.

Lemma crc_list_byte c l : is_byte c -> is_byte (crc_list c l).
Proof. revert c. induction l as [|b l IH]; intros c Hc; [exact Hc |]. cbn [crc_list]. apply IH, crc_byte_byte. Qed.

Lemma crc_list_inj c d l : is_byte c -> is_byte d -> crc_list c l = crc_list d l -> c = d.
Proof.
  revert c d. induction l as [|b l IH]; intros c d Hc Hd E; [done |].
  cbn [crc_list] in E. apply (crc_inj_crc c d b Hc Hd). exact (IH _ _ (crc_byte_byte c b) (crc_byte_byte d b) E).
Qed.

Lemma crc_list_app c l1 l2 : crc_list c (l1 ++ l2) = crc_list (crc_list c l1) l2.
Proof. revert c. induction l1 as [|b l1 IH]; intros c; [reflexivity |]. cbn [app crc_list]. apply IH. Qed.

(** *** Stores into the buffer *)

Lemma st_at pre x v l i :
  i = Z.of_nat (length pre) -> st (pre ++ x :: l) i v = Ok (pre ++ v :: l).
Proof.
  intros ->. unfold st. rewrite length_app. cbn [length].
  destruct (Z.leb_spec 0 (Z.of_nat (length pre))); [|lia].
  destruct (Z.ltb_spec (Z.of_nat (length pre)) (Z.of_nat (length pre + S (length l)))); [|lia]. cbn [andb].
  by rewrite Nat2Z.id, insert_app_r_alt, Nat.sub_diag by lia.
Qed.

Lemma st_outside buf i v : Z.of_nat (length buf) <= i -> st buf i v = Fault.
Proof.
  intros Hi. unfold st. destruct (Z.ltb_spec i (Z.of_nat (length buf))); [lia |]. by rewrite andb_false_r.
Qed.

Lemma memcpy_at src pre old post i :
  i = Z.of_nat (length pre) -> length old = length src ->
  memcpy (pre ++ old ++ post) i src = Ok (pre ++ src ++ post).
Proof.
  revert pre old i. induction src as [|b src IH]; intros pre old i Hi Ho; (destruct old as [|x old]; [|]); try done.
  cbn [memcpy]. simpl app. rewrite (st_at pre x b (old ++ post) i Hi). cbn [mbind res_bind].
  specialize (IH (pre ++ [b]) old (i + 1)). rewrite <- !app_assoc in IH. apply IH; [rewrite length_app; simpl; lia |].
  simpl in Ho. lia.
Qed.

Lemma memcpy_outside src buf i :
  0 <= i -> i <= Z.of_nat (length buf) -> Z.of_nat (length buf) < i + Z.of_nat (length src) ->
  memcpy buf i src = Fault.
Proof.
  revert buf i. induction src as [|b src IH]; intros buf i H0 Hi Hl; [simpl in Hl; lia |]. cbn [memcpy].
  unfold st. destruct (Z.leb_spec 0 i); [|lia]. destruct (Z.ltb_spec i (Z.of_nat (length buf))); [|done].
  cbn [andb mbind res_bind]. simpl in Hl. apply IH; rewrite ?length_insert; lia.
Qed.

Lemma st_in buf i v :
  0 <= i < Z.of_nat (length buf) -> st buf i v = Ok (<[Z.to_nat i := v]> buf).
Proof.
  intros Hi. unfold st. destruct (Z.leb_spec 0 i); [|lia]. destruct (Z.ltb_spec i (Z.of_nat (length buf))); [done | lia].
Qed.

(** The two bytes of a number. *)
Lemma lo_hi x k :
  0 <= k <= 8 -> 0 <= x < 2 ^ (8 + k) ->
  u8 (Z.land x 0x00ff) + 2 ^ 8 * u8 (Z.land (Z.shiftr x 8) (Z.ones k)) = x.
Proof.
  intros Hk Hx. change 0x00ff with (Z.ones 8). rewrite !Z.land_ones, Z.shiftr_div_pow2 by lia.
  assert (0 <= x `div` 2 ^ 8 < 2 ^ k).
  { split; [apply Z.div_pos; lia |]. apply Z.div_lt_upper_bound; [lia |]. rewrite <- Z.pow_add_r; lia. }
  assert (2 ^ k <= 2 ^ 8) by (apply Z.pow_le_mono_r; lia).
  rewrite (Z.mod_small (x `div` 2 ^ 8)) by lia. unfold u8.
  rewrite Z.mod_mod, (Z.mod_small (x `div` 2 ^ 8)) by lia. pose proof (Z.div_mod x (2 ^ 8)). lia.
Qed.

#[local] Opaque crc_byte Z.land Z.shiftr u8.

Definition lo (x : Z) : Z := u8 (Z.land x 0x00ff).
Definition hi (x : Z) : Z := u8 (Z.land (Z.shiftr x 8) 0x00ff).

(** The first sixteen bytes. *)
Definition head (c : chip) (m : CmdMgr.lmac_msg) : list Z :=
  let l := 12 + CmdMgr.param_len m in
  let h := [lo l; u8 (Z.land (Z.shiftr l 8) 0x0f); 0x11] in
  h ++ [if has_crc c then crc_list 0 h else 0; 0; 0; 0; 0] ++
  [lo (CmdMgr.msg_id m); hi (CmdMgr.msg_id m); lo (CmdMgr.dest_id m); hi (CmdMgr.dest_id m);
   lo (CmdMgr.src_id m); hi (CmdMgr.src_id m); lo (CmdMgr.param_len m); hi (CmdMgr.param_len m)].

(** The stores before the parameters. *)
Definition store_head (c : chip) (m : CmdMgr.lmac_msg) (len : Z) (buffer : list Z) : res (list Z) :=
  buffer ← st buffer 0 (u8 (Z.land (len + 4) 0x00ff));
  buffer ← st buffer 1 (u8 (Z.land (Z.shiftr (len + 4) 8) 0x0f));
  buffer ← st buffer 2 0x11;
  crc ← (if has_crc c then crc8_ponl_107 buffer 3 else Ok 0);
  buffer ← st buffer 3 crc;
  buffer ← put_u16 buffer 8 (CmdMgr.msg_id m);
  buffer ← put_u16 buffer 10 (CmdMgr.dest_id m);
  buffer ← put_u16 buffer 12 (CmdMgr.src_id m);
  put_u16 buffer 14 (CmdMgr.param_len m).

Lemma set_cmd_tx_split c m len :
  aicwf_set_cmd_tx c m len =
    buffer ← store_head c m len (replicate (Z.to_nat CmdMgr.CMD_BUF_MAX) 0);
    buffer ← memcpy buffer 16 (CmdMgr.param m);
    if len + 8 <=? Z.of_nat (length buffer) then Ok (take (Z.to_nat (len + 8)) buffer) else Fault.
Proof.
  unfold aicwf_set_cmd_tx, store_head. generalize (replicate (Z.to_nat CmdMgr.CMD_BUF_MAX) 0). intros b0.
  do 9 (match goal with |- _ ≫= _ ?m = _ => destruct m | |- mbind _ ?m = _ => destruct m end;
        [cbn [mbind res_bind] | reflexivity | reflexivity]).
  reflexivity.
Qed.

Lemma head_stores c m len T :
  len = 8 + CmdMgr.param_len m -> (1 <= length T)%nat ->
  store_head c m len (replicate 16 0 ++ T) = Ok (head c m ++ T).
Proof.
  intros -> HT. unfold store_head. replace (8 + CmdMgr.param_len m + 4) with (12 + CmdMgr.param_len m) by lia.
  unfold store_head, put_u16. cbn [replicate app].
  do 3 (rewrite st_in by (rewrite ?length_insert; cbn [length]; lia); cbn [mbind res_bind]).
  set (h := [lo (12 + CmdMgr.param_len m); u8 (Z.land (Z.shiftr (12 + CmdMgr.param_len m) 8) 0x0f); 0x11]).
  assert (Hcrc : forall l, (if has_crc c then crc8_ponl_107 (h ++ l) 3 else Ok 0) =
                 Ok (if has_crc c then crc_list 0 h else 0)).
  { intros l. destruct (has_crc c); [apply (crc8_list h) | done]. }
  match goal with |- context [crc8_ponl_107 ?b 3] => change b with (h ++ replicate 13 0 ++ T) end.
  rewrite Hcrc. cbn [mbind res_bind].
  repeat (rewrite st_in by (rewrite ?length_insert, ?length_app, ?length_replicate; cbn [length h]; lia);
    cbn [mbind res_bind]).
  reflexivity.
Qed.

Lemma buffer_split : replicate (Z.to_nat CmdMgr.CMD_BUF_MAX) 0 = replicate 16 0 ++ replicate 1520 0.
Proof. reflexivity. Qed.

Lemma head_length c m : length (head c m) = 16%nat.
Proof. reflexivity. Qed.

(** ** Theorems *)

(** The frame of a command has the length field, the type, the message header
    fields in little-endian order and the parameters unchanged where the firmware reads
    them, with a header check sum of residue 0 on the chips that have one, for
    parameters of up to 1520 bytes; longer parameters are written past the command
    buffer. *)
Theorem cmd_frame_layout c m :
  is_bytes (CmdMgr.param m) -> 0 <= CmdMgr.msg_id m < 2 ^ 16 -> 0 <= CmdMgr.dest_id m < 2 ^ 16 ->
  0 <= CmdMgr.src_id m < 2 ^ 16 ->
  (CmdMgr.param_len m <= 1520 ->
   exists f, cmd_frame c m = Ok f /\ length f = (16 + length (CmdMgr.param m))%nat /\
     rd_le16 f 0 = Ok (12 + CmdMgr.param_len m) /\ rd f 2 = Ok 0x11 /\
     (has_crc c = true -> crc8_ponl_107 f 4 = Ok 0) /\
     rd_le16 f 8 = Ok (CmdMgr.msg_id m) /\ rd_le16 f 10 = Ok (CmdMgr.dest_id m) /\
     rd_le16 f 12 = Ok (CmdMgr.src_id m) /\ rd_le16 f 14 = Ok (CmdMgr.param_len m) /\
     drop 16 f = CmdMgr.param m) /\
  (1520 < CmdMgr.param_len m -> cmd_frame c m = Fault).
Proof.
  intros Hb Hid Hd Hs. unfold cmd_frame. rewrite set_cmd_tx_split, buffer_split, head_stores by (simpl; lia).
  cbn [mbind res_bind]. unfold CmdMgr.param_len in *. set (p := CmdMgr.param m) in *. split; intros Hl.
  - replace (replicate 1520 0) with (replicate (length p) 0 ++ replicate (1520 - length p) 0)
      by (rewrite <- replicate_add; f_equal; lia).
    rewrite (memcpy_at p (head c m)) by (rewrite ?head_length, ?length_replicate; done).
    cbn [mbind res_bind]. rewrite !length_app, head_length, length_replicate.
    destruct (Z.leb_spec (8 + Z.of_nat (length p) + 8) (Z.of_nat (16 + (length p + (1520 - length p))))); [|lia].
    exists (head c m ++ p). split.
    { f_equal. rewrite app_assoc, take_app_length'; [done |]. rewrite length_app, head_length. lia. }
    rewrite length_app, head_length. split; [done |].
    assert (HL : 0 <= 12 + Z.of_nat (length p) < 2 ^ (8 + 4)) by lia.
    pose proof (lo_hi _ 4 ltac:(lia) HL) as E0. change (Z.ones 4) with 0x0f in E0.
    pose proof (lo_hi _ 8 ltac:(lia) Hid) as E1. pose proof (lo_hi _ 8 ltac:(lia) Hd) as E2.
    pose proof (lo_hi _ 8 ltac:(lia) Hs) as E3.
    pose proof (lo_hi (Z.of_nat (length p)) 8 ltac:(lia) ltac:(lia)) as E4.
    change (Z.ones 8) with 0xff in *.
    split; [rewrite <- E0; reflexivity |]. split; [reflexivity |].
    split; [|split; [rewrite <- E1; reflexivity |]; split; [rewrite <- E2; reflexivity |];
             split; [rewrite <- E3; reflexivity |]; split; [rewrite <- E4; reflexivity | reflexivity]].
    intros Hc. unfold head. rewrite Hc. rewrite <- !app_assoc.
    set (h := [_; _; 0x11]). change 4%nat with (length (h ++ [crc_list 0 h])).
    cbn [app]. change (h ++ crc_list 0 h :: ?l) with (h ++ [crc_list 0 h] ++ l).
    rewrite app_assoc, crc8_list, crc_list_app. cbn [crc_list]. f_equal. apply crc_residue, crc_list_byte.
    unfold is_byte. lia.
  - rewrite memcpy_outside; [done | lia | |]; rewrite length_app, head_length, length_replicate; lia.
Qed.

(** Changing one byte anywhere in the data changes the CRC-8 of the header. *)
Theorem crc_detects_one_byte l x y r :
  is_byte x -> is_byte y -> x <> y ->
  crc8_ponl_107 (l ++ x :: r) (length (l ++ x :: r)) <> crc8_ponl_107 (l ++ y :: r) (length (l ++ y :: r)).
Proof.
  intros Hx Hy Hne. rewrite <- (app_nil_r (l ++ x :: r)) at 1. rewrite <- (app_nil_r (l ++ y :: r)) at 1.
  rewrite !crc8_list, !crc_list_app. cbn [crc_list]. intros [= E]. apply Hne, (crc_inj_byte (crc_list 0 l)); [done | done |].
  apply crc_list_inj in E; [done | apply crc_byte_byte | apply crc_byte_byte].
Qed.

(** ** Instances *)

Module Example.

Definition msg : CmdMgr.lmac_msg := CmdMgr.LmacMsg 0x0102 3 100 [1; 2; 3; 4] false.

Lemma cmd_frame_layout_witness :
  exists f, cmd_frame PRODUCT_ID_AIC8800D80 msg = Ok f /\ length f = 20%nat /\ rd_le16 f 0 = Ok 16 /\
    crc8_ponl_107 f 4 = Ok 0 /\ drop 16 f = [1; 2; 3; 4].
Proof.
  destruct (cmd_frame_layout PRODUCT_ID_AIC8800D80 msg) as [H _];
    try (unfold msg; simpl; split; [lia | reflexivity]).
  { repeat constructor; lia. }
  destruct H as (f & E & El & Eh & _ & Ec & _ & _ & _ & _ & Ep); [unfold CmdMgr.param_len; simpl; lia |].
  exists f. split; [exact E |]. split; [exact El |]. split; [exact Eh |]. split; [|exact Ep].
  apply Ec. reflexivity.
Defined.

Lemma crc_detects_one_byte_witness :
  crc8_ponl_107 [16; 0; 0x11] 3 <> crc8_ponl_107 [16; 1; 0x11] 3.
Proof. apply (crc_detects_one_byte [16] 0 1 [0x11]); unfold is_byte; lia. Defined.

End Example.

End CmdTx.
