(* ===== verification/Txq.v ===== *)
(** * Transmit queues (rwnx_txq.c, rwnx_txq.h; the power-save, push and
    confirmation functions of rwnx_tx.c)

    Every station has nine transmit queues (one per TID and one for management
    frames), every interface one for group-addressed frames and one for
    unknown stations, and there is one for off-channel frames.  A queue that
    may be served is linked into the list of its hardware queue; serving a
    hardware queue pushes up to the credits of each listed queue to the bus.

    The array [txqs] has all queues, [hwqs] the hardware queues with their
    lists of queue indices, [stas] the station table; a queue or a station is
    named by its index.  All functions run under tx_lock, so an operation is
    one step.  A failed BUG_ON is a [Fault].  Transmit descriptors are in
    [Xmit]; A-MSDU and MU-MIMO, which the Makefile leaves out, are not modelled. *)

From stdpp Require Import prelude.
From S2P Require Import Prelude.
Open Scope Z_scope.

Module Txq.

(** ** Data *)

Definition NX_NB_TID_PER_STA : nat := 8.
Definition NX_NB_TXQ_PER_STA : nat := 9.
Definition NX_VIRT_DEV_MAX : nat := 4.
Definition NX_TXQ_INITIAL_CREDITS : Z := 64.
Definition RWNX_NDEV_FLOW_CTRL_STOP : Z := 64.
Definition RWNX_NDEV_FLOW_CTRL_RESTART : Z := 64.
Definition PS_SP_INTERRUPTED : Z := 255.
Definition NX_BCMC_TXQ_TYPE : nat := 0.
Definition NX_UNK_TXQ_TYPE : nat := 1.
Definition TID_MGT : nat := 8.

(** [enum rwnx_txq_flags]; RWNX_TXQ_STOP is the union of five of them. *)
Definition RWNX_TXQ_IN_HWQ_LIST : Z := 1.
Definition RWNX_TXQ_STOP_FULL : Z := 2.
Definition RWNX_TXQ_STOP_CSA : Z := 4.
Definition RWNX_TXQ_STOP_STA_PS : Z := 8.
Definition RWNX_TXQ_STOP_VIF_PS : Z := 16.
Definition RWNX_TXQ_STOP_CHAN : Z := 32.
Definition RWNX_TXQ_STOP : Z := 62.
Definition RWNX_TXQ_NDEV_FLOW_CTRL : Z := 128.

Definition RWNX_HWQ_BK : nat := 0.
Definition RWNX_HWQ_BE : nat := 1.
Definition RWNX_HWQ_VI : nat := 2.
Definition RWNX_HWQ_VO : nat := 3.
Definition nx_txdesc_cnt : list Z := [8; 64; 64; 32].
Definition rwnx_tid2hwq (tid : nat) : nat :=
  nth tid [RWNX_HWQ_BE; RWNX_HWQ_BK; RWNX_HWQ_BK; RWNX_HWQ_BE; RWNX_HWQ_VI; RWNX_HWQ_VI;
           RWNX_HWQ_VO; RWNX_HWQ_VO; RWNX_HWQ_VO] RWNX_HWQ_BE.
Definition nx_tid_prio : list nat := [7; 6; 5; 4; 3; 0; 2; 1]%nat.

Inductive psid := LEGACY_PS_ID | UAPSD_ID.
#[global] Instance psid_eq_dec : EqDecision psid.
Proof. solve_decision. Defined.

(** A buffer with the fields of its software header that the queues use. *)
Record skb := Skb { s_id : nat; s_txq : nat; s_sta : option nat }.

Record rwnx_txq := TxqT {
  active : bool; status : Z; credits : Z; pkt_sent : Z; pkt_pushed : Z;
  sk_list : list skb; last_retry_skb : option nat; nb_retry : Z; t_hwq : nat; push_limit : Z;
  t_tid : nat; t_sta : option nat; ps_id : psid; ndev_idx : option nat }.

#[global] Instance eta_txq : Settable rwnx_txq := fun r =>
  TxqT (active r) (status r) (credits r) (pkt_sent r) (pkt_pushed r) (sk_list r) (last_retry_skb r)
    (nb_retry r) (t_hwq r) (push_limit r) (t_tid r) (t_sta r) (ps_id r) (ndev_idx r).

Record rwnx_hwq := HwqT { h_list : list nat; h_size : Z; need_processing : bool }.

#[global] Instance eta_hwq : Settable rwnx_hwq := fun r =>
  HwqT (h_list r) (h_size r) (need_processing r).

(** [struct rwnx_sta_ps] with the pairs taken apart. *)
Record rwnx_sta := StaT {
  sta_idx : nat; vif_idx : nat; uapsd_tids : Z;
  ps_active : bool; ready_legacy : Z; ready_uapsd : Z; sp_legacy : Z; sp_uapsd : Z }.

#[global] Instance eta_sta : Settable rwnx_sta := fun r =>
  StaT (sta_idx r) (vif_idx r) (uapsd_tids r) (ps_active r) (ready_legacy r) (ready_uapsd r)
    (sp_legacy r) (sp_uapsd r).

(** [old_ic]: AIC8801, or AIC8800DC/DW before revision 3. *)
Record rwnx_hw := HwT {
  old_ic : bool; txqs : list rwnx_txq; hwqs : list rwnx_hwq; stas : list rwnx_sta }.

#[global] Instance eta_hw : Settable rwnx_hw := fun r =>
  HwT (old_ic r) (txqs r) (hwqs r) (stas r).

Inductive event :=
| EvTx (b : skb) (hwq : nat)                         (* aicwf_frame_tx *)
| EvFree (b : skb)                                    (* flushed from a queue *)
| EvDone (b : skb)                                    (* released when confirmed *)
| EvReject (b : skb)                                  (* dropped: its queue is not active *)
| EvStopSubq (ndev : nat) | EvWakeSubq (ndev : nat)
| EvTraffic (sta : nat) (available : bool) (p : psid)  (* rwnx_set_traffic_status *)
| EvMgmtStatus (b : skb).                            (* cfg80211_mgmt_tx_status *)

(** ** Access *)

Definition get_txq (s : rwnx_hw) (i : nat) : res rwnx_txq :=
  match txqs s !! i with Some t => Ok t | None => Fault end.
Definition get_hwq (s : rwnx_hw) (h : nat) : res rwnx_hwq :=
  match hwqs s !! h with Some q => Ok q | None => Fault end.
Definition get_sta (s : rwnx_hw) (j : nat) : res rwnx_sta :=
  match stas s !! j with Some a => Ok a | None => Fault end.
Definition set_txq (s : rwnx_hw) (i : nat) (t : rwnx_txq) : rwnx_hw := s <| txqs ::= <[i := t]> |>.
Definition set_hwq (s : rwnx_hw) (h : nat) (q : rwnx_hwq) : rwnx_hw := s <| hwqs ::= <[h := q]> |>.
Definition set_sta (s : rwnx_hw) (j : nat) (a : rwnx_sta) : rwnx_hw := s <| stas ::= <[j := a]> |>.

Definition pkt_ready (a : rwnx_sta) (p : psid) : Z :=
  match p with LEGACY_PS_ID => ready_legacy a | UAPSD_ID => ready_uapsd a end.
Definition sp_cnt (a : rwnx_sta) (p : psid) : Z :=
  match p with LEGACY_PS_ID => sp_legacy a | UAPSD_ID => sp_uapsd a end.
Definition set_ready (a : rwnx_sta) (p : psid) (n : Z) : rwnx_sta :=
  match p with LEGACY_PS_ID => a <| ready_legacy := u16 n |> | UAPSD_ID => a <| ready_uapsd := u16 n |> end.
Definition set_sp (a : rwnx_sta) (p : psid) (n : Z) : rwnx_sta :=
  match p with LEGACY_PS_ID => a <| sp_legacy := u16 n |> | UAPSD_ID => a <| sp_uapsd := u16 n |> end.

Definition rwnx_txq_is_stopped (t : rwnx_txq) : bool := negb (Z.land (status t) RWNX_TXQ_STOP =? 0).
Definition rwnx_txq_is_full (t : rwnx_txq) : bool := negb (Z.land (status t) RWNX_TXQ_STOP_FULL =? 0).
Definition rwnx_txq_is_scheduled (t : rwnx_txq) : bool :=
  negb (Z.land (status t) RWNX_TXQ_IN_HWQ_LIST =? 0).
Definition rwnx_txq_skb_ready (t : rwnx_txq) : bool :=
  match sk_list t with [] => false | _ => true end.

(** ** Indices *)

Definition NX_REMOTE_STA_MAX (old : bool) : nat := if old then 10%nat else 32%nat.
Definition is_multicast_sta (old : bool) (idx : nat) : bool := (NX_REMOTE_STA_MAX old <=? idx)%nat.
Definition NX_FIRST_VIF_TXQ_IDX (old : bool) : nat := (NX_REMOTE_STA_MAX old * NX_NB_TXQ_PER_STA)%nat.
Definition NX_FIRST_UNK_TXQ_IDX (old : bool) : nat := (NX_FIRST_VIF_TXQ_IDX old + NX_VIRT_DEV_MAX)%nat.
Definition NX_OFF_CHAN_TXQ_IDX (old : bool) : nat := (NX_FIRST_VIF_TXQ_IDX old + NX_VIRT_DEV_MAX * 2)%nat.
Definition NX_BCMC_TXQ_NDEV_IDX (old : bool) : nat := (NX_NB_TID_PER_STA * NX_REMOTE_STA_MAX old)%nat.
Definition NX_STA_NDEV_IDX (tid idx : nat) : nat := (tid + idx * NX_NB_TID_PER_STA)%nat.

Definition rwnx_txq_sta_idx (old : bool) (a : rwnx_sta) (tid : nat) : nat :=
  if is_multicast_sta old (sta_idx a) then (NX_FIRST_VIF_TXQ_IDX old + vif_idx a)%nat
  else (sta_idx a * NX_NB_TXQ_PER_STA + tid)%nat.

Definition rwnx_txq_vif_idx (old : bool) (master_vif type : nat) : nat :=
  (NX_FIRST_VIF_TXQ_IDX old + master_vif + type * NX_VIRT_DEV_MAX)%nat.

Definition rwnx_txq_sta_get (old : bool) (a : rwnx_sta) (tid : nat) : nat :=
  rwnx_txq_sta_idx old a (if (NX_NB_TXQ_PER_STA <=? tid)%nat then 0%nat else tid).

Definition rwnx_txq_vif_get (old : bool) (master_vif type : nat) : nat :=
  rwnx_txq_vif_idx old master_vif (if (NX_UNK_TXQ_TYPE <? type)%nat then NX_BCMC_TXQ_TYPE else type).

(** [foreach_sta_txq]: the queues of a station in TID order. *)
Definition sta_txqs (old : bool) (a : rwnx_sta) : list nat :=
  seq (rwnx_txq_sta_get old a 0) (if is_multicast_sta old (sta_idx a) then 1 else NX_NB_TXQ_PER_STA).

(** ** Schedule lists *)

Definition rwnx_txq_add_to_hw_list (s : rwnx_hw) (i : nat) : res rwnx_hw :=
  t ← get_txq s i;
  if rwnx_txq_is_scheduled t then Ok s
  else
    q ← get_hwq s (t_hwq t);
    Ok (set_hwq (set_txq s i (t <| status := u8 (Z.lor (status t) RWNX_TXQ_IN_HWQ_LIST) |>)) (t_hwq t)
          (q <| h_list ::= fun l => l ++ [i] |> <| need_processing := true |>)).

Definition rwnx_txq_del_from_hw_list (s : rwnx_hw) (i : nat) : res rwnx_hw :=
  t ← get_txq s i;
  if rwnx_txq_is_scheduled t then
    q ← get_hwq s (t_hwq t);
    Ok (set_hwq (set_txq s i (t <| status := Z.ldiff (status t) RWNX_TXQ_IN_HWQ_LIST |>)) (t_hwq t)
          (q <| h_list ::= filter (fun j => j <> i) |>))
  else Ok s.

Definition rwnx_txq_start (s : rwnx_hw) (i : nat) (reason : Z) : res rwnx_hw :=
  t ← get_txq s i;
  if active t && negb (Z.land (status t) reason =? 0) then
    let t := t <| status := Z.ldiff (status t) reason |> in
    let s := set_txq s i t in
    if negb (rwnx_txq_is_stopped t) && rwnx_txq_skb_ready t then rwnx_txq_add_to_hw_list s i else Ok s
  else Ok s.

Definition rwnx_txq_stop (s : rwnx_hw) (i : nat) (reason : Z) : res rwnx_hw :=
  t ← get_txq s i;
  if active t then
    rwnx_txq_del_from_hw_list (set_txq s i (t <| status := u8 (Z.lor (status t) reason) |>)) i
  else Ok s.

(** A function on every queue of a list. *)
Fixpoint each (f : rwnx_hw -> nat -> res rwnx_hw) (s : rwnx_hw) (l : list nat) : res rwnx_hw :=
  match l with [] => Ok s | i :: l => s ← f s i; each f s l end.

Definition rwnx_txq_sta_start (s : rwnx_hw) (j : nat) (reason : Z) : res rwnx_hw :=
  a ← get_sta s j;
  each (fun s i => rwnx_txq_start s i reason) s (sta_txqs (old_ic s) a).

Definition rwnx_txq_sta_stop (s : rwnx_hw) (j : option nat) (reason : Z) : res rwnx_hw :=
  match j with
  | None => Ok s
  | Some j =>
      a ← get_sta s j;
      each (fun s i => rwnx_txq_stop s i reason) s (sta_txqs (old_ic s) a)
  end.

(** ** Interfaces *)

Inductive iftype := STATION | P2P_CLIENT | AP_VLAN | AP | MESH_POINT | P2P_GO | MONITOR | OTHER_IF.

(** [vif_index] and [sta_list] are those of the master for an AP_VLAN. *)
Record rwnx_vif := VifT {
  v_type : iftype; vif_index : nat; sta_ap : option nat; tdls_sta : option nat; tdls_active : bool;
  chsw_en : bool; roc_tdls : bool; sta_list : list nat }.

(** [rwnx_txq_vif_for_each_sta]: the stations [f] is called for. *)
Definition vif_stas (v : rwnx_vif) : res (list (option nat)) :=
  match v_type v with
  | STATION | P2P_CLIENT =>
      Ok ((if tdls_active v then [tdls_sta v] else []) ++
          match sta_ap v with Some a => [Some a] | None => [] end)
  | AP_VLAN | AP | MESH_POINT | P2P_GO => Ok (Some <$> sta_list v)
  | MONITOR | OTHER_IF => Fault
  end.

(** A NULL station is a fault when started and ignored when stopped. *)
Fixpoint start_stas (s : rwnx_hw) (l : list (option nat)) (reason : Z) : res rwnx_hw :=
  match l with
  | [] => Ok s
  | None :: _ => Fault
  | Some j :: l => s ← rwnx_txq_sta_start s j reason; start_stas s l reason
  end.
Fixpoint stop_stas (s : rwnx_hw) (l : list (option nat)) (reason : Z) : res rwnx_hw :=
  match l with [] => Ok s | j :: l => s ← rwnx_txq_sta_stop s j reason; stop_stas s l reason end.

Definition rwnx_txq_vif_start (s : rwnx_hw) (v : rwnx_vif) (reason : Z) : res rwnx_hw :=
  match v_type v with
  | MONITOR => Ok s
  | _ =>
      s ← (if roc_tdls v && chsw_en v then
             match tdls_sta v with Some j => rwnx_txq_sta_start s j reason | None => Ok s end
           else Ok s);
      s ← (if roc_tdls v then Ok s else l ← vif_stas v; start_stas s l reason);
      s ← rwnx_txq_start s (rwnx_txq_vif_get (old_ic s) (vif_index v) NX_BCMC_TXQ_TYPE) reason;
      rwnx_txq_start s (rwnx_txq_vif_get (old_ic s) (vif_index v) NX_UNK_TXQ_TYPE) reason
  end.

Definition rwnx_txq_vif_stop (s : rwnx_hw) (v : rwnx_vif) (reason : Z) : res rwnx_hw :=
  match v_type v with
  | MONITOR => Ok s
  | _ =>
      l ← vif_stas v;
      s ← stop_stas s l reason;
      s ← rwnx_txq_stop s (rwnx_txq_vif_get (old_ic s) (vif_index v) NX_BCMC_TXQ_TYPE) reason;
      rwnx_txq_stop s (rwnx_txq_vif_get (old_ic s) (vif_index v) NX_UNK_TXQ_TYPE) reason
  end.

Definition rwnx_txq_tdls_sta_start (s : rwnx_hw) (v : rwnx_vif) (reason : Z) : res rwnx_hw :=
  match tdls_sta v with Some j => rwnx_txq_sta_start s j reason | None => Ok s end.
Definition rwnx_txq_tdls_sta_stop (s : rwnx_hw) (v : rwnx_vif) (reason : Z) : res rwnx_hw :=
  match tdls_sta v with Some j => rwnx_txq_sta_stop s (Some j) reason | None => Ok s end.
Definition rwnx_txq_offchan_start (s : rwnx_hw) : res rwnx_hw :=
  rwnx_txq_start s (NX_OFF_CHAN_TXQ_IDX (old_ic s)) RWNX_TXQ_STOP_CHAN.

(** ** Queues come and go *)

(** [sta] is NULL for the queues of unknown stations and off-channel frames. *)
Definition rwnx_txq_init (old : bool) (idx : nat) (st : Z) (h tid : nat) (sta : option rwnx_sta)
    (sta_pos : option nat) : rwnx_txq :=
  {| active := true; status := st; credits := NX_TXQ_INITIAL_CREDITS; pkt_sent := 0; pkt_pushed := 0;
     sk_list := []; last_retry_skb := None; nb_retry := 0; t_hwq := h; push_limit := 0;
     t_tid := tid; t_sta := sta_pos; ps_id := LEGACY_PS_ID;
     ndev_idx :=
       if (idx <? NX_FIRST_VIF_TXQ_IDX old)%nat then
         match sta with
         | Some a =>
             let tid := (idx - sta_idx a * NX_NB_TXQ_PER_STA)%nat in
             if (tid <? NX_NB_TID_PER_STA)%nat then Some (NX_STA_NDEV_IDX tid (sta_idx a)) else None
         | None => None
         end
       else if (idx <? NX_FIRST_UNK_TXQ_IDX old)%nat then Some (NX_BCMC_TXQ_NDEV_IDX old)
       else None |}.

Definition put_txq (s : rwnx_hw) (i : nat) (t : rwnx_txq) : res rwnx_hw :=
  _ ← get_txq s i; Ok (set_txq s i t).

Definition rwnx_txq_flush (s : rwnx_hw) (i : nat) : res (rwnx_hw * list event) :=
  t ← get_txq s i;
  Ok (set_txq s i (t <| sk_list := [] |>), EvFree <$> sk_list t).

Definition rwnx_txq_deinit (s : rwnx_hw) (i : nat) : res (rwnx_hw * list event) :=
  t ← get_txq s i;
  if negb (active t) then Ok (s, [])
  else
    s ← rwnx_txq_del_from_hw_list s i;
    t ← get_txq s i;
    rwnx_txq_flush (set_txq s i (t <| active := false |>)) i.

(** A function on every queue of a list, with its events. *)
Fixpoint each_ev (f : rwnx_hw -> nat -> res (rwnx_hw * list event)) (s : rwnx_hw) (l : list nat)
    : res (rwnx_hw * list event) :=
  match l with
  | [] => Ok (s, [])
  | i :: l => r ← f s i; r' ← each_ev f r.1 l; Ok (r'.1, r.2 ++ r'.2)
  end.

Fixpoint init_sta_loop (s : rwnx_hw) (j : nat) (a : rwnx_sta) (st : Z) (idx tid n : nat) : res rwnx_hw :=
  match n with
  | O => Ok s
  | S n =>
      let t := rwnx_txq_init (old_ic s) idx st (rwnx_tid2hwq tid) tid (Some a) (Some j) in
      let uapsd := negb (Z.land (uapsd_tids a) (2 ^ Z.of_nat tid) =? 0) in
      s ← put_txq s idx (t <| ps_id := if uapsd then UAPSD_ID else LEGACY_PS_ID |>);
      init_sta_loop s j a st (S idx) (S tid) n
  end.

Definition rwnx_txq_sta_init (s : rwnx_hw) (j : nat) (st : Z) : res rwnx_hw :=
  a ← get_sta s j;
  init_sta_loop s j a st (rwnx_txq_sta_idx (old_ic s) a 0) 0 (length (sta_txqs (old_ic s) a)).

Definition rwnx_txq_sta_deinit (s : rwnx_hw) (j : nat) : res (rwnx_hw * list event) :=
  a ← get_sta s j; each_ev rwnx_txq_deinit s (sta_txqs (old_ic s) a).

Definition rwnx_txq_unk_vif_init (s : rwnx_hw) (v : rwnx_vif) : res rwnx_hw :=
  let i := rwnx_txq_vif_get (old_ic s) (vif_index v) NX_UNK_TXQ_TYPE in
  put_txq s i (rwnx_txq_init (old_ic s) i 0 RWNX_HWQ_VO TID_MGT None None).
Definition rwnx_txq_unk_vif_deinit (s : rwnx_hw) (v : rwnx_vif) : res (rwnx_hw * list event) :=
  rwnx_txq_deinit s (rwnx_txq_vif_get (old_ic s) (vif_index v) NX_UNK_TXQ_TYPE).

(** [bcmc] is the station entry of the interface for group-addressed frames. *)
Definition rwnx_txq_vif_init (s : rwnx_hw) (v : rwnx_vif) (bcmc : nat) (st : Z) : res rwnx_hw :=
  a ← get_sta s bcmc;
  let i := rwnx_txq_vif_get (old_ic s) (vif_index v) NX_BCMC_TXQ_TYPE in
  let k := rwnx_txq_vif_get (old_ic s) (vif_index v) NX_UNK_TXQ_TYPE in
  s ← put_txq s i (rwnx_txq_init (old_ic s) i st RWNX_HWQ_BE 0 (Some a) (Some bcmc));
  put_txq s k (rwnx_txq_init (old_ic s) k st RWNX_HWQ_VO TID_MGT None None).

Definition rwnx_txq_vif_deinit (s : rwnx_hw) (v : rwnx_vif) : res (rwnx_hw * list event) :=
  each_ev rwnx_txq_deinit s
    [rwnx_txq_vif_get (old_ic s) (vif_index v) NX_BCMC_TXQ_TYPE;
     rwnx_txq_vif_get (old_ic s) (vif_index v) NX_UNK_TXQ_TYPE].

Definition rwnx_txq_offchan_init (s : rwnx_hw) : res rwnx_hw :=
  let i := NX_OFF_CHAN_TXQ_IDX (old_ic s) in
  put_txq s i (rwnx_txq_init (old_ic s) i RWNX_TXQ_STOP_CHAN RWNX_HWQ_VO TID_MGT None None).
Definition rwnx_txq_offchan_deinit (s : rwnx_hw) : res (rwnx_hw * list event) :=
  rwnx_txq_deinit s (NX_OFF_CHAN_TXQ_IDX (old_ic s)).

Definition inactive_txq : rwnx_txq :=
  TxqT false 0 0 0 0 [] None 0 0 0 0 None LEGACY_PS_ID (Some 0%nat).

(** [rwnx_hwq_init] and the marking of all queues as inactive. *)
Definition rwnx_hwq_init : list rwnx_hwq := (fun n => HwqT [] n false) <$> nx_txdesc_cnt.
Definition hw_init (old : bool) (nb_txq : nat) (stas : list rwnx_sta) : rwnx_hw :=
  HwT old (replicate nb_txq inactive_txq) rwnx_hwq_init stas.

(** ** Queueing *)

(** A frame for a sleeping station is counted, and announced when it is the
    first one. *)
Definition ps_count (s : rwnx_hw) (t : rwnx_txq) : res (rwnx_hw * list event) :=
  match t_sta t with
  | None => Ok (s, [])
  | Some j =>
      a ← get_sta s j;
      if ps_active a then
        let a := set_ready a (ps_id t) (pkt_ready a (ps_id t) + 1) in
        Ok (set_sta s j a, if pkt_ready a (ps_id t) =? 1 then [EvTraffic j true (ps_id t)] else [])
      else Ok (s, [])
  end.

(** [skb_append] behind the last retry buffer. *)
Fixpoint insert_after (id : nat) (b : skb) (l : list skb) : option (list skb) :=
  match l with
  | [] => None
  | x :: l => if (s_id x =? id)%nat then Some (x :: b :: l) else (cons x) <$> insert_after id b l
  end.

Definition enqueue (t : rwnx_txq) (b : skb) (retry : bool) : res rwnx_txq :=
  if negb retry then Ok (t <| sk_list ::= fun l => l ++ [b] |>)
  else
    let t' := t <| last_retry_skb := Some (s_id b) |> <| nb_retry ::= fun n => n + 1 |> in
    match last_retry_skb t with
    | Some id =>
        match insert_after id b (sk_list t) with
        | Some l => Ok (t' <| sk_list := l |>)
        | None => Fault
        end
    | None => Ok (t' <| sk_list ::= cons b |>)
    end.

(** The network queue is stopped when too many buffers are queued. *)
Definition flow_stop (t : rwnx_txq) : rwnx_txq * list event :=
  match ndev_idx t with
  | Some n =>
      if RWNX_NDEV_FLOW_CTRL_STOP <? Z.of_nat (length (sk_list t)) then
        (t <| status := u8 (Z.lor (status t) RWNX_TXQ_NDEV_FLOW_CTRL) |>, [EvStopSubq n])
      else (t, [])
  | None => (t, [])
  end.

Definition rwnx_txq_queue_skb (s : rwnx_hw) (b : skb) (i : nat) (retry : bool)
    : res (rwnx_hw * list event * bool) :=
  t ← get_txq s i;
  r ← ps_count s t;
  let '(s, ev1) := r in
  t ← enqueue t b retry;
  let '(t, ev2) := flow_stop t in
  let s := set_txq s i t in
  if negb (rwnx_txq_is_stopped t) then
    s ← rwnx_txq_add_to_hw_list s i; Ok (s, ev1 ++ ev2, true)
  else Ok (s, ev1 ++ ev2, false).

(** ** Pushing *)

Definition rwnx_txq_get_credits (t : rwnx_txq) : Z :=
  if negb (push_limit t =? 0) && (push_limit t <? credits t) then push_limit t else credits t.

(** The buffers to push, what stays, and whether the queue is done. *)
Definition rwnx_txq_get_skb_to_push (t : rwnx_txq) : rwnx_txq * list skb * bool :=
  let nb_ready := Z.of_nat (length (sk_list t)) in
  let credits := rwnx_txq_get_credits t in
  if nb_ready <=? credits then (t <| sk_list := [] |>, sk_list t, true)
  else (t <| sk_list ::= drop (Z.to_nat credits) |>, take (Z.to_nat credits) (sk_list t),
        negb (push_limit t =? 0) && (credits =? push_limit t)).

(** [rwnx_set_more_data_flag]: the counters of a sleeping station. *)
Definition more_data (s : rwnx_hw) (sta : option nat) (p : psid) : res (rwnx_hw * list event) :=
  match sta with
  | None => Ok (s, [])
  | Some j =>
      a ← get_sta s j;
      if ps_active a then
        let a := set_sp (set_ready a p (pkt_ready a p - 1)) p (sp_cnt a p - 1) in
        Ok (set_sta s j a, if pkt_ready a p =? 0 then [EvTraffic j false p] else [])
      else Ok (s, [])
  end.

(** The counters of the queue. *)
Definition push_count (t : rwnx_txq) : rwnx_txq :=
  let t := if negb (nb_retry t =? 0) then
             let t := t <| nb_retry ::= fun n => n - 1 |> in
             if nb_retry t =? 0 then t <| last_retry_skb := None |> else t
           else t <| pkt_sent ::= fun n => u8 (n + 1) |> in
  let t := t <| pkt_pushed ::= fun n => u8 (n + 1) |> in
  if push_limit t =? 0 then t else t <| push_limit ::= fun n => n - 1 |>.

Definition rwnx_tx_push (s : rwnx_hw) (b : skb) : res (rwnx_hw * list event) :=
  t ← get_txq s (s_txq b);
  r ← more_data s (s_sta b) (ps_id t);
  Ok (set_txq r.1 (s_txq b) (push_count t), r.2 ++ [EvTx b (t_hwq t)]).

Fixpoint push_all (s : rwnx_hw) (l : list skb) : res (rwnx_hw * list event) :=
  match l with
  | [] => Ok (s, [])
  | b :: l => r ← rwnx_tx_push s b; r' ← push_all r.1 l; Ok (r'.1, r.2 ++ r'.2)
  end.

(** ** Serving a hardware queue *)

(** A queue without buffers leaves the list; one with more than [h_size] sent
    in a row lets the first of the list wait. *)
Definition after_push (s : rwnx_hw) (h i : nat) (done : bool) : res rwnx_hw :=
  if done then
    s ← rwnx_txq_del_from_hw_list s i;
    t ← get_txq s i;
    Ok (set_txq s i (t <| pkt_sent := 0 |>))
  else
    t ← get_txq s i;
    q ← get_hwq s h;
    if rwnx_txq_is_scheduled t && (h_size q <? pkt_sent t) then
      Ok (set_hwq (set_txq s i (t <| pkt_sent := 0 |>)) h
            (q <| h_list ::= fun l => match l with [] => [] | x :: l => l ++ [x] end |>))
    else Ok s.

(** The service period that could not be completed. *)
Definition abort_sp (s : rwnx_hw) (i : nat) : res rwnx_hw :=
  t ← get_txq s i;
  match t_sta t with
  | Some j =>
      if negb (push_limit t =? 0) then
        match ps_id t with
        | LEGACY_PS_ID =>
            a ← get_sta s j;
            Ok (set_txq (set_sta s j (set_sp a LEGACY_PS_ID (sp_cnt a LEGACY_PS_ID - push_limit t))) i
                  (t <| push_limit := 0 |>))
        | UAPSD_ID => Ok s
        end
      else Ok s
  | None => Ok s
  end.

Definition flow_restart (s : rwnx_hw) (i : nat) : res (rwnx_hw * list event) :=
  t ← get_txq s i;
  if negb (Z.land (status t) RWNX_TXQ_NDEV_FLOW_CTRL =? 0)
     && (Z.of_nat (length (sk_list t)) <? RWNX_NDEV_FLOW_CTRL_RESTART) then
    Ok (set_txq s i (t <| status := Z.ldiff (status t) RWNX_TXQ_NDEV_FLOW_CTRL |>),
        match ndev_idx t with Some n => [EvWakeSubq n] | None => [] end)
  else Ok (s, []).

(** The body of the loop of [rwnx_hwq_process]. *)
Definition serve (s : rwnx_hw) (h i : nat) : res (rwnx_hw * list event) :=
  t ← get_txq s i;
  if negb (rwnx_txq_is_scheduled t) then Fault
  else if negb (active t) then
    s ← rwnx_txq_del_from_hw_list s i; rwnx_txq_flush s i
  else if credits t <=? 0 then Fault
  else if negb (rwnx_txq_skb_ready t) then Fault
  else
    let '(t, l, done) := rwnx_txq_get_skb_to_push t in
    r ← push_all (set_txq s i t) l;
    s ← after_push r.1 h i done;
    s ← abort_sp s i;
    r' ← flow_restart s i;
    Ok (r'.1, r.2 ++ r'.2).

(** The entry behind [i]. *)
Fixpoint next_of (i : nat) (l : list nat) : option nat :=
  match l with
  | [] => None
  | x :: l => if (x =? i)%nat then head l else next_of i l
  end.

(** [list_for_each_entry_safe]: the next entry is taken before the body runs. *)
Fixpoint hwq_loop (fuel : nat) (s : rwnx_hw) (h : nat) (pos : option nat) : res (rwnx_hw * list event) :=
  match pos with
  | None => Ok (s, [])
  | Some i =>
      match fuel with
      | O => NoFuel
      | S fuel =>
          q ← get_hwq s h;
          r ← serve s h i;
          r' ← hwq_loop fuel r.1 h (next_of i (h_list q));
          Ok (r'.1, r.2 ++ r'.2)
      end
  end.

(** Each turn takes a buffer from a queue or a queue from the list. *)
Definition work (s : rwnx_hw) : nat :=
  (sum_list ((fun t => length (sk_list t)) <$> txqs s) + sum_list ((fun q => length (h_list q)) <$> hwqs s))%nat.

Definition rwnx_hwq_process (s : rwnx_hw) (h : nat) : res (rwnx_hw * list event) :=
  q ← get_hwq s h;
  hwq_loop (work s) (set_hwq s h (q <| need_processing := false |>)) h (head (h_list q)).

Fixpoint process_from (s : rwnx_hw) (n : nat) : res (rwnx_hw * list event) :=
  match n with
  | O => Ok (s, [])
  | S h =>
      q ← get_hwq s h;
      r ← (if need_processing q then rwnx_hwq_process s h else Ok (s, []));
      r' ← process_from r.1 h;
      Ok (r'.1, r.2 ++ r'.2)
  end.

Definition rwnx_hwq_process_all (s : rwnx_hw) : res (rwnx_hw * list event) :=
  process_from s (length (hwqs s)).

(** The transmit functions: a frame for a queue that is not active is
    dropped, any other one is queued. *)
Definition xmit (s : rwnx_hw) (b : skb) : res (rwnx_hw * list event) :=
  t ← get_txq s (s_txq b);
  if negb (active t) then Ok (s, [EvReject b])
  else
    r ← rwnx_txq_queue_skb s b (s_txq b) false;
    let '(s, ev, listed) := r in
    if (listed : bool) then
      t ← get_txq s (s_txq b);
      r' ← rwnx_hwq_process s (t_hwq t);
      Ok (r'.1, ev ++ r'.2)
    else Ok (s, ev).

(** ** Power save *)

Fixpoint ready_sum (s : rwnx_hw) (p : psid) (l : list nat) (n : Z) : res Z :=
  match l with
  | [] => Ok n
  | i :: l =>
      t ← get_txq s i;
      ready_sum s p l (if decide (ps_id t = p) then u16 (n + Z.of_nat (length (sk_list t))) else n)
  end.

Definition clear_limit (s : rwnx_hw) (i : nat) : res rwnx_hw :=
  t ← get_txq s i; Ok (set_txq s i (t <| push_limit := 0 |>)).

Definition rwnx_ps_bh_enable (s : rwnx_hw) (j : nat) (enable : bool) : res (rwnx_hw * list event) :=
  a ← get_sta s j;
  let multi := is_multicast_sta (old_ic s) (sta_idx a) in
  let first := rwnx_txq_sta_get (old_ic s) a 0 in
  if enable then
    s ← rwnx_txq_sta_stop
          (set_sta s j (set_sp (set_sp (a <| ps_active := true |>) LEGACY_PS_ID 0) UAPSD_ID 0))
          (Some j) RWNX_TXQ_STOP_STA_PS;
    a ← get_sta s j;
    if multi then
      t ← get_txq s first;
      Ok (set_sta s j (set_ready (set_ready a LEGACY_PS_ID (Z.of_nat (length (sk_list t)))) UAPSD_ID 0), [])
    else
      n ← ready_sum s LEGACY_PS_ID (sta_txqs (old_ic s) a) 0;
      m ← ready_sum s UAPSD_ID (sta_txqs (old_ic s) a) 0;
      Ok (set_sta s j (set_ready (set_ready a LEGACY_PS_ID n) UAPSD_ID m), [])
  else
    let s := set_sta s j (a <| ps_active := false |>) in
    s ← (if multi then
           t ← get_txq s first;
           Ok (set_txq s first (t <| t_hwq := RWNX_HWQ_BE |> <| push_limit := 0 |>))
         else each clear_limit s (sta_txqs (old_ic s) a));
    s ← rwnx_txq_sta_start s j RWNX_TXQ_STOP_STA_PS;
    Ok (s, if negb (pkt_ready a LEGACY_PS_ID =? 0) then [EvTraffic j false LEGACY_PS_ID] else []).

(** The request is handed out to the queues by priority. *)
Fixpoint dispatch_req (s : rwnx_hw) (j : nat) (p : psid) (tids : list nat) (pkt_req : Z) : res rwnx_hw :=
  match tids with
  | [] => Ok s
  | tid :: tids =>
      a ← get_sta s j;
      let i := rwnx_txq_sta_get (old_ic s) a tid in
      t ← get_txq s i;
      if decide (ps_id t <> p) then dispatch_req s j p tids pkt_req
      else
        let txq_len := u16 (Z.min (u16 (Z.of_nat (length (sk_list t)))) (credits t)) in
        if txq_len =? 0 then dispatch_req s j p tids pkt_req
        else
          let give := if txq_len <? pkt_req then txq_len else pkt_req in
          s ← rwnx_txq_add_to_hw_list
                (set_sta (set_txq s i (t <| push_limit := u8 give |>)) j (set_sp a p (sp_cnt a p + give))) i;
          if txq_len <? pkt_req then dispatch_req s j p tids (u16 (pkt_req - txq_len)) else Ok s
  end.

(** The flag: the transmit tasklet is scheduled. *)
Definition rwnx_ps_bh_traffic_req (s : rwnx_hw) (j : nat) (pkt_req : Z) (p : psid) : res (rwnx_hw * bool) :=
  a ← get_sta s j;
  if negb (ps_active a) then Ok (s, false)
  else if (pkt_req =? PS_SP_INTERRUPTED) && bool_decide (p = UAPSD_ID) then
    s ← each clear_limit (set_sta s j (set_sp a p 0)) (sta_txqs (old_ic s) a);
    Ok (s, false)
  else
    let pkt_ready_all := pkt_ready a p - sp_cnt a p in
    if negb (sp_cnt a p =? 0) || (pkt_ready_all <=? 0) then Ok (s, false)
    else
      let pkt_req := if (pkt_req =? 0) || (pkt_ready_all <? pkt_req) then u16 pkt_ready_all else pkt_req in
      let s := set_sta s j (set_sp a p 0) in
      if is_multicast_sta (old_ic s) (sta_idx a) then
        let i := rwnx_txq_sta_get (old_ic s) a 0 in
        t ← get_txq s i;
        let pkt_req := if credits t <? pkt_req then u16 (credits t) else pkt_req in
        s ← rwnx_txq_add_to_hw_list
              (set_sta (set_txq s i (t <| push_limit := u8 pkt_req |>)) j (set_sp a p pkt_req)) i;
        Ok (s, true)
      else
        s ← dispatch_req s j p nx_tid_prio pkt_req;
        Ok (s, true).

(** ** Confirmations *)

Definition rwnx_txq_confirm_any (s : rwnx_hw) (i h : nat) : res rwnx_hw :=
  t ← get_txq s i;
  q ← get_hwq s h;
  Ok (set_hwq (set_txq s i (if pkt_pushed t =? 0 then t else t <| pkt_pushed ::= fun n => n - 1 |>)) h
        (q <| need_processing := true |>)).

Definition rwnx_tx_retry (s : rwnx_hw) (b : skb) : res (rwnx_hw * list event) :=
  t ← get_txq s (s_txq b);
  let t := t <| credits ::= fun n => s8 (n + 1) |> in
  let s := set_txq s (s_txq b) t in
  s ← (if 0 <? credits t then rwnx_txq_start s (s_txq b) RWNX_TXQ_STOP_FULL else Ok s);
  r ← rwnx_txq_queue_skb s b (s_txq b) true;
  Ok r.1.

(** [h] is the hardware queue the buffer was pushed on, [mgmt] the flag
    TXU_CNTRL_MGMT of its descriptor, [retry] whether the firmware asks for
    another try. *)
Definition rwnx_txdatacfm (s : rwnx_hw) (bus_down mgmt retry : bool) (b : skb) (h : nat)
    : res (rwnx_hw * list event) :=
  if bus_down then Ok (s, [EvDone b])
  else
    s ← rwnx_txq_confirm_any s (s_txq b) h;
    t ← get_txq s (s_txq b);
    if negb mgmt && active t && retry then rwnx_tx_retry s b
    else
      s ← (if active t && negb (push_limit t =? 0) && negb (rwnx_txq_is_full t)
           then rwnx_txq_add_to_hw_list s (s_txq b) else Ok s);
      Ok (s, (if mgmt then [EvMgmtStatus b] else []) ++ [EvDone b]).

Definition rwnx_txq_credit_update (s : rwnx_hw) (j tid : nat) : res rwnx_hw :=
  a ← get_sta s j;
  let i := rwnx_txq_sta_get (old_ic s) a tid in
  t ← get_txq s i;
  if active t then
    if credits t <=? 0 then rwnx_txq_stop s i RWNX_TXQ_STOP_FULL else rwnx_txq_start s i RWNX_TXQ_STOP_FULL
  else Ok s.

End Txq.
