(* ===== verification/TxqInv.v ===== *)
(** * The invariant of the transmit queues

    What holds of the queues, the schedule lists and the power-save counters
    of [Txq] between any two operations, and what every building block of the
    operations does to it. *)

From stdpp Require Import prelude.
From S2P Require Import Prelude Txq.
Open Scope Z_scope.

Module TxqInv.
Import Txq.

(** ** The invariant *)

(** What no operation changes. *)
Definition ids (a : rwnx_sta) : nat * nat := (sta_idx a, vif_idx a).
Record env := Env { e_old : bool; e_ntx : nat; e_nh : nat; e_sta : list (nat * nat) }.
Definition env_of (s : rwnx_hw) : env :=
  Env (old_ic s) (length (txqs s)) (length (hwqs s)) (ids <$> stas s).

Definition first_txq (old : bool) (d : nat * nat) : nat :=
  if is_multicast_sta old d.1 then (NX_FIRST_VIF_TXQ_IDX old + d.2)%nat
  else (d.1 * NX_NB_TXQ_PER_STA)%nat.

Definition env_ok (e : env) : Prop :=
  (NX_OFF_CHAN_TXQ_IDX (e_old e) < e_ntx e)%nat /\ e_nh e = 4%nat /\
  Forall (fun d => is_multicast_sta (e_old e) d.1 = true -> (d.2 < NX_VIRT_DEV_MAX)%nat) (e_sta e).

Definition len (t : rwnx_txq) : Z := Z.of_nat (length (sk_list t)).

(** Two operations may leave a stopped queue in a list without a service
    period; the invariant with [pol] is the one of runs without them. *)
Section Inv.
Context {pol : bool}.

Record qok (e : env) (i : nat) (t : rwnx_txq) : Prop := {
  q_hwq : (t_hwq t < e_nh e)%nat;
  q_status : is_byte (status t);
  q_active : active t = true ->
    0 < credits t < 128 /\ 0 <= push_limit t <= credits t /\ push_limit t <= len t;
  q_skbs : Forall (fun b => s_txq b = i /\ s_sta b = t_sta t) (sk_list t);
  q_sta : forall j, t_sta t = Some j -> exists d, e_sta e !! j = Some d /\
    (is_multicast_sta (e_old e) d.1 = true -> i = first_txq (e_old e) d /\ t_hwq t = RWNX_HWQ_BE);
  q_retry : nb_retry t = 0 /\ last_retry_skb t = None;
  q_idle : active t = false -> sk_list t = [] /\ 0 <= credits t;
  q_live : rwnx_txq_is_scheduled t = true ->
    active t = true /\ sk_list t <> [] /\ (pol = true -> rwnx_txq_is_stopped t = true -> 0 < push_limit t) }.

Lemma credits_nonneg e i t : qok e i t -> 0 <= credits t.
Proof. intros H. destruct (active t) eqn:Ha; [apply (q_active _ _ _ H) in Ha; lia | by apply (q_idle _ _ _ H)]. Qed.

Definition qs_ok (s : rwnx_hw) : Prop :=
  forall i t, txqs s !! i = Some t -> qok (env_of s) i t.

(** A queue is in the list of its hardware queue, once, exactly when it is
    marked as scheduled. *)
Definition lists_ok (s : rwnx_hw) : Prop :=
  forall h q, hwqs s !! h = Some q -> NoDup (h_list q) /\
    forall i, i ∈ h_list q <->
      exists t, txqs s !! i = Some t /\ rwnx_txq_is_scheduled t = true /\ t_hwq t = h.

Definition sta_ok (a : rwnx_sta) : Prop :=
  0 <= ready_legacy a < 2 ^ 16 /\ 0 <= ready_uapsd a < 2 ^ 16 /\
  0 <= sp_legacy a < 2 ^ 16 /\ 0 <= sp_uapsd a < 2 ^ 16.

(** The buffers for a sleeping group of stations are those of one queue, and
    they are counted. *)
Definition mc_ok (old : bool) (qs : list rwnx_txq) (j : nat) (a : rwnx_sta) : Prop :=
  ps_active a = true -> is_multicast_sta old (sta_idx a) = true ->
  exists t, qs !! first_txq old (ids a) = Some t /\ active t = true /\ t_sta t = Some j /\
    ps_id t = LEGACY_PS_ID /\ ready_legacy a = u16 (len t) /\ ready_uapsd a = 0.

Definition stas_ok (s : rwnx_hw) : Prop :=
  forall j a, stas s !! j = Some a -> sta_ok a /\ mc_ok (old_ic s) (txqs s) j a.

Record inv (s : rwnx_hw) : Prop := {
  i_env : env_ok (env_of s);
  i_qs : qs_ok s;
  i_lists : lists_ok s;
  i_stas : stas_ok s }.

(** ** Flags *)

Lemma scheduled_lor t : rwnx_txq_is_scheduled (t <| status := u8 (Z.lor (status t) RWNX_TXQ_IN_HWQ_LIST) |>) = true.
Proof.
  unfold rwnx_txq_is_scheduled, RWNX_TXQ_IN_HWQ_LIST. cbn [status upd]. rewrite u8_land.
  change 1 with (2 ^ 0) at 2. rewrite mask_bit, Z.land_spec, Z.lor_spec by lia. by rewrite orb_true_r.
Qed.

Lemma scheduled_ldiff t : rwnx_txq_is_scheduled (t <| status := Z.ldiff (status t) RWNX_TXQ_IN_HWQ_LIST |>) = false.
Proof.
  unfold rwnx_txq_is_scheduled, RWNX_TXQ_IN_HWQ_LIST. cbn [status upd].
  change 1 with (2 ^ 0) at 2. rewrite mask_bit, Z.ldiff_spec by lia. cbn. by rewrite andb_false_r.
Qed.

(** Setting or clearing the bits [r] of the status leaves a mask [m] that does
    not meet them. *)
Lemma mask_lor x r m : is_byte x -> is_byte r -> Z.land r m = 0 -> Z.land (u8 (Z.lor x r)) m = Z.land x m.
Proof. intros Hx Hr H. rewrite u8_byte_id by (by apply lor_byte). by apply lor_land_disjoint. Qed.

Lemma mask_ldiff x r m : Z.land r m = 0 -> Z.land (Z.ldiff x r) m = Z.land x m.
Proof. apply ldiff_land_disjoint. Qed.

(** ** Access *)

Lemma get_txq_Ok s i t : get_txq s i = Ok t <-> txqs s !! i = Some t.
Proof. unfold get_txq. destruct (txqs s !! i); naive_solver. Qed.
Lemma get_hwq_Ok s h q : get_hwq s h = Ok q <-> hwqs s !! h = Some q.
Proof. unfold get_hwq. destruct (hwqs s !! h); naive_solver. Qed.
Lemma get_sta_Ok s j a : get_sta s j = Ok a <-> stas s !! j = Some a.
Proof. unfold get_sta. destruct (stas s !! j); naive_solver. Qed.

Lemma get_txq_lt s i : (i < length (txqs s))%nat -> exists t, get_txq s i = Ok t /\ txqs s !! i = Some t.
Proof. intros H. destruct (lookup_lt_is_Some_2 _ _ H) as [t Ht]. exists t. by rewrite get_txq_Ok. Qed.

Lemma env_set_txq s i t : env_of (set_txq s i t) = env_of s.
Proof. unfold env_of, set_txq. cbn. by rewrite length_insert. Qed.
Lemma env_set_hwq s h q : env_of (set_hwq s h q) = env_of s.
Proof. unfold env_of, set_hwq. cbn. by rewrite length_insert. Qed.
Lemma env_set_sta s j a a' : stas s !! j = Some a -> ids a' = ids a -> env_of (set_sta s j a') = env_of s.
Proof. intros Ha Hi. unfold env_of, set_sta. cbn. by rewrite (fmap_insert_same ids _ _ a). Qed.

(** ** Updates of one part *)

Lemma qs_upd s s' i t : qs_ok s -> env_of s' = env_of s -> txqs s' = <[i := t]> (txqs s) ->
  qok (env_of s) i t -> qs_ok s'.
Proof.
  intros Hs He Ht Hq k u Hu. rewrite He. rewrite Ht in Hu.
  apply list_lookup_insert_Some in Hu as [(-> & -> & _)|[_ Hu]]; [done | by apply Hs].
Qed.

(** A queue that stays on or off its list. *)
Lemma lists_upd s i t t' : lists_ok s -> txqs s !! i = Some t ->
  rwnx_txq_is_scheduled t' = rwnx_txq_is_scheduled t ->
  (rwnx_txq_is_scheduled t = true -> t_hwq t' = t_hwq t) -> lists_ok (set_txq s i t').
Proof.
  intros Hl Ht Hs Hh h q Hq. destruct (Hl h q Hq) as [Hn Hi]. split; [done |]. intros k. rewrite Hi.
  unfold set_txq. cbn. destruct (decide (k = i)) as [-> |].
  - rewrite list_lookup_insert_eq by (by eapply lookup_lt_Some). rewrite Ht.
    split; intros (? & [= <-] & Hs' & <-); eexists; (split; [done |]).
    + rewrite Hs, Hh by done. done.
    + rewrite <- Hs, <- Hh by congruence. done.
  - by rewrite list_lookup_insert_ne.
Qed.

Lemma stas_upd s i t t' : stas_ok s -> txqs s !! i = Some t -> active t' = active t ->
  t_sta t' = t_sta t -> ps_id t' = ps_id t -> len t' = len t -> stas_ok (set_txq s i t').
Proof.
  intros Hs Ht Ha Hj Hp Hn j a Hja. destruct (Hs j a Hja) as [Hok Hm]. split; [done |].
  intros Hps Hmc. destruct (Hm Hps Hmc) as (u & Hu & H1 & H2 & H3 & H4 & H5).
  unfold set_txq. cbn. destruct (decide (first_txq (old_ic s) (ids a) = i)) as [Hi |].
  - rewrite Hi in *. assert (u = t) as -> by congruence. exists t'.
    rewrite list_lookup_insert_eq by (by eapply lookup_lt_Some). by rewrite Ha, Hj, Hp, Hn.
  - exists u. by rewrite list_lookup_insert_ne.
Qed.

(** The whole invariant after an update that keeps the list flag, the station
    and the number of buffers. *)
Lemma inv_upd s i t t' : inv s -> txqs s !! i = Some t -> qok (env_of s) i t' ->
  rwnx_txq_is_scheduled t' = rwnx_txq_is_scheduled t ->
  (rwnx_txq_is_scheduled t = true -> t_hwq t' = t_hwq t) -> active t' = active t ->
  t_sta t' = t_sta t -> ps_id t' = ps_id t -> len t' = len t -> inv (set_txq s i t').
Proof.
  intros [He Hq Hl Hs] Ht Hok Hsc Hh Ha Hj Hp Hn. split.
  - by rewrite env_set_txq.
  - by eapply qs_upd; [| apply env_set_txq | |].
  - by eapply lists_upd.
  - by eapply stas_upd.
Qed.

(** ** Linking and unlinking *)

Lemma lists_link s i t t' q q' : lists_ok s -> txqs s !! i = Some t -> rwnx_txq_is_scheduled t = false ->
  rwnx_txq_is_scheduled t' = true -> t_hwq t' = t_hwq t -> hwqs s !! t_hwq t = Some q ->
  h_list q' = h_list q ++ [i] -> lists_ok (set_hwq (set_txq s i t') (t_hwq t) q').
Proof.
  intros Hl Ht Hs Hs' Hh Hq Hq' h x Hx. unfold set_hwq, set_txq in *. cbn in *.
  assert (Hlt : (i < length (txqs s))%nat) by (by eapply lookup_lt_Some).
  assert (Hni : forall h y, hwqs s !! h = Some y -> i ∉ h_list y).
  { intros h' y Hy Hin. apply (Hl h' y Hy) in Hin as (u & Hu & Hsu & _). congruence. }
  apply list_lookup_insert_Some in Hx as [(<- & <- & _)|[Hne Hx]].
  - destruct (Hl _ q Hq) as [Hn Hi]. rewrite Hq'. split.
    + apply NoDup_app. split; [done |]. split; [| apply NoDup_singleton].
      intros k Hk ->%list_elem_of_singleton. by eapply Hni.
    + intros k. rewrite elem_of_app, Hi, list_elem_of_singleton. destruct (decide (k = i)) as [-> |].
      * rewrite list_lookup_insert_eq by done. naive_solver.
      * rewrite list_lookup_insert_ne by done. naive_solver.
  - destruct (Hl h x Hx) as [Hn Hi]. split; [done |]. intros k. rewrite Hi. destruct (decide (k = i)) as [-> |].
    + rewrite list_lookup_insert_eq by done. naive_solver congruence.
    + by rewrite list_lookup_insert_ne.
Qed.

Lemma lists_unlink s i t t' q q' : lists_ok s -> txqs s !! i = Some t -> rwnx_txq_is_scheduled t = true ->
  rwnx_txq_is_scheduled t' = false -> hwqs s !! t_hwq t = Some q ->
  h_list q' = filter (fun j => j <> i) (h_list q) -> lists_ok (set_hwq (set_txq s i t') (t_hwq t) q').
Proof.
  intros Hl Ht Hs Hs' Hq Hq' h x Hx. unfold set_hwq, set_txq in *. cbn in *.
  assert (Hlt : (i < length (txqs s))%nat) by (by eapply lookup_lt_Some).
  apply list_lookup_insert_Some in Hx as [(<- & <- & _)|[Hne Hx]].
  - destruct (Hl _ q Hq) as [Hn Hi]. rewrite Hq'. split; [by apply NoDup_filter |].
    intros k. rewrite list_elem_of_filter, Hi. destruct (decide (k = i)) as [-> |].
    + rewrite list_lookup_insert_eq by done. naive_solver congruence.
    + rewrite list_lookup_insert_ne by done. naive_solver.
  - destruct (Hl h x Hx) as [Hn Hi]. split; [done |]. intros k. rewrite Hi. destruct (decide (k = i)) as [-> |].
    + rewrite list_lookup_insert_eq by done. naive_solver congruence.
    + by rewrite list_lookup_insert_ne.
Qed.

(** ** Operations that change flags and lists only *)

Definition core (t : rwnx_txq) : rwnx_txq := t <| status := 0 |>.

Definition same (s s' : rwnx_hw) : Prop :=
  old_ic s' = old_ic s /\ length (hwqs s') = length (hwqs s) /\ stas s' = stas s /\
  core <$> txqs s' = core <$> txqs s.

#[global] Instance same_preorder : PreOrder same.
Proof. split; [done |]. intros x y z (A & B & C & D) (A' & B' & C' & D'). split_and!; congruence. Qed.

Lemma same_env s s' : same s s' -> env_of s' = env_of s.
Proof.
  intros (A & B & C & D). unfold env_of. rewrite A, B, C. f_equal.
  by rewrite <- (length_fmap core (txqs s')), D, length_fmap.
Qed.

Lemma same_lookup s s' i t : same s s' -> txqs s !! i = Some t ->
  exists t', txqs s' !! i = Some t' /\ core t' = core t.
Proof.
  intros (_ & _ & _ & H) Ht. assert (Hc : (core <$> txqs s') !! i = Some (core t)).
  { by rewrite H, list_lookup_fmap, Ht. }
  rewrite list_lookup_fmap in Hc. destruct (txqs s' !! i) as [t'|]; [| done].
  exists t'. by apply (inj Some) in Hc.
Qed.

Lemma core_eq t t' : core t' = core t ->
  active t' = active t /\ credits t' = credits t /\ sk_list t' = sk_list t /\ t_hwq t' = t_hwq t /\
  push_limit t' = push_limit t /\ t_sta t' = t_sta t /\ ps_id t' = ps_id t /\ nb_retry t' = nb_retry t /\
  last_retry_skb t' = last_retry_skb t.
Proof. destruct t, t'. unfold core. cbn. intros [= ]. by subst. Qed.

Lemma same_set_txq s i t t' : txqs s !! i = Some t -> core t' = core t -> same s (set_txq s i t').
Proof. intros Ht Hc. unfold same, set_txq. cbn. split_and!; [done.. |]. by apply (fmap_insert_same core _ _ t). Qed.

Lemma same_set_hwq s h q : same s (set_hwq s h q).
Proof. unfold same, set_hwq. cbn. by rewrite length_insert. Qed.

(** A new status. *)
Lemma qok_status e i t x : qok e i t -> is_byte x ->
  (rwnx_txq_is_scheduled (t <| status := x |>) = true ->
    active t = true /\ sk_list t <> [] /\
    (pol = true -> rwnx_txq_is_stopped (t <| status := x |>) = true -> 0 < push_limit t)) ->
  qok e i (t <| status := x |>).
Proof. intros [] Hx Hl. by split. Qed.

Lemma add_ok s i t : inv s -> txqs s !! i = Some t -> active t = true -> sk_list t <> [] ->
  (pol = true -> rwnx_txq_is_stopped t = true -> 0 < push_limit t) ->
  exists s', rwnx_txq_add_to_hw_list s i = Ok s' /\ inv s' /\ same s s'.
Proof.
  intros [He Hq Hl Hs] Ht Ha Hk Hp. unfold rwnx_txq_add_to_hw_list.
  rewrite (proj2 (get_txq_Ok s i t) Ht). cbn [mbind res_bind].
  destruct (rwnx_txq_is_scheduled t) eqn:Hsc; [by exists s |].
  pose proof (Hq i t Ht) as Hok.
  destruct (lookup_lt_is_Some_2 (hwqs s) (t_hwq t)) as [q Hhq]; [apply (q_hwq _ _ _ Hok) |].
  rewrite (proj2 (get_hwq_Ok s _ q) Hhq). cbn [mbind res_bind].
  set (t' := t <| status := _ |>). set (q' := q <| h_list ::= _ |> <| need_processing := _ |>).
  assert (Hok' : qok (env_of s) i t').
  { apply qok_status; [done | apply u8_range |]. intros _. split_and!; [done.. |]. intros Hpl Hst. apply Hp; [done |].
    revert Hst. unfold rwnx_txq_is_stopped. cbn [status upd].
    rewrite mask_lor; [done | apply (q_status _ _ _ Hok) | split; vm_compute; congruence | done]. }
  eexists. split; [done |]. split.
  - split.
    + by rewrite env_set_hwq, env_set_txq.
    + eapply qs_upd; [done | by rewrite env_set_hwq, env_set_txq | done | done].
    + eapply lists_link; [done.. | apply scheduled_lor | done | done | done].
    + apply (stas_upd s i t t' Hs Ht); done.
  - etransitivity; [by eapply (same_set_txq s i t t') | apply same_set_hwq].
Qed.

Lemma set_txq_id s i t : txqs s !! i = Some t -> set_txq s i t = s.
Proof. intros H. destruct s. unfold set_txq. cbn in *. by rewrite list_insert_id. Qed.
Lemma set_txq_twice s i t t' : set_txq (set_txq s i t) i t' = set_txq s i t'.
Proof. destruct s. unfold set_txq. cbn. by rewrite list_insert_insert_eq. Qed.
Lemma lookup_set_txq s i t u : txqs s !! i = Some t -> txqs (set_txq s i u) !! i = Some u.
Proof. intros H. unfold set_txq. cbn. apply list_lookup_insert_eq. by eapply lookup_lt_Some. Qed.
Lemma status_id t : t <| status := status t |> = t.
Proof. by destruct t. Qed.

(** Removing a queue whose other flags have just been set to [x]. *)
Lemma del_ok s i t x : inv s -> txqs s !! i = Some t -> is_byte x ->
  rwnx_txq_is_scheduled (t <| status := x |>) = rwnx_txq_is_scheduled t ->
  exists s' t', rwnx_txq_del_from_hw_list (set_txq s i (t <| status := x |>)) i = Ok s' /\ inv s' /\ same s s' /\
    txqs s' !! i = Some t' /\ rwnx_txq_is_scheduled t' = false.
Proof.
  intros [He Hq Hl Hs] Ht Hx Hsx. pose proof (Hq i t Ht) as Hok. unfold rwnx_txq_del_from_hw_list.
  rewrite (proj2 (get_txq_Ok _ i (t <| status := x |>))) by (by eapply lookup_set_txq). cbn [mbind res_bind].
  destruct (rwnx_txq_is_scheduled (t <| status := x |>)) eqn:Hsc.
  - destruct (lookup_lt_is_Some_2 (hwqs s) (t_hwq t)) as [q Hhq]; [apply (q_hwq _ _ _ Hok) |].
    rewrite (proj2 (get_hwq_Ok _ _ q)) by exact Hhq. cbn [mbind res_bind]. rewrite set_txq_twice.
    set (q' := q <| h_list ::= _ |>).
    change (t <| status := x |> <| status := _ |>) with (t <| status := Z.ldiff x RWNX_TXQ_IN_HWQ_LIST |>).
    set (t' := t <| status := _ |>). change (t_hwq (t <| status := x |>)) with (t_hwq t).
    assert (Hn : rwnx_txq_is_scheduled t' = false) by (pose proof (scheduled_ldiff (t <| status := x |>)) as Hn; destruct t; exact Hn).
    exists (set_hwq (set_txq s i t') (t_hwq t) q'), t'. split; [done |]. split_and!.
    + split.
      * by rewrite env_set_hwq, env_set_txq.
      * eapply qs_upd; [done | by rewrite env_set_hwq, env_set_txq | done |].
        apply qok_status; [done | by apply ldiff_byte | fold t'; by rewrite Hn].
      * by eapply lists_unlink.
      * apply (stas_upd s i t t' Hs Ht); done.
    + etransitivity; [by eapply (same_set_txq s i t t') | apply same_set_hwq].
    + by eapply lookup_set_txq.
    + done.
  - exists (set_txq s i (t <| status := x |>)), (t <| status := x |>). split; [done |]. split_and!.
    + eapply inv_upd; try (done || congruence). apply qok_status; [done.. | by rewrite Hsc].
    + by eapply same_set_txq.
    + by eapply lookup_set_txq.
    + done.
Qed.

(** The reasons the callers give. *)
Definition reason_ok (r : Z) : Prop := is_byte r /\ Z.land r RWNX_TXQ_IN_HWQ_LIST = 0.

Lemma stop_ok s i t r : inv s -> reason_ok r -> txqs s !! i = Some t ->
  exists s' t', rwnx_txq_stop s i r = Ok s' /\ inv s' /\ same s s' /\ txqs s' !! i = Some t' /\
    rwnx_txq_is_scheduled t' = false.
Proof.
  intros Hi [Hr Hr1] Ht. unfold rwnx_txq_stop. rewrite (proj2 (get_txq_Ok s i t) Ht). cbn [mbind res_bind].
  pose proof (i_qs s Hi i t Ht) as Hok. destruct (active t) eqn:Ha.
  - apply del_ok; [done.. | apply u8_byte |]. unfold rwnx_txq_is_scheduled. cbn [status upd].
    by rewrite mask_lor by (done || apply (q_status _ _ _ Hok)).
  - exists s, t. split_and!; [done.. |]. destruct (rwnx_txq_is_scheduled t) eqn:Hsc; [| done].
    by destruct (q_live _ _ _ Hok Hsc) as [? _]; congruence.
Qed.

Lemma start_ok s i t r : inv s -> reason_ok r -> txqs s !! i = Some t ->
  exists s', rwnx_txq_start s i r = Ok s' /\ inv s' /\ same s s'.
Proof.
  intros Hi [Hr Hr1] Ht. unfold rwnx_txq_start. rewrite (proj2 (get_txq_Ok s i t) Ht). cbn [mbind res_bind].
  pose proof (i_qs s Hi i t Ht) as Hok. destruct (active t && _) eqn:Ha; [| by exists s].
  apply andb_true_iff in Ha as [Ha _]. set (t' := t <| status := _ |>).
  assert (Hsc : rwnx_txq_is_scheduled t' = rwnx_txq_is_scheduled t).
  { unfold rwnx_txq_is_scheduled. cbn [status upd t']. by rewrite mask_ldiff. }
  assert (Hst : rwnx_txq_is_stopped t' = true -> rwnx_txq_is_stopped t = true).
  { unfold rwnx_txq_is_stopped. cbn [status upd t']. destruct (Z.eqb_spec (Z.land (status t) RWNX_TXQ_STOP) 0); [| done].
    by rewrite ldiff_land_sub. }
  assert (Hi' : inv (set_txq s i t')).
  { eapply inv_upd; try done. apply qok_status; [done | by apply ldiff_byte, (q_status _ _ _ Hok) |].
    fold t'. rewrite Hsc. intros H. destruct (q_live _ _ _ Hok H) as (? & ? & ?). auto. }
  assert (Hsame : same s (set_txq s i t')) by (by eapply same_set_txq).
  destruct (negb _ && _) eqn:Hb; [| by eexists].
  apply andb_true_iff in Hb as [Hns Hrdy].
  destruct (add_ok (set_txq s i t') i t') as (s' & -> & Hi2 & Hs2); [done | by eapply lookup_set_txq | done | | |].
  - unfold rwnx_txq_skb_ready in Hrdy. by destruct (sk_list t').
  - by destruct (rwnx_txq_is_stopped t').
  - exists s'. split_and!; [done.. |]. by etransitivity.
Qed.

(** ** Composition *)

Definition sched_step (s : rwnx_hw) (m : res rwnx_hw) : Prop :=
  exists s', m = Ok s' /\ inv s' /\ same s s'.

Lemma sched_ret s : inv s -> sched_step s (Ok s).
Proof. by exists s. Qed.

Lemma sched_bind s m f : sched_step s m ->
  (forall s', inv s' -> same s s' -> sched_step s' (f s')) -> sched_step s (m ≫= f).
Proof.
  intros (s1 & -> & Hi & Hs) Hf. destruct (Hf s1 Hi Hs) as (s2 & H2 & Hi2 & Hs2).
  exists s2. split_and!; [done.. |]. by etransitivity.
Qed.

Lemma same_ntx s s' : same s s' -> length (txqs s') = length (txqs s).
Proof. intros H. by apply same_env, (f_equal e_ntx) in H. Qed.

Lemma each_ok f l s :
  (forall s i, inv s -> (i < length (txqs s))%nat -> sched_step s (f s i)) ->
  inv s -> Forall (fun i => (i < length (txqs s))%nat) l -> sched_step s (each f s l).
Proof.
  intros Hf Hi Hl. revert s Hi Hl. induction l as [|i l IH]; intros s Hi Hl; cbn [each].
  - by apply sched_ret.
  - inversion_clear Hl. apply sched_bind; [by apply Hf |]. intros s' Hi' Hs'.
    apply IH; [done |]. by rewrite (same_ntx s s').
Qed.

Lemma start_step s i r : inv s -> reason_ok r -> (i < length (txqs s))%nat -> sched_step s (rwnx_txq_start s i r).
Proof. intros Hi Hr H. destruct (get_txq_lt s i H) as (t & _ & Ht). by apply start_ok with t. Qed.

Lemma stop_step s i r : inv s -> reason_ok r -> (i < length (txqs s))%nat -> sched_step s (rwnx_txq_stop s i r).
Proof.
  intros Hi Hr H. destruct (get_txq_lt s i H) as (t & _ & Ht).
  destruct (stop_ok s i t r) as (s' & _ & ? & ? & ? & _); [done.. |]. by exists s'.
Qed.

(** ** Indices *)

Lemma multicast_ids old a : is_multicast_sta old (ids a).1 = is_multicast_sta old (sta_idx a).
Proof. done. Qed.

Lemma sta_txqs_range s j a : env_ok (env_of s) -> stas s !! j = Some a ->
  Forall (fun i => (i < length (txqs s))%nat) (sta_txqs (old_ic s) a).
Proof.
  intros (He & _ & Hs) Ha. assert (Hid : (ids <$> stas s) !! j = Some (ids a)) by by rewrite list_lookup_fmap, Ha.
  rewrite Forall_lookup in Hs. specialize (Hs j _ Hid). cbn in He, Hs.
  apply Forall_forall. intros i Hi. apply elem_of_seq in Hi.
  unfold rwnx_txq_sta_get, rwnx_txq_sta_idx, NX_OFF_CHAN_TXQ_IDX, NX_FIRST_VIF_TXQ_IDX in *.
  change (NX_NB_TXQ_PER_STA <=? 0)%nat with false in Hi. cbn iota in Hi.
  unfold NX_VIRT_DEV_MAX, NX_NB_TXQ_PER_STA in *.
  destruct (is_multicast_sta (old_ic s) (sta_idx a)) eqn:Hm; [specialize (Hs eq_refl); lia |].
  unfold is_multicast_sta in Hm. apply Nat.leb_gt in Hm. lia.
Qed.

Lemma sta_get_range s j a tid : env_ok (env_of s) -> stas s !! j = Some a ->
  (rwnx_txq_sta_get (old_ic s) a tid < length (txqs s))%nat.
Proof.
  intros (He & _ & Hs) Ha. assert (Hid : (ids <$> stas s) !! j = Some (ids a)) by by rewrite list_lookup_fmap, Ha.
  rewrite Forall_lookup in Hs. specialize (Hs j _ Hid). cbn in He, Hs.
  unfold rwnx_txq_sta_get, rwnx_txq_sta_idx, NX_OFF_CHAN_TXQ_IDX, NX_FIRST_VIF_TXQ_IDX, NX_VIRT_DEV_MAX,
    NX_NB_TXQ_PER_STA in *.
  destruct (is_multicast_sta (old_ic s) (sta_idx a)) eqn:Hm; [specialize (Hs eq_refl); lia |].
  unfold is_multicast_sta in Hm. apply Nat.leb_gt in Hm. destruct (Nat.leb_spec 9 tid); lia.
Qed.

Lemma vif_txq_range s n type : env_ok (env_of s) -> (n < NX_VIRT_DEV_MAX)%nat ->
  (rwnx_txq_vif_get (old_ic s) n type < length (txqs s))%nat.
Proof.
  intros (He & _) Hn. cbn in He.
  unfold rwnx_txq_vif_get, rwnx_txq_vif_idx, NX_OFF_CHAN_TXQ_IDX, NX_BCMC_TXQ_TYPE, NX_UNK_TXQ_TYPE, NX_VIRT_DEV_MAX in *.
  destruct (Nat.ltb_spec 1 type); lia.
Qed.

Lemma sta_start_step s j r : inv s -> reason_ok r -> (j < length (stas s))%nat ->
  sched_step s (rwnx_txq_sta_start s j r).
Proof.
  intros Hi Hr Hj. destruct (lookup_lt_is_Some_2 _ _ Hj) as [a Ha]. unfold rwnx_txq_sta_start.
  rewrite (proj2 (get_sta_Ok s j a) Ha). cbn [mbind res_bind].
  apply each_ok; [| done | eapply sta_txqs_range; [apply Hi | done]]. intros. by apply start_step.
Qed.

Lemma sta_stop_step s j r : inv s -> reason_ok r -> (forall k, j = Some k -> k < length (stas s))%nat ->
  sched_step s (rwnx_txq_sta_stop s j r).
Proof.
  intros Hi Hr Hj. destruct j as [j|]; [| by apply sched_ret].
  destruct (lookup_lt_is_Some_2 _ _ (Hj j eq_refl)) as [a Ha]. unfold rwnx_txq_sta_stop.
  rewrite (proj2 (get_sta_Ok s j a) Ha). cbn [mbind res_bind].
  apply each_ok; [| done | eapply sta_txqs_range; [apply Hi | done]]. intros. by apply stop_step.
Qed.

(** An interface whose stations are in the table. *)
Record vif_ok (n : nat) (v : rwnx_vif) : Prop := {
  v_index : (vif_index v < NX_VIRT_DEV_MAX)%nat;
  v_known : v_type v <> OTHER_IF;
  v_ap : forall j, sta_ap v = Some j -> (j < n)%nat;
  v_tdls : forall j, tdls_sta v = Some j -> (j < n)%nat;
  v_link : tdls_active v = true -> tdls_sta v <> None;
  v_list : Forall (fun j => (j < n)%nat) (sta_list v) }.

Definition known_sta (n : nat) (j : option nat) : Prop := exists k, j = Some k /\ (k < n)%nat.

Lemma vif_stas_Ok n v : vif_ok n v -> v_type v <> MONITOR ->
  exists l, vif_stas v = Ok l /\ Forall (known_sta n) l.
Proof.
  intros [] Hm. unfold vif_stas.
  assert (Hap : Forall (known_sta n) (Some <$> sta_list v)).
  { apply Forall_fmap. eapply Forall_impl; [exact v_list0 |]. intros k Hk. by exists k. }
  assert (Hst : Forall (known_sta n) ((if tdls_active v then [tdls_sta v] else []) ++
     match sta_ap v with Some a => [Some a] | None => [] end)).
  { apply Forall_app. split.
    - destruct (tdls_active v) eqn:Et; [| constructor]. specialize (v_link0 eq_refl).
      destruct (tdls_sta v) as [j|]; [| done]. constructor; [| constructor]. exists j. auto.
    - destruct (sta_ap v) as [j|]; [| constructor]. constructor; [| constructor]. exists j. auto. }
  destruct (v_type v); try done; by eexists.
Qed.

Lemma start_stas_step l s r : inv s -> reason_ok r -> Forall (known_sta (length (stas s))) l ->
  sched_step s (start_stas s l r).
Proof.
  revert s. induction l as [|j l IH]; intros s Hi Hr Hl; cbn [start_stas]; [by apply sched_ret |].
  inversion_clear Hl as [| ? ? (k & -> & Hk) Hl']. apply sched_bind; [by apply sta_start_step |].
  intros s' Hi' (_ & _ & Hs & _). apply IH; [done.. |]. by rewrite Hs.
Qed.

Lemma stop_stas_step l s r : inv s -> reason_ok r -> Forall (known_sta (length (stas s))) l ->
  sched_step s (stop_stas s l r).
Proof.
  revert s. induction l as [|j l IH]; intros s Hi Hr Hl; cbn [stop_stas]; [by apply sched_ret |].
  inversion_clear Hl as [| ? ? (k & -> & Hk) Hl']. apply sched_bind.
  - apply sta_stop_step; [done.. | naive_solver].
  - intros s' Hi' (_ & _ & Hs & _). apply IH; [done.. |]. by rewrite Hs.
Qed.

Lemma vif_start_step s v r : inv s -> reason_ok r -> vif_ok (length (stas s)) v ->
  sched_step s (rwnx_txq_vif_start s v r).
Proof.
  intros Hi Hr Hv. assert (Hdec : v_type v = MONITOR \/ v_type v <> MONITOR) by (destruct (v_type v); auto).
  unfold rwnx_txq_vif_start. destruct Hdec as [-> | Hm]; [by apply sched_ret |].
  set (m := _ ≫= _). assert (H : sched_step s m); [| by destruct (v_type v)].
  unfold m. clear m. apply sched_bind.
  { destruct (roc_tdls v && chsw_en v); [| by apply sched_ret].
    destruct (tdls_sta v) as [j|] eqn:Hj; [| by apply sched_ret]. apply sta_start_step; [done.. |]. by eapply v_tdls. }
  intros s1 Hi1 Hs1. apply sched_bind.
  { destruct (roc_tdls v); [by apply sched_ret |]. destruct (vif_stas_Ok _ v Hv Hm) as (l & -> & Hl).
    cbn [mbind res_bind]. apply start_stas_step; [done.. |]. by destruct Hs1 as (_ & _ & -> & _). }
  intros s2 Hi2 Hs2. apply sched_bind; [apply start_step | intros; apply start_step];
    try done; apply vif_txq_range; try apply Hv; by apply i_env.
Qed.

Lemma vif_stop_step s v r : inv s -> reason_ok r -> vif_ok (length (stas s)) v ->
  sched_step s (rwnx_txq_vif_stop s v r).
Proof.
  intros Hi Hr Hv. assert (Hdec : v_type v = MONITOR \/ v_type v <> MONITOR) by (destruct (v_type v); auto).
  unfold rwnx_txq_vif_stop. destruct Hdec as [-> | Hm]; [by apply sched_ret |].
  set (m := _ ≫= _). assert (H : sched_step s m); [| by destruct (v_type v)].
  unfold m. clear m. destruct (vif_stas_Ok _ v Hv Hm) as (l & -> & Hl). cbn [mbind res_bind].
  apply sched_bind; [by apply stop_stas_step |].
  intros s2 Hi2 Hs2. apply sched_bind; [apply stop_step | intros; apply stop_step];
    try done; apply vif_txq_range; try apply Hv; by apply i_env.
Qed.

(** ** Buffers *)

Definition qbufs (s : rwnx_hw) (k : nat) : list skb :=
  match txqs s !! k with Some t => sk_list t | None => [] end.

(** The buffers of queue [k] that leave it, in order. *)
Definition left (k : nat) (ev : list event) : list skb :=
  ev ≫= fun e => match e with
                 | EvTx b _ | EvFree b => if decide (s_txq b = k) then [b] else []
                 | _ => []
                 end.

(** What leaves a queue is its front. *)
Definition moves (s s' : rwnx_hw) (ev : list event) : Prop :=
  forall k, qbufs s k = left k ev ++ qbufs s' k.

Lemma left_app k e1 e2 : left k (e1 ++ e2) = left k e1 ++ left k e2.
Proof. apply bind_app. Qed.

Lemma moves_trans s1 s2 s3 e1 e2 : moves s1 s2 e1 -> moves s2 s3 e2 -> moves s1 s3 (e1 ++ e2).
Proof. intros H1 H2 k. by rewrite left_app, <- app_assoc, <- H2, <- H1. Qed.

Lemma qbufs_same s s' : same s s' -> forall k, qbufs s' k = qbufs s k.
Proof.
  intros H k. unfold qbufs. destruct (txqs s !! k) as [t|] eqn:Ht.
  - destruct (same_lookup s s' k t H Ht) as (t' & -> & Hc). by apply core_eq in Hc as (_ & _ & ? & _).
  - apply lookup_ge_None in Ht. by rewrite (proj2 (lookup_ge_None _ _)) by (by rewrite (same_ntx s s')).
Qed.

Lemma moves_same s s' : same s s' -> moves s s' [].
Proof. intros H k. by rewrite (qbufs_same s s'). Qed.

Lemma qbufs_set_txq s i t t' k : txqs s !! i = Some t ->
  qbufs (set_txq s i t') k = if decide (k = i) then sk_list t' else qbufs s k.
Proof.
  intros H. unfold qbufs. destruct (decide (k = i)) as [-> |].
  - by erewrite lookup_set_txq.
  - unfold set_txq. cbn. by rewrite list_lookup_insert_ne.
Qed.

Lemma left_own e i t k : qok e i t -> left k (EvFree <$> sk_list t) = if decide (k = i) then sk_list t else [].
Proof.
  intros H. apply q_skbs in H. unfold left. induction H as [| b l [Hb _] _ IH]; [by destruct (decide _) |].
  cbn in *. rewrite IH, Hb. destruct (decide (i = k)), (decide (k = i)); by subst.
Qed.

(** An operation that succeeds, keeps the invariant and takes buffers from the
    fronts of the queues. *)
Definition tx_step (s : rwnx_hw) (m : res (rwnx_hw * list event)) : Prop :=
  exists s' ev, m = Ok (s', ev) /\ inv s' /\ env_of s' = env_of s /\ moves s s' ev.

Lemma sched_moves s m : sched_step s m -> exists s', m = Ok s' /\ inv s' /\ env_of s' = env_of s /\ moves s s' [].
Proof. intros (s' & -> & Hi & Hs). exists s'. split_and!; [done.. | by apply same_env | by apply moves_same]. Qed.

Lemma sched_tx_step s m : sched_step s m -> tx_step s (s ← m; Ok (s, [])).
Proof. intros (s' & -> & Hi & He & Hm)%sched_moves. by exists s', []. Qed.

(** ** Queues come and go *)

(** No sleeping group of stations uses the queue. *)
Definition mc_free (s : rwnx_hw) (i : nat) : Prop :=
  forall j a, stas s !! j = Some a -> ps_active a = true ->
    is_multicast_sta (old_ic s) (sta_idx a) = true -> first_txq (old_ic s) (ids a) <> i.

Lemma stas_free s i t : stas_ok s -> mc_free s i -> stas_ok (set_txq s i t).
Proof.
  intros Hs Hf j a Ha. destruct (Hs j a Ha) as [Hok Hm]. split; [done |]. intros Hp Hmc.
  destruct (Hm Hp Hmc) as (u & Hu & H). exists u. unfold set_txq. cbn.
  by rewrite list_lookup_insert_ne by (intros E; by apply (Hf j a)).
Qed.

Lemma inactive_free s i t : stas_ok s -> txqs s !! i = Some t -> active t = false -> mc_free s i.
Proof. intros Hs Ht Ha j a Hja Hp Hmc E. destruct (proj2 (Hs j a Hja) Hp Hmc) as (u & Hu & Hau & _). congruence. Qed.

Lemma inactive_unlisted e i t : qok e i t -> active t = false -> rwnx_txq_is_scheduled t = false.
Proof.
  intros H Ha. destruct (rwnx_txq_is_scheduled t) eqn:E; [| done]. destruct (q_live _ _ _ H E). congruence.
Qed.

Lemma put_step s i t t' : inv s -> txqs s !! i = Some t -> active t = false -> qok (env_of s) i t' ->
  sk_list t' = [] -> rwnx_txq_is_scheduled t' = false ->
  inv (set_txq s i t') /\ moves s (set_txq s i t') [].
Proof.
  intros Hi Ht Ha Hok Hk Hs. pose proof (i_qs s Hi i t Ht) as Hq. pose proof (inactive_unlisted _ _ _ Hq Ha) as Hu.
  split.
  - destruct Hi as [He Hqs Hl Hst]. split.
    + by rewrite env_set_txq.
    + by eapply qs_upd; [| apply env_set_txq | |].
    + eapply lists_upd; [done.. | by rewrite Hs, Hu | by rewrite Hu].
    + apply stas_free; [done |]. by eapply inactive_free.
  - intros k. rewrite (qbufs_set_txq s i t t' k Ht). destruct (decide (k = i)) as [-> |]; [| done].
    unfold qbufs. by rewrite Ht, Hk, (proj1 (q_idle _ _ _ Hq Ha)).
Qed.

Lemma deinit_step s i : inv s -> (i < length (txqs s))%nat -> mc_free s i ->
  exists s' ev, rwnx_txq_deinit s i = Ok (s', ev) /\ inv s' /\ env_of s' = env_of s /\ moves s s' ev /\
    stas s' = stas s.
Proof.
  intros Hi Hlt Hf. destruct (get_txq_lt s i Hlt) as (t & Hg & Ht). unfold rwnx_txq_deinit.
  rewrite Hg. cbn [mbind res_bind]. pose proof (i_qs s Hi i t Ht) as Hok.
  destruct (active t) eqn:Ha; cbn [negb]; [| by exists s, []].
  destruct (del_ok s i t (status t)) as (s' & t' & Hd & Hi' & Hs & Ht' & Hsc); [done.. | by apply Hok | by rewrite status_id |].
  rewrite status_id, (set_txq_id s i t Ht) in Hd. rewrite Hd. cbn [mbind res_bind].
  rewrite (proj2 (get_txq_Ok s' i t') Ht'). cbn [mbind res_bind]. unfold rwnx_txq_flush.
  rewrite (proj2 (get_txq_Ok _ i (t' <| active := false |>))) by (by eapply lookup_set_txq).
  cbn [mbind res_bind]. rewrite set_txq_twice. set (u := t' <| active := false |> <| sk_list := [] |>).
  assert (Hok' : qok (env_of s') i t') by by apply i_qs.
  assert (Hu : qok (env_of s') i u).
  { pose proof (credits_nonneg _ _ _ Hok') as Hc. destruct Hok'. split; try done. intros Hsu. change (rwnx_txq_is_scheduled t' = true) in Hsu. congruence. }
  exists (set_txq s' i u), (EvFree <$> sk_list t'). split; [done |].
  assert (He : env_of s' = env_of s) by by apply same_env. split_and!.
  - destruct Hi' as [He' Hqs Hl Hst]. split.
    + by rewrite env_set_txq.
    + by eapply qs_upd; [| apply env_set_txq | |].
    + by eapply lists_upd; [.. | by rewrite Hsc].
    + apply stas_free; [done |]. intros j a. destruct Hs as (-> & _ & -> & _). apply Hf.
  - by rewrite env_set_txq.
  - intros k. rewrite (left_own _ _ _ k Hok'), (qbufs_set_txq s' i t' u k Ht'), <- (qbufs_same s s' Hs).
    destruct (decide (k = i)) as [-> |]; [| done]. unfold qbufs. rewrite Ht'. by rewrite app_nil_r.
  - unfold set_txq. cbn. by destruct Hs as (_ & _ & -> & _).
Qed.

Lemma each_deinit l s : inv s -> Forall (fun i => (i < length (txqs s))%nat /\ mc_free s i) l ->
  tx_step s (each_ev rwnx_txq_deinit s l).
Proof.
  revert s. induction l as [|i l IH]; intros s Hi Hl; cbn [each_ev]; [by exists s, [] |].
  inversion_clear Hl as [| ? ? [Hlt Hf] Hl'].
  destruct (deinit_step s i Hi Hlt Hf) as (s1 & e1 & -> & Hi1 & He1 & Hm1 & Hs1). cbn [mbind res_bind fst snd].
  destruct (IH s1 Hi1) as (s2 & e2 & -> & Hi2 & He2 & Hm2).
  { eapply Forall_impl; [exact Hl' |]. intros k [Hk Hfk].
    pose proof (f_equal e_ntx He1) as Hn. pose proof (f_equal e_old He1) as Ho. cbn in Hn, Ho.
    unfold mc_free. by rewrite Hn, Ho, Hs1. }
  exists s2, (e1 ++ e2). split_and!; [done.. | by rewrite He2 | by eapply moves_trans].
Qed.

Definition owner_ok (e : env) (i h : nat) (pos : option nat) : Prop :=
  forall j, pos = Some j -> exists d, e_sta e !! j = Some d /\
    (is_multicast_sta (e_old e) d.1 = true -> i = first_txq (e_old e) d /\ h = RWNX_HWQ_BE).

Lemma qok_init e i st h tid sta pos p : reason_ok st -> (h < e_nh e)%nat -> owner_ok e i h pos ->
  qok e i ((rwnx_txq_init (e_old e) i st h tid sta pos) <| ps_id := p |>).
Proof.
  intros [Hb Hr] Hh Ho. split; cbn [t_hwq status active credits push_limit sk_list t_sta nb_retry last_retry_skb
    rwnx_txq_init upd]; try done.
  unfold rwnx_txq_is_scheduled. cbn [status rwnx_txq_init upd]. by rewrite Hr.
Qed.

Definition idle (s : rwnx_hw) (i : nat) : Prop := exists t, txqs s !! i = Some t /\ active t = false.

Lemma put_init s i st h tid sta pos p : inv s -> idle s i -> reason_ok st -> (h < 4)%nat ->
  owner_ok (env_of s) i h pos ->
  exists s', put_txq s i ((rwnx_txq_init (old_ic s) i st h tid sta pos) <| ps_id := p |>) = Ok s' /\ inv s' /\
    env_of s' = env_of s /\ moves s s' [] /\ stas s' = stas s /\ (forall k, k <> i -> idle s k -> idle s' k).
Proof.
  intros Hi (t & Ht & Ha) Hst Hh Ho. set (u := _ <| ps_id := p |>). exists (set_txq s i u).
  assert (Hn : e_nh (env_of s) = 4%nat) by by destruct (i_env s Hi) as (_ & ? & _).
  assert (Hu : qok (env_of s) i u) by (apply qok_init; [done | by rewrite Hn | done]).
  destruct (put_step s i t u) as [Hi' Hm']; [done.. | |].
  { unfold u, rwnx_txq_is_scheduled. cbn [status rwnx_txq_init upd]. by rewrite (proj2 Hst). }
  split_and!; [| done | by apply env_set_txq | done | done |].
  - unfold put_txq. by rewrite (proj2 (get_txq_Ok s i t) Ht).
  - intros k Hk (v & Hv & Hav). exists v. split; [| done]. unfold set_txq. cbn. by rewrite list_lookup_insert_ne.
Qed.

Lemma init_ps_id old i st h tid sta pos :
  rwnx_txq_init old i st h tid sta pos = (rwnx_txq_init old i st h tid sta pos) <| ps_id := LEGACY_PS_ID |>.
Proof. done. Qed.

Lemma tid2hwq_range tid : (rwnx_tid2hwq tid < 4)%nat.
Proof. unfold rwnx_tid2hwq. do 9 (destruct tid as [|tid]; [cbn; unfold RWNX_HWQ_BE, RWNX_HWQ_BK, RWNX_HWQ_VI, RWNX_HWQ_VO; lia |]). destruct tid; cbn; unfold RWNX_HWQ_BE; lia. Qed.

Lemma init_sta_loop_ok n j a st : forall s idx tid, inv s -> reason_ok st ->
  (forall k, (k < n)%nat -> idle s (idx + k) /\ owner_ok (env_of s) (idx + k) (rwnx_tid2hwq (tid + k)) (Some j)) ->
  exists s', init_sta_loop s j a st idx tid n = Ok s' /\ inv s' /\ env_of s' = env_of s /\ moves s s' [].
Proof.
  induction n as [|n IH]; intros s idx tid Hi Hst Hk; cbn [init_sta_loop]; [by exists s |].
  destruct (Hk 0%nat) as [Hid Ho]; [lia |]. rewrite Nat.add_0_r in Hid. rewrite !Nat.add_0_r in Ho.
  edestruct (put_init s idx st (rwnx_tid2hwq tid) tid (Some a) (Some j)) as (s1 & H1 & Hi1 & He1 & Hm1 & _ & Hid1);
    [done.. | apply tid2hwq_range | done |].
  rewrite H1. cbn [mbind res_bind]. destruct (IH s1 (S idx) (S tid)) as (s2 & H2 & Hi2 & He2 & Hm2); [done.. | |].
  - intros k Hkn. destruct (Hk (S k)) as [Hid' Ho']; [lia |].
    replace (S idx + k)%nat with (idx + S k)%nat by lia. replace (S tid + k)%nat with (tid + S k)%nat by lia.
    rewrite He1. split; [| done]. apply Hid1; [lia | done].
  - exists s2. split_and!; [done.. | by rewrite He2 |]. by apply (moves_trans s s1 s2 [] []).
Qed.

(** A station whose queues are not in use. *)
Definition sta_idle (s : rwnx_hw) (j : nat) : Prop :=
  exists a, stas s !! j = Some a /\ Forall (idle s) (sta_txqs (old_ic s) a).

Lemma env_sta s j a : stas s !! j = Some a -> e_sta (env_of s) !! j = Some (ids a).
Proof. intros H. unfold env_of. cbn. by rewrite list_lookup_fmap, H. Qed.

Lemma sta_init_ok s j st : inv s -> reason_ok st -> sta_idle s j ->
  exists s', rwnx_txq_sta_init s j st = Ok s' /\ inv s' /\ env_of s' = env_of s /\ moves s s' [].
Proof.
  intros Hi Hst (a & Ha & Hid). unfold rwnx_txq_sta_init. rewrite (proj2 (get_sta_Ok s j a) Ha). cbn [mbind res_bind].
  rewrite Forall_forall in Hid. apply init_sta_loop_ok; [done.. |]. unfold sta_txqs. intros k Hk.
  rewrite length_seq in Hk. split.
  - apply Hid. unfold sta_txqs. apply elem_of_seq.
    change (rwnx_txq_sta_get (old_ic s) a 0) with (rwnx_txq_sta_idx (old_ic s) a 0). lia.
  - intros j' [= <-]. exists (ids a). split; [by apply env_sta |]. intros Hm. rewrite multicast_ids in Hm.
    cbn [e_old env_of] in Hm. rewrite Hm in Hk. replace k with 0%nat by lia. rewrite Nat.add_0_r. split; [| done].
    unfold first_txq, rwnx_txq_sta_idx. cbn [e_old env_of ids fst snd]. by rewrite Hm.
Qed.

End Inv.

#[global] Arguments qok pol e i t : clear implicits.
#[global] Arguments qs_ok pol s : clear implicits.
#[global] Arguments inv pol s : clear implicits.
#[global] Arguments sched_step pol s m : clear implicits.
#[global] Arguments tx_step pol s m : clear implicits.

End TxqInv.
