(* ===== verification/TxqServe.v ===== *)
(** * Serving the hardware queues

    Pushing a list of buffers in closed form, the body and the loop of
    [rwnx_hwq_process]: they succeed in every state of the invariant, keep it,
    and serve every queue of the list. *)

From stdpp Require Import prelude.
From S2P Require Import Prelude Txq TxqInv.
Open Scope Z_scope.

Module TxqServe.
Import Txq TxqInv.

(** ** Pushing *)

(** What one buffer does to its station and to its queue. *)
Definition take1 (p : psid) (a : rwnx_sta) : rwnx_sta :=
  if ps_active a then set_sp (set_ready a p (pkt_ready a p - 1)) p (sp_cnt a p - 1) else a.

Definition pushed_stas (l : list rwnx_sta) (t : rwnx_txq) (n : nat) : list rwnx_sta :=
  match t_sta t with Some j => alter (Nat.iter n (take1 (ps_id t))) j l | None => l end.

Definition pushed (s : rwnx_hw) (i : nat) (t : rwnx_txq) (n : nat) : rwnx_hw :=
  HwT (old_ic s) (<[i := Nat.iter n push_count t]> (txqs s)) (hwqs s) (pushed_stas (stas s) t n).

Lemma take1_sp a p : sp_cnt (set_ready a p (pkt_ready a p - 1)) p = sp_cnt a p.
Proof. by destruct p. Qed.

Lemma push_count_frame t : nb_retry t = 0 ->
  exists x y z, push_count t = t <| pkt_sent := x |> <| pkt_pushed := y |> <| push_limit := z |> /\
    z = if push_limit t =? 0 then push_limit t else push_limit t - 1.
Proof.
  intros H. unfold push_count. rewrite H. destruct t. cbn in *. subst. by destruct (Z.eqb_spec push_limit0 0); eexists _, _, _.
Qed.

Lemma push_iter_frame n t : nb_retry t = 0 -> 0 <= push_limit t ->
  exists x y, Nat.iter n push_count t =
    t <| pkt_sent := x |> <| pkt_pushed := y |> <| push_limit := Z.max 0 (push_limit t - Z.of_nat n) |>.
Proof.
  intros Hr Hp. induction n as [|n (x & y & IH)].
  - exists (pkt_sent t), (pkt_pushed t). destruct t. cbn in *. f_equal. lia.
  - rewrite Nat.iter_succ, IH. set (u := t <| pkt_sent := x |> <| pkt_pushed := y |> <| push_limit := _ |>).
    destruct (push_count_frame u) as (x' & y' & z & Hu & Hz); [by destruct t |].
    exists x', y'. rewrite Hu. destruct t. cbn in *. f_equal. rewrite Hz. bool_cases; lia.
Qed.

Lemma pushed_same t n : nb_retry t = 0 -> 0 <= push_limit t ->
  t_sta (Nat.iter n push_count t) = t_sta t /\ ps_id (Nat.iter n push_count t) = ps_id t /\
  nb_retry (Nat.iter n push_count t) = 0 /\ 0 <= push_limit (Nat.iter n push_count t).
Proof. intros Hr Hp. destruct (push_iter_frame n t Hr Hp) as (x & y & ->). cbn. split_and!; [done.. | lia]. Qed.

Definition owned (i : nat) (t : rwnx_txq) (b : skb) : Prop := s_txq b = i /\ s_sta b = t_sta t.
Definition own (k : nat) (b : skb) : list skb := if decide (s_txq b = k) then [b] else [].

Lemma push_one s i t b : txqs s !! i = Some t -> owned i t b ->
  (forall j, t_sta t = Some j -> (j < length (stas s))%nat) ->
  exists ev, rwnx_tx_push s b = Ok (pushed s i t 1, ev) /\ (forall k, left k ev = own k b).
Proof.
  intros Ht [Hb Hs] Hj. unfold rwnx_tx_push. rewrite Hb, (proj2 (get_txq_Ok s i t) Ht), Hs. cbn [mbind res_bind].
  unfold pushed, pushed_stas, more_data. destruct (t_sta t) as [j|].
  - destruct (lookup_lt_is_Some_2 _ _ (Hj j eq_refl)) as [a Ha]. rewrite (proj2 (get_sta_Ok s j a) Ha).
    cbn [mbind res_bind]. rewrite (alter_insert _ _ _ a Ha). cbn [Nat.iter nat_rect]. unfold take1.
    destruct (ps_active a) eqn:Hp; cbn [mbind res_bind fst snd].
    + eexists. split; [by destruct s |]. intros k. rewrite left_app. unfold left at 2, own. cbn.
      rewrite app_nil_r. by destruct (_ =? 0).
    + eexists. rewrite (list_insert_id (stas s) j a Ha). split; [by destruct s |]. intros k. unfold left, own. cbn. by rewrite app_nil_r.
  - cbn. eexists. split; [by destruct s |]. intros k. unfold left, own. cbn. by rewrite app_nil_r.
Qed.

Lemma iter_shift {A} n (f : A -> A) x : Nat.iter n f (f x) = Nat.iter (S n) f x.
Proof. by rewrite Nat.iter_succ_r. Qed.

Lemma pushed_add s i t n : txqs s !! i = Some t -> nb_retry t = 0 -> 0 <= push_limit t ->
  pushed (pushed s i t 1) i (push_count t) n = pushed s i t (S n).
Proof.
  intros Ht Hr Hp. unfold pushed. cbn [old_ic txqs hwqs stas]. rewrite list_insert_insert_eq.
  change (Nat.iter 1 push_count t) with (push_count t). rewrite iter_shift. f_equal.
  unfold pushed_stas. destruct (pushed_same t 1 Hr Hp) as (Hj & Hps & _). cbn [Nat.iter nat_rect] in Hj, Hps.
  rewrite Hj, Hps. destruct (t_sta t) as [j|]; [| done]. apply list_eq. intros k.
  destruct (decide (k = j)) as [-> |]; [| by rewrite !list_lookup_alter_ne].
  rewrite !list_lookup_alter_eq. destruct (stas s !! j); [| done]. cbn [fmap option_fmap option_map].
  f_equal. change (Nat.iter 1 (take1 (ps_id t)) r) with (take1 (ps_id t) r). apply iter_shift.
Qed.

Lemma push_all_ok l : forall s i t, txqs s !! i = Some t -> Forall (owned i t) l ->
  nb_retry t = 0 -> 0 <= push_limit t -> (forall j, t_sta t = Some j -> (j < length (stas s))%nat) ->
  exists ev, push_all s l = Ok (pushed s i t (length l), ev) /\ (forall k, left k ev = l ≫= own k).
Proof.
  induction l as [|b l IH]; intros s i t Ht Hl Hr Hp Hj; cbn [push_all length].
  - exists []. split; [| done]. f_equal. f_equal. unfold pushed, pushed_stas. cbn [Nat.iter nat_rect].
    rewrite list_insert_id by done. destruct s, (t_sta t); cbn in *; [| done]. f_equal.
    symmetry. apply list_alter_id. done.
  - inversion_clear Hl as [| ? ? Hb Hl']. destruct (push_one s i t b Ht Hb Hj) as (e1 & -> & He1).
    cbn [mbind res_bind fst snd]. destruct (pushed_same t 1 Hr Hp) as (Hj1 & Hps1 & Hr1 & Hp1).
    edestruct (IH (pushed s i t 1) i (push_count t)) as (e2 & -> & He2).
    + unfold pushed. cbn. apply list_lookup_insert_eq. by eapply lookup_lt_Some.
    + eapply Forall_impl; [exact Hl' |]. intros x [Hx1 Hx2]. split; [done |]. by rewrite Hx2.
    + done.
    + done.
    + intros j Hjt. change (t_sta (Nat.iter 1 push_count t) = Some j) in Hjt. rewrite Hj1 in Hjt.
      unfold pushed, pushed_stas. cbn [stas]. rewrite Hjt, length_alter. by apply Hj.
    + cbn [mbind res_bind fst snd]. exists (e1 ++ e2). rewrite pushed_add by done. split; [done |].
      intros k. by rewrite left_app, He1, He2.
Qed.

Section Pass.
Context {pol : bool}.
#[local] Abbreviation inv := (TxqInv.inv pol).
#[local] Abbreviation qok := (TxqInv.qok pol).
#[local] Abbreviation qs_ok := (TxqInv.qs_ok pol).

(** ** Stations whose buffers are pushed *)

Lemma take1_frame p a : sta_ok a ->
  ids (take1 p a) = ids a /\ ps_active (take1 p a) = ps_active a /\ sta_ok (take1 p a).
Proof.
  intros (H1 & H2 & H3 & H4). unfold take1. destruct (ps_active a) eqn:E; [| by rewrite E].
  destruct p, a; cbn in *; (split_and!; [done.. |]); unfold sta_ok; cbn;
    split_and!; try apply u16_range; try apply u16_range; try lia.
Qed.

Lemma iter_take1 p a n : sta_ok a ->
  ids (Nat.iter n (take1 p) a) = ids a /\ ps_active (Nat.iter n (take1 p) a) = ps_active a /\
  sta_ok (Nat.iter n (take1 p) a).
Proof.
  intros Ha. induction n as [|n (H1 & H2 & H3)]; [done |]. rewrite Nat.iter_succ.
  destruct (take1_frame p _ H3) as (E1 & E2 & E3). by rewrite E1, E2.
Qed.

Lemma u16_step x y : u16 (u16 x - y) = u16 (x - y).
Proof. unfold u16. by rewrite Zminus_mod_idemp_l. Qed.

Lemma iter_take1_legacy a n : sta_ok a -> ps_active a = true ->
  ready_legacy (Nat.iter n (take1 LEGACY_PS_ID) a) = u16 (ready_legacy a - Z.of_nat n) /\
  ready_uapsd (Nat.iter n (take1 LEGACY_PS_ID) a) = ready_uapsd a.
Proof.
  intros Ha Hp. induction n as [|n (H1 & H2)].
  - cbn. rewrite Z.sub_0_r, u16_id by apply Ha. done.
  - rewrite Nat.iter_succ. destruct (iter_take1 LEGACY_PS_ID a n Ha) as (_ & E & _).
    set (b := Nat.iter n (take1 LEGACY_PS_ID) a) in *. unfold take1 at 1 2. rewrite E, Hp.
    assert (H : forall x, u16 (x - 1) = ready_legacy (set_sp (set_ready b LEGACY_PS_ID (x - 1)) LEGACY_PS_ID
      (sp_cnt b LEGACY_PS_ID - 1))) by by destruct b.
    rewrite <- H. change (pkt_ready b LEGACY_PS_ID) with (ready_legacy b). rewrite H1, u16_step.
    split; [f_equal; lia |]. rewrite <- H2. by destruct b.
Qed.

Lemma pushed_ids l t n : (forall j a, l !! j = Some a -> sta_ok a) -> ids <$> pushed_stas l t n = ids <$> l.
Proof.
  intros H. unfold pushed_stas. destruct (t_sta t) as [j|]; [| done].
  destruct (l !! j) as [a|] eqn:E.
  - rewrite (alter_insert _ _ _ a E). apply (fmap_insert_same ids _ _ a); [done |]. apply iter_take1. by eapply H.
  - f_equal. apply list_eq. intros k. destruct (decide (k = j)) as [-> |].
    + by rewrite list_lookup_alter_eq, E.
    + by rewrite list_lookup_alter_ne.
Qed.

(** The station of a queue counts [d] more buffers with [f]. *)
Lemma stas_count s s' i t t' f d : inv s -> txqs s !! i = Some t ->
  old_ic s' = old_ic s -> txqs s' = <[i := t']> (txqs s) ->
  stas s' = match t_sta t with Some j => alter f j (stas s) | None => stas s end ->
  (forall a, sta_ok a -> ids (f a) = ids a /\ ps_active (f a) = ps_active a /\ sta_ok (f a)) ->
  (forall a, sta_ok a -> ps_active a = true -> ps_id t = LEGACY_PS_ID ->
     ready_legacy (f a) = u16 (ready_legacy a + d) /\ ready_uapsd (f a) = ready_uapsd a) ->
  active t' = active t -> t_sta t' = t_sta t -> ps_id t' = ps_id t -> len t' = len t + d -> stas_ok s'.
Proof.
  intros Hi Ht Ho Hts Hss Hf Hfl Ha Hj Hp Hn k b Hb.
  assert (Hlt : (i < length (txqs s))%nat) by (by eapply lookup_lt_Some).
  pose proof (i_stas s Hi) as Hst. rewrite Ho, Hts.
  assert (Hother : t_sta t <> Some k -> stas s !! k = Some b -> sta_ok b /\ mc_ok (old_ic s) (<[i:=t']> (txqs s)) k b).
  { intros Hne Hk. destruct (Hst k b Hk) as [Hok Hm]. split; [done |]. intros Hps Hmc.
    destruct (Hm Hps Hmc) as (u & Hu & H1 & H2 & H3). exists u. rewrite list_lookup_insert_ne; [done |].
    intros E. rewrite <- E in Hu. congruence. }
  rewrite Hss in Hb. destruct (t_sta t) as [j|] eqn:Hjt; [| by apply Hother].
  destruct (decide (k = j)) as [-> |]; [| rewrite list_lookup_alter_ne in Hb by done; apply Hother; congruence].
  rewrite list_lookup_alter_eq in Hb. destruct (stas s !! j) as [a|] eqn:Hja; simplify_eq/=.
  destruct (Hst j a Hja) as [Hok Hm]. destruct (Hf a Hok) as (E1 & E2 & E3).
  split; [done |]. intros Hps Hmc. rewrite E2 in Hps. rewrite <- multicast_ids, E1 in Hmc. rewrite E1.
  destruct (Hm Hps Hmc) as (u & Hu & H1 & H2 & H3 & H4 & H5).
  destruct (q_sta _ _ _ (i_qs s Hi i t Ht) j Hjt) as (e & Hd & Hdm). rewrite (env_sta s j a Hja) in Hd.
  injection Hd as <-. destruct (Hdm Hmc) as [Hfi _]. cbn [e_old env_of] in Hfi. rewrite <- Hfi in *.
  assert (u = t) as -> by congruence. exists t'. rewrite list_lookup_insert_eq by done.
  rewrite Ha, Hj, Hp, Hn. destruct (Hfl a Hok Hps H3) as [-> ->].
  split_and!; try done. rewrite H4. unfold u16. by rewrite Zplus_mod_idemp_l.
Qed.

Lemma stas_pushed s s' i t t' n : inv s -> txqs s !! i = Some t ->
  old_ic s' = old_ic s -> txqs s' = <[i := t']> (txqs s) -> stas s' = pushed_stas (stas s) t n ->
  active t' = active t -> t_sta t' = t_sta t -> ps_id t' = ps_id t -> len t' = len t - Z.of_nat n ->
  stas_ok s'.
Proof.
  intros. apply (stas_count s s' i t t' (Nat.iter n (take1 (ps_id t))) (- Z.of_nat n)); try done.
  - intros. by apply iter_take1.
  - intros a Hok Hps ->. by apply iter_take1_legacy.
Qed.

(** ** One queue *)

(** The number of buffers the queue may push. *)
Definition quota (t : rwnx_txq) : nat := Z.to_nat (rwnx_txq_get_credits t).

Lemma quota_pos e i t : qok e i t -> active t = true -> (0 < quota t)%nat.
Proof.
  intros Hok Ha. destruct (q_active _ _ _ Hok Ha) as (Hc & Hp & _). unfold quota, rwnx_txq_get_credits.
  bool_cases; lia.
Qed.

(** A service period is completed by the turn that serves it. *)
Lemma quota_limit e i t : qok e i t -> active t = true -> push_limit t <> 0 -> quota t = Z.to_nat (push_limit t).
Proof.
  intros Hok Ha Hne. destruct (q_active _ _ _ Hok Ha) as (Hc & Hp & _). unfold quota, rwnx_txq_get_credits.
  bool_cases; lia.
Qed.

Definition served (t : rwnx_txq) : nat := Nat.min (length (sk_list t)) (quota t).

(** The result of [rwnx_txq_get_skb_to_push]: the front of the queue; it is
    done when nothing is left or when it has a service period. *)
Lemma get_skb_spec e i t : qok e i t -> active t = true ->
  exists done, rwnx_txq_get_skb_to_push t =
    (t <| sk_list := drop (quota t) (sk_list t) |>, take (quota t) (sk_list t), done) /\
    (done = false -> drop (quota t) (sk_list t) <> [] /\ push_limit t = 0).
Proof.
  intros Hok Ha. destruct (q_active _ _ _ Hok Ha) as (Hc & Hp & _). unfold rwnx_txq_get_skb_to_push.
  assert (Hq : Z.of_nat (quota t) = rwnx_txq_get_credits t).
  { unfold quota. rewrite Z2Nat.id; [done |]. unfold rwnx_txq_get_credits. bool_cases; lia. }
  cbv zeta. rewrite <- Hq, !Nat2Z.id. destruct (Z.leb_spec (Z.of_nat (length (sk_list t))) (Z.of_nat (quota t))) as [Hle | Hgt].
  - exists true. rewrite drop_ge, take_ge by lia. done.
  - eexists. split; [by destruct t |]. intros Hd. split.
    + intros E. apply (f_equal length) in E. rewrite length_drop in E. cbn in E. lia.
    + destruct (Z.eqb_spec (push_limit t) 0); [done |]. cbn [negb andb] in Hd.
      pose proof (quota_limit e i t Hok Ha n). bool_cases; lia.
Qed.

(** The queue after its buffers are pushed; the service period is over. *)
Lemma pushed_queue e i t : qok e i t -> active t = true ->
  exists x y, Nat.iter (length (take (quota t) (sk_list t))) push_count (t <| sk_list := drop (quota t) (sk_list t) |>) =
    t <| sk_list := drop (quota t) (sk_list t) |> <| pkt_sent := x |> <| pkt_pushed := y |> <| push_limit := 0 |>.
Proof.
  intros Hok Ha. destruct (q_active _ _ _ Hok Ha) as (Hc & Hp & Hl).
  destruct (push_iter_frame (length (take (quota t) (sk_list t))) (t <| sk_list := drop (quota t) (sk_list t) |>))
    as (x & y & E); [apply Hok | apply Hp |].
  exists x, y. rewrite E. cbn [push_limit upd].
  assert (Hz : Z.max 0 (push_limit t - Z.of_nat (length (take (quota t) (sk_list t)))) = 0).
  { rewrite length_take. unfold len in Hl. destruct (Z.eq_dec (push_limit t) 0); [lia |].
    rewrite (quota_limit e i t Hok Ha n). lia. }
  by rewrite Hz.
Qed.

Lemma qok_pushed e i t st l x y : qok e i t -> is_byte st -> l = drop (quota t) (sk_list t) ->
  (rwnx_txq_is_scheduled (t <| status := st |>) = true ->
    active t = true /\ l <> [] /\ (pol = true -> rwnx_txq_is_stopped (t <| status := st |>) = false)) ->
  qok e i (t <| status := st |> <| sk_list := l |> <| pkt_sent := x |> <| pkt_pushed := y |> <| push_limit := 0 |>).
Proof.
  intros [] Hst -> Hlive. split; cbn [t_hwq status active credits push_limit sk_list t_sta nb_retry last_retry_skb upd];
    try done.
  - intros Ha. destruct (q_active0 Ha) as (? & ? & ?). unfold len. lia.
  - apply Forall_drop. done.
  - intros Ha. destruct (q_idle0 Ha) as [E ?]. by rewrite E, drop_nil.
  - intros Hs. destruct (Hlive Hs) as (? & ? & Hn). split_and!; [done.. |]. intros Hx Hx0.
    change (rwnx_txq_is_stopped (t <| status := st |>) = true) in Hx0. rewrite Hn in Hx0 by done. done.
Qed.

Definition rotate (l : list nat) : list nat := match l with [] => [] | x :: l => l ++ [x] end.

(** What serving [i] may do to the list. *)
Definition turn (l l' : list nat) (i : nat) : Prop :=
  l' = l \/ l' = filter (fun j => j <> i) l \/ l' = rotate l.

Lemma rotate_Permutation l : rotate l ≡ₚ l.
Proof. destruct l as [|x l]; [done |]. cbn. by rewrite Permutation_app_comm. Qed.

Lemma lists_rotate s h q q' : lists_ok s -> hwqs s !! h = Some q -> h_list q' ≡ₚ h_list q ->
  lists_ok (set_hwq s h q').
Proof.
  intros Hl Hq Hp k x Hx. unfold set_hwq in Hx. cbn in Hx.
  apply list_lookup_insert_Some in Hx as [(-> & -> & _)|[_ Hx]]; [| by apply Hl].
  destruct (Hl k q Hq) as [Hn Hi]. split; [by rewrite Hp |]. intros i. rewrite Hp. apply Hi.
Qed.

(** The state in which [after_push] runs, and all that matters of its result. *)
Record after_ok (s : rwnx_hw) (h i : nat) (t : rwnx_txq) (q : rwnx_hwq) (s' : rwnx_hw) (t' : rwnx_txq) (q' : rwnx_hwq)
    : Prop := {
  a_inv : inv s';
  a_env : env_of s' = env_of s;
  a_txqs : txqs s' = <[i := t']> (txqs s);
  a_list : sk_list t' = drop (quota t) (sk_list t);
  a_hwqs : hwqs s' = <[h := q']> (hwqs s);
  a_turn : turn (h_list q) (h_list q') i;
  a_limit : 0 < push_limit t -> i ∉ h_list q';
  a_need : need_processing q' = need_processing q }.

Lemma flow_restart_ok s i t : inv s -> txqs s !! i = Some t ->
  exists s' t' ev, flow_restart s i = Ok (s', ev) /\ inv s' /\ same s s' /\ hwqs s' = hwqs s /\
    txqs s' = <[i := t']> (txqs s) /\ core t' = core t /\ (forall k, left k ev = []).
Proof.
  intros Hi Ht. pose proof (i_qs s Hi i t Ht) as Hok. unfold flow_restart.
  rewrite (proj2 (get_txq_Ok s i t) Ht). cbn [mbind res_bind]. destruct (_ && _).
  - set (t' := t <| status := _ |>). eexists (set_txq s i t'), t', _. split; [done |].
    assert (Hm : forall m, Z.land RWNX_TXQ_NDEV_FLOW_CTRL m = 0 -> Z.land (status t') m = Z.land (status t) m)
      by (intros; by apply mask_ldiff).
    assert (Hs : rwnx_txq_is_scheduled t' = rwnx_txq_is_scheduled t) by (unfold rwnx_txq_is_scheduled; by rewrite Hm).
    assert (Hst : rwnx_txq_is_stopped t' = rwnx_txq_is_stopped t) by (unfold rwnx_txq_is_stopped; by rewrite Hm).
    split_and!; [| by eapply same_set_txq | done | done | done | intros k; by destruct (ndev_idx t)].
    eapply inv_upd; try done. apply qok_status; [done | by apply ldiff_byte, (q_status _ _ _ Hok) |].
    fold t'. rewrite Hs, Hst. apply (q_live _ _ _ Hok).
  - exists s, t, []. split_and!; try done. by rewrite list_insert_id.
Qed.

Section Serve.
Context (s : rwnx_hw) (h i : nat) (t : rwnx_txq) (q : rwnx_hwq).
Hypothesis Hinv : inv s.
Hypothesis Hq : hwqs s !! h = Some q.
Hypothesis Hin : i ∈ h_list q.
Hypothesis Ht : txqs s !! i = Some t.

Let Hok : qok (env_of s) i t := i_qs s Hinv i t Ht.

Lemma listed_queue : rwnx_txq_is_scheduled t = true /\ t_hwq t = h /\ active t = true /\ sk_list t <> [] /\
  (pol = true -> rwnx_txq_is_stopped t = true -> 0 < push_limit t).
Proof.
  destruct (i_lists s Hinv h q Hq) as [_ Hi]. apply Hi in Hin as (u & Hu & Hs & Hh).
  assert (u = t) as -> by congruence. destruct (q_live _ _ _ Hok Hs) as (? & ? & ?). auto.
Qed.

Definition after_txq (st x y : Z) : rwnx_txq :=
  t <| status := st |> <| sk_list := drop (quota t) (sk_list t) |> <| pkt_sent := x |> <| pkt_pushed := y |>
    <| push_limit := 0 |>.

Lemma after_inv st x y q' : is_byte st ->
  (rwnx_txq_is_scheduled (t <| status := st |>) = true ->
     drop (quota t) (sk_list t) <> [] /\ (pol = true -> rwnx_txq_is_stopped (t <| status := st |>) = false)) ->
  lists_ok (set_hwq (set_txq s i (after_txq st x y)) h q') ->
  inv (HwT (old_ic s) (<[i := after_txq st x y]> (txqs s)) (<[h := q']> (hwqs s))
         (pushed_stas (stas s) t (length (take (quota t) (sk_list t))))).
Proof.
  intros Hst Hlive Hl. set (s' := HwT _ _ _ _).
  assert (He : env_of s' = env_of s).
  { unfold env_of, s'. cbn. rewrite !length_insert. f_equal. apply pushed_ids. intros j a Ha. by apply (i_stas s Hinv j a). }
  destruct listed_queue as (_ & _ & Ha & _). split.
  - rewrite He. by apply (i_env s Hinv).
  - apply (qs_upd s s' i (after_txq st x y)); [by apply i_qs | done | done |]. unfold after_txq.
    apply qok_pushed; [done.. |]. intros Hs. destruct (Hlive Hs). done.
  - exact Hl.
  - apply (stas_pushed s s' i t (after_txq st x y) (length (take (quota t) (sk_list t)))); try done.
    unfold len, after_txq. cbn [sk_list upd]. rewrite length_drop, length_take. lia.
Qed.

Definition after_state (st x y : Z) (q' : rwnx_hwq) : rwnx_hw :=
  HwT (old_ic s) (<[i := after_txq st x y]> (txqs s)) (<[h := q']> (hwqs s))
    (pushed_stas (stas s) t (length (take (quota t) (sk_list t)))).

(** The two ways [after_push] can leave the queue. *)
Lemma after_unlinked x y q' : h_list q' = filter (fun j => j <> i) (h_list q) ->
  inv (after_state (Z.ldiff (status t) RWNX_TXQ_IN_HWQ_LIST) x y q').
Proof.
  intros Hl. destruct listed_queue as (Hs & Hh & _).
  assert (Hn : rwnx_txq_is_scheduled (t <| status := Z.ldiff (status t) RWNX_TXQ_IN_HWQ_LIST |>) = false)
    by apply scheduled_ldiff.
  apply after_inv.
  - by apply ldiff_byte, (q_status _ _ _ Hok).
  - rewrite Hn. done.
  - rewrite <- Hh. eapply lists_unlink; [by apply (i_lists s Hinv) | done | done | exact Hn | by rewrite Hh | done].
Qed.

Lemma after_linked x y q' : drop (quota t) (sk_list t) <> [] -> push_limit t = 0 -> h_list q' ≡ₚ h_list q ->
  inv (after_state (status t) x y q').
Proof.
  intros Hd Hp Hl. destruct listed_queue as (Hs & Hh & _ & _ & Hst). apply after_inv.
  - apply (q_status _ _ _ Hok).
  - intros _. split; [done |]. rewrite status_id. intros Hpl. specialize (Hst Hpl).
    destruct (rwnx_txq_is_stopped t); [lia | done].
  - apply (lists_rotate _ h q); [| done | done]. apply (lists_upd s i t); [by apply (i_lists s Hinv) | done | done | done].
Qed.

Lemma after_state_ok st x y q' : inv (after_state st x y q') -> turn (h_list q) (h_list q') i ->
  (0 < push_limit t -> i ∉ h_list q') -> need_processing q' = need_processing q ->
  after_ok s h i t q (after_state st x y q') (after_txq st x y) q'.
Proof.
  intros Hi Htn Hst Hnp. split; try done. unfold env_of, after_state. cbn. rewrite !length_insert. f_equal.
  apply pushed_ids. intros j a Ha. by apply (i_stas s Hinv j a).
Qed.

Lemma after_push_ok x y done :
  (done = false -> drop (quota t) (sk_list t) <> [] /\ push_limit t = 0) ->
  exists s' t' q', after_push (after_state (status t) x y q) h i done = Ok s' /\ after_ok s h i t q s' t' q' /\
    push_limit t' = 0.
Proof.
  intros Hd. destruct listed_queue as (Hs & Hh & Ha & Hk & Hst).
  assert (Hlt : (i < length (txqs s))%nat) by (by eapply lookup_lt_Some).
  assert (Hg : get_txq (after_state (status t) x y q) i = Ok (after_txq (status t) x y)).
  { apply get_txq_Ok. by apply list_lookup_insert_eq. }
  assert (Hgq : get_hwq (after_state (status t) x y q) h = Ok q).
  { apply get_hwq_Ok. apply list_lookup_insert_eq. by eapply lookup_lt_Some. }
  assert (Hsc : rwnx_txq_is_scheduled (after_txq (status t) x y) = true) by exact Hs.
  unfold after_push. destruct done.
  - unfold rwnx_txq_del_from_hw_list. rewrite Hg. cbn [mbind res_bind]. rewrite Hsc.
    change (t_hwq (after_txq (status t) x y)) with (t_hwq t). rewrite Hh, Hgq. cbn [mbind res_bind].
    set (q' := q <| h_list ::= filter (fun j => j <> i) |>).
    set (u := _ <| status := _ |>). erewrite (proj2 (get_txq_Ok _ i u)).
    2: { unfold set_hwq, set_txq, after_state. cbn. rewrite list_insert_insert_eq. by apply list_lookup_insert_eq. }
    cbn [mbind res_bind].
    exists (after_state (Z.ldiff (status t) RWNX_TXQ_IN_HWQ_LIST) 0 y q'),
      (after_txq (Z.ldiff (status t) RWNX_TXQ_IN_HWQ_LIST) 0 y), q'.
    split; [| split; [apply after_state_ok |]]; try done.
    + unfold set_hwq, set_txq, after_state. cbn. by rewrite !list_insert_insert_eq.
    + by apply after_unlinked.
    + by right; left.
    + intros _. cbn. rewrite list_elem_of_filter. by intros [? _].
  - destruct (Hd eq_refl) as [Hrest Hp]. rewrite Hg, Hgq. cbn [mbind res_bind]. rewrite Hsc. cbn [andb].
    change (pkt_sent (after_txq (status t) x y)) with x. destruct (h_size q <? x).
    + set (q' := q <| h_list ::= _ |>). exists (after_state (status t) 0 y q'), (after_txq (status t) 0 y), q'.
      split; [| split; [apply after_state_ok |]]; try done.
      * unfold set_hwq, set_txq, after_state. cbn. by rewrite !list_insert_insert_eq.
      * apply after_linked; [done.. | apply rotate_Permutation].
      * by right; right.
      * intros; lia.
    + exists (after_state (status t) x y q), (after_txq (status t) x y), q.
      split; [done | split; [apply after_state_ok |]]; try done.
      * by apply after_linked.
      * by left.
      * intros; lia.
Qed.

Lemma take_owned : Forall (owned i t) (take (quota t) (sk_list t)).
Proof. apply Forall_take. apply (q_skbs _ _ _ Hok). Qed.

Lemma left_taken k : take (quota t) (sk_list t) ≫= own k = if decide (k = i) then take (quota t) (sk_list t) else [].
Proof.
  induction take_owned as [| b l [Hb _] _ IH]; [by destruct (decide _) |]. cbn in *. rewrite IH. unfold own.
  rewrite Hb. destruct (decide (i = k)), (decide (k = i)); by subst.
Qed.

Lemma serve_ok : exists s' ev t' q', serve s h i = Ok (s', ev) /\ after_ok s h i t q s' t' q' /\
  (forall k, left k ev = if decide (k = i) then take (quota t) (sk_list t) else []).
Proof.
  destruct listed_queue as (Hs & Hh & Ha & Hk & Hst). unfold serve.
  rewrite (proj2 (get_txq_Ok s i t) Ht). cbn [mbind res_bind]. rewrite Hs, Ha. cbn [negb].
  destruct (q_active _ _ _ Hok Ha) as (Hc & _ & _). rewrite (proj2 (Z.leb_gt (credits t) 0)) by lia.
  replace (rwnx_txq_skb_ready t) with true by (unfold rwnx_txq_skb_ready; by destruct (sk_list t)). cbn [negb].
  destruct (get_skb_spec _ i t Hok Ha) as (done & -> & Hd). set (t0 := t <| sk_list := _ |>).
  assert (Hlt : (i < length (txqs s))%nat) by (by eapply lookup_lt_Some).
  destruct (push_all_ok (take (quota t) (sk_list t)) (set_txq s i t0) i t0) as (ev & -> & Hev);
    [by eapply lookup_set_txq | apply take_owned | apply Hok | by apply (q_active _ _ _ Hok Ha) | |].
  { intros j Hj. destruct (q_sta _ _ _ Hok j Hj) as (d & Hdj & _). apply lookup_lt_Some in Hdj.
    unfold env_of in Hdj. cbn in Hdj. by rewrite length_fmap in Hdj. }
  destruct (pushed_queue _ i t Hok Ha) as (x & y & Hpush).
  assert (E : pushed (set_txq s i t0) i t0 (length (take (quota t) (sk_list t))) = after_state (status t) x y q).
  { unfold pushed, t0. rewrite Hpush. unfold after_state, set_txq. cbn [old_ic txqs hwqs stas upd].
    by rewrite list_insert_insert_eq, (list_insert_id (hwqs s)). }
  cbn [mbind res_bind fst snd]. rewrite E.
  destruct (after_push_ok x y done Hd) as (s2 & t2 & q2 & -> & [] & Hp2). cbn [mbind res_bind].
  assert (Ht2 : txqs s2 !! i = Some t2) by (rewrite a_txqs0; by apply list_lookup_insert_eq).
  assert (Hab : abort_sp s2 i = Ok s2).
  { unfold abort_sp. rewrite (proj2 (get_txq_Ok s2 i t2) Ht2). cbn [mbind res_bind]. rewrite Hp2. by destruct (t_sta t2). }
  rewrite Hab. cbn [mbind res_bind].
  destruct (flow_restart_ok s2 i t2 a_inv0 Ht2) as (s3 & t3 & e3 & -> & Hi3 & Hs3 & Hh3 & Ht3 & Hc3 & He3).
  cbn [mbind res_bind fst snd]. exists s3, (ev ++ e3), t3, q2. split; [done |]. split.
  - apply core_eq in Hc3 as (_ & _ & Hl3 & _). split; [done | | | by rewrite Hl3 | by rewrite Hh3 | done | done | done].
    + by rewrite (same_env s2 s3).
    + by rewrite Ht3, a_txqs0, list_insert_insert_eq.
  - intros k. by rewrite left_app, Hev, He3, app_nil_r, left_taken.
Qed.

End Serve.

(** ** The loop *)

Definition nbufs (s : rwnx_hw) : nat := sum_list ((fun t => length (sk_list t)) <$> txqs s).

Lemma sum_list_insert {A} (f : A -> nat) (l : list A) i x y : l !! i = Some x ->
  (sum_list (f <$> <[i := y]> l) + f x = sum_list (f <$> l) + f y)%nat.
Proof.
  revert i. induction l as [|z l IH]; intros [|i] Hi; simplify_eq/=; [lia |]. specialize (IH i Hi). lia.
Qed.

Lemma next_of_at i pre rest : i ∉ pre -> next_of i (pre ++ i :: rest) = head rest.
Proof.
  induction pre as [|x pre IH]; intros Hi; cbn; [by rewrite Nat.eqb_refl |].
  apply not_elem_of_cons in Hi as [Hx Hi]. rewrite (proj2 (Nat.eqb_neq x i)) by done. auto.
Qed.

(** What is behind the served queue is still in the list, in the same order. *)
Lemma turn_rest i pre rest l' : NoDup (pre ++ i :: rest) -> turn (pre ++ i :: rest) l' i ->
  exists pre' post, l' = pre' ++ rest ++ post.
Proof.
  intros Hn [-> | [-> | ->]].
  - exists (pre ++ [i]), []. by rewrite app_nil_r, <- app_assoc.
  - apply NoDup_app in Hn as (_ & Hpre & Hr). apply NoDup_cons in Hr as [Hr _]. exists (filter (fun j => j <> i) pre), [].
    rewrite filter_app, filter_cons_False by (intros []; done). rewrite app_nil_r. f_equal. apply filter_all.
    apply Forall_forall. intros x Hx ->. done.
  - destruct pre as [|x pre]; [by exists [], [i] |]. exists (pre ++ [i]), [x]. cbn. by rewrite <- !app_assoc.
Qed.

Lemma turn_sub i l l' k : turn l l' i -> k ∉ l -> k ∉ l'.
Proof.
  intros [-> | [-> | ->]] Hk; [done | by rewrite list_elem_of_filter; intros [_ ?] |].
  by rewrite rotate_Permutation.
Qed.

(** What a pass over the list [l] of [h] does. *)
Record pass (s : rwnx_hw) (h : nat) (l todo : list nat) (s' : rwnx_hw) (ev : list event) : Prop := {
  p_inv : inv s';
  p_env : env_of s' = env_of s;
  p_moves : moves s s' ev;
  p_served : forall k, k ∈ todo -> left k ev <> [];
  p_other : forall k, k ∉ l -> left k ev = [] /\ txqs s' !! k = txqs s !! k;
  p_limit : forall k t, txqs s !! k = Some t -> active t = true -> 0 < push_limit t ->
    Z.of_nat (length (left k ev)) <= push_limit t;
  p_hwqs : forall h', h' <> h -> hwqs s' !! h' = hwqs s !! h' }.

Lemma limit_nonneg s i t : inv s -> txqs s !! i = Some t -> active t = true -> 0 <= push_limit t.
Proof. intros Hi Ht Ha. by apply (q_active _ _ _ (i_qs s Hi i t Ht) Ha). Qed.

Lemma pass_nil s h l : inv s -> pass s h l [] s [].
Proof.
  intros Hi. split; try done; [by intros k ?%elem_of_nil |]. intros k t Hk Ha _. cbn. by eapply limit_nonneg.
Qed.

Section Turn.
Context (s : rwnx_hw) (h i : nat) (t : rwnx_txq) (q : rwnx_hwq) (s1 : rwnx_hw) (t1 : rwnx_txq) (q1 : rwnx_hwq)
        (e1 : list event).
Hypothesis Hinv : inv s.
Hypothesis Hq : hwqs s !! h = Some q.
Hypothesis Hin : i ∈ h_list q.
Hypothesis Ht : txqs s !! i = Some t.
Hypothesis Hstep : after_ok s h i t q s1 t1 q1.
Hypothesis Hev : forall k, left k e1 = if decide (k = i) then take (quota t) (sk_list t) else [].

Lemma turn_quota : (0 < length (take (quota t) (sk_list t)))%nat /\
  (push_limit t <> 0 -> (quota t = Z.to_nat (push_limit t))%nat).
Proof.
  destruct (listed_queue s h i t q Hinv Hq Hin Ht) as (_ & _ & Ha & Hk & _).
  pose proof (i_qs s Hinv i t Ht) as Hok. pose proof (quota_pos _ _ _ Hok Ha). split.
  - rewrite length_take. destruct (sk_list t); [done | cbn; lia].
  - by eapply quota_limit.
Qed.

Lemma turn_nbufs : (nbufs s1 < nbufs s)%nat.
Proof.
  destruct Hstep. unfold nbufs. rewrite a_txqs0.
  pose proof (sum_list_insert (fun t => length (sk_list t)) (txqs s) i t t1 Ht) as H. cbn in H.
  rewrite a_list0, length_drop in H. destruct turn_quota as [Hp _]. rewrite length_take in Hp. lia.
Qed.

Lemma turn_pass pre rest s2 e2 : h_list q = pre ++ i :: rest -> pass s1 h (h_list q1) rest s2 e2 ->
  pass s h (h_list q) (i :: rest) s2 (e1 ++ e2).
Proof.
  intros Hl [Pi Pe Pm Ps Po Pst Ph]. destruct Hstep. destruct turn_quota as [Hpos Hlim].
  assert (Hother : forall k, k <> i -> txqs s1 !! k = txqs s !! k)
    by (intros k Hk; by rewrite a_txqs0, list_lookup_insert_ne).
  split.
  - done.
  - by rewrite Pe.
  - eapply moves_trans; [| done]. intros k. rewrite Hev. unfold qbufs. destruct (decide (k = i)) as [-> |].
    + rewrite a_txqs0, Ht, list_lookup_insert_eq by (by eapply lookup_lt_Some). by rewrite a_list0, take_drop.
    + by rewrite Hother.
  - intros k [-> | Hk]%elem_of_cons; rewrite left_app, Hev.
    + rewrite decide_True by done. intros [E _]%app_eq_nil. rewrite E in Hpos. cbn in Hpos. lia.
    + intros [_ E]%app_eq_nil. by apply (Ps k).
  - intros k Hk. assert (k <> i) by congruence. rewrite left_app, Hev, decide_False by done.
    destruct (Po k) as [-> ->]; [by eapply turn_sub | by rewrite Hother].
  - intros k u Hu Ha Hst. rewrite left_app, Hev. destruct (decide (k = i)) as [-> | Hk].
    + assert (u = t) as -> by congruence. destruct (Po i (a_limit0 Hst)) as [-> _]. rewrite app_nil_r, length_take.
      rewrite Hlim by lia. lia.
    + apply (Pst k u); [by rewrite Hother | done..].
  - intros h' Hh'. rewrite Ph by done. by rewrite a_hwqs0, list_lookup_insert_ne.
Qed.
End Turn.

Lemma loop_ok fuel : forall s h q pre todo, inv s -> hwqs s !! h = Some q -> h_list q = pre ++ todo ->
  (nbufs s <= fuel)%nat ->
  exists s' ev, hwq_loop fuel s h (head todo) = Ok (s', ev) /\ pass s h (h_list q) todo s' ev.
Proof.
  induction fuel as [|fuel IH]; intros s h q pre todo Hi Hq Hl Hf;
    (destruct todo as [|i rest]; [exists s, []; split; [done | by apply pass_nil] |]);
    assert (Hin : i ∈ h_list q) by (rewrite Hl; set_solver).
  - exfalso. destruct (proj1 (proj2 (i_lists s Hi h q Hq) i) Hin) as (t & Ht & _).
    destruct (serve_ok s h i t q Hi Hq Hin Ht) as (s1 & e1 & t1 & q1 & _ & Ha & Hev).
    assert (nbufs s1 < nbufs s)%nat by (by eapply turn_nbufs). lia.
  - destruct (proj1 (proj2 (i_lists s Hi h q Hq) i) Hin) as (t & Ht & _).
    destruct (serve_ok s h i t q Hi Hq Hin Ht) as (s1 & e1 & t1 & q1 & Hs & Ha & Hev).
    assert (Hdec : (nbufs s1 < nbufs s)%nat) by (by eapply turn_nbufs).
    cbn [hwq_loop head]. rewrite (proj2 (get_hwq_Ok s h q) Hq), Hs. cbn [mbind res_bind fst snd].
    pose proof (proj1 (i_lists s Hi h q Hq)) as Hn. rewrite Hl in Hn.
    assert (Hnext : next_of i (h_list q) = head rest).
    { rewrite Hl. apply next_of_at. apply NoDup_app in Hn as (_ & Hd & _). intros Hip. apply (Hd i Hip). set_solver. }
    rewrite Hnext. pose proof (a_turn _ _ _ _ _ _ _ _ Ha) as Htn. rewrite Hl in Htn.
    destruct (turn_rest i pre rest _ Hn Htn) as (pre' & post & Hl').
    assert (Hq1 : hwqs s1 !! h = Some q1)
      by (rewrite (a_hwqs _ _ _ _ _ _ _ _ Ha); apply list_lookup_insert_eq; by eapply lookup_lt_Some).
    assert (Hr : exists s2 e2, hwq_loop fuel s1 h (head rest) = Ok (s2, e2) /\ pass s1 h (h_list q1) rest s2 e2).
    { destruct rest as [|x rest]; [exists s1, []; split; [by destruct fuel | apply pass_nil, Ha] |].
      destruct (IH s1 h q1 pre' (x :: rest ++ post) (a_inv _ _ _ _ _ _ _ _ Ha) Hq1 Hl') as (s2 & e2 & Hp & []); [lia |].
      exists s2, e2. split; [done |]. split; try done. intros k Hk. apply p_served0. set_solver. }
    destruct Hr as (s2 & e2 & -> & Hp). cbn [mbind res_bind fst snd]. exists s2, (e1 ++ e2). split; [done |].
    by eapply turn_pass.
Qed.

Lemma process_ok s h q : inv s -> hwqs s !! h = Some q ->
  exists s' ev, rwnx_hwq_process s h = Ok (s', ev) /\ pass s h (h_list q) (h_list q) s' ev.
Proof.
  intros Hi Hq. unfold rwnx_hwq_process. rewrite (proj2 (get_hwq_Ok s h q) Hq). cbn [mbind res_bind].
  set (q' := q <| need_processing := false |>).
  assert (Hi' : inv (set_hwq s h q')).
  { destruct Hi as [He Hqs Hl Hst]. split; [by rewrite env_set_hwq | intros i t; rewrite env_set_hwq; apply Hqs | | done].
    by apply (lists_rotate s h q). }
  destruct (loop_ok (work s) (set_hwq s h q') h q' [] (h_list q)) as (s' & ev & -> & []); [done | | done | |].
  - apply list_lookup_insert_eq. by eapply lookup_lt_Some.
  - unfold work, nbufs. cbn. lia.
  - exists s', ev. split; [done |]. split; try done.
    + by rewrite p_env0, env_set_hwq.
    + intros h' Hh. rewrite p_hwqs0 by done. unfold set_hwq. cbn. by rewrite list_lookup_insert_ne.
Qed.

(** ** All hardware queues *)

Definition unlisted (s : rwnx_hw) (n k : nat) : Prop :=
  forall h q, (h < n)%nat -> hwqs s !! h = Some q -> k ∉ h_list q.

Record passes (s : rwnx_hw) (n : nat) (s' : rwnx_hw) (ev : list event) : Prop := {
  ps_inv : inv s';
  ps_env : env_of s' = env_of s;
  ps_moves : moves s s' ev;
  ps_served : forall h q k, (h < n)%nat -> hwqs s !! h = Some q -> need_processing q = true -> k ∈ h_list q ->
    left k ev <> [];
  ps_other : forall k, unlisted s n k -> left k ev = [] /\ txqs s' !! k = txqs s !! k;
  ps_limit : forall k t, txqs s !! k = Some t -> active t = true -> 0 < push_limit t ->
    Z.of_nat (length (left k ev)) <= push_limit t }.

Lemma passes_skip s n q s' ev : hwqs s !! n = Some q -> need_processing q = false -> passes s n s' ev ->
  passes s (S n) s' ev.
Proof.
  intros Hq Hn []. split; try done.
  - intros h x k Hh Hx Hp Hk. destruct (decide (h = n)) as [-> |]; [congruence |]. eapply ps_served0; [| done..]. lia.
  - intros k Hk. apply ps_other0. intros h x Hh. apply Hk. lia.
Qed.

Lemma passes_pass s n q s1 e1 s2 e2 : inv s -> hwqs s !! n = Some q -> pass s n (h_list q) (h_list q) s1 e1 ->
  passes s1 n s2 e2 -> passes s (S n) s2 (e1 ++ e2).
Proof.
  intros Hi Hq [Pi Pe Pm Ps Po Pst Ph] [Qi Qe Qm Qs Qo Qst]. split.
  - done.
  - by rewrite Qe.
  - by eapply moves_trans.
  - intros h x k Hh Hx Hp Hk. rewrite left_app. intros [E1 E2]%app_eq_nil. destruct (decide (h = n)) as [-> |].
    + assert (x = q) as -> by congruence. by apply (Ps k).
    + apply (Qs h x k); [lia | by rewrite Ph | done..].
  - intros k Hk. rewrite left_app. destruct (Po k) as [-> <-]; [by apply (Hk n); [lia |] |]. cbn. apply Qo.
    intros h x Hh Hx. rewrite Ph in Hx by lia. apply (Hk h); [lia | done].
  - intros k t Hk Ha Hst. rewrite left_app, length_app. destruct (decide (k ∈ h_list q)) as [Hin | Hin].
    + destruct (Qo k) as [-> _]; [| rewrite Nat.add_0_r; by apply (Pst k t)].
      intros h x Hh Hx Hkx. rewrite Ph in Hx by lia.
      apply (i_lists s Hi n q Hq) in Hin as (u & Hu & _ & Hhu). apply (i_lists s Hi h x Hx) in Hkx as (v & Hv & _ & Hhv).
      assert (u = v) as -> by congruence. lia.
    + destruct (Po k Hin) as [-> Hsame]. cbn. apply (Qst k t); [by rewrite Hsame | done..].
Qed.

Lemma process_from_ok n s : inv s -> (n <= length (hwqs s))%nat ->
  exists s' ev, process_from s n = Ok (s', ev) /\ passes s n s' ev.
Proof.
  revert s. induction n as [|n IH]; intros s Hi Hn; cbn [process_from].
  - exists s, []. split; [done |]. split; try done; [intros; lia |]. intros k t Hk Ha _. cbn. by eapply limit_nonneg.
  - destruct (lookup_lt_is_Some_2 (hwqs s) n) as [q Hq]; [lia |].
    rewrite (proj2 (get_hwq_Ok s n q) Hq). cbn [mbind res_bind]. destruct (need_processing q) eqn:Hp.
    + destruct (process_ok s n q Hi Hq) as (s1 & e1 & -> & P). cbn [mbind res_bind fst snd].
      destruct (IH s1) as (s2 & e2 & -> & Q); [apply P | |].
      * pose proof (f_equal e_nh (p_env _ _ _ _ _ _ P)) as E. cbn in E. lia.
      * cbn [mbind res_bind fst snd]. exists s2, (e1 ++ e2). split; [done |]. by eapply passes_pass.
    + cbn [mbind res_bind fst snd]. destruct (IH s) as (s2 & e2 & -> & Q); [done | lia |].
      cbn [mbind res_bind fst snd]. exists s2, e2. split; [done |]. by eapply passes_skip.
Qed.

End Pass.

#[global] Arguments after_ok pol s h i t q s' t' q' : clear implicits.
#[global] Arguments pass pol s h l todo s' ev : clear implicits.
#[global] Arguments passes pol s n s' ev : clear implicits.

End TxqServe.
