(* ===== verification/TxqOps.v ===== *)
(** * The operations on the transmit queues

    Every operation of [Txq] as one step of the driver, the proof that each
    succeeds in the states of the invariant and keeps it, and the theorems on
    whole runs. *)

From stdpp Require Import prelude.
From S2P Require Import Prelude Txq TxqInv TxqServe.
Open Scope Z_scope.

Module TxqOps.
Import Txq TxqInv TxqServe.

Section Ops.
Context {pol : bool}.
#[local] Abbreviation inv := (TxqInv.inv pol).
#[local] Abbreviation qok := (TxqInv.qok pol).
#[local] Abbreviation sched_step := (TxqInv.sched_step pol).
#[local] Abbreviation tx_step := (TxqInv.tx_step pol).

(** ** Queueing *)

Definition put1 (p : psid) (a : rwnx_sta) : rwnx_sta :=
  if ps_active a then set_ready a p (pkt_ready a p + 1) else a.

Definition count_put (s : rwnx_hw) (t : rwnx_txq) : rwnx_hw :=
  HwT (old_ic s) (txqs s) (hwqs s)
    (match t_sta t with Some j => alter (put1 (ps_id t)) j (stas s) | None => stas s end).

Lemma put1_frame p a : sta_ok a -> ids (put1 p a) = ids a /\ ps_active (put1 p a) = ps_active a /\ sta_ok (put1 p a).
Proof.
  intros (H1 & H2 & H3 & H4). unfold put1. destruct (ps_active a) eqn:E; [| by rewrite E].
  destruct p, a; cbn in *; (split_and!; [done.. |]); unfold sta_ok; cbn;
    split_and!; try apply u16_range; try lia.
Qed.

Lemma count_put_env s t : inv s -> env_of (count_put s t) = env_of s.
Proof.
  intros Hi. unfold env_of, count_put. cbn. f_equal. destruct (t_sta t) as [j|]; [| done]. apply list_eq. intros k.
  rewrite !list_lookup_fmap. destruct (decide (k = j)) as [-> |]; [| by rewrite list_lookup_alter_ne].
  rewrite list_lookup_alter_eq. destruct (stas s !! j) as [a|] eqn:Hja; [| done]. cbn. f_equal. apply put1_frame.
  by apply (i_stas s Hi j a).
Qed.

Lemma ps_count_ok s i t : inv s -> txqs s !! i = Some t ->
  exists ev, ps_count s t = Ok (count_put s t, ev) /\ (forall k, left k ev = []).
Proof.
  intros Hi Ht. unfold ps_count, count_put. destruct (t_sta t) as [j|] eqn:Hj.
  - destruct (q_sta _ _ _ (i_qs s Hi i t Ht) j Hj) as (d & Hd & _). unfold env_of in Hd. cbn in Hd.
    rewrite list_lookup_fmap in Hd. destruct (stas s !! j) as [a|] eqn:Ha; [| done].
    rewrite (proj2 (get_sta_Ok s j a) Ha), (alter_insert _ _ _ a Ha). cbn [mbind res_bind]. unfold put1.
    destruct (ps_active a).
    + eexists. split; [by destruct s |]. intros k. by destruct (_ =? 1).
    + exists []. split; [| done]. rewrite list_insert_id by done. by destruct s.
  - exists []. split; [by destruct s | done].
Qed.

Lemma flow_stop_ok t : is_byte (status t) ->
  exists st ev, flow_stop t = (t <| status := st |>, ev) /\ (forall k, left k ev = []) /\ is_byte st /\
    forall m, Z.land RWNX_TXQ_NDEV_FLOW_CTRL m = 0 -> Z.land st m = Z.land (status t) m.
Proof.
  intros Hb. unfold flow_stop. destruct (ndev_idx t); [destruct (_ <? _) |].
  - eexists _, _. split; [done |]. split_and!; [done | apply u8_byte |]. intros m Hm. by apply mask_lor.
  - exists (status t), []. by rewrite status_id.
  - exists (status t), []. by rewrite status_id.
Qed.

(** The queue with one more buffer. *)
Definition put_txq1 (t : rwnx_txq) (b : skb) (st : Z) : rwnx_txq :=
  t <| sk_list ::= fun l => l ++ [b] |> <| status := st |>.

Lemma queued_inv s i t b st : inv s -> txqs s !! i = Some t -> active t = true -> owned i t b -> is_byte st ->
  (forall m, Z.land RWNX_TXQ_NDEV_FLOW_CTRL m = 0 -> Z.land st m = Z.land (status t) m) ->
  inv (set_txq (count_put s t) i (put_txq1 t b st)).
Proof.
  intros Hi Ht Ha Hb Hst Hm. pose proof (i_qs s Hi i t Ht) as Hok. set (t' := put_txq1 t b st).
  set (s' := set_txq _ i t').
  assert (Hs : rwnx_txq_is_scheduled t' = rwnx_txq_is_scheduled t).
  { unfold rwnx_txq_is_scheduled, t', put_txq1. cbn [status upd]. by rewrite Hm. }
  assert (Hsp : rwnx_txq_is_stopped t' = rwnx_txq_is_stopped t).
  { unfold rwnx_txq_is_stopped, t', put_txq1. cbn [status upd]. by rewrite Hm. }
  assert (Hlen : len t' = len t + 1) by (unfold len, t', put_txq1; cbn [sk_list upd]; rewrite length_app; cbn; lia).
  assert (He : env_of s' = env_of s) by (unfold s'; rewrite env_set_txq; by apply count_put_env).
  split.
  - rewrite He. by apply (i_env s Hi).
  - apply (qs_upd s s' i t'); [by apply i_qs | done | done |].
    destruct Hok. split; try done.
    + intros _. destruct (q_active0 Ha) as (? & ? & ?).
      change (0 < credits t < 128 /\ 0 <= push_limit t <= credits t /\ push_limit t <= len t'). lia.
    + unfold t', put_txq1. cbn [sk_list upd]. apply Forall_app. split; [done |]. by constructor.
    + intros H. change (active t = false) in H. congruence.
    + rewrite Hs, Hsp. intros H. destruct (q_live0 H) as (? & ? & ?). split_and!; [done | | done].
      intros E. unfold t', put_txq1 in E. cbn [sk_list upd] in E. by apply app_eq_nil in E as [_ ?].
  - apply (lists_upd s i t t'); [by apply (i_lists s Hi) | done | done | done].
  - apply (stas_count s s' i t t' (put1 (ps_id t)) 1 Hi); try done.
    + intros. by apply put1_frame.
    + intros a Hoka Hpa ->. unfold put1. rewrite Hpa. by destruct a.
Qed.

Lemma queue_skb_ok s i t b : inv s -> txqs s !! i = Some t -> active t = true -> owned i t b ->
  exists s' ev listed t', rwnx_txq_queue_skb s b i false = Ok (s', ev, listed) /\ inv s' /\ env_of s' = env_of s /\
    (forall k, left k ev = []) /\ (forall k, qbufs s' k = qbufs s k ++ (if decide (k = i) then [b] else [])) /\
    txqs s' !! i = Some t' /\ sk_list t' = sk_list t ++ [b] /\ active t' = true /\ t_hwq t' = t_hwq t.
Proof.
  intros Hi Ht Ha Hb. unfold rwnx_txq_queue_skb. rewrite (proj2 (get_txq_Ok s i t) Ht). cbn [mbind res_bind].
  destruct (ps_count_ok s i t Hi Ht) as (e1 & -> & He1). cbn [mbind res_bind]. unfold enqueue. cbn [negb mbind res_bind].
  destruct (flow_stop_ok (t <| sk_list ::= fun l => l ++ [b] |>)) as (st & e2 & -> & He2 & Hst & Hm);
    [apply (q_status _ _ _ (i_qs s Hi i t Ht)) |].
  change (t <| sk_list ::= fun l => l ++ [b] |> <| status := st |>) with (put_txq1 t b st).
  set (s1 := set_txq (count_put s t) i (put_txq1 t b st)).
  assert (Hi1 : inv s1) by by apply queued_inv.
  assert (Ht1 : txqs s1 !! i = Some (put_txq1 t b st)) by (by eapply lookup_set_txq).
  assert (Henv : env_of s1 = env_of s) by (unfold s1; rewrite env_set_txq; by apply count_put_env).
  assert (Hq1 : forall k, qbufs s1 k = qbufs s k ++ (if decide (k = i) then [b] else [])).
  { intros k. unfold s1. erewrite qbufs_set_txq by exact Ht. destruct (decide (k = i)) as [-> |].
    - unfold qbufs. by rewrite Ht.
    - by rewrite app_nil_r. }
  destruct (negb _) eqn:Hns.
  - destruct (add_ok s1 i (put_txq1 t b st) Hi1) as (s2 & -> & Hi2 & Hs2); [done.. | | |].
    + cbn. by intros [_ ?]%app_eq_nil.
    + intros _. by destruct (rwnx_txq_is_stopped _).
    + destruct (same_lookup s1 s2 i _ Hs2 Ht1) as (t2 & Ht2 & Hc). apply core_eq in Hc as (A & _ & B & C & _).
      cbn [mbind res_bind]. exists s2, (e1 ++ e2), true, t2. split_and!; try done.
      * by rewrite (same_env s1 s2).
      * intros k. by rewrite left_app, He1, He2.
      * intros k. by rewrite (qbufs_same s1 s2), Hq1.
      * by rewrite A.
  - exists s1, (e1 ++ e2), false, (put_txq1 t b st). split_and!; try done. intros k. by rewrite left_app, He1, He2.
Qed.

(** The buffer enters its queue unless the queue is not in use. *)
Definition accepted (s : rwnx_hw) (b : skb) (k : nat) : list skb :=
  match txqs s !! s_txq b with
  | Some t => if active t && (s_txq b =? k)%nat then [b] else []
  | None => []
  end.

Definition skb_ok (s : rwnx_hw) (b : skb) : Prop :=
  exists t, txqs s !! s_txq b = Some t /\ s_sta b = t_sta t.

Lemma xmit_ok s b : inv s -> skb_ok s b ->
  exists s' ev, xmit s b = Ok (s', ev) /\ inv s' /\ env_of s' = env_of s /\
    (forall k, qbufs s k ++ accepted s b k = left k ev ++ qbufs s' k).
Proof.
  intros Hi (t & Ht & Hs). unfold xmit, accepted. rewrite (proj2 (get_txq_Ok s _ t) Ht), Ht. cbn [mbind res_bind].
  destruct (active t) eqn:Ha; cbn [negb andb].
  - destruct (queue_skb_ok s (s_txq b) t b Hi Ht Ha) as (s1 & e1 & listed & t1 & -> & Hi1 & He1 & Hev & Hq1 & Ht1 & _ & _ & Hh1);
      [done |]. cbn [mbind res_bind].
    assert (Hk : forall k, qbufs s k ++ (if (s_txq b =? k)%nat then [b] else []) = qbufs s1 k).
    { intros k. rewrite Hq1. f_equal. destruct (Nat.eqb_spec (s_txq b) k), (decide (k = s_txq b)); congruence. }
    destruct listed.
    + rewrite (proj2 (get_txq_Ok s1 _ t1) Ht1). cbn [mbind res_bind].
      destruct (lookup_lt_is_Some_2 (hwqs s1) (t_hwq t1)) as [q Hq];
        [apply (q_hwq _ _ _ (i_qs s1 Hi1 _ _ Ht1)) |].
      destruct (process_ok s1 (t_hwq t1) q Hi1 Hq) as (s2 & e2 & -> & [Pi Pe Pm _ _ _ _]).
      cbn [mbind res_bind fst snd]. exists s2, (e1 ++ e2). split_and!; [done.. | by rewrite Pe |].
      intros k. rewrite Hk, left_app, Hev. apply (Pm k).
    + exists s1, e1. split_and!; [done.. |]. intros k. by rewrite Hk, Hev.
  - exists s, [EvReject b]. split_and!; [done.. |]. intros k. cbn. by rewrite app_nil_r.
Qed.

(** ** Power save *)

Lemma stop_set_sta s j a i r :
  rwnx_txq_stop (set_sta s j a) i r = (s' ← rwnx_txq_stop s i r; Ok (set_sta s' j a)).
Proof.
  unfold rwnx_txq_stop. change (get_txq (set_sta s j a) i) with (get_txq s i). destruct (get_txq s i) as [t| |]; [| done..].
  cbn [mbind res_bind]. destruct (active t); [| done]. unfold rwnx_txq_del_from_hw_list.
  set (t' := t <| status := _ |>). change (set_txq (set_sta s j a) i t') with (set_sta (set_txq s i t') j a).
  change (get_txq (set_sta (set_txq s i t') j a) i) with (get_txq (set_txq s i t') i).
  destruct (get_txq (set_txq s i t') i) as [u| |]; [| done..]. cbn [mbind res_bind].
  destruct (rwnx_txq_is_scheduled u); [| done].
  change (get_hwq (set_sta (set_txq s i t') j a) (t_hwq u)) with (get_hwq (set_txq s i t') (t_hwq u)).
  by destruct (get_hwq (set_txq s i t') (t_hwq u)).
Qed.

Lemma each_stop_set_sta l s j a r :
  each (fun s i => rwnx_txq_stop s i r) (set_sta s j a) l =
  (s' ← each (fun s i => rwnx_txq_stop s i r) s l; Ok (set_sta s' j a)).
Proof.
  revert s. induction l as [|i l IH]; intros s; [done |]. cbn [each]. rewrite stop_set_sta.
  destruct (rwnx_txq_stop s i r) as [s'| |]; [| done..]. apply IH.
Qed.

Lemma sta_txqs_ids old a a' : ids a' = ids a -> sta_txqs old a' = sta_txqs old a.
Proof. intros [= H1 H2]. unfold sta_txqs, rwnx_txq_sta_get, rwnx_txq_sta_idx. by rewrite H1, H2. Qed.

Lemma first_txq_get old a : rwnx_txq_sta_get old a 0 = first_txq old (ids a).
Proof. unfold rwnx_txq_sta_get, rwnx_txq_sta_idx, first_txq. cbn. by destruct (is_multicast_sta _ _); [| rewrite Nat.add_0_r]. Qed.

Lemma set_sta_twice s j a b : set_sta (set_sta s j a) j b = set_sta s j b.
Proof. destruct s. unfold set_sta. cbn. by rewrite list_insert_insert_eq. Qed.

Lemma lookup_set_sta s j a b : stas s !! j = Some a -> stas (set_sta s j b) !! j = Some b.
Proof. intros H. unfold set_sta. cbn. apply list_lookup_insert_eq. by eapply lookup_lt_Some. Qed.

Lemma inv_set_sta s j a a' : inv s -> stas s !! j = Some a -> ids a' = ids a -> sta_ok a' ->
  mc_ok (old_ic s) (txqs s) j a' -> inv (set_sta s j a').
Proof.
  intros [He Hq Hl Hs] Ha Hi Hok Hm. pose proof (env_set_sta s j a a' Ha Hi) as E. split.
  - by rewrite E.
  - intros i t Ht. rewrite E. by apply Hq.
  - exact Hl.
  - intros k b Hb. unfold set_sta in Hb. cbn in Hb.
    apply list_lookup_insert_Some in Hb as [(<- & <- & _)|[_ Hb]]; [done | by apply Hs].
Qed.

Lemma moves_set_sta s j a : moves s (set_sta s j a) [].
Proof. done. Qed.

Lemma set_counts_ok a n m : sta_ok a -> sta_ok (set_ready (set_ready a LEGACY_PS_ID n) UAPSD_ID m).
Proof. intros (H1 & H2 & H3 & H4). destruct a. cbn in *. split_and!; try apply u16_range; cbn in *; lia. Qed.

Lemma set_sp_ok a p n : sta_ok a -> sta_ok (set_sp a p n).
Proof. intros (H1 & H2 & H3 & H4). destruct a, p; cbn in *; split_and!; try apply u16_range; cbn in *; lia. Qed.

(** The queue of a group of stations is set up. *)
Definition group_ok (s : rwnx_hw) (j : nat) : Prop :=
  forall a, stas s !! j = Some a -> is_multicast_sta (old_ic s) (sta_idx a) = true ->
  exists t, txqs s !! first_txq (old_ic s) (ids a) = Some t /\ active t = true /\ t_sta t = Some j /\
    ps_id t = LEGACY_PS_ID.

Lemma ready_sum_Ok s p l n : Forall (fun i => (i < length (txqs s))%nat) l -> exists m, ready_sum s p l n = Ok m.
Proof.
  intros Hl. revert n. induction Hl as [|i l Hi _ IH]; intros n; cbn [ready_sum]; [by eexists |].
  destruct (get_txq_lt s i Hi) as (t & -> & _). cbn [mbind res_bind]. apply IH.
Qed.

Lemma sta_range s j : (j < length (stas s))%nat -> exists a, stas s !! j = Some a /\ get_sta s j = Ok a.
Proof. intros H. destruct (lookup_lt_is_Some_2 _ _ H) as [a Ha]. exists a. by rewrite get_sta_Ok. Qed.

Lemma ps_enable_ok s j : inv s -> (j < length (stas s))%nat -> group_ok s j -> tx_step s (rwnx_ps_bh_enable s j true).
Proof.
  intros Hi Hj Hg. destruct (sta_range s j Hj) as (a & Ha & Hga). unfold rwnx_ps_bh_enable. rewrite Hga. cbn [mbind res_bind].
  set (a0 := set_sp _ UAPSD_ID 0). unfold rwnx_txq_sta_stop.
  rewrite (proj2 (get_sta_Ok (set_sta s j a0) j a0)) by (by eapply lookup_set_sta). cbn [mbind res_bind].
  change (old_ic (set_sta s j a0)) with (old_ic s). rewrite (sta_txqs_ids _ a a0) by done. rewrite each_stop_set_sta.
  destruct (each_ok (pol := pol) (fun s i => rwnx_txq_stop s i RWNX_TXQ_STOP_STA_PS) (sta_txqs (old_ic s) a) s) as (s1 & -> & Hi1 & Hs1);
    [intros; by apply stop_step | done | eapply sta_txqs_range; [apply (i_env s Hi) | done] |].
  cbn [mbind res_bind]. pose proof Hs1 as (Ho1 & _ & Hst1 & _).
  assert (Ha1 : stas s1 !! j = Some a) by by rewrite Hst1.
  rewrite (proj2 (get_sta_Ok (set_sta s1 j a0) j a0)) by (by eapply lookup_set_sta). cbn [mbind res_bind].
  assert (Hfin : forall a2, ids a2 = ids a -> sta_ok a2 -> mc_ok (old_ic s1) (txqs s1) j a2 ->
    tx_step s (Ok (set_sta (set_sta s1 j a0) j a2, []))).
  { intros a2 Hid Hok Hm. exists (set_sta s1 j a2), []. rewrite set_sta_twice.
    split_and!; [done | by eapply inv_set_sta | rewrite (env_set_sta _ _ a) by done; by apply same_env |].
    apply (moves_trans s s1 _ [] []); [by apply moves_same | apply moves_set_sta]. }
  assert (Hok0 : sta_ok a0) by (apply set_sp_ok, set_sp_ok; by apply (i_stas s Hi j a)).
  destruct (is_multicast_sta (old_ic s) (sta_idx a)) eqn:Hm.
  - destruct (Hg a Ha Hm) as (t & Ht & Hta & Htj & Htp). destruct (same_lookup s s1 _ t Hs1 Ht) as (t1 & Ht1 & Hc).
    rewrite first_txq_get, (proj2 (get_txq_Ok (set_sta s1 j a0) _ t1)) by exact Ht1. cbn [mbind res_bind].
    apply Hfin; [done | by apply set_counts_ok |]. intros _ _. exists t1. rewrite Ho1.
    apply core_eq in Hc as (E1 & _ & _ & _ & _ & E2 & E3 & _). rewrite E1, E2, E3. split_and!; try done.
  - pose proof (sta_txqs_range s j a (i_env s Hi) Ha) as Hrange.
    change (old_ic (set_sta s1 j a0)) with (old_ic s1). rewrite Ho1, (sta_txqs_ids _ a a0) by done.
    assert (Hrange1 : Forall (fun i => (i < length (txqs (set_sta s1 j a0)))%nat) (sta_txqs (old_ic s) a))
      by (change (txqs (set_sta s1 j a0)) with (txqs s1); by rewrite (same_ntx s s1)).
    destruct (ready_sum_Ok _ LEGACY_PS_ID _ 0 Hrange1) as [n ->]. cbn [mbind res_bind].
    destruct (ready_sum_Ok _ UAPSD_ID _ 0 Hrange1) as [m ->]. cbn [mbind res_bind].
    apply Hfin; [done | by apply set_counts_ok |]. intros _ Hm'.
    change (is_multicast_sta (old_ic s1) (sta_idx a) = true) in Hm'. rewrite Ho1 in Hm'. congruence.
Qed.

(** A stopped queue that is in a list only for its service period. *)
Definition calm (s : rwnx_hw) (i : nat) : Prop :=
  pol = true -> forall t, txqs s !! i = Some t -> rwnx_txq_is_scheduled t = true -> rwnx_txq_is_stopped t = false.

Lemma clear_ok s i t : inv s -> txqs s !! i = Some t -> calm s i -> inv (set_txq s i (t <| push_limit := 0 |>)).
Proof.
  intros Hi Ht Hc. apply (inv_upd s i t); try done. destruct (i_qs s Hi i t Ht). split; try done.
  - intros Ha. destruct (q_active0 Ha) as (? & ? & ?). unfold len. cbn. lia.
  - intros Hs. destruct (q_live0 Hs) as (? & ? & ?). split_and!; [done.. |]. intros Hp Hst.
    change (rwnx_txq_is_stopped t = true) in Hst. rewrite (Hc Hp t Ht Hs) in Hst. done.
Qed.

Lemma clear_step s i : inv s -> (i < length (txqs s))%nat -> calm s i ->
  exists t, txqs s !! i = Some t /\ clear_limit s i = Ok (set_txq s i (t <| push_limit := 0 |>)) /\
    inv (set_txq s i (t <| push_limit := 0 |>)).
Proof.
  intros Hi Hlt Hc. destruct (get_txq_lt s i Hlt) as (t & Hg & Ht). exists t. unfold clear_limit. rewrite Hg.
  split_and!; [done.. |]. by apply clear_ok.
Qed.

Lemma each_clear l s : inv s -> Forall (fun i => (i < length (txqs s))%nat /\ calm s i) l ->
  exists s', each clear_limit s l = Ok s' /\ inv s' /\ env_of s' = env_of s /\ moves s s' [] /\ stas s' = stas s.
Proof.
  revert s. induction l as [|i l IH]; intros s Hi Hl; cbn [each]; [by exists s |].
  inversion_clear Hl as [| ? ? [Hlt Hc] Hl']. destruct (clear_step s i Hi Hlt Hc) as (t & Ht & -> & Hi1).
  cbn [mbind res_bind]. set (s1 := set_txq s i _) in *. destruct (IH s1 Hi1) as (s2 & H2 & Hi2 & He2 & Hm2 & Hst2).
  - eapply Forall_impl; [exact Hl' |]. intros k [Hk Hck]. split; [unfold s1, set_txq; cbn; by rewrite length_insert |].
    intros Hp u Hu. unfold s1, set_txq in Hu. cbn in Hu.
    apply list_lookup_insert_Some in Hu as [(<- & <- & _)|[_ Hu]]; [apply (Hc Hp t Ht) | by apply (Hck Hp)].
  - exists s2. split_and!; [done.. | by rewrite He2; apply env_set_txq | | by rewrite Hst2].
    apply (moves_trans s s1 s2 [] []); [| done]. intros k. unfold s1. rewrite (qbufs_set_txq s i t) by done.
    destruct (decide (k = i)) as [-> |]; [| done]. unfold qbufs. by rewrite Ht.
Qed.

Definition calm_sta (s : rwnx_hw) (j : nat) : Prop :=
  forall a, stas s !! j = Some a -> Forall (calm s) (sta_txqs (old_ic s) a).

Lemma calm_range s j a : inv s -> stas s !! j = Some a -> calm_sta s j ->
  Forall (fun i => (i < length (txqs s))%nat /\ calm s i) (sta_txqs (old_ic s) a).
Proof. intros Hi Ha Hc. apply Forall_and. split; [eapply sta_txqs_range; [apply (i_env s Hi) | done] | by apply Hc]. Qed.

Lemma sta_start_tx s s0 j r : inv s -> reason_ok r -> (j < length (stas s))%nat -> env_of s = env_of s0 -> moves s0 s [] ->
  exists s', rwnx_txq_sta_start s j r = Ok s' /\ inv s' /\ env_of s' = env_of s0 /\ moves s0 s' [].
Proof.
  intros Hi Hr Hj He Hm. destruct (sta_start_step s j r Hi Hr Hj) as (s' & H & Hi' & Hs). exists s'.
  split_and!; [done.. | by rewrite <- He; apply same_env |]. eapply (moves_trans _ _ _ [] []); [done | by apply moves_same].
Qed.

Lemma ps_disable_ok s j : inv s -> (j < length (stas s))%nat -> group_ok s j -> calm_sta s j ->
  tx_step s (rwnx_ps_bh_enable s j false).
Proof.
  intros Hi Hj Hg Hc. destruct (sta_range s j Hj) as (a & Ha & Hga). unfold rwnx_ps_bh_enable. rewrite Hga.
  cbn [mbind res_bind]. set (a0 := a <| ps_active := false |>). set (s0 := set_sta s j a0).
  assert (Hi0 : inv s0) by (apply (inv_set_sta s j a); [done | done | done | by apply (i_stas s Hi j a) | done]).
  assert (He0 : env_of s0 = env_of s) by by apply (env_set_sta s j a).
  assert (Hj0 : (j < length (stas s0))%nat) by (unfold s0, set_sta; cbn; by rewrite length_insert).
  pose proof (calm_range s j a Hi Ha Hc) as Hrange. change (calm s) with (calm s0) in Hrange.
  assert (Hclear : exists s1, (if is_multicast_sta (old_ic s) (sta_idx a) then
      t ← get_txq s0 (rwnx_txq_sta_get (old_ic s) a 0);
      Ok (set_txq s0 (rwnx_txq_sta_get (old_ic s) a 0) (t <| t_hwq := RWNX_HWQ_BE |> <| push_limit := 0 |>))
    else each clear_limit s0 (sta_txqs (old_ic s0) a)) = Ok s1 /\ inv s1 /\ env_of s1 = env_of s0 /\ moves s0 s1 [] /\
    stas s1 = stas s0).
  { destruct (is_multicast_sta (old_ic s) (sta_idx a)) eqn:Hm; [| by apply each_clear].
    destruct (Hg a Ha Hm) as (t & Ht & Hta & Htj & Htp). rewrite first_txq_get.
    rewrite (proj2 (get_txq_Ok s0 _ t)) by exact Ht. cbn [mbind res_bind].
    destruct (q_sta _ _ _ (i_qs s Hi _ t Ht) j Htj) as (d & Hd & Hdm). rewrite (env_sta s j a Ha) in Hd. injection Hd as <-.
    destruct (Hdm Hm) as [_ Hbe]. replace (t <| t_hwq := RWNX_HWQ_BE |>) with t by (rewrite <- Hbe; by destruct t).
    destruct (each_clear [first_txq (old_ic s) (ids a)] s0 Hi0) as (s1 & H1 & Hr).
    { constructor; [| constructor]. rewrite Forall_forall in Hrange. apply Hrange. unfold sta_txqs. rewrite Hm, first_txq_get.
      cbn. set_solver. }
    cbn [each] in H1. unfold clear_limit in H1. rewrite (proj2 (get_txq_Ok s0 _ t)) in H1 by exact Ht. cbn [mbind res_bind] in H1.
    exists s1. by injection H1 as <-. }
  destruct Hclear as (s1 & -> & Hi1 & He1 & Hm1 & Hst1). cbn [mbind res_bind].
  destruct (sta_start_tx s1 s j RWNX_TXQ_STOP_STA_PS) as (s2 & -> & Hi2 & He2 & Hm2);
    [done | done | by rewrite Hst1 | by rewrite He1 | by apply (moves_trans s s0 s1 [] []) |].
  cbn [mbind res_bind]. eexists s2, _. split_and!; [done.. |]. by destruct (negb _).
Qed.

(** ** Service periods *)

Lemma mc_set_sp old qs j a p n : mc_ok old qs j a -> mc_ok old qs j (set_sp a p n).
Proof. intros H. destruct a, p; exact H. Qed.

(** A queue is given [g] buffers of the request. *)
Definition granted (s : rwnx_hw) (i j : nat) (t : rwnx_txq) (a : rwnx_sta) (p : psid) (g n : Z) : rwnx_hw :=
  set_sta (set_txq s i (t <| push_limit := g |>)) j (set_sp a p n).

Lemma grant_ok s i j t a p g n : inv s -> txqs s !! i = Some t -> stas s !! j = Some a ->
  0 < g -> g <= credits t -> g <= len t ->
  exists s', rwnx_txq_add_to_hw_list (granted s i j t a p (u8 g) n) i = Ok s' /\ inv s' /\
    same (granted s i j t a p g n) s'.
Proof.
  intros Hi Ht Ha Hg Hc Hl. pose proof (i_qs s Hi i t Ht) as Hok.
  assert (Hact : active t = true).
  { destruct (active t) eqn:E; [done |]. destruct (q_idle _ _ _ Hok E) as [E' _]. unfold len in Hl. rewrite E' in Hl. cbn in Hl. lia. }
  destruct (q_active _ _ _ Hok Hact) as (Hcr & _ & _). rewrite u8_id by lia.
  set (t' := t <| push_limit := g |>).
  assert (Hi1 : inv (granted s i j t a p g n)).
  { apply (inv_set_sta _ j a); [| done | by destruct p | by apply set_sp_ok, (i_stas s Hi j a) |].
    - apply (inv_upd s i t t'); try done. destruct Hok. split; try done.
      + intros _. change (0 < credits t < 128 /\ 0 <= g <= credits t /\ g <= len t). lia.
      + intros Hs. destruct (q_live0 Hs) as (? & ? & _). done.
    - apply mc_set_sp. pose proof (inv_upd s i t t' Hi Ht) as H.
      destruct (stas_upd s i t t' (i_stas s Hi) Ht) with (j := j) (a := a); done. }
  apply (add_ok _ i t'); [done | | done | | done].
  - unfold granted, set_sta. cbn [txqs upd]. by eapply lookup_set_txq.
  - intros E. change (sk_list t = []) in E. unfold len in Hl. rewrite E in Hl. cbn in Hl. lia.
Qed.

(** What a queue can give to a request, and how a request is shared. *)
Definition avail (p : psid) (t : rwnx_txq) : Z :=
  if decide (ps_id t = p) then Z.min (u16 (len t)) (credits t) else 0.

Fixpoint grants (av : list Z) (req : Z) : list Z :=
  match av with [] => [] | n :: av => Z.min n req :: grants av (req - Z.min n req) end.

Lemma avail_range e i t p : qok e i t -> 0 <= avail p t /\ avail p t <= credits t /\ avail p t <= len t /\ avail p t < 2 ^ 16.
Proof.
  intros Hok. pose proof (credits_nonneg _ _ _ Hok). unfold avail. pose proof (u16_range (len t)).
  assert (u16 (len t) <= len t) by (apply Z.mod_le; unfold len; lia). destruct (decide _); unfold len in *; lia.
Qed.

Lemma grants_zero av : Forall (fun n => 0 <= n) av -> grants av 0 = replicate (length av) 0.
Proof. induction 1 as [| n av Hn _ IH]; [done |]. cbn. by rewrite Z.min_r, Z.sub_0_r, IH by lia. Qed.

(** The new service periods: a queue that gets nothing keeps what it had. *)
Definition regrant (g l : Z) : Z := if g =? 0 then l else g.

Lemma grants_sum av req : Forall (fun n => 0 <= n) av -> 0 <= req ->
  foldr Z.add 0 (grants av req) = Z.min req (foldr Z.add 0 av).
Proof.
  intros Hav. revert req. induction Hav as [| n av Hn Hav IH]; intros req Hr; cbn [grants foldr]; [lia |].
  rewrite IH by lia. assert (0 <= foldr Z.add 0 av) by (clear -Hav; induction Hav; cbn; lia). lia.
Qed.

Definition avail_at (s : rwnx_hw) (p : psid) (i : nat) : Z :=
  match txqs s !! i with Some t => avail p t | None => 0 end.
Definition limit (s : rwnx_hw) (i : nat) : Z :=
  match txqs s !! i with Some t => push_limit t | None => 0 end.

Lemma set_sp_id a p : sta_ok a -> set_sp a p (sp_cnt a p + 0) = a.
Proof. intros (H1 & H2 & H3 & H4). rewrite Z.add_0_r. destruct a, p; cbn in *; by rewrite u16_id. Qed.

Lemma set_sp_add a p x y : set_sp (set_sp a p x) p (sp_cnt (set_sp a p x) p + y) = set_sp a p (x + y).
Proof. destruct a, p; cbn; f_equal; unfold u16; by rewrite Zplus_mod_idemp_l. Qed.

(** After a grant the other queues are as before. *)
Lemma granted_other s s' i j t a p g n k : txqs s !! i = Some t -> same (granted s i j t a p g n) s' ->
  (k <> i -> avail_at s' p k = avail_at s p k /\ limit s' k = limit s k) /\ limit s' i = g.
Proof.
  intros Ht Hs.
  assert (H : forall k u, txqs (granted s i j t a p g n) !! k = Some u ->
    avail_at s' p k = avail p u /\ limit s' k = push_limit u).
  { intros k' u Hu. destruct (same_lookup _ _ k' u Hs Hu) as (u' & Hu' & Hc). unfold avail_at, limit. rewrite Hu'.
    apply core_eq in Hc as (_ & A & B & _ & C & _ & D & _). unfold avail, len. by rewrite A, B, C, D. }
  split.
  - intros Hk. destruct (txqs s !! k) as [u|] eqn:Hu.
    + destruct (H k u) as [-> ->]; [unfold granted, set_sta, set_txq; cbn; by rewrite list_lookup_insert_ne |].
      unfold avail_at, limit. by rewrite Hu.
    + assert (E : txqs s' !! k = None).
      { apply lookup_ge_None. apply lookup_ge_None in Hu. rewrite (same_ntx _ _ Hs). unfold granted, set_sta, set_txq. cbn.
        by rewrite length_insert. }
      unfold avail_at, limit. by rewrite E, Hu.
  - destruct (H i (t <| push_limit := g |>)) as [_ E]; [| exact E].
    unfold granted, set_sta. cbn [txqs upd]. by eapply lookup_set_txq.
Qed.

Lemma granted_moves s i j t a p g n : txqs s !! i = Some t -> moves s (granted s i j t a p g n) [].
Proof.
  intros Ht k.
  change (qbufs s k = qbufs (set_txq s i (t <| push_limit := g |>)) k). rewrite (qbufs_set_txq s i t) by done.
  destruct (decide (k = i)) as [-> |]; [| done]. unfold qbufs. by rewrite Ht.
Qed.

Definition total (G : list Z) : Z := foldr Z.add 0 G.

(** The queues [I] got [G] of the request of station [j], all others nothing. *)
Record handed (s : rwnx_hw) (j : nat) (a : rwnx_sta) (p : psid) (I : list nat) (G : list Z) (s' : rwnx_hw) : Prop := {
  h_inv : inv s';
  h_env : env_of s' = env_of s;
  h_moves : moves s s' [];
  h_limits : limit s' <$> I = zip_with regrant G (limit s <$> I);
  h_rest : forall i, i ∉ I -> limit s' i = limit s i;
  h_sp : stas s' !! j = Some (set_sp a p (sp_cnt a p + total G)) }.

Lemma handed_none s j a p I : inv s -> stas s !! j = Some a -> handed s j a p I (replicate (length I) 0) s.
Proof.
  intros Hi Ha. split; try done.
  - induction I as [|i I IH]; [done |]. cbn. by f_equal.
  - assert (E : total (replicate (length I) 0) = 0) by (induction I; [done | cbn; unfold total in *; lia]).
    rewrite E, set_sp_id; [done |]. by apply (i_stas s Hi j a).
Qed.

Lemma handed_skip s j a p i I G s' : i ∉ I -> handed s j a p I G s' -> handed s j a p (i :: I) (0 :: G) s'.
Proof.
  intros Hi []. split; try done.
  - cbn. by rewrite h_limits0, (h_rest0 i Hi).
  - intros k Hk. apply h_rest0. set_solver.
Qed.

Lemma handed_step s j a p i t g I G s1 s' : i ∉ I -> txqs s !! i = Some t -> g <> 0 ->
  same (granted s i j t a p g (sp_cnt a p + g)) s1 ->
  handed s1 j (set_sp a p (sp_cnt a p + g)) p I G s' -> stas s !! j = Some a -> handed s j a p (i :: I) (g :: G) s'.
Proof.
  intros Hi Ht Hg Hs [] Ha. destruct (granted_other s s1 i j t a p g _ i Ht Hs) as [_ Hlim].
  assert (Ho : forall k, k <> i -> limit s1 k = limit s k) by (intros k Hk; by apply (granted_other s s1 i j t a p g _ k Ht Hs)).
  split.
  - done.
  - rewrite h_env0, (same_env _ _ Hs). unfold granted. rewrite (env_set_sta _ j a) by (done || by destruct p). apply env_set_txq.
  - apply (moves_trans s s1 s' [] []); [| done]. apply (moves_trans s (granted s i j t a p g (sp_cnt a p + g)) s1 [] []);
      [by eapply granted_moves | by apply moves_same].
  - cbn. f_equal.
    + rewrite (h_rest0 i Hi), Hlim. unfold regrant. by rewrite (proj2 (Z.eqb_neq g 0)).
    + rewrite h_limits0. f_equal. apply Forall_fmap_ext_1, Forall_forall. intros k Hk. apply Ho. by intros ->.
  - intros k [Hk Hk']%not_elem_of_cons. rewrite h_rest0 by done. by apply Ho.
  - rewrite h_sp0, set_sp_add. f_equal. f_equal. cbn. unfold total. lia.
Qed.

Lemma dispatch_ok p tids : forall s j a req, inv s -> stas s !! j = Some a ->
  NoDup (rwnx_txq_sta_get (old_ic s) a <$> tids) -> 0 < req < 2 ^ 16 ->
  exists s', dispatch_req s j p tids req = Ok s' /\
    handed s j a p (rwnx_txq_sta_get (old_ic s) a <$> tids)
      (grants (avail_at s p <$> (rwnx_txq_sta_get (old_ic s) a <$> tids)) req) s'.
Proof.
  induction tids as [|tid tids IH]; intros s j a req Hi Ha Hn Hr; cbn [dispatch_req fmap list_fmap].
  - exists s. split; [done |]. by apply (handed_none s j a p []).
  - set (idx := rwnx_txq_sta_get (old_ic s) a) in *. inversion_clear Hn as [| ? ? Hni Hn'].
    rewrite (proj2 (get_sta_Ok s j a) Ha). cbn [mbind res_bind].
    assert (Hlt : (idx tid < length (txqs s))%nat) by (by eapply sta_get_range; [apply (i_env s Hi) |]).
    destruct (get_txq_lt s _ Hlt) as (t & Hg & Ht). fold idx. rewrite Hg. cbn [mbind res_bind].
    pose proof (i_qs s Hi _ t Ht) as Hok. destruct (avail_range _ _ t p Hok) as (A0 & A1 & A2 & A3).
    assert (Hav : avail_at s p (idx tid) = avail p t) by (unfold avail_at; by rewrite Ht).
    cbn [grants]. rewrite Hav.
    assert (Hskip : avail p t = 0 -> exists s', dispatch_req s j p tids req = Ok s' /\
      handed s j a p (idx tid :: (idx <$> tids))
        (Z.min (avail p t) req :: grants (avail_at s p <$> (idx <$> tids)) (req - Z.min (avail p t) req)) s').
    { intros ->. rewrite Z.min_l, Z.sub_0_r by lia. destruct (IH s j a req) as (s' & -> & H); [done.. |].
      exists s'. split; [done |]. by apply handed_skip. }
    unfold avail in *. destruct (decide (ps_id t = p)) as [Hp | Hp]; cycle 1.
    { rewrite decide_True by done. by apply Hskip. }
    rewrite decide_False by auto. change (Z.of_nat (length (sk_list t))) with (len t).
    set (n := Z.min (u16 (len t)) (credits t)) in *. rewrite (u16_id n) by lia.
    destruct (Z.eqb_spec n 0) as [Hz | Hz]; [by apply Hskip |].
    set (g := if n <? req then n else req).
    assert (Hgm : Z.min n req = g) by (unfold g; bool_cases; lia).
    destruct (grant_ok s (idx tid) j t a p g (sp_cnt a p + g) Hi Ht Ha) as (s1 & Hadd & Hi1 & Hs1); [lia.. |].
    fold (granted s (idx tid) j t a p (u8 g) (sp_cnt a p + g)). rewrite Hadd. cbn [mbind res_bind]. rewrite Hgm.
    assert (Ha1 : stas s1 !! j = Some (set_sp a p (sp_cnt a p + g))).
    { destruct Hs1 as (_ & _ & -> & _). by eapply lookup_set_sta. }
    assert (Ho1 : old_ic s1 = old_ic s) by apply Hs1.
    assert (Hidx : rwnx_txq_sta_get (old_ic s1) (set_sp a p (sp_cnt a p + g)) = idx).
    { unfold idx. rewrite Ho1. by destruct a, p. }
    assert (Hav1 : avail_at s1 p <$> (idx <$> tids) = avail_at s p <$> (idx <$> tids)).
    { apply Forall_fmap_ext_1, Forall_forall. intros k Hk. apply (granted_other s s1 _ j t a p g _ k Ht Hs1).
      by intros ->. }
    assert (Hrec : exists s', (if n <? req then dispatch_req s1 j p tids (u16 (req - n)) else Ok s1) = Ok s' /\
      handed s1 j (set_sp a p (sp_cnt a p + g)) p (idx <$> tids) (grants (avail_at s p <$> (idx <$> tids)) (req - g)) s').
    { destruct (Z.ltb_spec n req).
      - rewrite u16_id by lia. replace (req - g) with (req - n) by lia.
        destruct (IH s1 j (set_sp a p (sp_cnt a p + g)) (req - n) Hi1 Ha1) as (s' & H1 & H2);
          [by rewrite Hidx | lia |]. exists s'. split; [exact H1 |]. by rewrite Hidx, Hav1 in H2.
      - exists s1. split; [done |]. replace (req - g) with 0 by lia. rewrite grants_zero, length_fmap.
        + by apply handed_none.
        + apply Forall_fmap, Forall_forall. intros k _. cbn. unfold avail_at. destruct (txqs s !! k) as [u|] eqn:Hu; [| done].
          by apply (avail_range (env_of s) k), (i_qs s Hi). }
    destruct Hrec as (s' & H1 & H2). exists s'. split; [exact H1 |].
    eapply handed_step; [done | exact Ht | lia | exact Hs1 | exact H2 | done].
Qed.

Definition prio_txqs (old : bool) (a : rwnx_sta) : list nat := rwnx_txq_sta_get old a <$> nx_tid_prio.

Lemma prio_NoDup old a : is_multicast_sta old (sta_idx a) = false -> NoDup (prio_txqs old a).
Proof.
  intros Hm. unfold prio_txqs, rwnx_txq_sta_get, rwnx_txq_sta_idx. rewrite Hm. cbn.
  repeat (apply NoDup_cons; split; [rewrite ?elem_of_cons, ?elem_of_nil; lia |]). apply NoDup_nil_2.
Qed.

(** What a request asks for. *)
Definition wanted (req ready : Z) : Z := if (req =? 0) || (ready <? req) then ready else req.

Lemma ready_range a p : sta_ok a -> 0 <= pkt_ready a p < 2 ^ 16 /\ 0 <= sp_cnt a p < 2 ^ 16.
Proof. intros (H1 & H2 & H3 & H4). by destruct p. Qed.

Section Traffic.
Context (s : rwnx_hw) (j : nat) (a : rwnx_sta) (req : Z) (p : psid).
Hypothesis Hi : inv s.
Hypothesis Ha : stas s !! j = Some a.
Hypothesis Hr : 0 <= req < 2 ^ 16.
Hypothesis Hps : ps_active a = true.
Hypothesis Hint : (req =? PS_SP_INTERRUPTED) && bool_decide (p = UAPSD_ID) = false.

Let Hsok : sta_ok a := proj1 (i_stas s Hi j a Ha).

(** Nothing happens when a period is going on or nothing is queued. *)
Lemma traffic_none : sp_cnt a p <> 0 \/ pkt_ready a p = 0 -> rwnx_ps_bh_traffic_req s j req p = Ok (s, false).
Proof.
  intros H. unfold rwnx_ps_bh_traffic_req. rewrite (proj2 (get_sta_Ok s j a) Ha). cbn [mbind res_bind].
  rewrite Hps, Hint. cbn [negb]. pose proof (ready_range a p Hsok). bool_cases; (done || lia).
Qed.

Lemma traffic_some : sp_cnt a p = 0 -> 0 < pkt_ready a p ->
  rwnx_ps_bh_traffic_req s j req p =
    let want := wanted req (pkt_ready a p) in
    let s := set_sta s j (set_sp a p 0) in
    if is_multicast_sta (old_ic s) (sta_idx a) then
      let i := rwnx_txq_sta_get (old_ic s) a 0 in
      t ← get_txq s i;
      let n := if credits t <? want then u16 (credits t) else want in
      s ← rwnx_txq_add_to_hw_list (set_sta (set_txq s i (t <| push_limit := u8 n |>)) j (set_sp a p n)) i;
      Ok (s, true)
    else s ← dispatch_req s j p nx_tid_prio want; Ok (s, true).
Proof.
  intros Hsp Hrd. unfold rwnx_ps_bh_traffic_req. rewrite (proj2 (get_sta_Ok s j a) Ha). cbn [mbind res_bind].
  rewrite Hps, Hint, Hsp, Z.sub_0_r. cbn [negb orb Z.eqb]. rewrite (proj2 (Z.leb_gt (pkt_ready a p) 0)) by lia.
  unfold wanted. pose proof (ready_range a p Hsok). rewrite u16_id by lia. done.
Qed.

Lemma wanted_range : 0 < pkt_ready a p -> 0 < wanted req (pkt_ready a p) <= pkt_ready a p.
Proof. intros H. unfold wanted. bool_cases; lia. Qed.

Lemma traffic_unicast : is_multicast_sta (old_ic s) (sta_idx a) = false -> sp_cnt a p = 0 -> 0 < pkt_ready a p ->
  exists s', rwnx_ps_bh_traffic_req s j req p = Ok (s', true) /\
    handed s j a p (prio_txqs (old_ic s) a)
      (grants (avail_at s p <$> prio_txqs (old_ic s) a) (wanted req (pkt_ready a p))) s'.
Proof.
  intros Hm Hsp Hrd. rewrite traffic_some by done. cbv zeta. change (old_ic (set_sta s j _)) with (old_ic s). rewrite Hm.
  assert (E : set_sta s j (set_sp a p 0) = s).
  { rewrite <- Hsp, <- (Z.add_0_r (sp_cnt a p)), set_sp_id by done. unfold set_sta. destruct s. cbn in *.
    by rewrite list_insert_id. }
  rewrite E. pose proof (ready_range a p Hsok). pose proof (wanted_range Hrd).
  destruct (dispatch_ok p nx_tid_prio s j a (wanted req (pkt_ready a p)) Hi Ha) as (s' & -> & H2);
    [by apply prio_NoDup | lia |]. by exists s'.
Qed.

Lemma traffic_group : is_multicast_sta (old_ic s) (sta_idx a) = true -> sp_cnt a p = 0 -> 0 < pkt_ready a p ->
  exists s', rwnx_ps_bh_traffic_req s j req p = Ok (s', true) /\ inv s' /\ env_of s' = env_of s /\ moves s s' [].
Proof.
  intros Hm Hsp Hrd. rewrite traffic_some by done. cbv zeta. change (old_ic (set_sta s j _)) with (old_ic s). rewrite Hm.
  destruct (proj2 (i_stas s Hi j a Ha) Hps Hm) as (t & Ht & Hact & Htj & Htp & Hl & Hu).
  pose proof (wanted_range Hrd) as Hw.
  assert (p = LEGACY_PS_ID) as -> by (destruct p; [done | cbn in Hrd; lia]).
  rewrite first_txq_get. change (get_txq (set_sta s j _)) with (get_txq s). rewrite (proj2 (get_txq_Ok s _ t) Ht).
  cbn [mbind res_bind]. cbn [pkt_ready] in Hw.
  destruct (q_active _ _ _ (i_qs s Hi _ t Ht) Hact) as (Hc & _ & _).
  assert (Hlen : ready_legacy a <= len t) by (rewrite Hl; apply Z.mod_le; unfold len; lia).
  set (n := if credits t <? _ then _ else _).
  assert (Hn : 0 < n <= credits t /\ n <= len t).
  { unfold n. cbn [pkt_ready]. destruct (Z.ltb_spec (credits t) (wanted req (ready_legacy a))); rewrite ?u16_id; lia. }
  destruct (grant_ok s _ j t a LEGACY_PS_ID n n Hi Ht Ha) as (s1 & Hadd & Hi1 & Hs1); [lia.. |].
  assert (E : set_sta (set_txq (set_sta s j (set_sp a LEGACY_PS_ID 0)) (first_txq (old_ic s) (ids a))
    (t <| push_limit := u8 n |>)) j (set_sp a LEGACY_PS_ID n) = granted s (first_txq (old_ic s) (ids a)) j t a LEGACY_PS_ID (u8 n) n).
  { unfold granted. set (u := t <| push_limit := _ |>).
    change (set_txq (set_sta s j ?x) ?i u) with (set_sta (set_txq s i u) j x). apply set_sta_twice. }
  rewrite E, Hadd. cbn [mbind res_bind]. exists s1. split_and!; [done.. | |].
  - rewrite (same_env _ _ Hs1). unfold granted. rewrite (env_set_sta _ j a) by done. apply env_set_txq.
  - eapply (moves_trans s _ s1 [] []); [by eapply granted_moves | by apply moves_same].
Qed.
End Traffic.

Lemma traffic_ok s j req p : inv s -> (j < length (stas s))%nat -> 0 <= req < 2 ^ 16 ->
  (p = UAPSD_ID -> req = PS_SP_INTERRUPTED -> calm_sta s j) ->
  exists s' b, rwnx_ps_bh_traffic_req s j req p = Ok (s', b) /\ inv s' /\ env_of s' = env_of s /\ moves s s' [].
Proof.
  intros Hi Hj Hr Hc. destruct (sta_range s j Hj) as (a & Ha & Hga).
  destruct (ps_active a) eqn:Hps; cycle 1.
  { exists s, false. unfold rwnx_ps_bh_traffic_req. rewrite Hga. cbn [mbind res_bind]. by rewrite Hps. }
  destruct ((req =? PS_SP_INTERRUPTED) && bool_decide (p = UAPSD_ID)) eqn:Hint.
  - unfold rwnx_ps_bh_traffic_req. rewrite Hga. cbn [mbind res_bind]. rewrite Hps, Hint. cbn [negb].
    apply andb_true_iff in Hint as [->%Z.eqb_eq Hp%bool_decide_eq_true]. specialize (Hc Hp eq_refl).
    set (s0 := set_sta s j (set_sp a p 0)).
    assert (Hi0 : inv s0).
    { apply (inv_set_sta s j a); [done | done | by destruct p | by apply set_sp_ok, (i_stas s Hi j a) |].
      apply mc_set_sp. by apply (i_stas s Hi j a). }
    pose proof (calm_range s j a Hi Ha Hc) as Hrange. change (calm s) with (calm s0) in Hrange.
    destruct (each_clear (sta_txqs (old_ic s) a) s0 Hi0 Hrange) as (s1 & -> & Hi1 & He1 & Hm1 & _).
    cbn [mbind res_bind]. exists s1, false. split_and!; [done.. | |].
    + rewrite He1. by apply (env_set_sta s j a); [| destruct p].
    + by apply (moves_trans s s0 s1 [] []).
  - destruct (decide (sp_cnt a p <> 0 \/ pkt_ready a p = 0)) as [Hn | Hn].
    { rewrite (traffic_none s j a req p) by done. by exists s, false. }
    pose proof (ready_range a p (proj1 (i_stas s Hi j a Ha))).
    assert (Hsp : sp_cnt a p = 0) by lia. assert (Hrd : 0 < pkt_ready a p) by lia.
    destruct (is_multicast_sta (old_ic s) (sta_idx a)) eqn:Hm.
    + destruct (traffic_group s j a req p Hi Ha Hr Hps Hint Hm Hsp Hrd) as (s' & -> & Hres). by exists s', true.
    + destruct (traffic_unicast s j a req p Hi Ha Hr Hps Hint Hm Hsp Hrd) as (s' & -> & []). by exists s', true.
Qed.

(** ** Confirmations *)

Lemma confirm_ok s i h : inv s -> (i < length (txqs s))%nat -> (h < length (hwqs s))%nat ->
  exists s' t t', rwnx_txq_confirm_any s i h = Ok s' /\ inv s' /\ env_of s' = env_of s /\ moves s s' [] /\
    txqs s !! i = Some t /\ txqs s' !! i = Some t' /\ active t' = active t.
Proof.
  intros Hi Hlt Hh. destruct (get_txq_lt s i Hlt) as (t & Hg & Ht). destruct (lookup_lt_is_Some_2 _ _ Hh) as [q Hq].
  unfold rwnx_txq_confirm_any. rewrite Hg, (proj2 (get_hwq_Ok s h q) Hq). cbn [mbind res_bind].
  set (t' := if pkt_pushed t =? 0 then t else _). set (q' := q <| need_processing := true |>).
  assert (Hc : exists x, t' = t <| pkt_pushed := x |>).
  { unfold t'. destruct (_ =? 0); [exists (pkt_pushed t); by destruct t | by eexists]. }
  destruct Hc as [x Hc]. rewrite Hc. set (u := t <| pkt_pushed := x |>).
  assert (Hi1 : inv (set_txq s i u)).
  { apply (inv_upd s i t u); try done. destruct (i_qs s Hi i t Ht). by split. }
  exists (set_hwq (set_txq s i u) h q'), t, u. split_and!; try done.
  - destruct Hi1 as [He Hqs Hl Hst]. split; [by rewrite env_set_hwq | intros k v; rewrite env_set_hwq; apply Hqs | | done].
    by apply (lists_rotate _ h q).
  - by rewrite env_set_hwq, env_set_txq.
  - intros k. change (qbufs s k = qbufs (set_txq s i u) k). rewrite (qbufs_set_txq s i t) by done.
    destruct (decide (k = i)) as [-> |]; [| done]. unfold qbufs. by rewrite Ht.
  - by eapply lookup_set_txq.
Qed.

(** The confirmation does not make the driver send the buffer again. *)
Definition no_retry (s : rwnx_hw) (mgmt retry : bool) (b : skb) : Prop :=
  mgmt = true \/ retry = false \/ idle s (s_txq b).

Lemma cfm_ok s down mgmt retry b h : inv s -> (s_txq b < length (txqs s))%nat -> (h < length (hwqs s))%nat ->
  no_retry s mgmt retry b -> tx_step s (rwnx_txdatacfm s down mgmt retry b h).
Proof.
  intros Hi Hlt Hh Hn. unfold rwnx_txdatacfm. destruct down; [by exists s, [EvDone b] |].
  destruct (confirm_ok s (s_txq b) h Hi Hlt Hh) as (s1 & t & t1 & -> & Hi1 & He1 & Hm1 & Ht & Ht1 & Hact).
  cbn [mbind res_bind]. rewrite (proj2 (get_txq_Ok s1 _ t1) Ht1). cbn [mbind res_bind].
  assert (Hnr : negb mgmt && active t1 && retry = false).
  { destruct Hn as [-> | [-> | (u & Hu & Hau)]]; [done | by rewrite andb_false_r |].
    assert (u = t) as -> by congruence. rewrite Hact, Hau. by rewrite andb_false_r. }
  rewrite Hnr. pose proof (i_qs s1 Hi1 _ t1 Ht1) as Hok.
  assert (Hstep : sched_step s1 (if active t1 && negb (push_limit t1 =? 0) && negb (rwnx_txq_is_full t1)
    then rwnx_txq_add_to_hw_list s1 (s_txq b) else Ok s1)).
  { destruct (active t1 && _ && _) eqn:Hb; [| by apply sched_ret]. apply andb_true_iff in Hb as [[Ha Hp]%andb_true_iff _].
    apply negb_true_iff, Z.eqb_neq in Hp. destruct (q_active _ _ _ Hok Ha) as (Hc & Hl & Hlen).
    apply (add_ok s1 (s_txq b) t1 Hi1); [done.. | | intros; lia].
    intros E. unfold len in Hlen. rewrite E in Hlen. cbn in Hlen. lia. }
  apply sched_moves in Hstep as (s2 & -> & Hi2 & He2 & Hm2). cbn [mbind res_bind].
  eexists s2, _. split_and!; [done.. | by rewrite He2 |]. intros k. rewrite (Hm1 k), (Hm2 k). cbn. by destruct mgmt.
Qed.

Lemma credit_ok s j tid : inv s -> (j < length (stas s))%nat -> sched_step s (rwnx_txq_credit_update s j tid).
Proof.
  intros Hi Hj. destruct (sta_range s j Hj) as (a & Ha & Hga). unfold rwnx_txq_credit_update. rewrite Hga.
  cbn [mbind res_bind]. pose proof (sta_get_range s j a tid (i_env s Hi) Ha) as Hlt.
  destruct (get_txq_lt s _ Hlt) as (t & -> & Ht). cbn [mbind res_bind]. destruct (active t); [| by apply sched_ret].
  destruct (_ <=? _); [by apply stop_step | by apply start_step].
Qed.

(** ** Interfaces *)

Definition bcmc_ok (s : rwnx_hw) (v : rwnx_vif) (j : nat) : Prop :=
  exists a, stas s !! j = Some a /\ is_multicast_sta (old_ic s) (sta_idx a) = true /\ vif_idx a = vif_index v.

Lemma no_owner e i h : owner_ok e i h None.
Proof. by intros j. Qed.

Lemma unk_init_ok s i st h tid : inv s -> idle s i -> reason_ok st -> (h < 4)%nat ->
  exists s', put_txq s i (rwnx_txq_init (old_ic s) i st h tid None None) = Ok s' /\ inv s' /\ env_of s' = env_of s /\
    moves s s' [].
Proof.
  intros Hi Hid Hst Hh. rewrite init_ps_id.
  destruct (put_init s i st h tid None None LEGACY_PS_ID Hi Hid Hst Hh (no_owner _ _ _)) as (s' & -> & ? & ? & ? & _).
  by exists s'.
Qed.

Lemma vif_init_ok s v j st : inv s -> reason_ok st -> bcmc_ok s v j ->
  idle s (rwnx_txq_vif_get (old_ic s) (vif_index v) NX_BCMC_TXQ_TYPE) ->
  idle s (rwnx_txq_vif_get (old_ic s) (vif_index v) NX_UNK_TXQ_TYPE) ->
  exists s', rwnx_txq_vif_init s v j st = Ok s' /\ inv s' /\ env_of s' = env_of s /\ moves s s' [].
Proof.
  intros Hi Hst (a & Ha & Hm & Hv) Hid Hidu. unfold rwnx_txq_vif_init. rewrite (proj2 (get_sta_Ok s j a) Ha).
  cbn [mbind res_bind]. set (i := rwnx_txq_vif_get _ _ NX_BCMC_TXQ_TYPE) in *. set (k := rwnx_txq_vif_get _ _ NX_UNK_TXQ_TYPE) in *.
  rewrite init_ps_id.
  destruct (put_init s i st RWNX_HWQ_BE 0 (Some a) (Some j) LEGACY_PS_ID Hi Hid Hst) as (s1 & -> & Hi1 & He1 & Hm1 & _ & Hid1);
    [unfold RWNX_HWQ_BE; lia | |].
  { intros j' [= <-]. exists (ids a). split; [by apply env_sta |]. intros _. split; [| done].
    unfold first_txq, i, rwnx_txq_vif_get, rwnx_txq_vif_idx. rewrite multicast_ids. cbn [e_old env_of]. rewrite Hm.
    cbn. rewrite Hv. lia. }
  cbn [mbind res_bind]. assert (Hne : k <> i).
  { unfold k, i, rwnx_txq_vif_get, rwnx_txq_vif_idx, NX_VIRT_DEV_MAX. cbn. lia. }
  pose proof (f_equal e_old He1) as Ho1. cbn in Ho1.
  destruct (unk_init_ok s1 k st RWNX_HWQ_VO TID_MGT Hi1 (Hid1 k Hne Hidu) Hst) as (s2 & H2 & Hi2 & He2 & Hm2);
    [unfold RWNX_HWQ_VO; lia |].
  exists s2. split_and!; [done.. | by rewrite He2 | by apply (moves_trans s s1 s2 [] [])].
Qed.

Lemma vif_queues_free s v l : inv s -> (vif_index v < NX_VIRT_DEV_MAX)%nat ->
  (forall t, mc_free s (rwnx_txq_vif_get (old_ic s) (vif_index v) t)) ->
  Forall (fun i => (i < length (txqs s))%nat /\ mc_free s i) (rwnx_txq_vif_get (old_ic s) (vif_index v) <$> l).
Proof.
  intros Hi Hv Hf. apply Forall_fmap, Forall_forall. intros t _. split; [| apply Hf]. apply vif_txq_range; [apply (i_env s Hi) | done].
Qed.

(** Only the queue of an interface can belong to a group. *)
Lemma mc_free_range s i : env_ok (env_of s) ->
  (i < NX_FIRST_VIF_TXQ_IDX (old_ic s) \/ NX_FIRST_UNK_TXQ_IDX (old_ic s) <= i)%nat -> mc_free s i.
Proof.
  intros (_ & _ & Hs) Hr j a Ha _ Hm E. rewrite Forall_lookup in Hs.
  pose proof (Hs j (ids a) (env_sta s j a Ha) Hm) as Hv. unfold first_txq in E. rewrite multicast_ids, Hm in E.
  unfold NX_FIRST_UNK_TXQ_IDX, NX_VIRT_DEV_MAX in *. cbn [ids snd] in *. lia.
Qed.

Lemma sta_deinit_ok s j a : inv s -> stas s !! j = Some a ->
  (is_multicast_sta (old_ic s) (sta_idx a) = true -> mc_free s (first_txq (old_ic s) (ids a))) ->
  tx_step s (rwnx_txq_sta_deinit s j).
Proof.
  intros Hi Ha Hf. unfold rwnx_txq_sta_deinit. rewrite (proj2 (get_sta_Ok s j a) Ha). cbn [mbind res_bind].
  apply each_deinit; [done |]. apply Forall_and. split; [eapply sta_txqs_range; [apply (i_env s Hi) | done] |].
  unfold sta_txqs. destruct (is_multicast_sta (old_ic s) (sta_idx a)) eqn:Hm.
  - rewrite first_txq_get. constructor; [by apply Hf | constructor].
  - apply Forall_forall. intros i Hin%elem_of_seq. apply mc_free_range; [apply (i_env s Hi) |]. left.
    rewrite first_txq_get in Hin. unfold first_txq in Hin. rewrite multicast_ids, Hm in Hin.
    unfold is_multicast_sta in Hm. apply Nat.leb_gt in Hm. unfold NX_FIRST_VIF_TXQ_IDX, NX_NB_TXQ_PER_STA in *.
    cbn [ids fst] in Hin. lia.
Qed.

Lemma deinit_one s i : inv s -> (i < length (txqs s))%nat -> mc_free s i -> tx_step s (rwnx_txq_deinit s i).
Proof. intros Hi Hlt Hf. destruct (deinit_step s i Hi Hlt Hf) as (s' & ev & -> & ? & ? & ? & _). by exists s', ev. Qed.

Lemma unk_free s n : env_ok (env_of s) -> mc_free s (rwnx_txq_vif_get (old_ic s) n NX_UNK_TXQ_TYPE).
Proof.
  intros He. apply mc_free_range; [done |]. right. unfold rwnx_txq_vif_get, rwnx_txq_vif_idx, NX_FIRST_UNK_TXQ_IDX, NX_VIRT_DEV_MAX.
  cbn. lia.
Qed.

Lemma offchan_free s : env_ok (env_of s) -> mc_free s (NX_OFF_CHAN_TXQ_IDX (old_ic s)).
Proof.
  intros He. apply mc_free_range; [done |]. right. unfold NX_OFF_CHAN_TXQ_IDX, NX_FIRST_UNK_TXQ_IDX, NX_VIRT_DEV_MAX. lia.
Qed.

End Ops.

(** ** Runs of the driver *)

Inductive op :=
| OXmit (b : skb) | OTasklet
| OVifStart (v : rwnx_vif) (r : Z) | OVifStop (v : rwnx_vif) (r : Z)
| OTdlsStart (v : rwnx_vif) (r : Z) | OTdlsStop (v : rwnx_vif) (r : Z) | OOffStart
| OStaInit (j : nat) (st : Z) | OStaDeinit (j : nat)
| OVifInit (v : rwnx_vif) (bcmc : nat) (st : Z) | OVifDeinit (v : rwnx_vif)
| OUnkInit (v : rwnx_vif) | OUnkDeinit (v : rwnx_vif) | OOffInit | OOffDeinit
| OPs (j : nat) (enable : bool) | OTraffic (j : nat) (req : Z) (p : psid)
| OConfirm (down mgmt retry : bool) (b : skb) (h : nat) | OCredit (j tid : nat).

Definition quiet (m : res rwnx_hw) : res (rwnx_hw * list event) := s ← m; Ok (s, []).

Definition step (s : rwnx_hw) (o : op) : res (rwnx_hw * list event) :=
  match o with
  | OXmit b => xmit s b
  | OTasklet => rwnx_hwq_process_all s
  | OVifStart v r => quiet (rwnx_txq_vif_start s v r)
  | OVifStop v r => quiet (rwnx_txq_vif_stop s v r)
  | OTdlsStart v r => quiet (rwnx_txq_tdls_sta_start s v r)
  | OTdlsStop v r => quiet (rwnx_txq_tdls_sta_stop s v r)
  | OOffStart => quiet (rwnx_txq_offchan_start s)
  | OStaInit j st => quiet (rwnx_txq_sta_init s j st)
  | OStaDeinit j => rwnx_txq_sta_deinit s j
  | OVifInit v bcmc st => quiet (rwnx_txq_vif_init s v bcmc st)
  | OVifDeinit v => rwnx_txq_vif_deinit s v
  | OUnkInit v => quiet (rwnx_txq_unk_vif_init s v)
  | OUnkDeinit v => rwnx_txq_unk_vif_deinit s v
  | OOffInit => quiet (rwnx_txq_offchan_init s)
  | OOffDeinit => rwnx_txq_offchan_deinit s
  | OPs j e => rwnx_ps_bh_enable s j e
  | OTraffic j n p => quiet (r ← rwnx_ps_bh_traffic_req s j n p; Ok r.1)
  | OConfirm d m rt b h => rwnx_txdatacfm s d m rt b h
  | OCredit j tid => quiet (rwnx_txq_credit_update s j tid)
  end.

(** What the callers guarantee.  The last clause of each power-save operation
    only matters with [pol]. *)
Definition valid (pol : bool) (s : rwnx_hw) (o : op) : Prop :=
  match o with
  | OXmit b => skb_ok s b
  | OTasklet | OOffStart | OOffDeinit => True
  | OVifStart v r | OVifStop v r | OTdlsStart v r | OTdlsStop v r => vif_ok (length (stas s)) v /\ reason_ok r
  | OStaInit j st => sta_idle s j /\ reason_ok st
  | OStaDeinit j => exists a, stas s !! j = Some a /\
      (is_multicast_sta (old_ic s) (sta_idx a) = true -> mc_free s (first_txq (old_ic s) (ids a)))
  | OVifInit v j st => bcmc_ok s v j /\ reason_ok st /\
      idle s (rwnx_txq_vif_get (old_ic s) (vif_index v) NX_BCMC_TXQ_TYPE) /\
      idle s (rwnx_txq_vif_get (old_ic s) (vif_index v) NX_UNK_TXQ_TYPE)
  | OVifDeinit v => (vif_index v < NX_VIRT_DEV_MAX)%nat /\
      mc_free s (rwnx_txq_vif_get (old_ic s) (vif_index v) NX_BCMC_TXQ_TYPE)
  | OUnkInit v => idle s (rwnx_txq_vif_get (old_ic s) (vif_index v) NX_UNK_TXQ_TYPE)
  | OUnkDeinit v => (vif_index v < NX_VIRT_DEV_MAX)%nat
  | OOffInit => idle s (NX_OFF_CHAN_TXQ_IDX (old_ic s))
  | OPs j e => (j < length (stas s))%nat /\ group_ok s j /\ (e = false -> calm_sta (pol := pol) s j)
  | OTraffic j n p => (j < length (stas s))%nat /\ 0 <= n < 2 ^ 16 /\
      (p = UAPSD_ID -> n = PS_SP_INTERRUPTED -> calm_sta (pol := pol) s j)
  | OConfirm d m rt b h => (s_txq b < length (txqs s))%nat /\ (h < length (hwqs s))%nat /\ no_retry s m rt b
  | OCredit j tid => (j < length (stas s))%nat
  end.

(** The buffers that enter a queue. *)
Definition enters (s : rwnx_hw) (o : op) : list skb :=
  match o with
  | OXmit b => match txqs s !! s_txq b with Some t => if active t then [b] else [] | None => [] end
  | _ => []
  end.

(** An operation that succeeds, keeps the invariant and moves every queue on. *)
Definition op_step (pol : bool) (s : rwnx_hw) (o : op) : Prop :=
  exists s' ev, step s o = Ok (s', ev) /\ inv pol s' /\ env_of s' = env_of s /\
    forall k, qbufs s k ++ (enters s o ≫= own k) = left k ev ++ qbufs s' k.

Lemma op_tx pol s o m : step s o = m -> enters s o = [] -> tx_step pol s m -> op_step pol s o.
Proof.
  intros <- He (s' & ev & H & Hi & Henv & Hm). exists s', ev. rewrite He. split_and!; [done.. |].
  intros k. cbn. by rewrite app_nil_r.
Qed.

Lemma op_quiet pol s o m : step s o = quiet m -> enters s o = [] ->
  (exists s', m = Ok s' /\ inv pol s' /\ env_of s' = env_of s /\ moves s s' []) -> op_step pol s o.
Proof.
  intros Hs He (s' & -> & Hi & Henv & Hm). apply (op_tx pol s o _ Hs He). exists s', []. done.
Qed.

Lemma op_sched pol s o m : step s o = quiet m -> enters s o = [] -> sched_step pol s m -> op_step pol s o.
Proof. intros Hs He H. apply (op_quiet pol s o m Hs He). by apply sched_moves. Qed.

Lemma tdls_start_step pol s v r : inv pol s -> reason_ok r -> vif_ok (length (stas s)) v ->
  sched_step pol s (rwnx_txq_tdls_sta_start s v r).
Proof.
  intros Hi Hr Hv. unfold rwnx_txq_tdls_sta_start. destruct (tdls_sta v) as [j|] eqn:Hj; [| by apply sched_ret].
  apply sta_start_step; [done.. |]. by eapply v_tdls.
Qed.

Lemma tdls_stop_step pol s v r : inv pol s -> reason_ok r -> vif_ok (length (stas s)) v ->
  sched_step pol s (rwnx_txq_tdls_sta_stop s v r).
Proof.
  intros Hi Hr Hv. unfold rwnx_txq_tdls_sta_stop. destruct (tdls_sta v) as [j|] eqn:Hj; [| by apply sched_ret].
  apply sta_stop_step; [done.. |]. intros k [= <-]. by eapply v_tdls.
Qed.

Lemma process_all_ok pol s : inv pol s ->
  exists s' ev, rwnx_hwq_process_all s = Ok (s', ev) /\ passes pol s (length (hwqs s)) s' ev.
Proof. intros Hi. by apply process_from_ok. Qed.

Lemma xmit_op pol s b : inv pol s -> skb_ok s b -> op_step pol s (OXmit b).
Proof.
  intros Hi Hb. destruct (xmit_ok s b Hi Hb) as (s' & ev & H & Hi' & He & Hk). exists s', ev. split_and!; [done.. |].
  intros k. rewrite <- Hk. f_equal. unfold accepted. cbn. destruct (txqs s !! s_txq b) as [t|]; [| done].
  destruct (active t); [| done]. cbn. unfold own. rewrite app_nil_r.
  destruct (Nat.eqb_spec (s_txq b) k), (decide (s_txq b = k)); done.
Qed.

Lemma vif_deinit_op pol s v : inv pol s -> (vif_index v < NX_VIRT_DEV_MAX)%nat ->
  mc_free s (rwnx_txq_vif_get (old_ic s) (vif_index v) NX_BCMC_TXQ_TYPE) -> tx_step pol s (rwnx_txq_vif_deinit s v).
Proof.
  intros Hi Hv Hf. apply each_deinit; [done |]. pose proof (i_env s Hi).
  constructor; [split; [by apply vif_txq_range | done] |]. constructor; [| constructor].
  split; [by apply vif_txq_range | by apply unk_free].
Qed.

Lemma step_ok pol s o : inv pol s -> valid pol s o -> op_step pol s o.
Proof.
  intros Hi Hv. pose proof (i_env s Hi) as He. destruct o; cbn in Hv.
  - by apply xmit_op.
  - eapply op_tx; [done.. |]. destruct (process_all_ok pol s Hi) as (s' & ev & H & []). by exists s', ev.
  - destruct Hv. eapply op_sched; [done.. |]. by apply vif_start_step.
  - destruct Hv. eapply op_sched; [done.. |]. by apply vif_stop_step.
  - destruct Hv. eapply op_sched; [done.. |]. by apply tdls_start_step.
  - destruct Hv. eapply op_sched; [done.. |]. by apply tdls_stop_step.
  - eapply op_sched; [done.. |]. apply start_step; [done | by split | apply He].
  - destruct Hv. eapply op_quiet; [done.. |]. by apply sta_init_ok.
  - eapply op_tx; [done.. |]. destruct Hv as (a & Ha & Hf). by apply (sta_deinit_ok s j a).
  - destruct Hv as (Hb & Hst & H1 & H2). eapply op_quiet; [done.. |]. by apply vif_init_ok.
  - destruct Hv as [Hv Hf]. eapply op_tx; [done.. |]. by apply vif_deinit_op.
  - eapply op_quiet; [done.. |]. apply unk_init_ok; [done.. | by split | unfold RWNX_HWQ_VO; lia].
  - eapply op_tx; [done.. |]. apply deinit_one; [done | by apply vif_txq_range | by apply unk_free].
  - eapply op_quiet; [done.. |]. apply unk_init_ok; [done.. | by split | unfold RWNX_HWQ_VO; lia].
  - eapply op_tx; [done.. |]. apply deinit_one; [done | apply He | by apply offchan_free].
  - destruct Hv as (Hj & Hg & Hc). eapply op_tx; [done.. |]. destruct enable; [by apply ps_enable_ok |].
    apply ps_disable_ok; auto.
  - destruct Hv as (Hj & Hn & Hc). eapply op_quiet; [done.. |].
    destruct (traffic_ok s j req p Hi Hj Hn Hc) as (s' & b & -> & Hr). by exists s'.
  - destruct Hv as (Hb & Hh & Hn). eapply op_tx; [done.. |]. by apply cfm_ok.
  - eapply op_sched; [done.. |]. by apply credit_ok.
Qed.

Inductive run (pol : bool) : rwnx_hw -> list op -> rwnx_hw -> list skb -> list event -> Prop :=
| run_nil s : run pol s [] s [] []
| run_cons s o s1 e1 l s2 acc e2 :
    valid pol s o -> step s o = Ok (s1, e1) -> run pol s1 l s2 acc e2 ->
    run pol s (o :: l) s2 (enters s o ++ acc) (e1 ++ e2).

Lemma txq_run_inv pol s l s' acc ev : run pol s l s' acc ev -> inv pol s ->
  inv pol s' /\ env_of s' = env_of s /\ forall k, qbufs s k ++ (acc ≫= own k) = left k ev ++ qbufs s' k.
Proof.
  induction 1 as [s | s o s1 e1 l s2 acc e2 Hv Hs _ IH]; intros Hi.
  - split_and!; [done.. |]. intros k. cbn. by rewrite app_nil_r.
  - destruct (step_ok pol s o Hi Hv) as (s1' & e1' & Hs' & Hi1 & He1 & Hk1). rewrite Hs in Hs'. injection Hs' as <- <-.
    destruct (IH Hi1) as (Hi2 & He2 & Hk2). split_and!; [done | by rewrite He2 |].
    intros k. rewrite bind_app, app_assoc, Hk1, <- app_assoc, Hk2, left_app. by rewrite app_assoc.
Qed.

(** ** The start of the driver *)

Definition NX_NB_TXQ : nat := 297.

Record fresh (old : bool) (a : rwnx_sta) : Prop := {
  f_awake : ps_active a = false;
  f_counts : sta_ok a;
  f_group : is_multicast_sta old (sta_idx a) = true -> (vif_idx a < NX_VIRT_DEV_MAX)%nat }.

Lemma txq_init_inv pol old l : Forall (fresh old) l -> inv pol (hw_init old NX_NB_TXQ l).
Proof.
  intros Hl. rewrite Forall_lookup in Hl.
  assert (Ht : forall i t, txqs (hw_init old NX_NB_TXQ l) !! i = Some t -> t = inactive_txq).
  { intros i t H. unfold hw_init in H. cbn [txqs] in H. by apply lookup_replicate in H as [-> _]. }
  split.
  - split_and!.
    + unfold env_of, hw_init. cbn [e_old e_ntx txqs old_ic]. rewrite length_replicate. destruct old; vm_compute; lia.
    + done.
    + apply Forall_lookup. intros j d Hd Hm. unfold env_of, hw_init in Hd. cbn [e_sta stas] in Hd.
      apply list_lookup_fmap_Some in Hd as (a & -> & Ha). by apply (Hl j a Ha).
  - intros i t H. rewrite (Ht i t H). split; try done. cbn. lia.
  - intros h q Hq. unfold hw_init in Hq. cbn [hwqs] in Hq. unfold rwnx_hwq_init in Hq.
    apply list_lookup_fmap_Some in Hq as (n & -> & _). cbn. split; [constructor |]. intros i. split; [by intros ?%elem_of_nil |].
    intros (t & H & Hs & _). by rewrite (Ht i t H) in Hs.
  - intros j a Ha. destruct (Hl j a Ha) as [H1 H2 _]. split; [done |]. intros Hp. congruence.
Qed.

End TxqOps.
