(* ===== verification/TxqRuns.v ===== *)
(** * Runs of the transmit queues

    The properties of the transmit queues over whole runs of the driver from
    its start: nothing faults, no buffer is lost or overtaken, every listed
    queue is served, a stopped queue sends only its service period, a request
    is shared by priority; and what the code does when a service period is
    interrupted, when the firmware asks for retries, and with leftovers. *)

From stdpp Require Import prelude.
From S2P Require Import Prelude Txq TxqInv TxqServe TxqOps.
Open Scope Z_scope.

Module TxqRuns.
Import Txq TxqInv TxqServe TxqOps.

Section Run.
Context (pol old : bool) (tab : list rwnx_sta).
Hypothesis Hfresh : Forall (fresh old) tab.

Definition start : rwnx_hw := hw_init old NX_NB_TXQ tab.

Lemma run_start l s acc ev : run pol start l s acc ev ->
  inv pol s /\ forall k, acc ≫= own k = left k ev ++ qbufs s k.
Proof.
  intros Hrun. destruct (txq_run_inv pol start l s acc ev Hrun) as (Hi & _ & Hk); [by apply txq_init_inv |].
  split; [done |]. intros k. rewrite <- Hk. unfold qbufs, start, hw_init. cbn [txqs].
  destruct (replicate _ _ !! k) as [t|] eqn:E; [| done]. by apply lookup_replicate in E as [-> _].
Qed.
End Run.

(** C4. From the start of the driver any run of transmissions, tasklets, starts, stops,
    set-ups, tear-downs, power-save changes, service-period requests and confirmations
    without firmware retries keeps the invariant (a queue is in the list of its hardware
    queue exactly once iff it is marked as scheduled, it is then in use and holds
    buffers, service periods never exceed the credits or the buffers, the counters of
    sleeping groups are those of their queue), and every further such operation
    completes: no BUG_ON fires and no loop runs on. *)
Theorem txq_run_never_faults pol old tab l s acc ev :
  Forall (fresh old) tab -> run pol (start old tab) l s acc ev ->
  inv pol s /\ forall o, valid pol s o -> res_ok (step s o).
Proof.
  intros Hf Hrun. destruct (run_start pol old tab Hf l s acc ev Hrun) as [Hi _]. split; [done |]. intros o Hv.
  destruct (step_ok pol s o Hi Hv) as (s' & e & -> & _). by eexists.
Qed.

(** C5. Over such a run the buffers accepted for a queue are, in order, those that have
    left it (pushed to the bus or flushed at its end) followed by those it still holds:
    no buffer is lost, doubled or overtaken. *)
Theorem txq_fifo pol old tab l s acc ev k :
  Forall (fresh old) tab -> run pol (start old tab) l s acc ev ->
  acc ≫= own k = left k ev ++ qbufs s k.
Proof. intros Hf Hrun. by apply (run_start pol old tab Hf l s acc ev Hrun). Qed.

(** In every state such a run reaches the tasklet completes and pushes at least one
    buffer of every queue in the list of a hardware queue that needs processing, however
    the lists are rotated meanwhile. *)
Theorem txq_tasklet_serves pol old tab l s acc ev :
  Forall (fresh old) tab -> run pol (start old tab) l s acc ev ->
  exists s' ev', rwnx_hwq_process_all s = Ok (s', ev') /\
    forall h q k, hwqs s !! h = Some q -> need_processing q = true -> k ∈ h_list q -> left k ev' <> [].
Proof.
  intros Hf Hrun. destruct (run_start pol old tab Hf l s acc ev Hrun) as [Hi _].
  destruct (process_all_ok pol s Hi) as (s' & e & H & []). exists s', e. split; [done |].
  intros h q k Hq. apply (ps_served0 h q k); [by eapply lookup_lt_Some | done].
Qed.

(** When no service period is interrupted and no station wakes up while a stopped
    queue of it is listed, the tasklet pushes of a stopped queue (sleeping station,
    absent interface, other channel) at most the buffers of its service period, and none
    when it has no period. *)
Theorem txq_stopped_sends_its_period old tab l s acc ev s' ev' k t :
  Forall (fresh old) tab -> run true (start old tab) l s acc ev ->
  rwnx_hwq_process_all s = Ok (s', ev') -> txqs s !! k = Some t -> active t = true ->
  rwnx_txq_is_stopped t = true -> Z.of_nat (length (left k ev')) <= push_limit t.
Proof.
  intros Hf Hrun Hp Ht Ha Hst. destruct (run_start true old tab Hf l s acc ev Hrun) as [Hi _].
  destruct (process_all_ok true s Hi) as (s1 & e & H & []). rewrite Hp in H. injection H as <- <-.
  destruct (decide (0 < push_limit t)) as [Hl | Hl]; [by apply (ps_limit0 k t) |].
  pose proof (i_qs s Hi k t Ht) as Hok. destruct (q_active _ _ _ Hok Ha) as (_ & [Hn _] & _).
  assert (Hu : unlisted s (length (hwqs s)) k).
  { intros h q _ Hq Hin. apply (i_lists s Hi h q Hq) in Hin as (u & Hu & Hs & _). assert (u = t) as -> by congruence.
    destruct (q_live _ _ _ Hok Hs) as (_ & _ & Hlive). specialize (Hlive eq_refl Hst). lia. }
  destruct (ps_other0 k Hu) as [-> _]. cbn. lia.
Qed.

(** A request for a sleeping station without a running service period is shared
    among its data queues of that power-save type in the order of nx_tid_prio: each gets
    the minimum of what is left of the request and of its buffers and credits, a queue
    that gets nothing and every other queue keep their limits, and sp_cnt becomes the
    minimum of the request (all buffers if 0 or too large) and what the queues can give.
    *)
Theorem traffic_req_shares_by_priority pol old tab l s acc ev j a req p :
  Forall (fresh old) tab -> run pol (start old tab) l s acc ev ->
  stas s !! j = Some a -> ps_active a = true -> is_multicast_sta (old_ic s) (sta_idx a) = false ->
  0 <= req < 2 ^ 16 -> (req =? PS_SP_INTERRUPTED) && bool_decide (p = UAPSD_ID) = false ->
  sp_cnt a p = 0 -> 0 < pkt_ready a p ->
  let I := prio_txqs (old_ic s) a in
  let av := avail_at s p <$> I in
  let want := wanted req (pkt_ready a p) in
  exists s' a', rwnx_ps_bh_traffic_req s j req p = Ok (s', true) /\
    limit s' <$> I = zip_with regrant (grants av want) (limit s <$> I) /\
    (forall i, i ∉ I -> limit s' i = limit s i) /\
    stas s' !! j = Some a' /\ sp_cnt a' p = Z.min want (total av).
Proof.
  intros Hf Hrun Ha Hps Hm Hr Hint Hsp Hrd I av want.
  destruct (run_start pol old tab Hf l s acc ev Hrun) as [Hi _].
  destruct (traffic_unicast s j a req p Hi Ha Hr Hps Hint Hm Hsp Hrd) as (s' & Hs & []). exists s'.
  eexists. split_and!; [done.. |]. pose proof (ready_range a p (proj1 (i_stas s Hi j a Ha))).
  assert (Hw : 0 < want <= pkt_ready a p) by (by eapply wanted_range).
  assert (Hav : Forall (fun n => 0 <= n) av).
  { apply Forall_fmap, Forall_forall. intros i _. cbn. unfold avail_at. destruct (txqs s !! i) as [u|] eqn:Hu; [| done].
    by apply (avail_range (pol := pol) (env_of s) i), (i_qs s Hi). }
  assert (E : sp_cnt (set_sp a p (sp_cnt a p + total (grants av want))) p = u16 (total (grants av want)))
    by (rewrite Hsp; by destruct a, p).
  fold I av want. rewrite E. unfold total at 1. rewrite grants_sum by (done || lia).
  assert (0 <= foldr Z.add 0 av) by (clear -Hav; induction Hav; cbn; lia). apply u16_id. unfold total. lia.
Qed.

(** ** Where the code falls short *)

Lemma each_clear_frame l : forall s s', each clear_limit s l = Ok s' ->
  hwqs s' = hwqs s /\ (forall i, limit s i = 0 -> limit s' i = 0) /\ (forall i, i ∈ l -> limit s' i = 0).
Proof.
  induction l as [|i l IH]; intros s s' H; cbn [each] in H.
  - injection H as <-. split_and!; try done. by intros i ?%elem_of_nil.
  - apply bind_Ok in H as (s1 & H1 & H). unfold clear_limit in H1. apply bind_Ok in H1 as (t & Ht & H1).
    apply get_txq_Ok in Ht. injection H1 as <-. destruct (IH _ _ H) as (Hh & Hz & Hl).
    assert (Hi : limit (set_txq s i (t <| push_limit := 0 |>)) i = 0).
    { unfold limit. by erewrite lookup_set_txq. }
    split_and!; [done | |].
    + intros k Hk. apply Hz. unfold limit, set_txq in *. cbn. destruct (decide (k = i)) as [-> |].
      * by rewrite list_lookup_insert_eq by (by eapply lookup_lt_Some).
      * by rewrite list_lookup_insert_ne.
    + intros k [-> | Hk]%elem_of_cons; [by apply Hz | by apply Hl].
Qed.

(** PS_SP_INTERRUPTED clears the limits of a sleeping station but leaves its queues
    in the lists, so the tasklet still pushes their buffers, now bounded by the credits
    only. *)
Theorem interrupted_period_still_sends old tab l s acc ev j a i h q :
  Forall (fresh old) tab -> run false (start old tab) l s acc ev ->
  stas s !! j = Some a -> ps_active a = true -> i ∈ sta_txqs (old_ic s) a ->
  hwqs s !! h = Some q -> need_processing q = true -> i ∈ h_list q ->
  exists s1 s2 e2, rwnx_ps_bh_traffic_req s j PS_SP_INTERRUPTED UAPSD_ID = Ok (s1, false) /\ limit s1 i = 0 /\
    rwnx_hwq_process_all s1 = Ok (s2, e2) /\ left i e2 <> [].
Proof.
  intros Hf Hrun Ha Hps Hin Hq Hn Hl. destruct (run_start false old tab Hf l s acc ev Hrun) as [Hi _].
  destruct (traffic_ok s j PS_SP_INTERRUPTED UAPSD_ID Hi) as (s1 & b & Hr & Hi1 & _);
    [by eapply lookup_lt_Some | unfold PS_SP_INTERRUPTED; lia | by intros _ _ a' _; apply Forall_forall; intros ? _ |].
  unfold rwnx_ps_bh_traffic_req in Hr. rewrite (proj2 (get_sta_Ok s j a) Ha) in Hr. cbn [mbind res_bind] in Hr.
  rewrite Hps in Hr. cbn [negb Z.eqb andb] in Hr. rewrite bool_decide_eq_true_2, Z.eqb_refl in Hr by done. cbn [andb] in Hr.
  pose proof Hr as Hr'. apply bind_Ok in Hr' as (s1' & Hc & [= -> <-]). destruct (each_clear_frame _ _ _ Hc) as (Hh & _ & Hz).
  destruct (process_all_ok false s1 Hi1) as (s2 & e2 & Hp & []). exists s1, s2, e2. split_and!.
  - unfold rwnx_ps_bh_traffic_req. rewrite (proj2 (get_sta_Ok s j a) Ha). cbn [mbind res_bind]. rewrite Hps.
    cbn [negb]. by rewrite Z.eqb_refl, bool_decide_eq_true_2 by done.
  - by apply Hz.
  - done.
  - apply (ps_served0 h q i); [rewrite Hh; by eapply lookup_lt_Some | by rewrite Hh | done..].
Qed.

(** The management queue of a sleeping station counts in pkt_ready but is not in
    nx_tid_prio: when only it holds buffers a request gives no queue a service period.
    *)
Theorem mgmt_frames_get_no_period pol old tab l s acc ev j a req p :
  Forall (fresh old) tab -> run pol (start old tab) l s acc ev ->
  stas s !! j = Some a -> ps_active a = true -> is_multicast_sta (old_ic s) (sta_idx a) = false ->
  0 <= req < 2 ^ 16 -> (req =? PS_SP_INTERRUPTED) && bool_decide (p = UAPSD_ID) = false ->
  sp_cnt a p = 0 -> 0 < pkt_ready a p ->
  Forall (fun tid => qbufs s (rwnx_txq_sta_get (old_ic s) a tid) = []) nx_tid_prio ->
  exists s' a', rwnx_ps_bh_traffic_req s j req p = Ok (s', true) /\ (forall i, limit s' i = limit s i) /\
    stas s' !! j = Some a' /\ sp_cnt a' p = 0.
Proof.
  intros Hf Hrun Ha Hps Hm Hr Hint Hsp Hrd He. destruct (run_start pol old tab Hf l s acc ev Hrun) as [Hi _].
  destruct (traffic_unicast s j a req p Hi Ha Hr Hps Hint Hm Hsp Hrd) as (s' & Hs & []).
  set (I := prio_txqs (old_ic s) a) in *.
  assert (Hav : forall i, i ∈ I -> avail_at s p i = 0).
  { intros i (tid & -> & Htid)%list_elem_of_fmap. rewrite Forall_forall in He. specialize (He tid Htid).
    unfold avail_at. unfold qbufs in He. destruct (txqs s !! _) as [u|] eqn:Hu; [| done].
    pose proof (credits_nonneg _ _ _ (i_qs s Hi _ u Hu)). unfold avail, len. rewrite He. destruct (decide _); [| done].
    change (u16 (Z.of_nat (length []))) with 0. lia. }
  assert (HG : grants (avail_at s p <$> I) (wanted req (pkt_ready a p)) = replicate (length I) 0).
  { assert (Hw : 0 < wanted req (pkt_ready a p) <= pkt_ready a p) by (by eapply wanted_range).
    revert Hw. clear -Hav. generalize (wanted req (pkt_ready a p)). induction I as [|i I IH]; intros w Hw; [done |].
    cbn. rewrite (Hav i), Z.min_l, Z.sub_0_r by (set_solver || lia). f_equal. apply IH; [| done]. set_solver. }
  rewrite HG in h_limits0, h_sp0.
  assert (Ht : total (replicate (length I) 0) = 0) by (clear; induction (length I); [done | cbn; unfold total in *; lia]).
  rewrite Ht, (set_sp_id a p (proj1 (i_stas s Hi j a Ha))) in h_sp0. exists s', a. split_and!; try done.
  intros i. destruct (decide (i ∈ I)) as [Hin | Hin]; [| by apply h_rest0].
  assert (E : zip_with regrant (replicate (length I) 0) (limit s <$> I) = limit s <$> I)
    by (clear; induction I; [done | cbn; by f_equal]).
  rewrite E in h_limits0. apply list_elem_of_lookup in Hin as [n Hn].
  assert (X : (limit s' <$> I) !! n = (limit s <$> I) !! n) by by rewrite h_limits0.
  rewrite !list_lookup_fmap, Hn in X. cbn in X. by injection X.
Qed.

Lemma process_from_idle n s :
  (forall h q, hwqs s !! h = Some q -> need_processing q = false) -> (n <= length (hwqs s))%nat ->
  process_from s n = Ok (s, []).
Proof.
  intros Hn. induction n as [|n IH]; intros Hl; cbn [process_from]; [done |].
  destruct (lookup_lt_is_Some_2 (hwqs s) n) as [q Hq]; [lia |]. rewrite (proj2 (get_hwq_Ok s n q) Hq).
  cbn [mbind res_bind]. rewrite (Hn n q Hq). cbn [mbind res_bind fst snd]. by rewrite IH by lia.
Qed.

(** A single listed queue with more buffers than credits is served once: exactly
    its credits are pushed, the rest stays, and as need_processing is clear every later
    tasklet pushes nothing until another event marks the hardware queue. *)
Theorem leftovers_wait pol old tab l s acc ev h q k t :
  Forall (fresh old) tab -> run pol (start old tab) l s acc ev ->
  hwqs s !! h = Some q -> h_list q = [k] -> txqs s !! k = Some t -> push_limit t = 0 -> credits t < len t ->
  (forall h' q', h' <> h -> hwqs s !! h' = Some q' -> need_processing q' = false) ->
  exists s' ev', rwnx_hwq_process s h = Ok (s', ev') /\ Z.of_nat (length (left k ev')) = credits t /\
    qbufs s' k <> [] /\ rwnx_hwq_process_all s' = Ok (s', []).
Proof.
  intros Hf Hrun Hq Hl Ht Hp Hc Hother. destruct (run_start pol old tab Hf l s acc ev Hrun) as [Hi _].
  unfold rwnx_hwq_process. rewrite (proj2 (get_hwq_Ok s h q) Hq). cbn [mbind res_bind].
  set (q' := q <| need_processing := false |>). set (s0 := set_hwq s h q').
  assert (Hi0 : inv pol s0).
  { destruct Hi as [He Hqs Hls Hst]. split; [by unfold s0; rewrite env_set_hwq | | | done].
    - intros i u. unfold s0. rewrite env_set_hwq. apply Hqs.
    - by apply (lists_rotate s h q). }
  assert (Hq0 : hwqs s0 !! h = Some q') by (apply list_lookup_insert_eq; by eapply lookup_lt_Some).
  assert (Hin : k ∈ h_list q') by (change (k ∈ h_list q); rewrite Hl; set_solver).
  destruct (serve_ok s0 h k t q' Hi0 Hq0 Hin Ht) as (s1 & e1 & t1 & q1 & Hs & Ha & Hev).
  assert (Hw : exists n, work s = S n).
  { assert (H : (nbufs s1 < nbufs s)%nat) by (by eapply (turn_nbufs s0)).
    assert (nbufs s <= work s)%nat by (unfold nbufs, work; lia). exists (pred (work s)). lia. }
  destruct Hw as [n ->]. rewrite Hl. cbn [head hwq_loop]. rewrite (proj2 (get_hwq_Ok s0 h q') Hq0), Hs.
  cbn [mbind res_bind fst snd]. change (h_list q') with (h_list q). rewrite Hl. cbn [next_of]. rewrite Nat.eqb_refl.
  destruct Ha. destruct (listed_queue s0 h k t q' Hi0 Hq0 Hin Ht) as (_ & _ & Hact & _).
  assert (Hquota : quota t = Z.to_nat (credits t)) by (unfold quota, rwnx_txq_get_credits; by rewrite Hp).
  destruct (q_active _ _ _ (i_qs s Hi k t Ht) Hact) as (Hcr & _). unfold len in Hc.
  exists s1, e1. split_and!.
  - destruct n; cbn [hwq_loop head mbind res_bind fst snd]; by rewrite app_nil_r.
  - rewrite Hev, decide_True, length_take, Hquota by done. lia.
  - unfold qbufs. rewrite a_txqs0, list_lookup_insert_eq, a_list0, Hquota by (by eapply lookup_lt_Some).
    intros E. apply (f_equal length) in E. rewrite length_drop in E. cbn in E. lia.
  - apply process_from_idle; [| done]. intros h' x Hx. rewrite a_hwqs0 in Hx.
    apply list_lookup_insert_Some in Hx as [(-> & -> & _)|[Hne Hx]]; [done |].
    unfold s0, set_hwq in Hx. cbn in Hx. rewrite list_lookup_insert_ne in Hx by done. by eapply Hother.
Qed.

(** ** A station in power save *)

(** Running a list of operations. *)
Fixpoint exec (s : rwnx_hw) (l : list op) : res rwnx_hw :=
  match l with [] => Ok s | o :: l => r ← step s o; exec r.1 l end.

Definition exec_end (s : rwnx_hw) (l : list op) : rwnx_hw := match exec s l with Ok s' => s' | _ => s end.

Definition demo_sta : rwnx_sta := StaT 0 0 0 false 0 0 0 0.
Definition demo_skb (n : nat) : skb := Skb n 0 (Some 0%nat).
Definition demo_start : rwnx_hw := start true [demo_sta].

(** One frame is sent, the station falls asleep, two frames are queued, one is
    requested. *)
Definition demo_sleep : list op :=
  [OStaInit 0 0; OXmit (demo_skb 1); OPs 0 true; OXmit (demo_skb 2); OXmit (demo_skb 3)].
Definition demo_period : list op := demo_sleep ++ [OTraffic 0 1 LEGACY_PS_ID].
(** A management frame for a sleeping station. *)
Definition demo_mgmt : list op := [OStaInit 0 0; OPs 0 true; OXmit (Skb 4 8 (Some 0%nat))].
(** Seventy frames are queued before the station wakes up. *)
Definition demo_wake : list op :=
  [OStaInit 0 0; OPs 0 true] ++ (OXmit ∘ demo_skb <$> seq 0 70) ++ [OPs 0 false].

Lemma demo_fresh : Forall (fresh true) [demo_sta].
Proof. constructor; [| constructor]. split; [done | vm_compute; intuition congruence | by vm_compute]. Qed.

Ltac by_value := vm_compute; reflexivity.

Ltac valid_op :=
  match goal with
  | |- valid _ _ (OStaInit _ _) =>
      split; [eexists; split; [by_value | vm_compute; repeat constructor; eexists; split; by_value]
             | split; [unfold is_byte; lia | by_value]]
  | |- valid _ _ (OXmit _) => eexists; split; by_value
  | |- valid _ _ (OPs _ _) =>
      split_and!; [vm_compute; lia | intros ? [= <-] H; vm_compute in H; discriminate | intros H H'; try discriminate]
  | |- valid _ _ (OTraffic _ _ _) => split_and!; [vm_compute; lia | lia | lia | intros; discriminate]
  end.

Ltac run_demo := repeat (eapply run_cons; [valid_op | by_value |]).

Lemma run_end pol s s' : s = s' -> run pol s [] s' [] [].
Proof. intros ->. constructor. Qed.

Lemma run_app pol s l1 s1 a1 e1 l2 s2 a2 e2 : run pol s l1 s1 a1 e1 -> run pol s1 l2 s2 a2 e2 ->
  run pol s (l1 ++ l2) s2 (a1 ++ a2) (e1 ++ e2).
Proof.
  induction 1 as [| s o s1 e1 l s2' acc e2' Hv Hs _ IH]; intros H2; [done |]. cbn. rewrite <- !app_assoc.
  econstructor; [done.. | by apply IH].
Qed.

Lemma demo_sleep_run pol : exists acc ev, run pol demo_start demo_sleep (exec_end demo_start demo_sleep) acc ev.
Proof. eexists _, _. unfold demo_sleep at 1. run_demo. apply run_end. by_value. Qed.

Lemma demo_period_run pol : exists acc ev, run pol demo_start demo_period (exec_end demo_start demo_period) acc ev.
Proof. eexists _, _. unfold demo_period at 1, demo_sleep. cbn [app]. run_demo. apply run_end. by_value. Qed.

Lemma demo_mgmt_run pol : exists acc ev, run pol demo_start demo_mgmt (exec_end demo_start demo_mgmt) acc ev.
Proof. eexists _, _. unfold demo_mgmt at 1. run_demo. apply run_end. by_value. Qed.

(** Frames whose queues are checked by computation. *)
Definition skb_okb (s : rwnx_hw) (b : skb) : bool :=
  match txqs s !! s_txq b with Some t => bool_decide (s_sta b = t_sta t) | None => false end.

Fixpoint xmits_ok (s : rwnx_hw) (l : list skb) : bool :=
  match l with
  | [] => true
  | b :: l => skb_okb s b && match step s (OXmit b) with Ok r => xmits_ok r.1 l | _ => false end
  end.

Lemma xmits_exec l : forall s, xmits_ok s l = true -> exists x, exec s (OXmit <$> l) = Ok x.
Proof.
  induction l as [|b l IH]; intros s H; [by eexists |]. cbn [fmap list_fmap exec xmits_ok] in *.
  apply andb_true_iff in H as [_ H]. destruct (step s (OXmit b)) as [r | |]; [by apply IH | done..].
Qed.

Lemma xmits_run pol l : forall s, xmits_ok s l = true ->
  exists acc ev, run pol s (OXmit <$> l) (exec_end s (OXmit <$> l)) acc ev.
Proof.
  unfold exec_end. induction l as [|b l IH]; intros s H; cbn [fmap list_fmap exec]; [by eexists _, _; constructor |].
  cbn [xmits_ok] in H. apply andb_true_iff in H as [Hb H]. destruct (step s (OXmit b)) as [[s1 e1] | |] eqn:Hs; [| done..].
  destruct (IH s1 H) as (acc & ev & Hr). destruct (xmits_exec l s1 H) as [x Hx]. cbn [mbind res_bind fst] in *.
  rewrite Hx in *. eexists _, _. econstructor; [| exact Hs | exact Hr].
  cbn. unfold skb_okb in Hb. destruct (txqs s !! s_txq b) as [t|] eqn:Ht; [| done]. exists t.
  by apply bool_decide_eq_true in Hb.
Qed.

Lemma demo_wake_run : exists acc ev, run false demo_start demo_wake (exec_end demo_start demo_wake) acc ev.
Proof.
  set (s1 := exec_end demo_start [OStaInit 0 0; OPs 0 true]).
  assert (H1 : exists acc ev, run false demo_start [OStaInit 0 0; OPs 0 true] s1 acc ev).
  { eexists _, _. run_demo. apply run_end. by_value. }
  destruct H1 as (a1 & e1 & H1). destruct (xmits_run false (demo_skb <$> seq 0 70) s1) as (a2 & e2 & H2); [by_value |].
  set (s2 := exec_end s1 _) in H2.
  assert (H3 : exists acc ev, run false s2 [OPs 0 false] (exec_end demo_start demo_wake) acc ev).
  { eexists _, _. eapply run_cons; [| by_value | apply run_end; by_value]. split_and!; [vm_compute; lia | |].
    - intros a Ha Hm. vm_compute in Ha. injection Ha as <-. vm_compute in Hm. discriminate.
    - intros _ a _. apply Forall_forall. intros i _ Hp. discriminate Hp. }
  destruct H3 as (a3 & e3 & H3). eexists _, _. unfold demo_wake at 1. rewrite list_fmap_compose.
  eapply run_app; [exact H1 |]. eapply run_app; [exact H2 | exact H3].
Qed.

Definition retry_ops (n : nat) : list op :=
  OStaInit 0 0 :: OXmit (demo_skb 1) ::
  concat (replicate n [OConfirm false false true (demo_skb 1) RWNX_HWQ_BE; OTasklet]).

(** Pushing takes no credit but a retry gives one back: after 64 retries of one
    buffer the 8-bit credits of its queue are -128 and the next tasklet runs into
    BUG_ON(credits <= 0); 63 retries are harmless. *)
Theorem retries_wrap_the_credits :
  Forall (fun n => res_ok (exec demo_start (retry_ops n))) (seq 0 64) /\ exec demo_start (retry_ops 64) = Fault.
Proof.
  split; [| vm_compute; reflexivity]. apply List.Forall_forall. intros n Hn.
  assert (H : forallb (fun n => match exec demo_start (retry_ops n) with Ok _ => true | _ => false end) (seq 0 64) = true)
    by (vm_compute; reflexivity).
  rewrite List.forallb_forall in H. specialize (H n Hn). cbv beta in H.
  destruct (exec demo_start (retry_ops n)) as [x| |]; [by exists x | done..].
Qed.

(** ** Witnesses *)

Lemma txq_run_never_faults_witness : exists acc ev s,
  run true demo_start demo_period s acc ev /\ inv true s /\ res_ok (step s OTasklet).
Proof.
  destruct (demo_period_run true) as (acc & ev & H). exists acc, ev. eexists. split; [exact H |].
  destruct (txq_run_never_faults true true [demo_sta] demo_period _ acc ev demo_fresh H) as [Hi Hs].
  split; [exact Hi | by apply Hs].
Defined.

Lemma txq_fifo_witness : exists acc ev, acc ≫= own 0 = left 0 ev ++ [demo_skb 2; demo_skb 3].
Proof.
  destruct (demo_period_run true) as (acc & ev & H). exists acc, ev.
  assert (E : qbufs (exec_end demo_start demo_period) 0 = [demo_skb 2; demo_skb 3]) by by_value.
  pose proof (txq_fifo true true [demo_sta] demo_period _ acc ev 0 demo_fresh H) as X. rewrite E in X. exact X.
Defined.

Lemma txq_tasklet_serves_witness : exists s' ev',
  rwnx_hwq_process_all (exec_end demo_start demo_period) = Ok (s', ev') /\ left 0 ev' <> [].
Proof.
  destruct (demo_period_run true) as (acc & ev & H).
  destruct (txq_tasklet_serves true true [demo_sta] demo_period _ acc ev demo_fresh H) as (s' & ev' & Hp & Hs).
  exists s', ev'. split; [exact Hp |].
  apply (Hs 1%nat (HwqT [0%nat] 64 true) 0%nat); [by_value | reflexivity | apply list_elem_of_here].
Defined.

Definition demo_tasklet : rwnx_hw * list event :=
  match rwnx_hwq_process_all (exec_end demo_start demo_period) with Ok r => r | _ => (demo_start, []) end.

Lemma txq_stopped_sends_its_period_witness :
  Z.of_nat (length (left 0 demo_tasklet.2)) <= 1.
Proof.
  destruct (demo_period_run true) as (acc & ev & H).
  assert (Ht : exists t, txqs (exec_end demo_start demo_period) !! 0%nat = Some t /\ active t = true /\
    rwnx_txq_is_stopped t = true /\ push_limit t = 1) by (eexists; split; [by_value | split_and!; by_value]).
  destruct Ht as (t & Ht & Ha & Hs & Hl). rewrite <- Hl.
  apply (txq_stopped_sends_its_period true [demo_sta] demo_period _ acc ev demo_tasklet.1 demo_tasklet.2 0 t demo_fresh H);
    [by_value | exact Ht | exact Ha | exact Hs].
Defined.

Definition asleep (ready sp : Z) : rwnx_sta := StaT 0 0 0 true ready 0 sp 0.

Lemma traffic_req_shares_by_priority_witness : exists s' a',
  rwnx_ps_bh_traffic_req (exec_end demo_start demo_sleep) 0 1 LEGACY_PS_ID = Ok (s', true) /\
  limit s' <$> prio_txqs (old_ic (exec_end demo_start demo_sleep)) (asleep 2 0) = [0; 0; 0; 0; 0; 1; 0; 0] /\
  stas s' !! 0%nat = Some a' /\ sp_cnt a' LEGACY_PS_ID = 1.
Proof.
  destruct (demo_sleep_run true) as (acc & ev & H).
  destruct (traffic_req_shares_by_priority true true [demo_sta] demo_sleep _ acc ev 0 (asleep 2 0) 1 LEGACY_PS_ID
    demo_fresh H) as (s' & a' & Hs & Hl & _ & Ha & Hc); [by_value.. | lia | by_value | by_value | by_value |].
  exists s', a'. split; [exact Hs |]. split; [etransitivity; [exact Hl | by_value] |].
  split; [exact Ha | etransitivity; [exact Hc | by_value]].
Defined.

Lemma interrupted_period_still_sends_witness : exists s1 s2 e2,
  rwnx_ps_bh_traffic_req (exec_end demo_start demo_period) 0 PS_SP_INTERRUPTED UAPSD_ID = Ok (s1, false) /\
  limit s1 0 = 0 /\ rwnx_hwq_process_all s1 = Ok (s2, e2) /\ left 0 e2 <> [].
Proof.
  destruct (demo_period_run false) as (acc & ev & H).
  apply (interrupted_period_still_sends true [demo_sta] demo_period _ acc ev 0 (asleep 2 1) 0 1
    (HwqT [0%nat] 64 true) demo_fresh H); [by_value | by_value | | by_value | by_value |].
  - vm_compute. apply list_elem_of_here.
  - apply list_elem_of_here.
Defined.

Lemma mgmt_frames_get_no_period_witness : exists s' a',
  rwnx_ps_bh_traffic_req (exec_end demo_start demo_mgmt) 0 0 LEGACY_PS_ID = Ok (s', true) /\
  (forall i, limit s' i = limit (exec_end demo_start demo_mgmt) i) /\
  stas s' !! 0%nat = Some a' /\ sp_cnt a' LEGACY_PS_ID = 0.
Proof.
  destruct (demo_mgmt_run true) as (acc & ev & H).
  apply (mgmt_frames_get_no_period true true [demo_sta] demo_mgmt _ acc ev 0 (asleep 1 0) 0 LEGACY_PS_ID
    demo_fresh H); [by_value.. | lia | by_value | by_value | by_value |].
  vm_compute. repeat constructor.
Defined.

Lemma leftovers_wait_witness : exists s' ev',
  rwnx_hwq_process (exec_end demo_start demo_wake) 1 = Ok (s', ev') /\ Z.of_nat (length (left 0 ev')) = 64 /\
  qbufs s' 0 <> [] /\ rwnx_hwq_process_all s' = Ok (s', []).
Proof.
  destruct demo_wake_run as (acc & ev & H).
  assert (Ht : exists t, txqs (exec_end demo_start demo_wake) !! 0%nat = Some t /\ push_limit t = 0 /\
    credits t = 64 /\ len t = 70) by (eexists; split; [by_value | split_and!; by_value]).
  destruct Ht as (t & Ht & Hp & Hc & Hl). rewrite <- Hc.
  apply (leftovers_wait false true [demo_sta] demo_wake _ acc ev 1 (HwqT [0%nat] 64 true) 0 t demo_fresh H);
    [by_value | reflexivity | exact Ht | exact Hp | rewrite Hc, Hl; lia |].
  intros h' q' Hne Hq. do 4 (destruct h' as [|h']; [try (vm_compute in Hq; injection Hq as <-; reflexivity); congruence |]).
  vm_compute in Hq. discriminate.
Defined.

End TxqRuns.
