(* ===== verification/Md5.v ===== *)
(** * The MD5 digest of the firmware images (md5.c, md5.h)

    The streaming interface MD5Init, MD5Update, MD5Final over a context, with
    the 64 macro calls of MD5Transform as a list of macros on the named
    registers [a] to [d].  The reference is the algorithm of RFC 1321: padding
    of the whole message, and 64 rounds in a loop whose constants are computed
    from the sine.  aic8800_fdrv and aic8800_bsp have the same file. *)

From stdpp Require Import prelude.
From S2P Require Import Prelude.
Open Scope Z_scope.

Module Md5.

(** ** Words *)

Definition not32 (x : Z) : Z := Z.lxor x 0xffffffff.
Definition F (x y z : Z) : Z := Z.lor (Z.land x y) (Z.land (not32 x) z).
Definition G (x y z : Z) : Z := Z.lor (Z.land x z) (Z.land y (not32 z)).
Definition H (x y z : Z) : Z := Z.lxor (Z.lxor x y) z.
Definition I (x y z : Z) : Z := Z.lxor y (Z.lor x (not32 z)).
Definition ROTATE_LEFT (x n : Z) : Z := Z.lor (u32 (Z.shiftl x n)) (Z.shiftr x (32 - n)).

(** ** The transform *)

Inductive reg := Ra | Rb | Rc | Rd.
Record regs := Regs { ra : Z; rb : Z; rc : Z; rd' : Z }.
Definition get (r : reg) (s : regs) : Z :=
  match r with Ra => ra s | Rb => rb s | Rc => rc s | Rd => rd' s end.
Definition set (r : reg) (v : Z) (s : regs) : regs :=
  match r with
  | Ra => Regs v (rb s) (rc s) (rd' s)
  | Rb => Regs (ra s) v (rc s) (rd' s)
  | Rc => Regs (ra s) (rb s) v (rd' s)
  | Rd => Regs (ra s) (rb s) (rc s) v
  end.

Inductive round := FF | GG | HH | II.
Definition mix (f : round) : Z -> Z -> Z -> Z :=
  match f with FF => F | GG => G | HH => H | II => I end.

(** [FF(a, b, c, d, x[k], s, ac)] and the like. *)
Record macro := Mac { m_f : round; m_a : reg; m_b : reg; m_c : reg; m_d : reg; m_k : nat; m_s : Z; m_ac : Z }.

Definition run_macro (x : list Z) (s : regs) (m : macro) : regs :=
  let a := u32 (get (m_a m) s + mix (m_f m) (get (m_b m) s) (get (m_c m) s) (get (m_d m) s)
                + nth (m_k m) x 0 + m_ac m) in
  let a := ROTATE_LEFT a (m_s m) in
  set (m_a m) (u32 (a + get (m_b m) s)) s.

Definition macros : list macro :=
  [Mac FF Ra Rb Rc Rd 0 7 0xd76aa478; Mac FF Rd Ra Rb Rc 1 12 0xe8c7b756;
   Mac FF Rc Rd Ra Rb 2 17 0x242070db; Mac FF Rb Rc Rd Ra 3 22 0xc1bdceee;
   Mac FF Ra Rb Rc Rd 4 7 0xf57c0faf; Mac FF Rd Ra Rb Rc 5 12 0x4787c62a;
   Mac FF Rc Rd Ra Rb 6 17 0xa8304613; Mac FF Rb Rc Rd Ra 7 22 0xfd469501;
   Mac FF Ra Rb Rc Rd 8 7 0x698098d8; Mac FF Rd Ra Rb Rc 9 12 0x8b44f7af;
   Mac FF Rc Rd Ra Rb 10 17 0xffff5bb1; Mac FF Rb Rc Rd Ra 11 22 0x895cd7be;
   Mac FF Ra Rb Rc Rd 12 7 0x6b901122; Mac FF Rd Ra Rb Rc 13 12 0xfd987193;
   Mac FF Rc Rd Ra Rb 14 17 0xa679438e; Mac FF Rb Rc Rd Ra 15 22 0x49b40821;
   Mac GG Ra Rb Rc Rd 1 5 0xf61e2562; Mac GG Rd Ra Rb Rc 6 9 0xc040b340;
   Mac GG Rc Rd Ra Rb 11 14 0x265e5a51; Mac GG Rb Rc Rd Ra 0 20 0xe9b6c7aa;
   Mac GG Ra Rb Rc Rd 5 5 0xd62f105d; Mac GG Rd Ra Rb Rc 10 9 0x2441453;
   Mac GG Rc Rd Ra Rb 15 14 0xd8a1e681; Mac GG Rb Rc Rd Ra 4 20 0xe7d3fbc8;
   Mac GG Ra Rb Rc Rd 9 5 0x21e1cde6; Mac GG Rd Ra Rb Rc 14 9 0xc33707d6;
   Mac GG Rc Rd Ra Rb 3 14 0xf4d50d87; Mac GG Rb Rc Rd Ra 8 20 0x455a14ed;
   Mac GG Ra Rb Rc Rd 13 5 0xa9e3e905; Mac GG Rd Ra Rb Rc 2 9 0xfcefa3f8;
   Mac GG Rc Rd Ra Rb 7 14 0x676f02d9; Mac GG Rb Rc Rd Ra 12 20 0x8d2a4c8a;
   Mac HH Ra Rb Rc Rd 5 4 0xfffa3942; Mac HH Rd Ra Rb Rc 8 11 0x8771f681;
   Mac HH Rc Rd Ra Rb 11 16 0x6d9d6122; Mac HH Rb Rc Rd Ra 14 23 0xfde5380c;
   Mac HH Ra Rb Rc Rd 1 4 0xa4beea44; Mac HH Rd Ra Rb Rc 4 11 0x4bdecfa9;
   Mac HH Rc Rd Ra Rb 7 16 0xf6bb4b60; Mac HH Rb Rc Rd Ra 10 23 0xbebfbc70;
   Mac HH Ra Rb Rc Rd 13 4 0x289b7ec6; Mac HH Rd Ra Rb Rc 0 11 0xeaa127fa;
   Mac HH Rc Rd Ra Rb 3 16 0xd4ef3085; Mac HH Rb Rc Rd Ra 6 23 0x4881d05;
   Mac HH Ra Rb Rc Rd 9 4 0xd9d4d039; Mac HH Rd Ra Rb Rc 12 11 0xe6db99e5;
   Mac HH Rc Rd Ra Rb 15 16 0x1fa27cf8; Mac HH Rb Rc Rd Ra 2 23 0xc4ac5665;
   Mac II Ra Rb Rc Rd 0 6 0xf4292244; Mac II Rd Ra Rb Rc 7 10 0x432aff97;
   Mac II Rc Rd Ra Rb 14 15 0xab9423a7; Mac II Rb Rc Rd Ra 5 21 0xfc93a039;
   Mac II Ra Rb Rc Rd 12 6 0x655b59c3; Mac II Rd Ra Rb Rc 3 10 0x8f0ccc92;
   Mac II Rc Rd Ra Rb 10 15 0xffeff47d; Mac II Rb Rc Rd Ra 1 21 0x85845dd1;
   Mac II Ra Rb Rc Rd 8 6 0x6fa87e4f; Mac II Rd Ra Rb Rc 15 10 0xfe2ce6e0;
   Mac II Rc Rd Ra Rb 6 15 0xa3014314; Mac II Rb Rc Rd Ra 13 21 0x4e0811a1;
   Mac II Ra Rb Rc Rd 4 6 0xf7537e82; Mac II Rd Ra Rb Rc 11 10 0xbd3af235;
   Mac II Rc Rd Ra Rb 2 15 0x2ad7d2bb; Mac II Rb Rc Rd Ra 9 21 0xeb86d391].

Definition word (l : list Z) (j : nat) : Z :=
  u32 (Z.lor (Z.lor (Z.lor (nth j l 0) (Z.shiftl (nth (j + 1) l 0) 8)) (Z.shiftl (nth (j + 2) l 0) 16))
         (Z.shiftl (nth (j + 3) l 0) 24)).
Definition MD5Decode (input : list Z) (len : nat) : list Z :=
  (fun i => word input (4 * i)) <$> seq 0 (len / 4).

Definition MD5Encode (input : list Z) : list Z :=
  input ≫= fun w => [Z.land w 0xFF; Z.land (Z.shiftr w 8) 0xFF; Z.land (Z.shiftr w 16) 0xFF; Z.land (Z.shiftr w 24) 0xFF].

Definition MD5Transform (state : regs) (block : list Z) : regs :=
  let x := MD5Decode block 64 in
  let s := foldl (run_macro x) state macros in
  Regs (u32 (ra state + ra s)) (u32 (rb state + rb s)) (u32 (rc state + rc s)) (u32 (rd' state + rd' s)).

(** ** The context *)

Record MD5_CTX := Ctx { count0 : Z; count1 : Z; state : regs; buffer : list Z }.

Definition PADDING : list Z := 0x80 :: replicate 63 0.

Definition init_state : regs := Regs 0x67452301 0xEFCDAB89 0x98BADCFE 0x10325476.

(** The buffer of a new context holds anything. *)
Definition MD5Init (garbage : list Z) : MD5_CTX := Ctx 0 0 init_state garbage.

(** The loop over the blocks of the input; the index is an unsigned int. *)
Fixpoint transform_loop (fuel : nat) (st : regs) (input : list Z) (i : Z) : res (regs * Z) :=
  if u32 (i + 64) <=? Z.of_nat (length input) then
    match fuel with
    | O => NoFuel
    | S fuel =>
        let block := take 64 (drop (Z.to_nat i) input) in
        if (length block <? 64)%nat then Fault
        else transform_loop fuel (MD5Transform st block) input (u32 (i + 64))
    end
  else Ok (st, i).

Definition MD5Update (c : MD5_CTX) (input : list Z) : res MD5_CTX :=
  let inputlen := Z.of_nat (length input) in
  let index := Z.land (Z.shiftr (count0 c) 3) 0x3F in
  let partlen := 64 - index in
  let c0 := u32 (count0 c + u32 (Z.shiftl inputlen 3)) in
  let c1 := if c0 <? u32 (Z.shiftl inputlen 3) then u32 (count1 c + 1) else count1 c in
  let c1 := u32 (c1 + Z.shiftr inputlen 29) in
  if partlen <=? inputlen then
    buf ← splice (buffer c) (Z.to_nat index) (take (Z.to_nat partlen) input);
    r ← transform_loop (length input) (MD5Transform (state c) buf) input partlen;
    buf ← splice buf 0 (drop (Z.to_nat r.2) input);
    Ok (Ctx c0 c1 r.1 buf)
  else
    buf ← splice (buffer c) (Z.to_nat index) input;
    Ok (Ctx c0 c1 (state c) buf).

Definition MD5Final (c : MD5_CTX) : res (list Z) :=
  let index := Z.land (Z.shiftr (count0 c) 3) 0x3F in
  let padlen := if index <? 56 then 56 - index else 120 - index in
  let bits := MD5Encode [count0 c; count1 c] in
  c ← MD5Update c (take (Z.to_nat padlen) PADDING);
  c ← MD5Update c bits;
  Ok (MD5Encode [ra (state c); rb (state c); rc (state c); rd' (state c)]).

(** ** The algorithm of RFC 1321 *)

(** The sine in fixed point with 160 fractional bits, by its power series. *)
Fixpoint sin_series (n : nat) (k x term : Z) : Z :=
  match n with
  | O => 0
  | S n => term + sin_series n (k + 2) x (- (term * x * x) / ((k + 1) * (k + 2)))
  end.
Definition sine (x : Z) : Z := sin_series 130 1 x (Z.shiftl x 160).
Definition rfc_T (i : nat) : Z := Z.shiftr (Z.abs (sine (Z.of_nat i + 1)) * 2 ^ 32) 160.

Definition rfc_mix (i : nat) (b c d : Z) : Z :=
  match (i / 16)%nat with 0%nat => F b c d | 1%nat => G b c d | 2%nat => H b c d | _ => I b c d end.
Definition rfc_k (i : nat) : nat :=
  match (i / 16)%nat with 0%nat => i | 1%nat => (5 * i + 1) mod 16 | 2%nat => (3 * i + 5) mod 16 | _ => (7 * i) mod 16 end%nat.
Definition rfc_s (i : nat) : Z :=
  nth (i mod 4) (match (i / 16)%nat with
                 | 0%nat => [7; 12; 17; 22] | 1%nat => [5; 9; 14; 20] | 2%nat => [4; 11; 16; 23] | _ => [6; 10; 15; 21]
                 end) 0.

(** One round: the registers move on by one place. *)
Definition rfc_round (x : list Z) (s : regs) (i : nat) : regs :=
  Regs (rd' s)
    (u32 (ROTATE_LEFT (u32 (ra s + rfc_mix i (rb s) (rc s) (rd' s) + nth (rfc_k i) x 0 + rfc_T i)) (rfc_s i) + rb s))
    (rb s) (rc s).

Definition rfc_block (st : regs) (block : list Z) : regs :=
  let x := (fun i => nth (4 * i) block 0 + 2 ^ 8 * nth (4 * i + 1) block 0 + 2 ^ 16 * nth (4 * i + 2) block 0
                     + 2 ^ 24 * nth (4 * i + 3) block 0) <$> seq 0 16 in
  let s := foldl (rfc_round x) st (seq 0 64) in
  Regs (u32 (ra st + ra s)) (u32 (rb st + rb s)) (u32 (rc st + rc s)) (u32 (rd' st + rd' s)).

(** The state after the first [n] blocks of a message. *)
Fixpoint rfc_blocks (n : nat) (m : list Z) : regs :=
  match n with
  | O => init_state
  | S n => rfc_block (rfc_blocks n m) (take 64 (drop (64 * n) m))
  end.

Definition le_bytes (n : nat) (x : Z) : list Z := (fun i => x / 2 ^ (8 * Z.of_nat i) mod 256) <$> seq 0 n.

Definition rfc_pad (m : list Z) : list Z :=
  m ++ [0x80] ++ replicate (Z.to_nat ((55 - Z.of_nat (length m)) mod 64)) 0 ++
  le_bytes 8 (8 * Z.of_nat (length m) mod 2 ^ 64).

Definition rfc_md5 (m : list Z) : list Z :=
  let p := rfc_pad m in
  let s := rfc_blocks (length p / 64) p in
  le_bytes 4 (ra s) ++ le_bytes 4 (rb s) ++ le_bytes 4 (rc s) ++ le_bytes 4 (rd' s).

(** ** The transform is the loop of the RFC *)

(** The registers the code calls for [a], [b], [c], [d] in round [i]. *)
Definition name (i k : nat) : reg :=
  match (i + 4 - k) mod 4 with 0 => Ra | 1 => Rd | 2 => Rc | _ => Rb end%nat.

Definition round_of (i : nat) : round := match (i / 16)%nat with 0%nat => FF | 1%nat => GG | 2%nat => HH | _ => II end.

Definition rfc_macro (i : nat) : macro :=
  Mac (round_of i) (name i 0) (name i 1) (name i 2) (name i 3) (rfc_k i) (rfc_s i) (rfc_T i).

Lemma macros_rfc : macros = rfc_macro <$> seq 0 64.
Proof. vm_compute. reflexivity. Qed.

Lemma mix_rfc i : mix (round_of i) = rfc_mix i.
Proof. unfold round_of, rfc_mix. by destruct (i / 16)%nat as [|[|[|]]]. Qed.

Definition aligned (i : nat) (s r : regs) : Prop :=
  get (name i 0) s = ra r /\ get (name i 1) s = rb r /\ get (name i 2) s = rc r /\ get (name i 3) s = rd' r.

Lemma name_mod i k : (k <= 3)%nat -> name i k = name (i mod 4) k.
Proof.
  intros Hk. unfold name. f_equal. replace (i + 4 - k)%nat with ((4 - k) + i)%nat by lia.
  replace (i mod 4 + 4 - k)%nat with ((4 - k) + i mod 4)%nat by lia. by rewrite Nat.Div0.add_mod_idemp_r.
Qed.

Lemma name_cases i : exists j, (j < 4)%nat /\ (forall k, (k <= 3)%nat -> name i k = name j k) /\
  (forall k, (k <= 3)%nat -> name (S i) k = name (S j) k).
Proof.
  exists (i mod 4)%nat. split; [apply Nat.mod_upper_bound; lia |]. split; intros k Hk; [by apply name_mod |].
  rewrite (name_mod (S i)), (name_mod (S (i mod 4))) by done. f_equal.
  change (S i) with (1 + i)%nat. change (S (i mod 4)) with (1 + i mod 4)%nat. by rewrite Nat.Div0.add_mod_idemp_r.
Qed.

Lemma aligned_step x i s r : aligned i s r -> aligned (S i) (run_macro x s (rfc_macro i)) (rfc_round x r i).
Proof.
  unfold aligned, run_macro, rfc_round, rfc_macro. cbn [m_f m_a m_b m_c m_d m_k m_s m_ac]. rewrite mix_rfc.
  destruct (name_cases i) as (j & Hj & H1 & H2). rewrite !H1, !H2 by lia. intros (<- & <- & <- & <-).
  do 4 (destruct j as [|j]; [cbn; by split_and! |]). lia.
Qed.

Lemma aligned_run x n : forall i s r, aligned i s r ->
  aligned (i + n) (foldl (run_macro x) s (rfc_macro <$> seq i n)) (foldl (rfc_round x) r (seq i n)).
Proof.
  induction n as [|n IH]; intros i s r Ha; cbn [seq fmap list_fmap foldl]; [by rewrite Nat.add_0_r |].
  replace (i + S n)%nat with (S i + n)%nat by lia. apply IH. by apply aligned_step.
Qed.

(** ** Bytes and words *)

Lemma lor_shiftl a b n : 0 <= n -> 0 <= a < 2 ^ n -> Z.lor a (Z.shiftl b n) = a + 2 ^ n * b.
Proof.
  intros Hn Ha. rewrite Z.shiftl_mul_pow2, (Z.mul_comm (2 ^ n)), <- Z.add_lor_land by done.
  assert (E : Z.land a (b * 2 ^ n) = 0).
  { destruct (Z.eq_dec a 0) as [-> |]; [done |].
    apply Z.bits_inj'. intros k Hk. rewrite Z.land_spec, Z.bits_0. destruct (Z.lt_ge_cases k n).
    - by rewrite Z.mul_pow2_bits_low, andb_false_r.
    - rewrite Z.bits_above_log2; [done | lia |].
      assert (Z.log2 a < n) by (apply Z.log2_lt_pow2; lia). lia. }
  rewrite E. lia.
Qed.

Lemma nth_byte l k : is_bytes l -> 0 <= nth k l 0 < 256.
Proof.
  intros Hl. destruct (le_lt_dec (length l) k) as [H0 | H0]; [rewrite nth_overflow by done; lia |].
  unfold is_bytes in Hl. rewrite List.Forall_forall in Hl. apply Hl. by apply nth_In.
Qed.

Lemma word_rfc l j : is_bytes l ->
  word l j = nth j l 0 + 2 ^ 8 * nth (j + 1) l 0 + 2 ^ 16 * nth (j + 2) l 0 + 2 ^ 24 * nth (j + 3) l 0.
Proof.
  intros Hl. unfold word. pose proof (nth_byte l j Hl). pose proof (nth_byte l (j + 1) Hl).
  pose proof (nth_byte l (j + 2) Hl). pose proof (nth_byte l (j + 3) Hl).
  rewrite (lor_shiftl (nth j l 0)) by lia. rewrite (lor_shiftl _ _ 16) by lia. rewrite (lor_shiftl _ _ 24) by lia.
  apply u32_id. lia.
Qed.

Lemma aligned_64 s r : aligned 64 s r -> s = r.
Proof.
  unfold aligned. change (name 64 0) with Ra. change (name 64 1) with Rb. change (name 64 2) with Rc. change (name 64 3) with Rd.
  destruct s, r. cbn. intuition congruence.
Qed.

Lemma transform_loop_rfc x st : foldl (run_macro x) st macros = foldl (rfc_round x) st (seq 0 64).
Proof. rewrite macros_rfc. apply aligned_64. exact (aligned_run x 64 0 st st (conj eq_refl (conj eq_refl (conj eq_refl eq_refl)))). Qed.

Lemma transform_rfc st block : is_bytes block -> MD5Transform st block = rfc_block st block.
Proof.
  intros Hb. unfold MD5Transform, rfc_block, MD5Decode. change (64 / 4)%nat with 16%nat.
  assert (E : ((fun i => word block (4 * i)) <$> seq 0 16) =
    ((fun i => nth (4 * i) block 0 + 2 ^ 8 * nth (4 * i + 1) block 0 + 2 ^ 16 * nth (4 * i + 2) block 0
       + 2 ^ 24 * nth (4 * i + 3) block 0) <$> seq 0 16)) by (apply list_fmap_ext; intros; by apply word_rfc).
  rewrite E, transform_loop_rfc. reflexivity.
Qed.

Lemma land_255 x : Z.land x 0xFF = x mod 256.
Proof. change 0xFF with (Z.ones 8). by rewrite Z.land_ones. Qed.

Lemma encode_le l : MD5Encode l = l ≫= le_bytes 4.
Proof.
  induction l as [|w l IH]; [done |]. cbn [MD5Encode mbind list_bind] in *. unfold MD5Encode in IH. rewrite IH. f_equal.
  rewrite !land_255, !Z.shiftr_div_pow2 by lia. unfold le_bytes. cbn. by rewrite Z.div_1_r.
Qed.

(** The bit count. *)
Lemma encode_count x : MD5Encode [x mod 2 ^ 32; x / 2 ^ 32] = le_bytes 8 x.
Proof.
  assert (Hlo : forall k, 0 <= k <= 24 -> (x mod 2 ^ 32) / 2 ^ k mod 256 = x / 2 ^ k mod 256).
  { intros k Hk. rewrite (Z.div_mod x (2 ^ 32)) at 2 by lia.
    replace (2 ^ 32 * (x / 2 ^ 32) + x mod 2 ^ 32) with (x mod 2 ^ 32 + (x / 2 ^ 32 * 2 ^ (32 - k)) * 2 ^ k).
    - rewrite Z.div_add by lia. replace (32 - k) with ((24 - k) + 8) by lia. rewrite Z.pow_add_r by lia.
      change (2 ^ 8) with 256. by rewrite Z.mul_assoc, Z.mod_add by lia.
    - rewrite <- Z.mul_assoc, <- Z.pow_add_r by lia. replace (32 - k + k) with 32 by lia. lia. }
  assert (Hhi : forall k, 0 <= k -> x / 2 ^ 32 / 2 ^ k mod 256 = x / 2 ^ (32 + k) mod 256).
  { intros k Hk. by rewrite Z.div_div, <- Z.pow_add_r by lia. }
  rewrite encode_le. unfold le_bytes. cbn [mbind list_bind app seq fmap list_fmap].
  rewrite !Hlo, !Hhi by lia. done.
Qed.

Lemma encode_mod x : MD5Encode [x mod 2 ^ 32; x / 2 ^ 32 mod 2 ^ 32] = le_bytes 8 (x mod 2 ^ 64).
Proof.
  rewrite <- encode_count.
  assert (E0 : x mod 2 ^ 64 mod 2 ^ 32 = x mod 2 ^ 32) by (apply Z.mod_mod_divide; by exists (2 ^ 32)).
  assert (E1 : x mod 2 ^ 64 / 2 ^ 32 = x / 2 ^ 32 mod 2 ^ 32); [| by rewrite E0, E1].
  change (2 ^ 64) with (2 ^ 32 * 2 ^ 32). rewrite Z.rem_mul_r, (Z.mul_comm (2 ^ 32)), Z.div_add by lia.
  rewrite (Z.div_small (_ mod _)); [lia |]. apply Z.mod_pos_bound. lia.
Qed.

(** ** Blocks *)

Lemma take_drop_app {A} n k (m1 m2 : list A) : (n + k <= length m1)%nat -> take k (drop n (m1 ++ m2)) = take k (drop n m1).
Proof. intros Hl. rewrite drop_app_le by lia. by rewrite take_app_le by (rewrite length_drop; lia). Qed.

Lemma blocks_app n m1 m2 : (64 * n <= length m1)%nat -> rfc_blocks n (m1 ++ m2) = rfc_blocks n m1.
Proof.
  induction n as [|n IH]; intros Hl; cbn [rfc_blocks]; [done |]. rewrite IH by lia. by rewrite take_drop_app by lia.
Qed.

(** ** The context holds a message *)

Record holds (c : MD5_CTX) (m : list Z) : Prop := {
  h_count0 : count0 c = 8 * Z.of_nat (length m) mod 2 ^ 32;
  h_count1 : count1 c = 8 * Z.of_nat (length m) / 2 ^ 32 mod 2 ^ 32;
  h_state : state c = rfc_blocks (length m / 64) m;
  h_len : length (buffer c) = 64%nat;
  h_buf : take (length m mod 64) (buffer c) = drop (64 * (length m / 64)) m }.

Lemma init_holds garbage : length garbage = 64%nat -> holds (MD5Init garbage) [].
Proof. by split. Qed.

Lemma index_mod c L : c = 8 * Z.of_nat L mod 2 ^ 32 -> Z.land (Z.shiftr c 3) 0x3F = Z.of_nat (L mod 64).
Proof.
  intros ->. change (2 ^ 32) with (8 * 2 ^ 29). rewrite Z.mul_mod_distr_l, Z.shiftr_div_pow2 by lia.
  change (2 ^ 3) with 8. rewrite (Z.mul_comm 8), Z.div_mul by lia. change 0x3F with (Z.ones 6). rewrite Z.land_ones by lia.
  rewrite Z.mod_mod_divide by (exists (2 ^ 23); done). change (2 ^ 6) with (Z.of_nat 64). by rewrite Nat2Z.inj_mod.
Qed.

Lemma count_sum c0 c1 L n : c0 = 8 * L mod 2 ^ 32 -> c1 = 8 * L / 2 ^ 32 mod 2 ^ 32 -> 0 <= L -> 0 <= n ->
  let b := u32 (Z.shiftl n 3) in
  u32 (c0 + b) = 8 * (L + n) mod 2 ^ 32 /\
  u32 ((if u32 (c0 + b) <? b then u32 (c1 + 1) else c1) + Z.shiftr n 29) = 8 * (L + n) / 2 ^ 32 mod 2 ^ 32.
Proof.
  intros -> -> HL Hn b. assert (Hb : b = 8 * n mod 2 ^ 32).
  { unfold b. rewrite Z.shiftl_mul_pow2, (Z.mul_comm n) by lia. done. }
  assert (Hs : Z.shiftr n 29 = 8 * n / 2 ^ 32).
  { rewrite Z.shiftr_div_pow2 by lia. change (2 ^ 32) with (8 * 2 ^ 29). by rewrite Z.div_mul_cancel_l by lia. }
  rewrite Hs, Hb. rewrite Z.mul_add_distr_l. clear Hs Hb b. set (A := 8 * L) in *. set (B := 8 * n) in *.
  pose proof (Z.mod_pos_bound A (2 ^ 32)). pose proof (Z.mod_pos_bound B (2 ^ 32)).
  assert (Hq : (A + B) / 2 ^ 32 = A / 2 ^ 32 + B / 2 ^ 32 + (A mod 2 ^ 32 + B mod 2 ^ 32) / 2 ^ 32).
  { rewrite (Z.div_mod A (2 ^ 32)) at 1 by lia. rewrite (Z.div_mod B (2 ^ 32)) at 1 by lia.
    replace (_ + (2 ^ 32 * (B / 2 ^ 32) + B mod 2 ^ 32)) with ((A mod 2 ^ 32 + B mod 2 ^ 32) + (A / 2 ^ 32 + B / 2 ^ 32) * 2 ^ 32) by lia.
    rewrite Z.div_add by lia. lia. }
  split; [unfold u32; by rewrite <- Z.add_mod by lia |]. rewrite Hq. unfold u32.
  destruct (Z.lt_ge_cases (A mod 2 ^ 32 + B mod 2 ^ 32) (2 ^ 32)).
  - rewrite (Z.mod_small (A mod 2 ^ 32 + B mod 2 ^ 32)), (Z.div_small (A mod 2 ^ 32 + B mod 2 ^ 32)) by lia.
    rewrite (proj2 (Z.ltb_ge _ _)) by lia. rewrite Zplus_mod_idemp_l. f_equal. lia.
  - assert (E : (A mod 2 ^ 32 + B mod 2 ^ 32) / 2 ^ 32 = 1) by (symmetry; apply (Z.div_unique _ _ _ (A mod 2 ^ 32 + B mod 2 ^ 32 - 2 ^ 32)); lia).
    assert (E' : (A mod 2 ^ 32 + B mod 2 ^ 32) mod 2 ^ 32 = A mod 2 ^ 32 + B mod 2 ^ 32 - 2 ^ 32) by (rewrite Z.mod_eq, E by lia; lia).
    rewrite E, E'. rewrite (proj2 (Z.ltb_lt _ _)) by lia. rewrite Zplus_mod_idemp_l, <- Z.add_assoc, Zplus_mod_idemp_l. f_equal. lia.
Qed.

Lemma loop_blocks fuel m input : is_bytes (m ++ input) -> Z.of_nat (length input) + 64 < 2 ^ 32 ->
  forall p k, (length m + p = 64 * k)%nat -> (p <= length input)%nat -> (length input < p + 64 * S fuel)%nat ->
  exists p' k', transform_loop fuel (rfc_blocks k (m ++ input)) input (Z.of_nat p) = Ok (rfc_blocks k' (m ++ input), Z.of_nat p') /\
    (length m + p' = 64 * k')%nat /\ (p' <= length input < p' + 64)%nat.
Proof.
  intros Hb Hn. induction fuel as [|fuel IH]; intros p k Hk Hp Hf; cbn [transform_loop].
  - rewrite u32_id by lia. rewrite (proj2 (Z.leb_gt _ _)) by lia. exists p, k. split_and!; [done.. | lia | lia].
  - rewrite u32_id by lia. destruct (Z.leb_spec (Z.of_nat p + 64) (Z.of_nat (length input))) as [Hle | Hgt].
    + rewrite Nat2Z.id. rewrite (proj2 (Nat.ltb_ge _ _)) by (rewrite length_take, length_drop; lia).
      assert (E : take 64 (drop p input) = take 64 (drop (64 * k) (m ++ input))).
      { rewrite <- Hk, drop_app_ge by lia. by replace (length m + p - length m)%nat with p by lia. }
      rewrite E, transform_rfc by (by apply Forall_take, Forall_drop).
      change (rfc_block (rfc_blocks k (m ++ input)) (take 64 (drop (64 * k) (m ++ input)))) with (rfc_blocks (S k) (m ++ input)).
      replace (Z.of_nat p + 64) with (Z.of_nat (p + 64)) by lia. apply IH; lia.
    + exists p, k. split_and!; [done.. | lia | lia].
Qed.

Lemma splice_front (buf src : list Z) : (length src <= length buf)%nat -> splice buf 0 src = Ok (src ++ drop (length src) buf).
Proof. intros Hl. unfold splice. by rewrite (proj2 (Nat.leb_le _ _)). Qed.

Lemma div_mod_64 n : (n = 64 * (n / 64) + n mod 64 /\ n mod 64 < 64)%nat.
Proof. split; [apply Nat.div_mod_eq | apply Nat.mod_upper_bound; lia]. Qed.

Lemma div_unique_64 n k r : (n = 64 * k + r)%nat -> (r < 64)%nat -> (n / 64 = k)%nat /\ (n mod 64 = r)%nat.
Proof. intros H1 H2. pose proof (div_mod_64 n). lia. Qed.

(** What the buffer holds when the last block is not complete. *)
Lemma update_short c m input : holds c m -> (length m mod 64 + length input < 64)%nat ->
  exists buf, splice (buffer c) (length m mod 64) input = Ok buf /\ length buf = 64%nat /\
    rfc_blocks (length m / 64) m = rfc_blocks (length (m ++ input) / 64) (m ++ input) /\
    take (length (m ++ input) mod 64) buf = drop (64 * (length (m ++ input) / 64)) (m ++ input).
Proof.
  intros [] Hs. destruct (div_mod_64 (length m)) as [Hd _].
  destruct (div_unique_64 (length (m ++ input)) (length m / 64) (length m mod 64 + length input)) as [-> ->];
    [rewrite length_app; lia | done |].
  unfold splice. rewrite h_len0, (proj2 (Nat.leb_le _ _)) by lia. eexists. split; [done |]. rewrite h_buf0. split_and!.
  - rewrite !length_app, !length_drop, h_len0. lia.
  - by rewrite blocks_app by lia.
  - rewrite drop_app_le by lia. rewrite app_assoc. rewrite take_app_le by (rewrite length_app, length_drop; lia).
    rewrite take_ge; [done |]. rewrite length_app, length_drop. lia.
Qed.

(** The block the input completes. *)
Lemma update_block c m input : holds c m -> (64 <= length m mod 64 + length input)%nat -> is_bytes (m ++ input) ->
  exists buf, splice (buffer c) (length m mod 64) (take (64 - length m mod 64) input) = Ok buf /\ length buf = 64%nat /\
    MD5Transform (state c) buf = rfc_blocks (S (length m / 64)) (m ++ input).
Proof.
  intros [] Hs Hb. destruct (div_mod_64 (length m)) as [Hd Hr]. set (r := (length m mod 64)%nat) in *.
  assert (Hlen : length (take (64 - r) input) = (64 - r)%nat) by (rewrite length_take; lia).
  unfold splice. rewrite h_len0, Hlen, (proj2 (Nat.leb_le _ _)) by lia. eexists. split; [done |].
  rewrite h_buf0, (drop_ge (buffer c)), app_nil_r by lia.
  assert (E : drop (64 * (length m / 64)) m ++ take (64 - r) input = take 64 (drop (64 * (length m / 64)) (m ++ input))).
  { rewrite drop_app_le by lia. rewrite take_app_ge by (rewrite length_drop; lia). f_equal. f_equal. rewrite length_drop. lia. }
  split; [rewrite length_app, length_drop, Hlen; lia |]. rewrite E, transform_rfc by (by apply Forall_take, Forall_drop).
  cbn [rfc_blocks]. by rewrite h_state0, <- (blocks_app (length m / 64) m input) by lia.
Qed.

Lemma update_holds c m input : holds c m -> is_bytes (m ++ input) -> Z.of_nat (length input) + 64 < 2 ^ 32 ->
  exists c', MD5Update c input = Ok c' /\ holds c' (m ++ input).
Proof.
  intros Hc Hb Hn. pose proof Hc as [Hc0 Hc1 _ _ _]. destruct (div_mod_64 (length m)) as [Hd Hr].
  destruct (count_sum _ _ _ (Z.of_nat (length input)) Hc0 Hc1) as [H0 H1]; [lia.. |].
  assert (Hlen : Z.of_nat (length (m ++ input)) = Z.of_nat (length m) + Z.of_nat (length input)) by (rewrite length_app; lia).
  unfold MD5Update. cbv zeta in H0, H1. rewrite H1, H0, <- Hlen, (index_mod _ _ Hc0), Nat2Z.id. clear H0 H1.
  destruct (Z.leb_spec (64 - Z.of_nat (length m mod 64)) (Z.of_nat (length input))) as [Hge | Hlt].
  - replace (64 - Z.of_nat (length m mod 64)) with (Z.of_nat (64 - length m mod 64)) by lia. rewrite Nat2Z.id.
    destruct (update_block c m input Hc) as (buf & -> & Hlb & HT); [lia | done |]. cbn [mbind res_bind]. rewrite HT.
    destruct (loop_blocks (length input) m input Hb Hn (64 - length m mod 64) (S (length m / 64))) as (p & k & -> & Hk & Hp);
      [lia.. |].
    cbn [mbind res_bind fst snd]. rewrite Nat2Z.id, splice_front by (rewrite length_drop; lia). cbn [mbind res_bind].
    eexists. split; [done |].
    destruct (div_unique_64 (length (m ++ input)) k (length input - p)) as [Ek Er]; [rewrite length_app; lia | lia |].
    split; cbn [count0 count1 state buffer]; [done | done | by rewrite Ek | |].
    + rewrite length_app, !length_drop. lia.
    + rewrite Ek, Er, <- Hk, drop_app_ge by lia. replace (length m + p - length m)%nat with p by lia.
      apply take_app_length'. rewrite length_drop. lia.
  - destruct (update_short c m input Hc) as (buf & -> & Hlb & Hst & Hbuf); [lia |]. cbn [mbind res_bind].
    eexists. split; [done |]. split; cbn [count0 count1 state buffer]; try done. by rewrite (h_state _ _ Hc).
Qed.

(** ** The digest *)

Fixpoint MD5Updates (c : MD5_CTX) (l : list (list Z)) : res MD5_CTX :=
  match l with [] => Ok c | x :: l => c ← MD5Update c x; MD5Updates c l end.

Lemma updates_hold l : forall c m, holds c m -> is_bytes m -> Forall is_bytes l ->
  Forall (fun x => Z.of_nat (length x) + 64 < 2 ^ 32) l ->
  exists c', MD5Updates c l = Ok c' /\ holds c' (m ++ concat l).
Proof.
  induction l as [|x l IH]; intros c m Hc Hm Hb Hl; cbn [MD5Updates concat]; [exists c; by rewrite app_nil_r |].
  inversion_clear Hb. inversion_clear Hl. assert (Hmx : is_bytes (m ++ x)) by by apply Forall_app.
  destruct (update_holds c m x Hc) as (c1 & -> & Hc1); [done.. |]. cbn [mbind res_bind]. rewrite app_assoc. by apply IH.
Qed.

Lemma padding_take n : (n <= 63)%nat -> take (S n) PADDING = 0x80 :: replicate n 0.
Proof. intros Hn. unfold PADDING. cbn [take]. f_equal. rewrite take_replicate. f_equal. lia. Qed.

Lemma padlen_eq L : let i := Z.of_nat (L mod 64) in
  Z.to_nat (if i <? 56 then 56 - i else 120 - i) = S (Z.to_nat ((55 - Z.of_nat L) mod 64)).
Proof.
  cbv zeta. destruct (div_mod_64 L) as [Hd Hr].
  destruct (Z.ltb_spec (Z.of_nat (L mod 64)) 56).
  - rewrite <- (Zmod_unique (55 - Z.of_nat L) 64 (- Z.of_nat (L / 64)) (55 - Z.of_nat (L mod 64))); lia.
  - rewrite <- (Zmod_unique (55 - Z.of_nat L) 64 (- Z.of_nat (L / 64) - 1) (119 - Z.of_nat (L mod 64))); lia.
Qed.

Lemma le_bytes_bytes n x : is_bytes (le_bytes n x).
Proof. apply Forall_fmap, Forall_forall. intros i _. apply Z.mod_pos_bound. lia. Qed.

Lemma final_holds c m : holds c m -> is_bytes m -> MD5Final c = Ok (rfc_md5 m).
Proof.
  intros Hc Hb. pose proof Hc as [Hc0 Hc1 _ _ _]. unfold MD5Final. rewrite (index_mod _ _ Hc0).
  pose proof (padlen_eq (length m)) as Hp. cbv zeta in Hp. rewrite Hp.
  set (z := Z.to_nat ((55 - Z.of_nat (length m)) mod 64)).
  pose proof (Z.mod_pos_bound (55 - Z.of_nat (length m)) 64). rewrite padding_take by lia.
  assert (Hbits : MD5Encode [count0 c; count1 c] = le_bytes 8 (8 * Z.of_nat (length m) mod 2 ^ 64)).
  { rewrite Hc0, Hc1. apply encode_mod. }
  rewrite Hbits. set (bits := le_bytes 8 _).
  assert (Hlb : length bits = 8%nat) by apply length_fmap. assert (Hbb : is_bytes bits) by apply le_bytes_bytes.
  assert (Hpad : is_bytes (0x80 :: replicate z 0)) by (constructor; [unfold is_byte; lia | apply Forall_replicate; unfold is_byte; lia]).
  destruct (update_holds c m (0x80 :: replicate z 0) Hc) as (c1 & -> & Hc1');
    [by apply Forall_app | cbn; rewrite length_replicate; lia |]. cbn [mbind res_bind].
  destruct (update_holds c1 _ bits Hc1') as (c2 & -> & Hc2);
    [apply Forall_app; split; [by apply Forall_app | done] | rewrite Hlb; lia |].
  cbn [mbind res_bind]. rewrite encode_le, (h_state _ _ Hc2), <- app_assoc.
  change (m ++ (128 :: replicate z 0) ++ bits) with (rfc_pad m).
  unfold rfc_md5. cbn [mbind list_bind]. by rewrite app_nil_r.
Qed.

(** C15. A context made by MD5Init over a buffer of any content, fed any chunks of bytes
    by MD5Update and closed by MD5Final, gives the digest of RFC 1321 of their
    concatenation: message padding and a 64-round loop whose constants come from the
    sine; no buffer access is out of range and every loop ends. Chunks are shorter than
    2^32 - 64 bytes, the length at which the index of the loop overflows. *)
Theorem md5_streaming_is_rfc1321 garbage chunks :
  length garbage = 64%nat -> Forall is_bytes chunks ->
  Forall (fun x => Z.of_nat (length x) + 64 < 2 ^ 32) chunks ->
  exists c, MD5Updates (MD5Init garbage) chunks = Ok c /\ MD5Final c = Ok (rfc_md5 (concat chunks)).
Proof.
  intros Hg Hb Hl. destruct (updates_hold chunks (MD5Init garbage) []) as (c & Hc & Hh);
    [by apply init_holds | constructor | done.. |].
  exists c. split; [done |]. apply final_holds; [done |]. by apply Forall_concat.
Qed.

(** The test suite of the RFC, "message digest" in two parts. *)
Lemma md5_streaming_is_rfc1321_witness :
  exists c, MD5Updates (MD5Init (replicate 64 7)) [[109; 101; 115; 115; 97; 103; 101]; [32; 100; 105; 103; 101; 115; 116]] = Ok c /\
    MD5Final c = Ok [249; 107; 105; 125; 124; 183; 147; 141; 82; 90; 47; 49; 170; 241; 97; 208].
Proof.
  destruct (md5_streaming_is_rfc1321 (replicate 64 7)
    [[109; 101; 115; 115; 97; 103; 101]; [32; 100; 105; 103; 101; 115; 116]]) as (c & Hc & Hd).
  - reflexivity.
  - repeat constructor; unfold is_byte; lia.
  - repeat constructor; cbn; lia.
  - exists c. split; [exact Hc |]. etransitivity; [exact Hd |]. vm_compute. reflexivity.
Defined.

End Md5.
