(* ===== verification/Sdio.v ===== *)
(** * The SDIO transport: transmission and power control (aicwf_sdio.c, .h,
    aicwf_txrxif.h)

    [dev] is struct aic_sdio_dev with the parts of struct aicwf_bus and struct
    aicwf_tx_priv the transport uses.  The kernel, the card and the other
    threads are a [world]: what a register read gives, whether a write works,
    and which events happen at a moment, all indexed by a clock that every bus
    access and every point where another thread may run advances.  What leaves
    the host is appended to [outs].

    A lock region is a step of its own.  The transmit thread holds txctl_sema
    over the data phase and the power thread pwrctl_wakeup_sema over the sleep
    sequence; [sleeping] says that the power thread is inside it
    ([EvSleepBegin], [EvSleepEnd]).  Sleeps of the kernel are not modelled, and
    kernel threads take no signals, so the interruptible waits succeed. *)

From stdpp Require Import prelude.
From S2P Require Import Prelude FrameQueue CmdTx.
Open Scope Z_scope.

Module Sdio.
Import CmdTx.

(** ** Constants and chips *)

Definition SDIOWIFI_FUNC_BLOCKSIZE : Z := 512.
Definition TXPKT_BLOCKSIZE : Z := 512.
Definition MAX_AGGR_TXPKT_LEN : Z := 1536 * 64.
Definition TX_ALIGNMENT : Z := 4.
Definition TAIL_LEN : Z := 4.
Definition TXQLEN : Z := 2048 * 4.
Definition FLOW_CTRL_RETRY_COUNT : nat := 50.
Definition DATA_FLOW_CTRL_THRESH : Z := 2.
Definition SDIOWIFI_FLOWCTRL_MASK_REG : Z := 0x7F.
Definition SDIOWIFI_PWR_CTRL_INTERVAL : Z := 30.
Definition EINVAL : Z := 22.
Definition ENOSR : Z := 63.

(** sizeof(struct txdesc_api). *)
Definition TXDESC_API_LEN : Z := 28.

Record aic_sdio_reg := Regs {
  bytemode_len_reg : Z; intr_config_reg : Z; sleep_reg : Z; wakeup_reg : Z; flow_ctrl_reg : Z;
  bytemode_enable_reg : Z; block_cnt_reg : Z; misc_int_status_reg : Z; rd_fifo_addr : Z; wr_fifo_addr : Z }.

(** The registers a chip does not have stay 0. *)
Definition aicwf_sdio_reg_init (c : chip) : aic_sdio_reg :=
  match c with
  | PRODUCT_ID_AIC8801 | PRODUCT_ID_AIC8800DC | PRODUCT_ID_AIC8800DW =>
      Regs 0x02 0x04 0x05 0x09 0x0A 0x11 0x12 0 0x08 0x07
  | _ => Regs 0x05 0x00 0x01 0x02 0x03 0x07 0 0x04 0x0F 0x10
  end.

(** ** State *)

Record skb := Skb {
  skb_id : Z;
  frame : list Z;        (* the data after the headroom *)
  desc : list Z;         (* sw_hdr->desc *)
  need_cfm : bool;
  priority : Z }.

(** What leaves the host: bus accesses, buffers released, results. *)
Inductive out :=
| ORd (reg : Z) (v : option Z)
| OReg (func : nat) (reg v : Z) (ok : bool)          (* of SDIO function [func] *)
| OWrite (cmd : bool) (bytes : list Z) (ok : bool)   (* the write FIFO *)
| OAccept (p : skb)                                  (* bus_txdata returns 0 *)
| OFree (p : skb).

Inductive pstate := SDIO_SLEEP_ST | SDIO_ACTIVE_ST.
#[global] Instance pstate_eq_dec : EqDecision pstate.
Proof. solve_decision. Defined.

Record aicwf_tx_priv := TxPriv {
  aggr_buf : list Z; tail : Z; aggr_count : Z; fw_avail_bufcnt : Z;
  txq : FrameQueue.frame_queue skb; tx_pktcnt : Z;
  cmd_txstate : bool; cmd_tx_succ : bool; cmd_buf : list Z; cmd_len : Z }.
#[global] Instance eta_tx : Settable aicwf_tx_priv := fun r =>
  TxPriv (aggr_buf r) (tail r) (aggr_count r) (fw_avail_bufcnt r) (txq r) (tx_pktcnt r)
    (cmd_txstate r) (cmd_tx_succ r) (cmd_buf r) (cmd_len r).

Record dev := Dev {
  chipid : chip;
  bus_up : bool;
  is_bus_suspend : bool;
  state : pstate;
  timer : bool;
  active_duration : Z;
  pwrctrl_trgg : nat;
  sleeping : bool;
  scanning : bool; is_p2p_alive : bool; is_p2p_connected : bool;
  rx_cnt : Z;
  bustx_trgg : nat;
  tx : aicwf_tx_priv;
  clk : nat;
  outs : list out }.
#[global] Instance eta_dev : Settable dev := fun r =>
  Dev (chipid r) (bus_up r) (is_bus_suspend r) (state r) (timer r) (active_duration r) (pwrctrl_trgg r) (sleeping r)
    (scanning r) (is_p2p_alive r) (is_p2p_connected r) (rx_cnt r) (bustx_trgg r) (tx r) (clk r) (outs r).

(** What the other threads may do. *)
Inductive event :=
| EvData (p : skb)                    (* aicwf_sdio_bus_txdata *)
| EvMsg (msg : list Z) (len : Z)      (* aicwf_sdio_bus_txmsg *)
| EvTimer                             (* the power timer runs out *)
| EvPwr                               (* a turn of the power thread *)
| EvSleepBegin | EvSleepEnd           (* the same in two steps *)
| EvRxCnt (n : Z) | EvRxWake          (* the receive thread *)
| EvScan (b : bool) | EvP2p (alive connected : bool)
| EvSuspend (keep_power : bool) | EvResume
| EvDown.                             (* the bus goes down *)

Record world := World {
  w_rd : nat -> Z -> option Z;
  w_wr : nat -> bool;
  w_ev : nat -> list event;
  tx_aggr_counter : Z }.

Definition emit (o : list out) (d : dev) : dev := d <| outs ::= fun l => l ++ o |>.
Definition tick (d : dev) : dev := d <| clk ::= S |>.

Section Ops.
Context (w : world).

(** ** Register access

    On an error sdio_readb of the kernel gives 0xFF. *)
Definition aicwf_sdio_readb (reg : Z) (d : dev) : dev * (Z * bool) :=
  let v := w_rd w (clk d) reg in
  (tick (emit [ORd reg v] d), match v with Some v => (v, true) | None => (0xFF, false) end).

Definition aicwf_sdio_func2_readb (reg : Z) (d : dev) : dev * (Z * bool) := aicwf_sdio_readb reg d.

Definition writeb (func : nat) (reg v : Z) (d : dev) : dev * bool :=
  let ok := w_wr w (clk d) in (tick (emit [OReg func reg v ok] d), ok).
Definition aicwf_sdio_writeb := writeb 1.
Definition aicwf_sdio_func2_writeb := writeb 2.
Definition sdio_f0_writeb := writeb 0.

(** The first [count] bytes of a buffer to the write FIFO. *)
Definition aicwf_sdio_send_pkt (cmd : bool) (buf : list Z) (count : Z) (d : dev) : res (dev * bool) :=
  if count <=? Z.of_nat (length buf) then
    let ok := w_wr w (clk d) in
    Ok (tick (emit [OWrite cmd (take (Z.to_nat count) buf) ok] d), ok)
  else Fault.

(** ** Flow control *)

Definition flow_mask (c : chip) (fc_reg : Z) : Z :=
  match c with
  | PRODUCT_ID_AIC8801 | PRODUCT_ID_AIC8800DC | PRODUCT_ID_AIC8800DW => Z.land fc_reg SDIOWIFI_FLOWCTRL_MASK_REG
  | _ => fc_reg
  end.

(** [retry]: how many of the FLOW_CTRL_RETRY_COUNT retries are left. *)
Fixpoint flow_loop (retry : nat) (d : dev) : dev * Z :=
  let '(d, (v, ok)) := aicwf_sdio_readb (flow_ctrl_reg (aicwf_sdio_reg_init (chipid d))) d in
  if negb ok then (d, -1)
  else
    let fc_reg := flow_mask (chipid d) v in
    if DATA_FLOW_CTRL_THRESH <? fc_reg then (d, fc_reg)
    else match retry with O => (d, - fc_reg) | S retry => flow_loop retry d end.

Definition aicwf_sdio_flow_ctrl (d : dev) : dev * Z := flow_loop FLOW_CTRL_RETRY_COUNT d.

(** ** Power control *)

Definition aicwf_sdio_pwrctl_timer (duration : Z) (d : dev) : dev :=
  if negb (bus_up d) && negb (duration =? 0) then d
  else if duration =? 0 then d <| timer := false |>
  else d <| active_duration := duration |> <| timer := true |>.

(** Up to 50 reads until the chip clears the bit. *)
Fixpoint wakeup_poll (read_retry : nat) (d : dev) : dev :=
  match read_retry with
  | O => d
  | S n =>
      let '(d, (val, ok)) := aicwf_sdio_readb (wakeup_reg (aicwf_sdio_reg_init (chipid d))) d in
      if ok && (Z.land val 0x1 =? 0) then d else wakeup_poll n d
  end.

Definition wakeup_reg_val (c : chip) : Z :=
  match c with PRODUCT_ID_AIC8801 | PRODUCT_ID_AIC8800DC | PRODUCT_ID_AIC8800DW => 1 | _ => 0x11 end.

(** [write_retry] is 1, so the write is not tried again; the result is not
    used. *)
Definition aicwf_sdio_wakeup (d : dev) : dev :=
  if decide (state d = SDIO_SLEEP_ST) then
    let '(d, ok) := aicwf_sdio_writeb (wakeup_reg (aicwf_sdio_reg_init (chipid d))) (wakeup_reg_val (chipid d)) d in
    let d := if ok then wakeup_poll 50 d else d in
    let d := d <| state := SDIO_ACTIVE_ST |> in
    aicwf_sdio_pwrctl_timer (active_duration d) d
  else d.

Fixpoint sleep_poll (read_retry : nat) (d : dev) : dev :=
  match read_retry with
  | O => d
  | S n =>
      let '(d, (val, ok)) := aicwf_sdio_func2_readb (wakeup_reg (aicwf_sdio_reg_init (chipid d))) d in
      if ok && (Z.land val 0x2 =? 0) then d else sleep_poll n d
  end.

(** The test of aicwf_sdio_sleep_allow. *)
Definition may_sleep (d : dev) : bool :=
  bool_decide (state d = SDIO_ACTIVE_ST) && negb (scanning d) && negb (is_p2p_alive d) && negb (is_p2p_connected d) &&
  (tx_pktcnt (tx d) <=? 0) && negb (cmd_txstate (tx d)) && (rx_cnt d =? 0).

Definition sleep_regs (d : dev) : dev :=
  let reg := wakeup_reg (aicwf_sdio_reg_init (chipid d)) in
  match chipid d with
  | PRODUCT_ID_AIC8801 | PRODUCT_ID_AIC8800DC | PRODUCT_ID_AIC8800DW =>
      sleep_poll 100 (aicwf_sdio_func2_writeb reg 0x2 d).1
  | _ => (aicwf_sdio_writeb reg 0x02 d).1
  end.

Definition sleep_done (d : dev) : dev := aicwf_sdio_pwrctl_timer 0 (d <| state := SDIO_SLEEP_ST |>).

Definition aicwf_sdio_sleep_allow (d : dev) : dev :=
  if negb (bus_up d) then
    aicwf_sdio_pwrctl_timer 0 (aicwf_sdio_writeb (sleep_reg (aicwf_sdio_reg_init (chipid d))) 0x10 d).1
  else if may_sleep d then sleep_done (sleep_regs d)
  else aicwf_sdio_pwrctl_timer (active_duration d) d.

(** [down(&pwrctl_wakeup_sema)]: a thread that comes during the sleep
    sequence waits for its end. *)
Definition down_wakeup_sema (d : dev) : dev :=
  if sleeping d then (sleep_done d) <| sleeping := false |> else d.

Definition aicwf_sdio_pwr_stctl (target : pstate) (d : dev) : dev * Z :=
  if negb (bus_up d) then (d, -1)
  else
    let d := down_wakeup_sema d in
    if decide (state d = target) then
      (if decide (target = SDIO_ACTIVE_ST) then aicwf_sdio_pwrctl_timer (active_duration d) d else d, 0)
    else
      (match target with
       | SDIO_ACTIVE_ST => aicwf_sdio_wakeup d
       | SDIO_SLEEP_ST => aicwf_sdio_sleep_allow d
       end, 0).

(** The timer's handler. *)
Definition aicwf_sdio_bus_pwrctl (d : dev) : dev :=
  if negb (bus_up d) then d else d <| pwrctrl_trgg ::= S |>.

Definition idle (d : dev) : bool :=
  (tx_pktcnt (tx d) <=? 0) && negb (cmd_txstate (tx d)) && (rx_cnt d =? 0).

(** One turn of the power thread. *)
Definition aicwf_sdio_pwrctl_thread (d : dev) : dev :=
  match pwrctrl_trgg d with
  | O => d
  | S n =>
      let d := d <| pwrctrl_trgg := n |> in
      if negb (bus_up d) then d
      else if idle d then (aicwf_sdio_pwr_stctl SDIO_SLEEP_ST d).1
      else aicwf_sdio_pwrctl_timer (active_duration d) d
  end.

(** The first part of such a turn when it goes to sleep: up to the register
    accesses of the sleep sequence; otherwise the whole turn. *)
Definition sleep_begin (d : dev) : dev :=
  match pwrctrl_trgg d with
  | O => d
  | S n =>
      let d1 := down_wakeup_sema (d <| pwrctrl_trgg := n |>) in
      if bus_up d && idle d && bool_decide (state d1 = SDIO_ACTIVE_ST) && may_sleep d1
      then (sleep_regs d1) <| sleeping := true |>
      else aicwf_sdio_pwrctl_thread d
  end.

(** The host keeps the card powered ([keep_power]) or refuses. *)
Definition aicwf_sdio_suspend (keep_power : bool) (d : dev) : dev * Z :=
  if negb keep_power then (d, - EINVAL)
  else
    let d := if decide (state d = SDIO_ACTIVE_ST) then (aicwf_sdio_pwr_stctl SDIO_SLEEP_ST d).1 else d in
    (d <| is_bus_suspend := true |>, 0).

Definition aicwf_sdio_resume (d : dev) : dev :=
  (aicwf_sdio_pwr_stctl SDIO_ACTIVE_ST d).1 <| is_bus_suspend := false |>.

(** ** The queue and the commands *)

Definition aicwf_sdio_bus_txdata (pkt : skb) (d : dev) : res (dev * Z) :=
  if negb (bus_up d) then Ok (emit [OFree pkt] d, -1)
  else
    let prio := Z.to_nat (Z.land (priority pkt) 0x7) in
    r ← FrameQueue.aicwf_frame_enq (txq (tx d)) pkt prio;
    if negb r.2 then Ok (emit [OFree pkt] d, - ENOSR)
    else
      Ok ((emit [OAccept pkt] d)
            <| tx ::= fun t => t <| txq := r.1 |> <| tx_pktcnt ::= Z.succ |> |>
            <| bustx_trgg ::= S |>, 0).

Definition aicwf_sdio_bus_txmsg (msg : list Z) (msglen : Z) (d : dev) : dev * Z :=
  let d := d <| tx ::= fun t => t <| cmd_txstate := true |> <| cmd_tx_succ := false |>
                                  <| cmd_buf := msg |> <| cmd_len := msglen |> |> in
  if negb (bus_up d) then (d, -1) else (d <| bustx_trgg ::= S |>, 0).

Definition do_event (e : event) (d : dev) : res dev :=
  match e with
  | EvData p => r ← aicwf_sdio_bus_txdata p d; Ok r.1
  | EvMsg msg len => Ok (aicwf_sdio_bus_txmsg msg len d).1
  | EvTimer => Ok (if timer d then aicwf_sdio_bus_pwrctl (d <| timer := false |>) else d)
  | EvPwr => Ok (aicwf_sdio_pwrctl_thread d)
  | EvSleepBegin => Ok (sleep_begin d)
  | EvSleepEnd => Ok (down_wakeup_sema d)
  | EvRxCnt n => Ok (d <| rx_cnt := n |>)
  | EvRxWake => Ok (aicwf_sdio_pwr_stctl SDIO_ACTIVE_ST d).1
  | EvScan b => Ok (d <| scanning := b |>)
  | EvP2p a c => Ok (d <| is_p2p_alive := a |> <| is_p2p_connected := c |>)
  | EvSuspend keep_power => Ok (aicwf_sdio_suspend keep_power d).1
  | EvResume => Ok (aicwf_sdio_resume d)
  | EvDown => Ok ((aicwf_sdio_pwrctl_timer 0 d) <| bus_up := false |>)
  end.

Fixpoint do_events (l : list event) (d : dev) : res dev :=
  match l with [] => Ok d | e :: l => d ← do_event e d; do_events l d end.

(** Other threads run. *)
Definition interleave (d : dev) : res dev := do_events (w_ev w (clk d)) (tick d).

(** ** The aggregate *)

(** [memcpy(tx_priv->tail, src, n); tx_priv->tail += n]. *)
Definition append (src : list Z) (t : aicwf_tx_priv) : res aicwf_tx_priv :=
  buf ← splice (aggr_buf t) (Z.to_nat (tail t)) src;
  Ok (t <| aggr_buf := buf |> <| tail ::= Z.add (Z.of_nat (length src)) |>).

Definition roundup (x n : Z) : Z := (x + n - 1) / n * n.

(** The bytes that bring the length to a multiple of TX_ALIGNMENT. *)
Definition align_len (curr_len : Z) : Z :=
  if Z.land curr_len (TX_ALIGNMENT - 1) =? 0 then 0 else roundup curr_len TX_ALIGNMENT - curr_len.

Definition zeros (n : Z) : list Z := replicate (Z.to_nat n) 0.

Definition aicwf_sdio_aggrbuf_reset (t : aicwf_tx_priv) : aicwf_tx_priv := t <| tail := 0 |> <| aggr_count := 0 |>.

Definition aicwf_sdio_aggr (c : chip) (pkt : skb) (t : aicwf_tx_priv) : res aicwf_tx_priv :=
  let start := tail t in
  let len := u32 (Z.of_nat (length (frame pkt)) + TXDESC_API_LEN) in
  let h := [u8 (Z.land len 0xff); u8 (Z.land (Z.shiftr len 8) 0x0f); 0x01] in
  crc ← (if has_crc c then crc8_ponl_107 h 3 else Ok 0);
  t ← append (h ++ [crc]) t;
  t ← append (desc pkt) t;
  t ← append (frame pkt) t;
  let n := align_len (tail t) in
  t ← (if n =? 0 then Ok t else append (zeros n) t);
  buf ← (if has_crc c then Ok (aggr_buf t)
         else splice (aggr_buf t) (Z.to_nat start)
                [u8 (Z.land (tail t - start - 4) 0xff); u8 (Z.land (Z.shiftr (tail t - start - 4) 8) 0x0f)]);
  Ok (t <| aggr_buf := buf |> <| aggr_count ::= Z.succ |>).

(** The length is rounded up to whole blocks. *)
Definition aicwf_sdio_txpkt (buf : list Z) (len : Z) (d : dev) : res (dev * Z) :=
  if negb (bus_up d) then Ok (d, - EINVAL)
  else
    r ← aicwf_sdio_send_pkt false buf (roundup len SDIOWIFI_FUNC_BLOCKSIZE) d;
    Ok (r.1, if r.2 : bool then 0 else -5).

Definition aicwf_sdio_aggr_send (d : dev) : res dev :=
  t ← (if tail (tx d) mod TXPKT_BLOCKSIZE =? 0 then Ok (tx d) else append (zeros TAIL_LEN) (tx d));
  r ← aicwf_sdio_txpkt (aggr_buf t) (tail t) (d <| tx := t |>);
  Ok (r.1 <| tx ::= aicwf_sdio_aggrbuf_reset |>).

(** The aggregate goes out and its frames are taken off the credits. *)
Definition flush_aggr (d : dev) : res dev :=
  aicwf_sdio_aggr_send (d <| tx ::= fun t => t <| fw_avail_bufcnt ::= fun n => n - aggr_count t |> |>).

Definition aggr_full (t : aicwf_tx_priv) : bool :=
  (aggr_count t =? fw_avail_bufcnt t - DATA_FLOW_CTRL_THRESH) || (tx_aggr_counter w <=? aggr_count t).

Definition aicwf_sdio_send (txnow : bool) (d : dev) : res dev :=
  let t := tx d in
  if ((aggr_count t =? 0) && negb (tail t =? 0)) || (negb (aggr_count t =? 0) && (tail t =? 0)) then
    Ok (if 0 <? tail t then d <| tx ::= aicwf_sdio_aggrbuf_reset |> else d)
  else if aggr_full t then
    if 0 <? aggr_count t then flush_aggr d else Ok d
  else
    r ← FrameQueue.aicwf_frame_dequeue (txq t);
    let d := d <| tx ::= fun t => t <| txq := r.1 |> |> in
    match r.2 with
    | None => Ok d
    | Some pkt =>
        d ← interleave d;
        t ← aicwf_sdio_aggr (chipid d) pkt (tx d);
        let d := emit (if need_cfm pkt then [] else [OFree pkt]) (d <| tx := t |>) in
        d ← interleave d;
        d ← (if (tx_pktcnt (tx d) =? 1) || txnow || aggr_full (tx d) then flush_aggr d else Ok d);
        Ok (d <| tx ::= fun t => t <| tx_pktcnt ::= Z.pred |> |>)
    end.

(** ** The transmit thread *)

(** The padding and the tail are written behind the command in its buffer. *)
Definition pad_cmd (buf : list Z) (len : Z) : res (list Z * Z) :=
  let payload_len := len in
  let n := if len mod TX_ALIGNMENT =? 0 then 0 else roundup len TX_ALIGNMENT - len in
  buf ← splice buf (Z.to_nat payload_len) (zeros n);
  let payload_len := payload_len + n in
  if payload_len mod SDIOWIFI_FUNC_BLOCKSIZE =? 0 then Ok (buf, payload_len)
  else
    buf ← splice buf (Z.to_nat payload_len) (zeros TAIL_LEN);
    let payload_len := payload_len + TAIL_LEN in
    Ok (buf, (payload_len / SDIOWIFI_FUNC_BLOCKSIZE + 1) * SDIOWIFI_FUNC_BLOCKSIZE).

Definition aicwf_sdio_tx_msg (d : dev) : res (dev * Z) :=
  r ← pad_cmd (cmd_buf (tx d)) (u16 (cmd_len (tx d)));
  let d := d <| tx ::= fun t => t <| cmd_buf := r.1 |> |> in
  match chipid d with
  | PRODUCT_ID_AIC8800DW => Ok (d, -1)
  | _ =>
      s ← aicwf_sdio_send_pkt true r.1 r.2 d;
      Ok (s.1 <| tx ::= fun t => t <| cmd_txstate := false |> <| cmd_tx_succ := s.2 |> |>, if s.2 : bool then 0 else -5)
  end.

Definition is_empty (d : dev) : res bool := FrameQueue.aicwf_is_framequeue_empty (txq (tx d)).

Definition refill (d : dev) : dev :=
  let '(d, n) := aicwf_sdio_flow_ctrl d in d <| tx ::= fun t => t <| fw_avail_bufcnt := n |> |>.

Fixpoint tx_loop (fuel : nat) (d : dev) : res dev :=
  e ← is_empty d;
  if (e : bool) then Ok d
  else if negb (bus_up d) then Ok d
  else
    match fuel with
    | O => NoFuel
    | S fuel =>
        if fw_avail_bufcnt (tx d) <=? DATA_FLOW_CTRL_THRESH then
          if cmd_txstate (tx d) then Ok d
          else d ← interleave (refill d); tx_loop fuel d
        else if cmd_txstate (tx d) then aicwf_sdio_send true d
        else d ← aicwf_sdio_send false d; d ← interleave d; tx_loop fuel d
    end.

(** The command phase; [None]: the state is not SDIO_ACTIVE_ST and the turn
    ends. *)
Definition tx_cmd (d : dev) : res (option dev) :=
  if cmd_txstate (tx d) then
    if decide (state d = SDIO_ACTIVE_ST) then r ← aicwf_sdio_tx_msg d; Ok (Some r.1) else Ok None
  else Ok (Some d).

Definition tx_data (fuel : nat) (d : dev) : res dev :=
  if decide (state d = SDIO_ACTIVE_ST) then
    e ← is_empty d;
    let d := if (e : bool) then d else refill d in
    d ← interleave d;
    tx_loop fuel d
  else Ok d.

Definition aicwf_sdio_tx_process (fuel : nat) (d : dev) : res dev :=
  if negb (bus_up d) then Ok d
  else
    d ← interleave (aicwf_sdio_pwr_stctl SDIO_ACTIVE_ST d).1;
    r ← tx_cmd d;
    match r with
    | None => Ok d
    | Some d => d ← interleave d; tx_data fuel d
    end.

(** One turn of the transmit thread.  It waits for the resume without end. *)
Definition sdio_bustx_thread (fuel : nat) (d : dev) : res dev :=
  match bustx_trgg d with
  | O => Ok d
  | S n =>
      let d := d <| bustx_trgg := n |> in
      if negb (bus_up d) then Ok d
      else if is_bus_suspend d then NoFuel
      else if (0 <? tx_pktcnt (tx d)) || cmd_txstate (tx d) then aicwf_sdio_tx_process fuel d
      else Ok d
  end.

(** ** Start and stop *)

Definition tx_init : aicwf_tx_priv :=
  TxPriv (zeros MAX_AGGR_TXPKT_LEN) 0 0 0 (FrameQueue.aicwf_frame_queue_init 8 TXQLEN) 0 false false [] 0.

Definition aicwf_sdio_bus_init (c : chip) : dev :=
  Dev c false false SDIO_SLEEP_ST false SDIOWIFI_PWR_CTRL_INTERVAL 0 false false false false 0 0 tx_init 0 [].

(** The interrupt is claimed first. *)
Definition aicwf_sdio_bus_start (d : dev) : dev * bool :=
  let d := match chipid d with
           | PRODUCT_ID_AIC8801 | PRODUCT_ID_AIC8800DC | PRODUCT_ID_AIC8800DW => d
           | _ => (sdio_f0_writeb 0x04 0x07 d).1
           end in
  let '(d, ok) := aicwf_sdio_writeb (intr_config_reg (aicwf_sdio_reg_init (chipid d))) 0x07 d in
  (d <| bus_up := true |>, ok).

Definition aicwf_sdio_bus_stop (d : dev) : dev :=
  let d := aicwf_sdio_pwrctl_timer 0 d in
  let d := d <| bus_up := false |> in
  let d := (aicwf_sdio_pwr_stctl SDIO_SLEEP_ST d).1 in
  let '(q, freed) := FrameQueue.aicwf_frame_queue_flush (txq (tx d)) in
  emit (OFree <$> freed) (d <| tx ::= fun t => t <| txq := q |> |>).

End Ops.

End Sdio.
