(* ===== verification/SdioAggr.v ===== *)
(** * The bytes of a transmit aggregate

    The layout [enc] of one frame, the reader [parse_aggr] of the format (as
    the comments of aicwf_sdio.c give it: a header of length, type and check
    sum, the descriptor and the frame, alignment to four bytes, a zero word as
    the end), and what the operations on the aggregate do to its bytes. *)

From stdpp Require Import prelude.
From S2P Require Import Prelude FrameQueue CmdTx Sdio.
Open Scope Z_scope.

Module SdioAggr.
Import CmdTx Sdio.

(** ** The format *)

Definition pad4 (n : nat) : nat := Z.to_nat ((- Z.of_nat n) mod 4).

Definition payload (p : skb) : list Z := desc p ++ frame p.

(** The chips without a check sum get the length of the padded frame. *)
Definition content (c : chip) (p : skb) : list Z :=
  if has_crc c then payload p else payload p ++ replicate (pad4 (length (payload p))) 0.

Definition header (c : chip) (l : Z) : list Z :=
  let h := [u8 (Z.land l 0xff); u8 (Z.land (Z.shiftr l 8) 0x0f); 0x01] in
  h ++ [if has_crc c then crc_list 0 h else 0].

Definition enc (c : chip) (p : skb) : list Z :=
  header c (Z.of_nat (length (content c p))) ++ payload p ++ replicate (pad4 (length (payload p))) 0.

Definition enc_all (c : chip) (ps : list skb) : list Z := ps ≫= enc c.

Definition skb_ok (p : skb) : Prop :=
  length (desc p) = 28%nat /\ Z.of_nat (length (frame p)) < 4064.

Fixpoint parse_aggr (c : chip) (fuel : nat) (l : list Z) : list (list Z) :=
  match fuel, l with
  | S fuel, b0 :: b1 :: b2 :: b3 :: r =>
      let n := Z.to_nat (b0 + 2 ^ 8 * b1) in
      if (n =? 0)%nat || negb (b2 =? 1) || (has_crc c && negb (crc_list 0 [b0; b1; b2] =? b3)) then []
      else take n r :: parse_aggr c fuel (drop (n + pad4 n) r)
  | _, _ => []
  end.

(** The reader of a whole write. *)
Definition read_aggr (c : chip) (l : list Z) : list (list Z) := parse_aggr c (length l) l.

(** ** Arithmetic *)

Lemma pad4_mod n : ((n + pad4 n) mod 4 = 0)%nat.
Proof.
  unfold pad4. apply Nat2Z.inj. rewrite Nat2Z.inj_mod, Nat2Z.inj_add, Z2Nat.id by (apply Z.mod_pos_bound; lia).
  change (Z.of_nat 4) with 4. rewrite Z.add_mod_idemp_r by lia. by replace (_ + _) with 0 by lia.
Qed.

Lemma pad4_le n : (pad4 n <= 3)%nat.
Proof. unfold pad4. pose proof (Z.mod_pos_bound (- Z.of_nat n) 4). lia. Qed.

Lemma pad4_add m n : (m mod 4 = 0)%nat -> pad4 (m + n) = pad4 n.
Proof.
  intros Hm. unfold pad4. f_equal. pose proof (Nat.div_mod_eq m 4) as E. rewrite Hm in E.
  replace (- Z.of_nat (m + n)) with (- Z.of_nat n + (- Z.of_nat (m / 4)) * 4) by lia. by rewrite Z.mod_add.
Qed.

Lemma roundup_bounds x n : 0 < n -> x <= roundup x n < x + n /\ roundup x n mod n = 0.
Proof.
  intros Hn. unfold roundup. split; [|by apply Z_mod_mult].
  pose proof (Z.div_mod (x + n - 1) n). pose proof (Z.mod_pos_bound (x + n - 1) n). lia.
Qed.

Lemma roundup_mono x m n : 0 < n -> x <= m -> m mod n = 0 -> roundup x n <= m.
Proof.
  intros Hn Hx Hm. unfold roundup. pose proof (Z.div_mod m n). rewrite (Z.mul_comm _ n).
  enough ((x + n - 1) / n <= m / n) by nia.
  apply Z.le_trans with ((m + (n - 1)) / n); [apply Z.div_le_mono; lia |].
  replace (m + (n - 1)) with ((n - 1) + (m / n) * n) by nia. rewrite Z.div_add, (Z.div_small (n - 1)) by lia. lia.
Qed.

Lemma align_len_pad n : align_len (Z.of_nat n) = Z.of_nat (pad4 n).
Proof.
  unfold align_len, TX_ALIGNMENT, roundup, pad4. change (4 - 1) with (Z.ones 2). rewrite Z.land_ones by lia.
  change (2 ^ 2) with 4. pose proof (Z.mod_pos_bound (Z.of_nat n) 4). pose proof (Z.div_mod (Z.of_nat n) 4).
  destruct (Z.eqb_spec (Z.of_nat n mod 4) 0) as [E | E].
  - rewrite Z.mod_opp_l_z by lia. done.
  - rewrite Z.mod_opp_l_nz by lia. rewrite Z2Nat.id by lia.
    replace (Z.of_nat n + 4 - 1) with ((Z.of_nat n mod 4 + 3) + (Z.of_nat n / 4) * 4) by lia.
    rewrite Z.div_add by lia.
    assert ((Z.of_nat n mod 4 + 3) / 4 = 1) by (symmetry; apply (Z.div_unique _ _ _ (Z.of_nat n mod 4 - 1)); lia). lia.
Qed.

Lemma length_payload p : skb_ok p -> length (payload p) = (28 + length (frame p))%nat.
Proof. intros [Hd _]. unfold payload. rewrite length_app. lia. Qed.

Lemma length_content c p : (length (content c p) = length (payload p) + if has_crc c then 0 else pad4 (length (payload p)))%nat.
Proof. unfold content. destruct (has_crc c); [lia |]. by rewrite length_app, length_replicate. Qed.

Lemma length_enc c p : (length (enc c p) = 4 + length (payload p) + pad4 (length (payload p)))%nat.
Proof. unfold enc. rewrite !length_app, length_replicate. simpl. lia. Qed.

Lemma enc_mod4 c p : (length (enc c p) mod 4 = 0)%nat.
Proof.
  rewrite length_enc. rewrite <- Nat.add_assoc, <- Nat.Div0.add_mod_idemp_r, pad4_mod. done.
Qed.

Lemma enc_all_snoc c ps p : enc_all c (ps ++ [p]) = enc_all c ps ++ enc c p.
Proof. unfold enc_all. rewrite bind_app. cbn. by rewrite app_nil_r. Qed.

Lemma enc_all_mod4 c ps : (length (enc_all c ps) mod 4 = 0)%nat.
Proof.
  induction ps as [|p ps IH]; [done |]. change (enc_all c (p :: ps)) with (enc c p ++ enc_all c ps).
  by rewrite length_app, Nat.Div0.add_mod, enc_mod4, IH.
Qed.

Lemma enc_all_nil c ps : enc_all c ps = [] -> ps = [].
Proof. destruct ps as [|p ps]; [done |]. intros E. apply (f_equal length) in E.
  change (enc_all c (p :: ps)) with (enc c p ++ enc_all c ps) in E. rewrite length_app, length_enc in E. simpl in E. lia. Qed.

(** ** The reader *)

Lemma parse_step c fuel data r :
  1 <= Z.of_nat (length data) < 2 ^ 12 ->
  parse_aggr c (S fuel) (header c (Z.of_nat (length data)) ++ data ++ replicate (pad4 (length data)) 0 ++ r) =
    data :: parse_aggr c fuel r.
Proof.
  intros Hl. unfold header. cbn [app parse_aggr].
  pose proof (lo_hi (Z.of_nat (length data)) 4 ltac:(lia) ltac:(lia)) as E. change (Z.ones 4) with 0x0f in E.
  rewrite E, Nat2Z.id, (proj2 (Nat.eqb_neq _ _)) by lia.
  assert (Hc : forall h, has_crc c && negb (crc_list 0 h =? (if has_crc c then crc_list 0 h else 0)) = false).
  { intros h. destruct (has_crc c); [by rewrite Z.eqb_refl | done]. }
  rewrite Hc. cbn [orb negb Z.eqb Pos.eqb]. f_equal; [by rewrite take_app_length |].
  f_equal. rewrite app_assoc. apply drop_app_length'. by rewrite length_app, length_replicate.
Qed.

Lemma parse_end c fuel r : (exists r', r = 0 :: 0 :: 0 :: 0 :: r') \/ r = [] -> parse_aggr c fuel r = [].
Proof. intros [(r' & ->) | ->]; by destruct fuel. Qed.

(** The padding is part of the content or follows it. *)
Lemma enc_content c p :
  enc c p = header c (Z.of_nat (length (content c p))) ++ content c p ++ replicate (pad4 (length (content c p))) 0.
Proof.
  unfold enc, content. destruct (has_crc c); [done |]. f_equal. rewrite length_app, length_replicate.
  assert (E : pad4 (length (payload p) + pad4 (length (payload p))) = 0%nat).
  { unfold pad4 at 1. pose proof (pad4_mod (length (payload p))) as H. apply (f_equal Z.of_nat) in H.
    rewrite Nat2Z.inj_mod in H. change (Z.of_nat 4) with 4 in H. by rewrite Z.mod_opp_l_z. }
  rewrite E. cbn [replicate]. by rewrite app_nil_r.
Qed.

Lemma content_range c p : skb_ok p -> 1 <= Z.of_nat (length (content c p)) < 2 ^ 12.
Proof.
  intros Hp. pose proof Hp as [_ Hf]. rewrite length_content, length_payload by done.
  pose proof (pad4_mod (28 + length (frame p))). pose proof (pad4_le (28 + length (frame p))).
  pose proof (Nat.div_mod_eq (28 + length (frame p) + pad4 (28 + length (frame p))) 4). destruct (has_crc c); lia.
Qed.

Lemma parse_enc c ps r : Forall skb_ok ps -> (exists r', r = 0 :: 0 :: 0 :: 0 :: r') \/ r = [] ->
  forall fuel, (length ps < fuel)%nat -> parse_aggr c fuel (enc_all c ps ++ r) = content c <$> ps.
Proof.
  intros Hps Hr. induction Hps as [|p ps Hp Hps IH]; intros fuel Hf; [by apply parse_end |].
  destruct fuel as [|fuel]; [simpl in Hf; lia |].
  change (enc_all c (p :: ps)) with (enc c p ++ enc_all c ps). rewrite enc_content, <- !app_assoc.
  rewrite parse_step by (by apply content_range). cbn [fmap list_fmap]. f_equal. apply IH. simpl in Hf. lia.
Qed.

Lemma enc_all_length c ps : (length ps <= length (enc_all c ps))%nat.
Proof.
  induction ps as [|p ps IH]; [done |]. change (enc_all c (p :: ps)) with (enc c p ++ enc_all c ps).
  rewrite length_app, length_enc. simpl. lia.
Qed.

(** A write of the frames [ps]: whole blocks, a zero word behind the frames
    unless they fill the blocks. *)
Definition is_aggr (c : chip) (ps : list skb) (bytes : list Z) : Prop :=
  (exists r, bytes = enc_all c ps ++ r /\ ((exists r', r = 0 :: 0 :: 0 :: 0 :: r') \/ r = [])) /\
  Z.of_nat (length bytes) mod 512 = 0.

Lemma read_is_aggr c ps bytes : Forall skb_ok ps -> is_aggr c ps bytes -> ps <> [] ->
  read_aggr c bytes = content c <$> ps.
Proof.
  intros Hps [(r & -> & Hr) _] Hne. apply parse_enc; [done.. |]. rewrite length_app.
  destruct ps as [|p ps]; [done |]. change (enc_all c (p :: ps)) with (enc c p ++ enc_all c ps).
  rewrite length_app, length_enc. pose proof (enc_all_length c ps). simpl. lia.
Qed.

(** ** The operations *)

(** The aggregate holds [acc], followed by [rest]. *)
Definition buf_at (acc rest : list Z) (t : aicwf_tx_priv) : Prop :=
  aggr_buf t = acc ++ rest /\ tail t = Z.of_nat (length acc).

Lemma splice_at (acc rest src : list Z) : (length src <= length rest)%nat ->
  splice (acc ++ rest) (length acc) src = Ok (acc ++ src ++ drop (length src) rest).
Proof.
  intros Hl. pose proof (splice_app acc (take (length src) rest) (drop (length src) rest) src) as E.
  rewrite take_drop in E. apply E. rewrite length_take. lia.
Qed.

Definition only_buf (t t' : aicwf_tx_priv) : Prop := t' = t <| aggr_buf := aggr_buf t' |> <| tail := tail t' |>.

Lemma only_buf_trans t1 t2 t3 : only_buf t1 t2 -> only_buf t2 t3 -> only_buf t1 t3.
Proof. unfold only_buf. intros -> ->. by destruct t1. Qed.

(** The bytes [X] were added to [acc]. *)
Definition added (acc rest X : list Z) (t t' : aicwf_tx_priv) : Prop :=
  buf_at (acc ++ X) (drop (length X) rest) t' /\ only_buf t t'.

Lemma append_at acc rest X src t t1 : added acc rest X t t1 -> (length X + length src <= length rest)%nat ->
  exists t', append src t1 = Ok t' /\ added acc rest (X ++ src) t t'.
Proof.
  intros [[Hb Ht] Ho] Hl. unfold append. rewrite Hb, Ht, Nat2Z.id, splice_at by (rewrite length_drop; lia).
  cbn [mbind res_bind]. eexists. split; [done |]. split; [split; cbn [upd aggr_buf tail] |].
  - by rewrite drop_drop, length_app, <- !app_assoc.
  - rewrite !length_app in *. lia.
  - eapply only_buf_trans; [done |]. by destruct t1.
Qed.

Lemma added_nil acc rest t : buf_at acc rest t -> added acc rest [] t t.
Proof. intros H. split; [by rewrite app_nil_r, drop_0 | by destruct t]. Qed.

Lemma zeros_of_nat n : zeros (Z.of_nat n) = replicate n 0.
Proof. unfold zeros. by rewrite Nat2Z.id. Qed.

(** The padding: nothing is appended when the length is aligned. *)
Lemma pad_at acc rest X t t1 : added acc rest X t t1 -> (length acc mod 4 = 0)%nat ->
  (length X + pad4 (length X) <= length rest)%nat ->
  exists t', (if align_len (tail t1) =? 0 then Ok t1 else append (zeros (align_len (tail t1))) t1) = Ok t' /\
    added acc rest (X ++ replicate (pad4 (length X)) 0) t t'.
Proof.
  intros Ha Hacc Hl. pose proof Ha as [[_ Ht] _]. rewrite Ht, align_len_pad, length_app, pad4_add, zeros_of_nat by done.
  destruct (Z.eqb_spec (Z.of_nat (pad4 (length X))) 0) as [E | E].
  - exists t1. split; [done |]. replace (pad4 (length X)) with 0%nat by lia. cbn [replicate]. by rewrite app_nil_r.
  - apply append_at; [done |]. rewrite length_replicate. lia.
Qed.

(** The header, the descriptor, the frame and the padding. *)
Lemma body_at c p t acc rest l : skb_ok p -> buf_at acc rest t -> (length acc mod 4 = 0)%nat ->
  (length (enc c p) <= length rest)%nat ->
  exists t', (t ← append (header c l) t; t ← append (desc p) t; t ← append (frame p) t;
              if align_len (tail t) =? 0 then Ok t else append (zeros (align_len (tail t))) t) = Ok t' /\
    added acc rest (header c l ++ payload p ++ replicate (pad4 (length (payload p))) 0) t t'.
Proof.
  intros Hp Ht Hacc Hl. rewrite length_enc, length_payload in Hl by done. pose proof Hp as [Hd _].
  assert (Hh : length (header c l) = 4%nat) by done.
  destruct (append_at _ _ _ (header c l) t t (added_nil _ _ _ Ht)) as (t1 & -> & H1); [simpl; lia |]. cbn [mbind res_bind app] in *.
  destruct (append_at _ _ _ (desc p) _ _ H1) as (t2 & -> & H2); [lia |]. cbn [mbind res_bind].
  destruct (append_at _ _ _ (frame p) _ _ H2) as (t3 & -> & H3); [rewrite length_app; lia |]. cbn [mbind res_bind].
  assert (HX : pad4 (length ((header c l ++ desc p) ++ frame p)) = pad4 (length (payload p))).
  { rewrite !length_app, Hh, <- Nat.add_assoc, pad4_add by done. unfold payload. by rewrite length_app. }
  destruct (pad_at _ _ _ _ _ H3) as (t4 & -> & H4); [done | rewrite HX, length_payload, !length_app by done; lia |].
  exists t4. split; [done |]. rewrite HX in H4. unfold payload. by rewrite <- !app_assoc in *.
Qed.

Lemma header_2 c l l' : exists r, length r = 2%nat /\
  header c l = [u8 (Z.land l 0xff); u8 (Z.land (Z.shiftr l 8) 0x0f)] ++ r /\
  (has_crc c = false -> header c l' = [u8 (Z.land l' 0xff); u8 (Z.land (Z.shiftr l' 8) 0x0f)] ++ r).
Proof. unfold header. destruct (has_crc c); (eexists; split; [|split]; [| reflexivity |]; done). Qed.

Lemma bind_assoc4 {A B} (f1 f2 f3 : A -> res A) (f4 : A -> res A) (k : A -> res B) (x y : A) :
  (x1 ← f1 x; x2 ← f2 x1; x3 ← f3 x2; f4 x3) = Ok y ->
  (x1 ← f1 x; x2 ← f2 x1; x3 ← f3 x2; x4 ← f4 x3; k x4) = k y.
Proof.
  intros E. destruct (f1 x) as [x1 | |]; [cbn [mbind res_bind] in * | done | done].
  destruct (f2 x1) as [x2 | |]; [cbn [mbind res_bind] in * | done | done].
  destruct (f3 x2) as [x3 | |]; [cbn [mbind res_bind] in * | done | done]. by rewrite E.
Qed.

(** The fields the aggregate does not touch. *)
Definition same_tx (t t' : aicwf_tx_priv) : Prop :=
  t' = t <| aggr_buf := aggr_buf t' |> <| tail := tail t' |> <| aggr_count := aggr_count t' |>.

Lemma aggr_at c p t acc rest : skb_ok p -> buf_at acc rest t -> (length acc mod 4 = 0)%nat ->
  (length (enc c p) <= length rest)%nat ->
  exists t', aicwf_sdio_aggr c p t = Ok t' /\ buf_at (acc ++ enc c p) (drop (length (enc c p)) rest) t' /\
    aggr_count t' = aggr_count t + 1 /\ same_tx t t'.
Proof.
  intros Hp Ht Hacc Hl. pose proof Hp as [Hd Hf]. pose proof (length_payload _ Hp) as HL. unfold aicwf_sdio_aggr, TXDESC_API_LEN.
  rewrite u32_id by lia. set (l := Z.of_nat (length (frame p)) + 28).
  set (h := [u8 (Z.land l 0xff); u8 (Z.land (Z.shiftr l 8) 0x0f); 0x01]).
  assert (Hcrc : (if has_crc c then crc8_ponl_107 h 3 else Ok 0) = Ok (if has_crc c then crc_list 0 h else 0)).
  { destruct (has_crc c); [|done]. exact (crc8_list h []). }
  rewrite Hcrc. cbn [mbind res_bind]. change (h ++ [if has_crc c then crc_list 0 h else 0]) with (header c l).
  destruct (body_at c p t acc rest l Hp Ht Hacc Hl) as (t4 & E & [[Hb4 Ht4] Ho4]).
  cbv zeta. rewrite (fun k => bind_assoc4 (append (header c l)) (append (desc p)) (append (frame p)) _ k t t4 E). clear E.
  set (X := header c l ++ payload p ++ replicate (pad4 (length (payload p))) 0) in *.
  assert (HlX : length X = length (enc c p)) by (unfold X, enc; by rewrite !length_app).
  assert (E : (if has_crc c then Ok (aggr_buf t4) else
    splice (aggr_buf t4) (Z.to_nat (tail t))
      [u8 (Z.land (tail t4 - tail t - 4) 255); u8 (Z.land ((tail t4 - tail t - 4) ≫ 8) 15)]) =
    Ok ((acc ++ enc c p) ++ drop (length X) rest)).
  { pose proof Ht as [_ Ht0]. destruct (has_crc c) eqn:Hc.
    - rewrite Hb4. do 3 f_equal. unfold X, enc, content. rewrite Hc. do 2 f_equal. lia.
    - rewrite Hb4, Ht4, Ht0, length_app, HlX, Nat2Z.id. rewrite length_enc.
      replace (Z.of_nat _ - _ - 4) with (Z.of_nat (length (content c p))) by (rewrite length_content, Hc; lia).
      unfold X, enc. destruct (header_2 c l (Z.of_nat (length (content c p)))) as (r & _ & -> & ->); [|done].
      rewrite <- !app_assoc. by rewrite (splice_app acc [_; _]). }
  rewrite E. cbn [mbind res_bind]. eexists. split; [done |].
  split; [split; cbn [upd aggr_buf tail aggr_count] | split].
  - by rewrite HlX.
  - by rewrite Ht4, !length_app, HlX.
  - rewrite Ho4. cbn [upd aggr_count]. lia.
  - unfold same_tx. rewrite Ho4. by destruct t.
Qed.

(** The link tail. *)
Lemma tail_at acc rest t : buf_at acc rest t -> (4 <= length rest)%nat ->
  exists t' tl, (if tail t mod TXPKT_BLOCKSIZE =? 0 then Ok t else append (zeros TAIL_LEN) t) = Ok t' /\
    added acc rest tl t t' /\ (tl = [0; 0; 0; 0] \/ tl = [] /\ Z.of_nat (length acc) mod 512 = 0).
Proof.
  intros Ht Hl. pose proof Ht as [_ Htl]. rewrite Htl. unfold TXPKT_BLOCKSIZE.
  destruct (Z.eqb_spec (Z.of_nat (length acc) mod 512) 0) as [E | E].
  - exists t, []. split_and!; [done | by apply added_nil | by right].
  - destruct (append_at acc rest [] (zeros TAIL_LEN) t t (added_nil _ _ _ Ht)) as (t' & -> & H); [simpl; lia |].
    exists t', [0; 0; 0; 0]. split_and!; [done | done | by left].
Qed.

Lemma take_is_aggr c ps rest tl : (tl = [0; 0; 0; 0] \/ tl = [] /\ Z.of_nat (length (enc_all c ps)) mod 512 = 0) ->
  let buf := (enc_all c ps ++ tl) ++ drop (length tl) rest in
  let n := roundup (Z.of_nat (length (enc_all c ps ++ tl))) 512 in
  n <= Z.of_nat (length buf) -> is_aggr c ps (take (Z.to_nat n) buf).
Proof.
  intros Htl buf n Hn. destruct (roundup_bounds (Z.of_nat (length (enc_all c ps ++ tl))) 512) as [Hr Hm]; [lia |]. fold n in Hr, Hm.
  split; [| rewrite length_take, Nat.min_l by lia; by rewrite Z2Nat.id by lia].
  unfold buf. rewrite take_app_ge by lia. rewrite <- app_assoc. eexists. split; [done |].
  destruct Htl as [-> | [-> E]]; [left; by eexists |]. right.
  assert (n <= Z.of_nat (length (enc_all c ps ++ []))) by (apply roundup_mono; [lia | lia | by rewrite app_nil_r]).
  by replace (Z.to_nat n - _)%nat with 0%nat by lia.
Qed.

(** Sending the aggregate [ps]. *)
Lemma aggr_send_at w d ps rest : bus_up d = true -> buf_at (enc_all (chipid d) ps) rest (tx d) ->
  (4 <= length rest)%nat -> (length (aggr_buf (tx d)) mod 512 = 0)%nat ->
  exists d' bytes ok, aicwf_sdio_aggr_send w d = Ok d' /\ is_aggr (chipid d) ps bytes /\
    outs d' = outs d ++ [OWrite false bytes ok] /\ tail (tx d') = 0 /\ aggr_count (tx d') = 0 /\
    length (aggr_buf (tx d')) = length (aggr_buf (tx d)) /\ same_tx (tx d) (tx d') /\
    d' = d <| tx := tx d' |> <| clk := S (clk d) |> <| outs := outs d' |>.
Proof.
  intros Hup Ht Hl Hm. unfold aicwf_sdio_aggr_send.
  destruct (tail_at _ _ _ Ht Hl) as (t' & tl & -> & [[Hb Htl] Ho] & Hor). cbn [mbind res_bind].
  assert (Hlen : length (aggr_buf t') = length (aggr_buf (tx d))).
  { destruct Ht as [-> _]. rewrite Hb, !length_app, length_drop. destruct Hor as [-> | [-> _]]; simpl; lia. }
  assert (Hn : roundup (tail t') 512 <= Z.of_nat (length (aggr_buf t'))).
  { apply roundup_mono; [lia | rewrite Htl, Hb, !length_app; lia |].
    apply (f_equal Z.of_nat) in Hm. rewrite Nat2Z.inj_mod in Hm. by rewrite Hlen. }
  unfold aicwf_sdio_txpkt. cbn [upd bus_up]. rewrite Hup. cbn [negb]. unfold aicwf_sdio_send_pkt, SDIOWIFI_FUNC_BLOCKSIZE.
  rewrite (proj2 (Z.leb_le _ _)) by done. cbn [mbind res_bind fst].
  eexists _, (take (Z.to_nat (roundup (tail t') 512)) (aggr_buf t')), (w_wr w (clk d)). split; [done |].
  split; [rewrite Htl, Hb in *; by apply take_is_aggr |]. split; [done |]. split; [done |]. split; [done |].
  split; [exact Hlen |]. split; [| by destruct d].
  cbn. unfold aicwf_sdio_aggrbuf_reset, same_tx. rewrite Ho. by destruct (tx d).
Qed.

(** Adding frames one after the other. *)
Fixpoint aggr_all (c : chip) (ps : list skb) (t : aicwf_tx_priv) : res aicwf_tx_priv :=
  match ps with [] => Ok t | p :: ps => t ← aicwf_sdio_aggr c p t; aggr_all c ps t end.

Lemma same_tx_trans t1 t2 t3 : same_tx t1 t2 -> same_tx t2 t3 -> same_tx t1 t3.
Proof. unfold same_tx. intros -> ->. by destruct t1. Qed.

Lemma aggr_all_at c ps : Forall skb_ok ps -> forall t acc rest, buf_at acc rest t -> (length acc mod 4 = 0)%nat ->
  (length (enc_all c ps) <= length rest)%nat ->
  exists t', aggr_all c ps t = Ok t' /\ buf_at (acc ++ enc_all c ps) (drop (length (enc_all c ps)) rest) t' /\
    aggr_count t' = aggr_count t + Z.of_nat (length ps) /\ same_tx t t'.
Proof.
  induction 1 as [|p ps Hp _ IH]; intros t acc rest Ht Hacc Hl; cbn [aggr_all].
  - exists t. rewrite app_nil_r. split_and!; [done | done | simpl; lia | by destruct t].
  - change (enc_all c (p :: ps)) with (enc c p ++ enc_all c ps) in *. rewrite length_app in Hl.
    destruct (aggr_at c p t acc rest) as (t1 & -> & H1 & Hc1 & Hs1); [done.. | lia |]. cbn [mbind res_bind].
    destruct (IH t1 _ _ H1) as (t2 & -> & H2 & Hc2 & Hs2);
      [by rewrite length_app, Nat.Div0.add_mod, Hacc, enc_mod4 | rewrite length_drop; lia |].
    exists t2. split; [done |]. rewrite length_app, <- drop_drop, app_assoc. split; [done |].
    split; [simpl; lia | by eapply same_tx_trans].
Qed.

Lemma max_aggr_mod : (Z.to_nat MAX_AGGR_TXPKT_LEN mod 512 = 0)%nat.
Proof. unfold MAX_AGGR_TXPKT_LEN. by rewrite <- (Z2Nat.inj_mod _ 512) by lia. Qed.

(** C32. A reader that follows the SDIO format (a header with the length and, on newer
    chips, a checksum, four-byte alignment, a zero tail) gets back from an aggregate
    exactly the descriptors and frames put in, and the write is a whole number of
    blocks; on the chips with the old header the content of a frame includes the zeros
    that align it. *)
Theorem sdio_aggregate_roundtrip w d ps :
  bus_up d = true -> tail (tx d) = 0 -> aggr_count (tx d) = 0 ->
  length (aggr_buf (tx d)) = Z.to_nat MAX_AGGR_TXPKT_LEN ->
  Forall skb_ok ps -> ps <> [] -> Z.of_nat (length (enc_all (chipid d) ps)) + 4 <= MAX_AGGR_TXPKT_LEN ->
  exists t d' bytes ok, aggr_all (chipid d) ps (tx d) = Ok t /\ aggr_count t = Z.of_nat (length ps) /\
    aicwf_sdio_aggr_send w (d <| tx := t |>) = Ok d' /\ tail (tx d') = 0 /\ aggr_count (tx d') = 0 /\
    outs d' = outs d ++ [OWrite false bytes ok] /\ Z.of_nat (length bytes) mod SDIOWIFI_FUNC_BLOCKSIZE = 0 /\
    read_aggr (chipid d) bytes = content (chipid d) <$> ps.
Proof.
  intros Hup Ht0 Hc0 Hlb Hps Hne Hsz.
  destruct (aggr_all_at (chipid d) ps Hps (tx d) [] (aggr_buf (tx d))) as (t & -> & Ht & Hc & Hs); [done | done | lia |].
  cbn [app] in Ht. exists t. set (d1 := d <| tx := t |>).
  assert (Hlt : length (aggr_buf t) = Z.to_nat MAX_AGGR_TXPKT_LEN).
  { destruct Ht as [-> _]. rewrite length_app, length_drop. lia. }
  destruct (aggr_send_at w d1 ps (drop (length (enc_all (chipid d) ps)) (aggr_buf (tx d))) Hup Ht)
    as (d' & bytes & ok & -> & Ha & Ho & Htl & Hcnt & _); [rewrite length_drop; lia | |].
  { change (tx d1) with t. rewrite Hlt. apply max_aggr_mod. }
  exists d', bytes, ok. split; [done |]. split; [lia |]. do 4 (split; [done |]). split; [apply Ha |]. by apply read_is_aggr.
Qed.

(** ** Instances *)

Module Example.

Definition w0 : world := World (fun _ _ => Some 40) (fun _ => true) (fun _ => []) 32.
Definition f1 : skb := Skb 1 [1; 2; 3; 4; 5] (replicate 28 7) false 0.
Definition f2 : skb := Skb 2 (replicate 10 9) (replicate 28 8) true 3.
Definition d0 (c : chip) : dev := (aicwf_sdio_bus_start w0 (aicwf_sdio_bus_init c)).1.

Lemma d0_buffer c : length (aggr_buf (tx (d0 c))) = Z.to_nat MAX_AGGR_TXPKT_LEN.
Proof. destruct c; apply length_replicate. Qed.

Lemma sdio_aggregate_roundtrip_witness :
  exists t d' bytes ok, aggr_all PRODUCT_ID_AIC8800D80 [f1; f2] (tx (d0 PRODUCT_ID_AIC8800D80)) = Ok t /\ aggr_count t = 2 /\
    aicwf_sdio_aggr_send w0 ((d0 PRODUCT_ID_AIC8800D80) <| tx := t |>) = Ok d' /\ tail (tx d') = 0 /\ aggr_count (tx d') = 0 /\
    outs d' = outs (d0 PRODUCT_ID_AIC8800D80) ++ [OWrite false bytes ok] /\ Z.of_nat (length bytes) mod 512 = 0 /\
    read_aggr PRODUCT_ID_AIC8800D80 bytes = [replicate 28 7 ++ [1; 2; 3; 4; 5]; replicate 28 8 ++ replicate 10 9].
Proof.
  apply (sdio_aggregate_roundtrip w0 (d0 PRODUCT_ID_AIC8800D80) [f1; f2]); [reflexivity | reflexivity | reflexivity | apply d0_buffer | | discriminate |].
  - repeat constructor.
  - vm_compute. discriminate.
Defined.

End Example.

End SdioAggr.
