(* ===== verification/SdioInv.v ===== *)
(** * The invariant of the SDIO transmit path

    What the trace of a device says ([accs]: frames accepted from the driver,
    [handed]: frames read back from the writes, [credit]: buffers the firmware
    has left by its last flow control value), the invariant [txi] that ties it
    to the queue, the aggregate and the counters, and its preservation by the
    events of the other threads. *)

From stdpp Require Import prelude.
From S2P Require Import Prelude FrameQueue CmdMgr CmdTx Sdio SdioAggr.
Open Scope Z_scope.

Module SdioInv.
Import CmdTx Sdio SdioAggr.

(** ** Reading the trace *)

Definition accs (o : list out) : list skb := o ≫= fun x => match x with OAccept p => [p] | _ => [] end.

(** The frames in the writes, whether the bus driver reports them done or not. *)
Definition handed (c : chip) (o : list out) : list (list Z) :=
  o ≫= fun x => match x with OWrite false b _ => read_aggr c b | _ => [] end.

(** The frames in the writes, each with the result of its write: a write that
    fails is logged, and the aggregate is reset like after one that succeeds. *)
Definition tries (c : chip) (o : list out) : list (list Z * bool) :=
  o ≫= fun x => match x with OWrite false b ok => (fun f => (f, ok)) <$> read_aggr c b | _ => [] end.

(** What the firmware reads. *)
Definition wire (c : chip) (o : list out) : list (list Z) := (filter (fun f => f.2 = true) (tries c o)).*1.

(** No write of frames failed. *)
Definition all_written (o : list out) : Prop := forall b, OWrite false b false ∉ o.

Definition credit_step (c : chip) (a : Z) (x : out) : Z :=
  match x with
  | ORd r (Some v) => if r =? flow_ctrl_reg (aicwf_sdio_reg_init c) then flow_mask c v else a
  | OWrite false b _ => a - Z.of_nat (length (read_aggr c b))
  | _ => a
  end.

(** The firmware's buffers left. *)
Definition credit (c : chip) (o : list out) : Z := foldl (credit_step c) 0 o.

(** No write of frames uses the last two buffers announced. *)
Definition credits_kept (c : chip) (o : list out) : Prop :=
  forall pre b ok post, o = pre ++ OWrite false b ok :: post ->
    DATA_FLOW_CTRL_THRESH <= credit c (pre ++ [OWrite false b ok]).

Lemma accs_app o1 o2 : accs (o1 ++ o2) = accs o1 ++ accs o2.
Proof. apply bind_app. Qed.

Lemma handed_app c o1 o2 : handed c (o1 ++ o2) = handed c o1 ++ handed c o2.
Proof. apply bind_app. Qed.

Lemma credit_app c o1 o2 : credit c (o1 ++ o2) = foldl (credit_step c) (credit c o1) o2.
Proof. apply foldl_app. Qed.

Lemma tries_handed c o : (tries c o).*1 = handed c o.
Proof.
  unfold tries, handed. induction o as [|x o IH]; [done |]. cbn [mbind list_bind]. rewrite fmap_app. f_equal; [| exact IH].
  destruct x as [| | [] b ok | |]; try done. rewrite <- list_fmap_compose. apply list_fmap_id.
Qed.

(** The frames written carry the results of their writes. *)
Lemma tries_sent c o sent : handed c o = content c <$> sent ->
  exists fr : list (skb * bool), fr.*1 = sent /\ tries c o = prod_map (content c) id <$> fr.
Proof.
  rewrite <- tries_handed. generalize (tries c o). intros l. revert sent.
  induction l as [|[f ok] l IH]; intros [|p sent] E; try done; [by exists [] |].
  cbn in E. injection E as E1 E2. destruct (IH sent E2) as (fr & <- & ->). exists ((p, ok) :: fr). by rewrite E1.
Qed.

Lemma wire_tries c o (fr : list (skb * bool)) : tries c o = prod_map (content c) id <$> fr ->
  wire c o = content c <$> (filter (fun x => x.2 = true) fr).*1.
Proof.
  unfold wire. intros ->. induction fr as [|[p ok] fr IH]; [done |]. cbn [fmap list_fmap prod_map fst snd id].
  rewrite !filter_cons. cbn [snd]. destruct (decide (ok = true)); cbn [fmap list_fmap fst]; by rewrite IH.
Qed.

Lemma filter_every {A} (P : A -> Prop) `{!forall x, Decision (P x)} l : Forall P l -> filter P l = l.
Proof. induction 1 as [|x l Hx _ IH]; [done |]. rewrite filter_cons_True by done. by f_equal. Qed.

Lemma wire_all c o : all_written o -> wire c o = handed c o.
Proof.
  intros Ho. rewrite <- tries_handed. unfold wire. f_equal. apply filter_every, Forall_forall. unfold tries.
  intros [f ok] (x & Hx & Hin)%list_elem_of_bind. destruct x as [| | [] b ok' | |]; try by apply not_elem_of_nil in Hx.
  apply list_elem_of_fmap in Hx as (g & [= -> ->] & _). destruct ok'; [done |]. by apply Ho in Hin.
Qed.

(** An output that is none of the data path's. *)
Definition quiet (c : chip) (x : out) : Prop :=
  match x with
  | ORd r _ => r <> flow_ctrl_reg (aicwf_sdio_reg_init c)
  | OWrite false _ _ | OAccept _ => False
  | _ => True
  end.

(** The same, and no write to the FIFO. *)
Definition no_fifo (c : chip) (x : out) : Prop :=
  match x with
  | ORd r _ => r <> flow_ctrl_reg (aicwf_sdio_reg_init c)
  | OWrite _ _ _ | OAccept _ => False
  | _ => True
  end.

Lemma no_fifo_quiet c o : Forall (no_fifo c) o -> Forall (quiet c) o.
Proof. intros H. eapply Forall_impl; [exact H |]. by intros []. Qed.

Lemma quiet_trace c o : Forall (quiet c) o -> accs o = [] /\ handed c o = [] /\ forall a, foldl (credit_step c) a o = a.
Proof.
  induction 1 as [|x o Hx _ (IH1 & IH2 & IH3)]; [done |].
  assert (E : accs [x] = [] /\ handed c [x] = [] /\ forall a, credit_step c a x = a).
  { destruct x as [r [v|] | | [|] b ok | |]; try done. split_and!; [done.. |]. intros a. cbn. simpl in Hx.
    by rewrite (proj2 (Z.eqb_neq _ _)). }
  destruct E as (E1 & E2 & E3). change (x :: o) with ([x] ++ o). rewrite accs_app, handed_app, E1, E2.
  split_and!; [done | done |]. intros a. cbn [app foldl]. by rewrite E3.
Qed.

Lemma credits_snoc c o x : credits_kept c o -> (forall b ok, x = OWrite false b ok -> 2 <= credit c (o ++ [x])) ->
  credits_kept c (o ++ [x]).
Proof.
  intros Hk Hx pre b ok post E. destruct post as [|y post _] using rev_ind.
  - apply app_inj_tail in E as [<- ->]. by eapply Hx.
  - rewrite app_comm_cons, app_assoc in E. apply app_inj_tail in E as [-> ->]. by eapply Hk.
Qed.

Lemma credits_quiet c o1 o2 : credits_kept c o1 -> Forall (fun x => forall b ok, x <> OWrite false b ok) o2 ->
  credits_kept c (o1 ++ o2).
Proof.
  intros Hk. induction o2 as [|x o2 IH] using rev_ind; intros Hq; [by rewrite app_nil_r |].
  apply Forall_app in Hq as [Hq Hx]. rewrite app_assoc. apply credits_snoc; [by apply IH |].
  intros b ok ->. apply Forall_cons in Hx as [Hx _]. by destruct (Hx b ok).
Qed.

(** ** Power control does not touch the data path *)

Record pstep (d d' : dev) : Prop := {
  ps_tx : tx d' = tx d;
  ps_chip : chipid d' = chipid d;
  ps_bus : bus_up d' = bus_up d;
  ps_trgg : bustx_trgg d' = bustx_trgg d;
  ps_rx : rx_cnt d' = rx_cnt d;
  ps_clk : (clk d <= clk d')%nat;
  ps_outs : exists o, outs d' = outs d ++ o /\ Forall (no_fifo (chipid d)) o }.

Lemma pstep_refl d : pstep d d.
Proof. split; try done. exists []. by rewrite app_nil_r. Qed.

Lemma pstep_trans d1 d2 d3 : pstep d1 d2 -> pstep d2 d3 -> pstep d1 d3.
Proof.
  intros [H1 H2 H3 H4 Hx Hc (o1 & H5 & H6)] [G1 G2 G3 G4 Gx Gc (o2 & G5 & G6)]. split; try congruence; [lia |].
  exists (o1 ++ o2). rewrite G5, H5, app_assoc. split; [done |]. apply Forall_app. split; [done | by rewrite <- H2].
Qed.

(** Accesses to registers other than the flow control register. *)
Lemma readb_pstep w reg d : reg <> flow_ctrl_reg (aicwf_sdio_reg_init (chipid d)) -> pstep d (aicwf_sdio_readb w reg d).1.
Proof. intros H. split; try done; [cbn; lia |]. eexists. split; [reflexivity |]. by apply Forall_singleton. Qed.

Lemma writeb_pstep w f reg v d : pstep d (writeb w f reg v d).1.
Proof. split; try done; [cbn; lia |]. eexists. split; [reflexivity |]. by apply Forall_singleton. Qed.

Lemma wakeup_not_flow c : wakeup_reg (aicwf_sdio_reg_init c) <> flow_ctrl_reg (aicwf_sdio_reg_init c).
Proof. by destruct c. Qed.

Lemma timer_pstep n d : pstep d (aicwf_sdio_pwrctl_timer n d).
Proof. unfold aicwf_sdio_pwrctl_timer. repeat case_match; (split; [done.. | exists []; by rewrite app_nil_r]). Qed.

Lemma wakeup_poll_pstep w n : forall d, pstep d (wakeup_poll w n d).
Proof.
  induction n as [|n IH]; intros d; cbn [wakeup_poll]; [apply pstep_refl |].
  pose proof (readb_pstep w (wakeup_reg (aicwf_sdio_reg_init (chipid d))) d (wakeup_not_flow _)) as H.
  destruct (aicwf_sdio_readb w _ d) as [d' [v ok]]. cbn [fst] in H. case_match; [done |].
  eapply pstep_trans; [done | apply IH].
Qed.

Lemma sleep_poll_pstep w n : forall d, pstep d (sleep_poll w n d).
Proof.
  induction n as [|n IH]; intros d; cbn [sleep_poll]; [apply pstep_refl |]. unfold aicwf_sdio_func2_readb.
  pose proof (readb_pstep w (wakeup_reg (aicwf_sdio_reg_init (chipid d))) d (wakeup_not_flow _)) as H.
  destruct (aicwf_sdio_readb w _ d) as [d' [v ok]]. cbn [fst] in H. case_match; [done |].
  eapply pstep_trans; [done | apply IH].
Qed.

(** Fields outside [pstep] may change as well. *)
Lemma pstep_set (d d' d'' : dev) : pstep d d' -> tx d'' = tx d' -> chipid d'' = chipid d' -> bus_up d'' = bus_up d' ->
  bustx_trgg d'' = bustx_trgg d' -> clk d'' = clk d' -> outs d'' = outs d' -> rx_cnt d'' = rx_cnt d' -> pstep d d''.
Proof. intros [H1 H2 H3 H4 Hx Hc H5] G1 G2 G3 G4 Gc G5 Gx. split; congruence || lia || (by rewrite G5). Qed.

Lemma sleep_regs_pstep w d : pstep d (sleep_regs w d).
Proof.
  unfold sleep_regs. destruct (chipid d) eqn:E; try apply writeb_pstep;
    (eapply pstep_trans; [apply writeb_pstep | apply sleep_poll_pstep]).
Qed.

Lemma sleep_done_pstep d : pstep d (sleep_done d).
Proof. unfold sleep_done. eapply pstep_trans; [| apply timer_pstep]. apply (pstep_set d d); [apply pstep_refl | reflexivity..]. Qed.

Lemma sema_pstep d : pstep d (down_wakeup_sema d).
Proof. unfold down_wakeup_sema. case_match; [| apply pstep_refl]. apply (pstep_set d (sleep_done d)); [apply sleep_done_pstep | reflexivity..]. Qed.

Lemma wakeup_pstep w d : pstep d (aicwf_sdio_wakeup w d).
Proof.
  unfold aicwf_sdio_wakeup. case_match; [| apply pstep_refl].
  pose proof (writeb_pstep w 1 (wakeup_reg (aicwf_sdio_reg_init (chipid d))) (wakeup_reg_val (chipid d)) d) as H1.
  unfold aicwf_sdio_writeb. destruct (writeb w 1 _ _ d) as [d1 ok]. cbn [fst] in H1.
  set (d2 := if ok then wakeup_poll w 50 d1 else d1).
  assert (H2 : pstep d d2) by (unfold d2; destruct ok; [eapply pstep_trans; [done | apply wakeup_poll_pstep] | done]).
  eapply pstep_trans; [| apply timer_pstep]. apply (pstep_set d d2); [done | reflexivity..].
Qed.

Lemma sleep_allow_pstep w d : pstep d (aicwf_sdio_sleep_allow w d).
Proof.
  unfold aicwf_sdio_sleep_allow. case_match; [eapply pstep_trans; [apply writeb_pstep | apply timer_pstep] |].
  case_match; [eapply pstep_trans; [apply sleep_regs_pstep | apply sleep_done_pstep] | apply timer_pstep].
Qed.

Lemma pwr_stctl_pstep w t d : pstep d (aicwf_sdio_pwr_stctl w t d).1.
Proof.
  unfold aicwf_sdio_pwr_stctl. case_match; [apply pstep_refl |]. eapply pstep_trans; [apply sema_pstep |].
  case_match; [case_match; [apply timer_pstep | apply pstep_refl] |].
  destruct t; [apply sleep_allow_pstep | apply wakeup_pstep].
Qed.

Lemma pwrctl_thread_pstep w d : pstep d (aicwf_sdio_pwrctl_thread w d).
Proof.
  unfold aicwf_sdio_pwrctl_thread. destruct (pwrctrl_trgg d) as [|n]; [apply pstep_refl |].
  eapply pstep_trans; [apply (pstep_set d d (d <| pwrctrl_trgg := n |>)); [apply pstep_refl | reflexivity..] |].
  case_match; [apply pstep_refl |]. case_match; [apply pwr_stctl_pstep | apply timer_pstep].
Qed.

Lemma sleep_begin_pstep w d : pstep d (sleep_begin w d).
Proof.
  unfold sleep_begin. destruct (pwrctrl_trgg d) as [|n]; [apply pstep_refl |]. case_match; [| apply pwrctl_thread_pstep].
  set (d1 := down_wakeup_sema (d <| pwrctrl_trgg := n |>)).
  assert (H1 : pstep d d1).
  { eapply pstep_trans; [| apply sema_pstep]. apply (pstep_set d d); [apply pstep_refl | reflexivity..]. }
  apply (pstep_set d (sleep_regs w d1)); [| reflexivity..]. eapply pstep_trans; [done | apply sleep_regs_pstep].
Qed.

(** ** Going to sleep *)

Definition awake (d : dev) : Prop := state d = SDIO_ACTIVE_ST /\ sleeping d = false.

(** Nothing to send is counted. *)
Definition drained (d : dev) : Prop := tx_pktcnt (tx d) <= 0 /\ cmd_txstate (tx d) = false.

Lemma timer_state n d : state (aicwf_sdio_pwrctl_timer n d) = state d /\ sleeping (aicwf_sdio_pwrctl_timer n d) = sleeping d.
Proof. unfold aicwf_sdio_pwrctl_timer. by repeat case_match. Qed.

Lemma may_sleep_drained d : may_sleep d = true -> drained d.
Proof.
  unfold may_sleep, drained. rewrite !andb_true_iff, !negb_true_iff, Z.leb_le. tauto.
Qed.

Lemma idle_drained d : idle d = true -> drained d.
Proof. unfold idle, drained. rewrite !andb_true_iff, !negb_true_iff, Z.leb_le. tauto. Qed.

Lemma awake_timer n d : awake d -> awake (aicwf_sdio_pwrctl_timer n d).
Proof. unfold awake. by destruct (timer_state n d) as [-> ->]. Qed.

(** Register accesses change the clock and the trace only. *)
Definition bus_only (d d' : dev) : Prop := d' = d <| clk := clk d' |> <| outs := outs d' |>.

Lemma bus_only_trans d1 d2 d3 : bus_only d1 d2 -> bus_only d2 d3 -> bus_only d1 d3.
Proof. unfold bus_only. intros -> ->. by destruct d1. Qed.

Lemma readb_bus w reg d : bus_only d (aicwf_sdio_readb w reg d).1.
Proof. by destruct d. Qed.

Lemma writeb_bus w f reg v d : bus_only d (writeb w f reg v d).1.
Proof. by destruct d. Qed.

Lemma wakeup_poll_bus w n : forall d, bus_only d (wakeup_poll w n d).
Proof.
  induction n as [|n IH]; intros d; cbn [wakeup_poll]; [by destruct d |].
  pose proof (readb_bus w (wakeup_reg (aicwf_sdio_reg_init (chipid d))) d) as H.
  destruct (aicwf_sdio_readb w _ d) as [d' [v ok]]. case_match; [done |]. by eapply bus_only_trans.
Qed.

Lemma sleep_poll_bus w n : forall d, bus_only d (sleep_poll w n d).
Proof.
  induction n as [|n IH]; intros d; cbn [sleep_poll]; [by destruct d |]. unfold aicwf_sdio_func2_readb.
  pose proof (readb_bus w (wakeup_reg (aicwf_sdio_reg_init (chipid d))) d) as H.
  destruct (aicwf_sdio_readb w _ d) as [d' [v ok]]. case_match; [done |]. by eapply bus_only_trans.
Qed.

Lemma sleep_regs_bus w d : bus_only d (sleep_regs w d).
Proof.
  unfold sleep_regs. destruct (chipid d); try apply writeb_bus;
    (eapply bus_only_trans; [apply writeb_bus | apply sleep_poll_bus]).
Qed.

(** The wake-up: a write, polls, the new state, the timer. *)
Lemma wakeup_eq w d : state d = SDIO_SLEEP_ST -> exists d2, bus_only d d2 /\
  aicwf_sdio_wakeup w d = aicwf_sdio_pwrctl_timer (active_duration d) (d2 <| state := SDIO_ACTIVE_ST |>).
Proof.
  intros Hs. unfold aicwf_sdio_wakeup. rewrite decide_True by done.
  pose proof (writeb_bus w 1 (wakeup_reg (aicwf_sdio_reg_init (chipid d))) (wakeup_reg_val (chipid d)) d) as H.
  unfold aicwf_sdio_writeb. destruct (writeb w 1 _ _ d) as [d1 ok]. cbn [fst] in H.
  exists (if ok then wakeup_poll w 50 d1 else d1).
  assert (H2 : bus_only d (if ok then wakeup_poll w 50 d1 else d1)).
  { destruct ok; [| done]. eapply bus_only_trans; [done | apply wakeup_poll_bus]. }
  split; [done |]. f_equal. by rewrite H2.
Qed.

Lemma pwr_stctl_active w d : bus_up d = true -> awake (aicwf_sdio_pwr_stctl w SDIO_ACTIVE_ST d).1.
Proof.
  intros Hb. unfold aicwf_sdio_pwr_stctl. rewrite Hb. cbn [negb].
  assert (Hs : sleeping (down_wakeup_sema d) = false) by (unfold down_wakeup_sema; by destruct (sleeping d) eqn:E).
  destruct (decide (state (down_wakeup_sema d) = SDIO_ACTIVE_ST)) as [Ha | Ha]; [by apply awake_timer |].
  cbn [fst]. destruct (wakeup_eq w (down_wakeup_sema d)) as (d2 & H & ->); [by destruct (state _) |].
  apply awake_timer. split; [done |]. rewrite H. exact Hs.
Qed.

Lemma pwrctl_thread_awake w d : awake d -> awake (aicwf_sdio_pwrctl_thread w d) \/ drained d.
Proof.
  intros Ha. unfold aicwf_sdio_pwrctl_thread. destruct (pwrctrl_trgg d) as [|n]; [by left |].
  case_match; [by left |]. case_match eqn:E; [| left; by apply awake_timer].
  right. exact (idle_drained _ E).
Qed.

Lemma sleep_begin_awake w d : awake d -> awake (sleep_begin w d) \/ drained d.
Proof.
  intros Ha. unfold sleep_begin. destruct (pwrctrl_trgg d) as [|n]; [by left |].
  case_match eqn:E; [| by apply pwrctl_thread_awake]. right. apply idle_drained.
  rewrite !andb_true_iff in E. apply E.
Qed.

Lemma pwr_sleep_awake w d : awake d -> awake (aicwf_sdio_pwr_stctl w SDIO_SLEEP_ST d).1 \/ drained d.
Proof.
  intros Ha. unfold aicwf_sdio_pwr_stctl. destruct (bus_up d) eqn:Hb; cbn [negb]; [| by left].
  assert (down_wakeup_sema d = d) as -> by (destruct Ha as [_ H]; unfold down_wakeup_sema; by rewrite H).
  destruct (decide _) as [E | _]; [destruct Ha; congruence |]. cbn [fst]. unfold aicwf_sdio_sleep_allow. rewrite Hb. cbn [negb].
  destruct (may_sleep d) eqn:Hm; [right; by apply may_sleep_drained | left; by apply awake_timer].
Qed.

Lemma suspend_pstep w k d : pstep d (aicwf_sdio_suspend w k d).1.
Proof.
  unfold aicwf_sdio_suspend. destruct k; cbn [negb]; [| apply pstep_refl]. cbv zeta. cbn [fst].
  destruct (decide (state d = SDIO_ACTIVE_ST)); [| by apply (pstep_set d d); [apply pstep_refl | ..]].
  apply (pstep_set d (aicwf_sdio_pwr_stctl w SDIO_SLEEP_ST d).1); [apply pwr_stctl_pstep | reflexivity..].
Qed.

Lemma suspend_awake w k d : awake d -> awake (aicwf_sdio_suspend w k d).1 \/ drained d.
Proof.
  intros Ha. unfold aicwf_sdio_suspend. destruct k; cbn [negb]; [| by left]. cbv zeta. cbn [fst].
  destruct (decide (state d = SDIO_ACTIVE_ST)); [exact (pwr_sleep_awake w d Ha) | by left].
Qed.

Lemma resume_pstep w d : pstep d (aicwf_sdio_resume w d).
Proof. apply (pstep_set d (aicwf_sdio_pwr_stctl w SDIO_ACTIVE_ST d).1); [apply pwr_stctl_pstep | reflexivity..]. Qed.

Lemma sema_awake d : awake d -> down_wakeup_sema d = d.
Proof. intros [_ H]. unfold down_wakeup_sema. by rewrite H. Qed.

(** ** The invariant *)

Definition prio_of (p : skb) : nat := Z.to_nat (Z.land (priority p) 0x7).
Definition with_prio (n : nat) (ps : list skb) : list skb := filter (fun p => prio_of p = n) ps.

Lemma with_prio_app n l1 l2 : with_prio n (l1 ++ l2) = with_prio n l1 ++ with_prio n l2.
Proof. apply filter_app. Qed.

Lemma with_prio_queue n (l : list (nat * skb)) : Forall (fun e => e.1 = prio_of e.2) l ->
  with_prio n l.*2 = FrameQueue.of_prio n l.
Proof.
  induction 1 as [|e l He _ IH]; [done |]. cbn [fmap list_fmap]. unfold with_prio in *. rewrite FrameQueue.of_prio_cons, filter_cons, IH, He.
  by destruct (decide (prio_of e.2 = n)).
Qed.

Lemma prio_of_bound p : (prio_of p < 8)%nat.
Proof.
  unfold prio_of. change 0x7 with (Z.ones 3). rewrite Z.land_ones by lia. pose proof (Z.mod_pos_bound (priority p) (2 ^ 3)). lia.
Qed.

Section Inv.
Context (w : world) (M : Z).

(** The frames are at most [M] bytes long, and [tx_aggr_counter] of them fit
    into the aggregate. *)
Definition fits (p : skb) : Prop := skb_ok p /\ Z.of_nat (length (frame p)) <= M.

Definition world_ok : Prop := 1 <= tx_aggr_counter w /\ 0 <= M /\ tx_aggr_counter w * (M + 35) + 4 <= MAX_AGGR_TXPKT_LEN.

Definition event_ok (e : event) : Prop :=
  match e with
  | EvData p => fits p
  | EvMsg msg len => length msg = Z.to_nat CmdMgr.CMD_BUF_MAX /\ 0 <= len <= 1528
  | _ => True
  end.

(** [l]: the queue; [hold]: the frame just taken from it; [ag]: the
    aggregate; [k]: frames taken but still counted; [sent]: the frames
    written. *)
Record txi (d : dev) (l : list (nat * skb)) (hold ag : list skb) (k : Z) (sent : list skb) : Prop := {
  i_q : FrameQueue.fq_inv (txq (tx d)) l;
  i_num : FrameQueue.num_prio (txq (tx d)) = 8%nat;
  i_tag : Forall (fun e => e.1 = prio_of e.2) l;
  i_cnt : tx_pktcnt (tx d) = Z.of_nat (length l) + k;
  i_len : length (aggr_buf (tx d)) = Z.to_nat MAX_AGGR_TXPKT_LEN;
  i_buf : exists rest, buf_at (enc_all (chipid d) ag) rest (tx d);
  i_ag : aggr_count (tx d) = Z.of_nat (length ag);
  i_agmax : Z.of_nat (length ag) <= tx_aggr_counter w;
  i_fits : Forall fits (ag ++ hold ++ l.*2);
  i_acc : exists lost, (bus_up d = true -> lost = []) /\
    forall n, with_prio n (accs (outs d)) = with_prio n (sent ++ lost ++ ag ++ hold ++ l.*2);
  i_wire : handed (chipid d) (outs d) = content (chipid d) <$> sent;
  i_kept : credits_kept (chipid d) (outs d);
  i_credit : bus_up d = true -> 2 < fw_avail_bufcnt (tx d) -> credit (chipid d) (outs d) = fw_avail_bufcnt (tx d);
  i_cmd : cmd_txstate (tx d) = true -> length (cmd_buf (tx d)) = Z.to_nat CmdMgr.CMD_BUF_MAX /\ 0 <= cmd_len (tx d) <= 1528;
  i_chip : chipid d <> PRODUCT_ID_AIC8800DW }.

(** Outputs that say nothing about the data path. *)
Lemma quiet_outs c o1 o2 : Forall (quiet c) o2 ->
  accs (o1 ++ o2) = accs o1 /\ handed c (o1 ++ o2) = handed c o1 /\ credit c (o1 ++ o2) = credit c o1 /\
  (credits_kept c o1 -> credits_kept c (o1 ++ o2)).
Proof.
  intros Hq. destruct (quiet_trace c o2 Hq) as (E1 & E2 & E3).
  rewrite accs_app, handed_app, credit_app, E1, E2, E3, !app_nil_r. split_and!; [done.. |].
  intros Hk. apply credits_quiet; [done |]. eapply Forall_impl; [exact Hq |]. intros x Hx b ok ->. done.
Qed.

Lemma txi_quiet d d' l hold ag k sent : tx d' = tx d -> chipid d' = chipid d -> (bus_up d' = true -> bus_up d = true) ->
  (exists o, outs d' = outs d ++ o /\ Forall (quiet (chipid d)) o) -> txi d l hold ag k sent -> txi d' l hold ag k sent.
Proof.
  intros Ht Hc Hb (o & Ho & Hq) []. destruct (quiet_outs (chipid d) (outs d) o Hq) as (E1 & E2 & E3 & E4).
  split; rewrite ?Ht, ?Hc, ?Ho, ?E1, ?E2, ?E3; auto. destruct i_acc0 as (lost & Hl & Ha). exists lost. auto.
Qed.

Lemma txi_pstep d d' l hold ag k sent : pstep d d' -> txi d l hold ag k sent -> txi d' l hold ag k sent.
Proof.
  intros [Ht Hc Hb _ _ _ (o & Ho & Hq)]. apply txi_quiet; [done | done | by rewrite Hb |].
  exists o. split; [done | by apply no_fifo_quiet].
Qed.

(** ** The events of the other threads *)

(** What an event leaves in place. *)
Record evrel (d d' : dev) (l l' : list (nat * skb)) : Prop := {
  e_chip : chipid d' = chipid d;
  e_bus : bus_up d' = true -> bus_up d = true;
  e_trgg : (bustx_trgg d <= bustx_trgg d')%nat;
  e_clk : (clk d <= clk d')%nat;
  e_queue : exists x, l' = l ++ x;
  e_fw : fw_avail_bufcnt (tx d') = fw_avail_bufcnt (tx d);
  e_count : aggr_count (tx d') = aggr_count (tx d);
  e_new : bus_up d' = true -> (0 < bustx_trgg d')%nat \/ (l' = l /\ (cmd_txstate (tx d') = true -> cmd_txstate (tx d) = true)) }.

(** Whoever gave the transmit thread work while it may not see it any more
    has woken it. *)
Definition woken (d : dev) (l : list (nat * skb)) : Prop :=
  bus_up d = true -> (0 < bustx_trgg d)%nat \/ awake d \/ (l = [] /\ cmd_txstate (tx d) = false).
Definition cmd_woken (d : dev) : Prop :=
  bus_up d = true -> cmd_txstate (tx d) = true -> (0 < bustx_trgg d)%nat.

Lemma evrel_refl d l : evrel d d l l.
Proof. split; try done; [exists []; by rewrite app_nil_r | auto]. Qed.

Lemma evrel_trans d1 d2 d3 l1 l2 l3 : evrel d1 d2 l1 l2 -> evrel d2 d3 l2 l3 -> evrel d1 d3 l1 l3.
Proof.
  intros [H1 H2 H3 H4 (x & H5) H6 H7 H8] [G1 G2 G3 G4 (y & G5) G6 G7 G8]. split; try congruence; auto; try lia.
  - exists (x ++ y). by rewrite G5, H5, app_assoc.
  - intros Hu. destruct (G8 Hu) as [? | [-> Hc]]; [by left |]. destruct (H8 (G2 Hu)) as [? | [-> Hc']]; [left; lia | auto].
Qed.

Lemma pstep_evrel d d' l : pstep d d' -> evrel d d' l l.
Proof. intros [Ht Hc Hb Hg _ Hk _]. split; rewrite ?Ht, ?Hb, ?Hg; try done; [exists []; by rewrite app_nil_r | auto]. Qed.

(** A step of the power control. *)
Lemma pstep_event d d' l hold ag k sent : txi d l hold ag k sent -> pstep d d' ->
  (awake d -> awake d' \/ drained d) ->
  txi d' l hold ag k sent /\ evrel d d' l l /\ (0 <= k -> woken d l -> woken d' l) /\ (cmd_woken d -> cmd_woken d').
Proof.
  intros Hi Hs Ha. split; [by eapply txi_pstep |]. split; [by apply pstep_evrel |].
  pose proof (i_cnt _ _ _ _ _ _ Hi) as Hc. destruct Hs as [Ht _ Hb Hg _ _ _]. unfold woken, cmd_woken. rewrite Ht, Hb, Hg.
  split; [| done]. intros Hk Hw Hu. destruct (Hw Hu) as [H | [H | H]]; [by left | | by right; right].
  destruct (Ha H) as [? | [Hd1 Hd2]]; [by right; left |]. right; right. split; [| done].
  destruct l; [done |]. simpl in Hc. lia.
Qed.

(** A change outside the trace and the data path. *)
Lemma plain_event d d' l hold ag k sent : txi d l hold ag k sent ->
  tx d' = tx d -> chipid d' = chipid d -> outs d' = outs d -> bustx_trgg d' = bustx_trgg d -> clk d' = clk d ->
  (bus_up d' = true -> bus_up d = true) -> state d' = state d -> sleeping d' = sleeping d ->
  txi d' l hold ag k sent /\ evrel d d' l l /\ (0 <= k -> woken d l -> woken d' l) /\ (cmd_woken d -> cmd_woken d').
Proof.
  intros Hi Ht Hc Ho Hg Hk Hb Hs Hsl. split.
  { eapply txi_quiet; [exact Ht | done | done | | done]. exists []. by rewrite app_nil_r. }
  split; [split; rewrite ?Ht; try done; [lia | lia | exists []; by rewrite app_nil_r | auto] |].
  unfold woken, cmd_woken, awake. rewrite Ht, Hg, Hs, Hsl. auto.
Qed.

Lemma accept_event d l hold ag k sent p : txi d l hold ag k sent -> fits p ->
  exists d' l' r, aicwf_sdio_bus_txdata p d = Ok (d', r) /\ txi d' l' hold ag k sent /\ evrel d d' l l' /\
    (0 <= k -> woken d l -> woken d' l') /\ (cmd_woken d -> cmd_woken d').
Proof.
  intros Hi Hp. unfold aicwf_sdio_bus_txdata.
  assert (Hfree : forall r : Z, exists l', txi (emit [OFree p] d) l' hold ag k sent /\ evrel d (emit [OFree p] d) l l' /\
    (0 <= k -> woken d l -> woken (emit [OFree p] d) l') /\ (cmd_woken d -> cmd_woken (emit [OFree p] d))).
  { intros _. exists l. apply pstep_event; [done | | intros H; by left]. split; try done. eexists. split; [reflexivity |]. by repeat constructor. }
  destruct (bus_up d) eqn:Hb; cbn [negb].
  2:{ destruct (Hfree 0) as (l' & ?). by exists (emit [OFree p] d), l', (-1). }
  pose proof Hi as [Hq Hn Htag Hcnt Hlen Hbuf Hag Hmax Hfits Hacc Hwire Hkept Hcr Hcmd Hchip].
  cbv zeta. fold (prio_of p).
  destruct (FrameQueue.enq_refines (txq (tx d)) l p (prio_of p) Hq) as (q' & -> & Hq' & Hn' & _); [rewrite Hn; apply prio_of_bound |].
  cbn [mbind res_bind snd fst]. unfold FrameQueue.spec_enq in *. destruct (Z.ltb_spec (Z.of_nat (length l)) (FrameQueue.qmax (txq (tx d)))); cbn [snd fst negb] in *.
  2:{ destruct (Hfree 0) as (l' & ?). by exists (emit [OFree p] d), l', (- ENOSR). }
  eexists _, (l ++ [(prio_of p, p)]), _. split; [done |].
  assert (Hl2 : (l ++ [(prio_of p, p)]).*2 = l.*2 ++ [p]) by by rewrite fmap_app.
  split; [| split; [| split]].
  - split; cbn [upd tx txq outs chipid aggr_buf tail aggr_count fw_avail_bufcnt tx_pktcnt cmd_txstate cmd_buf cmd_len emit];
      rewrite ?accs_app, ?handed_app, ?credit_app, ?Hl2, ?app_nil_r; try done.
    + congruence.
    + apply Forall_app. split; [done |]. by constructor.
    + rewrite length_app, Hcnt. simpl. lia.
    + rewrite (app_assoc hold), (app_assoc ag). apply Forall_app. split; [done | by constructor].
    + destruct Hacc as (lost & Hl & Hacc). exists lost. split; [auto |]. intros n. rewrite with_prio_app, Hacc, !with_prio_app, <- !app_assoc. done.
    + apply credits_quiet; [done |]. by repeat constructor.
  - split; try done; [cbn; lia | by eexists | intros _; left; cbn; lia].
  - intros _ _ _. left. cbn. lia.
  - intros _ _ _. cbn. lia.
Qed.

(** A new command. *)
Lemma txi_cmd d d' l hold ag k sent : txi d l hold ag k sent -> chipid d' = chipid d -> outs d' = outs d ->
  (bus_up d' = true -> bus_up d = true) ->
  txq (tx d') = txq (tx d) -> tx_pktcnt (tx d') = tx_pktcnt (tx d) -> aggr_buf (tx d') = aggr_buf (tx d) ->
  tail (tx d') = tail (tx d) -> aggr_count (tx d') = aggr_count (tx d) -> fw_avail_bufcnt (tx d') = fw_avail_bufcnt (tx d) ->
  (cmd_txstate (tx d') = true -> length (cmd_buf (tx d')) = Z.to_nat CmdMgr.CMD_BUF_MAX /\ 0 <= cmd_len (tx d') <= 1528) ->
  txi d' l hold ag k sent.
Proof.
  intros [] Hc Ho Hb E1 E2 E3 E4 E5 E6 Hm. destruct i_acc0 as (lost & Hl & Ha).
  split; unfold buf_at; rewrite ?Hc, ?Ho, ?E1, ?E2, ?E3, ?E4, ?E5, ?E6; try done; [exists lost |]; auto.
Qed.

Lemma do_event_txi d l hold ag k sent e : txi d l hold ag k sent -> event_ok e ->
  exists d' l', do_event w e d = Ok d' /\ txi d' l' hold ag k sent /\ evrel d d' l l' /\
    (0 <= k -> woken d l -> woken d' l') /\ (cmd_woken d -> cmd_woken d').
Proof.
  intros Hi He.
  assert (Hpw : forall d', pstep d d' -> (awake d -> awake d' \/ drained d) -> do_event w e d = Ok d' ->
    exists d' l', do_event w e d = Ok d' /\ txi d' l' hold ag k sent /\ evrel d d' l l' /\
      (0 <= k -> woken d l -> woken d' l') /\ (cmd_woken d -> cmd_woken d')).
  { intros d' Hs Ha E. exists d', l. split; [done |]. by apply pstep_event. }
  destruct e as [p | msg len | | | | | n | | b | a c | b | |]; cbn [do_event].
  - destruct (accept_event d l hold ag k sent p Hi He) as (d' & l' & r & -> & H). by exists d', l'.
  - eexists _, l. split; [done |]. unfold aicwf_sdio_bus_txmsg.
    cbv zeta. match goal with |- context [bus_up ?x] => change (bus_up x) with (bus_up d) end. destruct (bus_up d) eqn:Hb; cbn [negb fst].
    + split; [by apply (txi_cmd d) |]. split; [split; try done; [cbn; lia | exists []; by rewrite app_nil_r | intros _; left; cbn; lia] |].
      split; [intros _ _ _; left; cbn; lia | intros _ _ _; cbn; lia].
    + split; [by apply (txi_cmd d) |].
      split; [split; try done; [exists []; by rewrite app_nil_r | cbn; congruence] |].
      unfold woken, cmd_woken. cbn. rewrite Hb. by split; intros.
  - destruct (timer d); [| exists d, l; split; [done |]; by apply plain_event].
    eexists _, l. split; [done |]. unfold aicwf_sdio_bus_pwrctl. destruct (bus_up d) eqn:Hb; cbn [negb upd bus_up]; rewrite Hb; by apply plain_event.
  - eapply Hpw; [apply pwrctl_thread_pstep | apply pwrctl_thread_awake | done].
  - eapply Hpw; [apply sleep_begin_pstep | apply sleep_begin_awake | done].
  - eapply Hpw; [apply sema_pstep | intros Ha; left; by rewrite sema_awake | done].
  - eexists _, l. split; [done |]. by apply plain_event.
  - eapply Hpw; [apply pwr_stctl_pstep | | done]. intros Ha.
    destruct (bus_up d) eqn:Hb; [left; by apply pwr_stctl_active |]. left. unfold aicwf_sdio_pwr_stctl. by rewrite Hb.
  - eexists _, l. split; [done |]. by apply plain_event.
  - eexists _, l. split; [done |]. by apply plain_event.
  - eapply Hpw; [apply suspend_pstep | apply suspend_awake | done].
  - eapply Hpw; [apply resume_pstep | | done]. intros Ha. left.
    destruct (bus_up d) eqn:Hb; [exact (pwr_stctl_active w d Hb) |]. unfold aicwf_sdio_resume, aicwf_sdio_pwr_stctl. by rewrite Hb.
  - eexists _, l. split; [done |]. destruct (timer_state 0 d) as [Hs Hsl].
    unfold aicwf_sdio_pwrctl_timer in *. destruct (negb (bus_up d) && _); by apply plain_event.
Qed.

Context (Hev : forall n, Forall event_ok (w_ev w n)).

Lemma do_events_txi es : Forall event_ok es -> forall d l hold ag k sent, txi d l hold ag k sent ->
  exists d' l', do_events w es d = Ok d' /\ txi d' l' hold ag k sent /\ evrel d d' l l' /\
    (0 <= k -> woken d l -> woken d' l') /\ (cmd_woken d -> cmd_woken d').
Proof.
  induction 1 as [|e es He _ IH]; intros d l hold ag k sent Hi; cbn [do_events].
  - exists d, l. split_and!; [done | done | apply evrel_refl | auto..].
  - destruct (do_event_txi d l hold ag k sent e Hi He) as (d1 & l1 & -> & H1 & R1 & J1 & K1). cbn [mbind res_bind].
    destruct (IH d1 l1 hold ag k sent H1) as (d2 & l2 & E & H2 & R2 & J2 & K2). exists d2, l2.
    split_and!; [done | done | by eapply evrel_trans | auto..].
Qed.

(** The other threads run: the clock moves, and without events nothing else. *)
Lemma interleave_txi d l hold ag k sent : txi d l hold ag k sent ->
  exists d' l', interleave w d = Ok d' /\ txi d' l' hold ag k sent /\ evrel d d' l l' /\ (clk d < clk d')%nat /\
    (w_ev w (clk d) = [] -> d' = tick d /\ l' = l) /\
    (0 <= k -> woken d l -> woken d' l') /\ (cmd_woken d -> cmd_woken d').
Proof.
  intros Hi. unfold interleave.
  assert (Ht : txi (tick d) l hold ag k sent).
  { apply (txi_quiet d); [done | done | done | | done]. exists []. by rewrite app_nil_r. }
  destruct (do_events_txi _ (Hev (clk d)) (tick d) l hold ag k sent Ht) as (d' & l' & E & H1 & R1 & J1 & K1).
  exists d', l'. split; [done |]. split; [done |].
  pose proof (e_clk _ _ _ _ R1) as Hk. split; [destruct R1; split; try done; cbn in *; lia |]. split; [cbn in Hk; lia |].
  split; [| split; [exact J1 | exact K1]].
  intros Hn. rewrite Hn in E. cbn [do_events] in E. injection E as <-. split; [done |].
  destruct H1 as [Hq1 _ Ht1 Hc1]. destruct Ht as [Hq0 _ Ht0 Hc0]. destruct (e_queue _ _ _ _ R1) as [x ->].
  assert (length (l ++ x) = length l) by lia. rewrite length_app in *. destruct x; [by rewrite app_nil_r | simpl in *; lia].
Qed.

End Inv.

End SdioInv.
