(* ===== verification/SdioTx.v ===== *)
(** * The transmit thread: flow control, aggregation, the data loop

    The pieces of a turn of the transmit thread, each with what it does to the
    invariant [txi], and the turn itself: [turn_ok].  [SdioRuns] has the
    theorems. *)

From stdpp Require Import prelude.
From S2P Require Import Prelude FrameQueue CmdMgr CmdTx Sdio SdioAggr SdioInv.
Open Scope Z_scope.

Module SdioTx.
Import CmdTx Sdio SdioAggr SdioInv.

(** ** Flow control *)

Definition is_read (x : out) : Prop := match x with ORd _ _ => True | _ => False end.

Lemma reads_trace c o : Forall is_read o -> accs o = [] /\ handed c o = [] /\ Forall (fun x => forall b ok, x <> OWrite false b ok) o.
Proof.
  induction 1 as [|x o Hx _ (IH1 & IH2 & IH3)]; [done |]. destruct x; try done.
  change (ORd reg v :: o) with ([ORd reg v] ++ o). rewrite accs_app, handed_app, IH1, IH2. split_and!; [done | done |].
  by constructor.
Qed.

(** The values of the world's registers are bytes. *)
Definition bytes_read (w : world) : Prop := forall n r v, w_rd w n r = Some v -> is_byte v.

Lemma flow_mask_pos c v : is_byte v -> 0 <= flow_mask c v.
Proof. intros [Hv _]. destruct c; try done; apply Z.land_nonneg; by left. Qed.

(** A value above the threshold is the last one read. *)
Lemma flow_loop_spec w retry : bytes_read w -> forall d d' n, flow_loop w retry d = (d', n) ->
  bus_only d d' /\ (clk d < clk d')%nat /\ (exists o, outs d' = outs d ++ o /\ Forall is_read o) /\
  (2 < n -> credit (chipid d) (outs d') = n).
Proof.
  intros Hw. induction retry as [|retry IH]; intros d d' n; cbn [flow_loop]; unfold aicwf_sdio_readb;
    destruct (w_rd w (clk d) _) as [v|] eqn:Ev; cbn [negb]; unfold DATA_FLOW_CTRL_THRESH.
  2, 4: intros [= <- <-]; split; [by destruct d | split; [cbn; lia | split; [eexists; split; [reflexivity | by repeat constructor] | lia]]].
  all: set (d1 := tick (emit [ORd (flow_ctrl_reg (aicwf_sdio_reg_init (chipid d))) (Some v)] d)).
  all: assert (H1 : bus_only d d1) by (by destruct d).
  all: assert (Hc : credit (chipid d) (outs d1) = flow_mask (chipid d) v)
    by (change (outs d1) with (outs d ++ [ORd (flow_ctrl_reg (aicwf_sdio_reg_init (chipid d))) (Some v)]);
        rewrite credit_app; cbn; by rewrite Z.eqb_refl).
  all: assert (Ho : exists o, outs d1 = outs d ++ o /\ Forall is_read o) by (eexists; split; [reflexivity | by repeat constructor]).
  all: pose proof (flow_mask_pos (chipid d) v (Hw _ _ _ Ev)).
  all: change (chipid d1) with (chipid d); destruct (Z.ltb_spec 2 (flow_mask (chipid d) v)) as [Hlt | Hge].
  1, 3: intros [= <- <-]; split_and!; [done | cbn; lia | done | done].
  - intros [= <- <-]. split_and!; [done | cbn; lia | done | lia].
  - intros E. destruct (IH _ _ _ E) as (H2 & Hk & (o & Eo & Fo) & Hn). split; [by eapply bus_only_trans |].
    split; [cbn in Hk; lia |]. split; [| done]. destruct Ho as (o' & Eo' & Fo'). exists (o' ++ o).
    rewrite Eo, Eo', app_assoc. split; [done | by apply Forall_app].
Qed.

(** A register that stays above the threshold gives its value at once. *)
Lemma flow_ctrl_open w d v : w_rd w (clk d) (flow_ctrl_reg (aicwf_sdio_reg_init (chipid d))) = Some v ->
  2 < flow_mask (chipid d) v -> (aicwf_sdio_flow_ctrl w d).2 = flow_mask (chipid d) v.
Proof.
  intros Hv Hm. unfold aicwf_sdio_flow_ctrl. set (n := FLOW_CTRL_RETRY_COUNT). generalize n. clear n. intros n.
  assert (E : (flow_loop w n d).2 = flow_mask (chipid d) v); [|done].
  destruct n; cbn [flow_loop]; unfold aicwf_sdio_readb; rewrite Hv; cbn [negb];
    change (chipid (tick _)) with (chipid d); rewrite (proj2 (Z.ltb_lt _ _)) by (unfold DATA_FLOW_CTRL_THRESH; lia); done.
Qed.

(** ** Commands

    The write of a command of [len] bytes: [len] rounded up to four, and
    unless that fills the blocks a zero word, rounded up to one block more
    than its own. *)
Definition cmd_pad (len : Z) : Z := (- len) mod 4.
Definition cmd_write (len : Z) : Z :=
  if (len + cmd_pad len) mod 512 =? 0 then len + cmd_pad len else ((len + cmd_pad len + 4) / 512 + 1) * 512.
Definition cmd_tail (len : Z) : list Z := zeros (cmd_pad len) ++ (if (len + cmd_pad len) mod 512 =? 0 then [] else zeros TAIL_LEN).

Lemma cmd_pad_eq len : (if len mod TX_ALIGNMENT =? 0 then 0 else roundup len TX_ALIGNMENT - len) = cmd_pad len.
Proof.
  unfold TX_ALIGNMENT, roundup, cmd_pad. pose proof (Z.mod_pos_bound len 4). pose proof (Z.div_mod len 4).
  destruct (Z.eqb_spec (len mod 4) 0) as [E | E].
  - by rewrite Z.mod_opp_l_z by lia.
  - rewrite Z.mod_opp_l_nz by lia. replace (len + 4 - 1) with ((len mod 4 + 3) + (len / 4) * 4) by lia. rewrite Z.div_add by lia.
    assert ((len mod 4 + 3) / 4 = 1) by (symmetry; apply (Z.div_unique _ _ _ (len mod 4 - 1)); lia). lia.
Qed.

(** The padded command in a buffer that has the room. *)
Lemma pad_cmd_ok pre old post len : Z.of_nat (length pre) = len -> length old = length (cmd_tail len) ->
  pad_cmd (pre ++ old ++ post) len = Ok (pre ++ cmd_tail len ++ post, cmd_write len).
Proof.
  intros Hl Ho. unfold pad_cmd. rewrite cmd_pad_eq. pose proof (Z.mod_pos_bound (- len) 4). fold (cmd_pad len) in *.
  unfold cmd_tail in *. set (n := cmd_pad len) in *. rewrite length_app in Ho.
  assert (Hn : length (zeros n) = Z.to_nat n) by apply length_replicate.
  rewrite <- (take_drop (Z.to_nat n) old). rewrite <- !app_assoc.
  rewrite <- Hl, Nat2Z.id, splice_app by (rewrite length_take; lia). cbn [mbind res_bind]. rewrite Hl.
  unfold SDIOWIFI_FUNC_BLOCKSIZE, cmd_write. fold n. destruct (Z.eqb_spec ((len + n) mod 512) 0) as [E | E].
  - rewrite (drop_ge old); [done | simpl in Ho; lia].
  - replace (Z.to_nat (len + n)) with (length (pre ++ zeros n)) by (rewrite length_app; lia).
    rewrite (app_assoc pre (zeros n)). rewrite splice_app; [| rewrite length_drop; unfold zeros, TAIL_LEN in *; simpl in *; lia].
    cbn [mbind res_bind]. unfold TAIL_LEN. by rewrite <- !app_assoc.
Qed.

Lemma cmd_tail_length len : 0 <= len -> Z.of_nat (length (cmd_tail len)) = cmd_pad len + (if (len + cmd_pad len) mod 512 =? 0 then 0 else 4).
Proof.
  intros Hl. unfold cmd_tail. pose proof (Z.mod_pos_bound (- len) 4). fold (cmd_pad len) in *.
  rewrite length_app. unfold zeros. rewrite length_replicate. destruct (_ =? 0); [simpl; lia | unfold TAIL_LEN; simpl; lia].
Qed.

Lemma cmd_write_bound len : 0 <= len <= 1528 -> len + Z.of_nat (length (cmd_tail len)) <= cmd_write len <= 1536 /\ cmd_write len mod 512 = 0.
Proof.
  intros Hl. rewrite cmd_tail_length by lia. unfold cmd_write. pose proof (Z.mod_pos_bound (- len) 4). fold (cmd_pad len) in *.
  pose proof (Z.div_mod len 4). assert (Hp : (len + cmd_pad len) mod 4 = 0).
  { unfold cmd_pad. rewrite Z.add_mod_idemp_r by lia. by replace (len + - len) with 0 by lia. }
  pose proof (Z.div_mod (len + cmd_pad len) 4). destruct (Z.eqb_spec ((len + cmd_pad len) mod 512) 0) as [E | E]; [lia |].
  split; [| by rewrite Z_mod_mult]. pose proof (Z.div_mod (len + cmd_pad len + 4) 512). pose proof (Z.mod_pos_bound (len + cmd_pad len + 4) 512).
  assert ((len + cmd_pad len + 4) / 512 <= 2); [| lia]. assert (len + cmd_pad len + 4 < 512 * 3); [lia |].
  enough ((len + cmd_pad len + 4) / 512 < 3) by lia. by apply Z.div_lt_upper_bound.
Qed.

#[local] Opaque FLOW_CTRL_RETRY_COUNT.

Section Tx.
Context (w : world) (M : Z).
Context (Hw : world_ok w M) (Hrd : bytes_read w) (Hev : forall n, Forall (event_ok M) (w_ev w n)).

Abbreviation txi := (txi w M).

(** The state changes, the bus and the queue do not. *)
Record steprel (d d' : dev) : Prop := {
  r_chip : chipid d' = chipid d;
  r_bus : bus_up d' = bus_up d;
  r_trgg : bustx_trgg d' = bustx_trgg d;
  r_clk : (clk d <= clk d')%nat;
  r_awake : awake d -> awake d';
  r_cmd : cmd_txstate (tx d') = cmd_txstate (tx d) }.

Lemma steprel_evrel d d' l : steprel d d' -> fw_avail_bufcnt (tx d') = fw_avail_bufcnt (tx d) ->
  aggr_count (tx d') = aggr_count (tx d) -> evrel d d' l l.
Proof. intros [] Hf Ha. split; try done; [congruence | lia | exists []; by rewrite app_nil_r | rewrite r_cmd0; auto]. Qed.

Lemma steprel_woken d d' l : steprel d d' -> woken d l -> woken d' l.
Proof. intros [] Hj. unfold woken in *. rewrite r_bus0, r_trgg0, r_cmd0. intros Hb. destruct (Hj Hb) as [|[|]]; auto. Qed.

Lemma steprel_cmd d d' : steprel d d' -> cmd_woken d -> cmd_woken d'.
Proof. intros [] Hj. unfold cmd_woken in *. by rewrite r_bus0, r_trgg0, r_cmd0. Qed.

Lemma refill_txi d l hold ag k sent : txi d l hold ag k sent ->
  txi (refill w d) l hold ag k sent /\ steprel d (refill w d) /\ (clk d < clk (refill w d))%nat /\
  txq (tx (refill w d)) = txq (tx d).
Proof.
  intros Hi. unfold refill. destruct (aicwf_sdio_flow_ctrl w d) as [d1 n] eqn:E.
  destruct (flow_loop_spec w _ Hrd _ _ _ E) as (Hb & Hk & (o & Ho & Fo) & Hn).
  destruct (reads_trace (chipid d) o Fo) as (E1 & E2 & E3). unfold bus_only in Hb.
  assert (Ht : tx d1 = tx d) by by rewrite Hb. assert (Hc : chipid d1 = chipid d) by by rewrite Hb.
  assert (Hu : bus_up d1 = bus_up d) by by rewrite Hb.
  split.
  - destruct Hi. split; cbn [upd tx chipid outs bus_up fw_avail_bufcnt txq tx_pktcnt aggr_buf aggr_count cmd_txstate cmd_buf cmd_len];
      rewrite ?Ht, ?Hc, ?Ho, ?Hu, ?accs_app, ?handed_app, ?E1, ?E2, ?app_nil_r; try done.
    + by apply credits_quiet.
    + intros _ H2. rewrite <- Ho. auto.
  - split; [split; cbn [upd tx chipid outs bus_up bustx_trgg clk cmd_txstate]; rewrite ?Ht; try done |].
    + by rewrite Hb.
    + lia.
    + unfold awake. cbn [upd state sleeping]. by rewrite Hb.
    + split; [done |]. cbn. by rewrite Ht.
Qed.

(** ** The aggregate *)

Lemma enc_length c p : fits M p -> (Z.of_nat (length (enc c p)) <= M + 35).
Proof.
  intros [Hp Hm]. rewrite length_enc, length_payload by done. pose proof (pad4_le (28 + length (frame p))). lia.
Qed.

Lemma enc_all_bound c ps : Forall (fits M) ps -> Z.of_nat (length (enc_all c ps)) <= Z.of_nat (length ps) * (M + 35).
Proof.
  induction 1 as [|p ps Hp _ IH]; [simpl; lia |]. change (enc_all c (p :: ps)) with (enc c p ++ enc_all c ps).
  rewrite length_app. pose proof (enc_length c p Hp). cbn [length]. lia.
Qed.

(** The room behind an aggregate of [n] frames. *)
Lemma room c ps rest t n : Forall (fits M) ps -> buf_at (enc_all c ps) rest t ->
  length (aggr_buf t) = Z.to_nat MAX_AGGR_TXPKT_LEN -> Z.of_nat (length ps) + n <= tx_aggr_counter w -> 0 <= n ->
  n * (M + 35) + 4 <= Z.of_nat (length rest).
Proof.
  intros Hf [Hb _] Hl Hn H0. pose proof (enc_all_bound c ps Hf). destruct Hw as (H1 & H2 & H3).
  apply (f_equal length) in Hb. rewrite length_app in Hb.
  assert (Z.of_nat (length (aggr_buf t)) = MAX_AGGR_TXPKT_LEN) by (rewrite Hl, Z2Nat.id; [done | unfold MAX_AGGR_TXPKT_LEN; lia]). nia.
Qed.

(** The write, or the loss of the aggregate on a bus that is down. *)
Lemma aggr_send_cases d ps rest : buf_at (enc_all (chipid d) ps) rest (tx d) -> (4 <= length rest)%nat ->
  length (aggr_buf (tx d)) = Z.to_nat MAX_AGGR_TXPKT_LEN ->
  exists d' o, aicwf_sdio_aggr_send w d = Ok d' /\ outs d' = outs d ++ o /\
    (if bus_up d then exists bytes ok, o = [OWrite false bytes ok] /\ is_aggr (chipid d) ps bytes else o = []) /\
    tail (tx d') = 0 /\ aggr_count (tx d') = 0 /\ length (aggr_buf (tx d')) = length (aggr_buf (tx d)) /\
    same_tx (tx d) (tx d') /\ (clk d <= clk d')%nat /\ d' = d <| tx := tx d' |> <| clk := clk d' |> <| outs := outs d' |>.
Proof.
  intros Ht Hl Hm. destruct (bus_up d) eqn:Hb.
  - destruct (aggr_send_at w d ps rest Hb Ht Hl) as (d' & bytes & ok & E & Ha & Ho & H1 & H2 & H3 & H4 & H5);
      [rewrite Hm; apply max_aggr_mod |].
    exists d', [OWrite false bytes ok]. split_and!; try done; [eauto | rewrite H5; cbn; lia | rewrite H5; by destruct d].
  - unfold aicwf_sdio_aggr_send. destruct (tail_at _ _ _ Ht Hl) as (t' & tl & -> & [[Hb' _] Ho] & Hor). cbn [mbind res_bind].
    unfold aicwf_sdio_txpkt. cbn [upd bus_up]. rewrite Hb. cbn [negb mbind res_bind fst].
    eexists _, []. split; [done |]. split; [cbn; by rewrite app_nil_r |]. do 3 (split; [done |]).
    split; [| split; [unfold same_tx; rewrite Ho; by destruct (tx d) | split; [cbn; lia | by destruct d]]].
    destruct Ht as [Ht _]. cbn. rewrite Hb', Ht, !length_app, length_drop.
    destruct Hor as [-> | [-> _]]; simpl in *; lia.
Qed.

Lemma read_length c ps bytes : Forall (fits M) ps -> is_aggr c ps bytes -> ps <> [] ->
  handed c [OWrite false bytes true] = content c <$> ps /\ length (read_aggr c bytes) = length ps.
Proof.
  intros Hf Ha Hne. assert (E : read_aggr c bytes = content c <$> ps).
  { apply read_is_aggr; [| done | done]. eapply Forall_impl; [exact Hf |]. by intros p []. }
  cbn. rewrite app_nil_r, E. split; [done |]. apply length_fmap.
Qed.

Lemma write_trace (up : bool) c ps o o1 : Forall (fits M) ps -> ps <> [] ->
  (if up then exists bytes ok, o1 = [OWrite false bytes ok] /\ is_aggr c ps bytes else o1 = []) ->
  credits_kept c o -> (up = true -> Z.of_nat (length ps) + 2 <= credit c o) ->
  accs (o ++ o1) = accs o /\ handed c (o ++ o1) = handed c o ++ (content c <$> if up then ps else []) /\
  (up = true -> credit c (o ++ o1) = credit c o - Z.of_nat (length ps)) /\ credits_kept c (o ++ o1).
Proof.
  intros Hf Hne Ho Hk Hc. rewrite accs_app, handed_app, credit_app. destruct up.
  - destruct Ho as (bytes & ok & -> & Ha). destruct (read_length c ps bytes Hf Ha Hne) as [E1 E2].
    change (handed c [OWrite false bytes ok]) with (handed c [OWrite false bytes true]). rewrite E1.
    assert (E : foldl (credit_step c) (credit c o) [OWrite false bytes ok] = credit c o - Z.of_nat (length ps)) by (cbn; by rewrite E2).
    split_and!; [by rewrite app_nil_r | done | done |]. apply credits_snoc; [done |]. intros b ok' [= <- <-].
    rewrite credit_app, E. specialize (Hc eq_refl). lia.
  - subst o1. rewrite !app_nil_r. by split_and!.
Qed.

Lemma flush_txi d l hold ag k sent : txi d l hold ag k sent -> ag <> [] ->
  Z.of_nat (length ag) + 2 <= fw_avail_bufcnt (tx d) ->
  exists d' sent', flush_aggr w d = Ok d' /\ txi d' l hold [] k sent' /\ steprel d d' /\
    txq (tx d') = txq (tx d) /\ (bus_up d = true -> sent' = sent ++ ag).
Proof.
  intros Hi Hne Hfw. pose proof Hi as [Hq Hn Htag Hcnt Hlen (rest & Hbuf) Hag Hmax Hfits (lost & Hl & Hacc) Hwire Hkept Hcr Hcmd Hchip].
  apply Forall_app in Hfits as [Hfa Hfr].
  unfold flush_aggr. set (d1 := d <| tx ::= fun t => t <| fw_avail_bufcnt ::= fun n => n - aggr_count t |> |>).
  pose proof (room (chipid d) ag rest (tx d) 0 Hfa Hbuf Hlen ltac:(lia) ltac:(lia)) as Hroom.
  destruct (aggr_send_cases d1 ag rest) as (d' & o & -> & Ho & Hw' & H1 & H2 & H3 & H4 & H5 & H6); [done | lia | done |].
  exists d', (if bus_up d then sent ++ ag else sent). split; [done |].
  assert (Hc' : chipid d' = chipid d) by by rewrite H6. assert (Hb' : bus_up d' = bus_up d) by by rewrite H6.
  assert (Hfw' : fw_avail_bufcnt (tx d') = fw_avail_bufcnt (tx d) - Z.of_nat (length ag)) by (rewrite H4; cbn; lia).
  destruct (write_trace (bus_up d) (chipid d) ag (outs d) o Hfa Hne Hw' Hkept) as (T1 & T2 & T3 & T4).
  { intros Hu. rewrite Hcr; [lia | done |]. destruct ag; [done | simpl in *; lia]. }
  change (outs d1) with (outs d) in Ho. unfold same_tx in H4.
  split; [| split; [split | split]]; try done.
  - split; rewrite ?Hc', ?Ho, ?T1, ?T2, ?Hb'; try done; try (rewrite H4; done).
    + by rewrite H3.
    + exists (aggr_buf (tx d')). by split.
    + simpl. lia.
    + destruct (bus_up d) eqn:Hu.
      * exists []. split; [done |]. intros n. rewrite Hacc, (Hl eq_refl). by rewrite <- app_assoc.
      * exists (lost ++ ag). split; [done |]. intros n. rewrite Hacc. by rewrite <- app_assoc.
    + rewrite Hwire. destruct (bus_up d); [by rewrite fmap_app | by rewrite app_nil_r].
    + intros Hu H2'. rewrite T3, Hcr, Hfw' by (done || lia). done.
  - by rewrite H6.
  - rewrite H6. auto.
  - by rewrite H4.
  - by rewrite H4.
  - by intros ->.
Qed.

(** Taking a frame from the queue. *)
Lemma deq_txi d l ag k sent : txi d l [] ag k sent -> l <> [] ->
  exists q' p l', FrameQueue.aicwf_frame_dequeue (txq (tx d)) = Ok (q', Some p) /\
    txi (d <| tx ::= fun t => t <| txq := q' |> |>) l' [p] ag (k + 1) sent /\ length l = S (length l').
Proof.
  intros [Hq Hn Htag Hcnt Hlen Hbuf Hag Hmax Hfits Hacc Hwire Hkept Hcr Hcmd Hchip] Hne.
  destruct (FrameQueue.deq_refines _ _ Hq) as (q' & E & Hq' & Hn' & _). unfold FrameQueue.spec_deq in *.
  destruct (find_idx (fun e => (e.1 =? FrameQueue.top l)%nat) l) as [i|] eqn:Ei.
  2:{ exfalso. apply (FrameQueue.top_present l Hne), FrameQueue.of_prio_nil. apply find_idx_None in Ei.
      eapply Forall_impl; [exact Ei |]. simpl. intros e He. by apply Nat.eqb_neq. }
  destruct (FrameQueue.of_prio_delete _ _ _ Ei) as (x & Hx & H1 & H2). rewrite Hx in E. cbn [fst snd fmap option_fmap option_map] in *.
  assert (Hxt : FrameQueue.top l = prio_of x) by (rewrite Forall_lookup in Htag; apply (Htag _ _ Hx)).
  assert (Htag' : Forall (fun e => e.1 = prio_of e.2) (delete i l)) by by apply Forall_delete.
  assert (Hw' : forall n, with_prio n l.*2 = with_prio n (x :: (delete i l).*2)).
  { intros n. rewrite with_prio_queue by done. change (x :: (delete i l).*2) with ([x] ++ (delete i l).*2).
    rewrite with_prio_app, with_prio_queue by done. unfold with_prio. rewrite filter_cons. cbn [filter list_filter].
    destruct (decide (prio_of x = n)) as [<- | Hne']; [by rewrite <- Hxt | by rewrite H2 by congruence]. }
  exists q', x, (delete i l). split; [done |]. pose proof (length_delete l i ltac:(by eexists)) as Hd.
  pose proof (lookup_lt_Some _ _ _ Hx). split; [| lia].
  split; cbn [upd tx txq]; try done.
  - congruence.
  - cbn. lia.
  - apply Forall_app in Hfits as [Hfa Hfl]. apply Forall_app. split; [done |]. cbn [app] in *. constructor.
    + rewrite Forall_lookup in Hfl. apply (Hfl i). by rewrite list_lookup_fmap, Hx.
    + rewrite list_fmap_delete. by apply Forall_delete.
  - destruct Hacc as (lost & Hl & Hacc). exists lost. split; [done |]. intros n. rewrite Hacc. cbn [app].
    by rewrite !with_prio_app, Hw'.
Qed.

(** Adding it to the aggregate. *)
Lemma aggr_txi d l p ag k sent : txi d l [p] ag k sent -> Z.of_nat (length ag) < tx_aggr_counter w ->
  exists t, aicwf_sdio_aggr (chipid d) p (tx d) = Ok t /\
    txi (d <| tx := t |>) l [] (ag ++ [p]) k sent /\ steprel d (d <| tx := t |>) /\
    fw_avail_bufcnt t = fw_avail_bufcnt (tx d) /\ tx_pktcnt t = tx_pktcnt (tx d).
Proof.
  intros [Hq Hn Htag Hcnt Hlen (rest & Hbuf) Hag Hmax Hfits Hacc Hwire Hkept Hcr Hcmd Hchip] Hlt.
  apply Forall_app in Hfits as [Hfa Hfr]. pose proof (Forall_inv Hfr) as Hp.
  pose proof (room (chipid d) ag rest (tx d) 1 Hfa Hbuf Hlen ltac:(lia) ltac:(lia)) as Hroom.
  pose proof (enc_length (chipid d) p Hp) as He.
  destruct (aggr_at (chipid d) p (tx d) (enc_all (chipid d) ag) rest) as (t & -> & Hb & Hc & Hs);
    [apply Hp | done | apply enc_all_mod4 | lia |].
  exists t. split; [done |]. rewrite <- enc_all_snoc in Hb. unfold same_tx in Hs.
  assert (Hlt' : length (aggr_buf t) = Z.to_nat MAX_AGGR_TXPKT_LEN).
  { destruct Hb as [-> _]. rewrite enc_all_snoc, !length_app, length_drop. destruct Hbuf as [Hb0 _].
    rewrite <- Hlen, Hb0, length_app. lia. }
  split; [| split; [split; try done; [cbn; rewrite Hs; done] | rewrite Hs; done]].
  split; cbn [upd tx chipid outs bus_up]; try done; try (rewrite Hs; done).
  - by eexists.
  - rewrite length_app. simpl. lia.
  - rewrite length_app. simpl. lia.
  - cbn [app] in Hfr. rewrite <- app_assoc. cbn [app]. by apply Forall_app.
  - destruct Hacc as (lost & Hl & Hacc). exists lost. split; [done |]. intros n. rewrite Hacc. by rewrite <- app_assoc.
Qed.

(** ** One call of aicwf_sdio_send *)

Record prel (d d' : dev) : Prop := {
  p_chip : chipid d' = chipid d;
  p_bus : bus_up d' = true -> bus_up d = true;
  p_trgg : (bustx_trgg d <= bustx_trgg d')%nat;
  p_clk : (clk d <= clk d')%nat }.

Lemma prel_trans d1 d2 d3 : prel d1 d2 -> prel d2 d3 -> prel d1 d3.
Proof. intros [] []. split; [congruence | auto | lia | lia]. Qed.

Lemma evrel_prel d d' l l' : evrel d d' l l' -> prel d d'.
Proof. by intros []. Qed.

Lemma steprel_prel d d' : steprel d d' -> prel d d'.
Proof. intros []. split; [done | congruence | lia | done]. Qed.

Lemma pstep_prel d d' : pstep d d' -> prel d d'.
Proof. intros []. split; try congruence; lia. Qed.

(** The work of the transmit thread is not forgotten. *)
Definition kept (d d' : dev) (l l' : list (nat * skb)) : Prop :=
  (woken d l -> woken d' l') /\ (cmd_woken d -> cmd_woken d').

Lemma kept_trans d1 d2 d3 l1 l2 l3 : kept d1 d2 l1 l2 -> kept d2 d3 l2 l3 -> kept d1 d3 l1 l3.
Proof. intros [H1 H2] [G1 G2]. split; auto. Qed.

Lemma steprel_kept d d' l : steprel d d' -> kept d d' l l.
Proof. intros H. split; [by apply steprel_woken | by apply steprel_cmd]. Qed.

(** No event from now on. *)
Definition calm (n : nat) : Prop := forall m, (n <= m)%nat -> w_ev w m = [].

(** What stays as it is without events. *)
Definition calmrel (d d' : dev) : Prop :=
  bustx_trgg d' = bustx_trgg d /\ cmd_txstate (tx d') = cmd_txstate (tx d) /\ bus_up d' = bus_up d.

Lemma calmrel_trans d1 d2 d3 : calmrel d1 d2 -> calmrel d2 d3 -> calmrel d1 d3.
Proof. unfold calmrel. intros (-> & -> & ->). done. Qed.

Lemma steprel_calm d d' : steprel d d' -> calmrel d d'.
Proof. intros []. by split_and!. Qed.

Lemma dec_txi d l ag k sent : txi d l [] ag (k + 1) sent ->
  txi (d <| tx ::= fun t => t <| tx_pktcnt ::= Z.pred |> |>) l [] ag k sent.
Proof. intros []. split; try done. cbn. lia. Qed.

Lemma full_iff d l hold ag k sent : txi d l hold ag k sent ->
  aggr_full w (tx d) = (Z.of_nat (length ag) =? fw_avail_bufcnt (tx d) - 2) || (tx_aggr_counter w <=? Z.of_nat (length ag)).
Proof. intros []. unfold aggr_full, DATA_FLOW_CTRL_THRESH. by rewrite i_ag0. Qed.

(** The frame taken joins the aggregate while the others run. *)
Lemma aggregate_step d l p ag sent : txi d l [p] ag 1 sent -> Z.of_nat (length ag) < tx_aggr_counter w ->
  exists d3 l3, (d ← interleave w d; t ← aicwf_sdio_aggr (chipid d) p (tx d);
      interleave w (emit (if need_cfm p then [] else [OFree p]) (d <| tx := t |>))) = Ok d3 /\
    txi d3 l3 [] (ag ++ [p]) 1 sent /\ prel d d3 /\ (clk d < clk d3)%nat /\
    fw_avail_bufcnt (tx d3) = fw_avail_bufcnt (tx d) /\ kept d d3 l l3 /\ (calm (clk d) -> l3 = l /\ calmrel d d3).
Proof.
  intros Hi Hlt. destruct (interleave_txi w M Hev d l [p] ag 1 sent Hi) as (d1 & l1 & -> & H1 & R1 & C1 & N1 & J1 & K1).
  cbn [mbind res_bind]. destruct (aggr_txi d1 l1 p ag 1 sent H1 Hlt) as (t & -> & H2 & R2 & F2 & _). cbn [mbind res_bind].
  set (d2 := emit (if need_cfm p then [] else [OFree p]) (d1 <| tx := t |>)).
  assert (H2' : txi d2 l1 [] (ag ++ [p]) 1 sent).
  { eapply txi_quiet; [| | | | exact H2]; [done | done | done |]. eexists. split; [reflexivity |]. destruct (need_cfm p); by repeat constructor. }
  assert (R2' : steprel d1 d2) by (destruct R2; by split).
  destruct (interleave_txi w M Hev d2 l1 [] (ag ++ [p]) 1 sent H2') as (d3 & l3 & E3 & H3 & R3 & C3 & N3 & J3 & K3).
  exists d3, l3. split; [exact E3 |]. split; [done |].
  pose proof (prel_trans _ _ _ (evrel_prel _ _ _ _ R1) (prel_trans _ _ _ (steprel_prel _ _ R2') (evrel_prel _ _ _ _ R3))) as HP.
  split; [done |]. pose proof (r_clk _ _ R2') as C2. split; [lia |]. split.
  { rewrite (e_fw _ _ _ _ R3), <- (e_fw _ _ _ _ R1). exact F2. }
  split.
  - eapply kept_trans; [| eapply kept_trans; [by apply steprel_kept |]]; (split; [intros Hx; by auto with lia | done]).
  - intros Hc. destruct (N1 (Hc _ (le_n _))) as [E1 ->].
    destruct (N3 (Hc (clk d2) ltac:(lia))) as [E2 ->]. split; [done |]. rewrite E2.
    apply (calmrel_trans d d1); [rewrite E1; by split_and! | exact (steprel_calm _ _ R2')].
Qed.

(** Between two calls: an aggregate that is not empty has room, credits and
    frames to come. *)
Definition loopinv (d : dev) (l : list (nat * skb)) (ag sent : list skb) : Prop :=
  txi d l [] ag 0 sent /\
  (ag <> [] -> l <> [] /\ Z.of_nat (length ag) + 2 < fw_avail_bufcnt (tx d) /\ Z.of_nat (length ag) < tx_aggr_counter w).

(** The end of the call: the aggregate goes out if it must. *)
Lemma finish_send d l ag sent txnow : txi d l [] ag 1 sent -> ag <> [] -> Z.of_nat (length ag) + 2 <= fw_avail_bufcnt (tx d) ->
  exists d' ag' sent',
    (d ← (if (tx_pktcnt (tx d) =? 1) || txnow || aggr_full w (tx d) then flush_aggr w d else Ok d);
     Ok (d <| tx ::= fun t => t <| tx_pktcnt ::= Z.pred |> |>)) = Ok d' /\
    loopinv d' l ag' sent' /\ (txnow = true -> ag' = []) /\ prel d d' /\ kept d d' l l /\ calmrel d d'.
Proof.
  intros Hi Hne Hfw. rewrite (full_iff _ _ _ _ _ _ Hi), (i_cnt _ _ _ _ _ _ _ _ Hi).
  assert (Hdec : forall d0, steprel d0 (d0 <| tx ::= fun t => t <| tx_pktcnt ::= Z.pred |> |>)) by (intros []; by split).
  destruct (_ || _ || _) eqn:Eb.
  - destruct (flush_txi d l [] ag 1 sent Hi Hne Hfw) as (d1 & sent' & -> & H1 & R1 & _). cbn [mbind res_bind].
    eexists _, [], sent'. split; [done |]. split; [split; [by apply dec_txi | done] |]. split; [done |].
    split; [eapply prel_trans; apply steprel_prel; [exact R1 | apply Hdec] |].
    split; [eapply kept_trans; apply steprel_kept; [exact R1 | apply Hdec] |].
    eapply calmrel_trans; apply steprel_calm; [exact R1 | apply Hdec].
  - cbn [mbind res_bind]. apply orb_false_iff in Eb as [Eb Ef]. apply orb_false_iff in Eb as [E1 ->]. apply orb_false_iff in Ef as [Ef1 Ef2].
    apply Z.eqb_neq in E1, Ef1. apply Z.leb_gt in Ef2.
    eexists _, ag, sent. split; [done |]. split; [split; [by apply dec_txi |] |]. 2: split; [done |].
    2: split; [apply steprel_prel, Hdec | split; [apply steprel_kept, Hdec | apply steprel_calm, Hdec]].
    intros _. split; [by intros -> |]. cbn. lia.
Qed.

Lemma send_ok d l ag sent txnow : loopinv d l ag sent -> l <> [] -> 2 < fw_avail_bufcnt (tx d) ->
  exists d' l' ag' sent', aicwf_sdio_send w txnow d = Ok d' /\ loopinv d' l' ag' sent' /\
    (txnow = true -> ag' = []) /\ prel d d' /\ (clk d < clk d')%nat /\ kept d d' l l' /\
    (calm (clk d) -> length l = S (length l') /\ calmrel d d').
Proof.
  intros [Hi Hag] Hl Hfw. destruct Hw as (Hc1 & _).
  assert (Hlt : Z.of_nat (length ag) + 2 < fw_avail_bufcnt (tx d) /\ Z.of_nat (length ag) < tx_aggr_counter w).
  { destruct ag; [simpl; lia |]. by apply Hag. }
  unfold aicwf_sdio_send. rewrite (full_iff _ _ _ _ _ _ Hi).
  assert (E0 : (aggr_count (tx d) =? 0) && negb (tail (tx d) =? 0) || negb (aggr_count (tx d) =? 0) && (tail (tx d) =? 0) = false).
  { destruct (i_buf _ _ _ _ _ _ _ _ Hi) as (rest & _ & ->). rewrite (i_ag _ _ _ _ _ _ _ _ Hi).
    pose proof (enc_all_length (chipid d) ag). pose proof (enc_all_nil (chipid d) ag).
    destruct ag as [|p ag]; [done |]. destruct (Z.eqb_spec (Z.of_nat (length (p :: ag))) 0); [simpl in *; lia |].
    destruct (Z.eqb_spec (Z.of_nat (length (enc_all (chipid d) (p :: ag)))) 0); [simpl in *; lia | done]. }
  rewrite E0. rewrite (proj2 (Z.eqb_neq _ _)), (proj2 (Z.leb_gt _ _)) by lia. cbn [orb].
  destruct (deq_txi d l ag 0 sent Hi Hl) as (q' & p & l1 & -> & H1 & Hlen). cbn [mbind res_bind fst snd].
  set (d1 := d <| tx ::= fun t => t <| txq := q' |> |>) in *.
  assert (R1 : steprel d d1) by (unfold d1; by split).
  destruct (aggregate_step d1 l1 p ag sent H1 (proj2 Hlt)) as (d3 & l3 & E & H3 & P3 & C3 & F3 & K3 & N3).
  destruct (finish_send d3 l3 (ag ++ [p]) sent txnow H3) as (d' & ag' & sent' & E4 & L4 & T4 & P4 & K4 & C4);
    [by destruct ag | rewrite F3, length_app; cbn; lia |].
  exists d', l3, ag', sent'. split.
  - rewrite <- E4. clear -E. destruct (interleave w d1) as [d2 | |]; cbn [mbind res_bind] in *; [| done..].
    destruct (aicwf_sdio_aggr (chipid d2) p (tx d2)) as [t | |]; cbn [mbind res_bind] in *; [| done..]. by rewrite E.
  - split; [done |]. split; [done |].
    split; [eapply prel_trans; [by apply steprel_prel | by eapply prel_trans] |].
    pose proof (p_clk _ _ P4). pose proof (r_clk _ _ R1). split; [cbn in *; lia |].
    split; [| intros Hq; destruct (N3 Hq) as [-> Hcr]; split; [lia |]].
    2: { eapply calmrel_trans; [by apply steprel_calm |]. by eapply calmrel_trans. }
    apply (kept_trans d d1 d' l l1 l3); [| by eapply kept_trans].
    destruct R1. split; [| intros Hx; exact Hx]. intros Hx Hb. destruct (Hx Hb) as [|[|[Hn _]]]; auto. by destruct Hl.
Qed.

(** ** The data loop *)

Lemma interleave_loop d l ag sent : loopinv d l ag sent ->
  exists d' l', interleave w d = Ok d' /\ loopinv d' l' ag sent /\ prel d d' /\ (clk d < clk d')%nat /\ kept d d' l l' /\
    (calm (clk d) -> l' = l /\ calmrel d d' /\ tx d' = tx d /\ (awake d -> awake d')).
Proof.
  intros [Hi Hag]. destruct (interleave_txi w M Hev d l [] ag 0 sent Hi) as (d' & l' & E & H1 & R1 & C1 & N1 & J1 & K1).
  exists d', l'. split; [done |]. split.
  { split; [done |]. intros Hne. destruct (Hag Hne) as (H2 & H3 & H4). rewrite (e_fw _ _ _ _ R1).
    destruct (e_queue _ _ _ _ R1) as [x ->]. split; [by destruct l | done]. }
  split; [by eapply evrel_prel |]. split; [done |]. split; [split; [auto with lia | done] |]. intros Hc. destruct (N1 (Hc _ (le_n _))) as [-> ->]. by split_and!.
Qed.

Lemma refill_loop d l ag sent : loopinv d l ag sent -> fw_avail_bufcnt (tx d) <= 2 ->
  loopinv (refill w d) l ag sent /\ prel d (refill w d) /\ (clk d < clk (refill w d))%nat /\ kept d (refill w d) l l /\ ag = [].
Proof.
  intros [Hi Hag] Hf. destruct (refill_txi d l [] ag 0 sent Hi) as (H1 & R1 & C1 & _).
  assert (ag = []) as -> by (destruct ag; [done |]; destruct Hag as (_ & ? & _); [done | simpl in *; lia]).
  split; [by split |]. split; [by apply steprel_prel |]. split; [done |]. split; [by apply steprel_kept | done].
Qed.

Lemma is_empty_ok d l ag sent : loopinv d l ag sent -> is_empty d = Ok (bool_decide (l = [])).
Proof. intros [[] _]. by apply FrameQueue.empty_refines. Qed.

(** What holds when the thread leaves the loop. *)
Definition loop_done (d : dev) (l : list (nat * skb)) (d' : dev) : Prop :=
  exists l' ag' sent', txi d' l' [] ag' 0 sent' /\ prel d d' /\ kept d d' l l' /\
    (bus_up d' = true -> ag' = [] /\ (l' = [] \/ (0 < bustx_trgg d')%nat)) /\
    (calm (clk d) -> calmrel d d' /\ (bus_up d' = true -> cmd_txstate (tx d) = false -> l' = [])).

Lemma loop_done_trans d1 l1 d2 l2 d3 : prel d1 d2 -> kept d1 d2 l1 l2 -> (calm (clk d1) -> calmrel d1 d2) ->
  loop_done d2 l2 d3 -> loop_done d1 l1 d3.
Proof.
  intros P1 K1 C1 (l' & ag' & sent' & H1 & H2 & H3 & H4 & H5). exists l', ag', sent'.
  split; [done |]. split; [by eapply prel_trans |]. split; [by eapply kept_trans |]. split; [done |].
  intros Hc. pose proof (p_clk _ _ P1). destruct (H5 (fun m Hm => Hc m ltac:(lia))) as [C2 H6]. specialize (C1 Hc).
  split; [by eapply calmrel_trans |]. destruct C1 as (_ & E & _). by rewrite <- E.
Qed.

(** The flow control register stays above the threshold from now on. *)
Definition opens (n : nat) (c : chip) : Prop := forall m, (n <= m)%nat ->
  exists v, w_rd w m (flow_ctrl_reg (aicwf_sdio_reg_init c)) = Some v /\ 2 < flow_mask c v.

Definition measure (d : dev) (l : list (nat * skb)) : nat :=
  2 * length l + (if fw_avail_bufcnt (tx d) <=? 2 then 1 else 0).

(** The loop ends at once... *)
Lemma loop_exit d l ag sent : loopinv d l ag sent -> cmd_woken d -> l = [] \/ bus_up d = false ->
  (forall fuel, tx_loop w fuel d = Ok d) /\ loop_done d l d.
Proof.
  intros HL Hcw Hor. split.
  - intros fuel. destruct fuel; cbn [tx_loop]; rewrite (is_empty_ok _ _ _ _ HL); cbn [mbind res_bind];
      (destruct Hor as [-> | Hb]; [done | rewrite Hb; by destruct (bool_decide _)]).
  - destruct HL as [Hi Hag]. exists l, ag, sent. split_and!; [done | by split | by split | |].
    + intros Hu. destruct Hor as [-> |]; [| congruence]. split; [| by left]. destruct ag; [done | by destruct Hag].
    + intros _. split; [by split_and! |]. intros Hu _. destruct Hor; [done | congruence].
Qed.

(** ... or makes a step. *)
Lemma loop_step d l ag sent : loopinv d l ag sent -> cmd_woken d -> l <> [] -> bus_up d = true ->
  tx_loop w 0 d = NoFuel /\
  ((exists d', (forall fuel, tx_loop w (S fuel) d = Ok d') /\ loop_done d l d') \/
   (exists d2 l2 ag2 sent2, (forall fuel, tx_loop w (S fuel) d = tx_loop w fuel d2) /\ loopinv d2 l2 ag2 sent2 /\
     prel d d2 /\ (clk d < clk d2)%nat /\ kept d d2 l l2 /\ (calm (clk d) -> calmrel d d2) /\
     (calm (clk d) -> opens (clk d) (chipid d) -> (measure d2 l2 < measure d l)%nat))).
Proof.
  intros HL Hcw Hl Hb.
  assert (E : forall fuel, tx_loop w fuel d = match fuel with O => NoFuel | S fuel =>
      if fw_avail_bufcnt (tx d) <=? 2 then
        if cmd_txstate (tx d) then Ok d else d ← interleave w (refill w d); tx_loop w fuel d
      else if cmd_txstate (tx d) then aicwf_sdio_send w true d
      else d ← aicwf_sdio_send w false d; d ← interleave w d; tx_loop w fuel d end).
  { intros fuel. destruct fuel; cbn [tx_loop]; rewrite (is_empty_ok _ _ _ _ HL), bool_decide_false, Hb by done; done. }
  split; [apply E |]. pose proof HL as [Hi Hag].
  destruct (Z.leb_spec (fw_avail_bufcnt (tx d)) 2) as [Hf | Hf]; destruct (cmd_txstate (tx d)) eqn:Ec.
  - left. exists d. split; [intros fuel; by rewrite E |]. destruct (refill_loop d l ag sent HL Hf) as (_ & _ & _ & _ & ->).
    exists l, [], sent. split_and!; [done | by split | by split | auto |]. intros _. split; [by split_and! | congruence].
  - right. destruct (refill_loop d l ag sent HL Hf) as (H1 & P1 & C1 & K1 & ->).
    destruct (interleave_loop _ _ _ _ H1) as (d2 & l2 & Ei & H2 & P2 & C2 & K2 & N2).
    exists d2, l2, [], sent. split; [intros fuel; by rewrite E, Ei |]. split; [done |].
    split; [by eapply prel_trans |]. split; [lia |]. split; [by eapply kept_trans |].
    assert (Hn : calm (clk d) -> calm (clk (refill w d))) by (intros Hc m Hm; apply Hc; lia). split.
    + intros Hc. eapply calmrel_trans; [| apply N2, Hn, Hc]. apply steprel_calm. by destruct (refill_txi d l [] [] 0 sent Hi) as (_ & ? & _).
    + intros Hc Ho. destruct (N2 (Hn Hc)) as (-> & _ & Et & _). unfold measure. rewrite Et.
      destruct (Ho _ (le_n _)) as (v & Hv & Hm). pose proof (flow_ctrl_open w d v Hv Hm) as Hfc.
      assert (fw_avail_bufcnt (tx (refill w d)) = flow_mask (chipid d) v) as -> by (unfold refill; by destruct (aicwf_sdio_flow_ctrl w d)).
      rewrite (proj2 (Z.leb_gt _ 2)), (proj2 (Z.leb_le _ 2)) by lia. lia.
  - left. destruct (send_ok d l ag sent true HL Hl Hf) as (d' & l' & ag' & sent' & Es & [H1 _] & Ht & P1 & C1 & K1 & N1).
    exists d'. split; [intros fuel; by rewrite E |]. exists l', ag', sent'.
    split; [done |]. split; [done |]. split; [done |]. split.
    + intros _. split; [by apply Ht |]. right. pose proof (p_trgg _ _ P1). specialize (Hcw Hb Ec). lia.
    + intros Hc. split; [by apply N1 | congruence].
  - right. destruct (send_ok d l ag sent false HL Hl Hf) as (d1 & l1 & ag1 & sent1 & Es & H1 & _ & P1 & C1 & K1 & N1).
    destruct (interleave_loop _ _ _ _ H1) as (d2 & l2 & Ei & H2 & P2 & C2 & K2 & N2).
    exists d2, l2, ag1, sent1. split; [intros fuel; by rewrite E, Es; cbn [mbind res_bind]; rewrite Ei |]. split; [done |].
    split; [by eapply prel_trans |]. split; [lia |]. split; [by eapply kept_trans |].
    assert (Hn : calm (clk d) -> calm (clk d1)) by (intros Hc m Hm; apply Hc; lia). split.
    + intros Hc. eapply calmrel_trans; [by apply N1 | apply N2, Hn, Hc].
    + intros Hc _. destruct (N2 (Hn Hc)) as (-> & _ & _). destruct (N1 Hc) as [Hlen _]. unfold measure. rewrite Hlen. repeat case_match; lia.
Qed.

Lemma tx_loop_safe fuel : forall d l ag sent, loopinv d l ag sent -> cmd_woken d ->
  tx_loop w fuel d = NoFuel \/ exists d', tx_loop w fuel d = Ok d' /\ loop_done d l d'.
Proof.
  induction fuel as [|fuel IH]; intros d l ag sent HL Hcw;
    (destruct (decide (l = [] \/ bus_up d = false)) as [Hor | Hnor];
     [destruct (loop_exit d l ag sent HL Hcw Hor) as [E Hd]; right; by exists d |]);
    (destruct (loop_step d l ag sent HL Hcw) as [E0 Hs]; [tauto | by destruct (bus_up d); [| tauto] |]).
  - by left.
  - destruct Hs as [(d' & E & Hd) | (d2 & l2 & ag2 & sent2 & E & H2 & P2 & C2 & K2 & N2 & _)]; rewrite E; [right; by exists d' |].
    destruct (IH d2 l2 ag2 sent2 H2) as [? | (d' & E' & Hd)]; [by apply K2 | by left |].
    right. exists d'. split; [done |]. by eapply loop_done_trans.
Qed.

(** The loop ends when the firmware takes frames and no more come. *)
Lemma tx_loop_ends_calm n : forall d l ag sent, loopinv d l ag sent -> cmd_woken d -> calm (clk d) -> opens (clk d) (chipid d) ->
  (measure d l <= n)%nat -> tx_loop w n d <> NoFuel.
Proof.
  induction n as [|n IH]; intros d l ag sent HL Hcw Hc Ho Hm;
    (destruct (decide (l = [] \/ bus_up d = false)) as [Hor | Hnor];
     [destruct (loop_exit d l ag sent HL Hcw Hor) as [E Hd]; by rewrite E |]).
  - exfalso. apply Hnor. left. unfold measure in Hm. destruct l; [done | simpl in Hm; lia].
  - destruct (loop_step d l ag sent HL Hcw) as [_ Hs]; [tauto | by destruct (bus_up d); [| tauto] |].
    destruct Hs as [(d' & E & Hd) | (d2 & l2 & ag2 & sent2 & E & H2 & P2 & C2 & K2 & N2 & M2)]; rewrite E; [done |].
    apply (IH d2 l2 ag2 sent2); [done | by apply K2 | | | specialize (M2 Hc Ho); lia].
    + intros m Hm2. apply Hc. lia.
    + intros m Hm2. rewrite (p_chip _ _ P2). apply Ho. lia.
Qed.

Lemma tx_loop_ends N k : calm N -> forall d l ag sent, opens N (chipid d) -> loopinv d l ag sent -> cmd_woken d ->
  (N <= clk d + k)%nat -> exists n, tx_loop w n d <> NoFuel.
Proof.
  intros Hc. induction k as [|k IH]; intros d l ag sent Ho HL Hcw Hk.
  - exists (measure d l). apply (tx_loop_ends_calm _ d l ag sent); [done | done | | | done].
    + intros m Hm. apply Hc. lia.
    + intros m Hm. apply Ho. lia.
  - destruct (decide (l = [] \/ bus_up d = false)) as [Hor | Hnor].
    { destruct (loop_exit d l ag sent HL Hcw Hor) as [E Hd]. exists 0%nat. by rewrite E. }
    destruct (loop_step d l ag sent HL Hcw) as [_ Hs]; [tauto | by destruct (bus_up d); [| tauto] |].
    destruct Hs as [(d' & E & Hd) | (d2 & l2 & ag2 & sent2 & E & H2 & P2 & C2 & K2 & _)].
    + exists 1%nat. by rewrite E.
    + destruct (IH d2 l2 ag2 sent2) as [n Hn]; [by rewrite (p_chip _ _ P2) | done | by apply K2 | lia |].
      exists (S n). by rewrite E.
Qed.

(** ** The turn *)

Lemma pad_cmd_room buf len : length buf = Z.to_nat CmdMgr.CMD_BUF_MAX -> 0 <= len <= 1528 ->
  exists buf', pad_cmd buf len = Ok (buf', cmd_write len) /\ length buf' = length buf.
Proof.
  intros Hb Hl. destruct (cmd_write_bound len Hl) as [Hw' _]. unfold CmdMgr.CMD_BUF_MAX in Hb.
  set (n := length (cmd_tail len)) in *.
  exists (take (Z.to_nat len) buf ++ cmd_tail len ++ drop n (drop (Z.to_nat len) buf)). split.
  - rewrite <- (take_drop (Z.to_nat len) buf) at 1. rewrite <- (take_drop n (drop (Z.to_nat len) buf)) at 1.
    apply pad_cmd_ok; rewrite length_take, ?length_drop; lia.
  - rewrite !length_app, length_take, !length_drop. fold n. lia.
Qed.

(** The command phase. *)
Lemma tx_cmd_ok d l ag sent : txi d l [] ag 0 sent -> exists r, tx_cmd w d = Ok r /\
  match r with
  | None => cmd_txstate (tx d) = true /\ state d <> SDIO_ACTIVE_ST
  | Some d' => txi d' l [] ag 0 sent /\ prel d d' /\ bustx_trgg d' = bustx_trgg d /\ bus_up d' = bus_up d /\
      cmd_txstate (tx d') = false /\ (awake d -> awake d') /\ (woken d l -> woken d' l)
  end.
Proof.
  intros Hi. unfold tx_cmd. destruct (cmd_txstate (tx d)) eqn:Ec.
  2:{ exists (Some d). split; [done |]. by split_and!. }
  case_match eqn:Es; [| exists None; by split_and!].
  destruct (i_cmd _ _ _ _ _ _ _ _ Hi Ec) as [Hl Hn]. unfold aicwf_sdio_tx_msg. rewrite u16_id by lia.
  destruct (pad_cmd_room _ _ Hl Hn) as (buf & -> & Hb). destruct (cmd_write_bound _ Hn) as [Hw' _]. cbn [mbind res_bind fst snd].
  unfold aicwf_sdio_send_pkt. rewrite (proj2 (Z.leb_le _ _)) by (rewrite Hb, Hl; unfold CmdMgr.CMD_BUF_MAX; lia). cbn [mbind res_bind fst snd].
  pose proof (i_chip _ _ _ _ _ _ _ _ Hi) as Hchip.
  set (d1 := d <| tx ::= fun t => t <| cmd_buf := buf |> |>). cbv zeta.
  set (d2 := tick (emit [OWrite true (take (Z.to_nat (cmd_write (cmd_len (tx d)))) buf) (w_wr w (clk d1))] d1)).
  set (d3 := d2 <| tx ::= fun t => t <| cmd_txstate := false |> <| cmd_tx_succ := w_wr w (clk d1) |> |>).
  exists (Some d3). split; [change (chipid d1) with (chipid d); by destruct (chipid d) |].
  assert (H2 : txi d2 l [] ag 0 sent).
  { apply (txi_quiet w M d1); [done | done | done | eexists; split; [reflexivity | by repeat constructor] |].
    apply (txi_cmd w M d); try done. intros _. split; [by rewrite <- Hl | done]. }
  split; [by apply (txi_cmd w M d2) |]. split; [by split; cbn; try done; lia |]. do 4 (split; [done |]).
  intros Hx Hu. destruct (Hx Hu) as [? | [? | [? ?]]]; [by left | by right; left | congruence].
Qed.

(** What a turn leaves. *)
Definition settled (d : dev) (l : list (nat * skb)) (ag : list skb) : Prop :=
  bus_up d = true -> ag = [] /\ ((0 < bustx_trgg d)%nat \/ (l = [] /\ cmd_txstate (tx d) = false)).

(** What a turn ends with, and with what it ends when nobody interferes. *)
Definition turn_done (d d' : dev) : Prop :=
  exists l' ag' sent', txi d' l' [] ag' 0 sent' /\ settled d' l' ag' /\ prel d d' /\
    (calm (clk d) -> bustx_trgg d' = bustx_trgg d /\ bus_up d' = bus_up d).

Lemma tx_data_ok d l sent fuel : txi d l [] [] 0 sent -> woken d l -> cmd_woken d ->
  tx_data w fuel d = NoFuel \/ exists d', tx_data w fuel d = Ok d' /\ turn_done d d' /\
    (calm (clk d) -> awake d -> bus_up d = true -> cmd_txstate (tx d) = false ->
     exists sent', txi d' [] [] [] 0 sent' /\ cmd_txstate (tx d') = false).
Proof.
  intros Hi Hj Hcw. unfold tx_data. case_match eqn:Es.
  2:{ right. exists d. split; [done |]. split; [| intros _ [Ha _]; congruence].
      exists l, [], sent. split; [done |]. split; [| split; [by split | done]].
      intros Hu. split; [done |]. destruct (Hj Hu) as [? | [[? _] | ?]]; [by left | congruence | by right]. }
  assert (HL : loopinv d l [] sent) by by split.
  rewrite (is_empty_ok _ _ _ _ HL). cbn [mbind res_bind]. set (d1 := if bool_decide (l = []) then d else refill w d).
  assert (H1 : loopinv d1 l [] sent /\ prel d d1 /\ kept d d1 l l /\ calmrel d d1).
  { unfold d1. destruct (bool_decide _); [by split_and! |]. destruct (refill_txi d l [] [] 0 sent Hi) as (G1 & R1 & _).
    split; [by split |]. split; [by apply steprel_prel |]. split; [by apply steprel_kept | by apply steprel_calm]. }
  destruct H1 as (H1 & P1 & K1 & C1).
  destruct (interleave_loop d1 l [] sent H1) as (d2 & l2 & -> & H2 & P2 & _ & K2 & N2). cbn [mbind res_bind].
  assert (K12 : kept d d2 l l2) by by eapply kept_trans.
  destruct (tx_loop_safe fuel d2 l2 [] sent H2) as [-> | (d' & -> & l' & ag' & sent' & H3 & P3 & K3 & F3 & N3)]; [by apply K12 | by left |].
  right. exists d'. split; [done |].
  assert (HP : prel d d2) by by eapply prel_trans. assert (Hk : kept d d' l l') by by eapply kept_trans.
  assert (HC : calm (clk d) -> calmrel d d2 /\ calm (clk d2)).
  { intros Hc. split; [eapply calmrel_trans; [done |] | intros m Hm; apply Hc; pose proof (p_clk _ _ HP); lia].
    apply N2. intros m Hm. apply Hc. pose proof (p_clk _ _ P1). lia. }
  split.
  - exists l', ag', sent'. split; [done |]. split; [| split; [by eapply prel_trans |]].
    + intros Hu. destruct (F3 Hu) as [-> Hor]. split; [done |]. destruct Hor as [-> | ?]; [| by left].
      destruct (cmd_txstate (tx d')) eqn:Ec; [left; by apply Hk | by right].
    + intros Hc. destruct (HC Hc) as [C2 Hc2]. destruct (N3 Hc2) as [C3 _].
      destruct (calmrel_trans _ _ _ C2 C3) as (-> & _ & ->). done.
  - intros Hc _ Hu Ec. destruct (HC Hc) as [C2 Hc2]. destruct (N3 Hc2) as [C3 F4].
    destruct C2 as (_ & E2 & U2). destruct C3 as (_ & E3 & U3). exists sent'.
    assert (l' = []) as -> by (apply F4; congruence). destruct (F3 ltac:(congruence)) as [-> _]. split; [done | congruence].
Qed.

Lemma tx_process_ok d l sent fuel : txi d l [] [] 0 sent -> bus_up d = true ->
  aicwf_sdio_tx_process w fuel d = NoFuel \/ exists d', aicwf_sdio_tx_process w fuel d = Ok d' /\ turn_done d d' /\
    (calm (clk d) -> exists sent', txi d' [] [] [] 0 sent' /\ cmd_txstate (tx d') = false).
Proof.
  intros Hi Hu. unfold aicwf_sdio_tx_process. rewrite Hu. cbn [negb].
  set (d1 := (aicwf_sdio_pwr_stctl w SDIO_ACTIVE_ST d).1). pose proof (pwr_stctl_pstep w SDIO_ACTIVE_ST d) as S1. fold d1 in S1.
  pose proof (pwr_stctl_active w d Hu) as A1. fold d1 in A1. pose proof (txi_pstep _ _ _ _ _ _ _ _ _ S1 Hi) as H1.
  destruct (interleave_txi w M Hev d1 l [] [] 0 sent H1) as (d2 & l2 & -> & H2 & R2 & _ & N2 & J2 & _). cbn [mbind res_bind].
  assert (W2 : woken d2 l2) by (apply J2; [lia |]; by right; left).
  assert (P2 : prel d d2) by (eapply prel_trans; [by apply pstep_prel | by eapply evrel_prel]).
  assert (N2' : calm (clk d) -> awake d2 /\ bus_up d2 = bus_up d /\ bustx_trgg d2 = bustx_trgg d).
  { intros Hc. destruct (N2 (Hc _ (ps_clk _ _ S1))) as [-> _]. split_and!; [apply A1 | apply (ps_bus _ _ S1) | apply (ps_trgg _ _ S1)]. }
  destruct (tx_cmd_ok d2 l2 [] sent H2) as (r & -> & Hr). cbn [mbind res_bind]. destruct r as [d3 |].
  2:{ destruct Hr as [Hcm Hst]. right. exists d2. split; [done |].
      assert (Hn : ~ calm (clk d)) by (intros Hc; apply Hst, (N2' Hc)).
      split; [| tauto]. exists l2, [], sent. split; [done |]. split; [| split; [done | tauto]].
      intros Hu2. split; [done |]. left. destruct (W2 Hu2) as [? | [[? _] | [_ ?]]]; [done | congruence | congruence]. }
  destruct Hr as (H3 & P3 & G3 & U3 & Ec3 & A3 & W3).
  destruct (interleave_loop d3 l2 [] sent) as (d4 & l4 & -> & [H4 _] & P4 & _ & K4 & N4); [by split |]. cbn [mbind res_bind].
  assert (HP : prel d d4) by (eapply prel_trans; [done |]; by eapply prel_trans).
  assert (HC : calm (clk d) -> calmrel d3 d4 /\ (awake d3 -> awake d4) /\ calm (clk d4)).
  { intros Hc. split_and!; [apply N4 | apply N4 |]; intros m Hm; apply Hc; pose proof (p_clk _ _ P2); pose proof (p_clk _ _ P3); pose proof (p_clk _ _ P4); lia. }
  destruct (tx_data_ok d4 l4 sent fuel H4) as [-> | (d' & -> & (l' & ag' & sent' & H5 & F5 & P5 & N5) & Q5)];
    [by apply K4, W3 | apply K4; intros _ Hx; congruence | by left |].
  right. exists d'. split; [done |]. split.
  - exists l', ag', sent'. split; [done |]. split; [done |]. split; [by eapply prel_trans |]. intros Hc.
    destruct (HC Hc) as ((T4 & _ & U4) & _ & Hc4). destruct (N5 Hc4) as [-> ->]. destruct (N2' Hc) as (_ & U2 & T2). split; congruence.
  - intros Hc. destruct (HC Hc) as ((T4 & E4 & U4) & A4 & Hc4). destruct (N2' Hc) as (A2 & U2 & _).
    apply Q5; [done | by apply A4, A3 | congruence | congruence].
Qed.

Lemma thread_ok d l sent fuel : txi d l [] [] 0 sent -> bus_up d = true -> settled d l [] ->
  sdio_bustx_thread w fuel d = NoFuel \/ exists d', sdio_bustx_thread w fuel d = Ok d' /\
    (exists l' ag' sent', txi d' l' [] ag' 0 sent' /\ settled d' l' ag') /\ chipid d' = chipid d /\ (clk d <= clk d')%nat /\
    (bus_up d' = true -> bus_up d = true) /\
    (calm (clk d) -> bustx_trgg d' = pred (bustx_trgg d) /\ bus_up d' = true /\
       exists sent', txi d' [] [] [] 0 sent' /\ cmd_txstate (tx d') = false).
Proof.
  intros Hi Hu Hs. unfold sdio_bustx_thread. destruct (bustx_trgg d) as [|n] eqn:En.
  - right. exists d. split; [done |]. split; [by exists l, [], sent |]. do 3 (split; [done |]). intros _. split; [done |]. split; [done |].
    destruct (Hs Hu) as [_ [? | [-> ?]]]; [lia | by exists sent].
  - set (d1 := d <| bustx_trgg := n |>). change (bus_up d1) with (bus_up d). rewrite Hu. cbn [negb].
    destruct (is_bus_suspend d1); [by left |].
    assert (H1 : txi d1 l [] [] 0 sent).
    { apply (txi_quiet w M d); [done | done | done | | done]. exists []. by rewrite app_nil_r. }
    destruct ((0 <? tx_pktcnt (tx d1)) || cmd_txstate (tx d1)) eqn:Ew.
    + destruct (tx_process_ok d1 l sent fuel H1 Hu) as [-> | (d' & -> & (l' & ag' & sent' & H2 & F2 & P2 & N2) & Q2)]; [by left |].
      right. exists d'. split; [done |]. split; [by exists l', ag', sent' |]. split; [apply (p_chip _ _ P2) |].
      split; [apply (p_clk _ _ P2) |]. split; [done |].
      intros Hc. destruct (N2 Hc) as [-> ->]. split; [done |]. split; [done |]. by apply Q2.
    + right. exists d1. apply orb_false_iff in Ew as [E1 E2]. apply Z.ltb_ge in E1. pose proof (i_cnt _ _ _ _ _ _ _ _ H1) as Hc1.
      assert (l = []) as -> by (destruct l; [done | simpl in *; lia]).
      split; [done |]. split; [exists [], [], sent; split; [done |]; intros _; split; [done | by right] |].
      do 3 (split; [done |]). intros _. split; [done |]. split; [done |]. by exists sent.
Qed.

(** *** The turn ends *)

Lemma tx_data_ends N k d l sent : calm N -> opens N (chipid d) -> txi d l [] [] 0 sent -> cmd_woken d -> (N <= clk d + k)%nat ->
  exists fuel, tx_data w fuel d <> NoFuel.
Proof.
  intros Hc Ho Hi Hcw Hk. unfold tx_data. case_match; [| by exists 0%nat].
  assert (HL : loopinv d l [] sent) by by split. rewrite (is_empty_ok _ _ _ _ HL). cbn [mbind res_bind].
  set (d1 := if bool_decide (l = []) then d else refill w d).
  assert (H1 : loopinv d1 l [] sent /\ prel d d1 /\ kept d d1 l l).
  { unfold d1. destruct (bool_decide _); [by split_and! |]. destruct (refill_txi d l [] [] 0 sent Hi) as (G1 & R1 & _).
    split; [by split |]. split; [by apply steprel_prel | by apply steprel_kept]. }
  destruct H1 as (H1 & P1 & K1).
  destruct (interleave_loop d1 l [] sent H1) as (d2 & l2 & -> & H2 & P2 & _ & K2 & _). cbn [mbind res_bind].
  pose proof (prel_trans _ _ _ P1 P2) as HP. apply (tx_loop_ends N k Hc d2 l2 [] sent); [| done | by apply K2, K1 |].
  - by rewrite (p_chip _ _ HP).
  - pose proof (p_clk _ _ HP). lia.
Qed.

Lemma process_ends N k d l sent : calm N -> opens N (chipid d) -> txi d l [] [] 0 sent -> (N <= clk d + k)%nat ->
  exists fuel, aicwf_sdio_tx_process w fuel d <> NoFuel.
Proof.
  intros Hc Ho Hi Hk. unfold aicwf_sdio_tx_process. destruct (bus_up d); cbn [negb]; [| by exists 0%nat].
  pose proof (pwr_stctl_pstep w SDIO_ACTIVE_ST d) as S1. set (d1 := (aicwf_sdio_pwr_stctl w SDIO_ACTIVE_ST d).1) in *.
  destruct (interleave_txi w M Hev d1 l [] [] 0 sent) as (d2 & l2 & -> & H2 & R2 & _); [by eapply txi_pstep |]. cbn [mbind res_bind].
  destruct (tx_cmd_ok d2 l2 [] sent H2) as (r & -> & Hr). cbn [mbind res_bind]. destruct r as [d3 |]; [| by exists 0%nat].
  destruct Hr as (H3 & P3 & _ & _ & Ec3 & _).
  destruct (interleave_loop d3 l2 [] sent) as (d4 & l4 & -> & [H4 _] & P4 & _ & K4 & _); [by split |]. cbn [mbind res_bind].
  assert (HP : prel d d4) by (eapply prel_trans; [by apply pstep_prel |]; eapply prel_trans; [by eapply evrel_prel |]; by eapply prel_trans).
  pose proof (p_clk _ _ HP). apply (tx_data_ends N k d4 l4 sent); [done | by rewrite (p_chip _ _ HP) | done | | lia].
  apply K4. intros _ Hx. congruence.
Qed.

Lemma thread_ends N d l sent : is_bus_suspend d = false -> calm N -> opens N (chipid d) -> txi d l [] [] 0 sent -> exists fuel, sdio_bustx_thread w fuel d <> NoFuel.
Proof.
  intros Hs Hc Ho Hi. unfold sdio_bustx_thread. destruct (bustx_trgg d) as [|n]; [by exists 0%nat |].
  set (d1 := d <| bustx_trgg := n |>). destruct (bus_up d1); cbn [negb]; [| by exists 0%nat].
  change (is_bus_suspend d1) with (is_bus_suspend d). rewrite Hs.
  destruct (_ || _); [| by exists 0%nat]. apply (process_ends N N d1 l sent Hc Ho); [| lia].
  apply (txi_quiet w M d); [done | done | done | | done]. exists []. by rewrite app_nil_r.
Qed.

End Tx.

End SdioTx.
