(* ===== verification/SdioRuns.v ===== *)
(** * Runs of the SDIO transmit path

    Theorems on every run from the start of the bus: the sequence of events of
    the other threads and of turns of the transmit thread, which in turn is
    interleaved with the events the world gives. *)

From stdpp Require Import prelude.
From S2P Require Import Prelude FrameQueue CmdMgr CmdTx Sdio SdioAggr SdioInv SdioTx.
Open Scope Z_scope.

Module SdioRuns.
Import CmdTx Sdio SdioAggr SdioInv SdioTx.

Inductive op := OpEv (e : event) | OpTx (fuel : nat).

Definition step (w : world) (d : dev) (o : op) : res dev :=
  match o with
  | OpEv e => do_event w e d
  | OpTx fuel => sdio_bustx_thread w fuel d
  end.

Fixpoint run (w : world) (d : dev) (os : list op) : res dev :=
  match os with [] => Ok d | o :: os => d ← step w d o; run w d os end.

(** After aicwf_sdio_bus_init and aicwf_sdio_bus_start. *)
Definition start (w : world) (c : chip) : dev := (aicwf_sdio_bus_start w (aicwf_sdio_bus_init c)).1.

Definition op_ok (M : Z) (o : op) : Prop := match o with OpEv e => event_ok M e | OpTx _ => True end.

Section Runs.
Context (w : world) (M : Z).
Context (Hw : world_ok w M) (Hrd : bytes_read w) (Hev : forall n, Forall (event_ok M) (w_ev w n)).

Definition sysinv (d : dev) : Prop :=
  exists l ag sent, txi w M d l [] ag 0 sent /\ settled d l ag.

Lemma start_eq c : tx (start w c) = tx_init /\ chipid (start w c) = c /\ Forall (quiet c) (outs (start w c)).
Proof. destruct c; (split; [reflexivity |]; split; [reflexivity |]; by repeat constructor). Qed.

Lemma start_inv c : c <> PRODUCT_ID_AIC8800DW -> sysinv (start w c).
Proof.
  intros Hc. destruct Hw as (H1 & H2 & H3). destruct (start_eq c) as (Et & Ec & Fo).
  exists [], [], []. split; [| intros _; split; [done | right; by rewrite Et]].
  destruct (quiet_outs c [] _ Fo) as (E1 & E2 & E3 & E4). cbn [app] in *.
  split; rewrite ?Et, ?Ec, ?E1, ?E2, ?E3; try apply length_replicate; try done.
  - apply FrameQueue.fq_init_inv; [lia | done].
  - eexists. split; reflexivity.
  - simpl. lia.
  - exists []. by split.
  - apply E4. intros pre b ok post E. by destruct pre.
Qed.

Lemma op_step_ok d o : sysinv d -> op_ok M o ->
  step w d o = NoFuel \/ exists d', step w d o = Ok d' /\ sysinv d' /\ chipid d' = chipid d.
Proof.
  intros (l & ag & sent & Hi & Hs) Ho. destruct o as [e | fuel]; cbn [step].
  - right. destruct (do_event_txi w M d l [] ag 0 sent e Hi Ho) as (d' & l' & -> & H1 & R1 & _).
    exists d'. split; [done |]. split; [| apply (e_chip _ _ _ _ R1)]. exists l', ag, sent. split; [done |].
    intros Hu. destruct (Hs (e_bus _ _ _ _ R1 Hu)) as [-> Hor]. split; [done |].
    destruct (e_new _ _ _ _ R1 Hu) as [? | [-> Hc]]; [by left |]. destruct Hor as [? | [-> Ec]].
    + left. pose proof (e_trgg _ _ _ _ R1). lia.
    + right. split; [done |]. destruct (cmd_txstate (tx d')); [| done]. by rewrite Hc in Ec.
  - destruct (bus_up d) eqn:Hu.
    + destruct (Hs Hu) as [-> _].
      destruct (thread_ok w M Hw Hrd Hev d l sent fuel Hi Hu Hs) as [? | (d' & E & H1 & H2 & _)]; [by left |].
      right. by exists d'.
    + right. unfold sdio_bustx_thread. destruct (bustx_trgg d) as [|n]; [exists d; split; [done | split; [| done]]; exists l, ag, sent; by split |].
      set (d1 := d <| bustx_trgg := n |>). change (bus_up d1) with (bus_up d). rewrite Hu. cbn [negb].
      exists d1. split; [done |]. split; [| done]. exists l, ag, sent. split.
      * apply (txi_quiet w M d); [done | done | done | | done]. exists []. by rewrite app_nil_r.
      * intros Hx. change (bus_up d1) with (bus_up d) in Hx. congruence.
Qed.

Lemma run_ok os : forall d, sysinv d -> Forall (op_ok M) os ->
  run w d os = NoFuel \/ exists d', run w d os = Ok d' /\ sysinv d' /\ chipid d' = chipid d.
Proof.
  induction os as [|o os IH]; intros d Hi Ho; cbn [run]; [right; by exists d |]. inversion_clear Ho.
  destruct (op_step_ok d o Hi) as [-> | (d1 & -> & H1 & C1)]; [done | by left |]. cbn [mbind res_bind]. rewrite <- C1. by apply IH.
Qed.

(** The runs of a chip other than the one that is never detected. *)
Lemma run_start_inv c os d : c <> PRODUCT_ID_AIC8800DW -> Forall (op_ok M) os -> run w (start w c) os = Ok d ->
  sysinv d /\ chipid d = c.
Proof.
  intros Hc Ho E. destruct (run_ok os (start w c) (start_inv c Hc) Ho) as [E' | (d' & E' & H1 & H2)]; [congruence |].
  rewrite E in E'. injection E' as <-. split; [done |]. rewrite H2. apply start_eq.
Qed.

End Runs.

(** ** Theorems *)

(** C10. At the beginning the bus is started; then come, in any order, frames, commands,
    turns of the transmit thread, the power timer and the power thread, the receive
    thread, suspend, resume and the fall of the bus, also at the points where other
    threads run inside a turn. Frames are at most M bytes long with tx_aggr_counter * (M
    + 35) + 4 <= MAX_AGGR_TXPKT_LEN, commands at most 1528 bytes. No access of the
    aggregation buffer, of a command buffer or of the frame queue is out of range. *)
Theorem sdio_buffers_in_bounds w M c os :
  world_ok w M -> bytes_read w -> (forall n, Forall (event_ok M) (w_ev w n)) -> c <> PRODUCT_ID_AIC8800DW ->
  Forall (op_ok M) os -> run w (start w c) os <> Fault.
Proof.
  intros Hw Hrd Hev Hc Ho. destruct (run_ok w M Hw Hrd Hev os (start w c)) as [-> | (d & -> & _)]; [by apply start_inv | done..].
Qed.

(** C9. At the beginning the bus is started; then come, in any order, frames, commands,
    turns of the transmit thread, the power timer and the power thread, the receive
    thread, suspend, resume and the fall of the bus, also at the points where other
    threads run inside a turn. Frames are at most M bytes long with tx_aggr_counter * (M
    + 35) + 4 <= MAX_AGGR_TXPKT_LEN, commands at most 1528 bytes. While the bus is up
    the frames in the writes to the FIFO, whether a write succeeds or fails, followed by
    the queue, are for each priority exactly the frames accepted, in order: none is
    skipped, doubled or overtaken; the firmware reads exactly the frames of the writes
    that succeed. Those of a write that fails are lost. *)
Theorem sdio_frames_in_order w M c os d :
  world_ok w M -> bytes_read w -> (forall n, Forall (event_ok M) (w_ev w n)) -> c <> PRODUCT_ID_AIC8800DW ->
  Forall (op_ok M) os -> run w (start w c) os = Ok d -> bus_up d = true ->
  exists sent : list (skb * bool), tries c (outs d) = prod_map (content c) id <$> sent /\
    wire c (outs d) = content c <$> (filter (fun x => x.2 = true) sent).*1 /\
    forall n, (n < 8)%nat -> exists q, FrameQueue.queuelist (txq (tx d)) !! n = Some q /\
      with_prio n (accs (outs d)) = with_prio n sent.*1 ++ q.
Proof.
  intros Hw Hrd Hev Hc Ho E Hu. destruct (run_start_inv w M Hw Hrd Hev c os d Hc Ho E) as [(l & ag & sent & Hi & Hs) <-].
  destruct (Hs Hu) as [-> _]. destruct Hi. destruct (tries_sent _ _ _ i_wire0) as (fr & <- & Ht). exists fr.
  split; [done |]. split; [by apply wire_tries |]. intros n Hn.
  destruct i_acc0 as (lost & Hl & Ha). exists (FrameQueue.of_prio n l). split; [apply i_q0; lia |].
  rewrite Ha, (Hl Hu). cbn [app]. by rewrite with_prio_app, with_prio_queue.
Qed.

(** C11. At the beginning the bus is started; then come, in any order, frames, commands,
    turns of the transmit thread, the power timer and the power thread, the receive
    thread, suspend, resume and the fall of the bus, also at the points where other
    threads run inside a turn. Frames are at most M bytes long with tx_aggr_counter * (M
    + 35) + 4 <= MAX_AGGR_TXPKT_LEN, commands at most 1528 bytes. A write of frames
    always leaves at least two of the firmware buffers that the last accepted read of
    the flow control register announced: never more frames are sent than there is room
    for. *)
Theorem sdio_credits_kept w M c os d :
  world_ok w M -> bytes_read w -> (forall n, Forall (event_ok M) (w_ev w n)) -> c <> PRODUCT_ID_AIC8800DW ->
  Forall (op_ok M) os -> run w (start w c) os = Ok d -> credits_kept c (outs d).
Proof.
  intros Hw Hrd Hev Hc Ho E. destruct (run_start_inv w M Hw Hrd Hev c os d Hc Ho E) as [(l & ag & sent & Hi & Hs) <-]. apply Hi.
Qed.

(** C12. At the beginning the bus is started; then come, in any order, frames, commands,
    turns of the transmit thread, the power timer and the power thread, the receive
    thread, suspend, resume and the fall of the bus, also at the points where other
    threads run inside a turn. Frames are at most M bytes long with tx_aggr_counter * (M
    + 35) + 4 <= MAX_AGGR_TXPKT_LEN, commands at most 1528 bytes. In a state reached
    that way with the bus up and the device not suspended (a suspended turn waits for
    the resume), if from a moment on no other thread interferes and the flow control
    register shows room, a turn of the transmit thread ends; if that moment has passed
    when it begins it leaves nothing queued and no command waiting, and every frame
    accepted was handed to a write of the FIFO, in order for each priority, so that all
    are on the wire if no write failed; otherwise work left behind implies that another
    turn is due. *)
Theorem sdio_turn_ends w M c os d N :
  world_ok w M -> bytes_read w -> (forall n, Forall (event_ok M) (w_ev w n)) -> c <> PRODUCT_ID_AIC8800DW ->
  Forall (op_ok M) os -> run w (start w c) os = Ok d -> bus_up d = true -> is_bus_suspend d = false -> calm w N -> opens w N c ->
  exists fuel d', sdio_bustx_thread w fuel d = Ok d' /\
    (bus_up d' = true -> 0 < tx_pktcnt (tx d') \/ cmd_txstate (tx d') = true -> (0 < bustx_trgg d')%nat) /\
    ((N <= clk d)%nat -> tx_pktcnt (tx d') = 0 /\ cmd_txstate (tx d') = false /\
      exists sent : list (skb * bool), tries c (outs d') = prod_map (content c) id <$> sent /\
        (all_written (outs d') -> wire c (outs d') = content c <$> sent.*1) /\
        forall n, with_prio n (accs (outs d')) = with_prio n sent.*1).
Proof.
  intros Hw Hrd Hev Hc Ho E Hu Hsu HN Hop. destruct (run_start_inv w M Hw Hrd Hev c os d Hc Ho E) as [(l & ag & sent & Hi & Hs) Ec].
  destruct (Hs Hu) as [-> _]. destruct (thread_ends w M Hw Hrd Hev N d l sent) as [fuel Hf]; [done | done | by rewrite Ec | done |].
  destruct (thread_ok w M Hw Hrd Hev d l sent fuel Hi Hu Hs) as [? | (d' & E' & (l' & ag' & sent' & H1 & S1) & C1 & _ & _ & Q1)]; [done |].
  exists fuel, d'. split; [done |]. split.
  - intros Hu' Hwork. destruct (S1 Hu') as [-> [? | [-> Hcm]]]; [done |]. rewrite (i_cnt _ _ _ _ _ _ _ _ H1) in Hwork.
    destruct Hwork as [Hx | Hx]; [simpl in Hx; lia | congruence].
  - intros Hn. destruct (Q1 (fun m Hm => HN m ltac:(lia))) as (_ & U1 & sent2 & H2 & Hcm).
    split; [by rewrite (i_cnt _ _ _ _ _ _ _ _ H2) |]. split; [done |]. destruct H2. rewrite <- Ec, <- C1.
    destruct (tries_sent _ _ _ i_wire0) as (fr & <- & Ht). exists fr. split; [done |].
    split; [intros Ha; by rewrite wire_all |].
    destruct i_acc0 as (lost & Hl & Ha). intros n. rewrite Ha, (Hl U1). by rewrite app_nil_r.
Qed.

(** A command whose padding ends the third block but for the tail. *)
Lemma pad_cmd_over buf len : Z.of_nat (length buf) = CmdMgr.CMD_BUF_MAX -> 1529 <= len <= 1532 ->
  exists buf', pad_cmd buf len = Ok (buf', 2048) /\ length buf' = length buf.
Proof.
  intros Hb Hl. unfold CmdMgr.CMD_BUF_MAX in Hb.
  assert (E : cmd_pad len = 1532 - len /\ cmd_write len = 2048 /\ length (cmd_tail len) = Z.to_nat (1536 - len)).
  { assert (len = 1529 \/ len = 1530 \/ len = 1531 \/ len = 1532) as [-> | [-> | [-> | ->]]] by lia; by vm_compute. }
  destruct E as (_ & Ew & Et). exists (take (Z.to_nat len) buf ++ cmd_tail len). split.
  - rewrite <- (take_drop (Z.to_nat len) buf) at 1. rewrite <- (app_nil_r (drop _ buf)), <- (app_nil_r (cmd_tail len)), <- Ew.
    apply pad_cmd_ok; rewrite ?length_take, ?length_drop; lia.
  - rewrite length_app, length_take. lia.
Qed.

(** A command in its 1536-byte buffer is written with zeros up to a multiple of
    four bytes and a zero tail, in whole blocks, and the result of the write is
    recorded; with 1529 to 1532 bytes the length is rounded up by one block too many and
    the write reads beyond the buffer. *)
Theorem sdio_command_written w d msg rest :
  chipid d <> PRODUCT_ID_AIC8800DW -> cmd_buf (tx d) = msg ++ rest -> cmd_len (tx d) = Z.of_nat (length msg) ->
  Z.of_nat (length (msg ++ rest)) = CmdMgr.CMD_BUF_MAX ->
  (Z.of_nat (length msg) <= 1528 -> exists d' bytes more, let ok := w_wr w (clk d) in
     aicwf_sdio_tx_msg w d = Ok (d', if ok then 0 else -5) /\ outs d' = outs d ++ [OWrite true bytes ok] /\
     bytes = msg ++ cmd_tail (Z.of_nat (length msg)) ++ more /\ Z.of_nat (length bytes) mod 512 = 0 /\
     cmd_txstate (tx d') = false /\ cmd_tx_succ (tx d') = ok) /\
  (1529 <= Z.of_nat (length msg) <= 1532 -> aicwf_sdio_tx_msg w d = Fault).
Proof.
  intros Hc Eb El Hl. assert (Hdw : forall A (x y : A), match chipid d with PRODUCT_ID_AIC8800DW => x | _ => y end = y) by (intros; by destruct (chipid d)).
  split; intros Hm.
  - destruct (cmd_write_bound (Z.of_nat (length msg))) as [[H1 H2] H3]; [lia |]. set (len := Z.of_nat (length msg)) in *.
    rewrite length_app in Hl. unfold CmdMgr.CMD_BUF_MAX in Hl. set (n := length (cmd_tail len)) in *.
    assert (Ep : pad_cmd (msg ++ rest) len = Ok (msg ++ cmd_tail len ++ drop n rest, cmd_write len)).
    { rewrite <- (take_drop n rest) at 1. apply pad_cmd_ok; [done | rewrite length_take; lia]. }
    set (buf := msg ++ cmd_tail len ++ drop n rest) in *.
    assert (Hbuf : length buf = 1536%nat) by (unfold buf; rewrite !length_app, length_drop; fold n; lia).
    unfold aicwf_sdio_tx_msg. rewrite Eb, El. fold len. rewrite u16_id, Ep by lia. cbn [mbind res_bind fst snd].
    change (chipid (d <| tx ::= fun t => t <| cmd_buf := buf |> |>)) with (chipid d). rewrite Hdw.
    unfold aicwf_sdio_send_pkt. rewrite (proj2 (Z.leb_le _ _)) by lia. cbn [mbind res_bind fst snd].
    eexists _, _, (take (Z.to_nat (cmd_write len) - length msg - n) (drop n rest)). split; [reflexivity |]. split; [reflexivity |].
    split; [| split; [| by split]].
    + unfold buf. rewrite !take_app, take_ge, (take_ge (cmd_tail len)) by (fold n; lia). done.
    + rewrite length_take, Hbuf. rewrite Nat.min_l by lia. rewrite Z2Nat.id by lia. done.
  - destruct (pad_cmd_over (msg ++ rest) (Z.of_nat (length msg)) Hl Hm) as (buf' & Ep & Eb').
    unfold aicwf_sdio_tx_msg. rewrite Eb, El, u16_id, Ep by lia. cbn [mbind res_bind fst snd].
    change (chipid (d <| tx ::= fun t => t <| cmd_buf := buf' |> |>)) with (chipid d). rewrite Hdw.
    unfold aicwf_sdio_send_pkt. unfold CmdMgr.CMD_BUF_MAX in Hl. rewrite (proj2 (Z.leb_gt _ _)) by lia. done.
Qed.

Lemma with_prio_twice n m L : with_prio n (with_prio m L) = if decide (m = n) then with_prio m L else [].
Proof.
  unfold with_prio. induction L as [|p L IH]; [by case_decide |]. rewrite (filter_cons _ p L).
  destruct (decide (prio_of p = m)) as [E | E]; [| exact IH]. rewrite filter_cons, IH.
  destruct (decide (prio_of p = n)), (decide (m = n)); congruence.
Qed.

(** The frames the flush gives, priority after priority. *)
Lemma with_prio_flushed n L : (n < 8)%nat -> with_prio n (concat ((fun p => with_prio p L) <$> seq 0 8)) = with_prio n L.
Proof.
  intros Hn. cbn [seq fmap list_fmap concat]. rewrite !with_prio_app, !with_prio_twice.
  do 8 (destruct n as [|n]; [cbn [decide decide_rel]; simpl; by rewrite ?app_nil_r |]). lia.
Qed.

(** At the beginning the bus is started; then come, in any order, frames, commands,
    turns of the transmit thread, the power timer and the power thread, the receive
    thread, suspend, resume and the fall of the bus, also at the points where other
    threads run inside a turn. Frames are at most M bytes long with tx_aggr_counter * (M
    + 35) + 4 <= MAX_AGGR_TXPKT_LEN, commands at most 1528 bytes. Stopping the bus frees
    exactly the frames that were accepted and not written, stops the timer and empties
    the queue; no register is written, so the chip keeps its power state. *)
Theorem sdio_stop_releases w M c os d :
  world_ok w M -> bytes_read w -> (forall n, Forall (event_ok M) (w_ev w n)) -> c <> PRODUCT_ID_AIC8800DW ->
  Forall (op_ok M) os -> run w (start w c) os = Ok d -> bus_up d = true ->
  let d' := aicwf_sdio_bus_stop w d in
  bus_up d' = false /\ timer d' = false /\ state d' = state d /\ is_empty d' = Ok true /\
  exists sent freed, outs d' = outs d ++ (OFree <$> freed) /\ handed c (outs d') = content c <$> sent /\
    forall n, (n < 8)%nat -> with_prio n (accs (outs d')) = with_prio n (sent ++ freed).
Proof.
  intros Hw Hrd Hev Hc Ho E Hu. destruct (run_start_inv w M Hw Hrd Hev c os d Hc Ho E) as [(l & ag & sent & Hi & Hs) <-].
  destruct (Hs Hu) as [-> _]. destruct Hi. destruct (FrameQueue.flush_refines _ _ i_q0) as (F1 & F2 & F3 & F4).
  assert (Eq : aicwf_sdio_bus_stop w d = emit (OFree <$> (FrameQueue.aicwf_frame_queue_flush (txq (tx d))).2)
    (d <| timer := false |> <| bus_up := false |> <| tx ::= fun t => t <| txq := (FrameQueue.aicwf_frame_queue_flush (txq (tx d))).1 |> |>)).
  { unfold aicwf_sdio_bus_stop, aicwf_sdio_pwr_stctl, aicwf_sdio_pwrctl_timer. rewrite andb_false_r. cbn [Z.eqb]. cbv beta iota zeta.
    change (bus_up _) with false at 1. cbn [negb fst]. by destruct (FrameQueue.aicwf_frame_queue_flush _). }
  cbn zeta. rewrite Eq. set (freed := (FrameQueue.aicwf_frame_queue_flush (txq (tx d))).2) in *.
  split_and!; [done | done | done | exact (FrameQueue.empty_refines _ _ F1) |].
  exists sent, freed. split; [done |]. assert (Hq : Forall (quiet (chipid d)) (OFree <$> freed)) by (apply Forall_fmap, Forall_true; done).
  destruct (quiet_outs (chipid d) (outs d) _ Hq) as (E1 & E2 & _ & _). cbn [outs emit upd]. 
  split; [by etrans; [exact E2 |] |]. intros n Hn. etrans; [by apply (f_equal (with_prio n)) in E1; exact E1 |].
  destruct i_acc0 as (lost & Hl & Ha). rewrite Ha, (Hl Hu). cbn [app]. rewrite !with_prio_app. f_equal.
  rewrite F2, i_num0. rewrite <- (with_prio_flushed n l.*2 Hn). do 2 f_equal.
  apply list_fmap_ext. intros p x _. by apply with_prio_queue.
Qed.

Module Example.
Import SdioAggr.Example.

Definition c0 : chip := PRODUCT_ID_AIC8800D80.
Definition cmd0 : list Z := replicate 1536 0.
Definition os0 : list op :=
  [OpEv (EvData f1); OpEv (EvMsg cmd0 12); OpTx 10; OpEv EvTimer; OpEv EvPwr; OpEv (EvData f2); OpEv (EvData f1); OpTx 10].

Definition holds (P : dev -> bool) (r : res dev) : bool := match r with Ok d => P d | _ => false end.

Lemma holds_ok P r : holds P r = true -> exists d, r = Ok d /\ P d = true.
Proof. destruct r as [d | |]; [by exists d | done..]. Qed.

Lemma w0_ok : world_ok w0 1600.
Proof. by repeat split. Qed.

Lemma w0_read : bytes_read w0.
Proof. intros n r v [= <-]. by split. Qed.

Lemma w0_calm : forall n, Forall (event_ok 1600) (w_ev w0 n).
Proof. intros n. constructor. Qed.

Lemma os0_ok : Forall (op_ok 1600) os0.
Proof. by repeat constructor. Qed.

(** Both turns write. *)
Definition good (d : dev) : bool := bus_up d && (length (wire c0 (outs d)) =? 3)%nat.

Lemma os0_good : holds good (run w0 (start w0 c0) os0) = true.
Proof. vm_compute. reflexivity. Qed.

Lemma sdio_buffers_in_bounds_witness : run w0 (start w0 c0) os0 <> Fault.
Proof. apply (sdio_buffers_in_bounds w0 1600 c0 os0 w0_ok w0_read w0_calm); [discriminate | apply os0_ok]. Defined.

Lemma sdio_frames_in_order_witness : exists d (sent : list (skb * bool)), run w0 (start w0 c0) os0 = Ok d /\
  length (wire c0 (outs d)) = 3%nat /\ wire c0 (outs d) = content c0 <$> (filter (fun x => x.2 = true) sent).*1.
Proof.
  destruct (holds_ok good _ os0_good) as (d & E & Hg). apply andb_true_iff in Hg as [Hu Hl].
  destruct (sdio_frames_in_order w0 1600 c0 os0 d w0_ok w0_read w0_calm ltac:(discriminate) os0_ok E Hu) as (sent & _ & Hs & _).
  exists d, sent. split; [exact E | split; [apply Nat.eqb_eq, Hl | exact Hs]].
Defined.

(** A bus on which every write fails: the frame is gone, the queue is empty and
    the bus still counts as up. *)
Definition w_broken : world := World (fun _ _ => Some 40) (fun _ => false) (fun _ => []) 32.

Lemma failed_write_loses_frame : holds (fun d => bus_up d && (tx_pktcnt (tx d) =? 0) && (length (accs (outs d)) =? 1)%nat &&
  (length (tries c0 (outs d)) =? 1)%nat && (length (wire c0 (outs d)) =? 0)%nat)
  (run w_broken (start w_broken c0) [OpEv (EvData f1); OpTx 10]) = true.
Proof. vm_compute. reflexivity. Qed.

Lemma sdio_credits_kept_witness : exists d, run w0 (start w0 c0) os0 = Ok d /\
  length (wire c0 (outs d)) = 3%nat /\ credits_kept c0 (outs d).
Proof.
  destruct (holds_ok good _ os0_good) as (d & E & Hg). apply andb_true_iff in Hg as [Hu Hl].
  exists d. split; [exact E | split; [apply Nat.eqb_eq, Hl |]].
  exact (sdio_credits_kept w0 1600 c0 os0 d w0_ok w0_read w0_calm ltac:(discriminate) os0_ok E).
Defined.

Lemma w0_opens : opens w0 0 c0.
Proof. intros n Hn. exists 40. by repeat split. Qed.

Lemma sdio_turn_ends_witness : exists fuel d d', run w0 (start w0 c0) [OpEv (EvData f1); OpEv (EvData f2)] = Ok d /\
  tx_pktcnt (tx d) = 2 /\ sdio_bustx_thread w0 fuel d = Ok d' /\ tx_pktcnt (tx d') = 0.
Proof.
  assert (H : holds (fun d => bus_up d && (negb (is_bus_suspend d) && (tx_pktcnt (tx d) =? 2))) (run w0 (start w0 c0) [OpEv (EvData f1); OpEv (EvData f2)]) = true) by (vm_compute; reflexivity).
  destruct (holds_ok _ _ H) as (d & E & Hg). apply andb_true_iff in Hg as [Hu Hl].
  apply andb_true_iff in Hl as [Hsu%negb_true_iff Hl].
  destruct (sdio_turn_ends w0 1600 c0 [OpEv (EvData f1); OpEv (EvData f2)] d 0%nat w0_ok w0_read w0_calm) as (fuel & d' & E' & _ & Hn);
    [discriminate | by repeat constructor | exact E | exact Hu | exact Hsu | by intros n _ | apply w0_opens |].
  destruct (Hn (Nat.le_0_l _)) as [Hz _]. exists fuel, d, d'. repeat split; [exact E | by apply Z.eqb_eq | exact E' | exact Hz].
Defined.

Definition cmd1 : list Z := [9; 8; 7; 6; 5].

Lemma sdio_command_written_witness : exists d d' bytes more, cmd_buf (tx d) = cmd1 ++ replicate 1531 0 /\
  aicwf_sdio_tx_msg w0 d = Ok (d', 0) /\ outs d' = outs d ++ [OWrite true bytes true] /\ bytes = cmd1 ++ cmd_tail 5 ++ more /\
  Z.of_nat (length bytes) mod 512 = 0.
Proof.
  set (d := (start w0 c0) <| tx ::= fun t => t <| cmd_buf := cmd1 ++ replicate 1531 0 |> <| cmd_len := 5 |> |>).
  destruct (sdio_command_written w0 d cmd1 (replicate 1531 0)) as [H _]; [discriminate | reflexivity | reflexivity | reflexivity |].
  destruct (H ltac:(done)) as (d' & bytes & more & H1 & H2 & H3 & H4 & _). exists d, d', bytes, more.
  split; [reflexivity |]. split; [exact H1 |]. split; [exact H2 |]. split; [exact H3 | exact H4].
Defined.

Definition os1 : list op := [OpEv (EvData f1); OpTx 10; OpEv (EvData f2)].

(** One frame went out, one is freed. *)
Lemma sdio_stop_releases_witness : exists d sent freed, run w0 (start w0 c0) os1 = Ok d /\
  outs (aicwf_sdio_bus_stop w0 d) = outs d ++ (OFree <$> freed) /\ length (with_prio 0 (sent ++ freed)) = 1%nat /\
  length (with_prio 3 (sent ++ freed)) = 1%nat.
Proof.
  assert (H : holds (fun d => bus_up d && ((length (with_prio 0 (accs (outs (aicwf_sdio_bus_stop w0 d)))) =? 1)%nat &&
    (length (with_prio 3 (accs (outs (aicwf_sdio_bus_stop w0 d)))) =? 1)%nat)) (run w0 (start w0 c0) os1) = true) by (vm_compute; reflexivity).
  destruct (holds_ok _ _ H) as (d & E & Hg). apply andb_true_iff in Hg as [Hu Hg]. apply andb_true_iff in Hg as [H1 H2].
  destruct (sdio_stop_releases w0 1600 c0 os1 d w0_ok w0_read w0_calm ltac:(discriminate) ltac:(by repeat constructor) E Hu)
    as (_ & _ & _ & _ & sent & freed & Ho & _ & Ha). exists d, sent, freed. split; [exact E |]. split; [exact Ho |].
  rewrite <- !Ha by lia. split; by apply Nat.eqb_eq.
Defined.

End Example.

End SdioRuns.
