(* ===== verification/SdioPwr.v ===== *)
(** * Power control of the SDIO transport

    The chip is asked to sleep and to wake by writes to one register; [asleep]
    reads the last such request off the trace.  The transmit thread never
    writes to a chip that was asked to sleep unless a wake-up fails or the
    power thread runs inside its turn; an idle chip is put to sleep; and what
    happens in the cases the code does not handle. *)

From stdpp Require Import prelude.
From S2P Require Import Prelude FrameQueue CmdMgr CmdTx Sdio SdioAggr SdioInv SdioTx SdioRuns.
Open Scope Z_scope.

Module SdioPwr.
Import CmdTx Sdio SdioAggr SdioInv SdioTx SdioRuns.

(** ** What the trace says of the chip *)

Definition asleep_step (c : chip) (a : bool) (x : out) : bool :=
  match x with
  | OReg _ r v true => if r =? wakeup_reg (aicwf_sdio_reg_init c) then v =? 2 else a
  | _ => a
  end.

(** The last request the chip got was to sleep. *)
Definition asleep (c : chip) (o : list out) : bool := foldl (asleep_step c) false o.

Definition writes_awake (c : chip) (o : list out) : Prop :=
  forall pre cmd b ok post, o = pre ++ OWrite cmd b ok :: post -> asleep c pre = false.

Lemma asleep_app c o1 o2 : asleep c (o1 ++ o2) = foldl (asleep_step c) (asleep c o1) o2.
Proof. apply foldl_app. Qed.

Definition no_reg (x : out) : Prop := match x with OReg _ _ _ _ => False | _ => True end.
Definition no_write (x : out) : Prop := match x with OWrite _ _ _ => False | _ => True end.

Lemma asleep_no_reg c a o : Forall no_reg o -> foldl (asleep_step c) a o = a.
Proof. intros H. revert a. induction H as [|x o Hx _ IH]; intros a; [done |]. simpl. rewrite IH. by destruct x. Qed.

Lemma writes_awake_snoc c o x : writes_awake c o -> (no_write x \/ asleep c o = false) -> writes_awake c (o ++ [x]).
Proof.
  intros Hw Hx pre cmd b ok post E. destruct post as [|y post _] using rev_ind.
  - apply app_inj_tail in E as [<- ->]. by destruct Hx.
  - rewrite app_comm_cons, app_assoc in E. apply app_inj_tail in E as [-> _]. by eapply Hw.
Qed.

Lemma writes_awake_quiet c o1 o2 : writes_awake c o1 -> Forall no_write o2 -> writes_awake c (o1 ++ o2).
Proof.
  intros Hw. induction o2 as [|x o2 IH] using rev_ind; intros Hq; [by rewrite app_nil_r |].
  apply Forall_app in Hq as [Hq Hx]. rewrite app_assoc. apply writes_awake_snoc; [by apply IH |].
  left. by apply Forall_cons in Hx as [Hx _].
Qed.

Lemma writes_awake_up c o1 o2 : writes_awake c o1 -> asleep c o1 = false -> Forall no_reg o2 -> writes_awake c (o1 ++ o2).
Proof.
  intros Hw Ha. induction o2 as [|x o2 IH] using rev_ind; intros Hq; [by rewrite app_nil_r |].
  apply Forall_app in Hq as [Hq Hx]. rewrite app_assoc. apply writes_awake_snoc; [by apply IH |].
  right. by rewrite asleep_app, asleep_no_reg.
Qed.

(** ** The data path leaves the power state alone *)

Record pkeep (d d' : dev) : Prop := {
  k_chip : chipid d' = chipid d; k_bus : bus_up d' = bus_up d; k_state : state d' = state d; k_timer : timer d' = timer d;
  k_dur : active_duration d' = active_duration d; k_trgg : pwrctrl_trgg d' = pwrctrl_trgg d; k_sleep : sleeping d' = sleeping d;
  k_outs : exists o, outs d' = outs d ++ o /\ Forall no_reg o }.

Lemma pkeep_same d d' : chipid d' = chipid d -> bus_up d' = bus_up d -> state d' = state d -> timer d' = timer d ->
  active_duration d' = active_duration d -> pwrctrl_trgg d' = pwrctrl_trgg d -> sleeping d' = sleeping d -> outs d' = outs d -> pkeep d d'.
Proof. intros. split; try done. exists []. by rewrite app_nil_r. Qed.

Lemma pkeep_trans d1 d2 d3 : pkeep d1 d2 -> pkeep d2 d3 -> pkeep d1 d3.
Proof.
  intros [? ? ? ? ? ? ? (o1 & E1 & F1)] [? ? ? ? ? ? ? (o2 & E2 & F2)]. split; try congruence.
  exists (o1 ++ o2). rewrite E2, E1, app_assoc. split; [done | by apply Forall_app].
Qed.

Lemma emit_pkeep o d : Forall no_reg o -> pkeep d (emit o d).
Proof. intros H. split; try done. by exists o. Qed.

Lemma tick_pkeep d : pkeep d (tick d).
Proof. by apply pkeep_same. Qed.

Lemma tx_pkeep f d : pkeep d (d <| tx ::= f |>).
Proof. by apply pkeep_same. Qed.

Lemma readb_pkeep w r d : pkeep d (aicwf_sdio_readb w r d).1.
Proof. eapply pkeep_trans; [apply emit_pkeep | apply tick_pkeep]. by repeat constructor. Qed.

Lemma flow_loop_pkeep w n : forall d, pkeep d (flow_loop w n d).1.
Proof.
  induction n as [|n IH]; intros d; cbn [flow_loop];
    pose proof (readb_pkeep w (flow_ctrl_reg (aicwf_sdio_reg_init (chipid d))) d) as H;
    destruct (aicwf_sdio_readb w _ d) as [d' [v ok]]; cbn [fst] in H; repeat case_match; try done.
  eapply pkeep_trans; [done | apply IH].
Qed.

Lemma refill_pkeep w d : pkeep d (refill w d).
Proof.
  unfold refill, aicwf_sdio_flow_ctrl. pose proof (flow_loop_pkeep w FLOW_CTRL_RETRY_COUNT d) as H.
  destruct (flow_loop _ _ _) as [d' n]. eapply pkeep_trans; [exact H | apply tx_pkeep].
Qed.

Lemma send_pkt_pkeep w cmd buf n d d' ok : aicwf_sdio_send_pkt w cmd buf n d = Ok (d', ok) -> pkeep d d'.
Proof.
  unfold aicwf_sdio_send_pkt. case_match; [| done]. intros [= <- _].
  eapply pkeep_trans; [apply emit_pkeep | apply tick_pkeep]. by repeat constructor.
Qed.

Lemma Ok_inj {A} (a b : A) : Ok a = Ok b -> a = b.
Proof. congruence. Qed.

Lemma Ok_pair {A B} (a a' : A) (b b' : B) : Ok (a, b) = Ok (a', b') -> a = a'.
Proof. congruence. Qed.

Section Hoare.
Context (w : world) (P : dev -> Prop).
Context (Hk : forall d d', pkeep d d' -> P d -> P d').
Context (Hev : forall n e d d', e ∈ w_ev w n -> do_event w e d = Ok d' -> P d -> P d').

Lemma do_events_P n l d d' : (forall e, e ∈ l -> e ∈ w_ev w n) -> do_events w l d = Ok d' -> P d -> P d'.
Proof.
  revert d. induction l as [|e l IH]; intros d Hl; cbn [do_events]; [by intros <-%Ok_inj |].
  intros (d1 & E & E')%bind_Ok Hd. eapply IH; [intros e' ?; apply Hl; by right | done |].
  eapply Hev; [apply Hl; by left | done..].
Qed.

Lemma interleave_P d d' : interleave w d = Ok d' -> P d -> P d'.
Proof. intros E Hd. eapply (do_events_P (clk d)); [done | exact E |]. eapply Hk; [apply tick_pkeep | done]. Qed.

Lemma tx_P f d : P d -> P (d <| tx ::= f |>).
Proof. apply Hk, tx_pkeep. Qed.

Lemma emit_P o d : Forall no_reg o -> P d -> P (emit o d).
Proof. intros H. by apply Hk, emit_pkeep. Qed.

Lemma aggr_send_P d d' : aicwf_sdio_aggr_send w d = Ok d' -> P d -> P d'.
Proof.
  unfold aicwf_sdio_aggr_send. intros (t & _ & ([d1 n] & E & <-%Ok_inj)%bind_Ok)%bind_Ok Hd. apply tx_P. revert E.
  unfold aicwf_sdio_txpkt. case_match; [intros <-%Ok_pair; by apply tx_P |].
  intros ([d2 ok] & E & <-%Ok_pair)%bind_Ok. eapply Hk; [by eapply send_pkt_pkeep | by apply tx_P].
Qed.

Lemma send_P txnow d d' : aicwf_sdio_send w txnow d = Ok d' -> P d -> P d'.
Proof.
  unfold aicwf_sdio_send. intros E Hd. revert E. case_match; [intros <-%Ok_inj; case_match; [by apply tx_P | done] |].
  case_match; [case_match; [intros E; eapply aggr_send_P; [exact E | by apply tx_P] | by intros <-%Ok_inj] |].
  intros ([q r] & _ & E)%bind_Ok. cbn [fst snd] in E. revert E. destruct r as [pkt|]; [| intros <-%Ok_inj; by apply tx_P].
  intros (d1 & E1 & (t & _ & (d2 & E2 & (d3 & E3 & <-%Ok_inj)%bind_Ok)%bind_Ok)%bind_Ok)%bind_Ok. apply tx_P.
  pose proof (interleave_P _ _ E1 (tx_P _ _ Hd)) as H1.
  assert (H2 : P d2).
  { eapply interleave_P; [exact E2 |]. apply emit_P; [by destruct (need_cfm pkt); repeat constructor | by apply tx_P]. }
  clear E2. revert E3. case_match; [intros E3; eapply aggr_send_P; [exact E3 | by apply tx_P] | by intros <-%Ok_inj].
Qed.

Lemma tx_loop_P fuel : forall d d', tx_loop w fuel d = Ok d' -> P d -> P d'.
Proof.
  induction fuel as [|fuel IH]; intros d d'; cbn [tx_loop]; intros (e & _ & E)%bind_Ok Hd; revert E;
    repeat (case_match; [first [done | by intros <-%Ok_inj | intros E; by eapply send_P | idtac] |]); try done.
  - intros (d1 & E1 & E)%bind_Ok. eapply IH; [exact E |]. eapply interleave_P; [exact E1 |].
    eapply Hk; [apply refill_pkeep | done].
  - intros (d1 & E1 & (d2 & E2 & E)%bind_Ok)%bind_Ok. eapply IH; [exact E |]. eapply interleave_P; [exact E2 |]. by eapply send_P.
Qed.

Lemma tx_cmd_P d r : tx_cmd w d = Ok r -> P d -> match r with Some d' => P d' | None => True end.
Proof.
  unfold tx_cmd. case_match; [| by intros <-%Ok_inj]. case_match; [| by intros <-%Ok_inj].
  intros ([d1 n] & E & <-%Ok_inj)%bind_Ok Hd. cbn [fst]. revert E. unfold aicwf_sdio_tx_msg.
  intros ([b len] & _ & E)%bind_Ok. cbn [fst snd] in E. revert E.
  case_match; try (intros ([d2 ok] & E & <-%Ok_pair)%bind_Ok; apply tx_P; eapply Hk; [by eapply send_pkt_pkeep | by apply tx_P]).
  intros <-%Ok_pair. by apply tx_P.
Qed.

Lemma tx_data_P fuel d d' : tx_data w fuel d = Ok d' -> P d -> P d'.
Proof.
  unfold tx_data. case_match; [| by intros <-%Ok_inj]. intros (em & _ & (d1 & E1 & E)%bind_Ok)%bind_Ok Hd.
  eapply tx_loop_P; [exact E |]. eapply interleave_P; [exact E1 |]. destruct em; [done |]. eapply Hk; [apply refill_pkeep | done].
Qed.

(** A turn that starts by waking the chip. *)
Lemma process_P fuel d d' : aicwf_sdio_tx_process w fuel d = Ok d' -> bus_up d = true ->
  P (aicwf_sdio_pwr_stctl w SDIO_ACTIVE_ST d).1 -> P d'.
Proof.
  unfold aicwf_sdio_tx_process. intros E Hb Hd. revert E. rewrite Hb. cbn [negb].
  intros (d1 & E1 & (r & E2 & E)%bind_Ok)%bind_Ok. pose proof (interleave_P _ _ E1 Hd) as H1. clear Hd Hb.
  pose proof (tx_cmd_P _ _ E2 H1) as H2. clear E2. revert E. destruct r as [d2|]; [| by intros <-%Ok_inj].
  intros (d3 & E3 & E)%bind_Ok. eapply tx_data_P; [exact E |]. by eapply interleave_P.
Qed.

End Hoare.

(** ** Sleeping and waking *)

Lemma wakeup_poll_pkeep w n : forall d, pkeep d (wakeup_poll w n d).
Proof.
  induction n as [|n IH]; intros d; cbn [wakeup_poll]; [by apply pkeep_same |].
  pose proof (readb_pkeep w (wakeup_reg (aicwf_sdio_reg_init (chipid d))) d) as H.
  destruct (aicwf_sdio_readb w _ d) as [d' [v ok]]. cbn [fst] in H. case_match; [done |]. eapply pkeep_trans; [done | apply IH].
Qed.

(** Only the waiting for a turn of the power thread changes. *)
Record psame (d d' : dev) : Prop := {
  s_chip : chipid d' = chipid d; s_state : state d' = state d; s_sleep : sleeping d' = sleeping d;
  s_outs : exists o, outs d' = outs d ++ o /\ Forall no_reg o /\ Forall no_write o }.

Lemma psame_refl d d' : chipid d' = chipid d -> state d' = state d -> sleeping d' = sleeping d -> outs d' = outs d -> psame d d'.
Proof. intros. split; try done. exists []. by rewrite app_nil_r. Qed.

Lemma timer_psame n d : psame d (aicwf_sdio_pwrctl_timer n d).
Proof. unfold aicwf_sdio_pwrctl_timer. repeat case_match; by apply psame_refl. Qed.

Definition is_power (e : event) : Prop := match e with EvPwr | EvSleepBegin | EvSleepEnd | EvRxWake | EvSuspend _ | EvResume => True | _ => False end.
Definition is_data (e : event) : Prop := match e with EvData _ | EvMsg _ _ | EvRxCnt _ | EvScan _ | EvP2p _ _ => True | _ => False end.

Lemma event_data w e d d' : is_data e -> do_event w e d = Ok d' -> pkeep d d' /\ psame d d'.
Proof.
  intros He. destruct e as [p | msg len | | | | | n | | b | a c | b | |]; try (by destruct He); cbn [do_event].
  - intros ([d1 n] & E & <-%Ok_inj)%bind_Ok. revert E. unfold aicwf_sdio_bus_txdata. cbn [fst].
    case_match; [| intros (r & _ & E)%bind_Ok; revert E; case_match]; intros <-%Ok_pair;
      (split; split; try done; eexists; split; [reflexivity | by repeat constructor | reflexivity | by repeat constructor]).
  - intros <-%Ok_inj. unfold aicwf_sdio_bus_txmsg. case_match; by split; [apply pkeep_same | apply psame_refl].
  - intros <-%Ok_inj. by split; [apply pkeep_same | apply psame_refl].
  - intros <-%Ok_inj. by split; [apply pkeep_same | apply psame_refl].
  - intros <-%Ok_inj. by split; [apply pkeep_same | apply psame_refl].
Qed.

Lemma event_psame w e d d' : ~ is_power e -> do_event w e d = Ok d' -> psame d d'.
Proof.
  intros He E. destruct e; try (by destruct He); try (apply event_data in E as [_ E]; [exact E | exact I]); injection E as <-.
  - unfold aicwf_sdio_bus_pwrctl. repeat case_match; by apply psame_refl.
  - destruct (timer_psame 0 d). by split.
Qed.

(** An awake chip was awake before, and nothing was written to it. *)
Definition naps (d d' : dev) : Prop := awake d' -> awake d /\ outs d' = outs d.

Lemma naps_trans d1 d2 d3 : naps d1 d2 -> naps d2 d3 -> naps d1 d3.
Proof. intros H1 H2 [Ha ->]%H2. by apply H1. Qed.

Lemma timer_naps n d : naps d (aicwf_sdio_pwrctl_timer n d).
Proof. unfold naps, awake. destruct (timer_state n d) as [-> ->]. split; [done |]. unfold aicwf_sdio_pwrctl_timer. by repeat case_match. Qed.

Lemma sleep_done_not_awake d : state (sleep_done d) = SDIO_SLEEP_ST.
Proof. unfold sleep_done. by destruct (timer_state 0 (d <| state := SDIO_SLEEP_ST |>)) as [-> _]. Qed.

Lemma sema_naps d : naps d (down_wakeup_sema d).
Proof.
  unfold down_wakeup_sema. destruct (sleeping d); [| done]. intros [Hs _]. exfalso. revert Hs.
  change (state ((sleep_done d) <| sleeping := false |>)) with (state (sleep_done d)). by rewrite sleep_done_not_awake.
Qed.

Lemma pwr_sleep_naps w d : naps d (aicwf_sdio_pwr_stctl w SDIO_SLEEP_ST d).1.
Proof.
  unfold aicwf_sdio_pwr_stctl. destruct (bus_up d) eqn:Hb; cbn [negb]; [| done].
  eapply naps_trans; [apply sema_naps |]. case_match; [done |]. cbn [fst].
  unfold aicwf_sdio_sleep_allow. rewrite (ps_bus _ _ (sema_pstep d)), Hb. cbn [negb].
  case_match; [| apply timer_naps]. intros [Hs _]. by rewrite sleep_done_not_awake in Hs.
Qed.

Lemma pwrctl_thread_naps w d : naps d (aicwf_sdio_pwrctl_thread w d).
Proof.
  unfold aicwf_sdio_pwrctl_thread. destruct (pwrctrl_trgg d) as [|n]; [done |].
  apply (naps_trans d (d <| pwrctrl_trgg := n |>)); [done |].
  case_match; [done |]. case_match; [apply pwr_sleep_naps | apply timer_naps].
Qed.

Lemma sleep_begin_naps w d : naps d (sleep_begin w d).
Proof.
  unfold sleep_begin. destruct (pwrctrl_trgg d) as [|n]; [done |]. case_match; [| apply pwrctl_thread_naps]. by intros [_ Hs].
Qed.

(** ** No write to a sleeping chip *)

Section Safe.
Context (w : world) (c : chip).

(** Between the turns of the transmit thread. *)
Definition pwrinv (d : dev) : Prop :=
  chipid d = c /\ (awake d -> asleep c (outs d) = false) /\ writes_awake c (outs d).

(** Inside a turn. *)
Definition activeinv (d : dev) : Prop :=
  chipid d = c /\ awake d /\ asleep c (outs d) = false /\ writes_awake c (outs d).

Lemma activeinv_pwrinv d : activeinv d -> pwrinv d.
Proof. intros (H1 & _ & H2 & H3). by split. Qed.

Lemma pstep_writes d d' : pstep d d' -> writes_awake c (outs d) -> writes_awake c (outs d').
Proof.
  intros [_ _ _ _ _ _ (o & -> & Ho)] H. apply writes_awake_quiet; [done |].
  eapply Forall_impl; [exact Ho |]. by intros [].
Qed.

Lemma naps_pwrinv d d' : pstep d d' -> naps d d' -> pwrinv d -> pwrinv d'.
Proof.
  intros Hp Hn (H1 & H2 & H3). split; [by rewrite (ps_chip _ _ Hp) |]. split; [| by eapply pstep_writes].
  intros [Ha ->]%Hn. by apply H2.
Qed.

Lemma psame_asleep d d' : psame d d' -> asleep c (outs d') = asleep c (outs d) /\
  (writes_awake c (outs d) -> writes_awake c (outs d')) /\ (awake d' <-> awake d).
Proof.
  intros [_ E1 E2 (o & -> & Ho & Hw)]. unfold awake. rewrite E1, E2, asleep_app, asleep_no_reg by done.
  split_and!; [done | | done]. intros H. by apply writes_awake_quiet.
Qed.

Lemma psame_pwrinv d d' : psame d d' -> pwrinv d -> pwrinv d'.
Proof.
  intros Hp (H1 & H2 & H3). destruct (psame_asleep d d' Hp) as (E & Hw & Ha).
  split; [by rewrite (s_chip _ _ Hp) |]. rewrite E, Ha. auto.
Qed.

Lemma psame_activeinv d d' : psame d d' -> activeinv d -> activeinv d'.
Proof.
  intros Hp (H1 & H2 & H3 & H4). destruct (psame_asleep d d' Hp) as (E & Hw & Ha).
  split; [by rewrite (s_chip _ _ Hp) |]. rewrite E, Ha. auto.
Qed.

Lemma pkeep_activeinv d d' : pkeep d d' -> activeinv d -> activeinv d'.
Proof.
  intros [E1 _ E2 _ _ _ E3 (o & Eo & Ho)] (H1 & H2 & H3 & H4). unfold activeinv, awake.
  rewrite E1, E2, E3, Eo, asleep_app, asleep_no_reg by done. split_and!; [done | apply H2 | apply H2 | done | by apply writes_awake_up].
Qed.

Context (Hwr : forall n, w_wr w n = true).

(** A wake-up the card takes. *)
Lemma pwr_active_inv d : pwrinv d -> bus_up d = true -> activeinv (aicwf_sdio_pwr_stctl w SDIO_ACTIVE_ST d).1.
Proof.
  intros Hi Hb. pose proof (pwr_stctl_active w d Hb) as Ha. pose proof (pwr_stctl_pstep w SDIO_ACTIVE_ST d) as Hp.
  split; [rewrite (ps_chip _ _ Hp); apply Hi |]. split; [done |]. split; [| eapply pstep_writes; [exact Hp | apply Hi]].
  revert Ha. unfold aicwf_sdio_pwr_stctl. rewrite Hb. cbn [negb]. clear Hp.
  pose proof (naps_pwrinv _ _ (sema_pstep d) (sema_naps d) Hi) as (H1 & H2 & _).
  destruct (decide (state (down_wakeup_sema d) = SDIO_ACTIVE_ST)) as [Hs | Hs]; cbn [fst].
  - destruct (decide (SDIO_ACTIVE_ST = SDIO_ACTIVE_ST)) as [_ | []]; [| done]. intros [Ha ->]%timer_naps. by apply H2.
  - intros _. generalize dependent (down_wakeup_sema d). intros d1 H1 _ Hs. unfold aicwf_sdio_wakeup.
    rewrite decide_True by by destruct (state d1). unfold aicwf_sdio_writeb, writeb. rewrite Hwr.
    set (d2 := tick _). pose proof (wakeup_poll_pkeep w 50 d2) as [_ _ _ _ _ _ _ (o & Eo & Ho)].
    set (d3 := wakeup_poll w 50 d2) in *. destruct (s_outs _ _ (timer_psame (active_duration (d3 <| state := SDIO_ACTIVE_ST |>)) (d3 <| state := SDIO_ACTIVE_ST |>))) as (o' & E' & Ho' & _).
    change (outs (d3 <| state := SDIO_ACTIVE_ST |>)) with (outs d3) in E'.
    rewrite E', Eo, !asleep_app, !asleep_no_reg by done. change (outs d2) with (outs d1 ++ [OReg 1 (wakeup_reg (aicwf_sdio_reg_init (chipid d1))) (wakeup_reg_val (chipid d1)) true]).
    rewrite asleep_app, H1. cbn. rewrite Z.eqb_refl. by destruct c.
Qed.

Lemma suspend_naps k d : naps d (aicwf_sdio_suspend w k d).1.
Proof.
  unfold aicwf_sdio_suspend. destruct k; cbn [negb]; [| done]. cbv zeta. cbn [fst].
  destruct (decide (state d = SDIO_ACTIVE_ST)); [exact (pwr_sleep_naps w d) | done].
Qed.

Lemma resume_psame d : psame (aicwf_sdio_pwr_stctl w SDIO_ACTIVE_ST d).1 (aicwf_sdio_resume w d).
Proof. by apply psame_refl. Qed.

Lemma resume_down d : bus_up d = false -> aicwf_sdio_resume w d = d <| is_bus_suspend := false |>.
Proof. intros Hb. unfold aicwf_sdio_resume, aicwf_sdio_pwr_stctl. by rewrite Hb. Qed.

Lemma event_pwrinv e d d' : do_event w e d = Ok d' -> pwrinv d -> pwrinv d'.
Proof.
  intros E Hi. destruct e; try (eapply psame_pwrinv; [by eapply event_psame; [| exact E]; intros [] | done]); injection E as <-.
  - apply (naps_pwrinv d); [apply pwrctl_thread_pstep | apply pwrctl_thread_naps | done].
  - apply (naps_pwrinv d); [apply sleep_begin_pstep | apply sleep_begin_naps | done].
  - apply (naps_pwrinv d); [apply sema_pstep | apply sema_naps | done].
  - destruct (bus_up d) eqn:Hb; [by apply activeinv_pwrinv, pwr_active_inv |].
    unfold aicwf_sdio_pwr_stctl. by rewrite Hb.
  - apply (naps_pwrinv d); [apply suspend_pstep | apply suspend_naps | done].
  - destruct (bus_up d) eqn:Hb; [eapply psame_pwrinv; [apply resume_psame | by apply activeinv_pwrinv, pwr_active_inv] |].
    rewrite resume_down by done. by apply (psame_pwrinv d); [apply psame_refl |].
Qed.

(** The power thread keeps out of the turns. *)
Definition no_sleep (e : event) : Prop := match e with EvPwr | EvSleepBegin | EvSuspend _ => False | _ => True end.

Lemma event_activeinv e d d' : no_sleep e -> do_event w e d = Ok d' -> activeinv d -> activeinv d'.
Proof.
  intros He E Hi. destruct e; try (by destruct He); try (eapply psame_activeinv; [by eapply event_psame; [| exact E]; intros [] | done]); injection E as <-.
  - by rewrite sema_awake by apply Hi.
  - destruct (bus_up d) eqn:Hb; [by apply pwr_active_inv; [apply activeinv_pwrinv |] |].
    unfold aicwf_sdio_pwr_stctl. by rewrite Hb.
  - destruct (bus_up d) eqn:Hb; [eapply psame_activeinv; [apply resume_psame | by apply pwr_active_inv; [apply activeinv_pwrinv |]] |].
    rewrite resume_down by done. by apply (psame_activeinv d); [apply psame_refl |].
Qed.

Context (Hev : forall n, Forall no_sleep (w_ev w n)).

Lemma thread_pwrinv fuel d d' : sdio_bustx_thread w fuel d = Ok d' -> pwrinv d -> pwrinv d'.
Proof.
  unfold sdio_bustx_thread. destruct (bustx_trgg d) as [|n]; [by intros <-%Ok_inj |]. set (d1 := d <| bustx_trgg := n |>).
  intros E Hi. pose proof (psame_pwrinv d d1 ltac:(by apply psame_refl) Hi) as H1. revert E.
  destruct (bus_up d1) eqn:Hb; cbn [negb]; [| by intros <-%Ok_inj].
  destruct (is_bus_suspend d1); [done |]. case_match; [| by intros <-%Ok_inj].
  intros E. apply activeinv_pwrinv. eapply (process_P w activeinv); [| | exact E | done | by apply pwr_active_inv].
  - intros. by eapply pkeep_activeinv.
  - intros m e x x' He Ex. apply (event_activeinv e); [| done]. by eapply Forall_forall in He; [| apply Hev].
Qed.

Lemma run_pwrinv os : forall d d', run w d os = Ok d' -> pwrinv d -> pwrinv d'.
Proof.
  induction os as [|o os IH]; intros d d'; cbn [run]; [by intros <-%Ok_inj |].
  intros (d1 & E1 & E)%bind_Ok Hi. eapply IH; [exact E |]. destruct o as [e | fuel]; cbn [step] in E1.
  - by eapply event_pwrinv.
  - by eapply thread_pwrinv.
Qed.

End Safe.

(** ** The timer watches an awake chip *)

Definition tinv (d : dev) : Prop :=
  active_duration d <> 0 /\
  (bus_up d = true -> state d = SDIO_ACTIVE_ST -> timer d = true \/ (0 < pwrctrl_trgg d)%nat \/ sleeping d = true).

Lemma pkeep_tinv d d' : pkeep d d' -> tinv d -> tinv d'.
Proof. intros [_ E1 E2 E3 E4 E5 E6 _]. unfold tinv. by rewrite E1, E2, E3, E4, E5, E6. Qed.

Lemma bus_only_tinv d d' : bus_only d d' -> tinv d -> tinv d'.
Proof. by intros ->. Qed.

Lemma timer_dur d : active_duration (aicwf_sdio_pwrctl_timer (active_duration d) d) = active_duration d /\
  active_duration (aicwf_sdio_pwrctl_timer 0 d) = active_duration d.
Proof. unfold aicwf_sdio_pwrctl_timer. split; by repeat case_match. Qed.

Lemma tinv_timer d : active_duration d <> 0 -> tinv (aicwf_sdio_pwrctl_timer (active_duration d) d).
Proof.
  intros Hd. split; [by rewrite (proj1 (timer_dur d)) |]. unfold aicwf_sdio_pwrctl_timer.
  rewrite (proj2 (Z.eqb_neq _ _) Hd). destruct (bus_up d) eqn:Hb; cbn [negb andb]; [by left | by rewrite Hb].
Qed.

Lemma tinv_sleep_done d : active_duration d <> 0 -> tinv (sleep_done d).
Proof.
  intros Hd. split; [| by rewrite sleep_done_not_awake]. unfold sleep_done. by rewrite (proj2 (timer_dur _)).
Qed.

Lemma sema_dur d : active_duration (down_wakeup_sema d) = active_duration d.
Proof. unfold down_wakeup_sema, sleep_done. case_match; [| done]. exact (proj2 (timer_dur (d <| state := SDIO_SLEEP_ST |>))). Qed.

Lemma tinv_pwr_stctl w t d : active_duration d <> 0 -> bus_up d = true -> tinv (aicwf_sdio_pwr_stctl w t d).1.
Proof.
  intros Hi Hb. unfold aicwf_sdio_pwr_stctl. rewrite Hb. cbn [negb].
  assert (Hb1 : bus_up (down_wakeup_sema d) = true) by by rewrite (ps_bus _ _ (sema_pstep d)).
  rewrite <- sema_dur in Hi. generalize dependent (down_wakeup_sema d). intros d1 Hi Hb1.
  destruct (decide (state d1 = t)) as [Hs | Hs]; cbn [fst].
  - destruct (decide (t = SDIO_ACTIVE_ST)) as [Ht | Ht]; [by apply tinv_timer |]. split; [done | congruence].
  - destruct t.
    + unfold aicwf_sdio_sleep_allow. rewrite Hb1. cbn [negb]. destruct (may_sleep d1); [| by apply tinv_timer].
      apply tinv_sleep_done. by rewrite (sleep_regs_bus w d1).
    + destruct (wakeup_eq w d1) as (d2 & H & ->); [by destruct (state d1) |].
      assert (E : active_duration d1 = active_duration (d2 <| state := SDIO_ACTIVE_ST |>)) by by rewrite H.
      rewrite E. apply tinv_timer. by rewrite <- E.
Qed.

Lemma tinv_thread w d : tinv d -> tinv (aicwf_sdio_pwrctl_thread w d).
Proof.
  intros Hi. unfold aicwf_sdio_pwrctl_thread. destruct (pwrctrl_trgg d) as [|n] eqn:En; [done |].
  set (d1 := d <| pwrctrl_trgg := n |>). destruct (bus_up d1) eqn:Hb; cbn [negb]; [| split; [apply Hi | congruence]].
  destruct (idle d1); [apply tinv_pwr_stctl; [apply Hi | done] | apply tinv_timer, Hi].
Qed.

Lemma event_tinv w e d d' : do_event w e d = Ok d' -> tinv d -> tinv d'.
Proof.
  intros E Hi. destruct e; try (apply event_data in E as [E _]; [by apply (pkeep_tinv d) | exact I]); injection E as <-.
  - destruct (timer d) eqn:Et; [| done]. unfold aicwf_sdio_bus_pwrctl. case_match; (split; [apply Hi |]); intros Hb Hs.
    + by apply negb_true_iff in H; rewrite Hb in H.
    + right. left. cbn. lia.
  - by apply tinv_thread.
  - unfold sleep_begin. destruct (pwrctrl_trgg d) as [|n] eqn:En; [done |]. case_match; [| by apply tinv_thread].
    split; [| by right; right]. change (active_duration (sleep_regs w (down_wakeup_sema (d <| pwrctrl_trgg := n |>))) <> 0).
    rewrite (sleep_regs_bus w _). change (active_duration (down_wakeup_sema (d <| pwrctrl_trgg := n |>)) <> 0). rewrite sema_dur. apply Hi.
  - split; [rewrite sema_dur; apply Hi |]. intros Hb. unfold down_wakeup_sema. destruct (sleeping d) eqn:Es; [| by apply Hi; rewrite (ps_bus _ _ (sema_pstep d)) in Hb].
    intros Hs. change (state (sleep_done d) = SDIO_ACTIVE_ST) in Hs. by rewrite sleep_done_not_awake in Hs.
  - destruct (bus_up d) eqn:Hb; [by apply tinv_pwr_stctl; [apply Hi |] |]. unfold aicwf_sdio_pwr_stctl. by rewrite Hb.
  - unfold aicwf_sdio_suspend. destruct keep_power; cbn [negb]; [| done]. cbv zeta. cbn [fst].
    destruct (decide (state d = SDIO_ACTIVE_ST)); [| exact Hi]. destruct (bus_up d) eqn:Hb; [exact (tinv_pwr_stctl w SDIO_SLEEP_ST d (proj1 Hi) Hb) |].
    unfold aicwf_sdio_pwr_stctl. rewrite Hb. exact Hi.
  - destruct (bus_up d) eqn:Hb; [exact (tinv_pwr_stctl w SDIO_ACTIVE_ST d (proj1 Hi) Hb) |]. rewrite resume_down by done. exact Hi.
  - split; [exact (eq_ind_r (fun x => x <> 0) (proj1 Hi) (proj2 (timer_dur d))) | done].
Qed.

Lemma run_tinv w os : forall d d', run w d os = Ok d' -> tinv d -> tinv d'.
Proof.
  induction os as [|o os IH]; intros d d'; cbn [run]; [by intros <-%Ok_inj |].
  intros (d1 & E1 & E)%bind_Ok Hi. eapply IH; [exact E |]. destruct o as [e | fuel]; cbn [step] in E1; [by eapply event_tinv |].
  revert E1. unfold sdio_bustx_thread. destruct (bustx_trgg d) as [|n]; [by intros <-%Ok_inj |]. set (d2 := d <| bustx_trgg := n |>).
  destruct (bus_up d2) eqn:Hb; cbn [negb]; [| by intros <-%Ok_inj]. destruct (is_bus_suspend d2); [done |]. case_match; [| by intros <-%Ok_inj].
  intros E1. eapply (process_P w tinv); [| | exact E1 | done | by apply tinv_pwr_stctl; [apply Hi |]].
  - intros x x' Hx. by apply pkeep_tinv.
  - intros m e x x' _ Ex. by apply (event_tinv w e).
Qed.

(** ** Theorems *)

Lemma start_trace w c : chipid (start w c) = c /\ state (start w c) = SDIO_SLEEP_ST /\ active_duration (start w c) = SDIOWIFI_PWR_CTRL_INTERVAL /\
  Forall no_write (outs (start w c)).
Proof. destruct c; (split_and!; [done.. |]; by repeat constructor). Qed.

(** C38. If register writes succeed and the power thread and suspend stay out of the
    turns of the transmit thread, no frame or command is ever written to a chip whose
    last power request was to sleep, whatever happens between turns. *)
Theorem sdio_no_write_asleep w c os d :
  (forall n, w_wr w n = true) -> (forall n, Forall no_sleep (w_ev w n)) ->
  run w (start w c) os = Ok d -> writes_awake c (outs d).
Proof.
  intros Hwr Hev E. apply (run_pwrinv w c Hwr Hev os _ _ E).
  destruct (start_trace w c) as (H1 & H2 & _ & H3). split; [done |]. split.
  - intros [Ha _]. congruence.
  - apply (writes_awake_quiet c []); [by intros [] | done].
Qed.

(** A turn of the power thread when nothing keeps the chip awake. *)
Lemma thread_sleeps w x : bus_up x = true -> idle x = true -> sleeping x = false ->
  (state x = SDIO_ACTIVE_ST -> (0 < pwrctrl_trgg x)%nat /\ may_sleep x = true) ->
  state (aicwf_sdio_pwrctl_thread w x) = SDIO_SLEEP_ST.
Proof.
  intros Hb Hi Hs Hx. unfold aicwf_sdio_pwrctl_thread. destruct (pwrctrl_trgg x) as [|n] eqn:En.
  - destruct (state x); [done |]. destruct (Hx eq_refl) as [? _]. lia.
  - set (y := x <| pwrctrl_trgg := n |>). change (bus_up y) with (bus_up x). change (idle y) with (idle x). rewrite Hb, Hi. cbn [negb].
    unfold aicwf_sdio_pwr_stctl, down_wakeup_sema. change (bus_up y) with (bus_up x). change (sleeping y) with (sleeping x).
    rewrite Hb, Hs. cbn [negb]. destruct (decide (state y = SDIO_SLEEP_ST)) as [Hy | Hy]; [done |]. cbn [fst].
    unfold aicwf_sdio_sleep_allow. change (bus_up y) with (bus_up x). rewrite Hb. cbn [negb].
    assert (Ha : state x = SDIO_ACTIVE_ST) by (change (state y) with (state x) in Hy; by destruct (state x)).
    change (may_sleep y) with (may_sleep x). destruct (Hx Ha) as [_ ->]. apply sleep_done_not_awake.
Qed.

(** The timer's handler, when the timer runs. *)
Definition expire (d : dev) : dev := if timer d then aicwf_sdio_bus_pwrctl (d <| timer := false |>) else d.

Lemma expire_spec d : bus_up d = true -> bus_up (expire d) = true /\ idle (expire d) = idle d /\ sleeping (expire d) = sleeping d /\
  state (expire d) = state d /\ may_sleep (expire d) = may_sleep d /\
  (timer d = true \/ (0 < pwrctrl_trgg d)%nat -> (0 < pwrctrl_trgg (expire d))%nat).
Proof.
  intros Hb. unfold expire, aicwf_sdio_bus_pwrctl. change (bus_up (d <| timer := false |>)) with (bus_up d). rewrite Hb. cbn [negb].
  destruct (timer d); (split_and!; [done.. |]); intros [? | ?]; cbn; first [done | lia].
Qed.

(** In every state the bus reaches, when nothing is to be sent or received and
    neither scan nor P2P is active, the end of a running sleep sequence, the timer and
    one turn of the power thread put the chip to sleep: an awake chip is always watched.
    *)
Theorem sdio_idle_sleeps w c os d :
  run w (start w c) os = Ok d -> bus_up d = true -> idle d = true ->
  scanning d = false -> is_p2p_alive d = false -> is_p2p_connected d = false ->
  exists d', do_events w [EvSleepEnd; EvTimer; EvPwr] d = Ok d' /\ state d' = SDIO_SLEEP_ST.
Proof.
  intros E Hb Hi Hs1 Hs2 Hs3. destruct (run_tinv w os _ _ E) as [Hd Ht].
  { destruct (start_trace w c) as (_ & H2 & H3 & _). split; [by rewrite H3 | congruence]. }
  specialize (Ht Hb). exists (aicwf_sdio_pwrctl_thread w (expire (down_wakeup_sema d))). split; [done |].
  destruct (sleeping d) eqn:Hs.
  - unfold down_wakeup_sema. rewrite Hs. set (d1 := _ <| sleeping := false |>).
    assert (Hst : state d1 = SDIO_SLEEP_ST) by exact (sleep_done_not_awake d).
    assert (H1 : bus_up d1 = true /\ idle d1 = true).
    { unfold d1, sleep_done, aicwf_sdio_pwrctl_timer. rewrite andb_false_r. by split. }
    destruct H1 as [Hb1 Hi1]. destruct (expire_spec d1 Hb1) as (E1 & E2 & E3 & E4 & _).
    apply thread_sleeps; [done | by rewrite E2 | by rewrite E3 | rewrite E4, Hst; done].
  - unfold down_wakeup_sema. rewrite Hs. destruct (expire_spec d Hb) as (E1 & E2 & E3 & E4 & E5 & E6).
    apply thread_sleeps; [done | by rewrite E2 | by rewrite E3 |]. rewrite E4, E5. intros Ha. split.
    + apply E6. destruct (Ht Ha) as [? | [? | ?]]; [by left | by right | done].
    + unfold idle in Hi. apply andb_true_iff in Hi as [Hi Hr]. apply andb_true_iff in Hi as [Hp Hc].
      unfold may_sleep. rewrite bool_decide_eq_true_2, Hs1, Hs2, Hs3, Hp, Hc, Hr by done. done.
Qed.

(** The retries end with a value that does not open the loop. *)
Lemma flow_loop_closed w retry : bytes_read w -> forall d,
  (forall n, (clk d <= n)%nat -> match w_rd w n (flow_ctrl_reg (aicwf_sdio_reg_init (chipid d))) with
                                 | Some v => flow_mask (chipid d) v <= DATA_FLOW_CTRL_THRESH | None => True end) ->
  bus_only d (flow_loop w retry d).1 /\ (clk d <= clk (flow_loop w retry d).1)%nat /\ (flow_loop w retry d).2 <= DATA_FLOW_CTRL_THRESH.
Proof.
  intros Hrd. induction retry as [|retry IH]; intros d Hr; cbn [flow_loop]; unfold aicwf_sdio_readb;
    pose proof (Hr (clk d) (le_n _)) as H0; destruct (w_rd w (clk d) _) as [v|] eqn:Ev; cbn [negb].
  - pose proof (flow_mask_pos (chipid d) v (Hrd _ _ _ Ev)).
    set (d1 := tick _). change (chipid d1) with (chipid d). rewrite (proj2 (Z.ltb_ge _ _) H0). cbn [fst snd].
    split_and!; [by destruct d | unfold d1; cbn; lia | unfold DATA_FLOW_CTRL_THRESH in *; lia].
  - split_and!; [by destruct d | cbn; lia | done].
  - set (d1 := tick _). change (chipid d1) with (chipid d). rewrite (proj2 (Z.ltb_ge _ _) H0).
    destruct (IH d1) as (E1 & E2 & E3).
    { intros n Hn. apply Hr. unfold d1 in Hn. cbn in Hn. lia. }
    split_and!; [| eapply Nat.le_trans; [| exact E2]; unfold d1; cbn; lia | done]. eapply bus_only_trans; [| done]. by destruct d.
  - split_and!; [by destruct d | cbn; lia | done].
Qed.

(** As long as the flow control register shows at most two buffers or cannot be
    read, no command comes and the bus stays up, the data phase never ends: the transmit
    thread polls without limit. *)
Theorem sdio_closed_flow_waits w d fuel :
  bytes_read w -> calm w (clk d) -> bus_up d = true -> cmd_txstate (tx d) = false -> fw_avail_bufcnt (tx d) <= DATA_FLOW_CTRL_THRESH ->
  FrameQueue.aicwf_is_framequeue_empty (txq (tx d)) = Ok false ->
  (forall n, (clk d <= n)%nat -> match w_rd w n (flow_ctrl_reg (aicwf_sdio_reg_init (chipid d))) with
                                 | Some v => flow_mask (chipid d) v <= DATA_FLOW_CTRL_THRESH | None => True end) ->
  tx_loop w fuel d = NoFuel.
Proof.
  intros Hrd. revert d. induction fuel as [|fuel IH]; intros d Hc Hb Ht Hf Hq Hr; cbn [tx_loop]; unfold is_empty; rewrite Hq; cbn [mbind res_bind]; rewrite Hb; cbn [negb]; [done |].
  rewrite (proj2 (Z.leb_le _ _) Hf), Ht.
  pose proof (flow_loop_closed w FLOW_CTRL_RETRY_COUNT Hrd d Hr) as H.
  unfold refill, aicwf_sdio_flow_ctrl. destruct (flow_loop _ _ _) as [d1 n]. cbn [fst snd] in H. destruct H as (Ho & Hl & Hn).
  unfold interleave. set (d2 := d1 <| tx ::= _ |>). rewrite (Hc (clk d2)) by done. cbn [do_events mbind res_bind].
  apply IH; unfold d2, tick; rewrite Ho; try done.
  - intros m Hm. apply Hc. cbn in Hm. lia.
  - intros m Hm. apply Hr. cbn in Hm. lia.
Qed.

(** ** What goes wrong *)

(** A write of the trace to a chip whose last request was to sleep. *)
Fixpoint written_asleep (c : chip) (a : bool) (o : list out) : bool :=
  match o with
  | [] => false
  | x :: o => match x with OWrite _ _ _ => a || written_asleep c a o | _ => written_asleep c (asleep_step c a x) o end
  end.

Lemma written_asleep_spec c o : forall a, written_asleep c a o = true ->
  exists pre cmd b ok post, o = pre ++ OWrite cmd b ok :: post /\ foldl (asleep_step c) a pre = true.
Proof.
  induction o as [|x o IH]; intros a; cbn [written_asleep]; [done |]. intros H.
  assert (Hc : (exists cmd b ok, x = OWrite cmd b ok /\ a = true) \/ written_asleep c (asleep_step c a x) o = true).
  { destruct x as [| | cmd b ok | |]; try by right. apply orb_true_iff in H as [-> | H]; [left; by exists cmd, b, ok | by right]. }
  destruct Hc as [(cmd & b & ok & -> & ->) | H1]; [by exists [], cmd, b, ok, o |].
  destruct (IH _ H1) as (pre & cmd & b & ok & post & -> & Hf). by exists (x :: pre), cmd, b, ok, post.
Qed.

Module Example.
Import SdioAggr.Example SdioRuns.Example.

(** The power thread and a frame come at moment [k]. *)
Definition w_race (k : nat) : world :=
  World (fun _ _ => Some 40) (fun _ => true) (fun n => if (n =? k)%nat then [EvTimer; EvPwr; EvData f1] else []) 32.

(** The write at moment [k] fails. *)
Definition w_fail (k : nat) : world := World (fun _ _ => Some 40) (fun n => negb (n =? k)%nat) (fun _ => []) 32.

Definition os_race : list op := [OpEv (EvMsg cmd0 12); OpTx 10].
Definition os_fail : list op := os_race ++ [OpEv EvTimer; OpEv EvPwr; OpEv (EvData f1); OpTx 10].

Lemma race_writes : holds (fun d => written_asleep PRODUCT_ID_AIC8801 false (outs d))
  (run (w_race 6) (start (w_race 6) PRODUCT_ID_AIC8801) os_race) = true.
Proof. vm_compute. reflexivity. Qed.

Lemma fail_writes : holds (fun d => written_asleep c0 false (outs d)) (run (w_fail 9) (start (w_fail 9) c0) os_fail) = true.
Proof. vm_compute. reflexivity. Qed.

Lemma sdio_no_write_asleep_witness : exists d, run w0 (start w0 c0) os_fail = Ok d /\
  In (OReg 1 (wakeup_reg (aicwf_sdio_reg_init c0)) 2 true) (outs d) /\ writes_awake c0 (outs d).
Proof.
  assert (H : holds (fun d => existsb (fun x => match x with OReg (S O) r v true => (r =? 2) && (v =? 2) | _ => false end) (outs d))
    (run w0 (start w0 c0) os_fail) = true) by (vm_compute; reflexivity).
  destruct (holds_ok _ _ H) as (d & E & Hg). exists d. split; [exact E | split].
  - apply existsb_exists in Hg as (x & Hx & Hm). destruct x as [| [| []] r v [] | | |]; try discriminate Hm.
    apply andb_true_iff in Hm as [->%Z.eqb_eq ->%Z.eqb_eq]. exact Hx.
  - exact (sdio_no_write_asleep w0 c0 os_fail d (fun _ => eq_refl) (fun _ => Forall_nil_2 _) E).
Defined.

Lemma sdio_idle_sleeps_witness : exists d d', run w0 (start w0 c0) os_race = Ok d /\ state d = SDIO_ACTIVE_ST /\
  do_events w0 [EvSleepEnd; EvTimer; EvPwr] d = Ok d' /\ state d' = SDIO_SLEEP_ST.
Proof.
  assert (H : holds (fun d => bus_up d && (idle d && (bool_decide (state d = SDIO_ACTIVE_ST) &&
    negb (scanning d || is_p2p_alive d || is_p2p_connected d)))) (run w0 (start w0 c0) os_race) = true) by (vm_compute; reflexivity).
  destruct (holds_ok _ _ H) as (d & E & Hg). apply andb_true_iff in Hg as [H1 Hg]. apply andb_true_iff in Hg as [H2 Hg].
  apply andb_true_iff in Hg as [H3 Hg]. rewrite negb_true_iff, !orb_false_iff in Hg. destruct Hg as [[H4 H5] H6].
  destruct (sdio_idle_sleeps w0 c0 os_race d E H1 H2 H4 H5 H6) as (d' & E' & Hs). exists d, d'.
  split; [exact E | split; [by apply bool_decide_eq_true in H3 | by split]].
Defined.

(** The firmware has two buffers left. *)
Definition w_closed : world := World (fun _ _ => Some 2) (fun _ => true) (fun _ => []) 32.

Lemma sdio_closed_flow_waits_witness : exists d, run w_closed (start w_closed c0) [OpEv (EvData f1)] = Ok d /\
  forall fuel, tx_loop w_closed fuel d = NoFuel.
Proof.
  assert (H : holds (fun d => bus_up d && (negb (cmd_txstate (tx d)) && ((fw_avail_bufcnt (tx d) <=? 2) && (match chipid d with PRODUCT_ID_AIC8800D80 => true | _ => false end &&
    match FrameQueue.aicwf_is_framequeue_empty (txq (tx d)) with Ok b => negb b | _ => false end))))
    (run w_closed (start w_closed c0) [OpEv (EvData f1)]) = true) by (vm_compute; reflexivity).
  destruct (holds_ok _ _ H) as (d & E & Hg). apply andb_true_iff in Hg as [H1 Hg]. apply andb_true_iff in Hg as [H2 Hg].
  apply andb_true_iff in Hg as [H3 Hg]. apply andb_true_iff in Hg as [H4 H5]. exists d. split; [exact E |]. intros fuel.
  apply sdio_closed_flow_waits; [intros n r v [= <-]; by split | by intros n _ | exact H1 | by apply negb_true_iff | by apply Z.leb_le | |].
  - destruct (FrameQueue.aicwf_is_framequeue_empty (txq (tx d))) as [[]| |]; done.
  - intros n _. by destruct (chipid d).
Defined.

End Example.

(** Both conditions of sdio_no_write_asleep are needed: there is a run in which the
    power thread puts the chip to sleep between the test of the state and the data loop,
    and one in which the wake-up write fails and the state is set to active all the
    same; each then writes to the sleeping chip. *)
Theorem sdio_writes_to_sleeping_chip :
  (exists w c os d pre cmd b ok post, (forall n, w_wr w n = true) /\ run w (start w c) os = Ok d /\
     outs d = pre ++ OWrite cmd b ok :: post /\ asleep c pre = true) /\
  (exists w c os d pre cmd b ok post, (forall n, w_ev w n = []) /\ run w (start w c) os = Ok d /\
     outs d = pre ++ OWrite cmd b ok :: post /\ asleep c pre = true).
Proof.
  split.
  - destruct (SdioRuns.Example.holds_ok _ _ Example.race_writes) as (d & E & H).
    destruct (written_asleep_spec _ _ _ H) as (pre & cmd & b & ok & post & Eo & Ha).
    exists (Example.w_race 6), PRODUCT_ID_AIC8801, Example.os_race, d, pre, cmd, b, ok, post. exact (conj (fun _ => eq_refl) (conj E (conj Eo Ha))).
  - destruct (SdioRuns.Example.holds_ok _ _ Example.fail_writes) as (d & E & H).
    destruct (written_asleep_spec _ _ _ H) as (pre & cmd & b & ok & post & Eo & Ha).
    exists (Example.w_fail 9), SdioRuns.Example.c0, Example.os_fail, d, pre, cmd, b, ok, post. exact (conj (fun _ => eq_refl) (conj E (conj Eo Ha))).
Qed.

End SdioPwr.
