(* ===== verification/SdioRx.v ===== *)
(** * The SDIO transport: reception (aicwf_sdio.c, aicwf_txrxif.c)

    The interrupt handler reads what the card announces as one block and puts
    it into the receive queue; the receive thread splits the blocks.  The two
    run concurrently: [rstep] has a step for every part between which the
    other thread may run, the places of the two threads are [ip] and [tp].
    The rest of the driver may change the device at any moment, except
    rx_cnt.  Allocations, register reads and the contents of the FIFO are
    arbitrary at each step.  [accepted] and [done] are ghosts: the blocks put
    into the queue and those the thread is through with. *)

From stdpp Require Import prelude.
From S2P Require Import Prelude RxAmsdu RxReorder RxData FrameQueue RxBlock CmdTx Sdio.
Open Scope Z_scope.

Module SdioRx.
Import FrameQueue CmdTx Sdio.

Definition SDIO_OTHER_INTERRUPT : Z := Z.shiftl 1 7.
Definition MAX_RXQLEN : Z := 2000.

(** What the card and the allocator answer during one interrupt. *)
Record rxworld := RxWorld { rxw : world; w_fifo : nat -> Z -> option (list Z); w_skb : nat -> bool }.

Section Irq.
Context (w : rxworld).

(** ** Reading a block *)

(** The FIFO read is logged with its size. *)
Definition aicwf_sdio_recv_pkt (size : Z) (d : dev) : dev * option (list Z) :=
  if size =? 0 then (d, None)
  else (tick (emit [ORd (rd_fifo_addr (aicwf_sdio_reg_init (chipid d))) (Some size)] d), w_fifo w (clk d) size).

Definition aicwf_sdio_readframes (data_len : Z) (d : dev) : dev * option (list Z) :=
  if negb (bus_up d) then (d, None)
  else if negb (w_skb w (clk d)) then (d, None)
  else aicwf_sdio_recv_pkt data_len d.

(** data_len, which stays as it was when the bus is down. *)
Definition aicwf_sdio_intr_get_len_bytemode (data_len : Z) (d : dev) : dev * Z :=
  if negb (bus_up d) then (d, data_len)
  else
    let '(d, (byte_len, _)) := aicwf_sdio_readb (rxw w) (bytemode_len_reg (aicwf_sdio_reg_init (chipid d))) d in
    (d, byte_len * 4).

(** ** The interrupt handler up to the queue *)

(** [IrqReturn]: the handler returns inside, without releasing ws_irqrx. *)
Inductive irq_res := IrqReturn | IrqGo (pkt : option (list Z)).

(** The loop after a status that could not be read or had the other interrupt
    set; [fuel]: the reads that fail. *)
Fixpoint reread_status (fuel : nat) (d : dev) : res dev :=
  let '(d, (_, ok)) := aicwf_sdio_readb (rxw w) (block_cnt_reg (aicwf_sdio_reg_init (chipid d))) d in
  if ok : bool then Ok d else match fuel with O => NoFuel | S fuel => reread_status fuel d end.

(** The AIC8801, 8800DC and 8800DW. *)
Definition irq_block_cnt (fuel : nat) (data_len : Z) (d : dev) : res (dev * Z * irq_res) :=
  let '(d, (intstatus, ok)) := aicwf_sdio_readb (rxw w) (block_cnt_reg (aicwf_sdio_reg_init (chipid d))) d in
  if negb ok || negb (Z.land intstatus SDIO_OTHER_INTERRUPT =? 0) then
    d ← reread_status fuel d; Ok (d, data_len, IrqReturn)
  else
    let data_len := intstatus * SDIOWIFI_FUNC_BLOCKSIZE in
    if 0 <? intstatus then
      let '(d, data_len) := if intstatus <? 64 then (d, data_len) else aicwf_sdio_intr_get_len_bytemode data_len d in
      let '(d, pkt) := aicwf_sdio_readframes data_len d in
      Ok (d, data_len, IrqGo pkt)
    else Ok (d, data_len, IrqGo None).

(** The acknowledgement of the other interrupt; no error ends it. *)
Definition ack_other (d : dev) : dev :=
  let reg := sleep_reg (aicwf_sdio_reg_init (chipid d)) in
  let '(d, (int_pending, _)) := aicwf_sdio_readb (rxw w) reg d in
  (aicwf_sdio_writeb (rxw w) reg (Z.land int_pending (Z.lxor 0xFF 0x01)) d).1.

(** The AIC8800D80 and its variants. *)
Definition irq_misc_status (data_len : Z) (d : dev) : dev * Z * irq_res :=
  let '(d, (intstatus, ok)) := aicwf_sdio_readb (rxw w) (misc_int_status_reg (aicwf_sdio_reg_init (chipid d))) d in
  if negb ok then (d, data_len, IrqReturn)
  else
    let d := if negb (Z.land intstatus SDIO_OTHER_INTERRUPT =? 0) then ack_other d else d in
    if 0 <? intstatus then
      let intmaskf2 := Z.lor intstatus (Z.shiftl 1 3) in
      let '(d, data_len) :=
        if 120 <? intmaskf2 then
          if intmaskf2 =? 127 then aicwf_sdio_intr_get_len_bytemode data_len d
          else (d, Z.land intstatus 0x7 * SDIOWIFI_FUNC_BLOCKSIZE)
        else
          if intstatus =? 120 then aicwf_sdio_intr_get_len_bytemode data_len d
          else (d, Z.land intstatus 0x7F * SDIOWIFI_FUNC_BLOCKSIZE) in
      let '(d, pkt) := aicwf_sdio_readframes data_len d in
      (d, data_len, IrqGo pkt)
    else (d, data_len, IrqGo None).

(** A handler that returns at once, because rwnx_hw is NULL or the bus is
    down, has done nothing. *)
Definition irq_read (fuel : nat) (rwnx_hw : bool) (data_len : Z) (d : dev) : res (dev * Z * option irq_res) :=
  if negb rwnx_hw || negb (bus_up d) then Ok (d, data_len, None)
  else
    r ← (match chipid d with
         | PRODUCT_ID_AIC8801 | PRODUCT_ID_AIC8800DC | PRODUCT_ID_AIC8800DW => irq_block_cnt fuel data_len d
         | _ => Ok (irq_misc_status data_len d)
         end);
    Ok (r.1.1, r.1.2, Some r.2).

End Irq.

(** ** The two threads *)

(** Where the handler is: before an interrupt, with a block, between the queue
    and the counter, before the test of the counter. *)
Inductive ipc := IIdle | IEnq (pkt : list Z) | IInc | ICheck.

(** Where the receive thread is: waiting, at the top of the loop, with a
    block, behind the loop, ended. *)
Inductive tpc := TWait | TLoop | TBusy (b : list Z) | TExit | TGone.

Section Threads.
Context {St : Type} (handle : St -> RxBlock.packet -> res St).

Record sys := Sys {
  dv : dev; rxq : frame_queue (list Z); data_len : Z; busrx_trgg : nat; ws_irqrx : bool; ip : ipc; tp : tpc; hst : St;
  accepted : list (list Z); done_ : list (list Z) }.
#[global] Instance eta_sys : Settable sys := fun r =>
  Sys (dv r) (rxq r) (data_len r) (busrx_trgg r) (ws_irqrx r) (ip r) (tp r) (hst r) (accepted r) (done_ r).

Definition irq_begin (w : rxworld) (fuel : nat) (rwnx_hw : bool) (s : sys) : res sys :=
  r ← irq_read w fuel rwnx_hw (data_len s) (dv s);
  let s := s <| dv := r.1.1 |> <| data_len := r.1.2 |> in
  Ok (match r.2 with
      | None => s <| ws_irqrx := if rwnx_hw then false else ws_irqrx s |>
      | Some IrqReturn => s <| ws_irqrx := true |>
      | Some (IrqGo (Some pkt)) => s <| ws_irqrx := true |> <| ip := IEnq pkt |>
      | Some (IrqGo None) => s <| ws_irqrx := true |> <| ip := ICheck |>
      end).

(** aicwf_sdio_enq_rxpkt: the queue under its lock, then the counter. *)
Definition enq_rxpkt (pkt : list Z) (s : sys) : res sys :=
  r ← aicwf_frame_enq (rxq s) pkt 0;
  Ok (if r.2 : bool then s <| rxq := r.1 |> <| ip := IInc |> <| accepted ::= fun l => l ++ [pkt] |> else s <| rxq := r.1 |> <| ip := ICheck |>).

Definition set_cnt (f : Z -> Z) (s : sys) : sys := s <| dv ::= fun d => d <| rx_cnt ::= f |> |>.

Definition inc_rx_cnt (s : sys) : sys := (set_cnt Z.succ s) <| ip := ICheck |>.

(** The test of the counter, and the end of the handler. *)
Definition irq_end (s : sys) : sys :=
  let s := if rx_cnt (dv s) =? 1 then s <| busrx_trgg ::= S |> else s in
  s <| ws_irqrx := false |> <| ip := IIdle |>.

(** The whole handler, when the thread does not run in between. *)
Definition aicwf_sdio_hal_irqhandler (w : rxworld) (fuel : nat) (rwnx_hw : bool) (s : sys) : res sys :=
  s ← irq_begin w fuel rwnx_hw s;
  s ← (match ip s with IEnq pkt => enq_rxpkt pkt s | _ => Ok s end);
  let s := match ip s with IInc => inc_rx_cnt s | _ => s end in
  Ok (match ip s with ICheck => irq_end s | _ => s end).

(** sdio_busrx_thread wakes up. *)
Definition rx_wake (s : sys) : sys :=
  s <| busrx_trgg ::= Nat.pred |> <| tp := if bus_up (dv s) then TLoop else TGone |>.

(** The top of the loop of aicwf_process_rxframes, under the lock. *)
Definition rx_take (s : sys) : res sys :=
  e ← aicwf_is_framequeue_empty (rxq s);
  if e : bool then Ok (s <| tp := TExit |>)
  else
    r ← aicwf_frame_dequeue (rxq s);
    Ok (match r.2 with None => s <| rxq := r.1 |> <| tp := TExit |> | Some b => s <| rxq := r.1 |> <| tp := TBusy b |> end).

(** The body of the loop; [mem]: the outcomes of its allocations. *)
Definition rx_process (fuel : nat) (mem : list bool) (b : list Z) (s : sys) : res sys :=
  r ← RxBlock.split_block handle (bus_up (dv s)) fuel mem b (hst s);
  let '(st, _, gave_up) := r in
  let s := s <| hst := st |> <| done_ ::= fun l => l ++ [b] |> in
  Ok (if gave_up : bool then s <| tp := TWait |> else (set_cnt Z.pred s) <| tp := TLoop |>).

(** What follows the loop. *)
Definition rx_finish (w : world) (s : sys) : sys :=
  s <| dv := (aicwf_sdio_pwr_stctl w SDIO_ACTIVE_ST (dv s)).1 |> <| tp := TWait |>.

(** [strict]: no allocation of the receive thread fails. *)
Inductive rstep (strict : bool) (s : sys) : sys -> Prop :=
| S_irq w fuel rwnx_hw s' : ip s = IIdle -> irq_begin w fuel rwnx_hw s = Ok s' -> rstep strict s s'
| S_enq pkt s' : ip s = IEnq pkt -> enq_rxpkt pkt s = Ok s' -> rstep strict s s'
| S_inc : ip s = IInc -> rstep strict s (inc_rx_cnt s)
| S_check : ip s = ICheck -> rstep strict s (irq_end s)
| S_wake : tp s = TWait -> (0 < busrx_trgg s)%nat -> is_bus_suspend (dv s) = false -> rstep strict s (rx_wake s)
| S_take s' : tp s = TLoop -> rx_take s = Ok s' -> rstep strict s s'
| S_proc fuel mem b s' : tp s = TBusy b -> (strict = true -> mem = []) -> rx_process fuel mem b s = Ok s' -> rstep strict s s'
| S_finish w : tp s = TExit -> rstep strict s (rx_finish w s)
| S_env d : rx_cnt d = rx_cnt (dv s) -> rstep strict s (s <| dv := d |>).

(** aicwf_rx_init and the start of the threads. *)
Definition rx_init (d : dev) (st : St) : sys := Sys (d <| rx_cnt := 0 |>) (aicwf_frame_queue_init 1 MAX_RXQLEN) 0 0 false IIdle TWait st [] [].

Inductive reach (strict : bool) (d : dev) (st : St) : sys -> Prop :=
| reach_init : reach strict d st (rx_init d st)
| reach_step s s' : reach strict d st s -> rstep strict s s' -> reach strict d st s'.

End Threads.
Arguments sys : clear implicits.

End SdioRx.
