(* ===== verification/SdioRxRuns.v ===== *)
(** * Reception over SDIO, over runs

    As long as no allocation fails the blocks are split in the order they came,
    the counter follows the queue, no wake-up is lost, and without further
    interrupts every run of the two threads ends with everything delivered.  A
    failed allocation of a message buffer leaks a count, after which the
    handler's test for 1 no longer holds and the thread is not woken any
    more. *)

From stdpp Require Import prelude relations.
From S2P Require Import Prelude RxAmsdu RxReorder RxData FrameQueue RxBlock CmdTx Sdio SdioAggr SdioInv SdioRx.
Open Scope Z_scope.

Module SdioRxRuns.
Import FrameQueue CmdTx Sdio SdioInv SdioRx.

(** ** The interrupt leaves the counter alone *)

Lemma readb_rx w reg d : rx_cnt (aicwf_sdio_readb w reg d).1 = rx_cnt d.
Proof. done. Qed.

Lemma readframes_rx w n d : rx_cnt (aicwf_sdio_readframes w n d).1 = rx_cnt d.
Proof.
  unfold aicwf_sdio_readframes, aicwf_sdio_recv_pkt. destruct (negb (bus_up d)); [done |].
  destruct (negb (w_skb w (clk d))); [done |]. by destruct (n =? 0).
Qed.

Lemma bytemode_rx w n d : rx_cnt (aicwf_sdio_intr_get_len_bytemode w n d).1 = rx_cnt d.
Proof. unfold aicwf_sdio_intr_get_len_bytemode. destruct (negb (bus_up d)); [done |]. by destruct (aicwf_sdio_readb _ _ d) as [d1 [v ok]] eqn:E; injection E as <- _. Qed.

Lemma reread_rx w fuel : forall d d', reread_status w fuel d = Ok d' -> rx_cnt d' = rx_cnt d.
Proof.
  induction fuel as [|fuel IH]; intros d d'; cbn [reread_status];
    pose proof (readb_rx (rxw w) (block_cnt_reg (aicwf_sdio_reg_init (chipid d))) d) as E;
    destruct (aicwf_sdio_readb _ _ d) as [d1 [v ok]]; cbn [fst] in E; destruct ok; intros H; try done.
  - by injection H as <-.
  - by injection H as <-.
  - rewrite <- E. by apply IH.
Qed.

Lemma block_cnt_rx w fuel n d r : irq_block_cnt w fuel n d = Ok r -> rx_cnt r.1.1 = rx_cnt d.
Proof.
  unfold irq_block_cnt. pose proof (readb_rx (rxw w) (block_cnt_reg (aicwf_sdio_reg_init (chipid d))) d) as E.
  destruct (aicwf_sdio_readb _ _ d) as [d1 [v ok]]. cbn [fst] in E. destruct (negb ok || _).
  - intros H. apply bind_Ok in H as (d2 & H & E2). injection E2 as <-. cbn. rewrite <- E. by eapply reread_rx.
  - destruct (0 <? v); [| intros H; by injection H as <-].
    assert (Hb : rx_cnt (if v <? 64 then (d1, v * SDIOWIFI_FUNC_BLOCKSIZE) else aicwf_sdio_intr_get_len_bytemode w (v * SDIOWIFI_FUNC_BLOCKSIZE) d1).1 = rx_cnt d1)
      by (destruct (v <? 64); [done | apply bytemode_rx]).
    destruct (if v <? 64 then _ else _) as [d2 n2]. cbn [fst] in Hb. pose proof (readframes_rx w n2 d2) as Hf.
    destruct (aicwf_sdio_readframes w n2 d2) as [d3 pkt]. cbn [fst] in Hf. intros H. injection H as <-. cbn. congruence.
Qed.

Lemma ack_rx w d : rx_cnt (ack_other w d) = rx_cnt d.
Proof. unfold ack_other. destruct (aicwf_sdio_readb _ _ d) as [d1 [v ok]] eqn:E. by injection E as <- _. Qed.

Lemma misc_rx w n d : rx_cnt (irq_misc_status w n d).1.1 = rx_cnt d.
Proof.
  unfold irq_misc_status. pose proof (readb_rx (rxw w) (misc_int_status_reg (aicwf_sdio_reg_init (chipid d))) d) as E.
  destruct (aicwf_sdio_readb _ _ d) as [d1 [v ok]]. cbn [fst] in E. destruct (negb ok); [done |].
  set (d2 := if negb (Z.land v SDIO_OTHER_INTERRUPT =? 0) then ack_other w d1 else d1).
  assert (E2 : rx_cnt d2 = rx_cnt d) by (unfold d2; destruct (negb _); [by rewrite ack_rx | done]). destruct (0 <? v); [| done]. cbv zeta.
  set (x := if 120 <? Z.lor v (Z.shiftl 1 3) then _ else _).
  assert (Ex : rx_cnt x.1 = rx_cnt d2) by (unfold x; repeat (match goal with |- context [if ?b then _ else _] => destruct b end); by rewrite ?bytemode_rx).
  destruct x as [d3 n3]. cbn [fst] in Ex. pose proof (readframes_rx w n3 d3) as Hf.
  destruct (aicwf_sdio_readframes w n3 d3) as [d4 pkt]. cbn [fst] in *. congruence.
Qed.

Lemma irq_read_rx w fuel b n d r : irq_read w fuel b n d = Ok r -> rx_cnt r.1.1 = rx_cnt d.
Proof.
  unfold irq_read. destruct (_ || _); [intros H; by injection H as <- |]. intros H. apply bind_Ok in H as (x & H & E). injection E as <-. cbn.
  destruct (chipid d); try (injection H as <-; apply misc_rx); by apply block_cnt_rx in H.
Qed.

Section Threads.
Context {St : Type} (handle : St -> RxBlock.packet -> res St).

Definition busy (t : tpc) : list (list Z) := match t with TBusy b => [b] | _ => [] end.
Definition late (i : ipc) : Z := match i with IInc => 1 | _ => 0 end.

Lemma irq_begin_keeps w fuel b (s s' : sys St) : irq_begin w fuel b s = Ok s' ->
  rxq s' = rxq s /\ rx_cnt (dv s') = rx_cnt (dv s) /\ busrx_trgg s' = busrx_trgg s /\ tp s' = tp s /\ hst s' = hst s /\
  accepted s' = accepted s /\ done_ s' = done_ s /\ (ip s' = ip s \/ ip s' = ICheck \/ exists pkt, ip s' = IEnq pkt).
Proof.
  unfold irq_begin. intros H. apply bind_Ok in H as (r & H & E). apply irq_read_rx in H. injection E as <-.
  destruct r as [[d n] [[|[pkt|]]|]]; cbn in *; split_and!; try done; try (by left); try (by right; left); right; right; by eexists.
Qed.

Lemma frame_enq_ok q l (b : list Z) : fq_inv q (pair 0%nat <$> l) -> num_prio q = 1%nat -> exists q' ok, aicwf_frame_enq q b 0 = Ok (q', ok) /\
  num_prio q' = 1%nat /\ fq_inv q' (pair 0%nat <$> if ok : bool then l ++ [b] else l).
Proof.
  intros Hq Hn. destruct (enq_refines q _ b 0 Hq ltac:(lia)) as (q' & E & Hi & Hn' & _). unfold spec_enq in *.
  destruct (_ <? _); (eexists _, _; split; [exact E |]; split; [congruence |]); cbn in Hi |- *; [by rewrite fmap_app | done].
Qed.

(** ** Runs without a failed allocation *)

Record rinv (s : sys St) (q : list (list Z)) : Prop := {
  ri_queue : fq_inv (rxq s) (pair 0%nat <$> q);
  ri_prio : num_prio (rxq s) = 1%nat;
  ri_order : accepted s = done_ s ++ busy (tp s) ++ q;
  ri_count : rx_cnt (dv s) = Z.of_nat (length q) + Z.of_nat (length (busy (tp s))) - late (ip s);
  ri_woken : (tp s = TWait \/ tp s = TExit) -> busrx_trgg s = O -> q <> [] -> length q = 1%nat /\ (ip s = IInc \/ ip s = ICheck) }.

Lemma split_no_failure up fuel : forall data st r, RxBlock.split_block handle up fuel [] data st = Ok r -> r.2 = false /\ r.1.2 = [].
Proof.
  induction fuel as [|fuel IH]; intros data st r; cbn [RxBlock.split_block]; intros H; apply bind_Ok in H as (more & _ & H); destruct more; cbn [negb] in H;
    try done; try (by injection H as <-).
  apply bind_Ok in H as (n & _ & H). apply bind_Ok in H as (b2 & _ & H). cbn [RxBlock.next_mem] in H. destruct (negb (_ =? _)); cbn [negb] in H.
  - apply bind_Ok in H as (pkt & _ & H). apply bind_Ok in H as (st1 & _ & H). by apply IH in H.
  - apply bind_Ok in H as (msg & _ & H). apply bind_Ok in H as (ps & _ & H). apply bind_Ok in H as (st1 & _ & H). by apply IH in H.
Qed.

Lemma frame_deq_ok (q : frame_queue (list Z)) l : fq_inv q (pair 0%nat <$> l) -> num_prio q = 1%nat ->
  aicwf_is_framequeue_empty q = Ok (bool_decide (l = [])) /\
  forall b l', l = b :: l' -> exists q', aicwf_frame_dequeue q = Ok (q', Some b) /\ fq_inv q' (pair 0%nat <$> l') /\ num_prio q' = 1%nat.
Proof.
  intros Hq Hn. split; [exact (rx_empty_ok q l Hq) |]. intros b l' ->. destruct (deq_prio0 q b l' Hq) as (q' & E & Hi). exists q'.
  split_and!; [done | done |]. destruct (deq_refines q _ Hq) as (q2 & E2 & _ & Hn' & _). rewrite E2 in E. injection E as <- _. congruence.
Qed.

Lemma rinv_init d st : rinv (rx_init d st) [].
Proof.
  split; try done. exact (fq_init_inv 1 MAX_RXQLEN ltac:(lia) ltac:(unfold MAX_RXQLEN; lia)).
Qed.

(** The steps of the handler. *)
Lemma rinv_irq (s s' : sys St) w fuel b q : rinv s q -> ip s = IIdle -> irq_begin w fuel b s = Ok s' -> rinv s' q.
Proof.
  intros [] Hip H. apply irq_begin_keeps in H as (E1 & E2 & E3 & E4 & E5 & E6 & E7 & E8).
  assert (Hl : late (ip s') = 0) by (destruct E8 as [E8 | [E8 | [pkt E8]]]; rewrite E8; [by rewrite Hip | done | done]).
  split; rewrite ?E1, ?E2, ?E3, ?E4, ?E6, ?E7, ?Hl; try done; [by rewrite ri_count0, Hip |].
  intros Ht Hg Hq. destruct (ri_woken0 Ht Hg Hq) as [_ [G | G]]; congruence.
Qed.

Lemma rinv_enq (s s' : sys St) pkt q : rinv s q -> ip s = IEnq pkt -> enq_rxpkt pkt s = Ok s' ->
  tp s' = tp s /\ hst s' = hst s /\ done_ s' = done_ s /\ exists q', rinv s' q'.
Proof.
  intros [] Hip H. destruct (frame_enq_ok _ _ pkt ri_queue0 ri_prio0) as (q' & ok & E & Hn & Hq). unfold enq_rxpkt in H. rewrite E in H.
  cbn in H. injection H as <-. destruct ok; split_and!; try done.
  - exists (q ++ [pkt]). split; cbn; try done.
    + by rewrite ri_order0, <- !app_assoc.
    + rewrite ri_count0, Hip, length_app. cbn. lia.
    + intros Ht Hg _. destruct q as [|x q]; [split; [done | by left] |]. destruct (ri_woken0 Ht Hg ltac:(done)) as [_ [G | G]]; congruence.
  - exists q. split; cbn; try done; [by rewrite ri_count0, Hip |].
    intros Ht Hg Hne. destruct (ri_woken0 Ht Hg Hne) as [_ [G | G]]; congruence.
Qed.

Lemma rinv_inc (s : sys St) q : rinv s q -> ip s = IInc -> rinv (inc_rx_cnt s) q.
Proof.
  intros [] Hip. split; cbn; try done; [rewrite ri_count0, Hip; cbn; lia |].
  intros Ht Hg Hq. destruct (ri_woken0 Ht Hg Hq) as [G _]. split; [done | by right].
Qed.

Lemma rinv_end (s : sys St) q : rinv s q -> ip s = ICheck -> rinv (irq_end s) q.
Proof.
  intros [] Hip. unfold irq_end. destruct (Z.eqb_spec (rx_cnt (dv s)) 1) as [E | E]; split; cbn; try done; try (by rewrite ri_count0, Hip).
  intros Ht Hg Hq. destruct (ri_woken0 Ht Hg Hq) as [G _]. exfalso. apply E. rewrite ri_count0, G, Hip. by destruct Ht as [-> | ->].
Qed.

(** The steps of the thread. *)
Lemma rinv_wake (s : sys St) q : rinv s q -> tp s = TWait -> rinv (rx_wake s) q.
Proof.
  intros [] Htp. rewrite Htp in *. unfold rx_wake. destruct (bus_up (dv s)); split; cbn; try done; by intros [? | ?].
Qed.

Lemma rinv_take (s s' : sys St) q : rinv s q -> tp s = TLoop -> rx_take s = Ok s' ->
  ip s' = ip s /\ busrx_trgg s' = busrx_trgg s /\ hst s' = hst s /\ accepted s' = accepted s /\ done_ s' = done_ s /\
  ((q = [] /\ tp s' = TExit /\ rinv s' []) \/ exists b q', q = b :: q' /\ tp s' = TBusy b /\ rinv s' q').
Proof.
  intros [] Htp H. rewrite Htp in *. destruct (frame_deq_ok _ _ ri_queue0 ri_prio0) as [He Hd]. unfold rx_take in H. rewrite He in H. cbn in H.
  destruct q as [|b q]; cbn in H.
  - injection H as <-. split_and!; try done. left. split_and!; done.
  - destruct (Hd b q eq_refl) as (q' & E & Hi & Hn). rewrite E in H. cbn in H. injection H as <-. split_and!; try done. right. exists b, q.
    split_and!; try done. split; cbn in *; try done; [lia | by intros [? | ?]].
Qed.

Lemma rinv_proc (s s' : sys St) fuel b q : rinv s q -> tp s = TBusy b -> rx_process handle fuel [] b s = Ok s' ->
  rinv s' q /\ tp s' = TLoop /\ ip s' = ip s /\ busrx_trgg s' = busrx_trgg s /\ done_ s' = done_ s ++ [b] /\ accepted s' = accepted s /\
  exists mem, RxBlock.split_block handle (bus_up (dv s)) fuel [] b (hst s) = Ok (hst s', mem, false).
Proof.
  intros [] Htp H. rewrite Htp in *. unfold rx_process in H. apply bind_Ok in H as (r & E & H).
  destruct (split_no_failure _ _ _ _ _ E) as [Hg Hm]. destruct r as [[st mem] g]. cbn in Hg, Hm. subst g mem. injection H as <-. split_and!; try done.
  - split; cbn; try done; [by rewrite ri_order0, <- app_assoc | cbn in *; lia | by intros [? | ?]].
  - by eexists.
Qed.

Lemma rinv_finish (s : sys St) w q : rinv s q -> tp s = TExit -> rinv (rx_finish w s) q.
Proof.
  intros [] Htp. rewrite Htp in *. split; cbn; try done.
  - rewrite (ps_rx _ _ (pwr_stctl_pstep w SDIO_ACTIVE_ST (dv s))). done.
  - intros _. apply ri_woken0. by right.
Qed.

Lemma rinv_step (s s' : sys St) q : rinv s q -> rstep handle true s s' -> exists q', rinv s' q'.
Proof.
  intros Hi H. destruct H as [w fuel b s' Hip H | pkt s' Hip H | Hip | Hip | Htp Hg Hs | s' Htp H | fuel mem b s' Htp Hm H | w Htp | d Hd].
  - exists q. by eapply rinv_irq.
  - by destruct (rinv_enq _ _ _ _ Hi Hip H) as (_ & _ & _ & ?).
  - exists q. by apply rinv_inc.
  - exists q. by apply rinv_end.
  - exists q. by apply rinv_wake.
  - destruct (rinv_take _ _ _ Hi Htp H) as (_ & _ & _ & _ & _ & [(_ & _ & ?) | (b & q' & _ & _ & ?)]); by eexists.
  - rewrite (Hm eq_refl) in H. exists q. by destruct (rinv_proc _ _ _ _ _ Hi Htp H).
  - exists q. by apply rinv_finish.
  - exists q. destruct Hi. split; cbn; try done. by rewrite Hd.
Qed.

Lemma reach_rinv d st s : reach handle true d st s -> exists q, rinv s q.
Proof. induction 1 as [|s s' _ [q Hi] Hs]; [exists []; apply rinv_init | by eapply rinv_step]. Qed.

(** ** What the packets become *)

(** A block the device built. *)
Definition device_block (b : list RxBlock.dev_packet * nat) : Prop := Forall RxBlock.packet_ok b.1 /\ b.2 <> 1%nat.
Definition enc (b : list RxBlock.dev_packet * nat) : list Z := RxBlock.enc_block b.1 b.2.

(** The blocks split so far, and whether the bus was up at each. *)
Inductive served (st : St) : list (list Z) -> list bool -> St -> Prop :=
| served_nil : served st [] [] st
| served_snoc l ups st1 up fuel b st2 mem : served st l ups st1 ->
    RxBlock.split_block handle up fuel [] b st1 = Ok (st2, mem, false) -> served st (l ++ [b]) (ups ++ [up]) st2.

Lemma reach_served d st s : reach handle true d st s -> exists ups, served st (done_ s) ups (hst s).
Proof.
  induction 1 as [|s s' Hr [ups IH] H]; [exists []; constructor |]. destruct (reach_rinv _ _ _ Hr) as [q Hi].
  destruct H as [w fuel b s' Hip H | pkt s' Hip H | Hip | Hip | Htp Hg Hs | s' Htp H | fuel mem b s' Htp Hm H | w Htp | d' Hd].
  - apply irq_begin_keeps in H as (_ & _ & _ & _ & -> & _ & -> & _). by exists ups.
  - destruct (rinv_enq _ _ _ _ Hi Hip H) as (_ & -> & -> & _). by exists ups.
  - by exists ups.
  - exists ups. unfold irq_end. by destruct (_ =? 1).
  - by exists ups.
  - destruct (rinv_take _ _ _ Hi Htp H) as (_ & _ & -> & _ & -> & _). by exists ups.
  - rewrite (Hm eq_refl) in H. destruct (rinv_proc _ _ _ _ _ Hi Htp H) as (_ & _ & _ & _ & -> & _ & mem' & E).
    exists (ups ++ [bus_up (dv s)]). by econstructor.
  - by exists ups.
  - by exists ups.
Qed.

(** More fuel changes no result. *)
Lemma split_more up fuel : forall mem data st r, RxBlock.split_block handle up fuel mem data st = Ok r ->
  RxBlock.split_block handle up (S fuel) mem data st = Ok r.
Proof.
  induction fuel as [|fuel IH]; intros mem data st r; cbn [RxBlock.split_block] in *; destruct (RxBlock.aicwf_another_ptk data) as [more| |];
    cbn [mbind res_bind]; try done; (destruct more; cbn [negb]; [| done]); [done |].
  destruct (rd_le16 data 0); cbn [mbind res_bind]; try done. destruct (rd data 2); cbn [mbind res_bind]; try done.
  destruct (RxBlock.next_mem mem) as [ok mem']. destruct (negb (_ =? _)), ok; cbn [negb]; try done.
  - destruct (RxData.copy _ _ _); cbn [mbind res_bind]; try done. destruct (handle st _); cbn [mbind res_bind]; try done. apply IH.
  - apply IH.
  - destruct (RxData.copy _ _ _); cbn [mbind res_bind]; try done. destruct (RxBlock.cfg_packets _ _ _); cbn [mbind res_bind]; try done.
    destruct (RxBlock.handle_all _ _ _); cbn [mbind res_bind]; try done. apply IH.
Qed.

Lemma split_enough up fuel n data st r : (fuel <= n)%nat -> RxBlock.split_block handle up fuel [] data st = Ok r ->
  RxBlock.split_block handle up n [] data st = Ok r.
Proof. induction 1 as [|n _ IH]; [done |]. intros H. by apply split_more, IH. Qed.

Lemma served_packets st l ups st' : served st l ups st' -> forall bs, l = enc <$> bs -> Forall device_block bs ->
  length ups = length bs /\
  RxBlock.handle_all handle st (concat (zip_with (fun up b => b.1 ≫= RxBlock.meaning up) ups bs)) = Ok st'.
Proof.
  induction 1 as [|l ups st1 up fuel b st2 mem _ IH E]; intros bs Hb Hok; [by destruct bs |].
  destruct bs as [|b' bs _] using rev_ind; [by destruct l |]. rewrite fmap_app in Hb. apply app_inj_tail in Hb as [-> ->].
  apply Forall_app in Hok as [Hok [Hb Hz]%Forall_singleton]. destruct (IH bs eq_refl Hok) as [Hl Hh]. rewrite !length_app, Hl. split; [done |].
  rewrite zip_with_app by done. rewrite concat_app, RxBlock.handle_all_app, Hh. cbn. rewrite app_nil_r.
  apply (split_enough _ _ (fuel + length b'.1)) in E; [| lia]. unfold enc in E. rewrite RxBlock.split_block_enc in E by (done || lia).
  apply bind_Ok in E as (st3 & E & E3). by injection E3 as <- <-.
Qed.

(** ** Without interrupts the threads come to an end *)

(** The steps of the two threads that need no interrupt. *)
Inductive rint (s : sys St) : sys St -> Prop :=
| I_enq pkt s' : ip s = IEnq pkt -> enq_rxpkt pkt s = Ok s' -> rint s s'
| I_inc : ip s = IInc -> rint s (inc_rx_cnt s)
| I_check : ip s = ICheck -> rint s (irq_end s)
| I_wake : tp s = TWait -> (0 < busrx_trgg s)%nat -> is_bus_suspend (dv s) = false -> rint s (rx_wake s)
| I_take s' : tp s = TLoop -> rx_take s = Ok s' -> rint s s'
| I_proc fuel b s' : tp s = TBusy b -> rx_process handle fuel [] b s = Ok s' -> rint s s'
| I_finish w : tp s = TExit -> rint s (rx_finish w s).

Lemma rint_rstep s s' : rint s s' -> rstep handle true s s'.
Proof. intros H. destruct H; [by eapply S_enq | by apply S_inc | by apply S_check | by apply S_wake | by apply S_take | by eapply (S_proc _ _ _ _ []) | by apply S_finish]. Qed.

Definition ip_weight (i : ipc) : nat := match i with IIdle => 0 | ICheck => 5 | IInc => 6 | IEnq _ => 9 end.
Definition tp_weight (t : tpc) : nat := match t with TWait => 0 | TExit => 1 | TLoop => 2 | TBusy _ => 3 | TGone => 0 end.
Definition weight (s : sys St) (q : list (list Z)) : nat := ip_weight (ip s) + 4 * busrx_trgg s + 2 * length q + tp_weight (tp s).

Lemma rinv_unique (s : sys St) q q' : rinv s q -> rinv s q' -> q = q'.
Proof. intros [_ _ H _ _] [_ _ H' _ _]. rewrite H in H'. by apply app_inv_head, app_inv_head in H'. Qed.

Lemma enq_weight (s s' : sys St) pkt q : rinv s q -> ip s = IEnq pkt -> enq_rxpkt pkt s = Ok s' ->
  exists q', rinv s' q' /\ (weight s' q' < weight s q)%nat.
Proof.
  intros Hi Hip H. destruct (rinv_enq _ _ _ _ Hi Hip H) as (Htp & _ & _ & q' & Hi'). exists q'. split; [done |].
  pose proof (ri_order _ _ Hi) as Ho. pose proof (ri_order _ _ Hi') as Ho'. unfold enq_rxpkt in H. apply bind_Ok in H as (r & _ & H). injection H as <-.
  apply (f_equal length) in Ho, Ho'. rewrite !length_app in Ho, Ho'. unfold weight.
  destruct r.2; cbn in *; rewrite ?length_app in Ho'; cbn in Ho'; rewrite Hip; cbn; lia.
Qed.

Lemma rint_weight s s' q : rinv s q -> rint s s' -> exists q', rinv s' q' /\ (weight s' q' < weight s q)%nat.
Proof.
  intros Hi H. destruct H as [pkt s' Hip H | Hip | Hip | Htp Hg Hs | s' Htp H | fuel b s' Htp H | w Htp].
  - by eapply enq_weight.
  - exists q. split; [by apply rinv_inc |]. unfold weight. rewrite Hip. cbn. lia.
  - exists q. split; [by apply rinv_end |]. unfold weight, irq_end. rewrite Hip. destruct (_ =? 1); cbn; lia.
  - exists q. split; [by apply rinv_wake |]. unfold weight, rx_wake. rewrite Htp. cbn. destruct (bus_up (dv s)); cbn; lia.
  - destruct (rinv_take _ _ _ Hi Htp H) as (E1 & E2 & _ & _ & _ & [(-> & E & Hi') | (b & q' & -> & E & Hi')]); eexists; (split; [exact Hi' |]);
      unfold weight; rewrite E1, E2, E, Htp; cbn; lia.
  - destruct (rinv_proc _ _ _ _ _ Hi Htp H) as (Hi' & E1 & E2 & E3 & _). exists q. split; [done |]. unfold weight. rewrite E1, E2, E3, Htp. cbn. lia.
  - exists q. split; [by apply rinv_finish |]. unfold weight. rewrite Htp. cbn. lia.
Qed.

Lemma rint_terminates n : forall s q, rinv s q -> (weight s q < n)%nat -> sn rint s.
Proof.
  induction n as [|n IH]; intros s q Hi Hn; [lia |]. constructor. intros s' H.
  destruct (rint_weight s s' q Hi H) as (q' & Hi' & Hw). apply (IH s' q' Hi'). lia.
Qed.

(** *** Where they end *)

Lemma poll_suspend w n : forall d, is_bus_suspend (wakeup_poll w n d) = is_bus_suspend d.
Proof.
  induction n as [|n IH]; intros d; cbn [wakeup_poll]; [done |].
  destruct (aicwf_sdio_readb w _ d) as [d' [v ok]] eqn:E. injection E as <- _. destruct (ok && _); [done |]. by rewrite IH.
Qed.

Lemma timer_suspend n d : is_bus_suspend (aicwf_sdio_pwrctl_timer n d) = is_bus_suspend d.
Proof. unfold aicwf_sdio_pwrctl_timer. destruct (negb _ && negb _); [done |]. by destruct (n =? 0). Qed.

Lemma active_suspend w d : is_bus_suspend (aicwf_sdio_pwr_stctl w SDIO_ACTIVE_ST d).1 = is_bus_suspend d.
Proof.
  unfold aicwf_sdio_pwr_stctl. destruct (negb (bus_up d)); [done |].
  assert (Hs : is_bus_suspend (down_wakeup_sema d) = is_bus_suspend d).
  { unfold down_wakeup_sema, sleep_done. destruct (sleeping d); [| done].
    exact (timer_suspend 0 (d <| state := SDIO_SLEEP_ST |>)). }
  rewrite <- Hs. generalize (down_wakeup_sema d). intros d1. destruct (decide _); [destruct (decide _); [apply timer_suspend | done] |]. cbn [fst].
  unfold aicwf_sdio_wakeup. destruct (decide _); [| done]. destruct (aicwf_sdio_writeb w _ _ d1) as [d2 ok] eqn:E. injection E as <- _.
  rewrite timer_suspend. cbn [is_bus_suspend upd]. destruct ok; [by rewrite poll_suspend | done].
Qed.

(** What holds while nothing disturbs the threads. *)
Record calm (s : sys St) : Prop := {
  ca_bus : bus_up (dv s) = true;
  ca_suspend : is_bus_suspend (dv s) = false;
  ca_thread : tp s <> TGone;
  ca_blocks : Forall (fun b => exists x, device_block x /\ b = enc x) (accepted s ++ match ip s with IEnq b => [b] | _ => [] end) }.

Lemma rint_calm s s' q : rinv s q -> calm s -> rint s s' -> calm s'.
Proof.
  intros Hi [Hb Hs Ht Ha] H. destruct H as [pkt s' Hip H | Hip | Hip | Htp Hg _ | s' Htp H | fuel b s' Htp H | w Htp].
  - unfold enq_rxpkt in H. apply bind_Ok in H as (r & _ & H). injection H as <-. rewrite Hip in Ha.
    destruct r.2; split; cbn; try done; rewrite ?app_nil_r; [done | by apply Forall_app in Ha as [? _]].
  - rewrite Hip in Ha. by split.
  - rewrite Hip in Ha. unfold irq_end. by destruct (_ =? 1); split.
  - unfold rx_wake. rewrite Hb. by split.
  - destruct (rinv_take _ _ _ Hi Htp H) as (E1 & _ & _ & E4 & _ & Hc). assert (Hd : dv s' = dv s).
    { unfold rx_take in H. apply bind_Ok in H as (e & _ & H). destruct e; [by injection H as <- |].
      apply bind_Ok in H as (r & _ & H). injection H as <-. by destruct r.2. }
    split; rewrite ?Hd, ?E1, ?E4; try done. destruct Hc as [(_ & -> & _) | (b & q' & _ & -> & _)]; done.
  - destruct (rinv_proc _ _ _ _ _ Hi Htp H) as (_ & E1 & E2 & _ & _ & E4 & _). unfold rx_process in H. apply bind_Ok in H as (r & _ & H).
    destruct r as [[st m] g]. injection H as <-. destruct g; split; cbn in *; try done; by rewrite E2, E4 || done.
  - split; cbn; try done; [| by rewrite active_suspend]. by rewrite (ps_bus _ _ (pwr_stctl_pstep w SDIO_ACTIVE_ST (dv s))).
Qed.

Lemma rint_nf s q : (forall st p, exists st', handle st p = Ok st') -> rinv s q -> calm s -> nf rint s ->
  ip s = IIdle /\ tp s = TWait /\ q = [].
Proof.
  intros Hh Hi [Hb Hs Ht Ha] Hn. assert (Hip : ip s = IIdle).
  { destruct (ip s) as [|pkt| |] eqn:E; [done | exfalso; apply Hn..].
    - destruct (frame_enq_ok _ _ pkt (ri_queue _ _ Hi) (ri_prio _ _ Hi)) as (q' & ok & E' & _).
      eexists. eapply I_enq; [exact E |]. unfold enq_rxpkt. by rewrite E'.
    - eexists. by apply I_inc.
    - eexists. by apply I_check. }
  assert (Htp : tp s = TWait).
  { destruct (tp s) as [| |b| |] eqn:E; [done | exfalso; apply Hn.. | done].
    - destruct (frame_deq_ok _ _ (ri_queue _ _ Hi) (ri_prio _ _ Hi)) as [He Hd]. assert (Hk : exists s', rx_take s = Ok s').
      { unfold rx_take. rewrite He. cbn. destruct q as [|b q]; [by eexists |]. destruct (Hd b q eq_refl) as (q' & -> & _). by eexists. }
      destruct Hk as [s' Hk]. exists s'. by apply I_take.
    - assert (Hin : b ∈ accepted s) by (rewrite (ri_order _ _ Hi), E; set_solver). apply Forall_app in Ha as [Ha _].
      apply (proj1 (Forall_forall _ _) Ha) in Hin as (x & [Hx Hz] & ->).
      destruct (RxBlock.handle_all_ok handle Hh (hst s) (x.1 ≫= RxBlock.meaning (bus_up (dv s)))) as [st' Est].
      eexists. eapply (I_proc _ (length x.1)); [exact E |]. unfold rx_process, enc. rewrite RxBlock.split_block_enc by (done || lia).
      rewrite Est. cbn. reflexivity.
    - eexists. by eapply (I_finish _ (World (fun _ _ => None) (fun _ => true) (fun _ => []) 0)). }
  split_and!; [done | done |]. destruct (busrx_trgg s) eqn:Eg.
  - destruct q; [done |]. destruct (ri_woken _ _ Hi ltac:(by left) Eg ltac:(done)) as [_ [G | G]]; congruence.
  - exfalso. apply Hn. eexists. apply I_wake; [done | lia | done].
Qed.

Lemma rtc_calm s s' : rtc rint s s' -> forall q, rinv s q -> calm s -> exists q', rinv s' q' /\ calm s'.
Proof.
  induction 1 as [s | s1 s2 s3 H _ IH]; intros q Hi Hc; [by exists q |].
  destruct (rint_weight _ _ _ Hi H) as (q' & Hi' & _). apply (IH q' Hi'). exact (rint_calm _ _ _ Hi Hc H).
Qed.

(** ** A failed allocation *)

(** The thread waits, nobody is about to wake it, and the counter is beyond 1. *)
Definition stalled (s : sys St) : Prop :=
  tp s = TWait /\ busrx_trgg s = O /\ 2 <= rx_cnt (dv s) + late (ip s).

Lemma stalled_step s s' : stalled s -> rstep handle false s s' -> stalled s' /\ hst s' = hst s /\ done_ s' = done_ s.
Proof.
  intros (Ht & Hg & Hc) H. destruct H as [w fuel b s' Hip H | pkt s' Hip H | Hip | Hip | Htp Hgt Hs | s' Htp H | fuel mem b s' Htp Hm H | w Htp | d Hd]; try congruence.
  - apply irq_begin_keeps in H as (_ & E2 & E3 & E4 & E5 & _ & E7 & E8). unfold stalled. rewrite E2, E3, E4, E5, E7. split_and!; try done.
    rewrite Hip in Hc. cbn in Hc. assert (0 <= late (ip s')) by (by destruct (ip s')). lia.
  - unfold enq_rxpkt in H. apply bind_Ok in H as (r & _ & H). injection H as <-. rewrite Hip in Hc. unfold stalled. cbn in Hc.
    destruct r.2; cbn; split_and!; try done; lia.
  - rewrite Hip in Hc. unfold stalled. cbn in *. split_and!; try done; lia.
  - rewrite Hip in Hc. unfold stalled, irq_end. destruct (Z.eqb_spec (rx_cnt (dv s)) 1) as [E | E]; [cbn in Hc; lia |]. cbn in *. split_and!; try done; lia.
  - lia.
  - unfold stalled. cbn. rewrite Hd. by split_and!.
Qed.

Lemma stalled_steps s s' : rtc (rstep handle false) s s' -> stalled s -> stalled s' /\ hst s' = hst s /\ done_ s' = done_ s.
Proof.
  induction 1 as [s | s1 s2 s3 H _ IH]; intros Hs; [done |]. destruct (stalled_step _ _ Hs H) as (H1 & H2 & H3).
  destruct (IH H1) as (G1 & G2 & G3). split_and!; [done | congruence | congruence].
Qed.

End Threads.

(** C13. The interrupt handler and the receive thread interleave at every point where
    one may run while the other does not hold the lock of the queue, the rest of the
    driver may change the device, and registers, FIFO and allocations of the handler
    answer anything. As long as no allocation of the receive thread fails, the blocks
    put into the queue are, in order, those split, the one being split and those queued;
    rx_cnt is the number of the latter two (one less between queue and counter); and the
    packets of the blocks split were handed to their handlers in the order the device
    wrote them. *)
Theorem rx_blocks_in_order {St} (handle : St -> RxBlock.packet -> res St) d st s : reach handle true d st s ->
  (forall bs, accepted s = enc <$> bs -> Forall device_block bs -> exists n ups, length ups = n /\
    RxBlock.handle_all handle st (concat (zip_with (fun up b => b.1 ≫= RxBlock.meaning up) ups (take n bs))) = Ok (hst s) /\
    done_ s = enc <$> take n bs) /\
  (exists q, fq_inv (rxq s) (pair 0%nat <$> q) /\ accepted s = done_ s ++ busy (tp s) ++ q /\
    rx_cnt (dv s) = Z.of_nat (length q + length (busy (tp s))) - late (ip s)).
Proof.
  intros Hr. destruct (reach_rinv handle d st s Hr) as [q []]. split.
  - intros bs Hb Hok. rewrite ri_order0 in Hb. destruct (reach_served handle d st s Hr) as [ups Hs].
    assert (Hd : done_ s = enc <$> take (length (done_ s)) bs) by (rewrite fmap_take, <- Hb; by rewrite take_app_length).
    destruct (served_packets handle _ _ _ _ Hs _ Hd (Forall_take _ _ _ Hok)) as [Hl Hh]. exists (length (done_ s)), ups.
    split_and!; [| done | done]. rewrite Hl. apply (f_equal length) in Hd. by rewrite length_fmap in Hd.
  - exists q. split_and!; [done | done |]. rewrite ri_count0. lia.
Qed.

(** C14. The interrupt handler and the receive thread interleave at every point where
    one may run while the other does not hold the lock of the queue, the rest of the
    driver may change the device, and registers and allocations of the handler answer
    anything. Let every block the handler accepted or is about to queue be one the
    device builds (whole packets, each aligned, then no or at least two zeros), and let
    the handler of a packet complete for every packet. Then, as long as no allocation of
    the receive thread fails, from every reachable state in which the bus is up, the
    device not suspended and the thread alive, every run of the two threads without a
    new interrupt is finite and ends with all blocks split, the counter at zero and the
    thread waiting: no wake-up is lost, although the handler wakes the thread only when
    the counter is exactly 1. *)
Theorem rx_drains {St} (handle : St -> RxBlock.packet -> res St) d st s : reach handle true d st s -> calm s ->
  (forall st p, exists st', handle st p = Ok st') ->
  sn (rint handle) s /\
  forall s', rtc (rint handle) s s' -> nf (rint handle) s' ->
    ip s' = IIdle /\ tp s' = TWait /\ done_ s' = accepted s' /\ rx_cnt (dv s') = 0.
Proof.
  intros Hr Hc Hh. destruct (reach_rinv handle d st s Hr) as [q Hi]. split; [apply (rint_terminates handle (S (weight s q)) s q Hi); lia |].
  intros s' Hs Hn. destruct (rtc_calm handle _ _ Hs q Hi Hc) as (q' & Hi' & Hc').
  destruct (rint_nf handle s' q' Hh Hi' Hc' Hn) as (E1 & E2 & ->). destruct Hi'. rewrite E1, E2 in *. cbn in *.
  split_and!; [done | done | by rewrite ri_order0, app_nil_r | done].
Qed.

(** The interrupt handler and the receive thread interleave at every point where
    one may run while the other does not hold the lock of the queue, the rest of the
    driver may change the device, and registers, FIFO and allocations of the handler
    answer anything. When the buffer of a message cannot be allocated while another
    block waits, the receive thread leaves without taking back the count of the block:
    from then on no run of interrupts, however they go, wakes it again, and no block is
    handled any more. *)
Theorem lost_allocation_stalls_reception {St} (handle : St -> RxBlock.packet -> res St) d st s b fuel mem s1 s' :
  reach handle true d st s -> tp s = TBusy b -> ip s = IIdle -> busrx_trgg s = O -> accepted s <> done_ s ++ [b] ->
  rx_process handle fuel mem b s = Ok s1 -> tp s1 = TWait -> rtc (rstep handle false) s1 s' ->
  tp s' = TWait /\ hst s' = hst s1 /\ done_ s' = done_ s1.
Proof.
  intros Hr Htp Hip Hg Ha Hp Hw Hs. destruct (reach_rinv handle d st s Hr) as [q []].
  assert (H1 : stalled s1).
  { unfold rx_process in Hp. apply bind_Ok in Hp as (r & _ & Hp). destruct r as [[st1 m] g]. injection Hp as <-. destruct g; [| done].
    split_and!; try done. cbn. rewrite Htp, Hip in *. cbn in *. destruct q as [|x q]; [done |]. cbn in *. lia. }
  destruct (stalled_steps handle _ _ Hs H1) as ((G1 & _) & G2 & G3). by split_and!.
Qed.

(** ** The other interrupt *)

(** The tests of the handler on a status, for every number of blocks. *)
Definition size_ok (n : Z) : bool :=
  (Z.land (128 + n) SDIO_OTHER_INTERRUPT =? 128) && (0 <? 128 + n) && (120 <? Z.lor (128 + n) 8) && negb (Z.lor (128 + n) 8 =? 127) &&
  (Z.land (128 + n) 7 =? n mod 8) && (Z.land n SDIO_OTHER_INTERRUPT =? 0) && (Z.lor n 8 <=? 120) && negb (n =? 120) && (Z.land n 127 =? n).

Lemma sizes_ok n : 1 <= n < 112 -> size_ok n = true.
Proof.
  intros Hn. assert (H : forallb size_ok (seqZ 1 111) = true) by by vm_compute.
  apply (proj1 (forallb_forall _ _) H). apply list_elem_of_In, elem_of_seqZ. lia.
Qed.

(** On the AIC8800D80 a status that announces n blocks makes the handler read n *
    512 bytes; the same status with the bit of the other interrupt makes it read only n
    mod 8 blocks, and no block at all when n is a multiple of 8. *)
Theorem other_interrupt_misreads_size w n data_len d : 1 <= n < 112 -> 
  let reg := misc_int_status_reg (aicwf_sdio_reg_init (chipid d)) in
  (w_rd (rxw w) (clk d) reg = Some n -> (irq_misc_status w data_len d).1.2 = n * SDIOWIFI_FUNC_BLOCKSIZE) /\
  (w_rd (rxw w) (clk d) reg = Some (128 + n) ->
    (irq_misc_status w data_len d).1.2 = n mod 8 * SDIOWIFI_FUNC_BLOCKSIZE /\
    (n mod 8 = 0 -> (irq_misc_status w data_len d).2 = IrqGo None)).
Proof.
  intros Hn reg. pose proof (sizes_ok n Hn) as Hs. unfold size_ok in Hs. rewrite !andb_true_iff, !negb_true_iff, !Z.eqb_eq, !Z.leb_le in Hs.
  destruct Hs as ((((((((S1 & S2) & S3) & S4) & S5) & S6) & S7) & S8) & S9).
  unfold irq_misc_status, aicwf_sdio_readb. fold reg. split; intros E; rewrite E; cbn [negb].
  - rewrite S6. cbn [Z.eqb negb]. rewrite (proj2 (Z.ltb_lt 0 n)) by lia. change (Z.shiftl 1 3) with 8.
    rewrite (proj2 (Z.ltb_ge _ _)) by done. rewrite S8, S9. by destruct (aicwf_sdio_readframes _ _ _).
  - rewrite S1. cbn [Z.eqb negb]. rewrite S2. change (Z.shiftl 1 3) with 8. rewrite S3, S4, S5.
    set (d1 := ack_other w _). destruct (aicwf_sdio_readframes w _ d1) as [d2 pkt] eqn:Ef. split; [done |]. intros H0. rewrite H0 in Ef.
    unfold aicwf_sdio_readframes, aicwf_sdio_recv_pkt in Ef. destruct (negb (bus_up d1)); [by injection Ef as _ <- |].
    destruct (negb (w_skb w (clk d1))); by injection Ef as _ <-.
Qed.

(** ** A run *)

Module Example.
Import RxBlock.

Definition log (st : list packet) (p : packet) : res (list packet) := Ok (st ++ [p]).
Lemma log_ok st p : exists st', log st p = Ok st'.
Proof. by eexists. Qed.

(** A data packet and a message, alone in a block of 512 bytes. *)
Definition b1 : list dev_packet * nat := ([DData 0 (replicate 70 5)], 400%nat).
Definition b2 : list dev_packet * nat := ([DCfg 0x11 (replicate 9 6)], 496%nat).
Lemma b1_ok : device_block b1.
Proof. split; [| discriminate]. constructor; [| constructor]. split; [reflexivity | vm_compute; split; [discriminate | reflexivity]]. Qed.
Lemma b2_ok : device_block b2.
Proof. split; [| discriminate]. constructor; [| constructor]. split; [reflexivity | vm_compute; split; [discriminate | reflexivity]]. Qed.

Definition card (b : list Z) : rxworld := RxWorld (World (fun _ _ => Some 1) (fun _ => true) (fun _ => []) 8) (fun _ _ => Some b) (fun _ => true).
Definition dev0 : dev :=
  Dev PRODUCT_ID_AIC8800D80 true false SDIO_ACTIVE_ST false 30 0 false false false false 0 0
    (TxPriv [] 0 0 0 (aicwf_frame_queue_init 8 100) 0 false false [] 0) 0 [].
Abbreviation reached := (reach log true dev0 []).

Definition get {A} (x : A) (r : res A) : A := match r with Ok y => y | _ => x end.

(** A block comes and the thread takes it; a second one comes meanwhile. *)
Definition s0 : sys (list packet) := rx_init dev0 [].
Definition s1 : sys (list packet) := get s0 (irq_begin (card (enc b2)) 0 true s0).
Definition s2 : sys (list packet) := irq_end (inc_rx_cnt (get s1 (enq_rxpkt (enc b2) s1))).
Definition s3 : sys (list packet) := get s2 (rx_take (rx_wake s2)).
Definition s4 : sys (list packet) := get s3 (irq_begin (card (enc b1)) 0 true s3).
Definition s5 : sys (list packet) := irq_end (inc_rx_cnt (get s4 (enq_rxpkt (enc b1) s4))).

Lemma reach_irq s s1 w pkt : reached s -> ip s = IIdle -> irq_begin w 0 true s = Ok s1 -> ip s1 = IEnq pkt ->
  forall s2, enq_rxpkt pkt s1 = Ok s2 -> ip s2 = IInc -> reached (irq_end (inc_rx_cnt s2)).
Proof.
  intros Hr Hi Hb Hp s' He Hc. eapply reach_step; [| by apply S_check]. eapply reach_step; [| by apply S_inc].
  eapply reach_step; [| by eapply S_enq]. eapply reach_step; [exact Hr | by eapply S_irq].
Qed.

Lemma s5_reached : reached s5.
Proof.
  assert (H2 : reached s2) by (eapply (reach_irq s0 s1 (card (enc b2)) (enc b2)); [apply reach_init | by vm_compute..]).
  assert (H3 : reached s3).
  { eapply reach_step; [| eapply (S_take _ _ (rx_wake s2)); by vm_compute].
    eapply reach_step; [exact H2 | apply S_wake; [by vm_compute | vm_compute; lia | by vm_compute]]. }
  eapply (reach_irq s3 s4 (card (enc b1)) (enc b1)); [exact H3 | by vm_compute..].
Qed.

Lemma s5_blocks : accepted s5 = enc <$> [b2; b1].
Proof. by vm_compute. Qed.

Lemma rx_drains_witness : sn (rint log) s5 /\
  forall s', rtc (rint log) s5 s' -> nf (rint log) s' -> ip s' = IIdle /\ tp s' = TWait /\ done_ s' = accepted s' /\ rx_cnt (dv s') = 0.
Proof.
  apply (rx_drains log dev0 [] s5 s5_reached); [| exact log_ok].
  split; [by vm_compute | by vm_compute | by vm_compute |]. rewrite s5_blocks.
  change (match ip s5 with IEnq b => [b] | _ => [] end) with (@nil (list Z)).
  constructor; [exists b2; split; [exact b2_ok | reflexivity] |]. constructor; [exists b1; split; [exact b1_ok | reflexivity] | constructor].
Defined.

Lemma rx_blocks_in_order_witness : exists n ups, length ups = n /\
  handle_all log [] (concat (zip_with (fun up b => b.1 ≫= meaning up) ups (take n [b2; b1]))) = Ok (hst s5).
Proof.
  destruct (rx_blocks_in_order log dev0 [] s5 s5_reached) as [H _].
  destruct (H [b2; b1] s5_blocks) as (n & ups & H1 & H2 & _); [| exists n, ups; split; [exact H1 | exact H2]].
  constructor; [exact b2_ok |]. constructor; [exact b1_ok | constructor].
Defined.

(** The buffer for the message cannot be allocated: the data block behind it
    is never looked at. *)
Lemma lost_allocation_stalls_reception_witness : exists s6, rx_process log 9 [false] (enc b2) s5 = Ok s6 /\
  forall s', rtc (rstep log false) s6 s' -> tp s' = TWait /\ hst s' = [].
Proof.
  assert (Hp : exists s6, rx_process log 9 [false] (enc b2) s5 = Ok s6 /\ tp s6 = TWait /\ hst s6 = []) by (vm_compute; by eexists).
  destruct Hp as (s6 & Hp & Hw & Hh). exists s6. split; [exact Hp |]. intros s' Hs.
  destruct (lost_allocation_stalls_reception log dev0 [] s5 (enc b2) 9 [false] s6 s' s5_reached eq_refl eq_refl eq_refl
              ltac:(vm_compute; discriminate) Hp Hw Hs) as (H1 & H2 & _).
  split; [exact H1 | rewrite H2; exact Hh].
Defined.

(** Sixteen blocks are announced together with the other interrupt. *)
Lemma other_interrupt_misreads_size_witness :
  let w := RxWorld (World (fun _ _ => Some 144) (fun _ => true) (fun _ => []) 8) (fun _ _ => Some []) (fun _ => true) in
  (irq_misc_status w 0 dev0).2 = IrqGo None.
Proof.
  intros w. destruct (other_interrupt_misreads_size w 16 0 dev0) as [_ H]; [lia |]. destruct (H eq_refl) as [_ H2]. apply H2. reflexivity.
Defined.

End Example.

End SdioRxRuns.
