(* ===== verification/Radar.v ===== *)
(** * Radar pattern detection (rwnx_radar.c)

    A [pri_detector] follows one radar type at one frequency; a
    [dfs_pattern_detector] holds the detectors of a chain.  Pulse lists are
    newest first, as list_add builds them, and so are the sequences and the
    detectors of a type.  The two pools of the driver are threaded through
    every operation: what kmalloc gives is an oracle over the number of
    allocations made, [None] where it fails, and the contents of a sequence
    that comes from a pool or from kmalloc are those it had. *)

From stdpp Require Import prelude.
From S2P Require Import Prelude.
Open Scope Z_scope.

Module Radar.

(** ** Radar types *)

Definition PRI_TOLERANCE : Z := 16.

Inductive radar_waveform_type := RADAR_WAVEFORM_SHORT | RADAR_WAVEFORM_WEATHER | RADAR_WAVEFORM_INTERLEAVED | RADAR_WAVEFORM_LONG.
#[global] Instance waveform_eq_dec : EqDecision radar_waveform_type.
Proof. solve_decision. Defined.

Record radar_detector_specs := Spec {
  type_id : Z; width_min : Z; width_max : Z; pri_min : Z; pri_max : Z; num_pri : Z;
  ppb : Z; ppb_thresh : Z; max_pri_tolerance : Z; wtype : radar_waveform_type }.

Definition MIN_PPB_THRESH : Z := 50.
Definition PPB_THRESH (PPB : Z) : Z := (PPB * MIN_PPB_THRESH + 50) / 100.
Definition PRF2PRI (PRF : Z) : Z := (1000000 + PRF / 2) / PRF.

(** The values are stored in u8 and u16 fields. *)
Definition ETSI_PATTERN_SHORT (ID WMIN WMAX PMIN PMAX PPB : Z) : radar_detector_specs :=
  Spec (u8 ID) (u8 WMIN) (u8 WMAX) (u16 (PRF2PRI PMAX - PRI_TOLERANCE)) (u16 (PRF2PRI PMIN + PRI_TOLERANCE)) 1 (u8 PPB)
    (u8 (PPB_THRESH PPB)) PRI_TOLERANCE RADAR_WAVEFORM_SHORT.

Definition ETSI_PATTERN_INTERLEAVED (ID WMIN WMAX PMIN PMAX PRFMIN PRFMAX PPB : Z) : radar_detector_specs :=
  Spec (u8 ID) (u8 WMIN) (u8 WMAX) (u16 (PRF2PRI PMAX * PRFMIN - PRI_TOLERANCE)) (u16 (PRF2PRI PMIN * PRFMAX + PRI_TOLERANCE))
    (u8 PRFMAX) (u8 (PPB * PRFMAX)) (u8 (PPB_THRESH PPB)) PRI_TOLERANCE RADAR_WAVEFORM_INTERLEAVED.

Definition FCC_PATTERN (ID WMIN WMAX PMIN PMAX PRF PPB : Z) (TYPE : radar_waveform_type) : radar_detector_specs :=
  Spec (u8 ID) (u8 WMIN) (u8 WMAX) (u16 (PMIN - PRI_TOLERANCE)) (u16 (PMAX * PRF + PRI_TOLERANCE)) (u8 PRF) (u8 (PPB * PRF))
    (u8 (PPB_THRESH PPB)) PRI_TOLERANCE TYPE.

Definition etsi_radar_ref_types_v17_riu : list radar_detector_specs :=
  [ETSI_PATTERN_SHORT 0 0 8 700 700 18; ETSI_PATTERN_SHORT 1 0 10 200 1000 10; ETSI_PATTERN_SHORT 2 0 22 200 1600 15;
   ETSI_PATTERN_SHORT 3 0 22 2300 4000 25; ETSI_PATTERN_SHORT 4 20 38 2000 4000 20;
   ETSI_PATTERN_INTERLEAVED 5 0 8 300 400 2 3 10; ETSI_PATTERN_INTERLEAVED 6 0 8 400 1200 2 3 15].

Definition etsi_radar_ref_types_v17_fcu : list radar_detector_specs :=
  [ETSI_PATTERN_SHORT 0 0 8 700 700 18; ETSI_PATTERN_SHORT 1 0 8 200 1000 10; ETSI_PATTERN_SHORT 2 0 16 200 1600 15;
   ETSI_PATTERN_SHORT 3 0 16 2300 4000 25; ETSI_PATTERN_SHORT 4 20 34 2000 4000 20;
   ETSI_PATTERN_INTERLEAVED 5 0 8 300 400 2 3 10; ETSI_PATTERN_INTERLEAVED 6 0 8 400 1200 2 3 15].

Definition fcc_radar_ref_types_riu : list radar_detector_specs :=
  [FCC_PATTERN 0 0 8 1428 1428 1 18 RADAR_WAVEFORM_SHORT; FCC_PATTERN 1 0 8 518 3066 1 102 RADAR_WAVEFORM_WEATHER;
   FCC_PATTERN 2 0 8 150 230 1 23 RADAR_WAVEFORM_SHORT; FCC_PATTERN 3 6 20 200 500 1 16 RADAR_WAVEFORM_SHORT;
   FCC_PATTERN 4 10 28 200 500 1 12 RADAR_WAVEFORM_SHORT; FCC_PATTERN 5 50 110 1000 2000 1 8 RADAR_WAVEFORM_LONG;
   FCC_PATTERN 6 0 8 333 333 1 9 RADAR_WAVEFORM_SHORT].

Definition fcc_radar_ref_types_fcu : list radar_detector_specs :=
  [FCC_PATTERN 0 0 8 1428 1428 1 18 RADAR_WAVEFORM_SHORT; FCC_PATTERN 1 0 8 518 3066 1 102 RADAR_WAVEFORM_WEATHER;
   FCC_PATTERN 2 0 8 150 230 1 23 RADAR_WAVEFORM_SHORT; FCC_PATTERN 3 6 12 200 500 1 16 RADAR_WAVEFORM_SHORT;
   FCC_PATTERN 4 10 22 200 500 1 12 RADAR_WAVEFORM_SHORT; FCC_PATTERN 5 50 104 1000 2000 1 8 RADAR_WAVEFORM_LONG;
   FCC_PATTERN 6 0 8 333 333 1 9 RADAR_WAVEFORM_SHORT].

Definition jp_radar_ref_types_riu : list radar_detector_specs :=
  [FCC_PATTERN 0 0 4 1388 1388 1 18 RADAR_WAVEFORM_SHORT; FCC_PATTERN 1 0 4 1428 1428 1 18 RADAR_WAVEFORM_SHORT;
   FCC_PATTERN 2 0 4 4000 4000 1 18 RADAR_WAVEFORM_SHORT; FCC_PATTERN 3 0 6 150 230 1 23 RADAR_WAVEFORM_SHORT;
   FCC_PATTERN 4 6 12 200 500 1 16 RADAR_WAVEFORM_SHORT; FCC_PATTERN 5 10 22 200 500 1 12 RADAR_WAVEFORM_SHORT;
   FCC_PATTERN 6 48 110 1000 2000 1 8 RADAR_WAVEFORM_LONG; FCC_PATTERN 7 0 4 333 333 1 9 RADAR_WAVEFORM_SHORT].

Definition jp_radar_ref_types_fcu : list radar_detector_specs := jp_radar_ref_types_riu.

Inductive nl80211_dfs_regions := NL80211_DFS_UNSET | NL80211_DFS_FCC | NL80211_DFS_ETSI | NL80211_DFS_JP.
#[global] Instance region_eq_dec : EqDecision nl80211_dfs_regions.
Proof. solve_decision. Defined.

Record radar_types := RadarTypes { rt_region : nl80211_dfs_regions; spec_riu : list radar_detector_specs; spec_fcu : list radar_detector_specs }.

Definition etsi_radar_types_v17 := RadarTypes NL80211_DFS_ETSI etsi_radar_ref_types_v17_riu etsi_radar_ref_types_v17_fcu.
Definition fcc_radar_types := RadarTypes NL80211_DFS_FCC fcc_radar_ref_types_riu fcc_radar_ref_types_fcu.
Definition jp_radar_types := RadarTypes NL80211_DFS_JP jp_radar_ref_types_riu jp_radar_ref_types_fcu.
Definition dfs_domains : list radar_types := [etsi_radar_types_v17; fcc_radar_types; jp_radar_types].

(** ** Sequences, detectors, pools *)

Record pri_sequence := Pseq {
  sq_pri : Z; sq_dur : Z; sq_count : Z; sq_falses : Z; sq_first : Z; sq_last : Z; sq_deadline : Z; sq_thresh : Z }.
#[global] Instance eta_pseq : Settable pri_sequence := fun r =>
  Pseq (sq_pri r) (sq_dur r) (sq_count r) (sq_falses r) (sq_first r) (sq_last r) (sq_deadline r) (sq_thresh r).

Record pri_detector := Pde {
  rs : radar_detector_specs; last_ts : Z; sequences : list pri_sequence; pulses : list Z;
  pd_count : Z; max_count : Z; window_size : Z; pd_freq : Z }.
#[global] Instance eta_pde : Settable pri_detector := fun r =>
  Pde (rs r) (last_ts r) (sequences r) (pulses r) (pd_count r) (max_count r) (window_size r) (pd_freq r).

(** The free elements; [allocs] counts the calls of kmalloc. *)
Record pools := Pools { pulse_pool : nat; pseq_pool : list pri_sequence; singleton_pool_references : Z; allocs : nat }.
#[global] Instance eta_pools : Settable pools := fun r =>
  Pools (pulse_pool r) (pseq_pool r) (singleton_pool_references r) (allocs r).

Definition pool_register_ref (m : pools) : pools := m <| singleton_pool_references ::= fun n => u32 (n + 1) |>.

Definition pool_deregister_ref (m : pools) : pools :=
  let m := m <| singleton_pool_references ::= fun n => u32 (n - 1) |> in
  if singleton_pool_references m =? 0 then m <| pulse_pool := O |> <| pseq_pool := [] |> else m.

Definition pool_put_pulse_elem (m : pools) : pools := m <| pulse_pool ::= S |>.
Definition pool_put_pseq_elem (e : pri_sequence) (m : pools) : pools := m <| pseq_pool ::= cons e |>.

Section Alloc.
Context (kmalloc : nat -> option pri_sequence).

Definition pool_get_pseq_elem (m : pools) : pools * option pri_sequence :=
  match pseq_pool m with
  | e :: r => (m <| pseq_pool := r |>, Some e)
  | [] => (m <| allocs ::= S |>, kmalloc (allocs m))
  end.

(** An element of the pool, or a new one. *)
Definition get_pulse_elem (m : pools) : pools * bool :=
  match pulse_pool m with
  | S n => (m <| pulse_pool := n |>, true)
  | O => (m <| allocs ::= S |>, match kmalloc (allocs m) with Some _ => true | None => false end)
  end.

(** ** The queue of pulses *)

Definition pulse_queue_get_tail (pde : pri_detector) : option Z := last (pulses pde).

Definition pulse_queue_dequeue (pde : pri_detector) (m : pools) : pri_detector * pools :=
  match pulse_queue_get_tail pde with
  | Some _ => (pde <| pulses ::= fun l => removelast l |> <| pd_count ::= fun n => u32 (n - 1) |>, pool_put_pulse_elem m)
  | None => (pde, m)
  end.

(** [fuel]: the pulses in the queue. *)
Fixpoint check_window_loop (fuel : nat) (min_valid_ts : Z) (pde : pri_detector) (m : pools) : pri_detector * pools :=
  match pulse_queue_get_tail pde, fuel with
  | Some ts, S fuel =>
      if min_valid_ts <=? ts then (pde, m)
      else let '(pde, m) := pulse_queue_dequeue pde m in check_window_loop fuel min_valid_ts pde m
  | _, _ => (pde, m)
  end.

Definition pulse_queue_check_window (pde : pri_detector) (m : pools) : pri_detector * pools :=
  if pd_count pde <? 2 then (pde, m)
  else if last_ts pde <=? window_size pde then (pde, m)
  else check_window_loop (length (pulses pde)) (u64 (last_ts pde - window_size pde)) pde m.

Definition pulse_queue_enqueue (pde : pri_detector) (ts : Z) (m : pools) : pri_detector * pools * bool :=
  let '(m, ok) := get_pulse_elem m in
  if negb ok then (pde, m, false)
  else
    let pde := pde <| pulses ::= cons ts |> <| pd_count ::= fun n => u32 (n + 1) |> <| last_ts := ts |> in
    let '(pde, m) := pulse_queue_check_window pde m in
    let '(pde, m) := if max_count pde <=? pd_count pde then pulse_queue_dequeue pde m else (pde, m) in
    (pde, m, true).

(** ** Short, weather and interleaved waveforms *)

Definition pde_get_multiple (val fraction tolerance : Z) : Z :=
  if fraction =? 0 then 0
  else
    let delta := if val <? fraction then fraction - val else val - fraction in
    if delta <=? tolerance then 1
    else
      let factor := val / fraction in
      let remainder := val mod fraction in
      if tolerance <? remainder then
        if fraction - remainder <=? tolerance then factor + 1 else 0
      else factor.

(** The older pulses that fit a new sequence; [falses]: tmp_false_count. *)
Fixpoint extend_back (tol min_valid_ts : Z) (older : list Z) (falses : Z) (ps : pri_sequence) : pri_sequence :=
  match older with
  | [] => ps
  | p2 :: older =>
      if p2 <? min_valid_ts then ps
      else if 0 <? pde_get_multiple (u32 (sq_last ps - p2)) (sq_pri ps) tol then
        extend_back tol min_valid_ts older 0
          (ps <| sq_count ::= fun n => u32 (n + 1) |> <| sq_first := p2 |> <| sq_falses ::= fun n => u32 (n + falses) |>)
      else extend_back tol min_valid_ts older (u32 (falses + 1)) ps
  end.

(** The sequence with the interval between [ts] and [p].  The interval is at
    least pri_min, which no table has as 0, so the division is defined. *)
Definition new_sequence (r : radar_detector_specs) (ts p : Z) (older : list Z) (pulse_idx : Z) : pri_sequence :=
  let pri := u32 (ts - p) in
  let dur := u32 (pri * (ppb r - 1) + 2 * max_pri_tolerance r) in
  let min_valid_ts := if ts <? dur then 0 else ts - dur in
  let ps := extend_back (max_pri_tolerance r) min_valid_ts older 0 (Pseq pri dur 2 (u32 (pulse_idx - 1)) p ts 0 0) in
  ps <| sq_deadline := u64 (sq_first ps + dur) |>
     <| sq_thresh := if decide (wtype r = RADAR_WAVEFORM_WEATHER) then u8 (PPB_THRESH (u8 (19000000 / u32 (360 * pri)))) else ppb_thresh r |>.

Fixpoint create_loop (r : radar_detector_specs) (ts min_count pulse_idx : Z) (l : list Z) (sqs : list pri_sequence) (m : pools)
  : list pri_sequence * pools * bool :=
  match l with
  | [] => (sqs, m, true)
  | p :: l =>
      let delta_ts := u32 (ts - p) in
      let pulse_idx := u16 (pulse_idx + 1) in
      if delta_ts <? pri_min r then create_loop r ts min_count pulse_idx l sqs m
      else if pri_max r <? delta_ts then (sqs, m, true)
      else
        let ps := new_sequence r ts p l pulse_idx in
        if sq_count ps <=? min_count then create_loop r ts min_count pulse_idx l sqs m
        else
          let '(m, e) := pool_get_pseq_elem m in
          match e with
          | None => (sqs, m, false)
          | Some _ => create_loop r ts min_count pulse_idx l (ps :: sqs) m
          end
  end.

Definition pde_short_create_sequences (pde : pri_detector) (ts min_count : Z) (m : pools) : pri_detector * pools * bool :=
  let '(sqs, m, ok) := create_loop (rs pde) ts min_count 0 (pulses pde) (sequences pde) m in
  (pde <| sequences := sqs |>, m, ok).

(** What stays of the sequences, and the length of the longest that got the
    pulse. *)
Fixpoint add_to_existing (tol ts max_c : Z) (sqs : list pri_sequence) (m : pools) : list pri_sequence * pools * Z :=
  match sqs with
  | [] => ([], m, max_c)
  | ps :: sqs =>
      if sq_deadline ps <? ts then add_to_existing tol ts max_c sqs (pool_put_pseq_elem ps m)
      else
        let hit := 0 <? pde_get_multiple (u32 (ts - sq_last ps)) (sq_pri ps) tol in
        let ps := if hit then ps <| sq_last := ts |> <| sq_count ::= fun n => u32 (n + 1) |>
                  else ps <| sq_falses ::= fun n => u32 (n + 1) |> in
        let max_c := if hit && (max_c <? sq_count ps) then sq_count ps else max_c in
        let '(sqs, m, max_c) := add_to_existing tol ts max_c sqs m in
        (ps :: sqs, m, max_c)
  end.

Definition pde_short_add_to_existing_seqs (pde : pri_detector) (ts : Z) (m : pools) : pri_detector * pools * Z :=
  let '(sqs, m, max_c) := add_to_existing (max_pri_tolerance (rs pde)) ts 0 (sequences pde) m in
  (pde <| sequences := sqs |>, m, max_c).

Definition complete (r : radar_detector_specs) (ps : pri_sequence) : bool :=
  (sq_thresh ps <=? sq_count ps) && (sq_falses ps <? u32 (sq_count ps * num_pri r)).

Definition pde_short_check_detection (pde : pri_detector) : option pri_sequence :=
  head (filter (fun ps => complete (rs pde) ps = true) (sequences pde)).

Definition pri_detector_reset (pde : pri_detector) (ts : Z) (m : pools) : pri_detector * pools :=
  let m := foldl (fun m e => pool_put_pseq_elem e m) m (sequences pde) in
  let m := m <| pulse_pool ::= fun n => (n + length (pulses pde))%nat |> in
  (pde <| sequences := [] |> <| pulses := [] |> <| pd_count := 0 |> <| last_ts := ts |>, m).

Definition pde_short_init (pde : pri_detector) : pri_detector :=
  pde <| window_size := u32 (pri_max (rs pde) * ppb (rs pde) * num_pri (rs pde)) |> <| max_count := ppb (rs pde) * 2 |>.

Definition pde_short_add_pulse (pde : pri_detector) (ts : Z) (m : pools) : pri_detector * pools * option pri_sequence :=
  if pd_count pde =? 0 then
    let '(pde, m, _) := pulse_queue_enqueue pde ts m in (pde, m, None)
  else if u64 (ts - last_ts pde) <? max_pri_tolerance (rs pde) then (pde, m, None)
  else
    let '(pde, m, max_updated_seq) := pde_short_add_to_existing_seqs pde ts m in
    let '(pde, m, ok) := pde_short_create_sequences pde ts max_updated_seq m in
    if negb ok then let '(pde, m) := pri_detector_reset pde ts m in (pde, m, None)
    else
      match pde_short_check_detection pde with
      | None => let '(pde, m, _) := pulse_queue_enqueue pde ts m in (pde, m, None)
      | Some ps => (pde, m, Some ps)
      end.

(** ** Long waveform *)

Definition LONG_RADAR_DURATION : Z := 12000000.
Definition LONG_RADAR_BURST_MIN_DURATION : Z := 12000000 / 20.
Definition LONG_RADAR_MAX_BURST : Z := 20.

Definition pde_long_init (pde : pri_detector) : pri_detector :=
  pde <| window_size := LONG_RADAR_DURATION |> <| max_count := LONG_RADAR_MAX_BURST |>.

(** The oldest pulses leave until one is inside the window, where the
    sequence then starts. *)
Fixpoint long_trim (fuel : nat) (min_valid_ts : Z) (ps : pri_sequence) (pde : pri_detector) (m : pools)
  : pri_sequence * pri_detector * pools :=
  match pulse_queue_get_tail pde, fuel with
  | Some p, S fuel =>
      if min_valid_ts <=? p then (ps <| sq_first := p |> <| sq_deadline := u64 (p + window_size pde) |>, pde, m)
      else
        let '(pde, m) := pulse_queue_dequeue pde m in
        long_trim fuel min_valid_ts (ps <| sq_count ::= fun n => u32 (n - 1) |>) pde m
  | _, _ => (ps, pde, m)
  end.

Definition new_burst (ps : pri_sequence) (rest : list pri_sequence) (delta_ts : Z) (pde : pri_detector) (ts : Z) (m : pools)
  : pri_detector * pools * option pri_sequence :=
  let ps := ps <| sq_count ::= fun n => u32 (n + 1) |> <| sq_falses := 1 |> in
  let '(ps, pde, m) :=
    if sq_deadline ps <? ts then long_trim (length (pulses pde)) (u64 (ts - window_size pde)) ps pde m else (ps, pde, m) in
  if (ppb_thresh (rs pde) <? sq_count ps) && (window_size pde / 2 <? u64 (ts - sq_first ps)) then
    (pde <| sequences := ps :: rest |>, m, Some ps)
  else
    let '(pde, m, _) := pulse_queue_enqueue pde ts m in
    (pde <| sequences := ps <| sq_dur := delta_ts |> :: rest |>, m, None).

Definition pde_long_add_pulse (pde : pri_detector) (ts : Z) (m : pools) : pri_detector * pools * option pri_sequence :=
  match sequences pde with
  | [] =>
      let '(m, e) := pool_get_pseq_elem m in
      match e with
      | None => (pde, m, None)
      | Some e =>
          let ps := e <| sq_count := 1 |> <| sq_falses := 1 |> <| sq_first := ts |> <| sq_last := ts |>
                      <| sq_deadline := u64 (ts + window_size pde) |> <| sq_pri := 0 |> in
          let '(pde, m, _) := pulse_queue_enqueue (pde <| sequences := [ps] |>) ts m in (pde, m, None)
      end
  | ps :: rest =>
      let delta_ts := u32 (ts - sq_last ps) in
      let ps := ps <| sq_last := ts |> in
      if delta_ts <? pri_max (rs pde) then (pde <| sequences := ps :: rest |>, m, None)
      else if (pri_min (rs pde) <=? delta_ts) && (delta_ts <=? pri_max (rs pde)) then
        (pde <| sequences := ps <| sq_falses ::= fun n => u32 (n + 1) |> :: rest |>, m, None)
      else if (2 <? sq_count ps) && (u32 (sq_dur ps + delta_ts) <? LONG_RADAR_BURST_MIN_DURATION) then
        (pde <| sequences := ps :: rest |>, m, None)
      else new_burst ps rest delta_ts pde ts m
  end.

(** The two struct pri_detector_ops. *)
Definition is_long (r : radar_detector_specs) : bool := bool_decide (wtype r = RADAR_WAVEFORM_LONG).
Definition ops_init (pde : pri_detector) : pri_detector := if is_long (rs pde) then pde_long_init pde else pde_short_init pde.
Definition ops_add_pulse (pde : pri_detector) (ts : Z) (m : pools) : pri_detector * pools * option pri_sequence :=
  if is_long (rs pde) then pde_long_add_pulse pde ts m else pde_short_add_pulse pde ts m.
Definition reset_on_pri_overflow (pde : pri_detector) : bool := negb (is_long (rs pde)).

End Alloc.

End Radar.
