(* ===== verification/RadarSeq.v ===== *)
(** * Short radar patterns: what a detection means and when it comes

    [matched] is the abstract notion of a burst: pulses at multiples of one
    interval, within the tolerance.  Every sequence of a detector is backed by
    such a burst of received pulses, and a burst of enough pulses makes a
    fresh detector report. *)

From Stdlib Require Import Sorting.Sorted.
From stdpp Require Import prelude.
From S2P Require Import Prelude Radar.
Open Scope Z_scope.

Module RadarSeq.
Import Radar.

(** ** Multiples *)

(** [val] is [k] times [fraction] up to [tol]. *)
Definition near (val k fraction tol : Z) : Prop := Z.abs (val - k * fraction) <= tol.

(** The comment of pde_get_multiple: the factor, or 0 when there is none. *)
Lemma get_multiple_spec val fraction tol : 0 <= val -> 0 < fraction -> 0 <= tol ->
  let k := pde_get_multiple val fraction tol in
  0 <= k /\ (0 < k -> near val k fraction tol) /\ (k = 0 -> forall j, 1 <= j -> ~ near val j fraction tol).
Proof.
  intros Hv Hf Ht. cbv zeta. unfold pde_get_multiple, near. rewrite (proj2 (Z.eqb_neq _ _)) by lia.
  pose proof (Z.div_mod val fraction). pose proof (Z.mod_pos_bound val fraction). pose proof (Z.div_pos val fraction).
  set (q := val / fraction) in *. set (r := val mod fraction) in *.
  destruct (Z.ltb_spec val fraction) as [Hlt | Hge].
  - assert (q = 0) as Hq by (unfold q; by apply Z.div_small). rewrite Hq in *.
    destruct (Z.leb_spec (fraction - val) tol); [lia |]. destruct (Z.ltb_spec tol r).
    + destruct (Z.leb_spec (fraction - r) tol); [lia |]. split_and!; [lia | lia |]. intros _ j Hj. nia.
    + split_and!; [lia | lia |]. intros _ j Hj. nia.
  - destruct (Z.leb_spec (val - fraction) tol); [lia |].
    assert (1 <= q) by (unfold q; apply Z.div_le_lower_bound; lia).
    destruct (Z.ltb_spec tol r).
    + destruct (Z.leb_spec (fraction - r) tol); [split_and!; [lia | intros _; nia | lia] |].
      split_and!; [lia | lia |]. intros _ j Hj Hn.
      assert (j <= q \/ q + 1 <= j) as [? | ?] by lia; nia.
    + split_and!; [lia | intros _; nia | lia].
Qed.

(** ** Bursts *)

Abbreviation desc := (StronglySorted (fun x y : Z => y < x)).

(** Pulses, newest first, that fit one interval: the sequence starts with a
    pulse and older ones at multiples from it, and grows by pulses at a
    multiple from the newest. *)
Inductive matched (tol pri : Z) : list Z -> Prop :=
| matched_new t a back : desc (t :: a :: back) ->
    Forall (fun x => exists k, 1 <= k /\ near (t - x) k pri tol) (a :: back) -> matched tol pri (t :: a :: back)
| matched_later b a l : matched tol pri (a :: l) -> a < b -> (exists k, 1 <= k /\ near (b - a) k pri tol) ->
    matched tol pri (b :: a :: l).

Lemma matched_desc tol pri l : matched tol pri l -> desc l.
Proof.
  induction 1 as [| b a l Hm IH Hlt _]; [done |]. constructor; [done |]. constructor; [done |].
  apply StronglySorted_inv in IH as [_ IH]. eapply Forall_impl; [exact IH |]. simpl. lia.
Qed.

Lemma desc_skip (l1 l2 : list Z) x : desc (l1 ++ x :: l2) -> desc (l1 ++ l2).
Proof.
  induction l1 as [|y l1 IH]; simpl; intros H; [by apply StronglySorted_inv in H as [? _] |].
  apply StronglySorted_inv in H as [H1 H2]. constructor; [by apply IH |].
  apply Forall_app in H2 as [H2 H3]. apply Forall_app. split; [done |]. by apply Forall_cons in H3 as [_ H3].
Qed.

Lemma desc_prefix (l1 l2 : list Z) : desc (l1 ++ l2) -> desc l1.
Proof.
  induction l1 as [|y l1 IH]; simpl; intros H; [constructor |].
  apply StronglySorted_inv in H as [H1 H2]. apply Forall_app in H2 as [H2 _]. constructor; [by apply IH | done].
Qed.

Lemma multiple_near val pri tol : 0 <= val < 2 ^ 32 -> 0 < pri -> 0 <= tol ->
  (0 <? pde_get_multiple (u32 val) pri tol) = true -> exists k, 1 <= k /\ near val k pri tol.
Proof.
  intros Hv Hp Ht H. rewrite u32_id in H by done. apply Z.ltb_lt in H.
  destruct (get_multiple_spec val pri tol) as (_ & H1 & _); [lia.. |]. eexists. split; [| by apply H1]. lia.
Qed.

(** What the search among older pulses finds. *)
Lemma extend_back_spec tol mv t pri : 0 < pri -> 0 <= tol -> forall older falses ps a back,
  sq_last ps = t -> sq_pri ps = pri -> sq_count ps = Z.of_nat (length (t :: a :: back)) -> last (a :: back) = Some (sq_first ps) ->
  desc (t :: (a :: back) ++ older) -> Forall (fun x => t - x < 2 ^ 32) older -> Z.of_nat (length (t :: (a :: back) ++ older)) < 2 ^ 32 ->
  Forall (fun x => exists k, 1 <= k /\ near (t - x) k pri tol) (a :: back) ->
  exists more, let ps' := extend_back tol mv older falses ps in
    sq_pri ps' = pri /\ sq_last ps' = t /\ sq_dur ps' = sq_dur ps /\
    sq_count ps' = Z.of_nat (length (t :: (a :: back) ++ more)) /\ last ((a :: back) ++ more) = Some (sq_first ps') /\
    matched tol pri (t :: (a :: back) ++ more) /\ more ⊆ older /\ Forall (fun x => mv <= x) more.
Proof.
  intros Hp Ht. induction older as [|p2 older IH]; intros falses ps a back E1 E2 E3 E4 Hd Hr Hl Hn; cbn [extend_back].
  - exists []. rewrite app_nil_r in *. split_and!; try done. by constructor.
  - assert (Hstop : exists more, sq_pri ps = pri /\ sq_last ps = t /\ sq_dur ps = sq_dur ps /\
      sq_count ps = Z.of_nat (length (t :: (a :: back) ++ more)) /\ last ((a :: back) ++ more) = Some (sq_first ps) /\
      matched tol pri (t :: (a :: back) ++ more) /\ more ⊆ p2 :: older /\ Forall (fun x => mv <= x) more).
    { exists []. rewrite app_nil_r. apply (desc_prefix (t :: a :: back)) in Hd. split_and!; try done; [by constructor | set_solver]. }
    destruct (Z.ltb_spec p2 mv) as [Hmv | Hmv]; [exact Hstop |]. clear Hstop.
    apply Forall_cons in Hr as [Hr1 Hr]. assert (Hd2 : p2 < t).
    { apply StronglySorted_inv in Hd as [_ Hd]. eapply Forall_forall in Hd; [exact Hd |]. set_solver. }
    rewrite E1, E2. destruct (0 <? pde_get_multiple (u32 (t - p2)) pri tol) eqn:Ek.
    + pose proof (multiple_near (t - p2) pri tol ltac:(lia) Hp Ht Ek) as Hnear.
      set (ps1 := _ <| sq_falses ::= _ |>). destruct (IH 0 ps1 a (back ++ [p2])) as (more & H1 & H2 & H3 & H4 & H5 & H6 & H7 & H8).
      * done.
      * done.
      * unfold ps1. cbn. rewrite E3, u32_id by (cbn in Hl |- *; rewrite length_app in Hl; cbn in Hl; lia).
        cbn. rewrite length_app. cbn. lia.
      * rewrite app_comm_cons. apply last_snoc.
      * cbn [app]. rewrite <- app_assoc. exact Hd.
      * done.
      * revert Hl. cbn [app]. by rewrite <- app_assoc.
      * rewrite app_comm_cons. apply Forall_app. split; [done | by apply Forall_singleton].
      * exists (p2 :: more). cbn [app] in H4, H5, H6 |- *. rewrite <- app_assoc in H4, H5, H6. cbn [app] in H4, H5, H6.
        split_and!; try done; [set_solver | by constructor].
    + destruct (IH (u32 (falses + 1)) ps a back) as (more & H1 & H2 & H3 & H4 & H5 & H6 & H7 & H8); try done.
      * rewrite app_comm_cons in *. by eapply (desc_skip (t :: a :: back)).
      * revert Hl. cbn. rewrite !length_app. cbn. lia.
      * exists more. split_and!; try done. set_solver.
Qed.

(** A strictly descending list of integers is no longer than its range. *)
Lemma desc_length l h f : desc l -> head l = Some h -> last l = Some f -> Z.of_nat (length l) <= h - f + 1.
Proof.
  revert h. induction l as [|x l IH]; intros h Hd Hh Hl; [done |]. injection Hh as ->.
  apply StronglySorted_inv in Hd as [Hd Hf]. destruct l as [|y l]; [injection Hl as ->; simpl; lia |].
  apply Forall_cons in Hf as [Hf _]. specialize (IH y Hd eq_refl Hl). simpl length in *. lia.
Qed.

(** ** Well-formed radar types *)

Definition spec_ok (r : radar_detector_specs) : bool :=
  (1 <=? max_pri_tolerance r) && (max_pri_tolerance r <? 2 ^ 8) && (2 * max_pri_tolerance r <=? pri_min r) && (pri_min r <=? pri_max r) && (pri_max r <? 2 ^ 16) &&
  (2 <=? ppb_thresh r) && (ppb_thresh r <=? ppb r) && (ppb r <? 2 ^ 8) && (1 <=? num_pri r) && (num_pri r <? 2 ^ 8) &&
  (0 <=? width_min r) && (width_min r <=? width_max r) && (width_max r <? 2 ^ 8).

Record spec_wf (r : radar_detector_specs) : Prop := {
  wf_tol : 1 <= max_pri_tolerance r < 2 ^ 8; wf_tolpri : 2 * max_pri_tolerance r <= pri_min r;
  wf_pri : pri_min r <= pri_max r < 2 ^ 16; wf_ppb : 2 <= ppb_thresh r <= ppb r; wf_ppb8 : ppb r < 2 ^ 8; wf_num : 1 <= num_pri r < 2 ^ 8 }.

Lemma spec_ok_wf r : spec_ok r = true -> spec_wf r.
Proof. unfold spec_ok. rewrite !andb_true_iff, !Z.leb_le, !Z.ltb_lt. intros H. split; lia. Qed.

(** How long a burst of an interval lasts, and how many of its pulses count. *)
Definition burst_dur (r : radar_detector_specs) (pri : Z) : Z := pri * (ppb r - 1) + 2 * max_pri_tolerance r.
Definition needed (r : radar_detector_specs) (pri : Z) : Z :=
  if decide (wtype r = RADAR_WAVEFORM_WEATHER) then u8 (PPB_THRESH (u8 (19000000 / u32 (360 * pri)))) else ppb_thresh r.

(** ** The queue of pulses *)

(** Only the queue and its counter change. *)
Definition requeued (pde pde' : pri_detector) : Prop := pde' = pde <| pulses := pulses pde' |> <| pd_count := pd_count pde' |>.
Definition counted (pde : pri_detector) : Prop := pd_count pde = Z.of_nat (length (pulses pde)) /\ pd_count pde < 2 ^ 32.

Lemma requeued_trans d1 d2 d3 : requeued d1 d2 -> requeued d2 d3 -> requeued d1 d3.
Proof. unfold requeued. intros -> ->. by destruct d1. Qed.

#[local] Arguments removelast : simpl never.

Lemma dequeue_spec pde m : counted pde -> let '(pde', _) := pulse_queue_dequeue pde m in
  counted pde' /\ requeued pde pde' /\ pulses pde' = removelast (pulses pde).
Proof.
  intros [Hc Hl]. unfold pulse_queue_dequeue, pulse_queue_get_tail. destruct (pulses pde) as [|x l _] eqn:E using rev_ind.
  - cbn. split; [split; by rewrite ?E |]. split; [by destruct pde | by rewrite E].
  - rewrite last_snoc. rewrite length_app in Hc. cbn in Hc.
    split; [| split; [by destruct pde | by cbn; rewrite ?E]]. split; cbn; [rewrite E, removelast_last, u32_id; lia |].
    pose proof (u32_range (pd_count pde - 1)). lia.
Qed.

Lemma check_loop_spec mv fuel : forall pde m, (length (pulses pde) <= fuel)%nat -> counted pde -> desc (pulses pde) ->
  let '(pde', _) := check_window_loop fuel mv pde m in counted pde' /\ requeued pde pde' /\
    exists old, pulses pde = pulses pde' ++ old /\ Forall (fun x => mv <= x) (pulses pde') /\ Forall (fun x => x < mv) old.
Proof.
  induction fuel as [|fuel IH]; intros pde m Hf Hc Hd.
  - cbn [check_window_loop]. assert (pulses pde = []) as E by (destruct (pulses pde); [done | simpl in Hf; lia]).
    unfold pulse_queue_get_tail. rewrite E. cbn. split_and!; [done | by destruct pde | exists []; by rewrite E].
  - cbn [check_window_loop]. unfold pulse_queue_get_tail at 1. destruct (pulses pde) as [|x l _] eqn:E using rev_ind.
    + cbn. split_and!; [done | by destruct pde | exists []; by rewrite E].
    + rewrite last_snoc. destruct (Z.leb_spec mv x) as [Hx | Hx].
      * split_and!; [done | by destruct pde | exists []]. rewrite app_nil_r, E. split_and!; [done | | done].
        apply Forall_app. split; [| by apply Forall_singleton]. apply Forall_forall. intros y Hy.
        apply list_elem_of_split in Hy as (l1 & l2 & ->). rewrite <- app_assoc in Hd. clear E.
        assert (Hyx : desc (y :: l2 ++ [x])) by (clear -Hd; induction l1 as [|z l1 IH]; [done |]; apply IH; by apply StronglySorted_inv in Hd as [Hd _]).
        apply StronglySorted_inv in Hyx as [_ Hyx]. apply Forall_app in Hyx as [_ Hyx]. apply Forall_cons in Hyx as [Hyx _]. lia.
      * pose proof (dequeue_spec pde m Hc) as Hq. destruct (pulse_queue_dequeue pde m) as [pde1 m1]. destruct Hq as (Hc1 & Hr1 & Hp1).
        rewrite E, removelast_last in Hp1. rewrite length_app in Hf. simpl in Hf.
        specialize (IH pde1 m1 ltac:(rewrite Hp1; lia) Hc1 ltac:(rewrite Hp1; by eapply desc_prefix)).
        destruct (check_window_loop fuel mv pde1 m1) as [pde2 m2]. destruct IH as (H1 & H2 & old & H3 & H4 & H5).
        split_and!; [done | by eapply requeued_trans | exists (old ++ [x])]. rewrite app_assoc, <- H3, Hp1.
        split_and!; [done | done |]. apply Forall_app. split; [done | by apply Forall_singleton].
Qed.

Section Short.
Context (kmalloc : nat -> option pri_sequence) (r : radar_detector_specs) (Hr : spec_wf r).

Lemma burst_dur_bound pri : pri_min r <= pri <= pri_max r -> pri <= burst_dur r pri < 2 ^ 25.
Proof. intros H. destruct Hr. unfold burst_dur. nia. Qed.

(** A sequence stands for a burst of received pulses. *)
Record evidence (fed : list Z) (s : pri_sequence) : Prop := {
  ev_burst : exists l, matched (max_pri_tolerance r) (sq_pri s) l /\ Z.of_nat (length l) = sq_count s /\
    head l = Some (sq_last s) /\ last l = Some (sq_first s) /\ l ⊆ fed;
  ev_pri : pri_min r <= sq_pri s <= pri_max r;
  ev_dur : sq_last s <= sq_first s + burst_dur r (sq_pri s);
  ev_deadline : sq_deadline s = sq_first s + burst_dur r (sq_pri s);
  ev_thresh : sq_thresh s = needed r (sq_pri s) }.

Lemma evidence_mono fed fed' s : fed ⊆ fed' -> evidence fed s -> evidence fed' s.
Proof. intros Hf [(l & H1 & H2 & H3 & H4 & H5) ? ? ? ?]. split; try done. exists l. split_and!; try done. set_solver. Qed.

Lemma evidence_falses fed s n : evidence fed s -> evidence fed (s <| sq_falses ::= n |>).
Proof. by intros []. Qed.

(** The times at which pulses may come. *)
Definition span (fed : list Z) (now : Z) : Prop := Forall (fun x => 0 <= x <= now /\ now - x < 2 ^ 32) fed /\ now < 2 ^ 63.

Lemma span_elem fed now x : span fed now -> x ∈ fed -> 0 <= x <= now /\ now - x < 2 ^ 32.
Proof. intros [H _] Hx. by eapply Forall_forall in H. Qed.

Lemma evidence_last fed s : evidence fed s -> sq_last s ∈ fed /\ sq_first s ∈ fed /\ sq_first s <= sq_last s /\ 2 <= sq_count s < 2 ^ 26.
Proof.
  intros [(l & H1 & H2 & H3 & H4 & H5) Hp Hd _ _]. pose proof (burst_dur_bound _ Hp).
  assert (Hl : sq_last s ∈ l) by (destruct l; [done | injection H3 as ->; left]).
  assert (Hf : sq_first s ∈ l) by by apply last_Some_elem_of.
  pose proof (desc_length l _ _ (matched_desc _ _ _ H1) H3 H4) as Hlen.
  assert (2 <= length l)%nat by (destruct H1; simpl; lia). split_and!; [set_solver | set_solver | | lia | lia].
  destruct l as [|x l]; [done |]. injection H3 as ->. apply elem_of_cons in Hf as [-> | Hf]; [done |].
  apply matched_desc, StronglySorted_inv in H1 as [_ H1]. eapply Forall_forall in H1; [| exact Hf]. lia.
Qed.

(** A pulse at a multiple of the interval carries the burst on. *)
Lemma evidence_hit fed s ts now : evidence fed s -> span fed now -> now <= ts -> ts <= sq_deadline s ->
  span (ts :: fed) ts -> (0 <? pde_get_multiple (u32 (ts - sq_last s)) (sq_pri s) (max_pri_tolerance r)) = true ->
  evidence (ts :: fed) (s <| sq_last := ts |> <| sq_count ::= fun n => u32 (n + 1) |>).
Proof.
  intros He Hs Hn Hd Hs' Hk. destruct (evidence_last fed s He) as (Hl & _ & _ & Hc). destruct He as [(l & H1 & H2 & H3 & H4 & H5) Hp H6 H7 H8].
  pose proof (span_elem _ _ (sq_last s) Hs' ltac:(set_solver)) as Hb. destruct Hr.
  pose proof (span_elem _ _ _ Hs Hl) as Hb0.
  apply multiple_near in Hk as (k & Hk1 & Hk2); [| lia..].
  destruct l as [|a l]; [done |]. injection H3 as ->. split; cbn; try done; [| lia].
  exists (ts :: sq_last s :: l). rewrite u32_id by lia. split_and!; [| simpl in *; lia | done | exact H4 | set_solver].
  apply matched_later; [done | | by exists k]. unfold near in Hk2. nia.
Qed.

Lemma add_to_existing_ok fed ts now : span fed now -> now <= ts -> span (ts :: fed) ts -> forall sqs max_c m,
  Forall (evidence fed) sqs -> let '(sqs', _, _) := add_to_existing (max_pri_tolerance r) ts max_c sqs m in Forall (evidence (ts :: fed)) sqs'.
Proof.
  intros Hs Hn Hs'. induction sqs as [|s sqs IH]; intros max_c m H; cbn [add_to_existing]; [done |].
  apply Forall_cons in H as [He H]. destruct (Z.ltb_spec (sq_deadline s) ts); [by apply IH |].
  cbv zeta. destruct (0 <? pde_get_multiple (u32 (ts - sq_last s)) (sq_pri s) (max_pri_tolerance r)) eqn:Eh;
    match goal with |- context [add_to_existing _ _ ?mc sqs m] =>
      specialize (IH mc m H); destruct (add_to_existing _ _ mc sqs m) as [[sqs' m'] mc'] end; (constructor; [| done]).
  - by eapply evidence_hit.
  - apply evidence_falses. eapply evidence_mono; [| done]. set_solver.
Qed.

Lemma new_sequence_ok fed now ts p older idx : span fed now -> ts ∈ fed -> p :: older ⊆ fed -> desc (ts :: p :: older) ->
  Z.of_nat (length older) < 2 ^ 31 -> pri_min r <= u32 (ts - p) <= pri_max r -> evidence fed (new_sequence r ts p older idx).
Proof.
  intros Hs Ht Hf Hd Hl Hp. pose proof (span_elem _ _ ts Hs Ht) as Hbt. pose proof (span_elem _ _ p Hs ltac:(set_solver)) as Hbp.
  pose proof Hd as Hd0. apply StronglySorted_inv in Hd0 as [_ Hd0]. apply Forall_cons in Hd0 as [Hpt Hold].
  unfold new_sequence. cbv zeta. rewrite (u32_id (ts - p)) in * by lia. set (pri := ts - p) in *. pose proof (burst_dur_bound _ Hp) as Hdur.
  fold (burst_dur r pri). rewrite (u32_id (burst_dur r pri)) by (destruct Hr; lia). set (dur := burst_dur r pri) in *.
  set (mv := if ts <? dur then 0 else ts - dur). set (ps0 := Pseq pri dur 2 _ p ts 0 0).
  destruct (extend_back_spec (max_pri_tolerance r) mv ts pri ltac:(destruct Hr; lia) ltac:(destruct Hr; lia) older 0 ps0 p [])
    as (more & H1 & H2 & H3 & H4 & H5 & H6 & H7 & H8); try done.
  { apply Forall_forall. intros x Hx. pose proof (span_elem _ _ x Hs ltac:(set_solver)). lia. }
  { cbn. lia. }
  { apply Forall_singleton. exists 1. split; [done |]. unfold near, pri. destruct Hr. lia. }
  set (ps := extend_back _ _ _ _ _) in *. cbn [app length] in *.
  assert (Hfirst : sq_first ps ∈ fed /\ ts - dur <= sq_first ps).
  { apply last_Some_elem_of, elem_of_cons in H5 as [E | E]; [rewrite E; split; [set_solver | unfold pri in *; lia] |].
    split; [set_solver |]. eapply Forall_forall in E; [| exact H8]. cbn beta in E. unfold mv in E. destruct (Z.ltb_spec ts dur); lia. }
  destruct Hfirst as [Hff Hft]. pose proof (span_elem _ _ _ Hs Hff) as Hbf.
  split; cbn; rewrite ?H1, ?H2; try done.
  - exists (ts :: p :: more). split_and!; [done | by rewrite H4 | done | exact H5 | set_solver].
  - unfold dur in Hft. lia.
  - destruct Hs as [_ Hn]. unfold dur in *. rewrite u64_id; [done | lia].
Qed.

Lemma create_loop_ok fed now ts min_c : span fed now -> ts ∈ fed -> forall l idx sqs m, l ⊆ fed -> desc (ts :: l) ->
  Z.of_nat (length l) < 2 ^ 31 -> Forall (evidence fed) sqs ->
  let '(sqs', _, _) := create_loop kmalloc r ts min_c idx l sqs m in Forall (evidence fed) sqs'.
Proof.
  intros Hs Ht. induction l as [|p l IH]; intros idx sqs m Hf Hd Hl He; cbn [create_loop]; [done |]. cbv zeta.
  assert (Hd' : desc (ts :: l)) by exact (desc_skip [ts] l p Hd). simpl in Hl.
  destruct (Z.ltb_spec (u32 (ts - p)) (pri_min r)); [apply IH; first [done | lia | set_solver] |].
  destruct (Z.ltb_spec (pri_max r) (u32 (ts - p))); [done |].
  destruct (sq_count (new_sequence _ _ _ _ _) <=? min_c); [apply IH; first [done | lia | set_solver] |]. destruct (pool_get_pseq_elem kmalloc m) as [m1 [e|]]; [| done].
  apply IH; try first [done | lia | set_solver]. constructor; [| done]. eapply new_sequence_ok; try done; lia.
Qed.

(** *** The invariant of a detector *)

Record dinv (fed : list Z) (pde : pri_detector) : Prop := {
  d_rs : rs pde = r;
  d_max : max_count pde = ppb r * 2;
  d_win : 0 <= window_size pde;
  d_cnt : pd_count pde = Z.of_nat (length (pulses pde));
  d_len : Z.of_nat (length (pulses pde)) < max_count pde;
  d_desc : desc (pulses pde);
  d_fed : pulses pde ⊆ fed;
  d_head : pulses pde = [] \/ head (pulses pde) = Some (last_ts pde);
  d_inwin : Forall (fun x => last_ts pde - window_size pde <= x) (pulses pde);
  d_seqs : Forall (evidence fed) (sequences pde);
  d_empty : pulses pde = [] -> sequences pde = [] }.

Lemma dinv_mono fed fed' pde : fed ⊆ fed' -> dinv fed pde -> dinv fed' pde.
Proof.
  intros Hf []. split; try done; [set_solver |]. eapply Forall_impl; [done |]. intros s. by apply evidence_mono.
Qed.

Lemma dinv_seqs fed pde sqs : dinv fed pde -> pulses pde <> [] -> Forall (evidence fed) sqs ->
  dinv fed (pde <| sequences := sqs |>).
Proof. intros [] Hp Hs. by split. Qed.

Lemma small_len pde fed : dinv fed pde -> Z.of_nat (length (pulses pde)) < 2 ^ 9.
Proof. intros []. destruct Hr. lia. Qed.

Lemma requeued_same d d' : requeued d d' -> rs d' = rs d /\ max_count d' = max_count d /\ window_size d' = window_size d /\
  last_ts d' = last_ts d /\ sequences d' = sequences d.
Proof. unfold requeued. intros ->. by destruct d. Qed.

(** After the pulse [ts] was put in, some of the oldest may have left. *)
Lemma requeued_dinv fed ts pde pde3 old : dinv fed pde -> ts ∈ fed -> Forall (fun x => x < ts) (pulses pde) ->
  requeued (pde <| pulses ::= cons ts |> <| pd_count ::= fun n => u32 (n + 1) |> <| last_ts := ts |>) pde3 -> counted pde3 ->
  ts :: pulses pde = pulses pde3 ++ old -> pulses pde3 <> [] -> Forall (fun x => ts - window_size pde <= x) (pulses pde3) ->
  Z.of_nat (length (pulses pde3)) < max_count pde ->
  dinv fed pde3 /\ sequences pde3 = sequences pde /\ (pulses pde3 <> [] /\ last_ts pde3 = ts).
Proof.
  intros [] Ht Hlt Hr3 [Hc3 _] Ho Hne Hw Hl. assert (Hd : desc (ts :: pulses pde)) by by constructor.
  apply requeued_same in Hr3 as (E1 & E2 & E3 & E4 & E5). cbn in E1, E2, E3, E4, E5.
  split_and!; [| done | done | done]. split; rewrite ?E1, ?E2, ?E3, ?E4, ?E5; try done.
  - rewrite Ho in Hd. by eapply desc_prefix.
  - intros x Hx. assert (Hx' : x ∈ ts :: pulses pde) by (rewrite Ho; set_solver). set_solver.
  - right. destruct (pulses pde3); [done |]. by injection Ho as <-.
Qed.

Lemma check_window_ok pde m : counted pde -> desc (pulses pde) -> 0 <= window_size pde -> last_ts pde < 2 ^ 63 ->
  head (pulses pde) = Some (last_ts pde) -> Forall (fun x => 0 <= x) (pulses pde) ->
  let '(pde', _) := pulse_queue_check_window pde m in counted pde' /\ requeued pde pde' /\ pulses pde' <> [] /\
    (exists old, pulses pde = pulses pde' ++ old) /\ Forall (fun x => last_ts pde - window_size pde <= x) (pulses pde').
Proof.
  intros Hc Hd Hw Hn Hh Hb. assert (Hne : pulses pde <> []) by by destruct (pulses pde). unfold pulse_queue_check_window.
  destruct (Z.ltb_spec (pd_count pde) 2) as [Hc2 | Hc2].
  - split_and!; [done | by destruct pde | done | exists []; by rewrite app_nil_r |]. destruct Hc as [Hc _].
    destruct (pulses pde) as [|y [|? l]]; [done | | cbn [length] in Hc; lia]. injection Hh as ->. apply Forall_singleton. lia.
  - destruct (Z.leb_spec (last_ts pde) (window_size pde)) as [Hle | Hlt].
    + split_and!; [done | by destruct pde | done | exists []; by rewrite app_nil_r |]. eapply Forall_impl; [exact Hb |].
      cbn beta. intros x. lia.
    + rewrite u64_id by lia. pose proof (check_loop_spec (last_ts pde - window_size pde) (length (pulses pde)) pde m (le_n _) Hc Hd) as Hq.
      destruct (check_window_loop _ _ pde m) as [pde2 m2]. destruct Hq as (Q1 & Q2 & old & Q3 & Q4 & Q5).
      split_and!; [done | done | | by exists old | done]. intros E. rewrite E in Q3. cbn in Q3. subst old.
      destruct (pulses pde) as [|y l]; [done |]. injection Hh as ->. apply Forall_cons in Q5 as [Q5 _]. lia.
Qed.

Lemma enqueue_ok fed now ts pde m : dinv fed pde -> span fed now -> ts ∈ fed -> Forall (fun x => x < ts) (pulses pde) ->
  let '(pde', _, ok) := pulse_queue_enqueue kmalloc pde ts m in
  dinv fed pde' /\ sequences pde' = sequences pde /\ (ok = true -> pulses pde' <> [] /\ last_ts pde' = ts).
Proof.
  intros Hi Hs Ht Hlt. pose proof (small_len _ _ Hi) as Hlen. unfold pulse_queue_enqueue.
  destruct (get_pulse_elem kmalloc m) as [m1 [|]]; cbn [negb]; [| done].
  pose proof (fun pde3 old => requeued_dinv fed ts pde pde3 old Hi Ht Hlt) as Hfin. destruct Hi.
  set (pde1 := pde <| pulses ::= cons ts |> <| pd_count ::= fun n => u32 (n + 1) |> <| last_ts := ts |>) in *.
  assert (Hp1 : pulses pde1 = ts :: pulses pde) by done.
  assert (Hc1 : counted pde1) by (split; [unfold pde1; cbn; rewrite u32_id; lia | unfold pde1; cbn; rewrite u32_id; lia]).
  pose proof (span_elem _ _ ts Hs Ht) as Hbt.
  assert (Hb : Forall (fun x => 0 <= x) (pulses pde1)).
  { apply Forall_forall. intros x Hx. apply (span_elem fed now x Hs). rewrite Hp1 in Hx. set_solver. }
  pose proof (check_window_ok pde1 m1 Hc1 ltac:(by constructor) d_win0 ltac:(destruct Hs; cbn; lia) eq_refl Hb) as H2.
  destruct (pulse_queue_check_window pde1 m1) as [pde2 m2]. destruct H2 as (Hc2 & Hr2 & Hne2 & (old2 & Ho2) & Hw2).
  assert (Hm2 : max_count pde2 = max_count pde) by (apply requeued_same in Hr2; apply Hr2).
  assert (Hl2 : Z.of_nat (length (pulses pde2)) <= max_count pde).
  { apply (f_equal length) in Ho2. rewrite length_app in Ho2. cbn in Ho2. lia. }
  destruct (Z.leb_spec (max_count pde2) (pd_count pde2)) as [Hfull | Hfull].
  - pose proof (dequeue_spec pde2 m2 Hc2) as Hq. destruct (pulse_queue_dequeue pde2 m2) as [pde3 m3]. destruct Hq as (Hc3 & Hr3 & Hp3).
    destruct Hc2 as [Hc2 _]. destruct Hr as [_ _ _ Hppb _ _]. destruct (pulses pde2) as [|x l _] eqn:E2 using rev_ind; [done |]. rewrite removelast_last in Hp3.
    rewrite length_app in Hl2, Hc2. cbn in Hl2, Hc2. eapply (Hfin pde3 (x :: old2)) in Hc3 as (G1 & G2 & G3); [by split_and! |..].
    + by eapply requeued_trans.
    + rewrite Hp3. rewrite <- Hp1, Ho2. by rewrite <- app_assoc.
    + rewrite Hp3. intros ->. cbn in *. lia.
    + rewrite Hp3. by apply Forall_app in Hw2 as [? _].
    + rewrite Hp3. lia.
  - eapply (Hfin pde2 old2) in Hc2 as (G1 & G2 & G3); [by split_and! | done..|]. destruct Hc2. lia.
Qed.

(** *** One pulse *)

Lemma reset_dinv fed pde ts m : dinv fed pde -> dinv fed (pri_detector_reset pde ts m).1.
Proof. intros []. split; cbn; try first [done | by constructor | by left | set_solver]. destruct Hr; lia. Qed.

Lemma check_detection_elem pde ps : pde_short_check_detection pde = Some ps -> ps ∈ sequences pde /\ complete (rs pde) ps = true.
Proof.
  unfold pde_short_check_detection. intros H. apply head_Some_elem_of in H. apply list_elem_of_filter in H. tauto.
Qed.

Lemma existing_ok fed now ts pde m : dinv fed pde -> pulses pde <> [] -> span fed now -> now <= ts -> span (ts :: fed) ts ->
  let '(pde', _, _) := pde_short_add_to_existing_seqs pde ts m in dinv (ts :: fed) pde' /\ pulses pde' = pulses pde.
Proof.
  intros Hi Hne Hs Hn Hs'. unfold pde_short_add_to_existing_seqs. rewrite (d_rs _ _ Hi).
  pose proof (add_to_existing_ok fed ts now Hs Hn Hs' (sequences pde) 0 m (d_seqs _ _ Hi)) as Ha.
  destruct (add_to_existing _ _ _ _ _) as [[sqs1 m1] mc]. split; [| done]. apply dinv_seqs; [| done..].
  eapply dinv_mono; [| exact Hi]. set_solver.
Qed.

Lemma create_ok fed ts pde mc m : dinv fed pde -> pulses pde <> [] -> span fed ts -> ts ∈ fed -> desc (ts :: pulses pde) ->
  let '(pde', _, _) := pde_short_create_sequences kmalloc pde ts mc m in dinv fed pde' /\ pulses pde' = pulses pde.
Proof.
  intros Hi Hne Hs Ht Hd. pose proof (small_len _ _ Hi) as Hlen. unfold pde_short_create_sequences. rewrite (d_rs _ _ Hi).
  pose proof (create_loop_ok fed ts ts mc Hs Ht (pulses pde) 0 (sequences pde) m ltac:(by destruct Hi) Hd ltac:(lia) (d_seqs _ _ Hi)) as Hcr.
  destruct (create_loop _ _ _ _ _ _ _ _) as [[sqs2 m2] ok]. split; [| done]. by apply dinv_seqs.
Qed.

(** What one pulse leaves, and what a reported sequence is. *)
Lemma short_add_pulse_ok fed now ts pde m : dinv fed pde -> span fed now -> now <= ts -> span (ts :: fed) ts ->
  let '(pde', _, o) := pde_short_add_pulse kmalloc pde ts m in
  dinv (ts :: fed) pde' /\ (forall ps, o = Some ps -> evidence (ts :: fed) ps /\ complete r ps = true).
Proof.
  intros Hi Hs Hn Hs'. pose proof (small_len _ _ Hi) as Hlen. unfold pde_short_add_pulse.
  assert (Hmono : dinv (ts :: fed) pde) by (eapply dinv_mono; [| exact Hi]; set_solver).
  destruct (Z.eqb_spec (pd_count pde) 0) as [Hc | Hc].
  { pose proof (enqueue_ok (ts :: fed) ts ts pde m Hmono Hs' ltac:(set_solver)) as He.
    destruct (pulse_queue_enqueue kmalloc pde ts m) as [[pde1 m1] ok]. split; [| done]. apply He.
    destruct Hi. destruct (pulses pde); [done | cbn in *; lia]. }
  assert (Hne : pulses pde <> []) by (destruct Hi; destruct (pulses pde); [done | done]).
  assert (Hlast : last_ts pde ∈ fed).
  { destruct Hi as [_ _ _ _ _ _ Hf [E | E] _ _ _]; [done |]. apply Hf. by apply head_Some_elem_of. }
  pose proof (span_elem _ _ _ Hs Hlast) as Hb. rewrite u64_id by (destruct Hs'; lia).
  destruct (Z.ltb_spec (ts - last_ts pde) (max_pri_tolerance (rs pde))) as [Hsm | Hsm]; [done |].
  assert (Hd : desc (ts :: pulses pde)).
  { destruct Hi as [E1 _ _ _ _ Hd _ [E | E] _ _ _]; [done |]. constructor; [done |]. destruct (pulses pde) as [|y l]; [done |]. injection E as ->.
    destruct Hr. rewrite E1 in Hsm. constructor; [lia |]. apply StronglySorted_inv in Hd as [_ Hd]. eapply Forall_impl; [exact Hd |].
    cbn beta. intros x. lia. }
  pose proof (existing_ok fed now ts pde m Hi Hne Hs Hn Hs') as Ha. destruct (pde_short_add_to_existing_seqs pde ts m) as [[pde1 m1] mc].
  destruct Ha as [Hi1 Hp1]. rewrite <- Hp1 in Hne, Hd.
  pose proof (create_ok _ ts pde1 mc m1 Hi1 Hne Hs' ltac:(set_solver) Hd) as Hcr.
  destruct (pde_short_create_sequences kmalloc pde1 ts mc m1) as [[pde2 m2] [|]]; destruct Hcr as [Hi2 Hp2]; cbn [negb].
  - destruct (pde_short_check_detection pde2) as [ps|] eqn:Ed.
    + split; [done |]. intros ? [= <-]. apply check_detection_elem in Ed as [E1 E2]. rewrite (d_rs _ _ Hi2) in E2.
      split; [| done]. eapply Forall_forall; [exact (d_seqs _ _ Hi2) | done].
    + pose proof (enqueue_ok (ts :: fed) ts ts pde2 m2 Hi2 Hs' ltac:(set_solver)) as He.
      destruct (pulse_queue_enqueue kmalloc pde2 ts m2) as [[pde3 m3] ok]. split; [| done]. apply He.
      rewrite Hp2. by apply StronglySorted_inv in Hd as [_ Hd].
  - pose proof (reset_dinv _ pde2 ts m2 Hi2) as He. destruct (pri_detector_reset pde2 ts m2). by split.
Qed.

End Short.

End RadarSeq.
