(* ===== verification/RadarDet.v ===== *)
(** * What the short-pattern detector reports, and when

    [feed] gives a detector one pulse after the other until it reports; the
    theorems are about a detector as pri_detector_init makes it, for any
    contents and any failures of the allocator in the soundness theorem. *)

From Stdlib Require Import Sorting.Sorted.
From stdpp Require Import prelude.
From S2P Require Import Prelude Radar RadarSeq.
Open Scope Z_scope.

Module RadarDet.
Import Radar RadarSeq.

(** A detector of the type, before its first pulse. *)
Definition fresh (r : radar_detector_specs) (freq : Z) : pri_detector := pde_short_init (Pde r 0 [] [] 0 0 0 freq).

(** The pulses up to the one that is reported on. *)
Fixpoint feed (kmalloc : nat -> option pri_sequence) (pde : pri_detector) (m : pools) (l : list Z) : option pri_sequence :=
  match l with
  | [] => None
  | ts :: l =>
      let '(pde, m, o) := pde_short_add_pulse kmalloc pde ts m in
      match o with Some ps => Some ps | None => feed kmalloc pde m l end
  end.

Section Short.
Context (kmalloc : nat -> option pri_sequence) (r : radar_detector_specs) (Hr : spec_wf r).

Lemma fresh_dinv freq : dinv r [] (fresh r freq).
Proof.
  unfold fresh, pde_short_init. split; cbn; try first [done | by left | by constructor].
  - apply u32_range.
  - destruct Hr. lia.
Qed.

(** Times that do not go back, over less than 2^32 microseconds. *)
Definition timely (l : list Z) : Prop := StronglySorted (fun x y => x <= y < x + 2 ^ 32) l /\ Forall (fun x => 0 <= x < 2 ^ 63) l.

Lemma span_cons fed now ts : span fed now -> now <= ts < 2 ^ 63 -> 0 <= ts -> Forall (fun x => ts < x + 2 ^ 32) fed -> span (ts :: fed) ts.
Proof.
  intros [H1 H2] H3 H4 H5. split; [| lia]. constructor; [lia |]. apply Forall_forall. intros x Hx.
  pose proof (proj1 (Forall_forall _ _) H1 x Hx). pose proof (proj1 (Forall_forall _ _) H5 x Hx). cbn beta in *. lia.
Qed.

Lemma feed_ok l : forall fed now pde m ps, dinv r fed pde -> span fed now -> timely l ->
  Forall (fun ts => now <= ts /\ Forall (fun x => ts < x + 2 ^ 32) fed) l -> feed kmalloc pde m l = Some ps ->
  evidence r (rev l ++ fed) ps /\ complete r ps = true.
Proof.
  induction l as [|ts l IH]; intros fed now pde m ps Hi Hs [Ht Hb] Hl Hf; [done |]. cbn [feed] in Hf.
  apply StronglySorted_inv in Ht as [Ht Htl]. apply Forall_cons in Hb as [Hb Hbl]. apply Forall_cons in Hl as [[Hn Hl1] Hl].
  pose proof (span_cons fed now ts Hs ltac:(lia) ltac:(lia) Hl1) as Hs'.
  pose proof (short_add_pulse_ok kmalloc r Hr fed now ts pde m Hi Hs Hn Hs') as Hp.
  destruct (pde_short_add_pulse kmalloc pde ts m) as [[pde1 m1] [ps1|]]; destruct Hp as [Hi1 Hp].
  - injection Hf as <-. destruct (Hp _ eq_refl) as [He Hc]. split; [| done]. eapply evidence_mono; [exact Hr | | exact He].
    cbn. set_solver.
  - destruct (IH (ts :: fed) ts pde1 m1 ps Hi1 Hs' (conj Ht Hbl)) as [He Hc]; [| done |].
    + apply Forall_forall. intros y Hy. pose proof (proj1 (Forall_forall _ _) Htl y Hy) as G1. pose proof (proj1 (Forall_forall _ _) Hl y Hy) as [_ G2].
      cbn beta in *. split; [lia |]. constructor; [lia | exact G2].
    + split; [| done]. cbn. by rewrite <- app_assoc.
Qed.

(** *** Range of a descending list *)

Lemma desc_range (l : list Z) f x : forall h, desc l -> head l = Some h -> last l = Some f -> x ∈ l -> f <= x <= h.
Proof.
  induction l as [|y l IH]; intros h Hd Hh Hl Hx; [done |]. injection Hh as ->.
  apply StronglySorted_inv in Hd as [Hd Hf]. destruct l as [|z l].
  - apply list_elem_of_singleton in Hx as ->. injection Hl as ->. lia.
  - assert (Hfl : f ∈ z :: l) by (apply last_Some_elem_of; exact Hl). pose proof (proj1 (Forall_forall _ _) Hf f Hfl) as Hfh.
    apply elem_of_cons in Hx as [-> | Hx]; [cbn beta in Hfh; lia |]. apply Forall_cons in Hf as [Hf _].
    pose proof (IH z Hd eq_refl Hl Hx). lia.
Qed.

(** *** A clean burst *)

(** The sequence the first two pulses start, after [n] pulses. *)
Definition tracks (t0 pri last_t n : Z) (s : pri_sequence) : Prop :=
  sq_pri s = pri /\ sq_count s = n /\ sq_last s = last_t /\ sq_falses s = 0 /\
  sq_deadline s = t0 + burst_dur r pri /\ sq_thresh s = needed r pri.

Lemma near_hit val pri tol : 0 <= val < 2 ^ 32 -> 0 < pri -> 0 <= tol -> near val 1 pri tol ->
  (0 <? pde_get_multiple (u32 val) pri tol) = true.
Proof.
  intros Hv Hp Ht Hn. rewrite u32_id by done. apply Z.ltb_lt.
  destruct (get_multiple_spec val pri tol) as (H0 & _ & H2); [lia.. |].
  destruct (decide (pde_get_multiple val pri tol = 0)) as [E |]; [| lia]. by destruct (H2 E 1 ltac:(lia)).
Qed.

Lemma existing_tracks t0 pri lt n ts : pri_min r <= pri -> near (ts - lt) 1 pri (max_pri_tolerance r) -> ts <= t0 + burst_dur r pri ->
  0 <= lt -> ts - lt < 2 ^ 32 -> 0 <= n < 2 ^ 31 -> forall sqs max_c m, Exists (tracks t0 pri lt n) sqs ->
  let '(sqs', _, _) := add_to_existing (max_pri_tolerance r) ts max_c sqs m in Exists (tracks t0 pri ts (n + 1)) sqs'.
Proof.
  intros Hp Hn Hd Hlt H32 Hc. assert (0 <= ts - lt) by (unfold near in Hn; destruct Hr; lia).
  induction sqs as [|s sqs IH]; intros max_c m Hs; [by inversion Hs |].
  cbn [add_to_existing]. cbv zeta. apply Exists_cons in Hs as [(E1 & E2 & E3 & E4 & E5 & E6) | Hs].
  - rewrite E1, E3, E5. rewrite (proj2 (Z.ltb_ge _ _)) by lia. rewrite near_hit by (first [done | lia | destruct Hr; lia]). cbn [andb].
    destruct (add_to_existing _ _ _ _ _) as [[sqs' m'] mc]. left. unfold tracks. cbn. rewrite E2, u32_id by lia. by split_and!.
  - destruct (sq_deadline s <? ts); [by apply IH |].
    match goal with |- context [add_to_existing _ _ ?mc sqs m] => specialize (IH mc m Hs); destruct (add_to_existing _ _ mc sqs m) as [[sqs' m'] mc'] end.
    by right.
Qed.

(** The loop that starts sequences only adds some, and never fails while the
    allocator does not. *)
Lemma create_loop_keeps (Hk : forall n, is_Some (kmalloc n)) ts mc l : forall idx sqs m,
  let '(sqs', _, ok) := create_loop kmalloc r ts mc idx l sqs m in ok = true /\ exists new, sqs' = new ++ sqs.
Proof.
  induction l as [|p l IH]; intros idx sqs m; cbn [create_loop]; cbv zeta; [split; [done | by exists []] |].
  destruct (u32 (ts - p) <? pri_min r); [apply IH |]. destruct (pri_max r <? u32 (ts - p)); [split; [done | by exists []] |].
  destruct (sq_count _ <=? mc); [apply IH |]. unfold pool_get_pseq_elem.
  destruct (pseq_pool m) as [|e pool]; [destruct (Hk (allocs m)) as [e ->] |];
    match goal with |- context [create_loop _ _ _ _ ?i l (?s :: sqs) ?m'] =>
      specialize (IH i (s :: sqs) m'); destruct (create_loop _ _ _ _ i l _ m') as [[sqs' m1] ok] end;
    destruct IH as [-> [new ->]]; (split; [done |]); (eexists (new ++ [_])); by rewrite <- app_assoc.
Qed.

Lemma enqueue_succeeds (Hk : forall n, is_Some (kmalloc n)) pde ts m : (pulse_queue_enqueue kmalloc pde ts m).2 = true.
Proof.
  unfold pulse_queue_enqueue, get_pulse_elem.
  destruct (pulse_pool m); [destruct (Hk (allocs m)) as [e ->] |]; cbn [negb];
    destruct (pulse_queue_check_window _ _) as [d1 m1]; case_match; by case_match.
Qed.

(** What holds between two pulses of the burst, until it is reported. *)
Record tracking (fed : list Z) (t0 pri lt n : Z) (pde : pri_detector) : Prop := {
  tr_inv : dinv r fed pde;
  tr_span : span fed lt;
  tr_from : Forall (fun x => t0 <= x) fed;
  tr_pulses : pulses pde <> [];
  tr_last : last_ts pde = lt;
  tr_few : n < needed r pri;
  tr_seq : Exists (tracks t0 pri lt n) (sequences pde) }.

Lemma needed_small pri : needed r pri < 2 ^ 8.
Proof. unfold needed. destruct Hr. case_decide; [| lia]. apply u8_range. Qed.

(** The end of a pulse, when a sequence has got it. *)
Lemma conclude (Hk : forall n, is_Some (kmalloc n)) fed t0 pri ts n pde m : dinv r fed pde -> span fed ts -> ts ∈ fed ->
  Forall (fun x => t0 <= x) fed -> Forall (fun x => x < ts) (pulses pde) -> 2 <= n < 2 ^ 16 -> Exists (tracks t0 pri ts n) (sequences pde) ->
  match pde_short_check_detection pde with
  | Some _ => True
  | None => let '(pde', _, _) := pulse_queue_enqueue kmalloc pde ts m in tracking fed t0 pri ts n pde'
  end.
Proof.
  intros Hi Hs Ht Hf Hlt Hn Htr. destruct (pde_short_check_detection pde) as [ps|] eqn:Ed; [done |].
  assert (Hfew : n < needed r pri).
  { destruct (Z.lt_ge_cases n (needed r pri)) as [| Hge]; [done | exfalso]. unfold pde_short_check_detection in Ed.
    apply Exists_exists in Htr as (s & Hin & E1 & E2 & E3 & E4 & E5 & E6). apply head_None in Ed.
    assert (Hin' : s ∈ filter (fun ps => complete (rs pde) ps = true) (sequences pde)).
    { apply list_elem_of_filter. split; [| done]. unfold complete. rewrite E2, E4, E6, (d_rs _ _ _ Hi). destruct Hr.
      rewrite u32_id by nia. apply andb_true_iff. split; [apply Z.leb_le | apply Z.ltb_lt]; nia. }
    rewrite Ed in Hin'. by apply not_elem_of_nil in Hin'. }
  pose proof (enqueue_ok kmalloc r Hr fed ts ts pde m Hi Hs Ht Hlt) as He. pose proof (enqueue_succeeds Hk pde ts m) as Hok.
  destruct (pulse_queue_enqueue kmalloc pde ts m) as [[pde' m'] ok]. cbn in Hok. subst ok. destruct He as (He1 & He2 & He3).
  destruct (He3 eq_refl) as [He4 He5]. split; try done. by rewrite He2.
Qed.

(** The next pulse of the burst. *)
Lemma tracking_step (Hk : forall n, is_Some (kmalloc n)) fed t0 pri lt n pde ts m : tracking fed t0 pri lt n pde ->
  pri_min r <= pri <= pri_max r -> near (ts - lt) 1 pri (max_pri_tolerance r) -> ts <= t0 + burst_dur r pri -> 0 <= t0 -> ts < 2 ^ 63 -> 2 <= n ->
  let '(pde', _, o) := pde_short_add_pulse kmalloc pde ts m in o = None -> tracking (ts :: fed) t0 pri ts (n + 1) pde'.
Proof.
  intros [Hi Hs Hfr Hne Hlast Hfew Htr] Hp Hn Hd Ht0 H63 H2. pose proof (needed_small pri). pose proof (burst_dur_bound r Hr pri Hp).
  pose proof Hr as [? ? ? ? ? ?]. assert (Hgap : max_pri_tolerance r <= ts - lt) by (unfold near in Hn; lia).
  assert (Hlt0 : t0 <= lt).
  { pose proof (d_head _ _ _ Hi) as [E | E]; [done |]. apply (proj1 (Forall_forall _ _) Hfr). apply (d_fed _ _ _ Hi). rewrite <- Hlast. by apply head_Some_elem_of. }
  assert (Hs' : span (ts :: fed) ts).
  { apply (span_cons fed lt); [done | lia | lia |]. eapply Forall_impl; [exact Hfr |]. cbn beta. intros x. lia. }
  unfold pde_short_add_pulse. destruct (Z.eqb_spec (pd_count pde) 0) as [Hc | Hc].
  { exfalso. rewrite (d_cnt _ _ _ Hi) in Hc. by destruct (pulses pde). }
  rewrite Hlast, u64_id, (d_rs _ _ _ Hi), (proj2 (Z.ltb_ge _ _)) by lia.
  assert (Hall : Forall (fun x => x < ts) (pulses pde)).
  { apply Forall_forall. intros x Hx. pose proof (span_elem _ _ x Hs ltac:(by apply (d_fed _ _ _ Hi))). lia. }
  assert (Hdesc : desc (ts :: pulses pde)) by (constructor; [exact (d_desc _ _ _ Hi) | done]).
  pose proof (existing_ok r Hr fed lt ts pde m Hi Hne Hs ltac:(lia) Hs') as Ha.
  pose proof (existing_tracks t0 pri lt n ts ltac:(lia) Hn Hd ltac:(lia) ltac:(lia) ltac:(lia) (sequences pde) 0 m Htr) as Hb.
  unfold pde_short_add_to_existing_seqs in *. rewrite (d_rs _ _ _ Hi) in *.
  destruct (add_to_existing _ _ _ _ _) as [[sqs1 m1] mc]. set (pde1 := pde <| sequences := sqs1 |>) in *. destruct Ha as [Hi1 Hp1].
  rewrite <- Hp1 in Hne, Hdesc, Hall. pose proof (create_ok kmalloc r Hr _ ts pde1 mc m1 Hi1 Hne Hs' ltac:(set_solver) Hdesc) as Hcr.
  unfold pde_short_create_sequences in *. rewrite (d_rs _ _ _ Hi1) in *.
  pose proof (create_loop_keeps Hk ts mc (pulses pde1) 0 (sequences pde1) m1) as Hkp.
  destruct (create_loop _ _ _ _ _ _ _ _) as [[sqs2 m2] ok]. destruct Hkp as [-> [new ->]]. cbn [negb].
  set (pde2 := pde1 <| sequences := _ |>) in *. destruct Hcr as [Hi2 Hp2].
  pose proof (conclude Hk (ts :: fed) t0 pri ts (n + 1) pde2 m2 Hi2 Hs' ltac:(set_solver) ltac:(constructor; [lia | done])
    ltac:(by rewrite Hp2) ltac:(lia) ltac:(apply Exists_app; by right)) as Hcc.
  destruct (pde_short_check_detection pde2); [done |]. destruct (pulse_queue_enqueue kmalloc pde2 ts m2) as [[pde3 m3] ok]. done.
Qed.

(** The first two pulses start the sequence. *)
Lemma first_pulse (Hk : forall n, is_Some (kmalloc n)) freq m t0 : 0 <= t0 < 2 ^ 63 ->
  let '(pde, _, o) := pde_short_add_pulse kmalloc (fresh r freq) t0 m in
  o = None /\ dinv r [t0] pde /\ pulses pde = [t0] /\ last_ts pde = t0 /\ sequences pde = [].
Proof.
  intros Ht. pose proof (dinv_mono r Hr [] [t0] _ ltac:(set_solver) (fresh_dinv freq)) as Hi.
  assert (Hs : span [t0] t0) by (split; [constructor; [lia | done] | lia]).
  unfold pde_short_add_pulse. change (pd_count (fresh r freq)) with 0. cbn [Z.eqb].
  pose proof (enqueue_ok kmalloc r Hr [t0] t0 t0 _ m Hi Hs ltac:(set_solver) ltac:(constructor)) as He.
  pose proof (enqueue_succeeds Hk (fresh r freq) t0 m) as Hok.
  destruct (pulse_queue_enqueue kmalloc (fresh r freq) t0 m) as [[pde m'] ok]. cbn in Hok. subst ok.
  destruct He as (He1 & He2 & He3). destruct (He3 eq_refl) as [He4 He5]. split_and!; try done.
  pose proof (d_fed _ _ _ He1) as Hf. pose proof (d_desc _ _ _ He1) as Hd.
  destruct (pulses pde) as [|x [|y l]]; [done | f_equal; apply list_elem_of_singleton, Hf; left |]. apply StronglySorted_inv in Hd as [_ Hd].
  apply Forall_cons in Hd as [Hd _]. assert (Hx : x = t0) by (apply list_elem_of_singleton, Hf; left).
  assert (Hy : y = t0) by (apply list_elem_of_singleton, Hf; right; left). lia.
Qed.

Lemma second_pulse (Hk : forall n, is_Some (kmalloc n)) pde m t0 t1 : 0 <= t0 -> t1 < 2 ^ 63 -> pri_min r <= t1 - t0 <= pri_max r ->
  dinv r [t0] pde -> pulses pde = [t0] -> last_ts pde = t0 -> sequences pde = [] ->
  let '(pde', _, o) := pde_short_add_pulse kmalloc pde t1 m in o = None -> tracking [t1; t0] t0 (t1 - t0) t1 2 pde'.
Proof.
  intros Ht0 H63 Hp Hi Hpu Hlast Hsq. pose proof Hr as [? ? ? ? ? ?]. pose proof (burst_dur_bound r Hr _ Hp) as Hdur.
  assert (Hs : span [t1; t0] t1) by (split; [constructor; [lia |]; constructor; [lia | done] | lia]).
  assert (Hd : desc [t1; t0]) by (repeat constructor; lia).
  unfold pde_short_add_pulse. rewrite (proj2 (Z.eqb_neq _ _)) by (rewrite (d_cnt _ _ _ Hi), Hpu; done).
  rewrite Hlast, u64_id, (d_rs _ _ _ Hi), (proj2 (Z.ltb_ge _ _)) by lia.
  unfold pde_short_add_to_existing_seqs. rewrite Hsq. cbn [add_to_existing]. set (pde1 := pde <| sequences := [] |>).
  assert (Hi1 : dinv r [t1; t0] pde1).
  { apply dinv_seqs; [| by rewrite Hpu | done]. eapply dinv_mono; [exact Hr | | exact Hi]. set_solver. }
  pose proof (create_ok kmalloc r Hr _ t1 pde1 0 m Hi1 ltac:(unfold pde1; cbn; by rewrite Hpu) Hs ltac:(set_solver) ltac:(unfold pde1; cbn; by rewrite Hpu)) as Hcr.
  unfold pde_short_create_sequences in *. rewrite (d_rs _ _ _ Hi1) in *. change (pulses pde1) with (pulses pde) in *. rewrite Hpu in *.
  cbn [create_loop] in *. cbv zeta in *. rewrite (u32_id (t1 - t0)) in * by lia.
  rewrite (proj2 (Z.ltb_ge (t1 - t0) _)), (proj2 (Z.ltb_ge (pri_max r) _)) in * by lia.
  set (s := new_sequence r t1 t0 [] (u16 (0 + 1))) in *.
  assert (Hts : tracks t0 (t1 - t0) t1 2 s).
  { unfold s, new_sequence. cbv zeta. rewrite (u32_id (t1 - t0)) by lia. fold (burst_dur r (t1 - t0)). rewrite (u32_id (burst_dur _ _)) by lia.
    cbn [extend_back]. unfold tracks. cbn. rewrite u64_id by lia. by split_and!. }
  rewrite (proj2 (Z.leb_gt _ _)) in * by (destruct Hts as (_ & -> & _); lia).
  assert (Hg : exists m1 e, pool_get_pseq_elem kmalloc m = (m1, Some e)).
  { unfold pool_get_pseq_elem. destruct (pseq_pool m); [destruct (Hk (allocs m)) as [e ->]; eauto | eauto]. }
  destruct Hg as (m1 & e & Hg). rewrite Hg in *. cbn [create_loop negb] in *. set (pde2 := pde1 <| sequences := _ |>) in *.
  destruct Hcr as [Hi2 _].
  pose proof (conclude Hk [t1; t0] t0 (t1 - t0) t1 2 pde2 m1 Hi2 Hs ltac:(set_solver) ltac:(repeat constructor; lia)
    ltac:(unfold pde2, pde1; cbn; rewrite Hpu; repeat constructor; lia) ltac:(lia) ltac:(by left)) as Hcc.
  destruct (pde_short_check_detection pde2); [done |]. by destruct (pulse_queue_enqueue kmalloc pde2 t1 m1) as [[pde3 m3] ok].
Qed.

(** The gaps between successive pulses are the interval, within the
    tolerance. *)
Fixpoint regular (pri lt : Z) (l : list Z) : Prop :=
  match l with [] => True | ts :: l => near (ts - lt) 1 pri (max_pri_tolerance r) /\ regular pri ts l end.

Lemma tracking_reports (Hk : forall n, is_Some (kmalloc n)) t0 pri : pri_min r <= pri <= pri_max r -> 0 <= t0 < 2 ^ 62 -> forall l fed lt n pde m,
  tracking fed t0 pri lt n pde -> regular pri lt l -> Forall (fun ts => ts <= t0 + burst_dur r pri) l -> 2 <= n ->
  needed r pri <= n + Z.of_nat (length l) -> is_Some (feed kmalloc pde m l).
Proof.
  intros Hp Ht0. induction l as [|ts l IH]; intros fed lt n pde m Ht Hg Hd Hn Hc.
  - destruct Ht. cbn in Hc. lia.
  - destruct Hg as [Hg1 Hg]. apply Forall_cons in Hd as [Hd1 Hd]. pose proof (burst_dur_bound r Hr pri Hp). cbn [feed length] in *.
    pose proof (tracking_step Hk fed t0 pri lt n pde ts m Ht Hp Hg1 Hd1 ltac:(lia) ltac:(lia) Hn) as Hs.
    destruct (pde_short_add_pulse kmalloc pde ts m) as [[pde1 m1] [ps|]]; [by eexists |].
    apply (IH (ts :: fed) ts (n + 1)); first [by apply Hs | done | lia].
Qed.

End Short.

(** A clean burst of a type is reported by a fresh detector. *)
Theorem short_detects_burst kmalloc r freq m t0 t1 l : spec_ok r = true -> (forall n, is_Some (kmalloc n)) -> 0 <= t0 < 2 ^ 62 ->
  pri_min r <= t1 - t0 <= pri_max r -> regular r (t1 - t0) t1 l -> Forall (fun ts => ts <= t0 + burst_dur r (t1 - t0)) l ->
  needed r (t1 - t0) <= 2 + Z.of_nat (length l) -> is_Some (feed kmalloc (fresh r freq) m (t0 :: t1 :: l)).
Proof.
  intros Hr%spec_ok_wf Hk Ht0 Hp Hg Hd Hc. pose proof (burst_dur_bound r Hr _ Hp). cbn [feed].
  pose proof (first_pulse kmalloc r Hr Hk freq m t0 ltac:(lia)) as H1.
  destruct (pde_short_add_pulse kmalloc (fresh r freq) t0 m) as [[pde1 m1] o1]. destruct H1 as (-> & Hi & Hpu & Hl & Hs).
  pose proof (second_pulse kmalloc r Hr Hk pde1 m1 t0 t1 ltac:(lia) ltac:(lia) Hp Hi Hpu Hl Hs) as H2.
  destruct (pde_short_add_pulse kmalloc pde1 t1 m1) as [[pde2 m2] [ps|]]; [by eexists |].
  eapply tracking_reports; try done. by apply H2.
Qed.

(** C17. Whatever pulses a short, weather or interleaved detector gets, in the order of
    their times and within the 32 bits of the microsecond counter, also when allocations
    fail, a reported sequence stands for received pulses that lie at multiples of its
    interval within the tolerance, are at least as many as the threshold of the type and
    no further apart than a burst lasts, with an interval the type allows. *)
Theorem short_detection_sound kmalloc r freq m l ps : spec_ok r = true -> timely l -> feed kmalloc (fresh r freq) m l = Some ps ->
  exists b, b ⊆ l /\ matched (max_pri_tolerance r) (sq_pri ps) b /\ needed r (sq_pri ps) <= Z.of_nat (length b) /\
    pri_min r <= sq_pri ps <= pri_max r /\ (forall x y, x ∈ b -> y ∈ b -> y - x <= burst_dur r (sq_pri ps)).
Proof.
  intros Hr%spec_ok_wf Hl Hf. destruct (feed_ok kmalloc r Hr l [] 0 (fresh r freq) m ps) as [He Hc]; try done.
  - by apply fresh_dinv.
  - destruct Hl as [_ Hl]. eapply Forall_impl; [exact Hl |]. cbn beta. intros x Hx. split; [lia | by constructor].
  - rewrite app_nil_r in He. destruct He as [(b & H1 & H2 & H3 & H4 & H5) Hp Hd _ Hth]. exists b. apply andb_true_iff in Hc as [Hc _].
    apply Z.leb_le in Hc. rewrite Hth in Hc. split_and!; [| done | lia.. |].
    + intros x Hx. apply list_elem_of_In, in_rev, list_elem_of_In. by apply H5.
    + intros x y Hx Hy. pose proof (matched_desc _ _ _ H1) as Hb. pose proof (desc_range b _ x _ Hb H3 H4 Hx).
      pose proof (desc_range b _ y _ Hb H3 H4 Hy). lia.
Qed.

Definition sound_spec : radar_detector_specs := FCC_PATTERN 0 0 8 1428 1428 1 18 RADAR_WAVEFORM_SHORT.
Definition sound_pulses : list Z := [1000; 2428; 3860; 5284; 6712; 8140; 9570; 10996; 12424].
Definition sound_kmalloc (n : nat) : option pri_sequence := if (n =? 3)%nat then None else Some (Pseq 7 7 7 7 7 7 7 7).

(** The third allocation fails, and the burst is reported late but rightly. *)
Lemma short_detection_sound_witness : exists ps b, feed sound_kmalloc (fresh sound_spec 5500) (Pools 0 [] 0 0) (sound_pulses ++ [13852; 15280]) = Some ps /\
  matched 16 (sq_pri ps) b /\ 9 <= Z.of_nat (length b).
Proof.
  assert (H : is_Some (feed sound_kmalloc (fresh sound_spec 5500) (Pools 0 [] 0 0) (sound_pulses ++ [13852; 15280]))) by (vm_compute; by eexists).
  destruct H as [ps H]. exists ps.
  destruct (short_detection_sound sound_kmalloc sound_spec 5500 (Pools 0 [] 0 0) (sound_pulses ++ [13852; 15280]) ps) as (b & _ & Hm & Hn & _).
  - by vm_compute.
  - split; [repeat constructor; lia |]. repeat constructor; lia.
  - exact H.
  - exists b. split_and!; [exact H | exact Hm |]. exact Hn.
Defined.

End RadarDet.
