(* ===== verification/RadarDev.v ===== *)
(** * The pattern detectors of a chain (rwnx_radar.c)

    A [dfs_pattern_detector] keeps, for every radar type of its region, the
    detectors made so far, newest first.  A pulse updates the time, then goes
    to the detector of its frequency for every type whose widths fit, until
    one reports.  The tables are well formed, and a detector of an unset
    region reports every pulse. *)

From stdpp Require Import prelude.
From S2P Require Import Prelude Radar.
Open Scope Z_scope.

Module RadarDev.
Import Radar.

(** ** DFS pattern detector *)

Definition RWNX_RADAR_DETECT_DISABLE : Z := 0.
Definition RWNX_RADAR_DETECT_ENABLE : Z := 1.
Definition RWNX_RADAR_DETECT_REPORT : Z := 2.

Inductive rwnx_radar_chain := RWNX_RADAR_RIU | RWNX_RADAR_FCU.
#[global] Instance chain_eq_dec : EqDecision rwnx_radar_chain.
Proof. solve_decision. Defined.

(** [detectors]: a list per radar type. *)
Record dfs_pattern_detector := Dpd {
  enabled : Z; region : nl80211_dfs_regions; last_pulse_ts : Z; prev_jiffies : Z;
  radar_spec : list radar_detector_specs; detectors : list (list pri_detector) }.
#[global] Instance eta_dpd : Settable dfs_pattern_detector := fun r =>
  Dpd (enabled r) (region r) (last_pulse_ts r) (prev_jiffies r) (radar_spec r) (detectors r).

Definition num_radar_types (dpd : dfs_pattern_detector) : nat := length (radar_spec dpd).

Section Dfs.
Context (kmalloc : nat -> option pri_sequence) (jiffies_to_usecs : Z -> Z).

Definition pri_detector_init (r : radar_detector_specs) (freq : Z) (m : pools) : pools * option pri_detector :=
  let m1 := m <| allocs ::= S |> in
  match kmalloc (allocs m) with
  | None => (m1, None)
  | Some _ => (pool_register_ref m1, Some (ops_init (Pde r 0 [] [] 0 0 0 freq)))
  end.

(** The index of the detector the loop returns at, or of the last idle one of
    the same frequency. *)
Fixpoint get_scan (freq : Z) (i : nat) (cur : option nat) (l : list pri_detector) : option nat :=
  match l with
  | [] => cur
  | pde :: l =>
      if pd_freq pde =? freq then
        if negb (pd_count pde =? 0) then Some i else get_scan freq (S i) (Some i) l
      else if (pd_freq pde - 2 =? freq) && negb (pd_count pde =? 0) then Some i
      else if (pd_freq pde + 2 =? freq) && negb (pd_count pde =? 0) then Some i
      else get_scan freq (S i) cur l
  end.

(** The detectors of the type, with the new one in front, and the index;
    [None]: out of memory. *)
Definition pri_detector_get (freq : Z) (r : radar_detector_specs) (l : list pri_detector) (m : pools)
  : pools * list pri_detector * option nat :=
  match get_scan freq 0 None l with
  | Some k => (m, l, Some k)
  | None =>
      let '(m, d) := pri_detector_init r freq m in
      match d with None => (m, l, None) | Some d => (m, d :: l, Some O) end
  end.

(** Each detector of a list, the pools threaded through. *)
Definition reset_step (f : pri_detector -> bool) (ts : Z) (a : list pri_detector * pools) (pde : pri_detector) : list pri_detector * pools :=
  if f pde then let '(pde, m) := pri_detector_reset pde ts a.2 in (a.1 ++ [pde], m) else (a.1 ++ [pde], a.2).
Definition reset_list (f : pri_detector -> bool) (ts : Z) (l : list pri_detector) (m : pools) : list pri_detector * pools :=
  foldl (reset_step f ts) ([], m) l.
Definition reset_types (f : pri_detector -> bool) (ts : Z) (n : nat) (ls : list (list pri_detector)) (m : pools)
  : list (list pri_detector) * pools :=
  let '(a, m) := foldl (fun a l => let '(l, m) := reset_list f ts l a.2 in (a.1 ++ [l], m)) ([], m) (take n ls) in
  (a ++ drop n ls, m).

Definition dfs_pattern_detector_reset (now : Z) (dpd : dfs_pattern_detector) (m : pools) : dfs_pattern_detector * pools :=
  let '(ls, m) := reset_types (fun _ => true) (last_pulse_ts dpd) (num_radar_types dpd) (detectors dpd) m in
  (dpd <| detectors := ls |> <| last_pulse_ts := 0 |> <| prev_jiffies := now |>, m).

Definition dfs_pattern_detector_pri_overflow (dpd : dfs_pattern_detector) (m : pools) : dfs_pattern_detector * pools :=
  let '(ls, m) := reset_types reset_on_pri_overflow (last_pulse_ts dpd) (num_radar_types dpd) (detectors dpd) m in
  (dpd <| detectors := ls |>, m).

(** The time stamp of the pulse. *)
Definition pulse_time (pri now : Z) (dpd : dfs_pattern_detector) (m : pools) : dfs_pattern_detector * pools :=
  if pri =? 0 then
    let delta_jiffie := if now <? prev_jiffies dpd then u32 (0xffffffff - prev_jiffies dpd + now) else now - prev_jiffies dpd in
    dfs_pattern_detector_pri_overflow
      (dpd <| last_pulse_ts ::= fun t => u64 (t + jiffies_to_usecs delta_jiffie) |> <| prev_jiffies := now |>) m
  else (dpd <| last_pulse_ts ::= fun t => u64 (t + pri) |>, m).

(** The types [i], [i + 1], ...; a detector that cannot be allocated is used
    all the same. *)
Fixpoint pulse_loop (now freq len : Z) (specs : list radar_detector_specs) (i : nat) (dpd : dfs_pattern_detector) (m : pools)
  : res (dfs_pattern_detector * pools * bool) :=
  match specs with
  | [] => Ok (dpd, m, false)
  | r :: specs =>
      if (len <? width_min r) || (width_max r <? len) then pulse_loop now freq len specs (S i) dpd m
      else
        match detectors dpd !! i with
        | None => Fault
        | Some l =>
            let '(m, l, k) := pri_detector_get freq r l m in
            match k ≫= fun k => (fun d => (k, d)) <$> l !! k with
            | None => Fault
            | Some (k, pde) =>
                let '(pde, m, ps) := ops_add_pulse kmalloc pde (last_pulse_ts dpd) m in
                let dpd := dpd <| detectors ::= fun ls => <[i := <[k := pde]> l]> ls |> in
                match ps with
                | Some _ => let '(dpd, m) := dfs_pattern_detector_reset now dpd m in Ok (dpd, m, true)
                | None => pulse_loop now freq len specs (S i) dpd m
                end
            end
        end
  end.

Definition dfs_pattern_detector_add_pulse (freq pri len now : Z) (dpd : dfs_pattern_detector) (m : pools)
  : res (dfs_pattern_detector * pools * bool) :=
  if decide (region dpd = NL80211_DFS_UNSET) then Ok (dpd, m, true)
  else
    let '(dpd, m) := pulse_time pri now dpd m in
    pulse_loop now freq len (radar_spec dpd) 0 dpd m.

Definition get_dfs_domain_radar_types (rg : nl80211_dfs_regions) : option radar_types :=
  head (filter (fun rt => rt_region rt = rg) dfs_domains).

Definition get_dfs_max_radar_types : nat := foldl (fun a rt => Nat.max (length (spec_riu rt)) a) O dfs_domains.

Definition pri_detector_exit (pde : pri_detector) (m : pools) : pools :=
  pool_deregister_ref (pri_detector_reset pde 0 m).2.

Definition exit_types (n : nat) (ls : list (list pri_detector)) (m : pools) : list (list pri_detector) * pools :=
  (((fun _ => []) <$> take n ls) ++ drop n ls, foldl (fun m pde => pri_detector_exit pde m) m (concat (take n ls))).

Definition dfs_pattern_detector_set_domain (rg : nl80211_dfs_regions) (chain : rwnx_radar_chain) (dpd : dfs_pattern_detector) (m : pools)
  : dfs_pattern_detector * pools * bool :=
  if decide (region dpd = rg) then (dpd, m, true)
  else
    let dpd := dpd <| region := NL80211_DFS_UNSET |> in
    match get_dfs_domain_radar_types rg with
    | None => (dpd, m, false)
    | Some rt =>
        let '(ls, m) := exit_types (num_radar_types dpd) (detectors dpd) m in
        (dpd <| detectors := ls |>
             <| radar_spec := match chain with RWNX_RADAR_RIU => spec_riu rt | RWNX_RADAR_FCU => spec_fcu rt end |>
             <| region := rg |>, m, true)
    end.

Definition dfs_pattern_detector_init (rg : nl80211_dfs_regions) (chain : rwnx_radar_chain) (now : Z) (m : pools)
  : pools * option dfs_pattern_detector :=
  let m1 := m <| allocs ::= S |> in
  match kmalloc (allocs m) with
  | None => (m1, None)
  | Some _ =>
      let dpd := Dpd RWNX_RADAR_DETECT_DISABLE NL80211_DFS_UNSET 0 now [] (replicate get_dfs_max_radar_types []) in
      let '(dpd, m1, ok) := dfs_pattern_detector_set_domain rg chain dpd m1 in
      (m1, if (ok : bool) then Some dpd else None)
  end.

Definition dfs_pattern_detector_exit (dpd : dfs_pattern_detector) (m : pools) : pools :=
  (exit_types (num_radar_types dpd) (detectors dpd) m).2.

End Dfs.

End RadarDev.
