(* ===== verification/RadarDfs.v ===== *)
(** * The detectors of a region

    The tables are well formed, and the detectors of a region report a burst
    of one of its types at the latest at the pulse that makes it long enough,
    whatever the detectors of the other types make of the pulses. *)

From stdpp Require Import prelude.
From S2P Require Import Prelude Radar RadarDev RadarSeq RadarDet.
Open Scope Z_scope.

Module RadarDfs.
Import Radar RadarDev RadarSeq RadarDet.

(** ** Tables *)

(** A type is well formed, and what the driver computes from it fits its
    types: the window of a detector, and the duration of a burst. *)
Definition type_ok (r : radar_detector_specs) : bool :=
  spec_ok r && (pri_max r * ppb r * num_pri r <? 2 ^ 32) && (needed r (pri_min r) <=? ppb r) && (2 <=? needed r (pri_max r)) &&
  (ppb r * 2 <? 2 ^ 8).

(** The types of a table carry their positions as identifiers. *)
Definition table_ok (t : list radar_detector_specs) : bool :=
  forallb type_ok t && bool_decide (type_id <$> t = seqZ 0 (Z.of_nat (length t))) && (length t <=? get_dfs_max_radar_types)%nat.

Definition domain_ok (d : radar_types) : bool :=
  table_ok (spec_riu d) && table_ok (spec_fcu d) && (length (spec_riu d) =? length (spec_fcu d))%nat &&
  bool_decide (rt_region d <> NL80211_DFS_UNSET).

Lemma domains_ok : forallb domain_ok dfs_domains = true.
Proof. by vm_compute. Qed.

(** Every entry of every table of radar types is well formed: tolerance, intervals,
    widths, thresholds and counts are in order and fit the fields they are stored in,
    windows and durations do not wrap, identifiers are positions, the tables of the two
    chains have the same length and fit the array of detectors; and exactly the unset
    region has no table. *)
Theorem radar_tables_wf : forallb domain_ok dfs_domains = true /\
  forall rg, get_dfs_domain_radar_types rg = None <-> rg = NL80211_DFS_UNSET.
Proof. split; [exact domains_ok |]. by intros []. Qed.

(** ** A burst through the detectors of a region *)

Section Dfs.
Context (kmalloc : nat -> option pri_sequence) (jiffies_to_usecs : Z -> Z).

(** Pulses of one frequency and width, each with its distance to the one
    before, until one is reported on. *)
Fixpoint dfs_feed (freq len now : Z) (dpd : dfs_pattern_detector) (m : pools) (l : list Z) : res bool :=
  match l with
  | [] => Ok false
  | pri :: l =>
      '(dpd, m, found) ← dfs_pattern_detector_add_pulse kmalloc jiffies_to_usecs freq pri len now dpd m;
      if found : bool then Ok true else dfs_feed freq len now dpd m l
  end.

Context (Hk : forall n, is_Some (kmalloc n)).

(** What stays of a detector array at a pulse: the rest of the state, and the
    lists of the types before the first one looked at. *)
Definition same_dpd (i : nat) (d d' : dfs_pattern_detector) : Prop :=
  last_pulse_ts d' = last_pulse_ts d /\ radar_spec d' = radar_spec d /\ region d' = region d /\
  length (detectors d') = length (detectors d) /\ forall j, (j < i)%nat -> detectors d' !! j = detectors d !! j.

Lemma same_dpd_trans i d1 d2 d3 : same_dpd i d1 d2 -> same_dpd (S i) d2 d3 -> same_dpd i d1 d3.
Proof.
  intros (A1 & A2 & A3 & A4 & A5) (B1 & B2 & B3 & B4 & B5). split_and!; try congruence.
  intros j Hj. rewrite B5 by lia. by apply A5.
Qed.

Lemma get_some freq r l m : exists m' l' k d, pri_detector_get kmalloc freq r l m = (m', l', Some k) /\ l' !! k = Some d.
Proof.
  unfold pri_detector_get. destruct (get_scan freq 0 None l) as [k|] eqn:E.
  - assert (Hs : forall l i cur, (forall c, cur = Some c -> (c < i)%nat) -> forall k, get_scan freq i cur l = Some k -> (k < i + length l)%nat).
    { clear. induction l as [|d l IH]; intros i cur Hc k; cbn [get_scan length].
      - intros ->. specialize (Hc k eq_refl). lia.
      - assert (Hr : forall cur', (forall c, cur' = Some c -> (c < S i)%nat) -> get_scan freq (S i) cur' l = Some k -> (k < i + S (length l))%nat).
        { intros cur' Hc' H. specialize (IH (S i) cur' Hc' k H). lia. }
        assert (H0 : forall k', Some i = Some k' -> (k' < i + S (length l))%nat) by (intros k' [= <-]; lia).
        destruct (pd_freq d =? freq).
        + destruct (negb (pd_count d =? 0)); [apply H0 |]. apply Hr. intros c [= <-]. lia.
        + destruct ((pd_freq d - 2 =? freq) && _); [apply H0 |]. destruct ((pd_freq d + 2 =? freq) && _); [apply H0 |].
          apply Hr. intros c Hcc. specialize (Hc c Hcc). lia. }
    specialize (Hs l 0%nat None ltac:(done) k E). destruct (lookup_lt_is_Some_2 l k ltac:(lia)) as [d Hd]. by eexists _, _, _, _.
  - unfold pri_detector_init. destruct (Hk (allocs m)) as [e ->]. by eexists _, _, O, _.
Qed.

(** The detector of type [j] got the pulse and did not report. *)
Definition visited (freq : Z) (d d' : dfs_pattern_detector) (j : nat) (r : radar_detector_specs) : Prop :=
  exists l m1 m2 l2 k2 pde pde2 m3, detectors d !! j = Some l /\ pri_detector_get kmalloc freq r l m1 = (m2, l2, Some k2) /\
    l2 !! k2 = Some pde /\ ops_add_pulse kmalloc pde (last_pulse_ts d) m2 = (pde2, m3, None) /\ detectors d' !! j = Some (<[k2 := pde2]> l2).

(** One pulse at the types from [i] on: no fault; and when nothing is
    reported, every type that fits has given the pulse to its detector. *)
Lemma pulse_loop_ok now freq len specs : forall i dpd m, (i + length specs <= length (detectors dpd))%nat ->
  exists dpd' m' b, pulse_loop kmalloc now freq len specs i dpd m = Ok (dpd', m', b) /\
    (b = false -> same_dpd i dpd dpd' /\
      forall k r, specs !! k = Some r -> width_min r <= len <= width_max r -> visited freq dpd dpd' (i + k) r).
Proof.
  induction specs as [|r0 specs IH]; intros i dpd m Hl; cbn [pulse_loop].
  { eexists _, _, _. split; [done |]. intros _. by split; [split_and! |]. }
  cbn [length] in Hl. destruct ((len <? width_min r0) || (width_max r0 <? len)) eqn:Ew.
  - destruct (IH (S i) dpd m ltac:(lia)) as (dpd' & m' & b & E & Hb). exists dpd', m', b. split; [done |]. intros Hbf.
    destruct (Hb Hbf) as [Hs Hd]. split; [eapply same_dpd_trans; [| exact Hs]; by split_and! |].
    intros [|k] r Hr Hw; cbn in Hr; [injection Hr as <-; apply orb_true_iff in Ew; rewrite !Z.ltb_lt in Ew; lia |].
    rewrite Nat.add_succ_r. by apply (Hd k r).
  - destruct (lookup_lt_is_Some_2 (detectors dpd) i ltac:(lia)) as [l El]. rewrite El.
    destruct (get_some freq r0 l m) as (m2 & l2 & k2 & pde & Eg & Ek). rewrite Eg. cbn. rewrite Ek. cbn.
    destruct (ops_add_pulse kmalloc pde (last_pulse_ts dpd) m2) as [[pde2 m3] [ps|]] eqn:Ea.
    { destruct (dfs_pattern_detector_reset now _ m3) as [dpd2 m4]. by eexists _, _, true. }
    set (dpd1 := dpd <| detectors ::= fun ls => <[i := <[k2 := pde2]> l2]> ls |>).
    destruct (IH (S i) dpd1 m3) as (dpd' & m' & b & E & Hb); [cbn; rewrite length_insert; lia |]. exists dpd', m', b. split; [done |]. intros Hbf.
    destruct (Hb Hbf) as [Hs Hd]. split.
    + eapply same_dpd_trans; [| exact Hs]. split_and!; try done; [cbn; by rewrite length_insert |]. intros j Hj. cbn. by rewrite list_lookup_insert_ne by lia.
    + intros [|k] r Hr Hw; cbn in Hr.
      * injection Hr as <-. rewrite Nat.add_0_r. exists l, m, m2, l2, k2, pde, pde2, m3. split_and!; try done.
        destruct Hs as (_ & _ & _ & _ & Hs). rewrite Hs by lia. cbn. apply list_lookup_insert_eq. lia.
      * destruct (Hd k r Hr Hw) as (l' & m1' & m2' & l2' & k2' & pde' & pde2' & m3' & D1 & D2). cbn in D1. rewrite list_lookup_insert_ne in D1 by lia.
        rewrite Nat.add_succ_r. by exists l', m1', m2', l2', k2', pde', pde2', m3'.
Qed.

(** A pulse that carries its distance to the one before. *)
Lemma add_pulse_ok freq pri len now dpd m : region dpd <> NL80211_DFS_UNSET -> pri <> 0 ->
  (length (radar_spec dpd) <= length (detectors dpd))%nat ->
  let d0 := dpd <| last_pulse_ts := u64 (last_pulse_ts dpd + pri) |> in
  exists dpd' m' b, dfs_pattern_detector_add_pulse kmalloc jiffies_to_usecs freq pri len now dpd m = Ok (dpd', m', b) /\
    (b = false -> same_dpd 0 d0 dpd' /\
      forall k r, radar_spec dpd !! k = Some r -> width_min r <= len <= width_max r -> visited freq d0 dpd' k r).
Proof.
  intros Hr Hp Hl. unfold dfs_pattern_detector_add_pulse, pulse_time. destruct (decide _); [done |].
  rewrite (proj2 (Z.eqb_neq _ _)) by done. apply (pulse_loop_ok now freq len (radar_spec dpd) 0 _ m). done.
Qed.

(** Nothing of a detector's operations changes its frequency. *)
Lemma dequeue_freq pde m : pd_freq (pulse_queue_dequeue pde m).1 = pd_freq pde.
Proof. unfold pulse_queue_dequeue. by destruct (pulse_queue_get_tail pde). Qed.

Lemma check_loop_freq mv fuel : forall pde m, pd_freq (check_window_loop fuel mv pde m).1 = pd_freq pde.
Proof.
  induction fuel as [|fuel IH]; intros pde m; cbn [check_window_loop]; [by destruct (pulse_queue_get_tail pde) |].
  destruct (pulse_queue_get_tail pde) as [ts|]; [| done]. destruct (mv <=? ts); [done |].
  pose proof (dequeue_freq pde m) as Hd. destruct (pulse_queue_dequeue pde m) as [pde1 m1]. by rewrite IH.
Qed.

Lemma enqueue_freq pde ts m : pd_freq (pulse_queue_enqueue kmalloc pde ts m).1.1 = pd_freq pde.
Proof.
  unfold pulse_queue_enqueue. destruct (get_pulse_elem kmalloc m) as [m1 [|]]; cbn [negb]; [| done].
  set (pde1 := pde <| pulses ::= cons ts |> <| pd_count ::= fun n => u32 (n + 1) |> <| last_ts := ts |>).
  assert (Hc : pd_freq (pulse_queue_check_window pde1 m1).1 = pd_freq pde).
  { unfold pulse_queue_check_window. destruct (pd_count pde1 <? 2); [done |]. destruct (last_ts pde1 <=? window_size pde1); [done |]. by rewrite check_loop_freq. }
  destruct (pulse_queue_check_window pde1 m1) as [pde2 m2]. cbn in Hc. destruct (max_count pde2 <=? pd_count pde2); [| done].
  pose proof (dequeue_freq pde2 m2) as Hd. destruct (pulse_queue_dequeue pde2 m2). cbn in *. congruence.
Qed.

Lemma short_add_pulse_freq pde ts m : pd_freq (pde_short_add_pulse kmalloc pde ts m).1.1 = pd_freq pde.
Proof.
  unfold pde_short_add_pulse. destruct (pd_count pde =? 0).
  { pose proof (enqueue_freq pde ts m). by destruct (pulse_queue_enqueue kmalloc pde ts m) as [[pde1 m1] b]. }
  destruct (u64 _ <? _); [done |]. unfold pde_short_add_to_existing_seqs, pde_short_create_sequences.
  destruct (add_to_existing _ _ _ _ _) as [[sqs1 m1] mc]. destruct (create_loop _ _ _ _ _ _ _ _) as [[sqs2 m2] [|]]; cbn [negb].
  - match goal with |- context [pde_short_check_detection ?d] => set (pde2 := d) end. destruct (pde_short_check_detection pde2); [done |].
    pose proof (enqueue_freq pde2 ts m2). by destruct (pulse_queue_enqueue kmalloc pde2 ts m2) as [[pde3 m3] b].
  - done.
Qed.

(** *** The detector of one type, from its first pulse *)

Section OneType.
Context (r : radar_detector_specs) (i : nat) (freq len now : Z).
Context (Hr : spec_wf r) (Hlong : wtype r <> RADAR_WAVEFORM_LONG) (Hlen : width_min r <= len <= width_max r).

Lemma short_ops pde ts m : rs pde = r -> ops_add_pulse kmalloc pde ts m = pde_short_add_pulse kmalloc pde ts m.
Proof. intros E. unfold ops_add_pulse, is_long. rewrite E. by rewrite bool_decide_eq_false_2. Qed.

(** A region whose type [i] is [r], in use. *)
Record serves (dpd : dfs_pattern_detector) : Prop := {
  sv_region : region dpd <> NL80211_DFS_UNSET;
  sv_type : radar_spec dpd !! i = Some r;
  sv_room : (length (radar_spec dpd) <= length (detectors dpd))%nat }.

Lemma same_serves d d' : same_dpd 0 d d' -> serves d -> serves d'.
Proof. intros (_ & A2 & A3 & A4 & _) [B1 B2 B3]. split; congruence. Qed.

(** The type follows the burst with one detector. *)
Definition follows (fed : list Z) (t0 pri lt n : Z) (dpd : dfs_pattern_detector) : Prop :=
  serves dpd /\ last_pulse_ts dpd = lt /\
  exists pde, detectors dpd !! i = Some [pde] /\ pd_freq pde = freq /\ tracking r fed t0 pri lt n pde.

Lemma get_same pde m : pd_freq pde = freq -> pri_detector_get kmalloc freq r [pde] m = (m, [pde], Some 0%nat).
Proof. intros E. unfold pri_detector_get. cbn [get_scan]. rewrite E, Z.eqb_refl. by destruct (negb _). Qed.

Lemma add_pulse_type dpd m g pde0 ts : serves dpd -> g <> 0 -> ts = u64 (last_pulse_ts dpd + g) ->
  (detectors dpd !! i = Some [] /\ pde0 = fresh r freq) \/ (detectors dpd !! i = Some [pde0] /\ pd_freq pde0 = freq /\ rs pde0 = r) ->
  exists dpd' m' b, dfs_pattern_detector_add_pulse kmalloc jiffies_to_usecs freq g len now dpd m = Ok (dpd', m', b) /\
    (b = false -> serves dpd' /\ last_pulse_ts dpd' = ts /\ exists pde m1 m2, pde_short_add_pulse kmalloc pde0 ts m1 = (pde, m2, None) /\
      detectors dpd' !! i = Some [pde] /\ pd_freq pde = freq).
Proof.
  intros Hs Hg Hts H0. destruct (add_pulse_ok freq g len now dpd m (sv_region _ Hs) Hg (sv_room _ Hs)) as (dpd' & m' & b & E & Hb).
  exists dpd', m', b. split; [done |]. intros Hbf. destruct (Hb Hbf) as [Hsame Hv].
  split; [eapply same_serves; [exact Hsame |]; by destruct Hs |].
  split; [destruct Hsame as [-> _]; by rewrite Hts |].
  destruct (Hv i r (sv_type _ Hs) Hlen) as (l & m1 & m2 & l2 & k2 & pde & pde2 & m3 & D1 & D2 & D3 & D4 & D5). cbn in D1, D4. rewrite <- Hts in D4.
  assert (Hg1 : exists m1', l2 = [pde0] /\ k2 = 0%nat /\ m2 = m1').
  { destruct H0 as [[E0 ->] | (E0 & E1 & E2)]; rewrite E0 in D1; injection D1 as <-.
    - unfold pri_detector_get in D2. cbn [get_scan] in D2. unfold pri_detector_init in D2. destruct (Hk (allocs m1)) as [e He]. rewrite He in D2.
      injection D2 as <- <- <-. unfold ops_init, is_long. cbn [rs]. rewrite bool_decide_eq_false_2 by done. by eexists.
    - rewrite (get_same _ m1 E1) in D2. injection D2 as <- <- <-. by eexists. }
  destruct Hg1 as (? & -> & -> & ->). injection D3 as <-.
  assert (Hrs : rs pde0 = r /\ pd_freq pde0 = freq) by (destruct H0 as [[_ ->] | (_ & E1 & E2)]; done). destruct Hrs as [Hrs Hfr].
  rewrite short_ops in D4 by done. exists pde2, x, m3. split_and!; [done | done |].
  pose proof (short_add_pulse_freq pde0 ts x) as Hf. rewrite D4 in Hf. by rewrite <- Hfr.
Qed.

Lemma follows_step fed t0 pri lt n dpd m g : follows fed t0 pri lt n dpd -> pri_min r <= pri <= pri_max r -> g <> 0 ->
  near g 1 pri (max_pri_tolerance r) -> lt + g <= t0 + burst_dur r pri -> 0 <= t0 < 2 ^ 62 -> 2 <= n -> 0 <= lt + g ->
  exists dpd' m' b, dfs_pattern_detector_add_pulse kmalloc jiffies_to_usecs freq g len now dpd m = Ok (dpd', m', b) /\
    (b = false -> follows ((lt + g) :: fed) t0 pri (lt + g) (n + 1) dpd').
Proof.
  intros (Hs & Hlt & pde & Hd & Hf & Htr) Hp Hg Hn He Ht0 H2 Hpos. pose proof (burst_dur_bound r Hr pri Hp).
  destruct (add_pulse_type dpd m g pde (lt + g) Hs Hg) as (dpd' & m' & b & E & Hb).
  - rewrite Hlt, u64_id; lia.
  - right. split_and!; [done | done |]. apply (d_rs _ _ _ (tr_inv _ _ _ _ _ _ _ Htr)).
  - exists dpd', m', b. split; [done |]. intros Hbf. destruct (Hb Hbf) as (Hs' & Hlt' & pde' & m1 & m2 & Ha & Hd' & Hf').
    split_and!; [done | done |]. exists pde'. split_and!; [done | done |].
    pose proof (tracking_step kmalloc r Hr Hk fed t0 pri lt n pde (lt + g) m1 Htr Hp
      ltac:(unfold near in *; lia) He ltac:(lia) ltac:(lia) H2) as Hst. rewrite Ha in Hst. by apply Hst.
Qed.

Lemma follows_reports t0 pri : pri_min r <= pri <= pri_max r -> 0 <= t0 < 2 ^ 62 -> forall gs fed lt n dpd m,
  follows fed t0 pri lt n dpd -> Forall (fun g => near g 1 pri (max_pri_tolerance r)) gs -> 0 <= lt -> lt + foldr Z.add 0 gs <= t0 + burst_dur r pri ->
  2 <= n -> needed r pri <= n + Z.of_nat (length gs) -> dfs_feed freq len now dpd m gs = Ok true.
Proof.
  intros Hp Ht0. induction gs as [|g gs IH]; intros fed lt n dpd m Hfo Hg Hlt He Hn Hc.
  - destruct Hfo as (_ & _ & pde & _ & _ & []). cbn in Hc. lia.
  - apply Forall_cons in Hg as [Hg1 Hg]. cbn [foldr length dfs_feed] in *.
    assert (Hsum : 0 <= foldr Z.add 0 gs).
    { clear -Hg Hp Hr. induction Hg as [|g gs Hg _ IH]; [done |]. cbn. unfold near in Hg. destruct Hr. lia. }
    assert (Hgp : 0 < g) by (unfold near in Hg1; destruct Hr; lia).
    destruct (follows_step fed t0 pri lt n dpd m g Hfo Hp ltac:(lia) Hg1 ltac:(lia) Ht0 Hn ltac:(lia)) as (dpd' & m' & b & E & Hb).
    rewrite E. cbn. destruct b; [done |]. apply (IH ((lt + g) :: fed) (lt + g) (n + 1) dpd' m'); first [by apply Hb | done | lia].
Qed.

Lemma first_two dpd m g0 pri : serves dpd -> detectors dpd !! i = Some [] -> last_pulse_ts dpd = 0 -> 0 < g0 < 2 ^ 16 ->
  pri_min r <= pri <= pri_max r -> exists b, forall gs,
  (b = true -> dfs_feed freq len now dpd m (g0 :: pri :: gs) = Ok true) /\
  (b = false -> exists dpd' m', follows [g0 + pri; g0] g0 pri (g0 + pri) 2 dpd' /\ dfs_feed freq len now dpd m (g0 :: pri :: gs) = dfs_feed freq len now dpd' m' gs).
Proof.
  intros Hs Hd Hl Hg Hp. pose proof Hr as [? ? ? ? ? ?].
  destruct (add_pulse_type dpd m g0 (fresh r freq) g0 Hs ltac:(lia)) as (d1 & m1 & b1 & E1 & H1); [rewrite Hl, u64_id; lia | by left |].
  cbn [dfs_feed]. rewrite E1. cbn. destruct b1; [by exists true |].
  destruct (H1 eq_refl) as (Hs1 & Hl1 & pde1 & ma & mb & Ha & Hd1 & Hf1).
  pose proof (first_pulse kmalloc r Hr Hk freq ma g0 ltac:(lia)) as Hfp. rewrite Ha in Hfp. destruct Hfp as (_ & Hi & Hpu & Hla & Hsq).
  destruct (add_pulse_type d1 m1 pri pde1 (g0 + pri) Hs1 ltac:(lia)) as (d2 & m2 & b2 & E2 & H2).
  { rewrite Hl1, u64_id; lia. }
  { right. split_and!; [done | done |]. exact (d_rs _ _ _ Hi). }
  rewrite E2. cbn. exists b2. intros gs. split; [by intros -> |]. intros ->. exists d2, m2. split; [| done].
  destruct (H2 eq_refl) as (Hs2 & Hl2 & pde2 & mc & md & Hc & Hd2 & Hf2). split_and!; [done | done |].
  exists pde2. split_and!; [done | done |].
  pose proof (second_pulse kmalloc r Hr Hk pde1 mc g0 (g0 + pri) ltac:(lia) ltac:(lia) ltac:(lia) Hi Hpu Hla Hsq) as Hsp. rewrite Hc in Hsp.
  replace (g0 + pri - g0) with pri in Hsp by lia. by apply Hsp.
Qed.

End OneType.

(** What initialisation leaves. *)
Lemma table_serves t rg i r : (length t <= 8)%nat -> forallb spec_ok t = true -> rg <> NL80211_DFS_UNSET -> t !! i = Some r -> forall e pt pj,
  let dpd := Dpd e rg pt pj t (replicate 8 []) in spec_ok r = true /\ serves r i dpd /\ detectors dpd !! i = Some [].
Proof.
  intros Hl Ht Hrg Hi e pt pj. cbv zeta. cbn [detectors]. pose proof (lookup_lt_Some _ _ _ Hi) as Hlt. split_and!.
  - apply (proj1 (forallb_forall spec_ok t) Ht). apply list_elem_of_In. by apply list_elem_of_lookup_2 in Hi.
  - split; [done | done |]. cbn [radar_spec detectors]. by rewrite length_replicate.
  - apply lookup_replicate. split; [done | lia].
Qed.

Lemma init_serves rg chain t m m1 dpd i r : rg <> NL80211_DFS_UNSET -> dfs_pattern_detector_init kmalloc rg chain t m = (m1, Some dpd) ->
  radar_spec dpd !! i = Some r -> spec_ok r = true /\ serves r i dpd /\ detectors dpd !! i = Some [] /\ last_pulse_ts dpd = 0.
Proof.
  intros Hrg. unfold dfs_pattern_detector_init. destruct (kmalloc (allocs m)); [| done]. cbv zeta.
  change get_dfs_max_radar_types with 8%nat.
  destruct rg; [done | ..]; destruct chain; intros [= _ <-] Hi;
    (edestruct table_serves as (H1 & H2 & H3); [| | | exact Hi | by split_and!]); first [done | by vm_compute | vm_compute; lia].
Qed.

End Dfs.

(** C16. When the detectors of a region are initialised and allocations succeed, the
    pulses of a burst of any of its types that is not long, at one frequency and of a
    fitting width, whose gaps equal the first one within the tolerance and which lie
    within the duration of a burst, are reported as a radar at the latest at the pulse
    that reaches the threshold of the type, whatever the detectors of the other types
    make of them. *)
Theorem dfs_detects_burst kmalloc jiffies_to_usecs rg chain t m0 m dpd i r freq len now g0 pri gs :
  (forall n, is_Some (kmalloc n)) -> rg <> NL80211_DFS_UNSET -> dfs_pattern_detector_init kmalloc rg chain t m0 = (m, Some dpd) ->
  radar_spec dpd !! i = Some r -> wtype r <> RADAR_WAVEFORM_LONG -> width_min r <= len <= width_max r ->
  0 < g0 < 2 ^ 16 -> pri_min r <= pri <= pri_max r -> Forall (fun g => near g 1 pri (max_pri_tolerance r)) gs ->
  pri + foldr Z.add 0 gs <= burst_dur r pri -> needed r pri <= 2 + Z.of_nat (length gs) ->
  dfs_feed kmalloc jiffies_to_usecs freq len now dpd m (g0 :: pri :: gs) = Ok true.
Proof.
  intros Hk Hrg Hi Hspec Hlong Hlen Hg0 Hp Hg Hd Hn.
  destruct (init_serves kmalloc rg chain t m0 m dpd i r Hrg Hi Hspec) as (Hr%spec_ok_wf & Hs & Hd0 & Hl0).
  destruct (first_two kmalloc jiffies_to_usecs Hk r i freq len now Hr Hlong Hlen dpd m g0 pri Hs Hd0 Hl0 Hg0 Hp) as [b Hb].
  destruct (Hb gs) as [Htrue Hfalse]. destruct b; [by apply Htrue |].
  destruct (Hfalse eq_refl) as (dpd' & m' & Hf & ->). pose proof Hr as [? ? ? ? ? ?].
  eapply (follows_reports kmalloc jiffies_to_usecs Hk r i freq len now Hr Hlong Hlen g0 pri); try done; lia.
Qed.

Definition kmalloc_ok (n : nat) : option pri_sequence := Some (Pseq 0 0 0 0 0 0 0 0).

(** FCC type 0: pulses at 1428 us; nine of the eighteen are enough. *)
Lemma dfs_detects_burst_witness : exists m dpd, dfs_pattern_detector_init kmalloc_ok NL80211_DFS_FCC RWNX_RADAR_RIU 0 (Pools 0 [] 0 0) = (m, Some dpd) /\
  dfs_feed kmalloc_ok (fun j => j * 4000) 5500 4 0 dpd m (1000 :: 1428 :: replicate 7 1430) = Ok true.
Proof.
  eexists _, _. split; [reflexivity |].
  apply (dfs_detects_burst kmalloc_ok (fun j => j * 4000) NL80211_DFS_FCC RWNX_RADAR_RIU 0 (Pools 0 [] 0 0) _ _ 0
           (FCC_PATTERN 0 0 8 1428 1428 1 18 RADAR_WAVEFORM_SHORT)); try (vm_compute; first [reflexivity | discriminate | split; discriminate]).
  - intros n. by eexists.
  - by vm_compute.
  - repeat constructor; vm_compute; discriminate.
Defined.

(** Spaced pulses that match no type go by. *)
Example sparse_pulses_pass : exists m dpd, dfs_pattern_detector_init kmalloc_ok NL80211_DFS_FCC RWNX_RADAR_RIU 0 (Pools 0 [] 0 0) = (m, Some dpd) /\
  dfs_feed kmalloc_ok (fun j => j * 4000) 5500 4 0 dpd m (replicate 20 60000) = Ok false.
Proof. eexists _, _. split; [reflexivity | by vm_compute]. Qed.

End RadarDfs.
