(* ===== verification/RadarCtl.v ===== *)
(** * Radar detection at the driver's side (rwnx_radar.c, rwnx_msg_rx.c,
    rwnx_main.c)

    The rings the pulses of the firmware go through, the work item that
    evaluates them, the channel contexts, and the channel availability check
    (CAC).  What the driver tells the firmware and cfg80211 is appended to
    [outs].  The work item of the CAC is two steps, since a cancellation may
    fall between its test of cac_vif and its uses.  A NULL pointer that is
    followed, an index outside an array and an uninitialised reply are
    [Fault]. *)

From stdpp Require Import prelude.
From S2P Require Import Prelude Radar RadarDev.
Open Scope Z_scope.

Module RadarCtl.
Import Radar RadarDev.

(** ** State *)

Definition RWNX_RADAR_PULSE_MAX : Z := 32.
Definition RADAR_PULSE_MAX : Z := 4.
Definition NX_NB_RADAR_DETECTED : Z := 4.
Definition RWNX_RADARR_DUMP_NB : Z := 32.
Definition RWNX_CH_NOT_SET : Z := 255.
Definition NX_CHAN_CTXT_CNT : Z := 3.
Definition CO_OK : Z := 0.
Definition RWNX_RADAR_IDLE : Z := 0.
Definition RWNX_RADAR_CAC_BUSY : Z := 1.
Definition RWNX_RADAR_INSERVICE_BUSY : Z := 3.

Record rwnx_radar_pulses := Ring { r_index : Z; r_count : Z; buffer : list Z }.
#[global] Instance eta_ring : Settable rwnx_radar_pulses := fun r => Ring (r_index r) (r_count r) (buffer r).

Record rwnx_radar_detected_list := Det { d_index : Z; d_count : Z; d_time : list Z; d_freq : list Z }.

Record rwnx_radar_dump := Dump { dm_cnt : Z; dm_idx : Z; dm_ps : list Z; dm_tm : list Z; dm_ts : list Z }.

(** What rmem points to; kfree leaves the pointer as it is. *)
Inductive rmem_ptr := RmNull | RmLive (d : rwnx_radar_dump) | RmFreed.

(** [chan]: whether the channel has IEEE80211_CHAN_RADAR; [None]: NULL. *)
Record chan_def := ChanDef { chan : option bool; center_freq1 : Z }.
#[global] Instance eta_def : Settable chan_def := fun r => ChanDef (chan r) (center_freq1 r).
Record rwnx_chanctx := Ctx { ctx_def : chan_def; ctx_count : Z }.
#[global] Instance eta_ctx : Settable rwnx_chanctx := fun r => Ctx (ctx_def r) (ctx_count r).

Inductive out :=
| CacEvent (vif : nat) (d : chan_def) (finished : bool)
| StopCacReq (vif : nat)
| RadarEvent (d : chan_def).

(** Vifs are numbered; [ch_index] lists their channel contexts.  [work] and
    [cac_work] tell whether the work items are queued. *)
Record radar_hw := Hw {
  rings : list rwnx_radar_pulses; dpds : list (option dfs_pattern_detector); detected : list rwnx_radar_detected_list;
  rmem : rmem_ptr; status : Z; work : bool; cac_work : bool; cac_vif : option nat;
  chanctx_table : list rwnx_chanctx; cur_chanctx : Z; ch_index : list Z; sec_freq1 : Z; pl : pools; outs : list out }.
#[global] Instance eta_hw : Settable radar_hw := fun r =>
  Hw (rings r) (dpds r) (detected r) (rmem r) (status r) (work r) (cac_work r) (cac_vif r) (chanctx_table r) (cur_chanctx r)
     (ch_index r) (sec_freq1 r) (pl r) (outs r).

Definition chain_idx (c : rwnx_radar_chain) : nat := match c with RWNX_RADAR_RIU => 0 | RWNX_RADAR_FCU => 1 end.

(** An element of an array, or of a pointer. *)
Definition at_ {A} (l : list A) (i : Z) : res A := if i <? 0 then Fault else match l !! Z.to_nat i with Some x => Ok x | None => Fault end.
Definition deref {A} (o : option A) : res A := match o with Some x => Ok x | None => Fault end.
Definition emit (o : out) (h : radar_hw) : radar_hw := h <| outs ::= fun l => l ++ [o] |>.

(** ** Enabling *)

(** [chain]: RWNX_RADAR_LAST is 2. *)
Definition rwnx_radar_detection_enable (enable : Z) (chain : Z) (h : radar_hw) : res radar_hw :=
  if chain <? 2 then
    o ← at_ (dpds h) chain;
    dpd ← deref o;
    Ok (h <| dpds ::= <[Z.to_nat chain := Some (dpd <| enabled := enable |>)]> |>)
  else Ok h.

Definition rwnx_radar_detection_is_enable (chain : Z) (h : radar_hw) : res bool :=
  o ← at_ (dpds h) chain;
  dpd ← deref o;
  Ok (negb (enabled dpd =? RWNX_RADAR_DETECT_DISABLE)).

(** ** Channel contexts *)

Definition rwnx_chanctx_link (vif : nat) (ch_idx : Z) (chandef : option chan_def) (h : radar_hw) : radar_hw :=
  if NX_CHAN_CTXT_CNT <=? ch_idx then h
  else
    h <| ch_index ::= <[vif := ch_idx]> |>
      <| chanctx_table ::= alter (fun c =>
           let c := c <| ctx_count ::= fun n => u8 (n + 1) |> in
           match chandef, chan (ctx_def c) with
           | Some d, None => c <| ctx_def := d |>
           | _, _ => c
           end) (Z.to_nat ch_idx) |>.

Definition rwnx_chanctx_unlink (vif : nat) (h : radar_hw) : res radar_hw :=
  ch ← deref (ch_index h !! vif);
  if ch =? RWNX_CH_NOT_SET then Ok h
  else if NX_CHAN_CTXT_CNT <=? ch then Ok h
  else
    c ← at_ (chanctx_table h) ch;
    let c := if ctx_count c =? 0 then c else c <| ctx_count ::= fun n => u8 (n - 1) |> in
    h ← (if (ctx_count c =? 0) && (ch =? cur_chanctx h) then rwnx_radar_detection_enable RWNX_RADAR_DETECT_DISABLE 0 h else Ok h);
    let c := if ctx_count c =? 0 then c <| ctx_def ::= fun d => d <| chan := None |> |> else c in
    Ok (h <| chanctx_table ::= <[Z.to_nat ch := c]> |> <| ch_index ::= <[vif := RWNX_CH_NOT_SET]> |>).

Definition rwnx_chanctx_valid (h : radar_hw) (ch_idx : Z) : bool :=
  if NX_CHAN_CTXT_CNT <=? ch_idx then false
  else match at_ (chanctx_table h) ch_idx with Ok c => match chan (ctx_def c) with Some _ => true | None => false end | _ => false end.

Definition rwnx_radar_detection_enable_on_cur_channel (h : radar_hw) : res radar_hw :=
  if negb (rwnx_chanctx_valid h (cur_chanctx h)) then Ok h
  else
    c ← at_ (chanctx_table h) (cur_chanctx h);
    flag ← deref (chan (ctx_def c));
    rwnx_radar_detection_enable (if flag : bool then RWNX_RADAR_DETECT_REPORT else RWNX_RADAR_DETECT_DISABLE) 0 h.

(** The end of rwnx_rx_chan_switch_ind. *)
Definition chan_switched (chan_idx : Z) (h : radar_hw) : res radar_hw :=
  rwnx_radar_detection_enable_on_cur_channel (h <| cur_chanctx := chan_idx |>).

(** ** Channel availability check *)

Definition rwnx_radar_start_cac (vif : nat) (h : radar_hw) : radar_hw := h <| cac_vif := Some vif |> <| cac_work := true |>.

(** The channel of the context a vif is linked to. *)
Definition vif_def (vif : nat) (h : radar_hw) : res chan_def :=
  ch ← deref (ch_index h !! vif);
  c ← at_ (chanctx_table h) ch;
  Ok (ctx_def c).

Definition rwnx_radar_cancel_cac (h : radar_hw) : res radar_hw :=
  match cac_vif h with
  | None => Ok h
  | Some vif =>
      h ← (if cac_work h then
             let h := h <| cac_work := false |> in
             d ← vif_def vif h;
             rwnx_chanctx_unlink vif (emit (CacEvent vif d false) (emit (StopCacReq vif) h))
           else Ok h);
      Ok (h <| cac_vif := None |>)
  end.

(** The timer is over: the work leaves the queue and tests cac_vif. *)
Definition rwnx_radar_cac_work_test (h : radar_hw) : radar_hw * bool :=
  (h <| cac_work := false |>, match cac_vif h with Some _ => true | None => false end).

(** The rest, when the test found a vif. *)
Definition rwnx_radar_cac_work_rest (h : radar_hw) : res radar_hw :=
  vif ← deref (cac_vif h);
  d ← vif_def vif h;
  h ← rwnx_chanctx_unlink vif (emit (StopCacReq vif) (emit (CacEvent vif d true) h));
  Ok (h <| cac_vif := None |>).

Definition rwnx_radar_cac_work (h : radar_hw) : res radar_hw :=
  let '(h, go) := rwnx_radar_cac_work_test h in
  if go then rwnx_radar_cac_work_rest h else Ok h.

(** [cfm]: the status and the context of the reply; [None]: the request
    failed and the reply on the stack was never written.  The result tells
    success from -EIO. *)
Definition rwnx_cfg80211_start_radar_detection (vif : nat) (chandef : chan_def) (cfm : option (Z * Z)) (h : radar_hw) : res (radar_hw * bool) :=
  let h := rwnx_radar_start_cac vif h in
  '(st, ch_idx) ← deref cfm;
  if st =? CO_OK then
    let h := rwnx_chanctx_link vif ch_idx (Some chandef) h in
    ch ← deref (ch_index h !! vif);
    h ← (if cur_chanctx h =? ch then rwnx_radar_detection_enable RWNX_RADAR_DETECT_REPORT 0 h else Ok h);
    Ok (h, true)
  else Ok (h, false).

(** The two calls of rwnx_cfg80211_leave_mesh. *)
Definition leave_mesh_cac (vif : nat) (h : radar_hw) : res radar_hw :=
  h ← rwnx_chanctx_unlink vif h;
  rwnx_radar_cancel_cac h.

(** The calls of rwnx_cfg80211_stop_ap, in the order it has. *)
Definition stop_ap_cac (vif : nat) (h : radar_hw) : res radar_hw :=
  h ← rwnx_radar_cancel_cac h;
  rwnx_chanctx_unlink vif h.

(** ** Pulses *)

(** The message of the firmware: an array of four pulses, the chain and the
    number of pulses, both as the firmware sent them. *)
Fixpoint store_pulses (n : nat) (i : Z) (pulse : list Z) (p : rwnx_radar_pulses) : res rwnx_radar_pulses :=
  match n with
  | O => Ok p
  | S n =>
      x ← at_ pulse i;
      _ ← at_ (buffer p) (r_index p);
      store_pulses n (i + 1) pulse
        (Ring (Z.rem (r_index p + 1) RWNX_RADAR_PULSE_MAX) (if r_count p <? RWNX_RADAR_PULSE_MAX then r_count p + 1 else r_count p)
           (<[Z.to_nat (r_index p) := x]> (buffer p)))
  end.

Definition rwnx_radar_detect_ind (pulse : list Z) (idx cnt : Z) (h : radar_hw) : res radar_hw :=
  if cnt =? 0 then Ok h
  else
    en ← rwnx_radar_detection_is_enable (u8 idx) h;
    if en : bool then
      p ← at_ (rings h) idx;
      p ← store_pulses (Z.to_nat cnt) 0 pulse p;
      Ok (h <| rings ::= <[Z.to_nat idx := p]> |> <| work := true |>)
    else Ok h.

(** struct radar_pulse: six signed bits, four, six and sixteen. *)
Definition p_freq (p : Z) : Z := let x := Z.land p 63 in if x <? 32 then x else x - 64.
Definition p_len (p : Z) : Z := Z.land (Z.shiftr p 10) 63.
Definition p_rep (p : Z) : Z := Z.land (Z.shiftr p 16) 65535.

(** The pulses of a ring, oldest first, as the two memcpy take them. *)
Definition copy_pulses (p : rwnx_radar_pulses) : list Z :=
  let count := r_count p in
  let start := r_index p - count in
  let start := if start <? 0 then start + RWNX_RADAR_PULSE_MAX else start in
  if RWNX_RADAR_PULSE_MAX <? start + count then
    let count1 := RWNX_RADAR_PULSE_MAX - start in
    take (Z.to_nat count1) (drop (Z.to_nat start) (buffer p)) ++ take (Z.to_nat (count - count1)) (buffer p)
  else take (Z.to_nat count) (drop (Z.to_nat start) (buffer p)).

Definition rwnx_radar_get_center_freq (h : radar_hw) (chain : rwnx_radar_chain) : Z :=
  match chain with
  | RWNX_RADAR_FCU => u16 (sec_freq1 h)
  | RWNX_RADAR_RIU =>
      if negb (rwnx_chanctx_valid h (cur_chanctx h)) then 0
      else match at_ (chanctx_table h) (cur_chanctx h) with Ok c => u16 (center_freq1 (ctx_def c)) | _ => 0 end
  end.

Definition rwnx_radar_detected (h : radar_hw) : res radar_hw :=
  if negb (rwnx_chanctx_valid h (cur_chanctx h)) then Ok h
  else
    c ← at_ (chanctx_table h) (cur_chanctx h);
    h ← rwnx_radar_cancel_cac h;
    Ok (emit (RadarEvent (ctx_def c)) h).

Section Pulses.
Context (kmalloc : nat -> option pri_sequence) (jiffies_to_usecs : Z -> Z).

(** The record of the last pulses that debugfs shows. *)
Definition dump_pulse (pulse now : Z) (h : radar_hw) : res radar_hw :=
  rm ← (match rmem h with RmLive rm => Ok rm | _ => Fault end);
  o ← at_ (dpds h) 0;
  dpd ← deref o;
  let i := Z.to_nat (dm_idx rm) in
  let ts :=
    if p_rep pulse =? 0 then
      let delta_jiffie := if now <? prev_jiffies dpd then u32 (0xffffffff - prev_jiffies dpd + now) else now - prev_jiffies dpd in
      u64 (last_pulse_ts dpd + jiffies_to_usecs delta_jiffie)
    else u64 (last_pulse_ts dpd + p_rep pulse) in
  Ok (h <| rmem := RmLive (Dump (u32 (dm_cnt rm + 1)) (Z.rem (dm_idx rm + 1) RWNX_RADARR_DUMP_NB)
                           (<[i := pulse]> (dm_ps rm)) (<[i := now]> (dm_tm rm)) (<[i := ts]> (dm_ts rm))) |>).

Definition s16 (x : Z) : Z := (x + 2 ^ 15) mod 2 ^ 16 - 2 ^ 15.

(** A radar on the chain. *)
Definition radar_found (chain : rwnx_radar_chain) (freq time : Z) (h : radar_hw) : res radar_hw :=
  d ← deref (detected h !! chain_idx chain);
  h ← (match chain with
       | RWNX_RADAR_RIU =>
           o ← at_ (dpds h) 0;
           dpd ← deref o;
           if enabled dpd =? RWNX_RADAR_DETECT_REPORT then
             h ← rwnx_radar_detected h;
             h ← rwnx_radar_detection_enable RWNX_RADAR_DETECT_DISABLE 0 h;
             Ok (h <| rings ::= alter (fun p => p <| r_count := 0 |>) (chain_idx chain) |>)
           else Ok h
       | RWNX_RADAR_FCU => Ok h
       end);
  let idx := Z.to_nat (d_index d) in
  Ok (h <| detected ::= <[chain_idx chain := Det (Z.rem (d_index d + 1) NX_NB_RADAR_DETECTED) (u16 (d_count d + 1))
                            (<[idx := time]> (d_time d)) (<[idx := freq]> (d_freq d))]> |>).

(** The pulses of a chain, up to the one that completes a pattern. *)
Fixpoint process_pulses (chain : rwnx_radar_chain) (freq now time : Z) (l : list Z) (h : radar_hw) : res radar_hw :=
  match l with
  | [] => Ok h
  | p :: l =>
      h ← (match chain with RWNX_RADAR_RIU => dump_pulse p now h | RWNX_RADAR_FCU => Ok h end);
      if negb (status h =? RWNX_RADAR_CAC_BUSY) && negb (status h =? RWNX_RADAR_INSERVICE_BUSY) then Ok h
      else
        o ← deref (dpds h !! chain_idx chain);
        dpd ← deref o;
        '(dpd, m, found) ← dfs_pattern_detector_add_pulse kmalloc jiffies_to_usecs (u16 (s16 freq + 2 * p_freq p)) (p_rep p) (p_len p * 2) now dpd (pl h);
        let h := h <| dpds ::= <[chain_idx chain := Some dpd]> |> <| pl := m |> in
        if found : bool then radar_found chain (s16 (s16 freq + 2 * p_freq p)) time h else process_pulses chain freq now time l h
  end.

Definition process_chain (chain : rwnx_radar_chain) (now time : Z) (l : list Z) (h : radar_hw) : res radar_hw :=
  match l with
  | [] => Ok h
  | _ => process_pulses chain (rwnx_radar_get_center_freq h chain) now time l h
  end.

Definition rwnx_radar_process_pulse (now time : Z) (h : radar_hw) : res radar_hw :=
  riu ← at_ (rings h) 0;
  fcu ← at_ (rings h) 1;
  let h := h <| work := false |> <| rings ::= fmap (fun p => p <| r_count := 0 |>) |> in
  h ← process_chain RWNX_RADAR_RIU now time (copy_pulses riu) h;
  process_chain RWNX_RADAR_FCU now time (copy_pulses fcu) h.

(** ** Initialisation *)

Definition empty_ring : rwnx_radar_pulses := Ring 0 0 (replicate 32 0).

Definition fresh_dump : rwnx_radar_dump := Dump 0 0 (replicate 32 0) (replicate 32 0) (replicate 32 0).

(** rwnx_radar_reset_rmem is the memset. *)
Definition rwnx_radar_init_rmem (h : radar_hw) : res radar_hw :=
  match rmem h with
  | RmNull =>
      let e := kmalloc (allocs (pl h)) in
      Ok (h <| pl ::= fun m => m <| allocs ::= S |> |> <| rmem := match e with Some _ => RmLive fresh_dump | None => RmNull end |>)
  | RmLive _ => Ok (h <| rmem := RmLive fresh_dump |>)
  | RmFreed => Fault
  end.

Definition rwnx_radar_deinit_rmem (h : radar_hw) : res radar_hw :=
  match rmem h with RmNull => Ok h | RmLive _ => Ok (h <| rmem := RmFreed |>) | RmFreed => Fault end.

Definition rwnx_radar_detection_deinit (h : radar_hw) : res radar_hw :=
  let m := foldl (fun m o => match o with Some d => dfs_pattern_detector_exit d m | None => m end) (pl h) (dpds h) in
  rwnx_radar_deinit_rmem (h <| pl := m |> <| dpds ::= fmap (fun _ => None) |>).

(** The rings and the list of radars are those of the zeroed rwnx_hw. *)
Definition rwnx_radar_detection_init (now : Z) (h : radar_hw) : res (radar_hw * bool) :=
  let '(m, riu) := dfs_pattern_detector_init kmalloc NL80211_DFS_UNSET RWNX_RADAR_RIU now (pl h) in
  let h := h <| pl := m |> <| dpds ::= <[0%nat := riu]> |> in
  match riu with
  | None => Ok (h, false)
  | Some _ =>
      let '(m, fcu) := dfs_pattern_detector_init kmalloc NL80211_DFS_UNSET RWNX_RADAR_FCU now (pl h) in
      h ← rwnx_radar_init_rmem (h <| pl := m |> <| dpds ::= <[1%nat := fcu]> |>);
      let h := h <| status := RWNX_RADAR_IDLE |> in
      match fcu with
      | None => h ← rwnx_radar_detection_deinit h; Ok (h, false)
      | Some _ => Ok (h <| cac_vif := None |>, true)
      end
  end.

Definition rwnx_radar_set_domain (rg : nl80211_dfs_regions) (h : radar_hw) : res (radar_hw * bool) :=
  o0 ← at_ (dpds h) 0;
  match o0 with
  | None => Ok (h, false)
  | Some d0 =>
      let '(d0, m, ok) := dfs_pattern_detector_set_domain rg RWNX_RADAR_RIU d0 (pl h) in
      let h := h <| pl := m |> <| dpds ::= <[0%nat := Some d0]> |> in
      if negb ok then Ok (h, false)
      else
        o1 ← at_ (dpds h) 1;
        d1 ← deref o1;
        let '(d1, m, ok) := dfs_pattern_detector_set_domain rg RWNX_RADAR_FCU d1 (pl h) in
        Ok (h <| pl := m |> <| dpds ::= <[1%nat := Some d1]> |>, ok)
  end.

End Pulses.

End RadarCtl.
