(* ===== verification/RadarRuns.v ===== *)
(** * Rings, channel contexts and the availability check over runs

    The ring of a chain keeps the latest 32 pulses in order; the counts of the
    channel contexts are the numbers of the vifs linked to them; every CAC
    started is reported to cfg80211 once, unless it is still running; and a
    driver whose radar status is never set reports no radar. *)

From stdpp Require Import prelude.
From S2P Require Import Prelude Radar RadarDev RadarCtl.
Open Scope Z_scope.

Module RadarRuns.
Import Radar RadarDev RadarCtl.

(** ** The ring *)

Record ring_ok (p : rwnx_radar_pulses) : Prop := {
  ring_len : length (buffer p) = 32%nat;
  ring_index : 0 <= r_index p < 32;
  ring_count : 0 <= r_count p <= 32 }.

(** Where the oldest pulse is. *)
Definition ring_start (p : rwnx_radar_pulses) : Z := if r_index p - r_count p <? 0 then r_index p - r_count p + 32 else r_index p - r_count p.

Lemma copy_lookup p : ring_ok p -> length (copy_pulses p) = Z.to_nat (r_count p) /\
  forall k, 0 <= k < r_count p -> copy_pulses p !! Z.to_nat k = buffer p !! Z.to_nat ((r_index p - r_count p + k) mod 32).
Proof.
  intros [Hl Hi Hc]. unfold copy_pulses, RWNX_RADAR_PULSE_MAX. fold (ring_start p). cbv zeta.
  assert (Hs : 0 <= ring_start p < 32) by (unfold ring_start; destruct (Z.ltb_spec (r_index p - r_count p) 0); lia).
  assert (Hm : forall k, (r_index p - r_count p + k) mod 32 = (ring_start p + k) mod 32).
  { intros k. unfold ring_start. destruct (Z.ltb_spec (r_index p - r_count p) 0); [| done].
    replace (r_index p - r_count p + 32 + k) with (r_index p - r_count p + k + 1 * 32) by lia. by rewrite Z_mod_plus_full. }
  destruct (Z.ltb_spec 32 (ring_start p + r_count p)) as [Hw | Hw].
  - split; [rewrite length_app, !length_take, length_drop, Hl; lia |]. intros k Hk. rewrite Hm.
    destruct (Z.lt_ge_cases k (32 - ring_start p)) as [Hk1 | Hk1].
    + rewrite lookup_app_l by (rewrite length_take, length_drop, Hl; lia). rewrite lookup_take_lt, lookup_drop by lia.
      rewrite Z.mod_small by lia. f_equal. lia.
    + rewrite lookup_app_r by (rewrite length_take, length_drop, Hl; lia). rewrite length_take, length_drop, Hl.
      rewrite lookup_take_lt by lia. replace ((ring_start p + k) mod 32) with (ring_start p + k - 32); [f_equal; lia |].
      apply (Z.mod_unique_pos _ _ 1); lia.
  - split; [rewrite length_take, length_drop, Hl; lia |]. intros k Hk. rewrite Hm. rewrite lookup_take_lt, lookup_drop by lia.
    rewrite Z.mod_small by lia. f_equal. lia.
Qed.

(** The last [n] elements. *)
Definition lastn {A} (n : nat) (l : list A) : list A := drop (length l - n) l.

Lemma lastn_app {A} n (l1 l2 : list A) : lastn n (lastn n l1 ++ l2) = lastn n (l1 ++ l2).
Proof.
  unfold lastn. destruct (Nat.le_gt_cases (length l1) n) as [H | H].
  - by replace (length l1 - n)%nat with O by lia.
  - set (d := (length l1 - n)%nat). rewrite <- (drop_app_le l1 l2 d) by lia. rewrite drop_drop, length_drop, length_app. f_equal. lia.
Qed.

Definition push (x : Z) (p : rwnx_radar_pulses) : rwnx_radar_pulses :=
  Ring (Z.rem (r_index p + 1) RWNX_RADAR_PULSE_MAX) (if r_count p <? RWNX_RADAR_PULSE_MAX then r_count p + 1 else r_count p)
    (<[Z.to_nat (r_index p) := x]> (buffer p)).

Lemma push_ok x p : ring_ok p -> ring_ok (push x p).
Proof.
  intros [Hl Hi Hc]. unfold push, RWNX_RADAR_PULSE_MAX. split; cbn.
  - by rewrite length_insert.
  - apply Z.rem_bound_pos; lia.
  - destruct (Z.ltb_spec (r_count p) 32); lia.
Qed.

Lemma push_copy x p : ring_ok p -> copy_pulses (push x p) = lastn 32 (copy_pulses p ++ [x]).
Proof.
  intros Hp. pose proof (push_ok x p Hp) as Hp'. destruct (copy_lookup p Hp) as [L1 C1]. destruct (copy_lookup _ Hp') as [L2 C2].
  destruct Hp as [Hl Hi Hc]. destruct Hp' as [_ _ Hc']. cbn [r_index r_count buffer push] in *. unfold RWNX_RADAR_PULSE_MAX in *.
  set (c := r_count p) in *. set (c' := if c <? 32 then c + 1 else c) in *.
  assert (Hcc : c' = Z.min (c + 1) 32) by (unfold c'; destruct (Z.ltb_spec c 32); lia).
  assert (Hll : length (lastn 32 (copy_pulses p ++ [x])) = Z.to_nat c') by (unfold lastn; rewrite length_drop, length_app, L1; cbn; lia).
  apply list_eq. intros n. destruct (Nat.lt_ge_cases n (Z.to_nat c')) as [Hn | Hn]; [| rewrite !lookup_ge_None_2; [done | rewrite Hll; lia | rewrite L2; lia]].
  rewrite <- (Nat2Z.id n) at 1. rewrite C2 by lia. unfold lastn. rewrite lookup_drop, length_app, L1. cbn [length].
  rewrite Z.rem_mod_nonneg by lia.
  assert (Hm : ((r_index p + 1) mod 32 - c' + Z.of_nat n) mod 32 = (r_index p + 1 - c' + Z.of_nat n) mod 32).
  { rewrite <- Z.add_sub_swap, <- Z.add_sub_assoc, Zplus_mod_idemp_l. f_equal. lia. }
  rewrite Hm. clear Hm. destruct (Z.eq_dec (Z.of_nat n) (c' - 1)) as [He | He].
  - replace (r_index p + 1 - c' + Z.of_nat n) with (r_index p) by lia. rewrite Z.mod_small by lia.
    rewrite list_lookup_insert_eq by lia. rewrite lookup_app_r by lia. rewrite L1. by replace (_ - _)%nat with O by lia.
  - set (e := r_index p + 1 - c' + Z.of_nat n) in *. assert (Hr : r_index p - 32 < e < r_index p) by lia.
    assert (Hne : e mod 32 <> r_index p).
    { destruct (Z.lt_ge_cases e 0); [rewrite <- (Z.mod_unique_pos e 32 (-1) (e + 32)) by lia; lia | rewrite Z.mod_small by lia; lia]. }
    pose proof (Z.mod_pos_bound e 32 ltac:(lia)). rewrite list_lookup_insert_ne by lia. rewrite lookup_app_l by lia.
    rewrite <- (Nat2Z.id (_ + n)). rewrite C1 by lia. do 2 f_equal. unfold e. f_equal. lia.
Qed.

Lemma at_lookup {A} (l : list A) i x : 0 <= i -> l !! Z.to_nat i = Some x -> at_ l i = Ok x.
Proof. intros Hi H. unfold at_. rewrite (proj2 (Z.ltb_ge _ _)) by done. by rewrite H. Qed.

Lemma at_beyond {A} (l : list A) i : Z.of_nat (length l) <= i -> at_ l i = Fault.
Proof. intros H. unfold at_. destruct (i <? 0); [done |]. by rewrite lookup_ge_None_2 by lia. Qed.

Lemma store_ok pulse : forall n i p, ring_ok p -> 0 <= i -> i + Z.of_nat n <= Z.of_nat (length pulse) ->
  exists p', store_pulses n i pulse p = Ok p' /\ ring_ok p' /\
    copy_pulses p' = lastn 32 (copy_pulses p ++ take n (drop (Z.to_nat i) pulse)).
Proof.
  induction n as [|n IH]; intros i p Hp Hi Hn; cbn [store_pulses].
  - exists p. split_and!; [done | done |]. rewrite take_0, app_nil_r. unfold lastn. destruct (copy_lookup p Hp) as [-> _].
    destruct Hp as [_ _ Hc]. by replace (_ - 32)%nat with O by lia.
  - destruct (lookup_lt_is_Some_2 pulse (Z.to_nat i) ltac:(lia)) as [x Hx]. rewrite (at_lookup _ _ _ Hi Hx). cbn.
    pose proof Hp as [Hl Hx0 _]. destruct (lookup_lt_is_Some_2 (buffer p) (Z.to_nat (r_index p)) ltac:(lia)) as [y Hy].
    rewrite (at_lookup _ _ y) by (first [lia | done]). cbn. change (Ring _ _ _) with (push x p).
    destruct (IH (i + 1) (push x p) (push_ok x p Hp) ltac:(lia) ltac:(lia)) as (p' & E & Hp' & Hc). exists p'. split_and!; [done | done |].
    rewrite Hc, (push_copy x p Hp). rewrite (drop_S pulse x (Z.to_nat i)) by done. cbn [take].
    replace (Z.to_nat (i + 1)) with (S (Z.to_nat i)) by lia. by rewrite lastn_app, <- app_assoc.
Qed.

(** C21. The ring of a chain refines a queue of the latest 32 pulses: a message of one
    to four pulses for an enabled chain appends them, what the work item copies is the
    last 32 pulses in the order they came, and the work item is queued. *)
Theorem detect_ind_queues h chain pulse cnt p d : ring_ok p -> rings h !! chain = Some p -> dpds h !! chain = Some (Some d) ->
  (chain < 2)%nat -> enabled d <> RWNX_RADAR_DETECT_DISABLE -> length pulse = Z.to_nat RADAR_PULSE_MAX -> 1 <= cnt <= RADAR_PULSE_MAX ->
  exists p', rwnx_radar_detect_ind pulse (Z.of_nat chain) cnt h = Ok (h <| rings ::= <[chain := p']> |> <| work := true |>) /\ ring_ok p' /\
    copy_pulses p' = lastn 32 (copy_pulses p ++ take (Z.to_nat cnt) pulse).
Proof.
  intros Hp Hr Hd H2 He Hl Hc. unfold RADAR_PULSE_MAX in *. destruct (store_ok pulse (Z.to_nat cnt) 0 p Hp ltac:(lia) ltac:(lia)) as (p' & E & Hp' & Hcp).
  exists p'. split_and!; [| done | done]. unfold rwnx_radar_detect_ind. rewrite (proj2 (Z.eqb_neq _ _)) by lia.
  unfold rwnx_radar_detection_is_enable. rewrite u8_id by lia. rewrite (at_lookup (dpds h) _ (Some d)) by (first [lia | by rewrite Nat2Z.id]). cbn.
  rewrite (proj2 (Z.eqb_neq _ _)) by done. cbn. rewrite (at_lookup _ _ p) by (first [lia | by rewrite Nat2Z.id]). cbn. rewrite E. cbn. by rewrite Nat2Z.id.
Qed.

(** The chain and the count of the message are used as they come. *)
Lemma detect_ind_bad_chain h pulse idx cnt : cnt <> 0 -> Z.of_nat (length (dpds h)) <= idx < 2 ^ 8 -> rwnx_radar_detect_ind pulse idx cnt h = Fault.
Proof.
  intros Hc Hi. unfold rwnx_radar_detect_ind, rwnx_radar_detection_is_enable. rewrite (proj2 (Z.eqb_neq _ _)) by done.
  rewrite u8_id by lia. rewrite (at_beyond (dpds h) idx) by lia. reflexivity.
Qed.

(** ** Runs *)

Section Runs.
Context (kmalloc : nat -> option pri_sequence) (jiffies_to_usecs : Z -> Z).

Inductive radar_op :=
| OpDetectInd (pulse : list Z) (idx cnt : Z)
| OpProcess (now time : Z)
| OpEnable (enable chain : Z)
| OpChanSwitch (idx : Z)
| OpLink (vif : nat) (idx : Z) (d : option chan_def)
| OpUnlink (vif : nat)
| OpStartCac (vif : nat) (d : chan_def) (cfm : option (Z * Z))
| OpCancelCac
| OpCacWork
| OpLeaveMesh (vif : nat)
| OpStopAp (vif : nat)
| OpSetDomain (rg : nl80211_dfs_regions).

Definition fst_res {A B} (m : res (A * B)) : res A := '(a, _) ← m; Ok a.

(** The work of the CAC here runs in one piece. *)
Definition run_op (o : radar_op) (h : radar_hw) : res radar_hw :=
  match o with
  | OpDetectInd pulse idx cnt => rwnx_radar_detect_ind pulse idx cnt h
  | OpProcess now time => rwnx_radar_process_pulse kmalloc jiffies_to_usecs now time h
  | OpEnable en chain => rwnx_radar_detection_enable en chain h
  | OpChanSwitch idx => chan_switched idx h
  | OpLink vif idx d => Ok (rwnx_chanctx_link vif idx d h)
  | OpUnlink vif => rwnx_chanctx_unlink vif h
  | OpStartCac vif d cfm => fst_res (rwnx_cfg80211_start_radar_detection vif d cfm h)
  | OpCancelCac => rwnx_radar_cancel_cac h
  | OpCacWork => rwnx_radar_cac_work h
  | OpLeaveMesh vif => leave_mesh_cac vif h
  | OpStopAp vif => stop_ap_cac vif h
  | OpSetDomain rg => fst_res (rwnx_radar_set_domain rg h)
  end.

Fixpoint run_ops (l : list radar_op) (h : radar_hw) : res radar_hw :=
  match l with [] => Ok h | o :: l => h ← run_op o h; run_ops l h end.

(** *** What every operation keeps *)

(** [h'] comes from [h] by an operation other than those of the CAC: the CAC,
    the status and the events are the same, and so are the contexts unless
    [ctx]. *)
Record quiet (h h' : radar_hw) : Prop := {
  q_status : status h' = status h;
  q_work : cac_work h' = cac_work h;
  q_vif : cac_vif h' = cac_vif h;
  q_outs : outs h' = outs h;
  q_table : chanctx_table h' = chanctx_table h;
  q_index : ch_index h' = ch_index h }.

#[global] Instance quiet_refl : Reflexive quiet.
Proof. by split. Qed.
#[global] Instance quiet_trans : Transitive quiet.
Proof. intros h1 h2 h3 [] []. split; congruence. Qed.

Lemma enable_quiet en chain h h' : rwnx_radar_detection_enable en chain h = Ok h' -> quiet h h'.
Proof.
  unfold rwnx_radar_detection_enable. destruct (chain <? 2); [| intros H; by injection H as <-].
  intros H. apply bind_Ok in H as (o & _ & H). apply bind_Ok in H as (d & _ & H). injection H as <-. by split.
Qed.

Lemma detect_ind_quiet pulse idx cnt h h' : rwnx_radar_detect_ind pulse idx cnt h = Ok h' -> quiet h h'.
Proof.
  unfold rwnx_radar_detect_ind. destruct (cnt =? 0); [intros H; by injection H as <- |]. intros H. apply bind_Ok in H as (en & _ & H).
  destruct en; [| by injection H as <-]. apply bind_Ok in H as (p & _ & H). apply bind_Ok in H as (p' & _ & H). injection H as <-. by split.
Qed.

Lemma switch_quiet idx h h' : chan_switched idx h = Ok h' -> quiet h h'.
Proof.
  unfold chan_switched, rwnx_radar_detection_enable_on_cur_channel. destruct (negb _); [intros H; injection H as <-; by split |].
  intros H. apply bind_Ok in H as (c & _ & H). apply bind_Ok in H as (f & _ & H). apply enable_quiet in H. by destruct H.
Qed.

Lemma set_domain_quiet rg h h' b : rwnx_radar_set_domain rg h = Ok (h', b) -> quiet h h'.
Proof.
  unfold rwnx_radar_set_domain. intros H. apply bind_Ok in H as (o0 & _ & H). destruct o0 as [d0|]; [| by injection H as <- _].
  destruct (dfs_pattern_detector_set_domain rg RWNX_RADAR_RIU d0 (pl h)) as [[d0' m] ok]. destruct ok; cbn [negb] in H; [| injection H as <- _; by split].
  apply bind_Ok in H as (o1 & _ & H). apply bind_Ok in H as (d1 & _ & H).
  destruct (dfs_pattern_detector_set_domain rg RWNX_RADAR_FCU d1 m) as [[d1' m'] ok'] eqn:E. cbn in H. rewrite E in H. injection H as <- _. by split.
Qed.

(** *** A status that is not busy *)

Definition idle (h : radar_hw) : Prop := status h <> RWNX_RADAR_CAC_BUSY /\ status h <> RWNX_RADAR_INSERVICE_BUSY.

Lemma dump_quiet p now h h' : dump_pulse jiffies_to_usecs p now h = Ok h' -> quiet h h' /\ dpds h' = dpds h /\ pl h' = pl h.
Proof.
  unfold dump_pulse. intros H. apply bind_Ok in H as (rm & _ & H). apply bind_Ok in H as (o & _ & H). apply bind_Ok in H as (d & _ & H).
  injection H as <-. by repeat split.
Qed.

Lemma process_chain_idle chain now time l h h' : idle h -> process_chain kmalloc jiffies_to_usecs chain now time l h = Ok h' ->
  quiet h h' /\ dpds h' = dpds h /\ pl h' = pl h.
Proof.
  intros [H1 H2]. destruct l as [|p l]; cbn [process_chain process_pulses]; [intros H; by injection H as <- |].
  intros H. apply bind_Ok in H as (h1 & E & H).
  assert (Hq : quiet h h1 /\ dpds h1 = dpds h /\ pl h1 = pl h) by (destruct chain; [by eapply dump_quiet | by injection E as <-]).
  assert (Hst : status h1 = status h) by by destruct Hq as [[] _].
  rewrite Hst, (proj2 (Z.eqb_neq _ _)), (proj2 (Z.eqb_neq _ _)) in H by done. cbn in H. by injection H as <-.
Qed.

Lemma process_idle now time h h' : idle h -> rwnx_radar_process_pulse kmalloc jiffies_to_usecs now time h = Ok h' ->
  quiet h h' /\ dpds h' = dpds h /\ pl h' = pl h.
Proof.
  intros Hi H. unfold rwnx_radar_process_pulse in H. apply bind_Ok in H as (riu & _ & H). apply bind_Ok in H as (fcu & _ & H).
  apply bind_Ok in H as (h1 & E1 & H). apply process_chain_idle in E1 as (Q1 & D1 & P1); [| exact Hi].
  apply process_chain_idle in H as (Q2 & D2 & P2); [| unfold idle; by rewrite (q_status _ _ Q1)].
  split; [| by rewrite D2, P2, D1, P1]. etrans; [| exact Q2]. etrans; [| exact Q1]. by split.
Qed.

(** The status and the CAC stay, and nothing is reported. *)
Record calm (h h' : radar_hw) : Prop := {
  c_status : status h' = status h;
  c_work : cac_work h' = cac_work h;
  c_vif : cac_vif h' = cac_vif h;
  c_outs : outs h' = outs h }.

#[global] Instance calm_refl : Reflexive calm.
Proof. by split. Qed.
#[global] Instance calm_trans : Transitive calm.
Proof. intros h1 h2 h3 [] []. split; congruence. Qed.

Lemma quiet_calm h h' : quiet h h' -> calm h h'.
Proof. by intros []. Qed.

Lemma link_calm vif idx d h : calm h (rwnx_chanctx_link vif idx d h).
Proof. unfold rwnx_chanctx_link. by destruct (NX_CHAN_CTXT_CNT <=? idx). Qed.

Lemma unlink_calm vif h h' : rwnx_chanctx_unlink vif h = Ok h' -> calm h h'.
Proof.
  unfold rwnx_chanctx_unlink. intros H. apply bind_Ok in H as (ch & _ & H).
  destruct (ch =? RWNX_CH_NOT_SET); [by injection H as <- |]. destruct (NX_CHAN_CTXT_CNT <=? ch); [by injection H as <- |].
  apply bind_Ok in H as (c & _ & H). cbv zeta in H. apply bind_Ok in H as (h1 & E & H).
  assert (Hc : calm h h1) by (destruct (_ && _); [by apply quiet_calm, (enable_quiet _ _ _ _ E) | by injection E as <-]).
  etrans; [exact Hc |]. by injection H as <-.
Qed.

(** The reports among the outputs. *)
Definition is_radar (o : out) : bool := match o with RadarEvent _ => true | _ => false end.
Definition is_cac (o : out) : bool := match o with CacEvent _ _ _ => true | _ => false end.
Definition radar_events (h : radar_hw) : Z := countb is_radar (outs h).
Definition cac_events (h : radar_hw) : Z := countb is_cac (outs h).
Definition in_progress (h : radar_hw) : Z := if cac_work h then 1 else 0.

(** A CAC is queued exactly when there is a vif for it. *)
Definition cac_inv (h : radar_hw) : Prop := cac_work h = true <-> cac_vif h <> None.

(** What an operation does to the account of the CACs: [n] are started. *)
Record accounts (n : Z) (h h' : radar_hw) : Prop := {
  a_status : status h' = status h;
  a_inv : cac_inv h';
  a_cac : cac_events h' + in_progress h' = cac_events h + in_progress h + n;
  a_radar : radar_events h' = radar_events h }.

Lemma calm_accounts h h' : cac_inv h -> calm h h' -> accounts 0 h h'.
Proof.
  intros Hi [H1 H2 H3 H4]. split; [done | | |]; unfold cac_inv, cac_events, in_progress, radar_events in *; rewrite ?H2, ?H3, ?H4; [done | lia | done].
Qed.

Lemma accounts_trans a b h1 h2 h3 : accounts a h1 h2 -> accounts b h2 h3 -> accounts (a + b) h1 h3.
Proof. intros [] []. split; try congruence. lia. Qed.

Lemma countb_snoc {A} (f : A -> bool) l x : countb f (l ++ [x]) = countb f l + (if f x then 1 else 0).
Proof. induction l as [|y l IH]; cbn; [lia |]. rewrite IH. lia. Qed.

(** A CAC that is over: its work is not queued, and its event is given. *)
Lemma cac_over vif h h1 h2 outs' : rwnx_chanctx_unlink vif h1 = Ok h2 -> status h1 = status h -> cac_work h1 = false -> cac_work h = true ->
  outs h1 = outs' -> countb is_cac outs' = cac_events h + 1 -> countb is_radar outs' = radar_events h -> accounts 0 h (h2 <| cac_vif := None |>).
Proof.
  intros Hu Hs Hw Hw0 Ho Hc Hr. destruct (unlink_calm _ _ _ Hu) as [U1 U2 U3 U4].
  split; unfold cac_inv, cac_events, in_progress, radar_events in *; cbn; rewrite ?U1, ?U2, ?U4, ?Hw, ?Hw0, ?Ho; [done | | lia | done].
  split; [done | by intros []].
Qed.

Lemma cancel_accounts h h' : cac_inv h -> rwnx_radar_cancel_cac h = Ok h' -> accounts 0 h h'.
Proof.
  intros Hi. unfold rwnx_radar_cancel_cac. destruct (cac_vif h) as [vif|] eqn:Ev; [| intros H; injection H as <-; by apply calm_accounts].
  assert (Hw : cac_work h = true) by (apply Hi; by rewrite Ev). rewrite Hw. intros H. apply bind_Ok in H as (h1 & H & E). injection E as <-.
  apply bind_Ok in H as (d & _ & H). eapply cac_over; [exact H | done.. | |]; cbn; rewrite !countb_snoc; cbn; unfold cac_events, radar_events; lia.
Qed.

Lemma work_accounts h h' : cac_inv h -> rwnx_radar_cac_work h = Ok h' -> accounts 0 h h'.
Proof.
  intros Hi. unfold rwnx_radar_cac_work, rwnx_radar_cac_work_test. destruct (cac_vif h) as [vif|] eqn:Ev.
  - assert (Hw : cac_work h = true) by (apply Hi; by rewrite Ev). unfold rwnx_radar_cac_work_rest. cbn [cac_vif upd]. intros H.
    apply bind_Ok in H as (v & _ & H). apply bind_Ok in H as (d & _ & H). apply bind_Ok in H as (h1 & H & E). injection E as <-.
    eapply cac_over; [exact H | done.. | |]; cbn; rewrite !countb_snoc; cbn; unfold cac_events, radar_events; lia.
  - intros H. injection H as <-. apply calm_accounts; [done |]. split; try done. cbn. destruct (cac_work h) eqn:E; [| done].
    by apply Hi in E.
Qed.

Lemma start_accounts vif d cfm h h' b : cac_work h = false -> rwnx_cfg80211_start_radar_detection vif d cfm h = Ok (h', b) -> accounts 1 h h'.
Proof.
  intros Hw. unfold rwnx_cfg80211_start_radar_detection. intros H. apply bind_Ok in H as ([st ch] & _ & H).
  set (h0 := rwnx_radar_start_cac vif h) in *. assert (H0 : accounts 1 h h0).
  { split; [done | by split | | done]. unfold cac_events, in_progress. cbn. rewrite Hw. lia. }
  replace 1 with (1 + 0) by lia. eapply accounts_trans; [exact H0 |]. apply calm_accounts; [apply (a_inv _ _ _ H0) |].
  destruct (st =? CO_OK); [| by injection H as <- _]. apply bind_Ok in H as (ch' & _ & H). apply bind_Ok in H as (h1 & E & H). injection H as <- _.
  etrans; [apply (link_calm vif ch (Some d)) |]. destruct (_ =? ch'); [by apply quiet_calm, (enable_quiet _ _ _ _ E) | by injection E as <-].
Qed.

Definition is_start (o : radar_op) : bool := match o with OpStartCac _ _ _ => true | _ => false end.

Lemma fst_res_Ok {A B} (m : res (A * B)) a : fst_res m = Ok a -> exists b, m = Ok (a, b).
Proof. destruct m as [[x y]| |]; cbn; [intros H; injection H as <-; by eexists | done | done]. Qed.

Lemma run_op_accounts o h h' : idle h -> cac_inv h -> (is_start o = true -> cac_work h = false) -> run_op o h = Ok h' ->
  accounts (if is_start o then 1 else 0) h h'.
Proof.
  intros Hid Hi Hst. destruct o; cbn [run_op is_start] in *; intros H.
  - apply calm_accounts; [done |]. by eapply quiet_calm, detect_ind_quiet.
  - apply calm_accounts; [done |]. by apply quiet_calm, (process_idle _ _ _ _ Hid H).
  - apply calm_accounts; [done |]. by eapply quiet_calm, enable_quiet.
  - apply calm_accounts; [done |]. by eapply quiet_calm, switch_quiet.
  - apply calm_accounts; [done |]. injection H as <-. apply link_calm.
  - apply calm_accounts; [done |]. by eapply unlink_calm.
  - apply fst_res_Ok in H as [b H]. eapply start_accounts; [by apply Hst | exact H].
  - by apply cancel_accounts.
  - by apply work_accounts.
  - apply bind_Ok in H as (h1 & E & H). pose proof (calm_accounts _ _ Hi (unlink_calm _ _ _ E)) as A.
    apply (accounts_trans 0 0 _ _ _ A). apply cancel_accounts; [apply (a_inv _ _ _ A) | done].
  - apply bind_Ok in H as (h1 & E & H). apply (cancel_accounts _ _ Hi) in E as A. apply (accounts_trans 0 0 _ _ _ A).
    apply calm_accounts; [apply (a_inv _ _ _ A) |]. by eapply unlink_calm.
  - apply fst_res_Ok in H as [b H]. apply calm_accounts; [done |]. by eapply quiet_calm, set_domain_quiet.
Qed.

(** cfg80211 starts no CAC while one is running. *)
Fixpoint one_at_a_time (l : list radar_op) (h : radar_hw) : Prop :=
  match l with
  | [] => True
  | o :: l => (is_start o = true -> cac_work h = false) /\ match run_op o h with Ok h' => one_at_a_time l h' | _ => True end
  end.

Lemma run_accounts l : forall h h', idle h -> cac_inv h -> one_at_a_time l h -> run_ops l h = Ok h' ->
  accounts (countb is_start l) h h'.
Proof.
  induction l as [|o l IH]; intros h h' Hid Hi Hone H; cbn [run_ops countb] in *.
  - injection H as <-. apply calm_accounts; [done | reflexivity].
  - apply bind_Ok in H as (h1 & E & H). destruct Hone as [H1 Hone]. rewrite E in Hone.
    pose proof (run_op_accounts o h h1 Hid Hi H1 E) as A. eapply accounts_trans; [exact A |].
    apply IH; [| apply (a_inv _ _ _ A) | done..]. unfold idle. by rewrite (a_status _ _ _ A).
Qed.

End Runs.

(** C24. Over every run of messages, work items, channel switches, links and cfg80211
    calls, with the work of the CAC running in one piece and at most one CAC started at
    a time: a CAC is queued exactly when a vif is noted for it, and the CACs started are
    exactly those reported finished or aborted plus the one in progress. *)
Theorem cac_accounting kmalloc jiffies_to_usecs l h h' : idle h -> cac_inv h -> one_at_a_time kmalloc jiffies_to_usecs l h ->
  run_ops kmalloc jiffies_to_usecs l h = Ok h' ->
  cac_inv h' /\ cac_events h' + in_progress h' = cac_events h + in_progress h + countb is_start l.
Proof. intros H1 H2 H3 H4. destruct (run_accounts _ _ l h h' H1 H2 H3 H4). done. Qed.

(** From a state with the radar status that rwnx_radar_detection_init sets, no run
    of the operations of the driver changes the status or reports a radar to cfg80211,
    whatever pulses come: the status is only set by code this build leaves out. *)
Theorem idle_status_reports_no_radar kmalloc jiffies_to_usecs l h h' : status h = RWNX_RADAR_IDLE -> cac_inv h ->
  one_at_a_time kmalloc jiffies_to_usecs l h -> run_ops kmalloc jiffies_to_usecs l h = Ok h' ->
  status h' = RWNX_RADAR_IDLE /\ radar_events h' = radar_events h.
Proof.
  intros Hs H2 H3 H4. assert (H1 : idle h) by (unfold idle; by rewrite Hs).
  destruct (run_accounts _ _ l h h' H1 H2 H3 H4) as [A _ _ B]. by rewrite A, Hs.
Qed.

(** ** A CAC without a channel context *)

Lemma vif_def_unset vif h : ch_index h !! vif = Some RWNX_CH_NOT_SET -> length (chanctx_table h) = Z.to_nat NX_CHAN_CTXT_CNT -> vif_def vif h = Fault.
Proof. intros H1 H2. unfold vif_def. rewrite H1. cbn -[at_]. rewrite at_beyond; [done |]. rewrite H2. by vm_compute. Qed.

Lemma cac_unset_faults vif h : cac_vif h = Some vif -> cac_work h = true -> ch_index h !! vif = Some RWNX_CH_NOT_SET ->
  length (chanctx_table h) = Z.to_nat NX_CHAN_CTXT_CNT -> rwnx_radar_cac_work h = Fault /\ rwnx_radar_cancel_cac h = Fault.
Proof.
  intros Hv Hw Hc Hl. split.
  - unfold rwnx_radar_cac_work, rwnx_radar_cac_work_test. rewrite Hv. unfold rwnx_radar_cac_work_rest. cbn [cac_vif upd]. rewrite Hv. cbn.
    rewrite vif_def_unset; [done | exact Hc | exact Hl].
  - unfold rwnx_radar_cancel_cac. rewrite Hv, Hw. cbv zeta. rewrite vif_def_unset; [done | exact Hc | exact Hl].
Qed.

(** When the firmware refuses a CAC the call returns an error but leaves the CAC
    queued for a vif without a channel context: when its time is over, and when it is
    cancelled, the driver reads the channel table at index 255 of 3. *)
Theorem refused_cac_faults vif d st ch h : st <> CO_OK -> ch_index h !! vif = Some RWNX_CH_NOT_SET ->
  length (chanctx_table h) = Z.to_nat NX_CHAN_CTXT_CNT ->
  exists h', rwnx_cfg80211_start_radar_detection vif d (Some (st, ch)) h = Ok (h', false) /\
    rwnx_radar_cac_work h' = Fault /\ rwnx_radar_cancel_cac h' = Fault.
Proof.
  intros Hst Hc Hl. exists (rwnx_radar_start_cac vif h). split; [| by apply (cac_unset_faults vif)].
  unfold rwnx_cfg80211_start_radar_detection. cbn. by rewrite (proj2 (Z.eqb_neq _ _)).
Qed.

(** rwnx_cfg80211_leave_mesh unlinks the vif before it cancels its CAC. *)
Lemma leave_mesh_during_cac vif ch h h1 : cac_vif h = Some vif -> cac_work h = true -> ch_index h !! vif = Some ch -> 0 <= ch < NX_CHAN_CTXT_CNT ->
  length (chanctx_table h) = Z.to_nat NX_CHAN_CTXT_CNT -> rwnx_chanctx_unlink vif h = Ok h1 -> leave_mesh_cac vif h = Fault.
Proof.
  intros Hv Hw Hc Hr Hl Hu. unfold leave_mesh_cac. rewrite Hu. cbn. destruct (unlink_calm _ _ _ Hu) as [_ U2 U3 _].
  assert (Hu' : ch_index h1 !! vif = Some RWNX_CH_NOT_SET /\ length (chanctx_table h1) = Z.to_nat NX_CHAN_CTXT_CNT).
  { unfold rwnx_chanctx_unlink in Hu. rewrite Hc in Hu. cbn -[at_ rwnx_radar_detection_enable] in Hu. unfold RWNX_CH_NOT_SET, NX_CHAN_CTXT_CNT in *.
    destruct (Z.eqb_spec ch 255); [lia |]. destruct (Z.leb_spec 3 ch); [lia |].
    apply bind_Ok in Hu as (c & _ & Hu). cbv zeta in Hu. apply bind_Ok in Hu as (h2 & E & Hu).
    assert (Hq : chanctx_table h2 = chanctx_table h /\ ch_index h2 = ch_index h).
    { destruct (_ && _); [apply enable_quiet in E; by destruct E | by injection E as <-]. }
    destruct Hq as [Q1 Q2]. injection Hu as <-. cbn. rewrite Q1, Q2, length_insert. split; [| done].
    apply list_lookup_insert_eq. by eapply lookup_lt_Some. }
  destruct Hu' as [H1 H2]. apply (cac_unset_faults vif); congruence.
Qed.

(** A cancellation between the test of cac_vif and its uses in the work of the CAC
    finds the work no longer queued, reports nothing and clears cac_vif; the work then
    follows the NULL pointer. *)
Theorem cac_cancel_race vif h : cac_vif h = Some vif ->
  let '(h1, go) := rwnx_radar_cac_work_test h in
  go = true /\ exists h2, rwnx_radar_cancel_cac h1 = Ok h2 /\ outs h2 = outs h /\ rwnx_radar_cac_work_rest h2 = Fault.
Proof.
  intros Hv. unfold rwnx_radar_cac_work_test. rewrite Hv. split; [done |].
  unfold rwnx_radar_cancel_cac. cbn [cac_vif cac_work upd]. rewrite Hv. by eexists.
Qed.

(** ** A run *)

Module Example.

Definition kmalloc (n : nat) : option pri_sequence := Some (Pseq 0 0 0 0 0 0 0 0).

(** The zeroed rwnx_hw, with two vifs. *)
Definition zeroed : radar_hw :=
  Hw (replicate 2 empty_ring) [None; None] (replicate 2 (Det 0 0 (replicate 4 0) (replicate 4 0))) RmNull 0 false false None
     (replicate 3 (Ctx (ChanDef None 0) 0)) 255 [RWNX_CH_NOT_SET; RWNX_CH_NOT_SET] 0 (Pools 0 [] 0 0) [].

Definition hw : radar_hw := match rwnx_radar_detection_init kmalloc 0 zeroed with Ok (h, true) => h | _ => zeroed end.

Definition dfs_chan : chan_def := ChanDef (Some true) 5500.

(** A CAC that is cancelled, then one that ends, with pulses in between. *)
Definition ops : list radar_op :=
  [OpSetDomain NL80211_DFS_FCC; OpChanSwitch 1; OpStartCac 0 dfs_chan (Some (0, 1)); OpDetectInd [1; 2; 3; 4] 0 4; OpProcess 5 7;
   OpCancelCac; OpStartCac 1 dfs_chan (Some (0, 2)); OpCacWork; OpStopAp 1].

Lemma cac_accounting_witness : exists h, run_ops kmalloc (fun j => j) ops hw = Ok h /\ cac_events h = 2 /\ in_progress h = 0.
Proof.
  assert (Hr : exists h, run_ops kmalloc (fun j => j) ops hw = Ok h /\ cac_work h = false) by (vm_compute; by eexists).
  destruct Hr as (h & Hr & Hw). exists h. assert (Hp : in_progress h = 0) by (unfold in_progress; by rewrite Hw).
  assert (Hone : one_at_a_time kmalloc (fun j => j) ops hw) by (vm_compute; repeat (split; [intros H; first [discriminate H | reflexivity] |]); exact I).
  destruct (cac_accounting kmalloc (fun j => j) ops hw h ltac:(by vm_compute) ltac:(by vm_compute) Hone Hr) as [_ Ha].
  split; [exact Hr |]. split; [| exact Hp]. rewrite Hp in Ha. change (cac_events hw) with 0 in Ha. change (in_progress hw) with 0 in Ha.
  change (countb is_start ops) with 2 in Ha. lia.
Defined.

Lemma idle_status_reports_no_radar_witness : exists h, run_ops kmalloc (fun j => j) ops hw = Ok h /\ radar_events h = 0.
Proof.
  assert (Hr : exists h, run_ops kmalloc (fun j => j) ops hw = Ok h) by (vm_compute; by eexists).
  destruct Hr as (h & Hr). exists h. split; [exact Hr |].
  destruct (idle_status_reports_no_radar kmalloc (fun j => j) ops hw h eq_refl ltac:(by vm_compute) ltac:(vm_compute; repeat (split; [intros H; first [discriminate H | reflexivity] |]); exact I) Hr) as [_ Ha].
  exact Ha.
Defined.

(** The pulses of a burst of FCC type 0, nine times 1428 us, of width 4. *)
Definition burst_pulse : Z := Z.lor (Z.shiftl 1428 16) (Z.shiftl 2 10).
Definition in_service (h : radar_hw) : radar_hw := h <| status := RWNX_RADAR_INSERVICE_BUSY |>.
Definition burst_ops : list radar_op :=
  [OpSetDomain NL80211_DFS_FCC; OpChanSwitch 1; OpStartCac 0 dfs_chan (Some (0, 1)); OpDetectInd (replicate 4 burst_pulse) 0 4;
   OpDetectInd (replicate 4 burst_pulse) 0 4; OpDetectInd (replicate 4 burst_pulse) 0 4; OpProcess 5 7].

(** The build's status drops the burst; with a status that is busy it is
    reported, and the CAC is aborted first. *)
Example burst_is_dropped : exists h, run_ops kmalloc (fun j => j) burst_ops hw = Ok h /\ outs h = [].
Proof. eexists. split; [by vm_compute | done]. Qed.
Example burst_is_reported : exists h, run_ops kmalloc (fun j => j) burst_ops (in_service hw) = Ok h /\
  outs h = [StopCacReq 0; CacEvent 0 dfs_chan false; RadarEvent dfs_chan].
Proof. eexists. split; [by vm_compute | done]. Qed.

Lemma detect_ind_queues_witness : exists p', rwnx_radar_detect_ind [7; 8; 9; 10] (Z.of_nat 0)
    3 (hw <| dpds ::= <[0%nat := Some (Dpd 2 NL80211_DFS_FCC 0 0 [] [])]> |>) =
    Ok (hw <| dpds ::= <[0%nat := Some (Dpd 2 NL80211_DFS_FCC 0 0 [] [])]> |> <| rings ::= <[0%nat := p']> |> <| work := true |>) /\
  copy_pulses p' = [7; 8; 9].
Proof.
  destruct (detect_ind_queues (hw <| dpds ::= <[0%nat := Some (Dpd 2 NL80211_DFS_FCC 0 0 [] [])]> |>) 0 [7; 8; 9; 10] 3 empty_ring
              (Dpd 2 NL80211_DFS_FCC 0 0 [] [])) as (p' & E & _ & Hc).
  - split; [done | done | done].
  - done.
  - done.
  - lia.
  - done.
  - done.
  - done.
  - exists p'. split; [exact E | exact Hc].
Defined.

Lemma refused_cac_faults_witness : exists h', rwnx_cfg80211_start_radar_detection 0 dfs_chan (Some (1, 0)) hw = Ok (h', false) /\
  rwnx_radar_cac_work h' = Fault /\ rwnx_radar_cancel_cac h' = Fault.
Proof. apply (refused_cac_faults 0 dfs_chan 1 0 hw); [discriminate | reflexivity | reflexivity]. Defined.

Lemma cac_cancel_race_witness : let h := rwnx_radar_start_cac 0 hw in cac_vif h = Some 0%nat /\
  exists h2, rwnx_radar_cancel_cac (rwnx_radar_cac_work_test h).1 = Ok h2 /\ rwnx_radar_cac_work_rest h2 = Fault.
Proof.
  pose proof (cac_cancel_race 0 (rwnx_radar_start_cac 0 hw) eq_refl) as (_ & h2 & H1 & _ & H2).
  split; [reflexivity |]. exists h2. split; [exact H1 | exact H2].
Defined.

(** After an initialisation that fails half way, the end of the driver frees
    rmem once more. *)
Definition kmalloc_second_fails (n : nat) : option pri_sequence := if (n =? 1)%nat then None else kmalloc n.
Example rmem_freed_twice : exists h, rwnx_radar_detection_init kmalloc_second_fails 0 zeroed = Ok (h, false) /\ rwnx_radar_detection_deinit h = Fault.
Proof. eexists. split; [by vm_compute | by vm_compute]. Qed.

End Example.

End RadarRuns.
