(* ===== verification/Conf.v ===== *)
(** * The user configuration (rwnx_platform.c; the structures of lmac_msg.h)

    aic_userconfig_*.txt has lines "key=value" and comments.  The three parsers
    for the DC, D80 and D80X2 chips are one state machine over the bytes of the
    file with two buffers on the stack; what they recognise goes through a table
    of keys into [userconfig_info].  The parsers are [parsing] with the sizes,
    filter and table of each.

    Bytes are [Z], text a list of bytes, a C string the bytes before the zero.
    A [loc] names a member of [userconfig_info]; an array of arrays is one
    array, rows first.  A write outside a buffer, and reading a buffer as a
    string that has no zero, is a [Fault]. *)

From S2P Require Import Prelude.
From Stdlib Require Import String Ascii.
From stdpp Require Import list.
Open Scope Z_scope.
Open Scope list_scope.

Module Conf.

(** ** Text *)

(** The C string in an array. *)
Fixpoint cstr (a : list Z) : res (list Z) :=
  match a with
  | [] => Fault
  | b :: a' => if b =? 0 then Ok [] else r ← cstr a'; Ok (b :: r)
  end.

Definition is_digit (b : Z) : bool := (48 <=? b) && (b <=? 57).

(** The loop of rwnx_atoi; the kernel is built with wrapping signed arithmetic. *)
Fixpoint atoi_loop (value : list Z) (result : Z) : Z :=
  match value with
  | [] => result
  | b :: value' =>
    let result := s32 (result * 10) in
    if is_digit b then atoi_loop value' (s32 (result + (b - 48))) else 0
  end.

Definition rwnx_atoi (value : list Z) : Z :=
  match value with
  | 45 :: value' => s32 (atoi_loop value' 0 * -1)
  | _ => s32 (atoi_loop value 0 * 1)
  end.

(** ** The configuration *)

Record txpwr_lvl_conf_t := Mk_lvl {
  lvl_enable : Z; lvl_dsss : Z; lvl_ofdmlowrate_2g4 : Z; lvl_ofdm64qam_2g4 : Z; lvl_ofdm256qam_2g4 : Z;
  lvl_ofdm1024qam_2g4 : Z; lvl_ofdmlowrate_5g : Z; lvl_ofdm64qam_5g : Z; lvl_ofdm256qam_5g : Z;
  lvl_ofdm1024qam_5g : Z
}.
#[export] Instance eta_lvl : Settable txpwr_lvl_conf_t := fun r =>
    Mk_lvl r.(lvl_enable) r.(lvl_dsss) r.(lvl_ofdmlowrate_2g4) r.(lvl_ofdm64qam_2g4) r.(lvl_ofdm256qam_2g4)
  r.(lvl_ofdm1024qam_2g4) r.(lvl_ofdmlowrate_5g) r.(lvl_ofdm64qam_5g) r.(lvl_ofdm256qam_5g) r.(lvl_ofdm1024qam_5g).

Record txpwr_lvl_conf_v2_t := Mk_v2 {
  v2_enable : Z; v2_pwrlvl_11b_11ag_2g4 : list Z; v2_pwrlvl_11n_11ac_2g4 : list Z; v2_pwrlvl_11ax_2g4 : list Z
}.
#[export] Instance eta_v2 : Settable txpwr_lvl_conf_v2_t := fun r =>
    Mk_v2 r.(v2_enable) r.(v2_pwrlvl_11b_11ag_2g4) r.(v2_pwrlvl_11n_11ac_2g4) r.(v2_pwrlvl_11ax_2g4).

Record txpwr_lvl_conf_v3_t := Mk_v3 {
  v3_enable : Z; v3_pwrlvl_11b_11ag_2g4 : list Z; v3_pwrlvl_11n_11ac_2g4 : list Z; v3_pwrlvl_11ax_2g4 : list Z;
  v3_pwrlvl_11a_5g : list Z; v3_pwrlvl_11n_11ac_5g : list Z; v3_pwrlvl_11ax_5g : list Z
}.
#[export] Instance eta_v3 : Settable txpwr_lvl_conf_v3_t := fun r =>
    Mk_v3 r.(v3_enable) r.(v3_pwrlvl_11b_11ag_2g4) r.(v3_pwrlvl_11n_11ac_2g4) r.(v3_pwrlvl_11ax_2g4)
  r.(v3_pwrlvl_11a_5g) r.(v3_pwrlvl_11n_11ac_5g) r.(v3_pwrlvl_11ax_5g).

Record txpwr_lvl_conf_v4_t := Mk_v4 {
  v4_enable : Z; v4_pwrlvl_11b_11ag_2g4 : list Z; v4_pwrlvl_11n_11ac_2g4 : list Z; v4_pwrlvl_11ax_2g4 : list Z;
  v4_pwrlvl_11a_5g : list Z; v4_pwrlvl_11n_11ac_5g : list Z; v4_pwrlvl_11ax_5g : list Z; v4_pwrlvl_11a_6g : list Z;
  v4_pwrlvl_11n_11ac_6g : list Z; v4_pwrlvl_11ax_6g : list Z
}.
#[export] Instance eta_v4 : Settable txpwr_lvl_conf_v4_t := fun r =>
    Mk_v4 r.(v4_enable) r.(v4_pwrlvl_11b_11ag_2g4) r.(v4_pwrlvl_11n_11ac_2g4) r.(v4_pwrlvl_11ax_2g4)
  r.(v4_pwrlvl_11a_5g) r.(v4_pwrlvl_11n_11ac_5g) r.(v4_pwrlvl_11ax_5g) r.(v4_pwrlvl_11a_6g)
  r.(v4_pwrlvl_11n_11ac_6g) r.(v4_pwrlvl_11ax_6g).

Record txpwr_lvl_adj_conf_t := Mk_adj {
  adj_enable : Z; adj_pwrlvl_adj_tbl_2g4 : list Z; adj_pwrlvl_adj_tbl_5g : list Z
}.
#[export] Instance eta_adj : Settable txpwr_lvl_adj_conf_t := fun r =>
    Mk_adj r.(adj_enable) r.(adj_pwrlvl_adj_tbl_2g4) r.(adj_pwrlvl_adj_tbl_5g).

Record txpwr_loss_conf_t := Mk_loss {
  loss_enable_2g4 : Z; loss_value_2g4 : Z; loss_enable_5g : Z; loss_value_5g : Z
}.
#[export] Instance eta_loss : Settable txpwr_loss_conf_t := fun r =>
    Mk_loss r.(loss_enable_2g4) r.(loss_value_2g4) r.(loss_enable_5g) r.(loss_value_5g).

Record txpwr_ofst_conf_t := Mk_ofst {
  ofst_enable : Z; ofst_chan_1_4 : Z; ofst_chan_5_9 : Z; ofst_chan_10_13 : Z; ofst_chan_36_64 : Z;
  ofst_chan_100_120 : Z; ofst_chan_122_140 : Z; ofst_chan_142_165 : Z
}.
#[export] Instance eta_ofst : Settable txpwr_ofst_conf_t := fun r =>
    Mk_ofst r.(ofst_enable) r.(ofst_chan_1_4) r.(ofst_chan_5_9) r.(ofst_chan_10_13) r.(ofst_chan_36_64)
  r.(ofst_chan_100_120) r.(ofst_chan_122_140) r.(ofst_chan_142_165).

Record txpwr_ofst2x_conf_t := Mk_ofst2x {
  ofst2x_enable : Z; ofst2x_pwrofst2x_tbl_2g4 : list Z; ofst2x_pwrofst2x_tbl_5g : list Z
}.
#[export] Instance eta_ofst2x : Settable txpwr_ofst2x_conf_t := fun r =>
    Mk_ofst2x r.(ofst2x_enable) r.(ofst2x_pwrofst2x_tbl_2g4) r.(ofst2x_pwrofst2x_tbl_5g).

Record txpwr_ofst2x_conf_v2_t := Mk_ofst2x_v2 {
  ofst2x_v2_enable : Z; ofst2x_v2_pwrofst_flags : Z; ofst2x_v2_pwrofst2x_tbl_2g4_ant0 : list Z;
  ofst2x_v2_pwrofst2x_tbl_2g4_ant1 : list Z; ofst2x_v2_pwrofst2x_tbl_5g_ant0 : list Z;
  ofst2x_v2_pwrofst2x_tbl_5g_ant1 : list Z; ofst2x_v2_pwrofst2x_tbl_6g_ant0 : list Z;
  ofst2x_v2_pwrofst2x_tbl_6g_ant1 : list Z
}.
#[export] Instance eta_ofst2x_v2 : Settable txpwr_ofst2x_conf_v2_t := fun r =>
    Mk_ofst2x_v2 r.(ofst2x_v2_enable) r.(ofst2x_v2_pwrofst_flags) r.(ofst2x_v2_pwrofst2x_tbl_2g4_ant0)
  r.(ofst2x_v2_pwrofst2x_tbl_2g4_ant1) r.(ofst2x_v2_pwrofst2x_tbl_5g_ant0) r.(ofst2x_v2_pwrofst2x_tbl_5g_ant1)
  r.(ofst2x_v2_pwrofst2x_tbl_6g_ant0) r.(ofst2x_v2_pwrofst2x_tbl_6g_ant1).

Record xtal_cap_conf_t := Mk_xtal {
  xtal_enable : Z; xtal_xtal_cap : Z; xtal_xtal_cap_fine : Z
}.
#[export] Instance eta_xtal : Settable xtal_cap_conf_t := fun r =>
    Mk_xtal r.(xtal_enable) r.(xtal_xtal_cap) r.(xtal_xtal_cap_fine).

Record userconfig_info_t := Mk_userconfig {
  txpwr_lvl : txpwr_lvl_conf_t; txpwr_lvl_v2 : txpwr_lvl_conf_v2_t; txpwr_lvl_v3 : txpwr_lvl_conf_v3_t;
  txpwr_lvl_v4 : txpwr_lvl_conf_v4_t; txpwr_lvl_adj : txpwr_lvl_adj_conf_t; txpwr_loss : txpwr_loss_conf_t;
  txpwr_ofst : txpwr_ofst_conf_t; txpwr_ofst2x : txpwr_ofst2x_conf_t; txpwr_ofst2x_v2 : txpwr_ofst2x_conf_v2_t;
  uc_xtal_cap : xtal_cap_conf_t
}.
#[export] Instance eta_userconfig : Settable userconfig_info_t := fun r =>
    Mk_userconfig r.(txpwr_lvl) r.(txpwr_lvl_v2) r.(txpwr_lvl_v3) r.(txpwr_lvl_v4) r.(txpwr_lvl_adj) r.(txpwr_loss)
  r.(txpwr_ofst) r.(txpwr_ofst2x) r.(txpwr_ofst2x_v2) r.(uc_xtal_cap).

Definition userconfig_info : userconfig_info_t := Mk_userconfig
  (Mk_lvl 1 9 8 8 8 8 11 10 9 9)
  (Mk_v2 1 [20; 20; 20; 20; 20; 20; 20; 20; 18; 18; 16; 16] [20; 20; 20; 20; 18; 18; 16; 16; 16; 16]
  [20; 20; 20; 20; 18; 18; 16; 16; 16; 16; 15; 15])
  (Mk_v3 1 [20; 20; 20; 20; 20; 20; 20; 20; 18; 18; 16; 16] [20; 20; 20; 20; 18; 18; 16; 16; 16; 16]
  [20; 20; 20; 20; 18; 18; 16; 16; 16; 16; 15; 15] [-128; -128; -128; -128; 20; 20; 20; 20; 18; 18; 16; 16]
  [20; 20; 20; 20; 18; 18; 16; 16; 16; 15] [20; 20; 20; 20; 18; 18; 16; 16; 16; 15; 14; 14])
  (Mk_v4 1 [20; 20; 20; 20; 20; 20; 20; 20; 18; 18; 16; 16] [20; 20; 20; 20; 18; 18; 16; 16; 16; 16]
  [20; 20; 20; 20; 18; 18; 16; 16; 16; 16; 15; 15] [20; 20; 20; 20; 18; 18; 16; 16]
  [20; 20; 20; 20; 18; 18; 16; 16; 16; 15] [20; 20; 20; 20; 18; 18; 16; 16; 16; 15; 14; 14]
  [0; 0; 0; 0; 0; 0; 0; 0] [0; 0; 0; 0; 0; 0; 0; 0; 0; 0] [0; 0; 0; 0; 0; 0; 0; 0; 0; 0; 0; 0])
  (Mk_adj 0 [0; 0; 0] [0; 0; 0; 0; 0; 0])
  (Mk_loss 0 0 0 0)
  (Mk_ofst 1 0 0 0 0 0 0 0)
  (Mk_ofst2x 0 [0; 0; 0; 0; 0; 0; 0; 0; 0] [0; 0; 0; 0; 0; 0; 0; 0; 0; 0; 0; 0; 0; 0; 0; 0; 0; 0])
  (Mk_ofst2x_v2 0 0 [0; 0; 0; 0; 0; 0; 0; 0; 0] [0; 0; 0; 0; 0; 0; 0; 0; 0]
  [0; 0; 0; 0; 0; 0; 0; 0; 0; 0; 0; 0; 0; 0; 0; 0; 0; 0] [0; 0; 0; 0; 0; 0; 0; 0; 0; 0; 0; 0; 0; 0; 0; 0; 0; 0]
  [0; 0; 0; 0; 0; 0; 0; 0; 0; 0; 0; 0; 0; 0; 0] [0; 0; 0; 0; 0; 0; 0; 0; 0; 0; 0; 0; 0; 0; 0])
  (Mk_xtal 0 24 31).

Inductive loc :=
| Lvl_enable | Lvl_dsss | Lvl_ofdmlowrate_2g4 | Lvl_ofdm64qam_2g4 | Lvl_ofdm256qam_2g4 | Lvl_ofdm1024qam_2g4
| Lvl_ofdmlowrate_5g | Lvl_ofdm64qam_5g | Lvl_ofdm256qam_5g | Lvl_ofdm1024qam_5g
| V2_enable | V2_pwrlvl_11b_11ag_2g4 (i : nat) | V2_pwrlvl_11n_11ac_2g4 (i : nat) | V2_pwrlvl_11ax_2g4 (i : nat)
| V3_enable | V3_pwrlvl_11b_11ag_2g4 (i : nat) | V3_pwrlvl_11n_11ac_2g4 (i : nat) | V3_pwrlvl_11ax_2g4 (i : nat)
| V3_pwrlvl_11a_5g (i : nat) | V3_pwrlvl_11n_11ac_5g (i : nat) | V3_pwrlvl_11ax_5g (i : nat)
| V4_enable | V4_pwrlvl_11b_11ag_2g4 (i : nat) | V4_pwrlvl_11n_11ac_2g4 (i : nat) | V4_pwrlvl_11ax_2g4 (i : nat)
| V4_pwrlvl_11a_5g (i : nat) | V4_pwrlvl_11n_11ac_5g (i : nat) | V4_pwrlvl_11ax_5g (i : nat)
| V4_pwrlvl_11a_6g (i : nat) | V4_pwrlvl_11n_11ac_6g (i : nat) | V4_pwrlvl_11ax_6g (i : nat)
| Adj_enable | Adj_pwrlvl_adj_tbl_2g4 (i : nat) | Adj_pwrlvl_adj_tbl_5g (i : nat)
| Loss_loss_enable_2g4 | Loss_loss_value_2g4 | Loss_loss_enable_5g | Loss_loss_value_5g
| Ofst_enable | Ofst_chan_1_4 | Ofst_chan_5_9 | Ofst_chan_10_13 | Ofst_chan_36_64 | Ofst_chan_100_120
| Ofst_chan_122_140 | Ofst_chan_142_165
| Ofst2x_enable | Ofst2x_pwrofst2x_tbl_2g4 (i : nat) | Ofst2x_pwrofst2x_tbl_5g (i : nat)
| Ofst2xV2_enable | Ofst2xV2_pwrofst_flags | Ofst2xV2_pwrofst2x_tbl_2g4_ant0 (i : nat)
| Ofst2xV2_pwrofst2x_tbl_2g4_ant1 (i : nat) | Ofst2xV2_pwrofst2x_tbl_5g_ant0 (i : nat)
| Ofst2xV2_pwrofst2x_tbl_5g_ant1 (i : nat) | Ofst2xV2_pwrofst2x_tbl_6g_ant0 (i : nat)
| Ofst2xV2_pwrofst2x_tbl_6g_ant1 (i : nat)
| Xtal_enable | Xtal_xtal_cap | Xtal_xtal_cap_fine.

#[export] Instance loc_eq_dec : EqDecision loc.
Proof. solve_decision. Defined.

(** What an assignment to the member stores. *)
Definition cast (l : loc) (v : Z) : Z :=
  match l with
  | Lvl_enable | Lvl_dsss | Lvl_ofdmlowrate_2g4 | Lvl_ofdm64qam_2g4 | Lvl_ofdm256qam_2g4 | Lvl_ofdm1024qam_2g4
  | Lvl_ofdmlowrate_5g | Lvl_ofdm64qam_5g | Lvl_ofdm256qam_5g | Lvl_ofdm1024qam_5g | V2_enable | V3_enable
  | V4_enable | Adj_enable | Loss_loss_enable_2g4 | Loss_loss_enable_5g | Ofst_enable | Ofst2xV2_enable
  | Ofst2xV2_pwrofst_flags | Xtal_enable | Xtal_xtal_cap | Xtal_xtal_cap_fine => u8 v
  | _ => s8 v
  end.

Definition at_idx (i : nat) (l : list Z) : Z := nth i l 0.

Definition get (l : loc) (c : userconfig_info_t) : Z :=
  match l with
  | Lvl_enable => lvl_enable (txpwr_lvl c)
  | Lvl_dsss => lvl_dsss (txpwr_lvl c)
  | Lvl_ofdmlowrate_2g4 => lvl_ofdmlowrate_2g4 (txpwr_lvl c)
  | Lvl_ofdm64qam_2g4 => lvl_ofdm64qam_2g4 (txpwr_lvl c)
  | Lvl_ofdm256qam_2g4 => lvl_ofdm256qam_2g4 (txpwr_lvl c)
  | Lvl_ofdm1024qam_2g4 => lvl_ofdm1024qam_2g4 (txpwr_lvl c)
  | Lvl_ofdmlowrate_5g => lvl_ofdmlowrate_5g (txpwr_lvl c)
  | Lvl_ofdm64qam_5g => lvl_ofdm64qam_5g (txpwr_lvl c)
  | Lvl_ofdm256qam_5g => lvl_ofdm256qam_5g (txpwr_lvl c)
  | Lvl_ofdm1024qam_5g => lvl_ofdm1024qam_5g (txpwr_lvl c)
  | V2_enable => v2_enable (txpwr_lvl_v2 c)
  | V2_pwrlvl_11b_11ag_2g4 i => at_idx i (v2_pwrlvl_11b_11ag_2g4 (txpwr_lvl_v2 c))
  | V2_pwrlvl_11n_11ac_2g4 i => at_idx i (v2_pwrlvl_11n_11ac_2g4 (txpwr_lvl_v2 c))
  | V2_pwrlvl_11ax_2g4 i => at_idx i (v2_pwrlvl_11ax_2g4 (txpwr_lvl_v2 c))
  | V3_enable => v3_enable (txpwr_lvl_v3 c)
  | V3_pwrlvl_11b_11ag_2g4 i => at_idx i (v3_pwrlvl_11b_11ag_2g4 (txpwr_lvl_v3 c))
  | V3_pwrlvl_11n_11ac_2g4 i => at_idx i (v3_pwrlvl_11n_11ac_2g4 (txpwr_lvl_v3 c))
  | V3_pwrlvl_11ax_2g4 i => at_idx i (v3_pwrlvl_11ax_2g4 (txpwr_lvl_v3 c))
  | V3_pwrlvl_11a_5g i => at_idx i (v3_pwrlvl_11a_5g (txpwr_lvl_v3 c))
  | V3_pwrlvl_11n_11ac_5g i => at_idx i (v3_pwrlvl_11n_11ac_5g (txpwr_lvl_v3 c))
  | V3_pwrlvl_11ax_5g i => at_idx i (v3_pwrlvl_11ax_5g (txpwr_lvl_v3 c))
  | V4_enable => v4_enable (txpwr_lvl_v4 c)
  | V4_pwrlvl_11b_11ag_2g4 i => at_idx i (v4_pwrlvl_11b_11ag_2g4 (txpwr_lvl_v4 c))
  | V4_pwrlvl_11n_11ac_2g4 i => at_idx i (v4_pwrlvl_11n_11ac_2g4 (txpwr_lvl_v4 c))
  | V4_pwrlvl_11ax_2g4 i => at_idx i (v4_pwrlvl_11ax_2g4 (txpwr_lvl_v4 c))
  | V4_pwrlvl_11a_5g i => at_idx i (v4_pwrlvl_11a_5g (txpwr_lvl_v4 c))
  | V4_pwrlvl_11n_11ac_5g i => at_idx i (v4_pwrlvl_11n_11ac_5g (txpwr_lvl_v4 c))
  | V4_pwrlvl_11ax_5g i => at_idx i (v4_pwrlvl_11ax_5g (txpwr_lvl_v4 c))
  | V4_pwrlvl_11a_6g i => at_idx i (v4_pwrlvl_11a_6g (txpwr_lvl_v4 c))
  | V4_pwrlvl_11n_11ac_6g i => at_idx i (v4_pwrlvl_11n_11ac_6g (txpwr_lvl_v4 c))
  | V4_pwrlvl_11ax_6g i => at_idx i (v4_pwrlvl_11ax_6g (txpwr_lvl_v4 c))
  | Adj_enable => adj_enable (txpwr_lvl_adj c)
  | Adj_pwrlvl_adj_tbl_2g4 i => at_idx i (adj_pwrlvl_adj_tbl_2g4 (txpwr_lvl_adj c))
  | Adj_pwrlvl_adj_tbl_5g i => at_idx i (adj_pwrlvl_adj_tbl_5g (txpwr_lvl_adj c))
  | Loss_loss_enable_2g4 => loss_enable_2g4 (txpwr_loss c)
  | Loss_loss_value_2g4 => loss_value_2g4 (txpwr_loss c)
  | Loss_loss_enable_5g => loss_enable_5g (txpwr_loss c)
  | Loss_loss_value_5g => loss_value_5g (txpwr_loss c)
  | Ofst_enable => ofst_enable (txpwr_ofst c)
  | Ofst_chan_1_4 => ofst_chan_1_4 (txpwr_ofst c)
  | Ofst_chan_5_9 => ofst_chan_5_9 (txpwr_ofst c)
  | Ofst_chan_10_13 => ofst_chan_10_13 (txpwr_ofst c)
  | Ofst_chan_36_64 => ofst_chan_36_64 (txpwr_ofst c)
  | Ofst_chan_100_120 => ofst_chan_100_120 (txpwr_ofst c)
  | Ofst_chan_122_140 => ofst_chan_122_140 (txpwr_ofst c)
  | Ofst_chan_142_165 => ofst_chan_142_165 (txpwr_ofst c)
  | Ofst2x_enable => ofst2x_enable (txpwr_ofst2x c)
  | Ofst2x_pwrofst2x_tbl_2g4 i => at_idx i (ofst2x_pwrofst2x_tbl_2g4 (txpwr_ofst2x c))
  | Ofst2x_pwrofst2x_tbl_5g i => at_idx i (ofst2x_pwrofst2x_tbl_5g (txpwr_ofst2x c))
  | Ofst2xV2_enable => ofst2x_v2_enable (txpwr_ofst2x_v2 c)
  | Ofst2xV2_pwrofst_flags => ofst2x_v2_pwrofst_flags (txpwr_ofst2x_v2 c)
  | Ofst2xV2_pwrofst2x_tbl_2g4_ant0 i => at_idx i (ofst2x_v2_pwrofst2x_tbl_2g4_ant0 (txpwr_ofst2x_v2 c))
  | Ofst2xV2_pwrofst2x_tbl_2g4_ant1 i => at_idx i (ofst2x_v2_pwrofst2x_tbl_2g4_ant1 (txpwr_ofst2x_v2 c))
  | Ofst2xV2_pwrofst2x_tbl_5g_ant0 i => at_idx i (ofst2x_v2_pwrofst2x_tbl_5g_ant0 (txpwr_ofst2x_v2 c))
  | Ofst2xV2_pwrofst2x_tbl_5g_ant1 i => at_idx i (ofst2x_v2_pwrofst2x_tbl_5g_ant1 (txpwr_ofst2x_v2 c))
  | Ofst2xV2_pwrofst2x_tbl_6g_ant0 i => at_idx i (ofst2x_v2_pwrofst2x_tbl_6g_ant0 (txpwr_ofst2x_v2 c))
  | Ofst2xV2_pwrofst2x_tbl_6g_ant1 i => at_idx i (ofst2x_v2_pwrofst2x_tbl_6g_ant1 (txpwr_ofst2x_v2 c))
  | Xtal_enable => xtal_enable (uc_xtal_cap c)
  | Xtal_xtal_cap => xtal_xtal_cap (uc_xtal_cap c)
  | Xtal_xtal_cap_fine => xtal_xtal_cap_fine (uc_xtal_cap c)
  end.

Definition store (l : loc) (v : Z) (c : userconfig_info_t) : userconfig_info_t :=
  match l with
  | Lvl_enable => c <| txpwr_lvl ::= fun s => s <| lvl_enable := v |> |>
  | Lvl_dsss => c <| txpwr_lvl ::= fun s => s <| lvl_dsss := v |> |>
  | Lvl_ofdmlowrate_2g4 => c <| txpwr_lvl ::= fun s => s <| lvl_ofdmlowrate_2g4 := v |> |>
  | Lvl_ofdm64qam_2g4 => c <| txpwr_lvl ::= fun s => s <| lvl_ofdm64qam_2g4 := v |> |>
  | Lvl_ofdm256qam_2g4 => c <| txpwr_lvl ::= fun s => s <| lvl_ofdm256qam_2g4 := v |> |>
  | Lvl_ofdm1024qam_2g4 => c <| txpwr_lvl ::= fun s => s <| lvl_ofdm1024qam_2g4 := v |> |>
  | Lvl_ofdmlowrate_5g => c <| txpwr_lvl ::= fun s => s <| lvl_ofdmlowrate_5g := v |> |>
  | Lvl_ofdm64qam_5g => c <| txpwr_lvl ::= fun s => s <| lvl_ofdm64qam_5g := v |> |>
  | Lvl_ofdm256qam_5g => c <| txpwr_lvl ::= fun s => s <| lvl_ofdm256qam_5g := v |> |>
  | Lvl_ofdm1024qam_5g => c <| txpwr_lvl ::= fun s => s <| lvl_ofdm1024qam_5g := v |> |>
  | V2_enable => c <| txpwr_lvl_v2 ::= fun s => s <| v2_enable := v |> |>
  | V2_pwrlvl_11b_11ag_2g4 i => c <| txpwr_lvl_v2 ::= fun s => s <| v2_pwrlvl_11b_11ag_2g4 ::= <[i := v]> |> |>
  | V2_pwrlvl_11n_11ac_2g4 i => c <| txpwr_lvl_v2 ::= fun s => s <| v2_pwrlvl_11n_11ac_2g4 ::= <[i := v]> |> |>
  | V2_pwrlvl_11ax_2g4 i => c <| txpwr_lvl_v2 ::= fun s => s <| v2_pwrlvl_11ax_2g4 ::= <[i := v]> |> |>
  | V3_enable => c <| txpwr_lvl_v3 ::= fun s => s <| v3_enable := v |> |>
  | V3_pwrlvl_11b_11ag_2g4 i => c <| txpwr_lvl_v3 ::= fun s => s <| v3_pwrlvl_11b_11ag_2g4 ::= <[i := v]> |> |>
  | V3_pwrlvl_11n_11ac_2g4 i => c <| txpwr_lvl_v3 ::= fun s => s <| v3_pwrlvl_11n_11ac_2g4 ::= <[i := v]> |> |>
  | V3_pwrlvl_11ax_2g4 i => c <| txpwr_lvl_v3 ::= fun s => s <| v3_pwrlvl_11ax_2g4 ::= <[i := v]> |> |>
  | V3_pwrlvl_11a_5g i => c <| txpwr_lvl_v3 ::= fun s => s <| v3_pwrlvl_11a_5g ::= <[i := v]> |> |>
  | V3_pwrlvl_11n_11ac_5g i => c <| txpwr_lvl_v3 ::= fun s => s <| v3_pwrlvl_11n_11ac_5g ::= <[i := v]> |> |>
  | V3_pwrlvl_11ax_5g i => c <| txpwr_lvl_v3 ::= fun s => s <| v3_pwrlvl_11ax_5g ::= <[i := v]> |> |>
  | V4_enable => c <| txpwr_lvl_v4 ::= fun s => s <| v4_enable := v |> |>
  | V4_pwrlvl_11b_11ag_2g4 i => c <| txpwr_lvl_v4 ::= fun s => s <| v4_pwrlvl_11b_11ag_2g4 ::= <[i := v]> |> |>
  | V4_pwrlvl_11n_11ac_2g4 i => c <| txpwr_lvl_v4 ::= fun s => s <| v4_pwrlvl_11n_11ac_2g4 ::= <[i := v]> |> |>
  | V4_pwrlvl_11ax_2g4 i => c <| txpwr_lvl_v4 ::= fun s => s <| v4_pwrlvl_11ax_2g4 ::= <[i := v]> |> |>
  | V4_pwrlvl_11a_5g i => c <| txpwr_lvl_v4 ::= fun s => s <| v4_pwrlvl_11a_5g ::= <[i := v]> |> |>
  | V4_pwrlvl_11n_11ac_5g i => c <| txpwr_lvl_v4 ::= fun s => s <| v4_pwrlvl_11n_11ac_5g ::= <[i := v]> |> |>
  | V4_pwrlvl_11ax_5g i => c <| txpwr_lvl_v4 ::= fun s => s <| v4_pwrlvl_11ax_5g ::= <[i := v]> |> |>
  | V4_pwrlvl_11a_6g i => c <| txpwr_lvl_v4 ::= fun s => s <| v4_pwrlvl_11a_6g ::= <[i := v]> |> |>
  | V4_pwrlvl_11n_11ac_6g i => c <| txpwr_lvl_v4 ::= fun s => s <| v4_pwrlvl_11n_11ac_6g ::= <[i := v]> |> |>
  | V4_pwrlvl_11ax_6g i => c <| txpwr_lvl_v4 ::= fun s => s <| v4_pwrlvl_11ax_6g ::= <[i := v]> |> |>
  | Adj_enable => c <| txpwr_lvl_adj ::= fun s => s <| adj_enable := v |> |>
  | Adj_pwrlvl_adj_tbl_2g4 i => c <| txpwr_lvl_adj ::= fun s => s <| adj_pwrlvl_adj_tbl_2g4 ::= <[i := v]> |> |>
  | Adj_pwrlvl_adj_tbl_5g i => c <| txpwr_lvl_adj ::= fun s => s <| adj_pwrlvl_adj_tbl_5g ::= <[i := v]> |> |>
  | Loss_loss_enable_2g4 => c <| txpwr_loss ::= fun s => s <| loss_enable_2g4 := v |> |>
  | Loss_loss_value_2g4 => c <| txpwr_loss ::= fun s => s <| loss_value_2g4 := v |> |>
  | Loss_loss_enable_5g => c <| txpwr_loss ::= fun s => s <| loss_enable_5g := v |> |>
  | Loss_loss_value_5g => c <| txpwr_loss ::= fun s => s <| loss_value_5g := v |> |>
  | Ofst_enable => c <| txpwr_ofst ::= fun s => s <| ofst_enable := v |> |>
  | Ofst_chan_1_4 => c <| txpwr_ofst ::= fun s => s <| ofst_chan_1_4 := v |> |>
  | Ofst_chan_5_9 => c <| txpwr_ofst ::= fun s => s <| ofst_chan_5_9 := v |> |>
  | Ofst_chan_10_13 => c <| txpwr_ofst ::= fun s => s <| ofst_chan_10_13 := v |> |>
  | Ofst_chan_36_64 => c <| txpwr_ofst ::= fun s => s <| ofst_chan_36_64 := v |> |>
  | Ofst_chan_100_120 => c <| txpwr_ofst ::= fun s => s <| ofst_chan_100_120 := v |> |>
  | Ofst_chan_122_140 => c <| txpwr_ofst ::= fun s => s <| ofst_chan_122_140 := v |> |>
  | Ofst_chan_142_165 => c <| txpwr_ofst ::= fun s => s <| ofst_chan_142_165 := v |> |>
  | Ofst2x_enable => c <| txpwr_ofst2x ::= fun s => s <| ofst2x_enable := v |> |>
  | Ofst2x_pwrofst2x_tbl_2g4 i => c <| txpwr_ofst2x ::= fun s => s <| ofst2x_pwrofst2x_tbl_2g4 ::= <[i := v]> |> |>
  | Ofst2x_pwrofst2x_tbl_5g i => c <| txpwr_ofst2x ::= fun s => s <| ofst2x_pwrofst2x_tbl_5g ::= <[i := v]> |> |>
  | Ofst2xV2_enable => c <| txpwr_ofst2x_v2 ::= fun s => s <| ofst2x_v2_enable := v |> |>
  | Ofst2xV2_pwrofst_flags => c <| txpwr_ofst2x_v2 ::= fun s => s <| ofst2x_v2_pwrofst_flags := v |> |>
  | Ofst2xV2_pwrofst2x_tbl_2g4_ant0 i => c <| txpwr_ofst2x_v2 ::= fun s => s <| ofst2x_v2_pwrofst2x_tbl_2g4_ant0 ::= <[i := v]> |> |>
  | Ofst2xV2_pwrofst2x_tbl_2g4_ant1 i => c <| txpwr_ofst2x_v2 ::= fun s => s <| ofst2x_v2_pwrofst2x_tbl_2g4_ant1 ::= <[i := v]> |> |>
  | Ofst2xV2_pwrofst2x_tbl_5g_ant0 i => c <| txpwr_ofst2x_v2 ::= fun s => s <| ofst2x_v2_pwrofst2x_tbl_5g_ant0 ::= <[i := v]> |> |>
  | Ofst2xV2_pwrofst2x_tbl_5g_ant1 i => c <| txpwr_ofst2x_v2 ::= fun s => s <| ofst2x_v2_pwrofst2x_tbl_5g_ant1 ::= <[i := v]> |> |>
  | Ofst2xV2_pwrofst2x_tbl_6g_ant0 i => c <| txpwr_ofst2x_v2 ::= fun s => s <| ofst2x_v2_pwrofst2x_tbl_6g_ant0 ::= <[i := v]> |> |>
  | Ofst2xV2_pwrofst2x_tbl_6g_ant1 i => c <| txpwr_ofst2x_v2 ::= fun s => s <| ofst2x_v2_pwrofst2x_tbl_6g_ant1 ::= <[i := v]> |> |>
  | Xtal_enable => c <| uc_xtal_cap ::= fun s => s <| xtal_enable := v |> |>
  | Xtal_xtal_cap => c <| uc_xtal_cap ::= fun s => s <| xtal_xtal_cap := v |> |>
  | Xtal_xtal_cap_fine => c <| uc_xtal_cap ::= fun s => s <| xtal_xtal_cap_fine := v |> |>
  end.

(** An assignment, with the conversion to the type of the member. *)
Definition put (l : loc) (v : Z) : userconfig_info_t -> userconfig_info_t := store l (cast l v).

Definition keys : list (list Z * list loc) := [
  (text "enable", [Lvl_enable; V2_enable]); (text "dsss", [Lvl_dsss]);
  (text "ofdmlowrate_2g4", [Lvl_ofdmlowrate_2g4]); (text "ofdm64qam_2g4", [Lvl_ofdm64qam_2g4]);
  (text "ofdm256qam_2g4", [Lvl_ofdm256qam_2g4]); (text "ofdm1024qam_2g4", [Lvl_ofdm1024qam_2g4]);
  (text "ofdmlowrate_5g", [Lvl_ofdmlowrate_5g]); (text "ofdm64qam_5g", [Lvl_ofdm64qam_5g]);
  (text "ofdm256qam_5g", [Lvl_ofdm256qam_5g]); (text "ofdm1024qam_5g", [Lvl_ofdm1024qam_5g]);
  (text "lvl_11b_11ag_1m_2g4", [V2_pwrlvl_11b_11ag_2g4 0]);
  (text "lvl_11b_11ag_2m_2g4", [V2_pwrlvl_11b_11ag_2g4 1]);
  (text "lvl_11b_11ag_5m5_2g4", [V2_pwrlvl_11b_11ag_2g4 2]);
  (text "lvl_11b_11ag_11m_2g4", [V2_pwrlvl_11b_11ag_2g4 3]);
  (text "lvl_11b_11ag_6m_2g4", [V2_pwrlvl_11b_11ag_2g4 4]);
  (text "lvl_11b_11ag_9m_2g4", [V2_pwrlvl_11b_11ag_2g4 5]);
  (text "lvl_11b_11ag_12m_2g4", [V2_pwrlvl_11b_11ag_2g4 6]);
  (text "lvl_11b_11ag_18m_2g4", [V2_pwrlvl_11b_11ag_2g4 7]);
  (text "lvl_11b_11ag_24m_2g4", [V2_pwrlvl_11b_11ag_2g4 8]);
  (text "lvl_11b_11ag_36m_2g4", [V2_pwrlvl_11b_11ag_2g4 9]);
  (text "lvl_11b_11ag_48m_2g4", [V2_pwrlvl_11b_11ag_2g4 10]);
  (text "lvl_11b_11ag_54m_2g4", [V2_pwrlvl_11b_11ag_2g4 11]);
  (text "lvl_11n_11ac_mcs0_2g4", [V2_pwrlvl_11n_11ac_2g4 0]);
  (text "lvl_11n_11ac_mcs1_2g4", [V2_pwrlvl_11n_11ac_2g4 1]);
  (text "lvl_11n_11ac_mcs2_2g4", [V2_pwrlvl_11n_11ac_2g4 2]);
  (text "lvl_11n_11ac_mcs3_2g4", [V2_pwrlvl_11n_11ac_2g4 3]);
  (text "lvl_11n_11ac_mcs4_2g4", [V2_pwrlvl_11n_11ac_2g4 4]);
  (text "lvl_11n_11ac_mcs5_2g4", [V2_pwrlvl_11n_11ac_2g4 5]);
  (text "lvl_11n_11ac_mcs6_2g4", [V2_pwrlvl_11n_11ac_2g4 6]);
  (text "lvl_11n_11ac_mcs7_2g4", [V2_pwrlvl_11n_11ac_2g4 7]);
  (text "lvl_11n_11ac_mcs8_2g4", [V2_pwrlvl_11n_11ac_2g4 8]);
  (text "lvl_11n_11ac_mcs9_2g4", [V2_pwrlvl_11n_11ac_2g4 9]); (text "lvl_11ax_mcs0_2g4", [V2_pwrlvl_11ax_2g4 0]);
  (text "lvl_11ax_mcs1_2g4", [V2_pwrlvl_11ax_2g4 1]); (text "lvl_11ax_mcs2_2g4", [V2_pwrlvl_11ax_2g4 2]);
  (text "lvl_11ax_mcs3_2g4", [V2_pwrlvl_11ax_2g4 3]); (text "lvl_11ax_mcs4_2g4", [V2_pwrlvl_11ax_2g4 4]);
  (text "lvl_11ax_mcs5_2g4", [V2_pwrlvl_11ax_2g4 5]); (text "lvl_11ax_mcs6_2g4", [V2_pwrlvl_11ax_2g4 6]);
  (text "lvl_11ax_mcs7_2g4", [V2_pwrlvl_11ax_2g4 7]); (text "lvl_11ax_mcs8_2g4", [V2_pwrlvl_11ax_2g4 8]);
  (text "lvl_11ax_mcs9_2g4", [V2_pwrlvl_11ax_2g4 9]); (text "lvl_11ax_mcs10_2g4", [V2_pwrlvl_11ax_2g4 10]);
  (text "lvl_11ax_mcs11_2g4", [V2_pwrlvl_11ax_2g4 11]); (text "ofst_enable", [Ofst_enable]);
  (text "ofst_chan_1_4", [Ofst_chan_1_4]); (text "ofst_chan_5_9", [Ofst_chan_5_9]);
  (text "ofst_chan_10_13", [Ofst_chan_10_13]); (text "ofst_chan_36_64", [Ofst_chan_36_64]);
  (text "ofst_chan_100_120", [Ofst_chan_100_120]); (text "ofst_chan_122_140", [Ofst_chan_122_140]);
  (text "ofst_chan_142_165", [Ofst_chan_142_165]); (text "xtal_enable", [Xtal_enable]);
  (text "xtal_cap", [Xtal_xtal_cap]); (text "xtal_cap_fine", [Xtal_xtal_cap_fine])
].

Definition keys_v3 : list (list Z * list loc) := [
  (text "enable", [Lvl_enable; V3_enable]); (text "dsss", [Lvl_dsss]);
  (text "ofdmlowrate_2g4", [Lvl_ofdmlowrate_2g4]); (text "ofdm64qam_2g4", [Lvl_ofdm64qam_2g4]);
  (text "ofdm256qam_2g4", [Lvl_ofdm256qam_2g4]); (text "ofdm1024qam_2g4", [Lvl_ofdm1024qam_2g4]);
  (text "ofdmlowrate_5g", [Lvl_ofdmlowrate_5g]); (text "ofdm64qam_5g", [Lvl_ofdm64qam_5g]);
  (text "ofdm256qam_5g", [Lvl_ofdm256qam_5g]); (text "ofdm1024qam_5g", [Lvl_ofdm1024qam_5g]);
  (text "lvl_11b_11ag_1m_2g4", [V3_pwrlvl_11b_11ag_2g4 0]);
  (text "lvl_11b_11ag_2m_2g4", [V3_pwrlvl_11b_11ag_2g4 1]);
  (text "lvl_11b_11ag_5m5_2g4", [V3_pwrlvl_11b_11ag_2g4 2]);
  (text "lvl_11b_11ag_11m_2g4", [V3_pwrlvl_11b_11ag_2g4 3]);
  (text "lvl_11b_11ag_6m_2g4", [V3_pwrlvl_11b_11ag_2g4 4]);
  (text "lvl_11b_11ag_9m_2g4", [V3_pwrlvl_11b_11ag_2g4 5]);
  (text "lvl_11b_11ag_12m_2g4", [V3_pwrlvl_11b_11ag_2g4 6]);
  (text "lvl_11b_11ag_18m_2g4", [V3_pwrlvl_11b_11ag_2g4 7]);
  (text "lvl_11b_11ag_24m_2g4", [V3_pwrlvl_11b_11ag_2g4 8]);
  (text "lvl_11b_11ag_36m_2g4", [V3_pwrlvl_11b_11ag_2g4 9]);
  (text "lvl_11b_11ag_48m_2g4", [V3_pwrlvl_11b_11ag_2g4 10]);
  (text "lvl_11b_11ag_54m_2g4", [V3_pwrlvl_11b_11ag_2g4 11]);
  (text "lvl_11n_11ac_mcs0_2g4", [V3_pwrlvl_11n_11ac_2g4 0]);
  (text "lvl_11n_11ac_mcs1_2g4", [V3_pwrlvl_11n_11ac_2g4 1]);
  (text "lvl_11n_11ac_mcs2_2g4", [V3_pwrlvl_11n_11ac_2g4 2]);
  (text "lvl_11n_11ac_mcs3_2g4", [V3_pwrlvl_11n_11ac_2g4 3]);
  (text "lvl_11n_11ac_mcs4_2g4", [V3_pwrlvl_11n_11ac_2g4 4]);
  (text "lvl_11n_11ac_mcs5_2g4", [V3_pwrlvl_11n_11ac_2g4 5]);
  (text "lvl_11n_11ac_mcs6_2g4", [V3_pwrlvl_11n_11ac_2g4 6]);
  (text "lvl_11n_11ac_mcs7_2g4", [V3_pwrlvl_11n_11ac_2g4 7]);
  (text "lvl_11n_11ac_mcs8_2g4", [V3_pwrlvl_11n_11ac_2g4 8]);
  (text "lvl_11n_11ac_mcs9_2g4", [V3_pwrlvl_11n_11ac_2g4 9]); (text "lvl_11ax_mcs0_2g4", [V3_pwrlvl_11ax_2g4 0]);
  (text "lvl_11ax_mcs1_2g4", [V3_pwrlvl_11ax_2g4 1]); (text "lvl_11ax_mcs2_2g4", [V3_pwrlvl_11ax_2g4 2]);
  (text "lvl_11ax_mcs3_2g4", [V3_pwrlvl_11ax_2g4 3]); (text "lvl_11ax_mcs4_2g4", [V3_pwrlvl_11ax_2g4 4]);
  (text "lvl_11ax_mcs5_2g4", [V3_pwrlvl_11ax_2g4 5]); (text "lvl_11ax_mcs6_2g4", [V3_pwrlvl_11ax_2g4 6]);
  (text "lvl_11ax_mcs7_2g4", [V3_pwrlvl_11ax_2g4 7]); (text "lvl_11ax_mcs8_2g4", [V3_pwrlvl_11ax_2g4 8]);
  (text "lvl_11ax_mcs9_2g4", [V3_pwrlvl_11ax_2g4 9]); (text "lvl_11ax_mcs10_2g4", [V3_pwrlvl_11ax_2g4 10]);
  (text "lvl_11ax_mcs11_2g4", [V3_pwrlvl_11ax_2g4 11]); (text "lvl_11a_1m_5g", [V3_pwrlvl_11a_5g 0]);
  (text "lvl_11a_2m_5g", [V3_pwrlvl_11a_5g 1]); (text "lvl_11a_5m5_5g", [V3_pwrlvl_11a_5g 2]);
  (text "lvl_11a_11m_5g", [V3_pwrlvl_11a_5g 3]); (text "lvl_11a_6m_5g", [V3_pwrlvl_11a_5g 4]);
  (text "lvl_11a_9m_5g", [V3_pwrlvl_11a_5g 5]); (text "lvl_11a_12m_5g", [V3_pwrlvl_11a_5g 6]);
  (text "lvl_11a_18m_5g", [V3_pwrlvl_11a_5g 7]); (text "lvl_11a_24m_5g", [V3_pwrlvl_11a_5g 8]);
  (text "lvl_11a_36m_5g", [V3_pwrlvl_11a_5g 9]); (text "lvl_11a_48m_5g", [V3_pwrlvl_11a_5g 10]);
  (text "lvl_11a_54m_5g", [V3_pwrlvl_11a_5g 11]); (text "lvl_11n_11ac_mcs0_5g", [V3_pwrlvl_11n_11ac_5g 0]);
  (text "lvl_11n_11ac_mcs1_5g", [V3_pwrlvl_11n_11ac_5g 1]);
  (text "lvl_11n_11ac_mcs2_5g", [V3_pwrlvl_11n_11ac_5g 2]);
  (text "lvl_11n_11ac_mcs3_5g", [V3_pwrlvl_11n_11ac_5g 3]);
  (text "lvl_11n_11ac_mcs4_5g", [V3_pwrlvl_11n_11ac_5g 4]);
  (text "lvl_11n_11ac_mcs5_5g", [V3_pwrlvl_11n_11ac_5g 5]);
  (text "lvl_11n_11ac_mcs6_5g", [V3_pwrlvl_11n_11ac_5g 6]);
  (text "lvl_11n_11ac_mcs7_5g", [V3_pwrlvl_11n_11ac_5g 7]);
  (text "lvl_11n_11ac_mcs8_5g", [V3_pwrlvl_11n_11ac_5g 8]);
  (text "lvl_11n_11ac_mcs9_5g", [V3_pwrlvl_11n_11ac_5g 9]); (text "lvl_11ax_mcs0_5g", [V3_pwrlvl_11ax_5g 0]);
  (text "lvl_11ax_mcs1_5g", [V3_pwrlvl_11ax_5g 1]); (text "lvl_11ax_mcs2_5g", [V3_pwrlvl_11ax_5g 2]);
  (text "lvl_11ax_mcs3_5g", [V3_pwrlvl_11ax_5g 3]); (text "lvl_11ax_mcs4_5g", [V3_pwrlvl_11ax_5g 4]);
  (text "lvl_11ax_mcs5_5g", [V3_pwrlvl_11ax_5g 5]); (text "lvl_11ax_mcs6_5g", [V3_pwrlvl_11ax_5g 6]);
  (text "lvl_11ax_mcs7_5g", [V3_pwrlvl_11ax_5g 7]); (text "lvl_11ax_mcs8_5g", [V3_pwrlvl_11ax_5g 8]);
  (text "lvl_11ax_mcs9_5g", [V3_pwrlvl_11ax_5g 9]); (text "lvl_11ax_mcs10_5g", [V3_pwrlvl_11ax_5g 10]);
  (text "lvl_11ax_mcs11_5g", [V3_pwrlvl_11ax_5g 11]); (text "lvl_adj_enable", [Adj_enable]);
  (text "lvl_adj_2g4_chan_1_4", [Adj_pwrlvl_adj_tbl_2g4 0]);
  (text "lvl_adj_2g4_chan_5_9", [Adj_pwrlvl_adj_tbl_2g4 1]);
  (text "lvl_adj_2g4_chan_10_13", [Adj_pwrlvl_adj_tbl_2g4 2]);
  (text "lvl_adj_5g_chan_42", [Adj_pwrlvl_adj_tbl_5g 0]); (text "lvl_adj_5g_chan_58", [Adj_pwrlvl_adj_tbl_5g 1]);
  (text "lvl_adj_5g_chan_106", [Adj_pwrlvl_adj_tbl_5g 2]); (text "lvl_adj_5g_chan_122", [Adj_pwrlvl_adj_tbl_5g 3]);
  (text "lvl_adj_5g_chan_138", [Adj_pwrlvl_adj_tbl_5g 4]); (text "lvl_adj_5g_chan_155", [Adj_pwrlvl_adj_tbl_5g 5]);
  (text "loss_enable_2g4", [Loss_loss_enable_2g4]); (text "loss_value_2g4", [Loss_loss_value_2g4]);
  (text "loss_enable_5g", [Loss_loss_enable_5g]); (text "loss_value_5g", [Loss_loss_value_5g]);
  (text "ofst_enable", [Ofst_enable; Ofst2x_enable]); (text "ofst_chan_1_4", [Ofst_chan_1_4]);
  (text "ofst_chan_5_9", [Ofst_chan_5_9]); (text "ofst_chan_10_13", [Ofst_chan_10_13]);
  (text "ofst_chan_36_64", [Ofst_chan_36_64]); (text "ofst_chan_100_120", [Ofst_chan_100_120]);
  (text "ofst_chan_122_140", [Ofst_chan_122_140]); (text "ofst_chan_142_165", [Ofst_chan_142_165]);
  (text "ofst_2g4_11b_chan_1_4", [Ofst2x_pwrofst2x_tbl_2g4 0]);
  (text "ofst_2g4_11b_chan_5_9", [Ofst2x_pwrofst2x_tbl_2g4 1]);
  (text "ofst_2g4_11b_chan_10_13", [Ofst2x_pwrofst2x_tbl_2g4 2]);
  (text "ofst_2g4_ofdm_highrate_chan_1_4", [Ofst2x_pwrofst2x_tbl_2g4 3]);
  (text "ofst_2g4_ofdm_highrate_chan_5_9", [Ofst2x_pwrofst2x_tbl_2g4 4]);
  (text "ofst_2g4_ofdm_highrate_chan_10_13", [Ofst2x_pwrofst2x_tbl_2g4 5]);
  (text "ofst_2g4_ofdm_lowrate_chan_1_4", [Ofst2x_pwrofst2x_tbl_2g4 6]);
  (text "ofst_2g4_ofdm_lowrate_chan_5_9", [Ofst2x_pwrofst2x_tbl_2g4 7]);
  (text "ofst_2g4_ofdm_lowrate_chan_10_13", [Ofst2x_pwrofst2x_tbl_2g4 8]);
  (text "ofst_5g_ofdm_lowrate_chan_42", [Ofst2x_pwrofst2x_tbl_5g 0]);
  (text "ofst_5g_ofdm_lowrate_chan_58", [Ofst2x_pwrofst2x_tbl_5g 1]);
  (text "ofst_5g_ofdm_lowrate_chan_106", [Ofst2x_pwrofst2x_tbl_5g 2]);
  (text "ofst_5g_ofdm_lowrate_chan_122", [Ofst2x_pwrofst2x_tbl_5g 3]);
  (text "ofst_5g_ofdm_lowrate_chan_138", [Ofst2x_pwrofst2x_tbl_5g 4]);
  (text "ofst_5g_ofdm_lowrate_chan_155", [Ofst2x_pwrofst2x_tbl_5g 5]);
  (text "ofst_5g_ofdm_highrate_chan_42", [Ofst2x_pwrofst2x_tbl_5g 6]);
  (text "ofst_5g_ofdm_highrate_chan_58", [Ofst2x_pwrofst2x_tbl_5g 7]);
  (text "ofst_5g_ofdm_highrate_chan_106", [Ofst2x_pwrofst2x_tbl_5g 8]);
  (text "ofst_5g_ofdm_highrate_chan_122", [Ofst2x_pwrofst2x_tbl_5g 9]);
  (text "ofst_5g_ofdm_highrate_chan_138", [Ofst2x_pwrofst2x_tbl_5g 10]);
  (text "ofst_5g_ofdm_highrate_chan_155", [Ofst2x_pwrofst2x_tbl_5g 11]);
  (text "ofst_5g_ofdm_midrate_chan_42", [Ofst2x_pwrofst2x_tbl_5g 12]);
  (text "ofst_5g_ofdm_midrate_chan_58", [Ofst2x_pwrofst2x_tbl_5g 13]);
  (text "ofst_5g_ofdm_midrate_chan_106", [Ofst2x_pwrofst2x_tbl_5g 14]);
  (text "ofst_5g_ofdm_midrate_chan_122", [Ofst2x_pwrofst2x_tbl_5g 15]);
  (text "ofst_5g_ofdm_midrate_chan_138", [Ofst2x_pwrofst2x_tbl_5g 16]);
  (text "ofst_5g_ofdm_midrate_chan_155", [Ofst2x_pwrofst2x_tbl_5g 17]); (text "xtal_enable", [Xtal_enable]);
  (text "xtal_cap", [Xtal_xtal_cap]); (text "xtal_cap_fine", [Xtal_xtal_cap_fine])
].

Definition keys_8800d80x2 : list (list Z * list loc) := [
  (text "enable", [V4_enable]); (text "lvl_11b_11ag_1m_2g4", [V4_pwrlvl_11b_11ag_2g4 0]);
  (text "lvl_11b_11ag_2m_2g4", [V4_pwrlvl_11b_11ag_2g4 1]);
  (text "lvl_11b_11ag_5m5_2g4", [V4_pwrlvl_11b_11ag_2g4 2]);
  (text "lvl_11b_11ag_11m_2g4", [V4_pwrlvl_11b_11ag_2g4 3]);
  (text "lvl_11b_11ag_6m_2g4", [V4_pwrlvl_11b_11ag_2g4 4]);
  (text "lvl_11b_11ag_9m_2g4", [V4_pwrlvl_11b_11ag_2g4 5]);
  (text "lvl_11b_11ag_12m_2g4", [V4_pwrlvl_11b_11ag_2g4 6]);
  (text "lvl_11b_11ag_18m_2g4", [V4_pwrlvl_11b_11ag_2g4 7]);
  (text "lvl_11b_11ag_24m_2g4", [V4_pwrlvl_11b_11ag_2g4 8]);
  (text "lvl_11b_11ag_36m_2g4", [V4_pwrlvl_11b_11ag_2g4 9]);
  (text "lvl_11b_11ag_48m_2g4", [V4_pwrlvl_11b_11ag_2g4 10]);
  (text "lvl_11b_11ag_54m_2g4", [V4_pwrlvl_11b_11ag_2g4 11]);
  (text "lvl_11n_11ac_mcs0_2g4", [V4_pwrlvl_11n_11ac_2g4 0]);
  (text "lvl_11n_11ac_mcs1_2g4", [V4_pwrlvl_11n_11ac_2g4 1]);
  (text "lvl_11n_11ac_mcs2_2g4", [V4_pwrlvl_11n_11ac_2g4 2]);
  (text "lvl_11n_11ac_mcs3_2g4", [V4_pwrlvl_11n_11ac_2g4 3]);
  (text "lvl_11n_11ac_mcs4_2g4", [V4_pwrlvl_11n_11ac_2g4 4]);
  (text "lvl_11n_11ac_mcs5_2g4", [V4_pwrlvl_11n_11ac_2g4 5]);
  (text "lvl_11n_11ac_mcs6_2g4", [V4_pwrlvl_11n_11ac_2g4 6]);
  (text "lvl_11n_11ac_mcs7_2g4", [V4_pwrlvl_11n_11ac_2g4 7]);
  (text "lvl_11n_11ac_mcs8_2g4", [V4_pwrlvl_11n_11ac_2g4 8]);
  (text "lvl_11n_11ac_mcs9_2g4", [V4_pwrlvl_11n_11ac_2g4 9]); (text "lvl_11ax_mcs0_2g4", [V4_pwrlvl_11ax_2g4 0]);
  (text "lvl_11ax_mcs1_2g4", [V4_pwrlvl_11ax_2g4 1]); (text "lvl_11ax_mcs2_2g4", [V4_pwrlvl_11ax_2g4 2]);
  (text "lvl_11ax_mcs3_2g4", [V4_pwrlvl_11ax_2g4 3]); (text "lvl_11ax_mcs4_2g4", [V4_pwrlvl_11ax_2g4 4]);
  (text "lvl_11ax_mcs5_2g4", [V4_pwrlvl_11ax_2g4 5]); (text "lvl_11ax_mcs6_2g4", [V4_pwrlvl_11ax_2g4 6]);
  (text "lvl_11ax_mcs7_2g4", [V4_pwrlvl_11ax_2g4 7]); (text "lvl_11ax_mcs8_2g4", [V4_pwrlvl_11ax_2g4 8]);
  (text "lvl_11ax_mcs9_2g4", [V4_pwrlvl_11ax_2g4 9]); (text "lvl_11ax_mcs10_2g4", [V4_pwrlvl_11ax_2g4 10]);
  (text "lvl_11ax_mcs11_2g4", [V4_pwrlvl_11ax_2g4 11]); (text "lvl_11a_6m_5g", [V4_pwrlvl_11a_5g 0]);
  (text "lvl_11a_9m_5g", [V4_pwrlvl_11a_5g 1]); (text "lvl_11a_12m_5g", [V4_pwrlvl_11a_5g 2]);
  (text "lvl_11a_18m_5g", [V4_pwrlvl_11a_5g 3]); (text "lvl_11a_24m_5g", [V4_pwrlvl_11a_5g 4]);
  (text "lvl_11a_36m_5g", [V4_pwrlvl_11a_5g 5]); (text "lvl_11a_48m_5g", [V4_pwrlvl_11a_5g 6]);
  (text "lvl_11a_54m_5g", [V4_pwrlvl_11a_5g 7]); (text "lvl_11n_11ac_mcs0_5g", [V4_pwrlvl_11n_11ac_5g 0]);
  (text "lvl_11n_11ac_mcs1_5g", [V4_pwrlvl_11n_11ac_5g 1]);
  (text "lvl_11n_11ac_mcs2_5g", [V4_pwrlvl_11n_11ac_5g 2]);
  (text "lvl_11n_11ac_mcs3_5g", [V4_pwrlvl_11n_11ac_5g 3]);
  (text "lvl_11n_11ac_mcs4_5g", [V4_pwrlvl_11n_11ac_5g 4]);
  (text "lvl_11n_11ac_mcs5_5g", [V4_pwrlvl_11n_11ac_5g 5]);
  (text "lvl_11n_11ac_mcs6_5g", [V4_pwrlvl_11n_11ac_5g 6]);
  (text "lvl_11n_11ac_mcs7_5g", [V4_pwrlvl_11n_11ac_5g 7]);
  (text "lvl_11n_11ac_mcs8_5g", [V4_pwrlvl_11n_11ac_5g 8]);
  (text "lvl_11n_11ac_mcs9_5g", [V4_pwrlvl_11n_11ac_5g 9]); (text "lvl_11ax_mcs0_5g", [V4_pwrlvl_11ax_5g 0]);
  (text "lvl_11ax_mcs1_5g", [V4_pwrlvl_11ax_5g 1]); (text "lvl_11ax_mcs2_5g", [V4_pwrlvl_11ax_5g 2]);
  (text "lvl_11ax_mcs3_5g", [V4_pwrlvl_11ax_5g 3]); (text "lvl_11ax_mcs4_5g", [V4_pwrlvl_11ax_5g 4]);
  (text "lvl_11ax_mcs5_5g", [V4_pwrlvl_11ax_5g 5]); (text "lvl_11ax_mcs6_5g", [V4_pwrlvl_11ax_5g 6]);
  (text "lvl_11ax_mcs7_5g", [V4_pwrlvl_11ax_5g 7]); (text "lvl_11ax_mcs8_5g", [V4_pwrlvl_11ax_5g 8]);
  (text "lvl_11ax_mcs9_5g", [V4_pwrlvl_11ax_5g 9]); (text "lvl_11ax_mcs10_5g", [V4_pwrlvl_11ax_5g 10]);
  (text "lvl_11ax_mcs11_5g", [V4_pwrlvl_11ax_5g 11]); (text "lvl_adj_enable", [Adj_enable]);
  (text "lvl_adj_2g4_chan_1_4", [Adj_pwrlvl_adj_tbl_2g4 0]);
  (text "lvl_adj_2g4_chan_5_9", [Adj_pwrlvl_adj_tbl_2g4 1]);
  (text "lvl_adj_2g4_chan_10_13", [Adj_pwrlvl_adj_tbl_2g4 2]);
  (text "lvl_adj_5g_chan_42", [Adj_pwrlvl_adj_tbl_5g 0]); (text "lvl_adj_5g_chan_58", [Adj_pwrlvl_adj_tbl_5g 1]);
  (text "lvl_adj_5g_chan_106", [Adj_pwrlvl_adj_tbl_5g 2]); (text "lvl_adj_5g_chan_122", [Adj_pwrlvl_adj_tbl_5g 3]);
  (text "lvl_adj_5g_chan_138", [Adj_pwrlvl_adj_tbl_5g 4]); (text "lvl_adj_5g_chan_155", [Adj_pwrlvl_adj_tbl_5g 5]);
  (text "loss_enable_2g4", [Loss_loss_enable_2g4]); (text "loss_value_2g4", [Loss_loss_value_2g4]);
  (text "loss_enable_5g", [Loss_loss_enable_5g]); (text "loss_value_5g", [Loss_loss_value_5g]);
  (text "ofst_enable", [Ofst2xV2_enable]);
  (text "ofst_2g4_ant0_11b_chan_1_4", [Ofst2xV2_pwrofst2x_tbl_2g4_ant0 0]);
  (text "ofst_2g4_ant0_11b_chan_5_9", [Ofst2xV2_pwrofst2x_tbl_2g4_ant0 3]);
  (text "ofst_2g4_ant0_11b_chan_10_13", [Ofst2xV2_pwrofst2x_tbl_2g4_ant0 6]);
  (text "ofst_2g4_ant0_ofdm_highrate_chan_1_4", [Ofst2xV2_pwrofst2x_tbl_2g4_ant0 1]);
  (text "ofst_2g4_ant0_ofdm_highrate_chan_5_9", [Ofst2xV2_pwrofst2x_tbl_2g4_ant0 4]);
  (text "ofst_2g4_ant0_ofdm_highrate_chan_10_13", [Ofst2xV2_pwrofst2x_tbl_2g4_ant0 7]);
  (text "ofst_2g4_ant1_11b_chan_1_4", [Ofst2xV2_pwrofst2x_tbl_2g4_ant1 0]);
  (text "ofst_2g4_ant1_11b_chan_5_9", [Ofst2xV2_pwrofst2x_tbl_2g4_ant1 3]);
  (text "ofst_2g4_ant1_11b_chan_10_13", [Ofst2xV2_pwrofst2x_tbl_2g4_ant1 6]);
  (text "ofst_2g4_ant1_ofdm_highrate_chan_1_4", [Ofst2xV2_pwrofst2x_tbl_2g4_ant1 1]);
  (text "ofst_2g4_ant1_ofdm_highrate_chan_5_9", [Ofst2xV2_pwrofst2x_tbl_2g4_ant1 4]);
  (text "ofst_2g4_ant1_ofdm_highrate_chan_10_13", [Ofst2xV2_pwrofst2x_tbl_2g4_ant1 7]);
  (text "ofst_5g_ant0_ofdm_highrate_chan_42", [Ofst2xV2_pwrofst2x_tbl_5g_ant0 0]);
  (text "ofst_5g_ant0_ofdm_highrate_chan_58", [Ofst2xV2_pwrofst2x_tbl_5g_ant0 3]);
  (text "ofst_5g_ant0_ofdm_highrate_chan_106", [Ofst2xV2_pwrofst2x_tbl_5g_ant0 6]);
  (text "ofst_5g_ant0_ofdm_highrate_chan_122", [Ofst2xV2_pwrofst2x_tbl_5g_ant0 9]);
  (text "ofst_5g_ant0_ofdm_highrate_chan_138", [Ofst2xV2_pwrofst2x_tbl_5g_ant0 12]);
  (text "ofst_5g_ant0_ofdm_highrate_chan_155", [Ofst2xV2_pwrofst2x_tbl_5g_ant0 15]);
  (text "ofst_5g_ant1_ofdm_highrate_chan_42", [Ofst2xV2_pwrofst2x_tbl_5g_ant1 0]);
  (text "ofst_5g_ant1_ofdm_highrate_chan_58", [Ofst2xV2_pwrofst2x_tbl_5g_ant1 3]);
  (text "ofst_5g_ant1_ofdm_highrate_chan_106", [Ofst2xV2_pwrofst2x_tbl_5g_ant1 6]);
  (text "ofst_5g_ant1_ofdm_highrate_chan_122", [Ofst2xV2_pwrofst2x_tbl_5g_ant1 9]);
  (text "ofst_5g_ant1_ofdm_highrate_chan_138", [Ofst2xV2_pwrofst2x_tbl_5g_ant1 12]);
  (text "ofst_5g_ant1_ofdm_highrate_chan_155", [Ofst2xV2_pwrofst2x_tbl_5g_ant1 15]);
  (text "xtal_enable", [Xtal_enable]); (text "xtal_cap", [Xtal_xtal_cap]);
  (text "xtal_cap_fine", [Xtal_xtal_cap_fine])
].

(** ** The parsers *)

(** The chain of strcmp: the first key that matches. *)
Definition nvram_set_value (tab : list (list Z * list loc)) (command value : list Z) (c : userconfig_info_t) :
    userconfig_info_t :=
  match find (fun e => bool_decide (e.1 = command)) tab with
  | Some e => foldl (fun c l => put l (rwnx_atoi value) c) c e.2
  | None => c
  end.

Definition rwnx_plat_nvram_set_value := nvram_set_value keys.
Definition rwnx_plat_nvram_set_value_v3 := nvram_set_value keys_v3.
Definition rwnx_plat_nvram_set_value_8800d80x2 := nvram_set_value keys_8800d80x2.

Inductive pstate := INIT | CMD | PRINT | GET_VALUE.

(** What the copies of the parser differ in: the size of command, the bytes of
    it that are cleared, the bytes kept of a value, the function that takes
    the setting. *)
Record copy := Copy {
  cmd_size : nat; cmd_clear : nat; keep : Z -> bool;
  set_value : list Z -> list Z -> userconfig_info_t -> userconfig_info_t
}.

Record parser := Parser {
  parse_state : pstate; command : list Z; value : list Z; char_counter : nat; uc : userconfig_info_t
}.
#[export] Instance eta_parser : Settable parser :=
  fun r => Parser r.(parse_state) r.(command) r.(value) r.(char_counter) r.(uc).

Definition VALUE_SIZE : nat := 100.

Definition clear (n : nat) (a : list Z) : list Z := replicate n 0 ++ drop n a.

(** [a[i] = b]. *)
Definition set_char (a : list Z) (i : nat) (b : Z) : res (list Z) :=
  if (i <? length a)%nat then Ok (<[i := b]> a) else Fault.

Definition empty_str (a : list Z) : bool := match a with [] => true | b :: _ => b =? 0 end.

Section copy.
Context (P : copy).

(** A line feed or carriage return.  The value of a comment is printed. *)
Definition end_of_line (s : parser) : res parser :=
  c ← (if negb (empty_str (command s)) && negb (empty_str (value s)) then
         match parse_state s with
         | PRINT => _ ← cstr (value s); Ok (uc s)
         | GET_VALUE => k ← cstr (command s); v ← cstr (value s); Ok (set_value P k v (uc s))
         | _ => Ok (uc s)
         end
       else Ok (uc s));
  Ok (Parser INIT (clear (cmd_clear P) (command s)) (clear VALUE_SIZE (value s)) 0 c).

(** Fill data to command and value. *)
Definition fill (b : Z) (s : parser) : res parser :=
  match parse_state s with
  | PRINT =>
    k ← set_char (command s) 0 1;
    v ← set_char (value s) (char_counter s) b;
    Ok (s <| command := k |> <| value := v |> <| char_counter ::= S |>)
  | CMD =>
    if negb (empty_str (command s)) && (b =? 61) then Ok (s <| parse_state := GET_VALUE |> <| char_counter := 0%nat |>)
    else
      k ← set_char (command s) (char_counter s) b;
      Ok (s <| command := k |> <| char_counter ::= S |>)
  | GET_VALUE =>
    if negb (keep P b) then Ok s
    else
      v ← set_char (value s) (char_counter s) b;
      Ok (s <| value := v |> <| char_counter ::= S |>)
  | INIT => Ok s
  end.

Definition parse_char (b : Z) (s : parser) : res parser :=
  if (b =? 10) || (b =? 13) then end_of_line s
  else
    match parse_state s with
    | INIT => if b =? 35 then Ok (s <| parse_state := PRINT |>) else fill b (s <| parse_state := CMD |>)
    | _ => fill b s
    end.

Fixpoint parse_loop (buffer : list Z) (s : parser) : res parser :=
  match buffer with
  | [] => Ok s
  | b :: buffer' => s ← parse_char b s; parse_loop buffer' s
  end.

(** [junk]: what the stack holds where [command] is. *)
Definition parsing (junk : list Z) (buffer : list Z) (c : userconfig_info_t) : res userconfig_info_t :=
  let command := clear (cmd_clear P) (take (cmd_size P) (junk ++ replicate (cmd_size P) 0)) in
  s ← parse_loop buffer (Parser INIT command (replicate VALUE_SIZE 0) 0 c);
  Ok (uc s).
End copy.

Definition any_char (b : Z) : bool := true.
Definition number_char (b : Z) : bool := negb (negb (b =? 45) && ((b <? 48) || (57 <? b))).

Definition copy2 : copy := Copy 30 30 any_char rwnx_plat_nvram_set_value.
Definition copy3 : copy := Copy 64 64 number_char rwnx_plat_nvram_set_value_v3.
Definition copy_8800d80x2 : copy := Copy 100 64 number_char rwnx_plat_nvram_set_value_8800d80x2.

Definition rwnx_plat_userconfig_parsing2 := parsing copy2 [].
Definition rwnx_plat_userconfig_parsing3 := parsing copy3 [].
Definition rwnx_plat_userconfig_parsing_8800d80x2 := parsing copy_8800d80x2.

End Conf.
