(* ===== verification/ConfParse.v ===== *)
(** * What the user configuration parsers recognise

    The parsers take a file line by line: a line is a comment, a setting or
    neither, and is judged by itself; a line longer than the buffers on the
    stack overruns them, and a last line without an end counts for nothing.  A
    configuration that is written out is read back. *)

From S2P Require Import Prelude Conf.
From Stdlib Require Import String.
From stdpp Require Import list.
Import Conf.
Open Scope Z_scope.
Open Scope list_scope.

Module ConfParse.

(** ** The format *)

Definition is_eol (b : Z) : bool := (b =? 10) || (b =? 13).

(** The terminated lines of a file, and what follows the last of them. *)
Fixpoint split_lines (buf : list Z) : list (list Z) * list Z :=
  match buf with
  | [] => ([], [])
  | b :: r =>
    let '(ls, last) := split_lines r in
    if is_eol b then ([] :: ls, last)
    else match ls with [] => ([], b :: last) | l :: ls => ((b :: l) :: ls, last) end
  end.

(** What stands before the first equals sign, and after it. *)
Fixpoint break_eq (l : list Z) : list Z * list Z :=
  match l with
  | [] => ([], [])
  | b :: l => if b =? 61 then ([], l) else let '(k, v) := break_eq l in (b :: k, v)
  end.

Inductive line := Blank | Comment (t : list Z) | Setting (k v : list Z).

(** A key has at least one character, which may be anything. *)
Definition read_line (P : copy) (l : list Z) : line :=
  match l with
  | [] => Blank
  | b :: l => if b =? 35 then Comment l else let '(k, v) := break_eq l in Setting (b :: k) (List.filter (keep P) v)
  end.

Definition apply_line (P : copy) (l : list Z) (c : userconfig_info_t) : userconfig_info_t :=
  match read_line P l with
  | Setting k [] => c
  | Setting k v => set_value P k v c
  | _ => c
  end.

(** The line fits the buffers, with the zero when it is to be read back. *)
Definition fits (P : copy) (l : list Z) : bool :=
  match read_line P l with
  | Blank => true
  | Comment t => (length t <? VALUE_SIZE)%nat
  | Setting k [] => (length k <=? cmd_clear P)%nat
  | Setting k v => (length k <? cmd_clear P)%nat && (length v <? VALUE_SIZE)%nat
  end.

(** The same for what follows the last line, which is not read back. *)
Definition fits_last (P : copy) (l : list Z) : bool :=
  match read_line P l with
  | Blank => true
  | Comment t => (length t <=? VALUE_SIZE)%nat
  | Setting k v => (length k <=? cmd_clear P)%nat && (length v <=? VALUE_SIZE)%nat
  end.

Definition all_fit (P : copy) (buf : list Z) : bool :=
  let '(ls, last) := split_lines buf in forallb (fits P) ls && fits_last P last.

Definition apply_lines (P : copy) (buf : list Z) (c : userconfig_info_t) : userconfig_info_t :=
  foldl (fun c l => apply_line P l c) c (split_lines buf).1.

(** ** Splitting *)

Definition plain (b : Z) : Prop := is_eol b = false /\ b <> 0.

Lemma split_lines_cons buf l ls last : split_lines buf = (l :: ls, last) ->
  exists e r, buf = l ++ e :: r /\ Forall (fun b => is_eol b = false) l /\ is_eol e = true /\ split_lines r = (ls, last).
Proof.
  revert l ls. induction buf as [|b buf IH]; intros l ls; cbn; [done |].
  destruct (split_lines buf) as [ls0 last0] eqn:Hs. destruct (is_eol b) eqn:Hb.
  - intros [= <- <- <-]. exists b, buf. by rewrite Hs.
  - destruct ls0 as [|l0 ls0]; [done |]. intros [= <- <- <-].
    destruct (IH l0 ls0 eq_refl) as (e & r & -> & Hl & He & Hr). exists e, r. split_and!; [done | by constructor | done..].
Qed.

Lemma split_lines_nil buf last : split_lines buf = ([], last) -> buf = last /\ Forall (fun b => is_eol b = false) last.
Proof.
  revert last. induction buf as [|b buf IH]; intros last; cbn; [by intros [= <-] |].
  destruct (split_lines buf) as [ls0 last0] eqn:Hs. destruct (is_eol b) eqn:Hb; [done |].
  destruct ls0; [|done]. intros [= <-]. destruct (IH last0 eq_refl) as [-> ?]. split; [done | by constructor].
Qed.

Lemma split_lines_app l e r : Forall (fun b => is_eol b = false) l -> is_eol e = true ->
  split_lines (l ++ e :: r) = (l :: (split_lines r).1, (split_lines r).2).
Proof.
  intros Hl He. induction Hl as [|b l Hb Hl IH]; cbn; destruct (split_lines r) as [ls last] eqn:Hr.
  - by rewrite He.
  - rewrite IH, Hb. done.
Qed.

Lemma break_eq_spec l k v : break_eq l = (k, v) ->
  Forall (fun b => b <> 61) k /\ (l = k ++ 61 :: v \/ l = k /\ v = []).
Proof.
  revert k. induction l as [|b l IH]; intros k; cbn; [intros [= <- <-]; split; [done | by right] |].
  destruct (Z.eqb_spec b 61) as [-> |].
  - intros [= <- <-]. split; [done | by left].
  - destruct (break_eq l) as [k0 v0]. intros [= <- <-]. destruct (IH k0 eq_refl) as [Hk Hl].
    split; [by constructor |]. destruct Hl as [-> | [-> ->]]; [by left | by right].
Qed.

Lemma break_eq_app k v : Forall (fun b => b <> 61) k -> break_eq (k ++ 61 :: v) = (k, v).
Proof.
  induction 1 as [|b k Hb _ IH]; cbn; [done |]. by rewrite (proj2 (Z.eqb_neq _ _)), IH.
Qed.

(** ** The buffers *)

(** [k] in a cleared buffer of [n] bytes. *)
Definition rep (n : nat) (k : list Z) : list Z := k ++ replicate (n - length k) 0.

Lemma set_char_rep n k b J' : (length k < n)%nat -> set_char (rep n k ++ J') (length k) b = Ok (rep n (k ++ [b]) ++ J').
Proof.
  intros Hk. unfold set_char, rep. rewrite !length_app, length_replicate, (proj2 (Nat.ltb_lt _ _)) by lia.
  rewrite <- !app_assoc, insert_app_r_alt, Nat.sub_diag by lia.
  replace (n - length k)%nat with (S (n - (length k + length [b]))) by (cbn; lia). done.
Qed.

Lemma set_char_full n k b : length k = n -> set_char (rep n k) (length k) b = Fault.
Proof.
  intros <-. unfold set_char, rep. rewrite Nat.sub_diag, app_nil_r.
  by destruct (Nat.ltb_spec (length k) (length k)); [lia |].
Qed.

Lemma cstr_rep n k J' : Forall (fun b => b <> 0) k -> (length k < n)%nat -> cstr (rep n k ++ J') = Ok k.
Proof.
  unfold rep. intros Hk. revert n. induction Hk as [|b k Hb _ IH]; intros n Hn; cbn [length] in *.
  - destruct n; [lia |]. done.
  - cbn. rewrite (proj2 (Z.eqb_neq _ _)) by done. destruct n as [|n]; [lia |].
    cbn [Nat.sub]. by rewrite (IH n) by lia.
Qed.

Lemma cstr_full n k : Forall (fun b => b <> 0) k -> length k = n -> cstr (rep n k) = Fault.
Proof.
  intros Hk <-. unfold rep. rewrite Nat.sub_diag, app_nil_r. induction Hk as [|b k Hb _ IH]; cbn; [done |].
  rewrite (proj2 (Z.eqb_neq _ _)) by done. by rewrite IH.
Qed.

Lemma clear_rep n k J' : (length k <= n)%nat -> clear n (rep n k ++ J') = rep n [] ++ J'.
Proof.
  intros Hk. unfold clear, rep. rewrite drop_app_length' by (rewrite length_app, length_replicate; lia).
  cbn. by rewrite Nat.sub_0_r.
Qed.

Lemma empty_rep n k J' : Forall (fun b => b <> 0) k -> (0 < n)%nat ->
  empty_str (rep n k ++ J') = match k with [] => true | _ => false end.
Proof.
  intros [|b k' Hb _] Hn; unfold rep; cbn.
  - rewrite Nat.sub_0_r. by destruct n; [lia |].
  - by apply Z.eqb_neq.
Qed.
(** ** One line *)

Section line.
Context (P : copy) (J : list Z) (Hm : (1 < cmd_clear P)%nat).
Abbreviation m := (cmd_clear P).

(** The buffers with [k] and [v] in them. *)
Definition at_line (st : pstate) (k v : list Z) (n : nat) (c : userconfig_info_t) : parser :=
  Parser st (rep m k ++ J) (rep VALUE_SIZE v) n c.

Definition fresh (c : userconfig_info_t) : parser := at_line INIT [] [] 0 c.

Lemma set_cmd k b : J = [] \/ (length k < m)%nat -> (length k <= m)%nat ->
  set_char (rep m k ++ J) (length k) b = if (length k <? m)%nat then Ok (rep m (k ++ [b]) ++ J) else Fault.
Proof using Hm.
  intros HJ Hk. destruct (Nat.ltb_spec (length k) m); [by apply set_char_rep |].
  destruct HJ as [-> | ?]; [|lia]. rewrite app_nil_r. apply set_char_full. lia.
Qed.

Lemma set_val v b : (length v <= VALUE_SIZE)%nat ->
  set_char (rep VALUE_SIZE v) (length v) b = if (length v <? VALUE_SIZE)%nat then Ok (rep VALUE_SIZE (v ++ [b])) else Fault.
Proof using Hm.
  intros Hv. destruct (Nat.ltb_spec (length v) VALUE_SIZE).
  - pose proof (set_char_rep VALUE_SIZE v b [] ltac:(done)) as H0. by rewrite !app_nil_r in H0.
  - apply set_char_full. lia.
Qed.

Lemma run_cmd w rest k c : k <> [] -> Forall plain k -> Forall plain w -> Forall (fun b => b <> 61) w ->
  (length k <= m)%nat -> J = [] \/ (length (k ++ w) <= m)%nat ->
  parse_loop P (w ++ rest) (at_line CMD k [] (length k) c) =
    if (length (k ++ w) <=? m)%nat then parse_loop P rest (at_line CMD (k ++ w) [] (length (k ++ w)) c) else Fault.
Proof using Hm.
  revert k. induction w as [|b w IH]; intros k Hne Hk Hw Hq Hl HJ; cbn [app parse_loop].
  - rewrite app_nil_r. by rewrite (proj2 (Nat.leb_le _ _)).
  - apply Forall_cons in Hw as [[Hb Hz] Hw]. apply Forall_cons in Hq as [Hq0 Hq].
    unfold parse_char. change ((b =? 10) || (b =? 13)) with (is_eol b). rewrite Hb. cbn [parse_state at_line fill].
    unfold fill. cbn [parse_state command char_counter at_line].
    rewrite (proj2 (Z.eqb_neq b 61)), andb_false_r by done.
    rewrite set_cmd by (rewrite length_app in HJ; cbn in HJ; lia || (destruct HJ; [by left | right; lia])).
    rewrite length_app in *. cbn [length] in *. destruct (Nat.ltb_spec (length k) m).
    + change (k ++ b :: w) with (k ++ [b] ++ w). rewrite app_assoc.
      transitivity (parse_loop P (w ++ rest) (at_line CMD (k ++ [b]) [] (length (k ++ [b])) c)).
      { unfold at_line. rewrite length_app, Nat.add_1_r. done. }
      rewrite IH; [by rewrite length_app; cbn; rewrite length_app, <- Nat.add_assoc | ..].
      * by destruct k.
      * apply Forall_app. split; [done | by repeat constructor].
      * done.
      * done.
      * rewrite length_app. cbn. lia.
      * rewrite !length_app. cbn. destruct HJ; [by left | right; lia].
    + cbn. by destruct (Nat.leb_spec (length k + S (length w)) m); [lia |].
Qed.

Lemma run_value w rest k v c : Forall plain w -> (length v <= VALUE_SIZE)%nat ->
  parse_loop P (w ++ rest) (at_line GET_VALUE k v (length v) c) =
    let v' := v ++ List.filter (keep P) w in
    if (length v' <=? VALUE_SIZE)%nat then parse_loop P rest (at_line GET_VALUE k v' (length v') c) else Fault.
Proof using Hm.
  intros Hw. revert v. induction Hw as [|b w [Hb Hz] Hw IH]; intros v Hv; cbn [app parse_loop List.filter].
  - rewrite app_nil_r. cbn zeta. by rewrite (proj2 (Nat.leb_le _ _)).
  - unfold parse_char. change ((b =? 10) || (b =? 13)) with (is_eol b). rewrite Hb. cbn [parse_state at_line].
    unfold fill. cbn [parse_state value char_counter at_line]. destruct (keep P b); cbn [negb]; [|by apply IH].
    rewrite set_val by done. destruct (Nat.ltb_spec (length v) VALUE_SIZE).
    + transitivity (parse_loop P (w ++ rest) (at_line GET_VALUE k (v ++ [b]) (length (v ++ [b])) c)).
      { unfold at_line. rewrite length_app, Nat.add_1_r. done. }
      rewrite IH by (rewrite length_app; cbn; lia). by rewrite <- app_assoc.
    + cbn zeta. rewrite length_app. cbn [length]. by rewrite (proj2 (Nat.leb_gt _ _)) by lia.
Qed.

(** What a comment leaves in the buffer of the key. *)
Definition mark (t : list Z) : list Z := match t with [] => [] | _ => [1] end.

Lemma set_mark t : set_char (rep m (mark t) ++ J) 0 1 = Ok (rep m [1] ++ J).
Proof using Hm.
  destruct t; [apply (set_char_rep m [] 1 J); cbn; lia |].
  unfold set_char, rep. rewrite length_app, length_app, length_replicate. cbn [length mark app].
  by rewrite (proj2 (Nat.ltb_lt _ _)) by lia.
Qed.

Lemma run_print w rest t c : Forall plain w -> (length t <= VALUE_SIZE)%nat ->
  parse_loop P (w ++ rest) (at_line PRINT (mark t) t (length t) c) =
    if (length (t ++ w) <=? VALUE_SIZE)%nat
    then parse_loop P rest (at_line PRINT (mark (t ++ w)) (t ++ w) (length (t ++ w)) c) else Fault.
Proof using Hm.
  intros Hw. revert t. induction Hw as [|b w [Hb Hz] Hw IH]; intros t Ht; cbn [app parse_loop].
  - rewrite app_nil_r. by rewrite (proj2 (Nat.leb_le _ _)).
  - unfold parse_char. change ((b =? 10) || (b =? 13)) with (is_eol b). rewrite Hb. cbn [parse_state at_line].
    unfold fill. cbn [parse_state value command char_counter at_line]. rewrite set_mark. cbn [mbind res_bind].
    rewrite set_val by done. rewrite length_app. cbn [length]. destruct (Nat.ltb_spec (length t) VALUE_SIZE).
    + transitivity (parse_loop P (w ++ rest) (at_line PRINT (mark (t ++ [b])) (t ++ [b]) (length (t ++ [b])) c)).
      { unfold at_line. replace (mark (t ++ [b])) with [1] by by destruct t. by rewrite length_app, Nat.add_1_r. }
      rewrite IH by (rewrite length_app; cbn; lia). rewrite <- app_assoc. cbn [app].
      by rewrite length_app.
    + cbn. by rewrite (proj2 (Nat.leb_gt _ _)) by lia.
Qed.

Lemma run_eol st k v n c : Forall (fun b => b <> 0) k -> Forall (fun b => b <> 0) v ->
  (length k <= m)%nat -> (length v <= VALUE_SIZE)%nat -> J = [] \/ v = [] \/ (length k < m)%nat ->
  end_of_line P (at_line st k v n c) =
    match k, v, st with
    | [], _, _ | _, [], _ => Ok (fresh c)
    | _, _, PRINT => if (length v <? VALUE_SIZE)%nat then Ok (fresh c) else Fault
    | _, _, GET_VALUE =>
      if (length k <? m)%nat && (length v <? VALUE_SIZE)%nat then Ok (fresh (set_value P k v c)) else Fault
    | _, _, _ => Ok (fresh c)
    end.
Proof using Hm.
  intros Hk Hv Hkl Hvl HJ. unfold end_of_line. cbn [command value parse_state uc at_line].
  assert (cstr (rep VALUE_SIZE v) = if (length v <? VALUE_SIZE)%nat then Ok v else Fault) as Hcv.
  { destruct (Nat.ltb_spec (length v) VALUE_SIZE); [|apply cstr_full; [done | lia]].
    rewrite <- (app_nil_r (rep _ _)). by apply cstr_rep. }
  assert (v <> [] -> cstr (rep m k ++ J) = if (length k <? m)%nat then Ok k else Fault) as Hck.
  { intros Hne. destruct (Nat.ltb_spec (length k) m); [by apply cstr_rep |].
    destruct HJ as [-> | [-> | ?]]; [|done | lia]. rewrite app_nil_r. apply cstr_full; [done | lia]. }
  rewrite Hcv. rewrite <- (app_nil_r (rep VALUE_SIZE v)).
  rewrite !empty_rep by (done || unfold VALUE_SIZE; lia). rewrite !clear_rep by done. rewrite app_nil_r.
  destruct k, v; try done. cbn [negb andb]. destruct st; try done.
  - by destruct (_ <? _)%nat.
  - rewrite Hck by done. destruct (_ <? m)%nat; [|done]. by destruct (_ <? _)%nat.
Qed.

Lemma break_eq_plain l k v : Forall plain l -> break_eq l = (k, v) -> Forall plain k /\ Forall plain v.
Proof using Type.
  intros Hl Hb. destruct (break_eq_spec _ _ _ Hb) as [_ [-> | [-> ->]]]; [|by split].
  apply Forall_app in Hl as [? [_ ?]%Forall_cons]. by split.
Qed.

Lemma plain_nz l : Forall plain l -> Forall (fun b => b <> 0) l.
Proof using Type. intros Hl. eapply Forall_impl; [exact Hl |]. by intros b [_ Hb]. Qed.

Lemma filter_nz l : Forall plain l -> Forall (fun b => b <> 0) (List.filter (keep P) l).
Proof using Type.
  induction 1 as [|b l [_ Hb] _ IH]; cbn; [done |]. destruct (keep P b); [by constructor | done].
Qed.

Lemma run_setting b l k v : Forall plain (b :: l) -> b <> 35 -> break_eq l = (k, v) ->
  let v' := List.filter (keep P) v in
  J = [] \/ (length (b :: k) <= m)%nat ->
  exists st n, (v' <> [] -> st = GET_VALUE) /\ st <> PRINT /\ forall rest c,
    parse_loop P ((b :: l) ++ rest) (fresh c) =
      if (length (b :: k) <=? m)%nat && (length v' <=? VALUE_SIZE)%nat
      then parse_loop P rest (at_line st (b :: k) v' n c) else Fault.
Proof using Hm.
  intros Hp Hb Hbr v' HJ. apply Forall_cons in Hp as [[Heb Hzb] Hl].
  destruct (break_eq_plain _ _ _ Hl Hbr) as [Hk Hv]. destruct (break_eq_spec _ _ _ Hbr) as [Hq Hsp].
  assert (forall w c, parse_loop P (b :: w) (fresh c) = parse_loop P w (at_line CMD [b] [] (length [b]) c)) as Hfirst.
  { intros w c. cbn [parse_loop]. unfold parse_char. change ((b =? 10) || (b =? 13)) with (is_eol b). rewrite Heb.
    cbn [parse_state fresh at_line]. rewrite (proj2 (Z.eqb_neq b 35)) by done.
    change (upd parse_state (fun _ => CMD) (fresh c)) with (at_line CMD [] [] (length (@nil Z)) c).
    unfold fill. cbn [parse_state command char_counter at_line]. rewrite empty_rep by (done || lia). cbn [negb andb].
    rewrite set_cmd by (cbn; lia || (right; cbn; lia)). by rewrite (proj2 (Nat.ltb_lt _ _)) by (cbn; lia). }
  assert (forall w c, parse_loop P (k ++ w) (at_line CMD [b] [] (length [b]) c) =
    if (length (b :: k) <=? m)%nat then parse_loop P w (at_line CMD (b :: k) [] (length (b :: k)) c) else Fault) as Hrun.
  { intros w c. apply (run_cmd k w [b]); [done | by repeat constructor | done.. | cbn; lia | done]. }
  destruct Hsp as [-> | [-> ->]].
  - exists GET_VALUE, (length v'). split_and!; [done | done |]. intros rest c. cbn [app]. rewrite Hfirst, <- app_assoc, Hrun.
    destruct (Nat.leb_spec (length (b :: k)) m); [|done]. cbn [andb app parse_loop].
    unfold parse_char. cbn [Z.eqb orb parse_state at_line]. unfold fill. cbn [parse_state command char_counter at_line].
    rewrite empty_rep by (lia || by (constructor; [done | by apply plain_nz])).
    cbn [negb andb Z.eqb]. change (61 =? 61) with true. cbn [mbind res_bind].
    exact (run_value v rest (b :: k) [] c Hv (Nat.le_0_l _)).
  - exists CMD, (length (b :: k)). split_and!; [done | done |]. intros rest c. cbn [app]. rewrite Hfirst, Hrun.
    by destruct (_ <=? _)%nat.
Qed.

Lemma run_line l e rest c : Forall plain l -> is_eol e = true -> J = [] \/ fits P l = true ->
  parse_loop P (l ++ e :: rest) (fresh c) = if fits P l then parse_loop P rest (fresh (apply_line P l c)) else Fault.
Proof using Hm.
  intros Hl He HJ. assert (forall s, parse_loop P (e :: rest) s = end_of_line P s ≫= parse_loop P rest) as Heol.
  { intros s. cbn [parse_loop]. unfold parse_char. change ((e =? 10) || (e =? 13)) with (is_eol e). by rewrite He. }
  unfold apply_line, fits in *. destruct l as [|b l]; cbn [read_line app] in *.
  - rewrite Heol. unfold fresh. rewrite run_eol by (done || cbn; lia || by right; left). done.
  - destruct (Z.eqb_spec b 35) as [-> |].
    + apply Forall_cons in Hl as [_ Hl]. cbn [parse_loop]. change (parse_char P 35 (fresh c)) with (Ok (at_line PRINT (mark []) [] (length (@nil Z)) c)).
      cbn [mbind res_bind]. rewrite run_print by (done || cbn; lia). cbn [app].
      assert (Forall (fun b => b <> 0) l) by by apply plain_nz.
      destruct (Nat.leb_spec (length l) VALUE_SIZE).
      * rewrite Heol, run_eol; [|destruct l; by repeat constructor | done | destruct l; cbn; lia | done |].
        { destruct l; [done |]. cbn [mark]. by destruct (_ <? VALUE_SIZE)%nat. }
        right. right. destruct l; cbn; lia.
      * by destruct (Nat.ltb_spec (length l) VALUE_SIZE); [lia |].
    + destruct (break_eq l) as [k v] eqn:Hbr. set (v' := List.filter (keep P) v) in *.
      assert (J = [] \/ (length (b :: k) <= m)%nat) as HJ'.
      { destruct HJ as [? | HJ]; [by left | right]. destruct v'; [by apply Nat.leb_le |].
        apply andb_true_iff in HJ as [HJ%Nat.ltb_lt _]. lia. }
      destruct (run_setting b l k v Hl ltac:(done) Hbr HJ') as (st & cnt & Hst & Hnp & Hrun).
      change (b :: l ++ e :: rest) with ((b :: l) ++ e :: rest). rewrite Hrun. fold v'. fold v' in Hst.
      destruct (break_eq_plain l k v) as [Hk Hv]; [by apply Forall_cons in Hl as [_ ?] | done |].
      assert (Forall (fun b => b <> 0) (b :: k)) as Hnz by (apply Forall_cons in Hl as [[_ ?] _]; constructor; [done | by apply plain_nz]).
      apply filter_nz in Hv. fold v' in Hv. clearbody v'.
      destruct (Nat.leb_spec (length (b :: k)) m); cbn [andb].
      * destruct (Nat.leb_spec (length v') VALUE_SIZE); cbn [andb].
        -- rewrite Heol, run_eol; [|done | done | lia | lia |].
           { destruct v' as [|a v']; [reflexivity |]. rewrite Hst by done. by destruct (_ && _). }
           destruct HJ as [? | HJ]; [by left | right]. destruct v'; [by left | right].
           apply andb_true_iff in HJ as [HJ%Nat.ltb_lt _]. done.
        -- destruct v' as [|a v']; [cbn in *; lia |]. by rewrite (proj2 (Nat.ltb_ge _ VALUE_SIZE)), andb_false_r by lia.
      * destruct v' as [|a v']; [done |]. by rewrite (proj2 (Nat.ltb_ge _ m)) by lia.
Qed.

Lemma run_last l c : Forall plain l -> J = [] \/ fits_last P l = true ->
  if fits_last P l then exists s, parse_loop P l (fresh c) = Ok s /\ uc s = c else parse_loop P l (fresh c) = Fault.
Proof using Hm.
  intros Hl HJ. unfold fits_last in *. destruct l as [|b l]; cbn [read_line] in *; [by eexists |].
  rewrite <- (app_nil_r (b :: l)). destruct (Z.eqb_spec b 35) as [-> |].
  - apply Forall_cons in Hl as [_ Hl]. cbn [parse_loop app].
    change (parse_char P 35 (fresh c)) with (Ok (at_line PRINT (mark []) [] (length (@nil Z)) c)).
    cbn [mbind res_bind]. rewrite run_print by (done || cbn; lia). cbn [app].
    destruct (length l <=? VALUE_SIZE)%nat; [by eexists | done].
  - destruct (break_eq l) as [k v] eqn:Hbr.
    assert (J = [] \/ (length (b :: k) <= m)%nat) as HJ'.
    { destruct HJ as [? | HJ]; [by left | right]. apply andb_true_iff in HJ as [HJ%Nat.leb_le _]. done. }
    destruct (run_setting b l k v Hl ltac:(done) Hbr HJ') as (st & cnt & _ & _ & Hrun).
    rewrite Hrun. destruct (_ && _); [by eexists | done].
Qed.

Lemma run_lines buf c : Forall (fun b => b <> 0) buf -> J = [] \/ all_fit P buf = true ->
  parse_loop P buf (fresh c) ≫= (fun s => Ok (uc s)) = if all_fit P buf then Ok (apply_lines P buf c) else Fault.
Proof using Hm.
  unfold all_fit, apply_lines. destruct (split_lines buf) as [ls last] eqn:Hs. cbn [fst].
  revert buf c Hs. induction ls as [|l ls IH]; intros buf c Hs Hz HJ; cbn [forallb foldl andb] in *.
  - apply split_lines_nil in Hs as [-> Hl].
    pose proof (run_last last c) as Hr. destruct (fits_last P last).
    + destruct Hr as (s & -> & <-); [by apply Forall_and | by right | done].
    + rewrite Hr; [done | by apply Forall_and | done].
  - destruct (split_lines_cons _ _ _ _ Hs) as (e & r & -> & Hl & He & Hr).
    apply Forall_app in Hz as [Hz [_ Hzr]%Forall_cons].
    rewrite run_line; [|by apply Forall_and | done | destruct HJ as [? | HJ]; [by left | right; by destruct (fits P l)]].
    destruct (fits P l); [|done]. apply (IH r _ Hr Hzr). done.
Qed.
End line.

Lemma parsing_lines P junk buf c : (1 < cmd_clear P <= cmd_size P)%nat -> Forall (fun b => b <> 0) buf ->
  cmd_clear P = cmd_size P \/ all_fit P buf = true ->
  parsing P junk buf c = if all_fit P buf then Ok (apply_lines P buf c) else Fault.
Proof.
  intros [Hm Hs] Hz HJ. unfold parsing. set (a := take _ _).
  assert (length a = cmd_size P) as Ha by (unfold a; rewrite length_take, length_app, length_replicate; lia).
  change (Parser INIT (clear (cmd_clear P) a) (replicate VALUE_SIZE 0) 0 c)
    with (Parser INIT (replicate (cmd_clear P) 0 ++ drop (cmd_clear P) a) (rep VALUE_SIZE []) 0 c).
  rewrite <- (run_lines P (drop (cmd_clear P) a) Hm) by
    (done || (destruct HJ as [HJ | ?]; [left; apply nil_length_inv; rewrite length_drop; lia | by right])).
  unfold fresh, at_line, rep. cbn [length app]. by rewrite !Nat.sub_0_r.
Qed.

(** C36. The three character-by-character parsers of the user configuration do what a
    line-by-line reading of the file says: on a file without zero bytes those of the DC
    and D80 chips apply the settings of the terminated lines in order if every line fits
    the buffers on the stack and overrun a buffer otherwise; that of the D80X2 does so,
    whatever the stack held, if every line fits. *)
Theorem userconfig_parsed_by_lines buf c junk : Forall (fun b => b <> 0) buf ->
  rwnx_plat_userconfig_parsing2 buf c = (if all_fit copy2 buf then Ok (apply_lines copy2 buf c) else Fault) /\
  rwnx_plat_userconfig_parsing3 buf c = (if all_fit copy3 buf then Ok (apply_lines copy3 buf c) else Fault) /\
  (all_fit copy_8800d80x2 buf = true ->
    rwnx_plat_userconfig_parsing_8800d80x2 junk buf c = Ok (apply_lines copy_8800d80x2 buf c)).
Proof.
  intros Hz. split_and!; [apply parsing_lines; [cbn; lia | done | by left].. |].
  intros Hf. unfold rwnx_plat_userconfig_parsing_8800d80x2. rewrite parsing_lines by (cbn; lia || done || by right).
  by rewrite Hf.
Qed.

Module Example.

(** A comment, a setting whose own comment has a digit, a key with a blank
    after it, a setting that is not terminated. *)
Definition file : list Z :=
  text "# levels" ++ [10] ++ text "lvl_11ax_mcs3_5g=17 #max 5" ++ [13; 10] ++ text "enable =0" ++ [10] ++ text "xtal_cap=9".

Example file_read : (c ← rwnx_plat_userconfig_parsing3 file userconfig_info;
  Ok (get (V3_pwrlvl_11ax_5g 3) c, get V3_enable c, get Xtal_xtal_cap c)) = Ok (-81, 1, 24).
Proof. reflexivity. Qed.

Lemma file_nz : Forall (fun b => b <> 0) file.
Proof. vm_compute. repeat (constructor; [discriminate |]). constructor. Qed.

(** A comment of 100 characters overruns the buffer of the value. *)
Definition long : list Z := text "#" ++ replicate 100 45 ++ [10].

Lemma userconfig_parsed_by_lines_witness :
  rwnx_plat_userconfig_parsing3 file userconfig_info = Ok (apply_lines copy3 file userconfig_info) /\
  rwnx_plat_userconfig_parsing2 long userconfig_info = Fault /\
  rwnx_plat_userconfig_parsing_8800d80x2 (replicate 100 255) file userconfig_info =
    Ok (apply_lines copy_8800d80x2 file userconfig_info).
Proof.
  destruct (userconfig_parsed_by_lines file userconfig_info (replicate 100 255) file_nz) as (_ & H3 & HX).
  destruct (userconfig_parsed_by_lines long userconfig_info []) as (H2 & _ & _).
  { vm_compute. repeat (constructor; [discriminate |]). constructor. }
  split_and!.
  - exact H3.
  - rewrite H2. reflexivity.
  - apply HX. reflexivity.
Defined.

End Example.

End ConfParse.
