(* ===== verification/ConfRound.v ===== *)
(** * A configuration that is written out is read back

    [userconfig_info] as a store: what an assignment to a member changes.  The
    decimal numbers [dec] writes are those rwnx_atoi reads, and a file with a
    line for every key restores every member a key names. *)

From S2P Require Import Prelude Conf ConfParse.
From Stdlib Require Import String.
From stdpp Require Import list.
Import Conf ConfParse.
Open Scope Z_scope.
Open Scope list_scope.

Module ConfRound.

(** ** The members *)

Definition arrays (c : userconfig_info_t) : list (list Z) :=
  [v2_pwrlvl_11b_11ag_2g4 (txpwr_lvl_v2 c); v2_pwrlvl_11n_11ac_2g4 (txpwr_lvl_v2 c);
   v2_pwrlvl_11ax_2g4 (txpwr_lvl_v2 c); v3_pwrlvl_11b_11ag_2g4 (txpwr_lvl_v3 c);
   v3_pwrlvl_11n_11ac_2g4 (txpwr_lvl_v3 c); v3_pwrlvl_11ax_2g4 (txpwr_lvl_v3 c); v3_pwrlvl_11a_5g (txpwr_lvl_v3 c);
   v3_pwrlvl_11n_11ac_5g (txpwr_lvl_v3 c); v3_pwrlvl_11ax_5g (txpwr_lvl_v3 c);
   v4_pwrlvl_11b_11ag_2g4 (txpwr_lvl_v4 c); v4_pwrlvl_11n_11ac_2g4 (txpwr_lvl_v4 c);
   v4_pwrlvl_11ax_2g4 (txpwr_lvl_v4 c); v4_pwrlvl_11a_5g (txpwr_lvl_v4 c); v4_pwrlvl_11n_11ac_5g (txpwr_lvl_v4 c);
   v4_pwrlvl_11ax_5g (txpwr_lvl_v4 c); v4_pwrlvl_11a_6g (txpwr_lvl_v4 c); v4_pwrlvl_11n_11ac_6g (txpwr_lvl_v4 c);
   v4_pwrlvl_11ax_6g (txpwr_lvl_v4 c); adj_pwrlvl_adj_tbl_2g4 (txpwr_lvl_adj c);
   adj_pwrlvl_adj_tbl_5g (txpwr_lvl_adj c); ofst2x_pwrofst2x_tbl_2g4 (txpwr_ofst2x c);
   ofst2x_pwrofst2x_tbl_5g (txpwr_ofst2x c); ofst2x_v2_pwrofst2x_tbl_2g4_ant0 (txpwr_ofst2x_v2 c);
   ofst2x_v2_pwrofst2x_tbl_2g4_ant1 (txpwr_ofst2x_v2 c); ofst2x_v2_pwrofst2x_tbl_5g_ant0 (txpwr_ofst2x_v2 c);
   ofst2x_v2_pwrofst2x_tbl_5g_ant1 (txpwr_ofst2x_v2 c); ofst2x_v2_pwrofst2x_tbl_6g_ant0 (txpwr_ofst2x_v2 c);
   ofst2x_v2_pwrofst2x_tbl_6g_ant1 (txpwr_ofst2x_v2 c)].
Definition sizes : list nat := [12; 10; 12; 12; 10; 12; 12; 10; 12; 12; 10; 12; 8; 10; 12; 8; 10; 12; 3; 6; 9; 18;
  9; 9; 18; 18; 15; 15]%nat.

(** The arrays have the sizes of the C declarations. *)
Definition shape (c : userconfig_info_t) : Prop := length <$> arrays c = sizes.

(** Index and size, for an element of an array. *)
Definition dim (l : loc) : option (nat * nat) :=
  match l with
  | V2_pwrlvl_11b_11ag_2g4 i => Some (i, 12%nat)
  | V2_pwrlvl_11n_11ac_2g4 i => Some (i, 10%nat)
  | V2_pwrlvl_11ax_2g4 i => Some (i, 12%nat)
  | V3_pwrlvl_11b_11ag_2g4 i => Some (i, 12%nat)
  | V3_pwrlvl_11n_11ac_2g4 i => Some (i, 10%nat)
  | V3_pwrlvl_11ax_2g4 i => Some (i, 12%nat)
  | V3_pwrlvl_11a_5g i => Some (i, 12%nat)
  | V3_pwrlvl_11n_11ac_5g i => Some (i, 10%nat)
  | V3_pwrlvl_11ax_5g i => Some (i, 12%nat)
  | V4_pwrlvl_11b_11ag_2g4 i => Some (i, 12%nat)
  | V4_pwrlvl_11n_11ac_2g4 i => Some (i, 10%nat)
  | V4_pwrlvl_11ax_2g4 i => Some (i, 12%nat)
  | V4_pwrlvl_11a_5g i => Some (i, 8%nat)
  | V4_pwrlvl_11n_11ac_5g i => Some (i, 10%nat)
  | V4_pwrlvl_11ax_5g i => Some (i, 12%nat)
  | V4_pwrlvl_11a_6g i => Some (i, 8%nat)
  | V4_pwrlvl_11n_11ac_6g i => Some (i, 10%nat)
  | V4_pwrlvl_11ax_6g i => Some (i, 12%nat)
  | Adj_pwrlvl_adj_tbl_2g4 i => Some (i, 3%nat)
  | Adj_pwrlvl_adj_tbl_5g i => Some (i, 6%nat)
  | Ofst2x_pwrofst2x_tbl_2g4 i => Some (i, 9%nat)
  | Ofst2x_pwrofst2x_tbl_5g i => Some (i, 18%nat)
  | Ofst2xV2_pwrofst2x_tbl_2g4_ant0 i => Some (i, 9%nat)
  | Ofst2xV2_pwrofst2x_tbl_2g4_ant1 i => Some (i, 9%nat)
  | Ofst2xV2_pwrofst2x_tbl_5g_ant0 i => Some (i, 18%nat)
  | Ofst2xV2_pwrofst2x_tbl_5g_ant1 i => Some (i, 18%nat)
  | Ofst2xV2_pwrofst2x_tbl_6g_ant0 i => Some (i, 15%nat)
  | Ofst2xV2_pwrofst2x_tbl_6g_ant1 i => Some (i, 15%nat)
  | _ => None
  end.

Definition in_range (l : loc) : bool := match dim l with Some (i, n) => (i <? n)%nat | None => true end.

Lemma shape_defaults : shape userconfig_info.
Proof. reflexivity. Qed.

Lemma at_insert i x l n : length l = n -> (i < n)%nat -> at_idx i (<[i := x]> l) = x.
Proof. intros <- Hi. unfold at_idx. apply nth_lookup_Some. by apply list_lookup_insert_eq. Qed.

Lemma at_insert_ne i j x l : i <> j -> at_idx i (<[j := x]> l) = at_idx i l.
Proof. intros Hi. unfold at_idx. rewrite !nth_lookup. by rewrite list_lookup_insert_ne. Qed.

Lemma shape_put l v c : shape c -> shape (put l v c).
Proof.
  unfold shape, put. intros <-. destruct c as [[] [] [] [] [] [] [] [] [] []]. destruct l; cbn; by rewrite ?length_insert.
Qed.

Lemma get_put l v c : shape c -> in_range l = true -> get l (put l v c) = cast l v.
Proof.
  unfold shape, put. intros Hs Hr. destruct c as [[] [] [] [] [] [] [] [] [] []]. cbn in Hs. injection Hs. intros.
  destruct l; try reflexivity; unfold in_range in Hr; cbn [dim] in Hr; apply Nat.ltb_lt in Hr; by eapply at_insert.
Qed.

Lemma get_put_ne l l' v c : l <> l' -> get l (put l' v c) = get l c.
Proof.
  unfold put. intros Hl. destruct c as [[] [] [] [] [] [] [] [] [] []].
  destruct l, l'; try reflexivity; try done; cbn; apply at_insert_ne; congruence.
Qed.

(** ** Many assignments *)

Definition puts (ps : list (loc * Z)) (c : userconfig_info_t) : userconfig_info_t :=
  foldl (fun c p => put p.1 p.2 c) c ps.

Lemma get_puts_notin l ps c : l ∉ ps.*1 -> get l (puts ps c) = get l c.
Proof.
  unfold puts. revert c. induction ps as [|[l' v] ps IH]; intros c Hl; [done |].
  apply not_elem_of_cons in Hl as [Hne Hl]. cbn. rewrite IH by done. by apply get_put_ne.
Qed.

Lemma get_puts l v ps c : shape c -> forallb in_range ps.*1 = true -> NoDup ps.*1 -> (l, v) ∈ ps ->
  get l (puts ps c) = cast l v.
Proof.
  unfold puts. revert c. induction ps as [|[l' v'] ps IH]; intros c Hs Hr Hn Hl; [by apply elem_of_nil in Hl |].
  apply NoDup_cons in Hn as [Hni Hn]. cbn in Hr. apply andb_true_iff in Hr as [Hr' Hr]. cbn.
  apply elem_of_cons in Hl as [[= <- <-] | Hl].
  - fold (puts ps (put l v c)). rewrite get_puts_notin by done. by apply get_put.
  - apply IH; [by apply shape_put | done..].
Qed.

(** ** Decimal numbers *)

Lemma digits_digit fuel n : 0 <= n -> Forall (fun b => is_digit b = true) (digits fuel n).
Proof.
  revert n. induction fuel as [|fuel IH]; intros n Hn; cbn; [done |].
  pose proof (Z.mod_pos_bound n 10). unfold is_digit. destruct (Z.ltb_spec n 10).
  - constructor; [|done]. apply andb_true_iff. split; apply Z.leb_le; lia.
  - apply Forall_app. split; [apply IH; apply Z.div_pos; lia |]. constructor; [|done].
    apply andb_true_iff. split; apply Z.leb_le; lia.
Qed.

Lemma atoi_loop_app a b r : Forall (fun b => is_digit b = true) a -> atoi_loop (a ++ b) r = atoi_loop b (atoi_loop a r).
Proof. intros Ha. revert r. induction Ha as [|d a Hd _ IH]; intros r; cbn; [done |]. by rewrite Hd, IH. Qed.

Lemma atoi_digits fuel n : (0 < fuel)%nat -> 0 <= n < 10 ^ Z.of_nat fuel -> n < 2 ^ 31 -> atoi_loop (digits fuel n) 0 = n.
Proof.
  revert n. induction fuel as [|fuel IH]; intros n Hf Hn H31; [lia |].
  cbn [digits]. pose proof (Z.mod_pos_bound n 10). assert (forall d r, 0 <= d < 10 -> 0 <= r -> r * 10 + d < 2 ^ 31 ->
    atoi_loop [48 + d] r = r * 10 + d) as Hd.
  { intros d r Hd Hr Hlt. cbn. unfold is_digit. rewrite (s32_id (r * 10)) by lia.
    rewrite (proj2 (Z.leb_le 48 _)), (proj2 (Z.leb_le _ 57)) by lia. cbn. rewrite s32_id by lia. lia. }
  destruct (Z.ltb_spec n 10); [rewrite Hd by lia; lia |].
  rewrite Nat2Z.inj_succ, Z.pow_succ_r in Hn by lia. pose proof (Z.div_mod n 10).
  rewrite atoi_loop_app by (apply digits_digit; lia). destruct fuel; [cbn in Hn; lia |].
  rewrite IH by (lia || (split; [apply Z.div_pos; lia | apply Z.div_lt_upper_bound; lia]) || (apply Z.div_lt_upper_bound; lia)).
  rewrite Hd by lia. lia.
Qed.

Lemma atoi_dec v : - 2 ^ 31 < v < 2 ^ 31 -> rwnx_atoi (dec v) = v.
Proof.
  intros Hv. unfold dec. destruct (Z.ltb_spec v 0).
  - unfold rwnx_atoi. rewrite atoi_digits by lia. rewrite s32_id; lia.
  - assert (rwnx_atoi (digits 10 v) = s32 (atoi_loop (digits 10 v) 0 * 1)) as ->.
    { pose proof (digits_digit 10 v ltac:(lia)) as Hd. unfold rwnx_atoi.
      destruct (digits 10 v) as [|b l]; [done |]. apply Forall_cons in Hd as [Hb _].
      destruct (decide (b = 45)) as [-> |]; [done |]. repeat case_match; congruence || done. }
    rewrite atoi_digits by lia. rewrite s32_id; lia.
Qed.

(** ** A file of settings *)

Definition setting_line (s : list Z * Z) : list Z := s.1 ++ 61 :: dec s.2.

Definition settings_text (ss : list (list Z * Z)) : list Z := ss ≫= fun s => setting_line s ++ [10].

(** A key that is read as one by a parser with [n] bytes for it. *)
Definition good_key (n : nat) (k : list Z) : bool :=
  match k with [] => false | b :: _ => negb (b =? 35) end &&
  forallb (fun b => negb (is_eol b) && negb (b =? 0) && negb (b =? 61)) k && (length k <? n)%nat.

Lemma good_key_spec n k : good_key n k = true ->
  Forall plain k /\ Forall (fun b => b <> 61) k /\ (length k < n)%nat /\ exists b k', k = b :: k' /\ b <> 35.
Proof.
  unfold good_key. rewrite !andb_true_iff. intros [[Hh Hk] Hl%Nat.ltb_lt].
  rewrite forallb_forall in Hk.
  assert (Forall (fun b => plain b /\ b <> 61) k) as [Hp Hq]%Forall_and.
  { apply Forall_forall. intros b Hb. apply list_elem_of_In in Hb. specialize (Hk b Hb).
    rewrite !andb_true_iff, !negb_true_iff, !Z.eqb_neq in Hk. unfold plain. tauto. }
  split_and!; [done | done | done |]. destruct k as [|b k]; [done |]. exists b, k. split; [done |].
  by rewrite negb_true_iff, Z.eqb_neq in Hh.
Qed.

Lemma dec_chars v : Forall (fun b => is_digit b = true \/ b = 45) (dec v) /\ (length (dec v) <= 11)%nat /\ dec v <> [].
Proof.
  assert (forall fuel n, (length (digits fuel n) <= fuel)%nat) as Hl.
  { induction fuel as [|fuel IH]; intros n; cbn; [lia |]. case_match; [cbn; lia |].
    rewrite length_app. cbn. specialize (IH (n / 10)). lia. }
  assert (forall n, digits 10 n <> []) as Hne.
  { intros n. change (digits 10 n) with (if n <? 10 then [48 + n] else digits 9 (n / 10) ++ [48 + n mod 10]).
    case_match; [done |]. by destruct (digits 9 (n / 10)). }
  unfold dec. destruct (Z.ltb_spec v 0); split_and!.
  - constructor; [by right |]. eapply Forall_impl; [apply digits_digit; lia |]. by left.
  - cbn [length]. specialize (Hl 10%nat (- v)). lia.
  - done.
  - eapply Forall_impl; [apply digits_digit; lia |]. by left.
  - specialize (Hl 10%nat v). lia.
  - apply Hne.
Qed.

Lemma number_plain b : is_digit b = true \/ b = 45 -> plain b.
Proof.
  intros [Hb | ->]; [|done]. unfold is_digit in Hb. apply andb_true_iff in Hb as [?%Z.leb_le ?%Z.leb_le].
  split; [|lia]. unfold is_eol. by rewrite !(proj2 (Z.eqb_neq _ _)) by lia.
Qed.

Section settings.
Context (P : copy) (Hkeep : forall b, is_digit b = true \/ b = 45 -> keep P b = true).

Lemma read_setting k v : good_key (cmd_clear P) k = true -> read_line P (setting_line (k, v)) = Setting k (dec v).
Proof using Hkeep.
  intros Hk. destruct (good_key_spec _ _ Hk) as (_ & Hq & _ & b & k' & -> & Hb). apply Forall_cons in Hq as [_ Hq].
  unfold setting_line. cbn [fst snd app read_line]. rewrite (proj2 (Z.eqb_neq b 35)), break_eq_app by done.
  f_equal. destruct (dec_chars v) as [Hd _]. induction Hd as [|d l Hd _ IH]; cbn; [done |]. by rewrite Hkeep, IH.
Qed.

Lemma setting_plain s : good_key (cmd_clear P) s.1 = true -> Forall plain (setting_line s).
Proof using Type.
  intros Hk. destruct (good_key_spec _ _ Hk) as (Hp & _). apply Forall_app. split; [done |].
  constructor; [done |]. destruct (dec_chars s.2) as [Hd _]. eapply Forall_impl; [exact Hd | apply number_plain].
Qed.

Lemma settings_lines ss : forallb (good_key (cmd_clear P)) ss.*1 = true ->
  Forall (fun b => b <> 0) (settings_text ss) /\ split_lines (settings_text ss) = (setting_line <$> ss, []).
Proof using Type.
  induction ss as [|s ss IH]; [done |]. cbn [fmap list_fmap forallb]. intros [Hs Hss]%andb_true_iff.
  destruct (IH Hss) as [Hz Hl]. unfold settings_text in *. cbn [mbind list_bind]. pose proof (setting_plain s Hs) as Hp.
  rewrite <- app_assoc. cbn [app]. split.
  - apply Forall_app. split; [|by constructor]. eapply Forall_impl; [exact Hp |]. by intros b [].
  - rewrite split_lines_app by (done || (eapply Forall_impl; [exact Hp |]; by intros b [])). by rewrite Hl.
Qed.

Lemma settings_parsed ss c : forallb (good_key (cmd_clear P)) ss.*1 = true ->
  Forall (fun b => b <> 0) (settings_text ss) /\ all_fit P (settings_text ss) = true /\
  apply_lines P (settings_text ss) c = foldl (fun c s => set_value P s.1 (dec s.2) c) c ss.
Proof using Hkeep.
  intros Hss. destruct (settings_lines ss Hss) as [Hz Hl]. split; [done |].
  unfold all_fit, apply_lines. rewrite Hl. cbn [fst]. change (fits_last P []) with true. rewrite andb_true_r.
  clear Hz Hl. revert c. induction ss as [|[k v] ss IH]; intros c; [done |].
  cbn [fmap list_fmap forallb fst] in Hss. apply andb_true_iff in Hss as [Hk Hss]. cbn [fmap list_fmap forallb foldl].
  unfold fits at 1. unfold apply_line at 2. rewrite read_setting by done.
  destruct (good_key_spec _ _ Hk) as (_ & _ & Hlen & _). destruct (dec_chars v) as (_ & Hd & Hne).
  destruct (IH Hss (set_value P k (dec v) c)) as [Hf Ha]. cbn [fst snd]. destruct (dec v) as [|d l]; [done |].
  rewrite !(proj2 (Nat.ltb_lt _ _)) by (unfold VALUE_SIZE; lia). split; [exact Hf | exact Ha].
Qed.
End settings.

(** ** The tables *)

Abbreviation table := (list (list Z * list loc)).

(** The value a line for the entry gets. *)
Definition entry_value (c : userconfig_info_t) (e : list Z * list loc) : Z := get (hd Lvl_enable e.2) c.

(** A line for every key. *)
Definition written (tab : table) (c : userconfig_info_t) : list Z :=
  settings_text ((fun e => (e.1, entry_value c e)) <$> tab).

Definition members (tab : table) : list loc := tab ≫= snd.

(** The members the keys name have values of their types, and those of one key
    agree. *)
Definition representable (tab : table) (c : userconfig_info_t) : bool :=
  forallb (fun e => forallb (fun l => (cast l (get l c) =? get l c) && (get l c =? entry_value c e)) e.2) tab.

Definition table_ok (n : nat) (tab : table) : bool :=
  forallb (good_key n) tab.*1 && forallb (fun e => match e.2 with [] => false | _ => true end) tab &&
  forallb in_range (members tab) && bool_decide (NoDup tab.*1) && bool_decide (NoDup (members tab)).

Lemma tables_ok : table_ok 30 keys = true /\ table_ok 64 keys_v3 = true /\ table_ok 64 keys_8800d80x2 = true.
Proof. vm_compute. done. Qed.

Lemma cast_range l v : - 2 ^ 31 < cast l v < 2 ^ 31.
Proof. pose proof (u8_range v). pose proof (s8_range v). destruct l; cbn; lia. Qed.

Lemma find_key (tab : table) e : NoDup tab.*1 -> e ∈ tab -> find (fun e' => bool_decide (e'.1 = e.1)) tab = Some e.
Proof.
  induction tab as [|e' tab IH]; cbn; intros Hn He; [by apply elem_of_nil in He |].
  apply NoDup_cons in Hn as [Hni Hn]. apply elem_of_cons in He as [<- | He]; [by rewrite bool_decide_true |].
  rewrite bool_decide_false; [by apply IH |]. intros Heq. apply Hni. rewrite Heq. by apply list_elem_of_fmap_2.
Qed.

Lemma shape_puts ps c : shape c -> shape (puts ps c).
Proof. unfold puts. revert c. induction ps as [|p ps IH]; intros c Hs; [done |]. cbn. apply IH. by apply shape_put. Qed.

(** What a line for every entry of [es] assigns. *)
Definition assigned (c : userconfig_info_t) (es : table) : list (loc * Z) :=
  es ≫= fun e => (fun l => (l, entry_value c e)) <$> e.2.

Lemma assigned_members c es : (assigned c es).*1 = members es.
Proof.
  induction es as [|e es IH]; [done |]. unfold assigned, members in *. cbn [mbind list_bind].
  rewrite fmap_app, IH. f_equal. rewrite <- list_fmap_compose. by apply list_fmap_id.
Qed.

Lemma foldl_settings tab c es c0 : NoDup tab.*1 -> (forall e, e ∈ es -> e ∈ tab /\ - 2 ^ 31 < entry_value c e < 2 ^ 31) ->
  foldl (fun c s => nvram_set_value tab s.1 (dec s.2) c) c0 ((fun e => (e.1, entry_value c e)) <$> es) =
    puts (assigned c es) c0.
Proof.
  intros Hn. revert c0. induction es as [|e es IH]; intros c0 Hes; [done |]. unfold assigned. cbn.
  destruct (Hes e) as [He Hv]; [by left |]. rewrite IH by (intros; apply Hes; by right).
  rewrite foldl_app. unfold puts at 1, assigned. f_equal. unfold nvram_set_value. rewrite find_key by done. rewrite atoi_dec by done.
  unfold puts. generalize (entry_value c e) as v. intros v. clear. revert c0.
  induction e.2 as [|l ls IH]; intros c0; [done |]. cbn. apply IH.
Qed.

Lemma representable_spec tab c e l : representable tab c = true -> e ∈ tab -> l ∈ e.2 ->
  cast l (get l c) = get l c /\ get l c = entry_value c e.
Proof.
  unfold representable. rewrite forallb_forall. intros H He Hl. apply list_elem_of_In in He. specialize (H e He).
  rewrite forallb_forall in H. apply list_elem_of_In in Hl. specialize (H l Hl).
  by rewrite andb_true_iff, !Z.eqb_eq in H.
Qed.

Section table.
Context (P : copy) (tab : table).
Context (Hkeep : forall b, is_digit b = true \/ b = 45 -> keep P b = true).
Context (Hclear : (1 < cmd_clear P <= cmd_size P)%nat) (Hset : set_value P = nvram_set_value tab).
Context (Hok : table_ok (cmd_clear P) tab = true).

Lemma reads_back junk c c0 : shape c0 -> representable tab c = true ->
  exists c1, parsing P junk (written tab c) c0 = Ok c1 /\ shape c1 /\
    (forall l, l ∈ members tab -> get l c1 = get l c) /\ (forall l, l ∉ members tab -> get l c1 = get l c0).
Proof using Hkeep Hclear Hset Hok.
  intros Hs Hr. unfold table_ok in Hok. rewrite !andb_true_iff, !bool_decide_eq_true in Hok.
  destruct Hok as [[[[Hkeys Hne] Hin] Hnd] Hnm].
  assert (forall e, e ∈ tab -> e ∈ tab /\ - 2 ^ 31 < entry_value c e < 2 ^ 31) as Hes.
  { intros e He. split; [done |]. rewrite forallb_forall in Hne. specialize (Hne e). rewrite <- list_elem_of_In in Hne.
    specialize (Hne He). destruct e as [k [|l ls]]; [done |].
    destruct (representable_spec tab c _ l Hr He) as [Hc Hv]; [by left |]. rewrite <- Hv, <- Hc. apply cast_range. }
  destruct (settings_parsed P Hkeep ((fun e => (e.1, entry_value c e)) <$> tab) c0) as (Hz & Hf & Ha).
  { rewrite <- list_fmap_compose. exact Hkeys. }
  exists (puts (assigned c tab) c0). split_and!.
  - rewrite parsing_lines by (done || by right). unfold written. rewrite Hf, Ha, Hset. f_equal. by apply foldl_settings.
  - by apply shape_puts.
  - intros l Hl. unfold members in Hl. apply list_elem_of_bind in Hl as (e & Hl & He).
    destruct (representable_spec tab c e l Hr He Hl) as [Hc Hv].
    rewrite (get_puts l (get l c)); [done | done | by rewrite assigned_members | by rewrite assigned_members |].
    unfold assigned. apply list_elem_of_bind. exists e. split; [|done]. rewrite Hv.
    by apply (list_elem_of_fmap_2 (fun l => (l, entry_value c e))).
  - intros l Hl. apply get_puts_notin. by rewrite assigned_members.
Qed.
End table.

Lemma number_kept b : is_digit b = true \/ b = 45 -> number_char b = true.
Proof.
  intros [Hb | ->]; [|done]. unfold number_char, is_digit in *. apply andb_true_iff in Hb as [?%Z.leb_le ?%Z.leb_le].
  rewrite (proj2 (Z.ltb_ge b 48)), (proj2 (Z.ltb_ge 57 b)), andb_false_r by lia. done.
Qed.

(** C37. A configuration written out with a line for every key of a chip is read back by
    the parser of that chip: every member a key names has the value that was written,
    whatever it was before, and no other member changes. *)
Theorem userconfig_roundtrip c c0 junk : shape c0 ->
  (representable keys c = true -> exists c1, rwnx_plat_userconfig_parsing2 (written keys c) c0 = Ok c1 /\ shape c1 /\
    (forall l, l ∈ members keys -> get l c1 = get l c) /\ (forall l, l ∉ members keys -> get l c1 = get l c0)) /\
  (representable keys_v3 c = true -> exists c1, rwnx_plat_userconfig_parsing3 (written keys_v3 c) c0 = Ok c1 /\ shape c1 /\
    (forall l, l ∈ members keys_v3 -> get l c1 = get l c) /\ (forall l, l ∉ members keys_v3 -> get l c1 = get l c0)) /\
  (representable keys_8800d80x2 c = true ->
    exists c1, rwnx_plat_userconfig_parsing_8800d80x2 junk (written keys_8800d80x2 c) c0 = Ok c1 /\ shape c1 /\
    (forall l, l ∈ members keys_8800d80x2 -> get l c1 = get l c) /\
    (forall l, l ∉ members keys_8800d80x2 -> get l c1 = get l c0)).
Proof.
  intros Hs. destruct tables_ok as (H1 & H2 & H3).
  split_and!; intros Hr.
  - exact (reads_back copy2 keys (fun b _ => eq_refl) ltac:(cbn; lia) eq_refl H1 [] c c0 Hs Hr).
  - exact (reads_back copy3 keys_v3 number_kept ltac:(cbn; lia) eq_refl H2 [] c c0 Hs Hr).
  - exact (reads_back copy_8800d80x2 keys_8800d80x2 number_kept ltac:(cbn; lia) eq_refl H3 junk c c0 Hs Hr).
Qed.

Module Example.

(** The defaults, with the two members of ofst_enable made to agree. *)
Definition conf : userconfig_info_t :=
  put Ofst_enable 0 (put (V3_pwrlvl_11ax_5g 11) (-7) (put Loss_loss_value_5g 3 userconfig_info)).

Example conf_written : take 19 (written keys_v3 conf) = text "enable=1" ++ [10] ++ text "dsss=9" ++ [10] ++ text "ofd".
Proof. reflexivity. Qed.

Lemma userconfig_roundtrip_witness :
  exists c1, rwnx_plat_userconfig_parsing3 (written keys_v3 conf) userconfig_info = Ok c1 /\
    get (V3_pwrlvl_11ax_5g 11) c1 = -7 /\ get Loss_loss_value_5g c1 = 3.
Proof.
  destruct (userconfig_roundtrip conf userconfig_info [] ltac:(reflexivity)) as (_ & H3 & _).
  destruct (H3 ltac:(reflexivity)) as (c1 & Hc & _ & Hg & _). exists c1. split_and!; [exact Hc | |].
  - rewrite Hg; [reflexivity |]. refine (bool_decide_eq_true_1 _ _). vm_compute. reflexivity.
  - rewrite Hg; [reflexivity |]. refine (bool_decide_eq_true_1 _ _). vm_compute. reflexivity.
Defined.

End Example.

End ConfRound.
