(* ===== verification/Nvram.v ===== *)
(** * The configuration file of the AIC8801 (rwnx_platform.c)

    rwnx_plat_userconfig_parsing reads lines "module0_key = value" into
    [nvram_info], a structure of 21 bytes.  The structure is its bytes, and
    what the linker has put behind it follows in the same list: a value is
    stored as an unsigned long, eight bytes at the offset of its member.  The
    module prefix depends on the vendor of the chip.

    kstrtol is the argument [kstrtol], [None] for an error, which leaves [val]
    as it was; [val] starts with what the stack holds. *)

From S2P Require Import Prelude Conf.
From Stdlib Require Import String.
From stdpp Require Import list.
Import Conf.
Open Scope Z_scope.
Open Scope list_scope.

Module Nvram.

(** nvram_info_t: txpwr_idx, txpwr_ofst, xtal_cap. *)
Definition NVRAM_SIZE : nat := 21.

Definition nvram_info : list Z := [1; 9; 8; 8; 8; 8; 11; 10; 9; 9] ++ [1; 0; 0; 0; 0; 0; 0; 0] ++ [0; 24; 31].

Definition parse_match_tab : list (list Z * nat) := [
  (text "enable", 0); (text "dsss", 1); (text "ofdmlowrate_2g4", 2); (text "ofdm64qam_2g4", 3);
  (text "ofdm256qam_2g4", 4); (text "ofdm1024qam_2g4", 5); (text "ofdmlowrate_5g", 6); (text "ofdm64qam_5g", 7);
  (text "ofdm256qam_5g", 8); (text "ofdm1024qam_5g", 9);
  (text "ofst_enable", 10); (text "ofst_chan_1_4", 11); (text "ofst_chan_5_9", 12); (text "ofst_chan_10_13", 13);
  (text "ofst_chan_36_64", 14); (text "ofst_chan_100_120", 15); (text "ofst_chan_122_140", 16);
  (text "ofst_chan_142_165", 17);
  (text "xtal_enable", 18); (text "xtal_cap", 19); (text "xtal_cap_fine", 20)
]%nat.

(** The entries between the two modules are NULL, which sprintf prints as (null). *)
Definition parse_key_prefix (vendor_info : Z) : list Z :=
  if vendor_info =? 1 then text "module0_" else if vendor_info =? 33 then text "module1_" else text "(null)".

(** ** parse_key_val *)

Fixpoint drop_while (f : Z -> bool) (l : list Z) : list Z :=
  match l with
  | [] => []
  | b :: l' => if f b then drop_while f l' else l
  end.

Definition is_space (b : Z) : bool := b =? 32.
Definition is_crlf (b : Z) : bool := (b =? 13) || (b =? 10).

(** [*p], a zero at the end of the string. *)
Definition char_at (l : list Z) : Z := match l with [] => 0 | b :: _ => b end.

Definition CONF_SIZE : nat := 100.

(** The value of [key] in the line [str], [None] for the result -1.  The
    pointers into [str] are what follows them, or, for the way back from the
    end, what precedes them, reversed. *)
Definition parse_key_val (str key : list Z) : res (option (list Z)) :=
  let keysize := length key in
  if (length str <=? keysize)%nat then Ok None
  else
    let p := drop_while is_space str in
    if char_at p =? 35 then Ok None
    else if (length p <=? keysize)%nat then Ok None
    else if negb (bool_decide (take keysize p = key)) then Ok None
    else
      let p := drop_while is_space (drop keysize p) in
      if negb (char_at p =? 61) then Ok None
      else
        let p := drop_while is_space (tail p) in
        let dst := if char_at p =? 34 then tail p else p in
        let back := drop_while is_space (rev str) in
        let back := if char_at back =? 34 then tail back else back in
        let back := drop_while is_crlf back in
        let n := Z.of_nat (length back) - Z.of_nat (length str - length dst) in
        (* strncpy(val, dst, n); val[n] = 0 *)
        if (n <? 0) || (Z.of_nat CONF_SIZE <=? n) then Fault else Ok (Some (take (Z.to_nat n) dst)).

(** ** One line *)

(** The bytes of an unsigned long. *)
Definition le64 (v : Z) : list Z := (fun i => v / 2 ^ (8 * Z.of_nat i) mod 256) <$> seq 0 8.

Record nv := Nv { mem : list Z; val : Z }.

Section parsing.
Context (kstrtol : list Z -> option Z).

(** Store value to data struct: the first entry that matches. *)
Fixpoint match_line (prefix line : list Z) (tab : list (list Z * nat)) (s : nv) : res nv :=
  match tab with
  | [] => Ok s
  | (keyname, offset) :: tab' =>
    r ← parse_key_val line (prefix ++ keyname);
    match r with
    | None => match_line prefix line tab' s
    | Some conf =>
      let v := match kstrtol conf with Some v => v | None => val s end in
      m ← splice (mem s) offset (le64 v);
      Ok (Nv m v)
    end
  end.

(** ** The file *)

Definition zero_at (data : list Z) (i : nat) : res (list Z) :=
  if (i <? length data)%nat then Ok (<[i := 0]> data) else Fault.

(** The loop over the characters of a line, [len++ < size] counting. *)
Fixpoint skip_line (fuel size : nat) (data : list Z) (buffer len : nat) : res (nat * nat) :=
  match fuel with
  | O => NoFuel
  | S fuel =>
    b ← rd data (Z.of_nat buffer);
    if is_crlf b || (b =? 0) then Ok (buffer, len)
    else if (len <? size)%nat then skip_line fuel size data (S buffer) (S len)
    else Ok (buffer, S len)
  end.

(** The loop over the ends of lines, which become zeros. *)
Fixpoint skip_ends (fuel size : nat) (data : list Z) (buffer len : nat) : res (list Z * nat * nat) :=
  match fuel with
  | O => NoFuel
  | S fuel =>
    b ← rd data (Z.of_nat buffer);
    if negb (is_crlf b) then Ok (data, buffer, len)
    else if (len <? size)%nat then
      data ← zero_at data buffer;
      skip_ends fuel size data (S buffer) (S len)
    else Ok (data, buffer, S len)
  end.

Fixpoint file_loop (fuel size : nat) (prefix data : list Z) (buffer len : nat) (s : nv) : res nv :=
  match fuel with
  | O => NoFuel
  | S fuel' =>
    b ← rd data (Z.of_nat buffer);
    if b =? 0 then Ok s
    else
      '(buffer', len) ← skip_line fuel size data buffer len;
      '(data, buffer', len) ← skip_ends fuel size data buffer' len;
      data ← (if (size <=? len)%nat then zero_at data buffer' else Ok data);
      line ← cstr (drop buffer data);
      s ← match_line prefix line parse_match_tab s;
      file_loop fuel' size prefix data buffer' len s
  end.

(** [alloc]: whether vmalloc succeeds; [last]: the byte of its block after
    the copy of the file.  Also returns the vendor_info that stays. *)
Definition rwnx_plat_userconfig_parsing (alloc : bool) (last : Z) (buffer : list Z) (vendor_info : Z) (s : nv) :
    res (nv * Z) :=
  let size := length buffer in
  if (size =? 0)%nat then Ok (s, vendor_info)
  else
    let vendor_info := if (vendor_info =? 0) || (33 <? vendor_info) then 1 else vendor_info in
    if negb alloc then Ok (s, vendor_info)
    else
      s ← file_loop (size + 2) size (parse_key_prefix vendor_info) (buffer ++ [last]) 0 0 s;
      Ok (s, vendor_info).
End parsing.

End Nvram.
