(* ===== verification/NvramRuns.v ===== *)
(** * What the configuration file does to nvram_info

    The file is taken line by line, the last line included, whatever lies
    behind it in memory.  A line with a key stores eight bytes, so that a file
    with all keys in the order of the structure leaves the values it names and
    overwrites seven bytes after the structure, and a single line the seven
    members after its own. *)

From S2P Require Import Prelude Conf ConfParse ConfRound Nvram.
From Stdlib Require Import String.
From stdpp Require Import list.
Import Conf ConfParse ConfRound Nvram.
Open Scope Z_scope.
Open Scope list_scope.

Module NvramRuns.

Section runs.
Context (kstrtol : list Z -> option Z).

(** The lines one after the other. *)
Fixpoint match_lines (prefix : list Z) (ls : list (list Z)) (s : nv) : res nv :=
  match ls with
  | [] => Ok s
  | l :: ls => s ← match_line kstrtol prefix l parse_match_tab s; match_lines prefix ls s
  end.

Definition all_lines (buf : list Z) : list (list Z) := (split_lines buf).1 ++ [(split_lines buf).2].

Lemma match_empty prefix tab s : match_line kstrtol prefix [] tab s = Ok s.
Proof using Type. induction tab as [|[k o] tab IH]; [done |]. exact IH. Qed.

(** ** The loops *)

Definition in_line (b : Z) : Prop := is_eol b = false /\ b <> 0.

Lemma eol_crlf b : is_crlf b = is_eol b.
Proof using Type. unfold is_crlf, is_eol. apply orb_comm. Qed.

Lemma rd_at (D : list Z) b post : rd (D ++ b :: post) (Z.of_nat (length D)) = Ok b.
Proof using Type. by apply rd_app_at. Qed.

Lemma skip_line_spec l : forall D p post fuel size, Forall in_line l -> (length l < fuel)%nat ->
  (length D + length l <= size)%nat -> is_eol p = true \/ p = 0 \/ (length D + length l = size)%nat ->
  exists len, skip_line fuel size (D ++ l ++ p :: post) (length D) (length D) = Ok ((length D + length l)%nat, len) /\
    (length D + length l <= len)%nat /\ (is_eol p = true -> len = (length D + length l)%nat).
Proof using Type.
  induction l as [|b l IH]; intros D p post fuel size Hl Hf Hs Hp; (destruct fuel as [|fuel]; [cbn in Hf; lia |]).
  - cbn [skip_line app length]. rewrite rd_at. cbn [mbind res_bind]. rewrite eol_crlf, Nat.add_0_r in *.
    destruct (is_eol p) eqn:Hpe; cbn [orb]; [by eexists; split_and! |].
    destruct (Z.eqb_spec p 0); [by eexists; split_and! |].
    destruct (Nat.ltb_spec (length D) size); [destruct Hp as [? | [? | ?]]; [done | done | cbn in *; lia] |].
    eexists. split_and!; [done | lia | done].
  - apply Forall_cons in Hl as [[Hb Hz] Hl]. cbn [skip_line app length] in *. rewrite rd_at.
    cbn [mbind res_bind]. rewrite eol_crlf, Hb. cbn [orb]. rewrite (proj2 (Z.eqb_neq b 0)) by done.
    rewrite (proj2 (Nat.ltb_lt (length D) size)) by lia.
    destruct (IH (D ++ [b]) p post fuel size Hl) as (len & Heq & Hlen & Hpl); rewrite ?length_app; cbn [length]; [lia.. | |].
    { destruct Hp as [? | [? | ?]]; [by left | by right; left | right; right; lia]. }
    rewrite length_app, <- app_assoc in Heq. cbn [length app] in Heq. rewrite !Nat.add_1_r in Heq.
    exists len. rewrite Heq. rewrite length_app in *. cbn [length] in *. split_and!; [do 2 f_equal; lia | lia |].
    intros Hpe. specialize (Hpl Hpe). lia.
Qed.

Lemma skip_ends_spec es : forall D p post fuel size, Forall (fun b => is_eol b = true) es -> (length es < fuel)%nat ->
  (length D + length es <= size)%nat -> (is_eol p = false \/ length D + length es = size)%nat ->
  exists len, skip_ends fuel size (D ++ es ++ p :: post) (length D) (length D) =
      Ok (D ++ replicate (length es) 0 ++ p :: post, (length D + length es)%nat, len) /\
    (length D + length es <= len)%nat /\ (length D + length es < size -> len = length D + length es)%nat.
Proof using Type.
  induction es as [|e es IH]; intros D p post fuel size He Hf Hs Hp; (destruct fuel as [|fuel]; [cbn in Hf; lia |]).
  - cbn [skip_ends app length replicate]. rewrite rd_at. cbn [mbind res_bind]. rewrite eol_crlf, Nat.add_0_r in *.
    destruct (is_eol p); cbn [negb]; [|by eexists; split_and!].
    destruct Hp as [? | Hp]; [done |]. cbn [length] in *.
    rewrite (proj2 (Nat.ltb_ge (length D) size)) by lia. eexists. split_and!; [done | lia | lia].
  - apply Forall_cons in He as [He Hes]. cbn [skip_ends app length] in *. rewrite rd_at.
    cbn [mbind res_bind]. rewrite eol_crlf, He. cbn [negb]. rewrite (proj2 (Nat.ltb_lt (length D) size)) by lia.
    unfold zero_at. rewrite length_app, (proj2 (Nat.ltb_lt _ _)) by (cbn; lia). cbn [mbind res_bind].
    rewrite insert_app_r_alt, Nat.sub_diag by lia. cbn.
    destruct (IH (D ++ [0]) p post fuel size Hes) as (len & Heq & Hlen & Hpl); rewrite ?length_app; cbn [length]; [lia.. | |].
    { destruct Hp as [? | ?]; [by left | right; lia]. }
    rewrite length_app, <- !app_assoc in Heq. cbn [length app] in Heq. rewrite !Nat.add_1_r in Heq.
    exists len. rewrite Heq. rewrite length_app in *. cbn [length] in *. split_and!; [by rewrite Nat.add_succ_r | lia | lia].
Qed.

(** At the end of the file. *)
Lemma skip_ends_end D p post fuel size len : (0 < fuel)%nat -> length D = size -> (size <= len)%nat ->
  exists len', skip_ends fuel size (D ++ p :: post) size len = Ok (D ++ p :: post, size, len') /\ (size <= len')%nat.
Proof using Type.
  intros Hf <- Hl. destruct fuel as [|fuel]; [lia |]. cbn [skip_ends]. rewrite rd_at.
  cbn [mbind res_bind]. destruct (negb (is_crlf p)); [by eexists |].
  rewrite (proj2 (Nat.ltb_ge len (length D))) by lia. eexists. split; [done | lia].
Qed.

(** ** The file *)

(** The ends of lines at the start of a text. *)
Lemma eols_split r : exists es r', r = es ++ r' /\ Forall (fun b => is_eol b = true) es /\
  match r' with [] => True | b :: _ => is_eol b = false end.
Proof using Type.
  induction r as [|b r IH]; [by exists [], [] |]. destruct (is_eol b) eqn:Hb.
  - destruct IH as (es & r' & -> & Hes & Hr'). exists (b :: es), r'. split_and!; [done | by constructor | done].
  - exists [], (b :: r). by split_and!.
Qed.

Lemma line_split r : exists l r', r = l ++ r' /\ Forall (fun b => is_eol b = false) l /\
  match r' with [] => True | b :: _ => is_eol b = true end.
Proof using Type.
  induction r as [|b r IH]; [by exists [], [] |]. destruct (is_eol b) eqn:Hb.
  - exists [], (b :: r). by split_and!.
  - destruct IH as (l & r' & -> & Hl & Hr'). exists (b :: l), r'. split_and!; [done | by constructor | done].
Qed.

Lemma split_no_eol l : Forall (fun b => is_eol b = false) l -> split_lines l = ([], l).
Proof using Type. induction 1 as [|b l Hb _ IH]; cbn; [done |]. by rewrite IH, Hb. Qed.

Lemma match_lines_eols prefix es r s : Forall (fun b => is_eol b = true) es ->
  match_lines prefix (all_lines (es ++ r)) s = match_lines prefix (all_lines r) s.
Proof using Type.
  induction 1 as [|e es He _ IH]; [done |]. cbn [app]. rewrite <- IH. unfold all_lines.
  change (e :: es ++ r) with ([] ++ e :: es ++ r). rewrite split_lines_app by done.
  cbn [fst snd app match_lines]. by rewrite match_empty.
Qed.

Lemma cstr_line D l post : Forall in_line l -> cstr (drop (length D) (D ++ l ++ 0 :: post)) = Ok l.
Proof using Type.
  intros Hl. rewrite drop_app_length. induction Hl as [|b l [_ Hb] _ IH]; [done |].
  cbn. rewrite (proj2 (Z.eqb_neq b 0)) by done. by rewrite IH.
Qed.

Lemma zero_at_end D p : zero_at (D ++ [p]) (length D) = Ok (D ++ [0]).
Proof using Type.
  unfold zero_at. rewrite length_app, (proj2 (Nat.ltb_lt _ _)) by (cbn; lia).
  by rewrite insert_app_r_alt, Nat.sub_diag by lia.
Qed.

Lemma match_lines_line prefix l es r s : Forall (fun b => is_eol b = false) l ->
  Forall (fun b => is_eol b = true) es -> es <> [] \/ r = [] ->
  match_lines prefix (all_lines (l ++ es ++ r)) s =
    (s ← match_line kstrtol prefix l parse_match_tab s; match_lines prefix (all_lines r) s).
Proof using Type.
  intros Hl Hes Hr. destruct Hes as [|e es He Hes].
  - destruct Hr as [? | ->]; [done |]. rewrite !app_nil_r. unfold all_lines at 1.
    rewrite split_no_eol by done. cbn [fst snd app match_lines].
    destruct (match_line kstrtol prefix l parse_match_tab s); [|done..]. cbn [mbind res_bind].
    unfold all_lines. cbn [split_lines fst snd app match_lines]. by rewrite match_empty.
  - unfold all_lines at 1. cbn [app]. rewrite split_lines_app by done. cbn [fst snd app match_lines].
    destruct (match_line kstrtol prefix l parse_match_tab s) as [s' | |]; [|done..]. cbn [mbind res_bind]. by apply match_lines_eols.
Qed.

(** The two inner loops over a line and the ends after it. *)
Lemma skip_both fuel size D l es r last : Forall in_line l -> Forall (fun b => is_eol b = true) es ->
  match r with [] => True | b :: _ => is_eol b = false end -> es <> [] \/ r = [] ->
  (length D + length l + length es + length r = size)%nat -> (length l + length es + length r < fuel)%nat ->
  let D' := D ++ l ++ replicate (length es) 0 in
  exists len, (length D' <= len)%nat /\ (r <> [] -> len = length D') /\
    (skip_line fuel size (D ++ l ++ es ++ r ++ [last]) (length D) (length D) ≫= fun '(buffer, len) =>
     skip_ends fuel size (D ++ l ++ es ++ r ++ [last]) buffer len) = Ok (D' ++ r ++ [last], length D', len).
Proof using Type.
  intros Hl Hes Hr Her Hs Hf D'. unfold D'. rewrite !length_app, length_replicate.
  assert (exists p post, r ++ [last] = p :: post /\ (r <> [] -> is_eol p = false) /\ (r = [] -> post = [])) as (p & post & -> & Hp & Hpost).
  { destruct r as [|b r]; [exists last, [] | exists b, (r ++ [last])]; by split_and!. }
  destruct Hes as [|e es He Hes].
  - destruct Her as [? | ->]; [done |]. rewrite Hpost by done. cbn [app length replicate] in *.
    destruct (skip_line_spec l D p [] fuel size Hl) as (len & -> & Hlen & _); [lia.. | right; right; lia |].
    cbn [mbind res_bind]. rewrite app_assoc.
    destruct (skip_ends_end (D ++ l) p [] fuel size len) as (len' & Hse & Hlen'); rewrite ?length_app; [lia.. |].
    replace (length D + length l)%nat with size by lia. rewrite Hse. exists len'. rewrite app_nil_r.
    split_and!; [lia | done |]. replace (length D + (length l + 0))%nat with size by lia. by rewrite <- app_assoc.
  - cbn [app]. destruct (skip_line_spec l D e (es ++ p :: post) fuel size Hl) as (len & -> & _ & Hlen); [cbn in *; lia.. | by left |].
    rewrite (Hlen He). cbn [mbind res_bind]. rewrite app_assoc, <- (length_app D l).
    change (e :: es ++ p :: post) with ((e :: es) ++ p :: post).
    destruct (skip_ends_spec (e :: es) (D ++ l) p post fuel size) as (len' & -> & Hlen' & Hle).
    { by constructor. } { cbn in *. lia. } { rewrite length_app. cbn in *. lia. }
    { rewrite length_app. destruct r; [right; cbn in *; lia | left; by apply Hp]. }
    exists len'. rewrite length_app in *. split_and!; [lia | |].
    + intros Hr0. destruct r; [done |]. cbn [length] in *. lia.
    + rewrite <- !app_assoc. do 2 f_equal; [f_equal; cbn; lia].
Qed.

(** One turn of the loop over a line and the ends after it. *)
Lemma file_loop_step fuel size prefix D l es r last s : Forall in_line l -> Forall (fun b => is_eol b = true) es ->
  match r with [] => True | b :: _ => is_eol b = false end -> es <> [] \/ r = [] -> l ++ es <> [] ->
  (length D + length l + length es + length r = size)%nat -> (length l + length es + length r < S fuel)%nat ->
  let D' := D ++ l ++ replicate (length es) 0 in
  exists len last', (r = [] -> last' = 0) /\ (r = [] \/ len = length D') /\
    file_loop kstrtol (S fuel) size prefix (D ++ (l ++ es ++ r) ++ [last]) (length D) (length D) s =
      (s ← match_line kstrtol prefix l parse_match_tab s;
       file_loop kstrtol fuel size prefix (D' ++ r ++ [last']) (length D') len s).
Proof using Type.
  intros Hl Hes Hr Her Hne Hs Hf D'.
  assert (exists b post, D ++ (l ++ es ++ r) ++ [last] = D ++ b :: post /\ b <> 0) as (b & post & Hd & Hb).
  { destruct Hl as [|b l [_ ?] _]; [|by eexists _, _]. destruct Hes as [|e es He _]; [done |].
    eexists _, _. split; [done |]. by intros ->. }
  cbn [file_loop]. assert (rd (D ++ (l ++ es ++ r) ++ [last]) (Z.of_nat (length D)) = Ok b) as -> by (rewrite Hd; apply rd_at).
  cbn [mbind res_bind]. rewrite (proj2 (Z.eqb_neq b 0)) by done. clear b post Hd Hb Hne. rewrite <- !app_assoc.
  destruct (skip_both (S fuel) size D l es r last Hl Hes Hr Her Hs Hf) as (len & Hlen & Hlr & Hboth). fold D' in Hlen, Hlr, Hboth.
  destruct (skip_line (S fuel) size _ (length D) (length D)) as [[buffer' len0] | |]; [|done..].
  cbn [mbind res_bind] in *. rewrite Hboth. cbn [mbind res_bind]. clear Hboth.
  assert (length D' = length D + length l + length es)%nat as HD' by (unfold D'; rewrite !length_app, length_replicate; lia).
  destruct r as [|b r].
  - exists len, 0. split_and!; [done | by left |]. cbn [app length] in *.
    rewrite (proj2 (Nat.leb_le size len)), zero_at_end by lia. cbn [mbind res_bind].
    assert (exists post, D' ++ [0] = D ++ l ++ 0 :: post) as [post Hpost].
    { unfold D'. rewrite <- !app_assoc. destruct es; eexists; cbn; reflexivity. }
    rewrite Hpost at 1. by rewrite cstr_line.
  - destruct Her as [Her | ?]; [|done]. exists len, last. split_and!; [done | right; by apply Hlr |].
    rewrite (proj2 (Nat.leb_gt size len)) by (rewrite Hlr by done; cbn in *; lia). cbn [mbind res_bind].
    assert (exists post, D' ++ (b :: r) ++ [last] = D ++ l ++ 0 :: post) as [post Hpost].
    { unfold D'. rewrite <- !app_assoc. destruct es; [done | eexists; cbn; reflexivity]. }
    rewrite Hpost at 1. by rewrite cstr_line.
Qed.

Lemma file_loop_spec fuel : forall size prefix D r last s, Forall (fun b => b <> 0) r ->
  (length D + length r = size)%nat -> (length r + 1 < fuel)%nat -> r <> [] \/ last = 0 ->
  forall len, r = [] \/ len = length D ->
  file_loop kstrtol fuel size prefix (D ++ r ++ [last]) (length D) len s = match_lines prefix (all_lines r) s.
Proof using Type.
  induction fuel as [|fuel IH]; intros size prefix D r last s Hz Hs Hf Hlast len Hlen; [lia |].
  destruct (decide (r = [])) as [-> | Hne].
  { destruct Hlast as [? | ->]; [done |]. cbn [file_loop app]. rewrite rd_at. cbn [mbind res_bind].
    change (0 =? 0) with true. cbn iota. unfold all_lines. cbn [split_lines fst snd app match_lines]. by rewrite match_empty. }
  destruct Hlen as [? | ->]; [done |].
  destruct (line_split r) as (l & r1 & -> & Hl & Hr1). destruct (eols_split r1) as (es & r2 & -> & Hes & Hr2).
  apply Forall_app in Hz as [Hzl [_ Hz2]%Forall_app]. assert (Forall in_line l) as Hil by by apply Forall_and.
  assert (es <> [] \/ r2 = []) as Her by (destruct es, r2; cbn in *; try congruence; by (left + right)).
  assert (l ++ es <> []) as Hle by (intros [-> ->]%app_eq_nil; by destruct Her as [? | ->]).
  rewrite match_lines_line by done. rewrite !length_app in *.
  destruct (file_loop_step fuel size prefix D l es r2 last s) as (len' & last' & Hl' & Hlen' & ->); [done.. | lia | lia |].
  destruct (match_line kstrtol prefix l parse_match_tab s) as [s' | |]; [|done..]. cbn [mbind res_bind].
  apply IH; [done | rewrite !length_app, length_replicate; lia | | | done].
  - destruct l, es; cbn in *; done || lia.
  - destruct r2; [right; by apply Hl' | by left].
Qed.

(** The vendor_info the parser works with. *)
Definition known_vendor (vendor_info : Z) : Z := if (vendor_info =? 0) || (33 <? vendor_info) then 1 else vendor_info.

Lemma parsing_by_lines last buf vendor_info s : Forall (fun b => b <> 0) buf -> buf <> [] ->
  rwnx_plat_userconfig_parsing kstrtol true last buf vendor_info s =
    (s ← match_lines (parse_key_prefix (known_vendor vendor_info)) (all_lines buf) s; Ok (s, known_vendor vendor_info)).
Proof using Type.
  intros Hz Hne. unfold rwnx_plat_userconfig_parsing, known_vendor. destruct buf as [|b buf]; [done |].
  cbn [length Nat.eqb negb]. set (r := b :: buf). change (S (length buf)) with (length r).
  rewrite <- (app_nil_l (r ++ [last])). change 0%nat with (length (@nil Z)) at 2.
  rewrite file_loop_spec; [done | done | done | lia | by left | by right].
Qed.
End runs.

(** ** A setting *)

(** A key the parser finds: no blank, no equals sign, and no comment. *)
Definition plain_key (k : list Z) : bool :=
  match k with [] => false | b :: _ => negb (b =? 35) end && forallb (fun b => negb (b =? 61) && negb (b =? 32)) k.

Lemma drop_while_hd f b l : f b = false -> drop_while f (b :: l) = b :: l.
Proof. intros H. cbn. by rewrite H. Qed.

Lemma plain_key_spec k : plain_key k = true ->
  Forall (fun b => b <> 61 /\ b <> 32) k /\ exists b k', k = b :: k' /\ b <> 35 /\ b <> 32.
Proof.
  unfold plain_key. rewrite andb_true_iff, forallb_forall. intros [Hh Hk].
  assert (Forall (fun b => b <> 61 /\ b <> 32) k) as Hf.
  { apply Forall_forall. intros b Hb%list_elem_of_In. specialize (Hk b Hb).
    by rewrite andb_true_iff, !negb_true_iff, !Z.eqb_neq in Hk. }
  split; [done |]. destruct k as [|b k]; [done |]. exists b, k. apply negb_true_iff, Z.eqb_neq in Hh.
  apply Forall_cons in Hf as [[_ ?] _]. done.
Qed.

(** The digits stand at the end of the line. *)
Lemma digits_last fuel n : 0 <= n -> digits fuel n = [] \/ exists l d, digits fuel n = l ++ [d] /\ is_digit d = true.
Proof.
  intros Hn. pose proof (digits_digit fuel n Hn) as Hd. destruct (digits fuel n) as [|d l _] using rev_ind; [by left |].
  right. apply Forall_app in Hd as [_ Hd%Forall_inv]. by eexists _, _.
Qed.

Lemma dec_last v : exists l d, dec v = l ++ [d] /\ is_digit d = true.
Proof.
  assert (forall n, 0 <= n -> exists l d, digits 10 n = l ++ [d] /\ is_digit d = true) as H.
  { intros n Hn. destruct (digits_last 10 n Hn) as [H | H]; [|done]. exfalso.
    change (digits 10 n) with (if n <? 10 then [48 + n] else digits 9 (n / 10) ++ [48 + n mod 10]) in H.
    case_match; [done |]. by destruct (digits 9 (n / 10)). }
  unfold dec. destruct (Z.ltb_spec v 0).
  - destruct (H (- v)) as (l & d & -> & Hd); [lia |]. by exists (45 :: l), d.
  - apply H. lia.
Qed.

(** What is left of a line after a key it begins with: the rest of the line's
    own key, or its value. *)
Lemma after_key k k' post : plain_key k = true -> plain_key k' = true -> take (length k) (k' ++ 61 :: post) = k ->
  k = k' /\ drop (length k) (k' ++ 61 :: post) = 61 :: post \/
  k <> k' /\ exists b r, drop (length k) (k' ++ 61 :: post) = b :: r /\ b <> 61 /\ b <> 32.
Proof.
  intros Hk Hk' Htk. destruct (plain_key_spec k Hk) as [Hkf _]. destruct (plain_key_spec k' Hk') as [Hkf' _].
  destruct (Nat.lt_trichotomy (length k) (length k')) as [Hlt | [Heq | Hgt]].
  - right. split; [intros ->; lia |]. destruct (drop (length k) k') as [|b r] eqn:Hd.
    { apply (f_equal length) in Hd. rewrite length_drop in Hd. cbn in Hd. lia. }
    exists b, (r ++ 61 :: post). rewrite drop_app_le by lia. rewrite Hd. split; [done |].
    assert (Forall (fun b => b <> 61 /\ b <> 32) (drop (length k) k')) as Hf by by apply Forall_drop.
    rewrite Hd in Hf. by apply Forall_inv in Hf.
  - left. rewrite Heq in *. rewrite take_app_length in Htk. rewrite drop_app_length. done.
  - exfalso. assert (k !! length k' = Some 61) as Hl.
    { rewrite <- Htk, lookup_take_lt by lia. by apply list_lookup_middle. }
    rewrite Forall_lookup in Hkf. by destruct (Hkf _ _ Hl).
Qed.

(** The parser before it looks for the equals sign. *)
Lemma parse_key k k' post : plain_key k = true -> plain_key k' = true ->
  let str := k' ++ 61 :: post in
  parse_key_val str k =
    if bool_decide (k = k') then
      let p := drop_while is_space post in
      let dst := if char_at p =? 34 then tail p else p in
      let back := drop_while is_space (rev str) in
      let back := if char_at back =? 34 then tail back else back in
      let back := drop_while is_crlf back in
      let n := Z.of_nat (length back) - Z.of_nat (length str - length dst) in
      if (n <? 0) || (Z.of_nat CONF_SIZE <=? n) then Fault else Ok (Some (take (Z.to_nat n) dst))
    else Ok None.
Proof.
  intros Hk Hk' str. destruct (plain_key_spec k' Hk') as [_ (b0 & b & Hb & Hb35 & Hb32)].
  assert (drop_while is_space str = str /\ char_at str = b0) as [Hsp Hc0].
  { unfold str. rewrite Hb. split; [|done]. apply drop_while_hd. by apply Z.eqb_neq. }
  assert (length str = S (length k' + length post)) as Hls by (unfold str; rewrite length_app; cbn; lia).
  unfold parse_key_val. rewrite Hsp, Hc0, (proj2 (Z.eqb_neq b0 35)) by done.
  destruct (Nat.leb_spec (length str) (length k)) as [Hle | Hgt].
  { rewrite bool_decide_eq_false_2; [done |]. intros ->. lia. }
  destruct (decide (take (length k) str = k)) as [Htk | Htk].
  2: { rewrite bool_decide_eq_false_2 by done. cbn [negb]. rewrite bool_decide_eq_false_2; [done |].
       intros ->. apply Htk. unfold str. by rewrite take_app_length. }
  rewrite (bool_decide_eq_true_2 _ Htk). cbn [negb].
  destruct (after_key k k' _ Hk Hk' Htk) as [[Heq Hd] | (Hkk & c & r & Hd & H61 & H32)]; fold str in Hd; rewrite Hd.
  - rewrite (bool_decide_eq_true_2 _ Heq). by rewrite (drop_while_hd is_space 61).
  - rewrite (bool_decide_eq_false_2 _ Hkk), (drop_while_hd is_space c) by by apply Z.eqb_neq.
    cbn [char_at]. by rewrite (proj2 (Z.eqb_neq c 61)).
Qed.

Lemma parse_value k v : plain_key k = true -> parse_key_val (k ++ 61 :: dec v) k = Ok (Some (dec v)).
Proof.
  intros Hk. rewrite parse_key by done. cbn zeta. rewrite (bool_decide_eq_true_2 _ eq_refl).
  destruct (dec_chars v) as (Hch & Hlen & Hne).
  assert (exists d0 r, dec v = d0 :: r /\ (d0 =? 32) = false /\ (d0 =? 34) = false) as (d0 & r & Hd0 & Hn32 & Hn34).
  { destruct (dec v) as [|d0 r]; [done |]. exists d0, r. split; [done |]. apply Forall_inv in Hch.
    rewrite !Z.eqb_neq. unfold is_digit in Hch. rewrite andb_true_iff, !Z.leb_le in Hch. lia. }
  assert (drop_while is_space (dec v) = dec v) as -> by (rewrite Hd0; by apply drop_while_hd).
  assert ((char_at (dec v) =? 34) = false) as -> by by rewrite Hd0.
  destruct (dec_last v) as (dl & d & Hdec & Hdd). unfold is_digit in Hdd. rewrite andb_true_iff, !Z.leb_le in Hdd.
  assert (rev (k ++ 61 :: dec v) = d :: rev (k ++ 61 :: dl)) as Hrev.
  { rewrite Hdec. change (61 :: dl ++ [d]) with ((61 :: dl) ++ [d]). by rewrite app_assoc, rev_unit. }
  rewrite Hrev, (drop_while_hd is_space d) by (apply Z.eqb_neq; lia). cbn [char_at].
  rewrite (proj2 (Z.eqb_neq d 34)) by lia.
  rewrite (drop_while_hd is_crlf d) by (unfold is_crlf; by rewrite !(proj2 (Z.eqb_neq d _)) by lia).
  rewrite <- Hrev, length_rev. set (n := Z.of_nat _ - Z.of_nat _).
  assert (n = Z.of_nat (length (dec v))) as -> by (unfold n; rewrite length_app; cbn [length]; lia).
  rewrite (proj2 (Z.ltb_ge _ 0)), (proj2 (Z.leb_gt _ _)) by (unfold CONF_SIZE; lia). cbn [orb].
  by rewrite Nat2Z.id, firstn_all.
Qed.

(** Only blanks after the equals sign: the pointer to the end of the value ends
    up before the pointer to its start. *)
Lemma parse_blank k n : plain_key k = true -> parse_key_val (k ++ 61 :: replicate (S n) 32) k = Fault.
Proof.
  intros Hk. rewrite parse_key by done. cbn zeta. rewrite (bool_decide_eq_true_2 _ eq_refl).
  assert (forall m l, drop_while is_space (replicate m 32 ++ l) = drop_while is_space l) as Hdrop
    by (induction m as [|m IH]; intros l; [done | apply IH]).
  assert (drop_while is_space (replicate (S n) 32) = []) as ->
    by (rewrite <- (app_nil_r (replicate (S n) 32)), Hdrop; done).
  change (char_at [] =? 34) with false. cbn iota.
  assert (rev (k ++ 61 :: replicate (S n) 32) = replicate (S n) 32 ++ 61 :: rev k) as ->.
  { rewrite rev_app_distr. change (rev (61 :: replicate (S n) 32)) with (rev (replicate (S n) 32) ++ [61]).
    rewrite <- app_assoc. f_equal. rewrite rev_alt. apply reverse_replicate. }
  rewrite Hdrop, (drop_while_hd is_space 61) by done. cbn [char_at]. change (61 =? 34) with false. cbn iota.
  rewrite (drop_while_hd is_crlf 61) by done. rewrite length_app. cbn [length]. rewrite length_rev, length_replicate.
  by rewrite (proj2 (Z.ltb_lt _ 0)) by lia.
Qed.

Lemma keys_plain pre : pre = text "module0_" \/ pre = text "module1_" ->
  forallb (fun e => plain_key (pre ++ e.1)) parse_match_tab = true.
Proof. by intros [-> | ->]. Qed.

Lemma tab_nodup : NoDup parse_match_tab.*1.
Proof. apply (bool_decide_unpack _). vm_compute. exact I. Qed.

Section settings.
Context (kstrtol : list Z -> option Z) (Hk : forall v, - 2 ^ 31 < v < 2 ^ 31 -> kstrtol (dec v) = Some v).
Context (pre : list Z) (Hpre : pre = text "module0_" \/ pre = text "module1_").

Definition nv_line (k : list Z) (v : Z) : list Z := (pre ++ k) ++ 61 :: dec v.

(** A line with a key is left to its entry. *)
Lemma match_entry k o post s r : (k, o) ∈ parse_match_tab ->
  parse_key_val ((pre ++ k) ++ 61 :: post) (pre ++ k) = r -> r <> Ok None ->
  match_line kstrtol pre ((pre ++ k) ++ 61 :: post) parse_match_tab s =
    (c ← r;
     let v := match c ≫= kstrtol with Some v => v | None => val s end in
     m ← splice (mem s) o (le64 v); Ok (Nv m v)).
Proof using Hpre.
  intros Hin Hr Hnn. pose proof (keys_plain pre Hpre) as Hpl. rewrite forallb_forall in Hpl.
  assert (forall e, e ∈ parse_match_tab -> plain_key (pre ++ e.1) = true) as Hp
    by (intros e He; apply Hpl; by apply list_elem_of_In).
  pose proof (Hp (k, o) Hin) as Hpk. clear Hpl. cbn [fst] in Hpk. pose proof tab_nodup as Hn. revert Hin Hp Hn.
  generalize parse_match_tab as tab. induction tab as [|[k' o'] tab IH]; intros Hin Hp Hn; [by apply elem_of_nil in Hin |].
  cbn [match_line]. cbn [fmap list_fmap fst] in Hn. apply NoDup_cons in Hn as [Hni Hn].
  apply elem_of_cons in Hin as [[= -> ->] | Hin].
  - rewrite Hr. destruct r as [[c|] | |]; done.
  - rewrite (parse_key (pre ++ k')) by (done || (apply (Hp (k', o')); by left)). rewrite bool_decide_eq_false_2.
    + apply IH; [done | intros e He; apply Hp; by right | done].
    + intros He%app_inv_head. apply Hni. rewrite He. by apply (list_elem_of_fmap_2 fst _ (k, o)).
Qed.

Lemma entry_plain k o : (k, o) ∈ parse_match_tab -> plain_key (pre ++ k) = true.
Proof using Hpre.
  intros Hin%list_elem_of_In. pose proof (keys_plain pre Hpre) as Hpl. rewrite forallb_forall in Hpl. by apply (Hpl (k, o)).
Qed.

(** A line with a key stores its eight bytes. *)
Lemma match_setting k o v s : (k, o) ∈ parse_match_tab -> - 2 ^ 31 < v < 2 ^ 31 ->
  match_line kstrtol pre (nv_line k v) parse_match_tab s = (m ← splice (mem s) o (le64 v); Ok (Nv m v)).
Proof using Hk Hpre.
  intros Hin Hv. unfold nv_line.
  rewrite (match_entry k o _ s _ Hin (parse_value _ v (entry_plain k o Hin))) by done. cbn. by rewrite Hk.
Qed.

Lemma splice_le64 m o v : (o + 8 <= length m)%nat -> splice m o (le64 v) = Ok (take o m ++ le64 v ++ drop (o + 8) m).
Proof using Type. intros H. unfold splice. change (length (le64 v)) with 8%nat. by rewrite (proj2 (Nat.leb_le _ _)) by lia. Qed.

(** The lines of the keys from the [i]-th on, with the first [i] members done. *)
Lemma match_in_order es vs : forall i dn rest v0 ls, drop i parse_match_tab = es -> length vs = length es ->
  Forall (fun v => - 2 ^ 31 < v < 2 ^ 31) vs -> length dn = i -> (length es + 7 <= length rest)%nat ->
  match_lines kstrtol pre (zip_with (fun e v => nv_line e.1 v) es vs ++ ls) (Nv (dn ++ rest) v0) =
    match_lines kstrtol pre ls (Nv (dn ++ (u8 <$> vs) ++
      match vs with [] => rest | _ => tail (le64 (List.last vs 0)) ++ drop (length vs + 7) rest end) (List.last vs v0)).
Proof using Hk Hpre.
  revert vs. induction es as [|e es IH]; intros [|v vs] i dn rest v0 ls Hes Hvs Hr Hi Hlen; try done.
  apply Forall_cons in Hr as [Hv Hr]. assert (parse_match_tab !! i = Some e) as Hei.
  { rewrite <- (Nat.add_0_r i), <- lookup_drop, Hes. done. }
  assert (e = (e.1, i)) as He.
  { clear -Hei. do 21 (destruct i as [|i]; [by inversion Hei |]). done. }
  cbn [zip_with app match_lines]. rewrite (match_setting e.1 i v) by (done || rewrite <- He; by eapply list_elem_of_lookup_2).
  cbn [mem length] in *. rewrite splice_le64 by (rewrite length_app; lia). cbn [mbind res_bind].
  rewrite <- Hi, take_app_length, drop_app_ge, Nat.add_comm, Nat.add_sub by lia.
  change (le64 v) with (u8 (v / 1) :: tail (le64 v)). rewrite Z.div_1_r.
  change (dn ++ (u8 v :: tail (le64 v)) ++ drop 8 rest) with (dn ++ [u8 v] ++ tail (le64 v) ++ drop 8 rest).
  rewrite app_assoc. rewrite (IH vs (S i)).
  - rewrite <- app_assoc. f_equal. destruct vs as [|v' vs]; [done |].
    change (List.last (v :: v' :: vs) 0) with (List.last (v' :: vs) 0). f_equal; [f_equal|].
    + change (u8 <$> v :: v' :: vs) with ([u8 v] ++ (u8 <$> v' :: vs)). rewrite <- app_assoc. do 3 f_equal.
      rewrite drop_app_ge by (cbn; lia). rewrite drop_drop. change (length (tail (le64 v))) with 7%nat. f_equal. cbn. lia.
    + clear. revert v v'. induction vs as [|v2 vs IHv]; intros v v'; [done |]. apply IHv.
  - rewrite (drop_S _ e i Hei) in Hes. by injection Hes.
  - cbn in Hvs. lia.
  - done.
  - rewrite length_app. cbn. lia.
  - rewrite length_app, length_drop. cbn. lia.
Qed.
End settings.

(** ** Files of settings *)

Definition nv_text (ls : list (list Z)) : list Z := ls ≫= fun l => l ++ [10].

Lemma all_lines_text ls : Forall (Forall (fun b => is_eol b = false)) ls -> all_lines (nv_text ls) = ls ++ [[]].
Proof.
  unfold all_lines, nv_text. induction 1 as [|l ls Hl _ IH]; [done |]. cbn [mbind list_bind].
  rewrite <- app_assoc. cbn [app]. rewrite split_lines_app by done. cbn [fst snd app]. by rewrite IH.
Qed.

Lemma keys_in_line pre : pre = text "module0_" \/ pre = text "module1_" ->
  forallb (fun e => forallb (fun b => negb (is_eol b) && negb (b =? 0)) (pre ++ e.1)) parse_match_tab = true.
Proof. by intros [-> | ->]. Qed.

Lemma nv_line_plain pre k o v : pre = text "module0_" \/ pre = text "module1_" -> (k, o) ∈ parse_match_tab ->
  Forall plain (nv_line pre k v).
Proof.
  intros Hpre Hin%list_elem_of_In. pose proof (keys_in_line pre Hpre) as Hpl. rewrite forallb_forall in Hpl.
  specialize (Hpl (k, o) Hin). cbn [fst] in Hpl. rewrite forallb_forall in Hpl. apply Forall_app. split.
  - apply Forall_forall. intros b Hb%list_elem_of_In. specialize (Hpl b Hb).
    by rewrite andb_true_iff, !negb_true_iff, Z.eqb_neq in Hpl.
  - constructor; [done |]. destruct (dec_chars v) as [Hd _]. eapply Forall_impl; [exact Hd | apply number_plain].
Qed.

Lemma prefix_known vendor_info : known_vendor vendor_info = 1 \/ known_vendor vendor_info = 33 ->
  parse_key_prefix (known_vendor vendor_info) = text "module0_" \/
  parse_key_prefix (known_vendor vendor_info) = text "module1_".
Proof. intros [-> | ->]; [by left | by right]. Qed.

Section files.
Context (kstrtol : list Z -> option Z) (vendor_info : Z).
Context (Hv : known_vendor vendor_info = 1 \/ known_vendor vendor_info = 33).
Let pre : list Z := parse_key_prefix (known_vendor vendor_info).

Lemma text_parsed ls last s : Forall (Forall plain) ls -> ls <> [] ->
  rwnx_plat_userconfig_parsing kstrtol true last (nv_text ls) vendor_info s =
    (s ← match_lines kstrtol pre ls s; Ok (s, known_vendor vendor_info)).
Proof using Type.
  intros Hls Hne. rewrite parsing_by_lines.
  - rewrite all_lines_text by (eapply Forall_impl; [exact Hls |]; intros l Hl; eapply Forall_impl; [exact Hl |]; by intros b []).
    fold pre. clear. revert s. induction ls as [|l ls IH]; intros s; cbn [app match_lines]; [by rewrite match_empty |].
    destruct (match_line kstrtol pre l parse_match_tab s) as [s' | |]; [apply IH | done..].
  - unfold nv_text. clear Hne. induction Hls as [|l ls Hl _ IH]; [done |]. cbn [mbind list_bind]. rewrite !Forall_app.
    split_and!; [eapply Forall_impl; [exact Hl |]; by intros b [] | by constructor | done].
  - destruct ls as [|l ls]; [done |]. unfold nv_text. cbn. by destruct l.
Qed.
End files.

(** The line of a key of the module of the vendor. *)
Definition setting (vendor_info : Z) (k : list Z) (v : Z) : list Z :=
  nv_line (parse_key_prefix (known_vendor vendor_info)) k v.

(** A configuration file of the AIC8801 with all keys in the order of the
    structure, the byte after the copy of the file being anything, leaves in nvram_info
    the values it names, each cut to its byte, and the upper seven bytes of the last one
    in the seven bytes behind the structure. *)
Theorem nvram_file_in_order kstrtol vendor_info vs last s :
  (forall v, - 2 ^ 31 < v < 2 ^ 31 -> kstrtol (dec v) = Some v) ->
  known_vendor vendor_info = 1 \/ known_vendor vendor_info = 33 ->
  length vs = NVRAM_SIZE -> Forall (fun v => - 2 ^ 31 < v < 2 ^ 31) vs -> (NVRAM_SIZE + 7 <= length (mem s))%nat ->
  rwnx_plat_userconfig_parsing kstrtol true last
      (nv_text (zip_with (fun e v => setting vendor_info e.1 v) parse_match_tab vs)) vendor_info s =
    Ok (Nv ((u8 <$> vs) ++ tail (le64 (List.last vs 0)) ++ drop (NVRAM_SIZE + 7) (mem s)) (List.last vs 0),
        known_vendor vendor_info).
Proof.
  intros Hk Hv Hl Hr Hm. pose proof (prefix_known _ Hv) as Hpre. rewrite text_parsed.
  - pose proof (match_in_order kstrtol Hk _ Hpre parse_match_tab vs 0 [] (mem s) (val s) []) as Hi.
    rewrite app_nil_r in Hi. destruct s as [m v0]. unfold setting. cbn [mem val app] in *.
    rewrite Hi by (done || (cbn in *; lia)). cbn [match_lines mbind res_bind].
    destruct vs as [|v vs]; [done |]. rewrite Hl. do 3 f_equal. clear. revert v.
    induction vs as [|v' vs IH]; intros v; [done |]. apply IH.
  - apply Forall_lookup. intros i l Hil. apply lookup_zip_with_Some in Hil as ([k o] & v & -> & Hi & _).
    apply (nv_line_plain _ k o v Hpre). by eapply list_elem_of_lookup_2.
  - by destruct vs.
Qed.

(** A single line of the file of the AIC8801 stores eight bytes at its member of
    one byte, so the seven bytes after it take the upper bytes of the value (zero for a
    small number); a line with nothing but blanks after the equals sign makes the copy
    of the value run with a negative length. *)
Theorem nvram_line_overruns_its_member kstrtol vendor_info k o v n last s :
  (forall v, - 2 ^ 31 < v < 2 ^ 31 -> kstrtol (dec v) = Some v) ->
  known_vendor vendor_info = 1 \/ known_vendor vendor_info = 33 ->
  (k, o) ∈ parse_match_tab -> - 2 ^ 31 < v < 2 ^ 31 ->
  rwnx_plat_userconfig_parsing kstrtol true last (nv_text [setting vendor_info k v]) vendor_info s =
    (if (o + 8 <=? length (mem s))%nat
     then Ok (Nv (take o (mem s) ++ le64 v ++ drop (o + 8) (mem s)) v, known_vendor vendor_info) else Fault) /\
  rwnx_plat_userconfig_parsing kstrtol true last
    (nv_text [(parse_key_prefix (known_vendor vendor_info) ++ k) ++ 61 :: replicate (S n) 32]) vendor_info s = Fault.
Proof.
  intros Hk Hv Hin Hr. pose proof (prefix_known _ Hv) as Hpre. set (pre := parse_key_prefix _) in *. split.
  - rewrite text_parsed; [|by constructor; [eapply nv_line_plain |] | done]. cbn [match_lines]. unfold setting. fold pre.
    rewrite (match_setting kstrtol Hk pre Hpre k o v) by done. unfold splice. change (length (le64 v)) with 8%nat.
    by destruct (_ <=? _)%nat.
  - rewrite text_parsed; [|constructor; [|done] | done].
    + cbn [match_lines]. fold pre. by rewrite (match_entry kstrtol pre Hpre k o _ s Fault Hin
        (parse_blank (pre ++ k) n (entry_plain pre Hpre k o Hin))).
    + pose proof (nv_line_plain pre k o 0 Hpre Hin) as Hp. apply Forall_app in Hp as [Hp _]. apply Forall_app.
      split; [done |]. constructor; [done |]. apply Forall_replicate. done.
Qed.

Module Example.

(** The numbers of the files, in decimal. *)
Definition kstrtol (s : list Z) : option Z := Some (rwnx_atoi s).

Lemma kstrtol_ok v : - 2 ^ 31 < v < 2 ^ 31 -> kstrtol (dec v) = Some v.
Proof. intros Hv. unfold kstrtol. by rewrite atoi_dec. Qed.

(** The structure as it is loaded, and nine bytes of another variable. *)
Definition s0 : nv := Nv (nvram_info ++ replicate 9 255) 3735928559.

Definition levels : list Z := [1; 10; 11; 12; 13; 14; 15; 16; 17; 18; 1; -1; -2; 0; 1; 2; 3; -3; 1; 20; 30].

Lemma nvram_file_in_order_witness :
  rwnx_plat_userconfig_parsing kstrtol true 13 (nv_text (zip_with (fun e v => setting 0 e.1 v) parse_match_tab levels)) 0 s0 =
    Ok (Nv ((u8 <$> levels) ++ replicate 7 0 ++ [255; 255]) 30, 1).
Proof.
  rewrite (nvram_file_in_order kstrtol 0 levels 13 s0 kstrtol_ok ltac:(by left) ltac:(done)); [reflexivity | | cbn; lia].
  repeat (constructor; [lia |]). constructor.
Defined.

(** One line for dsss takes the levels after it to zero. *)
Lemma nvram_line_overruns_its_member_witness :
  rwnx_plat_userconfig_parsing kstrtol true 13 (nv_text [setting 33 (text "dsss") 12]) 33 s0 =
    Ok (Nv ([1; 12; 0; 0; 0; 0; 0; 0; 0; 9] ++ drop 10 (mem s0)) 12, 33) /\
  rwnx_plat_userconfig_parsing kstrtol true 13 (text "module1_dsss= " ++ [10]) 33 s0 = Fault.
Proof.
  destruct (nvram_line_overruns_its_member kstrtol 33 (text "dsss") 1 12 0 13 s0 kstrtol_ok ltac:(by right)) as [H1 H2].
  - right. left.
  - lia.
  - split; [rewrite H1; reflexivity | exact H2].
Defined.

End Example.

End NvramRuns.
