(* ===== verification/Power.v ===== *)
(** * Transmit power: from the configuration to the firmware
    (rwnx_platform.c, rwnx_msg_tx.c, aicwf_compat_8800d80.c)

    The functions that copy a part of the configuration into a message, with
    the correction for the loss of the path to the antenna; the order in which
    they run for the D80 chips; the maximum that is reported to cfg80211; and
    the change of the levels at run time.

    A message that is sent is a [pwr_msg].  [alloc] says for which messages
    rwnx_msg_zalloc succeeds, [reply] what rwnx_send_msg returns. *)

From S2P Require Import Prelude CmdTx Conf ConfParse ConfRound Nvram.
From stdpp Require Import list.
Import CmdTx Conf ConfRound Nvram.
Open Scope Z_scope.
Open Scope list_scope.

Module Power.

Definition ENOMEM : Z := 12.

Record hw := Hw { chipid : chip; testmode : Z; chip_sub_id : Z; conf : userconfig_info_t; nvram : list Z }.

Record rf_calib_req := RfCalib {
  cal_cfg_24g : Z; cal_cfg_5g : Z; param_alpha : Z; bt_calib_en : Z; bt_calib_param : Z;
  req_xtal_cap : Z; req_xtal_cap_fine : Z; cal_res : option (Z * Z * Z)
}.

Inductive pwr_msg :=
| TXPWR_LVL (l : txpwr_lvl_conf_t) | TXPWR_LVL_V2 (l : txpwr_lvl_conf_v2_t)
| TXPWR_LVL_V3 (l : txpwr_lvl_conf_v3_t) | TXPWR_LVL_V4 (l : txpwr_lvl_conf_v4_t)
| TXPWR_LVL_ADJ (l : txpwr_lvl_adj_conf_t) | TXPWR_IDX (l : list Z)
| TXPWR_OFST (o : txpwr_ofst_conf_t) | TXPWR_OFST2X (o : txpwr_ofst2x_conf_t)
| TXPWR_OFST2X_V2 (o : txpwr_ofst2x_conf_v2_t) | RF_CALIB (r : rf_calib_req).

Inductive msg_id := MM_SET_TXPWR_IDX_LVL_REQ | MM_SET_TXPWR_LVL_ADJ_REQ | MM_SET_TXPWR_OFST_REQ | MM_SET_RF_CALIB_REQ.

(** ** Parts of the configuration *)

Definition get_userconfig_txpwr_idx (h : hw) : list Z := take 10 (nvram h).

Definition get_userconfig_txpwr_ofst (h : hw) : txpwr_ofst_conf_t :=
  let b i := at_idx (10 + i) (nvram h) in
  Mk_ofst (b 0%nat) (s8 (b 1%nat)) (s8 (b 2%nat)) (s8 (b 3%nat)) (s8 (b 4%nat)) (s8 (b 5%nat)) (s8 (b 6%nat)) (s8 (b 7%nat)).

Definition get_userconfig_xtal_cap (h : hw) (xtal_cap : xtal_cap_conf_t) : xtal_cap_conf_t :=
  let b i := at_idx (18 + i) (nvram h) in
  let xtal_cap := if b 0%nat =? 0 then xtal_cap else Mk_xtal (b 0%nat) (b 1%nat) (b 2%nat) in
  if xtal_enable (uc_xtal_cap (conf h)) =? 0 then xtal_cap else uc_xtal_cap (conf h).

(** The loops that subtract the loss, and those that add the change. *)
Definition lower (loss : Z) (l : list Z) : list Z := (fun x => s8 (x - loss)) <$> l.
Definition raise (value : Z) (l : list Z) : list Z := (fun x => s8 (x + value)) <$> l.

(** [power] is raised to every level above it. *)
Definition highest (power : Z) (l : list Z) : Z := foldl (fun p x => if p <? x then x else p) power l.

Definition with_loss (loss : txpwr_loss_conf_t) (power : Z) : Z :=
  if (loss_enable_2g4 loss =? 1) || (loss_enable_5g loss =? 1) then
    if loss_value_2g4 loss <? loss_value_5g loss then s8 (power + loss_value_5g loss)
    else s8 (power + loss_value_2g4 loss)
  else power.

(** 11a has its levels from the fifth on in the D80. *)
Definition get_txpwr_max (h : hw) (power : Z) : Z :=
  let c := conf h in
  match chipid h with
  | PRODUCT_ID_AIC8800D80X2 =>
    let v := txpwr_lvl_v4 c in
    with_loss (txpwr_loss c)
      (highest (highest (highest (highest (highest (highest power (v4_pwrlvl_11b_11ag_2g4 v))
        (v4_pwrlvl_11n_11ac_2g4 v)) (v4_pwrlvl_11ax_2g4 v)) (v4_pwrlvl_11a_5g v)) (v4_pwrlvl_11n_11ac_5g v))
        (v4_pwrlvl_11ax_5g v))
  | PRODUCT_ID_AIC8800D80 | PRODUCT_ID_AIC8800D80N | PRODUCT_ID_AIC8800D80WN =>
    let v := txpwr_lvl_v3 c in
    with_loss (txpwr_loss c)
      (highest (highest (highest (highest (highest (highest power (v3_pwrlvl_11b_11ag_2g4 v))
        (v3_pwrlvl_11n_11ac_2g4 v)) (v3_pwrlvl_11ax_2g4 v)) (drop 4 (v3_pwrlvl_11a_5g v))) (v3_pwrlvl_11n_11ac_5g v))
        (v3_pwrlvl_11ax_5g v))
  | PRODUCT_ID_AIC8800DC | PRODUCT_ID_AIC8800DW =>
    let v := txpwr_lvl_v2 c in
    highest (highest (highest power (v2_pwrlvl_11b_11ag_2g4 v)) (v2_pwrlvl_11n_11ac_2g4 v)) (v2_pwrlvl_11ax_2g4 v)
  | PRODUCT_ID_AIC8801 => power
  end.

Definition set_txpwr_loss_ofst (value : Z) (h : hw) : userconfig_info_t :=
  let c := conf h in
  match chipid h with
  | PRODUCT_ID_AIC8800D80 | PRODUCT_ID_AIC8800D80N | PRODUCT_ID_AIC8800D80WN =>
    c <| txpwr_lvl_v3 ::= fun v => v
      <| v3_pwrlvl_11b_11ag_2g4 ::= raise value |> <| v3_pwrlvl_11n_11ac_2g4 ::= raise value |>
      <| v3_pwrlvl_11ax_2g4 ::= raise value |>
      <| v3_pwrlvl_11a_5g ::= fun l => take 4 l ++ raise value (drop 4 l) |>
      <| v3_pwrlvl_11n_11ac_5g ::= raise value |> <| v3_pwrlvl_11ax_5g ::= raise value |> |>
  | PRODUCT_ID_AIC8800D80X2 =>
    c <| txpwr_lvl_v4 ::= fun v => v
      <| v4_pwrlvl_11b_11ag_2g4 ::= raise value |> <| v4_pwrlvl_11n_11ac_2g4 ::= raise value |>
      <| v4_pwrlvl_11ax_2g4 ::= raise value |> <| v4_pwrlvl_11a_5g ::= raise value |>
      <| v4_pwrlvl_11n_11ac_5g ::= raise value |> <| v4_pwrlvl_11ax_5g ::= raise value |> |>
  | PRODUCT_ID_AIC8800DC | PRODUCT_ID_AIC8800DW =>
    c <| txpwr_lvl_v2 ::= fun v => v
      <| v2_pwrlvl_11b_11ag_2g4 ::= raise value |> <| v2_pwrlvl_11n_11ac_2g4 ::= raise value |>
      <| v2_pwrlvl_11ax_2g4 ::= raise value |> |>
  | PRODUCT_ID_AIC8801 => c
  end.

(** ** The messages *)

Section send.
Context (alloc : msg_id -> bool) (reply : pwr_msg -> Z).

(** Allocate the message; free it when it is not enabled. *)
Definition send_if (id : msg_id) (enable : Z) (m : pwr_msg) : list pwr_msg * Z :=
  if negb (alloc id) then ([], - ENOMEM) else if enable =? 0 then ([], 0) else ([m], reply m).

Definition rwnx_send_txpwr_lvl_req (h : hw) : list pwr_msg * Z :=
  let v := txpwr_lvl_v2 (conf h) in
  let m :=
    if (testmode h =? 0) && (chip_sub_id h =? 0) then
      TXPWR_LVL (Mk_lvl (v2_enable v) (u8 (at_idx 3 (v2_pwrlvl_11b_11ag_2g4 v))) (u8 (at_idx 4 (v2_pwrlvl_11ax_2g4 v)))
        (u8 (at_idx 7 (v2_pwrlvl_11ax_2g4 v))) (u8 (at_idx 9 (v2_pwrlvl_11ax_2g4 v)))
        (u8 (at_idx 11 (v2_pwrlvl_11ax_2g4 v))) 13 13 13 13)
    else TXPWR_LVL_V2 v in
  send_if MM_SET_TXPWR_IDX_LVL_REQ (v2_enable v) m.

Definition rwnx_send_txpwr_lvl_v3_req (h : hw) : list pwr_msg * Z :=
  let v := txpwr_lvl_v3 (conf h) in
  let loss := txpwr_loss (conf h) in
  let v :=
    if loss_enable_2g4 loss =? 1 then
      v <| v3_pwrlvl_11b_11ag_2g4 ::= lower (loss_value_2g4 loss) |>
        <| v3_pwrlvl_11n_11ac_2g4 ::= lower (loss_value_2g4 loss) |>
        <| v3_pwrlvl_11ax_2g4 ::= lower (loss_value_2g4 loss) |>
    else v in
  let v :=
    if loss_enable_5g loss =? 1 then
      v <| v3_pwrlvl_11a_5g ::= lower (loss_value_5g loss) |>
        <| v3_pwrlvl_11n_11ac_5g ::= lower (loss_value_5g loss) |>
        <| v3_pwrlvl_11ax_5g ::= lower (loss_value_5g loss) |>
    else v in
  send_if MM_SET_TXPWR_IDX_LVL_REQ (v3_enable v) (TXPWR_LVL_V3 v).

Definition rwnx_send_txpwr_lvl_v4_req (h : hw) : list pwr_msg * Z :=
  let v := txpwr_lvl_v4 (conf h) in
  let loss := txpwr_loss (conf h) in
  let v :=
    if loss_enable_2g4 loss =? 1 then
      v <| v4_pwrlvl_11b_11ag_2g4 ::= lower (loss_value_2g4 loss) |>
        <| v4_pwrlvl_11n_11ac_2g4 ::= lower (loss_value_2g4 loss) |>
        <| v4_pwrlvl_11ax_2g4 ::= lower (loss_value_2g4 loss) |>
    else v in
  let v :=
    if loss_enable_5g loss =? 1 then
      v <| v4_pwrlvl_11a_5g ::= lower (loss_value_5g loss) |>
        <| v4_pwrlvl_11n_11ac_5g ::= lower (loss_value_5g loss) |>
        <| v4_pwrlvl_11ax_5g ::= lower (loss_value_5g loss) |>
    else v in
  send_if MM_SET_TXPWR_IDX_LVL_REQ (v4_enable v) (TXPWR_LVL_V4 v).

Definition rwnx_send_txpwr_lvl_adj_req (h : hw) : list pwr_msg * Z :=
  send_if MM_SET_TXPWR_LVL_ADJ_REQ (adj_enable (txpwr_lvl_adj (conf h))) (TXPWR_LVL_ADJ (txpwr_lvl_adj (conf h))).

Definition rwnx_send_txpwr_idx_req (h : hw) : list pwr_msg * Z :=
  let idx := get_userconfig_txpwr_idx h in send_if MM_SET_TXPWR_IDX_LVL_REQ (at_idx 0 idx) (TXPWR_IDX idx).

Definition rwnx_send_txpwr_ofst_req (h : hw) : list pwr_msg * Z :=
  let o :=
    match chipid h with
    | PRODUCT_ID_AIC8801 => get_userconfig_txpwr_ofst h
    | PRODUCT_ID_AIC8800DC | PRODUCT_ID_AIC8800DW => txpwr_ofst (conf h)
    | _ => Mk_ofst 1 0 0 0 0 0 0 0
    end in
  send_if MM_SET_TXPWR_OFST_REQ (ofst_enable o) (TXPWR_OFST o).

Definition rwnx_send_txpwr_ofst2x_req (h : hw) : list pwr_msg * Z :=
  let o :=
    match chipid h with
    | PRODUCT_ID_AIC8800D80 | PRODUCT_ID_AIC8800D80N | PRODUCT_ID_AIC8800D80WN | PRODUCT_ID_AIC8800D80X2 =>
      txpwr_ofst2x (conf h)
    | _ => Mk_ofst2x 0 (replicate 9 0) (replicate 18 0)
    end in
  send_if MM_SET_TXPWR_OFST_REQ (ofst2x_enable o) (TXPWR_OFST2X o).

Definition rwnx_send_txpwr_ofst2x_v2_req (h : hw) : list pwr_msg * Z :=
  let o := txpwr_ofst2x_v2 (conf h) in send_if MM_SET_TXPWR_OFST_REQ (ofst2x_v2_enable o) (TXPWR_OFST2X_V2 o).

Definition rwnx_send_rf_calib_req (h : hw) : list pwr_msg * Z :=
  let '(c24, c5) :=
    match chipid h with
    | PRODUCT_ID_AIC8801 => (0xbf, 0x3f)
    | PRODUCT_ID_AIC8800DC | PRODUCT_ID_AIC8800DW => (0x0f8f, 0)
    | _ => (0x0f8f, 0x0f0f)
    end in
  let x := get_userconfig_xtal_cap h (Mk_xtal 0 0 0) in
  let '(cap, fine) := if xtal_enable x =? 0 then (0, 0) else (xtal_xtal_cap x, xtal_xtal_cap_fine x) in
  let res := match chipid h with PRODUCT_ID_AIC8800D80X2 => Some (0x52435747, 0, 0x4F) | _ => None end in
  send_if MM_SET_RF_CALIB_REQ 1 (RF_CALIB (RfCalib c24 c5 0x0c34c008 0 0x264203 cap fine res)).

(** [if ((ret = f(rwnx_hw))) return -1;] for one function after the other. *)
Fixpoint all_or_fail (fs : list (hw -> list pwr_msg * Z)) (h : hw) : list pwr_msg * Z :=
  match fs with
  | [] => ([], 0)
  | f :: fs =>
    let '(ms, ret) := f h in
    if negb (ret =? 0) then (ms, -1) else let '(ms', ret) := all_or_fail fs h in (ms ++ ms', ret)
  end.

Definition aicwf_set_rf_config_8800d80 (h : hw) : list pwr_msg * Z :=
  all_or_fail
    (match chipid h with
     | PRODUCT_ID_AIC8800D80 | PRODUCT_ID_AIC8800D80N | PRODUCT_ID_AIC8800D80WN =>
       [rwnx_send_txpwr_lvl_v3_req; rwnx_send_txpwr_ofst2x_req]
     | PRODUCT_ID_AIC8800D80X2 => [rwnx_send_txpwr_lvl_v4_req; rwnx_send_txpwr_ofst2x_v2_req]
     | _ => []
     end ++ [rwnx_send_txpwr_lvl_adj_req; rwnx_send_rf_calib_req]) h.
End send.

End Power.
