(* ===== verification/PowerRuns.v ===== *)
(** * The power the firmware is told, for a configuration file

    A file that names every key configures a D80 chip as if its values had been
    compiled in, whatever the configuration was before; the levels that arrive
    are the configured ones less the loss, modulo 256, the entries for rates
    that do not exist included; and the maximum that is reported is the highest
    level. *)

From S2P Require Import Prelude CmdTx Conf ConfParse ConfRound Nvram Power.
From stdpp Require Import list.
Import CmdTx Conf ConfRound Nvram Power.
Open Scope Z_scope.
Open Scope list_scope.

Module PowerRuns.

(** ** Reading the members back *)

Lemma at_idx_ext l l' n : length l = n -> length l' = n -> (forall i, (i < n)%nat -> at_idx i l = at_idx i l') -> l = l'.
Proof.
  intros Hl Hl' Hi. apply (nth_ext l l' 0 0); [by rewrite Hl' | intros i Hlt; apply Hi; lia].
Qed.

(** All elements of an array have keys. *)
Definition covers (tab : table) (f : nat -> loc) (n : nat) : bool :=
  forallb (fun i => bool_decide (f i ∈ members tab)) (seq 0 n).

Lemma covers_spec tab f n i : covers tab f n = true -> (i < n)%nat -> f i ∈ members tab.
Proof.
  unfold covers. rewrite forallb_forall. intros H Hi. specialize (H i). rewrite in_seq in H.
  specialize (H ltac:(lia)). by apply bool_decide_eq_true_1 in H.
Qed.

Definition same_on (tab : table) (c c' : userconfig_info_t) : Prop := forall l, l ∈ members tab -> get l c = get l c'.

Lemma same_array tab c c' f n : same_on tab c c' -> covers tab f n = true ->
  forall i, (i < n)%nat -> get (f i) c = get (f i) c'.
Proof. intros Hs Hc i Hi. apply Hs. by eapply covers_spec. Qed.

Lemma v3_covered :
  covers keys_v3 V3_pwrlvl_11b_11ag_2g4 12 = true /\ covers keys_v3 V3_pwrlvl_11n_11ac_2g4 10 = true /\
  covers keys_v3 V3_pwrlvl_11ax_2g4 12 = true /\ covers keys_v3 V3_pwrlvl_11a_5g 12 = true /\
  covers keys_v3 V3_pwrlvl_11n_11ac_5g 10 = true /\ covers keys_v3 V3_pwrlvl_11ax_5g 12 = true /\
  covers keys_v3 Adj_pwrlvl_adj_tbl_2g4 3 = true /\ covers keys_v3 Adj_pwrlvl_adj_tbl_5g 6 = true /\
  covers keys_v3 Ofst2x_pwrofst2x_tbl_2g4 9 = true /\ covers keys_v3 Ofst2x_pwrofst2x_tbl_5g 18 = true.
Proof. vm_compute. repeat split. Qed.

Definition v3_scalars : list loc :=
  [V3_enable; Adj_enable; Loss_loss_enable_2g4; Loss_loss_value_2g4; Loss_loss_enable_5g; Loss_loss_value_5g;
   Ofst2x_enable; Xtal_enable; Xtal_xtal_cap; Xtal_xtal_cap_fine].

Lemma v3_scalars_covered : forallb (fun l => bool_decide (l ∈ members keys_v3)) v3_scalars = true.
Proof. vm_compute. reflexivity. Qed.

Lemma same_scalars c c' : same_on keys_v3 c c' -> Forall (fun l => get l c = get l c') v3_scalars.
Proof.
  intros Hs. pose proof v3_scalars_covered as H. rewrite forallb_forall in H. apply Forall_forall. intros l Hl.
  apply Hs. apply list_elem_of_In, H in Hl. by apply bool_decide_eq_true_1 in Hl.
Qed.

(** The parts of the configuration a D80 uses. *)
Lemma same_d80 c c' : shape c -> shape c' -> same_on keys_v3 c c' ->
  txpwr_lvl_v3 c = txpwr_lvl_v3 c' /\ txpwr_lvl_adj c = txpwr_lvl_adj c' /\ txpwr_loss c = txpwr_loss c' /\
  txpwr_ofst2x c = txpwr_ofst2x c' /\ uc_xtal_cap c = uc_xtal_cap c'.
Proof.
  intros Hc Hc' Hs. destruct v3_covered as (A1 & A2 & A3 & A4 & A5 & A6 & A7 & A8 & A9 & A10).
  pose proof (fun f n => same_array keys_v3 c c' f n Hs) as Ha. pose proof (same_scalars c c' Hs) as Hl.
  pose proof (Ha _ _ A1) as B1. pose proof (Ha _ _ A2) as B2. pose proof (Ha _ _ A3) as B3. pose proof (Ha _ _ A4) as B4.
  pose proof (Ha _ _ A5) as B5. pose proof (Ha _ _ A6) as B6. pose proof (Ha _ _ A7) as B7. pose proof (Ha _ _ A8) as B8.
  pose proof (Ha _ _ A9) as B9. pose proof (Ha _ _ A10) as B10. clear A1 A2 A3 A4 A5 A6 A7 A8 A9 A10 Ha Hs.
  destruct c as [a1 a2 [] a4 [] [] a7 [] a9 []], c' as [b1 b2 [] b4 [] [] b7 [] b9 []].
  unfold shape in Hc, Hc'. cbn in Hc, Hc'. injection Hc. injection Hc'. intros.
  unfold v3_scalars in Hl. repeat (apply Forall_cons in Hl as [? Hl]). cbn in *. subst.
  split_and!; try done; f_equal; by eapply at_idx_ext.
Qed.

Definition is_d80 (ch : chip) : bool :=
  match ch with PRODUCT_ID_AIC8800D80 | PRODUCT_ID_AIC8800D80N | PRODUCT_ID_AIC8800D80WN => true | _ => false end.

(** A file with a line for every key makes a D80 chip get exactly the power levels,
    corrections and crystal trimming it would get with that configuration compiled in,
    whatever configuration was there before, and whichever allocations and messages
    fail. *)
Theorem d80_configured_by_file alloc reply ch tm sub nv c c0 :
  is_d80 ch = true -> shape c -> shape c0 -> representable keys_v3 c = true ->
  exists c1, rwnx_plat_userconfig_parsing3 (written keys_v3 c) c0 = Ok c1 /\
    aicwf_set_rf_config_8800d80 alloc reply (Hw ch tm sub c1 nv) =
      aicwf_set_rf_config_8800d80 alloc reply (Hw ch tm sub c nv).
Proof.
  intros Hch Hc Hc0 Hr. destruct tables_ok as (_ & H2 & _).
  destruct (reads_back copy3 keys_v3 number_kept ltac:(cbn; lia) eq_refl H2 [] c c0 Hc0 Hr) as (c1 & Hp & Hc1 & Hs & _).
  exists c1. split; [exact Hp |]. destruct (same_d80 c1 c Hc1 Hc Hs) as (E1 & E2 & E3 & E4 & E5).
  assert (rwnx_send_txpwr_lvl_v3_req alloc reply (Hw ch tm sub c1 nv) =
    rwnx_send_txpwr_lvl_v3_req alloc reply (Hw ch tm sub c nv)) as F1
    by (unfold rwnx_send_txpwr_lvl_v3_req; cbn [conf]; by rewrite E1, E3).
  assert (rwnx_send_txpwr_ofst2x_req alloc reply (Hw ch tm sub c1 nv) =
    rwnx_send_txpwr_ofst2x_req alloc reply (Hw ch tm sub c nv)) as F2
    by (unfold rwnx_send_txpwr_ofst2x_req; cbn [conf chipid]; by rewrite E4).
  assert (rwnx_send_txpwr_lvl_adj_req alloc reply (Hw ch tm sub c1 nv) =
    rwnx_send_txpwr_lvl_adj_req alloc reply (Hw ch tm sub c nv)) as F3
    by (unfold rwnx_send_txpwr_lvl_adj_req; cbn [conf]; by rewrite E2).
  assert (rwnx_send_rf_calib_req alloc reply (Hw ch tm sub c1 nv) =
    rwnx_send_rf_calib_req alloc reply (Hw ch tm sub c nv)) as F4
    by (unfold rwnx_send_rf_calib_req, get_userconfig_xtal_cap; cbn [conf chipid Power.nvram]; by rewrite E5).
  unfold aicwf_set_rf_config_8800d80. cbn [chipid]. destruct ch; try discriminate Hch; cbn [app all_or_fail]; by rewrite F1, F2, F3, F4.
Qed.

(** ** Loss and maximum *)

Lemma at_idx_fmap (f : Z -> Z) i l : (i < length l)%nat -> at_idx i (f <$> l) = f (at_idx i l).
Proof.
  intros Hi. unfold at_idx. rewrite !nth_lookup, list_lookup_fmap.
  destruct (lookup_lt_is_Some_2 l i Hi) as [x ->]. done.
Qed.

Lemma at_idx_take_app i n l r : (i < n)%nat -> (n <= length l)%nat -> at_idx i (take n l ++ r) = at_idx i l.
Proof.
  intros Hi Hn. unfold at_idx. rewrite !nth_lookup, lookup_app_l by (rewrite length_take; lia).
  by rewrite lookup_take_lt.
Qed.

(** On a D80 with a loss configured for 5 GHz the four entries of 11a that stand
    for rates that do not exist (-128) are lowered with the others and wrap around to
    128 minus the loss, while the change of the levels at run time leaves these four
    alone. *)
Theorem loss_unlocks_missing_rates alloc reply h value :
  is_d80 (chipid h) = true -> shape (conf h) -> alloc MM_SET_TXPWR_IDX_LVL_REQ = true ->
  v3_enable (txpwr_lvl_v3 (conf h)) <> 0 -> loss_enable_5g (txpwr_loss (conf h)) = 1 ->
  0 < loss_value_5g (txpwr_loss (conf h)) < 128 ->
  (forall i, (i < 4)%nat -> at_idx i (v3_pwrlvl_11a_5g (txpwr_lvl_v3 (conf h))) = -128) ->
  (exists v, rwnx_send_txpwr_lvl_v3_req alloc reply h = ([TXPWR_LVL_V3 v], reply (TXPWR_LVL_V3 v)) /\
    forall i, (i < 12)%nat -> at_idx i (v3_pwrlvl_11a_5g v) =
      if (i <? 4)%nat then 128 - loss_value_5g (txpwr_loss (conf h))
      else s8 (at_idx i (v3_pwrlvl_11a_5g (txpwr_lvl_v3 (conf h))) - loss_value_5g (txpwr_loss (conf h)))) /\
  forall i, (i < 4)%nat -> at_idx i (v3_pwrlvl_11a_5g (txpwr_lvl_v3 (set_txpwr_loss_ofst value h))) = -128.
Proof.
  intros Hch Hs Ha He Hl Hr Hna. assert (length (v3_pwrlvl_11a_5g (txpwr_lvl_v3 (conf h))) = 12%nat) as Hlen.
  { destruct (conf h) as [a1 a2 [] a4 a5 a6 a7 a8 a9 a10]. unfold shape in Hs. cbn in Hs. by injection Hs. }
  split.
  - unfold rwnx_send_txpwr_lvl_v3_req, send_if. rewrite Ha, Hl. change (1 =? 1) with true. cbn iota. cbn [negb].
    assert (forall v, v3_enable v <> 0 -> (v3_enable v =? 0) = false) as Hne by (intros; by apply Z.eqb_neq).
    destruct (loss_enable_2g4 _ =? 1).
    all: rewrite Hne by done; eexists; split; [reflexivity |]; intros i Hi.
    all: destruct (Nat.ltb_spec i 4); cbn -[at_idx]; unfold lower; rewrite at_idx_fmap by lia; [|done]; rewrite Hna by done.
    all: unfold s8; rewrite <- (Z_mod_plus_full _ 1 256), Z.mod_small; lia.
  - intros i Hi. rewrite <- (Hna i Hi). unfold set_txpwr_loss_ofst.
    destruct (chipid h); try done; cbn -[at_idx take drop]; by rewrite at_idx_take_app by lia.
Qed.

Lemma highest_spec l : forall p, p <= highest p l /\ Forall (fun x => x <= highest p l) l /\
  (highest p l = p \/ highest p l ∈ l).
Proof.
  induction l as [|x l IH]; intros p; cbn; [split_and!; [lia | done | by left] |].
  destruct (IH (if p <? x then x else p)) as (H1 & H2 & H3). fold (highest (if p <? x then x else p) l).
  destruct (Z.ltb_spec p x); (split_and!; [lia | constructor; [lia | done] |]);
    destruct H3 as [-> | H3]; auto; right; (left + right); done.
Qed.

Lemma highest_app p l l' : highest (highest p l) l' = highest p (l ++ l').
Proof. unfold highest. by rewrite foldl_app. Qed.

(** The levels of the rates the chip has; the 6 GHz levels of the D80X2 are left
    out. *)
Definition levels (h : hw) : list Z :=
  let c := conf h in
  match chipid h with
  | PRODUCT_ID_AIC8800D80X2 =>
    let v := txpwr_lvl_v4 c in
    v4_pwrlvl_11b_11ag_2g4 v ++ v4_pwrlvl_11n_11ac_2g4 v ++ v4_pwrlvl_11ax_2g4 v ++ v4_pwrlvl_11a_5g v ++
    v4_pwrlvl_11n_11ac_5g v ++ v4_pwrlvl_11ax_5g v
  | PRODUCT_ID_AIC8800D80 | PRODUCT_ID_AIC8800D80N | PRODUCT_ID_AIC8800D80WN =>
    let v := txpwr_lvl_v3 c in
    v3_pwrlvl_11b_11ag_2g4 v ++ v3_pwrlvl_11n_11ac_2g4 v ++ v3_pwrlvl_11ax_2g4 v ++ drop 4 (v3_pwrlvl_11a_5g v) ++
    v3_pwrlvl_11n_11ac_5g v ++ v3_pwrlvl_11ax_5g v
  | PRODUCT_ID_AIC8800DC | PRODUCT_ID_AIC8800DW =>
    let v := txpwr_lvl_v2 c in
    v2_pwrlvl_11b_11ag_2g4 v ++ v2_pwrlvl_11n_11ac_2g4 v ++ v2_pwrlvl_11ax_2g4 v
  | PRODUCT_ID_AIC8801 => []
  end.

(** The maximum cfg80211 is told is the highest level, corrected for the loss. *)
Lemma txpwr_max_is_highest h power :
  exists r, power <= r /\ Forall (fun x => x <= r) (levels h) /\ (r = power \/ r ∈ levels h) /\
    get_txpwr_max h power =
      match chipid h with
      | PRODUCT_ID_AIC8801 | PRODUCT_ID_AIC8800DC | PRODUCT_ID_AIC8800DW => r
      | _ => with_loss (txpwr_loss (conf h)) r
      end.
Proof.
  exists (highest power (levels h)). destruct (highest_spec (levels h) power) as (H1 & H2 & H3). split_and!; [done.. |].
  unfold get_txpwr_max, levels. destruct (chipid h); cbn; by rewrite ?highest_app, <- ?app_assoc.
Qed.

Module Example.

Definition all (i : msg_id) : bool := true.
Definition ok (m : pwr_msg) : Z := 0.

Definition conf : userconfig_info_t := put Ofst_enable 0 (put (V3_pwrlvl_11ax_5g 11) 9 userconfig_info).

Lemma d80_configured_by_file_witness :
  exists c1, rwnx_plat_userconfig_parsing3 (written keys_v3 conf) (put (V3_pwrlvl_11ax_2g4 0) 99 userconfig_info) = Ok c1 /\
    aicwf_set_rf_config_8800d80 all ok (Hw PRODUCT_ID_AIC8800D80 0 0 c1 nvram_info) =
      ([TXPWR_LVL_V3 (txpwr_lvl_v3 conf); RF_CALIB (RfCalib 0x0f8f 0x0f0f 0x0c34c008 0 0x264203 0 0 None)], 0).
Proof.
  destruct (d80_configured_by_file all ok PRODUCT_ID_AIC8800D80 0 0 nvram_info conf
    (put (V3_pwrlvl_11ax_2g4 0) 99 userconfig_info) eq_refl eq_refl eq_refl ltac:(vm_compute; reflexivity)) as (c1 & Hp & Hc).
  exists c1. split; [exact Hp | rewrite Hc; reflexivity].
Defined.

Definition lossy : hw :=
  Hw PRODUCT_ID_AIC8800D80 0 0 (put Loss_loss_value_5g 1 (put Loss_loss_enable_5g 1 userconfig_info)) nvram_info.

Lemma loss_unlocks_missing_rates_witness :
  exists v, rwnx_send_txpwr_lvl_v3_req all ok lossy = ([TXPWR_LVL_V3 v], 0) /\
    v3_pwrlvl_11a_5g v = [127; 127; 127; 127; 19; 19; 19; 19; 17; 17; 15; 15].
Proof.
  destruct (loss_unlocks_missing_rates all ok lossy 0 eq_refl eq_refl eq_refl) as [(v & Hv & Hi) _].
  - discriminate.
  - reflexivity.
  - change (0 < 1 < 128). lia.
  - intros i Hi. do 4 (destruct i as [|i]; [reflexivity |]). lia.
  - exists v. split; [exact Hv |]. apply (f_equal fst) in Hv. cbn in Hv. injection Hv as <-. reflexivity.
Defined.

End Example.

End PowerRuns.
