(* ===== verification/Bsp.v ===== *)
(** * Bringing a chip up: the requests of the bus driver
    (aic_bsp_driver.c, .h, aic_bsp_main.c of aic8800_bsp)

    The boot ROM of a chip serves debug requests: read and write a word, write
    under a mask, write a block, start a program.  A function that uses them is
    a computation of the monad [M] over [bsp], the globals of the module and
    the log of the requests made so far.

    What becomes of a request is the argument [card], a function of the log and
    the request: rwnx_msg_zalloc fails, the bus is down (rwnx_send_msg drops
    the message and returns 0), or the command manager returns a code, having
    filled in the confirmation or not.  [files] are the firmware files as
    rwnx_load_firmware finds them, [stack] what a local variable holds that was
    not initialised. *)

From S2P Require Import Prelude.
From Stdlib Require Import String.
From stdpp Require Import list.
Open Scope Z_scope.
Open Scope list_scope.

Module Bsp.

Definition ENOMEM : Z := 12.

Inductive chip := AIC8801 | AIC8800DC | AIC8800DW | AIC8800D80 | AIC8800D80N | AIC8800D80WN | AIC8800D80X2.
#[export] Instance chip_eq_dec : EqDecision chip.
Proof. solve_decision. Defined.

(** ** Requests *)

Inductive req :=
| MemRead (memaddr : Z)
| MemWrite (memaddr memdata : Z)
| MemMaskWrite (memaddr memmask memdata : Z)
| MemBlockWrite (memaddr : Z) (memdata : list Z)
| StartApp (bootaddr boottype : Z).

Inductive outcome := NoMem | BusDown | Done (code : Z).

Definition ret_of (o : outcome) : Z := match o with NoMem => - ENOMEM | BusDown => 0 | Done code => code end.

Definition event : Type := req * outcome.

(** The second component is what the confirmation stores, if it does. *)
Definition card : Type := list event -> req -> outcome * option Z.

(** ** The state of the module *)

Record firmware := Firmware { desc : string; bt_adid : string; bt_patch : string; bt_table : string; wl_fw : string }.

(** rf_misc_ram_lite_t. *)
Record misc_ram_lite := MiscRam { bit_mask : list Z; dpd_high : list Z; loft_res : list Z }.
#[export] Instance eta_misc : Settable misc_ram_lite := fun r => MiscRam r.(bit_mask) r.(dpd_high) r.(loft_res).

Record bsp := Bsp {
  log : list event;
  chipid : chip;
  hwinfo : Z; hwinfo_r : Z; cpmode : Z; chip_rev : Z;
  firmware_list : list firmware;
  testmode : Z; adap_test : bool;
  chip_id : Z; chip_sub_id : Z; chip_mcu_id : Z;
  masked_8800dc : list (Z * Z * Z); masked_8800dc_h : list (Z * Z * Z);
  dpd_res : misc_ram_lite
}.
#[export] Instance eta_bsp : Settable bsp := fun s =>
    Bsp s.(log) s.(chipid) s.(hwinfo) s.(hwinfo_r) s.(cpmode) s.(chip_rev) s.(firmware_list) s.(testmode) s.(adap_test)
  s.(chip_id) s.(chip_sub_id) s.(chip_mcu_id) s.(masked_8800dc) s.(masked_8800dc_h) s.(dpd_res).

(** ** Computations *)

Definition M (A : Type) : Type := bsp -> res (A * bsp).
#[export] Instance M_ret : MRet M := fun A a s => Ok (a, s).
#[export] Instance M_bind : MBind M := fun A B f m s => '(a, s) ← m s; f a s.

Definition fault {A} : M A := fun _ => Fault.
Definition nofuel {A} : M A := fun _ => NoFuel.
Definition get : M bsp := fun s => Ok (s, s).
Definition gets {A} (f : bsp -> A) : M A := fun s => Ok (f s, s).
Definition modify (f : bsp -> bsp) : M unit := fun s => Ok (tt, f s).

(** [if (ret) return ret;], [if (ret) return -1;] and [if (ret) return;]. *)
Notation "'check' ret ; k" := (if (ret =? 0)%Z then k else mret ret%Z)
  (at level 20, ret at level 100, k at level 200, only parsing).
Notation "'try' m ; k" := (mbind (fun ret => if ret =? 0 then k else mret ret) m)
  (at level 20, m at level 100, k at level 200, only parsing).
Notation "'orfail' m ; k" := (mbind (fun ret => if ret =? 0 then k else mret (-1)) m)
  (at level 20, m at level 100, k at level 200, only parsing).
Notation "'orleave' m ; k" := (mbind (fun ret => if ret =? 0 then k else mret tt) m)
  (at level 20, m at level 100, k at level 200, only parsing).

Section Requests.
Context (c : card) (files : string -> option (list Z)) (stack : list event -> Z).

(** The variable the compiler left uninitialised. *)
Definition uninit : M Z := gets (fun s => stack (log s)).

(** rwnx_msg_zalloc and rwnx_send_msg; [old] is the content of the
    confirmation before the call. *)
Definition send (r : req) (old : Z) : M (Z * Z) := fun s =>
  let '(o, v) := c (log s) r in
  Ok ((ret_of o, match o with Done _ => default old v | _ => old end), s <| log ::= (.++ [(r, o)]) |>).

Definition rwnx_send_dbg_mem_read_req (mem_addr cfm : Z) : M (Z * Z) := send (MemRead mem_addr) cfm.

Definition rwnx_send_dbg_mem_write_req (mem_addr mem_data : Z) : M Z :=
  r ← send (MemWrite mem_addr mem_data) 0; mret r.1.

Definition rwnx_send_dbg_mem_mask_write_req (mem_addr mem_mask mem_data : Z) : M Z :=
  r ← send (MemMaskWrite mem_addr mem_mask mem_data) 0; mret r.1.

(** The message has room for 1024 bytes; [mem_data] is given as the bytes
    behind the pointer. *)
Definition rwnx_send_dbg_mem_block_write_req (mem_addr mem_size : Z) (mem_data : list Z) : M Z :=
  if (1024 <? mem_size) || (Z.of_nat (length mem_data) <? mem_size) then fault else
  r ← send (MemBlockWrite mem_addr (take (Z.to_nat mem_size) mem_data)) 0; mret r.1.

Definition rwnx_send_dbg_start_app_req (boot_addr boot_type cfm : Z) : M (Z * Z) := send (StartApp boot_addr boot_type) cfm.

(** ** Files *)

(** The size of the file is not positive, or it cannot be read: [None]. *)
Definition rwnx_load_firmware (name : string) : option (list Z) :=
  match files name with Some (_ :: _) as r => r | _ => None end.

(** The loop [for (i = 0; i < size - blk; i += blk)] and its error code. *)
Fixpoint write_blocks (fuel : nat) (blk fw_addr : Z) (dst : list Z) (i err : Z) : M (Z * Z) :=
  match fuel with
  | O => nofuel
  | S fuel =>
    if i <? Z.of_nat (length dst) - blk then
      err ← rwnx_send_dbg_mem_block_write_req (u32 (fw_addr + i)) blk (drop (Z.to_nat i) dst);
      if err =? 0 then write_blocks fuel blk fw_addr dst (i + blk) err else mret (err, i)
    else mret (err, i)
  end.

(** An image in blocks of [blk] bytes. *)
Definition write_image (blk fw_addr : Z) (dst : list Z) : M Z :=
  let size := Z.of_nat (length dst) in
  '(err, i) ← (if blk <? size then write_blocks (length dst) blk fw_addr dst 0 0 else mret (0, 0));
  if (err =? 0) && (i <? size) then
    rwnx_send_dbg_mem_block_write_req (u32 (fw_addr + i)) (size - i) (drop (Z.to_nat i) dst)
  else mret err.

Definition rwnx_plat_bin_fw_upload_android (fw_addr : Z) (filename : string) : M Z :=
  match rwnx_load_firmware filename with
  | None => mret (-1)
  | Some dst => write_image 1024 fw_addr dst
  end.

(** ** Tables of writes *)

Fixpoint write_tbl (tbl : list (Z * Z)) : M Z :=
  match tbl with
  | [] => mret 0
  | (a, v) :: tbl => try rwnx_send_dbg_mem_write_req a v; write_tbl tbl
  end.

(** The tables whose errors are only reported. *)
Fixpoint write_tbl_on (tbl : list (Z * Z)) : M unit :=
  match tbl with
  | [] => mret tt
  | (a, v) :: tbl => _ ← rwnx_send_dbg_mem_write_req a v; write_tbl_on tbl
  end.

Fixpoint mask_write_tbl (tbl : list (Z * Z * Z)) : M Z :=
  match tbl with
  | [] => mret 0
  | (a, m, v) :: tbl => try rwnx_send_dbg_mem_mask_write_req a m v; mask_write_tbl tbl
  end.

(** A table of offsets and values becomes pairs of words at [start_addr],
    beginning with pair number [cnt]. *)
Fixpoint write_pairs (start_addr config_base cnt : Z) (tbl : list (Z * Z)) : M Z :=
  match tbl with
  | [] => mret 0
  | (o, v) :: tbl =>
    try rwnx_send_dbg_mem_write_req (u32 (start_addr + 8 * cnt)) (u32 (o + config_base));
    try rwnx_send_dbg_mem_write_req (u32 (start_addr + 8 * cnt + 4)) v;
    write_pairs start_addr config_base (cnt + 1) tbl
  end.

Fixpoint write_pairs_on (start_addr config_base cnt : Z) (tbl : list (Z * Z)) : M unit :=
  match tbl with
  | [] => mret tt
  | (o, v) :: tbl =>
    _ ← rwnx_send_dbg_mem_write_req (u32 (start_addr + 8 * cnt)) (u32 (o + config_base));
    _ ← rwnx_send_dbg_mem_write_req (u32 (start_addr + 8 * cnt + 4)) v;
    write_pairs_on start_addr config_base (cnt + 1) tbl
  end.

(** [n] words from [base] on; [put] stores the word with number [i]. *)
Fixpoint read_words (put : nat -> Z -> bsp -> bsp) (base : Z) (n i : nat) (cfm : Z) : M (Z * Z) :=
  match n with
  | O => mret (0, cfm)
  | S n =>
    '(ret, cfm) ← rwnx_send_dbg_mem_read_req (u32 (base + Z.of_nat i * 4)) cfm;
    if ret =? 0 then _ ← modify (put i cfm); read_words put base n (S i) cfm else mret (ret, cfm)
  end.

(** The firmware of the current mode; the list has two entries. *)
Definition current_firmware : M firmware :=
  s ← get; match firmware_list s !! Z.to_nat (cpmode s) with Some f => mret f | None => fault end.

End Requests.

End Bsp.
