(* ===== verification/BspBt.v ===== *)
(** * Bringing a chip up: the Bluetooth part (aic_bsp_driver.c)

    The patch table is a file: a tag of 16 bytes, then entries of a name (16
    bytes), a type, a length (32 bits each) and that many pairs of words.
    [aicbt_patch_table_alloc] turns it into a list of entries; reading past the
    end of the file is a [Fault].  The allocations, whose results the code does
    not test, succeed.  [aicbt_patch_trap_data_load] finds out where two images
    belong and loads them, [aicbt_patch_table_load] writes the pairs of the
    entries.

    An entry whose length is a multiple of 2^29 or more has data that do not
    come from the file: the size of the copy is computed in 32 bits, the size
    of the buffer in 64. *)

From S2P Require Import Prelude Bsp.
From Stdlib Require Import String Ascii.
From stdpp Require Import list.
Import Bsp.
Open Scope Z_scope.
Open Scope list_scope.

Module BspBt.

Definition CHIP_REV_U01 : Z := 1.
Definition CHIP_REV_U02 : Z := 3.
Definition CHIP_REV_U03 : Z := 7.
Definition CHIP_REV_U04 : Z := 7.

(** ** The file *)

Definition AICBT_PT_INF : Z := 0.
Definition AICBT_PT_BTMODE : Z := 3.
Definition AICBT_PT_PWRON : Z := 4.
Definition AICBT_PT_VER : Z := 6.

(** The tag with the zero that ends it. *)
Definition AICBT_PT_TAG : list Z := [65; 73; 67; 66; 84; 95; 80; 84; 95; 84; 65; 71; 0].

(** [data] is [] where the pointer is NULL. *)
Record aicbt_patch_table := PatchTable { pt_name : list Z; pt_type : Z; pt_len : Z; pt_data : list Z }.

Definition le32 (l : list Z) : Z :=
  match l with a :: b :: c :: d :: _ => a + 2 ^ 8 * b + 2 ^ 16 * c + 2 ^ 24 * d | _ => 0 end.

(** [n] words at the start of a buffer. *)
Fixpoint words (n : nat) (l : list Z) : list Z :=
  match n with O => [] | S n => le32 l :: words n (drop 4 l) end.

(** [memcpy] of [n] bytes from [p]; the bytes and what follows them. *)
Definition take_bytes (n : Z) (p : list Z) : res (list Z * list Z) :=
  if Z.of_nat (length p) <? n then Fault else Ok (take (Z.to_nat n) p, drop (Z.to_nat n) p).

(** The data of an entry: [8 * len] bytes of zeros, the first of them replaced
    by what is copied. *)
Definition entry_data (len : Z) (p : list Z) : res (list Z * list Z) :=
  '(b, p) ← take_bytes (u32 (len * 8)) p;
  Ok (words (length b / 4) b ++ replicate (2 * Z.to_nat len - length b / 4) 0, p).

Definition patch_entry (p : list Z) : res (aicbt_patch_table * list Z) :=
  '(name, p) ← take_bytes 16 p;
  '(type, p) ← take_bytes 4 p;
  '(len, p) ← take_bytes 4 p;
  let type := le32 type in
  let len := le32 len in
  if 1000 <=? type then Ok (PatchTable name type 0 [], p)
  else if 0 <? len then '(data, p) ← entry_data len p; Ok (PatchTable name type len data, p)
  else Ok (PatchTable name type len [], p).

(** The loop [while (p - rawdata < size)]; every entry has a header. *)
Fixpoint patch_entries (fuel : nat) (p : list Z) : res (list aicbt_patch_table) :=
  match fuel with
  | O => NoFuel
  | S fuel =>
    match p with
    | [] => Ok []
    | _ => '(e, p) ← patch_entry p; l ← patch_entries fuel p; Ok (e :: l)
    end
  end.

(** [None] for the error return. *)
Definition parse_patch_table (rawdata : list Z) : res (option (list aicbt_patch_table)) :=
  if (length rawdata <? length AICBT_PT_TAG)%nat then Fault
  else if negb (bool_decide (take (length AICBT_PT_TAG) rawdata = AICBT_PT_TAG)) then Ok None
  else l ← patch_entries (S (length rawdata)) (drop 16 rawdata); Ok (Some l).

Section Load.
Context (c : card) (files : string -> option (list Z)).

(** NULL is the empty list: a file of a tag alone gives NULL too. *)
Definition aicbt_patch_table_alloc (filename : string) : res (list aicbt_patch_table) :=
  match rwnx_load_firmware files filename with
  | None => Ok []
  | Some rawdata => r ← parse_patch_table rawdata; Ok (default [] r)
  end.

(** ** The images *)

(** aicbt_patch_info_t. *)
Record patch_info_t := PatchInfo {
  info_len : Z; adid_addrinf : Z; addr_adid : Z; patch_addrinf : Z; addr_patch : Z;
  reset_addr : Z; reset_val : Z; adid_flag_addr : Z; adid_flag : Z
}.
#[local] Instance eta_info : Settable patch_info_t := fun p =>
    PatchInfo p.(info_len) p.(adid_addrinf) p.(addr_adid) p.(patch_addrinf) p.(addr_patch) p.(reset_addr) p.(reset_val)
  p.(adid_flag_addr) p.(adid_flag).

(** The eight words after [info_len]. *)
Definition info_words (p : patch_info_t) : list Z :=
  [adid_addrinf p; addr_adid p; patch_addrinf p; addr_patch p; reset_addr p; reset_val p; adid_flag_addr p; adid_flag p].

Definition info_of (len : Z) (l : list Z) : res patch_info_t :=
  match l with
  | [a; b; c; d; e; f; g; h] => Ok (PatchInfo len a b c d e f g h)
  | _ => Fault
  end.

(** The copy of the pairs of the first entry over those words. *)
Definition aicbt_patch_info_unpack (p : patch_info_t) (head : aicbt_patch_table) : res patch_info_t :=
  if AICBT_PT_INF =? pt_type head then
    if pt_len head =? 0 then Ok (p <| info_len := 0 |>)
    else l ← splice (info_words p) 0 (pt_data head); info_of (pt_len head) l
  else Ok p.

Definition unpack (p : patch_info_t) (head : aicbt_patch_table) : M patch_info_t := fun s =>
  q ← aicbt_patch_info_unpack p head; Ok (q, s).

(** Both images at their addresses. *)
Definition load_images (p : patch_info_t) : M Z :=
  fw ← current_firmware;
  orfail rwnx_plat_bin_fw_upload_android c files (addr_adid p) (bt_adid fw);
  orfail rwnx_plat_bin_fw_upload_android c files (addr_patch p) (bt_patch fw);
  mret 0.

Definition aicbt_patch_trap_data_load (head : list aicbt_patch_table) : M Z :=
  let patch_info := PatchInfo 0 0 0 0 0 0 0 0 0 in
  match head with
  | [] => mret (-1)
  | h :: _ =>
    s ← get;
    match chipid s with
    | AIC8801 => load_images (patch_info <| addr_adid := 0x00161928 |> <| addr_patch := 0x00100000 |>)
    | AIC8800DC =>
      let p := if chip_rev s =? CHIP_REV_U01 then patch_info <| addr_adid := 0x00101788 |>
               else if chip_rev s =? CHIP_REV_U02 then patch_info <| addr_adid := 0x001017d8 |> else patch_info in
      p ← unpack (p <| addr_patch := 0x00184000 |>) h;
      if reset_addr p =? 0 then
        orfail rwnx_send_dbg_mem_write_req c 0x40500128 0x40;
        orfail rwnx_send_dbg_mem_write_req c 0x40500150 0x01;
        load_images p
      else load_images p
    | AIC8800D80 =>
      let p := if chip_rev s =? CHIP_REV_U01 then patch_info <| addr_adid := 0x002017E0 |> <| addr_patch := 0x0020B2B0 |>
               else if (chip_rev s =? CHIP_REV_U02) || (chip_rev s =? CHIP_REV_U03)
                    then patch_info <| addr_adid := 0x00201940 |> <| addr_patch := 0x0020b43c |> else patch_info in
      p ← unpack p h;
      if info_len p =? 0 then mret (-1) else load_images p
    | AIC8800D80X2 | AIC8800D80N | AIC8800D80WN =>
      p ← unpack patch_info h;
      if info_len p =? 0 then mret (-1) else load_images p
    | AIC8800DW => load_images patch_info
    end
  end.

(** ** The table *)

Record aicbt_info_t := BtInfo { btmode : Z; btport : Z; uart_baud : Z; uart_flowctrl : Z; lpm_enable : Z; txpwr_lvl : Z }.

Definition aicbt_info (i : chip) : aicbt_info_t :=
  match i with
  | AIC8801 => BtInfo 0 2 1500000 1 0 0x00006020
  | AIC8800DC | AIC8800DW => BtInfo 1 2 1500000 1 0 0x00006f2f
  | AIC8800D80 | AIC8800D80N | AIC8800D80WN | AIC8800D80X2 => BtInfo 5 2 1500000 1 0 0x00006f2f
  end.

(** The stores [*(data + 1) = ...] to [*(data + 17) = ...]. *)
Definition btmode_stores (s : bsp) : list (nat * Z) :=
  let i := aicbt_info (chipid s) in
  [(1%nat, if hwinfo s <? 0 then 1 else 0); (3%nat, u32 (hwinfo s));
   (5%nat, if bool_decide (chipid s = AIC8800DC) then cpmode s else 0);
   (7%nat, btmode i); (9%nat, btport i); (11%nat, uart_baud i); (13%nat, uart_flowctrl i);
   (15%nat, lpm_enable i); (17%nat, txpwr_lvl i)].

Fixpoint stores (l : list (nat * Z)) (data : list Z) : res (list Z) :=
  match l with
  | [] => Ok data
  | (i, v) :: l => if (i <? length data)%nat then stores l (<[i := v]> data) else Fault
  end.

(** The pairs of words of an entry. *)
Fixpoint pairs_of (data : list Z) : list (Z * Z) :=
  match data with a :: v :: data => (a, v) :: pairs_of data | _ => [] end.

(** What printk prints for "%s": it stops at a zero byte. *)
Definition has_zero_byte (w : Z) : bool :=
  (w mod 2 ^ 8 =? 0) || (w / 2 ^ 8 mod 2 ^ 8 =? 0) || (w / 2 ^ 16 mod 2 ^ 8 =? 0) || (w / 2 ^ 24 mod 2 ^ 8 =? 0).

Definition printable (data : list Z) : bool := match data with [] => true | _ => existsb has_zero_byte data end.

Definition patch_data (s : bsp) (p : aicbt_patch_table) : res (list Z) :=
  if AICBT_PT_BTMODE =? pt_type p then stores (btmode_stores s) (pt_data p) else Ok (pt_data p).

Fixpoint aicbt_patch_table_load (l : list aicbt_patch_table) : M Z :=
  match l with
  | [] => mret 0
  | p :: l =>
    data ← (fun s => d ← patch_data s p; Ok (d, s));
    if AICBT_PT_VER =? pt_type p then if printable data then aicbt_patch_table_load l else fault
    else try write_tbl c (pairs_of data); aicbt_patch_table_load l
  end.

Definition aicbt_init : M Z :=
  fw ← current_firmware;
  head ← (fun s => l ← aicbt_patch_table_alloc (bt_table fw); Ok (l, s));
  match head with
  | [] => mret (-1)
  | _ =>
    orfail aicbt_patch_trap_data_load head;
    orfail aicbt_patch_table_load head;
    mret 0
  end.

End Load.

End BspBt.
