(* ===== verification/BspTab.v ===== *)
(** * Constant tables of the DC chips (aic8800dc_compat.c)

    The tables the bring-up of the AIC8800DC and DW writes into the chip, with
    the options of the Makefile (VRF_DCDC_MODE, SDIO_PWRCTRL; no FPGA, IPCOM or
    out-of-band interrupt variants). *)

From Stdlib Require Import ZArith List.
Import ListNotations.
Open Scope Z_scope.

Module BspTab.

Definition syscfg_tbl_8800dc : list (Z * Z) := [
  (0x40500010, 0x00000004); (0x40500010, 0x00000006)].

Definition syscfg_tbl_8800dc_sdio_u01 : list (Z * Z) := [
  (0x40030000, 0x00036724); (0x0011e800, 0xe7fe4070); (0x40030084, 0x0011e800); (0x40030080, 0x00000001);
  (0x4010001c, 0x00000000)].

Definition syscfg_tbl_8800dc_sdio_u02 : list (Z * Z) := [
  (0x40030000, 0x00036da4); (0x0011e800, 0xe7fe4070); (0x40030084, 0x0011e800); (0x40030080, 0x00000001);
  (0x4010001c, 0x00000000)].

Definition syscfg_tbl_masked_8800dc : list (Z * Z * Z) := [
  (0x7000216c, 0x0000000c, 0x00000004); (0x700021bc, 0x0000000c, 0x00000004);
  (0x70002118, 0x000000f0, 0x000000a0); (0x70002104, 0x0000007f, 0x00000042);
  (0x7000210c, 0x0000007f, 0x00000042); (0x70002170, 0x0000000f, 0x00000001);
  (0x70002190, 0x0000003f, 0x00000018); (0x700021cc, 0x000000f0, 0x00000000);
  (0x700010a0, 0x00000800, 0x00000800); (0x70001034, 0x1c100000, 0x08000000);
  (0x70001038, 0x00000100, 0x00000100); (0x70001094, 0x0000000c, 0x00000000);
  (0x700021d0, 0x00000060, 0x00000060); (0x70001000, 0x00500001, 0x00100001);
  (0x70001028, 0x0000003c, 0x00000004); (0x00000000, 0x00000000, 0x00000000)].

Definition syscfg_tbl_masked_8800dc_h : list (Z * Z * Z) := [
  (0x7000216c, 0x0000003c, 0x00000028); (0x70002138, 0x000000ff, 0x000000ff);
  (0x7000213c, 0x000000ff, 0x000000ff); (0x70002144, 0x000000ff, 0x000000ff);
  (0x700021bc, 0x0000000c, 0x00000004); (0x70002118, 0x000000f0, 0x000000a0);
  (0x70002104, 0x0000007f, 0x00000042); (0x7000210c, 0x0000007f, 0x00000042);
  (0x70002170, 0x0000000f, 0x00000001); (0x70002190, 0x0000003f, 0x00000018);
  (0x700021cc, 0x000000f0, 0x00000000); (0x700010a0, 0x00000800, 0x00000800);
  (0x70001038, 0x00000100, 0x00000100); (0x70001094, 0x0000000c, 0x00000000);
  (0x700021d0, 0x00000060, 0x00000060); (0x70001000, 0x00500001, 0x00100001);
  (0x70001028, 0x0000003c, 0x00000004); (0x00000000, 0x00000000, 0x00000000)].

Definition syscfg_tbl_masked_8800dc_u01 : list (Z * Z * Z) := [
  (0x70001000, 0x00010000, 0x00010000); (0x70001028, 0x00000040, 0x00000040);
  (0x70001000, 0x00010000, 0x00000000)].

Definition patch_tbl_wifisetting_8800dc_u01 : list (Z * Z) := [
  (0x0000010c, 0x01001e01)].

Definition patch_tbl_wifisetting_8800dc_u02 : list (Z * Z) := [
  (0x00000124, 0x01011e01)].

Definition jump_tbl : list (Z * Z) := [
  (0x00000128, 0x00180001); (0x00000089, 0x00180011); (0x0000012f, 0x001810f9); (0x000000a8, 0x0018186d);
  (0x00000134, 0x00181bbd); (0x00000120, 0x001820c1)].

Definition patch_tbl_func : list (Z * Z) := [
  (0x00110054, 0x0018186d); (0x0011005c, 0x0018186d)].

Definition patch_tbl_rf_func : list (Z * Z) := [
  (0x00110bf0, 0x00180001)].

Definition ldpc_cfg_ram : list Z := [
  0x00767679; 0x1df8f870; 0x1df8f870; 0x1df8f870; 0x1df8f870; 0x006e6e72; 0x1df8f869; 0x1df8f869; 0x1df8f869;
  0x1df8f869; 0x0076767b; 0x1df8f870; 0x1df8f870; 0x1df8f870; 0x1df8f870; 0x007e7e85; 0x1df4f876; 0x1df4f876;
  0x1df4f876; 0x1df8f876; 0x0081818a; 0x1df8f87b; 0x1df8f87b; 0x1df8f87b; 0x1df8f87b; 0x0081818d; 0x1df8f87b;
  0x1df8f87b; 0x1df8f87b; 0x1df8f87b; 0x0081818a; 0x1df8f87b; 0x1df8f87c; 0x1df8f87b; 0x1df8f87b; 0x007e7e40;
  0x1df8f87b; 0x1df8f87b; 0x1df8f87b; 0x1df8f87b; 0x008b8b92; 0x1df8f887; 0x1df8f889; 0x1df8f887; 0x1df8f887;
  0x00515155; 0x1df8f84c; 0x1df8f84c; 0x1df8f889; 0x1df8f889; 0x00515154; 0x1df8f84c; 0x1df8f84c; 0x1df8f888;
  0x1df8f888; 0x004f4f53; 0x1df8f84a; 0x1df8f84a; 0x1df8f84a; 0x1df8f84a; 0x004f4f53; 0x1df8f84a; 0x1df8f84a;
  0x1df8f84a; 0x1df8f84a; 0x004f4f53; 0x1df8f84a; 0x1df8f84a; 0x1df8f84a; 0x1df8f84a; 0x004e4e53; 0x1df8f849;
  0x1df8f848; 0x1df8f848; 0x1df8f848; 0x004d4d52; 0x1df8f847; 0x1df8f847; 0x1df8f847; 0x1df8f847; 0x004f4f55;
  0x1df8f84b; 0x1df8f84a; 0x1df8f84a; 0x1df8f84a; 0x004e4e53; 0x1df8f849; 0x1df8f848; 0x1df8f848; 0x1df8f848;
  0x0049494d; 0x1df8f844; 0x1df8f844; 0x1df8f844; 0x1df8f844; 0x0051518f; 0x1df8f849; 0x1df8f848; 0x1df8f848;
  0x1df8f848; 0x00424277; 0x1df8f83f; 0x1df8f83c; 0x1df8f83c; 0x1df8f83c; 0x00424275; 0x1df8f89e; 0x1df8f83c;
  0x1df8f83c; 0x1df8f83c; 0x0055555c; 0x1df8f84c; 0x1df8f84c; 0x1df8f84c; 0x1df8f84c; 0x0053535c; 0x1df8f84c;
  0x1df8f84b; 0x1df8f84b; 0x1df8f84b; 0x00f8f89e; 0x1df8f88c; 0x1df8f84a; 0x1df8f84a; 0x1df8f84a; 0x00898940;
  0x18f8f846; 0x18cff845; 0x18cff844; 0x18cff844; 0x0056565f; 0x1df8f84f; 0x1df8f84f; 0x1df8f84f; 0x1df8f84f;
  0x0055555e; 0x1df8f84e; 0x1df8f84e; 0x1df8f84e; 0x1df8f84e; 0x0056565f; 0x1df8f84f; 0x1df8f84f; 0x1df8f84f;
  0x1df8f84f; 0x00555561; 0x1df8f850; 0x1df8f84e; 0x1df8f84e; 0x1df8f84e; 0x0053535f; 0x1df8f84d; 0x1df8f84c;
  0x1df8f84c; 0x1df8f84c; 0x0055555f; 0x1df8f84f; 0x1df8f84e; 0x1df8f84e; 0x1df8f84e; 0x005555aa; 0x1df8f854;
  0x1df8f84e; 0x1df8f84e; 0x1df8f84e; 0x005959a6; 0x1df8f84d; 0x1df8f84c; 0x1df8f84c; 0x1df8f84c; 0x004f4f9b;
  0x1df8f84e; 0x1df8f846; 0x1df8f846; 0x1df8f846; 0x00f8f8a5; 0x1df8f894; 0x1df8f84c; 0x1df8f84c; 0x1df8f84c;
  0x009898a4; 0x1df8f84d; 0x1df8f84c; 0x1df8f84c; 0x1df8f84c; 0x00464686; 0x1df8f8b3; 0x1df8f83d; 0x1df8f83d;
  0x1df8f83d; 0x008e8e40; 0x1af8f848; 0x1adff848; 0x1adff846; 0x1adff846; 0x007f7f40; 0x18d2d275; 0x18d2d23a;
  0x18d2d23a; 0x18d2d239; 0x00454540; 0x0f868664; 0x0f86863e; 0x0f86863d; 0x0f86863d; 0x005c5c64; 0x1df8f856;
  0x1df8f855; 0x1df8f855; 0x1df8f855; 0x005b5b68; 0x1df8f858; 0x1df8f855; 0x1df8f855; 0x1df8f855; 0x005a5a64;
  0x1df8f855; 0x1df8f854; 0x1df8f854; 0x1df8f854; 0x005a5ab5; 0x1df8f85b; 0x1df8f855; 0x1df8f854; 0x1df8f854;
  0x00f8f8b0; 0x1df8f8a3; 0x1df8f852; 0x1df8f852; 0x1df8f852; 0x00a4a4ae; 0x1df8f854; 0x1df8f852; 0x1df8f852;
  0x1df8f852; 0x009a9a40; 0x1df8f84e; 0x1df8f84d; 0x1df8f84c; 0x1df8f84c; 0x009c9c40; 0x1df8f895; 0x1df8f849;
  0x1df8f84a; 0x1df8f84a; 0x00494940; 0x1197976f; 0x11979742; 0x11979741; 0x11979741; 0x006e6e74; 0x1df8f869;
  0x1df8f869; 0x1df8f869; 0x1df8f869; 0x006e6e40; 0x1adef869; 0x1adef869; 0x1adef869; 0x1adef869; 0x00757540;
  0x0d78f86e; 0x0d78f86e; 0x0d78f86e; 0x0d79f86e; 0x00787885; 0x1df8f873; 0x1df8f873; 0x1df8f873; 0x1df8f873;
  0x00787840; 0x1df8f873; 0x1df8f873; 0x1df8f873; 0x1df8f873; 0x00787840; 0x0e81f873; 0x0e81f873; 0x0e81f873;
  0x0e82f873; 0x00404040; 0x0e82f873; 0x0e82f873; 0x0e82f873; 0x0e82f873; 0x00818140; 0x1092f87e; 0x1092f87e;
  0x1092f87e; 0x1092f87e; 0x00404040; 0x1092f87e; 0x1092f87e; 0x1092f87e; 0x1092f87e; 0x00737340; 0x14b2b26b;
  0x14b2b235; 0x14b2b235; 0x14b2b235; 0x00404040; 0x0e828260; 0x0e82823d; 0x0e82823c; 0x0e82823c; 0x00404040;
  0x0f8b8b66; 0x0f8b8b3f; 0x0f8b8b3d; 0x0f8b8b3d; 0x00404040; 0x0b68683d; 0x0b68681e; 0x0b68681e; 0x0b68681e;
  0x00222240; 0x06434318; 0x06434329; 0x06434318; 0x06434318; 0x00404040; 0x129d9d72; 0x129d9d43; 0x129d9d41;
  0x129d9d41; 0x00404040; 0x0d757542; 0x0d757520; 0x0d757520; 0x0d757520; 0x00232340; 0x084c4c19; 0x084c4c2c;
  0x084c4c19; 0x084c4c19].

Definition agc_cfg_ram : list Z := [
  0x20000000; 0x0400000e; 0x3000200e; 0x5b000000; 0x0400004b; 0x3000008e; 0x32000000; 0x0400007b; 0x40000000;
  0xf8000026; 0x04000011; 0x4819008e; 0x9c000020; 0x08000191; 0x38008000; 0x0a000000; 0x08104411; 0x38018000;
  0x0c004641; 0x08d00014; 0x30000000; 0x01000000; 0x04000017; 0x30000000; 0x3c000000; 0x0400001a; 0x38020000;
  0x40000001; 0x0800001d; 0x3808008e; 0x14000050; 0x08000020; 0x4000008e; 0xa400007b; 0x00000101; 0x3000339f;
  0x41000700; 0x04104420; 0x90000000; 0x49000000; 0xf00e842f; 0xec0e842c; 0xec0e842c; 0x04000032; 0x30000000;
  0x48000101; 0x04000032; 0x30000000; 0x48000202; 0x04000032; 0x30000000; 0x46000000; 0x04000011; 0x58010006;
  0x3d040472; 0xdc204439; 0x081dd4d2; 0x480a0006; 0xdc2044dc; 0x081dd43c; 0x38050004; 0x0ef1f1c3; 0x342044dc;
  0x30000000; 0x01000000; 0x04000042; 0x30000000; 0x33000000; 0x04104445; 0x38008000; 0x2200109c; 0x08104448;
  0x38008000; 0x23d4509c; 0x08104417; 0x9000a000; 0x32000000; 0x18000063; 0x14000060; 0x1c000051; 0x10000057;
  0x38028000; 0x0c000001; 0x08d04466; 0x3000200f; 0x00000000; 0x00000000; 0x38030000; 0x0c002601; 0x08d0445a;
  0x30000000; 0x3d020230; 0x0400005d; 0x30000000; 0x3e000100; 0x04000066; 0x38028000; 0x0c001601; 0x34204466;
  0x38028000; 0x0c000a01; 0x34204466; 0x38008004; 0xff000000; 0x0800007b; 0x3800802f; 0x26000000; 0x0800006c;
  0x380404af; 0x1f191010; 0x0800006f; 0x20000caf; 0x04000071; 0x60000caf; 0x18700079; 0x14000077; 0x10000075;
  0x28140caf; 0x09b00084; 0x280a0caf; 0x09b00084; 0x28060caf; 0x09b00084; 0x28048086; 0x0800007d; 0x38000086;
  0x22800000; 0x04000080; 0x30000000; 0x0ef1f101; 0x36004883; 0x28020000; 0x08000085; 0x3802008e; 0x3d040431;
  0x08000088; 0x3805008e; 0x1f241821; 0x0800008b; 0x3000008e; 0xa0163021; 0x0400008e; 0x3000008e; 0x0ef10012;
  0x34000091; 0x300000cc; 0x50000000; 0x04000094; 0x380095fe; 0x32010000; 0x04000097; 0x50001ffe; 0x5a010000;
  0x6dc9989b; 0xfc19d4b9; 0x30000186; 0x3d840373; 0x0400009e; 0x3000008e; 0x0a000000; 0x040000a1; 0x3000008e;
  0x22c00000; 0x040000a4; 0x9000028e; 0x32010001; 0x8e4000aa; 0xc80000b0; 0x00000000; 0x00000000; 0x3000008e;
  0x32010001; 0x040000cb; 0x3000008e; 0x29000000; 0x94045011; 0x300019b6; 0x32010000; 0x040000b3; 0x300019b6;
  0x3d040431; 0x040000b6; 0x300019b6; 0x22800000; 0x04000097; 0x30000186; 0x3d840473; 0x040000bc; 0x3000008e;
  0x29030000; 0x040000bf; 0x9aee028e; 0x32010100; 0x7c0000c5; 0xcc0000b0; 0x080000b0; 0x00000000; 0x3000008e;
  0x32010100; 0x040000c8; 0x3000028e; 0x29000000; 0x94045011; 0x5000038e; 0x29000000; 0x94045011; 0xc0000035;
  0x38010006; 0x3d040472; 0x080000d2; 0x30000004; 0x0ef1f141; 0x340000d5; 0x28040004; 0x080000d7; 0x2808000e;
  0x080000d9; 0x3000018e; 0x0ef10052; 0x340000dc; 0x3000038e; 0x29000000; 0x94045011; 0x38020000; 0x32000000;
  0x080000e2; 0x60000000; 0xd80000e6; 0xd40000e9; 0x040000ec; 0x30000000; 0x0ef1f121; 0x360048ef; 0x30000000;
  0x0c002421; 0x360048ef; 0x30000000; 0x0c000021; 0x360048ef; 0x28020000; 0x0800007b; 0x50001efe; 0x5a010000;
  0x6dc998f5; 0xfc19d4f8; 0x3000028e; 0x32000040; 0x040000fb; 0x3aee028e; 0x32000080; 0x040000fb; 0x30000000;
  0x0ef1f101; 0x360048fe; 0x28020000; 0x08000100; 0x3802008e; 0x3d040431; 0x08000103; 0x3805008e; 0x1f241821;
  0x08000106; 0x3000008e; 0xa0163021; 0x04000109; 0x3000008e; 0x0ef10012; 0x3400010c; 0x300014f6; 0x32010000;
  0x04000114; 0x20000000; 0x04000111; 0x300000ec; 0x50000000; 0x040000f1; 0x300014f6; 0x32030000; 0x04000117;
  0x30001086; 0x3d840473; 0x0400011a; 0x5000108e; 0x22c00000; 0x8e47c0cb; 0xcb30011e; 0x300019b6; 0x32040000;
  0x04000121; 0x300019b6; 0x3d040431; 0x04000124; 0x300019b6; 0x22800000; 0x04000111; 0x00000000; 0x00000000;
  0x00000000; 0x30000186; 0x3d840473; 0x0400012d; 0x5000038e; 0x29000000; 0x94045011; 0xc0000131; 0x380c800e;
  0xff000000; 0x08000134; 0x30000004; 0x0ff1f103; 0x34000137; 0x28020000; 0x08000139; 0x3000038e; 0x29000000;
  0x94045011; 0x00000000; 0x00000000; 0x00000000; 0x58010006; 0x3d040472; 0xdc204543; 0x081dd4d2; 0x480a0006;
  0xdc2044dc; 0x081dd546; 0x38050004; 0x0ef1f141; 0x342044dc; 0x2802800e; 0x080000dc; 0x48000035; 0x0400014a;
  0x7896638f; 0x4100000f; 0x8c00014f; 0x080450c4; 0x90104574; 0x88c8620f; 0xc000015a; 0x90104574; 0x08104554;
  0x94104557; 0x3000628f; 0x29000000; 0x9404517a; 0x3000638f; 0x29000000; 0x0410457a; 0x3800e005; 0x3d010131;
  0x0810455d; 0xa832600f; 0x90104574; 0x08000154; 0x94104557; 0xc6104567; 0xc4185563; 0x5802e00f; 0x0feeea07;
  0x80000174; 0x3420456b; 0x5802e00f; 0x0eeeea07; 0x80000174; 0x3420456b; 0x30004000; 0x33000001; 0x0400016e;
  0x38034005; 0x3d030373; 0x08000171; 0x30006007; 0x33000000; 0x04000174; 0x3000608f; 0x29000000; 0x94045177;
  0x4000608f; 0xa010457d; 0x0410457a; 0x3000608f; 0x64000101; 0x04104411; 0x3000608f; 0x64000101; 0x04104580;
  0x3000618f; 0x42000001; 0x04000183; 0x38028000; 0x32000000; 0x08104586; 0x280a618f; 0x08000188; 0x480a618f;
  0xbc00018b; 0x0800018e; 0x3000618f; 0x34000001; 0x04000005; 0x3000618f; 0x34000000; 0x04000008; 0x3000008f;
  0x0eeaed0f; 0x36000194; 0x38038000; 0x34000000; 0x08000197; 0x38028005; 0x29010002; 0x0800019a; 0x3000028f;
  0x2200209c; 0x0400019d; 0x3000028f; 0x23d4509c; 0x040001a0; 0x2814028f; 0x080001a2; 0x3000028f; 0x43010201;
  0x040001a5; 0x3000128f; 0x32000100; 0x040001a8; 0x5aee138f; 0x4100000f; 0x7c0001ac; 0x080000f9; 0x592c138f;
  0x29000000; 0x8c0001b0; 0x080000f9; 0x2000138f; 0x94045011; 0x00000000; 0x00000000; 0x00000000; 0x00000000;
  0x00000000; 0x00000000; 0x00000000; 0x00000000; 0x00000000; 0x00000000; 0x00000000; 0x00000000; 0x00000000;
  0x00000000; 0x00000000; 0x00000000; 0x00000000; 0x00000000; 0x00000000; 0x00000000; 0x00000000; 0x00000000;
  0x00000000; 0x00000000; 0x00000000; 0x00000000; 0x00000000; 0x00000000; 0x00000000; 0x00000000; 0x00000000;
  0x00000000; 0x00000000; 0x00000000; 0x00000000; 0x00000000; 0x00000000; 0x00000000; 0x00000000; 0x00000000;
  0x00000000; 0x00000000; 0x00000000; 0x00000000; 0x00000000; 0x00000000; 0x00000000; 0x00000000; 0x00000000;
  0x00000000; 0x00000000; 0x00000000; 0x00000000; 0x00000000; 0x00000000; 0x00000000; 0x00000000; 0x00000000;
  0x00000000; 0x00000000; 0x00000000; 0x00000000; 0x00000000; 0x00000000; 0x00000000; 0x00000000; 0x00000000;
  0x00000000; 0x00000000; 0x00000000; 0x00000000; 0x00000000; 0x00000000; 0x00000000; 0x00000000].

Definition txgain_map : list Z := [
  0x00ffd780; 0x00ffd872; 0x00ffd880; 0x00ffd972; 0x00ffd980; 0x00ffda75; 0x00ffda86; 0x00ffdb77; 0x00ffdb86;
  0x00ffdc78; 0x00ffdc89; 0x00ffdd79; 0x00ffdd89; 0x00ffde83; 0x00ffdf79; 0x00ffdf8b; 0x00ffd072; 0x00ffd072;
  0x00ffd080; 0x00ffd172; 0x00ffd180; 0x00ffd272; 0x00ffd280; 0x00ffd36d; 0x00ffd379; 0x00ffd46d; 0x00ffd479;
  0x00ffd572; 0x00ffd580; 0x00ffd672; 0x00ffd680; 0x00ffd772; 0x00ffc87d; 0x00ffc88b; 0x00ffc979; 0x00ffc989;
  0x00ffca7d; 0x00ffca88; 0x00ffcc5e; 0x00ffcc69; 0x00ffcc78; 0x00ffcc85; 0x00ffcd70; 0x00ffcd80; 0x00ffce70;
  0x00ffce80; 0x00ffcf7d; 0x00ffcf90; 0x00ffc080; 0x00ffc090; 0x00ffc180; 0x00ffc190; 0x00ffc27b; 0x00ffc28b;
  0x00ffc37b; 0x00ffc390; 0x00ffc485; 0x00ffc495; 0x00ffc579; 0x00ffc589; 0x00ffc679; 0x00ffc689; 0x00ffc780;
  0x00ffc790; 0x00ffc87d; 0x00ffc88b; 0x00ffc979; 0x00ffc989; 0x00ffca7d; 0x00ffca88; 0x00ffcc5e; 0x00ffcc69;
  0x00ffcc78; 0x00ffcc85; 0x00ffcd70; 0x00ffcd80; 0x00ffcd90; 0x00ffce80; 0x00ffce93; 0x00ffcf90; 0x00ffc080;
  0x00ffc090; 0x00ffc180; 0x00ffc190; 0x00ffc27b; 0x00ffc28b; 0x00ffc37b; 0x00ffc390; 0x00ffc485; 0x00ffc495;
  0x00ffc579; 0x00ffc589; 0x00ffc679; 0x00ffc689; 0x00ffc780; 0x00ffc790].

Definition txgain_map_h : list Z := [
  0x00ffd888; 0x00ffd979; 0x00ffd988; 0x00ffda79; 0x00ffda88; 0x00ffdb79; 0x00ffdb88; 0x00ffdc72; 0x00ffdc80;
  0x00ffdd80; 0x00ffde66; 0x00ffde72; 0x00ffde80; 0x00ffdf79; 0x00ffdf88; 0x00ffdf98; 0x00ffd079; 0x00ffd088;
  0x00ffd179; 0x00ffd188; 0x00ffd288; 0x00ffd36c; 0x00ffd379; 0x00ffd388; 0x00ffd479; 0x00ffd488; 0x00ffd579;
  0x00ffd588; 0x00ffd679; 0x00ffd688; 0x00ffd779; 0x00ffd879; 0x00ffc879; 0x00ffc96b; 0x00ffc979; 0x00ffca6b;
  0x00ffca79; 0x00ffcc56; 0x00ffcc60; 0x00ffcc6b; 0x00ffcc79; 0x00ffcd72; 0x00ffce60; 0x00ffce72; 0x00ffcf72;
  0x00ffcf80; 0x00ffcf90; 0x00ffcf90; 0x00ffc079; 0x00ffc16b; 0x00ffc179; 0x00ffc26b; 0x00ffc279; 0x00ffc36b;
  0x00ffc379; 0x00ffc46b; 0x00ffc479; 0x00ffc56b; 0x00ffc579; 0x00ffc66b; 0x00ffc679; 0x00ffc76b; 0x00ffc779;
  0x00ffc86b; 0x00ffc879; 0x00ffc96b; 0x00ffc979; 0x00ffca6b; 0x00ffca79; 0x00ffcc56; 0x00ffcc60; 0x00ffcc6b;
  0x00ffcc79; 0x00ffcd72; 0x00ffce60; 0x00ffce72; 0x00ffcf72; 0x00ffcf80; 0x00ffcf90; 0x00ffcf90; 0x00ffc079;
  0x00ffc16b; 0x00ffc179; 0x00ffc26b; 0x00ffc279; 0x00ffc36b; 0x00ffc379; 0x00ffc46b; 0x00ffc479; 0x00ffc56b;
  0x00ffc579; 0x00ffc66b; 0x00ffc679; 0x00ffc76b; 0x00ffc779; 0x00ffc86b].

End BspTab.
