(* ===== verification/BspWifi.v ===== *)
(** * Bringing a chip up: the WLAN part and the whole
    (aic_bsp_driver.c, aic_bsp_main.c, aic8800dc_compat.c, aic8800d80_compat.c,
    aic8800d80n_compat.c, aic8800d80x2_compat.c)

    For each kind of chip: loading the firmware or the patch of the firmware in
    ROM, the settings written into the chip, and the start.
    [aicbsp_driver_fw_init] is the whole sequence.  [fuel] bounds the reads of
    the loop that waits for the initialisation of an 8800D80N. *)

From S2P Require Import Prelude Bsp BspBt BspTab.
From Stdlib Require Import String.
From stdpp Require Import list.
Import Bsp BspBt BspTab.
Open Scope Z_scope.
Open Scope list_scope.

Module BspWifi.

(** ** Constants *)

Definition RAM_FMAC_FW_ADDR : Z := 0x00120000.
Definition RAM_FMAC_FW_ADDR_D80X2 : Z := 0x00128000.
Definition RAM_LMAC_FW_ADDR : Z := 0x00150000.
Definition ROM_FMAC_PATCH_ADDR : Z := 0x00180000.
Definition ROM_FMAC_CALIB_ADDR : Z := 0x00130000.

Definition FW_NORMAL_MODE : Z := 0.
Definition FW_RFTEST_MODE : Z := 1.
Definition FW_DPDCALIB_MODE : Z := 4.

Definition HOST_START_APP_AUTO : Z := 1.
Definition HOST_START_APP_FNCALL : Z := 4.
Definition HOST_START_APP_DUMMY : Z := 5.

Local Open Scope string_scope.
Definition fw_u02 : list firmware := [
  Firmware "normal work mode(sdio u02)" "fw_adid.bin" "fw_patch.bin" "fw_patch_table.bin" "fmacfw.bin";
  Firmware "rf test mode(sdio u02)" "fw_adid.bin" "fw_patch.bin" "fw_patch_table.bin" "fmacfw_rf.bin"]%list.
Definition fw_u03 : list firmware := [
  Firmware "normal work mode(sdio u03/u04)" "fw_adid_u03.bin" "fw_patch_u03.bin" "fw_patch_table_u03.bin" "fmacfw.bin";
  Firmware "rf test mode(sdio u03/u04)" "fw_adid_u03.bin" "fw_patch_u03.bin" "fw_patch_table_u03.bin" "fmacfw_rf.bin"]%list.
Definition fw_8800dc_u01 : list firmware := [
  Firmware "normal work mode(sdio u01)" "fw_adid_8800dc.bin" "fw_patch_8800dc.bin" "fw_patch_table_8800dc.bin"
    "fmacfw_8800dc.bin";
  Firmware "rf test mode(sdio u01)" "fw_adid_8800dc.bin" "fw_patch_8800dc.bin" "fw_patch_table_8800dc.bin"
    "fmacfw_rf_8800dc.bin"]%list.
Definition fw_8800dc_u02 : list firmware := [
  Firmware "normal work mode(8800dc sdio u02)" "fw_adid_8800dc_u02.bin" "fw_patch_8800dc_u02.bin"
    "fw_patch_table_8800dc_u02.bin" "fmacfw_patch_8800dc_u02.bin";
  Firmware "rf test mode(8800dc sdio u02)" "fw_adid_8800dc_u02.bin" "fw_patch_8800dc_u02.bin"
    "fw_patch_table_8800dc_u02.bin" "lmacfw_rf_8800dc.bin"]%list.
Definition fw_8800dc_h_u02 : list firmware := [
  Firmware "normal work mode(8800dc_h sdio u02)" "fw_adid_8800dc_u02h.bin" "fw_patch_8800dc_u02h.bin"
    "fw_patch_table_8800dc_u02h.bin" "fmacfw_patch_8800dc_h_u02.bin";
  Firmware "rf test mode(8800dc_h sdio u02)" "fw_adid_8800dc_u02h.bin" "fw_patch_8800dc_u02h.bin"
    "fw_patch_table_8800dc_u02h.bin" "lmacfw_rf_8800dc.bin"]%list.
Definition fw_8800d80_u01 : list firmware := [
  Firmware "normal work mode(8800d80 sdio u01)" "fw_adid_8800d80.bin" "fw_patch_8800d80.bin"
    "fw_patch_table_8800d80.bin" "fmacfw_8800d80.bin";
  Firmware "rf test mode(8800d80 sdio u01)" "fw_adid_8800d80.bin" "fw_patch_8800d80.bin"
    "fw_patch_table_8800d80.bin" "lmacfw_rf_8800d80.bin"]%list.
Definition fw_8800d80_u02 : list firmware := [
  Firmware "normal work mode(8800d80 sdio u02)" "fw_adid_8800d80_u02.bin" "fw_patch_8800d80_u02.bin"
    "fw_patch_table_8800d80_u02.bin" "fmacfw_8800d80_u02.bin";
  Firmware "rf test mode(8800d80 sdio u02)" "fw_adid_8800d80_u02.bin" "fw_patch_8800d80_u02.bin"
    "fw_patch_table_8800d80_u02.bin" "lmacfw_rf_8800d80_u02.bin"]%list.
Definition fw_8800d80x2 : list firmware := [
  Firmware "normal work mode(8800d80x2 sdio)" "fw_adid_8800d80x2_u05.bin" "fw_patch_8800d80x2_u05.bin"
    "fw_patch_table_8800d80x2_u05.bin" "fmacfw_8800d80x2.bin";
  Firmware "rf test mode(8800d80x2 sdio)" "fw_adid_8800d80x2_u05.bin" "fw_patch_8800d80x2_u05.bin"
    "fw_patch_table_8800d80x2_u05.bin" "lmacfw_rf_8800d80x2.bin"]%list.
Definition fw_8800d80n_u02 : list firmware := [
  Firmware "normal work mode(8800d80n sdio u02)" "fw_adid_8800d80n_u02.bin" "fw_patch_8800d80n_u02.bin"
    "fw_patch_table_8800d80n_u02.bin" "fmacfw_8800d80.bin";
  Firmware "rf test mode(8800d80n sdio u02)" "fw_adid_8800d80n_u02.bin" "fw_patch_8800d80n_rf_u02.bin"
    "fw_patch_table_8800d80n_rf_u02.bin" "lmacfw_rf_8800d80n.bin"]%list.
Local Close Scope string_scope.

Local Open Scope string_scope.
Definition patch_name_8800dc (sub : Z) : option string :=
  if (sub =? 0)%Z then Some "fmacfw_patch_8800dc.bin"
  else if (sub =? 1)%Z then Some "fmacfw_patch_8800dc_u02.bin"
  else if (sub =? 2)%Z then Some "fmacfw_patch_8800dc_h_u02.bin" else None.
Definition calib_name_8800dc (sub : Z) : option string :=
  if (sub =? 1)%Z then Some "fmacfw_calib_8800dc_u02.bin"
  else if (sub =? 2)%Z then Some "fmacfw_calib_8800dc_h_u02.bin" else None.
Definition table_name_8800dc (sub : Z) : option string :=
  if (sub =? 1)%Z then Some "fmacfw_patch_tbl_8800dc_u02.bin"
  else if (sub =? 2)%Z then Some "fmacfw_patch_tbl_8800dc_h_u02.bin" else None.
Definition RF_NAME_8800DC : string := "lmacfw_rf_8800dc.bin".
Definition PATCH_NAME_8800D80N : string := "fmacfw_patch_8800d80n_u02.bin".
Definition PATCHTBL_NAME_8800D80N : string := "fmacfw_patch_tbl_8800d80n_u02.bin".
Definition CINIT_NAME_8800D80N : string := "fmacfw_cinit_8800d80n_u02.bin".
Definition CALIB_NAME_8800D80N : string := "fmacfw_calib_8800d80n_u02.bin".
Definition RF_NAME_8800D80N : string := "lmacfw_rf_8800d80n.bin".
Local Close Scope string_scope.

(** The state of the module when it is loaded, for a chip and the parameters
    testmode and adap_test. *)
Definition aicbsp_init (ch : chip) (mode : Z) (adap : bool) : bsp :=
  Bsp [] ch (-1) (-1) (u32 mode) 0 fw_u02 mode adap 0 0 0 syscfg_tbl_masked_8800dc syscfg_tbl_masked_8800dc_h
    (MiscRam (replicate 4 0) (replicate 96 0) (replicate 18 0)).

(** A word as the bytes of memory. *)
Definition bytes32 (w : Z) : list Z := [w mod 2 ^ 8; w / 2 ^ 8 mod 2 ^ 8; w / 2 ^ 16 mod 2 ^ 8; w / 2 ^ 24 mod 2 ^ 8].
Definition bytes_of (l : list Z) : list Z := l ≫= bytes32.

Section Init.
Context (c : card) (files : string -> option (list Z)) (stack : list event -> Z).

#[local] Abbreviation mem_read := (rwnx_send_dbg_mem_read_req c).
#[local] Abbreviation mem_write := (rwnx_send_dbg_mem_write_req c).
#[local] Abbreviation mem_mask_write := (rwnx_send_dbg_mem_mask_write_req c).
#[local] Abbreviation block_write := (rwnx_send_dbg_mem_block_write_req c).
#[local] Abbreviation start_app := (rwnx_send_dbg_start_app_req c).
#[local] Abbreviation upload := (rwnx_plat_bin_fw_upload_android c files).

(** ** AIC8801 *)

Definition aicbsp_syscfg_tbl : list (Z * Z) := [
  (0x40500014, 0x00000101); (0x40500018, 0x00000109); (0x40500004, 0x00000010);
  (0x40040000, 0x00001AC8); (0x40040084, 0x00011580); (0x40040080, 0x00000001); (0x40100058, 0x00000000);
  (0x50000000, 0x03220204); (0x50019150, 0x00000002); (0x50017008, 0x00000000)].

Definition aicbsp_system_config : M Z := write_tbl c aicbsp_syscfg_tbl.

Definition adaptivity_patch_tbl : list (Z * Z) := [(0x0004, 0x0000320A); (0x0094, 0x00000000); (0x00F8, 0x00010138)].
Definition patch_tbl : list (Z * Z) := [].
Definition syscfg_tbl_masked : list (Z * Z * Z) := [(0x40506024, 0x000000FF, 0x000000DF)].
Definition rf_tbl_masked : Z * Z * Z := (0x40344058, 0x00800000, 0x00000000).

Definition aicwifi_sys_config : M Z :=
  try mask_write_tbl c syscfg_tbl_masked;
  let '(a, m, v) := rf_tbl_masked in
  try mem_mask_write a m v; mret 0.

(** [sizeof(tbl) / 4]. *)
Definition word_count (tbl : list (Z * Z)) : Z := 2 * Z.of_nat (length tbl).

Definition aicwifi_patch_config : M Z :=
  s ← get;
  let start_addr := 0x1e6000 in
  let '(patch_addr_reg, patch_num_reg) := if cpmode s =? 1 then (0x1e5304, 0x1e5308) else (0x1e5318, 0x1e531c) in
  cfm ← uninit stack;
  '(ret, config_base) ← mem_read (RAM_FMAC_FW_ADDR + 0x0180) cfm;
  check ret;
  try mem_write patch_addr_reg start_addr;
  try mem_write patch_num_reg
    (if adap_test s then word_count patch_tbl + word_count adaptivity_patch_tbl else word_count patch_tbl);
  try write_pairs c start_addr config_base 0 patch_tbl;
  if adap_test s then
    _ ← write_pairs_on c start_addr config_base (Z.of_nat (length patch_tbl)) adaptivity_patch_tbl; mret 0
  else mret 0.

Definition aicwifi_start_from_bootrom : M Z :=
  s ← get;
  let fw_addr := if bool_decide (chipid s = AIC8800D80X2) && (testmode s =? 0) then RAM_FMAC_FW_ADDR_D80X2
                 else RAM_FMAC_FW_ADDR in
  cfm ← uninit stack;
  '(ret, bootstatus) ← start_app fw_addr HOST_START_APP_AUTO cfm;
  if ret =? 0 then _ ← modify (fun s => s <| hwinfo_r := Z.land bootstatus 255 |>); mret 0 else mret (-1).

(** ** AIC8800DC and AIC8800DW *)

Definition IS_CHIP_ID_H (s : bsp) : bool := Z.land (chip_id s) 0xC0 =? 0xC0.

(** The table that is selected; its entry for 0x70001000 is changed in place. *)
Definition msk_tbl (h : bool) (s : bsp) : list (Z * Z * Z) := if h then masked_8800dc_h s else masked_8800dc s.
Definition set_msk (h : bool) (i : nat) (e : Z * Z * Z) (s : bsp) : bsp :=
  if h then s <| masked_8800dc_h ::= <[i := e]> |> else s <| masked_8800dc ::= <[i := e]> |>.

Definition MSK_BITS : Z := Z.lor (Z.shiftl 1 8) (Z.shiftl 1 15).

(** Entry [cnt] of the table, after the change the code makes for chips
    without an MCU; [None] behind the table. *)
Definition msk_entry (h : bool) (cnt : nat) : M (option (Z * Z * Z)) :=
  s ← get;
  match msk_tbl h s !! cnt with
  | Some (a, m, v) =>
    if (a =? 0x70001000) && (chip_mcu_id s =? 0) then
      let e := (a, Z.lor m MSK_BITS, Z.lor v MSK_BITS) in _ ← modify (set_msk h cnt e); mret (Some e)
    else mret (Some (a, m, v))
  | None => mret None
  end.

Fixpoint msk_loop (h : bool) (n cnt : nat) : M Z :=
  match n with
  | O => mret 0
  | S n =>
    e ← msk_entry h cnt;
    match e with
    | None => fault
    | Some (a, m, v) => if a =? 0 then mret 0 else try mem_mask_write a m v; msk_loop h n (S cnt)
    end
  end.

(** Errors end the function; its caller does not see them. *)
Definition system_config_8800dc : M unit :=
  cfm ← uninit stack;
  '(ret, d) ← mem_read 0x40500000 cfm;
  if negb (ret =? 0) then mret tt else
  _ ← modify (fun s => s <| chip_id := u8 (Z.shiftr d 16) |>
                         <| chip_mcu_id ::= fun x => if Z.land (Z.shiftr d 25) 1 =? 0 then 1 else x |>);
  '(ret, d) ← mem_read 0x00000020 d;
  if negb (ret =? 0) then mret tt else
  _ ← modify (fun s => s <| chip_sub_id := u8 d |>);
  '(ret, d) ← mem_read 0x40500010 d;
  if negb (ret =? 0) then mret tt else
  orleave write_tbl c syscfg_tbl_8800dc;
  s ← get;
  orleave (if chip_mcu_id s =? 0 then
             if chip_sub_id s =? 0 then write_tbl c syscfg_tbl_8800dc_sdio_u01
             else if (chip_sub_id s =? 1) || (chip_sub_id s =? 2) then write_tbl c syscfg_tbl_8800dc_sdio_u02 else mret 0
           else mret 0);
  let h := IS_CHIP_ID_H s in
  orleave msk_loop h (length (msk_tbl h s)) 0;
  if chip_sub_id s =? 0 then orleave mask_write_tbl c syscfg_tbl_masked_8800dc_u01; mret tt else mret tt.

(** An unsupported id is reported and no error. *)
Definition aicwf_plat_patch_load_8800dc : M Z :=
  s ← get;
  match patch_name_8800dc (chip_sub_id s) with Some n => upload ROM_FMAC_PATCH_ADDR n | None => mret 0 end.

Definition aicwf_plat_rftest_load_8800dc : M Z := upload RAM_LMAC_FW_ADDR RF_NAME_8800DC.

Definition aicwf_plat_calib_load_8800dc : M Z :=
  s ← get;
  match calib_name_8800dc (chip_sub_id s) with Some n => upload ROM_FMAC_CALIB_ADDR n | None => mret 0 end.

Fixpoint read_local (base : Z) (n i : nat) (cfm : Z) (acc : list Z) : M (Z * list Z) :=
  match n with
  | O => mret (0, acc)
  | S n =>
    '(ret, cfm) ← mem_read (u32 (base + Z.of_nat i * 4)) cfm;
    if ret =? 0 then read_local base n (S i) cfm (acc ++ [cfm]) else mret (ret, acc)
  end.

Definition mask_valid (m : list Z) : bool :=
  match m with
  | [a; b; d; e] => (a =? 0) && (Z.land b 0xFFF00000 =? 0x80000000) && (d =? 0) && (Z.land e 0xFFFFFF00 =? 0)
  | _ => false
  end.

(** The last part of the check: the words at the address the firmware gives. *)
Definition misc_ram_check (cfg_base cfm : Z) : M (Z * bool) :=
  '(ret, misc_ram_addr) ← mem_read (cfg_base + 0x14) cfm;
  if negb (ret =? 0) then mret (ret, false) else
  '(ret, m) ← read_local misc_ram_addr 4 0 misc_ram_addr [];
  if negb (ret =? 0) then mret (ret, false) else mret (0, mask_valid m).

Definition vect_valid (v : Z) : bool := Z.land v 0xFFFF0000 =? Z.land RAM_LMAC_FW_ADDR 0xFFFF0000.

Definition aicwf_misc_ram_valid_check_8800dc : M (Z * bool) :=
  s ← get;
  cfm ← uninit stack;
  if testmode s =? FW_RFTEST_MODE then
    '(ret, vect1) ← mem_read (RAM_LMAC_FW_ADDR + 0x0004) cfm;
    if negb (ret =? 0) then mret (ret, false) else
    if negb (vect_valid vect1) then mret (0, false) else
    '(ret, vect2) ← mem_read (RAM_LMAC_FW_ADDR + 0x0008) vect1;
    if negb (ret =? 0) then mret (ret, false) else
    if negb (vect_valid vect2) then mret (0, false) else
    misc_ram_check (RAM_LMAC_FW_ADDR + 0x0164) vect2
  else misc_ram_check 0x10164 cfm.

(** offsetof(rf_misc_ram_t, ...). *)
Definition OFST_dpd_high : Z := 16.
Definition OFST_loft_res : Z := 16 + 4 * (3 * 96 + 3 * 48).

Definition aicwf_dpd_calib_8800dc : M Z :=
  '(ret, valid_flag) ← aicwf_misc_ram_valid_check_8800dc;
  check ret;
  if (valid_flag : bool) then mret 0 else
  try aicwf_plat_calib_load_8800dc;
  '(ret, _) ← start_app 0x00130009 HOST_START_APP_FNCALL 0;
  check ret;
  cfm ← uninit stack;
  '(ret, misc_ram_addr) ← mem_read (0x10164 + 0x14) cfm;
  check ret;
  '(ret, d) ← read_words c (fun i v s => s <| dpd_res ::= fun d => d <| bit_mask ::= <[i := v]> |> |>)
                misc_ram_addr 4 0 misc_ram_addr;
  check ret;
  '(ret, d) ← read_words c (fun i v s => s <| dpd_res ::= fun d => d <| dpd_high ::= <[i := v]> |> |>)
                (u32 (misc_ram_addr + OFST_dpd_high)) 96 0 d;
  check ret;
  '(ret, d) ← read_words c (fun i v s => s <| dpd_res ::= fun d => d <| loft_res ::= <[i := v]> |> |>)
                (u32 (misc_ram_addr + OFST_loft_res)) 18 0 d;
  mret ret.

(** The variant for [CONFIG_FORCE_DPD_CALIB], which the Makefile selects. *)
Definition rwnx_plat_patch_load : M Z :=
  s ← get;
  if chip_sub_id s =? 0 then
    if testmode s =? FW_NORMAL_MODE then aicwf_plat_patch_load_8800dc
    else if testmode s =? FW_RFTEST_MODE then aicwf_plat_rftest_load_8800dc else mret 0
  else
    if testmode s =? FW_NORMAL_MODE then try aicwf_plat_patch_load_8800dc; aicwf_dpd_calib_8800dc
    else if testmode s =? FW_RFTEST_MODE then
      try aicwf_plat_patch_load_8800dc; try aicwf_dpd_calib_8800dc; aicwf_plat_rftest_load_8800dc
    else if testmode s =? FW_DPDCALIB_MODE then mret 1 else mret 0.

(** The pairs after the description; only the last error is returned, after a
    message that prints the word behind the table.  An odd number of words ends
    in a pair that is read past the end. *)
Fixpoint patch_pairs (l : list Z) (err : Z) : M Z :=
  match l with
  | [] => if err =? 0 then mret 0 else fault
  | [_] => fault
  | a :: v :: l => err ← mem_write a v; patch_pairs l err
  end.

(** The description is printed as a string. *)
Definition aicwf_patch_table_load (filename : string) : M Z :=
  match rwnx_load_firmware files filename with
  | None => mret (-1)
  | Some dst =>
    if (length dst <? 4)%nat then fault else
    err ← block_write (le32 dst) (124 + 4) dst;
    if negb (bool_decide (0 ∈ take 124 (drop 4 dst))) then fault
    else if err =? 0 then patch_pairs (words (length dst / 4 - 32) (drop 128 dst)) 0 else mret err
  end.

(** The base addresses the firmware publishes; errors are only reported, and
    the confirmation keeps what it held. *)
Definition aicwf_patch_config_8800dc : M unit :=
  s ← get;
  let sub := chip_sub_id s in
  if testmode s =? 0 then
    if negb ((sub =? 0) || (sub =? 1) || (sub =? 2)) then mret tt else
    cfm ← uninit stack;
    '(_, wifisetting_cfg_addr) ← mem_read 0x10164 cfm;
    '(_, jump_tbl_addr) ← (if sub =? 0 then mem_read (0x10164 + 4) wifisetting_cfg_addr else mret (0, wifisetting_cfg_addr));
    '(_, ldpc_cfg_addr) ← mem_read (0x10164 + 8) jump_tbl_addr;
    '(_, agc_cfg_addr) ← mem_read (0x10164 + 0xc) ldpc_cfg_addr;
    '(_, txgain_cfg_addr) ← mem_read (0x10164 + 0x10) agc_cfg_addr;
    _ ← write_tbl_on c ((fun e => (u32 (wifisetting_cfg_addr + e.1), e.2)) <$>
          (if sub =? 0 then patch_tbl_wifisetting_8800dc_u01 else patch_tbl_wifisetting_8800dc_u02));
    _ ← write_image c 512 ldpc_cfg_addr (bytes_of ldpc_cfg_ram);
    _ ← write_image c 512 agc_cfg_addr (bytes_of agc_cfg_ram);
    let txgain := bytes_of (if IS_CHIP_ID_H s then txgain_map_h else txgain_map) in
    _ ← block_write txgain_cfg_addr (Z.of_nat (length txgain)) txgain;
    if sub =? 0 then
      _ ← write_tbl_on c ((fun e => (u32 (e.1 * 4 + jump_tbl_addr), e.2)) <$> jump_tbl);
      write_tbl_on c patch_tbl_func
    else
      match table_name_8800dc sub with
      | Some n => _ ← aicwf_patch_table_load n; mret tt
      | None => mret tt
      end
  else if sub =? 0 then write_tbl_on c patch_tbl_rf_func else mret tt.

Definition start_from_bootrom_8800DC : M Z :=
  s ← get;
  let fw_addr := if testmode s =? 1 then RAM_LMAC_FW_ADDR else RAM_FMAC_FW_ADDR in
  cfm ← uninit stack;
  '(ret, _) ← mem_read fw_addr cfm;
  if negb (ret =? 0) then mret (-1) else
  '(ret, _) ← start_app fw_addr (if testmode s =? 0 then HOST_START_APP_DUMMY else HOST_START_APP_AUTO) 0;
  if ret =? 0 then mret 0 else mret (-1).

(** ** AIC8800D80 and D80X2 *)

Definition adaptivity_patch_tbl_8800d80 : list (Z * Z) := [(0x000C, 0x0000320A); (0x009C, 0x00000000); (0x0168, 0x00010000)].
Definition patch_tbl_8800d80 : list (Z * Z) := [(0x00b4, 0xf3010000); (0x170, 0x0100000a)].

Definition patch_tbl_d80x2 : list (Z * Z) := [
  (0x021c, 0x04000000); (0x0220, 0x04010101); (0x0224, 0x50000a01); (0x0228, 0x50000a00);
  (0x01f0, Z.ldiff (Z.lor (Z.lor (Z.shiftl 1 0) (Z.shiftl 1 1)) (Z.shiftl 1 11)) (Z.shiftl 1 1))].
Definition adaptivity_patch_tbl_d80x2 : list (Z * Z) := [(0x000C, 0x0000320A); (0x009C, 0x00000000); (0x01D0, 0x00010000)].

Definition AIC_PATCH_MAGIG_NUM : Z := 0x48435450.
Definition AIC_PATCH_MAGIG_NUM_2 : Z := 0x50544348.

(** The descriptor of the patch at [str_base], the pairs, the empty blocks. *)
Definition write_patch (str_base config_base start_addr : Z) (adap : bool) (patch adaptivity : list (Z * Z)) : M Z :=
  let patch_cnt := Z.of_nat (length patch) in
  let adap_patch_cnt := if adap then Z.of_nat (length adaptivity) else 0 in
  try mem_write (u32 (str_base + 0)) AIC_PATCH_MAGIG_NUM;
  try mem_write (u32 (str_base + 8)) AIC_PATCH_MAGIG_NUM_2;
  try mem_write (u32 (str_base + 4)) start_addr;
  try mem_write (u32 (str_base + 12)) (patch_cnt + adap_patch_cnt);
  try write_pairs c start_addr config_base 0 patch;
  try (if adap then write_pairs c start_addr config_base patch_cnt adaptivity else mret 0);
  try mem_write (u32 (str_base + 48)) 0;
  try mem_write (u32 (str_base + 52)) 0;
  try mem_write (u32 (str_base + 56)) 0;
  try mem_write (u32 (str_base + 60)) 0;
  mret 0.

Definition aicwifi_patch_config_8800d80 : M Z :=
  s ← get;
  cfm ← uninit stack;
  '(ret, config_base) ← mem_read (RAM_FMAC_FW_ADDR + 0x0198) cfm;
  check ret;
  '(ret, aic_patch_str_base) ← mem_read (RAM_FMAC_FW_ADDR + 0x0198 + 8) config_base;
  check ret;
  write_patch aic_patch_str_base config_base 0x0016F800 (adap_test s) patch_tbl_8800d80 adaptivity_patch_tbl_8800d80.

Definition aicwifi_patch_config_8800d80x2 : M Z :=
  s ← get;
  let rd_patch_addr := (if testmode s =? 0 then 0x128000 else 0x120000) + 0x01A8 in
  cfm ← uninit stack;
  '(ret, config_base) ← mem_read rd_patch_addr cfm;
  check ret;
  '(ret, aic_patch_str_base) ← mem_read (rd_patch_addr + 8) config_base;
  check ret;
  '(ret, rd_version_val) ← mem_read (0x128000 + 0x01C) aic_patch_str_base;
  check ret;
  '(ret, patch_buff_base) ← mem_read (rd_patch_addr + 12) rd_version_val;
  check ret;
  write_patch aic_patch_str_base config_base patch_buff_base (adap_test s) patch_tbl_d80x2 adaptivity_patch_tbl_d80x2.

(** Empty tables in this configuration. *)
Definition aicbsp_system_config_8800d80 : M Z := write_tbl c [].
Definition aicwifi_sys_config_8800d80 : M Z := mret 0.

(** ** AIC8800D80N and D80WN *)

Definition syscfg_tbl_masked_8800d80n : list (Z * Z * Z) := [(0x00000000, 0x00000000, 0x00000000)].
Definition patch_tbl_wifisetting_8800d80n : list (Z * Z) := [(0x170, 0x50000001)].

Fixpoint masked_until_zero (tbl : list (Z * Z * Z)) : M Z :=
  match tbl with
  | [] => mret 0
  | (a, m, v) :: tbl => if a =? 0 then mret 0 else try mem_mask_write a m v; masked_until_zero tbl
  end.

Definition system_config_8800d80n : M unit :=
  cfm ← uninit stack;
  '(ret, d) ← mem_read 0x40500000 cfm;
  if negb (ret =? 0) then mret tt else
  _ ← modify (fun s => s <| chip_mcu_id ::= fun x => if Z.land (Z.shiftr d 25) 1 =? 0 then 1 else x |>);
  '(ret, d) ← mem_read 0x00000020 d;
  if negb (ret =? 0) then mret tt else
  _ ← modify (fun s => s <| chip_sub_id := u8 d |>);
  _ ← masked_until_zero syscfg_tbl_masked_8800d80n; mret tt.

(** The version is 128 bytes of the image from byte 16 on. *)
Definition rwnx_plat_bin_fw_upload_2_with_version (fw_addr : Z) (filename : string) (version_size : nat) : M Z :=
  match rwnx_load_firmware files filename with
  | None => mret (-1)
  | Some dst => if (length dst <? 16 + version_size)%nat then fault else write_image c 512 fw_addr dst
  end.

Definition aicwf_plat_patch_load_8800d80n : M Z :=
  rwnx_plat_bin_fw_upload_2_with_version 0x00188000 PATCH_NAME_8800D80N 128.

(** The pairs of the file up to a mark or its end; only the last error is
    returned, and its message prints the word at the end. *)
Fixpoint patch_pairs_80n (l : list Z) (err : Z) : M Z :=
  match l with
  | [] => if err =? 0 then mret 0 else fault
  | a :: l =>
    if (a =? 0) || (a =? 0xFFFFFFFF) then mret err else
    match l with
    | [] => fault
    | v :: l => err ← mem_write a v; patch_pairs_80n l err
    end
  end.

Definition aicwf_plat_patch_table_load_8800d80n : M Z :=
  match rwnx_load_firmware files PATCHTBL_NAME_8800D80N with
  | None => mret (-1)
  | Some dst => patch_pairs_80n (words (length dst / 4) dst) 0
  end.

Definition aicwf_patch_config_8800d80n : M unit :=
  s ← get;
  if testmode s =? 0 then
    cfm ← uninit stack;
    '(_, wifisetting_cfg_addr) ← mem_read 0x10170 cfm;
    '(_, d) ← mem_read (0x10170 + 4) wifisetting_cfg_addr;
    '(_, d) ← mem_read (0x10170 + 0x10) d;
    '(_, d) ← mem_read (0x10170 + 0x14) d;
    '(_, d) ← mem_read (0x10170 + 0x18) d;
    write_tbl_on c ((fun e => (u32 (wifisetting_cfg_addr + e.1), e.2)) <$> patch_tbl_wifisetting_8800d80n)
  else mret tt.

Definition aicwf_plat_rftest_load_8800d80n : M Z := upload 0x00132C00 RF_NAME_8800D80N.

(** [while (!(mem_val & CHIP_INFO_FLAG_CINIT_DONE))]. *)
Fixpoint wait_cinit (fuel : nat) (mem_val : Z) : M Z :=
  if negb (Z.land mem_val (Z.shiftl 1 13) =? 0) then mret 0 else
  match fuel with
  | O => nofuel
  | S fuel =>
    '(ret, mem_val) ← mem_read 0x40500184 mem_val;
    check ret; wait_cinit fuel mem_val
  end.

Definition aicwf_plat_cinit_exec_8800d80n (fuel : nat) : M Z :=
  cfm ← uninit stack;
  '(ret, mem_val) ← mem_read 0x40500184 cfm;
  check ret;
  if negb (Z.land mem_val (Z.shiftl 1 12) =? 0) then wait_cinit fuel mem_val else
  try upload 0x00133000 CINIT_NAME_8800D80N;
  '(ret, _) ← start_app (0x00133000 + 0x0009) HOST_START_APP_FNCALL 0;
  mret ret.

Definition aicwf_plat_calib_exec_8800d80n : M Z :=
  cfm ← uninit stack;
  '(ret, flags) ← mem_read (0x00188000 + 0x08) cfm;
  check ret;
  if negb (Z.land flags (Z.lor (Z.shiftl 1 0) (Z.shiftl 1 1)) =? 0) then mret 0 else
  try upload 0x00138000 CALIB_NAME_8800D80N;
  '(ret, _) ← start_app (0x00138000 + 0x0009) HOST_START_APP_FNCALL 0;
  mret ret.

(** ** The whole *)

Definition fw_upload (fw_addr : Z) : M Z := fw ← current_firmware; upload fw_addr (wl_fw fw).

Definition aicwifi_init_80n : M Z :=
  _ ← system_config_8800d80n;
  s ← get;
  try (if testmode s =? FW_NORMAL_MODE then
         try aicwf_plat_patch_load_8800d80n;
         try aicwf_plat_patch_table_load_8800d80n;
         _ ← aicwf_patch_config_8800d80n;
         aicwf_plat_calib_exec_8800d80n
       else if testmode s =? FW_RFTEST_MODE then aicwf_plat_rftest_load_8800d80n else mret 0);
  orfail start_from_bootrom_8800DC; mret 0.

Definition aicwifi_init : M Z :=
  s ← get;
  match chipid s with
  | AIC8801 =>
    orfail fw_upload RAM_FMAC_FW_ADDR;
    orfail aicwifi_patch_config;
    orfail aicwifi_sys_config;
    orfail aicwifi_start_from_bootrom; mret 0
  | AIC8800DC | AIC8800DW =>
    _ ← system_config_8800dc;
    try rwnx_plat_patch_load;
    _ ← aicwf_patch_config_8800dc;
    _ ← start_from_bootrom_8800DC; mret 0
  | AIC8800D80N | AIC8800D80WN => aicwifi_init_80n
  | AIC8800D80 =>
    orfail fw_upload RAM_FMAC_FW_ADDR;
    orfail aicwifi_patch_config_8800d80;
    orfail aicwifi_sys_config_8800d80;
    orfail aicwifi_start_from_bootrom; mret 0
  | AIC8800D80X2 =>
    orfail fw_upload (if testmode s =? 0 then RAM_FMAC_FW_ADDR_D80X2 else RAM_FMAC_FW_ADDR);
    orfail aicwifi_patch_config_8800d80x2;
    orfail aicwifi_start_from_bootrom; mret 0
  end.

(** Reading the revision and choosing the firmware; the result is the error and
    btenable. *)
Definition identify : M (Z * Z) :=
  s ← get;
  cfm ← uninit stack;
  '(ret, d) ← mem_read 0x40500000 cfm;
  if negb (ret =? 0) then mret (-1, 0) else
  let rev := Z.land (Z.shiftr d 16) 0x3F in
  match chipid s with
  | AIC8801 =>
    let rev := u8 (Z.shiftr d 16) in
    _ ← modify (fun s => s <| chip_rev := rev |>);
    if negb ((rev =? CHIP_REV_U02) || (rev =? CHIP_REV_U03) || (rev =? CHIP_REV_U04)) then mret (-1, 1) else
    _ ← modify (fun s => if rev =? CHIP_REV_U02 then s else s <| firmware_list := fw_u03 |>);
    ret ← aicbsp_system_config;
    mret (if ret =? 0 then 0 else -1, 1)
  | AIC8800DC | AIC8800DW =>
    let btenable := Z.land (Z.shiftr d 26) 1 in
    _ ← modify (fun s => s <| chip_rev := rev |> <| chipid ::= fun x => if btenable =? 0 then AIC8800DW else x |>);
    if negb ((rev =? CHIP_REV_U01) || (rev =? CHIP_REV_U02) || (rev =? CHIP_REV_U03) || (rev =? CHIP_REV_U04))
    then mret (-1, btenable) else
    _ ← modify (fun s => s <| firmware_list :=
          if Z.land (Z.shiftr d 16) 0xC0 =? 0xC0 then fw_8800dc_h_u02
          else if rev =? CHIP_REV_U01 then fw_8800dc_u01 else fw_8800dc_u02 |>);
    mret (0, btenable)
  | AIC8800D80 =>
    _ ← modify (fun s => s <| chip_rev := rev |>
          <| firmware_list ::= fun l => if rev =? CHIP_REV_U01 then fw_8800d80_u01
                                        else if (rev =? CHIP_REV_U02) || (rev =? CHIP_REV_U03) then fw_8800d80_u02 else l |>);
    ret ← aicbsp_system_config_8800d80;
    mret (if ret =? 0 then 0 else -1, 1)
  | AIC8800D80X2 =>
    _ ← modify (fun s => s <| chip_rev := rev |>);
    if CHIP_REV_U04 + 8 <=? rev then _ ← modify (fun s => s <| firmware_list := fw_8800d80x2 |>); mret (0, 1)
    else mret (-1, 1)
  | AIC8800D80N | AIC8800D80WN =>
    let btenable := if bool_decide (chipid s = AIC8800D80N) then 1 else 0 in
    _ ← modify (fun s => s <| chip_rev := rev |>);
    if CHIP_REV_U02 <=? rev then _ ← modify (fun s => s <| firmware_list := fw_8800d80n_u02 |>); mret (0, btenable)
    else mret (-1, btenable)
  end.

Definition is_80n (ch : chip) : bool := match ch with AIC8800D80N | AIC8800D80WN => true | _ => false end.

Definition aicbsp_driver_fw_init (fuel : nat) : M Z :=
  _ ← modify (fun s => s <| testmode := s32 (cpmode s) |>);
  '(ret, btenable) ← identify;
  check ret;
  s ← get;
  try (if is_80n (chipid s) then aicwf_plat_cinit_exec_8800d80n fuel else mret 0);
  try (if negb (testmode s =? 4) && (btenable =? 1) then orfail aicbt_init c files; mret 0 else mret 0);
  aicwifi_init.

End Init.

End BspWifi.
