(* ===== verification/BspLog.v ===== *)
(** * Sequences of requests (lemmas on [Bsp])

    [requests l] makes the requests of [l] in order up to the first that
    returns an error.  The loops of the bring-up over images and tables are
    such sequences ([write_image_requests], [write_tbl_requests], ...).
    [quiet] computations change nothing but the log. *)

From S2P Require Import Prelude Bsp BspBt BspTab BspWifi.
From Stdlib Require Import String.
From stdpp Require Import list.
Import Bsp BspBt BspTab BspWifi.
Open Scope Z_scope.
Open Scope list_scope.

Module BspLog.

Definition ok_event (e : event) : Prop := ret_of e.2 = 0.

(** The requests that carry an image to [addr], [blk] bytes each. *)
Fixpoint image_reqs (fuel blk : nat) (addr : Z) (img : list Z) : list req :=
  match fuel with
  | O => []
  | S fuel =>
    match img with
    | [] => []
    | _ => MemBlockWrite (u32 addr) (take blk img) :: image_reqs fuel blk (addr + Z.of_nat blk) (drop blk img)
    end
  end.
Definition image_requests (blk : nat) (addr : Z) (img : list Z) : list req := image_reqs (length img) blk addr img.

Definition tbl_requests (tbl : list (Z * Z)) : list req := (fun e => MemWrite e.1 e.2) <$> tbl.
Definition mask_requests (tbl : list (Z * Z * Z)) : list req := (fun e => MemMaskWrite e.1.1 e.1.2 e.2) <$> tbl.

Fixpoint pair_requests (start_addr config_base cnt : Z) (tbl : list (Z * Z)) : list req :=
  match tbl with
  | [] => []
  | (o, v) :: tbl =>
    MemWrite (u32 (start_addr + 8 * cnt)) (u32 (o + config_base)) :: MemWrite (u32 (start_addr + 8 * cnt + 4)) v ::
    pair_requests start_addr config_base (cnt + 1) tbl
  end.

Lemma image_reqs_nil fuel blk addr : image_reqs fuel blk addr [] = [].
Proof. by destruct fuel. Qed.

(** More fuel than bytes changes nothing. *)
Lemma image_reqs_fuel fuel fuel' blk addr img :
  (0 < blk)%nat -> (length img <= fuel)%nat -> (length img <= fuel')%nat ->
  image_reqs fuel blk addr img = image_reqs fuel' blk addr img.
Proof.
  intros Hb. revert fuel' addr img. induction fuel as [|fuel IH]; intros fuel' addr img H H'.
  - destruct img; [by rewrite !image_reqs_nil | simpl in H; lia].
  - destruct img as [|x img]; [by rewrite !image_reqs_nil |]. destruct fuel' as [|fuel']; [simpl in H'; lia |].
    cbn [image_reqs]. f_equal. apply IH; rewrite length_drop; simpl length in *; lia.
Qed.

Lemma image_requests_nil blk addr : image_requests blk addr [] = [].
Proof. done. Qed.

Lemma image_requests_cons blk addr img :
  (0 < blk)%nat -> img <> [] ->
  image_requests blk addr img = MemBlockWrite (u32 addr) (take blk img) :: image_requests blk (addr + Z.of_nat blk) (drop blk img).
Proof.
  intros Hb H. unfold image_requests. destruct img as [|x img]; [done |]. cbn [length image_reqs]. f_equal.
  apply image_reqs_fuel; rewrite ?length_drop; simpl; lia.
Qed.

Section Log.
Context (c : card) (files : string -> option (list Z)).

Fixpoint requests (l : list req) : M Z :=
  match l with
  | [] => mret 0
  | r :: l => try (x ← send c r 0; mret x.1); requests l
  end.

Lemma bind_M {A B} (m : M A) (f : A -> M B) s a s' : m s = Ok (a, s') -> (m ≫= f) s = f a s'.
Proof. intros H. unfold mbind, M_bind. by rewrite H. Qed.

Lemma bind_M_inv {A B} (m : M A) (f : A -> M B) s r :
  (m ≫= f) s = Ok r -> exists a s', m s = Ok (a, s') /\ f a s' = Ok r.
Proof. unfold mbind at 1, M_bind. intros H. apply bind_Ok in H as ([a s'] & H1 & H2). eauto. Qed.

(** A request whose confirmation is not looked at. *)
Lemma write_spec r s :
  (x ← send c r 0; mret x.1) s = Ok (ret_of (c (log s) r).1, s <| log ::= (.++ [(r, (c (log s) r).1)]) |>).
Proof. unfold send, mbind, M_bind, mbind, res_bind. by destruct (c (log s) r) as [o v]. Qed.

Lemma read_spec a cfm s :
  rwnx_send_dbg_mem_read_req c a cfm s =
  Ok ((ret_of (c (log s) (MemRead a)).1, match (c (log s) (MemRead a)).1 with Done _ => default cfm (c (log s) (MemRead a)).2 | _ => cfm end),
      s <| log ::= (.++ [(MemRead a, (c (log s) (MemRead a)).1)]) |>).
Proof. unfold rwnx_send_dbg_mem_read_req, send. by destruct (c (log s) (MemRead a)) as [o v]. Qed.

Lemma requests_cons r l s :
  requests (r :: l) s =
  let o := (c (log s) r).1 in
  if ret_of o =? 0 then requests l (s <| log ::= (.++ [(r, o)]) |>) else Ok (ret_of o, s <| log ::= (.++ [(r, o)]) |>).
Proof.
  cbn [requests]. rewrite (bind_M _ _ s _ _ (write_spec r s)). cbn zeta. by destruct (ret_of _ =? 0).
Qed.

Lemma requests_app l1 l2 s : requests (l1 ++ l2) s = (try requests l1; requests l2) s.
Proof.
  revert s. induction l1 as [|r l1 IH]; intros s; [done |].
  cbn [app]. rewrite requests_cons. cbn zeta. destruct (ret_of _ =? 0) eqn:E.
  - rewrite IH. unfold mbind, M_bind. rewrite requests_cons. cbn zeta. by rewrite E.
  - unfold mbind, M_bind. rewrite requests_cons. cbn zeta. rewrite E. cbn. by rewrite E.
Qed.

(** What a sequence leaves in the log: all of it, or a part that ends with an
    error. *)
Lemma requests_log l s r s' :
  requests l s = Ok (r, s') ->
  exists es, s' = s <| log ::= (.++ es) |> /\ es.*1 `prefix_of` l /\ (r = 0 -> es.*1 = l /\ Forall ok_event es).
Proof.
  revert s. induction l as [|q l IH]; intros s.
  - intros [= <- <-]. exists []. split; [| by split].
    unfold upd. destruct s; cbn. by rewrite app_nil_r.
  - rewrite requests_cons. cbn zeta. destruct (ret_of _ =? 0) eqn:E.
    + intros H. apply IH in H as (es & -> & Hp & H0).
      exists ((q, (c (log s) q).1) :: es). split; [unfold upd; destruct s; cbn; by rewrite <- app_assoc |].
      split; [by apply prefix_cons |]. intros Hr. destruct (H0 Hr) as [Hl Hf].
      split; [by rewrite fmap_cons, Hl |]. constructor; [by apply Z.eqb_eq in E | done].
    + intros [= <- <-]. exists [(q, (c (log s) q).1)]. split; [done |].
      split; [by apply prefix_cons, prefix_nil |]. intros Hr. by rewrite Hr in E.
Qed.

(** ** The loops as sequences *)

Lemma block_write_spec addr n b s :
  n <= 1024 -> n <= Z.of_nat (length b) ->
  rwnx_send_dbg_mem_block_write_req c addr n b s = (x ← send c (MemBlockWrite addr (take (Z.to_nat n) b)) 0; mret x.1) s.
Proof.
  intros H1 H2. unfold rwnx_send_dbg_mem_block_write_req.
  destruct (Z.ltb_spec 1024 n); [lia |]. destruct (Z.ltb_spec (Z.of_nat (length b)) n); [lia |]. done.
Qed.

Lemma tbl_spec tbl s : write_tbl c tbl s = requests (tbl_requests tbl) s.
Proof.
  revert s. induction tbl as [|[a v] tbl IH]; intros s; [done |].
  cbn [write_tbl tbl_requests fmap list_fmap fst snd]. rewrite requests_cons. cbn zeta.
  erewrite bind_M by apply (write_spec (MemWrite _ _)). destruct (_ =? 0); [apply IH | done].
Qed.

Lemma mask_tbl_spec tbl s : mask_write_tbl c tbl s = requests (mask_requests tbl) s.
Proof.
  revert s. induction tbl as [|[[a m] v] tbl IH]; intros s; [done |].
  cbn [mask_write_tbl mask_requests fmap list_fmap fst snd]. rewrite requests_cons. cbn zeta.
  erewrite bind_M by apply (write_spec (MemMaskWrite _ _ _)). destruct (_ =? 0); [apply IH | done].
Qed.

Lemma pairs_spec start base cnt tbl s : write_pairs c start base cnt tbl s = requests (pair_requests start base cnt tbl) s.
Proof.
  revert cnt s. induction tbl as [|[o v] tbl IH]; intros cnt s; [done |].
  cbn [write_pairs pair_requests]. rewrite requests_cons. cbn zeta.
  erewrite bind_M by apply (write_spec (MemWrite _ _)). destruct (_ =? 0); [| done]. rewrite requests_cons. cbn zeta.
  erewrite bind_M by apply (write_spec (MemWrite _ _)). destruct (_ =? 0); [apply IH | done].
Qed.

(** The loop over the blocks writes all but the last. *)
Lemma blocks_spec blk fw_addr dst fuel i s :
  0 < blk <= 1024 -> 0 <= i <= Z.of_nat (length dst) -> Z.of_nat (length dst) - i <= Z.of_nat fuel ->
  i < Z.of_nat (length dst) ->
  ('(err, i) ← write_blocks c fuel blk fw_addr dst i 0;
   if (err =? 0) && (i <? Z.of_nat (length dst)) then
     rwnx_send_dbg_mem_block_write_req c (u32 (fw_addr + i)) (Z.of_nat (length dst) - i) (drop (Z.to_nat i) dst)
   else mret err) s =
  requests (image_requests (Z.to_nat blk) (fw_addr + i) (drop (Z.to_nat i) dst)) s.
Proof.
  intros Hb. revert i s. induction fuel as [|fuel IH]; intros i s Hi Hf Hlt; [lia |].
  assert (Hlen : length (drop (Z.to_nat i) dst) = (length dst - Z.to_nat i)%nat) by apply length_drop.
  rewrite image_requests_cons, requests_cons by (try intros H; try (apply (f_equal length) in H; simpl in H); lia).
  cbn zeta. cbn [write_blocks]. destruct (Z.ltb_spec i (Z.of_nat (length dst) - blk)).
  - unfold mbind at 1, M_bind at 1.
    erewrite bind_M by (rewrite block_write_spec by lia; apply write_spec).
    destruct (ret_of _ =? 0) eqn:Er.
    + apply Z.eqb_eq in Er. rewrite Er. specialize (IH (i + blk)). rewrite drop_drop.
      replace (fw_addr + i + Z.of_nat (Z.to_nat blk)) with (fw_addr + (i + blk)) by lia.
      rewrite <- Z2Nat.inj_add by lia. apply IH; lia.
    + cbn. by rewrite Er.
  - unfold mbind at 1, M_bind at 1. cbn [mbind res_bind mret M_ret Z.eqb andb].
    destruct (Z.ltb_spec i (Z.of_nat (length dst))); [| lia].
    rewrite block_write_spec by lia. rewrite drop_drop, (drop_ge _ (_ + _)), image_requests_nil by lia.
    rewrite !take_ge, write_spec by lia. by destruct (ret_of _ =? 0) eqn:Er; [apply Z.eqb_eq in Er; rewrite Er |].
Qed.

Lemma image_spec blk fw_addr dst s :
  0 < blk <= 1024 -> write_image c blk fw_addr dst s = requests (image_requests (Z.to_nat blk) fw_addr dst) s.
Proof.
  intros Hb. destruct dst as [|x dst].
  { unfold write_image. by rewrite (proj2 (Z.ltb_ge blk _)) by (simpl; lia). }
  set (d := x :: dst) in *. assert (Hl : 0 < Z.of_nat (length d)) by (subst d; simpl; lia).
  unfold write_image. destruct (Z.ltb_spec blk (Z.of_nat (length d))).
  - rewrite blocks_spec by lia. by rewrite Z.add_0_r.
  - unfold mbind at 1, M_bind at 1. cbn [mbind res_bind mret M_ret Z.eqb andb].
    destruct (Z.ltb_spec 0 (Z.of_nat (length d))); [| lia].
    rewrite Z.sub_0_r, block_write_spec, drop_0 by (rewrite ?drop_0; lia).
    rewrite image_requests_cons, requests_cons by (try done; lia). cbn zeta.
    rewrite (drop_ge d) by lia. rewrite image_requests_nil, Z.add_0_r, !take_ge, write_spec by lia.
    by destruct (ret_of _ =? 0) eqn:Er; [apply Z.eqb_eq in Er; rewrite Er |].
Qed.

Lemma upload_spec fw_addr name img s :
  rwnx_load_firmware files name = Some img ->
  rwnx_plat_bin_fw_upload_android c files fw_addr name s = requests (image_requests 1024 fw_addr img) s.
Proof. intros H. unfold rwnx_plat_bin_fw_upload_android. rewrite H. by apply image_spec. Qed.

End Log.

End BspLog.
