(* ===== verification/BspRuns.v ===== *)
(** * Bringing a chip up: what is started
    (theorems on [BspWifi])

    A computation is [calm] when it changes nothing but the log and starts no
    program.  The start of the firmware of an AIC8801, D80 or D80X2 is the last
    request of the bring-up, and the image it starts was written before, with
    no error. *)

From S2P Require Import Prelude Bsp BspBt BspTab BspWifi BspLog.
From Stdlib Require Import String.
From stdpp Require Import list.
Import Bsp BspBt BspTab BspWifi BspLog.
Open Scope Z_scope.
Open Scope list_scope.

Module BspRuns.

Definition is_start (r : req) : bool := match r with StartApp _ _ => true | _ => false end.
Definition is_block (r : req) : bool := match r with MemBlockWrite _ _ => true | _ => false end.

(** None of the requests is one of the kind [bad]. *)
Definition free (bad : req -> bool) (es : list event) : Prop := Forall (fun e => bad e.1 = false) es.
#[global] Abbreviation no_start := (free is_start).

(** The computation only adds to the log; [Q] holds of its result and what it
    adds. *)
Definition quiet {A} (m : M A) (Q : A -> list event -> Prop) : Prop :=
  forall s a s', m s = Ok (a, s') -> exists es, s' = s <| log ::= (.++ es) |> /\ Q a es.
Definition free_of {A} (bad : req -> bool) (m : M A) : Prop := quiet m (fun _ => free bad).
#[global] Abbreviation calm := (free_of is_start).

Lemma log_nil s : s <| log ::= (.++ []) |> = s.
Proof. destruct s. unfold upd. cbn. by rewrite app_nil_r. Qed.

Lemma log_app s es es' : s <| log ::= (.++ es) |> <| log ::= (.++ es') |> = s <| log ::= (.++ (es ++ es')) |>.
Proof. destruct s. unfold upd. cbn. by rewrite <- app_assoc. Qed.

Lemma quiet_ret {A} (a : A) Q : Q a [] -> quiet (mret a) Q.
Proof. intros H s x s' [= <- <-]. exists []. by rewrite log_nil. Qed.

Lemma quiet_bind {A B} (m : M A) (f : A -> M B) Q R :
  quiet m Q -> (forall a es, Q a es -> quiet (f a) (fun b es' => R b (es ++ es'))) -> quiet (m ≫= f) R.
Proof.
  intros Hm Hf s b s' H. apply bind_M_inv in H as (a & s1 & H1 & H2).
  destruct (Hm _ _ _ H1) as (es & -> & Hq). destruct (Hf _ _ Hq _ _ _ H2) as (es' & -> & Hr).
  exists (es ++ es'). by rewrite log_app.
Qed.

Lemma quiet_weaken {A} (m : M A) (Q R : A -> list event -> Prop) :
  quiet m Q -> (forall a es, Q a es -> R a es) -> quiet m R.
Proof. intros H HQ s a s' E. destruct (H _ _ _ E) as (es & -> & Hq). eauto. Qed.

Lemma free_app bad es es' : free bad es -> free bad es' -> free bad (es ++ es').
Proof. intros. by apply Forall_app. Qed.

Lemma free_ret bad {A} (a : A) : free_of bad (mret a).
Proof. by apply quiet_ret, Forall_nil. Qed.

Lemma free_bind bad {A B} (m : M A) (f : A -> M B) : free_of bad m -> (forall a, free_of bad (f a)) -> free_of bad (m ≫= f).
Proof.
  intros Hm Hf. apply (quiet_bind _ _ _ _ Hm). intros a es He. eapply quiet_weaken; [apply Hf |].
  intros b es' He'. by apply free_app.
Qed.

Lemma free_fault bad {A} : free_of bad (fault : M A).
Proof. by intros s a s' H. Qed.

Lemma free_nofuel bad {A} : free_of bad (nofuel : M A).
Proof. by intros s a s' H. Qed.

Lemma free_gets bad {A} (f : bsp -> A) : free_of bad (gets f).
Proof. intros s a s' [= <- <-]. exists []. rewrite log_nil. split; [done | apply Forall_nil_2]. Qed.

Lemma free_get bad : free_of bad get.
Proof. intros s a s' [= <- <-]. exists []. rewrite log_nil. split; [done | apply Forall_nil_2]. Qed.

(** A pure part that may fault. *)
Lemma free_pure bad {A} (m : bsp -> res A) : free_of bad (fun s => x ← m s; Ok (x, s)).
Proof.
  intros s a s' H. apply bind_Ok in H as (x & _ & [= <- <-]). exists []. rewrite log_nil. split; [done | apply Forall_nil_2].
Qed.

Create HintDb bsp.
#[export] Hint Resolve free_ret free_fault free_nofuel free_gets free_get : bsp.

Ltac calm_step :=
  match goal with
  | |- free_of _ (mbind _ _) => apply free_bind; [| intros]
  | |- free_of _ (fun s => _ ← _; Ok (_, s)) => apply free_pure
  | |- free_of _ (if ?b then _ else _) => destruct b
  | |- free_of _ (let '(_, _) := ?x in _) => destruct x
  | |- free_of _ (match ?x with _ => _ end) => destruct x
  | |- free_of _ (let _ := _ in _) => cbv zeta
  | |- free_of _ _ => solve [eauto with bsp]
  end.
Ltac calm := repeat calm_step.

Section Runs.
Context (c : card) (files : string -> option (list Z)) (stack : list event -> Z).

Lemma send_quiet r old : quiet (send c r old) (fun x es => exists o, es = [(r, o)] /\ x.1 = ret_of o).
Proof.
  intros s x s' H. unfold send in H. destruct (c (log s) r) as [o v] eqn:E. injection H as <- <-.
  exists [(r, o)]. split; [done |]. by exists o.
Qed.

Lemma send_calm bad r old : bad r = false -> free_of bad (send c r old).
Proof.
  intros Hr. eapply quiet_weaken; [apply send_quiet |]. intros x es (o & -> & _). by repeat constructor.
Qed.

Lemma read_calm a cfm : calm (rwnx_send_dbg_mem_read_req c a cfm).
Proof. by apply send_calm. Qed.

Lemma write_calm a v : calm (rwnx_send_dbg_mem_write_req c a v).
Proof. unfold rwnx_send_dbg_mem_write_req. calm. by apply send_calm. Qed.

Lemma mask_write_calm a m v : calm (rwnx_send_dbg_mem_mask_write_req c a m v).
Proof. unfold rwnx_send_dbg_mem_mask_write_req. calm. by apply send_calm. Qed.

Lemma block_write_calm a n b : calm (rwnx_send_dbg_mem_block_write_req c a n b).
Proof. unfold rwnx_send_dbg_mem_block_write_req. calm. by apply send_calm. Qed.
Local Hint Resolve read_calm write_calm mask_write_calm block_write_calm : bsp.

Lemma write_blocks_calm fuel blk a dst i err : calm (write_blocks c fuel blk a dst i err).
Proof. revert i err. induction fuel; intros; cbn [write_blocks]; calm. Qed.
Local Hint Resolve write_blocks_calm : bsp.

Lemma write_image_calm blk a dst : calm (write_image c blk a dst).
Proof. unfold write_image. calm. Qed.
Local Hint Resolve write_image_calm : bsp.

Lemma upload_calm a name : calm (rwnx_plat_bin_fw_upload_android c files a name).
Proof. unfold rwnx_plat_bin_fw_upload_android. calm. Qed.
Local Hint Resolve upload_calm : bsp.

Lemma write_tbl_calm tbl : calm (write_tbl c tbl).
Proof. induction tbl as [|[]]; cbn [write_tbl]; calm. Qed.
Local Hint Resolve write_tbl_calm : bsp.

Lemma mask_write_tbl_calm tbl : calm (mask_write_tbl c tbl).
Proof. induction tbl as [|[[]]]; cbn [mask_write_tbl]; calm. Qed.
Local Hint Resolve mask_write_tbl_calm : bsp.

Lemma write_pairs_calm start base cnt tbl : calm (write_pairs c start base cnt tbl).
Proof. revert cnt. induction tbl as [|[]]; intros; cbn [write_pairs]; calm. Qed.
Local Hint Resolve write_pairs_calm : bsp.

Lemma write_pairs_on_calm start base cnt tbl : calm (write_pairs_on c start base cnt tbl).
Proof. revert cnt. induction tbl as [|[]]; intros; cbn [write_pairs_on]; calm. Qed.
Local Hint Resolve write_pairs_on_calm : bsp.

Lemma current_firmware_calm : calm current_firmware.
Proof. unfold current_firmware. calm. Qed.
Local Hint Resolve current_firmware_calm : bsp.

Lemma uninit_calm : calm (uninit stack).
Proof. unfold uninit. calm. Qed.
Local Hint Resolve uninit_calm : bsp.

Lemma load_images_calm p : calm (load_images c files p).
Proof. unfold load_images. calm. Qed.
Local Hint Resolve load_images_calm : bsp.

Lemma unpack_calm p h : calm (unpack p h).
Proof. unfold unpack. calm. Qed.
Local Hint Resolve unpack_calm : bsp.

Lemma trap_data_calm l : calm (aicbt_patch_trap_data_load c files l).
Proof. unfold aicbt_patch_trap_data_load. cbv zeta. calm. Qed.
Local Hint Resolve trap_data_calm : bsp.

Lemma table_load_calm l : calm (aicbt_patch_table_load c l).
Proof. induction l; cbn [aicbt_patch_table_load]; calm. Qed.
Local Hint Resolve table_load_calm : bsp.

Lemma bt_init_calm : calm (aicbt_init c files).
Proof. unfold aicbt_init. calm. Qed.
Local Hint Resolve bt_init_calm : bsp.

Lemma patch_config_calm : calm (aicwifi_patch_config c stack).
Proof. unfold aicwifi_patch_config. cbv zeta. calm. Qed.

Lemma write_patch_calm a b d e l l' : calm (write_patch c a b d e l l').
Proof. unfold write_patch. cbv zeta. calm. Qed.
Local Hint Resolve patch_config_calm write_patch_calm : bsp.

Lemma patch_config_80_calm : calm (aicwifi_patch_config_8800d80 c stack).
Proof. unfold aicwifi_patch_config_8800d80. cbv zeta. calm. Qed.

Lemma patch_config_80x2_calm : calm (aicwifi_patch_config_8800d80x2 c stack).
Proof. unfold aicwifi_patch_config_8800d80x2. cbv zeta. calm. Qed.

Lemma sys_config_calm : calm (aicwifi_sys_config c).
Proof. unfold aicwifi_sys_config. cbn [rf_tbl_masked]. calm. Qed.
Local Hint Resolve patch_config_80_calm patch_config_80x2_calm sys_config_calm : bsp.

(** ** The start of the firmware *)

Definition fw_addr_of (s : bsp) : Z :=
  if bool_decide (chipid s = AIC8800D80X2) && (testmode s =? 0) then RAM_FMAC_FW_ADDR_D80X2 else RAM_FMAC_FW_ADDR.

(** What the choice of the firmware depends on. *)
Definition same_choice (s s' : bsp) : Prop :=
  chipid s' = chipid s /\ testmode s' = testmode s /\ cpmode s' = cpmode s /\ firmware_list s' = firmware_list s.

(** The computation ends with the start or does not start anything. *)
Definition starts {A} (m : M A) : Prop :=
  forall s r s', m s = Ok (r, s') ->
  same_choice s s' /\
  exists q t, log s' = log s ++ q ++ t /\ no_start q /\
    (t = [] \/ exists o, t = [(StartApp (fw_addr_of s) HOST_START_APP_AUTO, o)]).

Lemma starts_after {A} (m : M Z) (k : M A) (f : Z -> A) :
  calm m -> starts k -> starts (ret ← m; if ret =? 0 then k else mret (f ret)).
Proof.
  intros Hm Hk s r s' H. apply bind_M_inv in H as (a & s1 & H1 & H2).
  destruct (Hm _ _ _ H1) as (es & -> & He). destruct (a =? 0).
  - destruct (Hk _ _ _ H2) as (Hs & q & t & Hl & Hq & Ht). split; [exact Hs |].
    exists (es ++ q), t. split; [rewrite Hl; cbn; by rewrite <- !app_assoc |]. split; [by apply free_app | exact Ht].
  - injection H2 as <- <-. split; [done |]. exists es, []. rewrite app_nil_r. auto.
Qed.

Lemma starts_last (m : M Z) (f : Z -> Z) : starts m -> starts (ret ← m; if ret =? 0 then mret 0 else mret (f ret)).
Proof.
  intros Hm s r s' H. apply bind_M_inv in H as (a & s1 & H1 & H2).
  assert (s1 = s') as -> by (destruct (a =? 0); by injection H2). by apply (Hm _ _ _ H1).
Qed.

Lemma start_starts : starts (aicwifi_start_from_bootrom c stack).
Proof.
  intros s r s' H. unfold aicwifi_start_from_bootrom in H.
  apply bind_M_inv in H as (x & s1 & [= <- <-] & H). apply bind_M_inv in H as (cfm & s1 & [= <- <-] & H).
  apply bind_M_inv in H as ([ret v] & s1 & H1 & H).
  destruct (send_quiet _ _ _ _ _ H1) as (es & -> & o & -> & _).
  assert (Hs : log s' = log s ++ [(StartApp (fw_addr_of s) HOST_START_APP_AUTO, o)] /\ same_choice s s').
  { destruct (ret =? 0); injection H as <- <-; done. }
  destruct Hs as [Hl Hs]. split; [exact Hs |]. exists [], [(StartApp (fw_addr_of s) HOST_START_APP_AUTO, o)].
  split; [exact Hl |]. split; [apply Forall_nil_2 |]. right. by exists o.
Qed.

(** The image of the current firmware is in the log, block by block. *)
Definition image_written (s : bsp) (a : Z) (up : list event) : Prop :=
  exists fw img, firmware_list s !! Z.to_nat (cpmode s) = Some fw /\ rwnx_load_firmware files (wl_fw fw) = Some img /\
    up.*1 = image_requests 1024 a img /\ Forall ok_event up.

Lemma fw_upload_spec a s s' :
  fw_upload c files a s = Ok (0, s') -> exists up, s' = s <| log ::= (.++ up) |> /\ image_written s a up.
Proof.
  unfold fw_upload. intros H. apply bind_M_inv in H as (fw & s1 & H1 & H).
  unfold current_firmware in H1. apply bind_M_inv in H1 as (x & s2 & [= <- <-] & H1).
  destruct (firmware_list s !! Z.to_nat (cpmode s)) as [fw'|] eqn:Ef; [| done]. injection H1 as <- <-.
  unfold rwnx_plat_bin_fw_upload_android in H. destruct (rwnx_load_firmware files (wl_fw fw')) as [img|] eqn:Ei; [| done].
  rewrite (image_spec c 1024) in H by lia. apply requests_log in H as (es & -> & _ & He). destruct (He eq_refl) as [H1 H2].
  exists es. split; [done |]. by exists fw', img.
Qed.

Lemma fw_upload_calm a : calm (fw_upload c files a).
Proof. unfold fw_upload. calm; eauto with bsp. Qed.

Lemma image_no_start blk a img : Forall (fun r => is_start r = false) (image_requests blk a img).
Proof.
  unfold image_requests. generalize (length img) as n. intros n. revert a img.
  induction n as [|n IH]; intros a [|x l]; cbn [image_reqs]; constructor; auto.
Qed.

(** No start at all, or one at the end, of an image that was written. *)
Definition started_well (s s' : bsp) : Prop :=
  exists es t, log s' = log s ++ es ++ t /\ no_start es /\
    (t = [] \/ exists o p up q, t = [(StartApp (fw_addr_of s') HOST_START_APP_AUTO, o)] /\
      es = p ++ up ++ q /\ image_written s' (fw_addr_of s') up).

Lemma upload_then_start (k : M Z) s r s' :
  starts k -> (orfail fw_upload c files (fw_addr_of s); k) s = Ok (r, s') -> same_choice s s' /\ started_well s s'.
Proof.
  intros Hk H. apply bind_M_inv in H as (a & s1 & H1 & H). destruct (Z.eqb_spec a 0) as [-> |].
  - apply fw_upload_spec in H1 as (up & -> & Hu). destruct (Hk _ _ _ H) as ((E1 & E2 & E3 & E4) & q & t & Hl & Hq & Ht).
    split; [by repeat split |]. exists (up ++ q), t.
    split; [rewrite Hl; cbn; by rewrite <- !app_assoc |]. assert (Hu' := Hu). destruct Hu' as (fw & img & H1 & H2 & H3 & H4).
    assert (Ea : fw_addr_of s' = fw_addr_of s).
    { unfold fw_addr_of. cbn in E1, E2. by rewrite E1, E2. }
    split.
    + apply free_app; [| done]. apply (Forall_fmap fst (fun r => is_start r = false)). rewrite H3. apply image_no_start.
    + destruct Ht as [-> | (o & ->)]; [by left |]. right. exists o, [], up, q. rewrite Ea.
      split; [done |]. split; [done |]. exists fw, img. cbn in E3, E4. by rewrite E3, E4.
  - injection H as <- <-. destruct (fw_upload_calm _ _ _ _ H1) as (es & -> & He).
    split; [done |]. exists es, []. rewrite app_nil_r. auto.
Qed.

Definition loads_image (ch : chip) : bool := match ch with AIC8801 | AIC8800D80 | AIC8800D80X2 => true | _ => false end.

Lemma wifi_init_starts s r s' :
  loads_image (chipid s) = true -> aicwifi_init c files stack s = Ok (r, s') -> same_choice s s' /\ started_well s s'.
Proof.
  intros Hc H. unfold aicwifi_init in H. apply bind_M_inv in H as (x & s1 & [= <- <-] & H).
  destruct (chipid s) eqn:E; try done.
  - apply (upload_then_start (orfail aicwifi_patch_config c stack; orfail aicwifi_sys_config c;
      orfail aicwifi_start_from_bootrom c stack; mret 0) s r s').
    { apply (starts_after _ _ (fun _ => -1)); [eauto with bsp |]. apply (starts_after _ _ (fun _ => -1)); [eauto with bsp |].
      apply (starts_last _ (fun _ => -1)), start_starts. }
    unfold fw_addr_of. by rewrite E.
  - apply (upload_then_start (orfail aicwifi_patch_config_8800d80 c stack; orfail aicwifi_sys_config_8800d80;
      orfail aicwifi_start_from_bootrom c stack; mret 0) s r s').
    { apply (starts_after _ _ (fun _ => -1)); [eauto with bsp |]. apply (starts_after _ _ (fun _ => -1)); [apply free_ret |].
      apply (starts_last _ (fun _ => -1)), start_starts. }
    unfold fw_addr_of. by rewrite E.
  - apply (upload_then_start (orfail aicwifi_patch_config_8800d80x2 c stack; orfail aicwifi_start_from_bootrom c stack; mret 0) s r s').
    { apply (starts_after _ _ (fun _ => -1)); [eauto with bsp |]. apply (starts_last _ (fun _ => -1)), start_starts. }
    unfold fw_addr_of. rewrite E. exact H.
Qed.

(** Steps before the firmware is chosen: they keep the chip and the mode. *)
Definition soft {A} (m : M A) : Prop :=
  forall s a s', m s = Ok (a, s') ->
  chipid s' = chipid s /\ testmode s' = testmode s /\ exists es, log s' = log s ++ es /\ no_start es.

Lemma soft_of_calm {A} (m : M A) : calm m -> soft m.
Proof. intros H s a s' E. destruct (H _ _ _ E) as (es & -> & He). repeat split. by exists es. Qed.

Lemma soft_bind {A B} (m : M A) (f : A -> M B) : soft m -> (forall a, soft (f a)) -> soft (m ≫= f).
Proof.
  intros Hm Hf s b s' H. apply bind_M_inv in H as (a & s1 & H1 & H2).
  destruct (Hm _ _ _ H1) as (E1 & E2 & es & E3 & He). destruct (Hf _ _ _ _ H2) as (F1 & F2 & es' & F3 & He').
  split; [congruence |]. split; [congruence |]. exists (es ++ es').
  split; [by rewrite F3, E3, app_assoc | by apply free_app].
Qed.

Lemma soft_modify f :
  (forall s, chipid (f s) = chipid s /\ testmode (f s) = testmode s /\ log (f s) = log s) -> soft (modify f).
Proof.
  intros Hf s a s' [= <- <-]. destruct (Hf s) as (-> & -> & ->). repeat split. exists [].
  split; [by rewrite app_nil_r | apply Forall_nil_2].
Qed.

Ltac soft :=
  repeat match goal with
  | |- soft (mbind _ _) => apply soft_bind; [| intros]
  | |- soft (modify _) => apply soft_modify; intros; repeat case_match; repeat split
  | |- soft (if ?b then _ else _) => destruct b
  | |- soft _ => apply soft_of_calm; solve [eauto with bsp]
  end.

Lemma identify_soft s r s' :
  loads_image (chipid s) = true -> identify c stack s = Ok (r, s') ->
  chipid s' = chipid s /\ testmode s' = testmode s /\ exists es, log s' = log s ++ es /\ no_start es.
Proof.
  intros Hc H. unfold identify in H. apply bind_M_inv in H as (x & s1 & [= <- <-] & H). revert H.
  match goal with |- ?m s = _ -> _ => enough (Hs : soft m) by exact (Hs s r s') end.
  apply soft_bind; [apply soft_of_calm; eauto with bsp | intros cfm].
  apply soft_bind; [apply soft_of_calm; eauto with bsp | intros [ret d]].
  destruct (negb _); [apply soft_of_calm, free_ret |]. cbv zeta.
  destruct (chipid s); try done; soft; apply soft_of_calm; unfold aicbsp_system_config, aicbsp_system_config_8800d80; eauto with bsp.
Qed.

Lemma last_start l pre e x post :
  no_start l -> is_start x.1 = true -> l ++ [e] = pre ++ x :: post -> post = [] /\ pre = l /\ x = e.
Proof.
  intros Hl Hx H. destruct post as [|y post _] using rev_ind.
  - apply app_inj_tail in H as [-> ->]. auto.
  - exfalso. rewrite app_comm_cons, app_assoc in H. apply app_inj_tail in H as [-> _].
    apply Forall_app in Hl as [_ Hl]. apply Forall_cons in Hl as [Hl _]. congruence.
Qed.

Lemma driver_init_well fuel s r s' :
  loads_image (chipid s) = true -> no_start (log s) -> aicbsp_driver_fw_init c files stack fuel s = Ok (r, s') ->
  exists s1, no_start (log s1) /\ started_well s1 s'.
Proof.
  intros Hc Hn H. unfold aicbsp_driver_fw_init in H.
  apply bind_M_inv in H as ([] & s1 & [= <-] & H). apply bind_M_inv in H as ([ret bt] & s1 & H1 & H).
  apply identify_soft in H1 as (E1 & E2 & es & El & He); [| done]. cbn in E1, E2, El.
  assert (Hn1 : no_start (log s1)) by (rewrite El; by apply free_app).
  assert (Hc1 : loads_image (chipid s1) = true) by by rewrite E1.
  assert (Hdone : started_well s1 s1) by (exists [], []; rewrite app_nil_r; repeat split; [apply Forall_nil_2 | by left]).
  destruct (ret =? 0); [| injection H as <- <-; by exists s1].
  apply bind_M_inv in H as (x & s2 & [= <- <-] & H).
  apply bind_M_inv in H as (r1 & s2 & H1 & H).
  assert (s2 = s1) as -> by (revert H1; destruct (chipid s1); try done; by intros [= _ <-]).
  destruct (r1 =? 0); [| injection H as <- <-; by exists s1].
  apply bind_M_inv in H as (r2 & s2 & H2 & H).
  assert (Hs2 : exists es, s2 = s1 <| log ::= (.++ es) |> /\ no_start es).
  { revert H2. match goal with |- ?m s1 = _ -> _ => enough (Hm : calm m) by exact (Hm s1 r2 s2) end. calm; eauto with bsp. }
  destruct Hs2 as (es2 & -> & He2). destruct (r2 =? 0).
  - apply wifi_init_starts in H as [_ H]; [| done]. eexists. split; [| exact H]. cbn. by apply free_app.
  - injection H as <- <-. exists (s1 <| log ::= (.++ es2) |>). split; [cbn; by apply free_app |].
    exists [], []. rewrite app_nil_r. repeat split; [apply Forall_nil_2 | by left].
Qed.

(** C26. When an AIC8801, D80 or D80X2 is brought up, the firmware is started at most
    once, with the last request, at the address of the firmware of this chip, and only
    after every byte of the image of the current mode was written there in blocks that
    were all confirmed or dropped with the bus down; whatever fails in between, a chip
    is never started on a half-written image. *)
Theorem started_after_image fuel s r s' :
  loads_image (chipid s) = true -> no_start (log s) -> aicbsp_driver_fw_init c files stack fuel s = Ok (r, s') ->
  forall pre a t o post, log s' = pre ++ (StartApp a t, o) :: post ->
  post = [] /\ no_start pre /\ a = fw_addr_of s' /\ t = HOST_START_APP_AUTO /\
  exists p up q, pre = p ++ up ++ q /\ image_written s' a up.
Proof.
  intros Hc Hn H pre a t o post Hl.
  destruct (driver_init_well _ _ _ _ Hc Hn H) as (s1 & Hn1 & es & tl & El & He & Ht). rewrite Hl in El.
  assert (Hne : no_start (log s1 ++ es)) by by apply free_app. destruct Ht as [-> | (o' & p & up & q & -> & -> & Hu)].
  - exfalso. rewrite app_nil_r in El. rewrite <- El in Hne. apply Forall_app in Hne as [_ Hne].
    by apply Forall_cons in Hne as [? _].
  - rewrite app_assoc in El. symmetry in El. apply last_start in El as (-> & -> & [= -> -> ->]); [| done | done].
    repeat split; [done |]. exists (log s1 ++ p), up, q. by rewrite !app_assoc.
Qed.

End Runs.

(** ** A D80 that is brought up *)

Module Example.

(** Every request is served; every word reads as revision 3. *)
Definition ok_card : card := fun _ r => (Done 0, match r with MemRead _ => Some 0x30000 | _ => None end).

(** A table of one entry: the images belong at 0x161000 and 0x162000. *)
Definition table_file : list Z :=
  AICBT_PT_TAG ++ [0; 0; 0] ++ replicate 16 0 ++ bytes32 0 ++ bytes32 2 ++ bytes_of [0; 0x161000; 0; 0x162000].
Definition ok_files (name : string) : option (list Z) :=
  Some (if String.prefix "fw_patch_table" name then table_file else [1; 2; 3; 4; 5]).
Definition no_stack (_ : list event) : Z := 0.
Definition d80 : bsp := aicbsp_init AIC8800D80 0 false.

Definition booted : bsp := match aicbsp_driver_fw_init ok_card ok_files no_stack 0 d80 with Ok (_, s') => s' | _ => d80 end.

Lemma started_after_image_witness :
  aicbsp_driver_fw_init ok_card ok_files no_stack 0 d80 = Ok (0, booted) /\
  exists pre, log booted = pre ++ [(StartApp 0x120000 HOST_START_APP_AUTO, Done 0)] /\
    exists p up q, pre = p ++ up ++ q /\ image_written ok_files booted 0x120000 up.
Proof.
  assert (E : aicbsp_driver_fw_init ok_card ok_files no_stack 0 d80 = Ok (0, booted)) by (vm_compute; reflexivity).
  assert (El : log booted = removelast (log booted) ++ [(StartApp 0x120000 HOST_START_APP_AUTO, Done 0)])
    by (vm_compute; reflexivity).
  split; [exact E |]. exists (removelast (log booted)). split; [exact El |].
  destruct (started_after_image ok_card ok_files no_stack 0 d80 0 booted eq_refl (Forall_nil_2 _) E _ _ _ _ _ El)
    as (_ & _ & _ & _ & H). exact H.
Defined.

End Example.

End BspRuns.
