(* ===== verification/BspBoot.v ===== *)
(** * Bringing an AIC8800D80 up: the memory of the chip
    (refinement theorem on [BspWifi])

    [mem] is the memory of a chip, byte by byte, [apply_event] what a request
    that was served does to it.  A [healthy] card serves every request and
    answers a read with the word in its memory.  [d80_memory] says, without
    requests, what the memory holds when the bring-up of a D80 is complete; the
    bring-up of the code leaves exactly that behind. *)

From S2P Require Import Prelude Bsp BspBt BspTab BspWifi BspLog BspRuns.
From Stdlib Require Import String.
From stdpp Require Import list.
Import Bsp BspBt BspTab BspWifi BspLog BspRuns.
Open Scope Z_scope.
Open Scope list_scope.

Module BspBoot.

(** ** Memory *)

Definition mem : Type := Z -> Z.
#[export] Instance mem_equiv : Equiv mem := fun m m' => forall x, m x = m' x.
#[export] Instance mem_equivalence : Equivalence (≡@{mem}).
Proof. split; [by intros m x | by intros m m' H x | intros m1 m2 m3 H1 H2 x; by rewrite H1]. Qed.

Definition store (m : mem) (a : Z) (b : list Z) : mem := fun x =>
  if x <? a then m x else match b !! Z.to_nat (x - a) with Some v => v | None => m x end.
Definition word (m : mem) (a : Z) : Z := le32 [m a; m (a + 1); m (a + 2); m (a + 3)].

Definition apply_req (m : mem) (r : req) : mem :=
  match r with
  | MemWrite a v => store m a (bytes32 v)
  | MemMaskWrite a k v => store m a (bytes32 (Z.lor (Z.ldiff (word m a) k) (Z.land v k)))
  | MemBlockWrite a b => store m a b
  | MemRead _ | StartApp _ _ => m
  end.
Definition apply_event (m : mem) (e : event) : mem := match e.2 with Done 0 => apply_req m e.1 | _ => m end.
Definition replay (m : mem) (l : list event) : mem := foldl apply_event m l.

#[export] Instance store_proper : Proper ((≡) ==> eq ==> eq ==> (≡)) store.
Proof. intros m m' H a _ <- b _ <- x. unfold store. by rewrite H. Qed.
#[export] Instance word_proper : Proper ((≡) ==> eq ==> eq) word.
Proof. intros m m' H a _ <-. unfold word. by rewrite !H. Qed.
#[export] Instance apply_req_proper : Proper ((≡) ==> eq ==> (≡)) apply_req.
Proof. intros m m' H r _ <-. destruct r; cbn; by rewrite !H. Qed.

(** Two stores one behind the other are one. *)
Lemma store_store m a b b' : store (store m a b) (a + Z.of_nat (length b)) b' ≡ store m a (b ++ b').
Proof.
  intros x. unfold store. destruct (Z.ltb_spec x a).
  { by rewrite (proj2 (Z.ltb_lt _ _)) by lia. }
  destruct (Z.ltb_spec x (a + Z.of_nat (length b))).
  - rewrite lookup_app_l by lia. done.
  - rewrite lookup_app_r by lia. replace (Z.to_nat (x - a) - length b)%nat with (Z.to_nat (x - (a + Z.of_nat (length b)))) by lia.
    rewrite (lookup_ge_None_2 b) by lia. done.
Qed.

Lemma store_nil m a : store m a [] ≡ m.
Proof. intros x. unfold store. by destruct (x <? a). Qed.

(** ** The card *)

Definition healthy (m0 : mem) (c : card) : Prop :=
  forall l r, exists v, c l r = (Done 0, v) /\ forall a, r = MemRead a -> v = Some (word (replay m0 l) a).

(** A card that is. *)
Definition served (m0 : mem) : card := fun l r =>
  (Done 0, match r with MemRead a => Some (word (replay m0 l) a) | _ => None end).

Lemma served_healthy m0 : healthy m0 (served m0).
Proof. intros l r. eexists. split; [done |]. by intros a ->. Qed.

Definition sent (l : list req) : list event := (fun r => (r, Done 0)) <$> l.

Lemma sent_no_start l : Forall (fun r => is_start r = false) l -> no_start (sent l).
Proof. intros H. by apply Forall_fmap. Qed.

Definition apply_reqs (m : mem) (l : list req) : mem := foldl apply_req m l.

#[export] Instance apply_reqs_proper : Proper ((≡) ==> eq ==> (≡)) apply_reqs.
Proof. intros m m' H l _ <-. revert m m' H. induction l as [|r l IH]; intros m m' H; [done |]. apply IH. by rewrite H. Qed.

Lemma replay_app m l l' : replay m (l ++ l') = replay (replay m l) l'.
Proof. apply foldl_app. Qed.

Lemma replay_sent m l : replay m (sent l) = apply_reqs m l.
Proof. revert m. induction l as [|r l IH]; intros m; [done |]. apply IH. Qed.

Lemma apply_reqs_app m l l' : apply_reqs m (l ++ l') = apply_reqs (apply_reqs m l) l'.
Proof. apply foldl_app. Qed.

(** An image that is written in blocks is in memory in one piece. *)
Lemma apply_image m blk a img :
  (0 < blk)%nat -> 0 <= a -> a + Z.of_nat (length img) <= 2 ^ 32 ->
  apply_reqs m (image_requests blk a img) ≡ store m a img.
Proof.
  intros Hb. remember (length img) as n eqn:En. revert m a img En.
  induction (lt_wf n) as [n _ IH]. intros m a img En Ha Hl.
  destruct img as [|x img]; [by rewrite store_nil |].
  assert (Hn : img <> [] \/ img = []) by (destruct img; [by right | by left]).
  rewrite image_requests_cons by done. cbn [apply_reqs foldl apply_req]. fold (apply_reqs).
  set (l := x :: img) in *. assert (0 < length l)%nat by (subst l; simpl; lia).
  rewrite u32_id by lia. destruct (Nat.le_gt_cases (length l) blk) as [Hk | Hk].
  - rewrite drop_ge, take_ge by lia. done.
  - specialize (IH (length (drop blk l))). rewrite IH; rewrite ?length_drop; try lia; try done.
    replace (a + Z.of_nat blk) with (a + Z.of_nat (length (take blk l))) by (rewrite length_take; lia).
    by rewrite store_store, take_drop.
Qed.

(** ** What the bring-up leaves behind *)

(** The words of a table at their addresses. *)
Definition put_tbl (m : mem) (tbl : list (Z * Z)) : mem := foldl (fun m e => store m e.1 (bytes32 e.2)) m tbl.

(** The pairs the Bluetooth table comes to. *)
Fixpoint bt_pairs (s : bsp) (l : list aicbt_patch_table) : res (list (Z * Z)) :=
  match l with
  | [] => Ok []
  | p :: l =>
    d ← patch_data s p; r ← bt_pairs s l;
    if AICBT_PT_VER =? pt_type p then if printable d then Ok r else Fault else Ok (pairs_of d ++ r)
  end.

(** The pairs of the patch: address, setting. *)
Fixpoint patch_words (start_addr config_base cnt : Z) (tbl : list (Z * Z)) : list (Z * Z) :=
  match tbl with
  | [] => []
  | (o, v) :: tbl =>
    (u32 (start_addr + 8 * cnt), u32 (o + config_base)) :: (u32 (start_addr + 8 * cnt + 4), v) ::
    patch_words start_addr config_base (cnt + 1) tbl
  end.

(** The descriptor: magic words, place and number of the pairs, no blocks. *)
Definition d80_patch (str_base config_base : Z) (adap : bool) : list (Z * Z) :=
  let tbl := patch_tbl_8800d80 ++ (if adap then adaptivity_patch_tbl_8800d80 else []) in
  [(u32 (str_base + 0), AIC_PATCH_MAGIG_NUM); (u32 (str_base + 8), AIC_PATCH_MAGIG_NUM_2);
   (u32 (str_base + 4), 0x0016F800); (u32 (str_base + 12), Z.of_nat (length tbl))] ++
  patch_words 0x0016F800 config_base 0 tbl ++
  [(u32 (str_base + 48), 0); (u32 (str_base + 52), 0); (u32 (str_base + 56), 0); (u32 (str_base + 60), 0)].

Definition d80_memory (m0 : mem) (addr_adid addr_patch : Z) (adid patch : list Z) (bt : list (Z * Z)) (img : list Z) (adap : bool) : mem :=
  let m := store (put_tbl (store (store m0 addr_adid adid) addr_patch patch) bt) RAM_FMAC_FW_ADDR img in
  put_tbl m (d80_patch (word m (RAM_FMAC_FW_ADDR + 0x0198 + 8)) (word m (RAM_FMAC_FW_ADDR + 0x0198)) adap).

Section Boot.
Context (m0 : mem) (c : card) (Hc : healthy m0 c) (files : string -> option (list Z)) (stack : list event -> Z).

Lemma run_requests l s : requests c l s = Ok (0, s <| log ::= (.++ sent l) |>).
Proof.
  revert s. induction l as [|r l IH]; intros s; [by rewrite log_nil |].
  rewrite requests_cons. destruct (Hc (log s) r) as (v & E & _). rewrite E. cbn [fst ret_of Z.eqb]. rewrite IH, log_app. done.
Qed.

Lemma run_write a v s : rwnx_send_dbg_mem_write_req c a v s = Ok (0, s <| log ::= (.++ sent [MemWrite a v]) |>).
Proof.
  unfold rwnx_send_dbg_mem_write_req. rewrite (write_spec c (MemWrite a v)).
  by destruct (Hc (log s) (MemWrite a v)) as (x & -> & _).
Qed.

Lemma run_read a cfm s :
  rwnx_send_dbg_mem_read_req c a cfm s = Ok ((0, word (replay m0 (log s)) a), s <| log ::= (.++ sent [MemRead a]) |>).
Proof.
  rewrite read_spec. destruct (Hc (log s) (MemRead a)) as (x & -> & Hx). by rewrite (Hx a eq_refl).
Qed.

Lemma boot_start a t cfm s :
  exists v, rwnx_send_dbg_start_app_req c a t cfm s = Ok ((0, v), s <| log ::= (.++ sent [StartApp a t]) |>).
Proof.
  unfold rwnx_send_dbg_start_app_req, send. destruct (Hc (log s) (StartApp a t)) as (x & -> & _). by eexists.
Qed.

Lemma run_upload a name img s :
  rwnx_load_firmware files name = Some img ->
  rwnx_plat_bin_fw_upload_android c files a name s = Ok (0, s <| log ::= (.++ sent (image_requests 1024 a img)) |>).
Proof. intros H. rewrite (upload_spec _ _ _ _ _ _ H). apply run_requests. Qed.

Lemma run_tbl tbl s : write_tbl c tbl s = Ok (0, s <| log ::= (.++ sent (tbl_requests tbl)) |>).
Proof. rewrite tbl_spec. apply run_requests. Qed.

Lemma run_pairs start base cnt tbl s :
  write_pairs c start base cnt tbl s = Ok (0, s <| log ::= (.++ sent (pair_requests start base cnt tbl)) |>).
Proof. rewrite pairs_spec. apply run_requests. Qed.

(** [rewrite] a step whose outcome is known. *)
Ltac go H := erewrite bind_M by (first [apply H | eapply H]); cbn [Z.eqb].

Lemma bt_pairs_log s es l : bt_pairs (s <| log ::= (.++ es) |>) l = bt_pairs s l.
Proof. induction l as [|p l IH]; [done |]. cbn [bt_pairs]. by rewrite IH. Qed.

Lemma run_table l s bt :
  bt_pairs s l = Ok bt -> aicbt_patch_table_load c l s = Ok (0, s <| log ::= (.++ sent (tbl_requests bt)) |>).
Proof.
  revert s bt. induction l as [|p l IH]; intros s bt; cbn [bt_pairs aicbt_patch_table_load].
  { intros [= <-]. by rewrite log_nil. }
  intros H. apply bind_Ok in H as (d & Hd & H). apply bind_Ok in H as (r & Hr & H).
  erewrite bind_M by (rewrite Hd; done). destruct (AICBT_PT_VER =? pt_type p).
  - destruct (printable d); [| done]. injection H as <-. by apply IH.
  - injection H as <-. go run_tbl. rewrite IH with (bt := r) by by rewrite bt_pairs_log.
    rewrite log_app. unfold tbl_requests, sent. by rewrite !fmap_app.
Qed.

(** The images and the table of the Bluetooth part. *)
Lemma run_bt s fw rawdata h l p adid patch bt rev :
  chipid s = AIC8800D80 -> chip_rev s = rev -> firmware_list s !! Z.to_nat (cpmode s) = Some fw ->
  rwnx_load_firmware files (bt_table fw) = Some rawdata -> parse_patch_table rawdata = Ok (Some (h :: l)) ->
  aicbt_patch_info_unpack
    (if rev =? CHIP_REV_U01 then PatchInfo 0 0 0x002017E0 0 0x0020B2B0 0 0 0 0
     else if (rev =? CHIP_REV_U02) || (rev =? CHIP_REV_U03) then PatchInfo 0 0 0x00201940 0 0x0020b43c 0 0 0 0
     else PatchInfo 0 0 0 0 0 0 0 0 0) h = Ok p -> info_len p <> 0 ->
  rwnx_load_firmware files (bt_adid fw) = Some adid -> rwnx_load_firmware files (bt_patch fw) = Some patch ->
  bt_pairs s (h :: l) = Ok bt ->
  aicbt_init c files s = Ok (0, s <| log ::= (.++ sent (image_requests 1024 (addr_adid p) adid ++
    image_requests 1024 (addr_patch p) patch ++ tbl_requests bt)) |>).
Proof.
  intros E1 E2 Ef Et Ep Eu Hp Ea Eb Hbt.
  assert (Hfw : forall es, current_firmware (s <| log ::= (.++ es) |>) = Ok (fw, s <| log ::= (.++ es) |>)).
  { intros es. unfold current_firmware. erewrite bind_M by done. cbn. by rewrite Ef. }
  assert (Hfw0 : current_firmware s = Ok (fw, s)) by (rewrite <- (log_nil s); apply Hfw).
  assert (Hal : aicbt_patch_table_alloc files (bt_table fw) = Ok (h :: l)).
  { unfold aicbt_patch_table_alloc. by rewrite Et, Ep. }
  unfold aicbt_init. go Hfw0. erewrite (bind_M _ _ s (h :: l) s) by by rewrite Hal.
  assert (Hl : aicbt_patch_trap_data_load c files (h :: l) s =
    Ok (0, s <| log ::= (.++ sent (image_requests 1024 (addr_adid p) adid ++ image_requests 1024 (addr_patch p) patch)) |>)).
  { unfold aicbt_patch_trap_data_load. erewrite bind_M by done. rewrite E1. cbv zeta. rewrite E2.
    erewrite bind_M by exact (f_equal (fun r => q ← r; Ok (q, s)) Eu).
    rewrite (proj2 (Z.eqb_neq _ _)) by done. unfold load_images. go Hfw0.
    go (run_upload (addr_adid p) _ _ s Ea). go (run_upload (addr_patch p) _ _ (s <| log ::= (.++ sent (image_requests 1024 (addr_adid p) adid)) |>) Eb).
    unfold mret, M_ret. rewrite log_app. unfold sent. by rewrite fmap_app. }
  go Hl. erewrite bind_M by (apply run_table; rewrite bt_pairs_log; exact Hbt). cbn [Z.eqb].
  unfold mret, M_ret. rewrite log_app. unfold sent. by rewrite !fmap_app, <- app_assoc.
Qed.

Lemma patch_words_app start base cnt l1 l2 :
  patch_words start base cnt (l1 ++ l2) = patch_words start base cnt l1 ++ patch_words start base (cnt + Z.of_nat (length l1)) l2.
Proof.
  revert cnt. induction l1 as [|[o v] l1 IH]; intros cnt; [by rewrite Z.add_0_r |].
  cbn [app patch_words length]. rewrite IH. by replace (cnt + 1 + Z.of_nat (length l1)) with (cnt + Z.of_nat (S (length l1))) by lia.
Qed.

Lemma pair_requests_words start base cnt tbl : pair_requests start base cnt tbl = tbl_requests (patch_words start base cnt tbl).
Proof. revert cnt. induction tbl as [|[o v] tbl IH]; intros cnt; [done |]. cbn [pair_requests patch_words]. by rewrite IH. Qed.

Lemma run_adap (adap : bool) start base cnt tbl s :
  (if adap then write_pairs c start base cnt tbl else mret 0) s =
  Ok (0, s <| log ::= (.++ sent (if adap then pair_requests start base cnt tbl else [])) |>).
Proof. destruct adap; [apply run_pairs | symmetry; cbn [sent fmap list_fmap]; by rewrite log_nil]. Qed.

Lemma run_patch str base adap s :
  write_patch c str base 0x0016F800 adap patch_tbl_8800d80 adaptivity_patch_tbl_8800d80 s =
  Ok (0, s <| log ::= (.++ sent (tbl_requests (d80_patch str base adap))) |>).
Proof.
  unfold write_patch. cbv zeta. do 4 go run_write. go run_pairs.
  go run_adap. do 4 go run_write. unfold mret, M_ret. rewrite !log_app, pair_requests_words. do 3 f_equal.
  destruct adap; [rewrite pair_requests_words |]; reflexivity.
Qed.

Lemma bt_pairs_ext s s' l :
  chipid s' = chipid s -> hwinfo s' = hwinfo s -> cpmode s' = cpmode s -> bt_pairs s' l = bt_pairs s l.
Proof.
  intros E1 E2 E3. induction l as [|q l IH]; [done |]. cbn [bt_pairs].
  assert (Hq : patch_data s' q = patch_data s q).
  { unfold patch_data, btmode_stores. by rewrite E1, E2, E3. }
  by rewrite Hq, IH.
Qed.

Lemma put_tbl_reqs m tbl : apply_reqs m (tbl_requests tbl) = put_tbl m tbl.
Proof. revert m. induction tbl as [|[a v] tbl IH]; intros m; [done |]. apply IH. Qed.

#[local] Instance put_tbl_proper : Proper ((≡) ==> eq ==> (≡)) put_tbl.
Proof. intros m m' H tbl _ <-. rewrite <- !put_tbl_reqs. by rewrite H. Qed.

Lemma read_memory a cfm s m :
  replay m0 (log s) ≡ m ->
  rwnx_send_dbg_mem_read_req c a cfm s = Ok ((0, word m a), s <| log ::= (.++ sent [MemRead a]) |>).
Proof. intros H. rewrite run_read. by rewrite H. Qed.

Lemma replay_read s a : replay m0 (log (s <| log ::= (.++ sent [MemRead a]) |>)) ≡ replay m0 (log s).
Proof. cbn. by rewrite replay_app. Qed.

(** The WLAN part, from a state whose log is [log s]. *)
Lemma run_wifi s fw img :
  chipid s = AIC8800D80 -> firmware_list s !! Z.to_nat (cpmode s) = Some fw ->
  rwnx_load_firmware files (wl_fw fw) = Some img ->
  Z.of_nat (length img) <= 2 ^ 32 - RAM_FMAC_FW_ADDR ->
  exists s' l, aicwifi_init c files stack s = Ok (0, s') /\
    log s' = log s ++ sent (image_requests 1024 RAM_FMAC_FW_ADDR img) ++ sent l ++ sent [StartApp RAM_FMAC_FW_ADDR HOST_START_APP_AUTO] /\
    Forall (fun r => is_start r = false) l /\
    let m := store (replay m0 (log s)) RAM_FMAC_FW_ADDR img in
    forall m', m' ≡ m -> apply_reqs m' l ≡
      put_tbl m (d80_patch (word m (RAM_FMAC_FW_ADDR + 0x0198 + 8)) (word m (RAM_FMAC_FW_ADDR + 0x0198)) (adap_test s)).
Proof.
  intros E1 Ef Ei Hl. unfold aicwifi_init. rewrite (bind_M get _ s s s) by done. rewrite E1.
  rewrite (bind_M (fw_upload c files RAM_FMAC_FW_ADDR) _ s 0 (s <| log ::= (.++ sent (image_requests 1024 RAM_FMAC_FW_ADDR img)) |>)).
  2: { unfold fw_upload. rewrite (bind_M current_firmware _ s fw s); [by apply run_upload |].
       unfold current_firmware. rewrite (bind_M get _ s s s) by done. by rewrite Ef. }
  cbn [Z.eqb]. set (s1 := s <| log ::= (.++ sent (image_requests 1024 RAM_FMAC_FW_ADDR img)) |>).
  set (m := store (replay m0 (log s)) RAM_FMAC_FW_ADDR img).
  assert (Hm : replay m0 (log s1) ≡ m).
  { unfold s1. cbn. rewrite replay_app, replay_sent. apply apply_image; unfold RAM_FMAC_FW_ADDR in *; lia. }
  set (rd := [MemRead (RAM_FMAC_FW_ADDR + 0x0198); MemRead (RAM_FMAC_FW_ADDR + 0x0198 + 8)]).
  set (l := rd ++ tbl_requests (d80_patch (word m (RAM_FMAC_FW_ADDR + 0x0198 + 8)) (word m (RAM_FMAC_FW_ADDR + 0x0198)) (adap_test s))).
  rewrite (bind_M (aicwifi_patch_config_8800d80 c stack) _ s1 0 (s1 <| log ::= (.++ sent l) |>)).
  2: { unfold aicwifi_patch_config_8800d80. rewrite (bind_M get _ s1 s1 s1) by done.
       rewrite (bind_M (uninit stack) _ s1 (stack (log s1)) s1) by done.
       rewrite (bind_M _ _ _ _ _ (read_memory _ _ s1 m Hm)). cbn [Z.eqb].
       erewrite bind_M by (apply read_memory; etransitivity; [apply replay_read | exact Hm]). cbn [Z.eqb].
       rewrite run_patch, !log_app. unfold l, rd, sent. by rewrite <- !fmap_app. }
  cbn [Z.eqb]. rewrite (bind_M aicwifi_sys_config_8800d80 _ _ 0 (s1 <| log ::= (.++ sent l) |>)) by done. cbn [Z.eqb].
  set (s2 := s1 <| log ::= (.++ sent l) |>).
  destruct (boot_start RAM_FMAC_FW_ADDR HOST_START_APP_AUTO (stack (log s2)) s2) as [v Hv].
  eexists (s2 <| log ::= (.++ sent [StartApp RAM_FMAC_FW_ADDR HOST_START_APP_AUTO]) |> <| hwinfo_r := Z.land v 255 |>), l.
  split; [| split; [cbn; by rewrite <- !app_assoc | split]].
  - rewrite (bind_M (aicwifi_start_from_bootrom c stack) _ s2 0
      (s2 <| log ::= (.++ sent [StartApp RAM_FMAC_FW_ADDR HOST_START_APP_AUTO]) |> <| hwinfo_r := Z.land v 255 |>)); [done |].
    unfold aicwifi_start_from_bootrom. rewrite (bind_M get _ s2 s2 s2) by done.
    rewrite (bind_M (uninit stack) _ s2 (stack (log s2)) s2) by done.
    assert (Ea : (if bool_decide (chipid s2 = AIC8800D80X2) && (testmode s2 =? 0) then RAM_FMAC_FW_ADDR_D80X2 else RAM_FMAC_FW_ADDR)
      = RAM_FMAC_FW_ADDR) by (change (chipid s2) with (chipid s); by rewrite E1).
    rewrite Ea. by rewrite (bind_M _ _ _ _ _ Hv).
  - unfold l. apply Forall_app. split; [by repeat constructor |]. unfold tbl_requests. apply Forall_fmap, Forall_true. done.
  - cbv zeta. intros m' Hm'. unfold l. rewrite apply_reqs_app. cbn [rd apply_reqs foldl apply_req]. fold apply_reqs.
    rewrite put_tbl_reqs. by rewrite Hm'.
Qed.

Lemma run_identify s rev :
  chipid s = AIC8800D80 -> log s = [] -> Z.land (Z.shiftr (word m0 0x40500000) 16) 0x3F = rev ->
  identify c stack s = Ok ((0, 1), s <| log ::= (.++ sent [MemRead 0x40500000]) |> <| chip_rev := rev |>
    <| firmware_list ::= fun l => if rev =? CHIP_REV_U01 then fw_8800d80_u01
                                  else if (rev =? CHIP_REV_U02) || (rev =? CHIP_REV_U03) then fw_8800d80_u02 else l |>).
Proof.
  intros E1 El Er. unfold identify. rewrite (bind_M get _ s s s) by done.
  rewrite (bind_M (uninit stack) _ s (stack (log s)) s) by done.
  rewrite (bind_M _ _ _ _ _ (read_memory _ _ s m0 ltac:(by rewrite El))). cbn [Z.eqb negb]. cbv zeta.
  rewrite E1, Er. reflexivity.
Qed.

(** Where the images belong, by the revision, before the table is consulted. *)
Definition d80_info (rev : Z) : patch_info_t :=
  if rev =? CHIP_REV_U01 then PatchInfo 0 0 0x002017E0 0 0x0020B2B0 0 0 0 0
  else if (rev =? CHIP_REV_U02) || (rev =? CHIP_REV_U03) then PatchInfo 0 0 0x00201940 0 0x0020b43c 0 0 0 0
  else PatchInfo 0 0 0 0 0 0 0 0 0.

Definition d80_firmware (rev : Z) : list firmware := if rev =? CHIP_REV_U01 then fw_8800d80_u01 else fw_8800d80_u02.

(** C25. Bringing up a D80 of a known revision whose requests are all served and whose
    firmware files are there and fit its memory returns success and leaves in the memory
    of the chip exactly the two Bluetooth images at the addresses of the patch table,
    the words of the table, the WLAN image at its address and the configuration patch at
    the place the image names; the start of the firmware is the last request and the
    only start. *)
Theorem d80_boot_refines fuel s rev fw rawdata h l p adid patch bt img :
  chipid s = AIC8800D80 -> log s = [] -> cpmode s = 0 \/ cpmode s = 1 ->
  Z.land (Z.shiftr (word m0 0x40500000) 16) 0x3F = rev -> rev ∈ [CHIP_REV_U01; CHIP_REV_U02; CHIP_REV_U03] ->
  d80_firmware rev !! Z.to_nat (cpmode s) = Some fw ->
  rwnx_load_firmware files (bt_table fw) = Some rawdata -> parse_patch_table rawdata = Ok (Some (h :: l)) ->
  aicbt_patch_info_unpack (d80_info rev) h = Ok p -> info_len p <> 0 ->
  rwnx_load_firmware files (bt_adid fw) = Some adid -> rwnx_load_firmware files (bt_patch fw) = Some patch ->
  0 <= addr_adid p /\ addr_adid p + Z.of_nat (length adid) <= 2 ^ 32 ->
  0 <= addr_patch p /\ addr_patch p + Z.of_nat (length patch) <= 2 ^ 32 ->
  bt_pairs s (h :: l) = Ok bt ->
  rwnx_load_firmware files (wl_fw fw) = Some img -> Z.of_nat (length img) <= 2 ^ 32 - RAM_FMAC_FW_ADDR ->
  exists s', aicbsp_driver_fw_init c files stack fuel s = Ok (0, s') /\
    replay m0 (log s') ≡ d80_memory m0 (addr_adid p) (addr_patch p) adid patch bt img (adap_test s) /\
    exists es, log s' = es ++ [(StartApp RAM_FMAC_FW_ADDR HOST_START_APP_AUTO, Done 0)] /\ no_start es.
Proof.
  intros E1 El Em Er Hrev Ef Et Ep Eu Hp Ea Eb Ha Hb Hbt Ei Hl.
  unfold aicbsp_driver_fw_init. set (s0 := s <| testmode := s32 (cpmode s) |>).
  rewrite (bind_M (modify _) _ s tt s0) by done.
  rewrite (bind_M _ _ _ _ _ (run_identify s0 rev E1 El Er)). cbn [Z.eqb].
  match goal with |- context [_ ≫= _] => match goal with |- context [(get ≫= _) ?t] => set (s1 := t) end end.
  rewrite (bind_M get _ s1 s1 s1) by done.
  assert (Hc1 : chipid s1 = AIC8800D80) by exact E1.
  assert (Ef1 : firmware_list s1 !! Z.to_nat (cpmode s1) = Some fw).
  { rewrite <- Ef. change (cpmode s1) with (cpmode s). f_equal. unfold s1, d80_firmware. cbn.
    apply elem_of_cons in Hrev as [-> | Hrev]; [done |]. apply elem_of_cons in Hrev as [-> | Hrev]; [done |].
    by apply list_elem_of_singleton in Hrev as ->. }
  rewrite Hc1. cbn [is_80n]. rewrite (bind_M (mret 0) _ s1 0 s1) by done. cbn [Z.eqb].
  assert (Hm4 : (testmode s1 =? 4) = false) by (change (testmode s1) with (s32 (cpmode s)); by destruct Em as [-> | ->]).
  rewrite Hm4. cbn [negb andb Z.eqb Pos.eqb].
  assert (Hbt1 : bt_pairs s1 (h :: l) = Ok bt) by (rewrite <- Hbt; by apply bt_pairs_ext).
  pose proof (run_bt s1 fw rawdata h l p adid patch bt rev Hc1 eq_refl Ef1 Et Ep Eu Hp Ea Eb Hbt1) as Hrun.
  match type of Hrun with _ = Ok (0, ?t) => set (s2 := t) in * end.
  rewrite (bind_M _ _ s1 0 s2) by (rewrite (bind_M _ _ _ _ _ Hrun); done). cbn [Z.eqb].
  destruct (run_wifi s2 fw img Hc1 Ef1 Ei Hl) as (s' & lr & Hw & Hlog & Hns & Hmem).
  exists s'. split; [exact Hw |].
  assert (E2 : log s2 = sent (MemRead 0x40500000 :: image_requests 1024 (addr_adid p) adid ++
    image_requests 1024 (addr_patch p) patch ++ tbl_requests bt)).
  { unfold s2, s1. cbn. by rewrite El. }
  assert (R2 : replay m0 (log s2) ≡ put_tbl (store (store m0 (addr_adid p) adid) (addr_patch p) patch) bt).
  { rewrite E2, replay_sent. cbn [apply_reqs foldl apply_req]. fold apply_reqs.
    rewrite !apply_reqs_app, put_tbl_reqs, !apply_image by (try lia; tauto). done. }
  split.
  - rewrite Hlog, !replay_app, !replay_sent. cbn [apply_reqs foldl apply_req]. fold apply_reqs.
    cbv zeta in Hmem. rewrite Hmem.
    + unfold d80_memory. cbv zeta. change (adap_test s2) with (adap_test s). by rewrite !R2.
    + apply apply_image; unfold RAM_FMAC_FW_ADDR in *; lia.
  - rewrite Hlog, !app_assoc. eexists. split; [done |].
    rewrite E2. apply free_app; [apply free_app |]; apply sent_no_start; [| apply image_no_start | exact Hns].
    constructor; [done |]. repeat (apply Forall_app; split); try apply image_no_start.
    unfold tbl_requests. apply Forall_fmap, Forall_true. done.
Qed.

End Boot.

Module Example.
Import BspRuns.Example.

(** The memory before: zeros, but for the revision. *)
Definition rom : mem := fun x => if x =? 0x40500002 then 3 else 0.

Lemma d80_boot_refines_witness :
  exists s', aicbsp_driver_fw_init (served rom) ok_files no_stack 0 d80 = Ok (0, s') /\
    replay rom (log s') ≡
      d80_memory rom 0x161000 0x162000 [1; 2; 3; 4; 5] [1; 2; 3; 4; 5] [(0, 0x161000); (0, 0x162000)] [1; 2; 3; 4; 5] false.
Proof.
  destruct (d80_boot_refines rom (served rom) (served_healthy rom) ok_files no_stack 0 d80 CHIP_REV_U02
    (Firmware "normal work mode(8800d80 sdio u02)" "fw_adid_8800d80_u02.bin" "fw_patch_8800d80_u02.bin"
       "fw_patch_table_8800d80_u02.bin" "fmacfw_8800d80_u02.bin")
    table_file (PatchTable (replicate 16 0) 0 2 [0; 0x161000; 0; 0x162000]) []
    (PatchInfo 2 0 0x161000 0 0x162000 0 0 0 0) [1; 2; 3; 4; 5] [1; 2; 3; 4; 5] [(0, 0x161000); (0, 0x162000)] [1; 2; 3; 4; 5])
    as (s' & H1 & H2 & _); try reflexivity; try done.
  all: try (split; done).
  - by left.
  - apply elem_of_cons. right. apply elem_of_cons. by left.
  - by exists s'.
Defined.

End Example.

End BspBoot.
