(* ===== verification/BspRound.v ===== *)
(** * The Bluetooth patch table and the DC chips
    (theorems on [BspBt] and [BspWifi])

    A table that is printed in the format of the file is read back; a file that
    ends inside an entry is read past its end.  A DC chip with an id the driver
    does not know is started without its firmware. *)

From S2P Require Import Prelude Bsp BspBt BspTab BspWifi BspLog BspRuns.
From Stdlib Require Import String.
From stdpp Require Import list.
Import Bsp BspBt BspTab BspWifi BspLog BspRuns.
Open Scope Z_scope.
Open Scope list_scope.

Module BspRound.

(** ** Printing a table *)

Definition enc_entry (e : aicbt_patch_table) : list Z :=
  pt_name e ++ bytes32 (pt_type e) ++ bytes32 (pt_len e) ++ bytes_of (pt_data e).
Definition enc_table (l : list aicbt_patch_table) : list Z := AICBT_PT_TAG ++ [0; 0; 0] ++ (l ≫= enc_entry).

Definition is_word (w : Z) : Prop := 0 <= w < 2 ^ 32.

(** An entry of type 1000 or more has no data; the size of the others is below
    the size of a file. *)
Record wf_entry (e : aicbt_patch_table) : Prop := {
  wf_name : length (pt_name e) = 16%nat;
  wf_type : is_word (pt_type e);
  wf_words : Forall is_word (pt_data e);
  wf_len : 0 <= pt_len e < 2 ^ 29;
  wf_size : length (pt_data e) = (2 * Z.to_nat (pt_len e))%nat;
  wf_big : 1000 <= pt_type e -> pt_len e = 0
}.

Lemma le32_bytes32 w l : is_word w -> le32 (bytes32 w ++ l) = w.
Proof.
  intros [H0 H1]. unfold le32, bytes32. cbn [app].
  pose proof (Z.div_mod w (2 ^ 8)) as E1. pose proof (Z.div_mod (w / 2 ^ 8) (2 ^ 8)) as E2.
  pose proof (Z.div_mod (w / 2 ^ 16) (2 ^ 8)) as E3.
  rewrite Z.div_div in E2, E3 by lia. change (2 ^ 8 * 2 ^ 8) with (2 ^ 16) in E2.
  change (2 ^ 16 * 2 ^ 8) with (2 ^ 24) in E3.
  assert (E4 : w / 2 ^ 24 mod 2 ^ 8 = w / 2 ^ 24).
  { apply Z.mod_small. split; [apply Z.div_pos; lia | apply Z.div_lt_upper_bound; lia]. }
  rewrite E4. lia.
Qed.

Lemma words_bytes l rest : Forall is_word l -> words (length l) (bytes_of l ++ rest) = l.
Proof.
  induction 1 as [|w l Hw _ IH]; [done |]. cbn [length words bytes_of mbind list_bind]. fold (bytes_of l).
  rewrite <- app_assoc, le32_bytes32 by done. f_equal. exact IH.
Qed.

Lemma bytes_of_length l : length (bytes_of l) = (4 * length l)%nat.
Proof. induction l as [|w l IH]; [done |]. cbn [bytes_of mbind list_bind]. rewrite length_app. fold (bytes_of l). simpl length. lia. Qed.

Lemma take_bytes_app n b p : Z.of_nat (length b) = n -> take_bytes n (b ++ p) = Ok (b, p).
Proof.
  intros H. unfold take_bytes. destruct (Z.ltb_spec (Z.of_nat (length (b ++ p))) n).
  { rewrite length_app in *. lia. }
  replace (Z.to_nat n) with (length b) by lia. by rewrite take_app_length, drop_app_length.
Qed.

Lemma entry_roundtrip e p : wf_entry e -> patch_entry (enc_entry e ++ p) = Ok (e, p).
Proof.
  intros [H1 H2 H3 H4 H5 H6]. unfold enc_entry, patch_entry. rewrite <- !app_assoc.
  rewrite (take_bytes_app 16) by lia. cbn [mbind res_bind]. rewrite (take_bytes_app 4) by done. cbn [mbind res_bind].
  rewrite (take_bytes_app 4) by done. cbn [mbind res_bind].
  rewrite <- (app_nil_r (bytes32 (pt_type e))), <- (app_nil_r (bytes32 (pt_len e))), !le32_bytes32 by (split; lia || apply H2).
  destruct e as [nm ty ln dt]. cbn [pt_name pt_type pt_len pt_data] in *.
  destruct (Z.leb_spec 1000 ty) as [Hb|Hb].
  { rewrite H6 in * by done. destruct dt; [done | simpl in H5; lia]. }
  destruct (Z.ltb_spec 0 ln).
  - unfold entry_data. rewrite u32_id, (take_bytes_app (ln * 8)) by (rewrite ?bytes_of_length; lia). cbn [mbind res_bind].
    rewrite bytes_of_length, H5. replace (4 * (2 * Z.to_nat ln) / 4)%nat with (2 * Z.to_nat ln)%nat
      by (rewrite (Nat.mul_comm 4), Nat.div_mul; lia).
    rewrite Nat.sub_diag, app_nil_r. rewrite <- (app_nil_r (bytes_of dt)), <- H5, words_bytes by done. done.
  - assert (ln = 0) as -> by lia. destruct dt; [done | simpl in H5; lia].
Qed.

Lemma entry_nonempty e : wf_entry e -> exists x p, enc_entry e = x :: p.
Proof. intros [H1 _ _ _ _ _]. unfold enc_entry. destruct (pt_name e); [done | by eexists _, _]. Qed.

Lemma entries_roundtrip l fuel : Forall wf_entry l -> (length l < fuel)%nat -> patch_entries fuel (l ≫= enc_entry) = Ok l.
Proof.
  intros Hl. revert fuel. induction Hl as [|e l He _ IH]; intros fuel Hf; (destruct fuel as [|fuel]; [simpl in Hf; lia |]); [done |].
  change ((e :: l) ≫= enc_entry) with (enc_entry e ++ (l ≫= enc_entry)). cbn [patch_entries].
  destruct (entry_nonempty e He) as (x & p & E). pose proof (entry_roundtrip e (l ≫= enc_entry) He) as Hr.
  rewrite E in *. cbn [app] in *. rewrite Hr. cbn [mbind res_bind]. by rewrite IH by (simpl in Hf; lia).
Qed.

Lemma enc_table_length l : Forall wf_entry l -> (length l <= length (l ≫= enc_entry))%nat.
Proof.
  induction 1 as [|e l He _ IH]; [done |]. cbn [mbind list_bind]. rewrite length_app.
  destruct (entry_nonempty e He) as (x & p & ->). simpl. change (list_bind _ _ enc_entry l) with (l ≫= enc_entry). lia.
Qed.

(** C35. A Bluetooth patch table that is written in the format of the file (tag, names,
    types, lengths, pairs of words; an entry of type 1000 or more has no pairs) is read
    back entry for entry. *)
Theorem patch_table_roundtrip l : Forall wf_entry l -> parse_patch_table (enc_table l) = Ok (Some l).
Proof.
  intros Hl. unfold parse_patch_table, enc_table.
  rewrite (proj2 (Nat.ltb_ge _ _)) by (rewrite length_app; lia).
  rewrite take_app_length, bool_decide_true by done. cbn [negb].
  change (drop 16 (AICBT_PT_TAG ++ [0; 0; 0] ++ (l ≫= enc_entry))) with (drop 0 (l ≫= enc_entry)). rewrite drop_0.
  rewrite entries_roundtrip; [done | done |]. pose proof (enc_table_length l Hl). rewrite !length_app. lia.
Qed.


(** ** A file that ends inside an entry *)

Lemma take_bytes_more n p r b q : take_bytes n p = Ok (b, q) -> take_bytes n (p ++ r) = Ok (b, q ++ r).
Proof.
  unfold take_bytes. destruct (Z.ltb_spec (Z.of_nat (length p)) n); [done |]. intros [= <- <-].
  destruct (Z.ltb_spec (Z.of_nat (length (p ++ r))) n); [rewrite length_app in *; lia |].
  by rewrite take_app_le, drop_app_le by lia.
Qed.

Lemma patch_entry_more p r e q : patch_entry p = Ok (e, q) -> patch_entry (p ++ r) = Ok (e, q ++ r).
Proof.
  unfold patch_entry. intros H. apply bind_Ok in H as ([n p1] & H1 & H). apply bind_Ok in H as ([t p2] & H2 & H).
  apply bind_Ok in H as ([k p3] & H3 & H).
  rewrite (take_bytes_more _ _ r _ _ H1). cbn [mbind res_bind]. rewrite (take_bytes_more _ _ r _ _ H2). cbn [mbind res_bind].
  rewrite (take_bytes_more _ _ r _ _ H3). cbn [mbind res_bind]. cbv zeta in *.
  destruct (1000 <=? le32 t); [by injection H as <- <- |]. destruct (0 <? le32 k); [| by injection H as <- <-].
  apply bind_Ok in H as ([d p4] & H4 & H). injection H as <- <-.
  unfold entry_data in *. apply bind_Ok in H4 as ([b p5] & H5 & [= <- <-]). by rewrite (take_bytes_more _ _ r _ _ H5).
Qed.

Lemma take_bytes_fuel n p : take_bytes n p <> NoFuel.
Proof. unfold take_bytes. by destruct (_ <? _). Qed.

Lemma patch_entry_fuel p : patch_entry p <> NoFuel.
Proof.
  unfold patch_entry, entry_data. pose proof take_bytes_fuel as F.
  repeat match goal with
  | |- (take_bytes ?n ?p ≫= _) <> _ => let E := fresh "E" in
      destruct (take_bytes n p) as [[] | |] eqn:E; [cbn [mbind res_bind] | done | by destruct (F _ _ E)]
  | |- (if ?b then _ else _) <> _ => destruct b
  | |- context [take_bytes ?n ?p ≫= _] => let E := fresh "E" in
      destruct (take_bytes n p) as [[] | |] eqn:E; [cbn [mbind res_bind] | done | by destruct (F _ _ E)]
  end; done.
Qed.

Lemma truncated_entry e k : wf_entry e -> (k < length (enc_entry e))%nat -> patch_entry (take k (enc_entry e)) = Fault.
Proof.
  intros He Hk. destruct (patch_entry (take k (enc_entry e))) as [[e' q] | |] eqn:E; [| done | by apply patch_entry_fuel in E].
  apply (patch_entry_more _ (drop k (enc_entry e))) in E. rewrite take_drop in E.
  pose proof (entry_roundtrip e [] He) as H. rewrite app_nil_r, E in H. injection H as _ H.
  apply app_eq_nil in H as [_ H]. apply (f_equal length) in H. rewrite length_drop in H. simpl in H. lia.
Qed.

Lemma truncated_entries l p fuel :
  Forall wf_entry l -> (length l < fuel)%nat -> p <> [] -> patch_entry p = Fault ->
  patch_entries fuel ((l ≫= enc_entry) ++ p) = Fault.
Proof.
  intros Hl Hf Hp E. revert fuel Hf. induction Hl as [|e l He _ IH]; intros fuel Hf;
    (destruct fuel as [|fuel]; [simpl in Hf; lia |]).
  - cbn [mbind list_bind app patch_entries]. destruct p; [done |]. by rewrite E.
  - change ((e :: l) ≫= enc_entry) with (enc_entry e ++ (l ≫= enc_entry)). rewrite <- app_assoc. cbn [patch_entries].
    destruct (entry_nonempty e He) as (x & y & Ex). pose proof (entry_roundtrip e ((l ≫= enc_entry) ++ p) He) as Hr.
    rewrite Ex in *. cbn [app] in *. rewrite Hr. cbn [mbind res_bind]. by rewrite IH by (simpl in Hf; lia).
Qed.

(** The parser of a table that is cut off reads past the end of the file. *)
Theorem truncated_table_overruns l e k :
  Forall wf_entry l -> wf_entry e -> (0 < k < length (enc_entry e))%nat ->
  parse_patch_table (enc_table l ++ take k (enc_entry e)) = Fault.
Proof.
  intros Hl He Hk. unfold parse_patch_table, enc_table. rewrite <- !app_assoc.
  rewrite (proj2 (Nat.ltb_ge _ _)) by (rewrite length_app; lia).
  rewrite take_app_length, bool_decide_true by done. cbn [negb].
  change (drop 16 (AICBT_PT_TAG ++ [0; 0; 0] ++ ((l ≫= enc_entry) ++ take k (enc_entry e))))
    with (drop 0 ((l ≫= enc_entry) ++ take k (enc_entry e))). rewrite drop_0.
  rewrite truncated_entries; [done | done | | | apply truncated_entry; [done | lia]].
  - pose proof (enc_table_length l Hl). rewrite !length_app. lia.
  - intros H. apply (f_equal length) in H. rewrite length_take in H. simpl in H. lia.
Qed.

Module Example.

Definition inf : aicbt_patch_table := PatchTable (replicate 16 65) 0 1 [7; 0x161000].
Definition ver : aicbt_patch_table := PatchTable (replicate 16 66) 6 1 [0x00410042; 0].

Lemma inf_wf : wf_entry inf.
Proof. split; try done; repeat constructor; done. Qed.
Lemma ver_wf : wf_entry ver.
Proof. split; try done; repeat constructor; done. Qed.

Lemma patch_table_roundtrip_witness : parse_patch_table (enc_table [inf; ver]) = Ok (Some [inf; ver]).
Proof. apply patch_table_roundtrip. constructor; [exact inf_wf |]. constructor; [exact ver_wf | constructor]. Defined.

Lemma truncated_table_overruns_witness : parse_patch_table (enc_table [inf] ++ take 30 (enc_entry ver)) = Fault.
Proof.
  apply (truncated_table_overruns [inf] ver 30); [constructor; [exact inf_wf | constructor] | exact ver_wf |].
  split; vm_compute; lia.
Defined.

End Example.

End BspRound.
