(* ===== verification/BspDc.v ===== *)
(** * DC chips the driver does not know (theorem on [BspWifi])

    rwnx_plat_patch_load has no firmware for a chip_sub_id other than 0, 1 and
    2 and reports no error: the calibration program and the firmware are
    started although nothing was loaded. *)

From S2P Require Import Prelude Bsp BspBt BspTab BspWifi BspLog BspRuns.
From Stdlib Require Import String.
From stdpp Require Import list.
Import Bsp BspBt BspTab BspWifi BspLog BspRuns.
Open Scope Z_scope.
Open Scope list_scope.

Module BspDc.

(** No request is refused. *)
Definition obliging (c : card) : Prop := forall l r, ret_of (c l r).1 = 0.

Definition no_block : list event -> Prop := free is_block.

(** From [s] to [s'] the mode stays and the log grows, without a block. *)
Definition grows (s s' : bsp) : Prop := testmode s' = testmode s /\ exists es, log s' = log s ++ es /\ no_block es.
(** Also the id stays. *)
Definition drifts (s s' : bsp) : Prop := chip_sub_id s' = chip_sub_id s /\ grows s s'.

#[local] Instance grows_preorder : PreOrder grows.
Proof.
  split.
  - intros s. split; [done |]. exists []. rewrite app_nil_r. split; [done | apply Forall_nil_2].
  - intros s1 s2 s3 [E1 (es1 & L1 & F1)] [E2 (es2 & L2 & F2)]. split; [congruence |]. exists (es1 ++ es2).
    split; [by rewrite L2, L1, app_assoc | by apply free_app].
Qed.
#[local] Instance drifts_preorder : PreOrder drifts.
Proof.
  split; [by intros s; split |]. intros s1 s2 s3 [E1 G1] [E2 G2]. split; [congruence | by etransitivity].
Qed.

Lemma drifts_log s es : no_block es -> drifts s (s <| log ::= (.++ es) |>).
Proof. intros H. split; [done |]. split; [done |]. by exists es. Qed.

Lemma drifts_set s s' : chip_sub_id s' = chip_sub_id s -> testmode s' = testmode s -> log s' = log s -> drifts s s'.
Proof.
  intros E1 E2 E3. split; [done |]. split; [done |]. exists []. rewrite app_nil_r. split; [done | apply Forall_nil_2].
Qed.

(** ** Setting the system up *)

Definition growing {A} (m : M A) : Prop := forall s a s', m s = Ok (a, s') -> grows s s'.

Lemma growing_ret {A} (a : A) : growing (mret a).
Proof. by intros s x s' [= _ <-]. Qed.

Lemma growing_bind {A B} (m : M A) (f : A -> M B) : growing m -> (forall a, growing (f a)) -> growing (m ≫= f).
Proof. intros Hm Hf s b s' H. apply bind_M_inv in H as (a & s1 & H1 & H2). etransitivity; [eapply Hm | eapply Hf]; eassumption. Qed.

Lemma growing_free {A} (m : M A) : free_of is_block m -> growing m.
Proof. intros H s a s' E. destruct (H _ _ _ E) as (es & -> & He). by apply drifts_log. Qed.

Lemma growing_modify f : (forall s, testmode (f s) = testmode s /\ log (f s) = log s) -> growing (modify f).
Proof.
  intros Hf s a s' [= <- <-]. destruct (Hf s) as [E1 E2]. split; [done |]. exists []. rewrite app_nil_r.
  split; [done | apply Forall_nil_2].
Qed.

Section Dc.
Context (c : card) (files : string -> option (list Z)) (stack : list event -> Z).

Lemma read_free a cfm : free_of is_block (rwnx_send_dbg_mem_read_req c a cfm).
Proof. by apply send_calm. Qed.

Lemma write_free a v : free_of is_block (rwnx_send_dbg_mem_write_req c a v).
Proof. unfold rwnx_send_dbg_mem_write_req. calm. by apply send_calm. Qed.

Lemma mask_free a m v : free_of is_block (rwnx_send_dbg_mem_mask_write_req c a m v).
Proof. unfold rwnx_send_dbg_mem_mask_write_req. calm. by apply send_calm. Qed.

Lemma uninit_free : free_of is_block (uninit stack).
Proof. unfold uninit. calm. Qed.
Local Hint Resolve read_free write_free mask_free uninit_free : bsp.

Lemma tbl_free tbl : free_of is_block (write_tbl c tbl).
Proof. induction tbl as [|[]]; cbn [write_tbl]; calm. Qed.

Lemma mask_tbl_free tbl : free_of is_block (mask_write_tbl c tbl).
Proof. induction tbl as [|[[]]]; cbn [mask_write_tbl]; calm. Qed.
Local Hint Resolve tbl_free mask_tbl_free : bsp.

Lemma read_local_free base n i cfm acc : free_of is_block (read_local c base n i cfm acc).
Proof. revert i cfm acc. induction n; intros; cbn [read_local]; calm. Qed.
Local Hint Resolve read_local_free : bsp.

Lemma valid_check_free : free_of is_block (aicwf_misc_ram_valid_check_8800dc c stack).
Proof. unfold aicwf_misc_ram_valid_check_8800dc, misc_ram_check. calm. Qed.

Local Hint Resolve growing_ret : bsp.
Ltac growing :=
  intros; repeat match goal with
  | |- growing (mbind _ _) => apply growing_bind; [| intros]
  | |- growing (modify _) => apply growing_modify; intros; split; repeat case_match; reflexivity
  | |- growing (if ?b then _ else _) => destruct b
  | |- growing (let '(_, _) := ?x in _) => destruct x
  | |- growing (match ?x with _ => _ end) => destruct x
  | |- growing _ => solve [eauto with bsp | apply growing_free; eauto with bsp]
  end.

Lemma msk_loop_growing h n cnt : growing (msk_loop c h n cnt).
Proof.
  revert cnt. induction n as [|n IH]; intros cnt; cbn [msk_loop]; [growing |]. apply growing_bind.
  - unfold msk_entry. apply growing_bind; [growing | intros s]. destruct (_ !! cnt) as [[[a m] v]|]; [| growing].
    destruct (_ && _); [| growing]. cbv zeta. apply growing_bind; [| growing].
    apply growing_modify. intros s'. unfold set_msk. by destruct h.
  - growing.
Qed.
Local Hint Resolve msk_loop_growing : bsp.

Lemma system_config_growing : growing (system_config_8800dc c stack).
Proof. unfold system_config_8800dc. cbv zeta. growing. Qed.

(** ** What follows when the calibration data are not valid *)

Context (Hc : obliging c).

Lemma run_send r old s : exists v o, send c r old s = Ok ((0, v), s <| log ::= (.++ [(r, o)]) |>).
Proof.
  unfold send. pose proof (Hc (log s) r) as H. destruct (c (log s) r) as [o x]. cbn in H. rewrite H. by eexists _, o.
Qed.

Lemma dc_read a cfm s :
  exists v s', rwnx_send_dbg_mem_read_req c a cfm s = Ok ((0, v), s') /\ drifts s s'.
Proof.
  destruct (run_send (MemRead a) cfm s) as (v & o & E). exists v. eexists. split; [exact E |].
  apply drifts_log. by repeat constructor.
Qed.

Lemma run_read_words put base n i cfm s :
  (forall i v s, chip_sub_id (put i v s) = chip_sub_id s /\ testmode (put i v s) = testmode s /\ log (put i v s) = log s) ->
  exists v s', read_words c put base n i cfm s = Ok ((0, v), s') /\ drifts s s'.
Proof.
  intros Hp. revert i cfm s. induction n as [|n IH]; intros i cfm s; cbn [read_words].
  { by exists cfm, s. }
  destruct (dc_read (u32 (base + Z.of_nat i * 4)) cfm s) as (v & s1 & E & D1).
  rewrite (bind_M _ _ _ _ _ E). cbn [Z.eqb]. rewrite (bind_M (modify _) _ s1 tt (put i v s1)) by done.
  destruct (IH (S i) v (put i v s1)) as (v' & s2 & E2 & D2). exists v', s2. split; [exact E2 |].
  etransitivity; [exact D1 |]. etransitivity; [| exact D2]. destruct (Hp i v s1) as (H1 & H2 & H3). by apply drifts_set.
Qed.

(** The calibration: no program is loaded for the id, and it is started. *)
Lemma run_calib s s2 :
  calib_name_8800dc (chip_sub_id s2) = None -> aicwf_misc_ram_valid_check_8800dc c stack s = Ok ((0, false), s2) ->
  exists s', aicwf_dpd_calib_8800dc c files stack s = Ok (0, s') /\
    exists s3 o, drifts s3 s' /\ s3 = s2 <| log ::= (.++ [(StartApp 0x00130009 HOST_START_APP_FNCALL, o)]) |>.
Proof.
  intros Hn Hv. unfold aicwf_dpd_calib_8800dc. rewrite (bind_M _ _ _ _ _ Hv). cbn [Z.eqb].
  rewrite (bind_M (aicwf_plat_calib_load_8800dc c files) _ s2 0 s2).
  2: { unfold aicwf_plat_calib_load_8800dc. rewrite (bind_M get _ s2 s2 s2) by done. by rewrite Hn. }
  cbn [Z.eqb]. destruct (run_send (StartApp 0x00130009 HOST_START_APP_FNCALL) 0 s2) as (v & o & E).
  rewrite (bind_M _ _ _ _ _ E). cbn [Z.eqb]. set (s3 := s2 <| log ::= _ |>).
  rewrite (bind_M (uninit stack) _ s3 (stack (log s3)) s3) by done.
  destruct (dc_read (0x10164 + 0x14) (stack (log s3)) s3) as (a & s4 & E4 & D4). rewrite (bind_M _ _ _ _ _ E4). cbn [Z.eqb].
  edestruct (run_read_words (fun i v s => s <| dpd_res ::= fun d => d <| bit_mask ::= <[i := v]> |> |>) a 4 0 a s4)
    as (v5 & s5 & E5 & D5); [done |]. rewrite (bind_M _ _ _ _ _ E5). cbn [Z.eqb].
  edestruct (run_read_words (fun i v s => s <| dpd_res ::= fun d => d <| dpd_high ::= <[i := v]> |> |>)
    (u32 (a + OFST_dpd_high)) 96 0 v5 s5) as (v6 & s6 & E6 & D6); [done |]. rewrite (bind_M _ _ _ _ _ E6). cbn [Z.eqb].
  edestruct (run_read_words (fun i v s => s <| dpd_res ::= fun d => d <| loft_res ::= <[i := v]> |> |>)
    (u32 (a + OFST_loft_res)) 18 0 v6 s6) as (v7 & s7 & E7 & D7); [done |]. rewrite (bind_M _ _ _ _ _ E7).
  exists s7. split; [done |]. exists s3, o. split; [| done]. by do 3 (etransitivity; [eassumption |]).
Qed.

(** A DC chip in normal mode whose id is none of the three the driver knows is
    started, and reported as brought up, though not a single block of firmware was
    written to it; the calibration it has no program for is started as well. *)
Theorem dc_unknown_id_started s s1 s2 :
  chipid s = AIC8800DC \/ chipid s = AIC8800DW -> testmode s = 0 ->
  system_config_8800dc c stack s = Ok (tt, s1) -> chip_sub_id s1 ∉ [0; 1; 2] ->
  aicwf_misc_ram_valid_check_8800dc c stack s1 = Ok ((0, false), s2) ->
  exists s' es, aicwifi_init c files stack s = Ok (0, s') /\ log s' = log s ++ es /\ no_block es /\
    exists es1 o1 es2 o2, es = es1 ++ [(StartApp 0x00130009 HOST_START_APP_FNCALL, o1)] ++ es2 ++
      [(StartApp RAM_FMAC_FW_ADDR HOST_START_APP_DUMMY, o2)].
Proof.
  intros Hch Hm Hs Hid Hv. destruct (system_config_growing _ _ _ Hs) as [Em (es1 & L1 & F1)].
  rewrite !not_elem_of_cons in Hid. destruct Hid as (N0 & N1 & N2 & _). apply Z.eqb_neq in N0, N1, N2.
  destruct (valid_check_free _ _ _ Hv) as (es2 & -> & F2).
  assert (Hcn : calib_name_8800dc (chip_sub_id (s1 <| log ::= (.++ es2) |>)) = None).
  { unfold calib_name_8800dc. cbn. by rewrite N1, N2. }
  destruct (run_calib _ _ Hcn Hv) as (s4 & E4 & s3 & o1 & [Dsub [Dm (es3 & L3 & F3)]] & ->). cbn in Dsub, Dm, L3.
  assert (El : rwnx_plat_patch_load c files stack s1 = Ok (0, s4)).
  { unfold rwnx_plat_patch_load. rewrite (bind_M get _ s1 s1 s1) by done. rewrite N0, Em, Hm. cbn [Z.eqb FW_NORMAL_MODE].
    rewrite (bind_M (aicwf_plat_patch_load_8800dc c files) _ s1 0 s1); [done |].
    unfold aicwf_plat_patch_load_8800dc. rewrite (bind_M get _ s1 s1 s1) by done. unfold patch_name_8800dc. by rewrite N0, N1, N2. }
  assert (Ep : aicwf_patch_config_8800dc c files stack s4 = Ok (tt, s4)).
  { unfold aicwf_patch_config_8800dc. rewrite (bind_M get _ s4 s4 s4) by done. cbv zeta.
    rewrite Dm, Em, Hm, Dsub, N0, N1, N2. done. }
  assert (Eb : exists s' o0 o2, start_from_bootrom_8800DC c stack s4 = Ok (0, s') /\
    log s' = log s4 ++ [(MemRead RAM_FMAC_FW_ADDR, o0); (StartApp RAM_FMAC_FW_ADDR HOST_START_APP_DUMMY, o2)]).
  { unfold start_from_bootrom_8800DC. rewrite (bind_M get _ s4 s4 s4) by done. rewrite Dm, Em, Hm. cbn [Z.eqb]. cbv zeta.
    rewrite (bind_M (uninit stack) _ s4 (stack (log s4)) s4) by done.
    destruct (run_send (MemRead RAM_FMAC_FW_ADDR) (stack (log s4)) s4) as (v & o0 & E). rewrite (bind_M _ _ _ _ _ E). cbn [Z.eqb negb].
    destruct (run_send (StartApp RAM_FMAC_FW_ADDR HOST_START_APP_DUMMY) 0 (s4 <| log ::= (.++ [(MemRead RAM_FMAC_FW_ADDR, o0)]) |>))
      as (v' & o2 & E'). rewrite (bind_M _ _ _ _ _ E'). eexists _, o0, o2. split; [done |]. cbn. by rewrite <- app_assoc. }
  destruct Eb as (s' & o0 & o2 & Eb & L4).
  exists s', (es1 ++ es2 ++ [(StartApp 0x00130009 HOST_START_APP_FNCALL, o1)] ++ es3 ++
    [(MemRead RAM_FMAC_FW_ADDR, o0); (StartApp RAM_FMAC_FW_ADDR HOST_START_APP_DUMMY, o2)]).
  assert (Ei : aicwifi_init c files stack s = (_ ← system_config_8800dc c stack; try rwnx_plat_patch_load c files stack;
    _ ← aicwf_patch_config_8800dc c files stack; _ ← start_from_bootrom_8800DC c stack; mret 0) s).
  { unfold aicwifi_init. rewrite (bind_M get _ s s s) by done. by destruct Hch as [-> | ->]. }
  split.
  { rewrite Ei, (bind_M _ _ _ _ _ Hs), (bind_M _ _ _ _ _ El). cbn [Z.eqb]. by rewrite (bind_M _ _ _ _ _ Ep), (bind_M _ _ _ _ _ Eb). }
  split; [by rewrite L4, L3, L1, <- !app_assoc |].
  split; [repeat apply free_app; try done; by repeat constructor |].
  exists (es1 ++ es2), o1, (es3 ++ [(MemRead RAM_FMAC_FW_ADDR, o0)]), o2. by rewrite <- !app_assoc.
Qed.

End Dc.

Module Example.
Import BspRuns.Example.

(** A chip with the id 5. *)
Definition id_card : card := fun _ r => (Done 0, match r with MemRead 0x20 => Some 5 | MemRead _ => Some 0x30000 | _ => None end).
Definition dc : bsp := aicbsp_init AIC8800DC 0 false.
Definition after {A} (m : M A) (s : bsp) : bsp := match m s with Ok (_, s') => s' | _ => s end.

Lemma id_card_obliging : obliging id_card.
Proof. intros l r. by eexists. Qed.

Lemma dc_unknown_id_started_witness :
  exists s', aicwifi_init id_card ok_files no_stack dc = Ok (0, s') /\ no_block (log s') /\
    exists es o, log s' = es ++ [(StartApp RAM_FMAC_FW_ADDR HOST_START_APP_DUMMY, o)].
Proof.
  set (s1 := after (system_config_8800dc id_card no_stack) dc).
  destruct (dc_unknown_id_started id_card ok_files no_stack id_card_obliging dc s1
    (after (aicwf_misc_ram_valid_check_8800dc id_card no_stack) s1)) as (s' & es & H1 & H2 & H3 & es1 & o1 & es2 & o2 & H4).
  - by left.
  - reflexivity.
  - vm_compute; reflexivity.
  - vm_compute. intros H. repeat (apply elem_of_cons in H as [H | H]; [done |]). by apply not_elem_of_nil in H.
  - vm_compute; reflexivity.
  - exists s'. split; [exact H1 |]. rewrite H2. split; [exact H3 |].
    exists (es1 ++ [(StartApp 0x00130009 HOST_START_APP_FNCALL, o1)] ++ es2), o2. rewrite H4, <- !app_assoc. reflexivity.
Defined.

End Example.

End BspDc.
