(* ===== verification/BspPower.v ===== *)
(** * Powering the chip (aicsdio.c of aic8800_bsp)

    Two drivers, Bluetooth and WLAN, ask for power with [aicbsp_set_subsys].
    The first request powers the chip, waits for it to appear on the bus,
    registers the SDIO driver and brings the chip up
    ([BspWifi.aicbsp_driver_fw_init]); the last release undoes it.  This is the
    glue for the mainline kernel ([CONFIG_PLATFORM_MAINLINE_SUNXI]).

    Calls of the kernel are logged in [calls] with their results, which the
    argument [kernel] gives as a function of the log: [answer] the value of a
    call, [alien] that the dummy driver finds a chip it does not know,
    [ident] the identification of the card that the SDIO driver is probed
    with, if there is one, [probe_ok] that setting the function up succeeds. *)

From S2P Require Import Prelude Bsp BspBt BspWifi.
From Stdlib Require Import String.
From stdpp Require Import list.
Import Bsp BspWifi.
Open Scope Z_scope.
Open Scope list_scope.

Module BspPower.

Inductive call :=
| gpio_request (gpio : Z)
| gpio_direction_output (gpio value : Z)
| gpio_direction_input (gpio : Z)
| gpio_set_value (gpio value : Z)
| gpio_free (gpio : Z)
| find_mmc_host
| mmc_detect_change
| register_notify | unregister_notify
| down_timeout
| sdio_register_driver | sdio_unregister_driver
| release_irq.

Record kernel := Kernel {
  answer : list (call * Z) -> call -> Z;
  alien : list (call * Z) -> bool;
  ident : list (call * Z) -> option (Z * Z);
  probe_ok : list (call * Z) -> bool
}.

(** aicbsp_sdiodev: the pointer of a device whose probe failed is not reset. *)
Inductive devptr := DevNull | DevLive | DevFreed.

Record pwr := Pwr {
  calls : list (call * Z);
  regon_gpio : Z; regon_requested : bool; hostwake_gpio : Z; cached_mmc_host : bool;
  load_fw_in_fdrv : bool;
  sdiodev : devptr;
  pre_power_map : Z;
  chip_state : bsp
}.
#[export] Instance eta_pwr : Settable pwr := fun p =>
    Pwr p.(calls) p.(regon_gpio) p.(regon_requested) p.(hostwake_gpio) p.(cached_mmc_host) p.(load_fw_in_fdrv) p.(sdiodev)
  p.(pre_power_map) p.(chip_state).

(** The module parameters wlan_regon and wlan_hostwake. *)
Definition module_init (regon hostwake mode : Z) (adap : bool) : pwr :=
  Pwr [] regon false hostwake false false DevNull 0 (aicbsp_init AIC8801 mode adap).

Definition P (A : Type) : Type := pwr -> res (A * pwr).
#[export] Instance P_ret : MRet P := fun A a p => Ok (a, p).
#[export] Instance P_bind : MBind P := fun A B f m p => '(a, p) ← m p; f a p.
Definition pget : P pwr := fun p => Ok (p, p).
Definition pmodify (f : pwr -> pwr) : P unit := fun p => Ok (tt, f p).
Definition pfault {A} : P A := fun _ => Fault.

(** aicwf_sdio_chipmatch: 0 and the kind of chip, or -1. *)
Definition aicwf_sdio_chipmatch (vid did : Z) : Z * option chip :=
  if (vid =? 0x5449) && (did =? 0x0145) then (0, Some AIC8801)
  else if (vid =? 0xc8a1) && (did =? 0xc08d) then (0, Some AIC8800DC)
  else if (vid =? 0xc8a1) && (did =? 0x0082) then (0, Some AIC8800D80)
  else (-1, None).

(** The test both probe functions make: the chip is unknown when every
    comparison fails. *)
Definition unknown_ids (vendor device : Z) : bool :=
  negb (vendor =? 0x5449) && negb (device =? 0x0145) && negb (device =? 0x0146) && negb (vendor =? 0xc8a1) &&
  negb (device =? 0xc08d) && negb (device =? 0x0082) && negb (device =? 0x0182).

Section Power.
Context (k : kernel) (c : card) (files : string -> option (list Z)) (stack : list event -> Z) (fuel : nat).

Definition call_kernel (x : call) : P Z := fun p =>
  let r := answer k (calls p) x in Ok (r, p <| calls ::= (.++ [(x, r)]) |>).

(** ** The platform *)

Definition aicbsp_mainline_set_power (on : Z) : P unit :=
  p ← pget; if regon_requested p then _ ← call_kernel (gpio_set_value (regon_gpio p) on); mret tt else mret tt.

(** [find_mmc_host] is 0 without the platform device, 1 without a host behind
    it, which clears the cached one, and 2 otherwise. *)
Definition aicbsp_find_mmc_host : P Z :=
  r ← call_kernel find_mmc_host;
  if r =? 0 then mret 0 else
  _ ← pmodify (fun p => p <| cached_mmc_host := (r =? 2) |>); mret (if r =? 2 then 1 else 0).

Definition aicbsp_mainline_rescan : P unit :=
  p ← pget;
  host ← (if cached_mmc_host p then mret 1 else aicbsp_find_mmc_host);
  if host =? 0 then mret tt else _ ← call_kernel mmc_detect_change; mret tt.

(** The GPIO that wakes the host, when one is given. *)
Definition hostwake_input : P unit :=
  p ← pget;
  if 0 <=? hostwake_gpio p then
    r ← call_kernel (gpio_request (hostwake_gpio p));
    if r =? 0 then _ ← call_kernel (gpio_direction_input (hostwake_gpio p)); mret tt else mret tt
  else mret tt.

Definition aicbsp_mainline_gpio_init : P Z :=
  _ ← pmodify (fun p => p <| regon_gpio ::= fun g => if g <? 0 then 385 else g |>);
  p ← pget;
  ret ← call_kernel (gpio_request (regon_gpio p));
  if negb (ret =? 0) then mret ret else
  ret ← call_kernel (gpio_direction_output (regon_gpio p) 0);
  if negb (ret =? 0) then _ ← call_kernel (gpio_free (regon_gpio p)); mret ret else
  _ ← pmodify (fun p => p <| regon_requested := true |>);
  _ ← hostwake_input;
  mret 0.

Definition aicbsp_mainline_cleanup : P unit :=
  p ← pget;
  _ ← (if regon_requested p then
         _ ← call_kernel (gpio_set_value (regon_gpio p) 0);
         _ ← call_kernel (gpio_free (regon_gpio p));
         pmodify (fun p => p <| regon_requested := false |>)
       else mret tt);
  _ ← (if 0 <=? hostwake_gpio p then _ ← call_kernel (gpio_free (hostwake_gpio p)); mret tt else mret tt);
  pmodify (fun p => p <| cached_mmc_host := false |>).

Definition aicbsp_platform_power_on : P Z :=
  ret ← aicbsp_mainline_gpio_init;
  if negb (ret =? 0) then mret ret else
  ret ← call_kernel register_notify;
  if negb (ret =? 0) then mret ret else
  _ ← hostwake_input;
  _ ← aicbsp_find_mmc_host;
  _ ← aicbsp_mainline_set_power 0;
  _ ← aicbsp_mainline_set_power 1;
  _ ← aicbsp_mainline_rescan;
  r ← call_kernel down_timeout;
  if r =? 0 then
    _ ← pmodify (fun p => if alien k (calls p) then p <| load_fw_in_fdrv := true |> else p);
    _ ← call_kernel unregister_notify;
    p ← pget; mret (if load_fw_in_fdrv p then -1 else 0)
  else
    _ ← call_kernel unregister_notify;
    _ ← aicbsp_mainline_set_power 0;
    mret (-1).

Definition aicbsp_platform_power_off : P unit :=
  _ ← aicbsp_mainline_set_power 0; aicbsp_mainline_rescan.

(** ** The SDIO driver *)

(** A new device starts with the kind 0, the AIC8801, and keeps it when the
    identification is not found: the error is overwritten. *)
Definition aicbsp_sdio_probe (vid did : Z) : P unit :=
  if unknown_ids vid did then pmodify (fun p => p <| load_fw_in_fdrv := true |>) else
  _ ← pmodify (fun p => p <| chip_state ::= fun s => s <| chipid := default AIC8801 (aicwf_sdio_chipmatch vid did).2 |>
                                                       <| log := [] |> |>);
  pmodify (fun p => p <| sdiodev := if probe_ok k (calls p) then DevLive else DevFreed |>).

Definition aicbsp_sdio_init : P Z :=
  r ← call_kernel sdio_register_driver;
  if negb (r =? 0) then mret (-1) else
  p ← pget;
  match ident k (calls p) with
  | Some (vid, did) => _ ← aicbsp_sdio_probe vid did; mret 0
  | None => mret 0
  end.

(** The driver's remove function runs for a device that is bound. *)
Definition aicbsp_sdio_exit : P unit :=
  _ ← call_kernel sdio_unregister_driver;
  pmodify (fun p => p <| sdiodev ::= fun d => match d with DevLive => DevNull | d => d end |>).

(** Both functions follow the pointer. *)
Definition aicbsp_sdio_release : P unit :=
  p ← pget; match sdiodev p with DevLive => _ ← call_kernel release_irq; mret tt | _ => pfault end.

Definition fw_init : P Z := fun p =>
  match sdiodev p with
  | DevLive => '(r, s) ← aicbsp_driver_fw_init c files stack fuel (chip_state p); Ok (r, p <| chip_state := s |>)
  | _ => Fault
  end.

(** ** Users of the chip *)

Definition AIC_BLUETOOTH : Z := 0.
Definition AIC_WIFI : Z := 1.

Definition power_map (subsys state map : Z) : Z :=
  if state =? 0 then Z.ldiff map (Z.shiftl 1 subsys) else Z.lor map (Z.shiftl 1 subsys).

(** The part that powers the chip: 0, or -1 after undoing what was done. *)
Definition power_up : P Z :=
  ret ← aicbsp_platform_power_on;
  if ret <? 0 then mret (-1) else
  ret ← aicbsp_sdio_init;
  if negb (ret =? 0) then _ ← aicbsp_platform_power_off; mret (-1) else
  ret ← fw_init;
  if negb (ret =? 0) then
    _ ← aicbsp_sdio_release; _ ← aicbsp_sdio_exit; _ ← aicbsp_platform_power_off; mret (-1)
  else _ ← aicbsp_sdio_release; mret 0.

Definition power_down : P unit := _ ← aicbsp_sdio_exit; aicbsp_platform_power_off.

Definition aicbsp_set_subsys (subsys state : Z) : P Z :=
  _ ← pmodify (fun p => p <| load_fw_in_fdrv := false |>);
  p ← pget;
  let cur_power_map := power_map subsys state (pre_power_map p) in
  let pre_power_state := 0 <? pre_power_map p in
  let cur_power_state := 0 <? cur_power_map in
  let done := _ ← pmodify (fun p => p <| pre_power_map := cur_power_map |>); mret (if cur_power_state then 1 else 0) in
  if Bool.eqb cur_power_state pre_power_state then done
  else if cur_power_state then
    ret ← power_up; if ret =? 0 then done else mret (-1)
  else _ ← power_down; done.

(** A sequence of requests; the results are not looked at. *)
Fixpoint requests (l : list (Z * Z)) : P unit :=
  match l with
  | [] => mret tt
  | (subsys, state) :: l => _ ← aicbsp_set_subsys subsys state; requests l
  end.

End Power.

End BspPower.
