(* ===== verification/BspPowerRuns.v ===== *)
(** * Powering the chip: runs (theorems on [BspPower])

    While all chips are known, the power is on exactly when someone uses the
    chip.  After everyone has released it, it can not be powered again: the GPIO
    of the regulator stays requested, and requesting it a second time fails. *)

From S2P Require Import Prelude Bsp BspBt BspWifi BspRuns BspPower.
From Stdlib Require Import String.
From stdpp Require Import list.
Import Bsp BspWifi BspRuns BspPower.
Open Scope Z_scope.
Open Scope list_scope.

Module BspPowerRuns.

(** ** GPIOs *)

(** The GPIO is requested and not freed. *)
Definition held_step (g : Z) (b : bool) (e : call * Z) : bool :=
  match e with
  | (gpio_request g', 0) => (g' =? g) || b
  | (gpio_free g', _) => negb (g' =? g) && b
  | _ => b
  end.
Definition held (g : Z) (l : list (call * Z)) : bool := foldl (held_step g) false l.

(** The level that was set last. *)
Definition level_step (g : Z) (b : bool) (e : call * Z) : bool :=
  match e with
  | (gpio_direction_output g' v, 0) | (gpio_set_value g' v, _) => if g' =? g then negb (v =? 0) else b
  | _ => b
  end.
Definition level (g : Z) (l : list (call * Z)) : bool := foldl (level_step g) false l.
#[local] Arguments held : simpl never.
#[local] Arguments level : simpl never.

(** What the kernel promises: a GPIO that is requested can not be requested
    again, and errors are negative. *)
Record kernel_ok (k : kernel) : Prop := {
  gpio_exclusive : forall l g, held g l = true -> answer k l (gpio_request g) < 0;
  errors_negative : forall l x, match x with
    gpio_request _ | gpio_direction_output _ _ | register_notify => answer k l x <= 0 | _ => True end
}.

(** ** Computations *)

Definition triple {A} (pre : pwr -> Prop) (m : P A) (post : A -> pwr -> Prop) : Prop :=
  forall p a p', pre p -> m p = Ok (a, p') -> post a p'.

Lemma bind_P_inv {A B} (m : P A) (f : A -> P B) p r :
  (m ≫= f) p = Ok r -> exists a p', m p = Ok (a, p') /\ f a p' = Ok r.
Proof. unfold mbind at 1, P_bind. intros H. apply bind_Ok in H as ([a p'] & H1 & H2). eauto. Qed.

Lemma bind_P_ok {A B} (m : P A) (f : A -> P B) p a p' : m p = Ok (a, p') -> (m ≫= f) p = f a p'.
Proof. intros H. unfold mbind, P_bind. by rewrite H. Qed.

Lemma pw_triple_ret {A} (a : A) (Q : A -> pwr -> Prop) : triple (Q a) (mret a) Q.
Proof. by intros p x p' H [= <- <-]. Qed.

Lemma pw_triple_bind {A B} (m : P A) (f : A -> P B) Pre Mid Post :
  triple Pre m Mid -> (forall a, triple (Mid a) (f a) Post) -> triple Pre (m ≫= f) Post.
Proof. intros Hm Hf p b p' Hp H. apply bind_P_inv in H as (a & p1 & H1 & H2). by eapply Hf, H2; eapply Hm. Qed.

Lemma pw_triple_weaken {A} (m : P A) (Pre Pre' : pwr -> Prop) (Post Post' : A -> pwr -> Prop) :
  triple Pre m Post -> (forall p, Pre' p -> Pre p) -> (forall a p, Post a p -> Post' a p) -> triple Pre' m Post'.
Proof. intros H H1 H2 p a p' Hp E. apply H2. by eapply H; [apply H1 |]. Qed.

Section Runs.
Context (k : kernel) (Hk : kernel_ok k) (c : card) (files : string -> option (list Z)) (stack : list event -> Z) (fuel : nat).

(** The GPIO of the regulator is ours, at level [b]. *)
Record owned (b : bool) (p : pwr) : Prop := {
  ow_req : regon_requested p = true;
  ow_gpio : 0 <= regon_gpio p;
  ow_held : held (regon_gpio p) (calls p) = true;
  ow_level : level (regon_gpio p) (calls p) = b
}.

(** It was never obtained. *)
Definition unowned (p : pwr) : Prop := regon_requested p = false /\ forall g, level g (calls p) = false.

(** Calls that neither free nor set a GPIO. *)
Definition harmless (x : call) : Prop :=
  match x with gpio_direction_output _ _ | gpio_set_value _ _ | gpio_free _ => False | _ => True end.

Lemma held_snoc g l e : held g (l ++ [e]) = held_step g (held g l) e.
Proof. unfold held. by rewrite foldl_snoc. Qed.

Lemma level_snoc g l e : level g (l ++ [e]) = level_step g (level g l) e.
Proof. unfold level. by rewrite foldl_snoc. Qed.

Lemma held_harmless g l x r : harmless x -> held g l = true -> held g (l ++ [(x, r)]) = true.
Proof. intros Hx H. rewrite held_snoc, H. destruct x; try done; destruct r; try done. cbn. by rewrite orb_true_r. Qed.

Lemma level_harmless g l x r : harmless x -> level g (l ++ [(x, r)]) = level g l.
Proof. intros Hx. rewrite level_snoc. destruct x; done. Qed.

Lemma owned_call b x : harmless x -> triple (owned b) (call_kernel k x) (fun _ => owned b).
Proof.
  intros Hx p a p' [H1 H2 H3 H4] [= _ <-]. split; cbn; [done | done | by apply held_harmless | by rewrite level_harmless].
Qed.

Lemma unowned_call x : harmless x -> triple unowned (call_kernel k x) (fun _ => unowned).
Proof. intros Hx p a p' [H1 H2] [= _ <-]. split; [done |]. intros g. cbn. by rewrite level_harmless. Qed.

(** What the invariants do not look at. *)
Lemma owned_ext b p p' :
  calls p' = calls p -> regon_gpio p' = regon_gpio p -> regon_requested p' = regon_requested p -> owned b p -> owned b p'.
Proof. intros E1 E2 E3 [H1 H2 H3 H4]. split; rewrite ?E1, ?E2, ?E3; done. Qed.

Lemma owned_pmodify b f :
  (forall p, calls (f p) = calls p /\ regon_gpio (f p) = regon_gpio p /\ regon_requested (f p) = regon_requested p) ->
  triple (owned b) (pmodify f) (fun _ => owned b).
Proof. intros Hf p a p' H [= _ <-]. destruct (Hf p) as (E1 & E2 & E3). by apply (owned_ext b p). Qed.

Lemma set_power_owned b v : triple (owned b) (aicbsp_mainline_set_power k v) (fun _ => owned (negb (v =? 0))).
Proof.
  intros p a p' [H1 H2 H3 H4] H. unfold aicbsp_mainline_set_power in H.
  apply bind_P_inv in H as (q & p1 & [= <- <-] & H). rewrite H1 in H.
  apply bind_P_inv in H as (r & p1 & [= _ <-] & [= _ <-]). split; cbn; [done | done | |].
  - by rewrite held_snoc, H3.
  - rewrite level_snoc. cbn. by rewrite Z.eqb_refl.
Qed.

Lemma own_bind {A B} b (m : P A) (f : A -> P B) :
  triple (owned b) m (fun _ => owned b) -> (forall a, triple (owned b) (f a) (fun _ => owned b)) ->
  triple (owned b) (m ≫= f) (fun _ => owned b).
Proof. intros Hm Hf. by apply (pw_triple_bind _ _ _ (fun _ => owned b)). Qed.

(** [owned b] goes through a computation of harmless calls. *)
Ltac own :=
  repeat match goal with
  | |- triple _ (mbind _ _) _ => apply own_bind; [| intros]
  | |- triple _ pget _ => let H := fresh in intros ? ? ? H [= <- <-]; exact H
  | |- triple _ (mret _) _ => let H := fresh in intros ? ? ? H [= <- <-]; exact H
  | |- triple _ (call_kernel _ _) _ => by apply owned_call
  | |- triple _ (pmodify _) _ => apply owned_pmodify; intros; repeat case_match; by repeat split
  | |- triple _ (if ?b then _ else _) _ => destruct b
  end.

Lemma find_host_owned b : triple (owned b) (aicbsp_find_mmc_host k) (fun _ => owned b).
Proof. unfold aicbsp_find_mmc_host. own. Qed.

Lemma rescan_owned b : triple (owned b) (aicbsp_mainline_rescan k) (fun _ => owned b).
Proof. unfold aicbsp_mainline_rescan. own. apply find_host_owned. Qed.

Lemma hostwake_owned b : triple (owned b) (hostwake_input k) (fun _ => owned b).
Proof. unfold hostwake_input. own. Qed.

Lemma power_off_owned b : triple (owned b) (aicbsp_platform_power_off k) (fun _ => owned false).
Proof.
  unfold aicbsp_platform_power_off. eapply pw_triple_bind; [apply set_power_owned | intros u]. apply (rescan_owned false).
Qed.

(** The initialisation of the GPIO: fails when it is held. *)
Lemma gpio_init_owned b : triple (owned b) (aicbsp_mainline_gpio_init k) (fun r p => r < 0 /\ owned b p).
Proof.
  intros p a p' Ho H. unfold aicbsp_mainline_gpio_init in H.
  apply bind_P_inv in H as ([] & p1 & [= <-] & H). apply bind_P_inv in H as (q & p2 & [= <- <-] & H).
  assert (Hg : (if regon_gpio p <? 0 then 385 else regon_gpio p) = regon_gpio p).
  { destruct Ho as [_ H2 _ _]. by rewrite (proj2 (Z.ltb_ge _ _)) by lia. }
  apply bind_P_inv in H as (r & p2 & [= <- <-] & H). cbn in H. rewrite Hg in H.
  pose proof (gpio_exclusive k Hk (calls p) (regon_gpio p) (ow_held _ _ Ho)) as Hneg.
  rewrite (proj2 (Z.eqb_neq _ 0)) in H by lia. injection H as <- <-. split; [done |].
  destruct Ho as [H1 H2 H3 H4]. split; cbn; rewrite ?Hg; [done | done | by apply held_harmless | by rewrite level_harmless].
Qed.

Lemma gpio_init_unowned :
  triple unowned (aicbsp_mainline_gpio_init k) (fun r p => (r < 0 /\ unowned p) \/ (r = 0 /\ owned false p)).
Proof.
  intros p a p' [Hr Hl] H. unfold aicbsp_mainline_gpio_init in H.
  apply bind_P_inv in H as ([] & p1 & [= <-] & H). apply bind_P_inv in H as (q & p2 & [= <- <-] & H).
  set (g := if regon_gpio p <? 0 then 385 else regon_gpio p) in *.
  assert (Hg : 0 <= g) by (unfold g; destruct (Z.ltb_spec (regon_gpio p) 0); lia).
  apply bind_P_inv in H as (r & p2 & [= <- <-] & H). cbn in H. fold g in H.
  pose proof (errors_negative k Hk (calls p) (gpio_request g)) as Hn. cbn in Hn.
  destruct (Z.eqb_spec (answer k (calls p) (gpio_request g)) 0) as [E | E]; cbn [negb] in H.
  2: { injection H as <- <-. left. split; [lia |]. split; [done |]. intros g'. cbn. fold g. by rewrite level_harmless. }
  apply bind_P_inv in H as (r & p2 & H1 & H). injection H1 as <- <-. cbn in H. fold g in H. rewrite E in H.
  pose proof (errors_negative k Hk (calls p ++ [(gpio_request g, 0)]) (gpio_direction_output g 0)) as Hn2. cbn in Hn2.
  destruct (Z.eqb_spec (answer k (calls p ++ [(gpio_request g, 0)]) (gpio_direction_output g 0)) 0) as [E2 | E2]; cbn [negb] in H.
  - apply bind_P_inv in H as ([] & p2 & [= <-] & H). apply bind_P_inv in H as ([] & p3 & H1 & [= <- <-]).
    right. split; [done |]. eapply hostwake_owned; [| exact H1]. split; cbn; fold g; [done | done | |].
    + rewrite ?E, ?E2. rewrite !held_snoc. cbn. by rewrite Z.eqb_refl.
    + rewrite ?E, ?E2. rewrite level_snoc. cbn. by rewrite Z.eqb_refl.
  - apply bind_P_inv in H as (r & p2 & H1 & H). injection H1 as <- <-. injection H as <- <-. left. split; [lia |].
    split; [done |]. intros g'. cbn. fold g. rewrite ?E, level_snoc. cbn [level_step].
    rewrite level_snoc. rewrite level_harmless by done. rewrite Hl. cbn.
    by destruct (answer k (calls p ++ [(gpio_request g, 0)]) (gpio_direction_output g 0)).
Qed.

(** ** What powering leaves alone *)

(** The flag of the dummy driver too, when no chip is unknown. *)
Definition same (p p' : pwr) : Prop :=
  pre_power_map p' = pre_power_map p /\ sdiodev p' = sdiodev p /\
  ((forall l, alien k l = false) -> load_fw_in_fdrv p' = load_fw_in_fdrv p).
Definition keeps {A} (m : P A) : Prop := forall p a p', m p = Ok (a, p') -> same p p'.

Lemma pw_keeps_bind {A B} (m : P A) (f : A -> P B) : keeps m -> (forall a, keeps (f a)) -> keeps (m ≫= f).
Proof.
  intros Hm Hf p b p' H. apply bind_P_inv in H as (a & p1 & H1 & H2).
  destruct (Hm _ _ _ H1) as (E1 & E2 & E3). destruct (Hf _ _ _ _ H2) as (F1 & F2 & F3).
  split; [congruence |]. split; [congruence |]. intros Ha. by rewrite F3, E3.
Qed.

Lemma keeps_pmodify f : (forall p, same p (f p)) -> keeps (pmodify f).
Proof. intros Hf p a p' [= _ <-]. apply Hf. Qed.

Lemma keeps_call x : keeps (call_kernel k x).
Proof. by intros p a p' [= _ <-]. Qed.

Lemma pw_keeps_ret {A} (a : A) : keeps (mret a).
Proof. by intros p x p' [= _ <-]. Qed.

Lemma pw_keeps_get : keeps pget.
Proof. by intros p x p' [= _ <-]. Qed.

Ltac keep :=
  repeat match goal with
  | |- keeps (mbind _ _) => apply pw_keeps_bind; [| intros]
  | |- keeps (pmodify _) => apply keeps_pmodify; intros; unfold same; repeat case_match; split_and!; [done | done |];
      done
  | |- keeps (if ?b then _ else _) => destruct b
  | |- keeps (call_kernel _ _) => apply keeps_call
  | |- keeps (mret _) => apply pw_keeps_ret
  | |- keeps pget => apply pw_keeps_get
  | |- keeps (aicbsp_mainline_set_power _ _) => unfold aicbsp_mainline_set_power
  | |- keeps (hostwake_input _) => unfold hostwake_input
  | |- keeps (aicbsp_find_mmc_host _) => unfold aicbsp_find_mmc_host
  | |- keeps (aicbsp_mainline_rescan _) => unfold aicbsp_mainline_rescan
  end.

Lemma gpio_init_keeps : keeps (aicbsp_mainline_gpio_init k).
Proof. unfold aicbsp_mainline_gpio_init. keep. Qed.

Lemma alien_keeps : keeps (pmodify (fun p => if alien k (calls p) then p <| load_fw_in_fdrv := true |> else p)).
Proof.
  apply keeps_pmodify. intros p. unfold same. destruct (alien k (calls p)) eqn:E; [| done].
  split; [done |]. split; [done |]. intros H. by rewrite H in E.
Qed.

Lemma power_on_keeps : keeps (aicbsp_platform_power_on k).
Proof.
  unfold aicbsp_platform_power_on. apply pw_keeps_bind; [apply gpio_init_keeps | intros]. keep. apply alien_keeps.
Qed.

Lemma power_off_keeps : keeps (aicbsp_platform_power_off k).
Proof. unfold aicbsp_platform_power_off. keep. Qed.

(** The power is off, whether the GPIO is ours or not. *)
Definition off (p : pwr) : Prop := unowned p \/ owned false p.

(** After the GPIO was obtained. *)
Definition power_cycle : P Z :=
  ret ← call_kernel k register_notify;
  if negb (ret =? 0) then mret ret else
  _ ← hostwake_input k;
  _ ← aicbsp_find_mmc_host k;
  _ ← aicbsp_mainline_set_power k 0;
  _ ← aicbsp_mainline_set_power k 1;
  _ ← aicbsp_mainline_rescan k;
  r ← call_kernel k down_timeout;
  if r =? 0 then
    _ ← pmodify (fun p => if alien k (calls p) then p <| load_fw_in_fdrv := true |> else p);
    _ ← call_kernel k unregister_notify;
    p ← pget; mret (if load_fw_in_fdrv p then -1 else 0)
  else
    _ ← call_kernel k unregister_notify;
    _ ← aicbsp_mainline_set_power k 0;
    mret (-1).

(** The chip answered, or not. *)
Lemma power_cycle_owned :
  triple (owned false) power_cycle (fun r p => (r < 0 /\ owned false p) \/ (owned true p /\ (r = 0 \/ r < 0 /\ load_fw_in_fdrv p = true))).
Proof.
  unfold power_cycle. intros p a p' Ho H. apply bind_P_inv in H as (r & p1 & H1 & H).
  assert (Hr : r <= 0) by (injection H1 as <- _; apply (errors_negative k Hk (calls p) register_notify)).
  apply (owned_call false register_notify I) in H1; [| done].
  destruct (Z.eqb_spec r 0) as [-> |]; cbn [negb] in H; [| injection H as <- <-; left; split; [lia | done]].
  apply bind_P_inv in H as (u & p2 & H2 & H). apply (hostwake_owned false) in H2; [| done].
  apply bind_P_inv in H as (u' & p3 & H3 & H). apply (find_host_owned false) in H3; [| done].
  apply bind_P_inv in H as (u1 & p4 & H4 & H). apply (set_power_owned false 0) in H4; [| done].
  apply bind_P_inv in H as (u2 & p5 & H5 & H). apply (set_power_owned false 1) in H5; [| done].
  apply bind_P_inv in H as (u3 & p6 & H6 & H). apply (rescan_owned true) in H6; [| done].
  apply bind_P_inv in H as (t & p7 & H7 & H). apply (owned_call true down_timeout I) in H7; [| done].
  destruct (t =? 0).
  - apply bind_P_inv in H as (u4 & p8 & H8 & H). apply (owned_pmodify true) in H8;
      [| intros q; by destruct (alien k (calls q)) | done].
    apply bind_P_inv in H as (u5 & p9 & H9 & H). apply (owned_call true unregister_notify I) in H9; [| done].
    apply bind_P_inv in H as (q & p10 & [= <- <-] & [= <- <-]). right. split; [done |].
    destruct (load_fw_in_fdrv p9); [by right | by left].
  - apply bind_P_inv in H as (u4 & p8 & H8 & H). apply (owned_call true unregister_notify I) in H8; [| done].
    apply bind_P_inv in H as (u5 & p9 & H9 & [= <- <-]). apply (set_power_owned true 0) in H9; [| done]. by left.
Qed.

Lemma power_on_off :
  triple off (aicbsp_platform_power_on k) (fun r p => (r < 0 /\ off p) \/ (owned true p /\ (r = 0 \/ r < 0 /\ load_fw_in_fdrv p = true))).
Proof.
  intros p a p' Ho H. change (aicbsp_platform_power_on k) with
    (ret ← aicbsp_mainline_gpio_init k; if negb (ret =? 0) then mret ret else power_cycle) in H.
  apply bind_P_inv in H as (r & p1 & H1 & H).
  assert (Hp1 : (r < 0 /\ off p1) \/ (r = 0 /\ owned false p1)).
  { destruct Ho as [Ho | Ho].
    - apply gpio_init_unowned in H1; [| done]. destruct H1 as [[? ?] | ?]; [left; split; [done | by left] | by right].
    - apply (gpio_init_owned false) in H1 as [? ?]; [| done]. left. split; [done | by right]. }
  destruct Hp1 as [[Hr Hoff] | [-> Hown]].
  - rewrite (proj2 (Z.eqb_neq r 0)) in H by lia. injection H as <- <-. by left.
  - cbn [Z.eqb negb] in H. apply power_cycle_owned in H; [| done]. destruct H as [[? ?] | ?]; [left; split; [done | by right] | by right].
Qed.

(** Once the GPIO is ours, powering the chip fails at once. *)
Lemma power_on_owned b : triple (owned b) (aicbsp_platform_power_on k) (fun r p => r < 0 /\ owned b p).
Proof.
  intros p a p' Ho H. unfold aicbsp_platform_power_on in H. apply bind_P_inv in H as (r & p1 & H1 & H).
  apply (gpio_init_owned b) in H1 as [Hr Hp]; [| done]. rewrite (proj2 (Z.eqb_neq r 0)) in H by lia. by injection H as <- <-.
Qed.

(** ** The device *)

Lemma sdio_init_owned b : triple (owned b) (aicbsp_sdio_init k) (fun _ => owned b).
Proof.
  unfold aicbsp_sdio_init. own. destruct (ident k (calls a0)) as [[vid did]|]; [| own]. unfold aicbsp_sdio_probe.
  apply own_bind; [| intros; own]. destruct (unknown_ids vid did); own.
Qed.

Lemma fw_init_live b :
  triple (owned b) (fw_init c files stack fuel) (fun _ p => owned b p /\ sdiodev p = DevLive).
Proof.
  intros p a p' Ho H. unfold fw_init in H. destruct (sdiodev p) eqn:E; try done.
  apply bind_Ok in H as ([r s] & _ & [= _ <-]). split; [by apply (owned_ext b p) | done].
Qed.

Lemma release_owned b (d : devptr) :
  triple (fun p => owned b p /\ sdiodev p = d) (aicbsp_sdio_release k) (fun _ p => owned b p /\ sdiodev p = d).
Proof.
  intros p a p' [Ho Hd] H. unfold aicbsp_sdio_release in H. apply bind_P_inv in H as (q & p1 & [= <- <-] & H).
  rewrite Hd in H. destruct d; try done. apply bind_P_inv in H as (r & p1 & H1 & [= _ <-]).
  assert (sdiodev p1 = sdiodev p) as -> by by injection H1 as _ <-.
  split; [by eapply (owned_call b release_irq I); [exact Ho | exact H1] | done].
Qed.

Lemma exit_owned b : triple (owned b) (aicbsp_sdio_exit k) (fun _ p => owned b p /\ sdiodev p <> DevLive).
Proof.
  intros p a p' Ho H. unfold aicbsp_sdio_exit in H. apply bind_P_inv in H as (r & p1 & H1 & [= _ <-]).
  apply (owned_call b sdio_unregister_driver I) in H1; [| done]. split; [by apply (owned_ext b p1) |]. cbn. by destruct (sdiodev p1).
Qed.

Lemma power_off_dev : triple (fun p => (exists b, owned b p) /\ sdiodev p <> DevLive) (aicbsp_platform_power_off k)
  (fun _ p => owned false p /\ sdiodev p <> DevLive).
Proof.
  intros p a p' [[b Ho] Hd] H. destruct (power_off_keeps _ _ _ H) as (_ & E & _). split; [| by rewrite E].
  by apply (power_off_owned b) in H.
Qed.

(** ** Users *)

Definition idle (p : pwr) : Prop := off p /\ sdiodev p <> DevLive.
Definition in_use (p : pwr) : Prop := owned true p /\ sdiodev p = DevLive.

Lemma sdio_init_fails p r p' : aicbsp_sdio_init k p = Ok (r, p') -> r <> 0 -> sdiodev p' = sdiodev p.
Proof.
  unfold aicbsp_sdio_init. intros H Hr. apply bind_P_inv in H as (x & p1 & [= <- <-] & H).
  destruct (negb _); [by injection H as _ <- |]. apply bind_P_inv in H as (q & p2 & [= <- <-] & H).
  destruct (ident k _) as [[vid did]|]; [| by injection H as <- _]. apply bind_P_inv in H as (u & p3 & _ & [= <- _]). done.
Qed.

(** From the power on to the start of the firmware. *)
Definition bring_up : P Z :=
  ret ← aicbsp_sdio_init k;
  if negb (ret =? 0) then _ ← aicbsp_platform_power_off k; mret (-1) else
  ret ← fw_init c files stack fuel;
  if negb (ret =? 0) then
    _ ← aicbsp_sdio_release k; _ ← aicbsp_sdio_exit k; _ ← aicbsp_platform_power_off k; mret (-1)
  else _ ← aicbsp_sdio_release k; mret 0.

Lemma bring_up_spec :
  triple (fun p => owned true p /\ sdiodev p <> DevLive) bring_up
    (fun r p => (r = 0 /\ in_use p) \/ (r = -1 /\ owned false p /\ sdiodev p <> DevLive)).
Proof.
  intros p a p' [Ho Hd] H. apply bind_P_inv in H as (r & p1 & H1 & H). pose proof (sdio_init_fails _ _ _ H1) as Hf.
  apply (sdio_init_owned true) in H1; [| done]. destruct (Z.eqb_spec r 0) as [-> | Hr]; cbn [negb] in H.
  - apply bind_P_inv in H as (r2 & p2 & H2 & H). apply (fw_init_live true) in H2 as [Ho2 Hd2]; [| done].
    destruct (negb (r2 =? 0)).
    + apply bind_P_inv in H as (u1 & p3 & H3 & H). apply (release_owned true DevLive) in H3 as [Ho3 _]; [| done].
      apply bind_P_inv in H as (u2 & p4 & H4 & H). apply (exit_owned true) in H4 as [Ho4 Hd4]; [| done].
      apply bind_P_inv in H as (u3 & p5 & H5 & [= <- <-]).
      apply power_off_dev in H5 as [Ho5 Hd5]; [| split; [by exists true | done]]. by right.
    + apply bind_P_inv in H as (u1 & p3 & H3 & [= <- <-]). apply (release_owned true DevLive) in H3; [| done]. by left.
  - apply bind_P_inv in H as (u & p2 & H2 & [= <- <-]). right. split; [done |].
    apply power_off_dev in H2; [done |]. split; [by exists true | by rewrite Hf].
Qed.

(** When all chips are known, the power is on or off with the result. *)
Lemma power_up_idle :
  (forall l, alien k l = false) ->
  triple (fun p => idle p /\ load_fw_in_fdrv p = false) (power_up k c files stack fuel)
    (fun r p => (r = 0 /\ in_use p) \/ (r = -1 /\ idle p)).
Proof.
  intros Hal p a p' [[Ho Hd] Hl] H. change (power_up k c files stack fuel) with
    (ret ← aicbsp_platform_power_on k; if ret <? 0 then mret (-1) else bring_up) in H.
  apply bind_P_inv in H as (r & p1 & H1 & H). destruct (power_on_keeps _ _ _ H1) as (_ & Hd1 & Hl1).
  specialize (Hl1 Hal). apply power_on_off in H1; [| done]. destruct H1 as [[Hr H1] | [H1 [-> | [Hr Hf]]]].
  - rewrite (proj2 (Z.ltb_lt r 0)) in H by lia. injection H as <- <-. right. split; [done |]. split; [done | by rewrite Hd1].
  - apply bring_up_spec in H; [| split; [done | by rewrite Hd1]].
    destruct H as [? | (-> & ? & ?)]; [by left |]. right. split; [done |]. split; [by right | done].
  - congruence.
Qed.

Lemma power_up_owned b :
  triple (owned b) (power_up k c files stack fuel) (fun r p => r = -1 /\ owned b p).
Proof.
  intros p a p' Ho H. unfold power_up in H. apply bind_P_inv in H as (r & p1 & H1 & H).
  apply (power_on_owned b) in H1 as [Hr Hp]; [| done]. rewrite (proj2 (Z.ltb_lt r 0)) in H by lia. by injection H as <- <-.
Qed.

Lemma power_down_owned b : triple (owned b) (power_down k) (fun _ p => owned false p /\ sdiodev p <> DevLive).
Proof.
  intros p a p' Ho H. unfold power_down in H. apply bind_P_inv in H as (u & p1 & H1 & H).
  apply (exit_owned b) in H1 as [Ho1 Hd1]; [| done]. apply power_off_dev in H; [done |]. split; [by exists b | done].
Qed.

(** ** Runs *)

Lemma power_map_nonneg subsys st m : 0 <= subsys -> 0 <= m -> 0 <= power_map subsys st m.
Proof.
  intros Hs Hm. unfold power_map. destruct (st =? 0); [by apply Z.ldiff_nonneg; left |].
  apply Z.lor_nonneg. split; [done |]. apply Z.shiftl_nonneg. lia.
Qed.

(** Everyone's power is the platform's power. *)
Definition well_powered (p : pwr) : Prop :=
  (pre_power_map p = 0 /\ idle p) \/ (0 < pre_power_map p /\ in_use p).

Lemma idle_ext p p' :
  calls p' = calls p -> regon_gpio p' = regon_gpio p -> regon_requested p' = regon_requested p -> sdiodev p' = sdiodev p ->
  idle p -> idle p'.
Proof.
  intros E1 E2 E3 E4 [Ho Hd]. split; [| by rewrite E4]. destruct Ho as [[H1 H2] | Ho].
  - left. split; [by rewrite E3 | by rewrite E1].
  - right. by apply (owned_ext false p).
Qed.

Lemma in_use_ext p p' :
  calls p' = calls p -> regon_gpio p' = regon_gpio p -> regon_requested p' = regon_requested p -> sdiodev p' = sdiodev p ->
  in_use p -> in_use p'.
Proof. intros E1 E2 E3 E4 [Ho Hd]. split; [by apply (owned_ext true p) | by rewrite E4]. Qed.

(** Neither the probe nor the chip touch the map. *)
Lemma power_up_map p r p' : power_up k c files stack fuel p = Ok (r, p') -> pre_power_map p' = pre_power_map p.
Proof.
  intros H. change (power_up k c files stack fuel) with (ret ← aicbsp_platform_power_on k; if ret <? 0 then mret (-1) else bring_up) in H.
  apply bind_P_inv in H as (x & p1 & H1 & H). destruct (power_on_keeps _ _ _ H1) as (<- & _ & _).
  destruct (x <? 0); [by injection H as _ <- |].
  assert (Hinit : forall q y q', aicbsp_sdio_init k q = Ok (y, q') -> pre_power_map q' = pre_power_map q).
  { clear. intros q y q' H. unfold aicbsp_sdio_init in H. apply bind_P_inv in H as (r & q1 & [= <- <-] & H).
    destruct (negb _); [by injection H as _ <- |]. apply bind_P_inv in H as (z & q2 & [= <- <-] & H).
    destruct (ident k _) as [[vid did]|]; [| by injection H as _ <-]. apply bind_P_inv in H as (u & q3 & H3 & [= _ <-]).
    unfold aicbsp_sdio_probe in H3. destruct (unknown_ids vid did); [by injection H3 as _ <- |].
    apply bind_P_inv in H3 as (u' & q4 & [= _ <-] & [= _ <-]). done. }
  assert (Hfw : forall q y q', fw_init c files stack fuel q = Ok (y, q') -> pre_power_map q' = pre_power_map q).
  { clear. intros q y q' H. unfold fw_init in H. destruct (sdiodev q); try done. by apply bind_Ok in H as ([r s] & _ & [= _ <-]). }
  assert (Hrel : forall q y q', aicbsp_sdio_release k q = Ok (y, q') -> pre_power_map q' = pre_power_map q).
  { clear. intros q y q' H. unfold aicbsp_sdio_release in H. apply bind_P_inv in H as (z & q1 & [= <- <-] & H).
    destruct (sdiodev q); try done. by apply bind_P_inv in H as (r & q2 & [= _ <-] & [= _ <-]). }
  assert (Hoff : forall q y q', aicbsp_platform_power_off k q = Ok (y, q') -> pre_power_map q' = pre_power_map q).
  { intros q y q' Hq. by destruct (power_off_keeps _ _ _ Hq) as (<- & _). }
  unfold bring_up in H. apply bind_P_inv in H as (y & p2 & H2 & H). apply Hinit in H2 as <-.
  destruct (negb (y =? 0)).
  { apply bind_P_inv in H as (u & p3 & H3 & [= _ <-]). by apply Hoff in H3. }
  apply bind_P_inv in H as (z & p3 & H3 & H). apply Hfw in H3 as <-. destruct (negb (z =? 0)).
  - apply bind_P_inv in H as (u1 & p4 & H4 & H). apply Hrel in H4 as <-.
    apply bind_P_inv in H as (u2 & p5 & H5 & H). assert (pre_power_map p5 = pre_power_map p4) as <- by by injection H5 as _ <-.
    apply bind_P_inv in H as (u3 & p6 & H6 & [= _ <-]). by apply Hoff in H6.
  - apply bind_P_inv in H as (u1 & p4 & H4 & [= _ <-]). by apply Hrel in H4.
Qed.

(** The request after the flag is cleared. *)
Lemma set_subsys_cases subsys st p a p' :
  aicbsp_set_subsys k c files stack fuel subsys st p = Ok (a, p') ->
  let p1 := p <| load_fw_in_fdrv := false |> in
  let m := power_map subsys st (pre_power_map p) in
  exists p2,
    ((0 <? m) = (0 <? pre_power_map p) /\ p2 = p1 /\ p' = p2 <| pre_power_map := m |> /\ a = (if 0 <? m then 1 else 0)) \/
    (0 < m /\ pre_power_map p <= 0 /\ power_up k c files stack fuel p1 = Ok (0, p2) /\
       p' = p2 <| pre_power_map := m |> /\ a = 1) \/
    (exists r, 0 < m /\ pre_power_map p <= 0 /\ power_up k c files stack fuel p1 = Ok (r, p2) /\ r <> 0 /\ p' = p2 /\ a = -1) \/
    (m <= 0 /\ 0 < pre_power_map p /\ power_down k p1 = Ok (tt, p2) /\ p' = p2 <| pre_power_map := m |> /\ a = 0).
Proof.
  intros H p1 m. unfold aicbsp_set_subsys in H.
  apply bind_P_inv in H as (u & q1 & H1 & H). injection H1 as _ <-.
  apply bind_P_inv in H as (q & q2 & H1 & H). injection H1 as <- <-. cbv zeta in H.
  cbn [pre_power_map] in H. fold m in H.
  destruct (Bool.eqb (0 <? m) (0 <? pre_power_map p)) eqn:Eb.
  - apply Bool.eqb_prop in Eb. exists p1. left.
    apply bind_P_inv in H as (u' & p2 & [= _ <-] & [= <- <-]). done.
  - destruct (Z.ltb_spec 0 m) as [Hm | Hm]; destruct (Z.ltb_spec 0 (pre_power_map p)) as [Hq | Hq]; try discriminate Eb.
    + apply bind_P_inv in H as (r & p2 & H2 & H). exists p2. destruct (Z.eqb_spec r 0) as [-> |].
      * right; left. apply bind_P_inv in H as (u' & p3 & [= _ <-] & [= <- <-]). done.
      * right; right; left. exists r. by injection H as <- <-.
    + apply bind_P_inv in H as ([] & p2 & H2 & H). exists p2. do 3 right.
      apply bind_P_inv in H as (u' & p3 & [= _ <-] & [= <- <-]). done.
Qed.

Lemma set_subsys_well subsys st :
  0 <= subsys -> (forall l, alien k l = false) ->
  triple well_powered (aicbsp_set_subsys k c files stack fuel subsys st) (fun _ => well_powered).
Proof.
  intros Hs Hal p a p' Hw H. apply set_subsys_cases in H as (p2 & H). cbv zeta in H.
  set (p1 := p <| load_fw_in_fdrv := false |>) in *. set (m := power_map subsys st (pre_power_map p)) in *.
  assert (Hm : 0 <= m) by (apply power_map_nonneg; [done | destruct Hw as [[-> _] | [? _]]; lia]).
  destruct H as [(Eb & -> & -> & _) | [(Hpos & Hq & H & -> & _) | [(r & Hpos & Hq & H & Hr & -> & _) | (Hz & Hq & H & -> & _)]]].
  - destruct Hw as [[Em Hi] | [Em Hi]]; [left | right]; cbn.
    + split; [lia | by apply (idle_ext p)].
    + split; [lia | by apply (in_use_ext p)].
  - destruct Hw as [[Em Hi] | [Em _]]; [| lia].
    apply (power_up_idle Hal) in H; [| split; [by apply (idle_ext p) | done]].
    destruct H as [[_ H] | [? _]]; [| done]. right. split; [done | by apply (in_use_ext p2)].
  - destruct Hw as [[Em Hi] | [Em _]]; [| lia]. pose proof (power_up_map _ _ _ H) as E2.
    apply (power_up_idle Hal) in H; [| split; [by apply (idle_ext p) | done]].
    destruct H as [[? _] | [_ H]]; [done |]. left. by rewrite E2.
  - destruct Hw as [[Em _] | [_ [Ho _]]]; [lia |]. apply (power_down_owned true) in H as [Ho2 Hd2]; [| by apply (owned_ext true p)].
    left. cbn. split; [lia |]. apply (idle_ext p2); try done. split; [by right | done].
Qed.

Lemma requests_well l :
  (forall l, alien k l = false) -> Forall (fun r => 0 <= r.1) l ->
  triple well_powered (requests k c files stack fuel l) (fun _ => well_powered).
Proof.
  intros Hal Hl. induction Hl as [| [subsys st] l Hs Hl IH]; cbn [requests]; [by intros p a p' H [= _ <-] |].
  eapply pw_triple_bind; [by apply set_subsys_well | intros r; exact IH].
Qed.

Lemma init_idle regon hostwake mode adap : idle (module_init regon hostwake mode adap).
Proof. split; [by left | done]. Qed.

(** ** After the first use *)

(** The GPIO is ours whenever somebody uses the chip, and stays so. *)
Definition spent (p : pwr) : Prop := exists b, owned b p.
Definition once (p : pwr) : Prop := spent p \/ (pre_power_map p <= 0 /\ unowned p).

Lemma spent_ext p p' :
  calls p' = calls p -> regon_gpio p' = regon_gpio p -> regon_requested p' = regon_requested p -> spent p -> spent p'.
Proof. intros E1 E2 E3 [b H]. exists b. by apply (owned_ext b p). Qed.

Lemma bring_up_spent : triple spent bring_up (fun _ => spent).
Proof.
  intros p a p' [b Ho] H. apply bind_P_inv in H as (r & p1 & H1 & H). apply (sdio_init_owned b) in H1; [| done].
  destruct (negb (r =? 0)).
  - apply bind_P_inv in H as (u & p2 & H2 & [= _ <-]). exists false. by eapply power_off_owned.
  - apply bind_P_inv in H as (r2 & p2 & H2 & H). apply (fw_init_live b) in H2 as [Ho2 Hd2]; [| done].
    destruct (negb (r2 =? 0)).
    + apply bind_P_inv in H as (u1 & p3 & H3 & H). apply (release_owned b DevLive) in H3 as [Ho3 _]; [| done].
      apply bind_P_inv in H as (u2 & p4 & H4 & H). apply (exit_owned b) in H4 as [Ho4 _]; [| done].
      apply bind_P_inv in H as (u3 & p5 & H5 & [= _ <-]). exists false. by eapply power_off_owned.
    + apply bind_P_inv in H as (u1 & p3 & H3 & [= _ <-]). apply (release_owned b DevLive) in H3 as [Ho3 _]; [| done]. by exists b.
Qed.

Lemma power_up_once :
  triple (fun p => spent p \/ unowned p) (power_up k c files stack fuel) (fun r p => spent p \/ (r <> 0 /\ unowned p)).
Proof.
  intros p a p' [[b Ho] | Ho] H.
  - apply (power_up_owned b) in H as [_ H]; [| done]. left. by exists b.
  - change (power_up k c files stack fuel) with (ret ← aicbsp_platform_power_on k; if ret <? 0 then mret (-1) else bring_up) in H.
    apply bind_P_inv in H as (r & p1 & H1 & H).
    assert (Hp1 : spent p1 \/ (r < 0 /\ unowned p1)).
    { apply power_on_off in H1; [| by left]. destruct H1 as [[Hr [? | ?]] | [? _]]; [by right | |]; left; eexists; done. }
    destruct Hp1 as [Hp1 | [Hr Hp1]].
    + destruct (r <? 0); [injection H as _ <-; by left |]. left. by eapply bring_up_spent.
    + rewrite (proj2 (Z.ltb_lt r 0)) in H by lia. injection H as <- <-. by right.
Qed.

Lemma set_subsys_once subsys st :
  triple once (aicbsp_set_subsys k c files stack fuel subsys st) (fun _ => once).
Proof.
  intros p a p' Hw H. apply set_subsys_cases in H as (p2 & H). cbv zeta in H.
  set (p1 := p <| load_fw_in_fdrv := false |>) in *. set (m := power_map subsys st (pre_power_map p)) in *.
  assert (Hp1 : spent p1 \/ unowned p1) by (destruct Hw as [? | [_ ?]]; [left; by apply (spent_ext p) | by right]).
  destruct H as [(Eb & -> & -> & _) | [(Hpos & Hq & H & -> & _) | [(r & Hpos & Hq & H & Hr & -> & _) | (Hz & Hq & H & -> & _)]]].
  - destruct Hw as [Hw | [Hm Hw]]; [left; by apply (spent_ext p) |]. right. split; [cbn; lia | done].
  - apply power_up_once in H; [| done]. destruct H as [H | [? _]]; [| done]. left. by apply (spent_ext p2).
  - pose proof (power_up_map _ _ _ H) as E. apply power_up_once in H; [| done].
    destruct H as [H | [_ H]]; [by left |]. right. split; [by rewrite E | done].
  - destruct Hw as [[b Ho] | [? _]]; [| lia].
    apply (power_down_owned b) in H as [Ho2 _]; [| by apply (owned_ext b p)]. left. exists false. by apply (owned_ext false p2).
Qed.

Lemma set_subsys_spent subsys st :
  triple spent (aicbsp_set_subsys k c files stack fuel subsys st) (fun _ => spent).
Proof.
  intros p a p' [b Ho] H. apply set_subsys_cases in H as (p2 & H). cbv zeta in H.
  set (p1 := p <| load_fw_in_fdrv := false |>) in *. assert (Hp1 : owned b p1) by by apply (owned_ext b p).
  destruct H as [(_ & -> & -> & _) | [(_ & _ & H & -> & _) | [(r & _ & _ & H & _ & -> & _) | (_ & _ & H & -> & _)]]].
  - exists b. by apply (owned_ext b p1).
  - apply (power_up_owned b) in H as [_ H]; [| done]. exists b. by apply (owned_ext b p2).
  - apply (power_up_owned b) in H as [_ H]; [| done]. by exists b.
  - apply (power_down_owned b) in H as [H _]; [| done]. exists false. by apply (owned_ext false p2).
Qed.

Lemma requests_inv (I : pwr -> Prop) :
  (forall subsys st, triple I (aicbsp_set_subsys k c files stack fuel subsys st) (fun _ => I)) ->
  forall l, triple I (requests k c files stack fuel l) (fun _ => I).
Proof.
  intros HI l. induction l as [| [subsys st] l IH]; cbn [requests]; [by intros p a p' H [= _ <-] |].
  eapply pw_triple_bind; [apply HI | intros r; exact IH].
Qed.

(** Powering with the GPIO in our hands returns, with the error. *)
Lemma power_up_refused p : spent p -> exists p', power_up k c files stack fuel p = Ok (-1, p').
Proof.
  intros [b Ho].
  set (p1 := p <| regon_gpio ::= fun g => if g <? 0 then 385 else g |>). set (r := answer k (calls p1) (gpio_request (regon_gpio p1))).
  assert (Hg : regon_gpio p1 = regon_gpio p) by (cbn; by rewrite (proj2 (Z.ltb_ge _ _)) by apply (ow_gpio _ _ Ho)).
  assert (Hr : r < 0) by (unfold r; rewrite Hg; apply (gpio_exclusive k Hk), (ow_held _ _ Ho)).
  assert (E : aicbsp_mainline_gpio_init k p = Ok (r, p1 <| calls ::= (.++ [(gpio_request (regon_gpio p1), r)]) |>)).
  { unfold aicbsp_mainline_gpio_init. do 3 (erewrite bind_P_ok; [| reflexivity]).
    fold p1. fold r. by rewrite (proj2 (Z.eqb_neq r 0)) by lia. }
  eexists. unfold power_up. erewrite bind_P_ok.
  2: { unfold aicbsp_platform_power_on. rewrite (bind_P_ok _ _ p _ _ E), (proj2 (Z.eqb_neq r 0)) by lia. reflexivity. }
  cbn beta. by rewrite (proj2 (Z.ltb_lt r 0)) by lia.
Qed.

(** ** The theorems *)

(** C27. After any sequence of power requests by Bluetooth and WLAN, with any failures
    of the kernel and the chip but no chip the drivers do not know, the GPIO of the
    regulator is high exactly when somebody has the chip switched on, and the SDIO
    device exists exactly then. *)
Theorem power_follows_users regon hostwake mode adap l p :
  (forall l, alien k l = false) -> Forall (fun r => 0 <= r.1 < 31) l ->
  requests k c files stack fuel l (module_init regon hostwake mode adap) = Ok (tt, p) ->
  level (regon_gpio p) (calls p) = (0 <? pre_power_map p) /\ (sdiodev p = DevLive <-> 0 < pre_power_map p).
Proof.
  intros Hal Hl H. assert (Hl' : Forall (fun r => 0 <= r.1) l) by (eapply Forall_impl; [exact Hl | intros r Hr; apply Hr]).
  apply (requests_well l Hal Hl') in H; [| left; split; [done | apply init_idle]].
  destruct H as [(-> & [Ho | Ho] & Hd) | (Hm & Ho & Hd)].
  - split; [apply Ho | done].
  - split; [apply (ow_level _ _ Ho) | done].
  - rewrite (proj2 (Z.ltb_lt _ _) Hm). split; [apply (ow_level _ _ Ho) | done].
Qed.

(** Once the chip was in use and everybody has released it, every further request
    for power fails: the GPIO of the regulator is requested again with each power-on but
    only freed when the module is unloaded. *)
Theorem power_on_only_once regon hostwake mode adap l1 l2 p1 p2 subsys st :
  requests k c files stack fuel l1 (module_init regon hostwake mode adap) = Ok (tt, p1) -> 0 < pre_power_map p1 ->
  requests k c files stack fuel l2 p1 = Ok (tt, p2) -> pre_power_map p2 = 0 ->
  0 <= subsys < 31 -> st <> 0 ->
  exists p3, aicbsp_set_subsys k c files stack fuel subsys st p2 = Ok (-1, p3) /\ pre_power_map p3 = 0.
Proof.
  intros H1 Hp H2 Hz Hs Hst.
  assert (Hsp : spent p1).
  { apply (requests_inv once set_subsys_once) in H1; [| by right]. destruct H1 as [? | [? _]]; [done | lia]. }
  apply (requests_inv spent set_subsys_spent) in H2; [| done].
  set (q := p2 <| load_fw_in_fdrv := false |>). assert (Hq : spent q) by by apply (spent_ext p2).
  destruct (power_up_refused q Hq) as [p3 Hu]. exists p3. split.
  - unfold aicbsp_set_subsys. do 2 (erewrite bind_P_ok; [| reflexivity]). cbv zeta. fold q.
    change (pre_power_map q) with (pre_power_map p2). rewrite Hz. unfold power_map.
    rewrite (proj2 (Z.eqb_neq st 0)) by done. rewrite Z.lor_0_l.
    rewrite (proj2 (Z.ltb_lt 0 (Z.shiftl 1 subsys))) by (rewrite Z.shiftl_mul_pow2 by lia; apply Z.mul_pos_pos; lia).
    cbn [Z.ltb Z.compare Bool.eqb]. by rewrite (bind_P_ok _ _ _ _ _ Hu).
  - rewrite (power_up_map _ _ _ Hu). exact Hz.
Qed.

End Runs.

Module Example.
Import BspRuns.Example.

(** A GPIO that is held is refused; everything else succeeds. *)
Definition k0 : kernel := Kernel
  (fun l x => match x with gpio_request g => if held g l then -16 else 0 | find_mmc_host => 2 | _ => 0 end)
  (fun _ => false) (fun _ => Some (0xc8a1, 0x0082)) (fun _ => true).

Lemma k0_ok : kernel_ok k0.
Proof. split; [intros l g H; cbn; by rewrite H |]. intros l x. destruct x; try done. cbn. by destruct (held gpio l). Qed.

Definition run (l : list (Z * Z)) (p : pwr) : pwr :=
  match requests k0 ok_card ok_files no_stack 0 l p with Ok (_, p) => p | _ => p end.
Definition start : pwr := module_init (-1) (-1) 0 false.

Lemma power_follows_users_witness :
  requests k0 ok_card ok_files no_stack 0 [(AIC_BLUETOOTH, 1); (AIC_WIFI, 1); (AIC_BLUETOOTH, 0)] start =
    Ok (tt, run [(AIC_BLUETOOTH, 1); (AIC_WIFI, 1); (AIC_BLUETOOTH, 0)] start) /\
  level 385 (calls (run [(AIC_BLUETOOTH, 1); (AIC_WIFI, 1); (AIC_BLUETOOTH, 0)] start)) = true.
Proof.
  set (l := [(AIC_BLUETOOTH, 1); (AIC_WIFI, 1); (AIC_BLUETOOTH, 0)]).
  assert (E : requests k0 ok_card ok_files no_stack 0 l start = Ok (tt, run l start)) by (vm_compute; reflexivity).
  split; [exact E |].
  destruct (power_follows_users k0 k0_ok ok_card ok_files no_stack 0 (-1) (-1) 0 false l (run l start)) as [H _];
    [done | repeat constructor; done | exact E |].
  replace (regon_gpio (run l start)) with 385 in H by (vm_compute; reflexivity).
  rewrite H. vm_compute. reflexivity.
Defined.

Lemma power_on_only_once_witness :
  exists p3, aicbsp_set_subsys k0 ok_card ok_files no_stack 0 AIC_WIFI 1 (run [(AIC_WIFI, 0)] (run [(AIC_WIFI, 1)] start)) = Ok (-1, p3).
Proof.
  set (p1 := run [(AIC_WIFI, 1)] start). set (p2 := run [(AIC_WIFI, 0)] p1).
  destruct (power_on_only_once k0 k0_ok ok_card ok_files no_stack 0 (-1) (-1) 0 false [(AIC_WIFI, 1)] [(AIC_WIFI, 0)] p1 p2 AIC_WIFI 1)
    as (p3 & H & _); [vm_compute; reflexivity .. | done | done |].
  by exists p3.
Defined.

End Example.

End BspPowerRuns.
