(* ===== verification/Regdb.v ===== *)
(** * The regulatory database (regdb.c)

    One record per country with its rules, as the tables of the source give
    them, and the list of all.  The numbers of a rule are those of the macros:
    megahertz, dBi and dBm. *)

From S2P Require Import Prelude.
From Stdlib Require Import String.
From stdpp Require Import list.
Open Scope Z_scope.
Open Scope list_scope.

Module Regdb.

(** The flags nl80211 defines, and the regions for radar detection. *)
Inductive rrf := NO_OFDM | NO_INDOOR | NO_OUTDOOR | DFS | NO_IR | AUTO_BW.
Inductive dfs := DFS_UNSET | DFS_FCC | DFS_ETSI | DFS_JP.

Record reg_rule := RegRule {
  start_freq_khz : Z; end_freq_khz : Z; max_bandwidth_khz : Z;
  max_antenna_gain : Z; max_eirp : Z; dfs_cac_ms : Z; flags : list rrf
}.
Record regdomain := Regdomain { alpha2 : string; dfs_region : dfs; n_reg_rules : Z; reg_rules : list reg_rule }.

(** The macros: units are kHz and hundredths. *)
Definition REG_RULE_EXT (start_ end_ bw gain eirp dfs_cac : Z) (reg_flags : list rrf) : reg_rule :=
  RegRule (start_ * 1000) (end_ * 1000) (bw * 1000) (gain * 100) (eirp * 100) dfs_cac reg_flags.
Definition REG_RULE (start_ end_ bw gain eirp : Z) (reg_flags : list rrf) : reg_rule :=
  REG_RULE_EXT start_ end_ bw gain eirp 0 reg_flags.

#[local] Abbreviation R := REG_RULE_EXT.
#[local] Open Scope string_scope.

Definition regdom_00 : regdomain := Regdomain "00" DFS_UNSET 2 [
  R 2380 2520 40 0 20 0 [];
  R 5140 5980 80 0 20 0 []]%list.
Definition regdom_AD : regdomain := Regdomain "AD" DFS_ETSI 6 [
  R 2400 2483 40 0 20 0 [];
  R 5150 5250 80 0 23 0 [AUTO_BW; NO_OUTDOOR];
  R 5250 5350 80 0 20 0 [DFS; AUTO_BW; NO_OUTDOOR];
  R 5470 5725 160 0 27 0 [DFS];
  R 5725 5875 80 0 14 0 [];
  R 57000 66000 2160 0 40 0 []]%list.
Definition regdom_AE : regdomain := Regdomain "AE" DFS_FCC 6 [
  R 2402 2482 40 0 20 0 [];
  R 5170 5250 80 0 17 0 [AUTO_BW];
  R 5250 5330 80 0 24 0 [DFS; AUTO_BW];
  R 5490 5730 160 0 24 0 [DFS];
  R 5735 5835 80 0 30 0 [];
  R 5925 6425 320 0 24 0 [NO_OUTDOOR]]%list.
Definition regdom_AF : regdomain := Regdomain "AF" DFS_ETSI 4 [
  R 2402 2482 40 0 20 0 [];
  R 5170 5250 80 0 20 0 [AUTO_BW];
  R 5250 5330 80 0 20 0 [DFS; AUTO_BW];
  R 5490 5710 160 0 27 0 [DFS]]%list.
Definition regdom_AI : regdomain := Regdomain "AI" DFS_ETSI 4 [
  R 2402 2482 40 0 20 0 [];
  R 5170 5250 80 0 20 0 [AUTO_BW];
  R 5250 5330 80 0 20 0 [DFS; AUTO_BW];
  R 5490 5710 160 0 27 0 [DFS]]%list.
Definition regdom_AL : regdomain := Regdomain "AL" DFS_ETSI 5 [
  R 2400 2483 40 0 20 0 [];
  R 5150 5250 80 0 23 0 [AUTO_BW; NO_OUTDOOR];
  R 5250 5350 80 0 20 0 [DFS; AUTO_BW; NO_OUTDOOR];
  R 5470 5725 160 0 27 0 [DFS];
  R 5725 5875 80 0 14 0 []]%list.
Definition regdom_AM : regdomain := Regdomain "AM" DFS_ETSI 3 [
  R 2400 2483 40 0 20 0 [];
  R 5150 5350 160 0 17 0 [DFS; NO_OUTDOOR];
  R 5470 5875 160 0 17 0 [DFS; NO_OUTDOOR]]%list.
Definition regdom_AN : regdomain := Regdomain "AN" DFS_ETSI 4 [
  R 2402 2482 40 0 20 0 [];
  R 5170 5250 80 0 20 0 [AUTO_BW];
  R 5250 5330 80 0 20 0 [DFS; AUTO_BW];
  R 5490 5710 160 0 27 0 [DFS]]%list.
Definition regdom_AR : regdomain := Regdomain "AR" DFS_FCC 6 [
  R 2402 2482 40 0 20 0 [];
  R 5170 5250 80 0 17 0 [AUTO_BW];
  R 5250 5330 80 0 24 0 [DFS; AUTO_BW];
  R 5490 5730 160 0 24 0 [DFS];
  R 5735 5835 80 0 30 0 [];
  R 5925 7125 320 0 12 0 [NO_OUTDOOR]]%list.
Definition regdom_AS : regdomain := Regdomain "AS" DFS_FCC 5 [
  R 2402 2472 40 0 30 0 [];
  R 5170 5250 80 0 24 0 [AUTO_BW];
  R 5250 5330 80 0 24 0 [DFS; AUTO_BW];
  R 5490 5730 160 0 24 0 [DFS];
  R 5735 5835 80 0 30 0 []]%list.
Definition regdom_AT : regdomain := Regdomain "AT" DFS_ETSI 7 [
  R 2400 2483 40 0 20 0 [];
  R 5150 5250 80 0 23 0 [AUTO_BW; NO_OUTDOOR];
  R 5250 5350 80 0 20 0 [DFS; AUTO_BW; NO_OUTDOOR];
  R 5470 5725 160 0 27 0 [DFS];
  R 5725 5875 80 0 14 0 [];
  R 5945 6425 320 0 23 0 [NO_OUTDOOR];
  R 57000 71000 2160 0 40 0 []]%list.
Definition regdom_AU : regdomain := Regdomain "AU" DFS_ETSI 9 [
  R 2400 2483 40 0 36 0 [];
  R 5150 5250 80 0 23 0 [AUTO_BW; NO_OUTDOOR];
  R 5250 5350 80 0 20 0 [DFS; AUTO_BW; NO_OUTDOOR];
  R 5470 5600 80 0 27 0 [DFS];
  R 5650 5730 80 0 27 0 [DFS];
  R 5730 5850 80 0 36 0 [AUTO_BW];
  R 5850 5875 20 0 14 0 [AUTO_BW];
  R 5925 6425 160 0 24 0 [NO_OUTDOOR];
  R 57000 71000 2160 0 43 0 [NO_OUTDOOR]]%list.
Definition regdom_AW : regdomain := Regdomain "AW" DFS_ETSI 4 [
  R 2402 2482 40 0 20 0 [];
  R 5170 5250 80 0 20 0 [AUTO_BW];
  R 5250 5330 80 0 20 0 [DFS; AUTO_BW];
  R 5490 5710 160 0 27 0 [DFS]]%list.
Definition regdom_AZ : regdomain := Regdomain "AZ" DFS_ETSI 4 [
  R 2402 2482 40 0 20 0 [];
  R 5170 5250 80 0 18 0 [AUTO_BW];
  R 5250 5330 80 0 18 0 [DFS; AUTO_BW];
  R 5945 6425 320 0 23 0 [NO_OUTDOOR]]%list.
Definition regdom_BA : regdomain := Regdomain "BA" DFS_ETSI 6 [
  R 2400 2483 40 0 20 0 [];
  R 5150 5250 80 0 23 0 [AUTO_BW; NO_OUTDOOR];
  R 5250 5350 80 0 20 0 [NO_OUTDOOR; DFS; AUTO_BW];
  R 5470 5725 160 0 27 0 [DFS];
  R 5725 5875 80 0 14 0 [];
  R 57000 66000 2160 0 40 0 []]%list.
Definition regdom_BB : regdomain := Regdomain "BB" DFS_FCC 4 [
  R 2402 2482 40 0 20 0 [];
  R 5170 5250 80 0 23 0 [AUTO_BW];
  R 5250 5330 80 0 23 0 [DFS; AUTO_BW];
  R 5735 5835 80 0 30 0 []]%list.
Definition regdom_BD : regdomain := Regdomain "BD" DFS_ETSI 2 [
  R 2402 2482 40 0 20 0 [];
  R 5735 5835 80 0 30 0 []]%list.
Definition regdom_BE : regdomain := Regdomain "BE" DFS_ETSI 7 [
  R 2400 2483 40 0 20 0 [];
  R 5150 5250 80 0 23 0 [AUTO_BW; NO_OUTDOOR];
  R 5250 5350 80 0 20 0 [NO_OUTDOOR; DFS; AUTO_BW];
  R 5470 5725 160 0 27 0 [DFS];
  R 5725 5875 80 0 14 0 [];
  R 5945 6425 320 0 23 0 [NO_OUTDOOR];
  R 57000 66000 2160 0 40 0 []]%list.
Definition regdom_BF : regdomain := Regdomain "BF" DFS_FCC 5 [
  R 2402 2482 40 0 20 0 [];
  R 5170 5250 80 0 17 0 [AUTO_BW];
  R 5250 5330 80 0 24 0 [DFS; AUTO_BW];
  R 5490 5730 160 0 24 0 [DFS];
  R 5735 5835 80 0 30 0 []]%list.
Definition regdom_BG : regdomain := Regdomain "BG" DFS_ETSI 7 [
  R 2400 2483 40 0 20 0 [];
  R 5150 5250 80 0 23 0 [AUTO_BW; NO_OUTDOOR];
  R 5250 5350 80 0 20 0 [NO_OUTDOOR; DFS; AUTO_BW];
  R 5470 5725 160 0 27 0 [DFS];
  R 5725 5875 80 0 14 0 [];
  R 5945 6425 320 0 23 0 [NO_OUTDOOR];
  R 57000 66000 2160 0 40 0 []]%list.
Definition regdom_BH : regdomain := Regdomain "BH" DFS_ETSI 6 [
  R 2400 2483 40 0 20 0 [];
  R 5150 5350 80 0 23 0 [NO_OUTDOOR; DFS];
  R 5470 5725 80 0 27 0 [DFS];
  R 5725 5875 80 0 24 0 [DFS];
  R 5925 6425 320 0 23 0 [NO_OUTDOOR];
  R 57000 66000 2160 0 40 0 [NO_OUTDOOR]]%list.
Definition regdom_BL : regdomain := Regdomain "BL" DFS_ETSI 4 [
  R 2402 2482 40 0 20 0 [];
  R 5170 5250 80 0 20 0 [AUTO_BW];
  R 5250 5330 80 0 20 0 [DFS; AUTO_BW];
  R 5490 5710 160 0 27 0 [DFS]]%list.
Definition regdom_BM : regdomain := Regdomain "BM" DFS_FCC 5 [
  R 2402 2472 40 0 30 0 [];
  R 5170 5250 80 0 24 0 [AUTO_BW];
  R 5250 5330 80 0 24 0 [DFS; AUTO_BW];
  R 5490 5730 160 0 24 0 [DFS];
  R 5735 5835 80 0 30 0 []]%list.
Definition regdom_BN : regdomain := Regdomain "BN" DFS_JP 4 [
  R 2402 2482 40 0 20 0 [];
  R 5170 5250 80 0 20 0 [AUTO_BW];
  R 5250 5330 80 0 20 0 [DFS; AUTO_BW];
  R 5735 5835 80 0 20 0 []]%list.
Definition regdom_BO : regdomain := Regdomain "BO" DFS_JP 3 [
  R 2402 2482 40 0 20 0 [];
  R 5250 5330 80 0 30 0 [DFS];
  R 5735 5835 80 0 30 0 []]%list.
Definition regdom_BR : regdomain := Regdomain "BR" DFS_FCC 7 [
  R 2400 2483 40 0 30 0 [];
  R 5150 5250 80 0 27 0 [AUTO_BW; NO_OUTDOOR];
  R 5250 5350 80 0 27 0 [DFS; AUTO_BW; NO_OUTDOOR];
  R 5470 5725 160 0 27 0 [DFS; AUTO_BW];
  R 5725 5850 80 0 30 0 [AUTO_BW];
  R 5925 7125 320 0 12 0 [NO_OUTDOOR; NO_IR];
  R 57000 71000 2160 0 40 0 []]%list.
Definition regdom_BS : regdomain := Regdomain "BS" DFS_FCC 5 [
  R 2402 2482 40 0 20 0 [];
  R 5170 5250 80 0 24 0 [AUTO_BW];
  R 5250 5330 80 0 24 0 [DFS; AUTO_BW];
  R 5490 5730 160 0 24 0 [DFS];
  R 5735 5835 80 0 30 0 []]%list.
Definition regdom_BT : regdomain := Regdomain "BT" DFS_ETSI 4 [
  R 2402 2482 40 0 20 0 [];
  R 5170 5250 80 0 20 0 [AUTO_BW];
  R 5250 5330 80 0 20 0 [DFS; AUTO_BW];
  R 5490 5710 160 0 27 0 [DFS]]%list.
Definition regdom_BW : regdomain := Regdomain "BW" DFS_ETSI 2 [
  R 2400 2483 40 0 20 0 [];
  R 5725 5825 80 0 33 0 []]%list.
Definition regdom_BY : regdomain := Regdomain "BY" DFS_ETSI 4 [
  R 2402 2482 40 0 20 0 [];
  R 5170 5250 80 0 20 0 [AUTO_BW];
  R 5250 5330 80 0 20 0 [DFS; AUTO_BW];
  R 5490 5710 160 0 27 0 [DFS]]%list.
Definition regdom_BZ : regdomain := Regdomain "BZ" DFS_JP 2 [
  R 2402 2482 40 0 30 0 [];
  R 5735 5835 80 0 30 0 []]%list.
Definition regdom_CA : regdomain := Regdomain "CA" DFS_FCC 7 [
  R 2402 2472 40 0 30 0 [];
  R 5150 5250 80 0 23 0 [AUTO_BW; NO_OUTDOOR];
  R 5250 5350 80 0 24 0 [DFS; AUTO_BW];
  R 5470 5600 80 0 24 0 [DFS];
  R 5650 5730 80 0 24 0 [DFS];
  R 5735 5835 80 0 30 0 [];
  R 5925 7125 320 0 12 0 [NO_OUTDOOR]]%list.
Definition regdom_CF : regdomain := Regdomain "CF" DFS_FCC 5 [
  R 2402 2482 40 0 20 0 [];
  R 5170 5250 40 0 17 0 [];
  R 5250 5330 40 0 24 0 [DFS];
  R 5490 5730 40 0 24 0 [DFS];
  R 5735 5835 40 0 30 0 []]%list.
Definition regdom_CH : regdomain := Regdomain "CH" DFS_ETSI 7 [
  R 2400 2483 40 0 20 0 [];
  R 5150 5250 80 0 23 0 [AUTO_BW; NO_OUTDOOR];
  R 5250 5350 80 0 20 0 [NO_OUTDOOR; DFS; AUTO_BW];
  R 5470 5725 160 0 27 0 [DFS];
  R 5725 5875 80 0 14 0 [];
  R 5945 6425 320 0 23 0 [NO_OUTDOOR];
  R 57000 71000 2160 0 40 0 []]%list.
Definition regdom_CI : regdomain := Regdomain "CI" DFS_FCC 5 [
  R 2402 2482 40 0 20 0 [];
  R 5170 5250 80 0 17 0 [AUTO_BW];
  R 5250 5330 80 0 24 0 [DFS; AUTO_BW];
  R 5490 5730 160 0 24 0 [DFS];
  R 5735 5835 80 0 30 0 []]%list.
Definition regdom_CL : regdomain := Regdomain "CL" DFS_JP 5 [
  R 2402 2482 40 0 20 0 [];
  R 5170 5250 80 0 20 0 [AUTO_BW];
  R 5250 5330 80 0 20 0 [DFS; AUTO_BW];
  R 5735 5835 80 0 20 0 [];
  R 5925 6425 320 0 12 0 [NO_OUTDOOR]]%list.
Definition regdom_CN : regdomain := Regdomain "CN" DFS_FCC 7 [
  R 2400 2483 40 0 20 0 [];
  R 5150 5250 80 0 23 0 [AUTO_BW; NO_OUTDOOR];
  R 5250 5350 80 0 20 0 [DFS; AUTO_BW; NO_OUTDOOR];
  R 5725 5850 80 0 33 0 [];
  R 57240 59400 2160 0 28 0 [];
  R 59400 63720 2160 0 44 0 [];
  R 63720 65880 2160 0 28 0 []]%list.
Definition regdom_CO : regdomain := Regdomain "CO" DFS_FCC 6 [
  R 2402 2482 40 0 20 0 [];
  R 5170 5250 80 0 17 0 [AUTO_BW];
  R 5250 5330 80 0 24 0 [DFS; AUTO_BW];
  R 5490 5730 160 0 24 0 [DFS];
  R 5735 5835 80 0 30 0 [];
  R 5925 7125 320 0 12 0 [NO_OUTDOOR]]%list.
Definition regdom_CR : regdomain := Regdomain "CR" DFS_FCC 7 [
  R 2402 2482 40 0 36 0 [];
  R 5170 5250 20 0 30 0 [];
  R 5250 5330 20 0 30 0 [DFS];
  R 5490 5730 20 0 30 0 [DFS];
  R 5735 5835 20 0 36 0 [];
  R 5875 5925 20 0 30 0 [];
  R 5925 7125 320 0 30 0 [NO_OUTDOOR]]%list.
Definition regdom_CU : regdomain := Regdomain "CU" DFS_FCC 4 [
  R 2400 2483 40 0 23 0 [];
  R 5150 5350 80 0 23 0 [NO_IR; NO_OUTDOOR];
  R 5470 5725 80 0 24 0 [NO_IR];
  R 5725 5850 80 0 23 0 []]%list.
Definition regdom_CX : regdomain := Regdomain "CX" DFS_FCC 5 [
  R 2402 2482 40 0 20 0 [];
  R 5170 5250 80 0 24 0 [AUTO_BW];
  R 5250 5330 80 0 24 0 [DFS; AUTO_BW];
  R 5490 5730 160 0 24 0 [DFS];
  R 5735 5835 80 0 30 0 []]%list.
Definition regdom_CY : regdomain := Regdomain "CY" DFS_ETSI 7 [
  R 2400 2483 40 0 20 0 [];
  R 5150 5250 80 0 23 0 [AUTO_BW; NO_OUTDOOR];
  R 5250 5350 80 0 20 0 [NO_OUTDOOR; DFS; AUTO_BW];
  R 5470 5725 160 0 27 0 [DFS];
  R 5725 5875 80 0 14 0 [];
  R 5945 6425 320 0 23 0 [NO_OUTDOOR];
  R 57000 66000 2160 0 40 0 []]%list.
Definition regdom_CZ : regdomain := Regdomain "CZ" DFS_ETSI 7 [
  R 2400 2483 40 0 20 0 [];
  R 5150 5250 80 0 23 0 [NO_OUTDOOR; AUTO_BW];
  R 5250 5350 80 0 20 0 [NO_OUTDOOR; DFS; AUTO_BW];
  R 5470 5725 160 0 27 0 [DFS];
  R 5725 5875 80 0 14 0 [];
  R 5945 6425 320 0 23 0 [NO_OUTDOOR];
  R 57000 66000 2160 0 40 0 []]%list.
Definition regdom_DE : regdomain := Regdomain "DE" DFS_ETSI 7 [
  R 2400 2483 40 0 20 0 [];
  R 5150 5250 80 0 23 0 [NO_OUTDOOR; AUTO_BW];
  R 5250 5350 80 0 20 0 [NO_OUTDOOR; DFS; AUTO_BW];
  R 5470 5725 160 0 27 0 [DFS];
  R 5725 5875 80 0 14 0 [];
  R 5945 6425 320 0 23 0 [NO_OUTDOOR];
  R 57000 66000 2160 0 40 0 []]%list.
Definition regdom_DK : regdomain := Regdomain "DK" DFS_ETSI 7 [
  R 2400 2483 40 0 20 0 [];
  R 5150 5250 80 0 23 0 [AUTO_BW; NO_OUTDOOR];
  R 5250 5350 80 0 20 0 [NO_OUTDOOR; DFS; AUTO_BW];
  R 5470 5725 160 0 27 0 [DFS];
  R 5725 5875 80 0 14 0 [];
  R 5945 6425 320 0 23 0 [NO_OUTDOOR];
  R 57000 66000 2160 0 40 0 []]%list.
Definition regdom_DM : regdomain := Regdomain "DM" DFS_FCC 4 [
  R 2402 2472 40 0 30 0 [];
  R 5170 5250 80 0 17 0 [AUTO_BW];
  R 5250 5330 80 0 23 0 [DFS; AUTO_BW];
  R 5735 5835 80 0 30 0 []]%list.
Definition regdom_DO : regdomain := Regdomain "DO" DFS_FCC 5 [
  R 2402 2472 40 0 30 0 [];
  R 5170 5250 80 0 17 0 [AUTO_BW];
  R 5250 5330 80 0 23 0 [DFS; AUTO_BW];
  R 5735 5835 80 0 30 0 [];
  R 5925 7125 320 0 15 0 [NO_OUTDOOR]]%list.
Definition regdom_DZ : regdomain := Regdomain "DZ" DFS_JP 4 [
  R 2402 2482 40 0 20 0 [];
  R 5170 5250 80 0 23 0 [AUTO_BW];
  R 5250 5330 80 0 23 0 [DFS; AUTO_BW];
  R 5490 5670 160 0 23 0 [DFS]]%list.
Definition regdom_EC : regdomain := Regdomain "EC" DFS_FCC 5 [
  R 2400 2483 40 0 30 0 [];
  R 5150 5250 80 0 17 0 [AUTO_BW; DFS];
  R 5250 5350 80 0 21 0 [DFS; AUTO_BW];
  R 5470 5725 160 0 21 0 [DFS];
  R 5725 5850 80 0 30 0 []]%list.
Definition regdom_EE : regdomain := Regdomain "EE" DFS_ETSI 7 [
  R 2400 2483 40 0 20 0 [];
  R 5150 5250 80 0 23 0 [NO_OUTDOOR; AUTO_BW];
  R 5250 5350 80 0 20 0 [NO_OUTDOOR; DFS; AUTO_BW];
  R 5470 5725 160 0 27 0 [DFS];
  R 5725 5875 80 0 14 0 [];
  R 5945 6425 320 0 23 0 [NO_OUTDOOR];
  R 57000 66000 2160 0 40 0 []]%list.
Definition regdom_EG : regdomain := Regdomain "EG" DFS_ETSI 4 [
  R 2402 2483 40 0 20 0 [];
  R 5150 5250 80 0 23 0 [AUTO_BW];
  R 5250 5350 80 0 20 0 [DFS; AUTO_BW];
  R 57000 66000 2160 0 40 0 []]%list.
Definition regdom_ES : regdomain := Regdomain "ES" DFS_ETSI 7 [
  R 2400 2483 40 0 20 0 [];
  R 5150 5250 80 0 23 0 [NO_OUTDOOR; AUTO_BW];
  R 5250 5350 80 0 20 0 [NO_OUTDOOR; DFS; AUTO_BW];
  R 5470 5725 160 0 27 0 [DFS];
  R 5725 5875 80 0 14 0 [];
  R 5945 6425 320 0 23 0 [NO_OUTDOOR];
  R 57000 66000 2160 0 40 0 []]%list.
Definition regdom_ET : regdomain := Regdomain "ET" DFS_ETSI 4 [
  R 2402 2482 40 0 20 0 [];
  R 5170 5250 80 0 20 0 [AUTO_BW];
  R 5250 5330 80 0 20 0 [DFS; AUTO_BW];
  R 5490 5710 160 0 27 0 [DFS]]%list.
Definition regdom_FI : regdomain := Regdomain "FI" DFS_ETSI 7 [
  R 2400 2483 40 0 20 0 [];
  R 5150 5250 80 0 23 0 [AUTO_BW; NO_OUTDOOR];
  R 5250 5350 80 0 20 0 [NO_OUTDOOR; DFS; AUTO_BW];
  R 5470 5725 160 0 27 0 [DFS];
  R 5725 5875 80 0 14 0 [];
  R 5945 6425 320 0 23 0 [NO_OUTDOOR];
  R 57000 66000 2160 0 40 0 []]%list.
Definition regdom_FM : regdomain := Regdomain "FM" DFS_FCC 5 [
  R 2402 2472 40 0 30 0 [];
  R 5170 5250 80 0 24 0 [AUTO_BW];
  R 5250 5330 80 0 24 0 [DFS; AUTO_BW];
  R 5490 5730 160 0 24 0 [DFS];
  R 5735 5835 80 0 30 0 []]%list.
Definition regdom_FR : regdomain := Regdomain "FR" DFS_ETSI 7 [
  R 2400 2483 40 0 20 0 [];
  R 5150 5250 80 0 23 0 [NO_OUTDOOR; AUTO_BW];
  R 5250 5350 80 0 20 0 [NO_OUTDOOR; DFS; AUTO_BW];
  R 5470 5725 160 0 27 0 [DFS];
  R 5725 5875 80 0 14 0 [];
  R 5945 6425 160 0 23 0 [NO_OUTDOOR];
  R 57000 66000 2160 0 40 0 []]%list.
Definition regdom_GB : regdomain := Regdomain "GB" DFS_ETSI 7 [
  R 2400 2483 40 0 20 0 [];
  R 5150 5250 80 0 23 0 [NO_OUTDOOR; AUTO_BW];
  R 5250 5350 80 0 20 0 [NO_OUTDOOR; DFS; AUTO_BW];
  R 5470 5730 160 0 27 0 [DFS];
  R 5725 5850 80 0 23 0 [NO_OUTDOOR];
  R 5925 6425 160 0 24 0 [NO_OUTDOOR];
  R 57000 71000 2160 0 40 0 []]%list.
Definition regdom_GD : regdomain := Regdomain "GD" DFS_FCC 5 [
  R 2402 2472 40 0 30 0 [];
  R 5170 5250 80 0 17 0 [AUTO_BW];
  R 5250 5330 80 0 24 0 [DFS; AUTO_BW];
  R 5490 5730 160 0 24 0 [DFS];
  R 5735 5835 80 0 30 0 []]%list.
Definition regdom_GE : regdomain := Regdomain "GE" DFS_ETSI 4 [
  R 2402 2482 40 0 20 0 [];
  R 5170 5250 80 0 18 0 [AUTO_BW];
  R 5250 5330 80 0 18 0 [DFS; AUTO_BW];
  R 57000 66000 2160 0 40 0 []]%list.
Definition regdom_GF : regdomain := Regdomain "GF" DFS_ETSI 4 [
  R 2402 2482 40 0 20 0 [];
  R 5170 5250 80 0 20 0 [AUTO_BW];
  R 5250 5330 80 0 20 0 [DFS; AUTO_BW];
  R 5490 5710 160 0 27 0 [DFS]]%list.
Definition regdom_GH : regdomain := Regdomain "GH" DFS_FCC 5 [
  R 2402 2482 40 0 20 0 [];
  R 5170 5250 80 0 17 0 [AUTO_BW];
  R 5250 5330 80 0 24 0 [DFS; AUTO_BW];
  R 5490 5730 160 0 24 0 [DFS];
  R 5735 5835 80 0 30 0 []]%list.
Definition regdom_GI : regdomain := Regdomain "GI" DFS_ETSI 2 [
  R 2400 2483 40 0 20 0 [];
  R 5725 5825 80 0 33 0 []]%list.
Definition regdom_GL : regdomain := Regdomain "GL" DFS_ETSI 4 [
  R 2402 2482 40 0 20 0 [];
  R 5170 5250 80 0 20 0 [AUTO_BW];
  R 5250 5330 80 0 20 0 [DFS; AUTO_BW];
  R 5490 5710 160 0 27 0 [DFS]]%list.
Definition regdom_GP : regdomain := Regdomain "GP" DFS_ETSI 4 [
  R 2402 2482 40 0 20 0 [];
  R 5170 5250 80 0 20 0 [AUTO_BW];
  R 5250 5330 80 0 20 0 [DFS; AUTO_BW];
  R 5490 5710 160 0 27 0 [DFS]]%list.
Definition regdom_GR : regdomain := Regdomain "GR" DFS_ETSI 7 [
  R 2400 2483 40 0 20 0 [];
  R 5150 5250 80 0 23 0 [NO_OUTDOOR; AUTO_BW];
  R 5250 5350 80 0 20 0 [NO_OUTDOOR; DFS; AUTO_BW];
  R 5470 5725 160 0 27 0 [DFS];
  R 5725 5875 80 0 14 0 [];
  R 5945 6425 320 0 23 0 [NO_OUTDOOR];
  R 57000 66000 2160 0 40 0 []]%list.
Definition regdom_GT : regdomain := Regdomain "GT" DFS_UNSET 9 [
  R 2400 2483 40 0 27 0 [];
  R 5150 5350 80 0 23 0 [NO_OUTDOOR];
  R 5470 5725 160 0 24 0 [NO_OUTDOOR];
  R 5725 5850 80 0 27 0 [NO_OUTDOOR];
  R 5925 6425 320 0 23 0 [NO_OUTDOOR; AUTO_BW];
  R 6425 6525 80 0 23 0 [NO_OUTDOOR; AUTO_BW];
  R 6525 6875 320 0 22 0 [NO_OUTDOOR; AUTO_BW];
  R 6875 7125 160 0 22 0 [NO_OUTDOOR; AUTO_BW];
  R 57000 66000 2160 0 13 0 [NO_OUTDOOR]]%list.
Definition regdom_GU : regdomain := Regdomain "GU" DFS_FCC 5 [
  R 2402 2472 40 0 30 0 [];
  R 5170 5250 20 0 17 0 [];
  R 5250 5330 20 0 24 0 [DFS];
  R 5490 5730 20 0 24 0 [DFS];
  R 5735 5835 20 0 30 0 []]%list.
Definition regdom_GY : regdomain := Regdomain "GY" DFS_UNSET 5 [
  R 2402 2482 40 0 30 0 [];
  R 5170 5250 80 0 23 0 [AUTO_BW];
  R 5250 5330 80 0 23 0 [DFS; AUTO_BW];
  R 5490 5730 160 0 23 0 [DFS];
  R 5735 5835 80 0 30 0 []]%list.
Definition regdom_HK : regdomain := Regdomain "HK" DFS_ETSI 6 [
  R 2400 2483 40 0 36 0 [];
  R 5150 5250 80 0 23 0 [AUTO_BW; NO_OUTDOOR];
  R 5250 5350 80 0 23 0 [DFS; AUTO_BW; NO_OUTDOOR];
  R 5470 5730 160 0 27 0 [DFS];
  R 5730 5850 80 0 36 0 [];
  R 5925 6425 160 0 14 0 []]%list.
Definition regdom_HN : regdomain := Regdomain "HN" DFS_FCC 7 [
  R 2402 2482 40 0 20 0 [];
  R 5170 5250 80 0 17 0 [AUTO_BW];
  R 5250 5330 80 0 24 0 [DFS; AUTO_BW];
  R 5490 5730 160 0 24 0 [DFS];
  R 5735 5835 80 0 30 0 [];
  R 5925 6425 320 0 12 0 [NO_OUTDOOR; NO_IR];
  R 57240 71000 2160 0 40 0 []]%list.
Definition regdom_HR : regdomain := Regdomain "HR" DFS_ETSI 7 [
  R 2400 2483 40 0 20 0 [];
  R 5150 5250 80 0 23 0 [AUTO_BW];
  R 5250 5350 80 0 23 0 [DFS; AUTO_BW];
  R 5470 5725 160 0 27 0 [DFS];
  R 5725 5875 80 0 14 0 [];
  R 5945 6425 320 0 23 0 [NO_OUTDOOR];
  R 57000 66000 2160 0 40 0 []]%list.
Definition regdom_HT : regdomain := Regdomain "HT" DFS_FCC 5 [
  R 2402 2472 40 0 30 0 [];
  R 5170 5250 80 0 24 0 [AUTO_BW];
  R 5250 5330 80 0 24 0 [DFS; AUTO_BW];
  R 5490 5730 160 0 24 0 [DFS];
  R 5735 5835 80 0 30 0 []]%list.
Definition regdom_HU : regdomain := Regdomain "HU" DFS_ETSI 7 [
  R 2400 2483 40 0 20 0 [];
  R 5150 5250 80 0 23 0 [NO_OUTDOOR; AUTO_BW];
  R 5250 5350 80 0 20 0 [NO_OUTDOOR; DFS; AUTO_BW];
  R 5470 5725 160 0 27 0 [DFS];
  R 5725 5875 80 0 14 0 [];
  R 5945 6425 320 0 23 0 [NO_OUTDOOR];
  R 57000 66000 2160 0 40 0 []]%list.
Definition regdom_ID : regdomain := Regdomain "ID" DFS_JP 3 [
  R 2400 2483 40 0 27 0 [NO_OUTDOOR];
  R 5150 5350 80 0 23 0 [NO_OUTDOOR];
  R 5725 5825 80 0 23 0 [NO_OUTDOOR]]%list.
Definition regdom_IE : regdomain := Regdomain "IE" DFS_ETSI 7 [
  R 2400 2483 40 0 20 0 [];
  R 5150 5250 80 0 23 0 [NO_OUTDOOR; AUTO_BW];
  R 5250 5350 80 0 20 0 [NO_OUTDOOR; DFS; AUTO_BW];
  R 5470 5725 160 0 27 0 [DFS];
  R 5725 5875 80 0 14 0 [];
  R 5945 6425 320 0 23 0 [NO_OUTDOOR];
  R 57000 66000 2160 0 40 0 []]%list.
Definition regdom_IL : regdomain := Regdomain "IL" DFS_ETSI 6 [
  R 2400 2483 40 0 20 0 [];
  R 5150 5250 80 0 23 0 [NO_OUTDOOR; AUTO_BW];
  R 5250 5350 80 0 20 0 [NO_OUTDOOR; DFS; AUTO_BW];
  R 5470 5725 160 0 27 0 [NO_OUTDOOR; AUTO_BW; DFS];
  R 5725 5875 80 0 14 0 [AUTO_BW];
  R 5945 6425 320 0 23 0 [NO_OUTDOOR]]%list.
Definition regdom_IN : regdomain := Regdomain "IN" DFS_UNSET 5 [
  R 2402 2482 40 0 30 0 [];
  R 5150 5250 80 0 30 0 [];
  R 5250 5350 80 0 24 0 [DFS];
  R 5470 5725 160 0 24 0 [DFS];
  R 5725 5875 80 0 30 0 []]%list.
Definition regdom_IQ : regdomain := Regdomain "IQ" DFS_ETSI 2 [
  R 2400 2483 40 0 20 0 [];
  R 5725 5825 80 0 33 0 []]%list.
Definition regdom_IR : regdomain := Regdomain "IR" DFS_ETSI 4 [
  R 2400 2483 40 0 20 0 [];
  R 5150 5250 80 0 23 0 [];
  R 5250 5350 80 0 23 0 [NO_OUTDOOR; DFS];
  R 5470 5725 160 0 27 0 [NO_INDOOR; DFS]]%list.
Definition regdom_IS : regdomain := Regdomain "IS" DFS_ETSI 7 [
  R 2400 2483 40 0 20 0 [];
  R 5150 5250 80 0 23 0 [AUTO_BW; NO_OUTDOOR];
  R 5250 5350 80 0 20 0 [DFS; AUTO_BW; NO_OUTDOOR];
  R 5470 5725 160 0 27 0 [DFS];
  R 5725 5875 80 0 14 0 [DFS];
  R 5945 6425 320 0 23 0 [NO_OUTDOOR];
  R 57000 66000 2160 0 40 0 []]%list.
Definition regdom_IT : regdomain := Regdomain "IT" DFS_ETSI 5 [
  R 2400 2483 40 0 20 0 [];
  R 5150 5250 80 0 23 0 [NO_OUTDOOR; AUTO_BW];
  R 5250 5350 80 0 20 0 [NO_OUTDOOR; DFS; AUTO_BW];
  R 5470 5725 160 0 27 0 [DFS];
  R 5725 5875 80 0 14 0 [];
  R 5945 6425 320 0 23 0 [NO_OUTDOOR];
  R 57000 66000 2160 0 40 0 []]%list.
Definition regdom_JM : regdomain := Regdomain "JM" DFS_FCC 5 [
  R 2402 2482 40 0 20 0 [];
  R 5170 5250 80 0 17 0 [AUTO_BW];
  R 5250 5330 80 0 24 0 [DFS; AUTO_BW];
  R 5490 5730 160 0 24 0 [DFS];
  R 5735 5835 80 0 30 0 []]%list.
Definition regdom_JO : regdomain := Regdomain "JO" DFS_ETSI 7 [
  R 2400 2483 40 0 20 0 [];
  R 5150 5250 80 0 23 0 [AUTO_BW];
  R 5250 5350 80 0 23 0 [DFS; AUTO_BW];
  R 5470 5725 80 0 27 0 [DFS; NO_OUTDOOR];
  R 5725 5875 80 0 23 0 [NO_OUTDOOR];
  R 5925 6425 320 0 23 0 [NO_OUTDOOR];
  R 57000 71000 2160 0 40 0 []]%list.
Definition regdom_JP : regdomain := Regdomain "JP" DFS_JP 8 [
  R 2402 2482 40 0 20 0 [];
  R 2474 2494 20 0 20 0 [NO_OFDM];
  R 4910 4990 40 0 23 0 [];
  R 5170 5250 80 0 20 0 [AUTO_BW];
  R 5250 5330 80 0 20 0 [DFS; AUTO_BW];
  R 5490 5730 160 0 23 0 [DFS];
  R 5925 6425 320 0 23 0 [NO_OUTDOOR];
  R 57000 66000 2160 0 10 0 []]%list.
Definition regdom_KE : regdomain := Regdomain "KE" DFS_ETSI 6 [
  R 2400 2483 40 0 33 0 [];
  R 5150 5250 80 0 17 0 [AUTO_BW];
  R 5250 5350 80 0 17 0 [DFS; AUTO_BW];
  R 5470 5725 80 0 24 0 [DFS];
  R 5725 5875 40 0 24 0 [DFS];
  R 5925 6425 320 0 23 0 [NO_OUTDOOR]]%list.
Definition regdom_KG : regdomain := Regdomain "KG" DFS_ETSI 2 [
  R 2400 2483 40 0 20 0 [];
  R 5725 5825 80 0 33 0 []]%list.
Definition regdom_KH : regdomain := Regdomain "KH" DFS_ETSI 4 [
  R 2402 2482 40 0 20 0 [];
  R 5170 5250 80 0 20 0 [AUTO_BW];
  R 5250 5330 80 0 20 0 [DFS; AUTO_BW];
  R 5490 5710 160 0 27 0 [DFS]]%list.
Definition regdom_KN : regdomain := Regdomain "KN" DFS_ETSI 5 [
  R 2402 2482 40 0 20 0 [];
  R 5170 5250 80 0 20 0 [AUTO_BW];
  R 5250 5330 80 0 20 0 [DFS; AUTO_BW];
  R 5490 5710 160 0 30 0 [DFS];
  R 5735 5815 80 0 30 0 []]%list.
Definition regdom_KP : regdomain := Regdomain "KP" DFS_JP 5 [
  R 2402 2482 20 0 20 0 [];
  R 5170 5250 20 0 20 0 [];
  R 5250 5330 20 0 20 0 [DFS];
  R 5490 5630 20 0 30 0 [DFS];
  R 5735 5815 20 0 30 0 []]%list.
Definition regdom_KR : regdomain := Regdomain "KR" DFS_JP 8 [
  R 2400 2483 40 0 23 0 [];
  R 5150 5230 40 0 23 0 [AUTO_BW];
  R 5230 5250 20 0 17 0 [AUTO_BW];
  R 5250 5350 80 0 20 0 [DFS; AUTO_BW];
  R 5470 5725 160 0 20 0 [DFS];
  R 5725 5850 80 0 23 0 [];
  R 5925 7125 160 0 15 0 [NO_OUTDOOR];
  R 57000 66000 2160 0 43 0 []]%list.
Definition regdom_KW : regdomain := Regdomain "KW" DFS_ETSI 5 [
  R 2400 2483 40 0 20 0 [];
  R 5170 5250 80 0 23 0 [AUTO_BW];
  R 5250 5350 80 0 17 0 [DFS; AUTO_BW];
  R 5470 5825 160 0 24 0 [DFS];
  R 5925 6425 320 0 23 0 [NO_OUTDOOR]]%list.
Definition regdom_KY : regdomain := Regdomain "KY" DFS_FCC 7 [
  R 2400 2483 40 0 30 0 [];
  R 5150 5250 80 0 24 0 [AUTO_BW];
  R 5250 5350 80 0 24 0 [DFS; AUTO_BW];
  R 5470 5730 160 0 24 0 [DFS];
  R 5725 5875 80 0 30 0 [];
  R 5925 6425 320 0 12 0 [NO_OUTDOOR];
  R 57000 71000 2160 0 40 0 []]%list.
Definition regdom_KZ : regdomain := Regdomain "KZ" DFS_ETSI 6 [
  R 2400 2483 40 0 20 0 [];
  R 5150 5250 80 0 23 0 [NO_OUTDOOR; AUTO_BW];
  R 5250 5350 80 0 20 0 [NO_OUTDOOR; DFS; AUTO_BW];
  R 5470 5725 160 0 20 0 [DFS; NO_OUTDOOR];
  R 5725 5850 80 0 20 0 [NO_OUTDOOR];
  R 57000 66000 2160 0 40 0 []]%list.
Definition regdom_LB : regdomain := Regdomain "LB" DFS_FCC 5 [
  R 2402 2482 40 0 20 0 [];
  R 5170 5250 80 0 17 0 [AUTO_BW];
  R 5250 5330 80 0 24 0 [DFS; AUTO_BW];
  R 5490 5730 160 0 24 0 [DFS];
  R 5735 5835 80 0 30 0 []]%list.
Definition regdom_LC : regdomain := Regdomain "LC" DFS_ETSI 5 [
  R 2402 2482 40 0 20 0 [];
  R 5170 5250 80 0 20 0 [AUTO_BW];
  R 5250 5330 80 0 20 0 [DFS; AUTO_BW];
  R 5490 5710 160 0 30 0 [DFS];
  R 5735 5815 80 0 30 0 []]%list.
Definition regdom_LI : regdomain := Regdomain "LI" DFS_ETSI 7 [
  R 2400 2483 40 0 20 0 [];
  R 5150 5250 80 0 23 0 [AUTO_BW; NO_OUTDOOR];
  R 5250 5350 80 0 20 0 [NO_OUTDOOR; DFS; AUTO_BW];
  R 5470 5725 160 0 27 0 [DFS];
  R 5725 5875 80 0 14 0 [];
  R 5945 6425 320 0 23 0 [NO_OUTDOOR];
  R 57000 66000 2160 0 40 0 []]%list.
Definition regdom_LK : regdomain := Regdomain "LK" DFS_FCC 5 [
  R 2402 2482 40 0 20 0 [];
  R 5170 5250 20 0 17 0 [];
  R 5250 5330 20 0 24 0 [DFS];
  R 5490 5730 20 0 24 0 [DFS];
  R 5735 5835 20 0 30 0 []]%list.
Definition regdom_LS : regdomain := Regdomain "LS" DFS_ETSI 4 [
  R 2402 2482 40 0 20 0 [];
  R 5170 5250 80 0 20 0 [AUTO_BW];
  R 5250 5330 80 0 20 0 [DFS; AUTO_BW];
  R 5490 5710 160 0 27 0 [DFS]]%list.
Definition regdom_LT : regdomain := Regdomain "LT" DFS_ETSI 7 [
  R 2400 2483 40 0 20 0 [];
  R 5150 5250 80 0 23 0 [NO_OUTDOOR; AUTO_BW];
  R 5250 5350 80 0 20 0 [NO_OUTDOOR; DFS; AUTO_BW];
  R 5470 5725 160 0 27 0 [DFS];
  R 5725 5875 80 0 14 0 [];
  R 5945 6425 320 0 23 0 [NO_OUTDOOR];
  R 57000 66000 2160 0 40 0 []]%list.
Definition regdom_LU : regdomain := Regdomain "LU" DFS_ETSI 7 [
  R 2400 2483 40 0 20 0 [];
  R 5150 5250 80 0 23 0 [NO_OUTDOOR; AUTO_BW];
  R 5250 5350 80 0 20 0 [NO_OUTDOOR; DFS; AUTO_BW];
  R 5470 5725 160 0 27 0 [DFS];
  R 5725 5875 80 0 14 0 [];
  R 5945 6425 320 0 23 0 [NO_OUTDOOR];
  R 57000 66000 2160 0 40 0 []]%list.
Definition regdom_LV : regdomain := Regdomain "LV" DFS_ETSI 7 [
  R 2400 2483 40 0 20 0 [];
  R 5150 5250 80 0 23 0 [NO_OUTDOOR; AUTO_BW];
  R 5250 5350 80 0 20 0 [NO_OUTDOOR; DFS; AUTO_BW];
  R 5470 5725 160 0 27 0 [DFS];
  R 5725 5875 80 0 14 0 [];
  R 5945 6425 320 0 23 0 [NO_OUTDOOR];
  R 57000 66000 2160 0 40 0 []]%list.
Definition regdom_LY : regdomain := Regdomain "LY" DFS_ETSI 2 [
  R 2400 2483 40 0 20 0 [];
  R 5725 5825 80 0 33 0 []]%list.
Definition regdom_MA : regdomain := Regdomain "MA" DFS_ETSI 4 [
  R 2402 2482 40 0 20 0 [];
  R 5170 5250 80 0 20 0 [AUTO_BW];
  R 5250 5330 80 0 20 0 [DFS; AUTO_BW];
  R 5925 6425 320 0 23 0 [NO_OUTDOOR]]%list.
Definition regdom_MC : regdomain := Regdomain "MC" DFS_ETSI 5 [
  R 2400 2483 40 0 20 0 [];
  R 5150 5250 80 0 23 0 [NO_OUTDOOR; AUTO_BW];
  R 5250 5350 80 0 20 0 [NO_OUTDOOR; DFS; AUTO_BW];
  R 5470 5725 160 0 27 0 [DFS];
  R 5725 5875 80 0 14 0 []]%list.
Definition regdom_MD : regdomain := Regdomain "MD" DFS_ETSI 6 [
  R 2400 2483 40 0 20 0 [];
  R 5150 5250 80 0 23 0 [NO_OUTDOOR; AUTO_BW];
  R 5250 5350 80 0 20 0 [NO_OUTDOOR; DFS; AUTO_BW];
  R 5470 5725 160 0 27 0 [DFS];
  R 5725 5875 80 0 14 0 [];
  R 5945 6425 320 0 23 0 [NO_OUTDOOR]]%list.
Definition regdom_ME : regdomain := Regdomain "ME" DFS_ETSI 5 [
  R 2400 2483 40 0 20 0 [];
  R 5150 5250 80 0 23 0 [NO_OUTDOOR; AUTO_BW];
  R 5250 5350 80 0 20 0 [NO_OUTDOOR; DFS; AUTO_BW];
  R 5470 5725 160 0 27 0 [DFS];
  R 5725 5875 80 0 14 0 []]%list.
Definition regdom_MF : regdomain := Regdomain "MF" DFS_ETSI 4 [
  R 2402 2482 40 0 20 0 [];
  R 5170 5250 80 0 20 0 [AUTO_BW];
  R 5250 5330 80 0 20 0 [DFS; AUTO_BW];
  R 5490 5710 160 0 27 0 [DFS]]%list.
Definition regdom_MH : regdomain := Regdomain "MH" DFS_FCC 5 [
  R 2402 2472 40 0 30 0 [];
  R 5170 5250 80 0 24 0 [AUTO_BW];
  R 5250 5330 80 0 24 0 [DFS; AUTO_BW];
  R 5490 5730 160 0 24 0 [DFS];
  R 5735 5835 80 0 30 0 []]%list.
Definition regdom_MK : regdomain := Regdomain "MK" DFS_ETSI 6 [
  R 2400 2483 40 0 20 0 [];
  R 5150 5250 80 0 23 0 [NO_OUTDOOR; AUTO_BW];
  R 5250 5350 80 0 20 0 [NO_OUTDOOR; DFS; AUTO_BW];
  R 5470 5725 160 0 27 0 [DFS];
  R 5725 5875 80 0 14 0 [];
  R 57000 66000 2160 0 40 0 []]%list.
Definition regdom_MN : regdomain := Regdomain "MN" DFS_FCC 6 [
  R 2402 2482 40 0 20 0 [];
  R 5170 5250 80 0 24 0 [AUTO_BW];
  R 5250 5330 80 0 24 0 [DFS; AUTO_BW];
  R 5490 5730 160 0 24 0 [DFS];
  R 5735 5835 80 0 30 0 [];
  R 5925 6425 320 0 30 0 []]%list.
Definition regdom_MO : regdomain := Regdomain "MO" DFS_FCC 7 [
  R 2400 2483 40 0 23 0 [];
  R 5150 5250 80 0 23 0 [AUTO_BW];
  R 5250 5350 80 0 23 0 [DFS; AUTO_BW];
  R 5470 5730 160 0 30 0 [DFS];
  R 5725 5850 80 0 30 0 [];
  R 5925 6425 320 0 24 0 [NO_OUTDOOR];
  R 57000 66000 2160 0 40 0 []]%list.
Definition regdom_MP : regdomain := Regdomain "MP" DFS_FCC 5 [
  R 2402 2472 40 0 30 0 [];
  R 5170 5250 80 0 24 0 [AUTO_BW];
  R 5250 5330 80 0 24 0 [DFS; AUTO_BW];
  R 5490 5730 160 0 24 0 [DFS];
  R 5735 5835 80 0 30 0 []]%list.
Definition regdom_MQ : regdomain := Regdomain "MQ" DFS_ETSI 4 [
  R 2402 2482 40 0 20 0 [];
  R 5170 5250 80 0 20 0 [AUTO_BW];
  R 5250 5330 80 0 20 0 [DFS; AUTO_BW];
  R 5490 5710 160 0 27 0 [DFS]]%list.
Definition regdom_MR : regdomain := Regdomain "MR" DFS_ETSI 4 [
  R 2402 2482 40 0 20 0 [];
  R 5170 5250 80 0 20 0 [AUTO_BW];
  R 5250 5330 80 0 20 0 [DFS; AUTO_BW];
  R 5490 5710 160 0 27 0 [DFS]]%list.
Definition regdom_MT : regdomain := Regdomain "MT" DFS_ETSI 7 [
  R 2400 2483 40 0 20 0 [];
  R 5150 5250 80 0 23 0 [NO_OUTDOOR; AUTO_BW];
  R 5250 5350 80 0 20 0 [NO_OUTDOOR; DFS; AUTO_BW];
  R 5470 5725 160 0 27 0 [DFS];
  R 5725 5875 80 0 14 0 [];
  R 5945 6425 320 0 23 0 [NO_OUTDOOR];
  R 57000 66000 2160 0 40 0 []]%list.
Definition regdom_MU : regdomain := Regdomain "MU" DFS_FCC 6 [
  R 2402 2482 40 0 20 0 [];
  R 5170 5250 80 0 24 0 [AUTO_BW];
  R 5250 5330 80 0 24 0 [DFS; AUTO_BW];
  R 5490 5730 160 0 24 0 [DFS];
  R 5735 5835 80 0 30 0 [];
  R 5945 6425 320 0 23 0 [NO_OUTDOOR]]%list.
Definition regdom_MV : regdomain := Regdomain "MV" DFS_ETSI 4 [
  R 2400 2483 40 0 20 0 [];
  R 5150 5250 80 0 23 0 [AUTO_BW];
  R 5250 5350 80 0 20 0 [DFS; AUTO_BW];
  R 5725 5850 80 0 20 0 []]%list.
Definition regdom_MW : regdomain := Regdomain "MW" DFS_ETSI 4 [
  R 2402 2482 40 0 20 0 [];
  R 5170 5250 80 0 20 0 [AUTO_BW];
  R 5250 5330 80 0 20 0 [DFS; AUTO_BW];
  R 5490 5710 160 0 27 0 [DFS]]%list.
Definition regdom_MX : regdomain := Regdomain "MX" DFS_FCC 6 [
  R 2402 2482 40 0 20 0 [];
  R 5170 5250 80 0 17 0 [AUTO_BW];
  R 5250 5330 80 0 24 0 [DFS; AUTO_BW];
  R 5490 5730 160 0 24 0 [DFS];
  R 5735 5835 80 0 30 0 [];
  R 5925 6425 320 0 12 0 [NO_OUTDOOR]]%list.
Definition regdom_MY : regdomain := Regdomain "MY" DFS_FCC 6 [
  R 2402 2482 40 0 27 0 [];
  R 5170 5250 80 0 30 0 [AUTO_BW];
  R 5250 5330 80 0 30 0 [DFS; AUTO_BW];
  R 5490 5650 160 0 30 0 [DFS];
  R 5735 5835 80 0 30 0 [];
  R 5925 6425 320 0 23 0 [NO_OUTDOOR]]%list.
Definition regdom_NA : regdomain := Regdomain "NA" DFS_ETSI 7 [
  R 2400 2483 40 0 20 0 [];
  R 5150 5250 80 0 23 0 [NO_OUTDOOR; AUTO_BW];
  R 5250 5350 80 0 20 0 [NO_OUTDOOR; DFS; AUTO_BW];
  R 5470 5725 160 0 21 0 [DFS];
  R 5725 5875 80 0 24 0 [DFS];
  R 5925 6425 320 0 23 0 [NO_OUTDOOR];
  R 57000 66000 2160 0 40 0 [NO_OUTDOOR]]%list.
Definition regdom_NG : regdomain := Regdomain "NG" DFS_ETSI 3 [
  R 2402 2482 40 0 20 0 [];
  R 5250 5330 80 0 20 0 [DFS];
  R 5735 5835 80 0 30 0 []]%list.
Definition regdom_NI : regdomain := Regdomain "NI" DFS_FCC 5 [
  R 2402 2472 40 0 30 0 [];
  R 5170 5250 80 0 24 0 [AUTO_BW];
  R 5250 5330 80 0 24 0 [DFS; AUTO_BW];
  R 5490 5730 160 0 24 0 [DFS];
  R 5735 5835 80 0 30 0 []]%list.
Definition regdom_NL : regdomain := Regdomain "NL" DFS_ETSI 7 [
  R 2400 2483 40 0 20 0 [];
  R 5150 5250 80 0 23 0 [NO_OUTDOOR; AUTO_BW];
  R 5250 5350 80 0 20 0 [NO_OUTDOOR; DFS; AUTO_BW];
  R 5470 5725 160 0 27 0 [DFS];
  R 5725 5875 80 0 14 0 [];
  R 5945 6425 320 0 23 0 [NO_OUTDOOR];
  R 57000 66000 2160 0 40 0 []]%list.
Definition regdom_NO : regdomain := Regdomain "NO" DFS_ETSI 7 [
  R 2400 2483 40 0 20 0 [];
  R 5150 5250 80 0 23 0 [NO_OUTDOOR; AUTO_BW];
  R 5250 5350 80 0 20 0 [NO_OUTDOOR; DFS; AUTO_BW];
  R 5470 5725 160 0 27 0 [DFS];
  R 5725 5875 80 0 14 0 [];
  R 5945 6425 320 0 23 0 [NO_OUTDOOR];
  R 57000 71000 2160 0 40 0 []]%list.
Definition regdom_NP : regdomain := Regdomain "NP" DFS_JP 4 [
  R 2402 2482 40 0 20 0 [];
  R 5170 5250 80 0 20 0 [AUTO_BW];
  R 5250 5330 80 0 20 0 [DFS; AUTO_BW];
  R 5735 5835 80 0 20 0 []]%list.
Definition regdom_NZ : regdomain := Regdomain "NZ" DFS_ETSI 7 [
  R 2400 2483 40 0 36 0 [];
  R 5150 5250 80 0 30 0 [AUTO_BW];
  R 5250 5350 80 0 27 0 [DFS; AUTO_BW];
  R 5470 5730 160 0 27 0 [DFS];
  R 5725 5875 80 0 36 0 [];
  R 5925 6425 320 0 24 0 [NO_OUTDOOR];
  R 57000 66000 2160 0 40 0 [NO_OUTDOOR]]%list.
Definition regdom_OM : regdomain := Regdomain "OM" DFS_ETSI 7 [
  R 2400 2483 40 0 20 0 [NO_OUTDOOR];
  R 5170 5250 80 0 23 0 [AUTO_BW];
  R 5250 5350 80 0 20 0 [DFS; AUTO_BW];
  R 5470 5725 160 0 27 0 [DFS];
  R 5725 5850 80 0 28 0 [DFS; NO_INDOOR];
  R 5925 6425 320 0 23 0 [NO_OUTDOOR];
  R 57000 66000 2160 0 40 0 [NO_OUTDOOR]]%list.
Definition regdom_PA : regdomain := Regdomain "PA" DFS_FCC 6 [
  R 2400 2483 40 0 36 0 [];
  R 5150 5250 80 0 36 0 [AUTO_BW];
  R 5250 5350 80 0 30 0 [AUTO_BW];
  R 5470 5725 160 0 30 0 [];
  R 5725 5850 80 0 36 0 [];
  R 57000 64000 2160 0 43 0 []]%list.
Definition regdom_PE : regdomain := Regdomain "PE" DFS_FCC 6 [
  R 2402 2482 40 0 20 0 [];
  R 5170 5250 80 0 17 0 [AUTO_BW];
  R 5250 5330 80 0 24 0 [DFS; AUTO_BW];
  R 5490 5730 160 0 24 0 [DFS];
  R 5735 5835 80 0 30 0 [];
  R 5925 7125 320 0 12 0 [NO_OUTDOOR]]%list.
Definition regdom_PF : regdomain := Regdomain "PF" DFS_ETSI 4 [
  R 2402 2482 40 0 20 0 [];
  R 5170 5250 80 0 20 0 [AUTO_BW];
  R 5250 5330 80 0 20 0 [DFS; AUTO_BW];
  R 5490 5710 160 0 27 0 [DFS]]%list.
Definition regdom_PG : regdomain := Regdomain "PG" DFS_FCC 5 [
  R 2402 2482 40 0 20 0 [];
  R 5170 5250 80 0 17 0 [AUTO_BW];
  R 5250 5330 80 0 24 0 [DFS; AUTO_BW];
  R 5490 5730 160 0 24 0 [DFS];
  R 5735 5835 80 0 30 0 []]%list.
Definition regdom_PH : regdomain := Regdomain "PH" DFS_FCC 7 [
  R 2400 2483 40 0 20 0 [];
  R 5150 5250 80 0 23 0 [AUTO_BW];
  R 5250 5350 80 0 23 0 [DFS; AUTO_BW];
  R 5470 5725 160 0 24 0 [DFS];
  R 5725 5850 80 0 24 0 [];
  R 5925 6425 320 0 24 0 [NO_OUTDOOR];
  R 57000 66000 2160 0 40 0 []]%list.
Definition regdom_PK : regdomain := Regdomain "PK" DFS_UNSET 3 [
  R 2400 2500 40 0 30 0 [];
  R 5725 5875 80 0 30 0 [];
  R 5945 6425 320 0 23 0 [NO_OUTDOOR]]%list.
Definition regdom_PL : regdomain := Regdomain "PL" DFS_ETSI 7 [
  R 2400 2483 40 0 20 0 [];
  R 5150 5250 80 0 23 0 [NO_OUTDOOR; AUTO_BW];
  R 5250 5350 80 0 20 0 [NO_OUTDOOR; DFS; AUTO_BW];
  R 5470 5725 160 0 27 0 [DFS];
  R 5725 5875 80 0 14 0 [];
  R 5945 6425 320 0 23 0 [NO_OUTDOOR];
  R 57000 66000 2160 0 40 0 []]%list.
Definition regdom_PM : regdomain := Regdomain "PM" DFS_ETSI 4 [
  R 2402 2482 40 0 20 0 [];
  R 5170 5250 80 0 20 0 [AUTO_BW];
  R 5250 5330 80 0 20 0 [DFS; AUTO_BW];
  R 5490 5710 160 0 27 0 [DFS]]%list.
Definition regdom_PR : regdomain := Regdomain "PR" DFS_FCC 5 [
  R 2402 2472 40 0 30 0 [];
  R 5170 5250 80 0 17 0 [AUTO_BW];
  R 5250 5330 80 0 24 0 [DFS; AUTO_BW];
  R 5490 5730 160 0 24 0 [DFS];
  R 5735 5835 80 0 30 0 []]%list.
Definition regdom_PT : regdomain := Regdomain "PT" DFS_ETSI 7 [
  R 2400 2483 40 0 20 0 [];
  R 5150 5250 80 0 23 0 [NO_OUTDOOR; AUTO_BW];
  R 5250 5350 80 0 20 0 [NO_OUTDOOR; DFS; AUTO_BW];
  R 5470 5725 160 0 27 0 [DFS];
  R 5725 5875 80 0 14 0 [];
  R 5945 6425 320 0 23 0 [NO_OUTDOOR];
  R 57000 66000 2160 0 40 0 []]%list.
Definition regdom_PW : regdomain := Regdomain "PW" DFS_FCC 5 [
  R 2402 2472 40 0 30 0 [];
  R 5170 5250 80 0 24 0 [AUTO_BW];
  R 5250 5330 80 0 24 0 [DFS; AUTO_BW];
  R 5490 5730 160 0 24 0 [DFS];
  R 5735 5835 80 0 30 0 []]%list.
Definition regdom_PY : regdomain := Regdomain "PY" DFS_FCC 5 [
  R 2402 2482 40 0 20 0 [];
  R 5170 5250 80 0 24 0 [AUTO_BW];
  R 5250 5330 80 0 24 0 [DFS; AUTO_BW];
  R 5490 5730 160 0 24 0 [DFS];
  R 5735 5835 80 0 30 0 []]%list.
Definition regdom_QA : regdomain := Regdomain "QA" DFS_ETSI 7 [
  R 2400 2483 40 0 20 0 [NO_OUTDOOR];
  R 5150 5250 80 0 23 0 [AUTO_BW; NO_OUTDOOR];
  R 5250 5350 80 0 23 0 [NO_OUTDOOR; AUTO_BW; DFS];
  R 5470 5725 160 0 20 0 [NO_OUTDOOR; DFS];
  R 5725 5875 80 0 20 0 [NO_OUTDOOR; DFS];
  R 5925 6425 320 0 23 0 [NO_OUTDOOR];
  R 57000 66000 2160 0 40 0 [NO_OUTDOOR]]%list.
Definition regdom_RE : regdomain := Regdomain "RE" DFS_ETSI 4 [
  R 2402 2482 40 0 20 0 [];
  R 5170 5250 80 0 20 0 [AUTO_BW];
  R 5250 5330 80 0 20 0 [DFS; AUTO_BW];
  R 5490 5710 160 0 27 0 [DFS]]%list.
Definition regdom_RO : regdomain := Regdomain "RO" DFS_ETSI 7 [
  R 2400 2483 40 0 20 0 [];
  R 5150 5250 80 0 23 0 [NO_OUTDOOR; AUTO_BW];
  R 5250 5350 80 0 20 0 [NO_OUTDOOR; DFS; AUTO_BW];
  R 5470 5725 160 0 27 0 [DFS];
  R 5725 5875 80 0 14 0 [];
  R 5945 6425 320 0 23 0 [NO_OUTDOOR];
  R 57000 66000 2160 0 40 0 []]%list.
Definition regdom_RS : regdomain := Regdomain "RS" DFS_ETSI 8 [
  R 2400 2483 40 0 20 0 [];
  R 5150 5250 80 0 23 0 [AUTO_BW];
  R 5250 5350 80 0 23 0 [AUTO_BW; DFS];
  R 5470 5725 160 0 27 0 [DFS];
  R 5725 5850 80 0 24 0 [AUTO_BW; DFS];
  R 5850 5875 20 0 24 0 [AUTO_BW];
  R 5925 6425 320 0 23 0 [NO_OUTDOOR];
  R 57000 66000 2160 0 40 0 []]%list.
Definition regdom_RU : regdomain := Regdomain "RU" DFS_UNSET 5 [
  R 2400 2483 40 0 20 0 [];
  R 5150 5350 160 0 20 0 [NO_OUTDOOR];
  R 5650 5850 160 0 20 0 [NO_OUTDOOR];
  R 5925 6425 160 0 20 0 [NO_OUTDOOR];
  R 57000 66000 2160 0 40 0 [NO_OUTDOOR]]%list.
Definition regdom_RW : regdomain := Regdomain "RW" DFS_FCC 5 [
  R 2402 2482 40 0 20 0 [];
  R 5170 5250 80 0 17 0 [AUTO_BW];
  R 5250 5330 80 0 24 0 [DFS; AUTO_BW];
  R 5490 5730 160 0 24 0 [DFS];
  R 5735 5835 80 0 30 0 []]%list.
Definition regdom_SA : regdomain := Regdomain "SA" DFS_ETSI 5 [
  R 2402 2482 40 0 20 0 [];
  R 5170 5250 80 0 20 0 [AUTO_BW];
  R 5250 5330 80 0 20 0 [DFS; AUTO_BW];
  R 5490 5710 160 0 27 0 [DFS];
  R 5925 7125 320 0 24 0 [NO_OUTDOOR]]%list.
Definition regdom_SE : regdomain := Regdomain "SE" DFS_ETSI 7 [
  R 2400 2483 40 0 20 0 [];
  R 5150 5250 80 0 23 0 [NO_OUTDOOR; AUTO_BW];
  R 5250 5350 80 0 20 0 [NO_OUTDOOR; DFS; AUTO_BW];
  R 5470 5725 160 0 27 0 [DFS];
  R 5725 5875 80 0 14 0 [];
  R 5945 6425 320 0 23 0 [NO_OUTDOOR];
  R 57000 66000 2160 0 40 0 []]%list.
Definition regdom_SG : regdomain := Regdomain "SG" DFS_FCC 7 [
  R 2400 2483 40 0 23 0 [];
  R 5150 5250 80 0 23 0 [AUTO_BW];
  R 5250 5350 80 0 20 0 [DFS; AUTO_BW];
  R 5470 5730 160 0 27 0 [DFS];
  R 5725 5850 80 0 30 0 [];
  R 5945 6425 320 0 24 0 [NO_OUTDOOR];
  R 57000 66000 2160 0 40 0 []]%list.
Definition regdom_SI : regdomain := Regdomain "SI" DFS_ETSI 7 [
  R 2400 2483 40 0 20 0 [];
  R 5150 5250 80 0 23 0 [NO_OUTDOOR; AUTO_BW];
  R 5250 5350 80 0 20 0 [NO_OUTDOOR; DFS; AUTO_BW];
  R 5470 5725 160 0 27 0 [DFS];
  R 5725 5875 80 0 14 0 [];
  R 5945 6425 320 0 23 0 [NO_OUTDOOR];
  R 57000 66000 2160 0 40 0 []]%list.
Definition regdom_SK : regdomain := Regdomain "SK" DFS_ETSI 7 [
  R 2400 2483 40 0 20 0 [];
  R 5150 5250 80 0 23 0 [NO_OUTDOOR; AUTO_BW];
  R 5250 5350 80 0 20 0 [NO_OUTDOOR; DFS; AUTO_BW];
  R 5470 5725 160 0 27 0 [DFS];
  R 5725 5875 80 0 14 0 [];
  R 5945 6425 320 0 23 0 [NO_OUTDOOR];
  R 57000 66000 2160 0 40 0 []]%list.
Definition regdom_SM : regdomain := Regdomain "SM" DFS_ETSI 2 [
  R 2400 2483 40 0 20 0 [];
  R 5725 5825 80 0 33 0 []]%list.
Definition regdom_SN : regdomain := Regdomain "SN" DFS_FCC 5 [
  R 2402 2482 40 0 20 0 [];
  R 5170 5250 80 0 17 0 [AUTO_BW];
  R 5250 5330 80 0 24 0 [DFS; AUTO_BW];
  R 5490 5730 160 0 24 0 [DFS];
  R 5735 5835 80 0 30 0 []]%list.
Definition regdom_SR : regdomain := Regdomain "SR" DFS_ETSI 4 [
  R 2402 2482 40 0 20 0 [];
  R 5170 5250 80 0 20 0 [AUTO_BW];
  R 5250 5330 80 0 20 0 [DFS; AUTO_BW];
  R 5490 5710 160 0 27 0 [DFS]]%list.
Definition regdom_SV : regdomain := Regdomain "SV" DFS_FCC 5 [
  R 2402 2482 40 0 20 0 [];
  R 5170 5250 20 0 17 0 [];
  R 5250 5330 20 0 23 0 [DFS];
  R 5735 5835 20 0 30 0 [];
  R 5925 7125 320 0 12 0 [NO_OUTDOOR]]%list.
Definition regdom_SY : regdomain := Regdomain "SY" DFS_ETSI 7 [
  R 2400 2483 40 0 20 0 [NO_OUTDOOR];
  R 5150 5250 80 0 23 0 [NO_OUTDOOR; AUTO_BW];
  R 5250 5350 80 0 23 0 [NO_OUTDOOR; DFS; AUTO_BW];
  R 5470 5725 160 0 23 0 [DFS; NO_OUTDOOR];
  R 5725 5850 80 0 23 0 [NO_OUTDOOR; DFS; AUTO_BW];
  R 5850 5875 20 0 23 0 [NO_OUTDOOR; AUTO_BW];
  R 57000 66000 2160 0 40 0 [NO_OUTDOOR]]%list.
Definition regdom_TC : regdomain := Regdomain "TC" DFS_FCC 5 [
  R 2402 2482 40 0 20 0 [];
  R 5170 5250 80 0 24 0 [AUTO_BW];
  R 5250 5330 80 0 24 0 [DFS; AUTO_BW];
  R 5490 5730 160 0 24 0 [DFS];
  R 5735 5835 80 0 30 0 []]%list.
Definition regdom_TD : regdomain := Regdomain "TD" DFS_ETSI 4 [
  R 2402 2482 40 0 20 0 [];
  R 5170 5250 80 0 20 0 [AUTO_BW];
  R 5250 5330 80 0 20 0 [DFS; AUTO_BW];
  R 5490 5710 160 0 27 0 [DFS]]%list.
Definition regdom_TG : regdomain := Regdomain "TG" DFS_ETSI 5 [
  R 2400 2483 40 0 20 0 [DFS];
  R 5150 5350 80 0 20 0 [DFS];
  R 5470 5850 160 0 27 0 [DFS];
  R 5925 6425 320 0 23 0 [DFS; NO_OUTDOOR];
  R 57000 66000 2160 0 40 0 [DFS]]%list.
Definition regdom_TH : regdomain := Regdomain "TH" DFS_FCC 6 [
  R 2402 2482 40 0 20 0 [];
  R 5170 5250 80 0 17 0 [AUTO_BW];
  R 5250 5330 80 0 24 0 [DFS; AUTO_BW];
  R 5490 5730 160 0 24 0 [DFS];
  R 5735 5835 80 0 30 0 [];
  R 5925 6425 320 0 24 0 [NO_OUTDOOR]]%list.
Definition regdom_TJ : regdomain := Regdomain "TJ" DFS_ETSI 2 [
  R 2400 2483 40 0 20 0 [];
  R 5725 5825 80 0 33 0 []]%list.
Definition regdom_TM : regdomain := Regdomain "TM" DFS_ETSI 2 [
  R 2400 2483 40 0 20 0 [];
  R 5725 5825 80 0 33 0 []]%list.
Definition regdom_TN : regdomain := Regdomain "TN" DFS_ETSI 3 [
  R 2402 2482 40 0 20 0 [];
  R 5170 5250 80 0 20 0 [AUTO_BW];
  R 5250 5330 80 0 20 0 [DFS; AUTO_BW]]%list.
Definition regdom_TR : regdomain := Regdomain "TR" DFS_ETSI 6 [
  R 2400 2483 40 0 20 0 [];
  R 5150 5250 80 0 23 0 [AUTO_BW; NO_OUTDOOR];
  R 5250 5330 80 0 20 0 [NO_OUTDOOR; DFS; AUTO_BW];
  R 5470 5725 160 0 27 0 [DFS];
  R 5945 6425 320 0 23 0 [NO_OUTDOOR];
  R 57000 66000 2160 0 40 0 []]%list.
Definition regdom_TT : regdomain := Regdomain "TT" DFS_FCC 5 [
  R 2402 2482 40 0 20 0 [];
  R 5170 5250 80 0 17 0 [AUTO_BW];
  R 5250 5330 80 0 24 0 [DFS; AUTO_BW];
  R 5490 5730 160 0 24 0 [DFS];
  R 5735 5835 80 0 30 0 []]%list.
Definition regdom_TW : regdomain := Regdomain "TW" DFS_FCC 7 [
  R 2400 2483 40 0 30 0 [];
  R 5150 5250 80 0 23 0 [AUTO_BW];
  R 5250 5350 80 0 23 0 [DFS; AUTO_BW];
  R 5470 5730 160 0 23 0 [DFS];
  R 5725 5850 80 0 30 0 [];
  R 5945 6425 320 0 23 0 [NO_OUTDOOR];
  R 57000 66000 2160 0 40 0 []]%list.
Definition regdom_TZ : regdomain := Regdomain "TZ" DFS_ETSI 6 [
  R 2400 2483 40 0 20 0 [];
  R 5150 5250 80 0 23 0 [NO_OUTDOOR; AUTO_BW];
  R 5250 5350 80 0 20 0 [DFS; NO_OUTDOOR; AUTO_BW];
  R 5470 5725 160 0 24 0 [DFS];
  R 5725 5850 80 0 24 0 [DFS];
  R 5945 6425 320 0 23 0 [NO_OUTDOOR]]%list.
Definition regdom_UA : regdomain := Regdomain "UA" DFS_ETSI 6 [
  R 2400 2483 40 0 20 0 [NO_OUTDOOR];
  R 5150 5250 80 0 20 0 [NO_OUTDOOR; AUTO_BW];
  R 5250 5350 80 0 20 0 [DFS; NO_OUTDOOR; AUTO_BW];
  R 5470 5725 160 0 20 0 [DFS; NO_OUTDOOR];
  R 5725 5850 80 0 20 0 [NO_OUTDOOR];
  R 57000 66000 2160 0 16 0 [NO_OUTDOOR]]%list.
Definition regdom_UG : regdomain := Regdomain "UG" DFS_FCC 5 [
  R 2402 2482 40 0 20 0 [];
  R 5170 5250 80 0 24 0 [AUTO_BW];
  R 5250 5330 80 0 24 0 [DFS; AUTO_BW];
  R 5490 5730 160 0 24 0 [DFS];
  R 5735 5835 80 0 30 0 []]%list.
Definition regdom_US : regdomain := Regdomain "US" DFS_FCC 8 [
  R 2400 2472 40 0 30 0 [];
  R 5150 5250 80 0 23 0 [AUTO_BW];
  R 5250 5350 80 0 24 0 [DFS; AUTO_BW];
  R 5470 5730 160 0 24 0 [DFS];
  R 5730 5850 80 0 30 0 [AUTO_BW];
  R 5850 5895 40 0 27 0 [AUTO_BW; NO_OUTDOOR];
  R 5925 7125 320 0 12 0 [NO_IR; NO_OUTDOOR];
  R 57240 71000 2160 0 40 0 []]%list.
Definition regdom_UY : regdomain := Regdomain "UY" DFS_ETSI 4 [
  R 2402 2482 40 0 20 0 [];
  R 5170 5250 80 0 23 0 [AUTO_BW];
  R 5250 5330 80 0 23 0 [DFS; AUTO_BW];
  R 5735 5835 80 0 30 0 []]%list.
Definition regdom_UZ : regdomain := Regdomain "UZ" DFS_ETSI 3 [
  R 2402 2482 40 0 20 0 [];
  R 5170 5250 80 0 20 0 [AUTO_BW];
  R 5250 5330 80 0 20 0 [DFS; AUTO_BW]]%list.
Definition regdom_VC : regdomain := Regdomain "VC" DFS_ETSI 4 [
  R 2402 2482 40 0 20 0 [];
  R 5170 5250 80 0 20 0 [AUTO_BW];
  R 5250 5330 80 0 20 0 [DFS; AUTO_BW];
  R 5490 5710 160 0 27 0 [DFS]]%list.
Definition regdom_VE : regdomain := Regdomain "VE" DFS_FCC 4 [
  R 2402 2482 40 0 30 0 [];
  R 5170 5250 80 0 23 0 [AUTO_BW];
  R 5250 5330 80 0 23 0 [DFS; AUTO_BW];
  R 5735 5835 80 0 30 0 []]%list.
Definition regdom_VI : regdomain := Regdomain "VI" DFS_FCC 5 [
  R 2402 2472 40 0 30 0 [];
  R 5170 5250 80 0 24 0 [AUTO_BW];
  R 5250 5330 80 0 24 0 [DFS; AUTO_BW];
  R 5490 5730 160 0 24 0 [DFS];
  R 5735 5835 80 0 30 0 []]%list.
Definition regdom_VN : regdomain := Regdomain "VN" DFS_FCC 5 [
  R 2402 2482 40 0 20 0 [];
  R 5170 5250 80 0 17 0 [];
  R 5250 5330 80 0 24 0 [DFS];
  R 5490 5730 80 0 24 0 [DFS];
  R 5735 5835 80 0 30 0 []]%list.
Definition regdom_VU : regdomain := Regdomain "VU" DFS_FCC 5 [
  R 2402 2482 40 0 20 0 [];
  R 5170 5250 80 0 17 0 [AUTO_BW];
  R 5250 5330 80 0 24 0 [DFS; AUTO_BW];
  R 5490 5730 160 0 24 0 [DFS];
  R 5735 5835 80 0 30 0 []]%list.
Definition regdom_WF : regdomain := Regdomain "WF" DFS_ETSI 4 [
  R 2402 2482 40 0 20 0 [];
  R 5170 5250 80 0 20 0 [AUTO_BW];
  R 5250 5330 80 0 20 0 [DFS; AUTO_BW];
  R 5490 5710 160 0 27 0 [DFS]]%list.
Definition regdom_WS : regdomain := Regdomain "WS" DFS_ETSI 4 [
  R 2402 2482 40 0 20 0 [];
  R 5170 5250 40 0 20 0 [];
  R 5250 5330 40 0 20 0 [DFS];
  R 5490 5710 40 0 27 0 [DFS]]%list.
Definition regdom_FK : regdomain := Regdomain "FK" DFS_ETSI 2 [
  R 2400 2483 40 0 20 0 [];
  R 5725 5825 80 0 33 0 []]%list.
Definition regdom_FO : regdomain := Regdomain "FO" DFS_ETSI 2 [
  R 2400 2483 40 0 20 0 [];
  R 5725 5825 80 0 33 0 []]%list.
Definition regdom_YE : regdomain := Regdomain "YE" DFS_UNSET 1 [
  R 2402 2482 40 0 20 0 []]%list.
Definition regdom_YT : regdomain := Regdomain "YT" DFS_ETSI 4 [
  R 2402 2482 40 0 20 0 [];
  R 5170 5250 80 0 20 0 [AUTO_BW];
  R 5250 5330 80 0 20 0 [DFS; AUTO_BW];
  R 5490 5710 160 0 27 0 [DFS]]%list.
Definition regdom_ZA : regdomain := Regdomain "ZA" DFS_ETSI 5 [
  R 2402 2482 40 0 20 0 [];
  R 5170 5250 80 0 20 0 [AUTO_BW];
  R 5250 5330 80 0 20 0 [DFS; AUTO_BW];
  R 5490 5710 160 0 30 0 [];
  R 5925 6425 320 0 14 0 []]%list.
Definition regdom_ZM : regdomain := Regdomain "ZM" DFS_ETSI 2 [
  R 2400 2483 40 0 20 0 [];
  R 5725 5825 80 0 33 0 []]%list.
Definition regdom_ZW : regdomain := Regdomain "ZW" DFS_ETSI 4 [
  R 2402 2482 40 0 20 0 [];
  R 5170 5250 80 0 20 0 [AUTO_BW];
  R 5250 5330 80 0 20 0 [DFS; AUTO_BW];
  R 5490 5710 160 0 27 0 [DFS]]%list.
Definition regdom_WW : regdomain := Regdomain "WW" DFS_UNSET 2 [
  R 2380 2520 40 0 20 0 [];
  R 5140 5980 80 0 20 0 []]%list.
Definition regdom_XX : regdomain := Regdomain "XX" DFS_UNSET 1 [
  R 2402 2472 40 0 20 0 []]%list.

Definition reg_regdb : list regdomain := [regdom_00; regdom_AD; regdom_AE; regdom_AF; regdom_AI; regdom_AL;
  regdom_AM; regdom_AN; regdom_AR; regdom_AS; regdom_AT; regdom_AU; regdom_AW; regdom_AZ; regdom_BA;
  regdom_BB; regdom_BD; regdom_BE; regdom_BF; regdom_BG; regdom_BH; regdom_BL; regdom_BM; regdom_BN;
  regdom_BO; regdom_BR; regdom_BS; regdom_BT; regdom_BY; regdom_BZ; regdom_CA; regdom_CF; regdom_CH;
  regdom_CI; regdom_CL; regdom_CN; regdom_CO; regdom_CR; regdom_CX; regdom_CY; regdom_CZ; regdom_DE;
  regdom_DK; regdom_DM; regdom_DO; regdom_DZ; regdom_EC; regdom_EE; regdom_EG; regdom_ES; regdom_ET;
  regdom_FI; regdom_FM; regdom_FR; regdom_GB; regdom_GD; regdom_GE; regdom_GF; regdom_GH; regdom_GL;
  regdom_GP; regdom_GR; regdom_GT; regdom_GU; regdom_GY; regdom_HK; regdom_HN; regdom_HR; regdom_HT;
  regdom_HU; regdom_ID; regdom_IE; regdom_IL; regdom_IN; regdom_IR; regdom_IS; regdom_IT; regdom_JM;
  regdom_JO; regdom_JP; regdom_KE; regdom_KH; regdom_KN; regdom_KP; regdom_KR; regdom_KW; regdom_KY;
  regdom_KZ; regdom_LB; regdom_LC; regdom_LI; regdom_LK; regdom_LS; regdom_LT; regdom_LU; regdom_LV;
  regdom_MA; regdom_MC; regdom_MD; regdom_ME; regdom_MF; regdom_MH; regdom_MK; regdom_MN; regdom_MO;
  regdom_MP; regdom_MQ; regdom_MR; regdom_MT; regdom_MU; regdom_MW; regdom_MX; regdom_MY; regdom_NI;
  regdom_NL; regdom_NO; regdom_NP; regdom_NZ; regdom_OM; regdom_PA; regdom_PE; regdom_PF; regdom_PG;
  regdom_PH; regdom_PK; regdom_PL; regdom_PM; regdom_PR; regdom_PT; regdom_PW; regdom_PY; regdom_QA;
  regdom_RE; regdom_RO; regdom_RS; regdom_RU; regdom_RW; regdom_SA; regdom_SE; regdom_SG; regdom_SI;
  regdom_SK; regdom_SN; regdom_SR; regdom_SV; regdom_SY; regdom_TC; regdom_TD; regdom_TG; regdom_TH;
  regdom_TN; regdom_TR; regdom_TT; regdom_TW; regdom_UA; regdom_UG; regdom_US; regdom_UY; regdom_UZ;
  regdom_VC; regdom_VE; regdom_VI; regdom_VN; regdom_VU; regdom_WF; regdom_YE; regdom_YT; regdom_ZA;
  regdom_ZW; regdom_BW; regdom_GI; regdom_IQ; regdom_KG; regdom_LY; regdom_MV; regdom_NA; regdom_NG;
  regdom_SM; regdom_TJ; regdom_TM; regdom_FK; regdom_FO; regdom_ZM; regdom_CU; regdom_TZ; regdom_WS;
  regdom_WW; regdom_XX]%list.

End Regdb.
