(* ===== verification/Reg.v ===== *)
(** * The regulatory domain of a country (rwnx_mod_params.c, rwnx_main.c)

    Setting a country looks its code up in [Regdb.reg_regdb], notes the code
    and prints the numbers of the channels that may be used into an array of
    200 bytes.  The channels are those of the two bands; thirteen and 59 more,
    for measurements, are enabled by the module parameter custchan.

    [ieee80211_frequency_to_channel] of the kernel is the argument [chan_of];
    [freq_numbers] is what it is documented to do on the channels of the
    bands. *)

From S2P Require Import Prelude Regdb.
From Stdlib Require Import String.
From stdpp Require Import list.
Import Regdb.
Open Scope Z_scope.
Open Scope list_scope.

Module Reg.

(** ** Bands *)

(** The channels of a band by their frequency. *)
Record sband := Sband { channels : list Z; n_channels : Z }.
#[export] Instance eta_sband : Settable sband := fun b => Sband b.(channels) b.(n_channels).

Definition rwnx_2ghz_channels : list Z := [
  2412; 2417; 2422; 2427; 2432; 2437; 2442; 2447; 2452; 2457; 2462; 2467; 2472; 2484;
  2390; 2400; 2410; 2420; 2430; 2440; 2450; 2460; 2470; 2480; 2490; 2500; 2510].
Definition rwnx_5ghz_channels : list Z := [
  5180; 5200; 5220; 5240; 5260; 5280; 5300; 5320;
  5500; 5520; 5540; 5560; 5580; 5600; 5620; 5640; 5660; 5680; 5700; 5720;
  5745; 5765; 5785; 5805; 5825;
  5190; 5210; 5230; 5250; 5270; 5290; 5310; 5330; 5340; 5350; 5360; 5370; 5380; 5390; 5400; 5410; 5420; 5430; 5440;
  5450; 5460; 5470; 5480; 5490; 5510; 5530; 5550; 5570; 5590; 5610; 5630; 5650; 5670; 5690; 5710; 5730; 5750; 5760;
  5770; 5780; 5790; 5800; 5810; 5820; 5830; 5840; 5850; 5860; 5870; 5880; 5890; 5900; 5910; 5920; 5930; 5940; 5950;
  5960; 5970].

Definition rwnx_band_2GHz : sband := Sband rwnx_2ghz_channels (Z.of_nat (length rwnx_2ghz_channels) - 13).
Definition rwnx_band_5GHz : sband := Sband rwnx_5ghz_channels (Z.of_nat (length rwnx_5ghz_channels) - 59).

(** ** State *)

(** The module parameters custregd and custchan, the bands of the wiphy ([None]
    where the pointer is NULL), the globals. *)
Record regs := Regs {
  custregd : bool; custchan : bool;
  bands : list (option sband);
  country_code : list Z;
  ccode_channels : list Z;
  index_for_channel_list : nat
}.
#[export] Instance eta_regs : Settable regs := fun s =>
  Regs s.(custregd) s.(custchan) s.(bands) s.(country_code) s.(ccode_channels) s.(index_for_channel_list).

Definition default_ccode : list Z := text "00" ++ [0; 0].

(** Before the first use; [support_5g] is what the firmware reports. *)
Definition init (regd chan support_5g : bool) : regs :=
  Regs regd chan [Some rwnx_band_2GHz; if support_5g then Some rwnx_band_5GHz else None]
    (replicate 4 0) (replicate 200 0) 0.

(** The part of rwnx_set_wiphy_params that enables the other channels. *)
Definition set_custchan (s : regs) : regs :=
  if custregd s && custchan s then
    match bands s with
    | [Some b2; b5] =>
      s <| bands := [Some (b2 <| n_channels ::= fun n => n + 13 |>);
                     (fun b => b <| n_channels ::= fun n => n + 59 |>) <$> b5] |>
    | _ => s
    end
  else s.

(** What the memory behind [reg_regdb] reads as: [None] where the access traps,
    otherwise whether the word is other than NULL. *)
Section Reg.
Context (chan_of : Z -> Z) (behind : option bool).

(** ** Channels *)

(** A channel of 20 MHz is inside the range of a rule. *)
Definition in_rule (center_freq : Z) (r : reg_rule) : bool :=
  (start_freq_khz r / 1000 <=? center_freq - 10) && (center_freq + 10 <=? end_freq_khz r / 1000).

(** The loop over the rules, [n] of them. *)
Fixpoint rule_loop (n : nat) (rules : list reg_rule) (center_freq : Z) : res bool :=
  match n, rules with
  | O, _ => Ok false
  | S n, r :: rules => if in_rule center_freq r then Ok true else rule_loop n rules center_freq
  | S n, [] => Fault
  end.

(** The number and a blank behind what is printed already; the number goes
    through an array of four bytes. *)
Definition print_channel (center_freq : Z) (s : regs) : res regs :=
  let channel := dec (chan_of center_freq) in
  if (4 <=? length channel)%nat then Fault else
  a ← splice (ccode_channels s) (index_for_channel_list s) channel;
  b ← splice a (index_for_channel_list s + length channel) [32];
  Ok (s <| ccode_channels := b |> <| index_for_channel_list ::= fun i => (i + length channel + 1)%nat |>).

Fixpoint channel_loop (d : regdomain) (l : list Z) (s : regs) : res regs :=
  match l with
  | [] => Ok s
  | f :: l =>
    ok ← rule_loop (Z.to_nat (n_reg_rules d)) (reg_rules d) f;
    s ← (if (ok : bool) then print_channel f s else Ok s);
    channel_loop d l s
  end.

Fixpoint band_loop (d : regdomain) (l : list (option sband)) (s : regs) : res regs :=
  match l with
  | [] => Ok s
  | None :: l => band_loop d l s
  | Some b :: l =>
    if Z.of_nat (length (channels b)) <? n_channels b then Fault else
    s ← channel_loop d (take (Z.to_nat (n_channels b)) (channels b)) s;
    band_loop d l s
  end.

Definition rwnx_get_countrycode_channels (d : regdomain) (s : regs) : res regs :=
  band_loop d (bands s) (s <| ccode_channels := replicate 200 0 |> <| index_for_channel_list := 0%nat |>).

(** ** Countries *)

Definition reg_regdb_size : Z := Z.of_nat (length reg_regdb).

(** Byte [i] of a C string. *)
Definition ch (a : list Z) (i : nat) : Z := nth i a 0.

Definition same_code (d : regdomain) (a : list Z) : bool :=
  (ch (text (alpha2 d)) 0 =? ch a 0) && (ch (text (alpha2 d)) 1 =? ch a 1).

(** [reg_regdb[idx] && idx < reg_regdb_size]: the loop reads the pointer before
    it compares the index with the size, so a code that no domain has makes it
    read the word behind the last pointer. *)
Fixpoint find_code (fuel : nat) (idx : Z) (a : list Z) : res (option regdomain) :=
  match fuel with
  | O => NoFuel
  | S fuel =>
    match reg_regdb !! Z.to_nat idx with
    | Some d =>
      if idx <? reg_regdb_size then if same_code d a then Ok (Some d) else find_code fuel (u8 (idx + 1)) a
      else Ok None
    | None =>
      if negb (idx =? reg_regdb_size) then Fault else
      match behind with
      | None => Fault
      | Some w => if w && (idx <? reg_regdb_size) then Fault else Ok None
      end
    end
  end.

Definition getRegdomainFromRwnxDB (a : list Z) (s : regs) : res (regdomain * regs) :=
  let s := s <| country_code := replicate 4 0 |> in
  r ← find_code (S (length reg_regdb)) 0 a;
  match r with
  | Some d =>
    code ← splice (country_code s) 0 [ch a 0; ch a 1];
    s ← rwnx_get_countrycode_channels d (s <| country_code := code |>);
    Ok (d, s)
  | None =>
    code ← splice (country_code s) 0 default_ccode;
    s ← rwnx_get_countrycode_channels regdom_00 (s <| country_code := code |>);
    Ok (regdom_00, s)
  end.

(** The index is cut to a byte. *)
Definition getRegdomainFromRwnxDBIndex (index : Z) (s : regs) : res (regdomain * regs) :=
  match reg_regdb !! Z.to_nat (u8 index) with
  | Some d =>
    s ← rwnx_get_countrycode_channels d
          (s <| country_code := [ch (text (alpha2 d)) 0; ch (text (alpha2 d)) 1; 0; 0] |>);
    Ok (d, s)
  | None => Fault
  end.

(** When the wiphy is registered; the domain that is handed to cfg80211. *)
Definition rwnx_custregd (s : regs) : res (option regdomain * regs) :=
  if custregd s then '(d, s) ← getRegdomainFromRwnxDB default_ccode s; Ok (Some d, s) else Ok (None, s).

(** aicwf_vendor_subcmd_set_country_code, and the commands country_set and
    COUNTRY of aic_priv_cmd.c after the parsing of their arguments. *)
Definition set_country (a : list Z) (s : regs) : res (option regdomain * regs) :=
  if custregd s then '(d, s) ← getRegdomainFromRwnxDB a s; Ok (Some d, s) else Ok (None, s).

End Reg.

End Reg.
