(* ===== verification/RegRuns.v ===== *)
(** * The regulatory domain of a country: theorems on [Regdb] and [Reg]

    The database is accepted by cfg80211; every code leads to the domain of
    that code or to the world domain, and the text for user space names exactly
    the channels that domain allows; the channels that custchan enables are too
    many for that text. *)

From S2P Require Import Prelude Regdb Reg.
From Stdlib Require Import String.
From stdpp Require Import list strings.
Import Regdb Reg.
Open Scope Z_scope.
Open Scope list_scope.

Module RegRuns.

(** ** The database *)

(** What cfg80211 demands of a rule and of a domain. *)
Definition valid_rule (r : reg_rule) : bool :=
  (0 <? start_freq_khz r) && (0 <? end_freq_khz r) && (start_freq_khz r <? end_freq_khz r) &&
  (max_bandwidth_khz r <=? end_freq_khz r - start_freq_khz r).

Definition valid_domain (d : regdomain) : bool :=
  (0 <? n_reg_rules d) && (n_reg_rules d <=? 128) && (n_reg_rules d <=? Z.of_nat (length (reg_rules d))) &&
  forallb valid_rule (reg_rules d) && (String.length (alpha2 d) =? 2)%nat.

(** C30. Every domain of the database has rules, as many as it says at least, each of
    which cfg80211 accepts (a range that is not empty, and a bandwidth that fits in it),
    and a code of two letters that no other domain has; the world domain comes first,
    and the index of the last one fits in the byte the search counts with. *)
Theorem regdb_wf :
  Forall (fun d => valid_domain d = true) reg_regdb /\ NoDup (alpha2 <$> reg_regdb) /\
  head reg_regdb = Some regdom_00 /\ reg_regdb_size <= 255.
Proof.
  split; [| split; [| split; [done | done]]].
  - apply Forall_forall. intros d Hd. assert (H : forallb valid_domain reg_regdb = true) by by vm_compute.
    rewrite forallb_forall in H. by apply H, list_elem_of_In.
  - apply (bool_decide_eq_true (NoDup (alpha2 <$> reg_regdb))). by vm_compute.
Qed.

(** ** Text *)

(** The channel numbers in a text, each ended by a blank. *)
Fixpoint read_numbers (cur : Z) (l : list Z) : list Z :=
  match l with
  | [] => []
  | b :: l =>
    if b =? 0 then [] else if b =? 32 then cur :: read_numbers 0 l else read_numbers (cur * 10 + (b - 48)) l
  end.

Lemma read_digit n cur l : 0 <= n < 10 -> read_numbers cur ((48 + n) :: l) = read_numbers (cur * 10 + n) l.
Proof.
  intros Hn. cbn [read_numbers]. rewrite (proj2 (Z.eqb_neq _ 0)), (proj2 (Z.eqb_neq _ 32)) by lia. f_equal. lia.
Qed.

Lemma dec_small n : 0 <= n < 1000 ->
  dec n = (if n <? 10 then [48 + n] else if n <? 100 then [48 + n / 10; 48 + n mod 10]
           else [48 + n / 10 / 10; 48 + (n / 10) mod 10; 48 + n mod 10]).
Proof.
  intros Hn. unfold dec. rewrite (proj2 (Z.ltb_ge _ _)) by lia. cbn [digits].
  destruct (Z.ltb_spec n 10); [done |]. pose proof (Z.div_mod n 10 ltac:(lia)) as E. pose proof (Z.mod_pos_bound n 10 ltac:(lia)).
  pose proof (Z.div_mod (n / 10) 10 ltac:(lia)). pose proof (Z.mod_pos_bound (n / 10) 10 ltac:(lia)).
  destruct (Z.ltb_spec n 100).
  - by rewrite (proj2 (Z.ltb_lt (n / 10) 10)) by lia.
  - rewrite (proj2 (Z.ltb_ge (n / 10) 10)), (proj2 (Z.ltb_lt (n / 10 / 10) 10)) by lia. done.
Qed.

Lemma dec_length n : 0 <= n < 1000 -> (1 <= length (dec n) <= 3)%nat.
Proof. intros Hn. rewrite dec_small by done. destruct (n <? 10), (n <? 100); simpl; lia. Qed.

Lemma read_dec n l : 0 <= n < 1000 -> read_numbers 0 (dec n ++ 32 :: l) = n :: read_numbers 0 l.
Proof.
  intros Hn. rewrite dec_small by done. pose proof (Z.div_mod n 10 ltac:(lia)). pose proof (Z.mod_pos_bound n 10 ltac:(lia)).
  pose proof (Z.div_mod (n / 10) 10 ltac:(lia)). pose proof (Z.mod_pos_bound (n / 10) 10 ltac:(lia)).
  destruct (Z.ltb_spec n 10); [| destruct (Z.ltb_spec n 100)]; cbn [app]; rewrite !read_digit by lia;
    cbn [read_numbers Z.eqb Pos.eqb]; f_equal; lia.
Qed.

Lemma dec_nonempty n : (1 <= length (dec n))%nat.
Proof. unfold dec. cbn [digits]. repeat case_match; rewrite ?length_app; simpl; lia. Qed.

(** ** Listing the channels *)

(** A domain allows a channel. *)
Definition allows (d : regdomain) (f : Z) : bool := existsb (in_rule f) (take (Z.to_nat (n_reg_rules d)) (reg_rules d)).

(** The channels of a band that are enabled, and those of all bands. *)
Definition enabled (b : option sband) : list Z :=
  match b with Some b => take (Z.to_nat (n_channels b)) (channels b) | None => [] end.
Definition allowed (d : regdomain) (l : list (option sband)) : list Z := filter (fun f => allows d f) (l ≫= enabled).

Lemma rule_loop_spec n rules f :
  (n <= length rules)%nat -> rule_loop n rules f = Ok (existsb (in_rule f) (take n rules)).
Proof.
  revert rules. induction n as [|n IH]; intros rules Hn; [done |]. destruct rules as [|r rules]; [simpl in Hn; lia |].
  cbn [rule_loop take existsb]. rewrite IH by (simpl in Hn; lia). by destruct (in_rule f r).
Qed.

Section Listing.
Context (chan_of : Z -> Z).

Definition printed (l : list Z) : list Z := l ≫= (fun f => dec (chan_of f) ++ [32]).

(** [p] is printed, and nothing else. *)
Definition listed (p : list Z) (s : regs) : Prop :=
  ccode_channels s = p ++ replicate (200 - length p) 0 /\ index_for_channel_list s = length p /\ (length p <= 200)%nat.

(** Nothing but the text and its length changes. *)
Definition untouched (s s' : regs) : Prop :=
  custregd s' = custregd s /\ custchan s' = custchan s /\ bands s' = bands s /\ country_code s' = country_code s.

#[local] Instance untouched_preorder : PreOrder untouched.
Proof. split; [by intros s | intros s1 s2 s3 (E1 & E2 & E3 & E4) (F1 & F2 & F3 & F4); repeat split; congruence]. Qed.

Lemma printed_app l l' : printed (l ++ l') = printed l ++ printed l'.
Proof. apply bind_app. Qed.

Lemma printed_length l : Forall (fun f => 0 <= chan_of f < 1000) l -> (length (printed l) <= 4 * length l)%nat.
Proof.
  induction 1 as [|f l Hf _ IH]; [done |]. unfold printed in *. cbn [mbind list_bind]. rewrite length_app, length_app.
  pose proof (dec_length _ Hf). simpl length. simpl in IH. lia.
Qed.

Lemma read_printed l : Forall (fun f => 0 <= chan_of f < 1000) l -> forall k,
  read_numbers 0 (printed l ++ replicate k 0) = chan_of <$> l.
Proof.
  induction 1 as [|f l Hf _ IH]; intros k; [by destruct k |]. unfold printed. cbn [mbind list_bind fmap list_fmap].
  rewrite <- !app_assoc. cbn [app]. rewrite read_dec by done. f_equal. apply IH.
Qed.

Lemma splice_over {A} (buf : list A) i src : (length buf < i + length src)%nat -> splice buf i src = Fault.
Proof. intros H. unfold splice. by rewrite (proj2 (Nat.leb_gt _ _)). Qed.

(** The text after [p'] is printed, if there is room. *)
Definition prints (p' : list Z) (s : regs) (r : res regs) : Prop :=
  if (length p' <=? 200)%nat then exists s', r = Ok s' /\ listed p' s' /\ untouched s s' else r = Fault.

Lemma prints_bind p p' s r k : prints p s r -> (length p <= length p')%nat ->
  (forall s', listed p s' -> prints p' s' (k s')) -> prints p' s (r ≫= k).
Proof.
  unfold prints. intros Hr Hp Hk. destruct (Nat.leb_spec (length p) 200); [| by rewrite Hr, (proj2 (Nat.leb_gt _ _)) by lia].
  destruct Hr as (s1 & -> & H1 & U1). cbn [mbind res_bind]. specialize (Hk s1 H1). destruct (_ <=? 200)%nat; [| done].
  destruct Hk as (s2 & -> & H2 & U2). exists s2. split; [done |]. split; [done | by transitivity s1].
Qed.

Lemma prints_ok p s : listed p s -> prints p s (Ok s).
Proof. intros H. unfold prints. rewrite (proj2 (Nat.leb_le _ _)) by apply H. by exists s. Qed.

Lemma print_channel_spec f p s :
  0 <= chan_of f < 1000 -> listed p s -> prints (p ++ dec (chan_of f) ++ [32]) s (print_channel chan_of f s).
Proof.
  intros Hf (Ec & Ei & Hp). pose proof (dec_length _ Hf) as Hd. set (d := dec (chan_of f)) in *.
  assert (Hl : length (ccode_channels s) = 200%nat) by (rewrite Ec, length_app, length_replicate; lia).
  unfold prints, print_channel. fold d. rewrite (proj2 (Nat.leb_gt 4 _)) by lia. rewrite !length_app. cbn [length].
  destruct (Nat.leb_spec (length p + (length d + 1)) 200) as [H | H].
  - rewrite Ec, Ei.
    replace (replicate (200 - length p) 0) with (replicate (length d) 0 ++ replicate 1 0 ++ replicate (200 - length p - length d - 1) 0)
      by (rewrite <- !replicate_add; f_equal; lia).
    rewrite (splice_app p (replicate (length d) 0)) by (by rewrite length_replicate). cbn [mbind res_bind].
    rewrite (app_assoc p d), <- length_app, (splice_app (p ++ d) (replicate 1 0)) by done. cbn [mbind res_bind].
    eexists. split; [reflexivity |]. split; [| done]. split; cbn; rewrite ?app_assoc, ?length_app; [| split; simpl; lia].
    rewrite <- !app_assoc. do 4 f_equal. simpl. lia.
  - destruct (splice (ccode_channels s) _ d) as [b | |] eqn:E; [| done | unfold splice in E; by case_match].
    apply splice_length in E. cbn [mbind res_bind]. by rewrite splice_over by (simpl; lia).
Qed.

Lemma channel_loop_spec d l p s :
  (Z.to_nat (n_reg_rules d) <= length (reg_rules d))%nat ->
  Forall (fun f => 0 <= chan_of f < 1000) (filter (fun f => allows d f) l) -> listed p s ->
  prints (p ++ printed (filter (fun f => allows d f) l)) s (channel_loop chan_of d l s).
Proof.
  intros Hd. revert p s. induction l as [|f l IH]; intros p s Hl Hs; cbn [channel_loop].
  { rewrite app_nil_r. by apply prints_ok. }
  rewrite rule_loop_spec by lia. cbn [mbind res_bind]. fold (allows d f). destruct (allows d f) eqn:E.
  - rewrite filter_cons_True in * by by rewrite E. apply Forall_cons in Hl as [Hf Hl].
    unfold printed in *. cbn [mbind list_bind]. rewrite (app_assoc p).
    eapply prints_bind; [by apply print_channel_spec | rewrite !length_app; lia |]. intros s1 H1. by apply IH.
  - rewrite filter_cons_False in * by (rewrite E; tauto). cbn [mbind res_bind]. by apply IH.
Qed.

Lemma band_loop_spec d bs p s :
  (Z.to_nat (n_reg_rules d) <= length (reg_rules d))%nat ->
  Forall (fun b => forall b', b = Some b' -> n_channels b' <= Z.of_nat (length (channels b'))) bs ->
  Forall (fun f => 0 <= chan_of f < 1000) (allowed d bs) -> listed p s ->
  prints (p ++ printed (allowed d bs)) s (band_loop chan_of d bs s).
Proof.
  intros Hd Hb. revert p s. induction Hb as [|[b|] bs Hb _ IH]; intros p s Hf Hs; cbn [band_loop].
  - rewrite app_nil_r. by apply prints_ok.
  - unfold allowed in *. cbn [mbind list_bind enabled] in *. rewrite filter_app in *. apply Forall_app in Hf as [Hf1 Hf2].
    rewrite (proj2 (Z.ltb_ge _ _)) by by apply Hb. rewrite printed_app, app_assoc.
    eapply prints_bind; [by apply channel_loop_spec | rewrite !length_app; lia |]. intros s1 H1. by apply IH.
  - by apply IH.
Qed.

Lemma splice_inv {A} (buf : list A) i src b :
  splice buf i src = Ok b -> length b = length buf /\ (i + length src <= length buf)%nat.
Proof. intros H. split; [by apply splice_length in H |]. unfold splice in H. by destruct (Nat.leb_spec (i + length src) (length buf)). Qed.

(** Whatever the numbers of the channels are, each takes two bytes. *)
Definition grows (n : nat) (s : regs) (r : res regs) : Prop :=
  r = Fault \/ exists s', r = Ok s' /\ length (ccode_channels s') = 200%nat /\
    (index_for_channel_list s + 2 * n <= index_for_channel_list s' <= 200)%nat.

Lemma grows_bind n m s (r : res regs) k :
  grows n s r -> (forall s', length (ccode_channels s') = 200%nat -> (index_for_channel_list s' <= 200)%nat -> grows m s' (k s')) ->
  grows (n + m) s (r ≫= k).
Proof.
  intros [-> | (s1 & -> & L1 & B1)] Hk; [by left |]. cbn [mbind res_bind].
  destruct (Hk s1 L1 ltac:(lia)) as [-> | (s2 & -> & L2 & B2)]; [by left |]. right. exists s2. repeat split; [done | lia | lia].
Qed.

Lemma print_channel_grows f s : length (ccode_channels s) = 200%nat -> grows 1 s (print_channel chan_of f s).
Proof.
  intros L. unfold print_channel. pose proof (dec_nonempty (chan_of f)) as Hd. destruct (4 <=? _)%nat; [by left |].
  destruct (splice (ccode_channels s) _ _) as [a| |] eqn:Ea; cbn [mbind res_bind]; [| by left |].
  2: { unfold splice in Ea. by case_match. }
  apply splice_inv in Ea as [La Ba].
  destruct (splice a _ [32]) as [b| |] eqn:Eb; cbn [mbind res_bind]; [| by left |].
  2: { unfold splice in Eb. by case_match. }
  apply splice_inv in Eb as [Lb Bb]. right. eexists. split; [reflexivity |]. cbn in *. lia.
Qed.

Lemma channel_loop_grows d l s :
  (Z.to_nat (n_reg_rules d) <= length (reg_rules d))%nat -> length (ccode_channels s) = 200%nat ->
  (index_for_channel_list s <= 200)%nat ->
  grows (length (filter (fun f => allows d f) l)) s (channel_loop chan_of d l s).
Proof.
  intros Hd. revert s. induction l as [|f l IH]; intros s L B; cbn [channel_loop].
  { right. exists s. simpl. repeat split; [done | lia | lia]. }
  rewrite rule_loop_spec by done. cbn [mbind res_bind]. fold (allows d f). destruct (allows d f) eqn:E.
  - rewrite filter_cons_True by by rewrite E. cbn [length]. apply (grows_bind 1); [by apply print_channel_grows | by apply IH].
  - rewrite filter_cons_False by (rewrite E; tauto). by apply IH.
Qed.

Lemma band_loop_grows d bs s :
  (Z.to_nat (n_reg_rules d) <= length (reg_rules d))%nat -> length (ccode_channels s) = 200%nat ->
  (index_for_channel_list s <= 200)%nat -> grows (length (allowed d bs)) s (band_loop chan_of d bs s).
Proof.
  intros Hd. revert s. induction bs as [|[b|] bs IH]; intros s L B; cbn [band_loop]; [| | by apply IH].
  { right. exists s. simpl. repeat split; [done | lia | lia]. }
  destruct (Z.ltb _ _); [by left |]. unfold allowed. cbn [mbind list_bind enabled]. rewrite filter_app, length_app.
  apply grows_bind; [by apply channel_loop_grows |]. intros s' L' B'. by apply IH.
Qed.

(** ** Countries *)

Context (behind : option bool).

(** What the search finds, if it may read behind the table for a code that is
    not in it. *)
Definition found (a : list Z) : option regdomain := List.find (fun d => same_code d a) reg_regdb.
Definition readable (a : list Z) : Prop := found a <> None \/ behind <> None.

Lemma find_code_spec a k n : (k + n)%nat = length reg_regdb ->
  find_code behind (S n) (Z.of_nat k) a =
    match List.find (fun d => same_code d a) (drop k reg_regdb), behind with None, None => Fault | r, _ => Ok r end.
Proof.
  assert (Hs : length reg_regdb = 188%nat) by done.
  revert k. induction n as [|n IH]; intros k Hk; remember (S _) as fuel eqn:Ef in |- *; cbn [find_code]; subst fuel;
    cbn [find_code]; rewrite Nat2Z.id.
  - rewrite lookup_ge_None_2 by lia. rewrite drop_ge by lia. cbn [List.find].
    rewrite (proj2 (Z.eqb_eq _ _)), (proj2 (Z.ltb_ge _ _)) by (unfold reg_regdb_size; lia). by destruct behind as [[]|].
  - destruct (lookup_lt_is_Some_2 reg_regdb k ltac:(lia)) as [d Ed]. rewrite Ed.
    rewrite (proj2 (Z.ltb_lt _ _)) by (unfold reg_regdb_size; lia). rewrite (drop_S _ _ _ Ed). cbn [List.find].
    destruct (same_code d a); [done |].
    replace (u8 (Z.of_nat k + 1)) with (Z.of_nat (S k)) by (unfold u8; rewrite Z.mod_small; lia). apply IH. lia.
Qed.

(** What the kernel documents of the numbers of the channels. *)
Definition freq_numbers : Prop :=
  (forall f, 2407 <= f < 2484 -> chan_of f = (f - 2407) / 5) /\ chan_of 2484 = 14 /\
  (forall f, 5000 <= f < 5925 -> chan_of f = (f - 5000) / 5).

(** The bands of the driver, with or without the channels of custchan and
    those of 5 GHz; and those without the channels of custchan. *)
Definition driver_bands (bs : list (option sband)) : Prop := exists c g, bs = bands (set_custchan (init true c g)).
Definition plain_bands (bs : list (option sband)) : Prop := exists g, bs = bands (init true false g).

Definition known (f : Z) : bool := (2407 <=? f) && (f <=? 2484) || (5000 <=? f) && (f <? 5925).

Lemma known_number f : freq_numbers -> known f = true -> 0 <= chan_of f < 1000.
Proof.
  intros (N2 & N14 & N5). unfold known. rewrite orb_true_iff, !andb_true_iff, !Z.leb_le, Z.ltb_lt. intros [[? ?] | [? ?]].
  - destruct (decide (f = 2484)) as [-> |]; [rewrite N14; lia |]. rewrite N2 by lia.
    split; [apply Z.div_pos; lia | apply Z.div_lt_upper_bound; lia].
  - rewrite N5 by lia. split; [apply Z.div_pos; lia | apply Z.div_lt_upper_bound; lia].
Qed.

(** The numbers of the channels that are listed have at most three digits.  The
    kernel's versions differ on the frequencies of custchan. *)
Definition short_numbers (d : regdomain) (bs : list (option sband)) : Prop :=
  Forall (fun f => 0 <= chan_of f < 1000) (allowed d bs).

Lemma plain_numbers bs d : freq_numbers -> plain_bands bs -> short_numbers d bs.
Proof.
  intros Hn [g ->]. assert (H : forallb known (bands (init true false g) ≫= enabled) = true) by (destruct g; by vm_compute).
  rewrite forallb_forall in H. apply Forall_filter, Forall_forall. intros f Hf%list_elem_of_In.
  apply known_number; [done | by apply H].
Qed.

Lemma channels_listed d s :
  (Z.to_nat (n_reg_rules d) <= length (reg_rules d))%nat -> driver_bands (bands s) -> short_numbers d (bands s) ->
  prints (printed (allowed d (bands s))) s (rwnx_get_countrycode_channels chan_of d s).
Proof.
  intros Hd Hb Hn. unfold rwnx_get_countrycode_channels.
  pose proof (band_loop_spec d (bands s) [] (s <| ccode_channels := replicate 200 0 |> <| index_for_channel_list := 0%nat |>)) as H.
  apply H; [done | | done | by repeat split; simpl; lia].
  destruct Hb as ([] & [] & ->); repeat constructor; by intros b [= <-].
Qed.

(** Without the channels of custchan the text is short enough. *)
Lemma plain_fits d bs : freq_numbers -> plain_bands bs -> (length (printed (allowed d bs)) <= 200)%nat.
Proof.
  intros Hf Hp. pose proof (printed_length _ (plain_numbers bs d Hf Hp)). destruct Hp as [g ->]. unfold allowed in *.
  pose proof (length_filter (fun f => allows d f) (bands (init true false g) ≫= enabled)).
  assert (length (bands (init true false g) ≫= enabled) <= 39)%nat by (destruct g; vm_compute; lia). lia.
Qed.

Lemma db_rules d : d ∈ reg_regdb -> (Z.to_nat (n_reg_rules d) <= length (reg_rules d))%nat.
Proof.
  assert (H : forallb (fun d => n_reg_rules d <=? Z.of_nat (length (reg_rules d))) reg_regdb = true) by by vm_compute.
  rewrite forallb_forall in H. intros Hd%list_elem_of_In. apply H, Z.leb_le in Hd. lia.
Qed.

(** The domain of a code, the world domain where there is none, and the code
    that is noted. *)
Definition domain_of (a : list Z) : regdomain := default regdom_00 (found a).
Definition noted (a : list Z) : list Z :=
  match found a with Some _ => [ch a 0; ch a 1; 0; 0] | None => default_ccode end.

Lemma domain_in a : domain_of a ∈ reg_regdb.
Proof.
  unfold domain_of, found. destruct (List.find _ _) as [d|] eqn:E; [by apply find_some in E as [E%list_elem_of_In _] |].
  cbn. apply list_elem_of_here.
Qed.

Lemma get_domain a s : readable a ->
  getRegdomainFromRwnxDB chan_of behind a s =
  s ← rwnx_get_countrycode_channels chan_of (domain_of a) (s <| country_code := noted a |>); Ok (domain_of a, s).
Proof.
  intros Hr. unfold getRegdomainFromRwnxDB. change 0 with (Z.of_nat 0) at 2. rewrite (find_code_spec a 0) by done.
  rewrite drop_0. unfold readable, domain_of, noted in *. fold (found a). destruct (found a) as [d|]; [done |].
  destruct behind; [done |]. by destruct Hr.
Qed.

Lemma get_domain_outside a s : found a = None -> behind = None -> getRegdomainFromRwnxDB chan_of behind a s = Fault.
Proof.
  intros Hf Hb. unfold getRegdomainFromRwnxDB. change 0 with (Z.of_nat 0) at 2. rewrite (find_code_spec a 0) by done.
  rewrite drop_0. fold (found a). by rewrite Hf, Hb.
Qed.

End Listing.

(** C29. With custregd, the bands the driver announces (with or without the channels of
    custchan and those of 5 GHz) the numbers the kernel documents for the channels of
    the standard frequencies and at most three digits for the others that are listed,
    setting any country code gives the domain of that code or the world domain, notes
    the code and writes a text for user space that names exactly the channels of the
    bands that lie in a rule of the domain, in order, if this text fits in its 200
    bytes; if it does not, the array is overrun. It always fits without the channels of
    custchan. For a code that no domain has the search reads the word behind the table:
    if that access traps there is no result, otherwise its value does not matter. *)
Theorem country_lookup chan_of behind a s :
  freq_numbers chan_of -> custregd s = true -> driver_bands (bands s) ->
  plain_bands (bands s) \/ short_numbers chan_of (domain_of a) (bands s) ->
  let text := printed chan_of (allowed (domain_of a) (bands s)) in
  (found a = None -> behind = None -> set_country chan_of behind a s = Fault) /\
  (readable behind a -> (length text <= 200)%nat ->
    exists s', set_country chan_of behind a s = Ok (Some (domain_of a), s') /\ country_code s' = noted a /\ bands s' = bands s /\
      read_numbers 0 (ccode_channels s') = chan_of <$> allowed (domain_of a) (bands s)) /\
  (readable behind a -> (200 < length text)%nat -> set_country chan_of behind a s = Fault) /\
  (plain_bands (bands s) -> (length text <= 200)%nat).
Proof.
  intros Hf Hr Hb Hn text. unfold set_country. rewrite Hr. split; [intros; by rewrite get_domain_outside |].
  assert (Hs : short_numbers chan_of (domain_of a) (bands s)) by (destruct Hn; [by apply plain_numbers | done]).
  assert (Hg : readable behind a -> exists s0, bands s0 = bands s /\ country_code s0 = noted a /\
    prints text s0 (rwnx_get_countrycode_channels chan_of (domain_of a) s0) /\
    getRegdomainFromRwnxDB chan_of behind a s = s' ← rwnx_get_countrycode_channels chan_of (domain_of a) s0; Ok (domain_of a, s')).
  { intros Ha. set (s0 := s <| country_code := noted a |>). exists s0. split; [done |]. split; [done |].
    split; [exact (channels_listed chan_of (domain_of a) s0 (db_rules _ (domain_in a)) Hb Hs) | exact (get_domain chan_of behind a s Ha)]. }
  split; [| split].
  - intros Ha Hl. destruct (Hg Ha) as (s0 & E1 & E2 & H & ->). unfold prints in H. rewrite (proj2 (Nat.leb_le _ _) Hl) in H.
    destruct H as (s' & -> & (Ec & _ & _) & _ & _ & E3 & E4). cbn [mbind res_bind]. exists s'.
    repeat split; [congruence | congruence |]. rewrite Ec. by apply read_printed.
  - intros Ha Hl. destruct (Hg Ha) as (s0 & _ & _ & H & ->). unfold prints in H. rewrite (proj2 (Nat.leb_gt _ _) Hl) in H. by rewrite H.
  - by apply plain_fits.
Qed.

(** With the module parameter custchan and a chip for both bands, the registration
    of the wiphy writes beyond the 200 bytes of the channel text, whatever numbers the
    channels have. *)
Theorem custchan_overflows chan_of behind : rwnx_custregd chan_of behind (set_custchan (init true true true)) = Fault.
Proof.
  unfold rwnx_custregd. cbn [custregd set_custchan init andb]. rewrite get_domain by (left; by vm_compute).
  destruct (band_loop_grows chan_of (domain_of default_ccode) (bands (set_custchan (init true true true)))
    ((set_custchan (init true true true)) <| country_code := noted default_ccode |>
       <| ccode_channels := replicate 200 0 |> <| index_for_channel_list := 0%nat |>)) as [E | (s' & E & _ & B)].
  - by apply db_rules, domain_in.
  - done.
  - simpl. lia.
  - unfold rwnx_get_countrycode_channels. cbn in E |- *. by rewrite E.
  - exfalso. revert B. generalize (index_for_channel_list s'). vm_compute. lia.
Qed.

(** ** A concrete country *)

Module Example.

Definition chan_of (f : Z) : Z :=
  if f =? 2484 then 14 else if f <? 2484 then (f - 2407) / 5 else (f - 5000) / 5.

Lemma chan_of_numbers : freq_numbers chan_of.
Proof.
  unfold chan_of. repeat split; intros f Hf.
  - by rewrite (proj2 (Z.eqb_neq _ _)), (proj2 (Z.ltb_lt _ _)) by lia.
  - by rewrite (proj2 (Z.eqb_neq _ _)), (proj2 (Z.ltb_ge _ _)) by lia.
Qed.

Definition s0 : regs := init true false true.
Definition s1 : regs := set_custchan (init true true true).

(** Germany has the channels 1 to 13 and those of 5 GHz, and no code is
    written that way: the world domain. *)
Lemma s1_numbers : short_numbers chan_of (domain_of (text "DE")) (bands s1).
Proof.
  assert (H : forallb (fun f => (0 <=? chan_of f) && (chan_of f <? 1000)) (allowed (domain_of (text "DE")) (bands s1)) = true) by by vm_compute.
  rewrite forallb_forall in H. apply Forall_forall. intros f Hf%list_elem_of_In. apply H in Hf. lia.
Qed.

Lemma country_lookup_witness :
  (alpha2 (domain_of (text "DE")) = "DE"%string /\ alpha2 (domain_of (text "??")) = "00"%string /\
   take 16 (chan_of <$> allowed (domain_of (text "DE")) (bands s0)) = [1; 2; 3; 4; 5; 6; 7; 8; 9; 10; 11; 12; 13; 36; 40; 44]) /\
  (exists s', set_country chan_of None (text "DE") s0 = Ok (Some (domain_of (text "DE")), s') /\ country_code s' = noted (text "DE") /\
    bands s' = bands s0 /\ read_numbers 0 (ccode_channels s') = chan_of <$> allowed (domain_of (text "DE")) (bands s0)) /\
  (exists s', set_country chan_of (Some true) (text "??") s0 = Ok (Some regdom_00, s')) /\
  set_country chan_of None (text "DE") s1 = Fault.
Proof.
  split; [by vm_compute |].
  assert (Hb : driver_bands (bands s0)) by (by exists false, true).
  destruct (country_lookup chan_of None (text "DE") s0 chan_of_numbers eq_refl Hb ltac:(left; by exists true)) as (_ & H1 & _ & Hp).
  destruct (country_lookup chan_of (Some true) (text "??") s0 chan_of_numbers eq_refl Hb ltac:(left; by exists true)) as (_ & H2 & _ & Hq).
  destruct (country_lookup chan_of None (text "DE") s1 chan_of_numbers eq_refl) as (_ & _ & H3 & _); [by exists true, true | right; exact s1_numbers |].
  split; [apply H1; [left; by vm_compute | apply Hp; by exists true] |].
  split; [| apply H3; [left; by vm_compute | vm_compute; lia]].
  destruct H2 as (s' & E & _); [by right | apply Hq; by exists true |]. exists s'. exact E.
Defined.

End Example.

End RegRuns.
