(* ===== verification/State.v ===== *)
(** * Computations on a state

    [ST S A]: a function of the state [S] that ends with a result and a new
    state, or with a [Fault].  [triple pre m post] says that [post] holds
    whenever [m] ends normally from a state with [pre]; [keeps I m] that [m]
    keeps an invariant. *)

From S2P Require Import Prelude.
From stdpp Require Import list.
Open Scope Z_scope.

Definition ST (S A : Type) : Type := S -> res (A * S).

Section ST.
Context {S : Type}.

#[export] Instance ST_ret : MRet (ST S) := fun A a s => Ok (a, s).
#[export] Instance ST_bind : MBind (ST S) := fun A B f m s => '(a, s) ← m s; f a s.

Definition get : ST S S := fun s => Ok (s, s).
Definition modify (f : S -> S) : ST S unit := fun s => Ok (tt, f s).
Definition fault {A} : ST S A := fun _ => Fault.

(** A pointer or an index that has to be good. *)
Definition unwrap {A} (o : option A) : ST S A := match o with Some a => mret a | None => fault end.

(** One after the other. *)
Fixpoint for_each {A} (f : A -> ST S unit) (l : list A) : ST S unit :=
  match l with [] => mret tt | x :: l => _ ← f x; for_each f l end.

(** ** Rules *)

Definition triple {A} (pre : S -> Prop) (m : ST S A) (post : A -> S -> Prop) : Prop :=
  forall s a s', pre s -> m s = Ok (a, s') -> post a s'.
Definition keeps {A} (I : S -> Prop) (m : ST S A) : Prop := triple I m (fun _ => I).

Lemma bind_ST_inv {A B} (m : ST S A) (f : A -> ST S B) s r :
  (m ≫= f) s = Ok r -> exists a s', m s = Ok (a, s') /\ f a s' = Ok r.
Proof. unfold mbind at 1, ST_bind. intros H. apply bind_Ok in H as ([a s'] & H1 & H2). eauto. Qed.

Lemma bind_ST_ok {A B} (m : ST S A) (f : A -> ST S B) s a s' : m s = Ok (a, s') -> (m ≫= f) s = f a s'.
Proof. intros H. unfold mbind, ST_bind. by rewrite H. Qed.

Lemma triple_ret {A} (a : A) (Q : A -> S -> Prop) : triple (Q a) (mret a) Q.
Proof. by intros s x s' H [= <- <-]. Qed.

Lemma triple_bind {A B} (m : ST S A) (f : A -> ST S B) Pre Mid Post :
  triple Pre m Mid -> (forall a, triple (Mid a) (f a) Post) -> triple Pre (m ≫= f) Post.
Proof. intros Hm Hf s b s' Hp H. apply bind_ST_inv in H as (a & s1 & H1 & H2). by eapply Hf, H2; eapply Hm. Qed.

Lemma triple_weaken {A} (m : ST S A) (Pre Pre' : S -> Prop) (Post Post' : A -> S -> Prop) :
  triple Pre m Post -> (forall s, Pre' s -> Pre s) -> (forall a s, Post a s -> Post' a s) -> triple Pre' m Post'.
Proof. intros H H1 H2 s a s' Hp E. apply H2. by eapply H; [apply H1 |]. Qed.

Lemma triple_get_bind {B} (f : S -> ST S B) Pre Post :
  (forall s, Pre s -> triple (eq s) (f s) Post) -> triple Pre (get ≫= f) Post.
Proof. intros H s b s' Hp E. apply bind_ST_inv in E as (? & ? & [= <- <-] & E). by eapply H. Qed.

Lemma keeps_ret {A} I (a : A) : keeps I (mret a).
Proof. by intros s x s' H [= <- <-]. Qed.

Lemma keeps_bind {A B} I (m : ST S A) (f : A -> ST S B) : keeps I m -> (forall a, keeps I (f a)) -> keeps I (m ≫= f).
Proof. intros Hm Hf. by apply (triple_bind _ _ _ (fun _ => I)). Qed.

Lemma keeps_get I : keeps I get.
Proof. by intros s a s' H [= <- <-]. Qed.

Lemma keeps_fault {A} I : keeps I (@fault A).
Proof. by intros s a s' H E. Qed.

Lemma keeps_unwrap {A} I (o : option A) : keeps I (unwrap o).
Proof. destruct o; [apply keeps_ret | apply keeps_fault]. Qed.

Lemma keeps_modify I f : (forall s, I s -> I (f s)) -> keeps I (modify f).
Proof. intros H s a s' Hs [= _ <-]. by apply H. Qed.

Lemma keeps_for_each {A} I (f : A -> ST S unit) l : (forall x, keeps I (f x)) -> keeps I (for_each f l).
Proof. intros Hf. induction l; [apply keeps_ret |]. cbn. by apply keeps_bind. Qed.

(** [m] ends normally, and then [Q] holds. *)
Definition ends {A} (m : ST S A) (s : S) (Q : A -> S -> Prop) : Prop := exists a s', m s = Ok (a, s') /\ Q a s'.

Lemma ends_ret {A} (a : A) s (Q : A -> S -> Prop) : Q a s -> ends (mret a) s Q.
Proof. intros H. by exists a, s. Qed.

Lemma ends_get s (Q : S -> S -> Prop) : Q s s -> ends get s Q.
Proof. intros H. by exists s, s. Qed.

Lemma ends_modify f s (Q : unit -> S -> Prop) : Q tt (f s) -> ends (modify f) s Q.
Proof. intros H. by exists tt, (f s). Qed.

Lemma ends_unwrap {A} (o : option A) a s (Q : A -> S -> Prop) : o = Some a -> Q a s -> ends (unwrap o) s Q.
Proof. intros -> H. by exists a, s. Qed.

Lemma ends_bind {A B} (m : ST S A) (f : A -> ST S B) s (R : A -> S -> Prop) Q :
  ends m s R -> (forall a s', R a s' -> ends (f a) s' Q) -> ends (m ≫= f) s Q.
Proof. intros (a & s' & E & H) Hf. destruct (Hf _ _ H) as (b & s'' & E' & H'). exists b, s''. by rewrite (bind_ST_ok _ _ _ _ _ E). Qed.

Lemma ends_post {A} (m : ST S A) s (R Q : A -> S -> Prop) : ends m s R -> (forall a s', R a s' -> Q a s') -> ends m s Q.
Proof. intros (a & s' & E & H) HQ. exists a, s'. auto. Qed.

Lemma ends_then {A B} (m : ST S A) (f : A -> ST S B) s Q :
  ends m s (fun a s' => ends (f a) s' Q) -> ends (m ≫= f) s Q.
Proof. intros H. by apply (ends_bind _ _ _ _ _ H). Qed.

Lemma unwrap_Ok {A} (o : option A) s a s' : unwrap o s = Ok (a, s') -> o = Some a /\ s' = s.
Proof. destruct o; [by intros [= -> ->] | done]. Qed.

(** Partial correctness, and never out of fuel. *)
Definition safe {A} (pre : S -> Prop) (m : ST S A) (post : A -> S -> Prop) : Prop :=
  forall s, pre s -> match m s with Ok (a, s') => post a s' | Fault => True | NoFuel => False end.
Definition steady {A} (I : S -> Prop) (m : ST S A) : Prop := safe I m (fun _ => I).

Lemma safe_bind {A B} (m : ST S A) (f : A -> ST S B) Pre Mid Post :
  safe Pre m Mid -> (forall a, safe (Mid a) (f a) Post) -> safe Pre (m ≫= f) Post.
Proof.
  intros Hm Hf s Hs. specialize (Hm s Hs). unfold mbind, ST_bind. destruct (m s) as [[a s'] | |]; cbn; [by apply Hf | done | done].
Qed.

Lemma safe_ret {A} (a : A) (Q : A -> S -> Prop) : safe (Q a) (mret a) Q.
Proof. by intros s H. Qed.

Lemma safe_get (P : S -> Prop) : safe P get (fun a s => P s /\ a = s).
Proof. by intros s H. Qed.

Lemma safe_modify P f (Q : unit -> S -> Prop) : (forall s, P s -> Q tt (f s)) -> safe P (modify f) Q.
Proof. intros H s Hs. by apply H. Qed.

Lemma safe_unwrap {A} P (o : option A) : safe P (unwrap o) (fun a s => P s /\ o = Some a).
Proof. intros s Hs. by destruct o. Qed.

Lemma safe_fault {A} P (Q : A -> S -> Prop) : safe P fault Q.
Proof. by intros s Hs. Qed.

Lemma safe_weaken {A} (m : ST S A) (P P' : S -> Prop) (Q Q' : A -> S -> Prop) :
  safe P m Q -> (forall s, P' s -> P s) -> (forall a s, Q a s -> Q' a s) -> safe P' m Q'.
Proof. intros H H1 H2 s Hs. specialize (H s (H1 _ Hs)). destruct (m s) as [[a s'] | |]; auto. Qed.

Lemma steady_bind {A B} I (m : ST S A) (f : A -> ST S B) : steady I m -> (forall a, steady I (f a)) -> steady I (m ≫= f).
Proof. intros Hm Hf. by apply (safe_bind _ _ _ (fun _ => I)). Qed.

Lemma steady_modify I f : (forall s, I s -> I (f s)) -> steady I (modify f).
Proof. intros H. by apply safe_modify. Qed.

Lemma steady_for_each {A} I (f : A -> ST S unit) l : (forall x, steady I (f x)) -> steady I (for_each f l).
Proof. intros Hf. induction l; [by intros s Hs |]. cbn. by apply steady_bind. Qed.

Lemma steady_unwrap {A} I (o : option A) : steady I (unwrap o).
Proof. intros s Hs. by destruct o. Qed.

End ST.

(** Open one bind of a computation that ended. *)
Ltac st_bind H := let E := fresh "E" in apply bind_ST_inv in H as (? & ? & E & H).

(** [keeps] goes through the structure of a computation; what remains are its
    basic steps, which the tactic [base] is tried on. *)
Ltac keep_steps base :=
  repeat (intros;
    match goal with
    | |- keeps _ (mbind _ _) => apply keeps_bind
    | |- keeps _ (mret _) => apply keeps_ret
    | |- keeps _ get => apply keeps_get
    | |- keeps _ fault => apply keeps_fault
    | |- keeps _ (unwrap _) => apply keeps_unwrap
    | |- keeps _ (for_each _ _) => apply keeps_for_each
    | |- keeps _ (if ?b then _ else _) => destruct b
    | |- keeps _ (match ?x with _ => _ end) => destruct x
    | |- _ => base
    end).

(** The same for [steady]. *)
Ltac steady_steps base :=
  repeat (intros;
    match goal with
    | |- steady _ (mbind _ _) => apply steady_bind
    | |- steady _ (mret _) => (by intros ? ?)
    | |- steady _ get => by intros ? ?
    | |- steady _ fault => apply safe_fault
    | |- steady _ (unwrap _) => apply steady_unwrap
    | |- steady _ (for_each _ _) => apply steady_for_each
    | |- steady _ (if ?b then _ else _) => destruct b
    | |- steady _ (match ?x with _ => _ end) => destruct x
    | |- _ => base
    end).
