(* ===== verification/Vif.v ===== *)
(** * Virtual interfaces: state, channel contexts and indications (rwnx_defs.h, rwnx_main.c, rwnx_msg_rx.c)

    The objects behind the net devices ([struct rwnx_vif]), the tables that the
    firmware's indices lead into ([vif_table], [sta_table], [chanctx_table]),
    and what the driver does with the indications of the firmware.  The
    operations that user space starts are in [VifOps].

    The transmit queues, the reordering and radar detection have components of
    their own ([Txq], [RxReorder], [Radar]); calls of them, of cfg80211 and
    messages to the firmware are events in [log].  A NULL pointer that is
    followed, an index beyond a table and the use of memory that was freed are
    [fault]s, and so is the access to the member of the union of [rwnx_vif]
    that does not belong to the type of the interface. *)

From S2P Require Import Prelude State.
From stdpp Require Import list gmap.
Open Scope Z_scope.
Open Scope list_scope.

Module Vif.

Definition NX_VIRT_DEV_MAX : Z := 4.
Definition NX_REMOTE_STA_MAX : Z := 32.
Definition NX_CHAN_CTXT_CNT : Z := 3.
Definition RWNX_CH_NOT_SET : Z := 0xFF.
Definition RWNX_INVALID_VIF : Z := 0xFF.
Definition RWNX_TXQ_STOP_CHAN : Z := 0x20.
Definition RWNX_TXQ_STOP_CSA : Z := 0x04.
Definition EPERM : Z := 1.
Definition ENOENT : Z := 2.
Definition EIO : Z := 5.
Definition ENOMEM : Z := 12.
Definition EBUSY : Z := 16.
Definition EINVAL : Z := 22.
Definition EPIPE : Z := 32.
Definition ENOBUFS : Z := 105.
Definition EALREADY : Z := 114.
Definition EINPROGRESS : Z := 115.
Definition CO_OK : Z := 0.
Definition CO_BUSY : Z := 8.
Definition CO_OP_IN_PROGRESS : Z := 9.
Definition WLAN_STATUS_UNSPECIFIED_FAILURE : Z := 1.
Definition WLAN_STATUS_NOT_SUPPORTED_AUTH_ALG : Z := 13.

(** ** Data *)

(** nl80211_iftype; [OTHER] stands for the types without a case. *)
Inductive iftype := STATION | AP | AP_VLAN | MONITOR | MESH_POINT | P2P_CLIENT | P2P_GO | P2P_DEVICE | OTHER.
(** rwnx_drv_connect_status *)
Inductive conn := DISCONNECTED | DISCONNECTING | CONNECTING | CONNECTED | ROAMING.
(** nl80211_auth_type; [OTHER_AUTH] stands for the types without a case. *)
Inductive authtype := OPEN_SYSTEM | SHARED_KEY | FT | SAE | AUTOMATIC | OTHER_AUTH.
#[export] Instance authtype_eq : EqDecision authtype.
Proof. solve_decision. Defined.
#[export] Instance iftype_eq : EqDecision iftype.
Proof. solve_decision. Defined.
#[export] Instance conn_eq : EqDecision conn.
Proof. solve_decision. Defined.

(** A station of the table; objects are named by their place. *)
Record sta := Sta {
  valid : bool; aid : Z; sta_idx : Z; s_vif_idx : Z; vlan_idx : Z; s_ch_idx : Z; qos : bool;
  mac_addr : list Z; ps_active : bool; s_mesh_pm : Z; key_hw_idx : Z
}.
#[export] Instance eta_sta : Settable sta := fun s =>
  Sta s.(valid) s.(aid) s.(sta_idx) s.(s_vif_idx) s.(vlan_idx) s.(s_ch_idx) s.(qos) s.(mac_addr) s.(ps_active) s.(s_mesh_pm)
    s.(key_hw_idx).

(** The members of the union of rwnx_vif. *)
Record sta_arm := StaArm {
  ap : option nat; external_auth : bool; is_roam : bool; group_cipher_type : Z; paired_cipher_type : Z
}.
#[export] Instance eta_sta_arm : Settable sta_arm := fun a =>
  StaArm a.(ap) a.(external_auth) a.(is_roam) a.(group_cipher_type) a.(paired_cipher_type).
Record ap_arm := ApArm { sta_list : list nat; bcmc_index : Z; mesh_pm : Z; next_mesh_pm : Z }.
#[export] Instance eta_ap_arm : Settable ap_arm := fun a => ApArm a.(sta_list) a.(bcmc_index) a.(mesh_pm) a.(next_mesh_pm).
Inductive arm := ASta (a : sta_arm) | AAp (a : ap_arm) | AVlan (master : nat) (sta_4a : option nat) | ANone.

(** [netdev]: there is a net device; [iff_up]: the kernel has opened it. *)
Record vif := MkVif {
  wtype : iftype; drv_vif_index : Z; vif_index : Z; ch_index : Z; up : bool; use_4addr : bool; started : bool;
  drv_conn_state : conn; u : arm; is_p2p_vif : bool; roc_tdls : bool; wep_enabled : bool; wep_auth_err : bool;
  last_auth_type : authtype; keys : list Z; addr : list Z; netdev : bool; carrier : bool; iff_up : bool
}.
#[export] Instance eta_vif : Settable vif := fun v =>
  MkVif v.(wtype) v.(drv_vif_index) v.(vif_index) v.(ch_index) v.(up) v.(use_4addr) v.(started) v.(drv_conn_state)
    v.(u) v.(is_p2p_vif) v.(roc_tdls) v.(wep_enabled) v.(wep_auth_err) v.(last_auth_type) v.(keys) v.(addr)
    v.(netdev)
    v.(carrier) v.(iff_up).

(** A channel context; the channel by its frequency, [None] for NULL. *)
Record chanctx := Chanctx { chan : option Z; count : Z }.
#[export] Instance eta_chanctx : Settable chanctx := fun c => Chanctx c.(chan) c.(count).

Record roc := Roc { r_wdev : nat; mgmt_roc : bool; on_chan : bool }.

(** ** Messages and events *)

Inductive msg :=
| MM_START | MM_RESET | MM_RX_GAIN | COEX | ME_CONFIG | ME_CHAN_CONFIG
| MM_ADD_IF (type : iftype) (mac : list Z) | MM_REMOVE_IF (vif_idx : Z)
| ME_STA_ADD (mac : list Z) (vif_idx : Z) | ME_STA_DEL (sta_idx : Z)
| SM_CONNECT (vif_idx : Z) (reassociation : bool) | SM_DISCONNECT (vif_idx reason : Z)
| SM_EXTERNAL_AUTH_RSP (vif_idx status : Z)
| APM_SET_BEACON_IE (vif_idx : Z) | APM_START (vif_idx : Z) | APM_STOP (vif_idx : Z)
| SCANU_START (vif_idx : Z) | SCANU_VENDOR_IE (vif_idx : Z) | SCANU_CANCEL
| ME_CONFIG_MONITOR (chan : option Z)
| MM_KEY_ADD (vif_idx sta_idx key_idx cipher : Z) (pairwise : bool) (key : list Z) | MM_KEY_DEL (hw_key_idx : Z)
| ME_SET_CONTROL_PORT (authorized : bool) (sta_idx : Z) | MESH_PEER_UPDATE (vif_idx sta_idx state : Z)
| MESH_UPDATE (vif_idx pm : Z)
| MM_ROC (vif_idx : Z) | MM_CANCEL_ROC.

(** What a computation waits for: the confirmation of a message, the end of a
    sleep, the kernel's answer to a request for memory, for a net device or
    its registration. *)
Inductive req := Confirm (m : msg) | Sleep | Allocate | Register.

Inductive qstatus := QRunning | QStopChan | QOfVif (v : nat).

Inductive event :=
| Sent (m : msg) | Told (m : msg)
| ConnectResult (v : nat) (status : Z) | Disconnected (v : nat) | Roamed (v : nat) | UnlinkBss (v : nat)
| NewSta (v : nat) (mac : list Z) | DelSta (v : nat) (mac : list Z) | ScanDone (aborted : bool)
| ReadyOnChannel (v : nat) | RocExpired (v : nat)
| StaInit (i : nat) (st : qstatus) | StaDeinit (i : nat) | PsEnable (i : nat) (on : bool)
| VifInit (v : nat) (stopped : bool) | VifDeinit (v : nat) | VifStart (v : nat) (reason : Z) | VifStop (v : nat) (reason : Z)
| TdlsInit (v : nat) | TdlsDeinit (v : nat) | TdlsStart (v : nat) | UnkInit (v : nat) | UnkDeinit (v : nat)
| OffchanInit (v : nat) | OffchanStart | OffchanDeinit (v : nat)
| StaSwitchVif (i old new : nat)
| ReordDeinit (mac : list Z) | RadarEnableCur | RadarDisable | RadarCancelCac.

(** Indications of the firmware. *)
Record connect_info := ConnectInfo {
  c_vif : Z; c_status : Z; c_ap : Z; c_ch : Z; c_roamed : bool; c_qos : bool; c_aid : Z; c_bssid : list Z; c_freq : Z
}.
Inductive ind :=
| sm_connect_ind (c : connect_info)
| sm_disconnect_ind (vif_idx reason : Z) (ft_over_ds reassoc : bool)
| sm_external_auth_required_ind (vif_idx : Z) (accepted : bool)
| ps_change_ind (sta_idx : Z) (ps_state : bool)
| scanu_start_cfm
| channel_pre_switch_ind (ch : Z)
| channel_switch_ind (ch : Z) (roc roc_tdls : bool) (vif_idx : Z)
| remain_on_channel_exp_ind
| csa_finish_ind (vif_idx status ch : Z)
| csa_traffic_ind (vif_idx : Z) (enable : bool)
| apm_staloss_ind (mac : list Z) (vif_idx : Z).

(** rwnx_hw.  [store] are the interfaces that exist, by name; a name is never
    used again; [clock] counts what was waited for. *)
Record hw := Hw {
  store : gmap nat vif; next_vif : nat; vifs : list nat; vif_table : list (option nat); sta_table : list sta;
  chanctx_table : list chanctx; cur_chanctx : Z; monitor_vif : Z; avail_idx_map : Z; vif_started : Z;
  adding_sta : bool; is_p2p_alive : bool; is_p2p_connected : bool; p2p_dev_vif : option nat;
  p2p_alive_timer : bool; p2p_alive_timer_count : Z; scan_request : option nat; scanning : bool;
  roc_elem : option roc; roc_cookie_cnt : Z; apm_vif_idx : Z; sta_mac_addr : list Z; staloss_work : bool;
  key_flag : bool; perm_addr : list Z; bus_down : bool; testmode : bool; chip_dc : bool; clock : nat; log : list event
}.
#[export] Instance eta_hw : Settable hw := fun h =>
  Hw h.(store) h.(next_vif) h.(vifs) h.(vif_table) h.(sta_table) h.(chanctx_table) h.(cur_chanctx) h.(monitor_vif)
    h.(avail_idx_map) h.(vif_started) h.(adding_sta) h.(is_p2p_alive) h.(is_p2p_connected) h.(p2p_dev_vif)
    h.(p2p_alive_timer) h.(p2p_alive_timer_count) h.(scan_request) h.(scanning) h.(roc_elem) h.(roc_cookie_cnt)
    h.(apm_vif_idx) h.(sta_mac_addr) h.(staloss_work) h.(key_flag) h.(perm_addr) h.(bus_down) h.(testmode) h.(chip_dc)
    h.(clock) h.(log).

Definition no_sta : sta := Sta false 0 0 0 0 0 false (replicate 6 0) false 0 0.

(** rwnx_cfg80211_init before the first interfaces. *)
Definition init (mac : list Z) (dc : bool) : hw :=
  Hw ∅ 0 [] (replicate 36 None) (replicate 36 no_sta) (replicate 3 (Chanctx None 0)) 0 RWNX_INVALID_VIF
    (Z.ones 36) 0 false false false None false 0 None false None 1 0 (replicate 6 0) false false mac false false dc 0 [].

(** ** Access *)

Definition V (A : Type) : Type := ST hw A.

Definition emit (e : event) : V unit := modify (fun h => h <| log ::= (.++ [e]) |>).
Definition gvif (v : nat) : V vif := h ← get; unwrap (store h !! v).
Definition pvif (v : nat) (f : vif -> vif) : V unit :=
  _ ← gvif v; modify (fun h => h <| store ::= alter f v |>).
Definition table (i : Z) : V (option nat) := h ← get; unwrap (vif_table h !! Z.to_nat (u8 i)).
Definition set_table (i : Z) (o : option nat) : V unit :=
  _ ← table i; modify (fun h => h <| vif_table ::= <[Z.to_nat (u8 i) := o]> |>).
Definition gsta (i : nat) : V sta := h ← get; unwrap (sta_table h !! i).
Definition psta (i : nat) (f : sta -> sta) : V unit := _ ← gsta i; modify (fun h => h <| sta_table ::= alter f i |>).

(** The members of the union. *)
Definition asta (v : nat) : V sta_arm := o ← gvif v; match u o with ASta a => mret a | _ => fault end.
Definition pasta (v : nat) (f : sta_arm -> sta_arm) : V unit :=
  a ← asta v; pvif v (fun o => o <| u := ASta (f a) |>).
Definition aap (v : nat) : V ap_arm := o ← gvif v; match u o with AAp a => mret a | _ => fault end.
Definition paap (v : nat) (f : ap_arm -> ap_arm) : V unit :=
  a ← aap v; pvif v (fun o => o <| u := AAp (f a) |>).

(** The interface that list_for_each_entry finds by the index of the firmware. *)
Fixpoint first_with (i : Z) (l : list nat) : V (option nat) :=
  match l with
  | [] => mret None
  | v :: l => o ← gvif v; if vif_index o =? i then mret (Some v) else first_with i l
  end.
Definition look_for (i : Z) : V (option nat) := h ← get; first_with i (vifs h).

Definition is_client (t : iftype) : bool := bool_decide (t = STATION \/ t = P2P_CLIENT).
Definition is_ap (t : iftype) : bool := bool_decide (t = AP \/ t = P2P_GO).

Definition rwnx_set_conn_state (v : nat) (c : conn) : V unit := pvif v (fun o => o <| drv_conn_state := c |>).

(** ** Channel contexts *)

Definition rwnx_chanctx_link (v : nat) (ch_idx : Z) (chandef : option Z) : V unit :=
  let ch_idx := u8 ch_idx in
  if NX_CHAN_CTXT_CNT <=? ch_idx then mret tt else
  _ ← pvif v (fun o => o <| ch_index := ch_idx |>);
  modify (fun h => h <| chanctx_table ::= alter (fun c =>
    c <| count := u8 (count c + 1) |>
      <| chan := match chandef, chan c with Some f, None => Some f | _, o => o end |>) (Z.to_nat ch_idx) |>).

Definition rwnx_chanctx_unlink (v : nat) : V unit :=
  o ← gvif v;
  if ch_index o =? RWNX_CH_NOT_SET then mret tt else
  if NX_CHAN_CTXT_CNT <=? ch_index o then mret tt else
  h ← get;
  c ← unwrap (chanctx_table h !! Z.to_nat (ch_index o));
  let count' := if count c =? 0 then 0 else count c - 1 in
  _ ← (if (count' =? 0) && (ch_index o =? cur_chanctx h) then emit RadarDisable else mret tt);
  _ ← modify (fun h => h <| chanctx_table ::= <[Z.to_nat (ch_index o) :=
    Chanctx (if count' =? 0 then None else chan c) count']> |>);
  pvif v (fun o => o <| ch_index := RWNX_CH_NOT_SET |>).

Definition rwnx_chanctx_valid (h : hw) (ch_idx : Z) : bool :=
  negb (NX_CHAN_CTXT_CNT <=? ch_idx) &&
  match chanctx_table h !! Z.to_nat ch_idx with Some c => bool_decide (chan c <> None) | None => false end.

(** ** External authentication *)

Definition rwnx_external_auth_enable (v : nat) : V unit :=
  _ ← pasta v (fun a => a <| external_auth := true |>); emit (UnkInit v).

Definition rwnx_external_auth_disable (v : nat) : V unit :=
  a ← asta v;
  if negb (external_auth a) then mret tt else
  _ ← pasta v (fun a => a <| external_auth := false |>); emit (UnkDeinit v).

(** ** Indications *)

(** The part of rwnx_rx_sm_connect_ind for a connection that succeeded. *)
Definition connected (v : nat) (c : connect_info) : V unit :=
  let i := Z.to_nat (c_ap c) in
  _ ← psta i (fun s => s <| valid := true |> <| sta_idx := c_ap c |> <| s_ch_idx := c_ch c |> <| s_vif_idx := c_vif c |>
    <| vlan_idx := c_vif c |> <| qos := c_qos c |> <| ps_active := false |> <| aid := c_aid c |>);
  _ ← pasta v (fun a => a <| ap := Some i |>);
  _ ← rwnx_chanctx_link v (c_ch c) (Some (c_freq c));
  _ ← psta i (fun s => s <| mac_addr := c_bssid c |>);
  h ← get;
  _ ← emit (StaInit i (if c_ch c =? cur_chanctx h then QRunning else QStopChan));
  _ ← emit (TdlsInit v);
  _ ← pvif v (fun o => if wep_enabled o then o <| wep_auth_err := false |> else o);
  if monitor_vif h =? RWNX_INVALID_VIF then mret tt else
  mon ← table (monitor_vif h);
  mon ← unwrap mon;
  _ ← rwnx_chanctx_unlink mon;
  rwnx_chanctx_link mon (c_ch c) None.

(** What cfg80211 is told, and the state after it. *)
Definition connect_result (v : nat) (c : connect_info) : V unit :=
  if negb (c_roamed c) then
    _ ← emit (ConnectResult v (c_status c));
    if c_status c =? 0 then rwnx_set_conn_state v CONNECTED else
    o ← gvif v;
    _ ← (if bool_decide (drv_conn_state o = CONNECTED) then emit (Disconnected v) else mret tt);
    _ ← rwnx_set_conn_state v DISCONNECTED;
    rwnx_external_auth_disable v
  else if negb (c_status c =? 0) then
    _ ← emit (Disconnected v);
    _ ← rwnx_set_conn_state v DISCONNECTED;
    rwnx_external_auth_disable v
  else
    _ ← emit (Roamed v);
    rwnx_set_conn_state v CONNECTED.

Definition rwnx_rx_sm_connect_ind (c : connect_info) : V unit :=
  v ← table (c_vif c);
  v ← unwrap v;
  o ← gvif v;
  if negb (netdev o) then fault else
  _ ← (if c_status c =? 0 then connected v c else
       _ ← pvif v (fun o => if (c_status c =? WLAN_STATUS_NOT_SUPPORTED_AUTH_ALG) && wep_enabled o
                            then o <| wep_auth_err := true |> else o);
       rwnx_set_conn_state v DISCONNECTED);
  o ← gvif v;
  if (c_status c =? 0) && bool_decide (drv_conn_state o = DISCONNECTING)
  then pasta v (fun a => a <| is_roam := false |>) else
  _ ← connect_result v c;
  _ ← (if c_status c =? 0 then pvif v (fun o => o <| carrier := true |>) else mret tt);
  pasta v (fun a => a <| is_roam := false |>).

Definition rwnx_rx_sm_disconnect_ind (vif_idx reason : Z) (ft_over_ds reassoc : bool) : V unit :=
  v ← table vif_idx;
  v ← unwrap v;
  o ← gvif v;
  if bool_decide (drv_conn_state o = DISCONNECTED) then mret tt else
  a ← asta v;
  _ ← (if negb (is_roam a) then emit (UnlinkBss v) else mret tt);
  _ ← (if bool_decide (wtype o = P2P_CLIENT) then modify (fun h => h <| is_p2p_connected := false |>) else mret tt);
  _ ← (if up o then
         _ ← (if negb ft_over_ds && negb reassoc then emit (Disconnected v) else mret tt);
         if netdev o then pvif v (fun o => o <| carrier := false |>) else fault
       else mret tt);
  _ ← (if is_client (wtype o) then if netdev o then emit (ReordDeinit (addr o)) else fault
       else if is_ap (wtype o) then fault else mret tt);
  i ← unwrap (ap a);
  _ ← emit (StaDeinit i);
  _ ← emit (TdlsDeinit v);
  _ ← psta i (fun s => s <| valid := false |>);
  _ ← pasta v (fun a => a <| ap := None |>);
  _ ← rwnx_external_auth_disable v;
  _ ← rwnx_chanctx_unlink v;
  if negb (is_roam a) then rwnx_set_conn_state v DISCONNECTED else mret tt.

(** [accepted]: cfg80211_external_auth_request succeeded.  The answer to the
    firmware is waited for in vain: this is the thread that would receive its
    confirmation.  The delay while nobody owns the connection changes nothing. *)
Definition rwnx_rx_sm_external_auth_required_ind (vif_idx : Z) (accepted : bool) : V unit :=
  v ← table vif_idx;
  v ← unwrap v;
  o ← gvif v;
  if negb (netdev o) then fault else
  if (NX_VIRT_DEV_MAX <? vif_idx) || negb (up o) || negb (bool_decide (wtype o = STATION)) || negb accepted
  then emit (Told (SM_EXTERNAL_AUTH_RSP (vif_index o) WLAN_STATUS_UNSPECIFIED_FAILURE))
  else rwnx_external_auth_enable v.

Definition rwnx_ps_bh_enable (i : nat) (on : bool) : V unit :=
  _ ← psta i (fun s => s <| ps_active := on |>); emit (PsEnable i on).

Definition rwnx_rx_ps_change_ind (idx : Z) (ps_state : bool) : V unit :=
  if NX_REMOTE_STA_MAX + NX_VIRT_DEV_MAX <=? idx then mret tt else
  let i := Z.to_nat idx in
  s ← gsta i;
  h ← get;
  if valid s then rwnx_ps_bh_enable i ps_state else
  if adding_sta h then psta i (fun s => s <| ps_active := ps_state |>) else mret tt.

(** Without CONFIG_SCHED_SCAN. *)
Definition rwnx_rx_scanu_start_cfm : V unit :=
  h ← get;
  _ ← (if bool_decide (scan_request h = None) then mret tt else emit (ScanDone false));
  modify (fun h => h <| scan_request := None |> <| scanning := false |>).

(** For every interface that is up on a channel. *)
Definition on_channel (ch : Z) (e : nat -> event) : V unit :=
  h ← get;
  for_each (fun v => o ← gvif v; if up o && (ch_index o =? ch) then emit (e v) else mret tt) (vifs h).

Definition rwnx_rx_chan_pre_switch_ind (ch : Z) : V unit := on_channel ch (fun v => VifStop v RWNX_TXQ_STOP_CHAN).

Definition rwnx_rx_chan_switch_ind (ch : Z) (roc roc_tdls : bool) (vif_idx : Z) : V unit :=
  h ← get;
  _ ← (if roc_tdls then
         for_each (fun v => o ← gvif v;
           if vif_index o =? vif_idx then _ ← pvif v (fun o => o <| Vif.roc_tdls := true |>); emit (TdlsStart v)
           else mret tt) (vifs h)
       else if negb roc then on_channel ch (fun v => VifStart v RWNX_TXQ_STOP_CHAN)
       else
         _ ← match roc_elem h with
             | Some r =>
               _ ← (if negb (mgmt_roc r) then emit (ReadyOnChannel (r_wdev r)) else mret tt);
               modify (fun h => h <| roc_elem := Some (Roc (r_wdev r) (mgmt_roc r) true) |>)
             | None => mret tt
             end;
         emit OffchanStart);
  _ ← modify (fun h => h <| cur_chanctx := ch |>);
  emit RadarEnableCur.

Definition rwnx_rx_remain_on_channel_exp_ind : V unit :=
  h ← get;
  match roc_elem h with
  | None => mret tt
  | Some r =>
    _ ← (if negb (mgmt_roc r) && on_chan r then emit (RocExpired (r_wdev r)) else mret tt);
    _ ← emit (OffchanDeinit (r_wdev r));
    modify (fun h => h <| roc_cookie_cnt := if u32 (roc_cookie_cnt h + 1) =? 0 then 1 else u32 (roc_cookie_cnt h + 1) |>
                       <| roc_elem := None |>)
  end.

(** An interface of an access point waits for [rwnx_csa_finish], which is not
    modelled: without an announcement of its own there is nothing to do. *)
Definition rwnx_rx_csa_finish_ind (vif_idx status ch : Z) : V unit :=
  v ← look_for vif_idx;
  match v with
  | None => mret tt
  | Some v =>
    o ← gvif v;
    if is_ap (wtype o) || negb (status =? 0) then mret tt else
    _ ← rwnx_chanctx_unlink v;
    _ ← rwnx_chanctx_link v ch None;
    h ← get;
    if cur_chanctx h =? ch then _ ← emit RadarEnableCur; emit (VifStart v RWNX_TXQ_STOP_CHAN)
    else emit (VifStop v RWNX_TXQ_STOP_CHAN)
  end.

Definition rwnx_rx_csa_traffic_ind (vif_idx : Z) (enable : bool) : V unit :=
  v ← look_for vif_idx;
  match v with
  | None => mret tt
  | Some v => emit (if enable then VifStart v RWNX_TXQ_STOP_CSA else VifStop v RWNX_TXQ_STOP_CSA)
  end.

Definition rwnx_apm_staloss_ind (mac : list Z) (vif_idx : Z) : V unit :=
  modify (fun h => h <| sta_mac_addr := mac |> <| apm_vif_idx := vif_idx |> <| staloss_work := true |>).

(** The handlers of rwnx_rx_handle_msg. *)
Definition handle (i : ind) : V unit :=
  match i with
  | sm_connect_ind c => rwnx_rx_sm_connect_ind c
  | sm_disconnect_ind v r ft re => rwnx_rx_sm_disconnect_ind v r ft re
  | sm_external_auth_required_ind v acc => rwnx_rx_sm_external_auth_required_ind v acc
  | ps_change_ind s on => rwnx_rx_ps_change_ind s on
  | scanu_start_cfm => rwnx_rx_scanu_start_cfm
  | channel_pre_switch_ind ch => rwnx_rx_chan_pre_switch_ind ch
  | channel_switch_ind ch roc tdls v => rwnx_rx_chan_switch_ind ch roc tdls v
  | remain_on_channel_exp_ind => rwnx_rx_remain_on_channel_exp_ind
  | csa_finish_ind v st ch => rwnx_rx_csa_finish_ind v st ch
  | csa_traffic_ind v en => rwnx_rx_csa_traffic_ind v en
  | apm_staloss_ind mac v => rwnx_apm_staloss_ind mac v
  end.

End Vif.
