(* ===== verification/VifOps.v ===== *)
(** * Virtual interfaces: operations (rwnx_main.c, rwnx_msg_tx.c)

    What user space asks for through cfg80211 and the net device: adding,
    removing, changing, opening and closing interfaces, scans, connections,
    access points and their stations; and the work and the timer of the driver.

    The argument [env] gives what a request is answered with: whether the
    memory for it was there, the fields of the confirmation, and the
    indications that are handled while the caller waits.  [rwnx_send_msg]
    returns 0 in any case; when no confirmation arrives, the fields are what
    the variable of the caller happened to hold.  The kernel runs one of these
    operations at a time (RTNL and the mutex of the wiphy). *)

From S2P Require Import Prelude State Vif.
From stdpp Require Import list gmap.
Import Vif.
Open Scope Z_scope.
Open Scope list_scope.

Module VifOps.

(** The fields are those of the confirmations: [index] is inst_nbr, sta_idx or
    bcmc_idx, [ch] ch_idx or chan_index, [flag] pm_state, [freq] prim20_freq. *)
Record reply := Reply {
  allocated : bool; status : Z; index : Z; ch : Z; flag : bool; freq : Z; meanwhile : list ind
}.
Definition no_reply : reply := Reply false 0 0 0 false 0 [].

Section Ops.
Context (env : hw -> req -> reply).

(** ** Waiting *)

Definition wait (r : req) : V reply :=
  h ← get;
  let a := env h r in
  _ ← modify (fun h => h <| clock ::= S |>);
  _ ← for_each handle (meanwhile a);
  mret a.

(** A message with its confirmation: -ENOMEM or 0, and the fields. *)
Definition rwnx_send_msg (m : msg) : V (Z * reply) :=
  h ← get;
  if bus_down h then _ ← modify (fun h => h <| clock ::= S |>); mret (0, env h (Confirm m)) else
  _ ← emit (Sent m);
  a ← wait (Confirm m);
  mret (0, a).

Definition send (m : msg) : V (Z * reply) :=
  h ← get;
  let a := env h (Confirm m) in
  if negb (allocated a) then _ ← modify (fun h => h <| clock ::= S |>); mret (- ENOMEM, a) else rwnx_send_msg m.

Definition sleep : V unit := _ ← wait Sleep; mret tt.

(** rwnx_send_add_if and what all its callers make of the confirmation: the
    result of the request, and whether the interface was accepted. *)
Definition rwnx_send_add_if (v : nat) : V (Z * reply) :=
  o ← gvif v;
  if bool_decide (wtype o = AP_VLAN) then mret (-1, no_reply) else send (MM_ADD_IF (wtype o) (addr o)).

Definition rwnx_send_remove_if (vif_idx : Z) : V Z := r ← send (MM_REMOVE_IF vif_idx); mret r.1.

Definition rwnx_send_scanu_cancel_req : V Z := r ← send SCANU_CANCEL; mret r.1.

(** ** Interfaces *)

Fixpoint first_bit (m : Z) (i : Z) (n : nat) : option Z :=
  match n with O => None | S n => if Z.testbit m i then Some i else first_bit m (i + 1) n end.

(** The loop for an index that is free. *)
Definition find_index (m : Z) (t : iftype) : option Z :=
  if bool_decide (t = AP_VLAN) then first_bit m NX_VIRT_DEV_MAX (Z.to_nat NX_REMOTE_STA_MAX)
  else first_bit m 0 (Z.to_nat NX_VIRT_DEV_MAX).

(** The address of the wiphy with the index mixed in. *)
Definition local_addr (mac : list Z) (i : Z) : list Z :=
  match mac with a :: l => u8 (Z.lxor (Z.lor a 2) (Z.shiftl i 2)) :: l | [] => [] end.

Definition NL80211_MESH_POWER_UNKNOWN : Z := 0.
Definition NL80211_MESH_POWER_ACTIVE : Z := 1.
Definition NL80211_MESH_POWER_DEEP_SLEEP : Z := 3.

Definition fresh_arm (t : iftype) : arm :=
  match t with
  | STATION | P2P_CLIENT => ASta (StaArm None false false 0 0)
  | MESH_POINT => AAp (ApArm [] 0 NL80211_MESH_POWER_ACTIVE NL80211_MESH_POWER_ACTIVE)
  | AP | P2P_GO => AAp (ApArm [] 0 0 0)
  | _ => ANone
  end.

(** The first access point whose address differs from the one given. *)
Fixpoint find_master (macaddr : list Z) (l : list nat) : V (option nat) :=
  match l with
  | [] => mret None
  | v :: l =>
    o ← gvif v;
    if bool_decide (wtype o = AP) && negb (bool_decide (addr o = macaddr)) then mret (Some v) else find_master macaddr l
  end.

Definition link_vif (v : nat) (o : vif) : V unit :=
  modify (fun h => h <| store ::= <[v := o]> |> <| next_vif := S v |> <| vifs ::= (.++ [v]) |>
                     <| avail_idx_map ::= fun m => Z.ldiff m (2 ^ drv_vif_index o) |>).

(** [params] are the address and 4-address mode, [None] for NULL. *)
Definition rwnx_interface_add (t : iftype) (params : option (list Z * bool)) : V (option nat) :=
  h ← get;
  match find_index (avail_idx_map h) t with
  | None => mret None
  | Some i =>
    ndev ← wait Allocate;
    if negb (allocated ndev) then mret None else
    h ← get;
    let v := next_vif h in
    let mac := if bool_decide (t = AP_VLAN) then match params with Some (a, _) => a | None => [] end
               else if 0 <? i then local_addr (perm_addr h) i else perm_addr h in
    let o := MkVif t i 0 RWNX_CH_NOT_SET false (match params with Some (_, b) => b | None => false end) false DISCONNECTED
               (fresh_arm t) (bool_decide (t = P2P_CLIENT \/ t = P2P_GO)) false false false OPEN_SYSTEM (replicate 6 0) mac true false false in
    o ← (if bool_decide (t = AP_VLAN) then
           p ← unwrap params;
           m ← find_master p.1 (vifs h);
           mret (match m with Some m => Some (o <| u := AVlan m None |>) | None => None end)
         else mret (Some o));
    match o with
    | None => mret None
    | Some o =>
      r ← wait Register;
      if negb (VifOps.status r =? 0) then mret None else
      _ ← link_vif v o;
      mret (Some v)
    end
  end.

(** P2P devices, without CONFIG_USE_P2P0. *)
Definition rwnx_virtual_interface_add (t : iftype) : V (option nat) :=
  h ← get;
  match find_index (avail_idx_map h) t with
  | None => mret None
  | Some i =>
    r ← wait Allocate;
    if negb (allocated r) then mret None else
    h ← get;
    let v := next_vif h in
    _ ← link_vif v (MkVif t i i RWNX_CH_NOT_SET false false false DISCONNECTED ANone true false false false OPEN_SYSTEM
                      (replicate 6 0) (local_addr (perm_addr h) i) false false false);
    _ ← modify (fun h => if is_p2p_alive h then h else
          h <| p2p_alive_timer := false |> <| is_p2p_connected := false |> <| p2p_dev_vif := Some v |>
            <| p2p_alive_timer_count := 0 |>);
    mret (Some v)
  end.

Definition rwnx_cfg80211_add_iface (t : iftype) (params : option (list Z * bool)) : V (option nat) :=
  if bool_decide (t = P2P_DEVICE) then rwnx_virtual_interface_add t else rwnx_interface_add t params.

(** A new interface of the firmware. *)
Definition vif_is_up (v : nat) (i : Z) : V unit :=
  _ ← pvif v (fun o => o <| vif_index := i |> <| up := true |>);
  _ ← modify (fun h => h <| vif_started ::= fun n => u8 (n + 1) |>);
  set_table i (Some v).

(** ... and the end of the one of the P2P device. *)
Definition vif_is_down (v : nat) : V unit :=
  o ← gvif v;
  _ ← pvif v (fun o => o <| up := false |>);
  _ ← set_table (vif_index o) None;
  modify (fun h => h <| vif_started ::= fun n => u8 (n - 1) |>).

Definition rearm_p2p_timer : V unit :=
  modify (fun h => h <| p2p_alive_timer := true |> <| p2p_alive_timer_count := 0 |>).

(** ** Opening and closing *)

(** The loop waits for somebody else to close the interface. *)
Fixpoint wait_closed (v : nat) (waiting_counter : nat) : V unit :=
  o ← gvif v;
  if negb (started o) then mret tt else
  _ ← sleep;
  match waiting_counter with
  | O | S O => mret tt
  | S n => wait_closed v n
  end.

(** The part for the first interface. *)
Definition start_fw : V Z :=
  h ← get;
  if negb (vif_started h =? 0) then mret 0 else
  r ← send MM_START;
  if negb (r.1 =? 0) then mret r.1 else
  e ← (if chip_dc h then r ← send MM_RX_GAIN; mret r.1 else mret 0);
  if negb (e =? 0) then mret e else
  _ ← (if negb (testmode h) then _ ← send COEX; mret tt else mret tt);
  mret 0.

(** The P2P device comes with the first client or group owner. *)
Definition open_p2p_dev (t : iftype) : V Z :=
  h ← get;
  if negb (bool_decide (t = P2P_CLIENT \/ t = P2P_GO)) || is_p2p_alive h then mret 0 else
  e ← match p2p_dev_vif h with
      | None => mret 0
      | Some d =>
        p ← gvif d;
        if up p then mret 0 else
        r ← rwnx_send_add_if d;
        if negb (r.1 =? 0) || negb (VifOps.status r.2 =? 0) then mret (- EIO) else
        _ ← vif_is_up d (u8 (index r.2)); mret 0
      end;
  if negb (e =? 0) then mret e else
  _ ← modify (fun h => h <| is_p2p_alive := true |>);
  _ ← rearm_p2p_timer;
  mret 0.

Definition open_vif (v : nat) : V Z :=
  o ← gvif v;
  if bool_decide (wtype o = AP_VLAN) then
    _ ← vif_is_up v (drv_vif_index o); mret 0
  else
    r ← rwnx_send_add_if v;
    if negb (r.1 =? 0) then mret r.1 else
    if negb (VifOps.status r.2 =? 0) then mret (- EIO) else
    _ ← vif_is_up v (u8 (index r.2)); mret 0.

Definition open_monitor (v : nat) : V Z :=
  o ← gvif v;
  if negb (bool_decide (wtype o = MONITOR)) then mret 0 else
  _ ← modify (fun h => h <| monitor_vif := vif_index o |>);
  if ch_index o =? RWNX_CH_NOT_SET then mret 0 else
  h ← get;
  c ← unwrap (chanctx_table h !! Z.to_nat (ch_index o));
  r ← send (ME_CONFIG_MONITOR (chan c));
  mret r.1.

Definition rwnx_open (v : nat) : V Z :=
  _ ← wait_closed v 10;
  e ← start_fw;
  if negb (e =? 0) then mret e else
  _ ← pvif v (fun o => o <| started := true |>);
  _ ← rwnx_set_conn_state v DISCONNECTED;
  o ← gvif v;
  e ← open_p2p_dev (wtype o);
  if negb (e =? 0) then mret e else
  e ← open_vif v;
  if negb (e =? 0) then mret e else
  e ← open_monitor v;
  o ← gvif v;
  _ ← (if bool_decide (wtype o = MONITOR) then mret tt else pvif v (fun o => o <| carrier := false |>));
  mret e.

(** The loops that wait until the state is stable. *)
Fixpoint wait_stable (v : nat) (unstable : conn -> bool) (test_counter : nat) : V unit :=
  o ← gvif v;
  if negb (unstable (drv_conn_state o)) then mret tt else
  _ ← sleep;
  match test_counter with
  | O | S O => mret tt
  | S n => wait_stable v unstable n
  end.

Definition changing (c : conn) : bool := bool_decide (c = DISCONNECTING \/ c = CONNECTING).

(** The scan that was started on the interface. *)
Definition abort_scan (v : nat) : V Z :=
  h ← get;
  if negb (bool_decide (scan_request h = Some v)) then mret 0 else
  _ ← emit (ScanDone true);
  _ ← modify (fun h => h <| scan_request := None |>);
  rwnx_send_scanu_cancel_req.

Definition drop_roc (v : nat) : V unit :=
  modify (fun h => match roc_elem h with
    | Some r => if bool_decide (r_wdev r = v) then h <| roc_elem := None |> else h | None => h end).

Definition close_carrier (v : nat) : V unit :=
  o ← gvif v;
  if negb (carrier o) then mret tt else
  if is_client (wtype o) then _ ← emit (Disconnected v); pvif v (fun o => o <| carrier := false |>) else
  if bool_decide (wtype o = AP_VLAN) then pvif v (fun o => o <| carrier := false |>) else mret tt.

Definition close_fw (v : nat) : V unit :=
  h ← get;
  if bus_down h then mret tt else
  o ← gvif v;
  _ ← (if is_client (wtype o) && bool_decide (drv_conn_state o = CONNECTED) then
         _ ← rwnx_set_conn_state v DISCONNECTING;
         _ ← send (SM_DISCONNECT (vif_index o) 3);
         wait_stable v (fun c => bool_decide (c = DISCONNECTING)) 20
       else mret tt);
  o ← gvif v;
  _ ← rwnx_send_remove_if (vif_index o); mret tt.

Definition close_tables (v : nat) : V unit :=
  o ← gvif v;
  _ ← set_table (vif_index o) None;
  _ ← rwnx_chanctx_unlink v;
  _ ← (if bool_decide (wtype o = MONITOR) then modify (fun h => h <| monitor_vif := RWNX_INVALID_VIF |>) else mret tt);
  modify (fun h => h <| vif_started ::= fun n => u8 (n - 1) |>).

Definition reset_fw : V unit :=
  h ← get;
  if negb (vif_started h =? 0) || bus_down h then mret tt else
  _ ← send MM_RESET;
  if testmode h then mret tt else
  _ ← send ME_CONFIG;
  _ ← send ME_CHAN_CONFIG; mret tt.

Definition rwnx_close (v : nat) : V Z :=
  _ ← wait_stable v changing 20;
  _ ← modify (fun h => h <| scanning := false |>);
  _ ← emit RadarCancelCac;
  e ← abort_scan v;
  if negb (e =? 0) then mret e else
  _ ← drop_roc v;
  _ ← pvif v (fun o => o <| up := false |>);
  _ ← close_carrier v;
  _ ← close_fw v;
  _ ← close_tables v;
  _ ← reset_fw;
  _ ← pvif v (fun o => o <| started := false |>);
  mret 0.

(** What the kernel makes of the net device: it closes only what was opened,
    whatever the driver returns then. *)
Definition dev_open (v : nat) : V Z :=
  o ← gvif v;
  if negb (netdev o) || iff_up o then mret 0 else
  e ← rwnx_open v;
  _ ← (if e =? 0 then pvif v (fun o => o <| iff_up := true |>) else mret tt);
  mret e.

Definition dev_close (v : nat) : V Z :=
  o ← gvif v;
  if negb (iff_up o) then mret 0 else
  e ← rwnx_close v;
  _ ← pvif v (fun o => o <| iff_up := false |>);
  mret e.

(** ** Removing and changing *)

Definition list_del_vif (v : nat) : V unit :=
  o ← gvif v;
  modify (fun h => h <| vifs ::= filter (fun w => w <> v) |>
                     <| avail_idx_map ::= fun m => Z.lor m (2 ^ drv_vif_index o) |>
                     <| store ::= delete v |>).

(** The memory of a net device is freed when the RTNL is released. *)
Definition rwnx_cfg80211_del_iface (v : nat) : V Z :=
  o ← gvif v;
  if negb (netdev o) then _ ← list_del_vif v; mret 0 else
  _ ← dev_close v;
  _ ← list_del_vif v; mret 0.

Definition is_sta_arm (a : arm) : option sta_arm := match a with ASta a => Some a | _ => None end.
Definition is_ap_arm (a : arm) : option ap_arm := match a with AAp a => Some a | _ => None end.

(** The members that rwnx_cfg80211_change_iface sets; where the bytes belonged
    to another member of the union before, the others hold [junk]. *)
Definition change_arm (junk : sta_arm * ap_arm) (t : iftype) (a : arm) : arm :=
  match t with
  | STATION | P2P_CLIENT =>
    ASta ((default junk.1 (is_sta_arm a)) <| ap := None |> <| external_auth := false |>)
  | MESH_POINT | AP | P2P_GO => AAp ((default junk.2 (is_ap_arm a)) <| sta_list := [] |>)
  | _ => a
  end.

(** The interface of the firmware is replaced. *)
Definition change_fw (v : nat) : V Z :=
  h ← get;
  e ← (if bool_decide (scan_request h = Some v) then rwnx_send_scanu_cancel_req else mret 0);
  if negb (e =? 0) then mret e else
  o ← gvif v;
  e ← rwnx_send_remove_if (vif_index o);
  if negb (e =? 0) then mret e else
  o ← gvif v;
  _ ← set_table (vif_index o) None;
  r ← rwnx_send_add_if v;
  if negb (r.1 =? 0) then mret r.1 else
  if negb (VifOps.status r.2 =? 0) then mret (- EIO) else
  _ ← pvif v (fun o => o <| vif_index := u8 (index r.2) |>);
  _ ← set_table (u8 (index r.2)) (Some v);
  mret 0.

(** With CONFIG_RWNX_MON_DATA. *)
Definition rwnx_cfg80211_change_iface (junk : sta_arm * ap_arm) (v : nat) (t : iftype) (use4 : option bool) : V Z :=
  if bool_decide (t = AP_VLAN) then mret (- EPERM) else
  _ ← pvif v (fun o => o <| u ::= change_arm junk t |> <| wtype := t |> <| use_4addr ::= fun b => default b use4 |>);
  o ← gvif v;
  e ← (if up o then change_fw v else mret 0);
  if negb (e =? 0) then mret e else
  o ← gvif v;
  _ ← modify (fun h => h <| monitor_vif := if bool_decide (t = MONITOR) then vif_index o else RWNX_INVALID_VIF |>);
  mret 0.

(** ** The P2P device *)

Definition rwnx_cfgp2p_stop_p2p_device (v : nat) : V unit :=
  _ ← abort_scan v;
  h ← get;
  if negb (bool_decide (p2p_dev_vif h = Some v)) then mret tt else
  _ ← modify (fun h => h <| is_p2p_alive := false |> <| p2p_alive_timer := false |>);
  o ← gvif v;
  if negb (up o) then mret tt else
  _ ← rwnx_send_remove_if (vif_index o);
  vif_is_down v.

Definition P2P_ALIVE_TIME_COUNT : Z := 200.

Definition p2p_type (t : iftype) : bool := bool_decide (t = P2P_CLIENT \/ t = P2P_GO).

(** Whether there is a client or a group owner. *)
Fixpoint any_p2p (l : list nat) : V bool :=
  match l with
  | [] => mret false
  | v :: l =>
    o ← gvif v; h ← get; r ← any_p2p l;
    mret (negb (Z.testbit (avail_idx_map h) (drv_vif_index o)) && p2p_type (wtype o) || r)
  end.

Definition aicwf_p2p_alive_timeout : V unit :=
  h ← get;
  let dev := p2p_dev_vif h in
  _ ← modify (fun h => h <| p2p_alive_timer := false |>);
  p2p ← any_p2p (vifs h);
  _ ← modify (fun h => if (p2p : bool) then h <| is_p2p_alive := true |> <| p2p_alive_timer_count := 0 |>
                       else h <| p2p_alive_timer_count ::= Z.succ |>);
  h ← get;
  if p2p_alive_timer_count h <? P2P_ALIVE_TIME_COUNT then modify (fun h => h <| p2p_alive_timer := true |>) else
  _ ← modify (fun h => h <| p2p_alive_timer_count := 0 |> <| is_p2p_alive := false |>);
  d ← unwrap dev;
  o ← gvif d;
  if negb (up o) then mret tt else
  _ ← rwnx_send_remove_if (vif_index o);
  vif_is_down d.

End Ops.

End VifOps.
