(* ===== verification/VifSta.v ===== *)
(** * Connections, access points and their stations (rwnx_main.c, rwnx_msg_tx.c)

    The rest of the operations: keys, scans, connecting and disconnecting,
    channels, remaining on a channel, starting and stopping an access point,
    adding and removing its stations.  [env] as in [VifOps]. *)

From S2P Require Import Prelude State Vif VifOps.
From stdpp Require Import list gmap.
Import Vif VifOps.
Open Scope Z_scope.
Open Scope list_scope.

Module VifSta.

(** ** Keys *)

Definition WEP40 : Z := 0x000FAC01.
Definition WEP104 : Z := 0x000FAC05.
Definition TKIP : Z := 0x000FAC02.
Definition SMS4 : Z := 0x00147201.

(** The numbers of mac_cipher_suite. *)
Definition mac_cipher (cipher : Z) : option Z :=
  if cipher =? WEP40 then Some 0 else if cipher =? WEP104 then Some 3 else if cipher =? TKIP then Some 1 else
  if cipher =? 0x000FAC04 then Some 2 else if cipher =? 0x000FAC06 then Some 5 else
  if cipher =? 0x000FAC08 then Some 6 else if cipher =? 0x000FAC09 then Some 7 else
  if cipher =? 0x000FAC0A then Some 8 else if cipher =? 0x000FAC0B then Some 9 else
  if cipher =? 0x000FAC0C then Some 10 else if cipher =? 0x000FAC0D then Some 11 else
  if cipher =? SMS4 then Some 4 else None.

Definition WPI_SUBKEY_LEN : nat := 16.
Definition WPI_KEY_LEN : nat := 32.

(** Exchange two bytes. *)
Definition swap (i j : nat) (key : list Z) : res (list Z) :=
  match key !! i, key !! j with Some a, Some b => Ok (<[j := a]> (<[i := b]> key)) | _, _ => Fault end.

Fixpoint reverse_loop (off : nat) (n i : nat) (key : list Z) : res (list Z) :=
  match n with
  | O => Ok key
  | S n => key ← swap (off + i) (off + WPI_SUBKEY_LEN - 1 - i) key; reverse_loop off n (S i) key
  end.

(** Both halves of a key of WPI are reversed. *)
Definition sms4_order (key : list Z) : res (list Z) :=
  key ← reverse_loop 0 (WPI_SUBKEY_LEN / 2) 0 key; reverse_loop WPI_SUBKEY_LEN (WPI_SUBKEY_LEN / 2) 0 key.

(** ** Stations *)

(** rwnx_get_sta looks at the stations without those for broadcasts. *)
Definition rwnx_get_sta (h : hw) (mac : list Z) : option nat :=
  find_idx (fun s => valid s && bool_decide (mac_addr s = mac)) (take (Z.to_nat NX_REMOTE_STA_MAX) (sta_table h)).

(** rwnx_retrieve_sta; [bufferable]: the frame is a deauthentication, a
    disassociation or an action. *)
Definition is_multicast (a : list Z) : bool := match a with b :: _ => Z.testbit b 0 | [] => false end.

Fixpoint first_sta (mac : list Z) (need_valid : bool) (l : list nat) : V (option nat) :=
  match l with
  | [] => mret None
  | i :: l =>
    s ← gsta i;
    if (valid s || negb need_valid) && bool_decide (mac_addr s = mac) then mret (Some i) else first_sta mac need_valid l
  end.

Definition rwnx_retrieve_sta (v : nat) (a : list Z) (bufferable is_ap : bool) : V (option nat) :=
  if negb is_ap then c ← asta v; mret (ap c) else
  if negb bufferable then mret None else
  c ← aap v;
  if is_multicast a then
    s ← gsta (Z.to_nat (bcmc_index c)); mret (if valid s then Some (Z.to_nat (bcmc_index c)) else None)
  else first_sta a true (sta_list c).

Section Sta.
Context (env : hw -> req -> reply).
#[local] Abbreviation send := (send env).
#[local] Abbreviation wait := (wait env).
#[local] Abbreviation sleep := (sleep env).

(** rwnx_cfg80211_add_key and _del_key; [mac] is [None] for a group key. *)
Definition set_cipher (v : nat) (pairwise_key : bool) (c : Z) : V unit :=
  o ← gvif v;
  if negb (is_client (wtype o)) then mret tt else
  pasta v (fun a => if pairwise_key then a <| paired_cipher_type := c |> else a <| group_cipher_type := c |>).

Definition rwnx_cfg80211_add_key (v : nat) (key_index : nat) (pairwise : bool) (mac : option (list Z)) (cipher : Z)
    (key : list Z) : V Z :=
  h ← get;
  let s := match mac with Some a => rwnx_get_sta h a | None => None end in
  if bool_decide (mac <> None) && bool_decide (s = None) then mret (- EINVAL) else
  _ ← set_cipher v (bool_decide (mac <> None)) cipher;
  match mac_cipher cipher with
  | None => mret (- EINVAL)
  | Some c =>
    key ← (if cipher =? SMS4 then match sms4_order key with Ok k => mret k | _ => fault end else mret key);
    _ ← modify (fun h => h <| key_flag := false |>);
    o ← gvif v;
    idx ← match s with Some i => s ← gsta i; mret (sta_idx s) | None => mret 0xFF end;
    r ← send (MM_KEY_ADD (vif_index o) idx (Z.of_nat key_index) c pairwise key);
    if negb (r.1 =? 0) then mret r.1 else
    if negb (VifOps.status r.2 =? 0) then mret (- EIO) else
    _ ← match s with
        | Some i => psta i (fun s => s <| key_hw_idx := u8 (index r.2) |>)
        | None =>
          o ← gvif v;
          _ ← unwrap (keys o !! key_index);
          pvif v (fun o => o <| keys ::= <[key_index := u8 (index r.2)]> |>)
        end;
    mret 0
  end.

Definition rwnx_cfg80211_del_key (v : nat) (key_index : nat) (mac : option (list Z)) : V Z :=
  h ← get;
  o ← gvif v;
  if negb (key_flag h) && bool_decide (wtype o = STATION) then mret 0 else
  let s := match mac with Some a => rwnx_get_sta h a | None => None end in
  if bool_decide (mac <> None) && bool_decide (s = None) then mret (- EINVAL) else
  _ ← set_cipher v (bool_decide (mac <> None)) 0xff;
  hw_idx ← match s with Some i => s ← gsta i; mret (key_hw_idx s) | None => unwrap (keys o !! key_index) end;
  r ← send (MM_KEY_DEL hw_idx);
  _ ← match s with
      | Some i => psta i (fun s => s <| key_hw_idx := 0 |>)
      | None => pvif v (fun o => o <| keys ::= <[key_index := 0]> |>)
      end;
  mret r.1.

(** ** Scans *)

(** One SSID of a scan request: whether it is the wildcard of P2P. *)
Definition scan_ssid (v : nat) (wildcard : bool) : V Z :=
  if negb wildcard then mret 0 else
  h ← get;
  o ← gvif v;
  e ← (if bool_decide (p2p_dev_vif h = Some v) && negb (up o) then
         r ← rwnx_send_add_if env v;
         if negb (r.1 =? 0) then mret (- ENOMEM) else
         if negb (VifOps.status r.2 =? 0) then mret (- EIO) else
         _ ← vif_is_up v (u8 (index r.2)); mret 0
       else mret 0);
  if negb (e =? 0) then mret e else
  _ ← modify (fun h => h <| is_p2p_alive := true |>);
  _ ← rearm_p2p_timer;
  mret 0.

Fixpoint scan_ssids (v : nat) (ssids : list bool) : V Z :=
  match ssids with
  | [] => mret 0
  | w :: l => e ← scan_ssid v w; if negb (e =? 0) then mret e else scan_ssids v l
  end.

(** SCAN_SSID_MAX *)
Definition SCAN_SSID_MAX : nat := 3.

Definition rwnx_send_scanu_req (v : nat) (ssids : list bool) (ie : bool) : V Z :=
  m ← wait Allocate;
  if negb (allocated m) then mret (- ENOMEM) else
  _ ← modify (fun h => h <| scanning := true |>);
  o ← gvif v;
  e ← scan_ssids v (take SCAN_SSID_MAX ssids);
  if negb (e =? 0) then mret e else
  o' ← gvif v;
  e ← (if ie then r ← send (SCANU_VENDOR_IE (vif_index o')); mret r.1 else mret 0);
  if negb (e =? 0) then mret e else
  r ← rwnx_send_msg env (SCANU_START (vif_index o));
  mret r.1.

Definition rwnx_cfg80211_scan (v : nat) (ssids : list bool) (ie : bool) : V Z :=
  h ← get;
  if testmode h then mret (- EBUSY) else
  o ← gvif v;
  if bool_decide (drv_conn_state o = CONNECTING) then mret (- EBUSY) else
  if scanning h then mret (- EBUSY) else
  busy ← (if is_client (wtype o) then a ← asta v; mret (external_auth a) else mret false);
  if (busy : bool) then mret (- EBUSY) else
  _ ← modify (fun h => h <| scan_request := Some v |>);
  rwnx_send_scanu_req v ssids ie.

(** ** Connections *)

(** cfg80211_connect_params; [s_key] is the index and the bytes of a WEP key. *)
Record connect_params := ConnectParams {
  cipher_group : Z; ciphers_pairwise : list Z; auth_type : authtype; s_key : option (nat * list Z);
  external_auth_support : bool; ie_len : Z
}.

Definition is_wep_cipher (c : Z) : bool := (c =? WEP40) || (c =? WEP104).

(** The type of authentication for WEP: the other one after a failure. *)
Definition wep_auth (o : vif) (a : authtype) : authtype :=
  if bool_decide (a = AUTOMATIC) then
    if wep_enabled o && wep_auth_err o then
      if bool_decide (last_auth_type o = SHARED_KEY) then OPEN_SYSTEM else SHARED_KEY
    else if wep_enabled o && negb (wep_auth_err o) then last_auth_type o else SHARED_KEY
  else if wep_enabled o && wep_auth_err o && bool_decide (a = last_auth_type o) then
    match a with SHARED_KEY => OPEN_SYSTEM | OPEN_SYSTEM => SHARED_KEY | _ => a end
  else a.

Definition ie_buf_size : Z := 256.

Definition rwnx_send_sm_connect_req (v : nat) (sme : connect_params) : V (Z * reply) :=
  _ ← pvif v (fun o => o <| wep_enabled := false |> <| wep_auth_err := false |> <| last_auth_type := OPEN_SYSTEM |>);
  m ← wait Allocate;
  if negb (allocated m) then mret (- ENOMEM, m) else
  o ← gvif v;
  a ← asta v;
  if ie_buf_size <? ie_len sme then mret (- EINVAL, m) else
  if bool_decide (auth_type sme = OTHER_AUTH) then mret (- EINVAL, m) else
  let wep := is_wep_cipher (cipher_group sme) &&
             match ciphers_pairwise sme with c :: _ => is_wep_cipher c | [] => false end in
  _ ← pvif v (fun o => if wep then o <| wep_enabled := true |> <| last_auth_type := auth_type sme |> else o);
  rwnx_send_msg env (SM_CONNECT (vif_index o) (bool_decide (ap a <> None))).

Definition co_error (st : Z) : Z :=
  if st =? CO_OK then 0 else if st =? CO_BUSY then - EINPROGRESS else if st =? CO_OP_IN_PROGRESS then - EALREADY else - EIO.

Definition rwnx_cfg80211_connect (v : nat) (sme : connect_params) : V Z :=
  o ← gvif v;
  let roam := bool_decide (drv_conn_state o = CONNECTED) in
  _ ← pasta v (fun a => a <| is_roam := roam |>);
  if changing (drv_conn_state o) then mret 0 else
  _ ← rwnx_set_conn_state v (if roam then ROAMING else CONNECTING);
  let is_wep := is_wep_cipher (cipher_group sme) || is_wep_cipher (nth 0 (ciphers_pairwise sme) 0) in
  let a := if is_wep then wep_auth o (auth_type sme) else auth_type sme in
  let install := match s_key sme with Some k => if bool_decide (a = SHARED_KEY) then Some k else None | None => None end in
  _ ← match install with
      | Some k => _ ← rwnx_cfg80211_add_key v k.1 false None (cipher_group sme) k.2; mret tt
      | None => mret tt
      end;
  if bool_decide (install = None) && bool_decide (a = SAE) && negb (external_auth_support sme) then mret (- EINVAL) else
  _ ← (if bool_decide (wtype o = P2P_CLIENT) then modify (fun h => h <| is_p2p_connected := true |>) else mret tt);
  _ ← (if is_client (wtype o) then pasta v (fun c => c <| paired_cipher_type := 0xff |> <| group_cipher_type := 0xff |>)
       else mret tt);
  r ← rwnx_send_sm_connect_req v (ConnectParams (cipher_group sme) (ciphers_pairwise sme) a (s_key sme)
        (external_auth_support sme) (ie_len sme));
  mret (if negb (r.1 =? 0) then r.1 else co_error (VifOps.status r.2)).

Definition rwnx_cfg80211_disconnect (v : nat) (reason : Z) : V Z :=
  o ← gvif v;
  match drv_conn_state o with
  | DISCONNECTED | DISCONNECTING => mret (- EBUSY)
  | CONNECTED | CONNECTING | ROAMING =>
    _ ← rwnx_set_conn_state v DISCONNECTING;
    _ ← modify (fun h => h <| key_flag := true |>);
    r ← send (SM_DISCONNECT (vif_index o) reason);
    h ← get;
    _ ← (if bus_down h then rwnx_set_conn_state v DISCONNECTED else mret tt);
    mret r.1
  end.

Definition rwnx_cfg80211_external_auth (v : nat) (st : Z) : V Z :=
  a ← asta v;
  if negb (external_auth a) then mret (- EINVAL) else
  _ ← rwnx_external_auth_disable v;
  o ← gvif v;
  r ← send (SM_EXTERNAL_AUTH_RSP (vif_index o) st);
  mret r.1.

(** ** Channels *)

(** [chandef] is [None] to ask for the channel; the same channel is one of the
    same frequency here. *)
Definition rwnx_cfg80211_set_monitor_channel (chandef : option Z) : V Z :=
  h ← get;
  if monitor_vif h =? RWNX_INVALID_VIF then mret (- EINVAL) else
  v ← table (monitor_vif h);
  v ← unwrap v;
  o ← gvif v;
  let same := match chandef, chanctx_table h !! Z.to_nat (ch_index o) with
              | Some f, Some c => bool_decide (chan c = Some f) | _, _ => false end in
  if rwnx_chanctx_valid h (ch_index o) && same then mret 0 else
  r ← send (ME_CONFIG_MONITOR chandef);
  if negb (r.1 =? 0) then mret (- EIO) else
  _ ← rwnx_chanctx_unlink v;
  if u8 (ch r.2) =? RWNX_CH_NOT_SET then mret 0 else
  h ← get;
  if 1 <? vif_started h then _ ← rwnx_chanctx_link v (u8 (ch r.2)) None; mret (- EBUSY) else
  _ ← rwnx_chanctx_link v (u8 (ch r.2)) (Some (freq r.2));
  mret 0.

Definition rwnx_cfg80211_remain_on_channel_ (v : nat) (mgmt_roc_flag : bool) : V Z :=
  h ← get;
  _ ← (if bool_decide (roc_elem h = None) then mret tt else sleep);
  h ← get;
  if negb (bool_decide (roc_elem h = None)) then mret (- EBUSY) else
  o ← gvif v;
  e ← (if bool_decide (p2p_dev_vif h = Some v) && negb (up o) then
         if is_p2p_alive h then _ ← rearm_p2p_timer; mret 0 else
         r ← rwnx_send_add_if env v;
         if negb (r.1 =? 0) || negb (VifOps.status r.2 =? 0) then mret (- EIO) else
         _ ← vif_is_up v (u8 (index r.2));
         _ ← modify (fun h => h <| is_p2p_alive := true |>);
         _ ← rearm_p2p_timer;
         mret 0
       else mret 0);
  if negb (e =? 0) then mret e else
  m ← wait Allocate;
  if negb (allocated m) then mret (- ENOMEM) else
  _ ← emit (OffchanInit v);
  _ ← modify (fun h => h <| roc_elem := Some (Roc v mgmt_roc_flag false) |>);
  o ← gvif v;
  r ← send (MM_ROC (vif_index o));
  if (r.1 =? 0) && (VifOps.status r.2 =? 0) then mret 0 else
  _ ← modify (fun h => h <| roc_elem := None |>);
  _ ← emit (OffchanDeinit v);
  mret (if r.1 =? 0 then - EBUSY else r.1).

Definition rwnx_cfg80211_cancel_remain_on_channel : V Z :=
  h ← get;
  if bool_decide (roc_elem h = None) then mret 0 else r ← send MM_CANCEL_ROC; mret r.1.

(** ** The stations of an access point *)

Fixpoint min_mesh_pm (pm : Z) (l : list nat) : V Z :=
  match l with
  | [] => mret pm
  | i :: l => s ← gsta i; min_mesh_pm (if valid s && (s_mesh_pm s <? pm) then s_mesh_pm s else pm) l
  end.

Definition rwnx_update_mesh_power_mode (v : nat) : V unit :=
  o ← gvif v;
  if negb (bool_decide (wtype o = MESH_POINT)) then mret tt else
  a ← aap v;
  pm ← match sta_list a with [] => mret (next_mesh_pm a) | l => min_mesh_pm NL80211_MESH_POWER_DEEP_SLEEP l end;
  if pm =? mesh_pm a then mret tt else
  r ← send (MESH_UPDATE (vif_index o) pm);
  if negb (r.1 =? 0) || negb (VifOps.status r.2 =? 0) then mret tt else
  paap v (fun a => a <| mesh_pm := pm |>).

(** station_parameters *)
Record station_params := StationParams { p_aid : Z; p_wme : bool; p_tdls_peer : bool; p_local_pm : Z }.

Definition sta_added (v : nat) (mac : list Z) (p : station_params) (r : reply) : V unit :=
  let i := Z.to_nat (u8 (index r)) in
  o ← gvif v;
  next ← (if p_local_pm p =? NL80211_MESH_POWER_UNKNOWN then a ← aap v; mret (next_mesh_pm a) else mret (p_local_pm p));
  _ ← psta i (fun s => s <| aid := p_aid p |> <| sta_idx := u8 (index r) |> <| s_ch_idx := ch_index o |>
    <| s_vif_idx := vif_index o |> <| vlan_idx := vif_index o |> <| qos := p_wme p |> <| key_hw_idx := 0 |>
    <| s_mesh_pm := next |>);
  _ ← rwnx_update_mesh_power_mode v;
  _ ← psta i (fun s => s <| mac_addr := mac |>);
  _ ← emit (StaInit i (QOfVif v));
  _ ← paap v (fun a => a <| sta_list ::= (.++ [i]) |>);
  _ ← psta i (fun s => s <| valid := true |>);
  s ← gsta i;
  _ ← rwnx_ps_bh_enable i (ps_active s || flag r);
  if is_ap (wtype o) then emit (NewSta v mac) else mret tt.

Definition rwnx_cfg80211_add_station (v : nat) (mac : list Z) (p : station_params) : V Z :=
  if p_tdls_peer p then mret 0 else
  _ ← modify (fun h => h <| adding_sta := true |>);
  o ← gvif v;
  r ← send (ME_STA_ADD mac (vif_index o));
  if negb (r.1 =? 0) then mret r.1 else
  e ← (if VifOps.status r.2 =? CO_OK then _ ← sta_added v mac p r.2; mret 0 else mret (- EBUSY));
  _ ← modify (fun h => h <| adding_sta := false |>);
  mret e.

(** A station leaves the VLAN it was moved to. *)
Definition leave_vlan (i : nat) : V unit :=
  s ← gsta i;
  if s_vif_idx s =? vlan_idx s then mret tt else
  w ← table (vlan_idx s);
  w ← unwrap w;
  o ← gvif w;
  if up o && bool_decide (wtype o = AP_VLAN) && use_4addr o then
    match u o with AVlan m _ => pvif w (fun o => o <| u := AVlan m None |>) | _ => fault end
  else mret tt.

(** Removing a station from the list and from the firmware; [notify]:
    cfg80211 is told. *)
Definition drop_sta (v i : nat) (notify : bool) : V Z :=
  _ ← psta i (fun s => s <| ps_active := false |> <| valid := false |>);
  _ ← paap v (fun a => a <| sta_list ::= filter (fun j => j <> i) |>);
  s ← gsta i;
  _ ← leave_vlan i;
  o ← gvif v;
  _ ← (if notify && is_ap (wtype o) then emit (DelSta v (mac_addr s)) else mret tt);
  _ ← (if is_client (wtype o) then fault else if is_ap (wtype o) then emit (ReordDeinit (mac_addr s)) else mret tt);
  _ ← emit (StaDeinit i);
  r ← send (ME_STA_DEL (sta_idx s));
  mret r.1.

(** The loop over all stations, without an address. *)
Fixpoint del_all (v : nat) (fuel : nat) : V Z :=
  match fuel with
  | O => fun _ => NoFuel
  | S fuel =>
    a ← aap v;
    match sta_list a with
    | [] => mret 0
    | i :: _ =>
      e ← drop_sta v i true;
      if negb (e =? 0) && negb (e =? - EPIPE) then mret e else del_all v fuel
    end
  end.

Definition rwnx_cfg80211_del_station_compat (v : nat) (mac : option (list Z)) : V Z :=
  a ← aap v;
  match mac with
  | None =>
    e ← del_all v (S (length (sta_list a)));
    if negb (e =? 0) then mret e else
    _ ← rwnx_update_mesh_power_mode v; mret 0
  | Some m =>
    i ← first_sta m false (sta_list a);
    e ← match i with
        | None => mret 0
        | Some i => drop_sta v i true
        end;
    if negb (e =? 0) && negb (e =? - EPIPE) then mret e else
    _ ← rwnx_update_mesh_power_mode v;
    mret (if bool_decide (i = None) then - ENOENT else 0)
  end.

Definition apm_staloss_work_process : V unit :=
  h ← get;
  _ ← modify (fun h => h <| staloss_work := false |>);
  v ← look_for (apm_vif_idx h);
  match v with
  | None => mret tt
  | Some v =>
    o ← gvif v;
    if negb (is_ap (wtype o)) then mret tt else
    a ← aap v;
    i ← first_sta (sta_mac_addr h) false (sta_list a);
    match i with
    | None => mret tt
    | Some i =>
      e ← drop_sta v i false;
      if negb (e =? 0) && negb (e =? - EPIPE) then mret tt else rwnx_update_mesh_power_mode v
    end
  end.

(** rwnx_cfg80211_change_station without the peers of TDLS: the flag
    AUTHORIZED, the state and the power mode of a peer in a mesh, and the VLAN
    the station is moved to. *)
Record change_params := ChangeParams {
  q_authorized : option bool; q_plink_state : option Z; q_local_pm : Z; q_vlan : option nat
}.
Definition NUM_NL80211_PLINK_STATES : Z := 7.

Definition change_mesh (v i : nat) (p : change_params) : V unit :=
  o ← gvif v;
  if negb (bool_decide (wtype o = MESH_POINT)) then mret tt else
  s ← gsta i;
  _ ← match q_plink_state p with
      | Some st => if st <? NUM_NL80211_PLINK_STATES
                   then _ ← send (MESH_PEER_UPDATE (vif_index o) (sta_idx s) st); mret tt else mret tt
      | None => mret tt
      end;
  if q_local_pm p =? NL80211_MESH_POWER_UNKNOWN then mret tt else
  _ ← psta i (fun s => s <| s_mesh_pm := q_local_pm p |>);
  rwnx_update_mesh_power_mode v.

Definition change_vlan (i w : nat) : V unit :=
  o ← gvif w;
  s ← gsta i;
  if vlan_idx s =? vif_index o then mret tt else
  old ← table (vlan_idx s);
  old ← unwrap old;
  _ ← emit (StaSwitchVif i old w);
  _ ← psta i (fun s => s <| vlan_idx := vif_index o |>);
  _ ← (if bool_decide (wtype o = AP_VLAN) && use_4addr o then
         match u o with AVlan m _ => pvif w (fun o => o <| u := AVlan m (Some i) |>) | _ => fault end
       else mret tt);
  p ← gvif old;
  if bool_decide (wtype p = AP_VLAN) && use_4addr p then
    match u p with AVlan m _ => pvif old (fun o => o <| u := AVlan m None |>) | _ => fault end
  else mret tt.

Definition rwnx_cfg80211_change_station (v : nat) (mac : list Z) (p : change_params) : V Z :=
  h ← get;
  match rwnx_get_sta h mac with
  | None => mret (- EINVAL)
  | Some i =>
    s ← gsta i;
    _ ← match q_authorized p with Some b => _ ← send (ME_SET_CONTROL_PORT b (sta_idx s)); mret tt | None => mret tt end;
    _ ← change_mesh v i p;
    _ ← match q_vlan p with Some w => change_vlan i w | None => mret tt end;
    mret 0
  end.

(** ** Access points *)

(** [f] is the frequency of the channel.  Memory is needed for the queue of
    the probes, the message and the beacon. *)
Definition ap_started (v : nat) (f : Z) (r : reply) : V unit :=
  let i := Z.to_nat (u8 (index r)) in
  o ← gvif v;
  _ ← paap v (fun a => a <| bcmc_index := u8 (index r) |>);
  _ ← psta i (fun s => s <| valid := true |> <| aid := 0 |> <| sta_idx := u8 (index r) |> <| s_ch_idx := u8 (ch r) |>
    <| s_vif_idx := vif_index o |> <| qos := false |> <| ps_active := false |>);
  _ ← rwnx_chanctx_link v (u8 (ch r)) (Some f);
  h ← get;
  let stopped := negb (cur_chanctx h =? u8 (ch r)) in
  _ ← emit (VifInit v stopped);
  _ ← pvif v (fun o => o <| carrier := true |>);
  if stopped then mret tt else emit RadarEnableCur.

Definition rwnx_cfg80211_start_ap (v : nat) (f : Z) : V Z :=
  wq ← wait Allocate;
  if negb (allocated wq) then mret (- ENOBUFS) else
  o ← gvif v;
  _ ← (if bool_decide (wtype o = P2P_GO) then modify (fun h => h <| is_p2p_connected := true |>) else mret tt);
  m ← wait Allocate;
  if negb (allocated m) then mret (- ENOMEM) else
  _ ← aap v;
  bcn ← wait Allocate;
  if negb (allocated bcn) then mret (- ENOMEM) else
  _ ← send (APM_SET_BEACON_IE (vif_index o));
  r ← rwnx_send_msg env (APM_START (vif_index o));
  _ ← (if VifOps.status r.2 =? CO_OK then ap_started v f r.2 else mret tt);
  mret (co_error (VifOps.status r.2)).

Fixpoint stop_stations (v : nat) (fuel : nat) : V unit :=
  match fuel with
  | O => fun _ => NoFuel
  | S fuel =>
    a ← aap v;
    match sta_list a with
    | [] => mret tt
    | _ => _ ← rwnx_cfg80211_del_station_compat v None; stop_stations v fuel
    end
  end.

Definition rwnx_cfg80211_stop_ap (v : nat) : V Z :=
  _ ← pvif v (fun o => o <| carrier := false |>);
  a ← aap v;
  _ ← stop_stations v (S (length (sta_list a)));
  o ← gvif v;
  _ ← (if bool_decide (wtype o = P2P_GO) then modify (fun h => h <| is_p2p_connected := false |>) else mret tt);
  _ ← emit RadarCancelCac;
  _ ← send (APM_STOP (vif_index o));
  _ ← rwnx_chanctx_unlink v;
  _ ← emit (VifDeinit v);
  mret 0.

End Sta.

End VifSta.
