(* ===== verification/VifRuns.v ===== *)
(** * Virtual interfaces: runs (theorems on [Vif], [VifOps], [VifSta])

    The operations and the indications in any order.  The tables of interfaces
    agree with the interfaces that there are. *)

From S2P Require Import Prelude State Vif VifOps VifSta.
From stdpp Require Import list gmap.
Import Vif VifOps VifSta.
Open Scope Z_scope.
Open Scope list_scope.

Module VifRuns.

(** ** Runs *)

Inductive op :=
| OAdd (t : iftype) (params : option (list Z * bool)) | ODel (v : nat)
| OChange (junk : sta_arm * ap_arm) (v : nat) (t : iftype) (use4 : option bool)
| OOpen (v : nat) | OClose (v : nat) | OStopP2p (v : nat) | OP2pTimeout
| OScan (v : nat) (ssids : list bool) (ie : bool) | OConnect (v : nat) (sme : connect_params) | ODisconnect (v : nat) (reason : Z)
| OExternalAuth (v : nat) (st : Z) | OMonitor (chandef : option Z) | ORoc (v : nat) (mgmt : bool) | OCancelRoc
| OAddKey (v idx : nat) (pairwise : bool) (mac : option (list Z)) (cipher : Z) (key : list Z)
| ODelKey (v idx : nat) (mac : option (list Z))
| OAddSta (v : nat) (mac : list Z) (p : station_params) | ODelSta (v : nat) (mac : option (list Z)) | OStaloss
| OChangeSta (v : nat) (mac : list Z) (p : change_params) | OStartAp (v : nat) (f : Z) | OStopAp (v : nat)
| OInd (i : ind).

Definition void {A} (m : V A) : V unit := _ ← m; mret tt.

Definition run_op (env : hw -> req -> reply) (o : op) : V unit :=
  match o with
  | OAdd t p => void (rwnx_cfg80211_add_iface env t p)
  | ODel v => void (rwnx_cfg80211_del_iface env v)
  | OChange j v t u => void (rwnx_cfg80211_change_iface env j v t u)
  | OOpen v => void (dev_open env v)
  | OClose v => void (dev_close env v)
  | OStopP2p v => rwnx_cfgp2p_stop_p2p_device env v
  | OP2pTimeout => aicwf_p2p_alive_timeout env
  | OScan v s ie => void (rwnx_cfg80211_scan env v s ie)
  | OConnect v sme => void (rwnx_cfg80211_connect env v sme)
  | ODisconnect v r => void (rwnx_cfg80211_disconnect env v r)
  | OExternalAuth v st => void (rwnx_cfg80211_external_auth env v st)
  | OMonitor c => void (rwnx_cfg80211_set_monitor_channel env c)
  | ORoc v m => void (rwnx_cfg80211_remain_on_channel_ env v m)
  | OCancelRoc => void (rwnx_cfg80211_cancel_remain_on_channel env)
  | OAddKey v i p m c k => void (rwnx_cfg80211_add_key env v i p m c k)
  | ODelKey v i m => void (rwnx_cfg80211_del_key env v i m)
  | OAddSta v m p => void (rwnx_cfg80211_add_station env v m p)
  | ODelSta v m => void (rwnx_cfg80211_del_station_compat env v m)
  | OStaloss => apm_staloss_work_process env
  | OChangeSta v m p => void (rwnx_cfg80211_change_station env v m p)
  | OStartAp v f => void (rwnx_cfg80211_start_ap env v f)
  | OStopAp v => void (rwnx_cfg80211_stop_ap env v)
  | OInd i => handle i
  end.

(** What cfg80211 promises: the type of a VLAN is not changed, nor that of an
    interface that is connected; a P2P device is stopped before it is removed;
    net devices are opened and closed by their own operations. *)
Definition allowed (h : hw) (o : op) : Prop :=
  match o with
  | OChange _ v t _ => forall i, store h !! v = Some i ->
      netdev i = true /\ wtype i <> AP_VLAN /\ t <> P2P_DEVICE /\ drv_conn_state i <> CONNECTED
  | ODel v => forall i, store h !! v = Some i -> netdev i = false -> up i = false
  | _ => True
  end.

Definition step (env : hw -> req -> reply) (h h' : hw) : Prop :=
  exists o, allowed h o /\ run_op env o h = Ok (tt, h').

Definition reachable (env : hw -> req -> reply) (mac : list Z) (dc : bool) : hw -> Prop := rtc (step env) (init mac dc).

(** Operations one after the other. *)
Fixpoint run_all (env : hw -> req -> reply) (os : list op) (h : hw) : option hw :=
  match os with
  | [] => Some h
  | o :: os => match run_op env o h with Ok (_, h) => run_all env os h | _ => None end
  end.

Definition unconditional (o : op) : bool := match o with OChange _ _ _ _ | ODel _ => false | _ => true end.

Lemma run_all_rtc env os : forall h h', forallb unconditional os = true -> run_all env os h = Some h' -> rtc (step env) h h'.
Proof.
  induction os as [| o os IH]; intros h h'; cbn [forallb run_all]; [intros _ [= ->]; constructor |].
  intros [Ho Hos]%andb_true_iff E. destruct (run_op env o h) as [[[] h1] | |] eqn:Er; try done.
  eapply rtc_l; [| by apply IH]. exists o. split; [| done]. by destruct o.
Qed.

(** ** What most operations do not touch *)

Lemma gvif_Ok v h o h' : gvif v h = Ok (o, h') -> h' = h /\ store h !! v = Some o.
Proof. intros E. unfold gvif in E. st_bind E. injection E0 as <- <-. by apply unwrap_Ok in E as [E ->]. Qed.

(** The part of an interface that only its own operations change. *)
Record core := Core { k_type : iftype; k_drv : Z; k_idx : Z; k_up : bool; k_netdev : bool; k_iff : bool }.
#[export] Instance eta_core : Settable core := fun k =>
  Core k.(k_type) k.(k_drv) k.(k_idx) k.(k_up) k.(k_netdev) k.(k_iff).
Definition core_of (o : vif) : core := Core (wtype o) (drv_vif_index o) (vif_index o) (up o) (netdev o) (iff_up o).

Record books := Books {
  b_store : gmap nat core; b_next : nat; b_vifs : list nat; b_table : list (option nat); b_avail : Z; b_started : Z;
  b_p2p : option nat
}.
#[export] Instance eta_books : Settable books := fun b =>
  Books b.(b_store) b.(b_next) b.(b_vifs) b.(b_table) b.(b_avail) b.(b_started) b.(b_p2p).
Definition books_of (h : hw) : books :=
  Books (core_of <$> store h) (next_vif h) (vifs h) (vif_table h) (avail_idx_map h) (vif_started h) (p2p_dev_vif h).

Definition untouched (B : books) (h : hw) : Prop := books_of h = B.

Lemma untouched_pvif B v f : (forall o, core_of (f o) = core_of o) -> keeps (untouched B) (pvif v f).
Proof.
  intros Hf. apply keeps_bind; [unfold gvif; keep_steps idtac |]. intros o. apply keeps_modify. intros h <-.
  unfold untouched, books_of. f_equal. cbn. rewrite <- (map_fmap_id (core_of <$> store h)), <- map_fmap_compose.
  apply map_eq. intros w. rewrite !lookup_fmap. destruct (decide (w = v)) as [-> | Hw].
  - rewrite lookup_alter_eq. destruct (store h !! v); cbn; [by rewrite Hf | done].
  - by rewrite lookup_alter_ne by done.
Qed.

Lemma untouched_modify B f : (forall h, books_of (f h) = books_of h) -> keeps (untouched B) (modify f).
Proof. intros Hf. apply keeps_modify. intros h <-. apply Hf. Qed.

Create HintDb vif.

(** [same d1 .. dn] unfolds the definitions and walks through them. *)
Ltac same_base :=
  first
  [ solve [eauto with vif nocore]
  | apply untouched_pvif; intros []; repeat case_match; reflexivity
  | apply untouched_modify; intros []; repeat case_match; reflexivity ].
Ltac same := keep_steps same_base.

Lemma same_emit B e : keeps (untouched B) (emit e).
Proof. unfold emit. same. Qed.
#[export] Hint Resolve same_emit : vif.
Lemma same_gvif B v : keeps (untouched B) (gvif v).
Proof. unfold gvif. same. Qed.
Lemma same_table B i : keeps (untouched B) (table i).
Proof. unfold table. same. Qed.
Lemma same_gsta B i : keeps (untouched B) (gsta i).
Proof. unfold gsta. same. Qed.
Lemma same_asta B v : keeps (untouched B) (asta v).
Proof. unfold asta, gvif. same. Qed.
Lemma same_aap B v : keeps (untouched B) (aap v).
Proof. unfold aap, gvif. same. Qed.
#[export] Hint Resolve same_gvif same_table same_gsta same_asta same_aap : vif.
Lemma same_psta B i f : keeps (untouched B) (psta i f).
Proof. unfold psta. same. Qed.
Lemma same_pasta B v f : keeps (untouched B) (pasta v f).
Proof. unfold pasta. same. Qed.
Lemma same_paap B v f : keeps (untouched B) (paap v f).
Proof. unfold paap. same. Qed.
Lemma same_conn B v c : keeps (untouched B) (rwnx_set_conn_state v c).
Proof. unfold rwnx_set_conn_state. same. Qed.
#[export] Hint Resolve same_psta same_pasta same_paap same_conn : vif.
Lemma same_link B v c f : keeps (untouched B) (rwnx_chanctx_link v c f).
Proof. unfold rwnx_chanctx_link. same. Qed.
Lemma same_unlink B v : keeps (untouched B) (rwnx_chanctx_unlink v).
Proof. unfold rwnx_chanctx_unlink. same. Qed.
#[export] Hint Resolve same_link same_unlink : vif.

Lemma same_first_with B i l : keeps (untouched B) (first_with i l).
Proof. induction l; cbn [first_with]; same. Qed.
#[export] Hint Resolve same_first_with : vif.

Lemma same_handle B i : keeps (untouched B) (handle i).
Proof.
  destruct i; cbn [handle];
    unfold rwnx_rx_sm_connect_ind, rwnx_rx_sm_disconnect_ind, rwnx_rx_sm_external_auth_required_ind, rwnx_rx_ps_change_ind,
      rwnx_rx_scanu_start_cfm, rwnx_rx_chan_pre_switch_ind, rwnx_rx_chan_switch_ind, rwnx_rx_remain_on_channel_exp_ind,
      rwnx_rx_csa_finish_ind, rwnx_rx_csa_traffic_ind, rwnx_apm_staloss_ind, on_channel, look_for, connected, connect_result,
      rwnx_external_auth_enable, rwnx_external_auth_disable, rwnx_ps_bh_enable.
  all: same.
Qed.
#[export] Hint Resolve same_handle : vif.

Section Env.
Context (env : hw -> req -> reply).

Lemma same_wait B r : keeps (untouched B) (wait env r).
Proof. unfold wait. same. Qed.
Hint Resolve same_wait : vif.
Lemma same_msg B m : keeps (untouched B) (rwnx_send_msg env m).
Proof. unfold rwnx_send_msg. same. Qed.
Hint Resolve same_msg : vif.
Lemma same_send B m : keeps (untouched B) (send env m).
Proof. unfold send. same. Qed.
Hint Resolve same_send : vif.
Lemma same_sleep B : keeps (untouched B) (sleep env).
Proof. unfold sleep. same. Qed.
Lemma same_remove_if B i : keeps (untouched B) (rwnx_send_remove_if env i).
Proof. unfold rwnx_send_remove_if. same. Qed.
Lemma same_add_if B v : keeps (untouched B) (rwnx_send_add_if env v).
Proof. unfold rwnx_send_add_if. same. Qed.
Lemma same_abort B v : keeps (untouched B) (abort_scan env v).
Proof. unfold abort_scan, rwnx_send_scanu_cancel_req. same. Qed.
Hint Resolve same_sleep same_remove_if same_add_if same_abort : vif.

Lemma same_first_sta B m b l : keeps (untouched B) (first_sta m b l).
Proof. induction l; cbn [first_sta]; same. Qed.
Lemma same_add_key B v i p m c k : keeps (untouched B) (rwnx_cfg80211_add_key env v i p m c k).
Proof. unfold rwnx_cfg80211_add_key, set_cipher. same. Qed.
Hint Resolve same_first_sta same_add_key : vif.

Lemma same_min_mesh B pm l : keeps (untouched B) (min_mesh_pm pm l).
Proof. revert pm. induction l; intros pm; cbn [min_mesh_pm]; same. Qed.
Hint Resolve same_min_mesh : vif.
Lemma same_mesh_pm B v : keeps (untouched B) (rwnx_update_mesh_power_mode env v).
Proof. unfold rwnx_update_mesh_power_mode. same. Qed.
Hint Resolve same_mesh_pm : vif.
Lemma same_drop B v i n : keeps (untouched B) (drop_sta env v i n).
Proof. unfold drop_sta, leave_vlan. same. Qed.
Hint Resolve same_drop : vif.
Lemma same_del_all B v n : keeps (untouched B) (del_all env v n).
Proof. induction n; cbn [del_all]; same. by intros h a h' _ E. Qed.
Hint Resolve same_del_all : vif.
Lemma same_del_station B v m : keeps (untouched B) (rwnx_cfg80211_del_station_compat env v m).
Proof. unfold rwnx_cfg80211_del_station_compat. same. Qed.
Hint Resolve same_del_station : vif.
Lemma same_stop_stations B v n : keeps (untouched B) (stop_stations env v n).
Proof. induction n; cbn [stop_stations]; same. by intros h a h' _ E. Qed.
Hint Resolve same_stop_stations : vif.

(** The operations that do not concern the interfaces as such. *)
Definition bystander (o : op) : bool :=
  match o with
  | OAdd _ _ | ODel _ | OChange _ _ _ _ | OOpen _ | OClose _ | OStopP2p _ | OP2pTimeout | OScan _ _ _ | ORoc _ _ => false
  | _ => true
  end.

Lemma same_bystander B o : bystander o = true -> keeps (untouched B) (run_op env o).
Proof.
  destruct o; intros H; try discriminate H; clear H; cbn [run_op]; unfold void;
    unfold rwnx_cfg80211_connect, rwnx_send_sm_connect_req, rwnx_cfg80211_disconnect, rwnx_cfg80211_external_auth,
      rwnx_external_auth_disable, rwnx_cfg80211_set_monitor_channel, rwnx_cfg80211_cancel_remain_on_channel,
      rwnx_cfg80211_del_key, set_cipher, rwnx_cfg80211_add_station, sta_added, rwnx_ps_bh_enable, apm_staloss_work_process,
      look_for, rwnx_cfg80211_change_station, change_mesh, change_vlan, rwnx_cfg80211_start_ap, ap_started, rwnx_cfg80211_stop_ap.
  all: same.
Qed.

End Env.

#[export] Hint Resolve same_wait same_sleep same_send same_remove_if same_add_if same_abort same_drop same_msg : vif.

End VifRuns.
