(* ===== verification/VifBooks.v ===== *)
(** * The tables of the virtual interfaces (theorems on [VifOps])

    [vif_table], [vif_started] and [avail_idx_map] agree with the interfaces
    that there are, after any operations and indications, if the firmware gives
    out only indices that are free and memory for messages is available. *)

From S2P Require Import Prelude State Vif VifOps VifSta VifRuns.
From stdpp Require Import list gmap.
Import Vif VifOps VifSta VifRuns.
Open Scope Z_scope.
Open Scope list_scope.

Module VifBooks.

(** ** Counting in a map *)

Section Count.
Context {A : Type} (f : A -> bool).
Implicit Types m : gmap nat A.

Definition countm m : Z := Z.of_nat (size (filter (fun p => f p.2 = true) m)).

Lemma countm_empty : countm ∅ = 0.
Proof. unfold countm. by rewrite map_filter_empty, map_size_empty. Qed.

Lemma countm_new m v x : m !! v = None -> countm (<[v := x]> m) = countm m + Z.b2z (f x).
Proof.
  intros H. unfold countm. destruct (f x) eqn:E.
  - rewrite map_filter_insert_True by done. rewrite map_size_insert_None; [cbn; lia |].
    apply map_lookup_filter_None. by left.
  - rewrite map_filter_insert_False by (cbn; congruence). rewrite delete_id by done. cbn. lia.
Qed.

Lemma countm_del m v x : m !! v = Some x -> countm (delete v m) = countm m - Z.b2z (f x).
Proof.
  intros H. rewrite <- (insert_id m v x) at 2 by done. rewrite <- insert_delete_eq, countm_new by apply lookup_delete_eq. lia.
Qed.

Lemma countm_set m v x y : m !! v = Some x -> countm (<[v := y]> m) = countm m - Z.b2z (f x) + Z.b2z (f y).
Proof. intros H. rewrite <- insert_delete_eq, countm_new by apply lookup_delete_eq. by rewrite (countm_del _ _ x). Qed.

Lemma countm_alter m v g x : m !! v = Some x -> countm (alter g v m) = countm m - Z.b2z (f x) + Z.b2z (f (g x)).
Proof.
  intros H. rewrite <- (countm_set m v x (g x) H). f_equal. apply map_eq. intros w.
  destruct (decide (w = v)) as [-> | Hw]; [by rewrite lookup_alter_eq, lookup_insert_eq, H |].
  by rewrite lookup_alter_ne, lookup_insert_ne by done.
Qed.

Lemma countm_nonneg m : 0 <= countm m.
Proof. unfold countm. lia. Qed.

Lemma countm_size m : countm m <= Z.of_nat (size m).
Proof. unfold countm. apply inj_le, map_size_filter. Qed.

Lemma countm_pos m v x : m !! v = Some x -> f x = true -> 0 < countm m.
Proof. intros H E. pose proof (countm_del m v x H) as D. rewrite E in D. pose proof (countm_nonneg (delete v m)). cbn in D. lia. Qed.

End Count.

Lemma is_Some_alter {A} (f : A -> A) (m : gmap nat A) v w : is_Some (alter f v m !! w) <-> is_Some (m !! w).
Proof.
  destruct (decide (w = v)) as [-> | Hw]; [by rewrite lookup_alter_eq, fmap_is_Some | by rewrite lookup_alter_ne].
Qed.

(** A map with distinct small numbers is small. *)
Lemma size_bound {A} (g : A -> Z) (m : gmap nat A) n :
  (forall v x, m !! v = Some x -> 0 <= g x < Z.of_nat n) ->
  (forall v w x y, m !! v = Some x -> m !! w = Some y -> g x = g y -> v = w) -> (size m <= n)%nat.
Proof.
  intros Hr Hi.
  assert (Hn : NoDup ((fun p : nat * A => g p.2) <$> map_to_list m)).
  { apply NoDup_fmap_2_strong; [| apply NoDup_map_to_list].
    intros [v x] [w y] Hv Hw E. apply elem_of_map_to_list in Hv, Hw. cbn in E.
    pose proof (Hi _ _ _ _ Hv Hw E) as ->. congruence. }
  assert (Hs : (fun p : nat * A => g p.2) <$> map_to_list m ⊆ seqZ 0 (Z.of_nat n)).
  { intros z Hz. apply list_elem_of_fmap in Hz as ([v x] & -> & Hv). apply elem_of_map_to_list in Hv.
    apply elem_of_seqZ. cbn. pose proof (Hr _ _ Hv). lia. }
  pose proof (submseteq_length _ _ (NoDup_submseteq _ _ Hn Hs)) as L.
  rewrite length_fmap, length_map_to_list, length_seqZ in L. lia.
Qed.

(** ** The books agree *)

(** [e] is the interface that is being opened or closed; with [closing] it is
    down already, and still in the tables. *)
Record accounted (e : option nat) (closing : bool) (b : books) : Prop := {
  ac_drv : forall v k, b_store b !! v = Some k ->
    0 <= k_drv k < 36 /\ Z.testbit (b_avail b) (k_drv k) = false /\ (k_type k = AP_VLAN -> 4 <= k_drv k);
  ac_inj : forall v w k l, b_store b !! v = Some k -> b_store b !! w = Some l -> k_drv k = k_drv l -> v = w;
  ac_avail : forall i, 0 <= i < 36 -> Z.testbit (b_avail b) i = false -> exists v k, b_store b !! v = Some k /\ k_drv k = i;
  ac_vifs : NoDup (b_vifs b) /\ forall v, v ∈ b_vifs b <-> is_Some (b_store b !! v);
  ac_len : length (b_table b) = 36%nat;
  ac_table : forall i v, b_table b !! i = Some (Some v) -> exists k, b_store b !! v = Some k /\
    k_idx k = Z.of_nat i /\ (k_up k = true \/ closing = true /\ e = Some v) /\ (4 <= Z.of_nat i -> k_drv k = Z.of_nat i);
  ac_started : b_started b = countm k_up (b_store b) + Z.b2z closing;
  ac_iff : forall v k, b_store b !! v = Some k ->
    (k_netdev k = false -> k_iff k = false) /\ (k_netdev k = true -> e <> Some v -> k_up k = k_iff k);
  ac_next : forall v k, b_store b !! v = Some k -> (v < b_next b)%nat;
  ac_p2p : forall v, b_p2p b = Some v -> (v < b_next b)%nat /\ forall k, b_store b !! v = Some k -> k_netdev k = false
}.

Lemma accounted_size e c b : accounted e c b -> (size (b_store b) <= 36)%nat.
Proof.
  intros H. apply (size_bound k_drv _ 36); [| apply (ac_inj _ _ _ H)]. intros v k Hv. by apply (ac_drv _ _ _ H) in Hv as [? _].
Qed.

(** The operations on the books. *)
Definition b_add (v : nat) (k : core) (b : books) : books :=
  b <| b_store ::= <[v := k]> |> <| b_next := S v |> <| b_vifs ::= (.++ [v]) |> <| b_avail ::= fun m => Z.ldiff m (2 ^ k_drv k) |>.
Definition b_del (v : nat) (k : core) (b : books) : books :=
  b <| b_store ::= delete v |> <| b_vifs ::= filter (fun w => w <> v) |> <| b_avail ::= fun m => Z.lor m (2 ^ k_drv k) |>.
Definition b_up (v : nat) (i : Z) (b : books) : books :=
  b <| b_store ::= alter (fun k => k <| k_idx := i |> <| k_up := true |>) v |>
    <| b_started ::= fun n => u8 (n + 1) |> <| b_table ::= <[Z.to_nat (u8 i) := Some v]> |>.
Definition b_core (v : nat) (f : core -> core) (b : books) : books := b <| b_store ::= alter f v |>.
Definition b_clear (i : Z) (b : books) : books := b <| b_table ::= <[Z.to_nat (u8 i) := None]> |>.
Definition b_dev (v : nat) (b : books) : books := b <| b_p2p := Some v |>.
Definition b_less (b : books) : books := b <| b_started ::= fun n => u8 (n - 1) |>.

Lemma testbit_ldiff_pow m i j : 0 <= i -> 0 <= j -> Z.testbit (Z.ldiff m (2 ^ i)) j = Z.testbit m j && negb (i =? j).
Proof. intros Hi Hj. by rewrite Z.ldiff_spec, Z.pow2_bits_eqb by done. Qed.
Lemma testbit_lor_pow m i j : 0 <= i -> 0 <= j -> Z.testbit (Z.lor m (2 ^ i)) j = Z.testbit m j || (i =? j).
Proof. intros Hi Hj. by rewrite Z.lor_spec, Z.pow2_bits_eqb by done. Qed.

Lemma accounted_add e c b v k :
  accounted e c b -> v = b_next b -> 0 <= k_drv k < 36 -> Z.testbit (b_avail b) (k_drv k) = true ->
  (k_type k = AP_VLAN -> 4 <= k_drv k) -> k_up k = false -> k_iff k = false -> accounted e c (b_add v k b).
Proof.
  intros H Hnx Hd Ha Ht Hu Hi. destruct H as [H1 H2 H3 [H4 H4'] H5 H6 H7 H8 H9 H10].
  assert (Hv : b_store b !! v = None).
  { destruct (b_store b !! v) eqn:E; [| done]. apply H9 in E. lia. }
  assert (Hne : forall w l, b_store b !! w = Some l -> k_drv l <> k_drv k).
  { intros w l Hw E. apply H1 in Hw as (_ & Hb & _). congruence. }
  split; cbn.
  - intros w l Hw. rewrite testbit_ldiff_pow by (destruct (decide (w = v)); simplify_map_eq; [lia | apply H1 in Hw; lia]).
    destruct (decide (w = v)) as [-> |]; simplify_map_eq; [by rewrite Z.eqb_refl, andb_false_r |].
    destruct (H1 _ _ Hw) as (? & -> & ?). done.
  - intros w w' l l' Hw Hw' E. destruct (decide (w = v)) as [-> |], (decide (w' = v)) as [-> |]; simplify_map_eq; [done | | |].
    + by apply Hne in Hw'.
    + by apply Hne in Hw.
    + by eapply H2.
  - intros i Hi36 E. rewrite testbit_ldiff_pow in E by lia. destruct (Z.eqb_spec (k_drv k) i) as [<- | Hn].
    + exists v, k. by rewrite lookup_insert_eq.
    + rewrite andb_true_r in E. destruct (H3 _ Hi36 E) as (w & l & Hw & <-). exists w, l. split; [| done].
      rewrite lookup_insert_ne; [done | intros ->; congruence].
  - split.
    + apply NoDup_app. repeat split; [done | | apply NoDup_singleton].
      intros w Hw ->%list_elem_of_singleton. apply H4' in Hw as [? ?]. congruence.
    + intros w. rewrite elem_of_app, list_elem_of_singleton, H4'. destruct (decide (w = v)) as [-> |]; simplify_map_eq; [naive_solver |].
      naive_solver.
  - done.
  - intros i w Hw. destruct (H6 _ _ Hw) as (l & Hl & ?). exists l. split; [| done].
    rewrite lookup_insert_ne; [done | intros ->; congruence].
  - rewrite countm_new by done. rewrite Hu, H7. cbn. lia.
  - intros w l Hw. destruct (decide (w = v)) as [-> |]; simplify_map_eq; [by rewrite Hu, Hi | by apply (H8 w)].
  - intros w l Hw. destruct (decide (w = v)) as [-> |]; simplify_map_eq; [lia | apply H9 in Hw; lia].
  - intros w Hw. destruct (H10 _ Hw) as [? Hx]. split; [lia |]. intros l Hl. rewrite lookup_insert_ne in Hl by lia. by apply Hx.
Qed.

Lemma accounted_enter b v : accounted None false b -> accounted (Some v) false b.
Proof.
  intros [H1 H2 H3 H4 H5 H6 H7 H8 H9 H10]. split; try done.
  - intros i w Hw. destruct (H6 _ _ Hw) as (l & ? & ? & [? | [? ?]] & ?); [| done]. exists l. auto.
  - intros w l Hw. destruct (H8 _ _ Hw) as [? ?]. auto.
Qed.

Lemma accounted_exit b v :
  accounted (Some v) false b ->
  (forall k, b_store b !! v = Some k -> k_netdev k = true -> k_up k = k_iff k) -> accounted None false b.
Proof.
  intros [H1 H2 H3 H4 H5 H6 H7 H8 H9 H10] Hv. split; try done.
  - intros i w Hw. destruct (H6 _ _ Hw) as (l & ? & ? & [? | [? ?]] & ?); [| done]. exists l. auto.
  - intros w l Hw. destruct (H8 _ _ Hw) as [? Hx]. split; [done |]. intros Hn _.
    destruct (decide (w = v)) as [-> |]; [by apply Hv | apply Hx; congruence].
Qed.

(** Changes of one interface that leave the tables alone. *)
Lemma accounted_core e c e' c' b v f k :
  accounted e c b -> b_store b !! v = Some k ->
  k_drv (f k) = k_drv k -> k_netdev (f k) = k_netdev k -> (k_type (f k) = AP_VLAN -> k_type k = AP_VLAN) ->
  (forall i, b_table b !! i = Some (Some v) -> k_idx (f k) = k_idx k /\ (k_up (f k) = true \/ c' = true /\ e' = Some v)) ->
  (c = true -> e = e' /\ c' = true) -> (forall w, e' <> Some w -> w <> v -> e <> Some w) ->
  Z.b2z (k_up (f k)) + Z.b2z c' = Z.b2z (k_up k) + Z.b2z c ->
  (k_netdev (f k) = false -> k_iff (f k) = false) -> (k_netdev (f k) = true -> e' <> Some v -> k_up (f k) = k_iff (f k)) ->
  accounted e' c' (b_core v f b).
Proof.
  intros [H1 H2 H3 [H4 H4'] H5 H6 H7 H8 H9 H10] Hv Fd Fo Ft Fi Fc Fe Fu Fn Fx. split; cbn.
  - intros w l Hw. destruct (decide (w = v)) as [-> |].
    + rewrite lookup_alter_eq, Hv in Hw. injection Hw as <-. destruct (H1 _ _ Hv) as (? & ? & ?). rewrite Fd. repeat split; auto; lia.
    + rewrite lookup_alter_ne in Hw by done. by apply (H1 w).
  - intros w w' l l' Hw Hw' E.
    destruct (decide (w = v)) as [-> |], (decide (w' = v)) as [-> |]; rewrite ?lookup_alter_eq, ?Hv in *; rewrite ?lookup_alter_ne in * by done;
      simplify_eq/=; rewrite ?Fd in *; by eauto.
  - intros i Hi E. destruct (H3 _ Hi E) as (w & l & Hw & <-). destruct (decide (w = v)) as [-> |].
    + exists v, (f k). rewrite lookup_alter_eq, Hv. split; [done | congruence].
    + exists w, l. by rewrite lookup_alter_ne.
  - split; [done |]. intros w. by rewrite H4', is_Some_alter.
  - done.
  - intros i w Hw. destruct (H6 _ _ Hw) as (l & Hl & Hx & Hy & Hz). destruct (decide (w = v)) as [-> |].
    + rewrite Hv in Hl. injection Hl as <-. destruct (Fi _ Hw) as [F1 F2]. exists (f k). rewrite lookup_alter_eq, Hv, F1, Fd. auto.
    + exists l. rewrite lookup_alter_ne by done. repeat split; auto. destruct Hy as [? | [Hc ->]]; [by left |].
      destruct (Fc Hc) as [<- ?]. auto.
  - rewrite (countm_alter _ _ _ _ _ Hv). lia.
  - intros w l Hw. destruct (decide (w = v)) as [-> |].
    + rewrite lookup_alter_eq, Hv in Hw. injection Hw as <-. auto.
    + rewrite lookup_alter_ne in Hw by done. destruct (H8 _ _ Hw) as [? Hx]. split; [done |]. intros ? ?. by apply Hx; [| apply Fe].
  - intros w l Hw. destruct (decide (w = v)) as [-> |]; [by eapply H9 | rewrite lookup_alter_ne in Hw by done; by eapply H9].
  - intros w Hw. destruct (H10 _ Hw) as [? Hx]. split; [done |]. intros l Hl. destruct (decide (w = v)) as [-> |].
    + rewrite lookup_alter_eq, Hv in Hl. injection Hl as <-. rewrite Fo. by apply Hx.
    + rewrite lookup_alter_ne in Hl by done. by apply Hx.
Qed.

(** A new interface of the firmware. *)
Lemma accounted_up e b v i k :
  accounted e false b -> b_store b !! v = Some k -> k_up k = false -> 0 <= i < 36 ->
  (i < 4 -> b_table b !! Z.to_nat i = Some None) -> (4 <= i -> k_drv k = i) -> (k_netdev k = true -> e = Some v) ->
  accounted e false (b_up v i b).
Proof.
  intros H Hv Hu Hi Hs Hl Hn.
  assert (Hno : forall j, b_table b !! j = Some (Some v) -> False).
  { intros j Hj. destruct (ac_table _ _ _ H _ _ Hj) as (l & Hl' & _ & [? | [? _]] & _); [congruence | done]. }
  pose proof (accounted_size _ _ _ H) as Hsz.
  destruct H as [H1 H2 H3 [H4 H4'] H5 H6 H7 H8 H9 H10]. set (f := fun k : core => k <| k_idx := i |> <| k_up := true |>).
  assert (Hlt : Z.to_nat (u8 i) = Z.to_nat i) by (rewrite u8_id; lia).
  split; cbn; rewrite ?Hlt.
  - intros w l Hw. destruct (decide (w = v)) as [-> |]; [| rewrite lookup_alter_ne in Hw by done; by apply (H1 w l Hw)].
    rewrite lookup_alter_eq, Hv in Hw. injection Hw as <-. exact (H1 v k Hv).
  - intros w w' l l' Hw Hw' E.
    destruct (decide (w = v)) as [-> |], (decide (w' = v)) as [-> |]; rewrite ?lookup_alter_eq, ?Hv in *; rewrite ?lookup_alter_ne in * by done;
      simplify_eq/=; by eauto.
  - intros j Hj E. destruct (H3 _ Hj E) as (w & l & Hw & <-). destruct (decide (w = v)) as [-> |].
    + exists v, (f k). rewrite lookup_alter_eq, Hv. split; [done |]. cbn. congruence.
    + exists w, l. by rewrite lookup_alter_ne.
  - split; [done |]. intros w. by rewrite H4', is_Some_alter.
  - by rewrite length_insert.
  - intros j w Hw. destruct (decide (j = Z.to_nat i)) as [-> |].
    + rewrite list_lookup_insert_eq in Hw by lia. injection Hw as <-. exists (f k). rewrite lookup_alter_eq, Hv.
      repeat split; [cbn; lia | by left |]. intros ?. cbn. rewrite Hl; lia.
    + rewrite list_lookup_insert_ne in Hw by done. destruct (H6 _ _ Hw) as (l & Hl' & ?). exists l. split; [| done].
      rewrite lookup_alter_ne; [done |]. intros ->. by eapply Hno.
  - rewrite (countm_alter _ _ _ _ _ Hv), Hu, H7. cbn. rewrite u8_id; [lia |].
    pose proof (countm_nonneg k_up (b_store b)). pose proof (countm_size k_up (b_store b)). lia.
  - intros w l Hw. destruct (decide (w = v)) as [-> |].
    + rewrite lookup_alter_eq, Hv in Hw. injection Hw as <-. destruct (H8 _ _ Hv) as [? _]. split; [done |]. intros ? Hne. by destruct Hne; auto.
    + rewrite lookup_alter_ne in Hw by done. by apply (H8 w).
  - intros w l Hw. destruct (decide (w = v)) as [-> |]; [by eapply H9 | rewrite lookup_alter_ne in Hw by done; by eapply H9].
  - intros w Hw. destruct (H10 _ Hw) as [? Hx]. split; [done |]. intros l Hl0. destruct (decide (w = v)) as [-> |].
    + rewrite lookup_alter_eq, Hv in Hl0. injection Hl0 as <-. exact (Hx k Hv).
    + rewrite lookup_alter_ne in Hl0 by done. by apply Hx.
Qed.

(** An entry of the table is cleared. *)
Lemma accounted_clear e c b i : accounted e c b -> accounted e c (b_clear i b).
Proof.
  intros [H1 H2 H3 H4 H5 H6 H7 H8 H9 H10]. split; cbn; try done; [by rewrite length_insert |].
  intros j w Hw. destruct (decide (j = Z.to_nat (u8 i))) as [-> |].
  - destruct (decide (Z.to_nat (u8 i) < length (b_table b))%nat).
    + by rewrite list_lookup_insert_eq in Hw.
    + rewrite list_insert_ge in Hw by lia. by apply H6.
  - rewrite list_lookup_insert_ne in Hw by done. by apply H6.
Qed.

(** The end of closing: the entry is cleared and the interface not counted. *)
Lemma accounted_less b v k :
  accounted (Some v) true b -> b_store b !! v = Some k ->
  accounted (Some v) false (b_less (b_clear (k_idx k) b)).
Proof.
  intros H Hv. pose proof (accounted_clear _ _ _ (k_idx k) H) as [H1 H2 H3 H4 H5 H6 H7 H8 H9 H10].
  pose proof (accounted_size _ _ _ H). destruct H as [_ _ _ _ L T _ _ _ _]. split; try done.
  - intros j w Hw. destruct (H6 _ _ Hw) as (l & Hl & Hx & Hy & Hz). exists l. repeat split; auto.
    destruct Hy as [? | [_ [= <-]]]; [by left |]. exfalso. cbn in Hw, Hl. rewrite Hv in Hl. injection Hl as <-.
    pose proof (lookup_lt_Some _ _ _ Hw) as Hj. rewrite length_insert in Hj. rewrite Hx, u8_id, Nat2Z.id in Hw by lia.
    destruct (decide (j < length (b_table b))%nat); [by rewrite list_lookup_insert_eq in Hw |].
    rewrite list_insert_ge in Hw by lia. apply lookup_lt_Some in Hw. lia.
  - cbn in *. rewrite H7. cbn. rewrite u8_id; [lia |].
    pose proof (countm_nonneg k_up (b_store b)). pose proof (countm_size k_up (b_store b)). lia.
Qed.

(** The interface of the firmware is replaced. *)
Lemma accounted_move b v i k :
  accounted None false b -> b_store b !! v = Some k -> k_up k = true -> 0 <= i < 4 -> b_table b !! Z.to_nat i = Some None ->
  (forall j, b_table b !! j <> Some (Some v)) ->
  accounted None false ((b_core v (fun k => k <| k_idx := i |>) b) <| b_table ::= <[Z.to_nat (u8 i) := Some v]> |>).
Proof.
  intros H Hv Hu Hi Hs Hno.
  assert (H' : accounted None false (b_core v (fun k => k <| k_idx := i |>) b)).
  { apply (accounted_core None false _ _ _ _ _ k H Hv); try done.
    - intros j Hj. by destruct (Hno j).
    - apply (ac_iff _ _ _ H v k Hv).
    - intros ? _. by apply (ac_iff _ _ _ H v k Hv). }
  destruct H' as [H1 H2 H3 H4 H5 H6 H7 H8 H9 H10]. split; try done; cbn in *.
  - by rewrite length_insert.
  - intros j w Hw. rewrite u8_id in Hw by lia. destruct (decide (j = Z.to_nat i)) as [-> |].
    + cbn in Hw, H5. rewrite list_lookup_insert_eq in Hw by lia. injection Hw as <-. exists (k <| k_idx := i |>). cbn.
      rewrite lookup_alter_eq, Hv. repeat split; [cbn; lia | auto | lia].
    + rewrite list_lookup_insert_ne in Hw by done. by apply H6.
Qed.

(** Another P2P device. *)
Lemma accounted_dev b e c v :
  accounted e c b -> (v < b_next b)%nat -> (forall k, b_store b !! v = Some k -> k_netdev k = false) -> accounted e c (b_dev v b).
Proof. intros [H1 H2 H3 H4 H5 H6 H7 H8 H9 H10] Hv Hk. split; try done. by intros w [= <-]. Qed.

(** Removing an interface that is down. *)
Lemma accounted_del b v k :
  accounted (Some v) false b \/ accounted None false b -> b_store b !! v = Some k -> k_up k = false ->
  accounted None false (b_del v k b).
Proof.
  intros H Hv Hu. assert (H' : accounted (Some v) false b).
  { destruct H; [done | by apply accounted_enter]. }
  destruct H' as [H1 H2 H3 [H4 H4'] H5 H6 H7 H8 H9 H10]. destruct (H1 _ _ Hv) as (Hd & _ & _). split; cbn.
  - intros w l [Hw Hl]%lookup_delete_Some. destruct (H1 _ _ Hl) as (? & Hb & ?). repeat split; try done; try lia.
    rewrite testbit_lor_pow, Hb by lia. apply Z.eqb_neq. intros E. apply Hw. by eapply H2.
  - intros w w' l l' [_ Hl]%lookup_delete_Some [_ Hl']%lookup_delete_Some. by apply H2.
  - intros i Hi E. rewrite testbit_lor_pow in E by lia. apply orb_false_iff in E as [E En%Z.eqb_neq].
    destruct (H3 _ Hi E) as (w & l & Hw & <-). exists w, l. split; [| done]. rewrite lookup_delete_ne; [done |].
    intros ->. rewrite Hv in Hw. by injection Hw as ->.
  - split; [by apply NoDup_filter |]. intros w. rewrite list_elem_of_filter, H4', lookup_delete_is_Some. naive_solver.
  - done.
  - intros i w Hw. destruct (H6 _ _ Hw) as (l & Hl & Hx & [Hy | [? _]] & Hz); [| done]. exists l. repeat split; [| done | by left | done].
    rewrite lookup_delete_ne; [done |]. intros ->. congruence.
  - rewrite (countm_del _ _ _ _ Hv), H7, Hu. cbn. lia.
  - intros w l [Hw Hl]%lookup_delete_Some. destruct (H8 _ _ Hl) as [? Hy]. split; [done |]. intros Hn _. apply Hy; [done | congruence].
  - intros w l [_ Hl]%lookup_delete_Some. by eapply H9.
  - intros w Hw. destruct (H10 _ Hw) as [? Hx]. split; [done |]. intros l [_ Hl]%lookup_delete_Some. by apply Hx.
Qed.

End VifBooks.
