(* ===== verification/VifTables.v ===== *)
(** * The tables of the virtual interfaces: the operations (theorems on [VifOps], [VifSta])

    Each operation on interfaces keeps the books in order ([VifBooks]), if the
    firmware gives out only indices that are free and there is memory for
    messages. *)

From S2P Require Import Prelude State Vif VifOps VifSta VifRuns VifBooks.
From stdpp Require Import list gmap.
Import Vif VifOps VifSta VifRuns VifBooks.
Open Scope Z_scope.
Open Scope list_scope.

Module VifTables.

(** A computation that keeps the books was run. *)
Ltac pass HB E :=
  match type of E with
  | ?m ?h = Ok (?a, ?h') =>
    let H := fresh in
    assert (H : untouched _ h') by (eapply (fun K : keeps (untouched _) m => K h a h'); [same | exact HB | exact E]);
    clear HB; rename H into HB
  end.

Lemma gvif_at B v h o h' : untouched B h -> gvif v h = Ok (o, h') -> h' = h /\ b_store B !! v = Some (core_of o).
Proof.
  intros <- E. apply gvif_Ok in E as [-> E]. split; [done |]. cbn. by rewrite lookup_fmap, E.
Qed.

Lemma pvif_at B v f g h a h' :
  untouched B h -> (forall o, core_of (f o) = g (core_of o)) -> pvif v f h = Ok (a, h') ->
  untouched (b_core v g B) h' /\ is_Some (b_store B !! v).
Proof.
  intros HB Hf E. unfold pvif in E. st_bind E. destruct (gvif_at _ _ _ _ _ HB E0) as [-> Hv]. injection E as _ <-.
  split; [| by rewrite Hv]. destruct HB. unfold untouched, books_of. unfold b_core. cbn. f_equal.
  apply map_eq. intros w. destruct (decide (w = v)) as [-> | Hw].
  - rewrite lookup_fmap, !lookup_alter_eq, lookup_fmap. destruct (store h !! v); cbn; [by rewrite Hf | done].
  - by rewrite lookup_fmap, !lookup_alter_ne, lookup_fmap by done.
Qed.

Lemma modify_at B F f h a h' :
  untouched B h -> (forall h, books_of (f h) = F (books_of h)) -> modify f h = Ok (a, h') -> untouched (F B) h'.
Proof. intros <- Hf [= _ <-]. apply Hf. Qed.

Definition b_entry (i : Z) (o : option nat) (b : books) : books := b <| b_table ::= <[Z.to_nat (u8 i) := o]> |>.

Lemma set_table_at B i o h a h' :
  untouched B h -> set_table i o h = Ok (a, h') -> untouched (b_entry i o B) h'.
Proof.
  intros HB E. unfold set_table in E. st_bind E. pass HB E0. by eapply (modify_at _ (b_entry i o)) in E; [| exact HB |].
Qed.

Lemma vif_is_up_at B v i h a h' : untouched B h -> vif_is_up v i h = Ok (a, h') -> untouched (b_up v i B) h'.
Proof.
  intros HB E. unfold vif_is_up in E. st_bind E. st_bind E.
  eapply (pvif_at _ _ _ (fun k => k <| k_idx := i |> <| k_up := true |>)) in E0 as [HB' _]; [| exact HB | by intros []].
  eapply (modify_at _ (fun b => b <| b_started ::= fun n => u8 (n + 1) |>)) in E1; [| exact HB' | done].
  by eapply set_table_at in E; [| exact E1].
Qed.

Definition b_down (v : nat) (k : core) (b : books) : books :=
  b_less (b_clear (k_idx k) (b_core v (fun k => k <| k_up := false |>) b)).

Lemma vif_is_down_at B v h a h' :
  untouched B h -> vif_is_down v h = Ok (a, h') -> exists k, b_store B !! v = Some k /\ untouched (b_down v k B) h'.
Proof.
  intros HB E. unfold vif_is_down in E. st_bind E. destruct (gvif_at _ _ _ _ _ HB E0) as [-> Hv].
  exists (core_of x). split; [done |]. st_bind E.
  eapply (pvif_at _ _ _ (fun k => k <| k_up := false |>)) in E1 as [HB' _]; [| exact HB | by intros []].
  st_bind E. eapply set_table_at in E1; [| exact HB']. by eapply (modify_at _ b_less) in E; [| exact E1 |].
Qed.

Lemma link_vif_at B v o h a h' : untouched B h -> link_vif v o h = Ok (a, h') -> untouched (b_add v (core_of o) B) h'.
Proof.
  intros HB E. eapply (modify_at _ (b_add v (core_of o))) in E; [done | exact HB |]. intros h0.
  unfold books_of, b_add. cbn. f_equal. by rewrite fmap_insert.
Qed.

Lemma list_del_vif_at B v h a h' :
  untouched B h -> list_del_vif v h = Ok (a, h') -> exists k, b_store B !! v = Some k /\ untouched (b_del v k B) h'.
Proof.
  intros HB E. unfold list_del_vif in E. st_bind E. destruct (gvif_at _ _ _ _ _ HB E0) as [-> Hv].
  exists (core_of x). split; [done |]. eapply (modify_at _ (b_del v (core_of x))) in E; [done | exact HB |]. intros h0.
  unfold books_of, b_del. cbn. f_equal. by rewrite fmap_delete.
Qed.

Lemma accounted_closing e b v k :
  accounted e false b -> b_store b !! v = Some k -> k_up k = true -> e = None \/ e = Some v ->
  accounted (Some v) true (b_core v (fun k => k <| k_up := false |>) b).
Proof.
  intros H Hv Hu He. apply (accounted_core e false _ _ _ _ _ k H Hv); cbn; try done.
  - auto.
  - intros w Hw Hn. destruct He as [-> | ->]; congruence.
  - by rewrite Hu.
  - by apply (ac_iff _ _ _ H v k Hv).
Qed.

Lemma accounted_closed b v k :
  accounted (Some v) true (b_core v (fun k => k <| k_up := false |>) b) -> b_store b !! v = Some k ->
  accounted (Some v) false (b_down v k b).
Proof.
  intros H Hv. apply (accounted_less _ v (k <| k_up := false |>)) in H; [done |]. cbn. by rewrite lookup_alter_eq, Hv.
Qed.

Lemma accounted_device_down b v k :
  accounted None false b -> b_store b !! v = Some k -> k_up k = true -> k_netdev k = false ->
  accounted None false (b_down v k b).
Proof.
  intros H Hv Hu Hn. apply (accounted_exit _ v).
  - apply accounted_closed; [| done]. eapply accounted_closing; eauto.
  - intros l. cbn. rewrite lookup_alter_eq, Hv. intros [= <-]. cbn. congruence.
Qed.

(** ** What the firmware and the kernel promise *)

Definition memory_for_messages (env : hw -> req -> reply) : Prop := forall h m, allocated (env h (Confirm m)) = true.

(** An interface that the firmware accepts has an index that is free. *)
Definition gives_free_index (env : hw -> req -> reply) : Prop := forall h t mac,
  let r := env h (Confirm (MM_ADD_IF t mac)) in
  VifOps.status r = 0 -> 0 <= index r < NX_VIRT_DEV_MAX /\ vif_table h !! Z.to_nat (index r) = Some None.

Section Env.
Context (env : hw -> req -> reply).

Lemma same_wait_closed B v n : keeps (untouched B) (wait_closed env v n).
Proof. induction n; cbn [wait_closed]; same. Qed.
Lemma same_wait_stable B v f n : keeps (untouched B) (wait_stable env v f n).
Proof. induction n; cbn [wait_stable]; same. Qed.
Lemma same_any_p2p B l : keeps (untouched B) (any_p2p l).
Proof. induction l; cbn [any_p2p]; same. Qed.
Lemma same_find_master B m l : keeps (untouched B) (find_master m l).
Proof. induction l; cbn [find_master]; same. Qed.
Lemma same_cancel B : keeps (untouched B) (rwnx_send_scanu_cancel_req env).
Proof. unfold rwnx_send_scanu_cancel_req. same. Qed.
Lemma same_start_fw B : keeps (untouched B) (start_fw env).
Proof. unfold start_fw. same. Qed.
Lemma same_close_carrier B v : keeps (untouched B) (close_carrier v).
Proof. unfold close_carrier. same. Qed.
Lemma same_reset_fw B : keeps (untouched B) (reset_fw env).
Proof. unfold reset_fw. same. Qed.
Lemma same_drop_roc B v : keeps (untouched B) (drop_roc v).
Proof.
  apply untouched_modify. intros h. destruct (roc_elem h) as [r |]; [| done]. by destruct (bool_decide (r_wdev r = v)).
Qed.
Lemma same_open_monitor B v : keeps (untouched B) (open_monitor env v).
Proof. unfold open_monitor. same. Qed.
Lemma same_rearm B : keeps (untouched B) rearm_p2p_timer.
Proof. unfold rearm_p2p_timer. same. Qed.
Hint Resolve same_wait_closed same_wait_stable same_any_p2p same_cancel same_find_master same_start_fw same_close_carrier same_reset_fw same_drop_roc
  same_open_monitor same_rearm : vif.
Lemma same_close_fw B v : keeps (untouched B) (close_fw env v).
Proof. unfold close_fw. same. Qed.
Hint Resolve same_close_fw : vif.

Context (Hmem : memory_for_messages env) (Hfree : gives_free_index env).

Lemma send_at B m h r h' :
  untouched B h -> send env m h = Ok (r, h') -> untouched B h' /\ r.1 = 0 /\ exists h0, untouched B h0 /\ r.2 = env h0 (Confirm m).
Proof.
  intros HB E. split; [by eapply same_send |]. unfold send in E. st_bind E. injection E0 as <- <-. rewrite Hmem in E. cbn in E.
  unfold rwnx_send_msg in E. st_bind E. injection E0 as <- <-. destruct (bus_down h).
  - st_bind E. injection E as <- _. split; [done |]. by exists h.
  - st_bind E. pass HB E0. st_bind E. injection E as <- _. split; [done |]. unfold wait in E1. st_bind E1. injection E as <- <-.
    st_bind E1. st_bind E1. injection E1 as <- _. by exists x0.
Qed.

Definition accepted_at (B : books) (i : Z) : Prop := 0 <= i < 4 /\ b_table B !! Z.to_nat i = Some None.

Lemma add_if_at B v h r h' :
  untouched B h -> rwnx_send_add_if env v h = Ok (r, h') ->
  untouched B h' /\ exists k, b_store B !! v = Some k /\
  (k_type k = AP_VLAN /\ r.1 = -1 \/ r.1 = 0 /\ (VifOps.status r.2 = 0 -> u8 (index r.2) = index r.2 /\ accepted_at B (index r.2))).
Proof.
  intros HB E. split; [by eapply same_add_if |]. unfold rwnx_send_add_if in E. st_bind E.
  destruct (gvif_at _ _ _ _ _ HB E0) as [-> Hv]. exists (core_of x). split; [done |].
  case_bool_decide; [left; by injection E as <- _ |]. right.
  destruct (send_at _ _ _ _ _ HB E) as (_ & Hr & h0 & H0 & ->). split; [done |]. intros Hs.
  destruct (Hfree h0 _ _ Hs) as [Hi Ht]. unfold NX_VIRT_DEV_MAX in Hi. split; [apply u8_id; lia |]. split; [done |].
  by destruct H0.
Qed.

(** ** The P2P device *)

(** The net devices are what they were. *)
Definition still (e : option nat) (B : books) (h : hw) : Prop :=
  exists B', untouched B' h /\ accounted e false B' /\
  forall v k, b_store B !! v = Some k -> k_netdev k = true -> b_store B' !! v = Some k.

Lemma still_same e B h : untouched B h -> accounted e false B -> still e B h.
Proof. intros. by exists B. Qed.

Lemma still_trans e B B1 h :
  (forall v k, b_store B !! v = Some k -> k_netdev k = true -> b_store B1 !! v = Some k) -> still e B1 h -> still e B h.
Proof. intros H (B' & ? & ? & ?). exists B'. auto. Qed.

Lemma device_up e B d i k h :
  accounted e false B -> b_store B !! d = Some k -> k_netdev k = false -> k_up k = false -> accepted_at B i ->
  untouched (b_up d i B) h -> still e B h.
Proof.
  intros H Hd Hn Hu [Hi Ht] Hh. exists (b_up d i B). split; [done |]. split.
  - apply (accounted_up _ _ _ _ k); try done; [lia | lia | congruence].
  - intros v l Hv Hl. cbn. rewrite lookup_alter_ne; [done |]. intros ->. congruence.
Qed.

Lemma p2p_is_device e B d k : accounted e false B -> b_p2p B = Some d -> b_store B !! d = Some k -> k_netdev k = false.
Proof. intros H Hp. by apply (ac_p2p _ _ _ H). Qed.

Lemma p2p_at B h : untouched B h -> p2p_dev_vif h = b_p2p B.
Proof. by intros <-. Qed.

(** The start of the P2P device, as the three callers do it. *)
Lemma start_device e B d h r h1 a h2 :
  accounted e false B -> untouched B h -> b_p2p B = Some d -> rwnx_send_add_if env d h = Ok (r, h1) ->
  (forall k, b_store B !! d = Some k -> k_up k = false) -> r.1 = 0 -> VifOps.status r.2 = 0 ->
  vif_is_up d (u8 (index r.2)) h1 = Ok (a, h2) -> still e B h2.
Proof.
  intros H HB Hp E Hu Hr Hs E2. destruct (add_if_at _ _ _ _ _ HB E) as (HB1 & k & Hk & [[_ Hx] | [_ Hx]]); [lia |].
  destruct (Hx Hs) as [Hi Ha]. rewrite Hi in E2. apply (vif_is_up_at _ _ _ _ _ _ HB1) in E2.
  eapply device_up; eauto. by eapply p2p_is_device.
Qed.

Lemma open_p2p_dev_at e B t h r h' :
  accounted e false B -> untouched B h -> open_p2p_dev env t h = Ok (r, h') -> still e B h'.
Proof.
  intros H HB E. unfold open_p2p_dev in E. st_bind E. injection E0 as <- <-.
  destruct (_ || _); [injection E as _ <-; by apply still_same |].
  st_bind E. assert (still e B x0) as (B' & HB' & H' & Hg).
  { destruct (p2p_dev_vif h) as [d |] eqn:Ed; [| injection E0 as _ <-; by apply still_same].
    rewrite (p2p_at _ _ HB) in Ed. st_bind E0. destruct (gvif_at _ _ _ _ _ HB E1) as [-> Hd].
    destruct (up x1) eqn:Eu; [injection E0 as _ <-; by apply still_same |].
    st_bind E0. destruct (negb _ || _) eqn:Eb.
    - injection E0 as _ <-. pass HB E2. by apply still_same.
    - apply orb_false_iff in Eb as [Eb1%negb_false_iff%Z.eqb_eq Eb2%negb_false_iff%Z.eqb_eq].
      st_bind E0. injection E0 as _ <-. eapply start_device; eauto. intros k Hk. rewrite Hd in Hk. by injection Hk as <-. }
  destruct (negb (_ =? 0)); [injection E as _ <-; by exists B' |].
  st_bind E. pass HB' E1. st_bind E. pass HB' E2. injection E as _ <-. by exists B'.
Qed.

Lemma scan_ssid_at e B v w h r h' :
  accounted e false B -> untouched B h -> scan_ssid env v w h = Ok (r, h') -> still e B h'.
Proof.
  intros H HB E. unfold scan_ssid in E. destruct (negb w); [injection E as _ <-; by apply still_same |].
  st_bind E. injection E0 as <- <-. st_bind E. destruct (gvif_at _ _ _ _ _ HB E0) as [-> Hv]. st_bind E.
  assert (still e B x1) as (B' & HB' & H' & Hg).
  { destruct (_ && _) eqn:Ea; [| injection E1 as _ <-; by apply still_same].
    apply andb_true_iff in Ea as [Ep%bool_decide_eq_true Eu%negb_true_iff]. rewrite (p2p_at _ _ HB) in Ep.
    st_bind E1. destruct (_ =? 0) eqn:Eb1; cbn [negb] in E1; [| injection E1 as _ <-; pass HB E2; by apply still_same].
    destruct (_ =? 0) eqn:Eb2 in E1; cbn [negb] in E1; [| injection E1 as _ <-; pass HB E2; by apply still_same].
    apply Z.eqb_eq in Eb1, Eb2. st_bind E1. injection E1 as _ <-. eapply start_device; eauto.
    intros k Hk. rewrite Hv in Hk. by injection Hk as <-. }
  destruct (negb (_ =? 0)); [injection E as _ <-; by exists B' |].
  st_bind E. pass HB' E2. st_bind E. pass HB' E3. injection E as _ <-. by exists B'.
Qed.

Lemma scan_ssids_at e v l : forall B h r h',
  accounted e false B -> untouched B h -> scan_ssids env v l h = Ok (r, h') -> still e B h'.
Proof.
  induction l as [| w l IH]; intros B h r h' H HB E; cbn [scan_ssids] in E; [injection E as _ <-; by apply still_same |].
  st_bind E. destruct (scan_ssid_at _ _ _ _ _ _ _ H HB E0) as (B' & HB' & H' & Hg).
  destruct (negb (_ =? 0)); [injection E as _ <-; by exists B' |]. apply (still_trans _ _ B' _ Hg). by eapply IH.
Qed.

Lemma scan_at B v l ie h r h' :
  accounted None false B -> untouched B h -> rwnx_cfg80211_scan env v l ie h = Ok (r, h') -> still None B h'.
Proof.
  intros H HB E. unfold rwnx_cfg80211_scan in E. st_bind E. injection E0 as <- <-.
  destruct (testmode h); [injection E as _ <-; by apply still_same |].
  st_bind E. pass HB E0. destruct (bool_decide _); [injection E as _ <-; by apply still_same |].
  destruct (scanning h); [injection E as _ <-; by apply still_same |].
  st_bind E. pass HB E1. destruct x1; [injection E as _ <-; by apply still_same |].
  st_bind E. pass HB E2. unfold rwnx_send_scanu_req in E. st_bind E. pass HB E3.
  destruct (negb _); [injection E as _ <-; by apply still_same |].
  st_bind E. pass HB E4. st_bind E. pass HB E5. st_bind E.
  destruct (scan_ssids_at _ _ _ _ _ _ _ H HB E6) as (B' & HB' & H' & Hg).
  exists B'. split; [| done]. destruct (negb (_ =? 0)); [by injection E as _ <- |].
  st_bind E. pass HB' E7. st_bind E. pass HB' E8. destruct (negb (_ =? 0)); [by injection E as _ <- |].
  st_bind E. pass HB' E9. by injection E as _ <-.
Qed.

Lemma roc_at B v m h r h' :
  accounted None false B -> untouched B h -> rwnx_cfg80211_remain_on_channel_ env v m h = Ok (r, h') -> still None B h'.
Proof.
  intros H HB E. unfold rwnx_cfg80211_remain_on_channel_ in E. st_bind E. injection E0 as <- <-.
  st_bind E. pass HB E0. st_bind E. injection E1 as <- <-. destruct (negb (bool_decide _)); [injection E as _ <-; by apply still_same |].
  st_bind E. destruct (gvif_at _ _ _ _ _ HB E1) as [-> Hv]. st_bind E. assert (still None B x3) as (B' & HB' & H' & Hg).
  { destruct (_ && _) eqn:Ea; [| injection E2 as _ <-; by apply still_same].
    apply andb_true_iff in Ea as [Ep%bool_decide_eq_true Eu%negb_true_iff]. rewrite (p2p_at _ _ HB) in Ep.
    destruct (is_p2p_alive _); [st_bind E2; pass HB E3; injection E2 as _ <-; by apply still_same |].
    st_bind E2. destruct (negb _ || _) eqn:Eb; [injection E2 as _ <-; pass HB E3; by apply still_same |].
    apply orb_false_iff in Eb as [Eb1%negb_false_iff%Z.eqb_eq Eb2%negb_false_iff%Z.eqb_eq].
    st_bind E2. assert (still None B x7) as (B' & HB' & H' & Hg).
    { eapply start_device; eauto. intros k Hk. rewrite Hv in Hk. by injection Hk as <-. }
    st_bind E2. pass HB' E5. st_bind E2. pass HB' E6. injection E2 as _ <-. by exists B'. }
  exists B'. split; [| done]. destruct (negb (_ =? 0)); [by injection E as _ <- |].
  st_bind E. pass HB' E3. destruct (negb (allocated _)); [by injection E as _ <- |].
  st_bind E. pass HB' E4. st_bind E. pass HB' E5. st_bind E. pass HB' E6. st_bind E. pass HB' E7.
  destruct (_ && _) in E; [by injection E as _ <- |]. st_bind E. pass HB' E8. st_bind E. pass HB' E9. by injection E as _ <-.
Qed.

Definition fine (h : hw) : Prop := accounted None false (books_of h).

Lemma still_fine B h : still None B h -> fine h.
Proof. by intros (B' & <- & H & _). Qed.

Lemma stop_p2p_at v h r h' : fine h -> rwnx_cfgp2p_stop_p2p_device env v h = Ok (r, h') -> fine h'.
Proof.
  intros H E. assert (HB : untouched (books_of h) h) by done. unfold fine in H. revert H HB. generalize (books_of h). intros B H HB.
  assert (Hst : forall h0, untouched B h0 -> fine h0) by (by intros h0 <-).
  unfold rwnx_cfgp2p_stop_p2p_device in E. st_bind E. pass HB E0. st_bind E. injection E1 as <- <-.
  destruct (bool_decide _) eqn:Ep in E; cbn [negb] in E; [| injection E as _ <-; by apply Hst].
  apply bool_decide_eq_true in Ep. rewrite (p2p_at _ _ HB) in Ep.
  st_bind E. pass HB E1. st_bind E. destruct (gvif_at _ _ _ _ _ HB E2) as [-> Hv].
  destruct (up x3) eqn:Eu; cbn [negb] in E; [| injection E as _ <-; by apply Hst].
  st_bind E. pass HB E3. destruct (vif_is_down_at _ _ _ _ _ HB E) as (k & Hk & Hd). rewrite Hv in Hk. injection Hk as <-.
  unfold fine. rewrite Hd. apply accounted_device_down; try done. by eapply p2p_is_device.
Qed.

Lemma p2p_timeout_at h r h' : fine h -> aicwf_p2p_alive_timeout env h = Ok (r, h') -> fine h'.
Proof.
  intros H E. assert (HB : untouched (books_of h) h) by done. unfold fine in H. revert H HB. generalize (books_of h). intros B H HB.
  assert (Hst : forall h0, untouched B h0 -> fine h0) by (by intros h0 <-).
  unfold aicwf_p2p_alive_timeout in E. st_bind E. injection E0 as <- <-. pose proof (p2p_at _ _ HB) as Hp.
  st_bind E. pass HB E0. st_bind E. pass HB E1. st_bind E. pass HB E2. st_bind E. injection E3 as <- <-.
  destruct (_ <? _) in E; [pass HB E; by apply Hst |].
  st_bind E. pass HB E3. st_bind E. apply unwrap_Ok in E4 as [E4 ->]. rewrite E4 in Hp. symmetry in Hp.
  st_bind E. destruct (gvif_at _ _ _ _ _ HB E5) as [-> Hv].
  destruct (up x8) eqn:Eu; cbn [negb] in E; [| injection E as _ <-; by apply Hst].
  st_bind E. pass HB E6. destruct (vif_is_down_at _ _ _ _ _ HB E) as (k & Hk & Hd). rewrite Hv in Hk. injection Hk as <-.
  unfold fine. rewrite Hd. apply accounted_device_down; try done. by eapply p2p_is_device.
Qed.

(** ** Opening and closing *)

(** [open_vif]: the interface is up exactly if the result is 0. *)
Lemma open_vif_at B v h r h' k :
  accounted (Some v) false B -> untouched B h -> b_store B !! v = Some k -> k_up k = false ->
  open_vif env v h = Ok (r, h') ->
  exists B' k', untouched B' h' /\ accounted (Some v) false B' /\ b_store B' !! v = Some k' /\
    k_netdev k' = k_netdev k /\ k_iff k' = k_iff k /\ k_up k' = (r =? 0).
Proof.
  intros H HB Hv Hu E. unfold open_vif in E. st_bind E. destruct (gvif_at _ _ _ _ _ HB E0) as [-> Hv'].
  rewrite Hv in Hv'. injection Hv' as ->.
  assert (Hup : forall i h1 a h2, untouched B h1 -> 0 <= i < 36 -> (i < 4 -> b_table B !! Z.to_nat i = Some None) ->
    (4 <= i -> drv_vif_index x = i) -> vif_is_up v i h1 = Ok (a, h2) ->
    exists B' k', untouched B' h2 /\ accounted (Some v) false B' /\ b_store B' !! v = Some k' /\
      k_netdev k' = netdev x /\ k_iff k' = iff_up x /\ k_up k' = true).
  { intros i h1 a h2 HB1 Hi Hs Hl E1. apply (vif_is_up_at _ _ _ _ _ _ HB1) in E1.
    exists (b_up v i B), ((core_of x) <| k_idx := i |> <| k_up := true |>). split; [done |]. split.
    - by apply (accounted_up _ _ _ _ (core_of x)).
    - cbn. by rewrite lookup_alter_eq, Hv. }
  case_bool_decide as Et.
  - st_bind E. injection E as <- <-. destruct (ac_drv _ _ _ H _ _ Hv) as (? & ? & Ht). specialize (Ht Et).
    cbn in *. eapply Hup in E1 as (B' & k' & ?); [by exists B', k' | done | lia | lia | done].
  - st_bind E. destruct (add_if_at _ _ _ _ _ HB E1) as (HB1 & k & Hk & [[Hx _] | [Hr Hx]]).
    { rewrite Hv in Hk. injection Hk as <-. done. }
    rewrite Hr in E. cbn in E. destruct (_ =? 0) eqn:Es in E; cbn [negb] in E.
    + apply Z.eqb_eq in Es. destruct (Hx Es) as [Hi [Hi4 Ht]]. st_bind E. injection E as <- <-. rewrite Hi in E2.
      eapply Hup in E2 as (B' & k' & ?); [by exists B', k' | done | lia | done | lia].
    + injection E as <- <-. exists B, (core_of x). cbn in *. by rewrite Hu.
Qed.

Lemma open_monitor_ok B v h r h' : untouched B h -> open_monitor env v h = Ok (r, h') -> r = 0.
Proof.
  intros HB E. unfold open_monitor in E. st_bind E. pass HB E0. destruct (negb (bool_decide _)) in E; [by injection E as <- |].
  st_bind E. pass HB E1. destruct (_ =? _) in E; [by injection E as <- |]. st_bind E. pass HB E2. st_bind E. pass HB E3. st_bind E.
  apply (send_at _ _ _ _ _ HB) in E4 as (_ & Hr & _). injection E as <- _. done.
Qed.

Lemma open_at B v k h r h' :
  accounted (Some v) false B -> untouched B h -> b_store B !! v = Some k -> k_netdev k = true -> k_up k = false -> k_iff k = false ->
  rwnx_open env v h = Ok (r, h') ->
  exists B' k', untouched B' h' /\ accounted (Some v) false B' /\ b_store B' !! v = Some k' /\ k_netdev k' = true /\
    k_iff k' = false /\ k_up k' = (r =? 0).
Proof.
  intros H HB Hv Hn Hu Hi E. unfold rwnx_open in E. st_bind E. pass HB E0. st_bind E. pass HB E1.
  destruct (_ =? 0) eqn:Ee in E; cbn [negb] in E; [| injection E as <- <-; exists B, k; by rewrite Hu, Ee].
  st_bind E. pass HB E2. st_bind E. pass HB E3. st_bind E. pass HB E4. st_bind E.
  destruct (open_p2p_dev_at _ _ _ _ _ _ H HB E5) as (B' & HB' & H' & Hg). specialize (Hg _ _ Hv Hn).
  destruct (_ =? 0) eqn:Ee2 in E; cbn [negb] in E; [| injection E as <- <-; exists B', k; by rewrite Hu, Ee2].
  st_bind E. destruct (open_vif_at _ _ _ _ _ _ H' HB' Hg Hu E6) as (B2 & k2 & HB2 & H2 & Hv2 & Hn2 & Hi2 & Hu2).
  destruct (_ =? 0) eqn:Ee3 in E; cbn [negb] in E; [| injection E as <- <-; exists B2, k2; rewrite Hu2, Hi2, Hn2; by rewrite Ee3].
  st_bind E. pose proof (open_monitor_ok _ _ _ _ _ HB2 E7) as ->. pass HB2 E7. st_bind E. pass HB2 E8. st_bind E. pass HB2 E9.
  injection E as <- <-. exists B2, k2. rewrite Hu2, Hi2, Hn2, Ee3. done.
Qed.

Lemma dev_open_at v h r h' : fine h -> dev_open env v h = Ok (r, h') -> fine h'.
Proof.
  unfold fine. assert (HB : untouched (books_of h) h) by done. revert HB. generalize (books_of h). intros B HB H E.
  unfold dev_open in E. st_bind E. destruct (gvif_at _ _ _ _ _ HB E0) as [-> Hv].
  destruct (_ || _) eqn:Eb; [injection E as _ <-; by rewrite HB |]. apply orb_false_iff in Eb as [Hn%negb_false_iff Hi].
  assert (Hu : up x = false).
  { rewrite <- Hi. by apply (ac_iff _ _ _ H v _ Hv). }
  st_bind E. destruct (open_at _ _ _ _ _ _ (accounted_enter _ v H) HB Hv Hn Hu Hi E1) as (B' & k' & HB' & H' & Hv' & Hn' & Hi' & Hu').
  st_bind E. injection E as _ <-. destruct (_ =? 0) eqn:Ee in E2.
  - eapply (pvif_at _ _ _ (fun k => k <| k_iff := true |>)) in E2 as [HB2 _]; [| exact HB' | by intros []]. rewrite HB2.
    apply (accounted_exit _ v); [| intros l; cbn; rewrite lookup_alter_eq, Hv'; intros [= <-] _; cbn; by rewrite Hu'].
    apply (accounted_core (Some v) false _ _ _ _ _ k' H' Hv'); cbn; try done; [rewrite Hu'; auto | congruence].
  - injection E2 as _ <-. rewrite HB'. apply (accounted_exit _ v); [done |]. intros l Hl _. rewrite Hv' in Hl. injection Hl as <-.
    rewrite Hu', Hi'. done.
Qed.

Lemma abort_scan_ok B v h r h' : untouched B h -> abort_scan env v h = Ok (r, h') -> r = 0.
Proof.
  intros HB E. unfold abort_scan in E. st_bind E. pass HB E0. destruct (negb _) in E; [by injection E as <- |].
  st_bind E. pass HB E1. st_bind E. pass HB E2. unfold rwnx_send_scanu_cancel_req in E. st_bind E.
  apply (send_at _ _ _ _ _ HB) in E3 as (_ & Hr & _). injection E as <- _. done.
Qed.

Lemma close_tables_at B v k h r h' :
  untouched B h -> b_store B !! v = Some k -> close_tables v h = Ok (r, h') -> untouched (b_less (b_clear (k_idx k) B)) h'.
Proof.
  intros HB Hv E. unfold close_tables in E. st_bind E. destruct (gvif_at _ _ _ _ _ HB E0) as [-> Hv'].
  rewrite Hv in Hv'. injection Hv' as ->. st_bind E. apply (set_table_at _ _ _ _ _ _ HB) in E1. st_bind E. pass E1 E2.
  st_bind E. pass E1 E3. by eapply (modify_at _ b_less) in E; [| exact E1 |].
Qed.

Lemma close_at B v k h r h' :
  accounted (Some v) false B -> untouched B h -> b_store B !! v = Some k -> k_up k = true -> rwnx_close env v h = Ok (r, h') ->
  untouched (b_down v k B) h' /\ accounted (Some v) false (b_down v k B).
Proof.
  intros H HB Hv Hu E. unfold rwnx_close in E. st_bind E. pass HB E0. st_bind E. pass HB E1. st_bind E. pass HB E2.
  st_bind E. pose proof (abort_scan_ok _ _ _ _ _ HB E3) as ->. pass HB E3. st_bind E. pass HB E4.
  st_bind E. eapply (pvif_at _ _ _ (fun k => k <| k_up := false |>)) in E5 as [HB2 _]; [| exact HB | by intros []].
  pose proof (accounted_closing _ _ _ _ H Hv Hu (or_intror eq_refl)) as H2.
  st_bind E. pass HB2 E5. st_bind E. pass HB2 E6. st_bind E.
  eapply (close_tables_at _ _ (k <| k_up := false |>)) in E7; [| exact HB2 | cbn; by rewrite lookup_alter_eq, Hv].
  st_bind E. pass E7 E8. st_bind E. pass E7 E9. injection E as _ <-. split; [done |]. by apply accounted_closed.
Qed.

(** Afterwards the net device is down. *)
Lemma dev_close_at v h r h' :
  fine h -> dev_close env v h = Ok (r, h') ->
  fine h' /\ forall o, store h !! v = Some o -> netdev o = true -> exists k, b_store (books_of h') !! v = Some k /\ k_up k = false.
Proof.
  unfold fine. assert (HB : untouched (books_of h) h) by done. revert HB. generalize (books_of h). intros B HB H E.
  unfold dev_close in E. st_bind E. destruct (gvif_at _ _ _ _ _ HB E0) as [-> Hv].
  destruct (iff_up x) eqn:Ei; cbn [negb] in E.
  - assert (Hn : netdev x = true).
    { destruct (netdev x) eqn:En; [done |]. destruct (ac_iff _ _ _ H v _ Hv) as [Hf _]. cbn in Hf. rewrite Ei in Hf. by specialize (Hf En). }
    assert (Hu : up x = true) by (rewrite <- Ei; by apply (ac_iff _ _ _ H v _ Hv)).
    st_bind E. destruct (close_at _ _ _ _ _ _ (accounted_enter _ v H) HB Hv Hu E1) as [HB' H']. st_bind E. injection E as _ <-.
    eapply (pvif_at _ _ _ (fun k => k <| k_iff := false |>)) in E2 as [HB2 _]; [| exact HB' | by intros []]. rewrite HB2.
    assert (Hl : b_store (b_down v (core_of x) B) !! v = Some ((core_of x) <| k_up := false |>)) by (cbn; by rewrite lookup_alter_eq, Hv).
    split; [| intros o _ _; rewrite HB2; eexists; cbn; rewrite !lookup_alter_eq, Hv; by split].
    apply (accounted_exit _ v); [| intros l; cbn; rewrite !lookup_alter_eq, Hv; by intros [= <-]].
    apply (accounted_core (Some v) false _ _ _ _ _ _ H' Hl); try done.
    intros i Hi. destruct (ac_table _ _ _ H' _ _ Hi) as (l & Hl' & _ & [Hx | [? _]] & _); [| done].
    rewrite Hl in Hl'. injection Hl' as <-. done.
  - injection E as _ <-. rewrite HB. split; [done |]. intros o Ho Hn. apply gvif_Ok in E0 as [_ E0]. rewrite Ho in E0. injection E0 as ->.
    exists (core_of x). rewrite HB. split; [done |].
    destruct (ac_iff _ _ _ H v _ Hv) as [_ Hx]. cbn in Hx. rewrite <- Ei. by apply Hx.
Qed.

Lemma del_iface_at v h r h' :
  fine h -> allowed h (ODel v) -> rwnx_cfg80211_del_iface env v h = Ok (r, h') -> fine h'.
Proof.
  intros H Ha E. unfold rwnx_cfg80211_del_iface in E. st_bind E. destruct (gvif_Ok _ _ _ _ E0) as [-> Hv].
  unfold fine. destruct (netdev x) eqn:En; cbn [negb] in E.
  - st_bind E. destruct (dev_close_at _ _ _ _ H E1) as [H1 Hx]. destruct (Hx _ Hv En) as (k & Hk & Hu).
    st_bind E. injection E as _ <-. destruct (list_del_vif_at (books_of x1) _ _ _ _ eq_refl E2) as (k' & Hk' & Hd).
    rewrite Hk in Hk'. injection Hk' as <-. rewrite Hd. apply accounted_del; auto.
  - st_bind E. injection E as _ <-. destruct (list_del_vif_at (books_of h) _ _ _ _ eq_refl E1) as (k & Hk & Hd). rewrite Hd.
    apply accounted_del; auto. cbn in Hk. rewrite lookup_fmap, Hv in Hk. injection Hk as <-. by apply Ha.
Qed.

(** ** Adding and changing *)

Lemma first_bit_spec m n : forall i j, first_bit m i n = Some j -> i <= j < i + Z.of_nat n /\ Z.testbit m j = true.
Proof.
  induction n as [| n IH]; intros i j; cbn [first_bit]; [done |].
  destruct (Z.testbit m i) eqn:E; [intros [= <-]; split; [lia | done] |]. intros H%IH. split; [lia | by apply H].
Qed.

Lemma find_index_spec m t i :
  find_index m t = Some i -> 0 <= i < 36 /\ Z.testbit m i = true /\ (t = AP_VLAN -> 4 <= i).
Proof.
  unfold find_index, NX_VIRT_DEV_MAX, NX_REMOTE_STA_MAX. case_bool_decide; intros [? ?]%first_bit_spec; repeat split; try done; lia.
Qed.

Lemma link_fine B v o h a h' :
  accounted None false B -> untouched B h -> v = b_next B -> (exists t, find_index (b_avail B) t = Some (drv_vif_index o) /\ t = wtype o) ->
  up o = false -> iff_up o = false -> link_vif v o h = Ok (a, h') -> accounted None false (books_of h') /\
    books_of h' = b_add v (core_of o) B.
Proof.
  intros H HB Hn (t & Hi & ->) Hu Hf E. apply (link_vif_at _ _ _ _ _ _ HB) in E. rewrite E. split; [| done].
  apply find_index_spec in Hi as (? & ? & ?). by apply accounted_add.
Qed.

Lemma virtual_add_at t h r h' : fine h -> rwnx_virtual_interface_add env t h = Ok (r, h') -> fine h'.
Proof.
  unfold fine. assert (HB : untouched (books_of h) h) by done. revert HB. generalize (books_of h). intros B HB H E.
  unfold rwnx_virtual_interface_add in E. st_bind E. injection E0 as <- <-.
  destruct (find_index _ t) as [i |] eqn:Ei in E; [| injection E as _ <-; by rewrite HB].
  replace (avail_idx_map h) with (b_avail B) in Ei by (by rewrite <- HB). st_bind E. pass HB E0.
  destruct (negb (allocated _)); [injection E as _ <-; by rewrite HB |]. st_bind E. injection E1 as <- <-.
  st_bind E. apply (link_fine B) in E1 as [H1 HB1]; try done; [| by rewrite <- HB | by eauto].
  st_bind E. injection E as _ <-. destruct (is_p2p_alive x2) eqn:Ea.
  - injection E1 as _ <-. by rewrite Ea.
  - injection E1 as _ <-. rewrite Ea. unfold books_of. cbn. fold (books_of x2).
    apply (accounted_dev _ _ _ (next_vif x0)) in H1; [done | rewrite HB1; cbn; lia |].
    rewrite HB1. cbn. rewrite lookup_insert_eq. by intros k [= <-].
Qed.

Lemma interface_add_at t p h r h' : fine h -> rwnx_interface_add env t p h = Ok (r, h') -> fine h'.
Proof.
  unfold fine. assert (HB : untouched (books_of h) h) by done. revert HB. generalize (books_of h). intros B HB H E.
  unfold rwnx_interface_add in E. st_bind E. injection E0 as <- <-.
  destruct (find_index _ t) as [i |] eqn:Ei in E; [| injection E as _ <-; by rewrite HB].
  replace (avail_idx_map h) with (b_avail B) in Ei by (by rewrite <- HB). st_bind E. pass HB E0.
  destruct (negb (allocated _)); [injection E as _ <-; by rewrite HB |]. st_bind E. injection E1 as <- <-.
  st_bind E. assert (untouched B x2 /\ forall o, x1 = Some o ->
    drv_vif_index o = i /\ wtype o = t /\ up o = false /\ iff_up o = false) as [HB2 Ho].
  { case_bool_decide; [| injection E1 as <- <-; split; [done | by intros o [= <-]]].
    st_bind E1. pass HB E2. st_bind E1. pass HB E3. injection E1 as <- <-. split; [done |].
    destruct x5; [by intros o [= <-] | done]. }
  destruct x1 as [o |]; [| injection E as _ <-; by rewrite HB2].
  destruct (Ho o eq_refl) as (Hd & Ht & Hu & Hf). assert (Hnx : next_vif x0 = b_next B) by (by rewrite <- HB).
  st_bind E. pass HB2 E2. destruct (negb (_ =? 0)); [injection E as _ <-; by rewrite HB2 |].
  st_bind E. injection E as _ <-. apply (link_fine B) in E3 as [H3 _]; try done. exists t. by rewrite Hd.
Qed.

(** An interface that has lost its entry has none. *)
Lemma no_entry B v k j :
  accounted None false B -> b_store B !! v = Some k -> b_table (b_clear (k_idx k) B) !! j <> Some (Some v).
Proof.
  intros H Hv Hj. cbn in Hj. destruct (decide (j = Z.to_nat (u8 (k_idx k)))) as [-> | Hn].
  - destruct (decide (Z.to_nat (u8 (k_idx k)) < length (b_table B))%nat); [by rewrite list_lookup_insert_eq in Hj |].
    rewrite list_insert_ge in Hj by lia. apply lookup_lt_Some in Hj. lia.
  - rewrite list_lookup_insert_ne in Hj by done. destruct (ac_table _ _ _ H _ _ Hj) as (l & Hl & Hx & _).
    rewrite Hv in Hl. injection Hl as <-. apply Hn. pose proof (lookup_lt_Some _ _ _ Hj) as Hlt. rewrite (ac_len _ _ _ H) in Hlt.
    rewrite Hx, u8_id; lia.
Qed.

Lemma change_fw_at B v k h r h' :
  accounted None false B -> untouched B h -> b_store B !! v = Some k -> k_up k = true ->
  change_fw env v h = Ok (r, h') -> fine h'.
Proof.
  intros H HB Hv Hu E. unfold change_fw in E. st_bind E. injection E0 as <- <-. st_bind E. pass HB E0.
  destruct (negb (_ =? 0)); [injection E as _ <-; unfold fine; by rewrite HB |]. st_bind E. pass HB E1. st_bind E. pass HB E2.
  destruct (negb (_ =? 0)); [injection E as _ <-; unfold fine; by rewrite HB |]. st_bind E.
  destruct (gvif_at _ _ _ _ _ HB E3) as [-> Hv']. rewrite Hv in Hv'. injection Hv' as ->.
  st_bind E. eapply set_table_at in E4; [| exact HB]. change (b_entry _ None B) with (b_clear (k_idx (core_of x5)) B) in E4.
  pose proof (accounted_clear _ _ _ (k_idx (core_of x5)) H) as Hc. st_bind E.
  destruct (add_if_at _ _ _ _ _ E4 E5) as (HB1 & k & Hk & Hr).
  destruct (_ =? 0) eqn:E1' in E; cbn [negb] in E; [| injection E as _ <-; unfold fine; by rewrite HB1].
  destruct (_ =? 0) eqn:E2' in E; cbn [negb] in E; [| injection E as _ <-; unfold fine; by rewrite HB1].
  apply Z.eqb_eq in E1', E2'. destruct Hr as [[_ ?] | [_ Hr]]; [lia |]. destruct (Hr E2') as [Hi Ha]. rewrite Hi in E.
  st_bind E. eapply (pvif_at _ _ _ (fun k => k <| k_idx := index x8.2 |>)) in E6 as [HB2 _]; [| exact HB1 | by intros []].
  st_bind E. eapply set_table_at in E6; [| exact HB2]. injection E as _ <-. unfold fine. rewrite E6.
  apply (accounted_move _ _ _ (core_of x5)); try done; [apply Ha | apply Ha |]. intros j. by apply no_entry.
Qed.

Lemma change_iface_at j v t w h r h' :
  fine h -> allowed h (OChange j v t w) -> rwnx_cfg80211_change_iface env j v t w h = Ok (r, h') -> fine h'.
Proof.
  intros H Ha E. unfold rwnx_cfg80211_change_iface in E. case_bool_decide as Ht; [by injection E as _ <- |].
  st_bind E. assert (Hv : exists i, store h !! v = Some i).
  { unfold pvif in E0. st_bind E0. apply gvif_Ok in E1 as [-> E1]. eauto. }
  destruct Hv as [i Hv]. destruct (Ha _ Hv) as (Hn & Hw & _).
  eapply (pvif_at _ _ _ (fun k => k <| k_type := t |>)) in E0 as [HB1 _]; [| done | by intros []].
  assert (Hv0 : b_store (books_of h) !! v = Some (core_of i)) by (cbn; by rewrite lookup_fmap, Hv).
  assert (H1 : accounted None false (b_core v (fun k => k <| k_type := t |>) (books_of h))).
  { apply (accounted_core None false _ _ _ _ _ _ H Hv0); cbn; try done.
    - intros n Hj. destruct (ac_table _ _ _ H _ _ Hj) as (l & Hl & _ & [Hx | [? _]] & _); [| done].
      rewrite Hv0 in Hl. injection Hl as <-. auto.
    - apply (ac_iff _ _ _ H v _ Hv0).
    - intros ? _. by apply (ac_iff _ _ _ H v _ Hv0). }
  st_bind E. destruct (gvif_at _ _ _ _ _ HB1 E0) as [-> Hv1]. st_bind E. assert (H2 : fine x3).
  { destruct (up x1) eqn:Eu; [by eapply change_fw_at |]. injection E1 as _ <-. unfold fine. by rewrite HB1. }
  destruct (negb (_ =? 0)); [by injection E as _ <- |]. assert (HB3 : untouched (books_of x3) x3) by done.
  st_bind E. pass HB3 E2. st_bind E. pass HB3 E3. injection E as _ <-. unfold fine. by rewrite HB3.
Qed.

(** ** All operations *)

Lemma void_Ok {A} (m : V A) h h' : void m h = Ok (tt, h') -> exists a, m h = Ok (a, h').
Proof. intros E. unfold void in E. st_bind E. injection E as <-. eauto. Qed.

Lemma run_op_fine o h h' : fine h -> allowed h o -> run_op env o h = Ok (tt, h') -> fine h'.
Proof.
  intros H Ha E. assert (HB : untouched (books_of h) h) by done.
  destruct (bystander o) eqn:Eb; [apply (same_bystander _ _ _ Eb _ _ _ HB) in E; unfold fine; by rewrite E |].
  destruct o; try discriminate Eb; cbn [run_op] in E; try (apply void_Ok in E as [? E]).
  - unfold rwnx_cfg80211_add_iface in E. case_bool_decide; [by eapply virtual_add_at | by eapply interface_add_at].
  - by eapply del_iface_at.
  - by eapply change_iface_at.
  - by eapply dev_open_at.
  - by eapply dev_close_at.
  - by eapply stop_p2p_at.
  - by eapply p2p_timeout_at.
  - by eapply still_fine, scan_at.
  - by eapply still_fine, roc_at.
Qed.

Lemma init_fine mac dc : fine (init mac dc).
Proof.
  split; cbn; try done.
  - intros i Hi E. rewrite Z.ones_spec_low in E by lia. done.
  - split; [constructor |]. intros v. split; [by intros ?%not_elem_of_nil | by intros [? ?]].
  - intros i v E. do 37 (destruct i as [| i]; [by cbn in E |]). done.
Qed.

Lemma reachable_fine mac dc h : reachable env mac dc h -> fine h.
Proof.
  intros H. assert (Hi : fine (init mac dc)) by apply init_fine. revert H Hi. unfold reachable. generalize (init mac dc).
  induction 1 as [| x y z (o & Ha & Ho) _ IH]; [done |]. intros Hx. by eapply IH, run_op_fine.
Qed.

End Env.

Lemma countm_fmap {A B} (f : B -> bool) (g : A -> B) (m : gmap nat A) :
  countm f (g <$> m) = countm (fun a => f (g a)) m.
Proof. unfold countm. rewrite map_filter_fmap, map_size_fmap. do 2 f_equal. Qed.

(** C22. After any operations of user space, work, timers and indications in any order,
    with a firmware that gives out indices that are free and with memory for messages:
    interfaces have different indices of the driver and exactly those are missing in
    avail_idx_map, every entry of vif_table is an interface that is up and has this
    index, vif_started is the number of interfaces that are up, and a net device is up
    exactly if the kernel has opened it. *)
Theorem interfaces_accounted env mac dc h :
  memory_for_messages env -> gives_free_index env -> reachable env mac dc h ->
  (forall v o, store h !! v = Some o ->
     0 <= drv_vif_index o < 36 /\ Z.testbit (avail_idx_map h) (drv_vif_index o) = false /\ v ∈ vifs h) /\
  (forall v w o p, store h !! v = Some o -> store h !! w = Some p -> drv_vif_index o = drv_vif_index p -> v = w) /\
  (forall i, 0 <= i < 36 -> Z.testbit (avail_idx_map h) i = false ->
     exists v o, store h !! v = Some o /\ drv_vif_index o = i) /\
  (forall i v, vif_table h !! i = Some (Some v) ->
     exists o, store h !! v = Some o /\ vif_index o = Z.of_nat i /\ up o = true) /\
  vif_started h = Z.of_nat (size (filter (fun p => up p.2 = true) (store h))) /\
  (forall v o, store h !! v = Some o -> netdev o = true -> up o = iff_up o).
Proof.
  intros Hm Hf Hr. apply (reachable_fine env Hm Hf) in Hr as [H1 H2 H3 [H4 H4'] H5 H6 H7 H8 H9 H10].
  assert (Hs : forall v o, store h !! v = Some o -> b_store (books_of h) !! v = Some (core_of o)).
  { intros v o Hv. cbn. by rewrite lookup_fmap, Hv. }
  repeat split.
  - by apply (H1 v (core_of o)), Hs.
  - by apply (H1 v (core_of o)), Hs.
  - by apply (H1 v (core_of o)), Hs.
  - apply H4'. rewrite (Hs _ _ H). eauto.
  - intros v w o p Hv Hw E. eapply H2; eauto.
  - intros i Hi Hb. destruct (H3 i Hi Hb) as (v & k & Hv & <-). apply lookup_fmap_Some in Hv as (o & <- & Hv). eauto.
  - intros i v Hi. destruct (H6 i v Hi) as (k & Hv & Hx & [Hy | [? _]] & _); [| done].
    apply lookup_fmap_Some in Hv as (o & <- & Hv). eauto.
  - cbn in H7. rewrite countm_fmap, Z.add_0_r in H7. exact H7.
  - intros v o Hv Hn. by apply (H8 v (core_of o)); [apply Hs | |].
Qed.

Module Example.

(** A firmware that gives the first free index. *)
Definition fw (h : hw) (r : req) : reply :=
  match r with
  | Confirm (MM_ADD_IF _ _) =>
    match find_idx (fun o : option nat => bool_decide (o = None)) (take 4 (vif_table h)) with
    | Some i => Reply true 0 (Z.of_nat i) 0 false 0 []
    | None => Reply true 1 0 0 false 0 []
    end
  | _ => Reply true 0 0 0 false 0 []
  end.

Definition mac : list Z := [0x00; 0x11; 0x22; 0x33; 0x44; 0x55].

(** A station, a P2P device and a client, which brings the device up. *)
Definition ops4 : list op := [OAdd STATION None; OAdd P2P_DEVICE None; OAdd P2P_CLIENT None; OOpen 0; OOpen 2].
Definition h4 : hw := default (init mac false) (run_all fw ops4 (init mac false)).

Example h4_table : take 4 (vif_table h4) = [Some 0%nat; Some 1%nat; Some 2%nat; None] /\ vif_started h4 = 3.
Proof. by vm_compute. Qed.

Lemma fw_memory : memory_for_messages fw.
Proof. intros h []; cbn; try done. by destruct (find_idx _ _). Qed.

Lemma fw_free : gives_free_index fw.
Proof.
  intros h t mac. cbn. destruct (find_idx _ _) as [i |] eqn:E; [| done]. intros _. apply find_idx_Some in E as (o & Ho & Hb & _).
  apply bool_decide_eq_true in Hb as ->. apply lookup_take_Some in Ho as [Ho Hi]. cbn. unfold NX_VIRT_DEV_MAX.
  rewrite Nat2Z.id. split; [lia | done].
Qed.

Lemma h4_reachable : reachable fw mac false h4.
Proof. apply (run_all_rtc _ ops4); by vm_compute. Qed.

Lemma interfaces_accounted_witness :
  (exists o, store h4 !! 1%nat = Some o /\ vif_index o = 1 /\ up o = true) /\
  vif_started h4 = Z.of_nat (size (filter (fun p => up p.2 = true) (store h4))).
Proof.
  destruct (interfaces_accounted fw _ _ h4 fw_memory fw_free h4_reachable) as (_ & _ & _ & H1 & H2 & _).
  split; [apply (H1 1%nat 1%nat); by vm_compute | exact H2].
Defined.

End Example.

End VifTables.
