(* ===== verification/VifConn.v ===== *)
(** * Connections (theorems on [Vif], [VifOps], [VifSta])

    What holds of every interface after any operations and indications: one
    that is connected has a station, a net device, and no roaming in progress.
    So the end of a connection can be handled, and leaves nothing behind. *)

From S2P Require Import Prelude State Vif VifOps VifSta VifRuns.
From stdpp Require Import list gmap.
Import Vif VifOps VifSta VifRuns.
Open Scope Z_scope.
Open Scope list_scope.

Module VifConn.

(** ** The invariant *)

Definition ch_ok (c : Z) : Prop := c = RWNX_CH_NOT_SET \/ 0 <= c < NX_CHAN_CTXT_CNT.

Definition has_sta (o : vif) : Prop := netdev o = true /\ exists a i, u o = ASta a /\ ap a = Some i.

Record vif_ok (o : vif) : Prop := {
  vo_conn : drv_conn_state o = CONNECTED -> has_sta o /\ forall a, u o = ASta a -> is_roam a = false;
  vo_ap : forall a i, u o = ASta a -> ap a = Some i -> (i < 36)%nat;
  vo_type : forall a, u o = ASta a -> is_ap (wtype o) = false;
  vo_ch : ch_ok (ch_index o)
}.

(** All interfaces but [x] are in order, and those of [x] satisfy [P]. *)
Definition all_but (x : option nat) (P : vif -> Prop) (h : hw) : Prop :=
  length (sta_table h) = 36%nat /\ length (chanctx_table h) = 3%nat /\
  forall v o, store h !! v = Some o -> (x <> Some v -> vif_ok o) /\ (x = Some v -> P o).
Definition in_order : hw -> Prop := all_but None (fun _ => True).

Lemma all_but_alter x (P : vif -> Prop) v f h :
  (forall o, store h !! v = Some o -> vif_ok o -> vif_ok (f o)) -> (forall o, store h !! v = Some o -> P o -> P (f o)) ->
  all_but x P h -> all_but x P (h <| store ::= alter f v |>).
Proof.
  intros Hf Hp (H1 & H2 & H3). split; [done |]. split; [done |]. intros w o Hw. cbn in Hw.
  destruct (decide (w = v)) as [-> | Hn]; [| rewrite lookup_alter_ne in Hw by done; by apply H3].
  rewrite lookup_alter_eq in Hw. destruct (store h !! v) as [p |] eqn:E; [| done]. injection Hw as <-.
  destruct (H3 _ _ E). split; intros; auto.
Qed.

Lemma all_but_pvif x (P : vif -> Prop) v f :
  (forall o, vif_ok o -> vif_ok (f o)) -> (forall o, P o -> P (f o)) -> keeps (all_but x P) (pvif v f).
Proof.
  intros Hf Hp. apply keeps_bind; [unfold gvif; keep_steps idtac |]. intros _. apply keeps_modify. intros h.
  apply all_but_alter; auto.
Qed.

Lemma all_but_modify x P f :
  (forall h, store (f h) = store h /\ length (sta_table (f h)) = length (sta_table h) /\
             length (chanctx_table (f h)) = length (chanctx_table h)) ->
  keeps (all_but x P) (modify f).
Proof. intros Hf. apply keeps_modify. intros h. unfold all_but. destruct (Hf h) as (-> & -> & ->). done. Qed.

(** After an interface was read, it is what was read. *)
Lemma keeps_gvif_bind {B} (I : hw -> Prop) v (f : vif -> V B) :
  (forall o, triple (fun h => I h /\ store h !! v = Some o) (f o) (fun _ => I)) -> keeps I (gvif v ≫= f).
Proof.
  intros Hf h b h' HI E. apply bind_ST_inv in E as (o & h1 & E1 & E2). unfold gvif in E1. apply bind_ST_inv in E1 as (? & ? & [= <- <-] & E1).
  apply unwrap_Ok in E1 as [E1 ->]. by eapply Hf.
Qed.

Lemma pvif_Ok v f h a h' : pvif v f h = Ok (a, h') -> is_Some (store h !! v) /\ h' = h <| store ::= alter f v |>.
Proof.
  intros E. apply bind_ST_inv in E as (o & h1 & E1 & [= _ <-]). unfold gvif in E1.
  apply bind_ST_inv in E1 as (? & ? & [= <- <-] & E1). apply unwrap_Ok in E1 as [-> ->]. eauto.
Qed.

Lemma all_but_pasta x (P : vif -> Prop) v f :
  (forall a, ap (f a) = ap a) -> (forall a, is_roam a = false -> is_roam (f a) = false) ->
  (forall o a, u o = ASta a -> P o -> P (o <| u := ASta (f a) |>)) -> keeps (all_but x P) (pasta v f).
Proof.
  intros Ha Hr Hp h b h' HI E. unfold pasta, asta in E. rewrite ?bind_ST_assoc in E.
  st_bind E. st_bind E0. unfold gvif in E1. st_bind E1. injection E2 as <- <-. apply unwrap_Ok in E1 as [Hv ->].
  destruct (u x2) as [a | | |] eqn:Eu; try done. injection E0 as <- <-. apply pvif_Ok in E as [_ ->].
  apply all_but_alter; [| | done]; intros o Ho; rewrite Hv in Ho; injection Ho as <-; [| by apply Hp].
  intros [A B C D]. split; cbn; try done.
  - intros Hc. destruct (A Hc) as [(Hn & a' & i & Ha' & Hi) Hx]. split.
    + split; [done |]. rewrite Eu in Ha'. injection Ha' as <-. exists (f a), i. by rewrite Ha.
    + intros a0 [= <-]. by apply Hr, Hx.
  - intros a0 i [= <-]. rewrite Ha. by apply B.
  - intros a0 _. by eapply C.
Qed.

Lemma all_but_paap x (P : vif -> Prop) v f :
  (forall o a b, u o = AAp a -> P o -> P (o <| u := AAp b |>)) -> keeps (all_but x P) (paap v f).
Proof.
  intros Hp h b h' HI E. unfold paap, aap in E.
  st_bind E. st_bind E0. unfold gvif in E1. st_bind E1. injection E2 as <- <-. apply unwrap_Ok in E1 as [Hv ->].
  destruct (u x2) as [| a | |] eqn:Eu; try done. injection E0 as <- <-. apply pvif_Ok in E as [_ ->].
  apply all_but_alter; [| | done]; intros o Ho; rewrite Hv in Ho; injection Ho as <-; [| by eapply Hp].
  intros [A B C D]. split; cbn; try done.
  intros Hc. destruct (A Hc) as [(Hn & a' & i & Ha' & Hi) Hx]. congruence.
Qed.

(** ** Steps that keep it *)

Create HintDb conn.

(** What is left of an interface when nothing of interest changes. *)
Ltac vif_step :=
  first
  [ intros []; assumption
  | let o := fresh "o" in let Hok := fresh "Hok" in intros o Hok; exact Hok
  | intros ? [? ? ? ?]; repeat case_match; split; (assumption || discriminate || (cbn; intros; congruence)) ].
Ltac p_step :=
  let o := fresh "o" in let Hok := fresh "Hok" in
  solve [intros o Hok; repeat case_match;
         first [exact Hok | destruct Hok as [? [? ? ? ?]]; split; [(assumption || (intros; discriminate)) | split; assumption]]].
Ltac order_base :=
  first
  [ solve [eauto with conn nocore]
  | apply all_but_pvif; [vif_step | p_step]
  | apply all_but_pasta; intros; repeat case_match; done
  | apply all_but_paap; intros; done
  | apply all_but_modify; intros []; repeat case_match; cbn; rewrite ?length_alter, ?length_insert; done ].
Ltac order := keep_steps order_base.

Lemma order_emit x P e : keeps (all_but x P) (emit e).
Proof. unfold emit. order. Qed.
Lemma order_gvif x P v : keeps (all_but x P) (gvif v).
Proof. unfold gvif. order. Qed.
Lemma order_table x P i : keeps (all_but x P) (table i).
Proof. unfold table. order. Qed.
Lemma order_gsta x P i : keeps (all_but x P) (gsta i).
Proof. unfold gsta. order. Qed.
#[export] Hint Resolve order_emit order_gvif order_table order_gsta : conn.
Lemma order_asta x P i : keeps (all_but x P) (asta i).
Proof. unfold asta. order. Qed.
Lemma order_aap x P i : keeps (all_but x P) (aap i).
Proof. unfold aap. order. Qed.
Lemma order_psta x P i f : keeps (all_but x P) (psta i f).
Proof. unfold psta. order. Qed.
#[export] Hint Resolve order_asta order_aap order_psta : conn.

Definition respects (P : vif -> Prop) : Prop := forall o c, ch_ok c -> P o -> P (o <| ch_index := c |>).

Lemma order_link x P v c f : respects P -> keeps (all_but x P) (rwnx_chanctx_link v c f).
Proof.
  intros HP. unfold rwnx_chanctx_link. destruct (_ <=? _) eqn:Ec; [apply keeps_ret |]. apply Z.leb_gt in Ec. unfold NX_CHAN_CTXT_CNT in Ec.
  assert (Hc : ch_ok (u8 c)) by (right; unfold NX_CHAN_CTXT_CNT; pose proof (u8_range c); lia).
  apply keeps_bind; [| intros _; order]. apply all_but_pvif; [| intros; by apply HP].
  intros o [? ? ? ?]. by split.
Qed.
Lemma order_unlink x P v : respects P -> keeps (all_but x P) (rwnx_chanctx_unlink v).
Proof.
  intros HP. unfold rwnx_chanctx_unlink. order. intros _. apply all_but_pvif; [| intros; apply HP; [by left | done]].
  intros o [? ? ? ?]. split; try assumption. by left.
Qed.

Lemma respects_True : respects (fun _ => True).
Proof. done. Qed.

(** In order but for the state of the connection, and with a station. *)
Definition ready (o : vif) : Prop := has_sta o /\ vif_ok (o <| drv_conn_state := DISCONNECTED |>).

Lemma respects_ready : respects ready.
Proof. intros o c Hc [H [? ? ? ?]]. split; [done |]. by split. Qed.
#[export] Hint Resolve order_link order_unlink respects_True respects_ready : conn.

Lemma order_set_conn c v : c <> CONNECTED -> keeps in_order (rwnx_set_conn_state v c).
Proof.
  intros Hc. apply all_but_pvif; [| done]. intros o [? ? ? ?]. split; try assumption. by intros ?.
Qed.
#[export] Hint Extern 1 (keeps in_order (rwnx_set_conn_state _ _)) => (apply order_set_conn; discriminate) : conn.

Lemma order_auth_disable x v : keeps (all_but x (fun _ => True)) (rwnx_external_auth_disable v).
Proof. unfold rwnx_external_auth_disable. order. Qed.
Lemma order_auth_enable x v : keeps (all_but x (fun _ => True)) (rwnx_external_auth_enable v).
Proof. unfold rwnx_external_auth_enable. order. Qed.
Lemma order_first_with x P i l : keeps (all_but x P) (first_with i l).
Proof. induction l; cbn [first_with]; order. Qed.
#[export] Hint Resolve order_auth_disable order_auth_enable order_first_with : conn.

(** ** The end of a connection *)

(** All interfaces in order, and this one not connected. *)
Definition idle (v : nat) (h : hw) : Prop := in_order h /\ forall o, store h !! v = Some o -> drv_conn_state o <> CONNECTED.

Definition not_conn (i : ind) : bool := match i with sm_connect_ind _ | sm_disconnect_ind _ _ _ _ => false | _ => true end.

Lemma order_other i : not_conn i = true -> keeps in_order (handle i).
Proof.
  unfold in_order. destruct i; intros H; try discriminate H; cbn [handle];
    unfold rwnx_rx_sm_external_auth_required_ind, rwnx_rx_ps_change_ind,
      rwnx_rx_scanu_start_cfm, rwnx_rx_chan_pre_switch_ind, rwnx_rx_chan_switch_ind, rwnx_rx_remain_on_channel_exp_ind,
      rwnx_rx_csa_finish_ind, rwnx_rx_csa_traffic_ind, rwnx_apm_staloss_ind, on_channel, look_for, rwnx_ps_bh_enable.
  all: order.
Qed.

(** A computation was run that keeps the interfaces in order. *)
Ltac pass HB E :=
  match type of HB with
  | all_but ?x ?P _ =>
    match type of E with
    | ?m ?h = Ok (?a, ?h') =>
      let H := fresh in
      assert (H : all_but x P h') by (eapply (fun K : keeps (all_but x P) m => K h a h'); [order | exact HB | exact E]);
      clear HB; rename H into HB
    end
  end.

(** ** A new connection *)

Lemma all_but_self (P : vif -> Prop) v f : (forall o, P o -> P (f o)) -> keeps (all_but (Some v) P) (pvif v f).
Proof.
  intros Hf h a h' (H1 & H2 & H3) E. apply pvif_Ok in E as [_ ->]. split; [done |]. split; [done |]. intros w o Hw. cbn in Hw.
  destruct (decide (w = v)) as [-> | Hn]; [| rewrite lookup_alter_ne in Hw by done; by apply H3].
  rewrite lookup_alter_eq in Hw. destruct (store h !! v) as [p |] eqn:E; [| done]. injection Hw as <-.
  destruct (H3 _ _ E). split; [done | auto].
Qed.

Lemma pasta_Ok v f h a h' :
  pasta v f h = Ok (a, h') -> exists o b, store h !! v = Some o /\ u o = ASta b /\
    h' = h <| store ::= alter (fun o => o <| u := ASta (f b) |>) v |>.
Proof.
  intros E. unfold pasta, asta in E. st_bind E. st_bind E0. apply gvif_Ok in E1 as [-> Hv].
  destruct (u x1) as [b | | |] eqn:Eu; try done. injection E0 as <- <-. apply pvif_Ok in E as [_ ->]. eauto.
Qed.

Lemma all_but_self_pasta (P : vif -> Prop) v f :
  (forall o a, u o = ASta a -> P o -> P (o <| u := ASta (f a) |>)) -> keeps (all_but (Some v) P) (pasta v f).
Proof.
  intros Hf h a h' (H1 & H2 & H3) E. apply pasta_Ok in E as (o & b & Ho & Hu & ->). split; [done |]. split; [done |].
  intros w p Hw. cbn in Hw. destruct (decide (w = v)) as [-> | Hn]; [| rewrite lookup_alter_ne in Hw by done; by apply H3].
  rewrite lookup_alter_eq, Ho in Hw. injection Hw as <-. destruct (H3 _ _ Ho). split; [done |]. intros _. by apply Hf; auto.
Qed.

Lemma ready_roam v h a h' :
  all_but (Some v) ready h -> pasta v (fun a => a <| is_roam := false |>) h = Ok (a, h') -> in_order h'.
Proof.
  intros (H1 & H2 & H3) E. unfold pasta, asta in E. st_bind E. st_bind E0. unfold gvif in E1. st_bind E1. injection E2 as <- <-.
  apply unwrap_Ok in E1 as [Hv ->]. destruct (u x1) as [b | | |] eqn:Eu; try done. injection E0 as <- <-.
  apply pvif_Ok in E as [_ ->]. split; [done |]. split; [done |]. intros w o Hw. cbn in Hw. split; [intros _ | done].
  destruct (decide (w = v)) as [-> | Hn]; [| rewrite lookup_alter_ne in Hw by done; apply H3 in Hw; apply Hw; congruence].
  rewrite lookup_alter_eq, Hv in Hw. injection Hw as <-. destruct (H3 _ _ Hv) as [_ Hr].
  destruct (Hr eq_refl) as [(Hn & b' & i & Hb & Hi) [A B C D]]. rewrite Eu in Hb. injection Hb as <-. split; cbn.
  - intros _. split; [split; [done |]; by exists (b <| is_roam := false |>), i | by intros ? [= <-]].
  - intros ? j [= <-]. apply (B b). cbn. by rewrite Eu.
  - intros ? _. by apply (C b).
  - done.
Qed.

Lemma connected_ready v c h a h' o :
  in_order h -> store h !! v = Some o -> netdev o = true -> connected v c h = Ok (a, h') -> all_but (Some v) ready h'.
Proof.
  intros HI Ho Hn E. unfold connected in E. st_bind E.
  assert (Hi : (Z.to_nat (c_ap c) < 36)%nat).
  { unfold psta, gsta in E0. st_bind E0. st_bind E1. injection E2 as <- <-. apply unwrap_Ok in E1 as [E1 _].
    apply lookup_lt_Some in E1. destruct HI as [HI _]. lia. }
  assert (Ho0 : store x0 !! v = Some o).
  { unfold psta in E0. st_bind E0. unfold gsta in E1. st_bind E1. injection E2 as <- <-. apply unwrap_Ok in E1 as [_ ->].
    by injection E0 as _ <-. }
  assert (HI0 : in_order x0) by (by eapply (order_psta _ _ _ _ _ _ _ HI)). clear HI E0 Ho.
  st_bind E. assert (HJ : all_but (Some v) ready x2).
  { unfold pasta, asta in E0. st_bind E0. st_bind E1. unfold gvif in E2. st_bind E2. injection E3 as <- <-.
    apply unwrap_Ok in E2 as [Hv ->]. rewrite Ho0 in Hv. injection Hv as <-. destruct (u o) as [b | | |] eqn:Eu; try done.
    injection E1 as <- <-. apply pvif_Ok in E0 as [_ ->]. destruct HI0 as (H1 & H2 & H3).
    split; [done |]. split; [done |]. intros w p Hw. cbn in Hw. destruct (decide (w = v)) as [-> | Hne].
    - rewrite lookup_alter_eq, Ho0 in Hw. injection Hw as <-. split; [done |]. intros _. destruct (H3 _ _ Ho0) as [Hx _].
      destruct (Hx ltac:(done)) as [A B C D]. split; [split; [done |]; by exists (b <| ap := Some (Z.to_nat (c_ap c)) |>), (Z.to_nat (c_ap c)) |].
      split; cbn; [done | by intros ? j [= <-] [= <-] | intros ? _; by apply (C b) | done].
    - rewrite lookup_alter_ne in Hw by done. apply H3 in Hw as [Hw _]. split; [intros _; by apply Hw | congruence]. }
  clear E0 HI0 Ho0. revert HJ E. generalize x2. intros h0 HJ E. revert h0 a h' HJ E.
  match goal with |- forall h0 a h', _ -> ?m h0 = _ -> _ => change (keeps (all_but (Some v) ready) m) end.
  order.
Qed.

Lemma ready_set_conn v c : keeps (all_but (Some v) ready) (rwnx_set_conn_state v c).
Proof. apply all_but_self. intros o [H [? ? ? ?]]. split; [done |]. by split. Qed.

Lemma ready_result v c : c_status c = 0 -> keeps (all_but (Some v) ready) (connect_result v c).
Proof.
  intros Hs. unfold connect_result. rewrite Hs. cbn. destruct (c_roamed c); cbn [negb];
    (apply keeps_bind; [apply order_emit | intros _; apply ready_set_conn]).
Qed.

Lemma failed_result v c : c_status c <> 0 -> keeps in_order (connect_result v c).
Proof.
  intros Hs%Z.eqb_neq. unfold connect_result. rewrite Hs. cbn [negb]. unfold in_order. order.
Qed.

Lemma order_connect_ind c : keeps in_order (rwnx_rx_sm_connect_ind c).
Proof.
  intros h a h' HI E. unfold rwnx_rx_sm_connect_ind in E. st_bind E. pose proof (order_table _ _ _ _ _ _ HI E0) as HI1.
  st_bind E. apply unwrap_Ok in E1 as [-> ->]. st_bind E. apply gvif_Ok in E1 as [-> Hv].
  destruct (netdev _) eqn:Hn; cbn [negb] in E; [| done]. destruct (c_status c =? 0) eqn:Es.
  - st_bind E. pose proof (connected_ready _ _ _ _ _ _ HI1 Hv Hn E1) as HJ. clear E1.
    st_bind E. pose proof (order_gvif _ _ _ _ _ _ HJ E1) as HJ1. cbn beta in HJ1. destruct (_ && _) in E; [by eapply ready_roam |].
    apply Z.eqb_eq in Es. st_bind E. pose proof (ready_result _ _ Es _ _ _ HJ1 E2) as HJ2. cbn beta in HJ2.
    st_bind E. assert (HJ3 : all_but (Some x1) ready x9).
    { revert HJ2 E3. apply all_but_self. intros p [H [? ? ? ?]]. split; [done |]. by split. }
    by eapply ready_roam.
  - clear Hv Hn E0 HI. revert h a h' HI1 E. intros _.
    match goal with |- forall a h', _ -> ?m ?h0 = _ -> _ => intros a h' HI E; apply (fun K : keeps in_order m => K h0 a h' HI E) end.
    apply Z.eqb_neq in Es as Hs. apply keeps_bind; [unfold in_order; order |]. intros _. cbn.
    apply keeps_bind; [apply order_gvif |]. intros _. apply keeps_bind; [by apply failed_result |]. intros _.
    unfold in_order. order.
Qed.

(** ** The end of a connection *)

(** In order but for the state of the connection; with [roam] it is not
    connected. *)
Definition ending (roam : bool) (o : vif) : Prop :=
  (roam = true -> drv_conn_state o <> CONNECTED) /\ vif_ok (o <| drv_conn_state := DISCONNECTED |>).

Lemma respects_ending r : respects (ending r).
Proof. intros o c Hc [H [? ? ? ?]]. split; [done |]. by split. Qed.
#[local] Hint Resolve respects_ending : conn.

Lemma ending_arm r o a b :
  u o = ASta a -> (forall i, ap b = Some i -> ap a = Some i) -> ending r o -> ending r (o <| u := ASta b |>).
Proof.
  intros Hu Hb [H [A B C D]]. split; [done |]. split; cbn; [done | intros ? i [= <-] Hi; by eapply B, Hb | intros ? _; by eapply C | done].
Qed.

Lemma ending_auth r v : keeps (all_but (Some v) (ending r)) (rwnx_external_auth_disable v).
Proof.
  unfold rwnx_external_auth_disable. order. apply all_but_self_pasta. intros o b Hu. by apply (ending_arm _ _ _ _ Hu).
Qed.

Lemma ending_no_ap r v : keeps (all_but (Some v) (ending r)) (pasta v (fun a => a <| ap := None |>)).
Proof. apply all_but_self_pasta. intros o b Hu. by apply (ending_arm _ _ _ _ Hu). Qed.

Lemma begin_end v h o a :
  in_order h -> store h !! v = Some o -> u o = ASta a -> all_but (Some v) (ending (is_roam a)) h.
Proof.
  intros (H1 & H2 & H3) Ho Hu. split; [done |]. split; [done |]. intros w p Hw. destruct (H3 _ _ Hw) as [Hp _].
  split; intros Hx; [by apply Hp |]. injection Hx as ->. rewrite Ho in Hw. injection Hw as <-. destruct (Hp ltac:(done)) as [A B C D].
  split; [| by split]. intros Hr Hc. destruct (A Hc) as [_ Hx]. rewrite (Hx _ Hu) in Hr. done.
Qed.

Lemma end_end r v h : all_but (Some v) (ending r) h ->
  (r = true -> in_order h) /\ forall a h', rwnx_set_conn_state v DISCONNECTED h = Ok (a, h') -> in_order h'.
Proof.
  intros (H1 & H2 & H3). split.
  - intros Hr. split; [done |]. split; [done |]. intros w p Hw. split; [intros _ | done]. destruct (H3 _ _ Hw) as [Hx Hy].
    destruct (decide (v = w)) as [-> | Hn]; [| apply Hx; congruence]. destruct (Hy eq_refl) as [Hc [A B C D]]. split; [| done..].
    intros Hc'. by destruct (Hc Hr).
  - intros a h' E. apply pvif_Ok in E as [_ ->]. split; [done |]. split; [done |]. intros w p Hw. split; [intros _ | done]. cbn in Hw.
    destruct (decide (w = v)) as [-> | Hn]; [| rewrite lookup_alter_ne in Hw by done; apply (H3 _ _ Hw); congruence].
    rewrite lookup_alter_eq in Hw. destruct (store h !! v) as [q |] eqn:Eq; [| done]. injection Hw as <-.
    by destruct (H3 _ _ Eq) as [_ [_ Hq]].
Qed.

Lemma order_disconnect_ind i reason ft re : keeps in_order (rwnx_rx_sm_disconnect_ind i reason ft re).
Proof.
  intros h b h' HI E. unfold rwnx_rx_sm_disconnect_ind in E. st_bind E. pose proof (order_table _ _ _ _ _ _ HI E0) as HI1. cbn beta in HI1.
  clear E0. st_bind E. apply unwrap_Ok in E0 as [-> ->]. st_bind E. apply gvif_Ok in E0 as [-> Hv]. rename x1 into v.
  destruct (bool_decide _); [by injection E as _ <- |]. st_bind E. unfold asta in E0. st_bind E0. apply gvif_Ok in E1 as [-> Hv'].
  rewrite Hv in Hv'. injection Hv' as <-. destruct (u _) as [a | | |] eqn:Eu; try done. injection E0 as <- <-.
  pose proof (begin_end _ _ _ _ HI1 Hv Eu) as HJ. clear HI HI1 Hv Eu.
  set (r := is_roam a) in *. st_bind E. pass HJ E0. st_bind E. pass HJ E1. st_bind E. pass HJ E2.
  st_bind E. pass HJ E3. st_bind E. apply unwrap_Ok in E4 as [_ ->]. st_bind E. pass HJ E4. st_bind E. pass HJ E5.
  st_bind E. pass HJ E6. st_bind E. pose proof (ending_no_ap _ _ _ _ _ HJ E7) as HJ1.
  cbn beta in HJ1. st_bind E. pose proof (ending_auth _ _ _ _ _ HJ1 E8) as HJ2. cbn beta in HJ2.
  st_bind E. pass HJ2 E9. apply end_end in HJ2 as [H1 H2]. destruct r; cbn [negb] in E; [injection E as _ <-; by apply H1 | by eapply H2].
Qed.

(** ** All operations *)

#[local] Abbreviation good := (all_but None (fun _ => True)).

Lemma order_handle i : keeps good (handle i).
Proof.
  destruct (not_conn i) eqn:E; [by apply order_other |].
  destruct i; try discriminate E; [apply order_connect_ind | apply order_disconnect_ind].
Qed.
#[export] Hint Resolve order_handle : conn.

Lemma order_set_conn' c v : c <> CONNECTED -> keeps good (rwnx_set_conn_state v c).
Proof. apply order_set_conn. Qed.
#[export] Hint Extern 1 (keeps (all_but None _) (rwnx_set_conn_state _ _)) => (apply order_set_conn'; repeat case_match; discriminate) : conn.

Section Env.
Context (env : hw -> req -> reply).

Lemma order_wait r : keeps good (wait env r).
Proof. unfold wait. order. Qed.
Hint Resolve order_wait : conn.
Lemma order_msg m : keeps good (rwnx_send_msg env m).
Proof. unfold rwnx_send_msg. order. Qed.
Hint Resolve order_msg : conn.
Lemma order_send m : keeps good (send env m).
Proof. unfold send. order. Qed.
Hint Resolve order_send : conn.
Lemma order_sleep : keeps good (sleep env).
Proof. unfold sleep. order. Qed.
Lemma order_remove_if i : keeps good (rwnx_send_remove_if env i).
Proof. unfold rwnx_send_remove_if. order. Qed.
Lemma order_add_if v : keeps good (rwnx_send_add_if env v).
Proof. unfold rwnx_send_add_if. order. Qed.
Lemma order_cancel : keeps good (rwnx_send_scanu_cancel_req env).
Proof. unfold rwnx_send_scanu_cancel_req. order. Qed.
Lemma order_set_table i o : keeps good (set_table i o).
Proof. unfold set_table. order. Qed.
Hint Resolve order_sleep order_remove_if order_add_if order_cancel order_set_table : conn.
Lemma order_up v i : keeps good (vif_is_up v i).
Proof. unfold vif_is_up. order. Qed.
Lemma order_down v : keeps good (vif_is_down v).
Proof. unfold vif_is_down. order. Qed.
Lemma order_rearm : keeps good rearm_p2p_timer.
Proof. unfold rearm_p2p_timer. order. Qed.
Lemma order_abort v : keeps good (abort_scan env v).
Proof. unfold abort_scan. order. Qed.
Lemma order_find_master m l : keeps good (find_master m l).
Proof. induction l; cbn [find_master]; order. Qed.
Lemma order_any_p2p l : keeps good (any_p2p l).
Proof. induction l; cbn [any_p2p]; order. Qed.
Lemma order_wait_closed v n : keeps good (wait_closed env v n).
Proof. induction n; cbn [wait_closed]; order. Qed.
Lemma order_wait_stable v f n : keeps good (wait_stable env v f n).
Proof. induction n; cbn [wait_stable]; order. Qed.
Lemma order_drop_roc v : keeps good (drop_roc v).
Proof.
  apply all_but_modify. intros h. destruct (roc_elem h) as [r |]; [| done]. by destruct (bool_decide (r_wdev r = v)).
Qed.
Hint Resolve order_up order_down order_rearm order_abort order_find_master order_any_p2p order_wait_closed order_wait_stable
  order_drop_roc : conn.

Lemma order_open v : keeps good (dev_open env v).
Proof. unfold dev_open, rwnx_open, start_fw, open_p2p_dev, open_vif, open_monitor. order. Qed.

Lemma order_close v : keeps good (dev_close env v).
Proof. unfold dev_close, rwnx_close, close_carrier, close_fw, close_tables, reset_fw. order. Qed.
Hint Resolve order_open order_close : conn.

Lemma order_first_sta m b l : keeps good (first_sta m b l).
Proof. induction l; cbn [first_sta]; order. Qed.
Lemma order_add_key v i p m c k : keeps good (rwnx_cfg80211_add_key env v i p m c k).
Proof. unfold rwnx_cfg80211_add_key, set_cipher. order. Qed.
Lemma order_scan_ssids v l : keeps good (scan_ssids env v l).
Proof. induction l; cbn [scan_ssids]; unfold scan_ssid; order. Qed.
Lemma order_min_mesh pm l : keeps good (min_mesh_pm pm l).
Proof. revert pm. induction l; intros pm; cbn [min_mesh_pm]; order. Qed.
Hint Resolve order_first_sta order_add_key order_scan_ssids order_min_mesh : conn.
Lemma order_mesh_pm v : keeps good (rwnx_update_mesh_power_mode env v).
Proof. unfold rwnx_update_mesh_power_mode. order. Qed.
Hint Resolve order_mesh_pm : conn.

Lemma vlan_set w (o : vif) m s' :
  (exists s, u o = AVlan m s) -> triple (fun h => good h /\ store h !! w = Some o) (pvif w (fun o => o <| u := AVlan m s' |>)) (fun _ => good).
Proof.
  intros [s Hu] h a h' [HI Ho] E. apply pvif_Ok in E as [_ ->]. apply all_but_alter; [| done | done]. intros p Hp.
  rewrite Ho in Hp. injection Hp as <-. intros [A B C D]. split; cbn; try done.
  intros Hc. destruct (A Hc) as [(_ & a' & i & Ha & _) _]. congruence.
Qed.

Lemma vlan_clear w (b : vif -> bool) s' :
  keeps good (o ← gvif w; if b o then match u o with AVlan m _ => pvif w (fun o => o <| u := AVlan m s' |>) | _ => fault end
                          else mret tt).
Proof.
  apply keeps_gvif_bind. intros o. destruct (b o); [| by intros h a h' [HI _] [= _ <-]].
  destruct (u o) eqn:Eu; try (by intros ? ? ? _ ?). apply vlan_set. eauto.
Qed.

Lemma order_leave_vlan i : keeps good (leave_vlan i).
Proof.
  unfold leave_vlan. apply keeps_bind; [order | intros s]. destruct (_ =? _); [order |].
  apply keeps_bind; [order | intros t]. apply keeps_bind; [order | intros w].
  apply (vlan_clear _ (fun o => up o && bool_decide (wtype o = AP_VLAN) && use_4addr o)).
Qed.
Hint Resolve order_leave_vlan : conn.

Lemma order_drop v i n : keeps good (drop_sta env v i n).
Proof. unfold drop_sta. order. Qed.
Hint Resolve order_drop : conn.
Lemma order_del_all v n : keeps good (del_all env v n).
Proof. induction n; cbn [del_all]; order. by intros h a h' _ E. Qed.
Hint Resolve order_del_all : conn.
Lemma order_del_station v m : keeps good (rwnx_cfg80211_del_station_compat env v m).
Proof. unfold rwnx_cfg80211_del_station_compat. order. Qed.
Hint Resolve order_del_station : conn.
Lemma order_stop_stations v n : keeps good (stop_stations env v n).
Proof. induction n; cbn [stop_stations]; order. by intros h a h' _ E. Qed.
Hint Resolve order_stop_stations : conn.
Lemma order_connect_req v p : keeps good (rwnx_send_sm_connect_req env v p).
Proof. unfold rwnx_send_sm_connect_req. order. Qed.
Hint Resolve order_connect_req : conn.

(** What only reads or writes elsewhere leaves an interface what it is. *)
Definition is_vif (w : nat) (o : vif) (h : hw) : Prop := good h /\ store h !! w = Some o.

Lemma is_vif_keeps {A} w o (m : V A) : keeps good m -> keeps (fun h => store h !! w = Some o) m -> keeps (is_vif w o) m.
Proof. intros H1 H2 h a h' [? ?] E. split; [by eapply H1 | by eapply H2]. Qed.

Lemma order_change_vlan i w : keeps good (change_vlan i w).
Proof.
  unfold change_vlan. apply keeps_gvif_bind. intros o. apply (triple_bind _ _ _ (fun _ => is_vif w o)).
  { apply is_vif_keeps; [order |]. unfold gsta. keep_steps idtac. }
  intros s. destruct (_ =? _); [by intros h a h' [HI _] [= _ <-] |].
  apply (triple_bind _ _ _ (fun _ => is_vif w o)).
  { apply is_vif_keeps; [order |]. unfold table. keep_steps idtac. }
  intros t. apply (triple_bind _ _ _ (fun _ => is_vif w o)).
  { apply is_vif_keeps; [order |]. keep_steps idtac. }
  intros old. apply (triple_bind _ _ _ (fun _ => is_vif w o)).
  { apply is_vif_keeps; [order |]. by apply keeps_modify. }
  intros _. apply (triple_bind _ _ _ (fun _ => is_vif w o)).
  { apply is_vif_keeps; [order |]. unfold psta, gsta. keep_steps ltac:(by apply keeps_modify). }
  intros _. apply (triple_bind _ _ _ (fun _ => good)).
  - destruct (_ && _); [| by intros h a h' [HI _] [= _ <-]]. destruct (u o) eqn:Eu; try (by intros ? ? ? _ ?). apply vlan_set. eauto.
  - intros _. apply (vlan_clear _ (fun o => bool_decide (wtype o = AP_VLAN) && use_4addr o)).
Qed.
Hint Resolve order_change_vlan : conn.

(** A roaming begins: the state goes with the flag. *)
Lemma order_connect v sme : keeps good (rwnx_cfg80211_connect env v sme).
Proof.
  unfold rwnx_cfg80211_connect. apply keeps_gvif_bind. intros o. set (roam := bool_decide (drv_conn_state o = CONNECTED)).
  intros h b h' [HI Ho] E. st_bind E. apply pasta_Ok in E0 as (p & a & Hp & Hu & ->). rewrite Ho in Hp. injection Hp as <-.
  destruct (changing (drv_conn_state o)) eqn:Ec.
  - injection E as _ <-. apply all_but_alter; [| done | done]. intros p Hp. rewrite Ho in Hp. injection Hp as <-.
    intros [A B C D]. assert (Hn : drv_conn_state o <> CONNECTED) by (intros Hc; by rewrite Hc in Ec).
    split; cbn; [done | intros ? i [= <-]; by apply (B a) | intros ? _; by eapply C | done].
  - st_bind E. apply pvif_Ok in E0 as [_ ->]. cbn in E.
    match type of E with _ ?h1 = _ => assert (HI1 : good h1) end.
    { destruct HI as (H1 & H2 & H3). split; [done |]. split; [done |]. intros w p Hw. cbn in Hw. split; [intros _ | done].
      destruct (decide (w = v)) as [-> | Hn]; [| rewrite !lookup_alter_ne in Hw by done; by apply (H3 _ _ Hw)].
      rewrite !lookup_alter_eq, Ho in Hw. injection Hw as <-. destruct (H3 _ _ Ho) as [Hx _]. destruct (Hx ltac:(done)) as [A B C D].
      split; cbn; [by destruct roam | intros ? i [= <-]; by apply (B a) | intros ? _; by eapply C | done]. }
    revert HI1 E. match goal with |- _ -> ?m ?h1 = _ -> _ => intros HI1 E;
      apply (fun K : keeps good m => K h1 b h' HI1 E) end.
    order.
Qed.

Lemma order_link_vif v o : vif_ok o -> keeps good (link_vif v o).
Proof.
  intros Ho. apply keeps_modify. intros h (H1 & H2 & H3). split; [done |]. split; [done |]. intros w p Hw. cbn in Hw.
  split; [intros _ | done]. destruct (decide (w = v)) as [-> |]; [rewrite lookup_insert_eq in Hw; by injection Hw as <- |].
  rewrite lookup_insert_ne in Hw by done. by apply (H3 _ _ Hw).
Qed.

Lemma order_list_del v : keeps good (list_del_vif v).
Proof.
  unfold list_del_vif. order. intros ?. apply keeps_modify. intros h (H1 & H2 & H3). split; [done |]. split; [done |].
  intros w p Hw. cbn in Hw. apply lookup_delete_Some in Hw as [_ Hw]. by apply H3.
Qed.
Hint Resolve order_list_del : conn.

(** A new interface is in order. *)
Lemma new_ok t i b p4 w m nd :
  vif_ok (MkVif t i 0 RWNX_CH_NOT_SET false b false DISCONNECTED (fresh_arm t) p4 false false false OPEN_SYSTEM w m nd false false).
Proof.
  split; cbn; [done | | | by left].
  - intros a j Ha Hj. destruct t; try discriminate Ha; by injection Ha as <-.
  - intros a Ha. by destruct t.
Qed.

Lemma order_interface_add t p : keeps good (rwnx_interface_add env t p).
Proof.
  intros h b h' HI E. unfold rwnx_interface_add in E. st_bind E. injection E0 as <- <-.
  destruct (find_index _ t) as [i |]; [| by injection E as _ <-]. st_bind E. pass HI E0.
  destruct (negb (allocated _)); [by injection E as _ <- |]. st_bind E. injection E1 as <- <-.
  st_bind E. assert (good x2 /\ forall o, x1 = Some o -> vif_ok o) as [HI2 Ho].
  { case_bool_decide; [| injection E1 as <- <-; split; [done |]; intros o [= <-]; apply new_ok].
    st_bind E1. pass HI E2. st_bind E1. pass HI E3. injection E1 as <- <-. split; [done |].
    destruct x5; [| done]. intros o [= <-]. split; cbn; [done | by intros | by intros | by left]. }
  destruct x1 as [o |]; [| by injection E as _ <-]. st_bind E. pass HI2 E2. destruct (negb (_ =? 0)); [by injection E as _ <- |].
  st_bind E. apply (order_link_vif _ _ (Ho _ eq_refl) _ _ _ HI2) in E3. by injection E as _ <-.
Qed.

Lemma order_virtual_add t : keeps good (rwnx_virtual_interface_add env t).
Proof.
  unfold rwnx_virtual_interface_add. order.
  all: apply order_link_vif; split; cbn; [done | by intros | by intros | by left].
Qed.

(** The type of an interface that is not connected may change. *)
Lemma order_change j v t w h : allowed h (OChange j v t w) -> good h ->
  forall a h', rwnx_cfg80211_change_iface env j v t w h = Ok (a, h') -> good h'.
Proof.
  intros Ha HI a h' E. unfold rwnx_cfg80211_change_iface in E. case_bool_decide; [by injection E as _ <- |].
  st_bind E. apply pvif_Ok in E0 as [[o Ho] ->]. destruct (Ha _ Ho) as (_ & _ & _ & Hc).
  match type of E with _ ?h1 = _ => assert (HI1 : good h1) end.
  { apply all_but_alter; [| done | done]. intros p Hp. rewrite Ho in Hp. injection Hp as <-. intros [A B C D].
    split; cbn; [done | | | done].
    - intros b i Hb Hi. destruct t; cbn in Hb; try discriminate Hb; try (injection Hb as <-; discriminate Hi); by eapply B.
    - intros b Hb. destruct t; try done; discriminate Hb. }
  revert HI1 E. match goal with |- _ -> ?m ?h1 = _ -> _ => intros HI1 E; apply (fun K : keeps good m => K h1 a h' HI1 E) end.
  unfold change_fw. order.
Qed.

Lemma is_change o : (exists j v t w, o = OChange j v t w) \/ ~ exists j v t w, o = OChange j v t w.
Proof. destruct o; try (right; by intros (? & ? & ? & ? & ?)). left. by do 4 eexists. Qed.

Lemma run_op_order o h h' : good h -> allowed h o -> run_op env o h = Ok (tt, h') -> good h'.
Proof.
  intros HI Ha E. destruct (is_change o) as [(j & v & t & w & ->) | Hn].
  { cbn [run_op] in E. unfold void in E. st_bind E. injection E as <-. by eapply order_change. }
  revert HI E. match goal with |- _ -> ?m h = _ -> _ => intros HI E; apply (fun K : keeps good m => K h tt h' HI E) end.
  clear HI E Ha. destruct o; cbn [run_op]; unfold void; [| | by destruct Hn; eauto | ..].
  all: unfold rwnx_cfg80211_add_iface, rwnx_cfg80211_del_iface, rwnx_cfgp2p_stop_p2p_device, aicwf_p2p_alive_timeout,
    rwnx_cfg80211_scan, rwnx_send_scanu_req, rwnx_cfg80211_disconnect, rwnx_cfg80211_external_auth, rwnx_cfg80211_set_monitor_channel,
    rwnx_cfg80211_remain_on_channel_, rwnx_cfg80211_cancel_remain_on_channel, rwnx_cfg80211_del_key, set_cipher,
    rwnx_cfg80211_add_station, sta_added, rwnx_ps_bh_enable, apm_staloss_work_process, look_for,
    rwnx_cfg80211_change_station, change_mesh, rwnx_cfg80211_start_ap, ap_started, rwnx_cfg80211_stop_ap.
  all: order.
  - apply order_virtual_add.
  - apply order_interface_add.
  - apply order_connect.
Qed.

Lemma init_good mac dc : good (init mac dc).
Proof. done. Qed.

Lemma reachable_good mac dc h : reachable env mac dc h -> good h.
Proof.
  intros H. pose proof (init_good mac dc) as Hi. revert H Hi. unfold reachable. generalize (init mac dc).
  induction 1 as [| x y z (o & Ha & Ho) _ IH]; [done |]. intros Hx. by eapply IH, run_op_order.
Qed.

End Env.

(** ** What is left of a connection *)

Lemma ends_gvif v h o Q : store h !! v = Some o -> Q o h -> ends (gvif v) h Q.
Proof. intros H HQ. apply ends_then, ends_get. by apply (ends_unwrap _ o). Qed.

Lemma ends_pvif v f h o (Q : unit -> hw -> Prop) :
  store h !! v = Some o -> Q tt (h <| store ::= alter f v |>) -> ends (pvif v f) h Q.
Proof. intros H HQ. apply ends_then, (ends_gvif _ _ o); [done |]. by apply ends_modify. Qed.

Lemma ends_pasta v f h o a (Q : unit -> hw -> Prop) :
  store h !! v = Some o -> u o = ASta a -> Q tt (h <| store ::= alter (fun o => o <| u := ASta (f a) |>) v |>) ->
  ends (pasta v f) h Q.
Proof.
  intros H Hu HQ. apply ends_then. unfold asta. apply ends_then, (ends_gvif _ _ o); [done |]. rewrite Hu. apply ends_ret.
  by apply (ends_pvif _ _ _ o).
Qed.

Lemma ends_asta v h o a (Q : sta_arm -> hw -> Prop) :
  store h !! v = Some o -> u o = ASta a -> Q a h -> ends (asta v) h Q.
Proof. intros H Hu HQ. apply ends_then, (ends_gvif _ _ o); [done |]. rewrite Hu. by apply ends_ret. Qed.

Lemma ends_psta i f h s (Q : unit -> hw -> Prop) :
  sta_table h !! i = Some s -> Q tt (h <| sta_table ::= alter f i |>) -> ends (psta i f) h Q.
Proof. intros H HQ. apply ends_then. unfold gsta. apply ends_then, ends_get, (ends_unwrap _ s); [done |]. by apply ends_modify. Qed.

(** The interface is [o]; the others and the stations are as before. *)
Definition only (v : nat) (h0 : hw) (o : vif) (h : hw) : Prop :=
  store h !! v = Some o /\ sta_table h = sta_table h0 /\ chanctx_table h = chanctx_table h0 /\
  forall w, w <> v -> store h !! w = store h0 !! w.

Lemma only_alter v h0 h o f : only v h0 o h -> only v h0 (f o) (h <| store ::= alter f v |>).
Proof.
  intros (H1 & H2 & H3 & H4). split; cbn; [by rewrite lookup_alter_eq, H1 |]. split; [done |]. split; [done |].
  intros w Hw. rewrite lookup_alter_ne by done. by apply H4.
Qed.

Lemma ends_unlink v h o :
  store h !! v = Some o -> ch_ok (ch_index o) -> length (chanctx_table h) = 3%nat ->
  ends (rwnx_chanctx_unlink v) h (fun _ h' => store h' !! v = Some (o <| ch_index := RWNX_CH_NOT_SET |>) /\
    sta_table h' = sta_table h /\ forall w, w <> v -> store h' !! w = store h !! w).
Proof.
  intros Ho Hc Hl. unfold rwnx_chanctx_unlink. apply ends_then, (ends_gvif _ _ o); [done |].
  destruct (_ =? RWNX_CH_NOT_SET) eqn:E1.
  { apply Z.eqb_eq in E1. apply ends_ret. split; [| done]. rewrite Ho. destruct o. cbn in *. by rewrite E1. }
  destruct (NX_CHAN_CTXT_CNT <=? _) eqn:E2.
  { apply Z.leb_le in E2. apply Z.eqb_neq in E1. destruct Hc; [done |]. lia. }
  apply Z.leb_gt in E2. apply ends_then, ends_get. destruct (lookup_lt_is_Some_2 (chanctx_table h) (Z.to_nat (ch_index o))) as [c Hx].
  { rewrite Hl. apply Z.eqb_neq in E1. destruct Hc; [done |]. unfold NX_CHAN_CTXT_CNT in *. lia. }
  apply ends_then, (ends_unwrap _ c); [done |]. apply (ends_bind _ _ _ (fun _ h1 => exists l, h1 = h <| log := l |>)).
  { destruct (_ && _); [| apply ends_ret; exists (log h); by destruct h]. unfold emit. apply ends_modify. by eexists. }
  intros _ h1 [l ->]. apply ends_then, ends_modify, (ends_pvif _ _ _ o); [done |]. cbn. rewrite lookup_alter_eq, Ho.
  split; [done |]. split; [done |]. intros w Hw. by rewrite lookup_alter_ne.
Qed.

(** The last steps of the end of a connection. *)
Lemma ends_last v h o b :
  store h !! v = Some o -> u o = ASta b -> ap b = None -> ch_ok (ch_index o) -> length (chanctx_table h) = 3%nat ->
  ends (_ ← rwnx_external_auth_disable v; _ ← rwnx_chanctx_unlink v; rwnx_set_conn_state v DISCONNECTED) h (fun _ h' =>
    exists o' b', store h' !! v = Some o' /\ drv_conn_state o' = DISCONNECTED /\ u o' = ASta b' /\ ap b' = None /\
      external_auth b' = false /\ ch_index o' = RWNX_CH_NOT_SET /\ carrier o' = carrier o /\ sta_table h' = sta_table h /\
      forall w, w <> v -> store h' !! w = store h !! w).
Proof.
  intros Ho Hu Hb Hc Hl. set (o1 := o <| u := ASta (b <| external_auth := false |>) |>).
  apply (ends_bind _ _ _ (fun _ => only v h o1)).
  { unfold rwnx_external_auth_disable. apply ends_then, (ends_asta _ _ o b); [done | done |].
    assert (H0 : only v h o h) by done.
    destruct (external_auth b) eqn:Eb; cbn [negb].
    - apply ends_then, (ends_pasta _ _ _ o b); [done | done |]. apply ends_modify.
      destruct (only_alter _ _ _ _ (fun o => o <| u := ASta (b <| external_auth := false |>) |>) H0) as (S1 & S2 & S3 & S4). done.
    - apply ends_ret. replace o1 with o; [done |]. subst o1. destruct o, b. cbn in *. by subst. }
  intros _ h1 (S1 & S2 & S3 & S4).
  eapply ends_bind; [apply (ends_unlink v h1 o1 S1 Hc); congruence |]. intros _ h2 (T1 & T2 & T3).
  eapply ends_pvif; [done |]. cbn. rewrite lookup_alter_eq, T1. do 2 eexists. repeat split; try done; [congruence |].
  intros w Hw. rewrite lookup_alter_ne by done. by rewrite T3, S4.
Qed.

(** C23. In any state that is reached, the indication that the connection of a connected
    interface has ended is handled without a NULL pointer or an index out of range, and
    afterwards the interface is disconnected, has no station, no channel, no external
    authentication and, if it is up, no carrier, the station is not valid, and the other
    interfaces are as before. *)
Theorem disconnect_releases env mac dc h idx v o reason ft re :
  reachable env mac dc h -> vif_table h !! Z.to_nat (u8 idx) = Some (Some v) -> store h !! v = Some o ->
  drv_conn_state o = CONNECTED ->
  exists h' o' a b i s, rwnx_rx_sm_disconnect_ind idx reason ft re h = Ok (tt, h') /\ store h' !! v = Some o' /\
    drv_conn_state o' = DISCONNECTED /\ u o' = ASta b /\ ap b = None /\ external_auth b = false /\
    ch_index o' = RWNX_CH_NOT_SET /\ (up o = true -> carrier o' = false) /\
    u o = ASta a /\ ap a = Some i /\ sta_table h' !! i = Some s /\ valid s = false /\
    (forall w, w <> v -> store h' !! w = store h !! w).
Proof.
  intros Hr Ht Ho Hc. apply reachable_good in Hr as (Hl1 & Hl2 & Hg). destruct (Hg _ _ Ho) as [Hv _]. destruct (Hv ltac:(done)) as [A B C D].
  destruct (A Hc) as [(Hn & a & i & Hu & Hi) Hroam].
  assert (H : ends (rwnx_rx_sm_disconnect_ind idx reason ft re) h (fun _ h' => exists o' b s, store h' !! v = Some o' /\
    drv_conn_state o' = DISCONNECTED /\ u o' = ASta b /\ ap b = None /\ external_auth b = false /\
    ch_index o' = RWNX_CH_NOT_SET /\ (up o = true -> carrier o' = false) /\
    sta_table h' !! i = Some s /\ valid s = false /\ (forall w, w <> v -> store h' !! w = store h !! w))).
  { unfold rwnx_rx_sm_disconnect_ind, table. apply ends_then, ends_then, ends_get, (ends_unwrap _ (Some v)); [done |].
    apply ends_then, (ends_unwrap _ v); [done |]. apply ends_then, (ends_gvif _ _ o); [done |]. rewrite Hc. cbn.
    apply ends_then, (ends_asta _ _ o a); [done | done |]. rewrite (Hroam _ Hu). cbn.
    apply ends_then. unfold emit. apply ends_modify.
    apply (ends_bind _ _ _ (fun _ => only v h o)); [by destruct (bool_decide _); [apply ends_modify | apply ends_ret] |]. intros _ h1 H1.
    set (o1 := if up o then o <| carrier := false |> else o).
    apply (ends_bind _ _ _ (fun _ => only v h o1)).
    { subst o1. destruct (up o); [| by apply ends_ret]. apply (ends_bind _ _ _ (fun _ => only v h o)).
      - destruct (_ && _); [by apply ends_modify | by apply ends_ret].
      - intros _ h2 H2. rewrite Hn. apply (ends_pvif _ _ _ o); [apply H2 |]. by apply only_alter. }
    intros _ h2 H2. apply (ends_bind _ _ _ (fun _ => only v h o1)).
    { rewrite (C _ Hu), Hn. destruct (is_client _); [by apply ends_modify | by apply ends_ret]. }
    intros _ h3 H3. apply ends_then, (ends_unwrap _ i); [done |]. apply ends_then, ends_modify, ends_then, ends_modify.
    destruct (lookup_lt_is_Some_2 (sta_table h) i) as [s Hs]; [rewrite Hl1; by eapply B |]. destruct H3 as (S1 & S2 & S3 & S4).
    apply ends_then, (ends_psta _ _ _ s); [cbn; by rewrite S2 |].
    assert (Hu1 : u o1 = ASta a) by (subst o1; by destruct (up o)).
    apply ends_then, (ends_pasta _ _ _ o1 a); [done | done |].
    match goal with |- ends _ ?online _ => assert (S5 : store online !! v = Some (o1 <| u := ASta (a <| ap := None |>) |>))
      by (cbn; by rewrite lookup_alter_eq, S1) end.
    eapply ends_post; [eapply (ends_last v _ _ _ S5); [done | done | subst o1; by destruct (up o) | cbn; congruence] |].
    intros _ h' (o' & b & Q1 & Q2 & Q3 & Q4 & Q5 & Q6 & Q7 & Q8 & Q9). exists o', b, (s <| valid := false |>).
    repeat split; try done.
    - intros Eu. rewrite Q7. cbn. subst o1. by rewrite Eu.
    - rewrite Q8. cbn. by rewrite list_lookup_alter_eq, S2, Hs.
    - intros w Hw. rewrite Q9 by done. cbn. rewrite lookup_alter_ne by done. by apply S4. }
  destruct H as ([] & h' & E & o' & b & s & ?). exists h', o', a, b, i, s. naive_solver.
Qed.

Module Example.

Definition fw (h : hw) (r : req) : reply := Reply true 0 0 0 false 0 [].
Definition mac : list Z := [0x00; 0x11; 0x22; 0x33; 0x44; 0x55].
Definition peer : list Z := [0x66; 0x11; 0x22; 0x33; 0x44; 0x55].
Definition open_params : connect_params := ConnectParams 0 [] OPEN_SYSTEM None false 10.

(** A station that is connected. *)
Definition online_ops : list op :=
  [OAdd STATION None; OOpen 0; OConnect 0 open_params; OInd (sm_connect_ind (ConnectInfo 0 0 3 1 false true 1 peer 2437))].
Definition online : hw := default (init mac false) (run_all fw online_ops (init mac false)).

Lemma online_reachable : reachable fw mac false online.
Proof. apply (run_all_rtc _ online_ops); by vm_compute. Qed.

Lemma disconnect_releases_witness :
  exists h' o', rwnx_rx_sm_disconnect_ind 0 3 false false online = Ok (tt, h') /\ store h' !! 0%nat = Some o' /\
    drv_conn_state o' = DISCONNECTED /\ ch_index o' = RWNX_CH_NOT_SET.
Proof.
  destruct (store online !! 0%nat) as [o |] eqn:E; [| by vm_compute in E].
  destruct (disconnect_releases fw mac false online 0 0 o 3 false false online_reachable) as (h' & o' & a & b & i & s & H1 & H2 & H3 & _ & _ & _ & H4 & _);
    [by vm_compute | exact E | by (vm_compute in E; injection E as <-) |].
  exists h', o'. split; [exact H1 |]. split; [exact H2 |]. split; [exact H3 | exact H4].
Defined.

End Example.

End VifConn.
