(* ===== verification/VifFail.v ===== *)
(** * Operations that fail (theorems on [VifOps], [VifSta])

    What an operation that fails leaves behind: an attempt to connect and a
    scan that end with an error block the later ones. *)

From S2P Require Import Prelude State Vif VifOps VifSta VifRuns VifConn.
From stdpp Require Import list gmap.
Import Vif VifOps VifSta VifRuns VifConn.
Open Scope Z_scope.
Open Scope list_scope.

Module VifFail.

(** A wait without indications. *)
Lemma ends_wait env r h (Q : reply -> hw -> Prop) :
  meanwhile (env h r) = [] -> Q (env h r) (h <| clock ::= S |>) -> ends (wait env r) h Q.
Proof.
  intros Hm HQ. unfold wait. apply ends_then, ends_get. apply ends_then, ends_modify. rewrite Hm. cbn [for_each].
  by apply ends_then, ends_ret, ends_ret.
Qed.

Lemma wep_auth_SAE o : wep_auth o SAE = SAE.
Proof. unfold wep_auth. rewrite bool_decide_false by done. by destruct (_ && _ && _). Qed.

Lemma alter_id_lookup {A} (f : A -> A) v (m : gmap nat A) x : m !! v = Some x -> alter f v m !! v = Some (f x).
Proof. intros H. by rewrite lookup_alter_eq, H. Qed.

(** C39. On a disconnected interface a request to connect with SAE but without external
    authentication is refused after the state was set: every later request then returns
    0 without a message to the firmware. *)
Theorem refused_connect_blocks env h v o a sme :
  store h !! v = Some o -> u o = ASta a -> drv_conn_state o = DISCONNECTED ->
  auth_type sme = SAE -> external_auth_support sme = false ->
  exists h1, rwnx_cfg80211_connect env v sme h = Ok (- EINVAL, h1) /\ log h1 = log h /\
  forall sme', exists h2 o2, rwnx_cfg80211_connect env v sme' h1 = Ok (0, h2) /\ log h2 = log h /\
    store h2 !! v = Some o2 /\ drv_conn_state o2 = CONNECTING.
Proof.
  intros Ho Hu Hc Ha He.
  assert (H : ends (rwnx_cfg80211_connect env v sme) h (fun r h1 => r = - EINVAL /\ log h1 = log h /\
    exists o1 a1, store h1 !! v = Some o1 /\ u o1 = ASta a1 /\ drv_conn_state o1 = CONNECTING)).
  { unfold rwnx_cfg80211_connect. apply ends_then, (ends_gvif _ _ o); [done |]. rewrite Hc. cbn -[wep_auth].
    apply ends_then, (ends_pasta _ _ _ o a); [done | done |].
    set (o1 := o <| u := ASta (a <| is_roam := false |>) |>).
    eapply ends_then, (ends_pvif _ _ _ o1); [by apply alter_id_lookup |].
    assert (Hx : (if is_wep_cipher (cipher_group sme) || is_wep_cipher (nth 0 (ciphers_pairwise sme) 0)
                  then wep_auth o (auth_type sme) else auth_type sme) = SAE).
    { rewrite Ha, wep_auth_SAE. by destruct (_ || _). }
    rewrite Hx, He. destruct (s_key sme); cbn; apply ends_then, ends_ret, ends_ret; split; try done; split; try done;
      do 2 eexists; (split; [by apply alter_id_lookup, alter_id_lookup | done]). }
  destruct H as (r & h1 & E & -> & Hl & o1 & a1 & Ho1 & Hu1 & Hc1). exists h1. split; [done |]. split; [done |]. intros sme'.
  assert (H : ends (rwnx_cfg80211_connect env v sme') h1 (fun r h2 => r = 0 /\ log h2 = log h /\
    exists o2, store h2 !! v = Some o2 /\ drv_conn_state o2 = CONNECTING)).
  { unfold rwnx_cfg80211_connect. apply ends_then, (ends_gvif _ _ o1); [done |]. rewrite Hc1. cbn -[wep_auth].
    apply ends_then, (ends_pasta _ _ _ o1 a1); [done | done |]. apply ends_ret. split; [done |]. split; [done |].
    eexists. split; [by apply alter_id_lookup | done]. }
  destruct H as (r & h2 & E2 & -> & Hl2 & o2 & Ho2 & Hc2). by exists h2, o2.
Qed.

Lemma ends_no_memory env m h (Q : Z * reply -> hw -> Prop) :
  allocated (env h (Confirm m)) = false -> Q (- ENOMEM, env h (Confirm m)) (h <| clock ::= S |>) -> ends (send env m) h Q.
Proof.
  intros Hm HQ. unfold send. apply ends_then, ends_get. rewrite Hm. cbn. by apply ends_then, ends_modify, ends_ret.
Qed.

Lemma ends_ssids env v n h (Q : Z -> hw -> Prop) : Q 0 h -> ends (scan_ssids env v (replicate n false)) h Q.
Proof.
  intros HQ. induction n as [| n IH]; [by apply ends_ret |]. cbn. by apply ends_then, ends_ret.
Qed.

(** Whether the interface itself allows a scan. *)
Definition may_scan (o : vif) : Prop :=
  drv_conn_state o <> CONNECTING /\ (is_client (wtype o) = true -> exists a, u o = ASta a /\ external_auth a = false).

(** A scan that fails for want of memory for the information elements leaves the
    mark of a scan in progress, and every later scan on any interface is refused. *)
Theorem failed_scan_blocks env h v o n :
  store h !! v = Some o -> may_scan o -> testmode h = false -> scanning h = false ->
  (forall h, allocated (env h Allocate) = true /\ meanwhile (env h Allocate) = []) ->
  (forall h i, allocated (env h (Confirm (SCANU_VENDOR_IE i))) = false) ->
  exists h1, rwnx_cfg80211_scan env v (replicate n false) true h = Ok (- ENOMEM, h1) /\ log h1 = log h /\
    store h1 = store h /\ scan_request h1 = Some v /\
  forall w o' ssids ie, store h !! w = Some o' -> rwnx_cfg80211_scan env w ssids ie h1 = Ok (- EBUSY, h1).
Proof.
  intros Ho [Hc Hx] Ht Hs Ha Hi.
  assert (H : ends (rwnx_cfg80211_scan env v (replicate n false) true) h (fun r h1 => r = - ENOMEM /\ log h1 = log h /\
    store h1 = store h /\ scan_request h1 = Some v /\ scanning h1 = true /\ testmode h1 = false)).
  { unfold rwnx_cfg80211_scan. apply ends_then, ends_get. rewrite Ht. apply ends_then, (ends_gvif _ _ o); [done |].
    rewrite bool_decide_false, Hs by done. apply (ends_bind _ _ _ (fun b h1 => b = false /\ h1 = h)).
    { destruct (is_client _); [| by apply ends_ret]. destruct Hx as (a & Hu & He); [done |].
      apply ends_then, (ends_asta _ _ o a); [done | done |]. by apply ends_ret. }
    intros b h1 [-> ->]. apply ends_then, ends_modify. unfold rwnx_send_scanu_req.
    match goal with |- ends _ ?h0 _ => destruct (Ha h0) as [Ha1 Ha2] end.
    apply ends_then, ends_wait; [done |]. rewrite Ha1. cbn [negb]. apply ends_then, ends_modify, ends_then, (ends_gvif _ _ o); [done |].
    rewrite take_replicate. apply ends_then, ends_ssids. apply ends_then, (ends_gvif _ _ o); [done |].
    apply ends_then, ends_then, ends_no_memory; [apply Hi |]. by apply ends_ret, ends_ret. }
  destruct H as (r & h1 & E & -> & H1 & H2 & H3 & H4 & H5). exists h1. repeat split; try done.
  intros w o' ssids ie Hw.
  assert (H : ends (rwnx_cfg80211_scan env w ssids ie) h1 (fun r h2 => r = - EBUSY /\ h2 = h1)).
  { unfold rwnx_cfg80211_scan. apply ends_then, ends_get. rewrite H5. apply ends_then, (ends_gvif _ _ o'); [by rewrite H2 |].
    rewrite H4. by destruct (bool_decide _); apply ends_ret. }
  by destruct H as (r & h2 & E2 & -> & ->).
Qed.

Module Example.
Import VifConn.Example.

(** Memory for everything but the information elements of a scan. *)
Definition poor (h : hw) (r : req) : reply :=
  match r with Confirm (SCANU_VENDOR_IE _) => Reply false 0 0 0 false 0 [] | _ => fw h r end.

Definition up2 : hw := default (init mac false) (run_all fw [OAdd STATION None; OOpen 0; OAdd STATION None; OOpen 1] (init mac false)).
Definition sae : connect_params := ConnectParams 0 [] SAE None false 10.

Lemma refused_connect_blocks_witness :
  exists h1, rwnx_cfg80211_connect fw 0 sae up2 = Ok (- EINVAL, h1) /\
    exists h2, rwnx_cfg80211_connect fw 0 open_params h1 = Ok (0, h2) /\ log h2 = log up2.
Proof.
  destruct (store up2 !! 0%nat) as [o |] eqn:E; [| by vm_compute in E].
  destruct (u o) as [a | | |] eqn:Eu; try (vm_compute in E; injection E as <-; discriminate Eu).
  destruct (refused_connect_blocks fw up2 0 o a sae) as (h1 & H1 & _ & H2);
    [exact E | exact Eu | by (vm_compute in E; injection E as <-) | reflexivity | reflexivity |].
  exists h1. split; [exact H1 |]. destruct (H2 open_params) as (h2 & o2 & H3 & H4 & _). exists h2. split; [exact H3 | exact H4].
Defined.

Lemma failed_scan_blocks_witness :
  exists h1, rwnx_cfg80211_scan poor 0 (replicate 2 false) true up2 = Ok (- ENOMEM, h1) /\
    rwnx_cfg80211_scan poor 1 [] false h1 = Ok (- EBUSY, h1).
Proof.
  destruct (store up2 !! 0%nat) as [o |] eqn:E; [| by vm_compute in E].
  destruct (store up2 !! 1%nat) as [p |] eqn:Ep; [| by vm_compute in Ep].
  destruct (failed_scan_blocks poor up2 0 o 2) as (h1 & H1 & _ & _ & _ & H2).
  - exact E.
  - vm_compute in E. injection E as <-. split; [done |]. intros _. by eexists.
  - by vm_compute.
  - by vm_compute.
  - intros h. by split.
  - done.
  - exists h1. split; [exact H1 |]. exact (H2 1%nat p [] false Ep).
Defined.

End Example.

End VifFail.
