(* ===== verification/VifAp.v ===== *)
(** * The stations of an access point that is stopped (lemmas on [VifSta])

    The loops over the stations of an access point end, whatever the firmware
    answers, and no station is left where there is a result.  [VifStop] has the
    theorem. *)

From S2P Require Import Prelude State Vif VifOps VifSta VifRuns VifConn.
From stdpp Require Import list gmap.
Import Vif VifOps VifSta VifRuns.
Open Scope Z_scope.
Open Scope list_scope.

Module VifAp.

(** The interface is an access point with these stations. *)
Definition ap_is (v : nat) (l : list nat) (h : hw) : Prop :=
  exists o a, store h !! v = Some o /\ u o = AAp a /\ sta_list a = l.

Lemma steady_gvif I v : steady I (gvif v).
Proof. unfold gvif. steady_steps idtac. Qed.

Lemma ap_pvif v a w f : (forall o, u (f o) = u o) -> steady (ap_is v a) (pvif w f).
Proof.
  intros Hf. apply steady_bind; [apply steady_gvif | intros _]. apply steady_modify. intros h (o & b & Ho & Hu & Hl).
  destruct (decide (v = w)) as [-> | Hn].
  - exists (f o), b. cbn. rewrite lookup_alter_eq, Ho, Hf. done.
  - exists o, b. cbn. by rewrite lookup_alter_ne.
Qed.

Lemma safe_gvif (P : hw -> Prop) v : safe P (gvif v) (fun o h => P h /\ store h !! v = Some o).
Proof.
  unfold gvif. eapply safe_bind; [apply safe_get |]. intros h0. eapply safe_weaken; [apply safe_unwrap | intros h H; exact H |].
  by intros o h [[H ->] E].
Qed.

(** A change of an interface that is no access point. *)
Lemma ap_other v a w o f : (forall b, u o <> AAp b) -> safe (fun h => ap_is v a h /\ store h !! w = Some o) (pvif w f) (fun _ => ap_is v a).
Proof.
  intros Hu. eapply safe_bind; [apply safe_gvif |]. intros o'. apply safe_modify. intros h (((p & b & Hp & Hx & Hl) & Ho) & _).
  exists p, b. cbn. rewrite lookup_alter_ne; [done |]. intros ->. rewrite Ho in Hp. injection Hp as ->. by eapply Hu.
Qed.

Lemma ap_pasta v a w f : steady (ap_is v a) (pasta w f).
Proof.
  unfold pasta. eapply (safe_bind _ _ _ (fun _ h => ap_is v a h /\ exists o, store h !! w = Some o /\ forall b, u o <> AAp b)).
  - unfold asta. eapply safe_bind; [apply safe_gvif |]. intros o. destruct (u o) eqn:Eu; try apply safe_fault.
    intros h [H Ho]. split; [done |]. exists o. split; [done |]. intros b. by rewrite Eu.
  - intros b h (H & o & Ho & Hn). by apply (ap_other v a w o _ Hn).
Qed.

Lemma ap_paap v a w f : (forall b, sta_list (f b) = sta_list b) -> steady (ap_is v a) (paap w f).
Proof.
  intros Hf. unfold paap. eapply (safe_bind _ _ _ (fun b h => ap_is v a h /\ exists o, store h !! w = Some o /\ u o = AAp b)).
  - unfold aap. eapply safe_bind; [apply safe_gvif |]. intros o. destruct (u o) eqn:Eu; try apply safe_fault.
    intros h [H Ho]. split; [done | eauto].
  - intros b. unfold pvif. eapply safe_bind; [apply safe_gvif |]. intros o'. apply safe_modify. intros h (((p & c & Hp & Hx & Hl) & o & Ho & Hu) & _).
    destruct (decide (v = w)) as [-> | Hn].
    + rewrite Hp in Ho. injection Ho as ->. rewrite Hx in Hu. injection Hu as ->. exists (o <| u := AAp (f b) |>), (f b). cbn.
      rewrite lookup_alter_eq, Hp. by rewrite Hf.
    + exists p, c. cbn. by rewrite lookup_alter_ne.
Qed.

Lemma ap_modify v a f : (forall h, store (f h) = store h) -> steady (ap_is v a) (modify f).
Proof. intros Hf. apply steady_modify. intros h. unfold ap_is. by rewrite Hf. Qed.

Create HintDb ap.

Ltac ap_base :=
  first
  [ solve [eauto with ap nocore]
  | apply ap_pvif; intros []; repeat case_match; reflexivity
  | apply ap_pasta
  | apply ap_paap; intros []; reflexivity
  | apply ap_modify; intros []; repeat case_match; reflexivity ].
Ltac ap_steps := steady_steps ap_base.

Lemma ap_emit v a e : steady (ap_is v a) (emit e).
Proof. unfold emit. ap_steps. Qed.
#[export] Hint Resolve steady_gvif ap_emit : ap.
Lemma ap_table v a i : steady (ap_is v a) (table i).
Proof. unfold table. ap_steps. Qed.
Lemma ap_gsta v a i : steady (ap_is v a) (gsta i).
Proof. unfold gsta. ap_steps. Qed.
Lemma ap_asta v a w : steady (ap_is v a) (asta w).
Proof. unfold asta. ap_steps. Qed.
Lemma ap_aap v a w : steady (ap_is v a) (aap w).
Proof. unfold aap. ap_steps. Qed.
#[export] Hint Resolve ap_table ap_gsta ap_asta ap_aap : ap.
Lemma ap_psta v a i f : steady (ap_is v a) (psta i f).
Proof. unfold psta. ap_steps. Qed.
Lemma ap_conn v a w c : steady (ap_is v a) (rwnx_set_conn_state w c).
Proof. unfold rwnx_set_conn_state. ap_steps. Qed.
#[export] Hint Resolve ap_psta ap_conn : ap.
Lemma ap_link v a w c f : steady (ap_is v a) (rwnx_chanctx_link w c f).
Proof. unfold rwnx_chanctx_link. ap_steps. Qed.
Lemma ap_unlink v a w : steady (ap_is v a) (rwnx_chanctx_unlink w).
Proof. unfold rwnx_chanctx_unlink. ap_steps. Qed.
Lemma ap_first_with v a i l : steady (ap_is v a) (first_with i l).
Proof. induction l; cbn [first_with]; ap_steps. Qed.
#[export] Hint Resolve ap_link ap_unlink ap_first_with : ap.

Lemma ap_handle v a i : steady (ap_is v a) (handle i).
Proof.
  destruct i; cbn [handle];
    unfold rwnx_rx_sm_connect_ind, rwnx_rx_sm_disconnect_ind, rwnx_rx_sm_external_auth_required_ind, rwnx_rx_ps_change_ind,
      rwnx_rx_scanu_start_cfm, rwnx_rx_chan_pre_switch_ind, rwnx_rx_chan_switch_ind, rwnx_rx_remain_on_channel_exp_ind,
      rwnx_rx_csa_finish_ind, rwnx_rx_csa_traffic_ind, rwnx_apm_staloss_ind, on_channel, look_for, connected, connect_result,
      rwnx_external_auth_enable, rwnx_external_auth_disable, rwnx_ps_bh_enable.
  all: ap_steps.
Qed.
#[export] Hint Resolve ap_handle : ap.

Section Env.
Context (env : hw -> req -> reply).

Lemma ap_wait v l r : steady (ap_is v l) (wait env r).
Proof. unfold wait. ap_steps. Qed.
Hint Resolve ap_wait : ap.
Lemma ap_send v l m : steady (ap_is v l) (send env m).
Proof. unfold send, rwnx_send_msg. ap_steps. Qed.
Hint Resolve ap_send : ap.
Lemma ap_min_mesh v l pm ss : steady (ap_is v l) (min_mesh_pm pm ss).
Proof. revert pm. induction ss; intros pm; cbn [min_mesh_pm]; ap_steps. Qed.
Hint Resolve ap_min_mesh : ap.
Lemma ap_mesh_pm v l w : steady (ap_is v l) (rwnx_update_mesh_power_mode env w).
Proof. unfold rwnx_update_mesh_power_mode. ap_steps. Qed.
Hint Resolve ap_mesh_pm : ap.

Lemma ap_leave_vlan v l i : steady (ap_is v l) (leave_vlan i).
Proof.
  unfold leave_vlan. apply steady_bind; [ap_steps | intros s]. destruct (_ =? _); [by intros ? ? |].
  apply steady_bind; [ap_steps | intros t]. apply steady_bind; [ap_steps | intros w].
  eapply safe_bind; [apply safe_gvif |]. intros o. destruct (_ && _ && _); [| by intros h [H _]].
  destruct (u o) eqn:Eu; try apply safe_fault. apply ap_other. intros b. by rewrite Eu.
Qed.
Hint Resolve ap_leave_vlan : ap.

(** Removing a station from the list. *)
Lemma drop_shrinks v l i n :
  safe (ap_is v l) (drop_sta env v i n) (fun _ => ap_is v (filter (fun j => j <> i) l)).
Proof.
  unfold drop_sta. apply (safe_bind _ _ _ (fun _ => ap_is v l)); [apply ap_psta | intros _].
  apply (safe_bind _ _ _ (fun _ => ap_is v (filter (fun j => j <> i) l))).
  - unfold paap. eapply (safe_bind _ _ _ (fun b h => exists o, store h !! v = Some o /\ u o = AAp b /\ sta_list b = l)).
    + unfold aap. eapply safe_bind; [apply safe_gvif |]. intros o. destruct (u o) eqn:Eu; try apply safe_fault.
      intros h [(p & c & Hp & Hx & Hl) Ho]. rewrite Hp in Ho. injection Ho as ->. exists o. rewrite Hx in Eu. by injection Eu as ->.
    + intros b. unfold pvif. eapply safe_bind; [apply safe_gvif |]. intros o'. apply safe_modify.
      intros h ((o & Ho & Hu & Hl) & _). exists (o <| u := AAp (b <| sta_list ::= filter (fun j => j <> i) |>) |>), (b <| sta_list ::= filter (fun j => j <> i) |>).
      cbn. rewrite lookup_alter_eq, Ho, Hl. done.
  - intros _. match goal with |- safe ?I ?m _ => change (steady I m) end. ap_steps.
Qed.

Lemma filter_other_length (i : nat) l : i ∈ l -> (length (filter (fun j => j <> i) l) < length l)%nat.
Proof.
  induction l as [| j l IH]; [by intros ?%not_elem_of_nil |]. intros Hi. pose proof (length_filter (fun j => j <> i) l).
  destruct (decide (j <> i)) as [Hn | He]; [rewrite filter_cons_True by done | rewrite filter_cons_False by done; cbn; lia].
  apply elem_of_cons in Hi as [-> | Hi]; [done |]. cbn. specialize (IH Hi). lia.
Qed.

Lemma safe_aap v l : safe (ap_is v l) (aap v) (fun a h => ap_is v l h /\ sta_list a = l).
Proof.
  unfold aap. eapply safe_bind; [apply safe_gvif |]. intros o. destruct (u o) eqn:Eu; try apply safe_fault.
  intros h [H Ho]. split; [done |]. destruct H as (p & c & Hp & Hx & <-). rewrite Hp in Ho. injection Ho as ->.
  rewrite Eu in Hx. by injection Hx as ->.
Qed.

(** At most so many stations. *)
Definition at_most (v n : nat) (h : hw) : Prop := exists l, ap_is v l h /\ (length l <= n)%nat.

Lemma safe_exists {A B} (P : B -> hw -> Prop) (m : V A) Q : (forall b, safe (P b) m Q) -> safe (fun h => exists b, P b h) m Q.
Proof. intros H h [b Hb]. by apply (H b). Qed.

Lemma safe_pure {A} (I : hw -> Prop) (P : Prop) (m : V A) Q : (P -> safe I m Q) -> safe (fun h => I h /\ P) m Q.
Proof. intros H h [Hi Hp]. by apply H. Qed.

(** [del_all] empties the list, or fails after at least one station. *)
Lemma del_all_ends v fuel : forall l, (length l < fuel)%nat ->
  safe (ap_is v l) (del_all env v fuel)
    (fun e h => e = 0 /\ ap_is v [] h \/ e <> 0 /\ exists l', ap_is v l' h /\ (length l' < length l)%nat).
Proof.
  induction fuel as [| fuel IH]; intros l Hl; [lia |]. cbn [del_all]. eapply safe_bind; [apply safe_aap |]. intros a.
  destruct (sta_list a) as [| i l'] eqn:Ea; [intros h [H <-]; rewrite ?Ea in H; left; by split |].
  apply (safe_bind _ _ _ (fun _ h => ap_is v (filter (fun j => j <> i) l) h /\ l = i :: l')).
  - intros h [H E]. pose proof (drop_shrinks v l i true h H) as Hd. destruct (drop_sta env v i true h) as [[e h'] | |]; [split; [exact Hd | congruence] | done..].
  - intros e. destruct (_ && _) eqn:Eb.
    + intros h [H ->]. right. apply andb_true_iff in Eb as [Eb%negb_true_iff%Z.eqb_neq _]. split; [done |].
      eexists. split; [exact H |]. apply filter_other_length. by left.
    + intros h [H ->]. assert (Hlt : (length (filter (fun j => j <> i) (i :: l')) < length (i :: l'))%nat)
        by (apply filter_other_length; by left).
      revert H Hlt. generalize (filter (fun j => j <> i) (i :: l')). intros l2 H Hlt.
      specialize (IH l2 ltac:(lia) h H). destruct (del_all env v fuel h) as [[e' h'] | |]; [| done..].
      destruct IH as [? | (? & l3 & ? & ?)]; [by left | right]. split; [done |]. exists l3. split; [done | lia].
Qed.

Lemma del_station_ends v l : l <> [] ->
  safe (ap_is v l) (rwnx_cfg80211_del_station_compat env v None) (fun _ h => exists l', ap_is v l' h /\ (length l' < length l)%nat).
Proof.
  intros Hn. unfold rwnx_cfg80211_del_station_compat. eapply safe_bind; [apply safe_aap |]. intros a.
  eapply (safe_bind _ _ _ (fun e h => exists l', ap_is v l' h /\ (length l' < length l)%nat)).
  - intros h [H E]. pose proof (del_all_ends v (S (length (sta_list a))) l ltac:(rewrite E; lia) h H) as Hd.
    destruct (del_all _ _ _ _) as [[e h'] | |]; [| done..]. destruct Hd as [[_ H'] | [_ H']]; [| done].
    exists []. split; [done |]. destruct l; [done | cbn; lia].
  - intros e. destruct (negb _); [by intros h H |]. apply safe_exists. intros l'.
    apply safe_pure. intros Hlt. apply (safe_weaken _ (ap_is v l') _ (fun _ => ap_is v l')); [| done | by intros ? ?; exists l'].
    match goal with |- safe ?I ?m _ => change (steady I m) end. ap_steps.
Qed.

Lemma stop_stations_ends v fuel : forall l, (length l < fuel)%nat ->
  safe (ap_is v l) (stop_stations env v fuel) (fun _ => ap_is v []).
Proof.
  induction fuel as [| fuel IH]; intros l Hl; [lia |]. cbn [stop_stations]. eapply safe_bind; [apply safe_aap |]. intros a.
  destruct (sta_list a) as [| i l'] eqn:Ea; [intros h [H <-]; by rewrite ?Ea in H |].
  eapply (safe_bind _ _ _ (fun _ h => exists l2, ap_is v l2 h /\ (length l2 < length l)%nat)).
  - apply safe_pure. intros E. apply del_station_ends. rewrite <- E, Ea. done.
  - intros _. apply safe_exists. intros l2. apply safe_pure. intros Hlt. apply IH. lia.
Qed.

(** The result, where there is one. *)
Lemma stop_ap_partial v h :
  match rwnx_cfg80211_stop_ap env v h with
  | Ok (r, h') => r = 0 /\ exists o a, store h' !! v = Some o /\ u o = AAp a /\ sta_list a = []
  | Fault => True
  | NoFuel => False
  end.
Proof.
  assert (H : safe (fun _ => True) (rwnx_cfg80211_stop_ap env v) (fun r h' => r = 0 /\ ap_is v [] h')).
  - unfold rwnx_cfg80211_stop_ap.
    apply (safe_bind _ _ _ (fun _ _ => True)).
    { unfold pvif. eapply safe_bind; [apply safe_gvif |]. intros o. by apply safe_modify. }
    intros _. apply (safe_bind _ _ _ (fun a => ap_is v (sta_list a))).
    { unfold aap. eapply safe_bind; [apply safe_gvif |]. intros o. destruct (u o) as [| a | |] eqn:Eu; try apply safe_fault.
      intros h0 [_ Ho]. by exists o, a. }
    intros a. apply (safe_bind _ _ _ (fun _ => ap_is v [])); [apply stop_stations_ends; lia |]. intros _.
    repeat (apply (safe_bind _ _ _ (fun _ => ap_is v [])); [match goal with |- safe ?I ?m _ => change (steady I m) end; ap_steps | intros ?]).
    by intros h0 H0.
  - specialize (H h I). destruct (rwnx_cfg80211_stop_ap env v h) as [[r h'] | |]; [| done..].
    destruct H as (-> & o & a & ? & ? & ?). split; [done |]. by exists o, a.
Qed.

End Env.

End VifAp.
