(* ===== verification/VifStop.v ===== *)
(** * Stopping an access point (theorems on [VifSta])

    Stopping an access point always ends.  It ends with the result 0 as long as
    every station of the list leads to an interface that exists; a station that
    was moved to a VLAN interface which was closed does not, and the pointer
    that is NULL then is followed. *)

From S2P Require Import Prelude State Vif VifOps VifSta VifRuns VifConn VifAp.
From stdpp Require Import list gmap.
Import Vif VifOps VifSta VifRuns VifAp.
Open Scope Z_scope.
Open Scope list_scope.

Module VifStop.

(** ** What no step takes away *)

(** The arm of the union stays, and so does the list of stations. *)
Definition same_arm (a b : arm) : Prop :=
  match a, b with
  | AAp x, AAp y => sta_list y = sta_list x
  | ASta _, ASta _ | AVlan _ _, AVlan _ _ | ANone, ANone => True
  | _, _ => False
  end.

Definition same_vif (o o' : vif) : Prop := wtype o' = wtype o /\ same_arm (u o) (u o').
Definition same_sta (s s' : sta) : Prop := s_vif_idx s' = s_vif_idx s /\ vlan_idx s' = vlan_idx s.

(** Interfaces, tables and stations stay what they are, except for the fields
    that play no part here. *)
Record mono (h h' : hw) : Prop := {
  m_vif : forall v o, store h !! v = Some o -> exists o', store h' !! v = Some o' /\ same_vif o o';
  m_sta : forall i s, sta_table h !! i = Some s -> exists s', sta_table h' !! i = Some s' /\ same_sta s s';
  m_table : vif_table h' = vif_table h;
  m_vifs : vifs h' = vifs h;
  m_chan : length (chanctx_table h') = length (chanctx_table h)
}.

#[export] Instance same_arm_preorder : PreOrder same_arm.
Proof. split; [by intros [] | intros [] [] [] H1 H2; cbn in *; congruence || done]. Qed.

#[export] Instance same_vif_preorder : PreOrder same_vif.
Proof. split; [by split | intros a b c [E1 A1] [E2 A2]; split; [congruence | by etrans]]. Qed.

#[export] Instance same_sta_preorder : PreOrder same_sta.
Proof. split; [by split | intros a b c [] []; split; congruence]. Qed.

#[export] Instance mono_preorder : PreOrder mono.
Proof.
  split.
  - intros h. split; [intros v o E; by exists o | intros i s E; by exists s | done..].
  - intros a b c [V1 S1 T1 L1 C1] [V2 S2 T2 L2 C2]. split; [| | congruence..].
    + intros v o (o1 & E1 & H1)%V1. destruct (V2 _ _ E1) as (o2 & E2 & H2). exists o2. split; [done | by etrans].
    + intros i s (s1 & E1 & H1)%S1. destruct (S2 _ _ E1) as (s2 & E2 & H2). exists s2. split; [done | by etrans].
Qed.

Definition stable (P : hw -> Prop) : Prop := forall h h', mono h h' -> P h -> P h'.

(** The interface and the station as they were read. *)
Definition seen (v : nat) (o : vif) (h : hw) : Prop := exists o', store h !! v = Some o' /\ same_vif o o'.
Definition seen_sta (i : nat) (s : sta) (h : hw) : Prop := exists s', sta_table h !! i = Some s' /\ same_sta s s'.
Definition exists_vif (v : nat) (h : hw) : Prop := is_Some (store h !! v).

Lemma seen_stable v o : stable (seen v o).
Proof. intros h h' Hm (o1 & E1 & H1). destruct (m_vif _ _ Hm _ _ E1) as (o2 & E2 & H2). exists o2. split; [done | by etrans]. Qed.

Lemma seen_sta_stable i s : stable (seen_sta i s).
Proof. intros h h' Hm (s1 & E1 & H1). destruct (m_sta _ _ Hm _ _ E1) as (s2 & E2 & H2). exists s2. split; [done | by etrans]. Qed.

Lemma exists_stable v : stable (exists_vif v).
Proof. intros h h' Hm [o E]. destruct (m_vif _ _ Hm _ _ E) as (o' & E' & _). by exists o'. Qed.

Lemma seen_exists v o h : seen v o h -> exists_vif v h.
Proof. intros (o' & E & _). by exists o'. Qed.

Lemma and_stable P Q : stable P -> stable Q -> stable (fun h => P h /\ Q h).
Proof. intros HP HQ h h' Hm [? ?]. split; eauto. Qed.

(** ** Steps that end *)

(** From [P] the step ends normally; nothing is taken away, and [Q] holds of
    the result. *)
Definition goes (P : hw -> Prop) {A} (m : V A) (Q : A -> hw -> Prop) : Prop :=
  forall h, P h -> ends m h (fun a h' => mono h h' /\ Q a h').
Abbreviation runs P m := (goes P m (fun _ _ => True)).

Lemma goes_bind P {A B} (m : V A) (f : A -> V B) Q R :
  stable P -> goes P m Q -> (forall a, goes (fun h => P h /\ Q a h) (f a) R) -> goes P (m ≫= f) R.
Proof.
  intros HP Hm Hf h Hh. eapply ends_bind; [apply (Hm h Hh) |]. intros a h1 [M1 Q1].
  eapply ends_post; [apply Hf; split; [by eapply HP | done] |]. intros b h2 [M2 ?]. split; [by etrans | done].
Qed.

Lemma goes_pre (P P' : hw -> Prop) {A} (m : V A) Q : goes P' m Q -> (forall h, P h -> P' h) -> goes P m Q.
Proof. intros H HP h Hh. by apply H, HP. Qed.

Lemma goes_ret P {A} (a : A) : runs P (mret a).
Proof. intros h _. by apply ends_ret. Qed.

Lemma goes_post (P : hw -> Prop) {A} (m : V A) Q : goes P m Q -> runs P m.
Proof. intros H h Hh. eapply ends_post; [by apply H |]. by intros a h' [? _]. Qed.

Lemma goes_get P : goes P get (fun a h => a = h).
Proof. intros h _. by apply ends_get. Qed.

Lemma goes_modify P f : (forall h, P h -> mono h (f h)) -> runs P (modify f).
Proof. intros H h Hh. apply ends_modify. split; [by apply H | done]. Qed.

Lemma goes_unwrap P {A} (o : option A) : (forall h, P h -> is_Some o) -> goes P (unwrap o) (fun a _ => o = Some a).
Proof. intros H h Hh. destruct (H h Hh) as [a ->]. by apply (ends_unwrap _ a). Qed.

(** Fields without a part are set. *)
Lemma mono_other (h h' : hw) : store h' = store h -> sta_table h' = sta_table h -> vif_table h' = vif_table h ->
  vifs h' = vifs h -> length (chanctx_table h') = length (chanctx_table h) -> mono h h'.
Proof. intros E1 E2 E3 E4 E5. split; [intros v o E; rewrite E1; by exists o | intros i s E; rewrite E2; by exists s | done..]. Qed.

Lemma mono_alter h v (f : vif -> vif) : (forall o, store h !! v = Some o -> same_vif o (f o)) -> mono h (h <| store ::= alter f v |>).
Proof.
  intros Hf. split; [| intros i s E; by exists s | done..]. intros w o E. cbn. destruct (decide (v = w)) as [<- | Hn].
  - exists (f o). rewrite lookup_alter_eq, E. split; [done | by apply Hf].
  - exists o. by rewrite lookup_alter_ne.
Qed.

Lemma mono_alter_sta h i (f : sta -> sta) : (forall s, same_sta s (f s)) -> mono h (h <| sta_table ::= alter f i |>).
Proof.
  intros Hf. split; [intros v o E; by exists o | | done..]. intros j s E. cbn. destruct (decide (i = j)) as [<- | Hn].
  - exists (f s). rewrite list_lookup_alter_eq, E. split; [done | apply Hf].
  - exists s. by rewrite list_lookup_alter_ne.
Qed.

(** ** The tables of a driver that works *)

Definition good (h : hw) : Prop :=
  (3 <= length (chanctx_table h))%nat /\ (forall i, (i < 36)%nat -> is_Some (sta_table h !! i)) /\ Forall (fun v => exists_vif v h) (vifs h).

Lemma good_stable : stable good.
Proof.
  intros h h' Hm (H1 & H2 & H3). split; [by rewrite (m_chan _ _ Hm) |]. split.
  - intros i [s E]%H2. destruct (m_sta _ _ Hm _ _ E) as (s' & E' & _). by exists s'.
  - rewrite (m_vifs _ _ Hm). eapply Forall_impl; [exact H3 |]. intros v. by apply exists_stable.
Qed.

(** A conjunction of facts that last. *)
Create HintDb lasts.
#[export] Hint Resolve good_stable seen_stable seen_sta_stable exists_stable and_stable : lasts.
Lemma true_stable : stable (fun _ => True).
Proof. done. Qed.
Lemma pure_stable (X : Prop) : stable (fun _ => X).
Proof. by intros h h' _. Qed.
#[export] Hint Resolve true_stable pure_stable : lasts.

Lemma goes_gvif P v : (forall h, P h -> exists_vif v h) -> goes P (gvif v) (seen v).
Proof.
  intros H h Hh. destruct (H h Hh) as [o E]. unfold gvif. apply ends_then, ends_get, (ends_unwrap _ o); [done |].
  split; [done |]. by exists o.
Qed.

Lemma goes_gsta P i : (forall h, P h -> is_Some (sta_table h !! i)) -> goes P (gsta i) (seen_sta i).
Proof.
  intros H h Hh. destruct (H h Hh) as [s E]. unfold gsta. apply ends_then, ends_get, (ends_unwrap _ s); [done |].
  split; [done |]. by exists s.
Qed.

Lemma goes_pvif P v f : (forall h, P h -> exists_vif v h) -> (forall o, same_vif o (f o)) -> runs P (pvif v f).
Proof.
  intros H Hf h Hh. unfold pvif. destruct (H h Hh) as [o E]. apply ends_then. unfold gvif. apply ends_then, ends_get, (ends_unwrap _ o); [done |].
  apply ends_modify. split; [| done]. apply mono_alter. intros o' _. apply Hf.
Qed.

Lemma goes_psta P i f : (forall h, P h -> is_Some (sta_table h !! i)) -> (forall s, same_sta s (f s)) -> runs P (psta i f).
Proof.
  intros H Hf h Hh. unfold psta. destruct (H h Hh) as [o E]. apply ends_then. unfold gsta. apply ends_then, ends_get, (ends_unwrap _ o); [done |].
  apply ends_modify. split; [| done]. by apply mono_alter_sta.
Qed.

(** Nothing but other fields is changed. *)
Lemma goes_set P f : (forall h, mono h (f h)) -> runs P (modify f).
Proof. intros H. apply goes_modify. auto. Qed.

Lemma goes_emit P e : runs P (emit e).
Proof. apply goes_set. intros h. by apply mono_other. Qed.

Lemma goes_if P (b : bool) (m m' : V unit) : runs P m -> runs P m' -> runs P (if b then m else m').
Proof. by destruct b. Qed.

Lemma goes_for_each P {A} (f : A -> V unit) l : stable P -> Forall (fun x => runs P (f x)) l -> runs P (for_each f l).
Proof.
  intros HP. induction 1 as [| x l Hx _ IH]; [apply goes_ret |]. cbn [for_each]. eapply goes_bind; [done | exact Hx |].
  intros []. eapply goes_pre; [exact IH |]. tauto.
Qed.

(** ** Indications *)

Lemma goes_vifs P (f : nat -> V unit) : stable P -> (forall h, P h -> good h) ->
  (forall v, runs (fun h => P h /\ exists_vif v h) (f v)) -> forall h0, good h0 -> runs (fun h => P h /\ h0 = h) (for_each f (vifs h0)).
Proof.
  intros HP Hg Hf h0 (_ & _ & Hv) h [Hh <-]. revert Hv. generalize (vifs h0). intros l Hv.
  assert (H : runs (fun h => P h /\ Forall (fun v => exists_vif v h) l) (for_each f l)).
  { clear Hv. induction l as [| v l IH]; [apply goes_ret |]. cbn [for_each]. eapply goes_bind.
    - apply and_stable; [done |]. intros h1 h2 Hm H. eapply Forall_impl; [exact H |]. intros w. by apply exists_stable.
    - eapply goes_pre; [apply Hf |]. intros h1 [? H%Forall_cons]. tauto.
    - intros []. eapply goes_pre; [exact IH |]. intros h1 [[? H%Forall_cons] _]. tauto. }
  by apply H.
Qed.

(** Interfaces other than those of a client have no business with these. *)
Definition no_client (i : ind) : Prop :=
  match i with
  | sm_connect_ind _ | sm_disconnect_ind _ _ _ _ | sm_external_auth_required_ind _ _ => False
  | _ => True
  end.

Lemma goes_on_channel P ch e : stable P -> (forall h, P h -> good h) -> runs P (on_channel ch e).
Proof.
  intros HP Hg. unfold on_channel. eapply goes_bind; [done | apply goes_get |]. intros h0 h [Hh ->]. revert h Hh.
  intros h Hh. apply (goes_vifs P); [done | done | | by apply Hg | done]. intros v.
  eapply goes_bind; [by eauto with lasts | apply goes_gvif; tauto |]. intros o. apply goes_if; [apply goes_emit | apply goes_ret].
Qed.

Lemma goes_look_for P i : stable P -> (forall h, P h -> good h) ->
  goes P (look_for i) (fun v h => forall w, v = Some w -> exists_vif w h).
Proof.
  intros HP Hg h Hh. unfold look_for. apply ends_then, ends_get. destruct (Hg h Hh) as (_ & _ & Hv).
  induction Hv as [| v l [o E] _ IH]; cbn [first_with]; [by apply ends_ret |].
  apply ends_then. unfold gvif. apply ends_then, ends_get, (ends_unwrap _ o); [done |].
  destruct (vif_index o =? i); [| exact IH]. apply ends_ret. split; [done |]. intros w [= <-]. by exists o.
Qed.

Lemma goes_link P v ch f : stable P -> (forall h, P h -> exists_vif v h) -> runs P (rwnx_chanctx_link v ch f).
Proof.
  intros HP H. unfold rwnx_chanctx_link. destruct (_ <=? _); [apply goes_ret |].
  eapply goes_bind; [done | apply goes_pvif; [done | by intros []] |]. intros []. apply goes_set. intros h.
  apply mono_other; [done.. |]. cbn. by rewrite length_alter.
Qed.

Lemma goes_unlink P v : stable P -> (forall h, P h -> good h /\ exists_vif v h) -> runs P (rwnx_chanctx_unlink v).
Proof.
  intros HP H. unfold rwnx_chanctx_unlink. eapply goes_bind; [done | apply goes_gvif; intros; by apply H |]. intros o.
  destruct (_ =? _); [apply goes_ret |]. destruct (Z.leb_spec NX_CHAN_CTXT_CNT (ch_index o)) as [| Hc]; [apply goes_ret |].
  unfold NX_CHAN_CTXT_CNT in Hc. eapply goes_bind; [by eauto with lasts | apply goes_get |]. intros h0 h [[Hh Hs] ->]. revert h Hh Hs.
  intros h Hh Hs. destruct (H h Hh) as [(Hl & _) _].
  destruct (lookup_lt_is_Some_2 (chanctx_table h) (Z.to_nat (ch_index o)) ltac:(lia)) as [c Ec].
  apply ends_then, (ends_unwrap _ c); [done |]. cbv zeta.
  match goal with |- ends ?m _ _ => cut (runs P m) end; [intros G; by apply G |].
  eapply goes_bind; [done | apply goes_if; [apply goes_emit | apply goes_ret] |]. intros [].
  eapply goes_bind; [by eauto with lasts | apply goes_set; intros h1; apply mono_other; [done.. |]; cbn; by rewrite length_insert |]. intros [].
  apply goes_pvif; [intros h1 Hh1; apply H, Hh1 | by intros []].
Qed.

(** What is done with the state that was just read. *)
Lemma goes_read P {A B} (m : hw -> V A) (f : hw -> A -> V B) : stable P ->
  (forall h, P h -> runs (fun h' => P h' /\ h = h') (m h)) -> (forall h0 a, runs P (f h0 a)) ->
  runs P (h ← get; a ← m h; f h a).
Proof.
  intros HP Hm Hf h Hh. apply ends_then, ends_get. eapply ends_bind; [by apply (Hm h Hh) |]. intros a h1 [M1 _].
  eapply ends_post; [apply Hf; by eapply HP |]. intros b h2 [M2 _]. split; [by etrans | done].
Qed.

Lemma goes_handle P i : stable P -> (forall h, P h -> good h) -> no_client i -> runs P (handle i).
Proof.
  intros HP Hg Hi. destruct i as [| | | idx st | | ch | ch roc tdls v | | v st ch | v en | mac v]; try done; cbn [handle].
  - unfold rwnx_rx_ps_change_ind, rwnx_ps_bh_enable. destruct (Z.leb_spec (NX_REMOTE_STA_MAX + NX_VIRT_DEV_MAX) idx) as [| Hl]; [apply goes_ret |].
    unfold NX_REMOTE_STA_MAX, NX_VIRT_DEV_MAX in Hl.
    assert (Hs : forall h, P h -> is_Some (sta_table h !! Z.to_nat idx)) by (intros h Hh; apply (Hg h Hh); lia).
    eapply goes_bind; [done | by apply goes_gsta |]. intros s. eapply goes_bind; [by eauto with lasts | apply goes_get |]. intros h0.
    eapply (goes_pre _ P); [| tauto]. destruct (valid s).
    + eapply goes_bind; [done | apply goes_psta; [done | by intros []] |]. intros []. apply goes_emit.
    + destruct (adding_sta h0); [apply goes_psta; [done | by intros []] | apply goes_ret].
  - unfold rwnx_rx_scanu_start_cfm. eapply goes_bind; [done | apply goes_get |]. intros h0. eapply (goes_pre _ P); [| tauto].
    eapply goes_bind; [done | apply goes_if; [apply goes_ret | apply goes_emit] |]. intros [].
    apply goes_set. intros h. by apply mono_other.
  - by apply goes_on_channel.
  - apply goes_read; [done | intros h0 Hh0 |].
    + destruct tdls; [| destruct roc; cbn [negb]].
      * apply goes_vifs; [done | done | | by apply Hg]. intros w. eapply goes_bind; [by eauto with lasts | apply goes_gvif; tauto |].
        intros o. destruct (_ =? _); [| apply goes_ret]. eapply goes_bind; [by eauto with lasts | | intros []; apply goes_emit].
        apply goes_pvif; [tauto | by intros []].
      * eapply (goes_pre _ P); [| tauto]. eapply goes_bind; [done | | intros []; apply goes_emit].
        destruct (roc_elem h0); [| apply goes_ret].
        eapply goes_bind; [done | apply goes_if; [apply goes_emit | apply goes_ret] |]. intros []. apply goes_set. intros h. by apply mono_other.
      * eapply (goes_pre _ P); [by apply goes_on_channel | tauto].
    + intros h0 []. eapply goes_bind; [done | apply goes_set; intros h; by apply mono_other |]. intros []. apply goes_emit.
  - unfold rwnx_rx_remain_on_channel_exp_ind. eapply goes_bind; [done | apply goes_get |]. intros h0. eapply (goes_pre _ P); [| tauto].
    destruct (roc_elem h0); [| apply goes_ret]. eapply goes_bind; [done | apply goes_if; [apply goes_emit | apply goes_ret] |]. intros [].
    eapply goes_bind; [by eauto with lasts | apply goes_emit |]. intros []. apply goes_set. intros h. by apply mono_other.
  - unfold rwnx_rx_csa_finish_ind. eapply goes_bind; [done | by apply goes_look_for |]. intros [w |]; [| apply goes_ret].
    eapply (goes_pre _ (fun h => P h /\ exists_vif w h)); [| intros h [? H]; split; [done | by apply H]].
    eapply goes_bind; [by eauto with lasts | apply goes_gvif; tauto |]. intros o.
    eapply (goes_pre _ (fun h => P h /\ exists_vif w h)); [| tauto]. destruct (_ || _); [apply goes_ret |].
    eapply goes_bind; [by eauto with lasts | apply goes_unlink; [by eauto with lasts | intros h [? ?]; split; [by apply Hg | done]] |]. intros [].
    eapply goes_bind; [by eauto with lasts | apply goes_link; [by eauto with lasts | tauto] |]. intros [].
    eapply goes_bind; [by eauto 6 with lasts | apply goes_get |]. intros h0. destruct (_ =? _); [| apply goes_emit].
    eapply (goes_pre _ P); [| tauto]. eapply goes_bind; [done | apply goes_emit |]. intros []. apply goes_emit.
  - unfold rwnx_rx_csa_traffic_ind. eapply goes_bind; [done | by apply goes_look_for |]. intros [w |]; [apply goes_emit | apply goes_ret].
  - unfold rwnx_apm_staloss_ind. apply goes_set. intros h. by apply mono_other.
Qed.

(** ** An access point with its stations *)

(** The station is on its own interface, or on one that exists. *)
Definition resolved (i : nat) (h : hw) : Prop :=
  exists s, sta_table h !! i = Some s /\
    (s_vif_idx s = vlan_idx s \/
     exists w o, vif_table h !! Z.to_nat (u8 (vlan_idx s)) = Some (Some w) /\ store h !! w = Some o /\
       (wtype o = AP_VLAN -> exists m x, u o = AVlan m x)).

(** The interface of an access point with the stations [l]. *)
Definition is_ap_with (v : nat) (l : list nat) (h : hw) : Prop :=
  exists o a, store h !! v = Some o /\ u o = AAp a /\ sta_list a = l /\ is_client (wtype o) = false.

Definition sound (v : nat) (l : list nat) (h : hw) : Prop :=
  good h /\ is_ap_with v l h /\ Forall (fun i => resolved i h) l.

Lemma resolved_stable i : stable (resolved i).
Proof.
  intros h h' Hm (s & Es & H). destruct (m_sta _ _ Hm _ _ Es) as (s' & Es' & H1 & H2). exists s'. split; [done |]. rewrite H1, H2.
  destruct H as [-> | (w & o & Et & Eo & Ha)]; [by left | right]. destruct (m_vif _ _ Hm _ _ Eo) as (o' & Eo' & Et' & Ea). exists w, o'.
  rewrite (m_table _ _ Hm). split; [done |]. split; [done |]. rewrite Et'. intros (m & x & Eu)%Ha. rewrite Eu in Ea.
  destruct (u o'); try done. by eexists _, _.
Qed.

Lemma is_ap_stable v l : stable (is_ap_with v l).
Proof.
  intros h h' Hm (o & a & Eo & Eu & El & Hc). destruct (m_vif _ _ Hm _ _ Eo) as (o' & Eo' & Et & Ea). rewrite Eu in Ea.
  destruct (u o') as [| a' | |] eqn:Eu'; try done. exists o', a'. cbn in Ea. rewrite Et, Ea. done.
Qed.

Lemma sound_stable v l : stable (sound v l).
Proof.
  intros h h' Hm (Hg & Ha & Hr). split; [by eapply good_stable |]. split; [by eapply is_ap_stable |].
  eapply Forall_impl; [exact Hr |]. intros i. by apply resolved_stable.
Qed.
#[export] Hint Resolve resolved_stable is_ap_stable sound_stable : lasts.

Lemma sound_good v l h : sound v l h -> good h.
Proof. by intros [? _]. Qed.

Lemma ap_exists v l h : is_ap_with v l h -> exists_vif v h.
Proof. intros (o & a & E & _). by exists o. Qed.

Lemma resolved_sta i h : resolved i h -> is_Some (sta_table h !! i).
Proof. intros (s & E & _). by exists s. Qed.

Lemma goes_aap P v l : (forall h, P h -> is_ap_with v l h) -> goes P (aap v) (fun a _ => sta_list a = l).
Proof.
  intros H h Hh. destruct (H h Hh) as (o & a & Eo & Eu & El & _). unfold aap, gvif.
  apply ends_then, ends_then, ends_get, (ends_unwrap _ o); [done |]. rewrite Eu. by apply ends_ret.
Qed.

Lemma goes_paap P v l f : (forall h, P h -> is_ap_with v l h) -> (forall a, sta_list (f a) = sta_list a) -> runs P (paap v f).
Proof.
  intros H Hf h Hh. destruct (H h Hh) as (o & a & Eo & Eu & El & _). unfold paap, aap, pvif, gvif.
  apply ends_then, ends_then, ends_then, ends_get, (ends_unwrap _ o); [done |]. rewrite Eu. apply ends_ret.
  apply ends_then, ends_then, ends_get, (ends_unwrap _ o); [done |]. apply ends_modify. split; [| done].
  apply mono_alter. intros o1 E1. rewrite Eo in E1. injection E1 as <-. split; [done |]. rewrite Eu. apply Hf.
Qed.

Section Env.
Context (env : hw -> req -> reply).

(** No client's indication arrives while something is waited for. *)
Definition calm : Prop := forall h r, Forall no_client (meanwhile (env h r)).
Context (Hcalm : calm).

Lemma goes_wait P r : stable P -> (forall h, P h -> good h) -> runs P (wait env r).
Proof.
  intros HP Hg. unfold wait. eapply goes_bind; [done | apply goes_get |]. intros h0. eapply (goes_pre _ P); [| tauto].
  eapply goes_bind; [done | apply goes_set; intros h; by apply mono_other |]. intros []. eapply (goes_pre _ P); [| tauto].
  eapply goes_bind; [done | | intros []; apply goes_ret]. apply goes_for_each; [done |].
  eapply Forall_impl; [apply Hcalm |]. intros i. by apply goes_handle.
Qed.

Lemma goes_msg P m : stable P -> (forall h, P h -> good h) -> runs P (rwnx_send_msg env m).
Proof.
  intros HP Hg. unfold rwnx_send_msg. eapply goes_bind; [done | apply goes_get |]. intros h0. eapply (goes_pre _ P); [| tauto].
  destruct (bus_down h0).
  - eapply goes_bind; [done | apply goes_set; intros h; by apply mono_other |]. intros []. apply goes_ret.
  - eapply goes_bind; [done | apply goes_emit |]. intros []. eapply (goes_pre _ P); [| tauto].
    eapply goes_bind; [done | by apply goes_wait |]. intros a. apply goes_ret.
Qed.

Lemma goes_send P m : stable P -> (forall h, P h -> good h) -> runs P (send env m).
Proof.
  intros HP Hg. unfold send. eapply goes_bind; [done | apply goes_get |]. intros h0. eapply (goes_pre _ P); [| tauto].
  cbv zeta. destruct (negb _); [| by apply goes_msg].
  eapply goes_bind; [done | apply goes_set; intros h; by apply mono_other |]. intros []. apply goes_ret.
Qed.

Lemma goes_min_mesh P l : stable P -> (forall h, P h -> Forall (fun i => resolved i h) l) -> forall pm, runs P (min_mesh_pm pm l).
Proof.
  intros HP. induction l as [| i l IH]; intros Hl pm; cbn [min_mesh_pm]; [apply goes_ret |].
  assert (Hl' : forall h, P h -> resolved i h /\ Forall (fun i => resolved i h) l) by (intros h Hh; specialize (Hl h Hh); by inversion_clear Hl).
  eapply goes_bind; [done | apply goes_gsta; intros h Hh; apply resolved_sta, Hl', Hh |]. intros s.
  eapply (goes_pre _ P); [| tauto]. apply IH. intros h Hh. apply Hl', Hh.
Qed.

Lemma goes_mesh_pm v l : runs (sound v l) (rwnx_update_mesh_power_mode env v).
Proof.
  pose proof (sound_stable v l) as HP. unfold rwnx_update_mesh_power_mode.
  eapply goes_bind; [done | apply goes_gvif; intros h (_ & Ha & _); by eapply ap_exists |]. intros o.
  eapply (goes_pre _ (sound v l)); [| tauto]. destruct (negb _); [apply goes_ret |].
  eapply goes_bind; [done | apply (goes_aap _ _ l); intros h (_ & ? & _); done |]. intros a.
  eapply (goes_pre _ (fun h => sound v l h /\ sta_list a = l)); [| tauto].
  eapply goes_bind; [by eauto with lasts | |].
  - instantiate (1 := fun _ _ => True). destruct (sta_list a) as [| i l'] eqn:E; [apply goes_ret |].
    apply goes_min_mesh; [by eauto with lasts |]. intros h [(_ & _ & Hr) ->]. done.
  - intros pm. eapply (goes_pre _ (sound v l)); [| tauto]. destruct (pm =? mesh_pm a); [apply goes_ret |].
    eapply goes_bind; [done | apply goes_send; [done | by apply sound_good] |]. intros r. eapply (goes_pre _ (sound v l)); [| tauto].
    destruct (_ || _); [apply goes_ret |]. apply (goes_paap _ _ l); [intros h (_ & ? & _); done | by intros []].
Qed.

Lemma goes_leave_vlan P i : stable P -> (forall h, P h -> resolved i h) -> runs P (leave_vlan i).
Proof.
  intros HP Hr h Hh. destruct (Hr h Hh) as (s & Es & H). unfold leave_vlan, gsta. apply ends_then, ends_then, ends_get, (ends_unwrap _ s); [done |].
  destruct (Z.eqb_spec (s_vif_idx s) (vlan_idx s)) as [E | Hn]; [by apply ends_ret |]. destruct H as [? | (w & o & Et & Eo & Ha)]; [done |].
  unfold table, gvif. apply ends_then, ends_then, ends_get, (ends_unwrap _ (Some w)); [done |]. apply ends_then, (ends_unwrap _ w); [done |].
  apply ends_then, ends_then, ends_get, (ends_unwrap _ o); [done |].
  destruct (up o); cbn [andb]; [| by apply ends_ret]. destruct (decide (wtype o = AP_VLAN)) as [Ew | Hw].
  2: { rewrite bool_decide_false by done. by apply ends_ret. }
  rewrite bool_decide_true by done. destruct (use_4addr o); cbn [andb]; [| by apply ends_ret].
  destruct (Ha Ew) as (m & x & Eu). rewrite Eu. unfold pvif, gvif. apply ends_then, ends_then, ends_get, (ends_unwrap _ o); [done |].
  apply ends_modify. split; [| done]. apply mono_alter. intros o1 E1. rewrite Eo in E1. injection E1 as <-. split; [done |]. by rewrite Eu.
Qed.

(** Removing a station: the others keep what they have. *)
Lemma drop_goes v i n h l : sound v l h -> i ∈ l ->
  ends (drop_sta env v i n) h (fun _ h' => sound v (filter (fun j => j <> i) l) h').
Proof.
  intros Hs Hi. assert (Hri : resolved i h) by (destruct Hs as (_ & _ & Hr); rewrite Forall_forall in Hr; by apply Hr).
  set (P := fun h => sound v l h /\ resolved i h). set (l' := filter (fun j => j <> i) l). set (P' := fun h => sound v l' h /\ resolved i h).
  assert (HP : stable P) by (unfold P; by eauto with lasts). assert (HP' : stable P') by (unfold P'; by eauto with lasts).
  unfold drop_sta. eapply ends_bind; [apply (goes_psta P); [intros h0 [_ H0]; by apply resolved_sta | by intros [] | by split] |].
  intros [] h1 [M1 _]. assert (H1 : P h1) by (eapply HP; [exact M1 | by split]). clear Hs Hri M1.
  destruct H1 as [(Hg & (o & a & Eo & Eu & El & Hc) & Hr) Hri]. unfold paap, aap, pvif, gvif.
  apply ends_then, ends_then, ends_then, ends_then, ends_get, (ends_unwrap _ o); [done |]. rewrite Eu. apply ends_ret.
  apply ends_then, ends_then, ends_get, (ends_unwrap _ o); [done |]. apply ends_modify.
  set (f := fun o : vif => o <| u := AAp (a <| sta_list ::= filter (fun j => j <> i) |>) |>).
  assert (H2 : P' (h1 <| store ::= alter f v |>)).
  { assert (Hst : forall w o1, store h1 !! w = Some o1 -> exists o2, alter f v (store h1) !! w = Some o2 /\ wtype o2 = wtype o1 /\
      (w <> v -> o2 = o1)).
    { intros w o1 E1. destruct (decide (v = w)) as [<- | Hn]; [exists (f o1); by rewrite lookup_alter_eq, E1 |].
      exists o1. by rewrite lookup_alter_ne. }
    assert (Hres : forall j, resolved j h1 -> resolved j (h1 <| store ::= alter f v |>)).
    { intros j (s & Es & H). exists s. split; [done |]. destruct H as [? | (w & o1 & Et & E1 & Ha)]; [by left | right].
      destruct (Hst w o1 E1) as (o2 & E2 & Et2 & Hne). exists w, o2. split; [done |]. split; [exact E2 |]. rewrite Et2.
      intros Hw. destruct (decide (w = v)) as [-> | Hn]; [| rewrite Hne by done; by apply Ha].
      rewrite Eo in E1. injection E1 as <-. destruct (Ha Hw) as (m & x & Eu'). congruence. }
    split; [| by apply Hres]. split; [| split].
    - destruct Hg as (G1 & G2 & G3). split; [done |]. split; [done |]. eapply Forall_impl; [exact G3 |].
      intros w [o1 E1]. destruct (Hst w o1 E1) as (o2 & E2 & _). by exists o2.
    - exists (f o), (a <| sta_list ::= filter (fun j => j <> i) |>). cbn. rewrite lookup_alter_eq, Eo. subst l'. by rewrite <- El.
    - apply Forall_filter. eapply Forall_impl; [exact Hr |]. intros j. apply Hres. }
  match goal with |- ends ?m _ _ => cut (runs P' m) end.
  { intros G. eapply ends_post; [by apply G |]. intros e h3 [M3 _]. by apply (HP' _ _ M3). }
  eapply goes_bind; [done | apply goes_gsta; intros h0 [_ H0]; by apply resolved_sta |]. intros s.
  eapply (goes_pre _ P'); [| tauto]. eapply goes_bind; [done | apply goes_leave_vlan; [done | by intros h0 [_ ?]] |]. intros [].
  eapply (goes_pre _ P'); [| tauto].
  eapply (goes_bind _ _ _ (fun o _ => is_client (wtype o) = false)); [done | |].
  { intros h0 [(_ & (o0 & a0 & E0 & _ & _ & Hc0) & _) _]. apply ends_then, ends_get, (ends_unwrap _ o0); done. }
  intros o2. intros h0 [Hh0 Ho2]. rewrite Ho2. revert h0 Hh0. match goal with |- forall h0, P' h0 -> ends ?m h0 _ => change (runs P' m) end.
  eapply goes_bind; [done | apply goes_if; [apply goes_emit | apply goes_ret] |]. intros []. eapply (goes_pre _ P'); [| tauto].
  eapply goes_bind; [done | apply goes_if; [apply goes_emit | apply goes_ret] |]. intros []. eapply (goes_pre _ P'); [| tauto].
  eapply goes_bind; [done | apply goes_emit |]. intros []. eapply (goes_pre _ P'); [| tauto].
  eapply goes_bind; [done | apply goes_send; [done | by intros h0 [[? _] _]] |]. intros r. apply goes_ret.
Qed.

(** Fewer stations, unless there were none. *)
Definition fewer (v : nat) (l : list nat) (h : hw) : Prop :=
  exists l', sound v l' h /\ (length l' <= length l)%nat /\ (l <> [] -> (length l' < length l)%nat).

Lemma ends_aap v l h (Q : ap_arm -> hw -> Prop) : sound v l h -> (forall a, sta_list a = l -> Q a h) -> ends (aap v) h Q.
Proof.
  intros (_ & (o & a & Eo & Eu & El & _) & _) HQ. unfold aap, gvif. apply ends_then, ends_then, ends_get, (ends_unwrap _ o); [done |].
  rewrite Eu. apply ends_ret. by apply HQ.
Qed.

Lemma del_all_goes v fuel : forall l h, sound v l h -> (length l < fuel)%nat -> ends (del_all env v fuel) h (fun _ => fewer v l).
Proof.
  induction fuel as [| fuel IH]; intros l h Hs Hl; [lia |]. cbn [del_all]. apply ends_then, (ends_aap v l); [done |]. intros a Ea.
  rewrite Ea. destruct l as [| i l]; [by apply ends_ret; exists [] |].
  assert (Hlt : (length (filter (fun j => j <> i) (i :: l)) < length (i :: l))%nat) by (apply filter_other_length; by left).
  eapply ends_bind; [apply (drop_goes v i true h (i :: l)); [done | by left] |]. intros e h1. cbv beta.
  revert Hlt. generalize (filter (fun j => j <> i) (i :: l)). intros l1 Hlt H1.
  destruct (_ && _); [by apply ends_ret; exists l1; split; [| lia] |].
  eapply ends_post; [apply (IH l1); [done | lia] |]. intros e' h2 (l2 & H2 & Hle & _). exists l2. split; [done | lia].
Qed.

Lemma del_station_goes v l h : sound v l h -> ends (rwnx_cfg80211_del_station_compat env v None) h (fun _ => fewer v l).
Proof.
  intros Hs. unfold rwnx_cfg80211_del_station_compat. apply ends_then, (ends_aap v l); [done |]. intros a Ea. rewrite Ea.
  eapply ends_bind; [apply (del_all_goes v _ l h Hs); lia |]. intros e h1 H1. destruct (negb _); [by apply ends_ret |].
  destruct H1 as (l1 & H1 & Hl). eapply ends_bind; [by apply (goes_mesh_pm v l1) |]. intros [] h2 [M2 _].
  apply ends_ret. exists l1. split; [by eapply sound_stable | done].
Qed.

Lemma stop_stations_goes v fuel : forall l h, sound v l h -> (length l < fuel)%nat ->
  ends (stop_stations env v fuel) h (fun _ => sound v []).
Proof.
  induction fuel as [| fuel IH]; intros l h Hs Hl; [lia |]. cbn [stop_stations]. apply ends_then, (ends_aap v l); [done |]. intros a Ea.
  rewrite Ea. destruct l as [| i l]; [by apply ends_ret |]. eapply ends_bind; [by apply del_station_goes |].
  intros e h1 (l1 & H1 & _ & Hlt). specialize (Hlt ltac:(done)). apply (IH l1); [done | simpl in *; lia].
Qed.

Lemma stop_ap_goes v l h : sound v l h -> ends (rwnx_cfg80211_stop_ap env v) h (fun _ => sound v []).
Proof.
  intros Hs. unfold rwnx_cfg80211_stop_ap.
  eapply ends_bind; [apply (goes_pvif (sound v l)); [intros h0 (_ & Ha & _); by eapply ap_exists | by intros [] | done] |].
  intros [] h1 [M1 _]. assert (H1 : sound v l h1) by by eapply sound_stable. apply ends_then, (ends_aap v l); [done |]. intros a Ea.
  eapply ends_bind; [apply (stop_stations_goes v _ l h1 H1); rewrite Ea; lia |]. intros [] h2 H2. clear dependent h h1.
  match goal with |- ends ?m _ _ => cut (runs (sound v []) m) end.
  { intros G. eapply ends_post; [by apply G |]. intros e h3 [M3 _]. by apply (sound_stable v [] _ _ M3). }
  pose proof (sound_stable v []) as HP.
  eapply goes_bind; [done | apply goes_gvif; intros h (_ & Ha & _); by eapply ap_exists |]. intros o. eapply (goes_pre _ (sound v [])); [| tauto].
  eapply goes_bind; [done | apply goes_if; [apply goes_set; intros h; by apply mono_other | apply goes_ret] |]. intros [].
  eapply (goes_pre _ (sound v [])); [| tauto]. eapply goes_bind; [done | apply goes_emit |]. intros [].
  eapply (goes_pre _ (sound v [])); [| tauto]. eapply goes_bind; [done | apply goes_send; [done | by apply sound_good] |]. intros r.
  eapply (goes_pre _ (sound v [])); [| tauto].
  eapply goes_bind; [done | apply goes_unlink; [done |]; intros h (Hg & Ha & _); split; [done | by eapply ap_exists] |]. intros [].
  eapply (goes_pre _ (sound v [])); [| tauto]. eapply goes_bind; [done | apply goes_emit |]. intros []. apply goes_ret.
Qed.

End Env.

(** ** A station on an interface that is gone *)

Lemma fault_after {A B} (m : V A) (f : A -> V B) h : ends m h (fun a h' => f a h' = Fault) -> (m ≫= f) h = Fault.
Proof. intros (a & h' & E & H). unfold mbind, ST_bind. by rewrite E. Qed.

Lemma fault_first {A B} (m : V A) (f : A -> V B) h : m h = Fault -> (m ≫= f) h = Fault.
Proof. intros E. unfold mbind, ST_bind. by rewrite E. Qed.

(** The list of an access point begins with a station whose VLAN has no
    interface. *)
Definition stranded (v i : nat) (h : hw) : Prop :=
  exists o a l s, store h !! v = Some o /\ u o = AAp a /\ sta_list a = i :: l /\ sta_table h !! i = Some s /\
    s_vif_idx s <> vlan_idx s /\ vif_table h !! Z.to_nat (u8 (vlan_idx s)) = Some None.

Lemma stranded_aap v i h (Q : ap_arm -> hw -> Prop) : stranded v i h -> (forall a l, sta_list a = i :: l -> Q a h) -> ends (aap v) h Q.
Proof.
  intros (o & a & l & s & Eo & Eu & El & _) HQ. unfold aap, gvif. apply ends_then, ends_then, ends_get, (ends_unwrap _ o); [done |].
  rewrite Eu. apply ends_ret. by eapply HQ.
Qed.

Lemma leave_vlan_faults i s h : sta_table h !! i = Some s -> s_vif_idx s <> vlan_idx s ->
  vif_table h !! Z.to_nat (u8 (vlan_idx s)) = Some None -> leave_vlan i h = Fault.
Proof.
  intros Es Hn Et. unfold leave_vlan, gsta, table. apply fault_after, ends_then, ends_get, (ends_unwrap _ s); [done |].
  rewrite (proj2 (Z.eqb_neq _ _)) by done. apply fault_after, ends_then, ends_get, (ends_unwrap _ None); [done |]. by apply fault_first.
Qed.

Section Stranded.
Context (env : hw -> req -> reply).

Lemma drop_faults v i n h : stranded v i h -> drop_sta env v i n h = Fault.
Proof.
  intros (o & a & l & s & Eo & Eu & El & Es & Hn & Et). unfold drop_sta.
  apply fault_after. unfold psta, gsta. apply ends_then, ends_then, ends_get, (ends_unwrap _ s); [done |]. apply ends_modify.
  apply fault_after. unfold paap, aap, pvif, gvif. apply ends_then, ends_then, ends_then, ends_get, (ends_unwrap _ o); [done |].
  rewrite Eu. apply ends_ret, ends_then, ends_then, ends_get, (ends_unwrap _ o); [done |]. apply ends_modify.
  set (s' := s <| ps_active := false |> <| valid := false |>).
  assert (Es' : alter (fun s => s <| ps_active := false |> <| valid := false |>) i (sta_table h) !! i = Some s')
    by by rewrite list_lookup_alter_eq, Es.
  apply fault_after, ends_then, ends_get, (ends_unwrap _ s'); [exact Es' |]. apply fault_first.
  apply (leave_vlan_faults i s'); [exact Es' | done | done].
Qed.

Lemma stop_ap_faults v i h : stranded v i h -> rwnx_cfg80211_stop_ap env v h = Fault.
Proof.
  intros H. unfold rwnx_cfg80211_stop_ap.
  assert (H1 : ends (pvif v (fun o => o <| carrier := false |>)) h (fun _ h1 => stranded v i h1)).
  { destruct H as (o & a & l & s & Eo & Eu & El & Es & Hn & Et). unfold pvif, gvif.
    apply ends_then, ends_then, ends_get, (ends_unwrap _ o); [done |]. apply ends_modify. exists (o <| carrier := false |>), a, l, s.
    cbn. by rewrite lookup_alter_eq, Eo. }
  apply fault_after. eapply ends_post; [exact H1 |]. intros [] h1 Hs.
  apply fault_after, (stranded_aap v i); [done |]. intros a l Ea. apply fault_first. cbn [stop_stations].
  apply fault_after, (stranded_aap v i); [done |]. intros b l' Eb. rewrite Eb. apply fault_first. unfold rwnx_cfg80211_del_station_compat.
  apply fault_after, (stranded_aap v i); [done |]. intros c l'' Ec. apply fault_first. cbn [del_all].
  apply fault_after, (stranded_aap v i); [done |]. intros d l3 Ed. rewrite Ed. apply fault_first. by apply drop_faults.
Qed.

End Stranded.

(** C28. Whatever the firmware answers and whatever indications arrive meanwhile, the
    loops of stopping an access point end, and where it returns the result is 0 and no
    station is left in the list. It does return if the interface is that of an access
    point, the tables are intact, every station of the list is on the interface itself
    or on one that exists, and no indication of a connection of a client interface
    arrives meanwhile. If the first station was moved to a VLAN whose interface was
    closed since, the NULL pointer in vif_table is followed. *)
Theorem stop_ap_terminates env v h :
  match rwnx_cfg80211_stop_ap env v h with
  | Ok (r, h') => r = 0 /\ exists o a, store h' !! v = Some o /\ u o = AAp a /\ sta_list a = []
  | Fault => True
  | NoFuel => False
  end /\
  (forall l, calm env -> sound v l h ->
    exists h' o a, rwnx_cfg80211_stop_ap env v h = Ok (0, h') /\ store h' !! v = Some o /\ u o = AAp a /\ sta_list a = []) /\
  (forall i, stranded v i h -> rwnx_cfg80211_stop_ap env v h = Fault).
Proof.
  split; [apply stop_ap_partial |]. split; [| intros i; apply stop_ap_faults].
  intros l Hc Hs. destruct (stop_ap_goes env Hc v l h Hs) as (r & h' & E & _). pose proof (stop_ap_partial env v h) as H.
  rewrite E in H. destruct H as (-> & o & a & ?). by exists h', o, a.
Qed.

Module Example.
Import VifConn.Example.

Definition client : list Z := [2; 0; 0; 0; 0; 7].
Definition ap_env (h : hw) (r : req) : reply :=
  match r with
  | Confirm (MM_ADD_IF _ _) => Reply true 0 0 0 false 0 []
  | Confirm (ME_STA_ADD _ _) => Reply true 0 3 0 false 0 []
  | Confirm (APM_START _) => Reply true 0 33 0 false 0 []
  | _ => Reply true 0 0 0 false 0 []
  end.

(** An access point with a station that was moved to a VLAN. *)
Definition moved_ops : list op :=
  [OAdd AP None; OOpen 0; OStartAp 0 2437; OAddSta 0 client (StationParams 1 true false 0);
   OAdd AP_VLAN (Some (peer, true)); OOpen 1; OChangeSta 0 client (ChangeParams (Some true) None 0 (Some 1%nat))].
Definition moved : hw := default (init mac false) (run_all ap_env moved_ops (init mac false)).
Definition closed : hw := default (init mac false) (run_all ap_env (moved_ops ++ [OClose 1]) (init mac false)).

Lemma ap_env_calm : calm ap_env.
Proof. intros h r. by destruct r as [[] | | |]; constructor. Qed.

Lemma moved_reachable : reachable ap_env mac false moved.
Proof. apply (run_all_rtc _ moved_ops); by vm_compute. Qed.

Lemma closed_reachable : reachable ap_env mac false closed.
Proof. apply (run_all_rtc _ (moved_ops ++ [OClose 1])); by vm_compute. Qed.

Lemma moved_good : good moved.
Proof.
  split; [apply Nat.leb_le; by vm_compute |]. split.
  - intros i Hi. apply lookup_lt_is_Some_2. assert (length (sta_table moved) = 36%nat) as -> by by vm_compute. done.
  - assert (vifs moved = [0; 1]%nat) as -> by by vm_compute. apply Forall_forall. intros v Hv.
    assert (H : forallb (fun v => match store moved !! v with Some _ => true | None => false end) [0; 1]%nat = true) by by vm_compute.
    rewrite forallb_forall in H. apply list_elem_of_In, H in Hv. unfold exists_vif. by destruct (store moved !! v).
Qed.

Lemma moved_sound : sound 0 [3%nat] moved.
Proof.
  split; [exact moved_good |]. split.
  - destruct (store moved !! 0%nat) as [o |] eqn:E; [| by vm_compute in E]. destruct (u o) as [| a | |] eqn:Eu;
      try (vm_compute in E; injection E as <-; discriminate Eu).
    exists o, a. split; [exact E |]. split; [exact Eu |]. vm_compute in E. injection E as <-. vm_compute in Eu. injection Eu as <-. by split.
  - constructor; [| constructor]. destruct (sta_table moved !! 3%nat) as [s |] eqn:E; [| by vm_compute in E].
    destruct (store moved !! 1%nat) as [o |] eqn:Eo; [| by vm_compute in Eo].
    exists s. split; [exact E |]. right. exists 1%nat, o. vm_compute in E. injection E as <-. split; [by vm_compute |]. split; [exact Eo |].
    intros _. vm_compute in Eo. injection Eo as <-. by eexists _, _.
Qed.

Lemma closed_stranded : stranded 0 3 closed.
Proof.
  destruct (store closed !! 0%nat) as [o |] eqn:E; [| by vm_compute in E]. destruct (u o) as [| a | |] eqn:Eu;
    try (vm_compute in E; injection E as <-; discriminate Eu).
  destruct (sta_table closed !! 3%nat) as [s |] eqn:Es; [| by vm_compute in Es].
  exists o, a, [], s. split; [exact E |]. split; [exact Eu |].
  vm_compute in E. injection E as <-. vm_compute in Eu. injection Eu as <-. split; [done |]. split; [exact Es |].
  vm_compute in Es. injection Es as <-. split; [discriminate | by vm_compute].
Qed.

(** In two states that can be reached: before the VLAN interface is closed the
    access point can be stopped, afterwards it cannot. *)
Lemma stop_ap_terminates_witness :
  reachable ap_env mac false moved /\ (exists h', rwnx_cfg80211_stop_ap ap_env 0 moved = Ok (0, h')) /\
  reachable ap_env mac false closed /\ rwnx_cfg80211_stop_ap ap_env 0 closed = Fault.
Proof.
  destruct (stop_ap_terminates ap_env 0 moved) as (_ & H1 & _). destruct (stop_ap_terminates ap_env 0 closed) as (_ & _ & H2).
  split; [exact moved_reachable |]. split; [| split; [exact closed_reachable | exact (H2 3%nat closed_stranded)]].
  destruct (H1 [3%nat] ap_env_calm moved_sound) as (h' & o & a & E & _). exists h'. exact E.
Defined.

End Example.

End VifStop.
