(* ===== verification/TxqNames.v ===== *)
(** * Whose queue a transmit queue is

    A queue in use belongs to the station it was set up for and stops the
    network queue of that station and TID, through every operation of [Txq].
    This is what the transmit path relies on when it finds a queue by station
    and TID ([TxqNames.station_queue]). *)

From stdpp Require Import prelude.
From S2P Require Import Prelude Txq TxqInv TxqOps.
Open Scope Z_scope.

Module TxqNames.
Import Txq TxqInv TxqOps.

(** No queue changes its station or its network queue, and none becomes
    active. *)
Definition narrow (s s' : rwnx_hw) : Prop :=
  forall i t', txqs s' !! i = Some t' -> active t' = true ->
    exists t, txqs s !! i = Some t /\ active t = true /\ t_sta t' = t_sta t /\ ndev_idx t' = ndev_idx t.

#[global] Instance narrow_pre : PreOrder narrow.
Proof.
  split; [by intros s i t Ht Ha; exists t |].
  intros s1 s2 s3 H1 H2 i t Ht Ha. destruct (H2 i t Ht Ha) as (u & Hu & Hb & Hs & Hn).
  destruct (H1 i u Hu Hb) as (w & Hw & Hc & Hs' & Hn'). exists w. split_and!; congruence.
Qed.

(** [t'] is [t] as far as [narrow] looks, or not in use. *)
Definition like (t t' : rwnx_txq) : Prop :=
  active t' = true -> active t = true /\ t_sta t' = t_sta t /\ ndev_idx t' = ndev_idx t.

Lemma like_refl t : like t t.
Proof. by intros ?. Qed.

Lemma narrow_set s s1 i t t' : narrow s s1 -> get_txq s1 i = Ok t -> like t t' -> narrow s (set_txq s1 i t').
Proof.
  intros Hn Ht%get_txq_Ok Hl. etrans; [exact Hn |]. intros k u Hu Ha. unfold set_txq in Hu. cbn in Hu.
  apply list_lookup_insert_Some in Hu as [(<- & <- & _) | [_ Hu]]; [| by exists u].
  exists t. by destruct (Hl Ha) as (? & ? & ?).
Qed.

Lemma narrow_set_hwq s s1 h q : narrow s s1 -> narrow s (set_hwq s1 h q).
Proof. done. Qed.
Lemma narrow_set_sta s s1 j a : narrow s s1 -> narrow s (set_sta s1 j a).
Proof. done. Qed.

(** A computation that narrows the state. *)
Class Narrows {A} (p : A -> rwnx_hw) (s : rwnx_hw) (m : res A) : Prop :=
  narrows : forall a, m = Ok a -> narrow s (p a).

Ltac narrow_step :=
  match goal with
  | H : _ ≫= _ = Ok _ |- _ => apply bind_Ok in H as (? & ? & H)
  | H : Ok _ = Ok _ |- _ => injection H as H; subst
  | H : Fault = Ok _ |- _ => discriminate H
  | H : NoFuel = Ok _ |- _ => discriminate H
  | H : mret _ = Ok _ |- _ => injection H as H; subst
  | H : context [match ?x with _ => _ end] |- _ => lazymatch type of H with _ = Ok _ => destruct x eqn:? end
  | H : ?m = Ok ?a |- _ => apply narrows in H
  end.
Ltac narrow_end :=
  match goal with
  | |- narrow _ (set_hwq _ _ _) => apply narrow_set_hwq
  | |- narrow _ (set_sta _ _ _) => apply narrow_set_sta
  | |- narrow _ (set_txq _ _ _) => eapply narrow_set; [| eassumption |]
  | |- narrow ?s ?s => reflexivity
  | H : narrow ?s1 ?s2 |- narrow _ ?s2 => etrans; [| exact H]; clear H
  | |- like _ _ => first [by intros ? | by case_match; intros ?]
  end.
Ltac narrow_tac := repeat narrow_step; cbn [fst snd id] in *; repeat narrow_end.
Ltac narrowing := intros ? ?H; narrow_tac.

#[export] Instance add_narrows s i : Narrows id s (rwnx_txq_add_to_hw_list s i).
Proof. unfold rwnx_txq_add_to_hw_list. narrowing. Qed.
#[export] Instance del_narrows s i : Narrows id s (rwnx_txq_del_from_hw_list s i).
Proof. unfold rwnx_txq_del_from_hw_list. narrowing. Qed.
#[export] Instance start_narrows s i r : Narrows id s (rwnx_txq_start s i r).
Proof. unfold rwnx_txq_start. narrowing. Qed.
#[export] Instance stop_narrows s i r : Narrows id s (rwnx_txq_stop s i r).
Proof. unfold rwnx_txq_stop. narrowing. Qed.
#[export] Instance each_narrows f l s : (forall s i, Narrows id s (f s i)) -> Narrows id s (each f s l).
Proof. intros Hf. revert s. induction l as [|i l IH]; intros s; cbn [each]; narrowing. Qed.
#[export] Instance sta_start_narrows s j r : Narrows id s (rwnx_txq_sta_start s j r).
Proof. unfold rwnx_txq_sta_start. narrowing. Qed.
#[export] Instance sta_stop_narrows s j r : Narrows id s (rwnx_txq_sta_stop s j r).
Proof. unfold rwnx_txq_sta_stop. narrowing. Qed.
#[export] Instance start_stas_narrows s l r : Narrows id s (start_stas s l r).
Proof. revert s. induction l as [|[j|] l IH]; intros s; cbn [start_stas]; narrowing. Qed.
#[export] Instance stop_stas_narrows s l r : Narrows id s (stop_stas s l r).
Proof. revert s. induction l as [|j l IH]; intros s; cbn [stop_stas]; narrowing. Qed.
#[export] Instance vif_start_narrows s v r : Narrows id s (rwnx_txq_vif_start s v r).
Proof. unfold rwnx_txq_vif_start. narrowing. Qed.
#[export] Instance vif_stop_narrows s v r : Narrows id s (rwnx_txq_vif_stop s v r).
Proof. unfold rwnx_txq_vif_stop. narrowing. Qed.
#[export] Instance tdls_start_narrows s v r : Narrows id s (rwnx_txq_tdls_sta_start s v r).
Proof. unfold rwnx_txq_tdls_sta_start. narrowing. Qed.
#[export] Instance tdls_stop_narrows s v r : Narrows id s (rwnx_txq_tdls_sta_stop s v r).
Proof. unfold rwnx_txq_tdls_sta_stop. narrowing. Qed.
#[export] Instance offchan_start_narrows s : Narrows id s (rwnx_txq_offchan_start s).
Proof. unfold rwnx_txq_offchan_start. narrowing. Qed.

#[export] Instance flush_narrows s i : Narrows fst s (rwnx_txq_flush s i).
Proof. unfold rwnx_txq_flush. narrowing. Qed.
#[export] Instance deinit_narrows s i : Narrows fst s (rwnx_txq_deinit s i).
Proof. unfold rwnx_txq_deinit. narrowing. Qed.
#[export] Instance each_ev_narrows f l s : (forall s i, Narrows fst s (f s i)) -> Narrows fst s (each_ev f s l).
Proof. intros Hf. revert s. induction l as [|i l IH]; intros s; cbn [each_ev]; narrowing. Qed.
#[export] Instance sta_deinit_narrows s j : Narrows fst s (rwnx_txq_sta_deinit s j).
Proof. unfold rwnx_txq_sta_deinit. narrowing. Qed.
#[export] Instance vif_deinit_narrows s v : Narrows fst s (rwnx_txq_vif_deinit s v).
Proof. unfold rwnx_txq_vif_deinit. narrowing. Qed.
#[export] Instance unk_deinit_narrows s v : Narrows fst s (rwnx_txq_unk_vif_deinit s v).
Proof. unfold rwnx_txq_unk_vif_deinit. narrowing. Qed.
#[export] Instance offchan_deinit_narrows s : Narrows fst s (rwnx_txq_offchan_deinit s).
Proof. unfold rwnx_txq_offchan_deinit. narrowing. Qed.
(** ** Queueing and pushing *)

Lemma like_trans t1 t2 t3 : like t1 t2 -> like t2 t3 -> like t1 t3.
Proof. intros H1 H2 H. destruct (H2 H) as (Ha & -> & ->). by apply H1. Qed.

Lemma enqueue_like t b r t' : enqueue t b r = Ok t' -> like t t'.
Proof. unfold enqueue. intros H. repeat narrow_step; by intros ?. Qed.
Lemma flow_stop_like t : like t (flow_stop t).1.
Proof. unfold flow_stop. repeat case_match; by intros ?. Qed.
Lemma push_count_like t : like t (push_count t).
Proof. unfold push_count. repeat case_match; by intros ?. Qed.
Lemma to_push_like t : like t (rwnx_txq_get_skb_to_push t).1.1.
Proof. unfold rwnx_txq_get_skb_to_push. repeat case_match; by intros ?. Qed.

#[export] Instance ps_count_narrows s t : Narrows fst s (ps_count s t).
Proof. unfold ps_count. narrowing. Qed.

#[export] Instance queue_skb_narrows s b i r : Narrows (fst ∘ fst) s (rwnx_txq_queue_skb s b i r).
Proof.
  intros a H. unfold rwnx_txq_queue_skb in H. apply bind_Ok in H as (t & Ht & H).
  apply bind_Ok in H as ([s1 e1] & H1 & H). apply bind_Ok in H as (t1 & Hq & H).
  assert (Ht1 : get_txq s1 i = Ok t).
  { unfold ps_count in H1. repeat narrow_step; done. }
  apply narrows in H1. cbn in H1. pose proof (flow_stop_like t1) as Hl. apply enqueue_like in Hq.
  destruct (flow_stop t1) as [t2 e2]. cbn in Hl. assert (narrow s (set_txq s1 i t2)).
  { eapply narrow_set; [done.. |]. by eapply like_trans. }
  repeat narrow_step; cbn in *; [by etrans | done].
Qed.

#[export] Instance more_data_narrows s j p : Narrows fst s (more_data s j p).
Proof. unfold more_data. narrowing. Qed.

Lemma more_data_get s j p r i : more_data s j p = Ok r -> get_txq r.1 i = get_txq s i.
Proof. unfold more_data. intros H. repeat narrow_step; done. Qed.

#[export] Instance push_narrows s b : Narrows fst s (rwnx_tx_push s b).
Proof.
  intros a H. unfold rwnx_tx_push in H. apply bind_Ok in H as (t & Ht & H). apply bind_Ok in H as (r & Hr & [= <-]).
  cbn. rewrite <- (more_data_get _ _ _ _ _ Hr) in Ht. apply narrows in Hr.
  eapply narrow_set; [done.. | apply push_count_like].
Qed.
#[export] Instance push_all_narrows l s : Narrows fst s (push_all s l).
Proof. revert s. induction l as [|b l IH]; intros s; cbn [push_all]; narrowing. Qed.
#[export] Instance after_push_narrows s h i d : Narrows id s (after_push s h i d).
Proof. unfold after_push. narrowing. Qed.
#[export] Instance abort_sp_narrows s i : Narrows id s (abort_sp s i).
Proof. unfold abort_sp. narrowing. Qed.
#[export] Instance flow_restart_narrows s i : Narrows fst s (flow_restart s i).
Proof. unfold flow_restart. narrowing. Qed.

#[export] Instance serve_narrows s h i : Narrows fst s (serve s h i).
Proof.
  unfold serve. intros a H. apply bind_Ok in H as (t & Ht & H). pose proof (to_push_like t) as Hl.
  repeat narrow_step; cbn [fst snd id] in *; [by repeat narrow_end |].
  repeat narrow_end. exact Hl.
Qed.
#[export] Instance hwq_loop_narrows fuel s h pos : Narrows fst s (hwq_loop fuel s h pos).
Proof. revert s pos. induction fuel as [|fuel IH]; intros s pos; cbn [hwq_loop]; narrowing. Qed.
#[export] Instance process_narrows s h : Narrows fst s (rwnx_hwq_process s h).
Proof. unfold rwnx_hwq_process. narrowing. Qed.
#[export] Instance process_from_narrows n s : Narrows fst s (process_from s n).
Proof. revert s. induction n as [|n IH]; intros s; cbn [process_from]; narrowing. Qed.
#[export] Instance process_all_narrows s : Narrows fst s (rwnx_hwq_process_all s).
Proof. unfold rwnx_hwq_process_all. narrowing. Qed.
#[export] Instance xmit_narrows s b : Narrows fst s (xmit s b).
Proof. unfold xmit. narrowing. Qed.

(** ** Power save and confirmations *)

#[export] Instance clear_limit_narrows s i : Narrows id s (clear_limit s i).
Proof. unfold clear_limit. narrowing. Qed.
#[export] Instance ps_enable_narrows s j e : Narrows fst s (rwnx_ps_bh_enable s j e).
Proof. unfold rwnx_ps_bh_enable. narrowing. Qed.
#[export] Instance dispatch_narrows l s j p n : Narrows id s (dispatch_req s j p l n).
Proof. revert s n. induction l as [|tid l IH]; intros s n; cbn [dispatch_req]; narrowing. Qed.
#[export] Instance traffic_narrows s j n p : Narrows fst s (rwnx_ps_bh_traffic_req s j n p).
Proof. unfold rwnx_ps_bh_traffic_req. narrowing. Qed.
#[export] Instance confirm_any_narrows s i h : Narrows id s (rwnx_txq_confirm_any s i h).
Proof. unfold rwnx_txq_confirm_any. narrowing. Qed.
#[export] Instance retry_narrows s b : Narrows fst s (rwnx_tx_retry s b).
Proof. unfold rwnx_tx_retry. narrowing. Qed.
#[export] Instance cfm_narrows s d m r b h : Narrows fst s (rwnx_txdatacfm s d m r b h).
Proof. unfold rwnx_txdatacfm. narrowing. Qed.
#[export] Instance credit_narrows s j tid : Narrows id s (rwnx_txq_credit_update s j tid).
Proof. unfold rwnx_txq_credit_update. narrowing. Qed.
(** ** The owner of a queue *)

(** Queue [i] with network queue [n] is one of the station with the numbers
    [d]. *)
Definition queue_of (old : bool) (d : nat * nat) (i : nat) (n : option nat) : Prop :=
  if is_multicast_sta old d.1 then
    i = (NX_FIRST_VIF_TXQ_IDX old + d.2)%nat /\ n = Some (NX_BCMC_TXQ_NDEV_IDX old)
  else exists tid, (tid < NX_NB_TXQ_PER_STA)%nat /\ i = (d.1 * NX_NB_TXQ_PER_STA + tid)%nat /\
    n = if (tid <? NX_NB_TID_PER_STA)%nat then Some (NX_STA_NDEV_IDX tid d.1) else None.

Definition owned_by (e : env) (i : nat) (t : rwnx_txq) : Prop :=
  exists j d, e_sta e !! j = Some d /\ t_sta t = Some j /\ queue_of (e_old e) d i (ndev_idx t).

Definition named (s : rwnx_hw) : Prop :=
  forall i t, txqs s !! i = Some t -> active t = true ->
    if decide (i < NX_FIRST_UNK_TXQ_IDX (old_ic s))%nat then owned_by (env_of s) i t else t_sta t = None.

Lemma named_narrow s s' : named s -> narrow s s' -> env_of s' = env_of s -> named s'.
Proof.
  intros Hn Hs He i t Ht Ha. destruct (Hs i t Ht Ha) as (u & Hu & Hb & H1 & H2).
  pose proof (f_equal e_old He) as Ho. cbn in Ho. rewrite Ho.
  unfold owned_by. rewrite He, H1, H2. by apply Hn.
Qed.

Lemma named_put s i t s' : named s -> put_txq s i t = Ok s' ->
  (if decide (i < NX_FIRST_UNK_TXQ_IDX (old_ic s))%nat then owned_by (env_of s) i t else t_sta t = None) ->
  named s' /\ env_of s' = env_of s.
Proof.
  intros Hn H Ho. unfold put_txq in H. apply bind_Ok in H as (u & Hu & [= <-]). split; [| by rewrite env_set_txq].
  intros k w Hw Ha. rewrite env_set_txq. unfold set_txq in Hw. cbn in Hw.
  apply list_lookup_insert_Some in Hw as [(<- & <- & _) | [_ Hw]]; [by apply Ho | by apply Hn].
Qed.

Lemma sta_idx_lt s j a tid : env_ok (env_of s) -> stas s !! j = Some a -> (tid < NX_NB_TXQ_PER_STA)%nat ->
  (rwnx_txq_sta_idx (old_ic s) a tid < NX_FIRST_UNK_TXQ_IDX (old_ic s))%nat.
Proof.
  intros (_ & _ & He) Ha Ht. rewrite Forall_lookup in He. specialize (He j _ (env_sta s j a Ha)).
  unfold rwnx_txq_sta_idx. cbn [ids fst snd e_old env_of] in He.
  unfold NX_FIRST_UNK_TXQ_IDX, NX_FIRST_VIF_TXQ_IDX, is_multicast_sta, NX_NB_TXQ_PER_STA in *.
  destruct (Nat.leb_spec (NX_REMOTE_STA_MAX (old_ic s)) (sta_idx a)); [specialize (He eq_refl) |]; lia.
Qed.

(** What [rwnx_txq_init] makes of a queue of station [j]. *)
Lemma init_owned s j a tid st h p : env_ok (env_of s) -> stas s !! j = Some a -> (tid < NX_NB_TXQ_PER_STA)%nat ->
  (is_multicast_sta (old_ic s) (sta_idx a) = true -> tid = 0%nat) ->
  owned_by (env_of s) (rwnx_txq_sta_idx (old_ic s) a tid)
    ((rwnx_txq_init (old_ic s) (rwnx_txq_sta_idx (old_ic s) a tid) st h tid (Some a) (Some j)) <| ps_id := p |>).
Proof.
  intros (_ & _ & He) Ha Ht Hm. exists j, (ids a). split_and!; [by apply env_sta | done |]. cbn [ndev_idx rwnx_txq_init upd].
  rewrite Forall_lookup in He. specialize (He j _ (env_sta s j a Ha)).
  unfold queue_of, rwnx_txq_sta_idx. cbn [ids fst snd e_old env_of] in *.
  destruct (is_multicast_sta (old_ic s) (sta_idx a)) eqn:Hmc.
  - specialize (He eq_refl). split; [done |]. unfold NX_FIRST_UNK_TXQ_IDX.
    rewrite (proj2 (Nat.ltb_ge _ _)), (proj2 (Nat.ltb_lt _ _)) by lia. done.
  - exists tid. split_and!; [done.. |]. unfold is_multicast_sta in Hmc. apply Nat.leb_gt in Hmc.
    rewrite (proj2 (Nat.ltb_lt _ _)) by (unfold NX_FIRST_VIF_TXQ_IDX, NX_NB_TXQ_PER_STA in *; lia).
    by replace (sta_idx a * NX_NB_TXQ_PER_STA + tid - sta_idx a * NX_NB_TXQ_PER_STA)%nat with tid by lia.
Qed.

Lemma sta_idx_add old a tid : is_multicast_sta old (sta_idx a) = false ->
  rwnx_txq_sta_idx old a (S tid) = S (rwnx_txq_sta_idx old a tid).
Proof. intros H. unfold rwnx_txq_sta_idx. rewrite H. lia. Qed.

Lemma init_loop_named n j a st : forall s tid s', env_ok (env_of s) -> stas s !! j = Some a ->
  named s -> (tid + n <= NX_NB_TXQ_PER_STA)%nat ->
  (is_multicast_sta (old_ic s) (sta_idx a) = true -> (n <= 1)%nat /\ (n = 1%nat -> tid = 0%nat)) ->
  init_sta_loop s j a st (rwnx_txq_sta_idx (old_ic s) a tid) tid n = Ok s' -> named s'.
Proof.
  induction n as [|n IH]; intros s tid s' He Ha Hn Ht Hm H; cbn [init_sta_loop] in H; [by injection H as <- |].
  apply bind_Ok in H as (s1 & H1 & H). pose proof H1 as Hp.
  apply named_put in H1 as [Hn1 He1]; [| done |].
  2: { rewrite decide_True by (apply (sta_idx_lt s j); [done.. | lia]). apply init_owned; [done.. | lia |]. intros Hmc. by destruct (Hm Hmc) as [_ ->]; [| lia]. }
  assert (Hs1 : stas s1 = stas s /\ old_ic s1 = old_ic s).
  { unfold put_txq in Hp. by apply bind_Ok in Hp as (u & _ & [= <-]). }
  destruct Hs1 as [Hs1 Ho1].
  destruct n as [|n]; [by injection H as <- |].
  assert (Hmc : is_multicast_sta (old_ic s) (sta_idx a) = false).
  { destruct (is_multicast_sta _ _); [| done]. destruct (Hm eq_refl). lia. }
  rewrite <- sta_idx_add, <- Ho1 in H by done. apply (IH s1 (S tid)) in H; [done | by rewrite He1 | by rewrite Hs1 | done | lia |].
  rewrite Ho1, Hmc. done.
Qed.

Lemma unk_range s n : (NX_FIRST_UNK_TXQ_IDX (old_ic s) <= rwnx_txq_vif_get (old_ic s) n NX_UNK_TXQ_TYPE)%nat.
Proof. unfold NX_FIRST_UNK_TXQ_IDX, rwnx_txq_vif_get, rwnx_txq_vif_idx, NX_UNK_TXQ_TYPE, NX_VIRT_DEV_MAX. cbn. lia. Qed.

(** Every operation keeps the owners. *)
Lemma step_named pol s o s' ev : inv pol s -> valid pol s o -> step s o = Ok (s', ev) -> named s -> named s'.
Proof.
  intros Hi Hv Hs Hn. destruct (step_ok pol s o Hi Hv) as (s1 & e1 & H1 & _ & He & _).
  rewrite Hs in H1. injection H1 as <- <-. pose proof (i_env s Hi) as Hok.
  assert (Hnarrow : narrow s s' -> named s') by (intros; by eapply named_narrow).
  destruct o; cbn [step] in Hs; unfold quiet in Hs; try (apply Hnarrow; clear Hnarrow; by narrow_tac).
  - apply bind_Ok in Hs as (s1 & H & [= <- <-]). unfold rwnx_txq_sta_init in H. apply bind_Ok in H as (a & Ha & H).
    apply get_sta_Ok in Ha. unfold sta_txqs in H. rewrite length_seq in H.
    apply init_loop_named in H; [done.. | |].
    + destruct (is_multicast_sta _ _); unfold NX_NB_TXQ_PER_STA; lia.
    + intros ->. lia.
  - apply bind_Ok in Hs as (s1 & H & [= <- <-]). unfold rwnx_txq_vif_init in H. apply bind_Ok in H as (a & Ha & H).
    apply get_sta_Ok in Ha. apply bind_Ok in H as (s2 & H2 & H). destruct Hv as ((a' & Ha' & Hm & Hvi) & _).
    assert (a' = a) as -> by congruence. pose proof H2 as Hp. rewrite init_ps_id in H2.
    apply named_put in H2 as [Hn2 He2]; [| done |].
    2: { assert (E : rwnx_txq_vif_get (old_ic s) (vif_index v) NX_BCMC_TXQ_TYPE = rwnx_txq_sta_idx (old_ic s) a 0).
         { unfold rwnx_txq_sta_idx. rewrite Hm, Hvi. unfold rwnx_txq_vif_get, rwnx_txq_vif_idx. cbn. lia. }
         rewrite E, decide_True by (apply (sta_idx_lt s bcmc); [done.. | unfold NX_NB_TXQ_PER_STA; lia]).
         apply init_owned; [done.. | unfold NX_NB_TXQ_PER_STA; lia | done]. }
    pose proof (f_equal e_old He2) as Ho. cbn in Ho. eapply named_put in H as [Hn3 _]; [exact Hn3 | done |].
    pose proof (unk_range s (vif_index v)). rewrite Ho, decide_False by lia. done.
  - apply bind_Ok in Hs as (s1 & H & [= <- <-]). unfold rwnx_txq_unk_vif_init in H.
    eapply named_put in H as [Hn3 _]; [exact Hn3 | done |]. pose proof (unk_range s (vif_index v)). by rewrite decide_False by lia.
  - apply bind_Ok in Hs as (s1 & H & [= <- <-]). unfold rwnx_txq_offchan_init in H.
    eapply named_put in H as [Hn3 _]; [exact Hn3 | done |].
    rewrite decide_False by (unfold NX_FIRST_UNK_TXQ_IDX, NX_OFF_CHAN_TXQ_IDX, NX_VIRT_DEV_MAX; lia). done.
Qed.

Lemma init_named old l : named (hw_init old NX_NB_TXQ l).
Proof.
  intros i t Ht Ha. unfold hw_init in Ht. cbn [txqs] in Ht. by apply lookup_replicate in Ht as [-> _].
Qed.

(** ** The station table *)

(** The entries of the table are at their numbers: first the stations, then
    one for the group-addressed frames of each interface. *)
Definition table_ok (old : bool) (l : list (nat * nat)) : Prop :=
  forall j d, l !! j = Some d ->
    d.1 = j /\ (is_multicast_sta old j = true -> d.2 = (j - NX_REMOTE_STA_MAX old)%nat).

(** The queue a station and a TID stand for is that station's, with the
    network queue of the TID. *)
Lemma station_queue s j a tid t : env_ok (env_of s) -> named s -> table_ok (old_ic s) (ids <$> stas s) ->
  stas s !! j = Some a -> txqs s !! rwnx_txq_sta_get (old_ic s) a tid = Some t -> active t = true ->
  t_sta t = Some j /\
  ndev_idx t =
    if is_multicast_sta (old_ic s) j then Some (NX_BCMC_TXQ_NDEV_IDX (old_ic s))
    else let tid := if (NX_NB_TXQ_PER_STA <=? tid)%nat then 0%nat else tid in
         if (tid <? NX_NB_TID_PER_STA)%nat then Some (NX_STA_NDEV_IDX tid j) else None.
Proof.
  intros Hok Hn Ht Ha Hq Hact. pose proof (proj2 (proj2 Hok)) as He. unfold rwnx_txq_sta_get in Hq.
  set (t0 := if (NX_NB_TXQ_PER_STA <=? tid)%nat then 0%nat else tid) in *.
  assert (Ht0 : (t0 < NX_NB_TXQ_PER_STA)%nat).
  { unfold t0. destruct (Nat.leb_spec NX_NB_TXQ_PER_STA tid); [unfold NX_NB_TXQ_PER_STA; lia | done]. }
  rewrite Forall_lookup in He. pose proof (He j _ (env_sta s j a Ha)) as Hej.
  destruct (Ht j (ids a) (env_sta s j a Ha)) as [Hj Hjv]. cbn [ids fst snd e_old env_of e_sta] in *.
  unfold rwnx_txq_sta_idx in Hq. rewrite Hj in *.
  assert (Hlt : (rwnx_txq_sta_idx (old_ic s) a t0 < NX_FIRST_UNK_TXQ_IDX (old_ic s))%nat).
  { by apply (sta_idx_lt s j). }
  unfold rwnx_txq_sta_idx in Hlt. rewrite Hj in Hlt.
  pose proof (Hn _ t Hq Hact) as Ho. rewrite decide_True in Ho by done.
  destruct Ho as (j' & d & Hd & Hs & Hof). cbn [e_sta e_old env_of] in *.
  pose proof (He j' d Hd) as Hej'. destruct (Ht j' d Hd) as [Hj' Hjv']. rewrite Hs. unfold queue_of in Hof. rewrite Hj' in *.
  unfold is_multicast_sta, NX_FIRST_VIF_TXQ_IDX, NX_NB_TXQ_PER_STA in *.
  destruct (Nat.leb_spec (NX_REMOTE_STA_MAX (old_ic s)) j), (Nat.leb_spec (NX_REMOTE_STA_MAX (old_ic s)) j').
  - destruct Hof as [Hi ->]. split; [| done]. f_equal. specialize (Hjv eq_refl). specialize (Hjv' eq_refl). lia.
  - destruct Hof as (t' & Hlt' & Hi & _). lia.
  - destruct Hof as [Hi _]. lia.
  - destruct Hof as (t' & Hlt' & Hi & ->). assert (j' = j /\ t' = t0) as [-> ->] by lia. done.
Qed.

End TxqNames.
