(* ===== verification/Xmit.v ===== *)
(** * The way of a frame into a transmit queue (rwnx_tx.c, rwnx_main.c)

    The network stack asks [rwnx_select_txq] for the network queue of a frame
    and hands the frame to [rwnx_start_xmit], which lets the TCP ACK filter
    look at it, reads station and TID back from the frame, puts the transmit
    header in front of the payload and queues the frame.  A frame the filter
    has held comes back through [intf_tx]; management frames come from cfg80211
    through [rwnx_start_mgmt_xmit].

    The state has the queues of [Txq], the filter of [TcpAck] with the frames
    of its message buffers, the interfaces, what the stations have beside their
    queues, and the software headers by frame.  A socket buffer has the bytes
    before its data ([f_room]) and its data; memory outside is a [Fault], and so
    are NULL and a failed BUG_ON.  Sizes are those of a 64-bit kernel with cache
    lines of 64 bytes.  The classifier of cfg80211 and the test for robust
    management frames are parameters, allocations an argument. *)

From stdpp Require Import prelude gmap.
From S2P Require Import Prelude TcpAck Txq.
Open Scope Z_scope.

Module Xmit.
Import Txq.

(** ** Data *)

Definition PRIO_STA_NULL : Z := 0xAA.
Definition ETH_HLEN : nat := 14.
Definition ETH_P_TDLS : Z := 0x890D.
Definition TAG1D_MASK : Z := 7.
Definition NUM_TIDS : Z := 16.
Definition NX_NB_NDEV_TXQ : nat := 257.
Definition SIZEOF_TXHDR : nat := 88.
Definition HW_HDR_OFF : Z := 72.

Definition TXU_CNTRL_MGMT : Z := 8.
Definition TXU_CNTRL_MGMT_NO_CCK : Z := 16.
Definition TXU_CNTRL_MGMT_ROBUST : Z := 128.
Definition TXU_CNTRL_USE_4ADDR : Z := 256.
Definition TXU_CNTRL_MESH_FWD : Z := 1024.
Definition TXU_CNTRL_TDLS : Z := 2048.

Definition EBUSY : Z := 16.
Definition ENOMEM : Z := 12.

(** [f_addr] is the address of the data. *)
Record frame := Frame {
  f_id : nat; f_room : list Z; f_data : list Z; f_addr : Z;
  f_shared : bool; f_cloned : bool; f_priority : Z; f_mapping : Z }.

#[global] Instance eta_frame : Settable frame := fun r =>
  Frame (f_id r) (f_room r) (f_data r) (f_addr r) (f_shared r) (f_cloned r) (f_priority r) (f_mapping r).

(** What [rwnx_sta] has beside the fields of [Txq]. *)
Record peer := Peer { mac_addr : list Z; qos : bool; acm : Z; last_tid : Z }.

#[global] Instance eta_peer : Settable peer := fun r =>
  Peer (mac_addr r) (qos r) (acm r) (last_tid r).

Record mesh_proxy := Proxy { ext_sta_addr : list Z; proxy_addr : list Z; local : bool }.
Record mesh_path := Path { tgt_mac_addr : list Z; p_nhop_sta : option nat }.

(** [rwnx_vif]; stations and the master of an AP_VLAN are positions in their
    tables. *)
Record netif := Netif {
  n_type : iftype; n_index : nat; n_bridge : bool; use_4addr : bool;
  tdls_link_active : bool; n_tdls_sta : option nat; n_ap : option nat;
  sta_4a : option nat; n_master : nat; bcmc_index : nat; n_stas : list nat;
  is_resending : bool; perm_addr : list Z; proxy_list : list mesh_proxy; mpath_list : list mesh_path }.

(** [hostdesc] *)
Record hostdesc := HostDesc {
  packet_len : Z; eth_dest_addr : list Z; eth_src_addr : list Z; ethertype : Z;
  d_tid : Z; d_vif_idx : Z; staid : Z; flags : Z }.

(** [rwnx_sw_txhdr]; [h_status] is cfm.status of the hardware header. *)
Record sw_txhdr := SwTxhdr {
  h_sta : option nat; h_vif : nat; h_txq : nat; h_frame_len : Z; h_headroom : Z; h_map_len : Z;
  raw_frame : bool; fixed_rate : bool; h_status : Z; h_skb : frame; h_desc : hostdesc }.

(** A message buffer of the filter has its interface and its frame; an
    interface that is gone leaves its place in [netifs] empty. *)
Record xmit_st := XmitT {
  hw : rwnx_hw; peers : list peer; netifs : list (option netif);
  ack : TcpAck.tcp_ack_manage; msgs : gmap positive (nat * frame); hdrs : gmap nat sw_txhdr }.

#[global] Instance eta_xmit : Settable xmit_st := fun r =>
  XmitT (hw r) (peers r) (netifs r) (ack r) (msgs r) (hdrs r).

Inductive xev :=
| XAlloc (id : nat)                               (* a new socket buffer *)
| XFree (id : nat)                                (* dev_kfree_skb_any *)
| XQueue (e : Txq.event)
| XProxyAdd (vif : nat) (mac : list Z)            (* rwnx_send_mesh_proxy_add_req *)
| XPathCreate (vif : nat) (mac : list Z).         (* rwnx_send_mesh_path_create_req *)

Definition queued (l : list Txq.event) : list xev := XQueue <$> l.

(** ** Access *)

Definition get_netif (s : xmit_st) (i : nat) : res netif :=
  match netifs s !! i with Some (Some v) => Ok v | _ => Fault end.
Definition get_peer (s : xmit_st) (j : nat) : res peer :=
  match peers s !! j with Some p => Ok p | None => Fault end.
Definition old (s : xmit_st) : bool := old_ic (hw s).

(** ** Socket buffers *)

Definition skb_pull (f : frame) (n : nat) : frame :=
  if (n <=? length (f_data f))%nat then
    f <| f_room ::= fun r => r ++ take n (f_data f) |> <| f_data ::= drop n |>
      <| f_addr ::= fun a => a + Z.of_nat n |>
  else f.

(** A push beyond the start of the buffer is a panic. *)
Definition skb_push (f : frame) (n : nat) : res frame :=
  if (n <=? length (f_room f))%nat then
    let k := (length (f_room f) - n)%nat in
    Ok (f <| f_data ::= fun d => drop k (f_room f) ++ d |> <| f_room ::= take k |>
          <| f_addr ::= fun a => a - Z.of_nat n |>)
  else Fault.

(** A private copy with [n] bytes of headroom. *)
Definition skb_copy_expand (f : frame) (n : nat) (id : nat) (addr : Z) : frame :=
  f <| f_id := id |> <| f_room := replicate n 0 |> <| f_addr := addr |>
    <| f_shared := false |> <| f_cloned := false |>.

Definition RWNX_SWTXHDR_ALIGN_PADS (x : Z) : Z := Z.land (4 - Z.land x 3) 3.

Record ethhdr := EthHdr { h_dest : list Z; h_source : list Z; h_proto : Z }.

(** [h_proto] as it is in memory, loaded by a little-endian machine. *)
Definition eth_hdr (buf : list Z) : res ethhdr :=
  p ← rd_le16 buf 12; Ok (EthHdr (take 6 buf) (take 6 (drop 6 buf)) p).

Definition cpu_to_be16 (x : Z) : Z := Z.lor (Z.shiftl (Z.land x 255) 8) (Z.shiftr x 8).

Definition is_multicast_ether_addr (m : list Z) : bool :=
  match m with b :: _ => negb (Z.land b 1 =? 0) | [] => false end.

(** ** Downgrading *)

Definition rwnx_down_hwq2tid (ac : nat) : Z := nth ac [2; 3; 5] 0.

(** The loop of [rwnx_downgrade_ac]. *)
Fixpoint downgrade (acm : Z) (ac : nat) (prio : Z) : Z :=
  if Z.testbit acm (Z.of_nat ac) then
    match ac with
    | O => 1
    | S ac => downgrade acm ac (rwnx_down_hwq2tid ac)
    end
  else prio.

(** The table has NUM_TIDS entries. *)
Definition rwnx_downgrade_ac (acm prio : Z) : res Z :=
  if (0 <=? prio) && (prio <? NUM_TIDS) then
    let ac := rwnx_tid2hwq (Z.to_nat prio) in
    Ok (downgrade acm (if (RWNX_HWQ_VO <? ac)%nat then RWNX_HWQ_VO else ac) prio)
  else Fault.

(** ** Choosing a queue *)

(** The destination is the peer of an established TDLS link. *)
Definition is_tdls_peer (s : xmit_st) (v : netif) (dest : list Z) : res bool :=
  if tdls_link_active v then
    match n_tdls_sta v with
    | Some j => p ← get_peer s j; Ok (bool_decide (mac_addr p = dest))
    | None => Ok false
    end
  else Ok false.

(** [list_for_each_entry] over the stations of an access point. *)
Fixpoint find_client (s : xmit_st) (dest : list Z) (l : list nat) : res (option nat) :=
  match l with
  | [] => Ok None
  | j :: l => p ← get_peer s j; if decide (mac_addr p = dest) then Ok (Some j) else find_client s dest l
  end.

Definition ap_station (s : xmit_st) (v : netif) (dest : list Z) : res (option nat) :=
  if is_multicast_ether_addr dest then Ok (Some (bcmc_index v)) else find_client s dest (n_stas v).

Definition rwnx_get_mesh_proxy_info (v : netif) (addr : list Z) (loc : bool) : option mesh_proxy :=
  head (filter (fun p => local p = loc /\ ext_sta_addr p = addr) (proxy_list v)).

Definition mesh_station (v : netif) (i : nat) (e : ethhdr) : option nat * list xev :=
  let ev := if negb (is_resending v) && negb (bool_decide (h_source e = perm_addr v)) then
              match rwnx_get_mesh_proxy_info v (h_source e) true with
              | Some _ => []
              | None => [XProxyAdd i (h_source e)]
              end
            else [] in
  if is_multicast_ether_addr (h_dest e) then (Some (bcmc_index v), ev)
  else
    let tgt := match rwnx_get_mesh_proxy_info v (h_dest e) false with
               | Some p => proxy_addr p
               | None => h_dest e
               end in
    match head (filter (fun p => tgt_mac_addr p = tgt) (mpath_list v)) with
    | Some p => (p_nhop_sta p, ev)
    | None => (None, ev ++ [XPathCreate i tgt])
    end.

(** The switch over the interface type. *)
Definition select_sta (s : xmit_st) (i : nat) (v : netif) (e : ethhdr) : res (option nat * list xev) :=
  match n_type v with
  | STATION | P2P_CLIENT =>
      b ← is_tdls_peer s v (h_dest e);
      Ok (if (b : bool) then n_tdls_sta v else n_ap v, [])
  | AP_VLAN =>
      match sta_4a v with
      | Some j => Ok (Some j, [])
      | None => m ← get_netif s (n_master v); j ← ap_station s m (h_dest e); Ok (j, [])
      end
  | AP | P2P_GO => j ← ap_station s v (h_dest e); Ok (j, [])
  | MESH_POINT => Ok (mesh_station v i e)
  | MONITOR | OTHER_IF => Ok (None, [])
  end.

Definition tdls_mgmt_frame (v : netif) (e : ethhdr) : bool :=
  match n_type v with
  | STATION | P2P_CLIENT => h_proto e =? cpu_to_be16 ETH_P_TDLS
  | _ => false
  end.

(** [txq->ndev_idx] behind BUG_ON. *)
Definition netdev_queue (s : xmit_st) (k : nat) : res nat :=
  t ← get_txq (hw s) k;
  match ndev_idx t with
  | Some n => if (n <? NX_NB_NDEV_TXQ)%nat then Ok n else Fault
  | None => Fault
  end.

Definition tid_of (prio : Z) : nat := Z.to_nat (u8 prio).

Section Driver.
Context (msecs_to_jiffies : Z -> Z) (cfg80211_classify8021d : frame -> Z)
  (ieee80211_is_robust_mgmt_frame : list Z -> bool).

(** The priority of a frame for a QoS station, and the mapping of a TDLS
    management frame. *)
Definition qos_frame (a : rwnx_sta) (p : peer) (tdls : bool) (f : frame) : res frame :=
  let f := if tdls then f <| f_mapping := u16 (f_priority f + Z.of_nat (sta_idx a * NX_NB_TID_PER_STA)) |>
           else f <| f_priority := Z.land (cfg80211_classify8021d f) TAG1D_MASK |> in
  if negb (acm p =? 0) then
    prio ← rwnx_downgrade_ac (acm p) (f_priority f); Ok (f <| f_priority := prio |>)
  else Ok f.

Definition rwnx_select_txq (s : xmit_st) (i : nat) (f : frame) : res (frame * nat * list xev) :=
  v ← get_netif s i;
  e ← eth_hdr (f_data f);
  r ← select_sta s i v e;
  match r.1 with
  | Some j =>
      a ← get_sta (hw s) j;
      p ← get_peer s j;
      if qos p then
        f ← qos_frame a p (tdls_mgmt_frame v e) f;
        n ← netdev_queue s (rwnx_txq_sta_get (old s) a (tid_of (f_priority f)));
        Ok (f, n, r.2)
      else
        n ← netdev_queue s (rwnx_txq_sta_get (old s) a 0);
        Ok (f <| f_priority := 0xFF |>, n, r.2)
  | None => Ok (f <| f_priority := PRIO_STA_NULL |>, NX_BCMC_TXQ_NDEV_IDX (old s), r.2)
  end.

(** [rwnx_select_queue], after which the stack stores its choice. *)
Definition rwnx_select_queue (s : xmit_st) (i : nat) (f : frame) : res (frame * list xev) :=
  r ← rwnx_select_txq s i f;
  let '(f, n, ev) := r in
  Ok (f <| f_mapping := Z.of_nat n |>, ev).

(** ** Reading it back *)

Definition master_vif_idx (s : xmit_st) (v : netif) : res nat :=
  match n_type v with
  | AP_VLAN => m ← get_netif s (n_master v); Ok (n_index m)
  | _ => Ok (n_index v)
  end.

(** The station and its TID. *)
Definition rwnx_get_tx_priv (s : xmit_st) (v : netif) (f : frame) : res (option nat * nat) :=
  if f_priority f =? PRIO_STA_NULL then Ok (None, tid_of (f_priority f))
  else
    j ← (if f_mapping f =? Z.of_nat (NX_BCMC_TXQ_NDEV_IDX (old s)) then
           m ← master_vif_idx s v; Ok (NX_REMOTE_STA_MAX (old s) + m)%nat
         else Ok (Z.to_nat (f_mapping f / Z.of_nat NX_NB_TID_PER_STA)));
    _ ← get_sta (hw s) j;
    Ok (Some j, tid_of (f_priority f)).

(** ** Headers *)

Definition data_flags (s : xmit_st) (v : netif) (a : rwnx_sta) (e : ethhdr) (tdls : bool) : Z :=
  let fl := if use_4addr v && (sta_idx a <? NX_REMOTE_STA_MAX false)%nat then TXU_CNTRL_USE_4ADDR else 0 in
  let fl := if tdls then Z.lor fl TXU_CNTRL_TDLS else fl in
  match n_type v with
  | MESH_POINT => if is_resending v then Z.lor fl TXU_CNTRL_MESH_FWD else fl
  | _ => fl
  end.

Definition data_desc (s : xmit_st) (v : netif) (vif_idx : nat) (a : rwnx_sta) (e : ethhdr) (tid : nat)
    (tdls : bool) (frame_len : Z) : hostdesc :=
  {| packet_len := frame_len; eth_dest_addr := h_dest e; eth_src_addr := h_source e;
     ethertype := h_proto e; d_tid := Z.of_nat tid; d_vif_idx := u8 (Z.of_nat vif_idx);
     staid := u8 (Z.of_nat (sta_idx a)); flags := data_flags s v a e tdls |}.

(** [rwnx_prep_tx] has no body in this configuration. *)
Definition rwnx_prep_tx : Z := 0.

(** The TDLS peer remembers the TID. *)
Definition note_tid (s : xmit_st) (v : netif) (tdls : bool) (tid : nat) : xmit_st :=
  match tdls, n_tdls_sta v with
  | true, Some j => s <| peers ::= alter (fun p => p <| last_tid := Z.of_nat tid |>) j |>
  | _, _ => s
  end.

(** From the Ethernet header to the queue; [hdr_ok] tells whether a software
    header can be allocated. *)
Definition xmit_frame (s : xmit_st) (i : nat) (f : frame) (hdr_ok : bool) : res (xmit_st * list xev) :=
  v ← get_netif s i;
  e ← eth_hdr (f_data f);
  r ← rwnx_get_tx_priv s v f;
  match r.1 with
  | None => Ok (s, [XFree (f_id f)])
  | Some j =>
      a ← get_sta (hw s) j;
      let k := rwnx_txq_sta_get (old s) a r.2 in
      t ← get_txq (hw s) k;
      if negb (active t) then Ok (s, [XFree (f_id f)])
      else
        let f := skb_pull f ETH_HLEN in
        let headroom := (SIZEOF_TXHDR + Z.to_nat (RWNX_SWTXHDR_ALIGN_PADS (f_addr f)))%nat in
        f ← skb_push f headroom;
        if negb hdr_ok then Ok (s, [XFree (f_id f)])
        else
          let len := Z.of_nat (length (f_data f)) in
          let frame_len := u16 (u16 len - Z.of_nat headroom) in
          m ← master_vif_idx s v;
          tdls ← is_tdls_peer s v (h_dest e);
          let h := {| h_sta := Some j; h_vif := i; h_txq := k; h_frame_len := frame_len;
                      h_headroom := Z.of_nat headroom; h_map_len := len - HW_HDR_OFF;
                      raw_frame := false; fixed_rate := false; h_status := 0; h_skb := f;
                      h_desc := data_desc s v m a e r.2 tdls frame_len |} in
          let s := note_tid s v tdls r.2 in
          if negb (rwnx_prep_tx =? 0) then Ok (s, [XFree (f_id f)])
          else
            q ← Txq.xmit (hw s) (Skb (f_id f) k (Some j));
            Ok (s <| hdrs ::= fun m => <[f_id f := h]> m |> <| hw := q.1 |>, queued q.2)
  end.

(** ** Entry points *)

(** What the events of the filter do with the message buffers: a dropped
    message is freed with its frame, a sent one without. *)
Fixpoint ack_events (s : xmit_st) (l : list TcpAck.event) : res (xmit_st * list xev) :=
  match l with
  | [] => Ok (s, [])
  | TcpAck.EvDrop m :: l =>
      match msgs s !! m with
      | Some (_, f) => r ← ack_events (s <| msgs ::= delete m |>) l; Ok (r.1, XFree (f_id f) :: r.2)
      | None => Fault
      end
  | TcpAck.EvTx m :: l => ack_events (s <| msgs ::= delete m |>) l
  end.

(** The outcome of the allocations: the copy with its address, the message
    buffer, the software header. *)
Record oracle := Oracle { o_now : Z; o_copy : option (nat * Z); o_msg : option positive; o_hdr : bool }.

Definition unusable (v : netif) (f : frame) : bool :=
  f_shared f || (length (f_room f) <? SIZEOF_TXHDR)%nat || (f_cloned f && n_bridge v).

(** The filter's part: [true] when the frame goes on. *)
Definition ack_stage (s : xmit_st) (i : nat) (f : frame) (o : oracle) : res (xmit_st * list xev * bool) :=
  let len := Z.of_nat (length (f_data f)) in
  r ← TcpAck.xmit_filter msecs_to_jiffies (o_now o) (ack s) (o_msg o) (f_data f) len;
  let '(a, evs, go) := r in
  let s := s <| ack := a |> in
  let s := match o_msg o with
           | Some m => if u16 len <=? TcpAck.MAX_TCP_ACK then s <| msgs ::= <[m := (i, f)]> |> else s
           | None => s
           end in
  r ← ack_events s evs;
  Ok (r.1, r.2, go).

(** The lower priorities become best effort. *)
Definition best_effort (f : frame) : frame :=
  if f_priority f <? 3 then f <| f_priority := 0 |> else f.

(** What follows once the driver may write to the frame. *)
Definition xmit_writable (s : xmit_st) (i : nat) (f : frame) (o : oracle) : res (xmit_st * list xev) :=
  let f := best_effort f in
  r ← ack_stage s i f o;
  let '(s, ev, go) := r in
  if (go : bool) then r ← xmit_frame s i f (o_hdr o); Ok (r.1, ev ++ r.2) else Ok (s, ev).

Definition rwnx_start_xmit (s : xmit_st) (i : nat) (f : frame) (o : oracle) : res (xmit_st * list xev) :=
  v ← get_netif s i;
  if (length (f_data f) <=? ETH_HLEN)%nat then Ok (s, [])
  else if unusable v f then
    match o_copy o with
    | Some (id, addr) =>
        r ← xmit_writable s i (skb_copy_expand f SIZEOF_TXHDR id addr) o;
        Ok (r.1, XAlloc id :: XFree (f_id f) :: r.2)
    | None => Ok (s, [XFree (f_id f)])
    end
  else xmit_writable s i f o.

(** The end of [rwnx_tdls_send_mgmt_packet_data]: the frame does not pass
    through the stack, so nobody stores the queue. *)
Definition rwnx_tdls_send (s : xmit_st) (i : nat) (f : frame) (setup : bool) (o : oracle) : res (xmit_st * list xev) :=
  r ← rwnx_select_txq s i (f <| f_priority := if setup then 2 else 5 |>);
  let '(f, _, ev) := r in
  r ← rwnx_start_xmit s i f o; Ok (r.1, ev ++ r.2).

(** The way of [rwnx_start_xmit] again, for the frame of a message. *)
Definition intf_tx (s : xmit_st) (msg : positive) (hdr_ok : bool) : res (xmit_st * list xev) :=
  match msgs s !! msg with
  | Some (i, f) => xmit_frame (s <| msgs ::= delete msg |>) i f hdr_ok
  | None => Fault
  end.

(** The timer of slot [n]; the filter's part of [intf_tx] is in [TcpAck]. *)
Definition tcp_ack_timeout (s : xmit_st) (n : nat) (hdr_ok : bool) : res (xmit_st * list xev) :=
  let '(a, evs) := TcpAck.tcp_ack_timeout (ack s) n in
  let s := s <| ack := a |> in
  match evs with
  | TcpAck.EvTx m :: _ => intf_tx s m hdr_ok
  | _ => Ok (s, [])
  end.

(** The counters of a channel switch announcement. *)
Fixpoint csa_update (data : list Z) (count : Z) (offsets : list nat) : res (list Z) :=
  match offsets with
  | [] => Ok data
  | o :: l => if (o <? length data)%nat then csa_update (<[o := count]> data) count l else Fault
  end.

(** [sta]: position of the receiver; [csa]: the count of a running channel
    switch; [skb]: the new buffer with its address. *)
Definition rwnx_start_mgmt_xmit (s : xmit_st) (i : nat) (sta : option nat) (buf : list Z) (no_cck offchan : bool)
    (csa_offsets : list nat) (csa : option Z) (skb : option (nat * Z)) (hdr_ok : bool)
    : res (xmit_st * list xev * Z) :=
  v ← get_netif s i;
  let frame_len := u16 (Z.of_nat (length buf)) in
  k ← (match sta with
       | Some j => a ← get_sta (hw s) j; Ok (rwnx_txq_sta_get (old s) a 8)
       | None => if offchan then Ok (NX_OFF_CHAN_TXQ_IDX (old s))
                 else m ← master_vif_idx s v; Ok (rwnx_txq_vif_get (old s) m NX_UNK_TXQ_TYPE)
       end);
  t ← get_txq (hw s) k;
  if negb (active t) then Ok (s, [], - EBUSY)
  else
    match skb with
    | None => Ok (s, [], - ENOMEM)
    | Some (id, addr) =>
        let data := take (Z.to_nat frame_len) buf in
        let robust := ieee80211_is_robust_mgmt_frame data in
        data ← (match csa_offsets, n_type v, csa with
                | _ :: _, AP, Some count => csa_update data count csa_offsets
                | _, _, _ => Ok data
                end);
        let f := Frame id [] (replicate SIZEOF_TXHDR 0 ++ data) addr false false 0 0 in
        if negb hdr_ok then Ok (s, [XAlloc id; XFree id], - ENOMEM)
        else
          sid ← (match sta with Some j => a ← get_sta (hw s) j; Ok (u8 (Z.of_nat (sta_idx a))) | None => Ok 0xFF end);
          let fl := Z.lor TXU_CNTRL_MGMT (Z.lor (if robust then TXU_CNTRL_MGMT_ROBUST else 0)
                      (if no_cck then TXU_CNTRL_MGMT_NO_CCK else 0)) in
          let h := {| h_sta := sta; h_vif := i; h_txq := k; h_frame_len := frame_len;
                      h_headroom := Z.of_nat SIZEOF_TXHDR; h_map_len := Z.of_nat (length (f_data f)) - HW_HDR_OFF;
                      raw_frame := false; fixed_rate := false; h_status := 0; h_skb := f;
                      h_desc := HostDesc frame_len [] [] 0 0xFF (u8 (Z.of_nat (n_index v))) sid fl |} in
          if negb (rwnx_prep_tx =? 0) then Ok (s, [XAlloc id; XFree id], - EBUSY)
          else
            q ← Txq.xmit (hw s) (Skb id k sta);
            Ok (s <| hdrs ::= fun m => <[id := h]> m |> <| hw := q.1 |>, XAlloc id :: queued q.2, 0)
    end.

End Driver.

End Xmit.
