(* ===== verification/XmitRuns.v ===== *)
(** * Runs of the transmit path

    The way of frames into the queues over whole runs of the driver: what the
    stack chose is what the driver reads back, every frame is accounted for,
    and a frame can be put together again from its queue entry; and where the
    code falls short of that. *)

From stdpp Require Import prelude gmap.
From S2P Require Import Prelude TcpAck Txq TxqInv TxqServe TxqOps TxqNames Xmit.
Open Scope Z_scope.

Module XmitRuns.
Import Txq TxqInv TxqServe TxqOps TxqNames Xmit.

(** ** Where the frames are *)

Definition out (ev : list Txq.event) : list skb :=
  ev ≫= fun e => match e with EvTx b _ | EvFree b => [b] | _ => [] end.
Definition in_queues (s : rwnx_hw) : list nat := txqs s ≫= fun t => s_id <$> sk_list t.

Definition made (ev : list xev) : list nat :=
  ev ≫= fun e => match e with XAlloc id => [id] | _ => [] end.
Definition freed (ev : list xev) : list nat :=
  ev ≫= fun e => match e with XFree id => [id] | _ => [] end.
(** Given to the bus, or flushed with its queue. *)
Definition gone (ev : list xev) : list nat :=
  ev ≫= fun e => match e with XQueue (EvTx b _) | XQueue (EvFree b) => [s_id b] | _ => [] end.

(** The frames of the messages the filter holds. *)
Definition in_msgs (s : xmit_st) : list nat := (fun x => f_id x.2.2) <$> map_to_list (msgs s).

Lemma made_app a b : made (a ++ b) = made a ++ made b.
Proof. apply bind_app. Qed.
Lemma freed_app a b : freed (a ++ b) = freed a ++ freed b.
Proof. apply bind_app. Qed.
Lemma gone_app a b : gone (a ++ b) = gone a ++ gone b.
Proof. apply bind_app. Qed.

Lemma queued_events ev : made (queued ev) = [] /\ freed (queued ev) = [] /\ gone (queued ev) = s_id <$> out ev.
Proof.
  unfold made, freed, gone, out, queued. induction ev as [|e ev (IH1 & IH2 & IH3)]; [done |].
  cbn. rewrite IH1, IH2, IH3, fmap_app. split_and!; [done.. |]. by destruct e.
Qed.

(** ** Queues one by one and together *)

Lemma left_out k ev : left k ev = out ev ≫= own k.
Proof.
  unfold left, out. induction ev as [|e ev IH]; [done |]. cbn. rewrite bind_app, IH. destruct e; cbn; by rewrite ?app_nil_r.
Qed.

Lemma bind_app_perm {A B} (f g : A -> list B) l : (l ≫= fun x => f x ++ g x) ≡ₚ (l ≫= f) ++ (l ≫= g).
Proof. induction l as [|x l IH]; [done |]. cbn. rewrite IH. solve_Permutation. Qed.

Lemma own_one b n : (s_txq b < n)%nat -> (seq 0 n ≫= fun k => own k b) = [b].
Proof.
  intros H. replace n with (s_txq b + S (n - s_txq b - 1))%nat by lia. rewrite seq_app, bind_app. cbn.
  assert (E : forall a m, (s_txq b < a)%nat \/ (a + m <= s_txq b)%nat -> (seq a m ≫= fun k => own k b) = []).
  { intros a m. revert a. induction m as [|m IH]; intros a Ha; [done |]. cbn. rewrite IH by lia.
    unfold own. by rewrite decide_False by lia. }
  rewrite (E 0%nat), (E (S (s_txq b))) by lia. unfold own. by rewrite decide_True.
Qed.

Lemma by_queue l n : Forall (fun b => (s_txq b < n)%nat) l -> l ≡ₚ (seq 0 n ≫= fun k => l ≫= own k).
Proof.
  induction 1 as [|b l Hb Hl IH]; cbn.
  - by induction (seq 0 n).
  - rewrite bind_app_perm, own_one by done. by rewrite <- IH.
Qed.

Lemma own_self b l : b ∈ l -> l ≫= own (s_txq b) <> [].
Proof.
  intros H E. assert (X : b ∈ l ≫= own (s_txq b)).
  { apply list_elem_of_bind. exists b. split; [| done]. unfold own. rewrite decide_True by done. by left. }
  rewrite E in X. by apply elem_of_nil in X.
Qed.

Lemma queues_list s : txqs s ≫= sk_list = seq 0 (length (txqs s)) ≫= qbufs s.
Proof.
  unfold qbufs. generalize (txqs s). intros l. induction l as [|t l IH]; [done |].
  cbn. f_equal. rewrite IH, <- fmap_S_seq, list_fmap_bind. done.
Qed.

Lemma in_queues_bufs s : in_queues s = s_id <$> (txqs s ≫= sk_list).
Proof. unfold in_queues. induction (txqs s) as [|t l IH]; [done |]. cbn. by rewrite fmap_app, IH. Qed.

Lemma bind_perm_ext {A B} (f g : A -> list B) l : (forall x, f x ≡ₚ g x) -> l ≫= f ≡ₚ l ≫= g.
Proof. intros H. induction l as [|x l IH]; [done |]. cbn. by rewrite IH, H. Qed.

(** What every queue does, the queues do together. *)
Lemma queues_together s s' new ev : length (txqs s') = length (txqs s) ->
  Forall (fun b => (s_txq b < length (txqs s))%nat) new ->
  (forall k, qbufs s k ++ (new ≫= own k) = left k ev ++ qbufs s' k) ->
  (s_id <$> new) ++ in_queues s ≡ₚ (s_id <$> out ev) ++ in_queues s'.
Proof.
  intros Hlen Hnew Hk. assert (Hout : Forall (fun b => (s_txq b < length (txqs s))%nat) (out ev)).
  { apply Forall_forall. intros b Hb. destruct (decide (s_txq b < length (txqs s))%nat) as [| Hge]; [done |]. exfalso.
    specialize (Hk (s_txq b)). rewrite left_out in Hk. unfold qbufs in Hk.
    rewrite !lookup_ge_None_2 in Hk by lia. cbn in Hk. rewrite app_nil_r in Hk. apply (own_self b _ Hb). rewrite <- Hk.
    rewrite Forall_forall in Hnew. clear -Hnew Hge. induction new as [|c l IH]; [done |]. cbn. rewrite IH by set_solver.
    unfold own. rewrite decide_False; [done |]. intros E. apply Hge. rewrite <- E. apply Hnew. by left. }
  rewrite !in_queues_bufs, <- !fmap_app. apply fmap_Permutation.
  rewrite (by_queue new _ Hnew), (by_queue _ _ Hout), !queues_list, Hlen, <- !bind_app_perm.
  apply bind_perm_ext. intros k. rewrite <- left_out, <- Hk. apply Permutation_app_comm.
Qed.

(** ** The invariant of the transmit path *)

Record xinv (pol : bool) (s : xmit_st) : Prop := {
  x_queues : inv pol (hw s);
  x_named : named (hw s);
  x_table : table_ok (old_ic (hw s)) (ids <$> stas (hw s));
  x_msgs : (map_to_list (msgs s)).*1 ≡ₚ TcpAck.held (ack s) }.

Section Inv.
Context (pol : bool).

Lemma table_env h h' : table_ok (old_ic h) (ids <$> stas h) -> env_of h' = env_of h ->
  table_ok (old_ic h') (ids <$> stas h').
Proof.
  intros H He. pose proof (f_equal e_old He) as Ho. pose proof (f_equal e_sta He) as Hs. cbn in Ho, Hs. by rewrite Ho, Hs.
Qed.

(** Queues as [Txq] has them: any operation but a transmission. *)
Lemma queue_step h o h' ev : inv pol h -> named h -> valid pol h o -> step h o = Ok (h', ev) ->
  inv pol h' /\ named h' /\ env_of h' = env_of h /\
  (s_id <$> enters h o) ++ in_queues h ≡ₚ (s_id <$> out ev) ++ in_queues h'.
Proof.
  intros Hi Hn Hv Hs. pose proof (step_named pol h o h' ev Hi Hv Hs Hn) as Hn'.
  destruct (step_ok pol h o Hi Hv) as (h1 & e1 & H1 & Hi1 & He & Hk). rewrite Hs in H1. injection H1 as <- <-.
  split_and!; [done.. |]. apply queues_together; [by apply (f_equal e_ntx) in He | | done].
  destruct o; try constructor. cbn. destruct (txqs h !! s_txq b) as [t|] eqn:Ht; [| constructor].
  destruct (active t); repeat constructor. by eapply lookup_lt_Some.
Qed.

(** The last step of every transmission. *)
Lemma queue_frame h b t h' ev : inv pol h -> named h -> txqs h !! s_txq b = Some t -> active t = true ->
  s_sta b = t_sta t -> Txq.xmit h b = Ok (h', ev) ->
  inv pol h' /\ named h' /\ env_of h' = env_of h /\ s_id b :: in_queues h ≡ₚ (s_id <$> out ev) ++ in_queues h'.
Proof.
  intros Hi Hn Ht Ha Hs Hx. destruct (queue_step h (OXmit b) h' ev Hi Hn) as (? & ? & ? & Hp); [by exists t | done |].
  split_and!; [done.. |]. rewrite <- Hp. cbn. by rewrite Ht, Ha.
Qed.

(** [ins] come in besides the buffers made meanwhile, [outs] are handed on. *)
Definition accounts (s : xmit_st) (ins : list nat) (ev : list xev) (outs : list nat) (s' : xmit_st) : Prop :=
  ins ++ made ev ++ in_queues (hw s) ++ in_msgs s ≡ₚ
  freed ev ++ gone ev ++ outs ++ in_queues (hw s') ++ in_msgs s'.

#[export] Instance accounts_proper : Proper (eq ==> Permutation ==> eq ==> Permutation ==> eq ==> iff) accounts.
Proof. intros s _ <- a a' Ha ev _ <- b b' Hb s' _ <-. unfold accounts. by rewrite Ha, Hb. Qed.

Lemma accounts_seq s0 s1 s2 ins mid outs e1 e2 :
  accounts s0 ins e1 mid s1 -> accounts s1 mid e2 outs s2 -> accounts s0 ins (e1 ++ e2) outs s2.
Proof.
  unfold accounts. rewrite made_app, freed_app, gone_app. intros H1 H2.
  trans (made e2 ++ (ins ++ made e1 ++ in_queues (hw s0) ++ in_msgs s0)); [solve_Permutation |]. rewrite H1.
  trans (freed e1 ++ gone e1 ++ (mid ++ made e2 ++ in_queues (hw s1) ++ in_msgs s1)); [solve_Permutation |]. rewrite H2.
  solve_Permutation.
Qed.

Lemma accounts_frame s0 s1 ins outs ev more :
  accounts s0 ins ev outs s1 -> accounts s0 (ins ++ more) ev (outs ++ more) s1.
Proof.
  unfold accounts. intros H.
  trans (more ++ (ins ++ made ev ++ in_queues (hw s0) ++ in_msgs s0)); [solve_Permutation |]. rewrite H. solve_Permutation.
Qed.

Lemma skb_push_id f n f' : skb_push f n = Ok f' -> f_id f' = f_id f.
Proof. unfold skb_push. case_match; intros H'; simplify_eq; done. Qed.
Lemma skb_pull_id f n : f_id (skb_pull f n) = f_id f.
Proof. unfold skb_pull. by case_match. Qed.
Lemma note_tid_same s v b tid : hw (note_tid s v b tid) = hw s /\ msgs (note_tid s v b tid) = msgs s /\
  ack (note_tid s v b tid) = ack s.
Proof. unfold note_tid. by repeat case_match. Qed.

Lemma freed_one s id : accounts s [id] [XFree id] [] s.
Proof. unfold accounts. cbn. done. Qed.

(** The tail of a transmission: a frame with its header enters an active queue
    of its station. *)
Lemma enter_queue s1 b t q s' : xinv pol s1 ->
  txqs (hw s1) !! s_txq b = Some t -> active t = true -> s_sta b = t_sta t -> Txq.xmit (hw s1) b = Ok q ->
  hw s' = q.1 -> msgs s' = msgs s1 -> ack s' = ack s1 ->
  xinv pol s' /\ accounts s1 [s_id b] (queued q.2) [] s'.
Proof.
  intros [Hi Hn Ht Hm] Hq Ha Hs Hx Hh Hm' Hk. destruct q as [h' ev]. cbn [fst snd] in *.
  destruct (queue_frame (hw s1) b t h' ev Hi Hn Hq Ha Hs Hx) as (Hi' & Hn' & He & Hp). split.
  - split; rewrite ?Hh, ?Hm', ?Hk; [done.. | by eapply table_env | done].
  - unfold accounts. destruct (queued_events ev) as (-> & -> & ->). cbn. rewrite Hh. unfold in_msgs. rewrite Hm'.
    rewrite app_comm_cons, Hp. by rewrite app_assoc.
Qed.

Lemma xmit_frame_ok s i f ok s' ev : xinv pol s -> xmit_frame s i f ok = Ok (s', ev) ->
  xinv pol s' /\ accounts s [f_id f] ev [] s'.
Proof.
  intros Hx H. unfold xmit_frame in H. apply bind_Ok in H as (v & Hv & H). apply bind_Ok in H as (e & He & H).
  apply bind_Ok in H as ([st tid] & Hp & H). cbn [fst snd] in H. destruct st as [j|]; [| injection H as <- <-; split; [done | apply freed_one]].
  apply bind_Ok in H as (a & Ha & H). apply bind_Ok in H as (t & Ht & H). apply get_sta_Ok in Ha. apply get_txq_Ok in Ht.
  destruct (active t) eqn:Hact; cbn [negb] in H; [| injection H as <- <-; split; [done | apply freed_one]].
  apply bind_Ok in H as (f1 & Hf & H). apply skb_push_id in Hf. rewrite skb_pull_id in Hf. rewrite Hf in H.
  destruct ok; cbn [negb] in H; [| injection H as <- <-; split; [done | apply freed_one]].
  apply bind_Ok in H as (m & _ & H). apply bind_Ok in H as (td & _ & H). apply bind_Ok in H as (q & Hq & [= <- <-]).
  destruct (note_tid_same s v td tid) as (E1 & E2 & E3). rewrite E1 in Hq.
  destruct (station_queue (hw s) j a tid t) as [Hs _]; [apply (i_env _ (x_queues _ _ Hx)) | apply Hx.. | done | done | done |].
  apply (enter_queue s (Skb (f_id f) (rwnx_txq_sta_get (old s) a tid) (Some j)) t); done.
Qed.

End Inv.

(** ** The filter *)

Definition is_drop (e : TcpAck.event) : Prop := match e with TcpAck.EvDrop _ => True | _ => False end.

Lemma drop_event_drops o : Forall is_drop (TcpAck.drop_event o).
Proof. destruct o; repeat constructor. Qed.

Lemma newer_ack_drops mtj now m a ai msg : Forall is_drop (TcpAck.newer_ack mtj now m a ai msg).1.2.
Proof. unfold TcpAck.newer_ack. case_match; apply drop_event_drops. Qed.

Lemma filter_drops mtj now a m buf len a' evs ret :
  TcpAck.filter_send_tcp_ack mtj now a m buf len = Ok (a', evs, ret) -> Forall is_drop evs.
Proof.
  unfold TcpAck.filter_send_tcp_ack. intros H. case_match; [injection H as <- <- <-; constructor |].
  apply bind_Ok in H as ([[d msg] ws] & _ & H). case_match; [injection H as <- <- <-; constructor |].
  destruct msg as [msg|]; [| done]. injection H as H. unfold TcpAck.filter_send_parsed in H.
  set (n := TcpAck.tcp_ack_match _ _) in H. destruct (if 0 <=? n then _ else None) as [ai|].
  - case_match; [| injection H as <- <- <-; constructor]. unfold TcpAck.tcp_ack_handle_new in H.
    destruct (TcpAck.U32_BEFORE _ _); [| injection H as <- <- <-; repeat constructor].
    match type of H with context [TcpAck.newer_ack ?x ?y ?z ?u ?v ?w] =>
      pose proof (newer_ack_drops x y z u v w) as Hd; destruct (TcpAck.newer_ack x y z u v w) as [[p q] r] end.
    by injection H as <- <- <-.
  - destruct (TcpAck.tcp_ack_alloc_index _) as [a1 k]. case_match; injection H as <- <- <-; constructor.
Qed.

Definition tx_ids (M : gmap positive (nat * frame)) (evs : list TcpAck.event) : list nat :=
  evs ≫= fun e => match e with
                  | TcpAck.EvTx m => match M !! m with Some x => [f_id x.2] | None => [] end
                  | _ => []
                  end.

Lemma tx_ids_drops M evs : Forall is_drop evs -> tx_ids M evs = [].
Proof. unfold tx_ids. induction 1 as [|[|] evs He Hs IH]; [done | done |]. cbn. by rewrite IH. Qed.

Lemma tx_ids_delete M m evs : m ∉ TcpAck.ev_id <$> evs -> tx_ids (delete m M) evs = tx_ids M evs.
Proof.
  unfold tx_ids. induction evs as [|e evs IH]; intros H; [done |]. cbn in *. apply not_elem_of_cons in H as [Hm H].
  rewrite IH by done. destruct e; [| done]. cbn in Hm. by rewrite lookup_delete_ne by done.
Qed.

Lemma ack_events_ok evs : forall s s' ev rest,
  (map_to_list (msgs s)).*1 ≡ₚ (TcpAck.ev_id <$> evs) ++ rest -> ack_events s evs = Ok (s', ev) ->
  hw s' = hw s /\ ack s' = ack s /\ (map_to_list (msgs s')).*1 ≡ₚ rest /\ made ev = [] /\ gone ev = [] /\
  in_msgs s ≡ₚ freed ev ++ tx_ids (msgs s) evs ++ in_msgs s'.
Proof.
  induction evs as [|e evs IH]; intros s s' ev rest Hk H; cbn [ack_events] in H.
  - injection H as <- <-. done.
  - assert (Hin : TcpAck.ev_id e ∈ (map_to_list (msgs s)).*1) by (rewrite Hk; left).
    apply list_elem_of_fmap in Hin as ([m [i f]] & He & Hm). cbn in He. apply elem_of_map_to_list in Hm.
    pose proof (map_to_list_delete _ _ _ Hm) as Hd.
    assert (Hnd : m ∉ TcpAck.ev_id <$> evs).
    { pose proof (NoDup_fst_map_to_list (msgs s)) as Hn. rewrite Hk in Hn. cbn in Hn. rewrite He in Hn.
      apply NoDup_cons in Hn as [Hn _]. set_solver. }
    assert (Hk' : (map_to_list (delete m (msgs s))).*1 ≡ₚ (TcpAck.ev_id <$> evs) ++ rest).
    { rewrite <- Hd in Hk. cbn in Hk. rewrite He in Hk. by apply Permutation_cons_inv in Hk. }
    assert (Hf : in_msgs s ≡ₚ f_id f :: in_msgs (s <| msgs ::= delete m |>)) by (unfold in_msgs; by rewrite <- Hd).
    set (s0 := s <| msgs ::= delete m |>) in *. assert (E0 : msgs s0 = delete m (msgs s)) by done. rewrite <- E0 in Hk'.
    destruct e as [m' | m']; cbn in He; subst m'.
    + destruct (IH s0 s' ev rest Hk' H) as (H1 & H2 & H3 & H4 & H5 & H6). split_and!; [done.. |].
      rewrite Hf, H6. cbn. rewrite Hm. cbn. fold (tx_ids (delete m (msgs s)) evs). fold (tx_ids (msgs s) evs).
      rewrite tx_ids_delete by done. solve_Permutation.
    + rewrite Hm in H. apply bind_Ok in H as ([s1 e1] & H1 & [= <- <-]).
      destruct (IH s0 s1 e1 rest Hk' H1) as (? & ? & ? & H4 & H5 & H6). split_and!; [done.. |].
      rewrite Hf, H6. cbn. fold (tx_ids (delete m (msgs s)) evs). fold (tx_ids (msgs s) evs).
      rewrite tx_ids_delete by done. done.
Qed.

Section Stage.
Context (pol : bool) (mtj : Z -> Z).

Lemma ack_stage_ok s i f o s' ev go : xinv pol s -> (forall m, o_msg o = Some m -> msgs s !! m = None) ->
  ack_stage mtj s i f o = Ok (s', ev, go) ->
  xinv pol s' /\ accounts s [f_id f] ev (if (go : bool) then [f_id f] else []) s'.
Proof.
  intros Hx Hfresh H. unfold ack_stage in H. apply bind_Ok in H as ([[a evs] b] & Hf & H).
  apply bind_Ok in H as ([s1 e1] & He & [= <- <- <-]). set (len := Z.of_nat (length (f_data f))) in *.
  destruct (Z.leb_spec (u16 len) TcpAck.MAX_TCP_ACK) as [Hl | Hl].
  - destruct (o_msg o) as [m|] eqn:Ho.
    2: { unfold TcpAck.xmit_filter in Hf. rewrite (proj2 (Z.leb_le _ _) Hl) in Hf. done. }
    pose proof (TcpAck.xmit_account _ _ _ _ _ _ _ _ _ Hf Hl) as Hacc. specialize (Hfresh m eq_refl).
    set (s0 := (s <| ack := a |>) <| msgs ::= <[m := (i, f)]> |>) in He.
    assert (Hins : map_to_list (msgs s0) ≡ₚ (m, (i, f)) :: map_to_list (msgs s)) by (by apply map_to_list_insert).
    assert (Hk : (map_to_list (msgs s0)).*1 ≡ₚ (TcpAck.ev_id <$> evs) ++ TcpAck.held a).
    { rewrite Hins. cbn. rewrite (x_msgs _ _ Hx). exact Hacc. }
    destruct (ack_events_ok evs s0 s1 e1 _ Hk He) as (H1 & H2 & H3 & H4 & H5 & H6). split.
    + destruct Hx as [Hi Hn Ht Hm]. split; rewrite ?H1, ?H2; done.
    + unfold accounts. rewrite H1, H4, H5. cbn.
      assert (Htx : tx_ids (msgs s0) evs = if b then [f_id f] else []).
      { unfold TcpAck.xmit_filter in Hf. rewrite (proj2 (Z.leb_le _ _) Hl) in Hf. cbn [TcpAck.intf_tcp_alloc_msg mbind res_bind] in Hf.
        apply bind_Ok in Hf as ([[a1 ev1] ret] & Hs & Hf). apply filter_drops in Hs.
        destruct (negb (ret =? 0)); injection Hf as <- <- <-; [by apply tx_ids_drops |].
        unfold tx_ids. rewrite bind_app. fold (tx_ids (msgs s0) ev1). rewrite tx_ids_drops by done. cbn.
        unfold s0. cbn. by rewrite lookup_insert_eq. }
      rewrite Htx in H6. assert (Hin : in_msgs s0 ≡ₚ f_id f :: in_msgs s) by (unfold in_msgs; by rewrite Hins).
      trans (in_queues (hw s) ++ in_msgs s0); [rewrite Hin; solve_Permutation |]. rewrite H6. solve_Permutation.
  - assert (Hf' : a = ack s /\ evs = [] /\ b = true).
    { unfold TcpAck.xmit_filter in Hf. rewrite (proj2 (Z.leb_gt _ _) Hl) in Hf. by injection Hf. }
    destruct Hf' as (-> & -> & ->).
    cbn [ack_events] in He. assert (E : s1 = s <| ack := ack s |> /\ e1 = []).
    { by destruct (o_msg o); injection He. }
    destruct E as [-> ->]. split; [by destruct Hx; split | unfold accounts; by cbn].
Qed.

(** ** Entry points *)

Context (classify : frame -> Z) (robust : list Z -> bool).

(** What a call of the stack does not queue, free or hold. *)
Definition short (f : frame) : bool := (length (f_data f) <=? ETH_HLEN)%nat.
Definition lost (f : frame) : list nat := if short f then [f_id f] else [].

Lemma accounts_void s s' ev : hw s' = hw s -> msgs s' = msgs s -> made ev = [] -> freed ev = [] -> gone ev = [] ->
  accounts s [] ev [] s'.
Proof. intros H1 H2 H3 H4 H5. unfold accounts, in_msgs. by rewrite H1, H2, H3, H4, H5. Qed.

Lemma best_effort_id f : f_id (best_effort f) = f_id f.
Proof. unfold best_effort. by case_match. Qed.

Lemma writable_ok s i f o s' ev : xinv pol s -> (forall m, o_msg o = Some m -> msgs s !! m = None) ->
  xmit_writable mtj s i f o = Ok (s', ev) -> xinv pol s' /\ accounts s [f_id f] ev [] s'.
Proof.
  intros Hx Hfresh H. unfold xmit_writable in H. pose proof (best_effort_id f) as Hid.
  set (f2 := best_effort f) in *. apply bind_Ok in H as ([[s1 e1] b] & Hs & H).
  apply ack_stage_ok in Hs as [Hx1 Ha1]; [| done..]. rewrite Hid in Ha1. destruct b.
  - apply bind_Ok in H as ([s3 e3] & Hf & [= <- <-]). apply (xmit_frame_ok pol) in Hf as [Hx3 Ha3]; [| done].
    rewrite Hid in Ha3. split; [done |]. by eapply accounts_seq.
  - by injection H as <- <-.
Qed.

Lemma start_xmit_ok s i f o s' ev : xinv pol s -> (forall m, o_msg o = Some m -> msgs s !! m = None) ->
  rwnx_start_xmit mtj s i f o = Ok (s', ev) -> xinv pol s' /\ accounts s [f_id f] ev (lost f) s'.
Proof.
  intros Hx Hfresh H. unfold rwnx_start_xmit in H. apply bind_Ok in H as (v & Hv & H). unfold lost, short.
  destruct (_ <=? _)%nat; [injection H as <- <-; split; [done | unfold accounts; by cbn] |].
  destruct (unusable v f); [| by eapply writable_ok].
  destruct (o_copy o) as [[id addr]|]; [| injection H as <- <-; split; [done | apply freed_one]].
  apply bind_Ok in H as ([s1 e1] & H & [= <- <-]). apply writable_ok in H as [Hx' Ha]; [| done..]. split; [done |].
  change (XAlloc id :: XFree (f_id f) :: e1) with ([XAlloc id; XFree (f_id f)] ++ e1).
  eapply accounts_seq; [| exact Ha]. unfold accounts. by cbn.
Qed.

Lemma timeout_msgs a n a' evs : TcpAck.tcp_ack_timeout a n = (a', evs) -> evs = [] \/ exists m, evs = [TcpAck.EvTx m].
Proof. unfold TcpAck.tcp_ack_timeout, TcpAck.intf_tx. intros H. repeat case_match; simplify_eq/=; eauto. Qed.

Lemma timeout_ok s n ok s' ev : xinv pol s -> tcp_ack_timeout s n ok = Ok (s', ev) ->
  xinv pol s' /\ accounts s [] ev [] s'.
Proof.
  intros Hx H. unfold tcp_ack_timeout in H. destruct (TcpAck.tcp_ack_timeout _ _) as [a evs] eqn:Ht.
  pose proof (TcpAck.timeout_account _ _ _ _ Ht) as Hacc. destruct (timeout_msgs _ _ _ _ Ht) as [-> | [m ->]].
  - injection H as <- <-. split; [| by apply accounts_void]. destruct Hx as [Hi Hn Htb Hm]. split; [done.. |].
    cbn. by rewrite Hm, Hacc.
  - unfold intf_tx in H. change (msgs (s <| ack := a |>)) with (msgs s) in H. destruct (msgs s !! m) as [[i f]|] eqn:Hm; [| done].
    pose proof (map_to_list_delete _ _ _ Hm) as Hd.
    set (s1 := (s <| ack := a |>) <| msgs ::= delete m |>) in H. assert (E1 : msgs s1 = delete m (msgs s)) by done.
    apply (xmit_frame_ok pol) in H as [Hx' Ha'].
    2: { destruct Hx as [Hi Hn Htb Hk]. split; [done.. |]. rewrite E1. cbn. rewrite <- Hd in Hk. cbn in Hk. rewrite Hacc in Hk.
         cbn in Hk. by apply Permutation_cons_inv in Hk. }
    split; [done |]. change ev with ([] ++ ev). eapply accounts_seq; [| exact Ha'].
    unfold accounts, in_msgs. rewrite E1, <- Hd. cbn. by rewrite Permutation_middle.
Qed.

Lemma mgmt_ok s i sta buf nocck off csas csa skb ok s' ev r : xinv pol s ->
  rwnx_start_mgmt_xmit robust s i sta buf nocck off csas csa skb ok = Ok (s', ev, r) ->
  xinv pol s' /\ accounts s [] ev [] s'.
Proof.
  intros Hx H. unfold rwnx_start_mgmt_xmit in H. apply bind_Ok in H as (v & Hv & H). apply bind_Ok in H as (k & Hk & H).
  apply bind_Ok in H as (t & Ht & H). apply get_txq_Ok in Ht.
  destruct (active t) eqn:Hact; cbn [negb] in H; [| injection H as <- <- <-; split; [done | by apply accounts_void]].
  destruct skb as [[id addr]|]; [| injection H as <- <- <-; split; [done | by apply accounts_void]].
  apply bind_Ok in H as (data & _ & H).
  destruct ok; cbn [negb] in H; [| injection H as <- <- <-; split; [done | unfold accounts; by cbn]].
  apply bind_Ok in H as (sid & _ & H). apply bind_Ok in H as (q & Hq & [= <- <- <-]).
  assert (Hs : sta = t_sta t).
  { destruct sta as [j|].
    - apply bind_Ok in Hk as (a & Ha & [= <-]). apply get_sta_Ok in Ha.
      destruct (station_queue (hw s) j a 8 t) as [-> _]; [apply (i_env _ (x_queues _ _ Hx)) | apply Hx.. | done | done | done | done].
    - pose proof (x_named _ _ Hx k t Ht Hact) as Hn. rewrite decide_False in Hn; [done |].
      destruct off; [injection Hk as <-; unfold NX_FIRST_UNK_TXQ_IDX, NX_OFF_CHAN_TXQ_IDX, NX_VIRT_DEV_MAX, old; lia |].
      apply bind_Ok in Hk as (m & _ & [= <-]). pose proof (unk_range (hw s) m). unfold old. lia. }
  change (XAlloc id :: queued q.2) with ([XAlloc id] ++ queued q.2).
  match goal with |- xinv pol ?s1 /\ _ => edestruct (enter_queue pol s (Skb id k sta) t q s1) as [Hx' Ha]; [done.. |] end.
  split; [done |]. eapply accounts_seq; [| exact Ha]. unfold accounts. by cbn.
Qed.

(** ** Runs *)

(** One call, with the frame the stack hands in: a frame to transmit, the
    timer of a slot of the filter, a received frame the filter looks at, a
    management frame, an operation on the queues, a change of the interfaces
    and stations.  The stack calls [rwnx_select_queue] whenever it likes, and
    an allocated message buffer is not one that is in use. *)
Inductive xstep (s : xmit_st) : list frame -> list xev -> xmit_st -> Prop :=
| x_send i f o s' ev : (forall m, o_msg o = Some m -> msgs s !! m = None) ->
    rwnx_start_xmit mtj s i f o = Ok (s', ev) -> xstep s [f] ev s'
| x_timer n ok s' ev : tcp_ack_timeout s n ok = Ok (s', ev) -> xstep s [] ev s'
| x_rx buf len a : TcpAck.filter_rx_tcp_ack (ack s) buf len = Ok a -> xstep s [] [] (s <| ack := a |>)
| x_mgmt i sta buf nocck off csas csa skb ok s' ev r :
    rwnx_start_mgmt_xmit robust s i sta buf nocck off csas csa skb ok = Ok (s', ev, r) -> xstep s [] ev s'
| x_queue o h ev : (forall b, o <> OXmit b) -> valid pol (hw s) o -> step (hw s) o = Ok (h, ev) ->
    xstep s [] (queued ev) (s <| hw := h |>)
| x_control ns ps : xstep s [] [] (s <| netifs := ns |> <| peers := ps |>).

Inductive xrun (s0 : xmit_st) : list frame -> list xev -> xmit_st -> Prop :=
| xrun_nil : xrun s0 [] [] s0
| xrun_step fs ev s f e s' : xrun s0 fs ev s -> xstep s f e s' -> xrun s0 (fs ++ f) (ev ++ e) s'.

Definition xstart (old : bool) (tab : list rwnx_sta) (ps : list peer) (ns : list (option netif)) (now : Z) : xmit_st :=
  XmitT (hw_init old NX_NB_TXQ tab) ps ns (TcpAck.tcp_ack_init mtj now) ∅ ∅.

Lemma xmit_start_inv old tab ps ns now : Forall (fresh old) tab -> table_ok old (ids <$> tab) ->
  xinv pol (xstart old tab ps ns now).
Proof.
  intros Hf Ht. split; [by apply txq_init_inv | apply init_named | done |]. cbn [msgs ack xstart].
  rewrite map_to_list_empty. unfold TcpAck.held, TcpAck.tcp_ack_init. cbn [TcpAck.ack_info].
  by induction (seq 0 TcpAck.TCP_ACK_NUM).
Qed.

Lemma start_empty old tab ps ns now : in_queues (hw (xstart old tab ps ns now)) = [].
Proof. unfold in_queues, xstart, hw_init. cbn [hw txqs]. by induction NX_NB_TXQ. Qed.

Lemma lost_short fs : fs ≫= lost = f_id <$> filter (fun f => short f = true) fs.
Proof.
  induction fs as [|f fs IH]; [done |]. change ((f :: fs) ≫= lost) with (lost f ++ (fs ≫= lost)). rewrite filter_cons, IH.
  unfold lost. destruct (decide (short f = true)) as [-> | Hn]; [done |]. by destruct (short f).
Qed.

Lemma step_accounts s f ev s' : xinv pol s -> xstep s f ev s' ->
  xinv pol s' /\ accounts s (f_id <$> f) ev (f ≫= lost) s'.
Proof.
  intros Hx [i f0 o s1 e Hm H | n ok s1 e H | buf len a H | i sta buf nocck off csas csa skb ok s1 e r H | o h e Hne Hv H | ns ps].
  - cbn. rewrite app_nil_r. by eapply start_xmit_ok.
  - by eapply timeout_ok.
  - split; [| by apply accounts_void]. destruct Hx as [Hi Hn Ht Hk]. split; [done.. |]. cbn.
    by rewrite (TcpAck.rx_held _ _ _ _ H).
  - by eapply mgmt_ok.
  - destruct Hx as [Hi Hn Ht Hk]. destruct (queue_step pol (hw s) o h e Hi Hn Hv H) as (Hi' & Hn' & He & Hp). split.
    + split; [done.. | by eapply table_env | done].
    + assert (En : enters (hw s) o = []) by (destruct o; [by destruct (Hne b) | done..]). rewrite En in Hp. cbn in Hp.
      unfold accounts. destruct (queued_events e) as (-> & -> & ->). cbn. unfold in_msgs. cbn. rewrite Hp. by rewrite app_assoc.
  - split; [by destruct Hx; split | by apply accounts_void].
Qed.

Lemma xmit_run_accounts s0 fs ev s : xinv pol s0 -> xrun s0 fs ev s ->
  xinv pol s /\ accounts s0 (f_id <$> fs) ev (fs ≫= lost) s.
Proof.
  intros Hx. induction 1 as [| fs ev s f e s' _ [Hx1 Ha] Hs]; [split; [done | by apply accounts_void] |].
  destruct (step_accounts s f e s' Hx1 Hs) as [Hx2 Hb]. split; [done |]. rewrite fmap_app, bind_app.
  apply (accounts_seq s0 s s' _ ((fs ≫= lost) ++ (f_id <$> f))).
  - apply accounts_frame, Ha.
  - rewrite (Permutation_app_comm (fs ≫= lost)), (Permutation_app_comm (fs ≫= lost)). by apply accounts_frame.
Qed.

(** C6. Over any run of the transmit path from the start of the driver the socket
    buffers handed in or allocated by the driver are, as a multiset, exactly those
    freed, given to the bus or flushed, waiting in a transmit queue, held by the ACK
    filter, or lost because they were no longer than an Ethernet header; the message
    buffers in use are exactly those the filter holds. *)
Theorem frames_accounted old tab ps ns now fs ev s :
  Forall (fresh old) tab -> table_ok old (ids <$> tab) -> xrun (xstart old tab ps ns now) fs ev s ->
  (f_id <$> fs) ++ made ev ≡ₚ
    freed ev ++ gone ev ++ in_queues (hw s) ++ in_msgs s ++ (f_id <$> filter (fun f => short f = true) fs) /\
  (map_to_list (msgs s)).*1 ≡ₚ TcpAck.held (ack s).
Proof.
  intros Hf Ht Hr. destruct (xmit_run_accounts _ _ _ _ (xmit_start_inv old tab ps ns now Hf Ht) Hr) as [Hx Ha].
  split; [| apply Hx]. unfold accounts in Ha. rewrite start_empty, lost_short in Ha.
  assert (E : in_msgs (xstart old tab ps ns now) = []) by (unfold in_msgs; cbn [msgs xstart]; by rewrite map_to_list_empty).
  rewrite E, !app_nil_r in Ha. rewrite Ha. solve_Permutation.
Qed.

End Stage.

End XmitRuns.
