(* ===== verification/XmitSend.v ===== *)
(** * One frame through the transmit path

    A frame for a known station goes into that station's queue, whole: the
    descriptor and the buffer give it back, the header always fits in front
    of it; and two frames that do not go where they were meant to. *)

From stdpp Require Import prelude gmap.
From S2P Require Import Prelude TcpAck Txq TxqInv TxqServe TxqOps TxqNames Xmit XmitRuns.
Open Scope Z_scope.

Module XmitSend.
Import Txq TxqInv TxqServe TxqOps TxqNames Xmit XmitRuns.

(** ** Downgrading *)

(** The access category of a priority is not under admission control, or it
    is the lowest. *)
Definition admitted (acm prio : Z) : Prop :=
  rwnx_tid2hwq (Z.to_nat prio) = RWNX_HWQ_BK \/
  Z.testbit acm (Z.of_nat (rwnx_tid2hwq (Z.to_nat prio))) = false.

Definition ac_of (prio : Z) : nat := rwnx_tid2hwq (Z.to_nat prio).

Lemma downgrade_loop acm ac : forall q, (ac <= 3)%nat -> 0 <= q < 8 -> ac_of q = ac ->
  let r := downgrade acm ac q in
  0 <= r < 8 /\ admitted acm r /\ (ac_of r <= ac)%nat /\ (Z.testbit acm (Z.of_nat ac) = false -> r = q).
Proof.
  unfold admitted. induction ac as [|ac IH]; intros q Hac Hq Ha; cbn [downgrade].
  - destruct (Z.testbit acm (Z.of_nat 0)); [by split_and!; [.. | left | vm_compute |] | split_and!; [lia.. | by left | lia | done]].
  - destruct (Z.testbit acm (Z.of_nat (S ac))) eqn:Hb.
    + assert (Hd : 0 <= rwnx_down_hwq2tid ac < 8 /\ ac_of (rwnx_down_hwq2tid ac) = ac)
        by (destruct ac as [|[|[|]]]; [by vm_compute.. | lia]).
      destruct (IH (rwnx_down_hwq2tid ac)) as (H1 & H2 & H3 & _); [lia | apply Hd.. |]. split_and!; [lia.. | done | lia | done].
    + split_and!; [lia.. | right; unfold ac_of in Ha; by rewrite Ha | lia | done].
Qed.

Lemma downgrade_spec acm prio : 0 <= prio < 8 ->
  exists prio', rwnx_downgrade_ac acm prio = Ok prio' /\ 0 <= prio' < 8 /\ admitted acm prio' /\
    (ac_of prio' <= ac_of prio)%nat /\ (Z.testbit acm (Z.of_nat (ac_of prio)) = false -> prio' = prio).
Proof.
  intros Hp. unfold rwnx_downgrade_ac, NUM_TIDS. rewrite (proj2 (Z.leb_le _ _)), (proj2 (Z.ltb_lt _ _)) by lia. cbn [andb].
  assert (Hac : (ac_of prio <= 3)%nat) by (pose proof (tid2hwq_range (Z.to_nat prio)); unfold ac_of; lia).
  unfold ac_of in Hac. rewrite (proj2 (Nat.ltb_ge _ _)) by (unfold RWNX_HWQ_VO; lia).
  eexists. split; [reflexivity |]. by apply downgrade_loop.
Qed.

(** ** What the stack chooses *)

Section Send.
Context (pol : bool) (mtj : Z -> Z) (classify : frame -> Z).
Context (s : xmit_st) (i : nat) (v : netif) (f : frame) (e : ethhdr) (xe : list xev).
Context (j : nat) (a : rwnx_sta) (p : peer) (m : nat) (td : bool).
Hypothesis (Hx : xinv pol s).

(** A frame for a station with its queues set up; the group-addressed frames
    of an interface go to its own entry of the table. *)
Record known : Prop := {
  k_vif : get_netif s i = Ok v;
  k_eth : eth_hdr (f_data f) = Ok e;
  k_sel : select_sta s i v e = Ok (Some j, xe);
  k_data : tdls_mgmt_frame v e = false;
  k_master : master_vif_idx s v = Ok m;
  k_group : is_multicast_sta (old s) j = true -> j = (NX_REMOTE_STA_MAX (old s) + m)%nat;
  k_sta : stas (hw s) !! j = Some a;
  k_peer : peers s !! j = Some p;
  k_tdls : is_tdls_peer s v (h_dest e) = Ok td;
  k_queues : forall tid, exists t, txqs (hw s) !! rwnx_txq_sta_get (old s) a tid = Some t /\ active t = true }.
Hypothesis (Hk : known).

(** The network queue of a TID. *)
Definition mapping_of (prio : Z) : nat :=
  if is_multicast_sta (old s) j then NX_BCMC_TXQ_NDEV_IDX (old s)
  else NX_STA_NDEV_IDX (if (NX_NB_TXQ_PER_STA <=? tid_of prio)%nat then 0%nat else tid_of prio) j.

Lemma station_range : is_multicast_sta (old s) j = false -> (j < NX_REMOTE_STA_MAX (old s))%nat.
Proof. unfold is_multicast_sta. intros H%Nat.leb_gt. done. Qed.

Lemma remote_max b : (NX_REMOTE_STA_MAX b <= 32)%nat.
Proof. destruct b; vm_compute; lia. Qed.

Lemma queue_mapping prio : (tid_of prio < 8 \/ NX_NB_TXQ_PER_STA <= tid_of prio)%nat ->
  netdev_queue s (rwnx_txq_sta_get (old s) a (tid_of prio)) = Ok (mapping_of prio).
Proof.
  intros Hp. destruct (k_queues Hk (tid_of prio)) as (t & Ht & Hact). unfold netdev_queue.
  rewrite (proj2 (get_txq_Ok (hw s) _ t) Ht). cbn [mbind res_bind].
  destruct (station_queue (hw s) j a (tid_of prio) t) as [_ Hn];
    [apply (i_env _ (x_queues _ _ Hx)) | apply Hx.. | apply Hk | done | done |].
  cbn zeta in Hn. fold (old s) in Hn. rewrite Hn. unfold mapping_of. pose proof (remote_max (old s)).
  destruct (is_multicast_sta (old s) j) eqn:Hm.
  - unfold NX_BCMC_TXQ_NDEV_IDX, NX_NB_TID_PER_STA, NX_NB_NDEV_TXQ. rewrite (proj2 (Nat.ltb_lt _ _)); [done | lia].
  - pose proof (station_range Hm). set (t0 := if (NX_NB_TXQ_PER_STA <=? tid_of prio)%nat then 0%nat else tid_of prio).
    assert (Ht0 : (t0 < 8)%nat).
    { unfold t0. unfold NX_NB_TXQ_PER_STA in *. destruct (Nat.leb_spec 9 (tid_of prio)); lia. }
    unfold NX_NB_TID_PER_STA at 1. rewrite (proj2 (Nat.ltb_lt t0 8)) by done.
    unfold NX_STA_NDEV_IDX, NX_NB_TID_PER_STA, NX_NB_NDEV_TXQ. rewrite (proj2 (Nat.ltb_lt _ _)); [done | lia].
Qed.

(** The choice only touches priority and mapping. *)
Definition chosen (f' : frame) : Prop :=
  exists prio, f' = f <| f_priority := prio |> <| f_mapping := Z.of_nat (mapping_of prio) |> /\
    if qos p then 0 <= prio < 8 else prio = 0xFF.

Lemma qos_frame_ok : exists prio, qos_frame classify a p false f = Ok (f <| f_priority := prio |>) /\ 0 <= prio < 8.
Proof.
  unfold qos_frame. set (c := Z.land _ TAG1D_MASK).
  assert (Hc : 0 <= c < 8).
  { unfold c, TAG1D_MASK. change 7 with (Z.ones 3). rewrite Z.land_ones by lia. apply Z.mod_pos_bound. lia. }
  cbn [f_priority upd]. destruct (negb (acm p =? 0)); [| by exists c].
  destruct (downgrade_spec (acm p) c Hc) as (q & -> & Hq & _). exists q. done.
Qed.

Lemma select_ok : exists f', rwnx_select_queue classify s i f = Ok (f', xe) /\ chosen f'.
Proof.
  pose proof (remote_max (old s)) as Hr. unfold rwnx_select_queue, rwnx_select_txq.
  rewrite (k_vif Hk), (k_eth Hk). cbn [mbind res_bind]. rewrite (k_sel Hk). cbn [mbind res_bind fst snd].
  rewrite (proj2 (get_sta_Ok (hw s) j a) (k_sta Hk)). unfold get_peer. rewrite (k_peer Hk), (k_data Hk). cbn [mbind res_bind].
  destruct (qos p) eqn:Hq.
  - destruct qos_frame_ok as (prio & -> & Hp). cbn [mbind res_bind f_priority upd].
    assert (Ht : (tid_of prio < 8)%nat) by (unfold tid_of; rewrite u8_id by lia; lia).
    rewrite queue_mapping by (by left). cbn [mbind res_bind]. eexists. split; [done |]. exists prio. by rewrite Hq.
  - change 0%nat with (if (NX_NB_TXQ_PER_STA <=? tid_of 0xFF)%nat then 0%nat else tid_of 0xFF).
    assert (E : rwnx_txq_sta_get (old s) a (if (NX_NB_TXQ_PER_STA <=? tid_of 0xFF)%nat then 0%nat else tid_of 0xFF) =
                rwnx_txq_sta_get (old s) a (tid_of 0xFF)) by done.
    rewrite E, queue_mapping by (right; vm_compute; lia). cbn [mbind res_bind]. eexists. split; [done |]. exists 0xFF. by rewrite Hq.
Qed.

(** ** What the driver reads back *)

Lemma reread prio f' : f_priority f' <> PRIO_STA_NULL -> (tid_of prio < 8 \/ NX_NB_TXQ_PER_STA <= tid_of prio)%nat ->
  f_mapping f' = Z.of_nat (mapping_of prio) -> rwnx_get_tx_priv s v f' = Ok (Some j, tid_of (f_priority f')).
Proof.
  intros Hn Ht Hm. unfold rwnx_get_tx_priv. rewrite (proj2 (Z.eqb_neq _ _) Hn), Hm. unfold mapping_of.
  destruct (is_multicast_sta (old s) j) eqn:Hmc.
  - rewrite Z.eqb_refl, (k_master Hk). cbn [mbind res_bind]. rewrite <- (k_group Hk Hmc).
    by rewrite (proj2 (get_sta_Ok (hw s) j a) (k_sta Hk)).
  - pose proof (station_range Hmc). set (t0 := if (NX_NB_TXQ_PER_STA <=? tid_of prio)%nat then 0%nat else tid_of prio).
    assert (Ht0 : (t0 < 8)%nat).
    { unfold t0. unfold NX_NB_TXQ_PER_STA in *. destruct (Nat.leb_spec 9 (tid_of prio)); lia. }
    unfold NX_STA_NDEV_IDX, NX_BCMC_TXQ_NDEV_IDX, NX_NB_TID_PER_STA. rewrite (proj2 (Z.eqb_neq _ _)) by lia. cbn [mbind res_bind].
    replace (Z.to_nat (Z.of_nat (t0 + j * 8) / Z.of_nat 8)) with j.
    2: { rewrite <- Nat2Z.inj_div, Nat2Z.id. symmetry. rewrite Nat.div_add by lia. by rewrite Nat.div_small by lia. }
    by rewrite (proj2 (get_sta_Ok (hw s) j a) (k_sta Hk)).
Qed.

(** ** The header *)

Lemma pads_range x : 0 <= RWNX_SWTXHDR_ALIGN_PADS x < 4.
Proof.
  unfold RWNX_SWTXHDR_ALIGN_PADS. generalize (4 - Z.land x 3). intros y.
  change 3 with (Z.ones 2). rewrite Z.land_ones by lia. apply Z.mod_pos_bound. lia.
Qed.

(** The frame behind the header that is put in front of its payload. *)
Definition headed (g : frame) : res frame :=
  let g := skb_pull g ETH_HLEN in
  skb_push g (SIZEOF_TXHDR + Z.to_nat (RWNX_SWTXHDR_ALIGN_PADS (f_addr g)))%nat.

(** The Ethernet header and the padding leave room for it. *)
Lemma header_fits g : (ETH_HLEN < length (f_data g))%nat -> (SIZEOF_TXHDR <= length (f_room g))%nat ->
  exists g', headed g = Ok g' /\ f_id g' = f_id g /\
    exists h, f_data g' = h ++ drop ETH_HLEN (f_data g) /\
      length h = (SIZEOF_TXHDR + Z.to_nat (RWNX_SWTXHDR_ALIGN_PADS (f_addr g + 14)))%nat.
Proof.
  intros Hd Hr. unfold headed, skb_pull. rewrite (proj2 (Nat.leb_le _ _)) by lia. cbn [f_addr f_room f_data f_id upd].
  pose proof (pads_range (f_addr g + Z.of_nat ETH_HLEN)) as Hpad. unfold skb_push. cbn [f_room upd].
  rewrite length_app, length_take. rewrite (proj2 (Nat.leb_le _ _)) by (unfold ETH_HLEN in *; lia).
  eexists. split; [reflexivity |]. split; [done |]. cbn [f_data upd]. eexists. split; [reflexivity |].
  rewrite length_drop, length_app, length_take. unfold ETH_HLEN in *. change (Z.of_nat 14) with 14 in *. lia.
Qed.

(** A frame whose station is read back enters that station's queue. *)
Lemma frame_enters g tid : eth_hdr (f_data g) = Ok e -> rwnx_get_tx_priv s v g = Ok (Some j, tid) ->
  (ETH_HLEN < length (f_data g))%nat -> (SIZEOF_TXHDR <= length (f_room g))%nat ->
  exists s' ev, xmit_frame s i g true = Ok (s', queued ev) /\
    Txq.xmit (hw s) (Skb (f_id g) (rwnx_txq_sta_get (old s) a tid) (Some j)) = Ok (hw s', ev).
Proof.
  intros He Hg Hd Hr. unfold xmit_frame. rewrite (k_vif Hk), He. cbn [mbind res_bind]. rewrite Hg. cbn [mbind res_bind fst snd].
  rewrite (proj2 (get_sta_Ok (hw s) j a) (k_sta Hk)). cbn [mbind res_bind].
  destruct (k_queues Hk tid) as (t & Ht & Hact). rewrite (proj2 (get_txq_Ok (hw s) _ t) Ht). cbn [mbind res_bind].
  rewrite Hact. cbn [negb]. destruct (header_fits g Hd Hr) as (g' & Hh & Hid & _). unfold headed in Hh. rewrite Hh.
  cbn [mbind res_bind negb]. rewrite (k_master Hk). cbn [mbind res_bind]. rewrite (k_tdls Hk). cbn [mbind res_bind].
  destruct (note_tid_same s v td tid) as (E1 & _). rewrite E1, Hid.
  destruct (station_queue (hw s) j a tid t) as [Hs _];
    [apply (i_env _ (x_queues _ _ Hx)) | apply Hx.. | apply Hk | done | done |].
  destruct (xmit_ok (hw s) (Skb (f_id g) (rwnx_txq_sta_get (old s) a tid) (Some j)) (x_queues _ _ Hx)) as (h' & ev & Hq & _);
    [by exists t |].
  change (negb (rwnx_prep_tx =? 0)) with false. cbn iota. fold (old s). rewrite Hq. cbn [mbind res_bind fst snd].
  eexists _, ev. split; [reflexivity |]. done.
Qed.

(** ** Frames the filter does not look at *)

Definition long (g : frame) : Prop := TcpAck.MAX_TCP_ACK < u16 (Z.of_nat (length (f_data g))).

Lemma stage_long g o : long g -> ack_stage mtj s i g o = Ok (s, [], true).
Proof.
  intros Hl. unfold ack_stage, TcpAck.xmit_filter. unfold long in Hl. rewrite (proj2 (Z.leb_gt _ _)) by done.
  cbn [mbind res_bind]. assert (E : s <| ack := ack s |> = s) by by destruct s. rewrite E.
  by destruct (o_msg o).
Qed.

(** The frame as chosen, in a buffer the driver may write to. *)
Lemma writable_enters f' g o : chosen f' -> f_data g = f_data f -> f_priority g = f_priority f' ->
  f_mapping g = f_mapping f' -> long g -> o_hdr o = true ->
  (ETH_HLEN < length (f_data g))%nat -> (SIZEOF_TXHDR <= length (f_room g))%nat ->
  exists s' ev, xmit_writable mtj s i g o = Ok (s', queued ev) /\
    Txq.xmit (hw s) (Skb (f_id g) (rwnx_txq_sta_get (old s) a (tid_of (f_priority (best_effort f')))) (Some j)) =
      Ok (hw s', ev).
Proof.
  intros (prio & Hc & Hp) Hd Hgp Hgm Hl Ho Hlen Hr. rewrite Hc in Hgp, Hgm. cbn [f_priority f_mapping upd] in Hgp, Hgm.
  assert (Hprio : f_priority (best_effort f') = f_priority (best_effort g) /\
    f_priority (best_effort g) <> PRIO_STA_NULL /\ (tid_of prio < 8 \/ NX_NB_TXQ_PER_STA <= tid_of prio)%nat).
  { unfold best_effort. rewrite Hgp, Hc. cbn [f_priority upd]. unfold PRIO_STA_NULL. split_and!.
    - by destruct (prio <? 3); cbn [f_priority upd].
    - destruct (qos p); destruct (Z.ltb_spec prio 3); cbn [f_priority upd]; lia.
    - unfold tid_of. destruct (qos p); [left; rewrite u8_id by lia; lia | right; rewrite Hp; vm_compute; lia]. }
  destruct Hprio as (-> & Hn & Ht).
  assert (Hsame : f_data (best_effort g) = f_data g /\ f_room (best_effort g) = f_room g /\
    f_mapping (best_effort g) = f_mapping g /\ f_id (best_effort g) = f_id g) by (unfold best_effort; by destruct (f_priority g <? 3)).
  destruct Hsame as (Ed & Er & Em & Ei).
  assert (Htx : rwnx_get_tx_priv s v (best_effort g) = Ok (Some j, tid_of (f_priority (best_effort g)))).
  { apply (reread prio); [done.. |]. by rewrite Em. }
  destruct (frame_enters (best_effort g) (tid_of (f_priority (best_effort g)))) as (s' & ev & Hf & Hq);
    [rewrite Ed, Hd; apply Hk | done | by rewrite Ed | by rewrite Er |].
  unfold xmit_writable. rewrite stage_long by (unfold long; by rewrite Ed). cbn [mbind res_bind]. rewrite Ho, Hf.
  cbn [mbind res_bind fst snd app]. exists s', ev. rewrite <- Ei. done.
Qed.

End Send.

(** The buffer that travels: the frame itself, or its private copy. *)
Definition sent_id (v : netif) (f : frame) (o : oracle) : nat :=
  if unusable v f then match o_copy o with Some (id, _) => id | None => f_id f end else f_id f.
Definition copy_events (v : netif) (f : frame) (o : oracle) : list xev :=
  if unusable v f then [XAlloc (sent_id v f o); XFree (f_id f)] else [].

Lemma long_sent pol mtj classify s i v f e xe j a p m td o :
  xinv pol s -> known s i v f e xe j a p m td -> (ETH_HLEN < length (f_data f))%nat -> long f ->
  o_hdr o = true -> (unusable v f = true -> is_Some (o_copy o)) ->
  exists f' s' ev,
    rwnx_select_queue classify s i f = Ok (f', xe) /\
    rwnx_start_xmit mtj s i f' o = Ok (s', copy_events v f o ++ queued ev) /\
    Txq.xmit (hw s) (Skb (sent_id v f o)
      (rwnx_txq_sta_get (old s) a (tid_of (f_priority (best_effort f')))) (Some j)) = Ok (hw s', ev) /\
    chosen s f j p f'.
Proof.
  intros Hx Hk Hlen Hl Ho Hcopy.
  destruct (select_ok pol classify s i v f e xe j a p m td Hx Hk) as (f' & Hs & Hc). exists f'.
  assert (Hsame : f_data f' = f_data f /\ f_room f' = f_room f /\ f_id f' = f_id f /\ unusable v f' = unusable v f).
  { destruct Hc as (prio & -> & _). by split_and!. }
  destruct Hsame as (Ed & Er & Ei & Eu). unfold rwnx_start_xmit, sent_id, copy_events.
  rewrite (k_vif _ _ _ _ _ _ _ _ _ _ _ Hk). cbn [mbind res_bind]. rewrite Ed, (proj2 (Nat.leb_gt _ _)), Eu, Ei by done.
  destruct (unusable v f) eqn:Hu.
  - destruct (Hcopy eq_refl) as [[id addr] Hid]. unfold sent_id. rewrite Hid, Hu. cbn iota.
    destruct (writable_enters pol mtj s i v f e xe j a p m td Hx Hk f' (skb_copy_expand f' SIZEOF_TXHDR id addr) o)
      as (s' & ev & Hw & Hq); try done.
    { unfold long. cbn. by rewrite Ed. }
    { cbn. by rewrite Ed. }
    rewrite Hw. cbn [mbind res_bind fst snd]. by exists s', ev.
  - destruct (writable_enters pol mtj s i v f e xe j a p m td Hx Hk f' f' o) as (s' & ev & Hw & Hq); try done.
    { unfold long. by rewrite Ed. }
    { by rewrite Ed. }
    { rewrite Er. unfold unusable in Hu. apply orb_false_iff in Hu as [Hu _]. apply orb_false_iff in Hu as [_ Hu].
      by apply Nat.ltb_ge in Hu. }
    exists s', ev. rewrite Ei in Hq. done.
Qed.


(** C7. In every state a run reaches, a frame too long for the ACK filter and addressed
    to a station whose queues are set up, other than a management frame of TDLS, passes,
    if its header and the copy it may need can be allocated, queue selection and
    transmission without a fault, and does to the queues exactly what transmitting it on
    the queue of that station and of its clamped priority does: what the driver reads
    back is what was chosen. *)
Theorem long_frame_queued pol mtj classify robust old tab ps ns now fs ev0 s i v f e xe j a p m td o :
  Forall (fresh old) tab -> table_ok old (ids <$> tab) ->
  xrun pol mtj robust (xstart mtj old tab ps ns now) fs ev0 s ->
  known s i v f e xe j a p m td -> (ETH_HLEN < length (f_data f))%nat -> long f ->
  o_hdr o = true -> (unusable v f = true -> is_Some (o_copy o)) ->
  exists f' s' ev,
    rwnx_select_queue classify s i f = Ok (f', xe) /\
    rwnx_start_xmit mtj s i f' o = Ok (s', copy_events v f o ++ queued ev) /\
    Txq.xmit (hw s) (Skb (sent_id v f o)
      (rwnx_txq_sta_get (Xmit.old s) a (tid_of (f_priority (best_effort f')))) (Some j)) = Ok (hw s', ev).
Proof.
  intros Hf Ht Hr Hk Hlen Hl Ho Hcopy.
  destruct (xmit_run_accounts pol mtj robust _ _ _ _ (xmit_start_inv pol mtj old tab ps ns now Hf Ht) Hr) as [Hx _].
  destruct (long_sent pol mtj classify s i v f e xe j a p m td o Hx Hk Hlen Hl Ho Hcopy) as (f' & s' & ev & H1 & H2 & H3 & _).
  by exists f', s', ev.
Qed.

(** C40. A unicast QoS frame longer than the ACK filter looks at, with priority 1 or 2
    after queue selection (background, by classification or downgraded under admission
    control) is mapped to the network queue of its priority but, if what it needs can be
    allocated, queued for TID 0, in a queue that stops and wakes another network queue.
    *)
Theorem background_sent_as_best_effort pol mtj classify robust old tab ps ns now fs ev0 s i v f e xe j a p m td o f' :
  Forall (fresh old) tab -> table_ok old (ids <$> tab) ->
  xrun pol mtj robust (xstart mtj old tab ps ns now) fs ev0 s ->
  known s i v f e xe j a p m td -> (ETH_HLEN < length (f_data f))%nat -> long f ->
  o_hdr o = true -> (unusable v f = true -> is_Some (o_copy o)) ->
  is_multicast_sta (Xmit.old s) j = false -> qos p = true ->
  rwnx_select_queue classify s i f = Ok (f', xe) -> f_priority f' = 1 \/ f_priority f' = 2 ->
  let k := rwnx_txq_sta_get (Xmit.old s) a 0 in
  f_mapping f' = Z.of_nat (NX_STA_NDEV_IDX (Z.to_nat (f_priority f')) j) /\
  (exists t, txqs (hw s) !! k = Some t /\ ndev_idx t = Some (NX_STA_NDEV_IDX 0 j)) /\
  (exists s' ev, rwnx_start_xmit mtj s i f' o = Ok (s', copy_events v f o ++ queued ev) /\
    Txq.xmit (hw s) (Skb (sent_id v f o) k (Some j)) = Ok (hw s', ev)) /\
  (Z.testbit (acm p) 1 = true -> Z.testbit (acm p) 0 = false -> rwnx_downgrade_ac (acm p) 0 = Ok 2).
Proof.
  intros Hf Ht Hr Hk Hlen Hl Ho Hcopy Hm Hq Hs Hp k.
  destruct (xmit_run_accounts pol mtj robust _ _ _ _ (xmit_start_inv pol mtj old tab ps ns now Hf Ht) Hr) as [Hx _].
  destruct (long_sent pol mtj classify s i v f e xe j a p m td o Hx Hk Hlen Hl Ho Hcopy)
    as (f1 & s' & ev & H1 & H2 & H3 & prio & Hc & Hr1).
  rewrite Hs in H1. injection H1 as <-. assert (Hpr : f_priority f' = prio) by by rewrite Hc.
  assert (Hbe : tid_of (f_priority (best_effort f')) = 0%nat).
  { unfold best_effort. rewrite (proj2 (Z.ltb_lt _ _)) by lia. done. }
  rewrite Hbe in H3. split_and!.
  - rewrite Hpr, Hc. cbn [f_mapping upd]. unfold mapping_of. rewrite Hm. rewrite <- Hpr.
    by destruct Hp as [-> | ->].
  - destruct (k_queues _ _ _ _ _ _ _ _ _ _ _ Hk 0%nat) as (t & Ht0 & Hact). exists t. split; [done |].
    destruct (station_queue (hw s) j a 0 t) as [_ Hn];
      [apply (i_env _ (x_queues _ _ Hx)) | apply Hx.. | apply Hk | done | done |].
    cbn zeta in Hn. fold (Xmit.old s) in Hn. by rewrite Hm in Hn.
  - by exists s', ev.
  - intros B1 B0. change (Ok (if Z.testbit (acm p) 1 then if Z.testbit (acm p) 0 then 1 else 2 else 0) = Ok 2). by rewrite B1, B0.
Qed.

(** A TDLS management frame through an access point without QoS keeps the
    mapping it came with, and is taken for a frame of the station of that. *)
Lemma tdls_frame_to_first_station classify s i v f e j a p f' n xe a0 :
  get_netif s i = Ok v -> eth_hdr (f_data f) = Ok e -> select_sta s i v e = Ok (Some j, xe) ->
  stas (hw s) !! j = Some a -> peers s !! j = Some p -> qos p = false -> f_mapping f = 0 ->
  stas (hw s) !! 0%nat = Some a0 -> rwnx_select_txq classify s i f = Ok (f', n, xe) ->
  rwnx_get_tx_priv s v f' = Ok (Some 0%nat, 255%nat).
Proof.
  intros Hv He Hs Ha Hp Hq Hm H0 H. unfold rwnx_select_txq in H. rewrite Hv, He in H. cbn [mbind res_bind] in H.
  rewrite Hs in H. cbn [mbind res_bind fst snd] in H. rewrite (proj2 (get_sta_Ok _ _ _) Ha) in H.
  unfold get_peer in H. rewrite Hp in H. cbn [mbind res_bind] in H. rewrite Hq in H.
  apply bind_Ok in H as (k & _ & [= <- _]). unfold rwnx_get_tx_priv. cbn [f_priority f_mapping upd].
  change (0xFF =? PRIO_STA_NULL) with false. cbn iota. rewrite Hm, (proj2 (Z.eqb_neq _ _)) by (destruct (old s); vm_compute; lia).
  cbn [mbind res_bind]. change (Z.to_nat (0 / Z.of_nat NX_NB_TID_PER_STA)) with 0%nat.
  by rewrite (proj2 (get_sta_Ok _ _ _) H0).
Qed.

(** ** Putting a frame together again *)

(** The frame a software header stands for: the Ethernet header from the
    descriptor, the payload from behind the transmit header. *)
Definition restored (h : sw_txhdr) : list Z :=
  let d := h_desc h in
  eth_dest_addr d ++ eth_src_addr d ++ [ethertype d mod 256; ethertype d / 256] ++
  drop (Z.to_nat (h_headroom h)) (f_data (h_skb h)).

Lemma eth_hdr_split buf e : is_bytes buf -> eth_hdr buf = Ok e -> (ETH_HLEN <= length buf)%nat /\
  h_dest e ++ h_source e ++ [h_proto e mod 256; h_proto e / 256] ++ drop ETH_HLEN buf = buf.
Proof.
  intros Hb H. unfold eth_hdr, rd_le16 in H. apply bind_Ok in H as (q & Hq & [= <-]).
  apply bind_Ok in Hq as (x & Hx & Hq). apply bind_Ok in Hq as (y & Hy & [= <-]).
  pose proof (rd_byte _ _ _ Hb Hx) as Bx. pose proof (rd_byte _ _ _ Hb Hy) as By. unfold is_byte in *.
  apply rd_Ok in Hx as [_ Hx]. apply rd_Ok in Hy as [_ Hy]. change (Z.to_nat 12) with 12%nat in Hx.
  change (Z.to_nat (12 + 1)) with 13%nat in Hy. pose proof (lookup_lt_Some _ _ _ Hy) as Hl. split; [unfold ETH_HLEN; lia |].
  cbn [h_dest h_source h_proto]. change (2 ^ 8) with 256.
  replace ((x + 256 * y) mod 256) with x by (rewrite Z.mul_comm, Z.mod_add by lia; symmetry; apply Z.mod_small; lia).
  replace ((x + 256 * y) / 256) with y by (rewrite Z.mul_comm, Z.div_add, Z.div_small by lia; lia).
  unfold ETH_HLEN. trans (take 6 buf ++ drop 6 buf); [| apply take_drop]. f_equal.
  trans (take 6 (drop 6 buf) ++ drop 6 (drop 6 buf)); [| apply take_drop]. f_equal.
  rewrite drop_drop. change (6 + 6)%nat with 12%nat. rewrite (drop_S buf x 12) by done. by rewrite (drop_S buf y 13).
Qed.

Lemma headed_spec g g' : headed g = Ok g' -> (ETH_HLEN <= length (f_data g))%nat ->
  let pads := RWNX_SWTXHDR_ALIGN_PADS (f_addr g + 14) in
  exists h, f_data g' = h ++ drop ETH_HLEN (f_data g) /\ Z.of_nat (length h) = 88 + pads /\
    f_addr g' = f_addr g + 14 - (88 + pads).
Proof.
  intros H Hl. unfold headed, skb_pull in H. rewrite (proj2 (Nat.leb_le _ _)) in H by done.
  cbn [f_addr f_room f_data f_id upd] in H. unfold skb_push in H. cbn [f_room upd] in H.
  change (Z.of_nat ETH_HLEN) with 14 in H. pose proof (pads_range (f_addr g + 14)) as Hp.
  destruct (Nat.leb_spec (SIZEOF_TXHDR + Z.to_nat (RWNX_SWTXHDR_ALIGN_PADS (f_addr g + 14)))
    (length (f_room g ++ take ETH_HLEN (f_data g)))) as [Hle |]; [| done]. injection H as <-.
  cbn [f_data f_addr upd]. eexists. split_and!; [reflexivity | |].
  - rewrite length_drop. unfold SIZEOF_TXHDR in *. lia.
  - unfold SIZEOF_TXHDR. lia.
Qed.

Lemma pads_even x : Z.even x = true -> (x - RWNX_SWTXHDR_ALIGN_PADS x) mod 4 = 0.
Proof.
  intros He. unfold RWNX_SWTXHDR_ALIGN_PADS. change 3 with (Z.ones 2). rewrite !Z.land_ones by lia. change (2 ^ 2) with 4.
  apply Z.even_spec in He as [y ->]. pose proof (Z.div_mod y 2 ltac:(lia)) as E. pose proof (Z.mod_pos_bound y 2 ltac:(lia)).
  assert (E4 : (2 * y) mod 4 = 2 * (y mod 2)) by (change 4 with (2 * 2); by rewrite Z.mul_mod_distr_l by lia).
  rewrite Zminus_mod, E4. assert (Hy : y mod 2 = 0 \/ y mod 2 = 1) by lia. destruct Hy as [-> | ->]; reflexivity.
Qed.

(** C8. A frame is freed without effect, or gets a software header from which it can be
    put together again byte by byte, with the length of its payload in the descriptor
    and, when its address was even, with the transmit header aligned. *)
Theorem frame_kept s i g ok s' ev :
  is_bytes (f_data g) -> xmit_frame s i g ok = Ok (s', ev) ->
  (s' = s /\ ev = [XFree (f_id g)]) \/
  exists h, hdrs s' = <[f_id g := h]> (hdrs s) /\ restored h = f_data g /\
    packet_len (h_desc h) = u16 (Z.of_nat (length (f_data g)) - 14) /\
    (Z.even (f_addr g) = true -> f_addr (h_skb h) mod 4 = 0).
Proof.
  intros Hb H. unfold xmit_frame in H. apply bind_Ok in H as (v & Hv & H). apply bind_Ok in H as (e & He & H).
  destruct (eth_hdr_split _ _ Hb He) as [Hl Hsplit].
  apply bind_Ok in H as ([st tid] & Hp & H). cbn [fst snd] in H. destruct st as [j|]; [| injection H as <- <-; by left].
  apply bind_Ok in H as (a & Ha & H). apply bind_Ok in H as (t & Ht & H).
  destruct (active t); cbn [negb] in H; [| injection H as <- <-; by left].
  apply bind_Ok in H as (g1 & Hg & H). assert (Hid : f_id g1 = f_id g) by (apply skb_push_id in Hg; by rewrite skb_pull_id in Hg).
  destruct (headed_spec g g1 Hg Hl) as (hd & Hd & Hn & Hadr). rewrite Hid in H.
  assert (Hpull : f_addr (skb_pull g ETH_HLEN) = f_addr g + 14) by (unfold skb_pull; by rewrite (proj2 (Nat.leb_le _ _))).
  rewrite Hpull in H. set (pads := RWNX_SWTXHDR_ALIGN_PADS (f_addr g + 14)) in *.
  pose proof (pads_range (f_addr g + 14)) as Hpr. fold pads in Hpr.
  destruct ok; cbn [negb] in H; [| injection H as <- <-; by left]. right.
  apply bind_Ok in H as (m & _ & H). apply bind_Ok in H as (td & _ & H). apply bind_Ok in H as (q & Hq & [= <- <-]).
  eexists. split; [cbn [hdrs upd]; unfold note_tid; by repeat case_match |]. split_and!.
  - unfold restored. cbn [h_desc h_headroom h_skb eth_dest_addr eth_src_addr ethertype data_desc].
    by rewrite Hd, drop_app_length' by lia.
  - cbn [h_desc packet_len data_desc]. rewrite Hd, length_app, length_drop. unfold SIZEOF_TXHDR, ETH_HLEN in *.
    unfold u16. rewrite Zminus_mod_idemp_l. f_equal. lia.
  - intros Hev. cbn [h_skb]. rewrite Hadr. replace (f_addr g + 14 - (88 + pads)) with (f_addr g + 14 - pads + (-22) * 4) by lia.
    rewrite Z.mod_add by lia. apply pads_even. rewrite Z.even_add, Hev. done.
Qed.

(** An odd address ends up two bytes off. *)
Lemma odd_address_misaligned x : Z.odd x = true -> (x - RWNX_SWTXHDR_ALIGN_PADS x) mod 4 = 2.
Proof.
  intros Ho. unfold RWNX_SWTXHDR_ALIGN_PADS. change 3 with (Z.ones 2). rewrite !Z.land_ones by lia. change (2 ^ 2) with 4.
  apply Z.odd_spec in Ho as [y ->]. assert (E : (2 * y + 1) mod 4 = 1 \/ (2 * y + 1) mod 4 = 3).
  { pose proof (Z.div_mod (2 * y + 1) 4 ltac:(lia)). pose proof (Z.mod_pos_bound (2 * y + 1) 4 ltac:(lia)). lia. }
  rewrite Zminus_mod. destruct E as [-> | ->]; reflexivity.
Qed.

(** ** A station at work

    The driver of a new chip with one station interface, connected to an
    access point with QoS, sends a long frame, a frame that is too short, and
    three acknowledgements of one flow. *)

Module Example.

Definition tab : list rwnx_sta := (fun j => StaT j (j - 32) 0 false 0 0 0 0) <$> seq 0 36.
Definition ap_mac : list Z := [2; 0; 0; 0; 0; 1].
Definition ps : list peer := Peer ap_mac true 0 0 :: replicate 35 (Peer [] false 0 0).
Definition vif : netif :=
  Netif STATION 0 false false false None (Some 0%nat) None 0 32 [] false [2; 0; 0; 0; 0; 9] [] [].
Definition mtj (ms : Z) : Z := ms / 4.
Definition no_robust (b : list Z) : bool := false.

Lemma tab_fresh : Forall (fresh false) tab.
Proof.
  apply Forall_fmap, Forall_forall. intros j Hj%elem_of_seq. split; [done | |].
  - unfold sta_ok. cbn. lia.
  - intros _. cbn. unfold NX_VIRT_DEV_MAX. lia.
Qed.

Lemma tab_ok : table_ok false (ids <$> tab).
Proof.
  intros j d H. unfold tab in H. rewrite <- list_fmap_compose in H. apply list_lookup_fmap_Some in H as (k & -> & Hk).
  apply lookup_seq in Hk as [-> _]. done.
Qed.

Definition ip_frame (id n : nat) : frame :=
  Frame id (replicate 90 0) (ap_mac ++ [2; 0; 0; 0; 0; 9] ++ [8; 0] ++ replicate n 0) 4096 false false 0 0.
Definition tcp_frame (id : nat) (sq : Z) : frame :=
  Frame id (replicate 90 0) (TcpAck.ack_frame sq) 4096 false false 0 0.

Definition start : xmit_st := xstart mtj false tab ps [Some vif] 0.
Definition ok_st {A} (m : res (xmit_st * A)) (d : xmit_st) : xmit_st := match m with Ok r => r.1 | _ => d end.
Definition ok_ev (m : res (xmit_st * list xev)) : list xev := match m with Ok r => r.2 | _ => [] end.

(** The queues of the access point are set up. *)
Definition joined : xmit_st :=
  start <| hw := match step (hw start) (OStaInit 0 0) with Ok r => r.1 | _ => hw start end |>.

Definition sends : list (frame * oracle) :=
  [(ip_frame 1 300, Oracle 1 None None true); (ip_frame 2 0, Oracle 1 None None true);
   (tcp_frame 3 1000, Oracle 1 None (Some 1%positive) true); (tcp_frame 4 2000, Oracle 2 None (Some 2%positive) true);
   (tcp_frame 5 3000, Oracle 3 None (Some 3%positive) true)].

Definition unused (s : xmit_st) (o : option positive) : bool :=
  match o with Some m => match msgs s !! m with Some _ => false | None => true end | None => true end.

Fixpoint send_all (s : xmit_st) (l : list (frame * oracle)) : res (xmit_st * list xev) :=
  match l with
  | [] => Ok (s, [])
  | (f, o) :: l =>
      if unused s (o_msg o) then
        r ← rwnx_start_xmit mtj s 0 f o; r' ← send_all r.1 l; Ok (r'.1, r.2 ++ r'.2)
      else Fault
  end.

Definition done_st : xmit_st := ok_st (send_all joined sends) joined.
Definition done_ev : list xev := ok_ev (send_all joined sends).

Lemma joined_run : xrun true mtj no_robust start [] [] joined.
Proof.
  change (@nil frame) with (@nil frame ++ []). change (@nil xev) with (@nil xev ++ queued []).
  eapply xrun_step; [constructor |]. unfold joined. eapply (x_queue _ _ _ start (OStaInit 0 0)).
  - done.
  - split; [eexists; split; [vm_compute; reflexivity |] | split; [unfold is_byte; lia | vm_compute; reflexivity]].
    vm_compute. repeat constructor; eexists; split; vm_compute; reflexivity.
  - vm_compute. reflexivity.
Qed.

(** One send after the other. *)
Lemma send_run l : forall s fs ev s' e, xrun true mtj no_robust start fs ev s -> send_all s l = Ok (s', e) ->
  xrun true mtj no_robust start (fs ++ l.*1) (ev ++ e) s'.
Proof.
  induction l as [|[f o] l IH]; intros s fs ev s' e Hr H; cbn [send_all] in H.
  - injection H as <- <-. by rewrite !app_nil_r.
  - destruct (unused s (o_msg o)) eqn:Hu; [| done]. apply bind_Ok in H as ([s1 e1] & H1 & H).
    apply bind_Ok in H as ([s2 e2] & H2 & [= <- <-]). cbn [fst snd fmap list_fmap] in *. rewrite cons_middle, !app_assoc.
    eapply IH; [| done]. eapply xrun_step; [done |]. eapply x_send; [| done]. intros m E. rewrite E in Hu. cbn in Hu.
    by destruct (msgs s !! m).
Qed.

Lemma joined_send l s ev : send_all joined l = Ok (s, ev) -> xrun true mtj no_robust start l.*1 ev s.
Proof. exact (send_run l joined [] [] s ev joined_run). Qed.

Lemma done_eq : send_all joined sends = Ok (done_st, done_ev).
Proof. vm_compute. reflexivity. Qed.

Lemma done_run : xrun true mtj no_robust start sends.*1 done_ev done_st.
Proof. exact (joined_send sends done_st done_ev done_eq). Qed.

(** Three frames are sent, one is held by the filter, the short one is lost. *)
Lemma frames_accounted_witness :
  [1; 2; 3; 4; 5]%nat ≡ₚ gone done_ev ++ in_msgs done_st ++ [2]%nat /\ gone done_ev = [1; 3; 4]%nat /\
  in_msgs done_st = [5]%nat.
Proof.
  destruct (frames_accounted true mtj no_robust false tab ps [Some vif] 0 sends.*1 done_ev done_st tab_fresh tab_ok done_run)
    as [H _].
  assert (E6 : gone done_ev = [1; 3; 4]%nat) by (vm_compute; reflexivity).
  assert (E7 : in_msgs done_st = [5]%nat) by (vm_compute; reflexivity).
  assert (E1 : made done_ev = []) by (vm_compute; reflexivity).
  assert (E2 : freed done_ev = []) by (vm_compute; reflexivity).
  assert (E3 : in_queues (hw done_st) = []) by (vm_compute; reflexivity).
  assert (E4 : f_id <$> sends.*1 = [1; 2; 3; 4; 5]%nat) by (vm_compute; reflexivity).
  assert (E5 : f_id <$> filter (fun f => short f = true) sends.*1 = [2]%nat) by (vm_compute; reflexivity).
  rewrite E1, E2, E3, E4, E5, E6, E7 in H. rewrite E6, E7. split_and!; [exact H | reflexivity..].
Defined.

Definition long_frame : frame := ip_frame 6 300.
Definition long_eth : ethhdr := EthHdr ap_mac [2; 0; 0; 0; 0; 9] 8.
Definition sta0 : rwnx_sta := StaT 0 0 0 false 0 0 0 0.

Lemma long_known : known done_st 0 vif long_frame long_eth [] 0 sta0 (Peer ap_mac true 0 0) 0 false.
Proof.
  split; [reflexivity | vm_compute; reflexivity.. | | vm_compute; reflexivity | vm_compute; reflexivity
         | vm_compute; reflexivity |].
  - intros H. vm_compute in H. discriminate.
  - intros tid. unfold rwnx_txq_sta_get. destruct (NX_NB_TXQ_PER_STA <=? tid)%nat eqn:E.
    + eexists. split; vm_compute; reflexivity.
    + apply Nat.leb_gt in E. unfold NX_NB_TXQ_PER_STA in E.
      do 9 (destruct tid as [|tid]; [eexists; split; vm_compute; reflexivity |]). lia.
Qed.

Definition up (n : Z) (f : frame) : Z := n.

Lemma long_frame_queued_witness : exists f' s' ev,
  rwnx_select_queue (up 6) done_st 0 long_frame = Ok (f', []) /\
  rwnx_start_xmit mtj done_st 0 f' (Oracle 4 None None true) = Ok (s', queued ev) /\
  Txq.xmit (hw done_st) (Skb 6 (rwnx_txq_sta_get false sta0 (tid_of (f_priority (best_effort f')))) (Some 0%nat)) =
    Ok (hw s', ev).
Proof.
  apply (long_frame_queued true mtj (up 6) no_robust false tab ps [Some vif] 0 sends.*1 done_ev done_st 0 vif long_frame
    long_eth [] 0 sta0 (Peer ap_mac true 0 0) 0 false (Oracle 4 None None true) tab_fresh tab_ok done_run long_known);
    [vm_compute; lia | vm_compute; reflexivity | reflexivity | vm_compute; discriminate].
Defined.

(** Classified as background, it is queued as best effort. *)
Definition chosen_bk : frame :=
  match rwnx_select_queue (up 1) done_st 0 long_frame with Ok r => r.1 | _ => long_frame end.

Lemma background_sent_as_best_effort_witness :
  f_mapping chosen_bk = 1 /\
  (exists t, txqs (hw done_st) !! 0%nat = Some t /\ ndev_idx t = Some 0%nat) /\
  (exists s' ev, rwnx_start_xmit mtj done_st 0 chosen_bk (Oracle 4 None None true) = Ok (s', queued ev) /\
    Txq.xmit (hw done_st) (Skb 6 0 (Some 0%nat)) = Ok (hw s', ev)) /\
  (Z.testbit 0 1 = true -> Z.testbit 0 0 = false -> rwnx_downgrade_ac 0 0 = Ok 2).
Proof.
  apply (background_sent_as_best_effort true mtj (up 1) no_robust false tab ps [Some vif] 0 sends.*1 done_ev done_st 0 vif
    long_frame long_eth [] 0 sta0 (Peer ap_mac true 0 0) 0 false (Oracle 4 None None true) chosen_bk tab_fresh tab_ok
    done_run long_known);
    [vm_compute; lia | vm_compute; reflexivity | reflexivity | vm_compute; discriminate | vm_compute; reflexivity
    | reflexivity | vm_compute; reflexivity | left; vm_compute; reflexivity].
Defined.

(** The frame as it enters the queue. *)
Definition entered : xmit_st := ok_st (xmit_frame done_st 0 chosen_bk true) done_st.

Lemma frame_kept_witness : exists h, hdrs entered !! 6%nat = Some h /\ restored h = f_data long_frame /\
  packet_len (h_desc h) = 300.
Proof.
  destruct (frame_kept done_st 0 chosen_bk true entered (ok_ev (xmit_frame done_st 0 chosen_bk true)))
    as [[_ H] | (h & H1 & H2 & H3 & _)].
  - vm_compute. repeat constructor; discriminate.
  - vm_compute. reflexivity.
  - vm_compute in H. discriminate.
  - exists h. split; [rewrite H1; vm_compute; reflexivity |]. split; [exact H2 |]. exact H3.
Defined.

End Example.

End XmitSend.
